(* ===== verification/_CoqProject ===== *)
-Q . S2P
Prelude.v
Crc32.v
IntLib.v
NmbmTypes.v
NmbmPhys.v
NmbmState.v
NmbmNand.v
NmbmTable.v
NmbmMgmt.v
NmbmImage.v
NmbmUpdate.v
NmbmMapping.v
NmbmLogic.v
NmbmIO.v
NmbmErase.v
NmbmSteps.v
NmbmAttach.v
NmbmLoad.v
NmbmCreate.v
NmbmSim.v
NmbmRun.v
NmbmProps.v
NmbmFindings.v
NetWire.v
Tcp.v
TcpInv.v
TcpSend.v
TcpRecv.v
TcpOpen.v
TcpTimer.v
TcpStream.v
TcpApi.v
TcpHistory.v
Net.v
NetSpec.v
TcpRun.v
TcpProps.v
TcpFindings.v
NetProps.v
Mtd.v
NmbmMtd.v
NmbmLower.v
Flash.v
Board.v
NmbmFlash.v
MtdWorks.v
Image.v
DualImage.v
DualCopy.v
DualCheck.v
Stage2.v
Stage2Spec.v
Strto.v
NmbmCmd.v
Upgrade.v
UpgradeSpec.v
Zyxel.v
ZyxelSpec.v
ZyxelData.v
ZyxelBoot.v
FirmwareRun.v
FirmwareProps.v
FirmwareFindings.v
BoardRun.v
BoardProps.v
Md5.v
Md5Spec.v
CStr.v
Http.v
HttpMem.v
HttpForm.v
HttpRecv.v
HttpHandle.v
HttpEvents.v
Failsafe.v
FailsafeSpec.v
FailsafeRun.v
HttpProps.v
WebStack.v
WebProps.v
