(* ===== verification/Prelude.v ===== *)
(** * The NWA50AX boot firmware: a verification library

    The program is the boot firmware of the ZyXEL NWA50AX access point, U-Boot
    for the MediaTek MT7621 with the vendor's additions, in
    [u-boot-mips-mt7621/].  This library models the parts that decide whether
    the device starts and can be recovered:

    - NMBM, the bad block management under everything stored in the NAND
      flash ([drivers/mtd/nmbm/]), with the checksum and integer helpers it
      uses ([lib/crc32.c], [lib/div64.c], [include/linux/bitops.h]);
    - the way from the flash chip to the board code: the MTD entry points
      ([drivers/mtd/mtdcore.c]), the MTD device NMBM offers
      ([drivers/mtd/nmbm/nmbm-mtd.c]), the board's flash functions
      ([board/ralink/mt7621_nand_rfb/mt7621_nand_rfb.c]) and the environment
      ([env/nmbm.c]);
    - the firmware images: legacy image headers ([include/image.h],
      [common/image.c]) and the check and repair of the two firmware copies
      at start-up ([board/ralink/common/dual_image.c]);
    - the board's commands: reading, writing and booting from NMBM
      ([cmd/nmbm.c], numbers by [lib/strto.c]), storing new boot loaders and
      firmware ([board/ralink/common/cmd_mtkupgrade.c], two-stage boot loaders
      by [spl_helper_nand.c] and [lib/crc32c_be.c]), and ZyXEL's choice of the
      image to start, boot configuration and manufacturer's data
      ([zyxel_util.c], [cmd_at.c]);
    - the network code of the recovery web server: received frames, address
      resolution and the network loop ([net/net.c], [net/arp.c],
      [net/eth-uclass.c]), and the TCP stack ([net/tcp.c], with the headers and
      checksums of [net/net.c] and [net/checksum.c]);
    - the web server itself ([net/httpd.c]), its recovery pages
      ([failsafe/failsafe.c]) and the digest they show ([lib/md5.c]).

    They interact as a stack: [dual_image.c] calls the board's flash
    functions, these the MTD layer, which calls NMBM's MTD device, which calls
    the NMBM core; the core reads and programs the chip through adapters that
    go down to the MTD device of the raw NAND driver.  The upgrade code and the
    manufacturer's data use the same flash functions; the boot configuration
    goes through the [nmbm] command to the MTD layer.  On the other side, the
    network loop hands received frames to ARP and TCP and lets TCP do its timer
    work; the TCP stack calls the web server back for every piece of data received or
    acknowledged; the server assembles the request and calls the handler of
    the page; the pages keep the upload in RAM, show its digest, and hand it
    to the upgrade code, which stores it through the flash functions.

    ** The model

    C integers are [Z]; wherever an operation can leave its type's range the
    wrap-around is written out ([u8] to [u64], [i32], [i64]).  Functions with
    side effects are programs of the monad [M S] (below), where [S] is the
    state they work on; [Stuck] is undefined behaviour (an access outside a
    buffer or through a null or freed pointer), [NoFuel] a loop that exceeds
    its bound.  [wp m Q s] says that [m] run in [s] returns, and that [Q]
    holds of result and state: every theorem stated with [wp] includes
    termination and the absence of [Stuck].  Loops are [iter] with a bound
    computed from the loop's data (the bytes left, the blocks left, the spare
    blocks left); the [wp] theorems show that it is never exhausted, so it is
    enough.  [NoFuel] remains visible where the code really hangs
    ([tcp_zero_option_hangs], [md5_wd_zero_hangs]).  Function pointers and code outside the
    repository are members of records or classes, with what is expected of
    them as laws.

    ** Files

    - [Prelude]: integers, byte strings, the monad, its [wp] calculus, record
      updates, generic lemmas.
    - [Crc32] ([lib/crc32.c]), [IntLib] ([lib/div64.c], bit operations).
    - NMBM, definitions: [NmbmTypes] (structures, geometry, address
      conversion), [NmbmPhys] (page and block access with retries, bad block
      marks), [NmbmState] (the 2-bit states, block walks, initial mapping),
      [NmbmTable] (writing, rescuing, updating the info tables), [NmbmLogic]
      (reading, writing, erasing logic addresses), [NmbmAttach] (creating and
      loading the tables, signature, attach and detach).  An instance is the
      record [nmbm_instance], the lower device the class [nmbm_lower_device]
      with the laws [nand_laws] ([NmbmNand]).
    - NMBM, proofs: [NmbmNand] (the chip's laws and physical access),
      [NmbmMgmt] (writing in the management area), [NmbmImage] (the tables as
      bytes), [NmbmUpdate] (updating), [NmbmMapping] (the invariants
      [device_ok] and [mapping_ok]), [NmbmIO] (reading and writing),
      [NmbmErase] (erasing and remapping), [NmbmSteps] (sequences of calls),
      [NmbmLoad] (finding saved tables again), [NmbmCreate] (first use of a
      chip), [NmbmSim] and [NmbmRun] (a simulated chip with injectable
      faults), [NmbmProps] and [NmbmFindings] (the results).
    - TCP: [NetWire] (headers, checksums, frames), [Tcp] (all of
      [net/tcp.c]), [TcpInv] (the invariant [world_ok] and the application's
      interface), [TcpSend], [TcpRecv], [TcpOpen], [TcpTimer] (the
      operations), [TcpStream] (runs and the byte stream), [TcpApi] (the
      calls of the application), [TcpHistory] (the application's state is the
      result of the callbacks made; silent peers), [TcpRun], [TcpProps], [TcpFindings].
    - Network: [Net] (frames, ARP, the rounds of [net_loop], on the state of
      [Tcp]), [NetSpec], [NetProps].
    - Flash: [Mtd] (MTD entry points), [NmbmMtd] ([nmbm-mtd.c]), [NmbmLower]
      (its adapters are a NAND chip), [Flash] (the interface of
      [flash_helper.h]: the class [flash_helper] and its laws [flash_laws]),
      [Board] (the board's implementation, the environment), [NmbmFlash]
      (NMBM satisfies the laws), [MtdWorks] (the class [mtd_works] of devices
      without failures, for code that ignores results; NMBM on a sound chip
      and an array of bytes are such devices).
    - Firmware: [Image] (legacy images), [DualImage] ([dual_image.c]),
      [DualCopy] (copying), [DualCheck] (verification and restoring),
      [FirmwareRun] (with a small flash device), [FirmwareProps],
      [FirmwareFindings].
    - Commands: [Strto] ([lib/strto.c]), [NmbmCmd] ([cmd/nmbm.c]; its state
      [cmd_world] is the device, the memory and [load_addr]), [Stage2]
      ([crc32c_be.c], [spl_helper_nand.c]) and [Stage2Spec], [Upgrade] (the
      flash half of [cmd_mtkupgrade.c]) and [UpgradeSpec], [Zyxel]
      ([zyxel_util.c] and the commands [atgo], [atwe], [atnb]; its state
      [zy_world] adds [dualIMAGE] and [eng_debug]), [ZyxelSpec] (boot
      configuration), [ZyxelData] (partitions), [ZyxelBoot] (starting),
      [BoardRun], [BoardProps].
    - Web server: [CStr] (the string functions of [lib/string.c] it uses),
      [Http] (all of [net/httpd.c]; its state [httpd_world] holds the
      instances, the sessions by address, the memory as numbered objects and
      the calls made on TCP), [HttpMem] (memory), [HttpForm] (the form
      parser), [HttpRecv] (requests arriving in pieces), [HttpHandle]
      (answering), [HttpEvents] (whole conversations as sequences of TCP
      events), [Failsafe] ([failsafe.c] and the [httpd] command; the pages
      are the handlers of [Http]), [FailsafeSpec] (each page), [FailsafeRun]
      (upload and result), [HttpProps].  [WebStack] makes the server
      the application of the TCP stack: its state is the [app] of [tcp_world],
      and the calls it records are made on the stack; [WebProps].
    - MD5: [Md5] ([lib/md5.c], and RFC 1321 as the module [Rfc1321]),
      [Md5Spec].

    ** Results

    NMBM.  Updating the info tables saves the current mapping or keeps
    the old one readable; a saved table is found again by the next start.
    What is written to erased logic addresses is read back; reads, writes and
    erases act on the addressed logic bytes only, even if they fail, and every
    sequence of calls keeps the instance well-formed.  A new chip ends up with
    clean tables and a signature.  The word-wise CRC is the textbook one.

    Stack.  The adapters satisfy the chip's laws if the NAND driver behaves
    as [nand_driver] says, which constrains only the requests the adapters
    make: single pages, single blocks, contents in corrected modes.  The
    board's functions on NMBM implement the flash interface, for a device
    in service ([in_service]): tables and mapping well-formed and exclusive,
    every logic block mapped, and the blocks of the management area and the
    spare blocks good and sound (they erase, program and read back).  The
    blocks that hold logic blocks may fail in any way; logic blocks move to
    spare blocks when they do.  [dual_image_check] is proved against the
    interface alone, and composed with NMBM.  Code that ignores results is
    proved against devices without failures ([mtd_works]).

    Dual images.  The check changes nothing, or copies firmware whose kernel
    checksums and root file system header it verified over the other
    partition, byte for byte; a copy reported as successful is a valid kernel
    image, and with an erase block to spare the source always survives.

    Commands.  Starting the board hands the image of the right partition to the
    boot command, and a new image is chosen once, over any number of starts;
    the boot configuration survives a restart.  Firmware and boot loaders that
    are stored are in the flash byte for byte, unsuitable ones change nothing,
    and nothing outside the blocks they need changes; the place of a boot loader
    is computed with the search for the stock one in the flash.  The search for
    the second stage of a boot loader ends for every input.  Setting the MAC
    address changes its six bytes only, if the data around it can be read.

    TCP.  The bytes delivered for a connection are a prefix of the peer's
    stream over any run of packets, timer checks and calls; connections follow
    the state diagram; segments sent are well-formed, carry the right part of
    the data; over any run in which nothing arrives from it, a silent peer is
    given up.  Assumed are callbacks that do not free connections ([polite]) and,
    for silent peers, do not touch the timers ([spares_waits]), and segments
    that acknowledge nothing unsent and open connections with well-formed
    options ([seg_ok]); what happens otherwise is in [TcpFindings].

    Network.  Frames of any contents are routed without an access outside the
    receive buffer, and only TCP packets for this device with a correct IP
    header reach TCP; the invariant is kept under the assumptions of TCP, and if
    the connection a packet waits for is still there ([arp_live]).  What one device sends on a connection passes all checks
    of the other and is parsed back.  A segment whose receiver's Ethernet
    address is unknown is sent when the address is.

    Web server.  An upload of 4096 bytes or more, cut into segments in any way
    that does not mix header and payload, followed by a request for the result
    page, is stored in the firmware partition byte for byte, and the board is
    reset exactly if that succeeds; the result page writes an upload only once,
    and a second large upload is refused while one is being received.  What
    happens to smaller uploads and mixed segments is in [HttpProps].  The page after an upload shows its size and digest.  Composed
    with TCP and the network loop: over any frames, the state of the server is
    the result of the callbacks made, so that a run in which, after anything
    that leaves it ready, it is told of such an upload and of the request for
    its result stores the file; a run of two connections, frame by frame, is
    evaluated.

    MD5.  However the input is cut into calls of [MD5Update], the digest is
    that of RFC 1321, padding and length included.

    The [*Findings] files hold runs in which the code does not do what it is
    meant to do; those of the web server and of MD5 are in [HttpProps], those of
    ARP in [NetProps].

    ** Not modelled

    - Log output, progress messages and the display of NMBM's tables.
    - The raw NAND driver, the Ethernet driver, [malloc], timers, the flattened
      image tree library, the import and export of the environment: parameters.
    - Partitions, registration and OOB layouts of the MTD layer.
    - The menus of the upgrade command and the ways a file gets into memory
      there (serial line, TFTP), the AT commands that print or set variables,
      and the variables [atgo] sets.
    - UDP and ICMP, the set-up, interruption and restart of the network loop; the
      loop is a parameter of the [httpd] command.  That the web server is
      [polite] is not claimed: it resets connections inside their callbacks.
    - The HTML files, which are data.
    - The rest of U-Boot, which is upstream code, the OpenWrt tree, which is
      a build system for upstream packages, the proprietary binaries and the
      build scripts. *)

From stdpp Require Import base numbers list.
From Stdlib Require Import ZArith Lia.

#[global] Open Scope Z_scope.

(** ** Machine integers

    C integers are [Z]; every arithmetic operation that can leave its type's
    range is wrapped explicitly with one of these. *)

Definition u8 (x : Z) : Z := x mod 2 ^ 8.
Definition u16 (x : Z) : Z := x mod 2 ^ 16.
Definition u32 (x : Z) : Z := x mod 2 ^ 32.
Definition u64 (x : Z) : Z := x mod 2 ^ 64.

(** Conversion to [int32_t] (two's complement). *)
Definition i32 (x : Z) : Z :=
  let y := u32 x in if y <? 2 ^ 31 then y else y - 2 ^ 32.

(** Conversion to a signed 64-bit integer. *)
Definition i64 (x : Z) : Z :=
  let y := x mod 2 ^ 64 in if y <? 2 ^ 63 then y else y - 2 ^ 64.

Lemma u32_range x : 0 <= u32 x < 2 ^ 32.
Proof. apply Z.mod_pos_bound. lia. Qed.

Lemma u64_range x : 0 <= u64 x < 2 ^ 64.
Proof. apply Z.mod_pos_bound. lia. Qed.

Lemma u32_small x : 0 <= x < 2 ^ 32 -> u32 x = x.
Proof. apply Z.mod_small. Qed.

Lemma u64_small x : 0 <= x < 2 ^ 64 -> u64 x = x.
Proof. apply Z.mod_small. Qed.

Lemma u16_small x : 0 <= x < 2 ^ 16 -> u16 x = x.
Proof. apply Z.mod_small. Qed.

Lemma i32_small x : - 2 ^ 31 <= x < 2 ^ 31 -> i32 x = x.
Proof.
  intros H. unfold i32, u32.
  destruct (Z_lt_le_dec x 0).
  - replace (x mod 2 ^ 32) with (x + 2 ^ 32).
    + destruct (Z.ltb_spec (x + 2 ^ 32) (2 ^ 31)); lia.
    + symmetry. rewrite <- (Z_mod_plus_full x 1). apply Z.mod_small. lia.
  - rewrite Z.mod_small by lia. destruct (Z.ltb_spec x (2 ^ 31)); lia.
Qed.

Lemma i64_small x : 0 <= x < 2 ^ 63 -> i64 x = x.
Proof.
  intros H. unfold i64. rewrite Z.mod_small by lia. destruct (Z.ltb_spec x (2 ^ 63)); lia.
Qed.

Lemma i32_range x : - 2 ^ 31 <= i32 x < 2 ^ 31.
Proof.
  unfold i32. pose proof (u32_range x).
  destruct (Z.ltb_spec (u32 x) (2 ^ 31)); lia.
Qed.

Lemma u32_i32 x : u32 (i32 x) = u32 x.
Proof.
  unfold i32. pose proof (u32_range x) as Hr.
  destruct (Z.ltb_spec (u32 x) (2 ^ 31)).
  - unfold u32. apply Zmod_mod.
  - unfold u32 at 1. replace (u32 x - 2 ^ 32) with (u32 x + (-1) * 2 ^ 32) by lia.
    rewrite Z_mod_plus_full. apply Z.mod_small. lia.
Qed.

Lemma i32_u32 x : i32 (u32 x) = i32 x.
Proof. unfold i32. replace (u32 (u32 x)) with (u32 x); [done|]. symmetry. apply Zmod_mod. Qed.

(** ** Computations with state

    A C function body is a computation over the state it may change.  [Ret]
    is a normal return; [Stuck] an access outside an object (undefined
    behaviour in C); [NoFuel] a loop that used up the bound given to it.
    Neither of the last two is a value a caller can observe: every
    specification below excludes both. *)

Inductive res (S A : Type) : Type :=
| Ret (a : A) (s : S)
| Stuck
| NoFuel.
Arguments Ret {S A} a s.
Arguments Stuck {S A}.
Arguments NoFuel {S A}.

Definition M (S A : Type) : Type := S -> res S A.

Definition ret {S A} (a : A) : M S A := fun s => Ret a s.

Definition bind {S A B} (m : M S A) (f : A -> M S B) : M S B :=
  fun s => match m s with
           | Ret a s' => f a s'
           | Stuck => Stuck
           | NoFuel => NoFuel
           end.

Definition gets {S A} (f : S -> A) : M S A := fun s => Ret (f s) s.
Definition modify {S} (f : S -> S) : M S unit := fun s => Ret tt (f s).

(** A checked access: [None] is an access outside the object. *)
Definition lift {S A} (o : option A) : M S A :=
  fun s => match o with Some a => Ret a s | None => Stuck end.

Declare Scope mon_scope.
Delimit Scope mon_scope with mon.

Notation "'do' X <- A ; B" := (bind A (fun X => B))
  (at level 10, X name, A at level 100, B at level 200) : mon_scope.
Notation "'do' ' X <- A ; B" := (bind A (fun X => B))
  (at level 10, X strict pattern, A at level 100, B at level 200) : mon_scope.
Notation "A ;; B" := (bind A (fun _ => B))
  (at level 100, B at level 200, right associativity) : mon_scope.

#[global] Open Scope mon_scope.

(** Loops.  The body says how to go on ([inl], the next value of the loop
    variables) or how the loop is left ([inr]). *)
Fixpoint iter {S X A} (fuel : nat) (body : X -> M S (X + A)) (x : X) : M S A :=
  match fuel with
  | O => fun _ => NoFuel
  | Datatypes.S n =>
      do r <- body x;
      match r with
      | inl x' => iter n body x'
      | inr a => ret a
      end
  end.

(** ** Records *)

(** Member update: [s <| member := v |>], and as an assignment statement
    [member ::= v]. *)
Class Member {R T : Type} (p : R -> T) := update : (T -> T) -> R -> R.
Arguments update {R T} p {_} f s : assert.

Notation "s <| p := v |>" := (update p (fun _ => v) s)
  (at level 1, left associativity, p at level 9, v at level 200).
Notation "p ::= v" := (modify (fun s => s <| p := v |>))
  (at level 95, v at level 94) : mon_scope.

Ltac derive_member eta p :=
  let t := eval unfold eta in eta in
  lazymatch eval pattern p in t with
  | ?F _ => exact (fun f s => F (fun r => f (p r)) s)
  end.

(** ** Weakest preconditions (total correctness) *)

Definition wp {S A} (m : M S A) (Q : A -> S -> Prop) (s : S) : Prop :=
  match m s with
  | Ret a s' => Q a s'
  | Stuck => False
  | NoFuel => False
  end.

Section Wp.
Context {S : Type}.

Lemma wp_ret {A} (a : A) (Q : A -> S -> Prop) s : Q a s -> wp (ret a) Q s.
Proof. done. Qed.

Lemma wp_bind {A B} (m : M S A) (f : A -> M S B) Q s :
  wp m (fun a s' => wp (f a) Q s') s -> wp (bind m f) Q s.
Proof. unfold wp, bind. by destruct (m s). Qed.

(** Reassociate to use a specification of the first two computations. *)
Lemma wp_assoc {A B C} (m : M S A) (f : A -> M S B) (k : B -> M S C) Q s :
  wp (bind m f) (fun b s' => wp (k b) Q s') s -> wp (bind m (fun a => bind (f a) k)) Q s.
Proof. unfold wp, bind. destruct (m s) as [a s'| |]; try done. by destruct (f a s'). Qed.

Lemma wp_gets {A} (f : S -> A) (Q : A -> S -> Prop) s : Q (f s) s -> wp (gets f) Q s.
Proof. done. Qed.

Lemma wp_modify (f : S -> S) (Q : unit -> S -> Prop) s : Q tt (f s) -> wp (modify f) Q s.
Proof. done. Qed.

Lemma wp_lift {A} (o : option A) (a : A) (Q : A -> S -> Prop) s :
  o = Some a -> Q a s -> wp (lift o) Q s.
Proof. by intros ->. Qed.

Lemma wp_conseq {A} (m : M S A) (Q1 Q2 : A -> S -> Prop) s :
  wp m Q1 s -> (forall a s', Q1 a s' -> Q2 a s') -> wp m Q2 s.
Proof. unfold wp. destruct (m s); naive_solver. Qed.

Lemma wp_and {A} (m : M S A) (Q1 Q2 : A -> S -> Prop) s :
  wp m Q1 s -> wp m Q2 s -> wp m (fun a s' => Q1 a s' /\ Q2 a s') s.
Proof. unfold wp. by destruct (m s). Qed.

Lemma wp_elim {A} (m : M S A) (Q : A -> S -> Prop) s a s' :
  wp m Q s -> m s = Ret a s' -> Q a s'.
Proof. unfold wp. intros H E. by rewrite E in H. Qed.

Lemma wp_run {A} (m : M S A) (Q : A -> S -> Prop) s :
  wp m Q s -> exists a s', m s = Ret a s' /\ Q a s'.
Proof. unfold wp. destruct (m s); naive_solver. Qed.

Lemma wp_of_run {A} (m : M S A) (Q : A -> S -> Prop) s a s' :
  m s = Ret a s' -> Q a s' -> wp m Q s.
Proof. unfold wp. by intros ->. Qed.

(** Total correctness of a loop: an invariant and a measure that the fuel
    exceeds and every further iteration decreases. *)
Lemma wp_iter {X A} (I : X -> S -> Prop) (mu : X -> S -> nat)
    (body : X -> M S (X + A)) (Q : A -> S -> Prop) :
  (forall x s, I x s ->
     wp (body x) (fun r s' => match r with
                              | inl x' => I x' s' /\ (mu x' s' < mu x s)%nat
                              | inr a => Q a s'
                              end) s) ->
  forall fuel x s, I x s -> (mu x s < fuel)%nat -> wp (iter fuel body x) Q s.
Proof.
  intros Hbody fuel. induction fuel as [|n IH]; intros x s HI Hmu; [lia|].
  simpl. apply wp_bind. eapply wp_conseq; [by apply Hbody|].
  intros [x'|a] s' H; [|by apply wp_ret].
  destruct H as [HI' Hlt]. apply IH; [done|lia].
Qed.

End Wp.

(** One symbolic step of a computation. *)
Ltac wp_step :=
  lazymatch goal with
  | |- wp (bind _ _) _ _ => apply wp_bind
  | |- wp (ret _) _ _ => apply wp_ret
  | |- wp (gets _) _ _ => apply wp_gets
  | |- wp (modify _) _ _ => apply wp_modify
  | |- wp (if ?b then _ else _) _ _ => destruct b eqn:?
  end; cbv beta.
Ltac wp_steps := repeat wp_step.

(** Use a specification for the first computation. *)
Ltac wp_call H := eapply wp_conseq; [eapply H | cbv beta].

(** ** Computations within a relation *)

Section Within.
Context {S : Type} (R : relation S) `{!PreOrder R}.

(** Whenever [m] returns, the states are related. *)
Definition within {X} (m : M S X) : Prop := forall s x s', m s = Ret x s' -> R s s'.

Lemma within_ret {X} (x : X) : within (ret x).
Proof. intros s y s' [= _ <-]. reflexivity. Qed.

Lemma within_gets {X} (f : S -> X) : within (gets f).
Proof. intros s y s' [= _ <-]. reflexivity. Qed.

Lemma within_lift {X} (o : option X) : within (lift o).
Proof. intros s y s'. destruct o; [|done]. intros [= _ <-]. reflexivity. Qed.

Lemma within_bind {X Y} (m : M S X) (f : X -> M S Y) :
  within m -> (forall x, within (f x)) -> within (bind m f).
Proof.
  intros Hm Hf s y s'. unfold bind. destruct (m s) as [x s1| |] eqn:Em; [|done|done].
  intros Ef. transitivity s1; [by eapply Hm|by eapply Hf].
Qed.

Lemma within_modify f : (forall s, R s (f s)) -> within (modify f).
Proof. intros Hf s [] s' [= <-]. apply Hf. Qed.

Lemma within_iter {X Y} n (body : X -> M S (X + Y)) :
  (forall x, within (body x)) -> forall x, within (iter n body x).
Proof.
  intros Hb. induction n as [|n IH]; intros x; [done|]. cbn [iter].
  apply within_bind; [done|]. intros [x'|y]; [apply IH|apply within_ret].
Qed.

End Within.

Lemma within_sub {S X} (R1 R2 : relation S) (m : M S X) :
  (forall s s', R1 s s' -> R2 s s') -> within R1 m -> within R2 m.
Proof. intros Hs Hm s x s' Hr. eapply Hs, Hm, Hr. Qed.

Create HintDb history discriminated.
#[export] Hint Constants Opaque : history.

(** Goes through the structure of a computation. *)
Ltac within_step :=
  match goal with
  | |- within _ (bind _ _) => apply within_bind; [exact _| |intros ?]
  | |- within _ (ret _) => apply within_ret; exact _
  | |- within _ (gets _) => apply within_gets; exact _
  | |- within _ (lift _) => apply within_lift; exact _
  | |- within _ (modify _) => apply within_modify; intros ?; solve [eauto with history]
  | |- within _ (iter _ _ _) => apply within_iter; [exact _|intros ?]
  | |- within _ (match ?x with _ => _ end) => destruct x
  | |- within _ _ => solve [eauto with history]
  end.
Ltac within := cbv zeta; repeat (within_step; cbv beta iota zeta).

(** Goes through a computation and the definitions it calls. *)
Ltac within_unfold :=
  repeat first
    [ within_step; cbv beta iota zeta
    | match goal with
      | |- within _ ?m => let h := get_head m in first [progress unfold h | progress cbn [h]]; cbv beta iota zeta
      end ].

(** ** Computations with the same results *)

Definition agree {S X} (m m' : M S X) : Prop := forall s, m s = m' s.

Lemma agree_bind {S X Y} (m m' : M S X) (f f' : X -> M S Y) :
  agree m m' -> (forall x, agree (f x) (f' x)) -> agree (bind m f) (bind m' f').
Proof. intros Hm Hf s. unfold bind. rewrite Hm. destruct (m' s); [apply Hf|done|done]. Qed.

Lemma agree_refl {S X} (m : M S X) : agree m m.
Proof. done. Qed.

Ltac agree_step :=
  match goal with
  | |- agree ?m ?m => apply agree_refl
  | |- agree (bind _ _) (bind _ _) => apply agree_bind; [|intros ?]
  | |- agree (match ?x with _ => _ end) _ => destruct x eqn:?
  end; cbv beta iota zeta.

(** ** Arrays and buffers

    C arrays are lists indexed by [Z]; every access is checked. *)

Definition zlen {A} (l : list A) : Z := Z.of_nat (length l).

Definition znth {A} (l : list A) (i : Z) : option A :=
  if i <? 0 then None else l !! Z.to_nat i.

Definition zset {A} (l : list A) (i : Z) (v : A) : option (list A) :=
  if (0 <=? i) && (i <? zlen l) then Some (<[Z.to_nat i := v]> l) else None.

(** [len] elements from index [off] on, as read by [memcpy] or [memcmp]. *)
Definition slice {A} (l : list A) (off len : Z) : option (list A) :=
  if (0 <=? off) && (0 <=? len) && (off + len <=? zlen l)
  then Some (take (Z.to_nat len) (drop (Z.to_nat off) l))
  else None.

(** The buffer after [memcpy (l + off, d, zlen d)]. *)
Definition splice {A} (l : list A) (off : Z) (d : list A) : option (list A) :=
  if (0 <=? off) && (off + zlen d <=? zlen l)
  then Some (take (Z.to_nat off) l ++ d ++ drop (Z.to_nat off + length d) l)
  else None.

(** [memset]. *)
Definition fill (b n : Z) : list Z := replicate (Z.to_nat n) b.

Section Arrays.
Context {A : Type}.
Implicit Types l d : list A.

Lemma zlen_nonneg l : 0 <= zlen l.
Proof. unfold zlen. lia. Qed.

Lemma zlen_app l d : zlen (l ++ d) = zlen l + zlen d.
Proof. unfold zlen. rewrite length_app. lia. Qed.

Lemma znth_some l i : 0 <= i < zlen l -> exists x, znth l i = Some x.
Proof.
  unfold znth, zlen. intros H. destruct (Z.ltb_spec i 0); [lia|].
  apply lookup_lt_is_Some_2. lia.
Qed.

Lemma znth_bounds l i x : znth l i = Some x -> 0 <= i < zlen l.
Proof.
  unfold znth, zlen. destruct (Z.ltb_spec i 0); [done|].
  intros ?%lookup_lt_Some. lia.
Qed.

Lemma zset_some l i v : 0 <= i < zlen l -> zset l i v = Some (<[Z.to_nat i := v]> l).
Proof.
  intros H. unfold zset.
  destruct (Z.leb_spec 0 i), (Z.ltb_spec i (zlen l)); simpl; try lia; done.
Qed.

Lemma zset_bounds l l' i v : zset l i v = Some l' -> 0 <= i < zlen l.
Proof.
  unfold zset. destruct (Z.leb_spec 0 i), (Z.ltb_spec i (zlen l)); simpl; done.
Qed.

Lemma zset_zlen l l' i v : zset l i v = Some l' -> zlen l' = zlen l.
Proof.
  intros H. pose proof (zset_bounds _ _ _ _ H) as Hb.
  rewrite zset_some in H by done. simplify_eq. unfold zlen. by rewrite length_insert.
Qed.

Lemma znth_zset_eq l l' i v : zset l i v = Some l' -> znth l' i = Some v.
Proof.
  intros H. pose proof (zset_bounds _ _ _ _ H) as Hb.
  rewrite zset_some in H by done. simplify_eq.
  unfold znth. destruct (Z.ltb_spec i 0); [lia|].
  apply list_lookup_insert_eq. unfold zlen in Hb. lia.
Qed.

Lemma znth_zset_ne l l' i j v : zset l i v = Some l' -> i <> j -> znth l' j = znth l j.
Proof.
  intros H Hne. pose proof (zset_bounds _ _ _ _ H) as Hb.
  rewrite zset_some in H by done. simplify_eq.
  unfold znth. destruct (Z.ltb_spec j 0); [done|].
  apply list_lookup_insert_ne. lia.
Qed.

Lemma slice_some l off len :
  0 <= off -> 0 <= len -> off + len <= zlen l ->
  slice l off len = Some (take (Z.to_nat len) (drop (Z.to_nat off) l)).
Proof.
  intros. unfold slice.
  destruct (Z.leb_spec 0 off), (Z.leb_spec 0 len), (Z.leb_spec (off + len) (zlen l));
    simpl; try lia; done.
Qed.

Lemma slice_inv l off len d :
  slice l off len = Some d ->
  0 <= off /\ 0 <= len /\ off + len <= zlen l /\
  d = take (Z.to_nat len) (drop (Z.to_nat off) l).
Proof.
  unfold slice.
  destruct (Z.leb_spec 0 off), (Z.leb_spec 0 len), (Z.leb_spec (off + len) (zlen l));
    simpl; naive_solver.
Qed.

Lemma slice_zlen l off len d : slice l off len = Some d -> zlen d = len.
Proof.
  intros (? & ? & Hl & ->)%slice_inv. unfold zlen in *.
  rewrite length_take, length_drop. lia.
Qed.

Lemma slice_full l : slice l 0 (zlen l) = Some l.
Proof.
  rewrite slice_some by (pose proof (zlen_nonneg l); lia). simpl.
  unfold zlen. by rewrite Nat2Z.id, drop_0, firstn_all.
Qed.

Lemma zlen_take l k : 0 <= k <= zlen l -> zlen (take (Z.to_nat k) l) = k.
Proof. unfold zlen. intros Hk. rewrite length_take. lia. Qed.

(** A slice of the first [k] elements. *)
Lemma slice_of_take l k off n :
  0 <= k <= zlen l -> off + n <= k -> slice (take (Z.to_nat k) l) off n = slice l off n.
Proof.
  intros Hk Hn. unfold slice. rewrite zlen_take by lia.
  destruct (Z.leb_spec 0 off); [|done]. destruct (Z.leb_spec 0 n); [|done]. cbn [andb].
  rewrite (proj2 (Z.leb_le (off + n) k)), (proj2 (Z.leb_le (off + n) (zlen l))) by lia.
  f_equal. rewrite skipn_firstn_comm, take_take. f_equal. lia.
Qed.

Lemma splice_some l off d :
  0 <= off -> off + zlen d <= zlen l ->
  splice l off d = Some (take (Z.to_nat off) l ++ d ++ drop (Z.to_nat off + length d) l).
Proof.
  intros. unfold splice.
  destruct (Z.leb_spec 0 off), (Z.leb_spec (off + zlen d) (zlen l)); simpl; try lia; done.
Qed.

Lemma splice_inv l off d l' :
  splice l off d = Some l' ->
  0 <= off /\ off + zlen d <= zlen l /\
  l' = take (Z.to_nat off) l ++ d ++ drop (Z.to_nat off + length d) l.
Proof.
  unfold splice.
  destruct (Z.leb_spec 0 off), (Z.leb_spec (off + zlen d) (zlen l)); simpl; naive_solver.
Qed.

Lemma splice_zlen l off d l' : splice l off d = Some l' -> zlen l' = zlen l.
Proof.
  intros (? & Hl & ->)%splice_inv. unfold zlen in *.
  rewrite !length_app, length_take, length_drop. lia.
Qed.

(** What was copied in is what is read back. *)
Lemma slice_splice_eq l off d l' :
  splice l off d = Some l' -> slice l' off (zlen d) = Some d.
Proof.
  intros H. pose proof (splice_zlen _ _ _ _ H) as Hlen.
  apply splice_inv in H as (? & Hl & ->).
  rewrite slice_some by (rewrite ?Hlen; pose proof (zlen_nonneg d); lia).
  f_equal. unfold zlen in *. rewrite Nat2Z.id.
  rewrite drop_app_le by (rewrite length_take; lia).
  rewrite drop_ge by (rewrite length_take; lia). simpl.
  by rewrite take_app_length.
Qed.

(** Bytes outside the copied range keep their value. *)
Lemma slice_splice_ne l off d l' o n :
  splice l off d = Some l' -> (o + n <= off \/ off + zlen d <= o) ->
  slice l' o n = slice l o n.
Proof.
  intros H Hdisj. pose proof (splice_zlen _ _ _ _ H) as Hlen.
  unfold slice. rewrite Hlen.
  destruct (Z.leb_spec 0 o), (Z.leb_spec 0 n), (Z.leb_spec (o + n) (zlen l)); simpl; try done.
  apply splice_inv in H as (? & Hl & ->). f_equal. unfold zlen in *.
  destruct Hdisj as [Hd|Hd].
  - rewrite drop_app_le by (rewrite length_take; lia).
    rewrite take_app_le by (rewrite length_drop, length_take; lia).
    rewrite <- (take_drop (Z.to_nat off) l) at 2.
    rewrite drop_app_le by (rewrite length_take; lia).
    by rewrite take_app_le by (rewrite length_drop, length_take; lia).
  - f_equal. rewrite drop_app_ge by (rewrite length_take; lia).
    rewrite length_take. rewrite drop_app_ge by lia. rewrite drop_drop. f_equal. lia.
Qed.

(** Element-wise views of copies. *)
Lemma znth_slice l off len d i :
  slice l off len = Some d -> 0 <= i < len -> znth d i = znth l (off + i).
Proof.
  intros (? & ? & Hl & ->)%slice_inv Hi. unfold znth.
  destruct (Z.ltb_spec i 0), (Z.ltb_spec (off + i) 0); try lia.
  rewrite lookup_take_lt, lookup_drop by lia. f_equal. lia.
Qed.

Lemma znth_splice_in l off d l' i :
  splice l off d = Some l' -> off <= i < off + zlen d -> znth l' i = znth d (i - off).
Proof.
  intros (? & Hl & ->)%splice_inv Hi. unfold znth, zlen in *.
  destruct (Z.ltb_spec i 0), (Z.ltb_spec (i - off) 0); try lia.
  rewrite lookup_app_r by (rewrite length_take; lia).
  rewrite length_take. rewrite lookup_app_l by lia. f_equal. lia.
Qed.

Lemma znth_splice_out l off d l' i :
  splice l off d = Some l' -> i < off \/ off + zlen d <= i -> znth l' i = znth l i.
Proof.
  intros (? & Hl & ->)%splice_inv Hi. unfold znth, zlen in *.
  destruct (Z.ltb_spec i 0); [done|]. destruct Hi.
  - rewrite lookup_app_l by (rewrite length_take; lia). by rewrite lookup_take_lt by lia.
  - rewrite lookup_app_r by (rewrite length_take; lia). rewrite length_take.
    rewrite lookup_app_r by lia. rewrite lookup_drop. f_equal. lia.
Qed.

Lemma znth_ext l d :
  zlen l = zlen d -> (forall i, 0 <= i < zlen l -> znth l i = znth d i) -> l = d.
Proof.
  intros Hl H. apply list_eq_same_length with (length d); unfold zlen in *; try lia.
  intros i x y Hi Hx Hy. specialize (H (Z.of_nat i) ltac:(lia)). unfold znth in H.
  destruct (Z.ltb_spec (Z.of_nat i) 0); [lia|]. rewrite Nat2Z.id in H. congruence.
Qed.

Lemma znth_app_l l d i : i < zlen l -> znth (l ++ d) i = znth l i.
Proof.
  intros Hi. unfold znth, zlen in *. destruct (Z.ltb_spec i 0); [done|]. apply lookup_app_l. lia.
Qed.

Lemma znth_app_r l d i : zlen l <= i -> znth (l ++ d) i = znth d (i - zlen l).
Proof.
  intros Hi. unfold znth, zlen in *. destruct (Z.ltb_spec i 0); [lia|].
  destruct (Z.ltb_spec (i - Z.of_nat (length l)) 0); [lia|]. rewrite lookup_app_r by lia. f_equal. lia.
Qed.

End Arrays.

Lemma fill_zlen b n : 0 <= n -> zlen (fill b n) = n.
Proof. intros. unfold fill, zlen. rewrite length_replicate. lia. Qed.

Lemma znth_fill b n i : 0 <= i < n -> znth (fill b n) i = Some b.
Proof.
  intros Hi. unfold znth, fill. destruct (Z.ltb_spec i 0); [lia|]. by rewrite lookup_replicate_2 by lia.
Qed.

(** Copying the next bytes of [B] behind those already there. *)
Lemma prefix_splice (B : Z -> option Z) b pos src b' :
  (forall i, 0 <= i < pos -> znth b i = B i) ->
  (forall i, 0 <= i < zlen src -> znth src i = B (pos + i)) ->
  splice b pos src = Some b' -> forall i, 0 <= i < pos + zlen src -> znth b' i = B i.
Proof.
  intros Hb Hs Hsp i Hi. destruct (Z_lt_le_dec i pos).
  - rewrite (znth_splice_out _ _ _ _ _ Hsp) by lia. apply Hb. lia.
  - rewrite (znth_splice_in _ _ _ _ _ Hsp), Hs by lia. f_equal. lia.
Qed.

(** Concatenations. *)

Lemma zlen_cons {A} (x : A) l : zlen (x :: l) = zlen l + 1.
Proof. unfold zlen. cbn. lia. Qed.

Lemma drop_zlen {A} (a b : list A) : drop (Z.to_nat (zlen a)) (a ++ b) = b.
Proof. unfold zlen. by rewrite Nat2Z.id, drop_app_length. Qed.

Lemma take_zlen {A} (a b : list A) : take (Z.to_nat (zlen a)) (a ++ b) = a.
Proof. unfold zlen. by rewrite Nat2Z.id, take_app_length. Qed.

Lemma splice_zlen_app {A} (a d b c : list A) : zlen d = zlen b -> splice (a ++ b ++ c) (zlen a) d = Some (a ++ d ++ c).
Proof.
  intros Hl. rewrite splice_some; [|apply zlen_nonneg|rewrite !zlen_app; pose proof (zlen_nonneg c); lia]. f_equal.
  unfold zlen in *. rewrite Nat2Z.id, take_app_length. do 2 f_equal.
  assert (E : length d = length b) by lia. rewrite ?E.
  by rewrite (app_assoc a b c), <- (length_app a b), drop_app_length.
Qed.

(** ** Bits *)

Lemma lor_shiftl_add a b n : 0 <= n -> 0 <= b < 2 ^ n -> Z.lor (Z.shiftl a n) b = a * 2 ^ n + b.
Proof.
  intros Hn Hb. rewrite <- Z.shiftl_mul_pow2 by done.
  rewrite <- Z.add_lor_land. replace (Z.land (Z.shiftl a n) b) with 0; [lia|].
  symmetry. apply Z.bits_inj'. intros i Hi. rewrite Z.land_spec, Z.bits_0.
  destruct (Z_lt_le_dec i n).
  - by rewrite Z.shiftl_spec_low.
  - rewrite <- (Z.mod_small b (2 ^ n)) by done. rewrite Z.mod_pow2_bits_high by lia. apply andb_false_r.
Qed.

(** ** Little-endian memory images *)

Definition is_byte (b : Z) : Prop := 0 <= b < 256.

Lemma land_byte x y : is_byte x -> is_byte (Z.land x y).
Proof.
  unfold is_byte. intros Hx. split; [apply Z.land_nonneg; lia|].
  replace x with (Z.land x (Z.ones 8)) by (rewrite Z.land_ones by lia; apply Z.mod_small; lia).
  rewrite <- Z.land_assoc, (Z.land_comm (Z.ones 8)), Z.land_assoc, Z.land_ones by lia.
  apply Z.mod_pos_bound. lia.
Qed.

Lemma slice_forall {A} (p : A -> Prop) l off n d :
  Forall p l -> slice l off n = Some d -> Forall p d.
Proof. intros H (_ & _ & _ & ->)%slice_inv. by apply Forall_take, Forall_drop. Qed.

Lemma splice_forall {A} (p : A -> Prop) l off d l' :
  Forall p l -> Forall p d -> splice l off d = Some l' -> Forall p l'.
Proof.
  intros H Hd (_ & _ & ->)%splice_inv. apply Forall_app. split; [by apply Forall_take|].
  apply Forall_app. split; [done|by apply Forall_drop].
Qed.

Lemma znth_zip (x y : list Z) i a b :
  znth x i = Some a -> znth y i = Some b -> znth (zip_with Z.land x y) i = Some (Z.land a b).
Proof.
  unfold znth. destruct (i <? 0); [done|]. intros Hx Hy.
  rewrite lookup_zip_with, Hx. simpl. by rewrite Hy.
Qed.

Lemma znth_byte (l : list Z) i b : Forall is_byte l -> znth l i = Some b -> is_byte b.
Proof.
  intros Hb H. unfold znth in H. destruct (i <? 0); [done|].
  by eapply Forall_lookup_1.
Qed.

Fixpoint le_bytes (n : nat) (x : Z) : list Z :=
  match n with
  | O => []
  | S n => x mod 256 :: le_bytes n (x / 256)
  end.

Fixpoint le_value (l : list Z) : Z :=
  match l with
  | [] => 0
  | b :: l => b + 256 * le_value l
  end.


(** The 32-bit words of a byte image (a trailing partial word is dropped). *)
Fixpoint le_words (l : list Z) : list Z :=
  match l with
  | a :: b :: c :: d :: t => le_value [a; b; c; d] :: le_words t
  | _ => []
  end.

Definition words_bytes (ws : list Z) : list Z := flat_map (le_bytes 4) ws.

Lemma length_le_bytes n x : length (le_bytes n x) = n.
Proof. revert x. induction n; intros; simpl; auto. Qed.

Lemma zlen_le_bytes n x : zlen (le_bytes n x) = Z.of_nat n.
Proof. unfold zlen. by rewrite length_le_bytes. Qed.

Lemma le_value_le_bytes n x : le_value (le_bytes n x) = x mod 256 ^ Z.of_nat n.
Proof.
  revert x. induction n as [|n IH]; intros x.
  - simpl. by rewrite Z.mod_1_r.
  - cbn [le_bytes le_value]. rewrite IH.
    rewrite Nat2Z.inj_succ, Z.pow_succ_r by lia.
    rewrite Z.rem_mul_r by lia. lia.
Qed.

Lemma le_bytes_is_byte n x : Forall is_byte (le_bytes n x).
Proof.
  revert x. induction n; intros; simpl; constructor; auto.
  apply Z.mod_pos_bound. lia.
Qed.

Lemma le_bytes_le_value l :
  Forall is_byte l -> le_bytes (length l) (le_value l) = l.
Proof.
  induction 1 as [|b l Hb Hl IH]; [done|]. cbn [length le_bytes le_value].
  unfold is_byte in Hb. f_equal.
  - rewrite Z.mul_comm, Z_mod_plus_full. by apply Z.mod_small.
  - rewrite Z.mul_comm, Z.div_add by lia. rewrite Z.div_small by lia. done.
Qed.

Lemma le_value_bound l : Forall is_byte l -> 0 <= le_value l < 256 ^ zlen l.
Proof.
  unfold zlen. induction 1 as [|b l Hb Hl IH]; [simpl; lia|].
  cbn [length le_value]. rewrite Nat2Z.inj_succ, Z.pow_succ_r by lia.
  unfold is_byte in Hb. lia.
Qed.

Lemma le_words_words_bytes ws :
  Forall (fun w => 0 <= w < 2 ^ 32) ws -> le_words (words_bytes ws) = ws.
Proof.
  induction 1 as [|w ws Hw Hws IH]; [done|].
  cbn [words_bytes flat_map]. fold (words_bytes ws).
  change (le_words (le_bytes 4 w ++ words_bytes ws))
    with (le_value (le_bytes 4 w) :: le_words (words_bytes ws)).
  rewrite IH, le_value_le_bytes. f_equal. apply Z.mod_small. lia.
Qed.

Lemma zlen_words_bytes ws : zlen (words_bytes ws) = 4 * zlen ws.
Proof.
  unfold zlen. induction ws as [|w ws IH]; [done|].
  cbn [words_bytes flat_map]. fold (words_bytes ws).
  rewrite length_app, length_le_bytes. simpl length. lia.
Qed.

Lemma words_bytes_is_byte ws : Forall is_byte (words_bytes ws).
Proof.
  induction ws; [constructor|]. cbn [words_bytes flat_map].
  apply Forall_app; split; [apply le_bytes_is_byte|done].
Qed.

Lemma length_le_words n l : length l = (4 * n)%nat -> length (le_words l) = n.
Proof.
  revert l. induction n as [|n IH]; intros l H.
  - destruct l; [done|]. simpl in H. lia.
  - destruct l as [|a [|b [|c [|d t]]]]; simpl in H; try lia.
    simpl. f_equal. apply IH. lia.
Qed.

Lemma le_words_fill n : le_words (fill 255 (4 * Z.of_nat n)) = replicate n (2 ^ 32 - 1).
Proof.
  induction n as [|n IH]; [done|].
  replace (fill 255 (4 * Z.of_nat (S n))) with ([255; 255; 255; 255] ++ fill 255 (4 * Z.of_nat n)).
  - change (le_words ([255; 255; 255; 255] ++ fill 255 (4 * Z.of_nat n)))
      with (le_value [255; 255; 255; 255] :: le_words (fill 255 (4 * Z.of_nat n))).
    by rewrite IH.
  - unfold fill. replace (Z.to_nat (4 * Z.of_nat (S n))) with (4 + Z.to_nat (4 * Z.of_nat n))%nat by lia.
    by rewrite replicate_add.
Qed.
