(* ===== verification/Crc32.v ===== *)
(** * CRC-32 (u-boot lib/crc32.c, include/nmbm/nmbm-os.h)

    The byte table, its generator, the word-at-a-time routine
    [crc32_no_comp] and the wrapper [nmbm_crc32] that NMBM calls.  The
    target (MT7621, mipsel) is little-endian: [tole] and [le32_to_cpu] are
    the identity and [DO_CRC] has its little-endian form. *)

From stdpp Require Import base numbers list.
From Stdlib Require Import ZArith Lia.
From S2P Require Import Prelude.

(** The literal table of the source. *)
Definition crc_table : list Z :=
  [
   0x00000000; 0x77073096; 0xee0e612c; 0x990951ba;
   0x076dc419; 0x706af48f; 0xe963a535; 0x9e6495a3;
   0x0edb8832; 0x79dcb8a4; 0xe0d5e91e; 0x97d2d988;
   0x09b64c2b; 0x7eb17cbd; 0xe7b82d07; 0x90bf1d91;
   0x1db71064; 0x6ab020f2; 0xf3b97148; 0x84be41de;
   0x1adad47d; 0x6ddde4eb; 0xf4d4b551; 0x83d385c7;
   0x136c9856; 0x646ba8c0; 0xfd62f97a; 0x8a65c9ec;
   0x14015c4f; 0x63066cd9; 0xfa0f3d63; 0x8d080df5;
   0x3b6e20c8; 0x4c69105e; 0xd56041e4; 0xa2677172;
   0x3c03e4d1; 0x4b04d447; 0xd20d85fd; 0xa50ab56b;
   0x35b5a8fa; 0x42b2986c; 0xdbbbc9d6; 0xacbcf940;
   0x32d86ce3; 0x45df5c75; 0xdcd60dcf; 0xabd13d59;
   0x26d930ac; 0x51de003a; 0xc8d75180; 0xbfd06116;
   0x21b4f4b5; 0x56b3c423; 0xcfba9599; 0xb8bda50f;
   0x2802b89e; 0x5f058808; 0xc60cd9b2; 0xb10be924;
   0x2f6f7c87; 0x58684c11; 0xc1611dab; 0xb6662d3d;
   0x76dc4190; 0x01db7106; 0x98d220bc; 0xefd5102a;
   0x71b18589; 0x06b6b51f; 0x9fbfe4a5; 0xe8b8d433;
   0x7807c9a2; 0x0f00f934; 0x9609a88e; 0xe10e9818;
   0x7f6a0dbb; 0x086d3d2d; 0x91646c97; 0xe6635c01;
   0x6b6b51f4; 0x1c6c6162; 0x856530d8; 0xf262004e;
   0x6c0695ed; 0x1b01a57b; 0x8208f4c1; 0xf50fc457;
   0x65b0d9c6; 0x12b7e950; 0x8bbeb8ea; 0xfcb9887c;
   0x62dd1ddf; 0x15da2d49; 0x8cd37cf3; 0xfbd44c65;
   0x4db26158; 0x3ab551ce; 0xa3bc0074; 0xd4bb30e2;
   0x4adfa541; 0x3dd895d7; 0xa4d1c46d; 0xd3d6f4fb;
   0x4369e96a; 0x346ed9fc; 0xad678846; 0xda60b8d0;
   0x44042d73; 0x33031de5; 0xaa0a4c5f; 0xdd0d7cc9;
   0x5005713c; 0x270241aa; 0xbe0b1010; 0xc90c2086;
   0x5768b525; 0x206f85b3; 0xb966d409; 0xce61e49f;
   0x5edef90e; 0x29d9c998; 0xb0d09822; 0xc7d7a8b4;
   0x59b33d17; 0x2eb40d81; 0xb7bd5c3b; 0xc0ba6cad;
   0xedb88320; 0x9abfb3b6; 0x03b6e20c; 0x74b1d29a;
   0xead54739; 0x9dd277af; 0x04db2615; 0x73dc1683;
   0xe3630b12; 0x94643b84; 0x0d6d6a3e; 0x7a6a5aa8;
   0xe40ecf0b; 0x9309ff9d; 0x0a00ae27; 0x7d079eb1;
   0xf00f9344; 0x8708a3d2; 0x1e01f268; 0x6906c2fe;
   0xf762575d; 0x806567cb; 0x196c3671; 0x6e6b06e7;
   0xfed41b76; 0x89d32be0; 0x10da7a5a; 0x67dd4acc;
   0xf9b9df6f; 0x8ebeeff9; 0x17b7be43; 0x60b08ed5;
   0xd6d6a3e8; 0xa1d1937e; 0x38d8c2c4; 0x4fdff252;
   0xd1bb67f1; 0xa6bc5767; 0x3fb506dd; 0x48b2364b;
   0xd80d2bda; 0xaf0a1b4c; 0x36034af6; 0x41047a60;
   0xdf60efc3; 0xa867df55; 0x316e8eef; 0x4669be79;
   0xcb61b38c; 0xbc66831a; 0x256fd2a0; 0x5268e236;
   0xcc0c7795; 0xbb0b4703; 0x220216b9; 0x5505262f;
   0xc5ba3bbe; 0xb2bd0b28; 0x2bb45a92; 0x5cb36a04;
   0xc2d7ffa7; 0xb5d0cf31; 0x2cd99e8b; 0x5bdeae1d;
   0x9b64c2b0; 0xec63f226; 0x756aa39c; 0x026d930a;
   0x9c0906a9; 0xeb0e363f; 0x72076785; 0x05005713;
   0x95bf4a82; 0xe2b87a14; 0x7bb12bae; 0x0cb61b38;
   0x92d28e9b; 0xe5d5be0d; 0x7cdcefb7; 0x0bdbdf21;
   0x86d3d2d4; 0xf1d4e242; 0x68ddb3f8; 0x1fda836e;
   0x81be16cd; 0xf6b9265b; 0x6fb077e1; 0x18b74777;
   0x88085ae6; 0xff0f6a70; 0x66063bca; 0x11010b5c;
   0x8f659eff; 0xf862ae69; 0x616bffd3; 0x166ccf45;
   0xa00ae278; 0xd70dd2ee; 0x4e048354; 0x3903b3c2;
   0xa7672661; 0xd06016f7; 0x4969474d; 0x3e6e77db;
   0xaed16a4a; 0xd9d65adc; 0x40df0b66; 0x37d83bf0;
   0xa9bcae53; 0xdebb9ec5; 0x47b2cf7f; 0x30b5ffe9;
   0xbdbdf21c; 0xcabac28a; 0x53b39330; 0x24b4a3a6;
   0xbad03605; 0xcdd70693; 0x54de5729; 0x23d967bf;
   0xb3667a2e; 0xc4614ab8; 0x5d681b02; 0x2a6f2b94;
   0xb40bbe37; 0xc30c8ea1; 0x5a05df1b; 0x2d02ef8d
  ].

(** [make_crc_table]: the exclusive-or pattern built from the exponents of
    the polynomial, then eight shift steps per byte value. *)
Definition crc_poly : Z :=
  fold_left (fun poly e => Z.lor poly (Z.shiftl 1 (31 - e)))
    [0; 1; 2; 4; 5; 7; 8; 10; 11; 12; 16; 22; 23; 26] 0.

Definition crc_shift (c : Z) : Z :=
  if Z.land c 1 =? 1 then Z.lxor crc_poly (Z.shiftr c 1) else Z.shiftr c 1.

Definition make_crc_table : list Z :=
  map (fun n => Nat.iter 8 crc_shift (Z.of_nat n)) (seq 0 256).

Definition crc_tab (i : Z) : Z := nth (Z.to_nat i) crc_table 0.

(** [DO_CRC(x)]: [crc = tab[(crc ^ x) & 255] ^ (crc >> 8)]. *)
Definition DO_CRC (crc x : Z) : Z :=
  Z.lxor (crc_tab (Z.land (Z.lxor crc x) 255)) (Z.shiftr crc 8).

(** The do-while loop that consumes bytes until the pointer [p] is aligned. *)
Fixpoint crc_align (p crc : Z) (buf : list Z) : Z * list Z :=
  match buf with
  | [] => (crc, [])
  | x :: t =>
      let crc := DO_CRC crc x in
      if Z.land (p + 1) 3 =? 0 then (crc, t) else crc_align (p + 1) crc t
  end.

(** The word loop, and the last few bytes. *)
Fixpoint crc_words (crc : Z) (buf : list Z) : Z :=
  match buf with
  | a :: b :: c :: d :: t =>
      let crc := Z.lxor crc (le_value [a; b; c; d]) in
      let crc := DO_CRC crc 0 in
      let crc := DO_CRC crc 0 in
      let crc := DO_CRC crc 0 in
      let crc := DO_CRC crc 0 in
      crc_words crc t
  | rest => fold_left DO_CRC rest crc
  end.

(** [crc32_no_comp (crc, p, len)] on the [len] bytes [buf] at address [p]. *)
Definition crc32_no_comp (p crc : Z) (buf : list Z) : Z :=
  if negb (Z.land p 3 =? 0) && negb (zlen buf =? 0)
  then let '(crc, rest) := crc_align p crc buf in crc_words crc rest
  else crc_words crc buf.

Definition crc32 (p crc : Z) (buf : list Z) : Z :=
  Z.lxor (crc32_no_comp p (Z.lxor crc 0xffffffff) buf) 0xffffffff.

Definition UINT_MAX : Z := 2 ^ 32 - 1.

(** [nmbm_crc32]: chunks of at most [UINT_MAX] bytes. *)
Fixpoint nmbm_crc32_loop (fuel : nat) (p crcval : Z) (buf : list Z) : option Z :=
  match fuel with
  | O => None
  | S n =>
      if zlen buf =? 0 then Some crcval
      else
        let chksz := if zlen buf >? UINT_MAX then UINT_MAX else zlen buf in
        let crcval := crc32_no_comp p crcval (take (Z.to_nat chksz) buf) in
        nmbm_crc32_loop n (p + chksz) crcval (drop (Z.to_nat chksz) buf)
  end.

(** Two rounds always suffice: the size is a [size_t] of 32 bits. *)
Definition nmbm_crc32 (crcval : Z) (buf : list Z) : Z :=
  default 0 (nmbm_crc32_loop 2 0 crcval buf).

(** ** Lemmas *)

Definition crc_ref (crc : Z) (buf : list Z) : Z := fold_left DO_CRC buf crc.

Lemma crc_table_byte (P : Z -> Z -> Prop) (dec : Z -> Z -> bool) :
  (forall i c, dec i c = true -> P i c) ->
  forallb (fun n => dec (Z.of_nat n) (crc_tab (Z.of_nat n))) (seq 0 256) = true ->
  forall i, 0 <= i < 256 -> P i (crc_tab i).
Proof.
  intros Hdec Hall i Hi. apply Hdec. rewrite forallb_forall in Hall.
  specialize (Hall (Z.to_nat i)). rewrite Z2Nat.id in Hall by lia.
  apply Hall. apply in_seq. lia.
Qed.

Lemma crc_tab_range i : 0 <= i < 256 -> 0 <= crc_tab i < 2 ^ 32.
Proof.
  apply (crc_table_byte (fun _ c => 0 <= c < 2 ^ 32)
           (fun _ c => (0 <=? c) && (c <? 2 ^ 32))).
  - intros _ c. rewrite andb_true_iff, Z.leb_le, Z.ltb_lt. done.
  - vm_compute. done.
Qed.

Lemma land_255_range x : 0 <= Z.land x 255 < 256.
Proof.
  change 255 with (Z.ones 8). rewrite Z.land_ones by lia.
  apply Z.mod_pos_bound. lia.
Qed.

#[local] Opaque crc_tab.

(** Feeding a word [w] into the register and shifting out one byte is
    feeding its lowest byte and keeping the rest for later. *)
Lemma DO_CRC_split crc w :
  DO_CRC (Z.lxor crc w) 0 = Z.lxor (DO_CRC crc (Z.land w 255)) (Z.shiftr w 8).
Proof.
  unfold DO_CRC. rewrite Z.lxor_0_r, Z.shiftr_lxor.
  replace (Z.land (Z.lxor crc (Z.land w 255)) 255) with (Z.land (Z.lxor crc w) 255).
  - by rewrite Z.lxor_assoc.
  - apply Z.bits_inj'. intros n Hn.
    rewrite !Z.land_spec, !Z.lxor_spec, Z.land_spec.
    destruct (Z.testbit 255 n); by rewrite ?andb_true_r, ?andb_false_r.
Qed.

Lemma byte_word b r :
  is_byte b -> Z.land (b + 256 * r) 255 = b /\ Z.shiftr (b + 256 * r) 8 = r.
Proof.
  unfold is_byte. intros Hb. split.
  - change 255 with (Z.ones 8). rewrite Z.land_ones by lia.
    change (2 ^ 8) with 256. rewrite Z.mul_comm, Z_mod_plus_full. apply Z.mod_small. lia.
  - rewrite Z.shiftr_div_pow2 by lia. change (2 ^ 8) with 256.
    rewrite Z.mul_comm, Z.div_add by lia. rewrite Z.div_small by lia. lia.
Qed.

Lemma DO_CRC_word_byte crc b r :
  is_byte b -> DO_CRC (Z.lxor crc (b + 256 * r)) 0 = Z.lxor (DO_CRC crc b) r.
Proof. intros Hb. rewrite DO_CRC_split. by destruct (byte_word b r Hb) as [-> ->]. Qed.

#[local] Opaque DO_CRC.

Lemma fold_left_step {A B} (f : A -> B -> A) x l a :
  fold_left f (x :: l) a = fold_left f l (f a x).
Proof. reflexivity. Qed.

Lemma crc_words_cons crc a b c d t :
  crc_words crc (a :: b :: c :: d :: t) =
  crc_words (DO_CRC (DO_CRC (DO_CRC (DO_CRC
    (Z.lxor crc (a + 256 * (b + 256 * (c + 256 * (d + 256 * 0))))) 0) 0) 0) 0) t.
Proof. reflexivity. Qed.

Lemma crc_words_ref crc buf : Forall is_byte buf -> crc_words crc buf = crc_ref crc buf.
Proof.
  unfold crc_ref. remember (length buf) as n eqn:Hn. revert crc buf Hn.
  induction n as [n IH] using lt_wf_ind. intros crc buf Hn Hb.
  destruct buf as [|a [|b [|c [|d t]]]]; try done.
  apply Forall_cons in Hb as [Ha Hb]. apply Forall_cons in Hb as [Hb Hc].
  apply Forall_cons in Hc as [Hc Hd]. apply Forall_cons in Hd as [Hd Ht].
  rewrite crc_words_cons, (IH (length t)) by (try done; simpl in Hn; lia).
  by rewrite !DO_CRC_word_byte, Z.lxor_0_r, !fold_left_step by done.
Qed.

Lemma crc_align_ref p crc buf :
  crc_ref (fst (crc_align p crc buf)) (snd (crc_align p crc buf)) = crc_ref crc buf /\
  (Forall is_byte buf -> Forall is_byte (snd (crc_align p crc buf))).
Proof.
  unfold crc_ref. revert p crc. induction buf as [|x t IH]; intros p crc; [done|].
  simpl. destruct (Z.land (p + 1) 3 =? 0).
  - split; [done|]. intros H. by apply Forall_cons in H as [_ H].
  - destruct (IH (p + 1) (DO_CRC crc x)) as [IH1 IH2]. split; [done|].
    intros H. apply Forall_cons in H as [_ H]. auto.
Qed.

Lemma crc32_no_comp_ref p crc buf :
  Forall is_byte buf -> crc32_no_comp p crc buf = crc_ref crc buf.
Proof.
  intros Hb. unfold crc32_no_comp. destruct (_ && _).
  - pose proof (crc_align_ref p crc buf) as [H1 H2].
    destruct (crc_align p crc buf) as [c r]. simpl in *.
    by rewrite crc_words_ref by auto.
  - by apply crc_words_ref.
Qed.

Lemma crc_ref_app crc a b : crc_ref crc (a ++ b) = crc_ref (crc_ref crc a) b.
Proof. apply fold_left_app. Qed.

Lemma nmbm_crc32_ref crc buf :
  Forall is_byte buf -> zlen buf <= UINT_MAX -> nmbm_crc32 crc buf = crc_ref crc buf.
Proof.
  intros Hb Hlen. unfold nmbm_crc32. simpl.
  destruct (Z.eqb_spec (zlen buf) 0) as [H0|H0].
  - destruct buf; [done|]. unfold zlen in H0. simpl in H0. lia.
  - rewrite Z.gtb_ltb. destruct (Z.ltb_spec UINT_MAX (zlen buf)); [lia|].
    unfold zlen. rewrite Nat2Z.id, drop_all, firstn_all. simpl.
    by apply crc32_no_comp_ref.
Qed.

#[local] Transparent DO_CRC.

(** The step is injective in the register and in the byte. *)
(** The position in the table of the entry with a given top byte. *)
Definition crc_top_inv (k : Z) : Z :=
  Z.of_nat (default O (fst <$> list_find (fun c => Z.shiftr c 24 = k) crc_table)).

Lemma crc_top_inv_table :
  forallb (fun n => crc_top_inv (Z.shiftr (crc_tab (Z.of_nat n)) 24) =? Z.of_nat n)
    (seq 0 256) = true.
Proof. vm_compute. reflexivity. Qed.

#[local] Opaque crc_top_inv.

Lemma crc_top_inv_ok i : 0 <= i < 256 -> crc_top_inv (Z.shiftr (crc_tab i) 24) = i.
Proof.
  apply (crc_table_byte (fun i c => crc_top_inv (Z.shiftr c 24) = i)
           (fun i c => crc_top_inv (Z.shiftr c 24) =? i)).
  - intros ? ?. apply Z.eqb_eq.
  - exact crc_top_inv_table.
Qed.

Lemma crc_tab_top_inj i j :
  0 <= i < 256 -> 0 <= j < 256 ->
  Z.shiftr (crc_tab i) 24 = Z.shiftr (crc_tab j) 24 -> i = j.
Proof.
  intros Hi Hj H. rewrite <- (crc_top_inv_ok i Hi), <- (crc_top_inv_ok j Hj). by rewrite H.
Qed.

Lemma DO_CRC_range crc x : 0 <= crc < 2 ^ 32 -> 0 <= DO_CRC crc x < 2 ^ 32.
Proof.
  intros Hc. unfold DO_CRC.
  pose proof (crc_tab_range _ (land_255_range (Z.lxor crc x))) as Ht.
  set (t := crc_tab _) in *.
  assert (Hs : 0 <= Z.shiftr crc 8 < 2 ^ 32).
  { rewrite Z.shiftr_div_pow2 by lia. split; [apply Z.div_pos; lia|].
    apply Z.div_lt_upper_bound; lia. }
  split; [apply Z.lxor_nonneg; lia|].
  destruct (Z.eq_dec (Z.lxor t (Z.shiftr crc 8)) 0) as [->|Hne]; [lia|].
  apply Z.log2_lt_pow2; [pose proof (Z.lxor_nonneg t (Z.shiftr crc 8)); lia|].
  eapply Z.le_lt_trans; [apply Z.log2_lxor; lia|].
  apply Z.max_lub_lt.
  - destruct (Z.eq_dec t 0) as [->|]; [simpl; lia|]. apply Z.log2_lt_pow2; lia.
  - destruct (Z.eq_dec (Z.shiftr crc 8) 0) as [->|]; [simpl; lia|].
    apply Z.log2_lt_pow2; lia.
Qed.

Lemma DO_CRC_top crc x :
  0 <= crc < 2 ^ 32 ->
  Z.shiftr (DO_CRC crc x) 24 = Z.shiftr (crc_tab (Z.land (Z.lxor crc x) 255)) 24.
Proof.
  intros Hc. unfold DO_CRC. rewrite Z.shiftr_lxor, Z.shiftr_shiftr by lia.
  replace (Z.shiftr crc (8 + 24)) with 0; [apply Z.lxor_0_r|].
  rewrite Z.shiftr_div_pow2 by lia. symmetry. apply Z.div_small. lia.
Qed.

Lemma lxor_cancel_l a b c : Z.lxor a b = Z.lxor a c -> b = c.
Proof.
  intros H. rewrite <- (Z.lxor_0_l b), <- (Z.lxor_0_l c), <- (Z.lxor_nilpotent a).
  by rewrite !Z.lxor_assoc, H.
Qed.

Lemma DO_CRC_inj_index c c' x x' :
  0 <= c < 2 ^ 32 -> 0 <= c' < 2 ^ 32 -> DO_CRC c x = DO_CRC c' x' ->
  Z.land (Z.lxor c x) 255 = Z.land (Z.lxor c' x') 255 /\ Z.shiftr c 8 = Z.shiftr c' 8.
Proof.
  intros Hc Hc' H.
  assert (Hi : Z.land (Z.lxor c x) 255 = Z.land (Z.lxor c' x') 255).
  { apply crc_tab_top_inj; [apply land_255_range..|].
    rewrite <- !DO_CRC_top by done. by rewrite H. }
  split; [done|]. unfold DO_CRC in H. rewrite Hi in H. by eapply lxor_cancel_l.
Qed.

Lemma land_255_split x : x = Z.lor (Z.land x 255) (Z.shiftl (Z.shiftr x 8) 8).
Proof.
  apply Z.bits_inj'. intros n Hn.
  rewrite Z.lor_spec, Z.land_spec, Z.shiftl_spec by lia.
  change 255 with (Z.ones 8). destruct (Z_lt_le_dec n 8).
  - rewrite Z.ones_spec_low, (Z.testbit_neg_r _ (n - 8)) by lia. by rewrite andb_true_r, orb_false_r.
  - rewrite Z.ones_spec_high, Z.shiftr_spec by lia. rewrite andb_false_r. simpl. f_equal. lia.
Qed.

Lemma land_lxor_distr a b m : Z.land (Z.lxor a b) m = Z.lxor (Z.land a m) (Z.land b m).
Proof.
  apply Z.bits_inj'. intros n Hn. rewrite !Z.land_spec, !Z.lxor_spec, !Z.land_spec.
  by destruct (Z.testbit a n), (Z.testbit b n), (Z.testbit m n).
Qed.

Lemma DO_CRC_inj_crc c c' x :
  0 <= c < 2 ^ 32 -> 0 <= c' < 2 ^ 32 -> DO_CRC c x = DO_CRC c' x -> c = c'.
Proof.
  intros Hc Hc' H. apply DO_CRC_inj_index in H as [H1 H2]; [|done..].
  rewrite !land_lxor_distr in H1. rewrite !(Z.lxor_comm _ (Z.land x 255)) in H1.
  apply lxor_cancel_l in H1. rewrite (land_255_split c), (land_255_split c'). by rewrite H1, H2.
Qed.

Lemma DO_CRC_inj_byte c x x' :
  0 <= c < 2 ^ 32 -> is_byte x -> is_byte x' -> DO_CRC c x = DO_CRC c x' -> x = x'.
Proof.
  intros Hc Hx Hx' H. apply DO_CRC_inj_index in H as [H1 _]; [|done..].
  rewrite !land_lxor_distr in H1. apply lxor_cancel_l in H1.
  change 255 with (Z.ones 8) in H1. rewrite !Z.land_ones in H1 by lia.
  unfold is_byte in *. by rewrite !Z.mod_small in H1 by lia.
Qed.

Lemma crc_ref_range crc buf : 0 <= crc < 2 ^ 32 -> 0 <= crc_ref crc buf < 2 ^ 32.
Proof.
  unfold crc_ref. revert crc. induction buf; simpl; intros; [done|].
  apply IHbuf. by apply DO_CRC_range.
Qed.

Lemma crc_ref_inj c c' buf :
  0 <= c < 2 ^ 32 -> 0 <= c' < 2 ^ 32 -> crc_ref c buf = crc_ref c' buf -> c = c'.
Proof.
  unfold crc_ref. revert c c'. induction buf as [|x t IH]; simpl; intros c c' Hc Hc' H; [done|].
  apply (DO_CRC_inj_crc c c' x); [done..|]. by apply IH; [apply DO_CRC_range..|].
Qed.

(** ** Properties *)

(** The literal table of the source is the one [make_crc_table] builds
    from the polynomial's exponents. *)
Theorem crc_table_generated : crc_table = make_crc_table.
Proof. vm_compute. reflexivity. Qed.

(** C36 [crc32_no_comp], which consumes the data word by word from an address of any
    alignment, computes the same checksum as the byte-by-byte definition. *)
Theorem crc32_word_byte_equiv p crc buf :
  Forall is_byte buf -> crc32_no_comp p crc buf = fold_left DO_CRC buf crc.
Proof. apply crc32_no_comp_ref. Qed.

(** A change of exactly one byte always changes the checksum. *)
Theorem crc32_detects_byte_change crc pre x x' post :
  0 <= crc < 2 ^ 32 ->
  Forall is_byte (pre ++ x :: post) -> is_byte x' -> x <> x' ->
  zlen (pre ++ x :: post) <= UINT_MAX ->
  nmbm_crc32 crc (pre ++ x :: post) <> nmbm_crc32 crc (pre ++ x' :: post).
Proof.
  intros Hc Hb Hx' Hne Hlen.
  apply Forall_app in Hb as [Hpre Hxp]. apply Forall_cons in Hxp as [Hx Hpost].
  assert (Hlen' : zlen (pre ++ x' :: post) = zlen (pre ++ x :: post)).
  { unfold zlen. rewrite !length_app. done. }
  rewrite !nmbm_crc32_ref.
  - rewrite !crc_ref_app.
    pose proof (crc_ref_range crc pre Hc) as Hr.
    intros H. apply (crc_ref_inj (DO_CRC _ x) (DO_CRC _ x') post) in H;
      [|by apply DO_CRC_range..].
    by apply DO_CRC_inj_byte in H.
  - apply Forall_app; split; [done|]. by constructor.
  - lia.
  - apply Forall_app; split; [done|]. by constructor.
  - done.
Qed.

Lemma crc32_word_byte_equiv_witness :
  crc32_no_comp 3 7 [1; 2; 3; 4; 5; 6; 7; 8; 9] = fold_left DO_CRC [1; 2; 3; 4; 5; 6; 7; 8; 9] 7.
Proof. apply (crc32_word_byte_equiv 3 7 [1; 2; 3; 4; 5; 6; 7; 8; 9]). repeat constructor; lia. Defined.

Lemma crc32_detects_byte_change_witness : nmbm_crc32 0 ([1; 2] ++ 3 :: [4]) <> nmbm_crc32 0 ([1; 2] ++ 7 :: [4]).
Proof.
  apply (crc32_detects_byte_change 0 [1; 2] 3 7 [4]); [lia|repeat constructor; lia|split; lia|lia|].
  vm_compute. congruence.
Defined.
