(* ===== verification/IntLib.v ===== *)
(** * Integer helpers of the boot loader

    [generic_ffs] (include/linux/bitops.h), [is_power_of_2]
    (include/linux/log2.h), [is_power_of_2_u64] and [NMBM_ALIGN]
    (drivers/mtd/nmbm/nmbm-core.c), and the 64-by-32 division [__div64_32]
    (lib/div64.c) behind [nmbm_lldiv] (include/nmbm/nmbm-os.h). *)

From stdpp Require Import base numbers list.
From Stdlib Require Import ZArith Lia.
From S2P Require Import Prelude.

(** [int generic_ffs (int x)]; [x] is an [int], [>>] on it is arithmetic. *)
Definition generic_ffs (x : Z) : Z :=
  let r := 1 in
  if x =? 0 then 0 else
  let '(x, r) := if Z.land x 0xffff =? 0 then (Z.shiftr x 16, r + 16) else (x, r) in
  let '(x, r) := if Z.land x 0xff =? 0 then (Z.shiftr x 8, r + 8) else (x, r) in
  let '(x, r) := if Z.land x 0xf =? 0 then (Z.shiftr x 4, r + 4) else (x, r) in
  let '(x, r) := if Z.land x 3 =? 0 then (Z.shiftr x 2, r + 2) else (x, r) in
  if Z.land x 1 =? 0 then r + 1 else r.

(** [bool is_power_of_2 (unsigned long n)], 32 bits wide here. *)
Definition is_power_of_2 (n : Z) : bool :=
  negb (n =? 0) && (Z.land n (u32 (n - 1)) =? 0).

Definition is_power_of_2_u64 (n : Z) : bool :=
  negb (n =? 0) && (Z.land n (u64 (n - 1)) =? 0).

(** [NMBM_ALIGN(v, a)] on [uint32_t] operands: [((v) + (a) - 1) & ~((a) - 1)]. *)
Definition NMBM_ALIGN (v a : Z) : Z :=
  Z.land (u32 (v + a - 1)) (u32 (Z.lnot (a - 1))).

(** [__div64_32 (&n, base)]: the quotient (written back to [*n]) and the
    remainder (returned).  Both loops double or halve, so 65 rounds of
    fuel are enough for each. *)
Definition div64_grow (rem : Z) (bd : Z * Z) : M unit (Z * Z + Z * Z) :=
  let '(b, d) := bd in
  if (b <? 2 ^ 63) && (0 <? b) && (b <? rem)
  then ret (inl (u64 (b + b), u64 (d + d)))
  else ret (inr (b, d)).

Definition div64_step (x : Z * Z * Z * Z) : M unit (Z * Z * Z * Z + Z * Z) :=
  let '(rem, b, d, res) := x in
  let '(rem, res) :=
    if b <=? rem then (u64 (rem - b), u64 (res + d)) else (rem, res) in
  let b := Z.shiftr b 1 in
  let d := Z.shiftr d 1 in
  ret (if d =? 0 then inr (res, rem) else inl (rem, b, d, res)).

Definition div64_32 (n base : Z) : M unit (Z * Z) :=
  let rem := n in
  let b := base in
  let high := u32 (Z.shiftr rem 32) in
  let '(rem, res) :=
    if base <=? high
    then let high := high / base in
         (u64 (rem - u64 (Z.shiftl (u32 (high * base)) 32)), u64 (Z.shiftl high 32))
    else (rem, 0) in
  do '(b, d) <- iter 65 (div64_grow rem) (b, 1);
  iter 65 div64_step (rem, b, d, res).

(** [nmbm_lldiv]: the quotient, truncated to [uint32_t]. *)
Definition nmbm_lldiv (dividend divisor : Z) : Z :=
  match div64_32 dividend divisor tt with
  | Ret (q, _) _ => u32 q
  | _ => 0
  end.

(** ** Powers of two *)

Lemma ffs_pow2 k : 0 <= k < 32 -> generic_ffs (i32 (2 ^ k)) = k + 1.
Proof.
  intros Hk.
  assert (H : forallb (fun k => generic_ffs (i32 (2 ^ Z.of_nat k)) =? Z.of_nat k + 1)
                (seq 0 32) = true) by (vm_compute; reflexivity).
  rewrite forallb_forall in H. specialize (H (Z.to_nat k)).
  rewrite Z2Nat.id in H by lia. apply Z.eqb_eq, H, in_seq. lia.
Qed.

Lemma land_pred_zero n : 0 < n -> Z.land n (n - 1) = 0 -> n = 2 ^ Z.log2 n.
Proof.
  intros Hn H. pose proof (Z.log2_spec n Hn) as [Hl Hu].
  destruct (Z.eq_dec n (2 ^ Z.log2 n)) as [|Hne]; [done|].
  exfalso. set (k := Z.log2 n) in *.
  assert (Hk : 0 <= k) by apply Z.log2_nonneg.
  assert (Hlog : Z.log2 (n - 1) = k).
  { apply Z.log2_unique; [done|]. unfold Z.succ in *. lia. }
  assert (Hb : Z.testbit (Z.land n (n - 1)) k = true).
  { rewrite Z.land_spec. unfold k at 1. rewrite Z.bit_log2 by lia.
    rewrite <- Hlog. rewrite Z.bit_log2; [done|].
    destruct (Z.eq_dec n 1) as [->|]; [|lia].
    unfold k in Hne. simpl in Hne. lia. }
  rewrite H, Z.bits_0 in Hb. done.
Qed.

Lemma land_pow2_pred k : 0 <= k -> Z.land (2 ^ k) (2 ^ k - 1) = 0.
Proof.
  intros Hk. replace (2 ^ k - 1) with (Z.ones k) by (rewrite Z.ones_equiv; lia).
  rewrite Z.land_ones by lia. apply Z.mod_same. lia.
Qed.

Lemma is_power_of_2_spec n :
  0 <= n < 2 ^ 32 -> is_power_of_2 n = true <-> exists k, 0 <= k < 32 /\ n = 2 ^ k.
Proof.
  intros Hn. unfold is_power_of_2. rewrite andb_true_iff, negb_true_iff, Z.eqb_neq, Z.eqb_eq.
  split.
  - intros [H0 H]. rewrite u32_small in H by lia.
    exists (Z.log2 n). split; [|apply land_pred_zero; [lia|done]].
    split; [apply Z.log2_nonneg|apply Z.log2_lt_pow2; lia].
  - intros (k & Hk & ->). split; [lia|]. rewrite u32_small by lia.
    apply land_pow2_pred. lia.
Qed.

Lemma is_power_of_2_u64_spec n :
  0 <= n < 2 ^ 64 -> is_power_of_2_u64 n = true <-> exists k, 0 <= k < 64 /\ n = 2 ^ k.
Proof.
  intros Hn. unfold is_power_of_2_u64.
  rewrite andb_true_iff, negb_true_iff, Z.eqb_neq, Z.eqb_eq. split.
  - intros [H0 H]. rewrite u64_small in H by lia.
    exists (Z.log2 n). split; [|apply land_pred_zero; [lia|done]].
    split; [apply Z.log2_nonneg|apply Z.log2_lt_pow2; lia].
  - intros (k & Hk & ->). split; [lia|]. rewrite u64_small by lia.
    apply land_pow2_pred. lia.
Qed.

(** Masking with [a - 1] and [~(a - 1)] for a power of two [a]. *)
Lemma land_mask x k : 0 <= k -> Z.land x (2 ^ k - 1) = x mod 2 ^ k.
Proof.
  intros Hk. replace (2 ^ k - 1) with (Z.ones k) by (rewrite Z.ones_equiv; lia).
  by apply Z.land_ones.
Qed.

Lemma land_notmask x k :
  0 <= k <= 32 -> 0 <= x < 2 ^ 32 ->
  Z.land x (u32 (Z.lnot (2 ^ k - 1))) = x - x mod 2 ^ k.
Proof.
  intros Hk Hx.
  assert (E : Z.land x (u32 (Z.lnot (2 ^ k - 1))) = Z.ldiff x (Z.ones k)).
  { replace (2 ^ k - 1) with (Z.ones k) by (rewrite Z.ones_equiv; lia).
    unfold u32. rewrite <- Z.land_ones by lia. rewrite Z.ldiff_land.
    rewrite (Z.land_comm (Z.lnot _)), Z.land_assoc, Z.land_ones by lia.
    by rewrite (Z.mod_small x) by lia. }
  rewrite E, Z.ldiff_ones_r, Z.shiftr_div_pow2, Z.shiftl_mul_pow2 by lia.
  pose proof (Z.div_mod x (2 ^ k) ltac:(apply Z.pow_nonzero; lia)). lia.
Qed.

Lemma NMBM_ALIGN_spec v k :
  0 <= k < 32 -> 0 <= v -> v + 2 ^ k - 1 < 2 ^ 32 ->
  NMBM_ALIGN v (2 ^ k) = (v + 2 ^ k - 1) / 2 ^ k * 2 ^ k.
Proof.
  intros Hk Hv Hb. pose proof (Z.pow_pos_nonneg 2 k ltac:(lia) ltac:(lia)).
  unfold NMBM_ALIGN. rewrite u32_small by lia. rewrite land_notmask by lia.
  pose proof (Z.div_mod (v + 2 ^ k - 1) (2 ^ k) ltac:(lia)). lia.
Qed.

(** ** Division *)

Lemma div64_grow_ok rem base :
  0 <= rem < 2 ^ 64 -> 0 < base < 2 ^ 32 ->
  wp (iter 65 (div64_grow rem) (base, 1))
     (fun bd _ => exists k, 0 <= k < 64 /\ snd bd = 2 ^ k /\ fst bd = base * 2 ^ k /\
                            fst bd < 2 ^ 64 /\ rem < 2 * fst bd) tt.
Proof.
  intros Hrem Hbase.
  apply (wp_iter
    (fun bd _ => exists k, 0 <= k < 64 /\ snd bd = 2 ^ k /\ fst bd = base * 2 ^ k /\
                           fst bd < 2 ^ 64)
    (fun bd _ => Z.to_nat (64 - Z.log2 (snd bd)))); cycle 1.
  { exists 0. simpl. lia. }
  { simpl. lia. }
  intros [b d] [] (k & Hk & Hd & Hb & Hlt). simpl in *. subst b d. unfold div64_grow.
  assert (Hp : 0 < 2 ^ k) by lia.
  destruct (Z.ltb_spec (base * 2 ^ k) (2 ^ 63)); simpl; cycle 1.
  { apply wp_ret. exists k. simpl. split_and!; try done; lia. }
  destruct (Z.ltb_spec 0 (base * 2 ^ k)); simpl; [|nia].
  destruct (Z.ltb_spec (base * 2 ^ k) rem); apply wp_ret; cycle 1.
  { exists k. simpl. split_and!; try done; lia. }
  assert (Hk63 : 2 ^ k < 2 ^ 63) by nia.
  apply Z.pow_lt_mono_r_iff in Hk63; [|lia..].
  rewrite !u64_small by nia. split.
  - exists (k + 1). simpl. rewrite Z.pow_add_r by lia. split_and!; lia.
  - simpl. replace (2 ^ k + 2 ^ k) with (2 ^ (k + 1)) by (rewrite Z.pow_add_r; lia).
    rewrite !Z.log2_pow2 by lia. lia.
Qed.

Lemma div64_step_ok n base k rem b d res :
  0 <= n < 2 ^ 64 -> 0 < base < 2 ^ 32 -> 0 <= k < 64 ->
  d = 2 ^ k -> b = base * 2 ^ k -> b < 2 ^ 64 -> 0 <= rem < 2 * b ->
  0 <= res -> n = base * res + rem ->
  wp (iter 65 div64_step (rem, b, d, res)) (fun qr _ => qr = (n / base, n mod base)) tt.
Proof.
  intros Hn Hbase Hk Hd Hb Hb64 Hrem Hres Heq.
  apply (wp_iter
    (fun x _ => let '(rem, b, d, res) := x in
       exists k, 0 <= k < 64 /\ d = 2 ^ k /\ b = base * 2 ^ k /\ b < 2 ^ 64 /\
                 0 <= rem < 2 * b /\ 0 <= res /\ n = base * res + rem)
    (fun x _ => let '(rem, b, d, res) := x in Z.to_nat (Z.log2 d))); cycle 1.
  { exists k. split_and!; lia. }
  { subst d. rewrite Z.log2_pow2; lia. }
  clear - Hn Hbase.
  intros [[[rem b] d] res] [] (k & Hk & -> & Hb & Hb64 & Hrem & Hres & Heq).
  unfold div64_step. subst b. set (b := base * 2 ^ k) in *.
  assert (Hp : 0 < 2 ^ k) by lia.
  assert (Hq : exists rem' res',
    (if b <=? rem then (u64 (rem - b), u64 (res + 2 ^ k)) else (rem, res)) = (rem', res') /\
    0 <= rem' < b /\ 0 <= res' /\ n = base * res' + rem').
  { destruct (Z.leb_spec b rem).
    - rewrite !u64_small by nia. eexists _, _. split; [done|]. subst b. split_and!; nia.
    - eexists _, _. split; [done|]. lia. }
  destruct Hq as (rem' & res' & -> & Hrem' & Hres' & Heq').
  rewrite !Z.shiftr_div_pow2 by lia. change (2 ^ 1) with 2.
  destruct (Z.eq_dec k 0) as [->|Hk0].
  - simpl. apply wp_ret. subst b. rewrite Z.pow_0_r, Z.mul_1_r in *.
    f_equal; [apply (Z.div_unique_pos n base res' rem')|
              apply (Z.mod_unique_pos n base res' rem')]; lia.
  - replace (2 ^ k / 2) with (2 ^ (k - 1)); cycle 1.
    { replace k with (k - 1 + 1) at 2 by lia. rewrite Z.pow_add_r by lia.
      change (2 ^ 1) with 2. by rewrite Z.div_mul by lia. }
    assert (Hk1 : 0 < 2 ^ (k - 1)) by lia.
    assert (E : 2 ^ k = 2 * 2 ^ (k - 1)).
    { replace k with (1 + (k - 1)) at 1 by lia. rewrite Z.pow_add_r by lia. done. }
    replace (b / 2) with (base * 2 ^ (k - 1)); cycle 1.
    { subst b. rewrite E. replace (base * (2 * 2 ^ (k - 1))) with (base * 2 ^ (k - 1) * 2) by lia.
      by rewrite Z.div_mul by lia. }
    destruct (Z.eqb_spec (2 ^ (k - 1)) 0); [lia|]. apply wp_ret. split.
    + exists (k - 1). subst b. split_and!; try done; nia.
    + rewrite !Z.log2_pow2 by lia. lia.
Qed.

Lemma div64_32_ok n base :
  0 <= n < 2 ^ 64 -> 0 < base < 2 ^ 32 ->
  div64_32 n base tt = Ret (n / base, n mod base) tt.
Proof.
  intros Hn Hbase. unfold div64_32.
  assert (Hh : 0 <= Z.shiftr n 32 < 2 ^ 32).
  { rewrite Z.shiftr_div_pow2 by lia. split; [apply Z.div_pos; lia|].
    apply Z.div_lt_upper_bound; lia. }
  rewrite (u32_small (Z.shiftr n 32)) by done.
  set (high := Z.shiftr n 32) in *.
  assert (Hhi : high * 2 ^ 32 <= n < high * 2 ^ 32 + 2 ^ 32).
  { unfold high. rewrite Z.shiftr_div_pow2 by lia.
    pose proof (Z.div_mod n (2 ^ 32) ltac:(lia)).
    pose proof (Z.mod_pos_bound n (2 ^ 32) ltac:(lia)). lia. }
  set (p := if base <=? high then _ else _).
  assert (Hp : exists rem res, p = (rem, res) /\ 0 <= rem < 2 ^ 64 /\ 0 <= res /\
                               n = base * res + rem).
  { subst p. destruct (Z.leb_spec base high); [|eexists _, _; split; [done|]; lia].
    set (q := high / base).
    assert (Hq : 0 <= q /\ q * base <= high).
    { unfold q. split; [apply Z.div_pos; lia|]. rewrite Z.mul_comm. apply Z.mul_div_le. lia. }
    rewrite !Z.shiftl_mul_pow2 by lia.
    rewrite (u32_small (q * base)) by lia.
    rewrite (u64_small (q * base * 2 ^ 32)) by lia.
    rewrite (u64_small (q * 2 ^ 32)) by nia.
    rewrite (u64_small (n - q * base * 2 ^ 32)) by lia.
    eexists _, _. split; [done|]. split_and!; lia. }
  destruct Hp as (rem & res & -> & Hrem & Hres & Heq).
  assert (W : wp (do '(b, d) <- iter 65 (div64_grow rem) (base, 1);
                  iter 65 div64_step (rem, b, d, res))
                 (fun qr _ => qr = (n / base, n mod base)) tt).
  { apply wp_bind. eapply wp_conseq; [by apply div64_grow_ok|].
    intros [b d] [] (k & Hk & Hd & Hb & Hlt & Hr). simpl in *.
    apply (div64_step_ok n base k); lia. }
  apply wp_run in W as ([q r] & [] & -> & Hqr). by rewrite Hqr.
Qed.

Lemma nmbm_lldiv_spec n d :
  0 <= n < 2 ^ 64 -> 0 < d < 2 ^ 32 -> nmbm_lldiv n d = u32 (n / d).
Proof. intros. unfold nmbm_lldiv. by rewrite div64_32_ok. Qed.

(** [__div64_32] terminates and returns the quotient and the remainder
    of the 64-bit dividend for every non-zero 32-bit divisor. *)
Theorem div64_32_correct n base :
  0 <= n < 2 ^ 64 -> 0 < base < 2 ^ 32 ->
  div64_32 n base tt = Ret (n / base, n mod base) tt.
Proof. apply div64_32_ok. Qed.

Lemma div64_32_correct_witness : div64_32 (2 ^ 27) 131072 tt = Ret (1024, 0) tt.
Proof. apply (div64_32_correct (2 ^ 27) 131072); lia. Defined.
