(* ===== verification/NmbmTypes.v ===== *)
(** * NMBM: data types, geometry and instance

    The structures of include/nmbm/nmbm.h and drivers/mtd/nmbm/nmbm-private.h,
    the values [nmbm_init_structure] derives from the lower device, and the
    address conversions of drivers/mtd/nmbm/nmbm-core.c. *)

From stdpp Require Import base numbers list.
From Stdlib Require Import ZArith Lia.
From S2P Require Import Prelude IntLib.

(** ** Constants (nmbm-private.h) *)

Definition NMBM_MAGIC_SIGNATURE : Z := 0x304d4d4e.
Definition NMBM_MAGIC_INFO_TABLE : Z := 0x314d4d4e.

Definition NMBM_VERSION_MAKE (major minor : Z) : Z :=
  Z.lor (Z.land major 0xffff) (Z.shiftl (Z.land minor 0xffff) 16).
Definition NMBM_VERSION_MAJOR_GET (ver : Z) : Z := Z.land (Z.shiftr ver 0) 0xffff.
Definition NMBM_VERSION_MINOR_GET (ver : Z) : Z := Z.land (Z.shiftr ver 16) 0xffff.
Definition NMBM_VER : Z := NMBM_VERSION_MAKE 1 0.

Definition NMBM_BITMAP_UNIT_SIZE : Z := 4.
Definition NMBM_BITMAP_BITS_PER_BLOCK : Z := 2.
Definition NMBM_BITMAP_BLOCKS_PER_UNIT : Z := 8 * 4 / NMBM_BITMAP_BITS_PER_BLOCK.

Definition NMBM_SPARE_BLOCK_MULTI : Z := 1.
Definition NMBM_SPARE_BLOCK_DIV : Z := 2.
Definition NMBM_SPARE_BLOCK_MIN : Z := 2.
Definition NMBM_MGMT_DIV : Z := 16.
Definition NMBM_MGMT_BLOCKS_MIN : Z := 32.
Definition NMBM_TRY_COUNT : nat := 3.
Definition NMBM_F_CREATE : Z := 1.

Definition BLOCK_ST_BAD : Z := 0.
Definition BLOCK_ST_NEED_REMAP : Z := 2.
Definition BLOCK_ST_GOOD : Z := 3.
Definition BLOCK_ST_MASK : Z := 3.

Definition EIO : Z := 5.
Definition ENODEV : Z := 19.
Definition EINVAL : Z := 22.
Definition EROFS : Z := 30.

(** [enum nmbm_log_category]; [__NMBM_LOG_MAX] is 5.  Log output itself is
    not modelled, only the display level that the code saves and restores. *)
Definition NMBM_LOG_MAX : Z := 5.
Definition NMBM_DEFAULT_LOG_LEVEL : Z := 1.

Inductive nmbm_oob_mode :=
| NMBM_MODE_PLACE_OOB
| NMBM_MODE_AUTO_OOB
| NMBM_MODE_RAW.

(** ** On-flash structures and their memory images *)

Record nmbm_header := mkHeader {
  h_magic : Z;
  h_version : Z;
  h_size : Z;
  h_checksum : Z
}.

(** The structure is 8-aligned (it holds a [uint64_t]): 44 bytes of members
    and 4 bytes of tail padding, which [memcpy] and the checksum include. *)
Record nmbm_signature := mkSignature {
  sig_header : nmbm_header;
  sig_nand_size : Z;
  sig_block_size : Z;
  sig_page_size : Z;
  sig_spare_size : Z;
  sig_mgmt_start_pb : Z;
  sig_max_try_count : Z;
  sig_padding : list Z;
  sig_tail : list Z
}.

Record nmbm_info_table_header := mkInfoHeader {
  it_header : nmbm_header;
  write_count : Z;
  state_table_off : Z;
  mapping_table_off : Z;
  it_padding : Z
}.

Definition sizeof_header : Z := 16.
Definition sizeof_signature : Z := 48.
Definition sizeof_info_table_header : Z := 32.

Definition header_bytes (h : nmbm_header) : list Z :=
  le_bytes 4 (h_magic h) ++ le_bytes 4 (h_version h) ++
  le_bytes 4 (h_size h) ++ le_bytes 4 (h_checksum h).

Definition signature_bytes (s : nmbm_signature) : list Z :=
  header_bytes (sig_header s) ++ le_bytes 8 (sig_nand_size s) ++
  le_bytes 4 (sig_block_size s) ++ le_bytes 4 (sig_page_size s) ++
  le_bytes 4 (sig_spare_size s) ++ le_bytes 4 (sig_mgmt_start_pb s) ++
  le_bytes 1 (sig_max_try_count s) ++ sig_padding s ++ sig_tail s.

Definition info_table_header_bytes (t : nmbm_info_table_header) : list Z :=
  header_bytes (it_header t) ++ le_bytes 4 (write_count t) ++
  le_bytes 4 (state_table_off t) ++ le_bytes 4 (mapping_table_off t) ++
  le_bytes 4 (it_padding t).

(** The [uint32_t] (or [uint64_t]) member at byte offset [off] of an image. *)
Definition get_le (n : nat) (off : nat) (b : list Z) : Z := le_value (take n (drop off b)).

Definition header_of_bytes (b : list Z) : nmbm_header :=
  mkHeader (get_le 4 0 b) (get_le 4 4 b) (get_le 4 8 b) (get_le 4 12 b).

Definition signature_of_bytes (b : list Z) : nmbm_signature :=
  mkSignature (header_of_bytes b) (get_le 8 16 b) (get_le 4 24 b) (get_le 4 28 b)
    (get_le 4 32 b) (get_le 4 36 b) (get_le 1 40 b) (take 3 (drop 41 b)) (take 4 (drop 44 b)).

Definition info_table_header_of_bytes (b : list Z) : nmbm_info_table_header :=
  mkInfoHeader (header_of_bytes b) (get_le 4 16 b) (get_le 4 20 b) (get_le 4 24 b)
    (get_le 4 28 b).

(** ** The lower device ([struct nmbm_lower_device])

    Supplied by the caller of [nmbm_attach].  [D] is the state behind
    [arg]; the functions are those the structure points to.  A buffer
    argument is [None] for a NULL pointer, otherwise its bytes; [read_page]
    returns the bytes its buffers hold afterwards.  [has_required_ops] is
    false when [read_page], [write_page] or [erase_block] is NULL. *)
Class nmbm_lower_device (D : Type) := mkLower {
  max_ratio : Z;
  max_reserved_blocks : Z;
  flags : Z;
  nld_size : Z;
  erasesize : Z;
  writesize : Z;
  oobsize : Z;
  oobavail : Z;
  has_required_ops : bool;
  reset_chip : option (D -> D);
  read_page : D -> Z -> option (list Z) -> option (list Z) -> nmbm_oob_mode ->
              D * Z * list Z * list Z;
  write_page : D -> Z -> option (list Z) -> option (list Z) -> nmbm_oob_mode -> D * Z;
  erase_block : D -> Z -> D * Z;
  is_bad_block : option (D -> Z -> D * Z);
  mark_bad_block : option (D -> Z -> D * Z)
}.
Arguments mkLower {D}.

(** ** The instance ([struct nmbm_instance])

    The members written after initialisation; those that
    [nmbm_init_structure] computes once from the lower device are the
    definitions of the next section.  [dev] is the lower device's state. *)
Record nmbm_instance (D : Type) := mkInstance {
  dev : D;
  signature : nmbm_signature;
  info_table_cache : list Z;
  info_table : nmbm_info_table_header;
  block_state : list Z;
  block_state_changed : Z;
  block_mapping : list Z;
  block_mapping_changed : Z;
  page_cache : list Z;
  protected : Z;
  data_block_count : Z;
  mgmt_start_ba : Z;
  main_table_ba : Z;
  backup_table_ba : Z;
  mapping_blocks_ba : Z;
  mapping_blocks_top_ba : Z;
  signature_ba : Z;
  log_display_level : Z
}.
Arguments mkInstance {D}.
Arguments dev {D}.
Arguments signature {D}.
Arguments info_table_cache {D}.
Arguments info_table {D}.
Arguments block_state {D}.
Arguments block_state_changed {D}.
Arguments block_mapping {D}.
Arguments block_mapping_changed {D}.
Arguments page_cache {D}.
Arguments protected {D}.
Arguments data_block_count {D}.
Arguments mgmt_start_ba {D}.
Arguments main_table_ba {D}.
Arguments backup_table_ba {D}.
Arguments mapping_blocks_ba {D}.
Arguments mapping_blocks_top_ba {D}.
Arguments signature_ba {D}.
Arguments log_display_level {D}.

Section Members.
Context {D : Type}.

Definition instance_eta : nmbm_instance D -> nmbm_instance D := fun s =>
  mkInstance (dev s) (signature s) (info_table_cache s) (info_table s) (block_state s)
    (block_state_changed s) (block_mapping s) (block_mapping_changed s) (page_cache s)
    (protected s) (data_block_count s) (mgmt_start_ba s) (main_table_ba s)
    (backup_table_ba s) (mapping_blocks_ba s) (mapping_blocks_top_ba s)
    (signature_ba s) (log_display_level s).

#[global] Instance member_dev : Member (@dev D).
Proof. derive_member instance_eta (@dev D). Defined.
#[global] Instance member_signature : Member (@signature D).
Proof. derive_member instance_eta (@signature D). Defined.
#[global] Instance member_info_table_cache : Member (@info_table_cache D).
Proof. derive_member instance_eta (@info_table_cache D). Defined.
#[global] Instance member_info_table : Member (@info_table D).
Proof. derive_member instance_eta (@info_table D). Defined.
#[global] Instance member_block_state : Member (@block_state D).
Proof. derive_member instance_eta (@block_state D). Defined.
#[global] Instance member_block_state_changed : Member (@block_state_changed D).
Proof. derive_member instance_eta (@block_state_changed D). Defined.
#[global] Instance member_block_mapping : Member (@block_mapping D).
Proof. derive_member instance_eta (@block_mapping D). Defined.
#[global] Instance member_block_mapping_changed : Member (@block_mapping_changed D).
Proof. derive_member instance_eta (@block_mapping_changed D). Defined.
#[global] Instance member_page_cache : Member (@page_cache D).
Proof. derive_member instance_eta (@page_cache D). Defined.
#[global] Instance member_protected : Member (@protected D).
Proof. derive_member instance_eta (@protected D). Defined.
#[global] Instance member_data_block_count : Member (@data_block_count D).
Proof. derive_member instance_eta (@data_block_count D). Defined.
#[global] Instance member_mgmt_start_ba : Member (@mgmt_start_ba D).
Proof. derive_member instance_eta (@mgmt_start_ba D). Defined.
#[global] Instance member_main_table_ba : Member (@main_table_ba D).
Proof. derive_member instance_eta (@main_table_ba D). Defined.
#[global] Instance member_backup_table_ba : Member (@backup_table_ba D).
Proof. derive_member instance_eta (@backup_table_ba D). Defined.
#[global] Instance member_mapping_blocks_ba : Member (@mapping_blocks_ba D).
Proof. derive_member instance_eta (@mapping_blocks_ba D). Defined.
#[global] Instance member_mapping_blocks_top_ba : Member (@mapping_blocks_top_ba D).
Proof. derive_member instance_eta (@mapping_blocks_top_ba D). Defined.
#[global] Instance member_signature_ba : Member (@signature_ba D).
Proof. derive_member instance_eta (@signature_ba D). Defined.
#[global] Instance member_log_display_level : Member (@log_display_level D).
Proof. derive_member instance_eta (@log_display_level D). Defined.

End Members.

(** Compare two updated instances member by member. *)
Ltac instance_eq :=
  cbv [update member_dev member_signature member_info_table_cache member_info_table
    member_block_state member_block_state_changed member_block_mapping
    member_block_mapping_changed member_page_cache member_protected
    member_data_block_count member_mgmt_start_ba member_main_table_ba
    member_backup_table_ba member_mapping_blocks_ba member_mapping_blocks_top_ba
    member_signature_ba member_log_display_level];
  cbn [dev signature info_table_cache info_table block_state block_state_changed
    block_mapping block_mapping_changed page_cache protected data_block_count
    mgmt_start_ba main_table_ba backup_table_ba mapping_blocks_ba
    mapping_blocks_top_ba signature_ba log_display_level];
  try reflexivity; f_equal.

(** ** Derived geometry ([nmbm_init_structure]) *)

Section Geometry.
Context {D : Type} {L : nmbm_lower_device D}.

Definition rawpage_size : Z := u32 (writesize + oobsize).
Definition pages_per_block : Z := erasesize / writesize.
Definition rawblock_size : Z := u32 (pages_per_block * rawpage_size).
Definition rawchip_size : Z := u32 (nmbm_lldiv nld_size erasesize * rawblock_size).

Definition writesize_mask : Z := u32 (writesize - 1).
Definition erasesize_mask : Z := u32 (erasesize - 1).
Definition writesize_shift : Z := u16 (generic_ffs (i32 writesize) - 1).
Definition erasesize_shift : Z := u16 (generic_ffs (i32 erasesize) - 1).

Definition block_count : Z := u32 (Z.shiftr nld_size erasesize_shift).

Definition state_table_size : Z :=
  u32 (u32 (block_count + NMBM_BITMAP_BLOCKS_PER_UNIT - 1) / NMBM_BITMAP_BLOCKS_PER_UNIT *
       NMBM_BITMAP_UNIT_SIZE).
Definition mapping_table_size : Z := u32 (block_count * 4).

Definition init_state_table_off : Z := NMBM_ALIGN sizeof_info_table_header writesize.
Definition init_mapping_table_off : Z :=
  u32 (init_state_table_off + NMBM_ALIGN state_table_size writesize).
Definition info_table_size : Z :=
  u32 (init_mapping_table_off + NMBM_ALIGN mapping_table_size writesize).

(** *** Address conversions *)

Definition addr2ba (addr : Z) : Z := u32 (Z.shiftr addr erasesize_shift).
Definition ba2addr (ba : Z) : Z := u64 (Z.shiftl ba erasesize_shift).
Definition size2blk (size : Z) : Z :=
  u32 (Z.shiftr (u64 (size + erasesize - 1)) erasesize_shift).

(** [nmbm_get_spare_block_count]. *)
Definition nmbm_get_spare_block_count (count : Z) : Z :=
  let val := u32 (count + NMBM_SPARE_BLOCK_DIV / 2) / NMBM_SPARE_BLOCK_DIV in
  let val := u32 (val * NMBM_SPARE_BLOCK_MULTI) in
  if val <? NMBM_SPARE_BLOCK_MIN then NMBM_SPARE_BLOCK_MIN else val.

Definition info_table_spare_blocks : Z :=
  nmbm_get_spare_block_count (size2blk info_table_size).

(** [nmbm_calc_structure_size]; the result counts the bytes that follow the
    [struct nmbm_instance] itself. *)
Definition nmbm_calc_structure_size : Z :=
  let block_count := nmbm_lldiv nld_size erasesize in
  let state_table_size :=
    u32 (u32 (block_count + NMBM_BITMAP_BLOCKS_PER_UNIT - 1) / NMBM_BITMAP_BLOCKS_PER_UNIT *
         NMBM_BITMAP_UNIT_SIZE) in
  let mapping_table_size := u32 (block_count * 4) in
  let info_table_size := NMBM_ALIGN sizeof_info_table_header writesize in
  let info_table_size := u32 (info_table_size + NMBM_ALIGN state_table_size writesize) in
  let info_table_size := u32 (info_table_size + NMBM_ALIGN mapping_table_size writesize) in
  u32 (info_table_size + state_table_size + mapping_table_size + writesize + oobsize).

End Geometry.

(** What a usable device looks like.  The power-of-two conditions are the
    ones [nmbm_check_lower_members] enforces; that a page fits a block, that
    the chip has at least 32 blocks and that sizes stay far below 32 bits are
    facts about NAND chips that the code relies on without checking; the last
    two are the ranges of [uint32_t] members. *)
Class geometry_ok {D : Type} (L : nmbm_lower_device D) : Prop := {
  geo_page : exists a, 0 <= a < 32 /\ writesize = 2 ^ a;
  geo_block : exists b, 0 <= b < 32 /\ erasesize = 2 ^ b;
  geo_chip : exists c, 0 <= c < 64 /\ nld_size = 2 ^ c;
  geo_order : writesize <= erasesize;
  geo_page_min : 64 <= writesize;
  geo_erase : erasesize <= 2 ^ 24;
  geo_oob : 0 < oobsize <= 2 ^ 24;
  geo_blocks_min : 32 * erasesize <= nld_size;
  geo_blocks_max : nld_size <= 2 ^ 24 * erasesize;
  geo_ratio : 0 <= max_ratio < 2 ^ 32;
  geo_reserved : 0 <= max_reserved_blocks < 2 ^ 32
}.

Section GeometryFacts.
Context {D : Type} {L : nmbm_lower_device D} {GO : geometry_ok L}.

Lemma pow2_bounds e : (exists k, 0 <= k < 32 /\ e = 2 ^ k) -> 0 < e.
Proof. intros (k & Hk & ->). lia. Qed.

Lemma writesize_pos : 0 < writesize.
Proof. pose proof geo_page_min. lia. Qed.

Lemma erasesize_pos : 0 < erasesize.
Proof. apply pow2_bounds, geo_block. Qed.

Lemma erasesize_shift_spec : 0 <= erasesize_shift < 32 /\ erasesize = 2 ^ erasesize_shift.
Proof.
  destruct geo_block as (b & Hb & E). unfold erasesize_shift. rewrite E, ffs_pow2 by lia.
  rewrite u16_small by lia. split; [lia|]. f_equal. lia.
Qed.

Lemma writesize_mask_spec : writesize_mask = writesize - 1.
Proof.
  pose proof writesize_pos. pose proof geo_order. pose proof geo_erase.
  unfold writesize_mask. apply u32_small. lia.
Qed.

Lemma erasesize_mask_spec : erasesize_mask = erasesize - 1.
Proof.
  pose proof erasesize_pos. pose proof geo_erase.
  unfold erasesize_mask. apply u32_small. lia.
Qed.

Lemma land_writesize_mask x : Z.land x writesize_mask = x mod writesize.
Proof.
  rewrite writesize_mask_spec. destruct geo_page as (a & Ha & ->). apply land_mask. lia.
Qed.

Lemma land_erasesize_mask x : Z.land x erasesize_mask = x mod erasesize.
Proof.
  rewrite erasesize_mask_spec. destruct geo_block as (a & Ha & ->). apply land_mask. lia.
Qed.

Lemma shiftr_erasesize x : Z.shiftr x erasesize_shift = x / erasesize.
Proof.
  destruct erasesize_shift_spec as [Hs ->]. apply Z.shiftr_div_pow2. lia.
Qed.

Lemma ba2addr_spec ba : 0 <= ba < 2 ^ 32 -> ba2addr ba = ba * erasesize.
Proof.
  intros Hba. pose proof erasesize_pos. pose proof geo_erase.
  unfold ba2addr. destruct erasesize_shift_spec as [Hs E].
  rewrite Z.shiftl_mul_pow2 by lia. rewrite <- E. apply u64_small. nia.
Qed.

Lemma addr2ba_spec addr :
  0 <= addr < 2 ^ 32 * erasesize -> addr2ba addr = addr / erasesize.
Proof.
  intros Ha. pose proof erasesize_pos. unfold addr2ba. rewrite shiftr_erasesize.
  apply u32_small. split; [apply Z.div_pos; lia|]. apply Z.div_lt_upper_bound; lia.
Qed.

Lemma block_count_spec : block_count = nld_size / erasesize.
Proof.
  pose proof erasesize_pos. pose proof geo_blocks_max. pose proof geo_blocks_min.
  unfold block_count. rewrite shiftr_erasesize. apply u32_small.
  split; [apply Z.div_pos; lia|]. apply Z.div_lt_upper_bound; lia.
Qed.

Lemma block_count_bounds : 32 <= block_count <= 2 ^ 24.
Proof.
  pose proof erasesize_pos. pose proof geo_blocks_max. pose proof geo_blocks_min.
  rewrite block_count_spec. split; [apply Z.div_le_lower_bound; lia|].
  apply Z.div_le_upper_bound; lia.
Qed.

Lemma rawpage_size_spec : rawpage_size = writesize + oobsize.
Proof.
  pose proof writesize_pos. pose proof geo_order. pose proof geo_erase. pose proof geo_oob.
  unfold rawpage_size. apply u32_small. lia.
Qed.

Lemma writesize_divides_erasesize : (writesize | erasesize).
Proof.
  destruct geo_page as (a & Ha & Ew). destruct geo_block as (b & Hb & Ee).
  pose proof geo_order as Ho. rewrite Ew, Ee in *.
  apply Z.pow_le_mono_r_iff in Ho; [|lia..].
  exists (2 ^ (b - a)). rewrite <- Z.pow_add_r by lia. f_equal. lia.
Qed.

Lemma pages_per_block_spec : 0 < pages_per_block /\ pages_per_block * writesize = erasesize.
Proof.
  pose proof writesize_pos. pose proof geo_order. pose proof erasesize_pos.
  destruct writesize_divides_erasesize as [k Hk]. unfold pages_per_block.
  rewrite Hk, Z.div_mul by lia. split; [nia|done].
Qed.

Lemma align_bounds v :
  0 <= v <= 2 ^ 28 ->
  v <= NMBM_ALIGN v writesize < v + writesize /\ (writesize | NMBM_ALIGN v writesize).
Proof.
  intros Hv. pose proof geo_order. pose proof geo_erase. pose proof writesize_pos.
  destruct geo_page as (a & Ha & Ew). rewrite Ew in *. rewrite NMBM_ALIGN_spec by lia.
  split; [|apply Z.divide_factor_r].
  pose proof (Z.div_mod (v + 2 ^ a - 1) (2 ^ a) ltac:(lia)).
  pose proof (Z.mod_pos_bound (v + 2 ^ a - 1) (2 ^ a) ltac:(lia)). lia.
Qed.

Lemma state_table_size_spec :
  state_table_size = 4 * ((block_count + 15) / 16) /\ block_count <= 4 * state_table_size <= block_count + 15.
Proof.
  pose proof block_count_bounds. unfold state_table_size.
  change NMBM_BITMAP_BLOCKS_PER_UNIT with 16. change NMBM_BITMAP_UNIT_SIZE with 4.
  rewrite (u32_small (_ - 1)) by lia.
  replace (block_count + 16 - 1) with (block_count + 15) by lia.
  pose proof (Z.div_mod (block_count + 15) 16 ltac:(lia)).
  pose proof (Z.mod_pos_bound (block_count + 15) 16 ltac:(lia)).
  rewrite u32_small by lia. lia.
Qed.

Lemma mapping_table_size_spec : mapping_table_size = 4 * block_count.
Proof. pose proof block_count_bounds. unfold mapping_table_size. rewrite u32_small; lia. Qed.

(** The three parts of an info table follow each other without overlap. *)
Lemma info_table_layout :
  sizeof_info_table_header <= init_state_table_off /\
  init_state_table_off + state_table_size <= init_mapping_table_off /\
  init_mapping_table_off + mapping_table_size <= info_table_size /\
  info_table_size < 2 ^ 28 /\
  (writesize | init_state_table_off) /\ (writesize | init_mapping_table_off) /\
  (writesize | info_table_size).
Proof.
  pose proof block_count_bounds. pose proof geo_order. pose proof geo_erase.
  pose proof writesize_pos. destruct state_table_size_spec as [_ Hs].
  pose proof mapping_table_size_spec as Hm.
  destruct (align_bounds 32 ltac:(lia)) as [HA1 DA1].
  assert (HS : 0 <= state_table_size <= 2 ^ 28) by lia.
  assert (HM : 0 <= mapping_table_size <= 2 ^ 28) by lia.
  destruct (align_bounds _ HS) as [HA2 DA2].
  destruct (align_bounds _ HM) as [HA3 DA3].
  unfold info_table_size, init_mapping_table_off, init_state_table_off,
    sizeof_info_table_header in *.
  rewrite (u32_small (NMBM_ALIGN 32 _ + _)) by lia.
  rewrite u32_small by lia.
  split_and!; try lia; try done; repeat apply Z.divide_add_r; done.
Qed.

Lemma size2blk_spec n :
  0 <= n < 2 ^ 32 ->
  size2blk n = (n + erasesize - 1) / erasesize /\
  n <= size2blk n * erasesize < n + erasesize.
Proof.
  intros Hn. pose proof erasesize_pos. pose proof geo_erase. unfold size2blk.
  rewrite (u64_small (n + _ - 1)) by lia. rewrite shiftr_erasesize.
  assert (Hne : erasesize <> 0) by lia.
  pose proof (Z.div_mod (n + erasesize - 1) erasesize Hne).
  assert (Hm : 0 <= (n + erasesize - 1) mod erasesize < erasesize)
    by (apply Z.mod_pos_bound; lia).
  rewrite u32_small; [split; [done|]; lia|].
  split; [apply Z.div_pos; lia|]. apply Z.div_lt_upper_bound; nia.
Qed.

End GeometryFacts.

(** Bring the arithmetic facts about the device into the context. *)
Ltac geometry :=
  let H := fresh "Hgeo" in pose proof writesize_pos as H;
  let H := fresh "Hgeo" in pose proof erasesize_pos as H;
  let H := fresh "Hgeo" in pose proof geo_order as H;
  let H := fresh "Hgeo" in pose proof geo_page_min as H;
  let H := fresh "Hgeo" in pose proof geo_erase as H;
  let H := fresh "Hgeo" in pose proof geo_oob as H;
  let H := fresh "Hgeo" in pose proof block_count_bounds as H;
  let H := fresh "Hgeo" in pose proof rawpage_size_spec as H;
  let H := fresh "Hgeo" in pose proof (proj1 pages_per_block_spec) as H;
  let H := fresh "Hgeo" in pose proof (proj2 pages_per_block_spec) as H.
