(* ===== verification/NmbmPhys.v ===== *)
(** * NMBM: access to the lower device

    The "High level NAND chip APIs" of drivers/mtd/nmbm/nmbm-core.c: page
    read, page write and block erase with retry, and the bad-block marks. *)

From stdpp Require Import base numbers list.
From Stdlib Require Import ZArith Lia.
From S2P Require Import Prelude IntLib NmbmTypes.

Section Phys.
Context {D : Type} {L : nmbm_lower_device D}.
Local Abbreviation NM := (M (nmbm_instance D)).

Definition nmbm_reset_chip : NM unit :=
  match reset_chip with
  | Some f => do d <- gets dev; dev ::= f d
  | None => ret tt
  end.

(** [nmbm_read_phys_page]: at most [NMBM_TRY_COUNT] attempts, a reset after
    each failed one.  Returns [ret] and the bytes the buffers hold. *)
Fixpoint read_retry (tries : nat) (r addr : Z) (data oob : option (list Z))
    (mode : nmbm_oob_mode) : NM (Z * option (list Z) * option (list Z)) :=
  match tries with
  | O => ret (r, data, oob)
  | S n =>
      do d <- gets dev;
      let '(d', r', data', oob') := read_page d addr data oob mode in
      dev ::= d';;
      let data' := (fun _ => data') <$> data in
      let oob' := (fun _ => oob') <$> oob in
      if r' =? 0 then ret (0, data', oob')
      else nmbm_reset_chip;; read_retry n r' addr data' oob' mode
  end.

Definition nmbm_read_phys_page (addr : Z) (data oob : option (list Z)) (mode : nmbm_oob_mode) :
    NM (Z * option (list Z) * option (list Z)) :=
  read_retry NMBM_TRY_COUNT 0 addr data oob mode.

Fixpoint write_retry (tries : nat) (addr : Z) (data oob : option (list Z))
    (mode : nmbm_oob_mode) : NM bool :=
  match tries with
  | O => ret false
  | S n =>
      do d <- gets dev;
      let '(d', r) := write_page d addr data oob mode in
      dev ::= d';;
      if r =? 0 then ret true
      else nmbm_reset_chip;; write_retry n addr data oob mode
  end.

Definition nmbm_write_phys_page (addr : Z) (data oob : option (list Z)) (mode : nmbm_oob_mode) :
    NM bool :=
  write_retry NMBM_TRY_COUNT addr data oob mode.

Fixpoint erase_retry (tries : nat) (addr : Z) : NM bool :=
  match tries with
  | O => ret false
  | S n =>
      do d <- gets dev;
      let '(d', r) := erase_block d addr in
      dev ::= d';;
      if r =? 0 then ret true
      else nmbm_reset_chip;; erase_retry n addr
  end.

Definition nmbm_erase_phys_block (addr : Z) : NM bool := erase_retry NMBM_TRY_COUNT addr.

(** [nmbm_read_phys_page (ni, addr, ni->page_cache, NULL, mode)]. *)
Definition read_page_cache (addr : Z) (mode : nmbm_oob_mode) : NM Z :=
  do pc <- gets page_cache;
  do buf <- lift (slice pc 0 writesize);
  do '(r, data, _) <- nmbm_read_phys_page addr (Some buf) None mode;
  do pc' <- lift (splice pc 0 (default [] data));
  page_cache ::= pc';;
  ret r.

(** [nmbm_check_bad_phys_block]. *)
Definition nmbm_check_bad_phys_block (ba : Z) : NM bool :=
  let addr := ba2addr ba in
  match is_bad_block with
  | Some f =>
      do d <- gets dev;
      let '(d', r) := f d addr in
      dev ::= d';;
      ret (negb (r =? 0))
  | None =>
      do pc <- gets page_cache;
      do buf <- lift (slice pc writesize oobsize);
      do '(r, _, oob) <- nmbm_read_phys_page addr None (Some buf) NMBM_MODE_PLACE_OOB;
      do pc' <- lift (splice pc writesize (default [] oob));
      page_cache ::= pc';;
      if r <? 0 then ret true
      else
        do b <- lift (znth pc' writesize);
        ret (negb (b =? 0xff))
  end.

(** [nmbm_set_log_level]. *)
Definition nmbm_set_log_level (level : Z) : NM Z :=
  do old <- gets log_display_level;
  log_display_level ::= level;;
  ret old.

(** The loop of [nmbm_mark_phys_bad_block] over the pages of a block. *)
Definition mark_bad_page (addr off : Z) : NM (Z + unit) :=
  if off <? erasesize then
    do pc <- gets page_cache;
    do data <- lift (slice pc 0 writesize);
    do oob <- lift (slice pc writesize oobsize);
    nmbm_write_phys_page (u64 (addr + off)) (Some data) (Some oob) NMBM_MODE_RAW;;
    ret (inl (u32 (off + writesize)))
  else ret (inr tt).

(** [nmbm_mark_phys_bad_block]. *)
Definition nmbm_mark_phys_bad_block (ba : Z) : NM Z :=
  let addr := ba2addr ba in
  match mark_bad_block with
  | Some f =>
      do d <- gets dev;
      let '(d', r) := f d addr in
      dev ::= d';;
      ret r
  | None =>
      do pc <- gets page_cache;
      do pc' <- lift (splice pc 0 (fill 0 rawpage_size));
      page_cache ::= pc';;
      do level <- nmbm_set_log_level NMBM_LOG_MAX;
      iter (S (Z.to_nat pages_per_block)) (mark_bad_page addr) 0;;
      nmbm_set_log_level level;;
      ret 0
  end.

End Phys.
