(* ===== verification/NmbmState.v ===== *)
(** * NMBM: block states, walks over good blocks, and the mapping table

    The two-bit state table, [nmbm_block_walk] and its users, and the
    initial mapping table (drivers/mtd/nmbm/nmbm-core.c). *)

From stdpp Require Import base numbers list.
From Stdlib Require Import ZArith Lia.
From S2P Require Import Prelude IntLib NmbmTypes NmbmPhys.

(** [nmbm_get_block_state_raw]. *)
Definition nmbm_get_block_state_raw (block_state : list Z) (ba : Z) : option Z :=
  let unit := ba / NMBM_BITMAP_BLOCKS_PER_UNIT in
  let shift := (ba mod NMBM_BITMAP_BLOCKS_PER_UNIT) * NMBM_BITMAP_BITS_PER_BLOCK in
  (fun u => Z.land (Z.shiftr u shift) BLOCK_ST_MASK) <$> znth block_state unit.

(** The unit of the state table after storing [state] at [shift]. *)
Definition set_state_bits (u shift state : Z) : Z :=
  Z.lor (Z.land u (u32 (Z.lnot (Z.shiftl BLOCK_ST_MASK shift)))) (u32 (Z.shiftl state shift)).

Section State.
Context {D : Type} {L : nmbm_lower_device D}.
Local Abbreviation NM := (M (nmbm_instance D)).

Definition nmbm_get_block_state (ba : Z) : NM Z :=
  do bs <- gets block_state;
  lift (nmbm_get_block_state_raw bs ba).

Definition nmbm_set_block_state (ba state : Z) : NM bool :=
  let unit := ba / NMBM_BITMAP_BLOCKS_PER_UNIT in
  let shift := (ba mod NMBM_BITMAP_BLOCKS_PER_UNIT) * NMBM_BITMAP_BITS_PER_BLOCK in
  do bs <- gets block_state;
  do u <- lift (znth bs unit);
  let orig := Z.land (Z.shiftr u shift) BLOCK_ST_MASK in
  let state := Z.land state BLOCK_ST_MASK in
  do bs' <- lift (zset bs unit (set_state_bits u shift state));
  block_state ::= bs';;
  if negb (orig =? state) then
    do c <- gets block_state_changed;
    block_state_changed ::= u32 (c + 1);;
    ret true
  else ret false.

(** [nmbm_block_walk_asc]: [Some] the block address stored in [*nba] when the
    C function returns true, [None] when it returns false. *)
Definition walk_asc_body (limit : Z) (x : Z * Z) : NM (Z * Z + option Z) :=
  let '(ba, nblock) := x in
  if ba <? limit then
    do st <- nmbm_get_block_state ba;
    let nblock := if st =? BLOCK_ST_GOOD then i32 (nblock - 1) else nblock in
    if nblock <? 0 then ret (inr (Some ba))
    else ret (inl (u32 (ba + 1), nblock))
  else ret (inr None).

Definition nmbm_block_walk_asc (ba count limit : Z) : NM (option Z) :=
  let nblock := i32 count in
  let limit := if block_count <=? limit then u32 (block_count - 1) else limit in
  iter (S (Z.to_nat (limit - ba))) (walk_asc_body limit) (ba, nblock).

(** [nmbm_block_walk_desc]. *)
Definition walk_desc_body (limit : Z) (x : Z * Z) : NM (Z * Z + option Z) :=
  let '(ba, nblock) := x in
  if limit <? ba then
    do st <- nmbm_get_block_state ba;
    let nblock := if st =? BLOCK_ST_GOOD then i32 (nblock - 1) else nblock in
    if nblock <? 0 then ret (inr (Some ba))
    else ret (inl (u32 (ba - 1), nblock))
  else ret (inr None).

Definition nmbm_block_walk_desc (ba count limit : Z) : NM (option Z) :=
  let nblock := i32 count in
  let limit := if block_count <=? limit then u32 (block_count - 1) else limit in
  iter (S (Z.to_nat (ba - limit))) (walk_desc_body limit) (ba, nblock).

(** [nmbm_block_walk]: [count] and [limit] are [int32_t] here and converted
    back to [uint32_t] by the call. *)
Definition nmbm_block_walk (ascending : bool) (ba count limit : Z) : NM (option Z) :=
  if ascending then nmbm_block_walk_asc ba (u32 (i32 count)) (u32 (i32 limit))
  else nmbm_block_walk_desc ba (u32 (i32 count)) (u32 (i32 limit)).

(** [nmbm_try_reserve_blocks]. *)
Definition try_reserve_body (ba min_count limit nblocks : Z) : NM (Z + option Z) :=
  if min_count <=? nblocks then
    do r <- nmbm_block_walk true ba nblocks limit;
    match r with
    | Some nba => ret (inr (Some nba))
    | None => ret (inl (i32 (nblocks - 1)))
    end
  else ret (inr None).

Definition nmbm_try_reserve_blocks (ba count min_count limit : Z) : NM (option Z) :=
  let nblocks := i32 count in
  iter (S (S (Z.to_nat (nblocks - min_count))))
    (try_reserve_body ba (i32 min_count) (i32 limit)) nblocks.

(** [nmbm_scan_badblocks]. *)
Definition scan_body (ba : Z) : NM (Z + unit) :=
  if ba <? block_count then
    do bad <- nmbm_check_bad_phys_block ba;
    (if bad then nmbm_set_block_state ba BLOCK_ST_BAD;; ret tt else ret tt);;
    ret (inl (u32 (ba + 1)))
  else ret (inr tt).

Definition nmbm_scan_badblocks : NM unit :=
  iter (S (Z.to_nat block_count)) scan_body 0.

(** [nmbm_build_mapping_table]. *)
Definition build_map_body (x : Z * Z) : NM (Z * Z + Z) :=
  let '(pb, lb) := x in
  do start <- gets mgmt_start_ba;
  if pb <? start then
    do st <- nmbm_get_block_state pb;
    if st =? BLOCK_ST_BAD then ret (inl (u32 (pb + 1), lb))
    else
      do bm <- gets block_mapping;
      do bm' <- lift (zset bm lb (i32 pb));
      block_mapping ::= bm';;
      ret (inl (u32 (pb + 1), u32 (lb + 1)))
  else ret (inr lb).

Definition unmap_body (pb : Z) : NM (Z + unit) :=
  if pb <? block_count then
    do bm <- gets block_mapping;
    do bm' <- lift (zset bm pb (-1));
    block_mapping ::= bm';;
    ret (inl (u32 (pb + 1)))
  else ret (inr tt).

Definition nmbm_build_mapping_table : NM unit :=
  do start <- gets mgmt_start_ba;
  do lb <- iter (S (Z.to_nat start)) build_map_body (0, 0);
  data_block_count ::= lb;;
  iter (S (Z.to_nat block_count)) unmap_body lb.

End State.

(** ** The state table *)

(** Bits of a two-bit field at an even shift. *)
Lemma mask_bit n : Z.testbit 3 n = (0 <=? n) && (n <? 2).
Proof.
  destruct (Z.leb_spec 0 n), (Z.ltb_spec n 2); simpl.
  - assert (n = 0 \/ n = 1) as [-> | ->] by lia; done.
  - change 3 with (Z.ones 2). apply Z.ones_spec_high. lia.
  - apply Z.testbit_neg_r. lia.
  - apply Z.testbit_neg_r. lia.
Qed.

Lemma high_bit_zero x k n : 0 <= x < 2 ^ k -> k <= n -> Z.testbit x n = false.
Proof.
  intros Hx Hn. destruct (Z.eq_dec x 0) as [->|]; [apply Z.bits_0|].
  apply Z.bits_above_log2; [lia|].
  assert (Z.log2 x < k) by (apply Z.log2_lt_pow2; lia). lia.
Qed.

Lemma u32_bit x n : 0 <= n -> Z.testbit (u32 x) n = (n <? 32) && Z.testbit x n.
Proof.
  intros Hn. unfold u32. destruct (Z.ltb_spec n 32).
  - by rewrite Z.mod_pow2_bits_low by lia.
  - by rewrite Z.mod_pow2_bits_high by lia.
Qed.

Lemma set_state_bits_same u shift st :
  0 <= shift <= 30 -> 0 <= st <= 3 ->
  Z.land (Z.shiftr (set_state_bits u shift st) shift) 3 = st.
Proof.
  intros Hs Hst. unfold set_state_bits, BLOCK_ST_MASK. apply Z.bits_inj'. intros n Hn.
  rewrite Z.land_spec, Z.shiftr_spec, Z.lor_spec, Z.land_spec, !u32_bit by lia.
  rewrite Z.lnot_spec, !Z.shiftl_spec by lia. rewrite !mask_bit.
  replace (n + shift - shift) with n by lia.
  destruct (Z.leb_spec 0 n), (Z.ltb_spec n 2), (Z.ltb_spec (n + shift) 32); simpl; try lia.
  - by rewrite andb_false_r, andb_true_r.
  - rewrite andb_false_r. symmetry. apply (high_bit_zero st 2); lia.
  - rewrite andb_false_r. symmetry. apply (high_bit_zero st 2); lia.
Qed.

Lemma set_state_bits_other u shift shift' st :
  0 <= u < 2 ^ 32 -> 0 <= shift <= 30 -> 0 <= shift' <= 30 ->
  (shift + 2 <= shift' \/ shift' + 2 <= shift) -> 0 <= st <= 3 ->
  Z.land (Z.shiftr (set_state_bits u shift st) shift') 3 = Z.land (Z.shiftr u shift') 3.
Proof.
  intros Hu Hs Hs' Hdisj Hst. unfold set_state_bits, BLOCK_ST_MASK.
  apply Z.bits_inj'. intros n Hn.
  rewrite !Z.land_spec, !Z.shiftr_spec, Z.lor_spec, Z.land_spec, !u32_bit by lia.
  rewrite Z.lnot_spec, !Z.shiftl_spec by lia. rewrite !mask_bit.
  destruct (Z.leb_spec 0 n), (Z.ltb_spec n 2), (Z.ltb_spec (n + shift') 32); simpl; try lia;
    rewrite ?andb_false_r, ?andb_true_r; try done.
  replace (Z.testbit st (n + shift' - shift)) with false.
  - rewrite orb_false_r.
    destruct (Z.leb_spec 0 (n + shift' - shift)), (Z.ltb_spec (n + shift' - shift) 2);
      simpl; try lia; by rewrite ?andb_true_r.
  - symmetry. destruct Hdisj.
    + apply (high_bit_zero st 2); lia.
    + apply Z.testbit_neg_r. lia.
Qed.

Lemma set_state_bits_range u shift st :
  0 <= u < 2 ^ 32 -> 0 <= set_state_bits u shift st < 2 ^ 32.
Proof.
  intros Hu. unfold set_state_bits.
  set (a := Z.land _ _). set (b := u32 (Z.shiftl st shift)).
  assert (Ha : 0 <= a) by (apply Z.land_nonneg; left; lia).
  pose proof (u32_range (Z.shiftl st shift)) as Hb. fold b in Hb.
  split; [apply Z.lor_nonneg; lia|].
  replace (Z.lor a b) with (u32 (Z.lor a b)); [apply u32_range|].
  apply Z.bits_inj'. intros n Hn. rewrite u32_bit, !Z.lor_spec by lia.
  destruct (Z.ltb_spec n 32); simpl; [done|].
  symmetry. apply orb_false_iff. split.
  - subst a. rewrite Z.land_spec, (high_bit_zero u 32) by lia. done.
  - apply (high_bit_zero b 32); lia.
Qed.

(** The state of block [ba] in a table, for specifications. *)
Definition state_of (bs : list Z) (ba : Z) : Z :=
  default BLOCK_ST_BAD (nmbm_get_block_state_raw bs ba).

Lemma get_raw_some bs ba :
  0 <= ba < 16 * zlen bs -> nmbm_get_block_state_raw bs ba = Some (state_of bs ba).
Proof.
  intros Hba. unfold state_of, nmbm_get_block_state_raw.
  change NMBM_BITMAP_BLOCKS_PER_UNIT with 16.
  destruct (znth_some bs (ba / 16)) as [u ->]; [|done].
  split; [apply Z.div_pos; lia|apply Z.div_lt_upper_bound; lia].
Qed.

Lemma state_of_range bs ba : 0 <= state_of bs ba <= 3.
Proof.
  unfold state_of, nmbm_get_block_state_raw, BLOCK_ST_MASK.
  destruct (znth bs _) as [u|]; simpl; [|unfold BLOCK_ST_BAD; lia].
  set (w := Z.shiftr _ _). change (Z.land w 3) with (Z.land w (Z.ones 2)).
  rewrite Z.land_ones by lia. pose proof (Z.mod_pos_bound w (2 ^ 2) ltac:(lia)). lia.
Qed.

Lemma state_of_set bs bs' u ba st :
  Forall (fun w => 0 <= w < 2 ^ 32) bs -> 0 <= ba -> 0 <= st <= 3 ->
  znth bs (ba / 16) = Some u ->
  zset bs (ba / 16) (set_state_bits u (ba mod 16 * 2) st) = Some bs' ->
  state_of bs' ba = st /\
  (forall b, 0 <= b -> b <> ba -> state_of bs' b = state_of bs b) /\
  Forall (fun w => 0 <= w < 2 ^ 32) bs'.
Proof.
  intros Hbs Hba Hst Hu Hset.
  assert (Hu32 : 0 <= u < 2 ^ 32).
  { unfold znth in Hu. destruct (ba / 16 <? 0); [done|].
    by apply (Forall_lookup_1 _ _ _ _ Hbs) in Hu. }
  pose proof (Z.mod_pos_bound ba 16 ltac:(lia)) as Hm.
  unfold state_of, nmbm_get_block_state_raw, BLOCK_ST_MASK.
  change NMBM_BITMAP_BLOCKS_PER_UNIT with 16. change NMBM_BITMAP_BITS_PER_BLOCK with 2.
  split_and!.
  - rewrite (znth_zset_eq _ _ _ _ Hset). simpl. apply set_state_bits_same; lia.
  - intros b Hb Hne. pose proof (Z.mod_pos_bound b 16 ltac:(lia)) as Hmb.
    destruct (Z.eq_dec (b / 16) (ba / 16)) as [E|E].
    + rewrite E, (znth_zset_eq _ _ _ _ Hset), Hu. simpl.
      apply set_state_bits_other; try lia.
      pose proof (Z.div_mod b 16 ltac:(lia)). pose proof (Z.div_mod ba 16 ltac:(lia)). lia.
    + by rewrite (znth_zset_ne _ _ _ _ _ Hset) by lia.
  - pose proof (zset_bounds _ _ _ _ Hset). rewrite zset_some in Hset by done.
    injection Hset as <-. apply Forall_insert; [done|]. by apply set_state_bits_range.
Qed.

(** ** The instance's buffers

    Sizes that [nmbm_init_structure] establishes and every operation keeps;
    they make every array access of the code fall inside its object. *)
Record buffers_ok {D} {L : nmbm_lower_device D} (s : nmbm_instance D) : Prop := {
  ok_page_cache : zlen (page_cache s) = rawpage_size;
  ok_state_len : 4 * zlen (block_state s) = state_table_size;
  ok_state_val : Forall (fun w => 0 <= w < 2 ^ 32) (block_state s);
  ok_map_len : zlen (block_mapping s) = block_count;
  ok_map_val : Forall (fun p => - 2 ^ 31 <= p < 2 ^ 31) (block_mapping s);
  ok_cache_len : zlen (info_table_cache s) = info_table_size
}.

(** The table after [nmbm_set_block_state]. *)
Definition set_state (bs : list Z) (ba st : Z) : list Z :=
  match znth bs (ba / 16) with
  | Some u => default bs (zset bs (ba / 16) (set_state_bits u (ba mod 16 * 2) (Z.land st 3)))
  | None => bs
  end.

Definition good (bs : list Z) (ba : Z) : Prop := state_of bs ba = BLOCK_ST_GOOD.
#[global] Instance good_dec bs ba : Decision (good bs ba).
Proof. unfold good. apply _. Defined.

(** The good blocks of [a, b), ascending, and of (b, a], descending. *)
Definition good_asc (bs : list Z) (a b : Z) : list Z := filter (good bs) (seqZ a (b - a)).
Definition down (a : Z) (n : nat) : list Z := (fun k => a - Z.of_nat k) <$> seq 0 n.
Definition good_desc (bs : list Z) (a b : Z) : list Z :=
  filter (good bs) (down a (Z.to_nat (a - b))).

Lemma down_S a n : down a (S n) = a :: down (a - 1) n.
Proof.
  unfold down. rewrite <- cons_seq, <- fmap_S_seq. simpl. f_equal; [lia|].
  rewrite <- list_fmap_compose. apply list_fmap_ext. intros _ k _. simpl. lia.
Qed.

Section StateFacts.
Context {D : Type} {L : nmbm_lower_device D} {GO : geometry_ok L}.
Implicit Types s : nmbm_instance D.

Lemma state_len_bound s ba :
  buffers_ok s -> 0 <= ba < block_count -> 0 <= ba < 16 * zlen (block_state s).
Proof.
  intros H Hba. pose proof (ok_state_len s H). destruct state_table_size_spec. lia.
Qed.

Lemma wp_get_block_state s ba Q :
  buffers_ok s -> 0 <= ba < block_count ->
  Q (state_of (block_state s) ba) s -> wp (nmbm_get_block_state ba) Q s.
Proof.
  intros H Hba HQ. unfold nmbm_get_block_state. wp_step. wp_step.
  eapply wp_lift; [|done]. apply get_raw_some. by apply state_len_bound.
Qed.

Lemma set_state_spec s ba st :
  buffers_ok s -> 0 <= ba < block_count -> 0 <= st <= 3 ->
  state_of (set_state (block_state s) ba st) ba = st /\
  (forall b, 0 <= b -> b <> ba ->
     state_of (set_state (block_state s) ba st) b = state_of (block_state s) b) /\
  Forall (fun w => 0 <= w < 2 ^ 32) (set_state (block_state s) ba st) /\
  zlen (set_state (block_state s) ba st) = zlen (block_state s).
Proof.
  intros H Hba Hst. pose proof (state_len_bound s ba H Hba) as Hl.
  assert (Hd : 0 <= ba / 16 < zlen (block_state s)).
  { split; [apply Z.div_pos; lia|apply Z.div_lt_upper_bound; lia]. }
  destruct (znth_some _ _ Hd) as [u Hu]. unfold set_state. rewrite Hu.
  assert (E : Z.land st 3 = st).
  { change (Z.land st 3) with (Z.land st (Z.ones 2)). rewrite Z.land_ones by lia.
    apply Z.mod_small. lia. }
  rewrite E. rewrite zset_some by done. simpl.
  destruct (state_of_set _ _ _ ba st (ok_state_val s H) (proj1 Hba) Hst Hu (zset_some _ _ _ Hd))
    as (H1 & H2 & H3).
  split_and!; [done..|]. unfold zlen. by rewrite length_insert.
Qed.

Lemma instance_eta_eq s : s <| block_state_changed := block_state_changed s |> = s.
Proof. by destruct s. Qed.

Lemma wp_set_block_state s ba st Q :
  buffers_ok s -> 0 <= ba < block_count -> 0 <= st <= 3 ->
  Q (negb (state_of (block_state s) ba =? st))
    (s <| block_state := set_state (block_state s) ba st |>
       <| block_state_changed := if state_of (block_state s) ba =? st then block_state_changed s
                                 else u32 (block_state_changed s + 1) |>) ->
  wp (nmbm_set_block_state ba st) Q s.
Proof.
  intros H Hba Hst HQ. pose proof (state_len_bound s ba H Hba) as Hl.
  assert (Hd : 0 <= ba / 16 < zlen (block_state s)).
  { split; [apply Z.div_pos; lia|apply Z.div_lt_upper_bound; lia]. }
  destruct (znth_some _ _ Hd) as [u Hu].
  assert (E : Z.land st 3 = st).
  { change (Z.land st 3) with (Z.land st (Z.ones 2)). rewrite Z.land_ones by lia.
    apply Z.mod_small. lia. }
  unfold nmbm_set_block_state, BLOCK_ST_MASK.
  change NMBM_BITMAP_BLOCKS_PER_UNIT with 16. change NMBM_BITMAP_BITS_PER_BLOCK with 2.
  rewrite E. wp_step. wp_step. wp_step. eapply wp_lift; [exact Hu|].
  wp_step. eapply wp_lift; [by apply zset_some|]. wp_step. wp_step.
  assert (Eo : Z.land (Z.shiftr u (ba mod 16 * 2)) 3 = state_of (block_state s) ba).
  { unfold state_of, nmbm_get_block_state_raw. change NMBM_BITMAP_BLOCKS_PER_UNIT with 16.
    change NMBM_BITMAP_BITS_PER_BLOCK with 2. by rewrite Hu. }
  rewrite Eo. unfold set_state in HQ. rewrite Hu, E, zset_some in HQ by done. simpl in HQ.
  destruct (state_of (block_state s) ba =? st) eqn:?; simpl in *.
  - apply wp_ret. clear - HQ. by destruct s.
  - wp_steps. exact HQ.
Qed.

Lemma buffers_ok_set_state s ba st c :
  buffers_ok s -> 0 <= ba < block_count -> 0 <= st <= 3 ->
  buffers_ok (s <| block_state := set_state (block_state s) ba st |>
                <| block_state_changed := c |>).
Proof.
  intros H Hba Hst. destruct (set_state_spec s ba st H Hba Hst) as (_ & _ & Hv & Hl).
  destruct H. constructor; simpl; try done. by rewrite Hl.
Qed.

(** *** Walks *)

Lemma good_asc_nil bs a b : b <= a -> good_asc bs a b = [].
Proof. intros. unfold good_asc. by rewrite seqZ_nil by lia. Qed.

Lemma good_asc_cons bs a b :
  a < b -> good_asc bs a b =
           if decide (good bs a) then a :: good_asc bs (a + 1) b else good_asc bs (a + 1) b.
Proof.
  intros. unfold good_asc. rewrite seqZ_cons by lia.
  replace (Z.pred (b - a)) with (b - (a + 1)) by lia.
  rewrite filter_cons. done.
Qed.

Lemma good_desc_nil bs a b : a <= b -> good_desc bs a b = [].
Proof. intros. unfold good_desc. replace (Z.to_nat (a - b)) with O by lia. done. Qed.

Lemma good_desc_cons bs a b :
  b < a -> good_desc bs a b =
           if decide (good bs a) then a :: good_desc bs (a - 1) b else good_desc bs (a - 1) b.
Proof.
  intros. unfold good_desc. replace (Z.to_nat (a - b)) with (S (Z.to_nat (a - 1 - b))) by lia.
  rewrite down_S, filter_cons. done.
Qed.

Lemma elem_of_good_asc bs a b x : x ∈ good_asc bs a b <-> a <= x < b /\ good bs x.
Proof.
  unfold good_asc. rewrite list_elem_of_filter, elem_of_seqZ.
  split; intros [? ?]; split; try done; lia.
Qed.

Lemma elem_of_good_desc bs a b x : x ∈ good_desc bs a b <-> b < x <= a /\ good bs x.
Proof.
  unfold good_desc, down. rewrite list_elem_of_filter, list_elem_of_fmap. split.
  - intros [? (k & -> & Hk%elem_of_seq)]. split; [lia|done].
  - intros [Hx ?]. split; [done|]. exists (Z.to_nat (a - x)). split; [lia|].
    apply elem_of_seq. lia.
Qed.

(** The limit a walk really uses. *)
Definition walk_limit (limit : Z) : Z :=
  if block_count <=? limit then block_count - 1 else limit.

Lemma walk_limit_spec limit : walk_limit limit = Z.min limit (block_count - 1).
Proof. unfold walk_limit. destruct (Z.leb_spec block_count limit); lia. Qed.

Lemma walk_asc_ok s ba count limit Q :
  buffers_ok s -> 0 <= ba -> 0 <= count < 2 ^ 31 ->
  Q (good_asc (block_state s) ba (walk_limit limit) !! Z.to_nat count) s ->
  wp (nmbm_block_walk_asc ba count limit) Q s.
Proof.
  intros H Hba Hc HQ. pose proof block_count_bounds as Hbc.
  unfold nmbm_block_walk_asc. rewrite i32_small by lia. rewrite u32_small by lia.
  fold (walk_limit limit). pose proof (walk_limit_spec limit) as Hwl.
  set (lim := walk_limit limit) in *.
  apply (wp_iter
    (fun x s' => let '(b, nb) := x in
       s' = s /\ ba <= b /\ 0 <= nb < 2 ^ 31 /\
       good_asc (block_state s) ba lim !! Z.to_nat count =
       good_asc (block_state s) b lim !! Z.to_nat nb)
    (fun x _ => Z.to_nat (lim - fst x))); cycle 1.
  { split_and!; try done; lia. }
  { simpl. lia. }
  intros [b nb] s' (-> & Hb & Hnb & Heq). unfold walk_asc_body.
  destruct (Z.ltb_spec b lim); cycle 1.
  { apply wp_ret. rewrite Heq, good_asc_nil in HQ by lia. by rewrite lookup_nil in HQ. }
  wp_step. apply wp_get_block_state; [done|lia|].
  rewrite (good_asc_cons _ b) in Heq by lia.
  destruct (Z.eqb_spec (state_of (block_state s) b) BLOCK_ST_GOOD) as [E|E].
  - rewrite decide_True in Heq by exact E. rewrite i32_small by lia.
    destruct (Z.ltb_spec (nb - 1) 0).
    + apply wp_ret. replace (Z.to_nat nb) with O in Heq by lia. by rewrite Heq in HQ.
    + apply wp_ret. rewrite u32_small by lia. split; [|simpl; lia].
      split_and!; try done; try lia. rewrite Heq.
      replace (Z.to_nat nb) with (S (Z.to_nat (nb - 1))) by lia. done.
  - rewrite decide_False in Heq by exact E. destruct (Z.ltb_spec nb 0); [lia|].
    apply wp_ret. rewrite u32_small by lia. split; [|simpl; lia].
    split_and!; try done; lia.
Qed.

Lemma walk_desc_ok s ba count limit Q :
  buffers_ok s -> 0 <= ba < block_count -> 0 <= count < 2 ^ 31 -> 0 <= limit ->
  Q (good_desc (block_state s) ba (walk_limit limit) !! Z.to_nat count) s ->
  wp (nmbm_block_walk_desc ba count limit) Q s.
Proof.
  intros H Hba Hc Hl HQ. pose proof block_count_bounds as Hbc.
  unfold nmbm_block_walk_desc. rewrite i32_small by lia. rewrite u32_small by lia.
  fold (walk_limit limit). pose proof (walk_limit_spec limit) as Hwl.
  set (lim := walk_limit limit) in *.
  apply (wp_iter
    (fun x s' => let '(b, nb) := x in
       s' = s /\ 0 <= b <= ba /\ 0 <= nb < 2 ^ 31 /\
       good_desc (block_state s) ba lim !! Z.to_nat count =
       good_desc (block_state s) b lim !! Z.to_nat nb)
    (fun x _ => Z.to_nat (fst x - lim))); cycle 1.
  { split_and!; try done; lia. }
  { simpl. lia. }
  intros [b nb] s' (-> & Hb & Hnb & Heq). unfold walk_desc_body.
  destruct (Z.ltb_spec lim b); cycle 1.
  { apply wp_ret. rewrite Heq, good_desc_nil in HQ by lia. by rewrite lookup_nil in HQ. }
  wp_step. apply wp_get_block_state; [done|lia|].
  rewrite (good_desc_cons _ b) in Heq by lia.
  destruct (Z.eqb_spec (state_of (block_state s) b) BLOCK_ST_GOOD) as [E|E].
  - rewrite decide_True in Heq by exact E. rewrite i32_small by lia.
    destruct (Z.ltb_spec (nb - 1) 0).
    + apply wp_ret. replace (Z.to_nat nb) with O in Heq by lia. by rewrite Heq in HQ.
    + apply wp_ret. rewrite u32_small by lia. split; [|simpl; lia].
      split_and!; try done; try lia. rewrite Heq.
      replace (Z.to_nat nb) with (S (Z.to_nat (nb - 1))) by lia. done.
  - rewrite decide_False in Heq by exact E. destruct (Z.ltb_spec nb 0); [lia|].
    apply wp_ret. rewrite u32_small by lia. split; [|simpl; lia].
    split_and!; try done; lia.
Qed.


Lemma walk_ok_asc s ba count limit Q :
  buffers_ok s -> 0 <= ba -> 0 <= count < 2 ^ 31 -> 0 <= limit < 2 ^ 31 ->
  Q (good_asc (block_state s) ba (walk_limit limit) !! Z.to_nat count) s ->
  wp (nmbm_block_walk true ba count limit) Q s.
Proof.
  intros. unfold nmbm_block_walk. rewrite !u32_i32, !u32_small by lia.
  by apply walk_asc_ok.
Qed.

Lemma walk_ok_desc s ba count limit Q :
  buffers_ok s -> 0 <= ba < block_count -> 0 <= count < 2 ^ 31 -> 0 <= limit < 2 ^ 31 ->
  Q (good_desc (block_state s) ba (walk_limit limit) !! Z.to_nat count) s ->
  wp (nmbm_block_walk false ba count limit) Q s.
Proof.
  intros. unfold nmbm_block_walk. rewrite !u32_i32, !u32_small by lia.
  by apply walk_desc_ok; [..|lia|].
Qed.

(** A reservation skips as many of the wanted good blocks as there are. *)
Lemma try_reserve_ok s ba count limit Q :
  buffers_ok s -> 0 <= ba -> 0 <= count < 2 ^ 31 -> 0 <= limit < 2 ^ 31 ->
  (let l := good_asc (block_state s) ba (walk_limit limit) in
   Q (l !! Nat.min (Z.to_nat count) (length l - 1)) s) ->
  wp (nmbm_try_reserve_blocks ba count 0 limit) Q s.
Proof.
  intros H Hba Hc Hl HQ. simpl in HQ. unfold nmbm_try_reserve_blocks.
  rewrite !i32_small by lia. set (l := good_asc _ _ _) in HQ.
  apply (wp_iter
    (fun n s' => s' = s /\ -1 <= n <= count /\ (n = count \/ (length l <= Z.to_nat (n + 1))%nat))
    (fun n _ => Z.to_nat (n + 1))); [|by split_and!; try lia; auto|lia].
  intros n s' (-> & Hn & Hfail). unfold try_reserve_body.
  destruct (Z.leb_spec 0 n) as [Hn0|Hn0].
  - wp_step. apply walk_ok_asc; [done|lia..|]. fold l.
    destruct (l !! Z.to_nat n) as [nba|] eqn:E.
    + apply wp_ret. rewrite <- E. pose proof (lookup_lt_Some _ _ _ E).
      replace (Z.to_nat n) with (Nat.min (Z.to_nat count) (length l - 1)); [done|].
      destruct Hfail as [->|]; lia.
    + apply lookup_ge_None in E. apply wp_ret. rewrite i32_small by lia.
      split; [|lia]. split_and!; [done|lia..|]. right. lia.
  - apply wp_ret. assert (n = -1) as -> by lia.
    replace (l !! _) with (@None Z) in HQ; [done|].
    symmetry. apply lookup_ge_None. lia.
Qed.

(** *** The initial mapping table *)

Definition nonbad_asc (bs : list Z) (a b : Z) : list Z :=
  filter (fun x => state_of bs x <> BLOCK_ST_BAD) (seqZ a (b - a)).

Lemma nonbad_asc_snoc bs b :
  0 <= b -> nonbad_asc bs 0 (b + 1) =
    nonbad_asc bs 0 b ++ (if state_of bs b =? BLOCK_ST_BAD then [] else [b]).
Proof.
  intros Hb. unfold nonbad_asc. replace (b + 1 - 0) with ((b - 0) + 1) by lia.
  rewrite seqZ_app by lia. rewrite filter_app. f_equal.
  replace (seqZ (0 + (b - 0)) 1) with [b] by (unfold seqZ; simpl; f_equal; lia).
  rewrite filter_cons, filter_nil.
  destruct (Z.eqb_spec (state_of bs b) BLOCK_ST_BAD), (decide _); done.
Qed.

Lemma nonbad_asc_length bs b : 0 <= b -> zlen (nonbad_asc bs 0 b) <= b.
Proof.
  intros Hb. unfold nonbad_asc, zlen.
  pose proof (length_filter (fun x => state_of bs x <> BLOCK_ST_BAD) (seqZ 0 (b - 0))) as Hl.
  rewrite length_seqZ in Hl. lia.
Qed.

Lemma insert_at_length {A} (l1 l2 : list A) n x :
  length l1 = n -> (n < length l2)%nat -> 
  <[n := x]> (l1 ++ drop n l2) = (l1 ++ [x]) ++ drop (S n) l2.
Proof.
  intros Hn Hlt. destruct (lookup_lt_is_Some_2 l2 n Hlt) as [y Hy].
  rewrite (drop_S _ y) by done. rewrite insert_app_r_alt by lia.
  replace (n - length l1)%nat with O by lia. simpl. by rewrite <- app_assoc.
Qed.

Lemma buffers_ok_mapping s bm :
  buffers_ok s -> zlen bm = block_count ->
  Forall (fun p => - 2 ^ 31 <= p < 2 ^ 31) bm ->
  buffers_ok (s <| block_mapping := bm |>).
Proof. intros [] ? ?. by constructor. Qed.

(** The table with its first entries replaced by [pre]. *)
Definition overwrite (pre bm : list Z) : list Z := pre ++ drop (length pre) bm.

Lemma overwrite_zlen pre bm : zlen pre <= zlen bm -> zlen (overwrite pre bm) = zlen bm.
Proof. unfold overwrite, zlen. rewrite length_app, length_drop. lia. Qed.

Lemma overwrite_forall (P : Z -> Prop) pre bm :
  Forall P pre -> Forall P bm -> Forall P (overwrite pre bm).
Proof. intros. apply Forall_app. split; [done|]. by apply Forall_drop. Qed.

Lemma overwrite_set pre bm x :
  zlen pre < zlen bm -> zset (overwrite pre bm) (zlen pre) x = Some (overwrite (pre ++ [x]) bm).
Proof.
  intros Hl. rewrite zset_some; [|rewrite overwrite_zlen; pose proof (zlen_nonneg pre); lia].
  f_equal. unfold overwrite, zlen in *. rewrite Nat2Z.id, insert_at_length by lia.
  rewrite length_app. simpl. f_equal. f_equal. lia.
Qed.

Lemma nonbad_asc_range bs b :
  b <= 2 ^ 24 -> Forall (fun p => - 2 ^ 31 <= p < 2 ^ 31) (nonbad_asc bs 0 b).
Proof.
  intros Hb. apply Forall_forall. intros x. unfold nonbad_asc.
  rewrite list_elem_of_filter, elem_of_seqZ. lia.
Qed.

Lemma build_first_loop s :
  buffers_ok s -> 0 <= mgmt_start_ba s <= block_count ->
  wp (iter (S (Z.to_nat (mgmt_start_ba s))) build_map_body (0, 0))
     (fun lb s' =>
        let l := nonbad_asc (block_state s) 0 (mgmt_start_ba s) in
        lb = zlen l /\ s' = s <| block_mapping := overwrite l (block_mapping s) |>) s.
Proof.
  intros H Hm. pose proof block_count_bounds as Hbc.
  apply (wp_iter
    (fun x s' => let '(pb, lb) := x in
       let l := nonbad_asc (block_state s) 0 pb in
       0 <= pb <= mgmt_start_ba s /\ lb = zlen l /\
       s' = s <| block_mapping := overwrite l (block_mapping s) |>)
    (fun x _ => Z.to_nat (mgmt_start_ba s - fst x))); cycle 1.
  { simpl. split_and!; [lia..|done|]. by destruct s. }
  { simpl. lia. }
  intros [pb lb] s' (Hpb & -> & ->). unfold build_map_body. wp_step. wp_step. simpl.
  pose proof (nonbad_asc_length (block_state s) pb ltac:(lia)) as Hlen.
  pose proof (ok_map_len s H) as Hml.
  destruct (Z.ltb_spec pb (mgmt_start_ba s)) as [Hlt|Hge]; cycle 1.
  { apply wp_ret. by replace (mgmt_start_ba s) with pb by lia. }
  pose proof (nonbad_asc_snoc (block_state s) pb ltac:(lia)) as Hsnoc.
  wp_step. apply wp_get_block_state; [|lia|simpl].
  { apply buffers_ok_mapping; [done|by rewrite overwrite_zlen; lia|].
    apply overwrite_forall; [apply nonbad_asc_range; lia|apply H]. }
  destruct (state_of (block_state s) pb =? BLOCK_ST_BAD).
  - apply wp_ret. rewrite u32_small by lia. rewrite Hsnoc, app_nil_r. simpl.
    split_and!; try done; lia.
  - wp_step. wp_step. wp_step. simpl.
    eapply wp_lift; [apply overwrite_set; lia|]. wp_step. wp_step. wp_step.
    rewrite i32_small by lia.
    rewrite !u32_small by (pose proof (zlen_nonneg (nonbad_asc (block_state s) 0 pb)); lia).
    rewrite Hsnoc, zlen_app. simpl. split_and!; try done; lia.
Qed.

Lemma build_second_loop s l :
  buffers_ok s -> zlen l <= block_count ->
  wp (iter (S (Z.to_nat block_count)) unmap_body (zlen l))
     (fun _ s' => s' = s <| block_mapping := l ++ replicate (Z.to_nat (block_count - zlen l)) (-1) |>)
     (s <| block_mapping := overwrite l (block_mapping s) |>).
Proof.
  intros H Hl. pose proof block_count_bounds as Hbc. pose proof (zlen_nonneg l) as Hl0.
  pose proof (ok_map_len s H) as Hml.
  assert (Hpre : forall pb, zlen l <= pb ->
    zlen (l ++ replicate (Z.to_nat (pb - zlen l)) (-1)) = pb).
  { intros pb Hpb. unfold zlen in *. rewrite length_app, length_replicate. lia. }
  apply (wp_iter
    (fun pb s' => zlen l <= pb <= block_count /\
       s' = s <| block_mapping :=
         overwrite (l ++ replicate (Z.to_nat (pb - zlen l)) (-1)) (block_mapping s) |>)
    (fun pb _ => Z.to_nat (block_count - pb))); cycle 1.
  { split; [lia|]. replace (Z.to_nat (zlen l - zlen l)) with O by lia. simpl.
    by rewrite app_nil_r. }
  { lia. }
  intros pb s' (Hpb & ->). unfold unmap_body.
  destruct (Z.ltb_spec pb block_count); cycle 1.
  { apply wp_ret. assert (pb = block_count) as -> by lia. unfold overwrite.
    rewrite drop_ge, app_nil_r; [done|].
    specialize (Hpre block_count Hl). unfold zlen in *. lia. }
  wp_step. wp_step. wp_step. simpl.
  pose proof (Hpre pb ltac:(lia)) as Hp.
  pose proof (overwrite_set (l ++ replicate (Z.to_nat (pb - zlen l)) (-1))
                (block_mapping s) (-1) ltac:(lia)) as Hset. rewrite Hp in Hset.
  eapply wp_lift; [exact Hset|].
  wp_step. wp_step. wp_step. rewrite u32_small by lia. simpl. split; [|lia].
  split; [lia|]. instance_eq. f_equal.
  replace (Z.to_nat (pb + 1 - zlen l)) with (Z.to_nat (pb - zlen l) + 1)%nat by lia.
  rewrite replicate_add, app_assoc. done.
Qed.

Lemma build_mapping_table_ok s :
  buffers_ok s -> 0 <= mgmt_start_ba s <= block_count ->
  let l := nonbad_asc (block_state s) 0 (mgmt_start_ba s) in
  nmbm_build_mapping_table s =
  Ret tt (s <| block_mapping := l ++ replicate (Z.to_nat (block_count - zlen l)) (-1) |>
            <| data_block_count := zlen l |>).
Proof.
  intros H Hm l.
  pose proof (nonbad_asc_length (block_state s) (mgmt_start_ba s) ltac:(lia)) as Hlen.
  enough (W : wp nmbm_build_mapping_table
    (fun _ s' => s' = s <| block_mapping := l ++ replicate (Z.to_nat (block_count - zlen l)) (-1) |>
            <| data_block_count := zlen l |>) s).
  { apply wp_run in W as ([] & s' & E & ->). done. }
  unfold nmbm_build_mapping_table. wp_step. wp_step. wp_step.
  wp_call build_first_loop; [done|done|]. intros lb s' [-> ->]. wp_step. wp_step.
  wp_call (build_second_loop (s <| data_block_count := zlen l |>) l).
  - by destruct H.
  - unfold l. lia.
  - by intros [] s' ->.
Qed.

End StateFacts.
