(* ===== verification/NmbmNand.v ===== *)
(** * The lower device as a NAND chip

    NMBM sees the chip only through the function pointers of
    [struct nmbm_lower_device].  [nand_laws] states what a NAND chip and its
    driver promise about them, in terms of the main-area bytes of each page;
    nothing is assumed about when an operation fails.  The lemmas lift the
    laws to the retrying operations of [NmbmPhys]. *)

From stdpp Require Import base numbers list.
From Stdlib Require Import ZArith Lia.
From S2P Require Import Prelude IntLib NmbmTypes NmbmPhys.

(** The bytes a successful read of the page at an address delivers. *)
Class NandModel (D : Type) := page_at : D -> Z -> list Z.

Definition same_outside {D} {P : NandModel D} (W : Z -> Prop) (d d' : D) : Prop :=
  forall p, ~ W p -> page_at d' p = page_at d p.

Definition in_block {D} {L : nmbm_lower_device D} (ba p : Z) : Prop :=
  ba * erasesize <= p < (ba + 1) * erasesize.

Definition erased_page {D} {L : nmbm_lower_device D} : list Z := fill 0xff writesize.

Class nand_laws {D} (L : nmbm_lower_device D) (P : NandModel D) : Prop := {
  law_page_len d p : zlen (page_at d p) = writesize;
  law_page_byte d p : Forall is_byte (page_at d p);
  (** Reading changes no page; a successful read through error correction
      delivers the page.  Nothing is said of what a raw read delivers. *)
  law_read d a data oob mode d' r data' oob' :
    read_page d a data oob mode = (d', r, data', oob') ->
    same_outside (fun _ => False) d d' /\
    (forall b, data = Some b -> zlen data' = zlen b) /\
    (forall b, oob = Some b -> zlen oob' = zlen b) /\
    (r = 0 -> mode <> NMBM_MODE_RAW -> (writesize | a) ->
     forall b, data = Some b -> zlen b = writesize -> data' = page_at d a);
  (** Programming at the address of a page touches that page and only clears
      bits it is asked to clear: all of them when it succeeds, some of them
      when it fails.  Nothing is said of addresses inside a page. *)
  law_write d a data oob mode d' r :
    (writesize | a) -> write_page d a data oob mode = (d', r) ->
    same_outside (fun p => p = a) d d' /\
    (forall b, data = Some b -> zlen b = writesize -> mode <> NMBM_MODE_RAW ->
     zip_with Z.land (page_at d' a) b = zip_with Z.land (page_at d a) b /\
     (r = 0 -> page_at d' a = zip_with Z.land (page_at d a) b));
  (** Erasing touches one block; a successful erase leaves it blank. *)
  law_erase d ba d' r :
    erase_block d (ba * erasesize) = (d', r) ->
    same_outside (in_block ba) d d' /\
    (r = 0 -> forall p, in_block ba p -> (writesize | p) -> page_at d' p = erased_page);
  law_reset f d : reset_chip = Some f -> same_outside (fun _ => False) d (f d);
  law_is_bad f d a d' r :
    is_bad_block = Some f -> f d a = (d', r) -> same_outside (fun _ => False) d d';
  law_mark_bad f d ba d' r :
    mark_bad_block = Some f -> f d (ba * erasesize) = (d', r) -> same_outside (in_block ba) d d'
}.

Section Outside.
Context {D : Type} {P : NandModel D}.
Implicit Types W : Z -> Prop.

Lemma same_outside_refl W d : same_outside W d d.
Proof. done. Qed.

Lemma same_outside_trans W d1 d2 d3 :
  same_outside W d1 d2 -> same_outside W d2 d3 -> same_outside W d1 d3.
Proof. intros H1 H2 p Hp. by rewrite H2, H1. Qed.

Lemma same_outside_weaken W W' d d' :
  (forall p, W p -> W' p) -> same_outside W d d' -> same_outside W' d d'.
Proof. intros Hw H p Hp. apply H. auto. Qed.

Lemma same_all_at d d' p : same_outside (fun _ => False) d d' -> page_at d' p = page_at d p.
Proof. intros H. apply H. tauto. Qed.

End Outside.

Create HintDb nand discriminated.
#[export] Hint Resolve same_outside_refl : nand.

Section PhysSpecs.
Context {D : Type} {L : nmbm_lower_device D} {P : NandModel D}.
Context {GO : geometry_ok L} {NL : nand_laws L P}.
Implicit Types s : nmbm_instance D.

Lemma reset_ok s Q :
  (forall d', same_outside (fun _ => False) (dev s) d' -> Q tt (s <| dev := d' |>)) ->
  wp nmbm_reset_chip Q s.
Proof.
  intros HQ. unfold nmbm_reset_chip. destruct reset_chip as [f|] eqn:E.
  - wp_steps. apply HQ. by apply law_reset.
  - wp_steps. specialize (HQ (dev s) (same_outside_refl _ _)). by destruct s.
Qed.

Definition buf_len_eq (o o' : option (list Z)) : Prop :=
  match o, o' with
  | Some b, Some b' => zlen b' = zlen b
  | None, None => True
  | _, _ => False
  end.

Lemma buf_len_eq_refl o : buf_len_eq o o.
Proof. by destruct o. Qed.

(** A page that never fails to read. *)
Definition reliable_page (a : Z) : Prop :=
  forall d data oob mode, snd (fst (fst (read_page d a data oob mode))) = 0.

(** What a page read with retry guarantees. *)
Definition read_post (d0 : D) (a : Z) (data oob : option (list Z)) (mode : nmbm_oob_mode)
    (x : Z * option (list Z) * option (list Z)) (d' : D) : Prop :=
  let '(r, data', oob') := x in
  same_outside (fun _ => False) d0 d' /\
  buf_len_eq data data' /\ buf_len_eq oob oob' /\
  (r = 0 -> mode <> NMBM_MODE_RAW -> (writesize | a) ->
   forall b, data = Some b -> zlen b = writesize -> data' = Some (page_at d0 a)) /\
  (reliable_page a -> r = 0).

Lemma read_retry_ok tries s r a data oob mode :
  (tries = O -> r <> 0 /\ ~ reliable_page a) ->
  wp (read_retry tries r a data oob mode)
     (fun x s' => exists d', s' = s <| dev := d' |> /\ read_post (dev s) a data oob mode x d') s.
Proof.
  revert s r data oob. induction tries as [|n IH]; intros s r data oob Hr.
  - apply wp_ret. exists (dev s). split; [by destruct s|]. unfold read_post.
    destruct (Hr eq_refl) as [Hr1 Hr2].
    split_and!; auto using same_outside_refl, buf_len_eq_refl; by intros.
  - cbn [read_retry]. wp_step. wp_step.
    destruct (read_page (dev s) a data oob mode) as [[[d1 r1] data1] oob1] eqn:E.
    assert (Hnr : r1 <> 0 -> ~ reliable_page a).
    { intros Hne Hrel. apply Hne. by rewrite <- (Hrel (dev s) data oob mode), E. }
    apply law_read in E as (Hs1 & Hd1 & Ho1 & Hok).
    wp_step. wp_step.
    assert (Hbd : buf_len_eq data ((fun _ => data1) <$> data)) by (destruct data; simpl; auto).
    assert (Hbo : buf_len_eq oob ((fun _ => oob1) <$> oob)) by (destruct oob; simpl; auto).
    destruct (Z.eqb_spec r1 0) as [->|Hne].
    + apply wp_ret. exists d1. split; [done|]. unfold read_post. split_and!; auto.
      intros _ Hm Ha b Hb Hlen. rewrite Hb. simpl. f_equal. by eapply Hok.
    + wp_step. apply reset_ok. simpl. intros d2 Hs2.
      eapply wp_conseq; [apply IH; auto|]. cbv beta.
      intros [[r' data'] oob'] s' (d' & -> & Hs' & Hbd' & Hbo' & Hok' & Hrel'). simpl in *.
      assert (Hs : same_outside (fun _ => False) (dev s) d2)
        by (eapply same_outside_trans; eauto).
      exists d'. split; [done|]. unfold read_post. split_and!.
      * eapply same_outside_trans; eauto.
      * destruct data, data'; simpl in *; try done; congruence.
      * destruct oob, oob'; simpl in *; try done; congruence.
      * intros -> Hm Ha b -> Hlen. rewrite <- (same_all_at _ _ a Hs).
        apply (Hok' eq_refl Hm Ha data1); [done|]. by rewrite (Hd1 b).
      * done.
Qed.

Lemma read_phys_ok s a data oob mode Q :
  (forall x d', read_post (dev s) a data oob mode x d' -> Q x (s <| dev := d' |>)) ->
  wp (nmbm_read_phys_page a data oob mode) Q s.
Proof.
  intros HQ. eapply wp_conseq; [by apply read_retry_ok|]. cbv beta.
  intros x s' (d' & -> & Hp). by apply HQ.
Qed.

Lemma zip_land_l b x y z :
  zip_with Z.land x b = zip_with Z.land y b -> z = zip_with Z.land x b ->
  z = zip_with Z.land y b.
Proof. congruence. Qed.

(** The chip never fails to program the page, or to erase the block. *)
Definition programmable (a : Z) : Prop :=
  forall d data oob mode, snd (write_page d a data oob mode) = 0.
Definition erasable (ba : Z) : Prop := forall d, snd (erase_block d (ba * erasesize)) = 0.

(** A block in working order: the chip never fails to erase it, nor to
    program or read one of its pages. *)
Definition sound (ba : Z) : Prop :=
  erasable ba /\ forall a, in_block ba a -> (writesize | a) -> programmable a /\ reliable_page a.

Lemma write_retry_ok tries s a data oob mode :
  wp (write_retry tries a data oob mode)
     (fun ok s' => exists d', s' = s <| dev := d' |> /\
        ((writesize | a) -> same_outside (fun p => p = a) (dev s) d' /\
         (forall b, data = Some b -> zlen b = writesize -> mode <> NMBM_MODE_RAW -> ok = true ->
          page_at d' a = zip_with Z.land (page_at (dev s) a) b)) /\
        (tries <> O -> programmable a -> ok = true)) s.
Proof.
  revert s. induction tries as [|n IH]; intros s.
  - apply wp_ret. exists (dev s). split_and!; [by destruct s|by auto with nand|done].
  - cbn [write_retry]. wp_step. wp_step.
    destruct (write_page (dev s) a data oob mode) as [d1 r1] eqn:E.
    pose proof (f_equal snd E) as Er. wp_step. wp_step.
    destruct (Z.eqb_spec r1 0) as [->|Hne].
    + apply wp_ret. exists d1. split_and!; [done| |done]. intros Ha.
      apply (law_write _ _ _ _ _ _ _ Ha) in E as [Hs1 Hok]. split; [done|].
      intros b Hb Hl Hm _. destruct (Hok b Hb Hl Hm) as [_ H]. auto.
    + wp_step. apply reset_ok. simpl. intros d2 Hs2.
      eapply wp_conseq; [by apply IH|]. cbv beta.
      intros ok s' (d' & -> & H' & _). simpl in *. exists d'. split_and!; [done| |].
      * intros Ha. apply (law_write _ _ _ _ _ _ _ Ha) in E as [Hs1 Hok].
        destruct (H' Ha) as [Hs' Hok']. split.
        -- eapply same_outside_trans; [exact Hs1|]. eapply same_outside_trans; [|exact Hs'].
           by eapply same_outside_weaken; [|exact Hs2].
        -- intros b Hb Hl Hm ->. rewrite (Hok' b Hb Hl Hm eq_refl).
           destruct (Hok b Hb Hl Hm) as [H _]. by rewrite (same_all_at _ _ a Hs2).
      * intros _ Hp. exfalso. apply Hne. rewrite <- Er. apply Hp.
Qed.

(** At any address, only the device changes. *)
Lemma write_phys_any s a data oob mode Q :
  (forall ok d',
     ((writesize | a) -> same_outside (fun p => p = a) (dev s) d' /\
      (forall b, data = Some b -> zlen b = writesize -> mode <> NMBM_MODE_RAW -> ok = true ->
       page_at d' a = zip_with Z.land (page_at (dev s) a) b)) ->
     (programmable a -> ok = true) -> Q ok (s <| dev := d' |>)) ->
  wp (nmbm_write_phys_page a data oob mode) Q s.
Proof.
  intros HQ. eapply wp_conseq; [by apply write_retry_ok|]. cbv beta.
  intros ok s' (d' & -> & ? & ?). apply HQ; auto.
Qed.

Lemma write_phys_ok s a data oob mode Q :
  (writesize | a) ->
  (forall ok d', same_outside (fun p => p = a) (dev s) d' ->
     (forall b, data = Some b -> zlen b = writesize -> mode <> NMBM_MODE_RAW -> ok = true ->
      page_at d' a = zip_with Z.land (page_at (dev s) a) b) ->
     (programmable a -> ok = true) -> Q ok (s <| dev := d' |>)) ->
  wp (nmbm_write_phys_page a data oob mode) Q s.
Proof. intros Ha HQ. apply write_phys_any. intros ok d' H Hp. destruct (H Ha). by apply HQ. Qed.

Definition erased_block (d : D) (ba : Z) : Prop :=
  forall p, in_block ba p -> (writesize | p) -> page_at d p = erased_page.

Lemma erase_retry_ok tries s ba :
  wp (erase_retry tries (ba * erasesize))
     (fun ok s' => exists d', s' = s <| dev := d' |> /\
        same_outside (in_block ba) (dev s) d' /\ (ok = true -> erased_block d' ba) /\
        (tries <> O -> erasable ba -> ok = true)) s.
Proof.
  revert s. induction tries as [|n IH]; intros s.
  - apply wp_ret. exists (dev s). split_and!; [by destruct s|auto with nand|done|done].
  - cbn [erase_retry]. wp_step. wp_step.
    destruct (erase_block (dev s) (ba * erasesize)) as [d1 r1] eqn:E.
    pose proof (f_equal snd E) as Er. apply law_erase in E as (Hs1 & Hok). wp_step. wp_step.
    destruct (Z.eqb_spec r1 0) as [->|Hne].
    + apply wp_ret. exists d1. split_and!; [done..| |done]. intros _. exact (Hok eq_refl).
    + wp_step. apply reset_ok. simpl. intros d2 Hs2.
      eapply wp_conseq; [by apply IH|]. cbv beta.
      intros ok s' (d' & -> & Hs' & Hok' & _). simpl in *. exists d'. split_and!; [done|..|done|].
      * eapply same_outside_trans; [exact Hs1|]. eapply same_outside_trans; [|exact Hs'].
        by eapply same_outside_weaken; [|exact Hs2].
      * intros _ Hp. exfalso. apply Hne. rewrite <- Er. apply Hp.
Qed.

Lemma erase_phys_ok s ba Q :
  0 <= ba < 2 ^ 32 ->
  (forall ok d', same_outside (in_block ba) (dev s) d' -> (ok = true -> erased_block d' ba) ->
     (erasable ba -> ok = true) -> Q ok (s <| dev := d' |>)) ->
  wp (nmbm_erase_phys_block (ba2addr ba)) Q s.
Proof.
  intros Hba HQ. rewrite ba2addr_spec by done.
  eapply wp_conseq; [by apply erase_retry_ok|]. cbv beta.
  intros ok s' (d' & -> & ? & ? & ?). apply HQ; auto.
Qed.

(** Steps that may change the device and the page buffer only. *)
Definition io_step (W : Z -> Prop) (s s' : nmbm_instance D) : Prop :=
  exists d' pc', s' = s <| dev := d' |> <| page_cache := pc' |> /\
                 zlen pc' = zlen (page_cache s) /\ same_outside W (dev s) d'.

Lemma io_step_intro W s d' pc' :
  zlen pc' = zlen (page_cache s) -> same_outside W (dev s) d' ->
  io_step W s (s <| dev := d' |> <| page_cache := pc' |>).
Proof. intros. by exists d', pc'. Qed.

Lemma io_step_dev W s d' : same_outside W (dev s) d' -> io_step W s (s <| dev := d' |>).
Proof. intros. exists d', (page_cache s). split_and!; [by destruct s|done..]. Qed.

Lemma io_step_refl W s : io_step W s s.
Proof. exists (dev s), (page_cache s). split_and!; [by destruct s|done..]. Qed.

Lemma io_step_trans W s1 s2 s3 : io_step W s1 s2 -> io_step W s2 s3 -> io_step W s1 s3.
Proof.
  intros (d2 & p2 & -> & Hl2 & Hs2) (d3 & p3 & -> & Hl3 & Hs3). simpl in *.
  exists d3, p3. split_and!; [done|congruence|]. eapply same_outside_trans; eauto.
Qed.

Lemma io_step_weaken W W' s s' : (forall p, W p -> W' p) -> io_step W s s' -> io_step W' s s'.
Proof.
  intros Hw (d & pc & -> & Hl & Hs). exists d, pc. split_and!; try done.
  eapply same_outside_weaken; eauto.
Qed.

Lemma read_page_cache_ok s a mode Q :
  zlen (page_cache s) = rawpage_size ->
  (forall r d' pc', same_outside (fun _ => False) (dev s) d' -> zlen pc' = rawpage_size ->
     (r = 0 -> mode <> NMBM_MODE_RAW -> (writesize | a) -> slice pc' 0 writesize = Some (page_at (dev s) a)) ->
     (reliable_page a -> r = 0) ->
     Q r (s <| dev := d' |> <| page_cache := pc' |>)) ->
  wp (read_page_cache a mode) Q s.
Proof.
  intros Hpc HQ. pose proof writesize_pos as Hw. pose proof rawpage_size_spec as Hr.
  pose proof geo_oob as Ho. unfold read_page_cache. wp_step. wp_step. wp_step.
  assert (Hsl : exists buf, slice (page_cache s) 0 writesize = Some buf /\ zlen buf = writesize).
  { eexists. split; [apply slice_some; lia|].
    unfold zlen in *. rewrite length_take, length_drop. lia. }
  destruct Hsl as (buf & Hsl & Hbl). eapply wp_lift; [exact Hsl|]. wp_step.
  apply read_phys_ok. intros [[r data] oob] d' (Hs & Hbd & _ & Hok & Hrel). wp_step.
  destruct data as [data|]; [|done]. simpl in Hbd. simpl.
  assert (Hspl : 0 + zlen data <= zlen (page_cache s)) by lia.
  pose proof (splice_some (page_cache s) 0 data ltac:(lia) Hspl) as Hsp.
  eapply wp_lift; [exact Hsp|]. wp_steps. apply HQ; [done| | |done].
  - rewrite (splice_zlen _ _ _ _ Hsp). done.
  - intros -> Hm Ha. specialize (Hok eq_refl Hm Ha buf eq_refl Hbl). injection Hok as ->.
    pose proof (slice_splice_eq _ _ _ _ Hsp) as E. by rewrite law_page_len in E.
Qed.

Lemma check_bad_ok s ba Q :
  zlen (page_cache s) = rawpage_size ->
  (forall r s', io_step (fun _ => False) s s' -> Q r s') ->
  wp (nmbm_check_bad_phys_block ba) Q s.
Proof.
  intros Hpc HQ. pose proof writesize_pos as Hw. pose proof rawpage_size_spec as Hr.
  pose proof geo_oob as Ho. unfold nmbm_check_bad_phys_block.
  destruct is_bad_block as [f|] eqn:E.
  - wp_step. wp_step. destruct (f (dev s) (ba2addr ba)) as [d' r] eqn:Ef. wp_steps.
    apply HQ, io_step_dev. by eapply law_is_bad.
  - wp_step. wp_step. wp_step. eapply wp_lift; [apply slice_some; lia|]. wp_step.
    apply read_phys_ok. intros [[r data] oob] d' (Hs & _ & Hbo & _). wp_step.
    destruct oob as [oob|]; [|done]. simpl in Hbo. simpl.
    assert (Hlo : zlen oob = oobsize).
    { rewrite Hbo. unfold zlen in *. rewrite length_take, length_drop. lia. }
    assert (Hw0 : 0 <= writesize) by lia.
    assert (Hfit : writesize + zlen oob <= zlen (page_cache s)) by lia.
    pose proof (splice_some (page_cache s) writesize oob Hw0 Hfit) as Hsp.
    pose proof (splice_zlen _ _ _ _ Hsp) as Hlp.
    eapply wp_lift; [exact Hsp|]. wp_step. wp_step.
    assert (Hio : io_step (fun _ => False) s
      (s <| dev := d' |> <| page_cache := take (Z.to_nat writesize) (page_cache s) ++ oob ++
          drop (Z.to_nat writesize + length oob) (page_cache s) |>))
      by (by apply io_step_intro).
    wp_step; [wp_steps; by apply HQ|]. wp_step.
    set (pc := take _ _ ++ _) in *.
    assert (Hin : 0 <= writesize < zlen pc) by lia.
    destruct (znth_some _ _ Hin) as [x Hx].
    eapply wp_lift; [exact Hx|]. wp_steps. by apply HQ.
Qed.

(** Addresses of the pages of a block. *)
Lemma block_addr_bounds ba k :
  0 <= ba < block_count -> 0 <= k <= pages_per_block ->
  0 <= ba * erasesize + k * writesize < 2 ^ 64 /\ 0 <= k * writesize <= erasesize.
Proof.
  intros Hba Hk. pose proof block_count_bounds. pose proof geo_erase. pose proof erasesize_pos.
  pose proof writesize_pos. destruct pages_per_block_spec as [Hp Hpe]. nia.
Qed.

Lemma page_addr_divides ba k : (writesize | ba * erasesize + k * writesize).
Proof.
  apply Z.divide_add_r; [|apply Z.divide_factor_r].
  apply Z.divide_mul_r, writesize_divides_erasesize.
Qed.

Lemma page_in_block ba k :
  0 <= k < pages_per_block -> in_block ba (ba * erasesize + k * writesize).
Proof.
  intros Hk. pose proof writesize_pos. destruct pages_per_block_spec as [Hp Hpe].
  unfold in_block. nia.
Qed.

Lemma mark_bad_loop_ok s ba :
  zlen (page_cache s) = rawpage_size -> 0 <= ba < block_count ->
  wp (iter (S (Z.to_nat pages_per_block)) (mark_bad_page (ba2addr ba)) 0)
     (fun _ s' => exists d', s' = s <| dev := d' |> /\ same_outside (in_block ba) (dev s) d') s.
Proof.
  intros Hpc Hba. pose proof writesize_pos as Hw. pose proof rawpage_size_spec as Hr.
  pose proof geo_oob as Ho. destruct pages_per_block_spec as [Hp Hpe].
  pose proof geo_erase as He. pose proof block_count_bounds as Hbc. pose proof geo_order as Hge.
  rewrite ba2addr_spec by lia.
  apply (wp_iter
    (fun off s' => exists k d', 0 <= k <= pages_per_block /\ off = k * writesize /\
       s' = s <| dev := d' |> /\ same_outside (in_block ba) (dev s) d')
    (fun off _ => Z.to_nat (pages_per_block - off / writesize))); cycle 1.
  { exists 0, (dev s). split_and!; [lia..|by destruct s|auto with nand]. }
  { rewrite Z.div_0_l by lia. lia. }
  intros off s' (k & d' & Hk & -> & -> & Hs). unfold mark_bad_page.
  destruct (block_addr_bounds ba k Hba Hk) as [Ha Hke].
  destruct (Z.ltb_spec (k * writesize) erasesize); cycle 1.
  { wp_steps. by exists d'. }
  wp_step. wp_step. wp_step. simpl. eapply wp_lift; [apply slice_some; lia|].
  wp_step. eapply wp_lift; [apply slice_some; lia|]. wp_step.
  rewrite u64_small by lia. apply write_phys_ok; [apply page_addr_divides|]. simpl. intros _ d2 Hs2 _ _. wp_step.
  assert (Hk' : k <> pages_per_block) by (intros ->; lia).
  rewrite u32_small by lia. split.
  - exists (k + 1), d2. split_and!; [lia..|done|]. eapply same_outside_trans; [exact Hs|].
    eapply same_outside_weaken; [|exact Hs2]. intros p ->. apply page_in_block. lia.
  - replace (k * writesize + writesize) with ((k + 1) * writesize) by lia.
    rewrite !Z.div_mul by lia. lia.
Qed.

Lemma mark_bad_ok s ba Q :
  zlen (page_cache s) = rawpage_size -> 0 <= ba < block_count ->
  (forall r s', io_step (in_block ba) s s' -> Q r s') ->
  wp (nmbm_mark_phys_bad_block ba) Q s.
Proof.
  intros Hpc Hba HQ. pose proof block_count_bounds as Hbc.
  pose proof writesize_pos as Hw. pose proof rawpage_size_spec as Hr. pose proof geo_oob as Ho.
  unfold nmbm_mark_phys_bad_block. destruct mark_bad_block as [f|] eqn:E.
  - wp_step. wp_step. rewrite ba2addr_spec by lia.
    destruct (f (dev s) (ba * erasesize)) as [d' r] eqn:Ef. wp_steps.
    apply HQ, io_step_dev. by eapply law_mark_bad.
  - wp_step. wp_step. wp_step.
    assert (Hf : 0 + zlen (fill 0 rawpage_size) <= zlen (page_cache s)).
    { rewrite fill_zlen; lia. }
    pose proof (splice_some (page_cache s) 0 (fill 0 rawpage_size) ltac:(lia) Hf) as Hsp.
    pose proof (splice_zlen _ _ _ _ Hsp) as Hlp. rewrite Hpc in Hlp.
    eapply wp_lift; [exact Hsp|]. unfold nmbm_set_log_level. wp_steps.
    set (pc := take _ _ ++ _) in *.
    wp_call mark_bad_loop_ok; [done|done|]. intros _ s' (d' & -> & Hs). wp_steps.
    apply HQ. exists d', pc. simpl in *. split_and!; [by destruct s|by rewrite Hlp|done].
Qed.

End PhysSpecs.
