(* ===== verification/NmbmTable.v ===== *)
(** * NMBM: checksummed structures and the info tables

    Headers and checksums, reading and writing management data, and the
    procedures that write, rebuild, rescue and update the main and backup
    info tables (drivers/mtd/nmbm/nmbm-core.c). *)

From stdpp Require Import base numbers list.
From Stdlib Require Import ZArith Lia.
From S2P Require Import Prelude IntLib Crc32 NmbmTypes NmbmPhys NmbmState.

(** [nmbm_check_header (data, size)]. *)
Definition nmbm_check_header (data : list Z) (size : Z) : option bool :=
  let header := header_of_bytes data in
  if size <? h_size header then Some false else
  let nhdr := mkHeader (h_magic header) (h_version header) (h_size header) 0 in
  let new_checksum := nmbm_crc32 0 (header_bytes nhdr) in
  let rest :=
    if sizeof_header <? h_size header
    then nmbm_crc32 new_checksum <$> slice data sizeof_header (h_size header - sizeof_header)
    else Some new_checksum in
  (fun c => h_checksum header =? c) <$> rest.

(** [nmbm_update_checksum (header)], on the bytes [header] points to. *)
Definition nmbm_update_checksum (data : list Z) : option (list Z) :=
  match splice data 12 (le_bytes 4 0) with
  | None => None
  | Some zeroed =>
      match slice zeroed 0 (h_size (header_of_bytes zeroed)) with
      | None => None
      | Some body => splice zeroed 12 (le_bytes 4 (nmbm_crc32 0 body))
      end
  end.

Section Table.
Context {D : Type} {L : nmbm_lower_device D}.
Local Abbreviation NM := (M (nmbm_instance D)).

(** [nmbm_erase_range]. *)
Definition erase_range_body (limit ba : Z) : NM (Z + unit) :=
  if ba <? limit then
    do st <- nmbm_get_block_state ba;
    (if negb (st =? BLOCK_ST_GOOD) then ret tt
     else
       do success <- nmbm_erase_phys_block (ba2addr ba);
       if success : bool then ret tt
       else
         nmbm_mark_phys_bad_block ba;;
         nmbm_set_block_state ba BLOCK_ST_BAD;;
         ret tt);;
    ret (inl (u32 (ba + 1)))
  else ret (inr tt).

Definition nmbm_erase_range (ba limit : Z) : NM unit :=
  iter (S (Z.to_nat (limit - ba))) (erase_range_body limit) ba.

(** [nmbm_write_repeated_data]. *)
Definition write_repeated_body (addr : Z) (data : list Z) (off : Z) : NM (Z + bool) :=
  if off <? erasesize then
    do pc <- gets page_cache;
    do pc <- lift (splice pc 0 data);
    do pc <- lift (splice pc (zlen data) (fill 0xff (rawpage_size - zlen data)));
    page_cache ::= pc;;
    do page <- lift (slice pc 0 writesize);
    do success <- nmbm_write_phys_page (u64 (addr + off)) (Some page) None NMBM_MODE_PLACE_OOB;
    if negb success then ret (inr false)
    else
      do r <- read_page_cache (u64 (addr + off)) NMBM_MODE_PLACE_OOB;
      if negb (r =? 0) then ret (inr false)
      else
        do pc <- gets page_cache;
        do back <- lift (slice pc 0 (zlen data));
        if bool_decide (back = data) then ret (inl (u64 (off + writesize)))
        else ret (inr false)
  else ret (inr true).

Definition nmbm_write_repeated_data (ba : Z) (data : list Z) : NM bool :=
  if writesize <? zlen data then ret false
  else iter (S (Z.to_nat pages_per_block)) (write_repeated_body (ba2addr ba) data) 0.

(** [nmbm_write_signature]: [Some] of the block written, or [None]. *)
Definition write_signature_body (limit : Z) (sig : list Z) (ba : Z) : NM (Z + option Z) :=
  if limit <? ba then
    do st <- nmbm_get_block_state ba;
    if negb (st =? BLOCK_ST_GOOD) then ret (inl (u32 (ba - 1)))
    else
      do erased <- nmbm_erase_phys_block (ba2addr ba);
      do written <- (if erased : bool then nmbm_write_repeated_data ba sig else ret false);
      if written : bool then ret (inr (Some ba))
      else
        nmbm_mark_phys_bad_block ba;;
        nmbm_set_block_state ba BLOCK_ST_BAD;;
        ret (inl (u32 (ba - 1)))
  else ret (inr None).

Definition nmbm_write_signature (limit : Z) (sig : list Z) : NM (option Z) :=
  let ba := u32 (block_count - 1) in
  iter (S (Z.to_nat (ba - limit))) (write_signature_body limit sig) ba.

(** [nmbn_read_data (addr, data, size)]: the return value and the contents
    of the buffer, which holds [buf] before the call.  [pos] is
    [ptr - data], so [sizeremain] is [zlen buf - pos]. *)
Definition read_data_body (x : Z * Z * list Z) : NM (Z * Z * list Z + Z * list Z) :=
  let '(off, pos, buf) := x in
  let sizeremain := zlen buf - pos in
  if negb (sizeremain =? 0) then
    let leading := Z.land off writesize_mask in
    let chunksize := writesize - leading in
    let chunksize := if chunksize >? sizeremain then sizeremain else chunksize in
    if chunksize =? writesize then
      do dst <- lift (slice buf pos writesize);
      do '(r, data, _) <- nmbm_read_phys_page (u64 (off - leading)) (Some dst) None NMBM_MODE_PLACE_OOB;
      do buf <- lift (splice buf pos (default [] data));
      if negb (r =? 0) then ret (inr (r, buf))
      else ret (inl (u64 (off + chunksize), pos + chunksize, buf))
    else
      do r <- read_page_cache (u64 (off - leading)) NMBM_MODE_PLACE_OOB;
      if negb (r =? 0) then ret (inr (r, buf))
      else
        do pc <- gets page_cache;
        do src <- lift (slice pc leading chunksize);
        do buf <- lift (splice buf pos src);
        ret (inl (u64 (off + chunksize), pos + chunksize, buf))
  else ret (inr (0, buf)).

Definition nmbn_read_data (addr : Z) (buf : list Z) : NM (Z * list Z) :=
  iter (S (length buf)) read_data_body (addr, 0, buf).

(** [nmbn_write_verify_data (addr, data, size)]. *)
Definition write_verify_body (data : list Z) (x : Z * Z) : NM (Z * Z + bool) :=
  let '(off, pos) := x in
  let sizeremain := zlen data - pos in
  if negb (sizeremain =? 0) then
    let leading := Z.land off writesize_mask in
    let chunksize := writesize - leading in
    let chunksize := if chunksize >? sizeremain then sizeremain else chunksize in
    do pc <- gets page_cache;
    do pc <- lift (splice pc 0 (fill 0xff rawpage_size));
    do chunk <- lift (slice data pos chunksize);
    do pc <- lift (splice pc leading chunk);
    page_cache ::= pc;;
    do page <- lift (slice pc 0 writesize);
    do success <- nmbm_write_phys_page (u64 (off - leading)) (Some page) None NMBM_MODE_PLACE_OOB;
    if negb success then ret (inr false)
    else
      do r <- read_page_cache (u64 (off - leading)) NMBM_MODE_PLACE_OOB;
      if negb (r =? 0) then ret (inr false)
      else
        do pc <- gets page_cache;
        do back <- lift (slice pc leading chunksize);
        if bool_decide (back = chunk)
        then ret (inl (u64 (off + chunksize), pos + chunksize))
        else ret (inr false)
  else ret (inr true).

Definition nmbn_write_verify_data (addr : Z) (data : list Z) : NM bool :=
  iter (S (length data)) (write_verify_body data) (addr, 0).

(** [nmbm_write_mgmt_range]: [Some (actual_start_ba, actual_end_ba)] when
    the C function returns true. *)
Definition write_mgmt_body (limit : Z) (data : list Z) (x : Z * Z * Z) :
    NM (Z * Z * Z + option (Z * Z)) :=
  let '(ba, pos, start) := x in
  let sizeremain := zlen data - pos in
  if negb (sizeremain =? 0) && (ba <? limit) then
    let chunksize := if sizeremain >? erasesize then erasesize else sizeremain in
    do st <- nmbm_get_block_state ba;
    if negb (st =? BLOCK_ST_GOOD) then ret (inl (u32 (ba + 1), pos, start))
    else
      do erased <- nmbm_erase_phys_block (ba2addr ba);
      do written <-
        (if erased : bool then
           do chunk <- lift (slice data pos chunksize);
           nmbn_write_verify_data (ba2addr ba) chunk
         else ret false);
      if written : bool then
        let start := if sizeremain =? zlen data then ba else start in
        ret (inl (u32 (ba + 1), pos + chunksize, start))
      else
        nmbm_mark_phys_bad_block ba;;
        nmbm_set_block_state ba BLOCK_ST_BAD;;
        ret (inl (u32 (ba + 1), pos, start))
  else if negb (sizeremain =? 0) then ret (inr None)
  else ret (inr (Some (start, ba))).

Definition nmbm_write_mgmt_range (ba limit : Z) (data : list Z) : NM (option (Z * Z)) :=
  iter (S (Z.to_nat (limit - ba))) (write_mgmt_body limit data) (ba, 0, 0).

(** [nmbm_generate_info_table_cache]. *)
Definition nmbm_generate_info_table_cache : NM bool :=
  do s <- gets (fun s => s);
  let it := info_table s in
  do cache <- lift (splice (info_table_cache s) 0 (fill 0xff info_table_size));
  do states <- lift (slice (words_bytes (block_state s)) 0 state_table_size);
  do cache <- lift (splice cache (state_table_off it) states);
  do maps <- lift (slice (words_bytes (map u32 (block_mapping s))) 0 mapping_table_size);
  do cache <- lift (splice cache (mapping_table_off it) maps);
  let changed := negb (block_state_changed s =? 0) || negb (block_mapping_changed s =? 0) in
  let hdr := mkHeader NMBM_MAGIC_INFO_TABLE NMBM_VER info_table_size (h_checksum (it_header it)) in
  let it := mkInfoHeader hdr
              (if changed then u32 (write_count it + 1) else write_count it)
              (state_table_off it) (mapping_table_off it) (it_padding it) in
  info_table ::= it;;
  do cache <- lift (splice cache 0 (info_table_header_bytes it));
  do cache <- lift (nmbm_update_checksum cache);
  info_table_cache ::= cache;;
  ret changed.

(** [nmbm_write_info_table]. *)
Definition nmbm_write_info_table (ba limit : Z) : NM (option (Z * Z)) :=
  do cache <- gets info_table_cache;
  do data <- lift (slice cache 0 info_table_size);
  nmbm_write_mgmt_range ba limit data.

(** [nmbm_mark_tables_clean]. *)
Definition nmbm_mark_tables_clean : NM unit :=
  block_state_changed ::= 0;;
  block_mapping_changed ::= 0.

(** [ni->mapping_blocks_top_ba - size2blk (ni, ni->info_table_size)], an
    [uint32_t] subtraction. *)
Definition top_minus_table : NM Z :=
  do top <- gets mapping_blocks_top_ba;
  ret (u32 (top - size2blk info_table_size)).

(** The second half of [nmbm_rebuild_info_table]: the backup table. *)
Definition rebuild_backup_table (main_table_end_ba : Z) : NM bool :=
  do lim <- top_minus_table;
  do next <- nmbm_try_reserve_blocks main_table_end_ba info_table_spare_blocks 0 lim;
  match next with
  | None => ret true
  | Some next_start_ba =>
      do top <- gets mapping_blocks_top_ba;
      do r <- nmbm_write_info_table next_start_ba top;
      match r with
      | None => ret true
      | Some (table_start_ba, table_end_ba) =>
          backup_table_ba ::= table_start_ba;;
          mapping_blocks_ba ::= table_end_ba;;
          nmbm_erase_range main_table_end_ba table_start_ba;;
          ret true
      end
  end.

(** [nmbm_rebuild_info_table]. *)
Definition nmbm_rebuild_info_table : NM bool :=
  main_table_ba ::= 0;;
  backup_table_ba ::= 0;;
  do top <- gets mapping_blocks_top_ba;
  mapping_blocks_ba ::= top;;
  do start <- gets mgmt_start_ba;
  do main <- nmbm_write_info_table start top;
  match main with
  | None => protected ::= 1;; ret false
  | Some (table_start_ba, table_end_ba) =>
      main_table_ba ::= table_start_ba;;
      mapping_blocks_ba ::= table_end_ba;;
      nmbm_mark_tables_clean;;
      rebuild_backup_table table_end_ba
  end.

(** [while (write_ba >= low) { write_info_table (write_ba, top); ... write_ba--; }]:
    the first table that could be written, trying lower and lower starts. *)
Definition write_down_body (low write_ba : Z) : NM (Z + option (Z * Z)) :=
  if low <=? write_ba then
    do top <- gets mapping_blocks_top_ba;
    do r <- nmbm_write_info_table write_ba top;
    match r with
    | Some se => ret (inr (Some se))
    | None => ret (inl (u32 (write_ba - 1)))
    end
  else ret (inr None).

Definition write_info_table_down (low write_ba : Z) : NM (option (Z * Z)) :=
  iter (S (S (Z.to_nat (write_ba - low)))) (write_down_body low) write_ba.

(** [nmbm_rescue_single_info_table]. *)
Definition nmbm_rescue_single_info_table : NM bool :=
  do start <- gets mgmt_start_ba;
  do main <- gets main_table_ba;
  do front <- nmbm_write_info_table start main;
  match front with
  | Some (table_start_ba, table_end_ba) =>
      do old_main <- gets main_table_ba;
      backup_table_ba ::= old_main;;
      main_table_ba ::= table_start_ba;;
      nmbm_mark_tables_clean;;
      nmbm_erase_range table_end_ba old_main;;
      ret true
  | None =>
      do low <- gets mapping_blocks_ba;
      do lim <- top_minus_table;
      do r <- nmbm_try_reserve_blocks low info_table_spare_blocks 0 lim;
      match r with
      | None => ret false
      | Some write_ba =>
          do r <- write_info_table_down low write_ba;
          match r with
          | None => ret false
          | Some (table_start_ba, table_end_ba) =>
              do low <- gets mapping_blocks_ba;
              nmbm_erase_range low table_start_ba;;
              backup_table_ba ::= table_start_ba;;
              mapping_blocks_ba ::= table_end_ba;;
              nmbm_mark_tables_clean;;
              ret true
          end
      end
  end.

(** [nmbm_update_single_info_table]. *)
Definition nmbm_update_single_info_table (update_main_table : bool) : NM bool :=
  do main <- gets main_table_ba;
  do backup <- gets backup_table_ba;
  do top <- gets mapping_blocks_top_ba;
  let write_start_ba := if update_main_table then main else backup in
  let write_limit := if update_main_table then backup else top in
  do r <- nmbm_write_info_table write_start_ba write_limit;
  match r with
  | Some (table_start_ba, table_end_ba) =>
      (if update_main_table then main_table_ba ::= table_start_ba
       else backup_table_ba ::= table_start_ba;; mapping_blocks_ba ::= table_end_ba);;
      nmbm_mark_tables_clean;;
      ret true
  | None =>
      if update_main_table then
        do backup <- gets backup_table_ba;
        main_table_ba ::= backup;;
        backup_table_ba ::= 0;;
        nmbm_rescue_single_info_table
      else
        do backup <- gets backup_table_ba;
        mapping_blocks_ba ::= backup;;
        backup_table_ba ::= 0;;
        ret false
  end.

(** "Backup info table becomes the main table". *)
Definition backup_becomes_main : NM bool :=
  do backup <- gets backup_table_ba;
  main_table_ba ::= backup;;
  backup_table_ba ::= 0;;
  ret true.

(** The tail of [nmbm_rescue_main_info_table], reached when the new main
    table has overwritten the temporary one. *)
Definition rescue_main_new_backup (main_table_end_ba : Z) : NM bool :=
  mapping_blocks_ba ::= main_table_end_ba;;
  do lim <- top_minus_table;
  do r <- nmbm_try_reserve_blocks main_table_end_ba info_table_spare_blocks 0 lim;
  match r with
  | None => backup_table_ba ::= 0;; ret true
  | Some write_ba =>
      do r <- write_info_table_down main_table_end_ba write_ba;
      match r with
      | None => backup_table_ba ::= 0;; ret true
      | Some (tmp_table_start_ba, tmp_table_end_ba) =>
          backup_table_ba ::= tmp_table_start_ba;;
          mapping_blocks_ba ::= tmp_table_end_ba;;
          nmbm_erase_range main_table_end_ba tmp_table_start_ba;;
          ret true
      end
  end.

(** [nmbm_rescue_main_info_table]. *)
Definition nmbm_rescue_main_info_table : NM bool :=
  do low <- gets mapping_blocks_ba;
  do lim <- top_minus_table;
  do r <- nmbm_try_reserve_blocks low info_table_spare_blocks 0 lim;
  match r with
  | None => backup_becomes_main
  | Some write_ba =>
      do r <- write_info_table_down low write_ba;
      match r with
      | None => backup_becomes_main
      | Some (tmp_table_start_ba, tmp_table_end_ba) =>
          mapping_blocks_ba ::= tmp_table_end_ba;;
          do start <- gets mgmt_start_ba;
          do r <- nmbm_write_info_table start tmp_table_start_ba;
          match r with
          | None =>
              main_table_ba ::= tmp_table_start_ba;;
              backup_table_ba ::= 0;;
              nmbm_mark_tables_clean;;
              ret true
          | Some (main_table_start_ba, main_table_end_ba) =>
              main_table_ba ::= main_table_start_ba;;
              nmbm_mark_tables_clean;;
              if main_table_end_ba <=? tmp_table_start_ba then
                backup_table_ba ::= tmp_table_start_ba;;
                ret true
              else rescue_main_new_backup main_table_end_ba
          end
      end
  end.

(** The part of [nmbm_update_info_table_once] from [write_main_table:] on. *)
Definition write_main_table (main_table_limit : Z) : NM bool :=
  do main <- gets main_table_ba;
  if main =? 0 then nmbm_rebuild_info_table
  else
    do r <- nmbm_write_info_table main main_table_limit;
    match r with
    | None =>
        do backup <- gets backup_table_ba;
        if backup =? 0 then nmbm_rebuild_info_table else nmbm_rescue_main_info_table
    | Some (table_start_ba, table_end_ba) =>
        main_table_ba ::= table_start_ba;;
        do backup <- gets backup_table_ba;
        (if backup =? 0 then mapping_blocks_ba ::= table_end_ba else ret tt);;
        nmbm_mark_tables_clean;;
        ret true
    end.

(** The part of [nmbm_update_info_table_once] that writes: the backup table
    if there is one, then the main table. *)
Definition write_both_tables : NM bool :=
  do backup <- gets backup_table_ba;
  do top <- gets mapping_blocks_top_ba;
  if backup =? 0 then write_main_table top
  else
    do r <- nmbm_write_info_table backup top;
    match r with
    | None =>
        mapping_blocks_ba ::= backup;;
        backup_table_ba ::= 0;;
        write_main_table top
    | Some (table_start_ba, table_end_ba) =>
        backup_table_ba ::= table_start_ba;;
        mapping_blocks_ba ::= table_end_ba;;
        nmbm_mark_tables_clean;;
        write_main_table table_start_ba
    end.

(** [nmbm_update_info_table_once]. *)
Definition nmbm_update_info_table_once (force : bool) : NM bool :=
  do changed <- nmbm_generate_info_table_cache;
  if negb changed && negb force then ret true else write_both_tables.

(** [nmbm_update_info_table].  Every round that leaves a change behind has
    found a new bad block, so [block_count] bounds the rounds. *)
Definition tables_changed (s : nmbm_instance D) : bool :=
  negb (block_state_changed s =? 0) || negb (block_mapping_changed s =? 0).

Definition update_body (_ : unit) : NM (unit + bool) :=
  do changed <- gets tables_changed;
  if changed : bool then
    do success <- nmbm_update_info_table_once false;
    if success : bool then ret (inl tt) else ret (inr false)
  else ret (inr true).

Definition nmbm_update_info_table : NM bool :=
  do prot <- gets protected;
  if negb (prot =? 0) then ret true
  else iter (Z.to_nat block_count + 3) update_body tt.

(** [nmbm_map_block]. *)
Definition nmbm_map_block (lb : Z) : NM bool :=
  do low <- gets mapping_blocks_ba;
  do top <- gets mapping_blocks_top_ba;
  if low =? top then ret false
  else
    do r <- nmbm_block_walk false top 0 low;
    match r with
    | None =>
        nmbm_update_info_table;;
        do low <- gets mapping_blocks_ba;
        mapping_blocks_top_ba ::= low;;
        ret false
    | Some pb =>
        do bm <- gets block_mapping;
        do bm' <- lift (zset bm lb (i32 pb));
        block_mapping ::= bm';;
        do top <- gets mapping_blocks_top_ba;
        mapping_blocks_top_ba ::= u32 (top - 1);;
        do c <- gets block_mapping_changed;
        block_mapping_changed ::= u32 (c + 1);;
        ret true
    end.

(** The loop of [nmbm_create_info_table] that remaps the logic blocks whose
    physical blocks are bad. *)
Definition remap_tail_body (lb : Z) : NM (Z + unit) :=
  do start <- gets mgmt_start_ba;
  if lb <? start then
    do success <- nmbm_map_block lb;
    if success : bool then
      do n <- gets data_block_count;
      data_block_count ::= u32 (n + 1);;
      ret (inl (u32 (lb + 1)))
    else ret (inr tt)
  else ret (inr tt).

(** [nmbm_create_info_table]. *)
Definition nmbm_create_info_table : NM bool :=
  do sba <- gets signature_ba;
  do start <- gets mgmt_start_ba;
  do r <- nmbm_block_walk false sba 1 start;
  match r with
  | None => ret false
  | Some top =>
      mapping_blocks_top_ba ::= top;;
      nmbm_generate_info_table_cache;;
      do success <- nmbm_rebuild_info_table;
      if negb success then ret false
      else
        do n <- gets data_block_count;
        iter (S (Z.to_nat (start - n))) remap_tail_body n;;
        nmbm_update_info_table
  end.

End Table.
