(* ===== verification/NmbmMgmt.v ===== *)
(** * NMBM: writing and reading management data

    Specifications of the data-moving operations of [NmbmTable] on a NAND
    chip: reading a range, writing with read-back verification, writing into
    the good blocks of a range, erasing a range, writing the signature. *)

From stdpp Require Import base numbers list.
From Stdlib Require Import ZArith Lia.
From S2P Require Import Prelude IntLib NmbmTypes NmbmPhys NmbmState NmbmNand NmbmTable.

(** ** The chip as an array of bytes *)

Section Bytes.
Context {D : Type} {L : nmbm_lower_device D} {P : NandModel D}.

Definition page_of (i : Z) : Z := i - i mod writesize.

(** The byte at linear address [i] of the main area. *)
Definition flash_byte (d : D) (i : Z) : option Z := znth (page_at d (page_of i)) (i mod writesize).

(** [data] lies at address [a]. *)
Definition stored (d : D) (a : Z) (data : list Z) : Prop :=
  forall i, 0 <= i < zlen data -> znth data i = flash_byte d (a + i).

(** The pages of the blocks that satisfy [R]. *)
Definition blocks (R : Z -> Prop) (p : Z) : Prop := exists b, R b /\ in_block b p.

Definition within (lo hi : Z) (b : Z) : Prop := lo <= b < hi.

End Bytes.

Section BytesFacts.
Context {D : Type} {L : nmbm_lower_device D} {P : NandModel D}.
Context {GO : geometry_ok L} {NL : nand_laws L P}.
Implicit Types s : nmbm_instance D.

Lemma page_of_add p r : (writesize | p) -> 0 <= r < writesize ->
  page_of (p + r) = p /\ (p + r) mod writesize = r.
Proof.
  intros [k ->] Hr. unfold page_of.
  assert (E : (k * writesize + r) mod writesize = r).
  { rewrite Z.add_comm, Z_mod_plus_full. by apply Z.mod_small. }
  rewrite E. lia.
Qed.

Lemma page_of_divides i : (writesize | page_of i).
Proof.
  geometry. unfold page_of. exists (i / writesize).
  assert (Hne : writesize <> 0) by lia. pose proof (Z.div_mod i writesize Hne). lia.
Qed.

Lemma page_of_bounds i : page_of i <= i < page_of i + writesize.
Proof.
  geometry. unfold page_of. assert (Hm : 0 <= i mod writesize < writesize)
    by (apply Z.mod_pos_bound; lia). lia.
Qed.

Lemma flash_byte_same W d d' i :
  same_outside W d d' -> ~ W (page_of i) -> flash_byte d' i = flash_byte d i.
Proof. intros H Hi. unfold flash_byte. by rewrite H. Qed.

Lemma flash_byte_page d p r : (writesize | p) -> 0 <= r < writesize ->
  flash_byte d (p + r) = znth (page_at d p) r.
Proof. intros Hp Hr. unfold flash_byte. by destruct (page_of_add p r Hp Hr) as [-> ->]. Qed.

Lemma flash_byte_some d i : exists b, flash_byte d i = Some b /\ is_byte b.
Proof.
  geometry. unfold flash_byte.
  assert (Hi : 0 <= i mod writesize < zlen (page_at d (page_of i))).
  { rewrite law_page_len. apply Z.mod_pos_bound. lia. }
  destruct (znth_some _ _ Hi) as [b Hb]. exists b. split; [done|].
  unfold znth in Hb. destruct (_ <? 0); [done|].
  eapply Forall_lookup_1; [apply (law_page_byte d (page_of i))|done].
Qed.

Lemma stored_bytes d a data : stored d a data -> Forall is_byte data.
Proof.
  intros H. apply Forall_lookup. intros i x Hi. pose proof (lookup_lt_Some _ _ _ Hi) as Hl.
  specialize (H (Z.of_nat i) ltac:(unfold zlen; lia)). unfold znth in H.
  destruct (Z.ltb_spec (Z.of_nat i) 0); [lia|]. rewrite Nat2Z.id, Hi in H.
  destruct (flash_byte_some d (a + Z.of_nat i)) as (b & Hb & Hbb). congruence.
Qed.

(** Two images of the same length at the same place are equal. *)
Lemma stored_inj d a x y : stored d a x -> stored d a y -> zlen x = zlen y -> x = y.
Proof.
  intros Hx Hy Hl. apply znth_ext; [done|]. intros i Hi. rewrite Hx by done.
  rewrite Hy; [done|lia].
Qed.

Lemma stored_same W d d' a data :
  same_outside W d d' -> (forall i, 0 <= i < zlen data -> ~ W (page_of (a + i))) ->
  stored d a data -> stored d' a data.
Proof. intros Hs Hd H i Hi. rewrite H by done. symmetry. eapply flash_byte_same; eauto. Qed.

Lemma stored_all d d' a data :
  same_outside (fun _ => False) d d' -> stored d' a data -> stored d a data.
Proof. intros Hs H i Hi. rewrite H by done. eapply flash_byte_same; eauto. Qed.

(** ** Reading a range of bytes *)

Lemma buffers_ok_io W s s' : buffers_ok s -> io_step W s s' -> buffers_ok s'.
Proof. intros [] (d & pc & -> & Hl & _). constructor; simpl in *; try done. congruence. Qed.

Lemma page_aligned off : (writesize | off - Z.land off writesize_mask).
Proof. rewrite land_writesize_mask. apply (page_of_divides off). Qed.

Lemma leading_bounds off : 0 <= Z.land off writesize_mask < writesize.
Proof. geometry. rewrite land_writesize_mask. apply Z.mod_pos_bound. lia. Qed.

Definition read_data_inv s addr (buf : list Z) (x : Z * Z * list Z) (s' : nmbm_instance D) : Prop :=
  let '(off, pos, b) := x in
  0 <= pos <= zlen buf /\ off = addr + pos /\ zlen b = zlen buf /\
  io_step (fun _ => False) s s' /\
  forall i, 0 <= i < pos -> znth b i = flash_byte (dev s) (addr + i).

(** One chunk more: the bytes of the page go where the loop wants them. *)
Lemma read_data_chunk s s1 addr buf pos b b' src lead :
  io_step (fun _ => False) s s1 -> 0 <= pos -> pos + zlen src <= zlen buf ->
  zlen b = zlen buf -> lead = Z.land (addr + pos) writesize_mask -> lead + zlen src <= writesize ->
  (forall i, 0 <= i < pos -> znth b i = flash_byte (dev s) (addr + i)) ->
  (forall i, 0 <= i < zlen src -> znth src i = znth (page_at (dev s) (addr + pos - lead)) (lead + i)) ->
  splice b pos src = Some b' ->
  read_data_inv s addr buf (addr + pos + zlen src, pos + zlen src, b') s1.
Proof.
  intros Hio Hpos Hfit Hb -> Hlead Hpre Hsrc Hsp. pose proof (zlen_nonneg src) as Hn.
  pose proof (leading_bounds (addr + pos)) as Hl. split_and!; try lia.
  - by rewrite (splice_zlen _ _ _ _ Hsp).
  - done.
  - intros i Hi. destruct (Z_lt_le_dec i pos).
    + rewrite (znth_splice_out _ _ _ _ _ Hsp) by lia. apply Hpre. lia.
    + rewrite (znth_splice_in _ _ _ _ _ Hsp) by lia. rewrite Hsrc by lia.
      rewrite <- flash_byte_page; [f_equal; lia|apply page_aligned|lia].
Qed.

Lemma io_step_page W s s1 a : io_step (fun _ => False) s s1 ->
  same_outside W (dev s) (dev s1) /\ page_at (dev s1) a = page_at (dev s) a.
Proof.
  intros (d & pc & -> & _ & Hs). simpl. split; [|by apply Hs; tauto].
  by eapply same_outside_weaken; [|exact Hs].
Qed.

(** The part of a page that one iteration of a transfer handles. *)
Definition chunk_at (off remain : Z) : Z :=
  let c := writesize - Z.land off writesize_mask in if c >? remain then remain else c.

Lemma chunk_at_spec off remain : 0 <= off -> 0 < remain ->
  chunk_at off remain = Z.min (writesize - Z.land off writesize_mask) remain /\
  0 < chunk_at off remain /\ 0 <= Z.land off writesize_mask < writesize /\
  0 <= off - Z.land off writesize_mask /\ (writesize | off - Z.land off writesize_mask).
Proof.
  intros Ho Hr. geometry. pose proof (leading_bounds off) as Hl.
  assert (Hc : chunk_at off remain = Z.min (writesize - Z.land off writesize_mask) remain).
  { unfold chunk_at. rewrite Z.gtb_ltb.
    destruct (Z.ltb_spec remain (writesize - Z.land off writesize_mask)); lia. }
  split_and!; try lia; [|apply page_aligned].
  rewrite land_writesize_mask. assert (off mod writesize <= off) by (apply Z.mod_le; lia). lia.
Qed.

Lemma slice_exists {A} (l : list A) off len :
  0 <= off -> 0 <= len -> off + len <= zlen l ->
  exists d, slice l off len = Some d /\ zlen d = len.
Proof. intros. eexists. split; [by apply slice_some|]. eapply slice_zlen. by apply slice_some. Qed.

Lemma splice_exists {A} (l : list A) off d :
  0 <= off -> off + zlen d <= zlen l -> exists l', splice l off d = Some l' /\ zlen l' = zlen l.
Proof. intros. eexists. split; [by apply splice_some|]. eapply splice_zlen. by apply splice_some. Qed.

(** Every page of the range can be read. *)
Definition reliable (addr n : Z) : Prop :=
  forall i, 0 <= i < n -> reliable_page (page_of (addr + i)).

Lemma read_data_step s addr buf x s1 :
  buffers_ok s -> 0 <= addr -> addr + zlen buf < 2 ^ 64 -> read_data_inv s addr buf x s1 ->
  wp (read_data_body x) (fun r s' =>
    match r with
    | inl x' => read_data_inv s addr buf x' s' /\ snd (fst x) < snd (fst x') <= zlen buf
    | inr (r, b) => io_step (fun _ => False) s s' /\ zlen b = zlen buf /\
                    (r = 0 -> stored (dev s) addr b) /\ (reliable addr (zlen buf) -> r = 0)
    end) s1.
Proof.
  intros Hok Ha Hfit. geometry. destruct x as [[off pos] b].
  intros (Hpos & -> & Hb & Hio & Hpre). unfold read_data_body. rewrite Hb.
  pose proof (buffers_ok_io _ _ _ Hok Hio) as Hok1.
  destruct (Z.eqb_spec (zlen buf - pos) 0) as [E|E]; simpl.
  { apply wp_ret. split_and!; [done..| |done]. intros _ i Hi. apply Hpre. lia. }
  fold (chunk_at (addr + pos) (zlen buf - pos)).
  destruct (chunk_at_spec (addr + pos) (zlen buf - pos)) as (Hc & Hc0 & Hlead & Hle & Hal); [lia..|].
  assert (Hrp : reliable addr (zlen buf) -> reliable_page (addr + pos - Z.land (addr + pos) writesize_mask)).
  { intros Hrel. rewrite land_writesize_mask. apply Hrel. lia. }
  set (chunk := chunk_at _ _) in *. set (lead := Z.land _ _) in *.
  rewrite !u64_small by lia. destruct (Z.eqb_spec chunk writesize) as [Ec|Ec].
  - assert (lead = 0) as El by lia. wp_step.
    destruct (slice_exists b pos writesize) as (dst & Hdst & Hdl); [lia..|].
    eapply wp_lift; [exact Hdst|]. wp_step.
    apply read_phys_ok. intros [[r data] oob] d' (Hs & Hbl & _ & Hrd & Hrel). wp_step.
    destruct data as [data|]; [|done]. simpl in Hbl. simpl default.
    destruct (splice_exists b pos data) as (b' & Hsp & Hb'); [lia..|].
    eapply wp_lift; [exact Hsp|].
    assert (Hio' : io_step (fun _ => False) s (s1 <| dev := d' |>))
      by (eapply io_step_trans; [exact Hio|by apply io_step_dev]).
    destruct (Z.eqb_spec r 0) as [->|Hr]; simpl; wp_step; cycle 1.
    { split_and!; [done|congruence|done|auto]. }
    split; [|simpl; lia]. specialize (Hrd eq_refl ltac:(done) Hal _ eq_refl Hdl). injection Hrd as ->.
    replace chunk with (zlen (page_at (dev s1) (addr + pos - lead))) by (rewrite law_page_len; lia).
    eapply (read_data_chunk s _ addr buf pos b _ _ lead); try done; rewrite ?law_page_len; try lia.
    intros i Hi. rewrite El, Z.add_0_l.
    by rewrite (proj2 (io_step_page (fun _ => False) _ _ _ Hio)).
  - wp_step. apply read_page_cache_ok; [apply Hok1|]. intros r d' pc Hs Hpc Hrd Hrel.
    assert (Hio' : io_step (fun _ => False) s (s1 <| dev := d' |> <| page_cache := pc |>)).
    { eapply io_step_trans; [exact Hio|]. apply io_step_intro; [|done].
      rewrite Hpc. symmetry. apply Hok1. }
    destruct (Z.eqb_spec r 0) as [->|Hr]; simpl; wp_step; cycle 1.
    { split_and!; [done..|auto]. }
    specialize (Hrd eq_refl ltac:(done) Hal). wp_step. wp_step. simpl.
    destruct (slice_exists pc lead chunk) as (src & Hsl & Hsrc); [lia..|].
    eapply wp_lift; [exact Hsl|]. wp_step.
    destruct (splice_exists b pos src) as (b' & Hsp & Hb'); [lia..|].
    eapply wp_lift; [exact Hsp|]. wp_step. split; [|simpl; lia].
    rewrite <- Hsrc. eapply (read_data_chunk s _ addr buf pos b _ _ lead); try done; try lia.
    intros i Hi. rewrite (znth_slice _ _ _ _ i Hsl) by lia.
    rewrite <- (proj2 (io_step_page (fun _ => False) _ _ (addr + pos - lead) Hio)).
    pose proof (znth_slice _ _ _ _ (lead + i) Hrd ltac:(lia)) as Hz.
    by rewrite Z.add_0_l in Hz.
Qed.

Lemma read_data_ok s addr buf Q :
  buffers_ok s -> 0 <= addr -> addr + zlen buf < 2 ^ 64 ->
  (forall r buf' s', io_step (fun _ => False) s s' -> zlen buf' = zlen buf ->
     (r = 0 -> stored (dev s) addr buf') -> (reliable addr (zlen buf) -> r = 0) -> Q (r, buf') s') ->
  wp (nmbn_read_data addr buf) Q s.
Proof.
  intros Hok Ha Hfit HQ. unfold nmbn_read_data.
  apply (wp_iter (read_data_inv s addr buf) (fun x _ => Z.to_nat (zlen buf - snd (fst x))));
    cycle 1.
  { split_and!; try lia; auto using zlen_nonneg, io_step_refl. }
  { simpl. unfold zlen. lia. }
  intros x s1 Hinv. eapply wp_conseq; [by apply read_data_step|]. cbv beta.
  intros [x'|[r b]] s'; [intros [? ?]; split; [done|lia]|]. intros (? & ? & ? & ?). by apply HQ.
Qed.

(** ** Writing with verification *)

(** The bytes fall on blank pages of a chip that takes and returns them. *)
Definition ready s addr (data : list Z) : Prop :=
  Forall is_byte data /\
  forall i, 0 <= i < zlen data -> let p := page_of (addr + i) in
    programmable p /\ reliable_page p /\ page_at (dev s) p = erased_page.

Definition write_verify_inv W s addr (data : list Z) (x : Z * Z) (s1 : nmbm_instance D) : Prop :=
  let '(off, pos) := x in
  0 <= pos <= zlen data /\ off = addr + pos /\ io_step W s s1 /\
  (pos = 0 \/ (addr + pos) mod writesize = 0 \/ pos = zlen data) /\
  (forall i, 0 <= i < pos -> znth data i = flash_byte (dev s1) (addr + i)) /\
  (ready s addr data -> forall i, pos <= i < zlen data -> page_at (dev s1) (page_of (addr + i)) = erased_page).

(** What was programmed into a blank page reads back. *)
Lemma blank_reads_back page pc lead src back :
  zlen page = writesize -> 0 <= lead -> lead + zlen src <= writesize -> Forall is_byte src ->
  (forall i, 0 <= i < zlen src -> znth page (lead + i) = znth src i) ->
  slice pc 0 writesize = Some (zip_with Z.land erased_page page) ->
  slice pc lead (zlen src) = Some back -> back = src.
Proof.
  intros Hl Hlead Hfit Hb Hpg Hrd Hback. geometry. apply znth_ext; [by apply (slice_zlen _ _ _ _ Hback)|].
  intros i Hi. rewrite (slice_zlen _ _ _ _ Hback) in Hi.
  rewrite (znth_slice _ _ _ _ i Hback) by lia.
  pose proof (znth_slice _ _ _ _ (lead + i) Hrd ltac:(lia)) as Hz. rewrite Z.add_0_l in Hz. rewrite <- Hz.
  destruct (znth_some src i Hi) as [x Hx]. rewrite Hx. specialize (Hpg i Hi). rewrite Hx in Hpg.
  rewrite (znth_zip _ _ _ 0xff x); [|apply znth_fill; lia|done].
  f_equal. change 0xff with (Z.ones 8). rewrite Z.land_comm, Z.land_ones by lia. apply Z.mod_small.
  by apply (znth_byte _ _ _ Hb Hx).
Qed.

(** A page that reads back as it was written extends the stored prefix. *)
Lemma verified_more d0 d1 d2 addr pos lead chunk data src pc :
  0 <= addr -> 0 <= pos < zlen data -> (pos = 0 \/ (addr + pos) mod writesize = 0 \/ pos = zlen data) ->
  lead = Z.land (addr + pos) writesize_mask -> chunk = chunk_at (addr + pos) (zlen data - pos) ->
  same_outside (fun p => p = addr + pos - lead) d0 d1 -> same_outside (fun _ => False) d1 d2 ->
  slice pc 0 writesize = Some (page_at d1 (addr + pos - lead)) ->
  slice pc lead chunk = Some src -> slice data pos chunk = Some src ->
  (forall i, 0 <= i < pos -> znth data i = flash_byte d0 (addr + i)) ->
  forall i, 0 <= i < pos + chunk -> znth data i = flash_byte d2 (addr + i).
Proof.
  intros Ha Hpos Halign El Ec Hs1 Hs2 Hrd Hback Hsrc Hpre i Hi. geometry.
  destruct (chunk_at_spec (addr + pos) (zlen data - pos)) as (Hc & Hc0 & Hlead & Hle & Hal); [lia..|].
  rewrite <- El, <- Ec in *. pose proof (land_writesize_mask (addr + pos)) as Elead. rewrite <- El in Elead.
  destruct (Z_lt_le_dec i pos).
  - rewrite Hpre by lia. symmetry.
    transitivity (flash_byte d1 (addr + i)); [eapply flash_byte_same; [exact Hs2|tauto]|].
    eapply flash_byte_same; [exact Hs1|]. intros Hpage.
    pose proof (page_of_bounds (addr + i)). destruct Halign as [|[Hz|]]; [lia| |lia]. lia.
  - replace (addr + i) with ((addr + pos - lead) + (lead + (i - pos))) by lia.
    rewrite flash_byte_page by (done || lia). rewrite (same_all_at _ _ _ Hs2).
    pose proof (znth_slice _ _ _ _ (lead + (i - pos)) Hrd ltac:(lia)) as Hz.
    rewrite Z.add_0_l in Hz. rewrite Hz.
    rewrite <- (znth_slice _ _ _ _ (i - pos) Hback) by lia.
    rewrite (znth_slice _ _ _ _ (i - pos) Hsrc) by lia. f_equal. lia.
Qed.

Lemma write_verify_step W s addr data x s1 :
  buffers_ok s -> 0 <= addr -> addr + zlen data < 2 ^ 64 ->
  (forall i, 0 <= i < zlen data -> W (page_of (addr + i))) ->
  write_verify_inv W s addr data x s1 ->
  wp (write_verify_body data x) (fun r s' =>
    match r with
    | inl x' => write_verify_inv W s addr data x' s' /\ snd x < snd x' <= zlen data
    | inr ok => io_step W s s' /\ (ok = true -> stored (dev s') addr data) /\ (ready s addr data -> ok = true)
    end) s1.
Proof.
  intros Hok Ha Hfit HW. geometry. destruct x as [off pos].
  intros (Hpos & -> & Hio & Halign & Hpre & Hblank). unfold write_verify_body.
  pose proof (buffers_ok_io _ _ _ Hok Hio) as Hok1. pose proof (ok_page_cache _ Hok1) as Hpc1.
  destruct (Z.eqb_spec (zlen data - pos) 0) as [E|E]; simpl.
  { apply wp_ret. split_and!; [done| |done]. intros _ i Hi. apply Hpre. lia. }
  fold (chunk_at (addr + pos) (zlen data - pos)).
  destruct (chunk_at_spec (addr + pos) (zlen data - pos)) as (Hc & Hc0 & Hlead & Hle & Hal); [lia..|].
  pose proof (land_writesize_mask (addr + pos)) as Elead.
  assert (Hrdy : ready s addr data -> let p := addr + pos - Z.land (addr + pos) writesize_mask in
    Forall is_byte data /\ programmable p /\ reliable_page p /\ page_at (dev s1) p = erased_page).
  { rewrite Elead. intros Hr. destruct Hr as [Hb Hp]. destruct (Hp pos) as (? & ? & _); [lia|].
    split_and!; try done. apply Hblank; [done|lia]. }
  set (chunk := chunk_at _ _) in *. set (lead := Z.land _ _) in *.
  rewrite !u64_small by lia. wp_step. wp_step. wp_step.
  destruct (splice_exists (page_cache s1) 0 (fill 255 rawpage_size)) as (pc1 & Hp1 & Hl1);
    [lia|rewrite fill_zlen; lia|].
  eapply wp_lift; [exact Hp1|]. wp_step.
  destruct (slice_exists data pos chunk) as (src & Hsrc & Hsl); [lia..|].
  eapply wp_lift; [exact Hsrc|]. wp_step.
  destruct (splice_exists pc1 lead src) as (pc2 & Hp2 & Hl2); [lia..|].
  eapply wp_lift; [exact Hp2|]. wp_step. wp_step. wp_step.
  destruct (slice_exists pc2 0 writesize) as (page & Hpg & Hpl); [lia..|].
  eapply wp_lift; [exact Hpg|]. wp_step. apply write_phys_ok; [done|]. simpl. intros ok d1 Hs1 Hprog Hpr.
  set (s2 := s1 <| page_cache := pc2 |> <| dev := d1 |>).
  assert (HWa : W (addr + pos - lead)).
  { rewrite Elead. apply HW. lia. }
  assert (Hio2 : io_step W s s2).
  { eapply io_step_trans; [exact Hio|]. exists d1, pc2. split_and!; [done|congruence|].
    eapply same_outside_weaken; [|exact Hs1]. by intros p ->. }
  destruct ok; cbn [negb]; [|wp_step; split_and!; [done..|by intros (_ & Hp & _)%Hrdy; auto]].
  wp_step. apply read_page_cache_ok; [simpl; congruence|].
  intros r d2 pc3 Hs2 Hpc3 Hrd Hrel. change (dev s2) with d1 in *.
  assert (Hio3 : io_step W s (s2 <| dev := d2 |> <| page_cache := pc3 |>)).
  { eapply io_step_trans; [exact Hio2|]. apply io_step_intro; [simpl; congruence|].
    by eapply same_outside_weaken; [|exact Hs2]. }
  destruct (Z.eqb_spec r 0) as [->|Hr]; simpl; cycle 1.
  { wp_step. split_and!; [done..|]. intros (_ & _ & Hp & _)%Hrdy. by destruct Hr; apply Hrel. }
  specialize (Hrd eq_refl ltac:(done) Hal). wp_step. wp_step. wp_step. simpl.
  destruct (slice_exists pc3 lead chunk) as (back & Hback & Hbl); [lia..|].
  eapply wp_lift; [exact Hback|]. case_bool_decide as Heq; cycle 1.
  { wp_step. split_and!; [done..|]. intros (Hb & _ & _ & Hp)%Hrdy. destruct Heq.
    apply (blank_reads_back page pc3 lead); rewrite ?Hsl; try done; try lia; [by eapply slice_forall| |].
    - intros i Hi. pose proof (znth_slice _ _ _ _ (lead + i) Hpg ltac:(lia)) as Hz. rewrite Z.add_0_l in Hz.
      rewrite Hz, (znth_splice_in _ _ _ _ _ Hp2) by lia. f_equal. lia.
    - fold lead in Hp. rewrite Hp in Hprog. rewrite <- Hprog; done. }
  wp_step. split; [|simpl; lia]. subst back. unfold write_verify_inv. split_and!; try done; try lia.
  - rewrite Hc. destruct (Z.min_spec (writesize - lead) (zlen data - pos)) as [[_ ->]|[_ ->]]; [|lia].
    right. left. replace (addr + (pos + (writesize - lead)))
      with ((addr + pos - lead) + 1 * writesize) by lia.
    rewrite Z_mod_plus_full. apply Z.mod_divide; [lia|done].
  - by eapply (verified_more (dev s1) d1 d2 addr pos lead chunk data src pc3); try lia.
  - intros Hr i Hi. simpl. rewrite (same_all_at _ _ _ Hs2), (Hs1 (page_of (addr + i))).
    + apply Hblank; [done|lia].
    + intros Epage. pose proof (page_of_bounds (addr + i)). lia.
Qed.

Lemma write_verify_ok W s addr data Q :
  buffers_ok s -> 0 <= addr -> addr + zlen data < 2 ^ 64 ->
  (forall i, 0 <= i < zlen data -> W (page_of (addr + i))) ->
  (forall ok s', io_step W s s' -> (ok = true -> stored (dev s') addr data) ->
     (ready s addr data -> ok = true) -> Q ok s') ->
  wp (nmbn_write_verify_data addr data) Q s.
Proof.
  intros Hok Ha Hfit HW HQ. unfold nmbn_write_verify_data.
  apply (wp_iter (write_verify_inv W s addr data) (fun x _ => Z.to_nat (zlen data - snd x)));
    cycle 1.
  { split_and!; try lia; auto using zlen_nonneg, io_step_refl. intros [_ Hr] i Hi. by apply Hr. }
  { simpl. unfold zlen. lia. }
  intros x s1 Hinv. eapply wp_conseq; [by apply (write_verify_step W s addr)|]. cbv beta.
  intros [x'|ok] s'; [intros [? ?]; split; [done|lia]|]. intros (? & ? & ?). by apply HQ.
Qed.

End BytesFacts.

(** ** Wear: blocks found bad while management data is written *)

Section Wear.
Context {D : Type} {L : nmbm_lower_device D} {P : NandModel D}.
Implicit Types s : nmbm_instance D.

(** The number of good blocks: it bounds how often something can still go
    wrong. *)
Definition goods (bs : list Z) : nat := length (good_asc bs 0 block_count).

(** The only state change: good blocks of [R] become bad. *)
Definition worn (R : Z -> Prop) (bs bs' : list Z) : Prop :=
  forall b, 0 <= b < block_count ->
    state_of bs' b = state_of bs b \/ (R b /\ good bs b /\ state_of bs' b = BLOCK_ST_BAD).

(** The blocks of [R] that may have to be retired. *)
Definition failing (R : Z -> Prop) (b : Z) : Prop := R b /\ ~ sound b.

(** What a management operation on the blocks [R] may do: change the pages
    of these blocks, use the page buffer, and retire blocks of [R] that the
    chip cannot erase, program or read, which is counted in
    [block_state_changed]. *)
Record mgmt_step (R : Z -> Prop) s s' : Prop := {
  step_members : exists d pc bs c,
    s' = s <| dev := d |> <| page_cache := pc |> <| block_state := bs |>
           <| block_state_changed := c |>;
  step_buffers : buffers_ok s';
  step_pages : same_outside (blocks R) (dev s) (dev s');
  step_worn : worn (failing R) (block_state s) (block_state s');
  step_count :
    (block_state s' = block_state s /\ block_state_changed s' = block_state_changed s) \/
    (goods (block_state s') < goods (block_state s))%nat
}.

End Wear.

Section WearFacts.
Context {D : Type} {L : nmbm_lower_device D} {P : NandModel D}.
Context {GO : geometry_ok L} {NL : nand_laws L P}.
Implicit Types s : nmbm_instance D.

Lemma worn_refl R bs : worn R bs bs.
Proof. by left. Qed.

Lemma worn_trans R b1 b2 b3 : worn R b1 b2 -> worn R b2 b3 -> worn R b1 b3.
Proof.
  intros H1 H2 b Hb. specialize (H1 b Hb). specialize (H2 b Hb). unfold good in *.
  destruct H1 as [E1|(? & ? & E1)], H2 as [E2|(? & E & E2)]; [left|right|right|].
  - congruence.
  - split_and!; congruence.
  - split_and!; congruence.
  - rewrite E1 in E. discriminate.
Qed.

Lemma worn_weaken (R R' : Z -> Prop) b1 b2 :
  (forall b, R b -> R' b) -> worn R b1 b2 -> worn R' b1 b2.
Proof. intros HR H b Hb. destruct (H b Hb) as [|(? & ? & ?)]; auto. Qed.

Lemma mgmt_step_refl R s : buffers_ok s -> mgmt_step R s s.
Proof.
  intros H. constructor; auto using worn_refl with nand.
  exists (dev s), (page_cache s), (block_state s), (block_state_changed s). by destruct s.
Qed.

Lemma mgmt_step_trans R s1 s2 s3 : mgmt_step R s1 s2 -> mgmt_step R s2 s3 -> mgmt_step R s1 s3.
Proof.
  intros [(d & pc & bs & c & ->) B1 P1 W1 C1] [(d' & pc' & bs' & c' & ->) B2 P2 W2 C2].
  constructor; [by exists d', pc', bs', c'|done| | |]; simpl in *.
  - by eapply same_outside_trans.
  - by eapply worn_trans.
  - destruct C1 as [[-> ->]|], C2 as [[-> ->]|]; auto; right; lia.
Qed.

Lemma mgmt_step_weaken (R R' : Z -> Prop) s s' :
  (forall b, R b -> R' b) -> mgmt_step R s s' -> mgmt_step R' s s'.
Proof.
  intros HR [M B P1 W C]. constructor; try done.
  - eapply same_outside_weaken; [|done]. intros p (b & Hb & Hp). exists b. auto.
  - eapply worn_weaken; [|done]. intros b [Hb ?]. split; auto.
Qed.

Lemma mgmt_step_io R W s s' :
  buffers_ok s -> (forall p, W p -> blocks R p) -> io_step W s s' -> mgmt_step R s s'.
Proof.
  intros Hok HW Hio. pose proof (buffers_ok_io _ _ _ Hok Hio) as Hok'.
  destruct Hio as (d & pc & -> & Hl & Hs). constructor; simpl; auto using worn_refl.
  - exists d, pc, (block_state s), (block_state_changed s). by destruct s.
  - by eapply same_outside_weaken.
Qed.

(** *** Counting good blocks *)

Lemma good_asc_app bs a b c : a <= b <= c -> good_asc bs a c = good_asc bs a b ++ good_asc bs b c.
Proof.
  intros H. unfold good_asc. replace (c - a) with ((b - a) + (c - b)) by lia.
  rewrite seqZ_app by lia. rewrite filter_app. by replace (a + (b - a)) with b by lia.
Qed.

Lemma filter_ext_in (p q : Z -> Prop) `{!forall x, Decision (p x), !forall x, Decision (q x)} (l : list Z) :
  (forall x, x ∈ l -> p x <-> q x) -> filter p l = filter q l.
Proof.
  induction l as [|x l IH]; intros Hpq; [done|]. rewrite !filter_cons.
  rewrite IH by (intros y Hy; apply Hpq; by right).
  destruct (Hpq x ltac:(by left)) as [H1 H2].
  destruct (decide (p x)), (decide (q x)); tauto.
Qed.

Lemma good_asc_ext bs bs' a b :
  (forall x, a <= x < b -> state_of bs' x = state_of bs x) -> good_asc bs' a b = good_asc bs a b.
Proof.
  intros H. unfold good_asc. apply filter_ext_in.
  intros x Hx%elem_of_seqZ. unfold good. rewrite H; [done|lia].
Qed.

Lemma goods_retire bs bs' ba :
  0 <= ba < block_count -> good bs ba -> state_of bs' ba = BLOCK_ST_BAD ->
  (forall b, 0 <= b -> b <> ba -> state_of bs' b = state_of bs b) ->
  (goods bs' < goods bs)%nat.
Proof.
  intros Hba Hg Hb Ho. unfold goods.
  rewrite (good_asc_app bs' 0 ba), (good_asc_app bs 0 ba) by lia.
  rewrite (good_asc_cons bs' ba), (good_asc_cons bs ba) by lia.
  assert (Hng : ~ good bs' ba) by (unfold good; rewrite Hb; discriminate).
  destruct (decide (good bs' ba)), (decide (good bs ba)); try done.
  rewrite (good_asc_ext bs bs' 0 ba), (good_asc_ext bs bs' (ba + 1) block_count)
    by (intros; apply Ho; lia).
  rewrite !length_app. simpl. lia.
Qed.

Lemma goods_bound bs : (goods bs <= Z.to_nat block_count)%nat.
Proof.
  unfold goods, good_asc. etransitivity; [apply length_filter|]. rewrite length_seqZ. lia.
Qed.

(** Retiring a block: mark it on the chip and in the state table. *)
Lemma retire_ok {A} s ba (k : M (nmbm_instance D) A) Q :
  buffers_ok s -> 0 <= ba < block_count -> good (block_state s) ba -> ~ sound ba ->
  (forall s', mgmt_step (eq ba) s s' -> state_of (block_state s') ba = BLOCK_ST_BAD ->
     wp k Q s') ->
  wp (nmbm_mark_phys_bad_block ba;; nmbm_set_block_state ba BLOCK_ST_BAD;; k) Q s.
Proof.
  intros Hok Hba Hg Hns HQ. wp_step. apply mark_bad_ok; [apply Hok|done|]. intros r s1 Hio.
  wp_step. pose proof (buffers_ok_io _ _ _ Hok Hio) as Hok1.
  assert (M1 : mgmt_step (eq ba) s s1).
  { eapply mgmt_step_io; [done| |exact Hio]. intros p Hp. by exists ba. }
  destruct Hio as (d & pc & -> & Hl & Hs). set (s1 := s <| dev := d |> <| page_cache := pc |>) in *.
  unfold BLOCK_ST_BAD. apply wp_set_block_state; [done|done|lia|].
  destruct (set_state_spec s1 ba BLOCK_ST_BAD Hok1 Hba) as (Hb & Ho & _); [done|].
  assert (E : (state_of (block_state s1) ba =? 0) = false).
  { change (block_state s1) with (block_state s). by rewrite Hg. }
  rewrite E. apply HQ; [|exact Hb]. eapply mgmt_step_trans; [exact M1|].
  constructor.
  - exists d, pc. eexists _, _. reflexivity.
  - by refine (buffers_ok_set_state s1 ba BLOCK_ST_BAD _ Hok1 Hba _).
  - auto with nand.
  - intros b Hb'. destruct (decide (b = ba)) as [->|]; [right|left; apply Ho; lia].
    by split_and!.
  - right. by eapply goods_retire.
Qed.

(** ** Erasing a range *)

Lemma erase_range_ok s ba limit Q :
  buffers_ok s -> 0 <= ba -> limit <= block_count ->
  (forall s', mgmt_step (within ba limit) s s' -> Q tt s') ->
  wp (nmbm_erase_range ba limit) Q s.
Proof.
  intros Hok Hba Hlim HQ. geometry. unfold nmbm_erase_range.
  apply (wp_iter (fun b s' => ba <= b /\ mgmt_step (within ba limit) s s')
           (fun b _ => Z.to_nat (limit - b))); [|auto using mgmt_step_refl with lia|lia].
  intros b s1 [Hb Hm]. unfold erase_range_body. destruct (Z.ltb_spec b limit); cycle 1.
  { apply wp_ret. auto. }
  rewrite u32_small by lia. pose proof (step_buffers _ _ _ Hm) as Hok1.
  wp_step. apply wp_get_block_state; [done|lia|].
  assert (K : forall s2, mgmt_step (eq b) s1 s2 ->
    wp (ret (inl (b + 1)) : M (nmbm_instance D) (Z + unit)) (fun r s' => match r with
       | inl x' => (ba <= x' /\ mgmt_step (within ba limit) s s') /\
                   (Z.to_nat (limit - x') < Z.to_nat (limit - b))%nat
       | inr a => Q a s' end) s2).
  { intros s2 M2. apply wp_ret. split; [split; [lia|]|lia].
    eapply mgmt_step_trans; [done|]. eapply mgmt_step_weaken; [|done].
    intros ? <-. unfold within. lia. }
  destruct (Z.eqb_spec (state_of (block_state s1) b) BLOCK_ST_GOOD) as [E|E]; simpl; cycle 1.
  { wp_step. wp_step. by apply K, mgmt_step_refl. }
  wp_step. wp_step. apply erase_phys_ok; [lia|]. intros ok d' Hs _ Her.
  assert (M2 : mgmt_step (eq b) s1 (s1 <| dev := d' |>)).
  { eapply mgmt_step_io; [done| |by apply io_step_dev]. intros p Hp. by exists b. }
  destruct ok; [wp_step; by apply K|].
  apply retire_ok; [by destruct M2|lia|done|by intros [Hs1%Her _]|]. intros s3 M3 _. wp_step.
  apply K. by eapply mgmt_step_trans.
Qed.

(** ** Writing management data into the good blocks of a range *)

(** [data] fills the good blocks from [start] on, up to [e] (exclusive),
    block-sized piece by piece. *)
Inductive laid_out (bs : list Z) (d : D) (start : Z) : list Z -> Z -> Prop :=
| laid_nil : laid_out bs d start [] start
| laid_skip data e :
    laid_out bs d start data e -> ~ good bs e -> laid_out bs d start data (e + 1)
| laid_chunk data e chunk :
    laid_out bs d start data e -> good bs e -> (erasesize | zlen data) ->
    0 < zlen chunk <= erasesize -> stored d (e * erasesize) chunk ->
    laid_out bs d start (data ++ chunk) (e + 1).

Lemma laid_end bs d start data e : laid_out bs d start data e -> start <= e.
Proof. induction 1; lia. Qed.

(** Byte [i] of a block lies in a page of that block. *)
Lemma block_byte_page b i : 0 <= i < erasesize -> in_block b (page_of (b * erasesize + i)).
Proof.
  intros Hi. geometry. unfold in_block.
  pose proof (page_of_bounds (b * erasesize + i)) as Hb.
  destruct (page_of_divides (b * erasesize + i)) as [k Hk].
  assert (He : b * erasesize = (b * pages_per_block) * writesize) by nia.
  assert (b * pages_per_block <= k) by nia. nia.
Qed.

Lemma in_block_inj b b' p : in_block b p -> in_block b' p -> b = b'.
Proof. geometry. unfold in_block. nia. Qed.

Lemma laid_frame bs bs' d d' R start data e :
  laid_out bs d start data e ->
  (forall b, start <= b < e -> state_of bs' b = state_of bs b) ->
  same_outside (blocks R) d d' -> (forall b, R b -> b < start \/ e <= b) ->
  laid_out bs' d' start data e.
Proof.
  intros H. induction H as [|data e H IH Hng|data e chunk H IH Hg Hdiv Hlen Hst]; intros Hbs Hs HR.
  - constructor.
  - pose proof (laid_end _ _ _ _ _ H). constructor.
    + apply IH; [intros; apply Hbs; lia|done|intros b Hb; specialize (HR b Hb); lia].
    + unfold good. rewrite Hbs; [done|lia].
  - pose proof (laid_end _ _ _ _ _ H). apply laid_chunk; try done.
    + apply IH; [intros; apply Hbs; lia|done|intros b Hb; specialize (HR b Hb); lia].
    + unfold good. rewrite Hbs; [done|lia].
    + eapply stored_same; [exact Hs| |done]. intros i Hi (b & Hb & Hp).
      assert (b = e); [|specialize (HR b Hb); lia].
      eapply in_block_inj; [exact Hp|]. apply block_byte_page. lia.
Qed.

Lemma laid_no_good bs d start e :
  laid_out bs d start [] e -> forall b, start <= b < e -> ~ good bs b.
Proof.
  intros H. remember [] as data. induction H as [|data e H IH Hng|data e chunk]; intros b Hb.
  - lia.
  - destruct (decide (b = e)) as [->|]; [done|]. apply IH; [done|lia].
  - destruct chunk; [unfold zlen in *; simpl in *; lia|]. by destruct data.
Qed.

(** Data of at most one block lies in the first block, if that is good. *)
Lemma laid_single bs d start data e :
  laid_out bs d start data e -> 0 < zlen data <= erasesize -> good bs start ->
  stored d (start * erasesize) data.
Proof.
  geometry. intros H. induction H as [|data e H IH Hng|data e chunk H IH Hg Hdiv Hlen Hst];
    intros Hd Hs.
  - unfold zlen in Hd. simpl in Hd. lia.
  - auto.
  - rewrite zlen_app in Hd. pose proof (zlen_nonneg data) as Hn.
    assert (zlen data = 0) as Hz.
    { destruct Hdiv as [k Hk]. assert (k < 1) by nia. assert (0 <= k) by nia. nia. }
    destruct data; [|unfold zlen in Hz; simpl in Hz; lia].
    pose proof (laid_end _ _ _ _ _ H). destruct (decide (start = e)) as [->|]; [done|].
    destruct (laid_no_good _ _ _ _ H start ltac:(lia) Hs).
Qed.

Definition mgmt_inv s ba limit (data : list Z) (x : Z * Z * Z) s1 : Prop :=
  let '(b, pos, start) := x in
  ba <= b /\ b <= Z.max ba limit /\ 0 <= pos <= zlen data /\ (pos = zlen data \/ (erasesize | pos)) /\
  mgmt_step (within ba limit) s s1 /\
  (pos = 0 -> forall c, ba <= c < b -> ~ good (block_state s1) c) /\
  (0 < pos -> ba <= start < b /\ b <= limit /\ good (block_state s1) start /\
     (forall c, ba <= c < start -> ~ good (block_state s1) c) /\
     exists pre, slice data 0 pos = Some pre /\
       laid_out (block_state s1) (dev s1) start pre b).

(** Moving on from a block that was not used. *)
Lemma mgmt_inv_skip s ba limit data b pos start s1 s2 :
  mgmt_inv s ba limit data (b, pos, start) s1 -> 0 <= ba -> b < limit -> limit <= block_count ->
  mgmt_step (eq b) s1 s2 -> ~ good (block_state s2) b ->
  mgmt_inv s ba limit data (b + 1, pos, start) s2.
Proof.
  intros (Hb & Hbl & Hpos & Hal & Hm & H0 & H1) Hba Hlt Hlim Hstep Hng.
  assert (Hst : forall c, 0 <= c < b -> state_of (block_state s2) c = state_of (block_state s1) c).
  { intros c Hc. destruct (step_worn _ _ _ Hstep c) as [|([-> _] & _)]; [lia|done|lia]. }
  unfold mgmt_inv. split_and!; try lia; try done.
  - eapply mgmt_step_trans; [exact Hm|]. eapply mgmt_step_weaken; [|exact Hstep].
    intros ? <-. unfold within. lia.
  - intros E c Hc. destruct (decide (c = b)) as [->|]; [done|].
    unfold good. rewrite Hst by lia. apply H0; [done|lia].
  - intros E. destruct (H1 E) as (Hs & Hl & Hg & Hpre & pre & Hsl & Hlaid).
    split_and!; try lia.
    + unfold good. rewrite Hst by lia. done.
    + intros c Hc. unfold good. rewrite Hst by lia. apply Hpre. lia.
    + exists pre. split; [done|]. constructor; [|done].
      eapply laid_frame; [done|intros; apply Hst; lia|apply Hstep|]. intros ? <-. lia.
Qed.

Lemma slice_snoc {A} (l : list A) pos n a b :
  slice l 0 pos = Some a -> slice l pos n = Some b -> slice l 0 (pos + n) = Some (a ++ b).
Proof.
  intros (? & ? & Hl1 & ->)%slice_inv (? & ? & Hl2 & ->)%slice_inv.
  rewrite slice_some by lia. f_equal. rewrite !drop_0.
  rewrite Z2Nat.inj_add by lia. by rewrite <- take_take_drop.
Qed.

(** Moving on from a block that took the next chunk. *)
Lemma mgmt_inv_write s ba limit data b pos start s1 s2 chunk n :
  mgmt_inv s ba limit data (b, pos, start) s1 -> 0 <= ba -> b < limit -> limit <= block_count ->
  pos < zlen data -> n = Z.min erasesize (zlen data - pos) ->
  slice data pos n = Some chunk -> good (block_state s1) b ->
  mgmt_step (eq b) s1 s2 -> block_state s2 = block_state s1 ->
  stored (dev s2) (b * erasesize) chunk ->
  mgmt_inv s ba limit data (b + 1, pos + n, if pos =? 0 then b else start) s2.
Proof.
  intros (Hb & Hbl & Hpos & Hal & Hm & H0 & H1) Hba Hlt Hlim Hrem Hn Hsl Hg Hstep Hbs Hst.
  geometry. pose proof (slice_zlen _ _ _ _ Hsl) as Hcl.
  assert (Hdiv : (erasesize | pos)) by (destruct Hal; [lia|done]).
  unfold mgmt_inv. split_and!; try lia.
  - destruct (Z.min_spec erasesize (zlen data - pos)) as [[? E]|[? E]]; rewrite Hn, E; [right|left; lia].
    apply Z.divide_add_r; [done|apply Z.divide_refl].
  - eapply mgmt_step_trans; [exact Hm|]. eapply mgmt_step_weaken; [|exact Hstep].
    intros ? <-. unfold within. lia.
  - intros _. rewrite Hbs. destruct (Z.eqb_spec pos 0) as [->|Hne].
    + split_and!; try lia; try done; [intros; apply H0; [done|lia]|].
      exists chunk. rewrite Z.add_0_l. split; [done|].
      apply (laid_chunk _ _ _ [] b chunk); try done; [constructor|lia].
    + destruct H1 as (Hs & Hl & Hgs & Hpre & pre & Hp & Hlaid); [lia|].
      split_and!; try lia; try done. exists (pre ++ chunk).
      split; [by apply slice_snoc|]. apply laid_chunk; try done; [..|lia].
      * eapply laid_frame; [done|done|apply Hstep|]. intros ? <-. lia.
      * by rewrite (slice_zlen _ _ _ _ Hp).
Qed.

(** What a successful management write guarantees: the first block used is
    the first good one at or after [ba], all blocks used lie below [limit]. *)
Definition written_at s' ba limit (data : list Z) (start e : Z) : Prop :=
  ba <= start < e /\ e <= limit /\ good (block_state s') start /\
  (forall c, ba <= c < start -> ~ good (block_state s') c) /\
  laid_out (block_state s') (dev s') start data e.

(** A sound block that was just erased takes any data. *)
Lemma ready_erased s b data :
  Forall is_byte data -> zlen data <= erasesize -> sound b -> erased_block (dev s) b ->
  ready s (b * erasesize) data.
Proof.
  intros Hb Hl [_ Hs] He. split; [done|]. intros i Hi. cbv zeta.
  pose proof (block_byte_page b i ltac:(lia)) as Hin. pose proof (page_of_divides (b * erasesize + i)) as Hdiv.
  destruct (Hs _ Hin Hdiv). auto.
Qed.

Lemma write_mgmt_step s ba limit data x s1 :
  0 <= ba -> limit <= block_count -> 0 < zlen data -> zlen data < 2 ^ 28 -> Forall is_byte data ->
  mgmt_inv s ba limit data x s1 ->
  wp (write_mgmt_body limit data x) (fun r s' =>
    match r with
    | inl x' => mgmt_inv s ba limit data x' s' /\ fst (fst x) < fst (fst x') <= limit
    | inr None => mgmt_step (within ba limit) s s'
    | inr (Some (start, e)) => mgmt_step (within ba limit) s s' /\ written_at s' ba limit data start e
    end) s1.
Proof.
  intros Hba Hlim Hd0 Hd Hbytes. geometry. destruct x as [[b pos] start]. intros Hinv.
  pose proof Hinv as (Hb & Hbl & Hpos & Hal & Hm & H0 & H1). unfold write_mgmt_body.
  pose proof (step_buffers _ _ _ Hm) as Hok1.
  destruct (Z.eqb_spec (zlen data - pos) 0) as [E|E]; simpl.
  { apply wp_ret. split; [done|].
    destruct H1 as (Hs & Hl & Hg & Hpre & pre & Hp & Hlaid); [lia|].
    replace pos with (zlen data) in Hp by lia. rewrite slice_full in Hp. injection Hp as <-.
    unfold written_at. split_and!; try done; lia. }
  destruct (Z.ltb_spec b limit); [|by apply wp_ret]. simpl.
  wp_step. apply wp_get_block_state; [done|lia|]. rewrite u32_small by lia.
  destruct (Z.eqb_spec (state_of (block_state s1) b) BLOCK_ST_GOOD) as [Eg|Eg]; simpl; cycle 1.
  { wp_step. split; [|simpl; lia]. eapply mgmt_inv_skip; try done. by apply mgmt_step_refl. }
  assert (HR : forall W s2, (forall p, W p -> in_block b p) -> io_step W s1 s2 -> mgmt_step (eq b) s1 s2).
  { intros W s2 HW. apply mgmt_step_io; [done|]. intros p Hp. exists b. auto. }
  assert (Hbad : forall s2, mgmt_step (eq b) s1 s2 -> block_state s2 = block_state s1 -> ~ sound b ->
    wp (nmbm_mark_phys_bad_block b;; nmbm_set_block_state b BLOCK_ST_BAD;;
        ret (inl (b + 1, pos, start) : Z * Z * Z + option (Z * Z))) (fun r s' =>
    match r with
    | inl x' => mgmt_inv s ba limit data x' s' /\ b < fst (fst x') <= limit
    | inr None => mgmt_step (within ba limit) s s'
    | inr (Some (start, e)) => mgmt_step (within ba limit) s s' /\ written_at s' ba limit data start e
    end) s2).
  { intros s2 M2 Ebs Hns. apply retire_ok; [apply M2|lia|by rewrite Ebs|done|]. intros s3 M3 Hst.
    wp_step. split; [|simpl; lia]. eapply mgmt_inv_skip; try done; [by eapply mgmt_step_trans|].
    unfold good. by rewrite Hst. }
  set (n := if zlen data - pos >? erasesize then erasesize else zlen data - pos).
  assert (Hn : n = Z.min erasesize (zlen data - pos)).
  { unfold n. rewrite Z.gtb_ltb. destruct (Z.ltb_spec erasesize (zlen data - pos)); lia. }
  wp_step. apply erase_phys_ok; [lia|]. intros ok d' Hs Hblank Her.
  assert (M2 : mgmt_step (eq b) s1 (s1 <| dev := d' |>)) by (by eapply HR; [|apply io_step_dev]).
  destruct ok; cycle 1.
  { wp_step. wp_step. apply Hbad; [done..|]. by intros [Hs1%Her _]. }
  wp_step. wp_step. destruct (slice_exists data pos n) as (chunk & Hsl & Hcl); [lia..|].
  eapply wp_lift; [exact Hsl|]. apply (write_verify_ok (in_block b)); [apply M2|..].
  - rewrite ba2addr_spec; nia.
  - rewrite ba2addr_spec; nia.
  - intros i Hi. rewrite ba2addr_spec by lia. apply block_byte_page. lia.
  - rewrite ba2addr_spec by lia. intros ok s3 Hio Hst Hrdy.
    assert (M3 : mgmt_step (eq b) s1 s3).
    { eapply mgmt_step_trans; [exact M2|]. eapply mgmt_step_io; [apply M2| |exact Hio].
      intros p Hp. by exists b. }
    assert (Ebs : block_state s3 = block_state s1) by (by destruct Hio as (? & ? & -> & _)).
    destruct ok; cycle 1.
    { apply Hbad; [done..|]. intros Hs1. discriminate Hrdy. apply ready_erased; [by eapply slice_forall|lia|done|auto]. }
    wp_step. split; [|simpl; lia].
    replace (zlen data - pos =? zlen data) with (pos =? 0)
      by (destruct (Z.eqb_spec pos 0), (Z.eqb_spec (zlen data - pos) (zlen data)); lia).
    eapply mgmt_inv_write; try done; [lia|by apply Hst].
Qed.

Lemma write_mgmt_ok s ba limit data Q :
  buffers_ok s -> 0 <= ba -> limit <= block_count -> 0 < zlen data -> zlen data < 2 ^ 28 -> Forall is_byte data ->
  (forall s', mgmt_step (within ba limit) s s' -> Q None s') ->
  (forall s' start e, mgmt_step (within ba limit) s s' -> written_at s' ba limit data start e ->
     Q (Some (start, e)) s') ->
  wp (nmbm_write_mgmt_range ba limit data) Q s.
Proof.
  intros Hok Hba Hlim Hd0 Hd Hbytes HN HS. unfold nmbm_write_mgmt_range.
  apply (wp_iter (mgmt_inv s ba limit data) (fun x _ => Z.to_nat (limit - fst (fst x)))); cycle 1.
  { unfold mgmt_inv. split_and!; try lia; [right; apply Z.divide_0_r|by apply mgmt_step_refl]. }
  { simpl. lia. }
  intros x s1 Hinv. eapply wp_conseq; [by apply (write_mgmt_step s ba)|]. cbv beta.
  intros [x'|[[start e]|]] s'; [intros [? ?]; split; [done|lia]| |auto].
  intros [? ?]. by apply HS.
Qed.

(** ** The signature block *)

(** A copy of [data] at the start of the first [n] pages of block [ba]. *)
Definition copies (d : D) (ba n : Z) (data : list Z) : Prop :=
  forall k, 0 <= k < n -> stored d (ba * erasesize + k * writesize) data.

(** A sound block, just erased, and bytes for it. *)
Definition fresh s ba (data : list Z) : Prop := Forall is_byte data /\ sound ba /\ erased_block (dev s) ba.

Definition blank_from (d : D) (ba k : Z) : Prop :=
  forall j, k <= j < pages_per_block -> page_at d (ba * erasesize + j * writesize) = erased_page.

Lemma write_repeated_step s ba data k s1 :
  buffers_ok s -> 0 <= ba < block_count -> zlen data <= writesize -> 0 <= k <= pages_per_block ->
  io_step (in_block ba) s s1 -> copies (dev s1) ba k data -> (fresh s ba data -> blank_from (dev s1) ba k) ->
  wp (write_repeated_body (ba * erasesize) data (k * writesize)) (fun r s' =>
    match r with
    | inl x' => x' = (k + 1) * writesize /\ k < pages_per_block /\
                io_step (in_block ba) s s' /\ copies (dev s') ba (k + 1) data /\
                (fresh s ba data -> blank_from (dev s') ba (k + 1))
    | inr ok => io_step (in_block ba) s s' /\ (ok = true -> copies (dev s') ba pages_per_block data) /\
                (fresh s ba data -> ok = true)
    end) s1.
Proof.
  intros Hok Hba Hd Hk Hio Hc Hbl0. geometry. pose proof (zlen_nonneg data) as Hd0.
  pose proof (buffers_ok_io _ _ _ Hok Hio) as Hok1. pose proof (ok_page_cache _ Hok1) as Hpc1.
  destruct (block_addr_bounds ba k Hba Hk) as [Haddr Hke]. unfold write_repeated_body.
  destruct (Z.ltb_spec (k * writesize) erasesize); cycle 1.
  { wp_step. split_and!; [done| |done]. intros _. by replace pages_per_block with k by nia. }
  assert (Hkp : k < pages_per_block) by (apply (Z.mul_lt_mono_pos_r writesize); lia).
  set (a := ba * erasesize + k * writesize) in *.
  pose proof (page_addr_divides ba k) as Hal. fold a in Hal.
  assert (Hpage : in_block ba a) by (apply page_in_block; lia).
  assert (Hrdy : fresh s ba data -> Forall is_byte data /\ (programmable a /\ reliable_page a) /\ page_at (dev s1) a = erased_page).
  { intros Hf. destruct (Hf) as (Hb & [_ Hs] & _). split_and!; [done|by apply Hs..|]. apply Hbl0; [done|lia]. }
  wp_step. wp_step. wp_step.
  destruct (splice_exists (page_cache s1) 0 data) as (pc1 & Hp1 & Hl1); [lia..|].
  eapply wp_lift; [exact Hp1|]. wp_step.
  destruct (splice_exists pc1 (zlen data) (fill 255 (rawpage_size - zlen data)))
    as (pc2 & Hp2 & Hl2); [lia|rewrite fill_zlen; lia|].
  eapply wp_lift; [exact Hp2|]. wp_step. wp_step. wp_step.
  destruct (slice_exists pc2 0 writesize) as (page & Hpg & Hpl); [lia..|].
  eapply wp_lift; [exact Hpg|]. rewrite !u64_small by lia.
  wp_step. apply write_phys_ok; [done|]. simpl. intros ok d1 Hs1 Hprog Hpr.
  set (s2 := s1 <| page_cache := pc2 |> <| dev := d1 |>).
  assert (Hio2 : io_step (in_block ba) s s2).
  { eapply io_step_trans; [exact Hio|]. exists d1, pc2. split_and!; [done|congruence|].
    eapply same_outside_weaken; [|exact Hs1]. by intros p ->. }
  destruct ok; cbn [negb]; [|wp_step; split_and!; [done..|by intros (_ & [Hp _] & _)%Hrdy; auto]].
  wp_step. apply read_page_cache_ok; [simpl; congruence|].
  intros r d2 pc3 Hs2 Hpc3 Hrd Hrel. change (dev s2) with d1 in *.
  assert (Hio3 : io_step (in_block ba) s (s2 <| dev := d2 |> <| page_cache := pc3 |>)).
  { eapply io_step_trans; [exact Hio2|]. apply io_step_intro; [simpl; congruence|].
    by eapply same_outside_weaken; [|exact Hs2]. }
  destruct (Z.eqb_spec r 0) as [->|Hr]; simpl; cycle 1.
  { wp_step. split_and!; [done..|]. intros (_ & [_ Hp] & _)%Hrdy. by destruct Hr; apply Hrel. }
  specialize (Hrd eq_refl ltac:(done) Hal). wp_step. wp_step. wp_step. simpl.
  destruct (slice_exists pc3 0 (zlen data)) as (back & Hback & Hbl); [lia..|].
  eapply wp_lift; [exact Hback|]. case_bool_decide as Heq; cycle 1.
  { wp_step. split_and!; [done..|]. intros (Hb & _ & Hp)%Hrdy. destruct Heq.
    apply (blank_reads_back page pc3 0); try done; try lia.
    - intros i Hi. rewrite Z.add_0_l. pose proof (znth_slice _ _ _ _ i Hpg ltac:(lia)) as Hz.
      rewrite Z.add_0_l in Hz. rewrite Hz, (znth_splice_out _ _ _ _ _ Hp2) by lia.
      rewrite (znth_splice_in _ _ _ _ _ Hp1) by lia. f_equal. lia.
    - rewrite Hp in Hprog. rewrite <- Hprog; done. }
  wp_step. subst back. split_and!; try done; try lia; cycle 1.
  { intros Hf j Hj. simpl. rewrite (same_all_at _ _ _ Hs2), (Hs1 (ba * erasesize + j * writesize)).
    - apply Hbl0; [done|lia].
    - unfold a. nia. }
  intros j Hj. destruct (decide (j = k)) as [->|]; intros i Hi.
  - fold a. rewrite flash_byte_page by (done || lia). simpl.
    rewrite (same_all_at _ _ _ Hs2), (znth_slice _ _ _ _ i Hback) by lia.
    symmetry. pose proof (znth_slice _ _ _ _ i Hrd ltac:(lia)) as Hz. by rewrite Z.add_0_l in *.
  - rewrite (Hc j ltac:(lia) i Hi). simpl. symmetry.
    transitivity (flash_byte d1 (ba * erasesize + j * writesize + i));
      [eapply flash_byte_same; [exact Hs2|tauto]|].
    eapply flash_byte_same; [exact Hs1|].
    assert (Hi' : 0 <= i < writesize) by lia.
    rewrite (proj1 (page_of_add _ i (page_addr_divides ba j) Hi')). unfold a. nia.
Qed.

Lemma write_repeated_ok s ba data Q :
  buffers_ok s -> 0 <= ba < block_count -> zlen data <= writesize ->
  (forall ok s', io_step (in_block ba) s s' ->
     (ok = true -> copies (dev s') ba pages_per_block data) -> (fresh s ba data -> ok = true) -> Q ok s') ->
  wp (nmbm_write_repeated_data ba data) Q s.
Proof.
  intros Hok Hba Hd HQ. geometry. unfold nmbm_write_repeated_data.
  destruct (Z.ltb_spec writesize (zlen data)); [lia|]. rewrite ba2addr_spec by lia.
  apply (wp_iter (fun off s1 => exists k, off = k * writesize /\ 0 <= k <= pages_per_block /\
             io_step (in_block ba) s s1 /\ copies (dev s1) ba k data /\
             (fresh s ba data -> blank_from (dev s1) ba k))
           (fun off _ => Z.to_nat (pages_per_block - off / writesize))); cycle 1.
  { exists 0. split_and!; try lia; [apply io_step_refl|intros k Hk; lia|].
    intros (_ & _ & He) j Hj. apply He; [by apply page_in_block|apply page_addr_divides]. }
  { rewrite Z.div_0_l by lia. lia. }
  intros off s1 (k & -> & Hk & Hio & Hc & Hbl).
  eapply wp_conseq; [by apply (write_repeated_step s)|]. cbv beta.
  intros [x'|ok] s'; [|intros (? & ? & ?); by apply HQ].
  intros (-> & Hlt & Hio' & Hc' & Hbl'). rewrite !Z.div_mul by lia. split; [|lia].
  exists (k + 1). split_and!; try done; lia.
Qed.

(** The signature goes into the highest good block above [limit] that takes
    it, a copy in every page. *)
Lemma write_signature_ok s limit sig Q :
  buffers_ok s -> 0 <= limit -> zlen sig <= writesize -> Forall is_byte sig ->
  (forall s', mgmt_step (within (limit + 1) block_count) s s' -> Q None s') ->
  (forall s' ba, mgmt_step (within (limit + 1) block_count) s s' -> limit < ba < block_count ->
     good (block_state s') ba -> (forall b, ba < b < block_count -> ~ good (block_state s') b) ->
     copies (dev s') ba pages_per_block sig -> Q (Some ba) s') ->
  wp (nmbm_write_signature limit sig) Q s.
Proof.
  intros Hok Hlim Hsig Hbytes HN HS. geometry. unfold nmbm_write_signature. rewrite u32_small by lia.
  apply (wp_iter (fun ba s1 => ba < block_count /\ (ba = block_count - 1 \/ limit <= ba) /\
             mgmt_step (within (limit + 1) block_count) s s1 /\
             forall b, ba < b < block_count -> ~ good (block_state s1) b)
           (fun ba _ => Z.to_nat (ba - limit))); cycle 1.
  { split_and!; try lia; by apply mgmt_step_refl. }
  { lia. }
  intros ba s1 (Hb & Hlo & Hm & Hng). unfold write_signature_body.
  match goal with |- wp _ ?q _ => set (post := q) end.
  pose proof (step_buffers _ _ _ Hm) as Hok1.
  destruct (Z.ltb_spec limit ba); [|wp_step; by apply HN].
  rewrite u32_small by lia. wp_step. apply wp_get_block_state; [done|lia|].
  assert (Hnext : forall s2, mgmt_step (eq ba) s1 s2 -> ~ good (block_state s2) ba ->
    post (inl (ba - 1)) s2).
  { intros s2 M2 Hg2. split; [|lia]. split_and!; try lia.
    - eapply mgmt_step_trans; [exact Hm|]. eapply mgmt_step_weaken; [|exact M2].
      intros ? <-. unfold within. lia.
    - intros b Hbb. destruct (decide (b = ba)) as [->|]; [done|]. unfold good.
      destruct (step_worn _ _ _ M2 b) as [->|([-> _] & _)]; [lia|apply Hng; lia|lia]. }
  destruct (Z.eqb_spec (state_of (block_state s1) ba) BLOCK_ST_GOOD) as [E|E]; simpl; cycle 1.
  { wp_step. apply Hnext; [by apply mgmt_step_refl|done]. }
  wp_step. apply erase_phys_ok; [lia|]. intros ok d' Hs He Her. wp_step.
  assert (M2 : mgmt_step (eq ba) s1 (s1 <| dev := d' |>)).
  { eapply mgmt_step_io; [done| |by apply io_step_dev]. intros p Hp. by exists ba. }
  assert (Hbad : forall s2, mgmt_step (eq ba) s1 s2 -> block_state s2 = block_state s1 -> ~ sound ba ->
    wp (nmbm_mark_phys_bad_block ba;; nmbm_set_block_state ba BLOCK_ST_BAD;;
        ret (inl (ba - 1))) post s2); cycle 1.
  - destruct ok; [|wp_step; apply Hbad; [done..|by intros [Hs1%Her _]]].
    apply write_repeated_ok; [apply M2|lia|done|]. intros ok s3 Hio Hc Hfresh.
    assert (M3 : mgmt_step (eq ba) s1 s3).
    { eapply mgmt_step_trans; [exact M2|]. eapply mgmt_step_io; [apply M2| |exact Hio].
      intros p Hp. by exists ba. }
    assert (Ebs : block_state s3 = block_state s1) by (by destruct Hio as (? & ? & -> & _)).
    destruct ok; [|apply Hbad; [done..|intros Hs1; discriminate Hfresh; by split_and!; auto]].
    wp_step. apply HS; try lia.
    + eapply mgmt_step_trans; [exact Hm|]. eapply mgmt_step_weaken; [|exact M3].
      intros ? <-. unfold within. lia.
    + by rewrite Ebs.
    + intros b Hbb. rewrite Ebs. by apply Hng.
    + by apply Hc.
  - intros s2 M3 Ebs Hns. apply retire_ok; [apply M3|lia|by rewrite Ebs|done|]. intros s3 M4 Hst.
    wp_step. apply Hnext; [by eapply mgmt_step_trans|]. unfold good. by rewrite Hst.
Qed.

End WearFacts.
