(* ===== verification/NmbmImage.v ===== *)
(** * NMBM: images of checksummed structures

    What [nmbm_update_checksum] writes is what [nmbm_check_header] accepts;
    structures survive the trip through their memory images; and the image
    [nmbm_generate_info_table_cache] builds holds the two tables. *)

From stdpp Require Import base numbers list.
From Stdlib Require Import ZArith Lia.
From S2P Require Import Prelude IntLib Crc32 NmbmTypes NmbmPhys NmbmState NmbmNand NmbmTable NmbmMgmt.

#[local] Opaque nmbm_crc32 crc_ref le_bytes le_value.

Lemma get_le_slice n off l d :
  slice l (Z.of_nat off) (Z.of_nat n) = Some d -> get_le n off l = le_value d.
Proof. intros (_ & _ & _ & ->)%slice_inv. unfold get_le. by rewrite !Nat2Z.id. Qed.

Lemma get_le_ext n off l l' :
  slice l (Z.of_nat off) (Z.of_nat n) = slice l' (Z.of_nat off) (Z.of_nat n) ->
  Z.of_nat off + Z.of_nat n <= zlen l -> get_le n off l = get_le n off l'.
Proof.
  intros H Hl. destruct (slice_exists l (Z.of_nat off) (Z.of_nat n)) as (d & Hd & _); [lia..|].
  by rewrite (get_le_slice _ _ _ _ Hd), (get_le_slice n off l' d) by congruence.
Qed.

Lemma le_bytes_get_le n off l d :
  Forall is_byte l -> slice l (Z.of_nat off) (Z.of_nat n) = Some d -> le_bytes n (get_le n off l) = d.
Proof.
  intros Hb Hs. rewrite (get_le_slice _ _ _ _ Hs). pose proof (slice_zlen _ _ _ _ Hs) as Hl.
  rewrite <- (le_bytes_le_value d) at 2 by (by eapply slice_forall).
  f_equal. unfold zlen in Hl. lia.
Qed.

Lemma slice_app {A} (l : list A) o n m a b :
  slice l o n = Some a -> slice l (o + n) m = Some b -> slice l o (n + m) = Some (a ++ b).
Proof.
  intros (? & ? & Hl1 & ->)%slice_inv (? & ? & Hl2 & ->)%slice_inv.
  rewrite slice_some by lia. f_equal. rewrite Z2Nat.inj_add by lia.
  rewrite <- take_take_drop. f_equal. f_equal. rewrite drop_drop. f_equal. lia.
Qed.

(** The bytes of the header with its checksum zeroed. *)
Lemma header_image_zero zeroed :
  Forall is_byte zeroed -> 16 <= zlen zeroed -> slice zeroed 12 4 = Some (le_bytes 4 0) ->
  slice zeroed 0 16 =
  Some (header_bytes (mkHeader (get_le 4 0 zeroed) (get_le 4 4 zeroed) (get_le 4 8 zeroed) 0)).
Proof.
  intros Hb Hl H12. unfold header_bytes. simpl.
  destruct (slice_exists zeroed 0 4) as (a & Ha & _); [lia..|].
  destruct (slice_exists zeroed 4 4) as (b & Hb4 & _); [lia..|].
  destruct (slice_exists zeroed 8 4) as (c & Hc & _); [lia..|].
  rewrite (le_bytes_get_le 4 0 _ _ Hb Ha), (le_bytes_get_le 4 4 _ _ Hb Hb4),
    (le_bytes_get_le 4 8 _ _ Hb Hc).
  change 16 with (4 + (4 + (4 + 4))).
  apply (slice_app _ _ 4); [done|]. apply (slice_app _ _ 4); [done|].
  by apply (slice_app _ _ 4).
Qed.

Lemma nmbm_crc32_app a b :
  Forall is_byte (a ++ b) -> zlen (a ++ b) <= UINT_MAX ->
  nmbm_crc32 (nmbm_crc32 0 a) b = nmbm_crc32 0 (a ++ b).
Proof.
  intros Hab Hl. pose proof (proj1 (Forall_app _ _ _) Hab) as [Ha Hb].
  pose proof (zlen_nonneg a). pose proof (zlen_nonneg b). rewrite zlen_app in Hl.
  rewrite !nmbm_crc32_ref, crc_ref_app by (rewrite ?zlen_app; done || lia). done.
Qed.

(** The checksum test, restated on the image with a zeroed checksum. *)
Lemma check_header_zeroed data zeroed size body :
  Forall is_byte zeroed -> zlen data = zlen zeroed -> zlen zeroed <= UINT_MAX ->
  (forall o n, o + n <= 12 \/ 16 <= o -> slice data o n = slice zeroed o n) ->
  slice zeroed 12 4 = Some (le_bytes 4 0) ->
  16 <= h_size (header_of_bytes data) -> h_size (header_of_bytes data) <= size ->
  slice zeroed 0 (h_size (header_of_bytes data)) = Some body ->
  nmbm_check_header data size = Some (h_checksum (header_of_bytes data) =? nmbm_crc32 0 body).
Proof.
  intros Hb Hlen Hmax Hsame H12 Hsz Hsize Hbody. unfold nmbm_check_header.
  destruct (Z.ltb_spec size (h_size (header_of_bytes data))); [lia|].
  pose proof (slice_inv _ _ _ _ Hbody) as (_ & _ & Hfit & _).
  assert (E : mkHeader (h_magic (header_of_bytes data)) (h_version (header_of_bytes data))
                (h_size (header_of_bytes data)) 0 =
              mkHeader (get_le 4 0 zeroed) (get_le 4 4 zeroed) (get_le 4 8 zeroed) 0).
  { simpl. f_equal; apply get_le_ext; try (apply Hsame); simpl; lia. }
  rewrite E. pose proof (header_image_zero zeroed Hb ltac:(lia) H12) as Hh.
  set (hb := header_bytes _) in *. change sizeof_header with 16.
  destruct (Z.ltb_spec 16 (h_size (header_of_bytes data))) as [Hlt|Hge].
  - set (sz := h_size (header_of_bytes data)) in *. rewrite Hsame by lia.
    destruct (slice_exists zeroed 16 (sz - 16)) as (rest & Hr & _); [lia..|]. rewrite Hr. simpl.
    pose proof (slice_app _ _ _ _ _ _ Hh Hr) as Happ.
    replace (16 + (sz - 16)) with sz in Happ by lia. rewrite Hbody in Happ. injection Happ as ->.
    rewrite nmbm_crc32_app; [done|by eapply slice_forall|].
    rewrite (slice_zlen _ _ _ _ Hbody). lia.
  - simpl. replace (h_size (header_of_bytes data)) with 16 in Hbody by lia.
    rewrite Hh in Hbody. by injection Hbody as ->.
Qed.

Lemma update_checksum_ok data :
  Forall is_byte data -> 16 <= h_size (header_of_bytes data) <= zlen data -> zlen data <= UINT_MAX ->
  exists data', nmbm_update_checksum data = Some data' /\ zlen data' = zlen data /\
    Forall is_byte data' /\
    (forall o n, o + n <= 12 \/ 16 <= o -> slice data' o n = slice data o n) /\
    forall size, h_size (header_of_bytes data) <= size -> nmbm_check_header data' size = Some true.
Proof.
  intros Hb Hsz Hmax. unfold nmbm_update_checksum.
  destruct (splice_exists data 12 (le_bytes 4 0)) as (zeroed & Hz & Hzl);
    [lia|rewrite zlen_le_bytes; lia|]. rewrite Hz.
  assert (Hzb : Forall is_byte zeroed) by exact (splice_forall _ _ _ _ _ Hb (le_bytes_is_byte _ _) Hz).
  pose proof (slice_splice_eq _ _ _ _ Hz) as H12. rewrite zlen_le_bytes in H12. simpl in H12.
  assert (Hsame : forall o n, o + n <= 12 \/ 16 <= o -> slice zeroed o n = slice data o n).
  { intros o n Hon. apply (slice_splice_ne _ _ _ _ _ _ Hz). rewrite zlen_le_bytes. lia. }
  assert (Esz : h_size (header_of_bytes zeroed) = h_size (header_of_bytes data)).
  { simpl. apply get_le_ext; [apply Hsame; simpl; lia|simpl; lia]. }
  rewrite Esz. set (sz := h_size (header_of_bytes data)) in *.
  destruct (slice_exists zeroed 0 sz) as (body & Hbody & Hbl); [lia..|]. rewrite Hbody.
  set (c := nmbm_crc32 0 body).
  destruct (splice_exists zeroed 12 (le_bytes 4 c)) as (data' & Hd & Hdl);
    [lia|rewrite zlen_le_bytes; lia|]. rewrite Hd.
  assert (Hsame' : forall o n, o + n <= 12 \/ 16 <= o -> slice data' o n = slice zeroed o n).
  { intros o n Hon. apply (slice_splice_ne _ _ _ _ _ _ Hd). rewrite zlen_le_bytes. lia. }
  assert (Esz' : h_size (header_of_bytes data') = sz).
  { rewrite <- Esz. simpl. apply get_le_ext; [apply Hsame'; simpl; lia|simpl; lia]. }
  exists data'. split_and!; try done; try lia.
  - exact (splice_forall _ _ _ _ _ Hzb (le_bytes_is_byte _ _) Hd).
  - intros o n Hon. by rewrite Hsame', Hsame.
  - intros size Hs. erewrite check_header_zeroed; try done; rewrite ?Esz'; try done; try lia.
    f_equal. apply Z.eqb_eq. pose proof (slice_splice_eq _ _ _ _ Hd) as Hc.
    rewrite zlen_le_bytes in Hc. simpl. rewrite (get_le_slice 4 12 _ _ Hc), le_value_le_bytes.
    apply Z.mod_small. unfold c. rewrite nmbm_crc32_ref; [by apply crc_ref_range|by eapply slice_forall|lia].
Qed.

(** ** Structures and their images *)

Lemma get_le_at n off pre x rest :
  length pre = off -> get_le n off (pre ++ le_bytes n x ++ rest) = x mod 256 ^ Z.of_nat n.
Proof.
  intros <-. unfold get_le. rewrite drop_app_length, take_app_le by (rewrite length_le_bytes; lia).
  rewrite take_ge by (rewrite length_le_bytes; lia). apply le_value_le_bytes.
Qed.

Definition is_u32 (x : Z) : Prop := 0 <= x < 2 ^ 32.

Record header_wf (h : nmbm_header) : Prop := {
  wf_magic : is_u32 (h_magic h);
  wf_version : is_u32 (h_version h);
  wf_size : is_u32 (h_size h);
  wf_checksum : is_u32 (h_checksum h)
}.

Record info_header_wf (t : nmbm_info_table_header) : Prop := {
  wf_it_header : header_wf (it_header t);
  wf_write_count : is_u32 (write_count t);
  wf_state_off : is_u32 (state_table_off t);
  wf_mapping_off : is_u32 (mapping_table_off t);
  wf_it_padding : is_u32 (it_padding t)
}.

Record signature_wf (g : nmbm_signature) : Prop := {
  wf_sig_header : header_wf (sig_header g);
  wf_nand_size : 0 <= sig_nand_size g < 2 ^ 64;
  wf_block_size : is_u32 (sig_block_size g);
  wf_page_size : is_u32 (sig_page_size g);
  wf_spare_size : is_u32 (sig_spare_size g);
  wf_mgmt_start : is_u32 (sig_mgmt_start_pb g);
  wf_try_count : is_byte (sig_max_try_count g);
  wf_sig_padding : length (sig_padding g) = 3%nat;
  wf_sig_tail : length (sig_tail g) = 4%nat
}.

(** Read the member at [off]: everything before it is [pre]. *)
Ltac read_member n off pre :=
  etransitivity;
    [| apply (get_le_at n off pre); rewrite ?length_app, ?length_le_bytes; reflexivity];
  f_equal; rewrite <- ?app_assoc; reflexivity.

Lemma header_image h rest : header_wf h -> header_of_bytes (header_bytes h ++ rest) = h.
Proof.
  intros [H1 H2 H3 H4]. unfold header_bytes, header_of_bytes, is_u32 in *.
  destruct h as [m v z c]. simpl in *.
  set (A := le_bytes 4 m). set (B := le_bytes 4 v). set (C := le_bytes 4 z).
  f_equal.
  - transitivity (m mod 2 ^ 32); [|by apply Z.mod_small]. read_member 4%nat 0%nat (@nil Z).
  - transitivity (v mod 2 ^ 32); [|by apply Z.mod_small]. read_member 4%nat 4%nat A.
  - transitivity (z mod 2 ^ 32); [|by apply Z.mod_small]. read_member 4%nat 8%nat (A ++ B).
  - transitivity (c mod 2 ^ 32); [|by apply Z.mod_small]. read_member 4%nat 12%nat (A ++ B ++ C).
Qed.

Lemma length_header_bytes h : length (header_bytes h) = 16%nat.
Proof. unfold header_bytes. by rewrite !length_app, !length_le_bytes. Qed.

Lemma info_header_image t rest :
  info_header_wf t -> info_table_header_of_bytes (info_table_header_bytes t ++ rest) = t.
Proof.
  intros [Hh H1 H2 H3 H4]. unfold info_table_header_bytes, info_table_header_of_bytes, is_u32 in *.
  destruct t as [h w so mo p]. simpl in *. pose proof (length_header_bytes h) as Hl.
  set (A := header_bytes h) in *. set (B := le_bytes 4 w). set (C := le_bytes 4 so).
  set (E := le_bytes 4 mo). f_equal.
  - rewrite <- app_assoc. by apply header_image.
  - transitivity (w mod 2 ^ 32); [|by apply Z.mod_small]. read_member 4%nat 16%nat A.
  - transitivity (so mod 2 ^ 32); [|by apply Z.mod_small]. read_member 4%nat 20%nat (A ++ B).
  - transitivity (mo mod 2 ^ 32); [|by apply Z.mod_small]. read_member 4%nat 24%nat (A ++ B ++ C).
  - transitivity (p mod 2 ^ 32); [|by apply Z.mod_small]. read_member 4%nat 28%nat (A ++ B ++ C ++ E).
Qed.

Lemma take_drop_at {A} n off (pre d rest : list A) :
  length pre = off -> length d = n -> take n (drop off (pre ++ d ++ rest)) = d.
Proof. intros <- <-. rewrite drop_app_length. by rewrite take_app_length. Qed.

Lemma signature_image g rest :
  signature_wf g -> signature_of_bytes (signature_bytes g ++ rest) = g.
Proof.
  intros [Hh H1 H2 H3 H4 H5 H6 H7 H8]. unfold signature_bytes, signature_of_bytes, is_u32, is_byte in *.
  destruct g as [h n b p sp ms tr pad tl]. simpl in *. pose proof (length_header_bytes h) as Hl.
  set (A := header_bytes h) in *. set (N := le_bytes 8 n). set (B := le_bytes 4 b).
  set (Pg := le_bytes 4 p). set (S := le_bytes 4 sp). set (Ms := le_bytes 4 ms).
  set (T := le_bytes 1 tr). f_equal.
  - rewrite <- app_assoc. by apply header_image.
  - transitivity (n mod 2 ^ 64); [|by apply Z.mod_small]. read_member 8%nat 16%nat A.
  - transitivity (b mod 2 ^ 32); [|by apply Z.mod_small]. read_member 4%nat 24%nat (A ++ N).
  - transitivity (p mod 2 ^ 32); [|by apply Z.mod_small]. read_member 4%nat 28%nat (A ++ N ++ B).
  - transitivity (sp mod 2 ^ 32); [|by apply Z.mod_small]. read_member 4%nat 32%nat (A ++ N ++ B ++ Pg).
  - transitivity (ms mod 2 ^ 32); [|by apply Z.mod_small].
    read_member 4%nat 36%nat (A ++ N ++ B ++ Pg ++ S).
  - transitivity (tr mod 2 ^ 8); [|by apply Z.mod_small].
    read_member 1%nat 40%nat (A ++ N ++ B ++ Pg ++ S ++ Ms).
  - etransitivity; [|apply (take_drop_at 3 41 (A ++ N ++ B ++ Pg ++ S ++ Ms ++ T) pad (tl ++ rest));
      [rewrite !length_app, Hl; unfold N, B, Pg, S, Ms, T; by rewrite !length_le_bytes|done]].
    f_equal. f_equal. by rewrite <- !app_assoc.
  - etransitivity; [|apply (take_drop_at 4 44 (A ++ N ++ B ++ Pg ++ S ++ Ms ++ T ++ pad) tl rest);
      [rewrite !length_app, Hl, H7; unfold N, B, Pg, S, Ms, T; by rewrite !length_le_bytes|done]].
    f_equal. f_equal. by rewrite <- !app_assoc.
Qed.

(** The bytes of a member, and the rest of the image. *)
Lemma le_bytes_take n off b :
  Forall is_byte b -> (off + n <= length b)%nat -> le_bytes n (get_le n off b) = take n (drop off b).
Proof.
  intros Hb Hl. apply le_bytes_get_le; [done|]. rewrite slice_some by (unfold zlen; lia).
  by rewrite !Nat2Z.id.
Qed.

Lemma take_drop_split {A} n off m (b : list A) :
  m = (off + n)%nat -> take n (drop off b) ++ drop m b = drop off b.
Proof. intros ->. rewrite <- (take_drop n (drop off b)) at 2. by rewrite drop_drop. Qed.

Lemma signature_bytes_of_bytes b :
  Forall is_byte b -> length b = 48%nat -> signature_bytes (signature_of_bytes b) = b.
Proof.
  intros Hb Hl. unfold signature_bytes, signature_of_bytes, header_bytes, header_of_bytes. simpl.
  rewrite !le_bytes_take by (done || lia). rewrite <- !app_assoc.
  rewrite (take_ge (drop 44 b)) by (rewrite length_drop; lia).
  rewrite (take_drop_split 3 41 44), (take_drop_split 1 40 41), (take_drop_split 4 36 40),
    (take_drop_split 4 32 36), (take_drop_split 4 28 32), (take_drop_split 4 24 28),
    (take_drop_split 8 16 24), (take_drop_split 4 12 16), (take_drop_split 4 8 12),
    (take_drop_split 4 4 8) by done.
  rewrite (take_drop_split 4 0 4 b) by done. by rewrite drop_0.
Qed.

(** ** The info table image *)

Section Generate.
Context {D : Type} {L : nmbm_lower_device D} {GO : geometry_ok L}.
Implicit Types s : nmbm_instance D.

(** The three parts of the table, at the offsets the header gives, do not
    overlap and fit. *)
Record offsets_ok (t : nmbm_info_table_header) : Prop := {
  off_header : sizeof_info_table_header <= state_table_off t;
  off_state : state_table_off t + state_table_size <= mapping_table_off t;
  off_mapping : mapping_table_off t + mapping_table_size <= info_table_size
}.

(** [img] is an info table that passes the header check and holds the
    states [bs] and the mapping [bm]. *)
Record table_image (t : nmbm_info_table_header) (bs bm img : list Z) : Prop := {
  img_len : zlen img = info_table_size;
  img_byte : Forall is_byte img;
  img_check : nmbm_check_header img info_table_size = Some true;
  img_magic : h_magic (header_of_bytes img) = NMBM_MAGIC_INFO_TABLE;
  img_version : h_version (header_of_bytes img) = NMBM_VER;
  img_size : h_size (header_of_bytes img) = info_table_size;
  img_write_count : write_count (info_table_header_of_bytes img) = write_count t;
  img_state_off : state_table_off (info_table_header_of_bytes img) = state_table_off t;
  img_mapping_off : mapping_table_off (info_table_header_of_bytes img) = mapping_table_off t;
  img_padding : it_padding (info_table_header_of_bytes img) = it_padding t;
  img_states : slice img (state_table_off t) state_table_size = Some (words_bytes bs);
  img_mapping : slice img (mapping_table_off t) mapping_table_size = Some (words_bytes (map u32 bm))
}.

(** The header [nmbm_generate_info_table_cache] leaves in the instance. *)
Definition next_header s : nmbm_info_table_header :=
  let it := info_table s in
  mkInfoHeader (mkHeader NMBM_MAGIC_INFO_TABLE NMBM_VER info_table_size (h_checksum (it_header it)))
    (if tables_changed s then u32 (write_count it + 1) else write_count it)
    (state_table_off it) (mapping_table_off it) (it_padding it).

Lemma splice_full {A} (l d : list A) : zlen d = zlen l -> splice l 0 d = Some d.
Proof.
  intros H. rewrite splice_some by (pose proof (zlen_nonneg d); lia). simpl.
  rewrite drop_ge by (unfold zlen in H; lia). by rewrite app_nil_r.
Qed.

Lemma header_bytes_is_byte h : Forall is_byte (header_bytes h).
Proof. unfold header_bytes. rewrite !Forall_app. auto using le_bytes_is_byte. Qed.

Lemma info_header_bytes_len t : zlen (info_table_header_bytes t) = 32.
Proof.
  unfold info_table_header_bytes, zlen.
  by rewrite !length_app, length_header_bytes, !length_le_bytes.
Qed.

Lemma info_header_bytes_byte t : Forall is_byte (info_table_header_bytes t).
Proof.
  unfold info_table_header_bytes. rewrite !Forall_app.
  auto using le_bytes_is_byte, header_bytes_is_byte.
Qed.

Lemma fill_is_byte b n : is_byte b -> Forall is_byte (fill b n).
Proof. intros. by apply Forall_replicate. Qed.

Lemma next_header_wf s : info_header_wf (info_table s) -> info_header_wf (next_header s).
Proof.
  intros [[] ]. destruct info_table_layout as (_ & _ & _ & Hs & _).
  assert (0 <= info_table_size) by (unfold info_table_size; apply u32_range).
  constructor; simpl; try done.
  - constructor; simpl; unfold is_u32; try done; lia.
  - destruct (tables_changed s); [apply u32_range|done].
Qed.

(** The image before its checksum is filled in. *)
Lemma splice_table s :
  buffers_ok s -> offsets_ok (info_table s) ->
  exists c1 c2 img,
    splice (fill 255 info_table_size) (state_table_off (info_table s)) (words_bytes (block_state s)) = Some c1 /\
    splice c1 (mapping_table_off (info_table s)) (words_bytes (map u32 (block_mapping s))) = Some c2 /\
    splice c2 0 (info_table_header_bytes (next_header s)) = Some img /\
    zlen img = info_table_size /\ Forall is_byte img /\
    img = info_table_header_bytes (next_header s) ++ drop 32 img /\
    slice img (state_table_off (info_table s)) state_table_size = Some (words_bytes (block_state s)) /\
    slice img (mapping_table_off (info_table s)) mapping_table_size =
      Some (words_bytes (map u32 (block_mapping s))).
Proof.
  intros Hok [O1 O2 O3]. geometry. change sizeof_info_table_header with 32 in O1.
  assert (Hw1 : zlen (words_bytes (block_state s)) = state_table_size)
    by (rewrite zlen_words_bytes; apply Hok).
  assert (Hw2 : zlen (words_bytes (map u32 (block_mapping s))) = mapping_table_size).
  { rewrite zlen_words_bytes, mapping_table_size_spec, <- (ok_map_len s Hok).
    unfold zlen. by rewrite length_map. }
  pose proof (zlen_nonneg (words_bytes (block_state s))).
  pose proof (zlen_nonneg (words_bytes (map u32 (block_mapping s)))).
  assert (Hf : zlen (fill 255 info_table_size) = info_table_size) by (apply fill_zlen; lia).
  destruct (splice_exists (fill 255 info_table_size) (state_table_off (info_table s))
              (words_bytes (block_state s))) as (c1 & H1 & L1); [lia..|].
  destruct (splice_exists c1 (mapping_table_off (info_table s))
              (words_bytes (map u32 (block_mapping s)))) as (c2 & H2 & L2); [lia..|].
  pose proof (info_header_bytes_len (next_header s)) as Hh.
  destruct (splice_exists c2 0 (info_table_header_bytes (next_header s))) as (img & H3 & L3); [lia..|].
  exists c1, c2, img. split_and!; try done; try lia.
  - refine (splice_forall _ _ _ _ _ _ (info_header_bytes_byte _) H3).
    refine (splice_forall _ _ _ _ _ _ (words_bytes_is_byte _) H2).
    refine (splice_forall _ _ _ _ _ _ (words_bytes_is_byte _) H1). by apply fill_is_byte.
  - apply splice_inv in H3 as (_ & _ & ->). simpl.
    rewrite drop_app_ge by (unfold zlen in Hh; lia). unfold zlen in Hh.
    replace (length (info_table_header_bytes (next_header s))) with 32%nat by lia. done.
  - rewrite (slice_splice_ne _ _ _ _ _ _ H3) by lia.
    rewrite (slice_splice_ne _ _ _ _ _ _ H2) by lia.
    rewrite <- Hw1. by apply (slice_splice_eq _ _ _ _ H1).
  - rewrite (slice_splice_ne _ _ _ _ _ _ H3) by lia.
    rewrite <- Hw2. by apply (slice_splice_eq _ _ _ _ H2).
Qed.

(** [nmbm_generate_info_table_cache] leaves a valid image of the current
    tables in the cache. *)
Lemma generate_ok s Q :
  buffers_ok s -> offsets_ok (info_table s) -> info_header_wf (info_table s) ->
  (forall img, table_image (next_header s) (block_state s) (block_mapping s) img ->
     Q (tables_changed s) (s <| info_table := next_header s |> <| info_table_cache := img |>)) ->
  wp nmbm_generate_info_table_cache Q s.
Proof.
  intros Hok Hoff Hwf HQ. geometry. destruct info_table_layout as (_ & _ & _ & Hsz & _).
  destruct (splice_table s Hok Hoff) as (c1 & c2 & img & H1 & H2 & H3 & Hl & Hb & Himg & Hst & Hmp).
  destruct Hoff as [O1 O2 O3]. change sizeof_info_table_header with 32 in O1.
  assert (Hss : 0 <= state_table_size) by (unfold state_table_size; apply u32_range).
  assert (Hms : 0 <= mapping_table_size) by (unfold mapping_table_size; apply u32_range).
  unfold nmbm_generate_info_table_cache. wp_step. wp_step. wp_step.
  eapply wp_lift.
  { apply splice_full. rewrite fill_zlen by lia. symmetry. apply Hok. }
  wp_step. eapply wp_lift.
  { rewrite <- (slice_full (words_bytes (block_state s))). f_equal.
    rewrite zlen_words_bytes. symmetry. apply Hok. }
  wp_step. eapply wp_lift; [exact H1|]. wp_step. eapply wp_lift.
  { rewrite <- (slice_full (words_bytes (map u32 (block_mapping s)))). f_equal.
    rewrite zlen_words_bytes, mapping_table_size_spec, <- (ok_map_len s Hok).
    unfold zlen. by rewrite length_map. }
  wp_step. eapply wp_lift; [exact H2|]. wp_step. wp_step. wp_step.
  eapply wp_lift; [exact H3|]. wp_step.
  pose proof (next_header_wf s Hwf) as Hwf'.
  assert (Eh : info_table_header_of_bytes img = next_header s)
    by (rewrite Himg; by apply info_header_image).
  assert (Eh0 : header_of_bytes img = it_header (next_header s))
    by (by rewrite <- Eh).
  destruct (update_checksum_ok img Hb) as (img' & Hup & Hl' & Hb' & Hsame & Hchk).
  { rewrite Eh0. simpl. lia. }
  { unfold UINT_MAX. lia. }
  eapply wp_lift; [exact Hup|]. wp_step. wp_step. wp_step. apply HQ.
  assert (Hg : forall n off, Z.of_nat off + Z.of_nat n <= 12 \/ 16 <= Z.of_nat off ->
    Z.of_nat off + Z.of_nat n <= 32 -> get_le n off img' = get_le n off img).
  { intros n off Ho Hn. apply get_le_ext; [by apply Hsame|lia]. }
  pose proof (f_equal write_count Eh) as E1. pose proof (f_equal state_table_off Eh) as E2.
  pose proof (f_equal mapping_table_off Eh) as E3. pose proof (f_equal it_padding Eh) as E4.
  pose proof (f_equal h_magic Eh0) as E5. pose proof (f_equal h_version Eh0) as E6.
  pose proof (f_equal h_size Eh0) as E7. simpl in E1, E2, E3, E4, E5, E6, E7.
  constructor; try done; simpl; rewrite ?Hg by (simpl; lia); try done.
  - lia.
  - rewrite Eh0 in Hchk. by apply Hchk.
  - rewrite Hsame by lia. done.
  - rewrite Hsame by lia. done.
Qed.

End Generate.
