(* ===== verification/NmbmUpdate.v ===== *)
(** * NMBM: keeping the info tables up to date

    The update, rebuild and rescue procedures of [NmbmTable] under a layout
    invariant: they terminate, touch only the management area, keep the
    invariant, and a successful update leaves a complete copy of the cached
    table on the chip. *)

From stdpp Require Import base numbers list.
From Stdlib Require Import ZArith Lia.
From S2P Require Import Prelude IntLib NmbmTypes NmbmPhys NmbmState NmbmNand NmbmTable NmbmMgmt NmbmImage.

Section Layout.
Context {D : Type} {L : nmbm_lower_device D} {P : NandModel D}.
Implicit Types s : nmbm_instance D.

(** Management area: [mgmt_start_ba, mapping_blocks_top_ba). *)
Definition mgmt_area s : Z -> Prop := within (mgmt_start_ba s) (mapping_blocks_top_ba s).

(** The layout of the chip: info tables, then unmapped spare blocks, then
    (above [mapping_blocks_top_ba]) the spares in use and the signature.
    Table addresses are 0 when the table does not exist. *)
Record layout_ok s : Prop := {
  lay_buffers : buffers_ok s;
  lay_offsets : offsets_ok (info_table s);
  lay_header : info_header_wf (info_table s);
  lay_room : size2blk info_table_size <= mgmt_start_ba s;
  lay_low : mgmt_start_ba s <= mapping_blocks_ba s;
  lay_top : mapping_blocks_ba s <= mapping_blocks_top_ba s < block_count;
  lay_main : main_table_ba s = 0 \/ mgmt_start_ba s <= main_table_ba s < mapping_blocks_ba s;
  lay_backup : backup_table_ba s = 0 \/ mgmt_start_ba s <= backup_table_ba s < mapping_blocks_ba s;
  lay_order : main_table_ba s <> 0 -> backup_table_ba s <> 0 -> main_table_ba s < backup_table_ba s
}.

(** Members the table procedures leave alone. *)
Definition config s :=
  (signature s, block_mapping s, data_block_count s, mgmt_start_ba s,
   mapping_blocks_top_ba s, signature_ba s, log_display_level s).

(** What a table procedure may do between two points of its run. *)
Record area_step s s' : Prop := {
  as_config : config s' = config s;
  as_table : info_table s' = info_table s /\ info_table_cache s' = info_table_cache s;
  as_buffers : buffers_ok s';
  as_pages : same_outside (blocks (mgmt_area s)) (dev s) (dev s');
  as_worn : worn (failing (mgmt_area s)) (block_state s) (block_state s');
  as_goods : block_state s' = block_state s \/
             (goods (block_state s') < goods (block_state s))%nat
}.

(** The cached table is made of bytes. *)
Definition bytes_cached s : Prop := Forall is_byte (info_table_cache s).

(** A complete table with the cached contents is on the chip, and the
    instance knows where. *)
Definition persisted s : Prop :=
  exists ba e, (ba = main_table_ba s \/ ba = backup_table_ba s) /\ ba <> 0 /\
    good (block_state s) ba /\ laid_out (block_state s) (dev s) ba (info_table_cache s) e.

(** No change is pending, or blocks were lost since [s]. *)
Definition settled s s' : Prop :=
  tables_changed s' = false \/ (goods (block_state s') < goods (block_state s))%nat.

End Layout.

Section Update.
Context {D : Type} {L : nmbm_lower_device D} {P : NandModel D}.
Context {GO : geometry_ok L} {NL : nand_laws L P}.
Implicit Types s : nmbm_instance D.

Lemma config_inv s s' : config s' = config s ->
  signature s' = signature s /\ block_mapping s' = block_mapping s /\
  data_block_count s' = data_block_count s /\ mgmt_start_ba s' = mgmt_start_ba s /\
  mapping_blocks_top_ba s' = mapping_blocks_top_ba s /\ signature_ba s' = signature_ba s /\
  log_display_level s' = log_display_level s.
Proof. unfold config. intros H. by injection H as -> -> -> -> -> -> ->. Qed.

Lemma config_area s s' : config s' = config s -> mgmt_area s' = mgmt_area s.
Proof. intros H%config_inv. unfold mgmt_area. destruct H as (_ & _ & _ & -> & -> & _). done. Qed.

Lemma area_step_refl s : buffers_ok s -> area_step s s.
Proof. intros. constructor; auto using worn_refl with nand. Qed.

Lemma area_step_trans s1 s2 s3 : area_step s1 s2 -> area_step s2 s3 -> area_step s1 s3.
Proof.
  intros [C1 [T1 U1] B1 P1 W1 G1] [C2 [T2 U2] B2 P2 W2 G2].
  rewrite (config_area _ _ C1) in *. constructor; try done.
  - congruence.
  - split; congruence.
  - by eapply same_outside_trans.
  - by eapply worn_trans.
  - destruct G1 as [E1|], G2 as [E2|]; [left; congruence|right..]; rewrite ?E2, ?E1 in *; lia.
Qed.

Lemma area_bytes s s' : area_step s s' -> bytes_cached s -> bytes_cached s'.
Proof. intros A. unfold bytes_cached. by rewrite (proj2 (as_table _ _ A)). Qed.

Lemma area_step_mgmt R s s' :
  (forall b, R b -> mgmt_area s b) -> mgmt_step R s s' -> area_step s s'.
Proof.
  intros HR H%(mgmt_step_weaken _ (mgmt_area s)); [|done].
  destruct H as [(d & pc & bs & c & ->) B P1 W C]. constructor; try done.
  destruct C as [[? _]|?]; auto.
Qed.

Lemma area_step_goods s s' : area_step s s' -> (goods (block_state s') <= goods (block_state s))%nat.
Proof. intros [_ _ _ _ _ [->|]]; lia. Qed.

(** Members that a management write keeps besides those of [config]. *)
Definition pointers s :=
  (main_table_ba s, backup_table_ba s, mapping_blocks_ba s, protected s, block_mapping_changed s).

Lemma mgmt_step_pointers R s s' : mgmt_step R s s' -> pointers s' = pointers s.
Proof. by intros [(d & pc & bs & c & ->) _ _ _ _]. Qed.

Lemma pointers_inv s s' : pointers s' = pointers s ->
  main_table_ba s' = main_table_ba s /\ backup_table_ba s' = backup_table_ba s /\
  mapping_blocks_ba s' = mapping_blocks_ba s /\ protected s' = protected s /\
  block_mapping_changed s' = block_mapping_changed s.
Proof. unfold pointers. intros H. by injection H as -> -> -> -> ->. Qed.

(** [settled] through the steps of a procedure. *)
Lemma settled_mono s s1 s2 :
  settled s s1 -> area_step s s1 -> area_step s s2 -> 
  (block_state s2 = block_state s1 /\ tables_changed s2 = tables_changed s1) \/
  (goods (block_state s2) < goods (block_state s1))%nat -> settled s s2.
Proof.
  intros H A1 A2 [[E1 E2]|Hlt]; unfold settled in *; [by rewrite E1, E2|].
  right. pose proof (area_step_goods _ _ A1). lia.
Qed.

Lemma settled_step R s s1 s2 :
  settled s s1 -> area_step s s1 -> mgmt_step R s1 s2 -> settled s s2.
Proof.
  intros H A1 M. pose proof (mgmt_step_pointers _ _ _ M) as (_ & _ & _ & _ & Ep)%pointers_inv.
  unfold settled in *. destruct (step_count _ _ _ M) as [[E1 E2]|Hlt].
  - unfold tables_changed in *. by rewrite E1, E2, Ep.
  - right. pose proof (area_step_goods _ _ A1). lia.
Qed.

(** A laid-out table survives a step that stays away from it. *)
Lemma laid_step R s s' start data e :
  laid_out (block_state s) (dev s) start data e -> mgmt_step R s s' -> 0 <= start ->
  e <= block_count -> (forall b, R b -> b < start \/ e <= b) ->
  laid_out (block_state s') (dev s') start data e.
Proof.
  intros Hl M Hs He HR. eapply laid_frame; [exact Hl| |apply M|done].
  intros b Hb. destruct (step_worn _ _ _ M b) as [|([Hr _] & _)]; [lia|done|].
  specialize (HR b Hr). lia.
Qed.

Lemma good_step R s s' b :
  mgmt_step R s s' -> 0 <= b < block_count -> ~ R b -> good (block_state s) b -> good (block_state s') b.
Proof.
  intros M Hb HR Hg. unfold good. destruct (step_worn _ _ _ M b Hb) as [->|([? _] & _)]; done.
Qed.

Lemma write_info_table_ok s ba limit Q :
  buffers_ok s -> bytes_cached s -> 0 <= ba -> limit <= block_count ->
  (forall s', mgmt_step (within ba limit) s s' -> Q None s') ->
  (forall s' start e, mgmt_step (within ba limit) s s' ->
     written_at s' ba limit (info_table_cache s) start e -> Q (Some (start, e)) s') ->
  wp (nmbm_write_info_table ba limit) Q s.
Proof.
  intros Hok Hbytes Hba Hlim HN HS. unfold nmbm_write_info_table. wp_step. wp_step. wp_step.
  destruct info_table_layout as (Hh & Hs & Hm & Hsz & _).
  pose proof (ok_cache_len s Hok) as Hc. rewrite <- Hc.
  eapply wp_lift; [apply slice_full|]. geometry.
  assert (0 <= state_table_size) by (unfold state_table_size; apply u32_range).
  assert (0 <= mapping_table_size) by (unfold mapping_table_size; apply u32_range).
  unfold sizeof_info_table_header in Hh. apply write_mgmt_ok; try done; lia.
Qed.

Lemma write_down_ok s low write_ba Q :
  buffers_ok s -> bytes_cached s -> 0 < low <= write_ba -> write_ba < 2 ^ 31 -> mapping_blocks_top_ba s <= block_count ->
  (forall s', mgmt_step (within low (mapping_blocks_top_ba s)) s s' -> Q None s') ->
  (forall s' ba start e, mgmt_step (within low (mapping_blocks_top_ba s)) s s' -> low <= ba ->
     written_at s' ba (mapping_blocks_top_ba s) (info_table_cache s) start e ->
     Q (Some (start, e)) s') ->
  wp (write_info_table_down low write_ba) Q s.
Proof.
  intros Hok Hbytes Hlow Hw Htop HN HS. unfold write_info_table_down.
  apply (wp_iter (fun b s1 => low - 1 <= b <= write_ba /\
             mgmt_step (within low (mapping_blocks_top_ba s)) s s1)
           (fun b _ => Z.to_nat (b + 1 - low))); [|auto using mgmt_step_refl with lia|lia].
  intros b s1 [Hb M]. unfold write_down_body.
  destruct (Z.leb_spec low b) as [Hle|Hgt]; [|by apply wp_ret, HN].
  assert (Etop : mapping_blocks_top_ba s1 = mapping_blocks_top_ba s /\
                 info_table_cache s1 = info_table_cache s)
    by (by destruct (step_members _ _ _ M) as (? & ? & ? & ? & ->)).
  destruct Etop as [Et Ec]. wp_step. wp_step. rewrite Et. wp_step.
  assert (Hsub : forall s2, mgmt_step (within b (mapping_blocks_top_ba s)) s1 s2 ->
    mgmt_step (within low (mapping_blocks_top_ba s)) s s2).
  { intros s2 M2. eapply mgmt_step_trans; [exact M|]. eapply mgmt_step_weaken; [|exact M2].
    unfold within. lia. }
  apply write_info_table_ok; [apply M|unfold bytes_cached; by rewrite Ec|lia|done| |].
  - intros s2 M2. wp_step. rewrite u32_small by lia. split; [|lia]. split; [lia|auto].
  - intros s2 start e M2 Hwr. wp_step. rewrite Ec in Hwr. eapply HS; eauto.
Qed.

(** Reserving spare blocks behind a table, as the procedures do it. *)
Lemma reserve_ok s low Q :
  layout_ok s -> mgmt_start_ba s <= low ->
  (forall write_ba, low <= write_ba < mapping_blocks_top_ba s -> Q (Some write_ba) s) -> Q None s ->
  wp (do lim <- top_minus_table; nmbm_try_reserve_blocks low info_table_spare_blocks 0 lim) Q s.
Proof.
  intros Hl Hlow HS HN. geometry. destruct info_table_layout as (_ & _ & Hm & Hsz & _).
  assert (Hi : 0 <= info_table_size) by (unfold info_table_size; apply u32_range).
  destruct (size2blk_spec info_table_size) as [_ Hb]; [lia|].
  pose proof (lay_room s Hl). pose proof (lay_top s Hl). pose proof (lay_low s Hl).
  assert (Hb0 : 0 <= size2blk info_table_size) by (unfold size2blk; apply u32_range).
  assert (Hsp : 0 <= info_table_spare_blocks < 2 ^ 31).
  { unfold info_table_spare_blocks, nmbm_get_spare_block_count.
    change NMBM_SPARE_BLOCK_DIV with 2. change NMBM_SPARE_BLOCK_MULTI with 1.
    change NMBM_SPARE_BLOCK_MIN with 2. change (2 / 2) with 1.
    assert (size2blk info_table_size < 2 ^ 29) by nia.
    rewrite (u32_small (_ + 1)) by lia.
    assert (0 <= (size2blk info_table_size + 1) / 2 < 2 ^ 30).
    { split; [apply Z.div_pos; lia|apply Z.div_lt_upper_bound; lia]. }
    rewrite Z.mul_1_r, u32_small by lia.
    destruct (Z.ltb_spec ((size2blk info_table_size + 1) / 2) 2); lia. }
  unfold top_minus_table. wp_step. wp_step. wp_step. wp_step. rewrite u32_small by lia.
  apply try_reserve_ok; [apply Hl|lia|done|lia|]. cbv zeta.
  destruct (_ !! _) as [w|] eqn:E; [|done]. apply HS.
  apply list_elem_of_lookup_2, elem_of_good_asc in E as [Hw _]. rewrite walk_limit_spec in Hw. lia.
Qed.

(** A later state of a run has the layout if its pointers do. *)
Lemma layout_intro s s' :
  layout_ok s -> area_step s s' ->
  mgmt_start_ba s <= mapping_blocks_ba s' <= mapping_blocks_top_ba s ->
  main_table_ba s' = 0 \/ mgmt_start_ba s <= main_table_ba s' < mapping_blocks_ba s' ->
  backup_table_ba s' = 0 \/ mgmt_start_ba s <= backup_table_ba s' < mapping_blocks_ba s' ->
  (main_table_ba s' <> 0 -> backup_table_ba s' <> 0 -> main_table_ba s' < backup_table_ba s') ->
  layout_ok s'.
Proof.
  intros [] A Hmb Hm Hb Ho.
  destruct (config_inv _ _ (as_config _ _ A)) as (_ & _ & _ & E1 & E2 & _).
  destruct (as_table _ _ A) as [E3 E4]. constructor; rewrite ?E1, ?E2, ?E3; try done; try lia.
  apply A.
Qed.

(** The bounds of the management area as numbers. *)
Lemma layout_bounds s : layout_ok s ->
  0 < mgmt_start_ba s /\ mgmt_start_ba s <= mapping_blocks_ba s <= mapping_blocks_top_ba s /\
  mapping_blocks_top_ba s < block_count.
Proof.
  intros Hl. geometry. destruct info_table_layout as (Hh & Hs & Hm & Hsz & _).
  assert (0 <= state_table_size) by (unfold state_table_size; apply u32_range).
  assert (0 <= mapping_table_size) by (unfold mapping_table_size; apply u32_range).
  unfold sizeof_info_table_header in Hh.
  destruct (size2blk_spec info_table_size) as [_ Hb]; [lia|].
  assert (0 < size2blk info_table_size) by nia.
  pose proof (lay_room s Hl). pose proof (lay_top s Hl). pose proof (lay_low s Hl). lia.
Qed.

Definition table_step s s' : Prop := area_step s s' /\ layout_ok s'.

Lemma mgmt_step_config R s s' : mgmt_step R s s' ->
  config s' = config s /\ info_table s' = info_table s /\ info_table_cache s' = info_table_cache s.
Proof. by intros [(d & pc & bs & c & ->) _ _ _ _]. Qed.

(** Everything a management write keeps, as equations. *)
Ltac step_eqs M :=
  let E := fresh "E" in let F := fresh "E" in
  pose proof (mgmt_step_config _ _ _ M) as E;
  destruct E as (E & ? & ?); apply config_inv in E; destruct E as (? & ? & ? & ? & ? & ? & ?);
  pose proof (mgmt_step_pointers _ _ _ M) as F;
  apply pointers_inv in F; destruct F as (? & ? & ? & ? & ?).

Lemma written_persisted s ba limit start e :
  written_at s ba limit (info_table_cache s) start e -> 0 < ba ->
  (start = main_table_ba s \/ start = backup_table_ba s) -> persisted s.
Proof.
  intros (? & ? & ? & _ & ?) Hba Hor. exists start, e. split_and!; try done. lia.
Qed.

Lemma area_pointers s s1 s2 :
  area_step s s1 -> config s2 = config s1 -> info_table s2 = info_table s1 ->
  info_table_cache s2 = info_table_cache s1 -> dev s2 = dev s1 -> block_state s2 = block_state s1 ->
  page_cache s2 = page_cache s1 -> area_step s s2.
Proof.
  intros [C [T1 T2] B P1 W G] E1 E2 E3 E4 E5 E6.
  destruct (config_inv _ _ E1) as (_ & Em & _).
  constructor; rewrite ?E1, ?E2, ?E3, ?E4, ?E5; try done.
  destruct B. constructor; rewrite ?E2, ?E3, ?E5, ?E6, ?Em; done.
Qed.

(** Extend a run by a management write in the area, and by assignments to
    the members that are not part of [area_step]. *)
Lemma area_write R s s1 s2 :
  area_step s s1 -> mgmt_step R s1 s2 -> (forall b, R b -> mgmt_area s b) -> area_step s s2.
Proof.
  intros A M HR. eapply area_step_trans; [exact A|]. eapply area_step_mgmt; [|exact M].
  by rewrite (config_area _ _ (as_config _ _ A)).
Qed.

Ltac assigned A := eapply area_pointers; [exact A|reflexivity..].

Lemma settled_clean s s1 : tables_changed s1 = false -> settled s s1.
Proof. by left. Qed.

(** The outcome of a table procedure that started in [s0]. *)
Definition updated s0 (ok : bool) s' : Prop :=
  table_step s0 s' /\ (ok = true -> settled s0 s' /\ persisted s').

(** A complete copy of the cached table at [ba, e). *)
Definition table_at s ba e : Prop :=
  0 < ba < e /\ e <= block_count /\ good (block_state s) ba /\
  laid_out (block_state s) (dev s) ba (info_table_cache s) e.

Lemma table_at_persisted s ba e :
  table_at s ba e -> ba = main_table_ba s \/ ba = backup_table_ba s -> persisted s.
Proof. intros (? & ? & ? & ?) ?. exists ba, e. split_and!; try done. lia. Qed.

Lemma table_at_step R s s' ba e :
  table_at s ba e -> mgmt_step R s s' -> (forall b, R b -> b < ba \/ e <= b) -> table_at s' ba e.
Proof.
  intros (H1 & H2 & H3 & H4) M HR. destruct (mgmt_step_config _ _ _ M) as (_ & _ & Ec).
  split_and!; try done; [lia..|eapply good_step; [exact M|lia| |done]|].
  - intros Hr. specialize (HR ba Hr). lia.
  - rewrite Ec. eapply laid_step; [exact H4|exact M|lia..|done].
Qed.

Lemma written_table R s s' ba limit start e :
  mgmt_step R s s' -> written_at s' ba limit (info_table_cache s) start e ->
  0 < ba -> limit <= block_count -> table_at s' start e /\ ba <= start /\ e <= limit.
Proof.
  intros M (? & ? & ? & _ & ?) Hb Hl. destruct (mgmt_step_config _ _ _ M) as (_ & _ & Ec).
  unfold table_at. rewrite Ec. split_and!; try done; lia.
Qed.

(** Assignments to members that are not part of the tables or buffers. *)
Lemma table_at_assign s s' ba e :
  table_at s ba e -> dev s' = dev s -> block_state s' = block_state s ->
  info_table_cache s' = info_table_cache s -> table_at s' ba e.
Proof. unfold table_at. by intros ? -> -> ->. Qed.

(** A run from [s0] has reached [s]. *)
Definition running s0 s : Prop := area_step s0 s /\ settled s0 s.

Lemma running_write R s0 s1 s2 :
  running s0 s1 -> mgmt_step R s1 s2 -> (forall b, R b -> mgmt_area s0 b) -> running s0 s2.
Proof. intros [A S] M HR. split; [by eapply area_write|by eapply settled_step]. Qed.

Lemma running_updated s0 s ba e :
  running s0 s -> layout_ok s -> table_at s ba e ->
  ba = main_table_ba s \/ ba = backup_table_ba s -> updated s0 true s.
Proof.
  intros [A S] Hl Ht Hb. split; [by split|]. intros _. split; [done|]. by eapply table_at_persisted.
Qed.

Lemma rebuild_backup_ok s0 s me :
  layout_ok s0 -> bytes_cached s0 -> running s0 s -> layout_ok s -> table_at s (main_table_ba s) me ->
  backup_table_ba s = 0 -> mapping_blocks_ba s = me -> mgmt_start_ba s <= main_table_ba s ->
  wp (rebuild_backup_table me) (updated s0) s.
Proof.
  intros L0 B0 R L1 T Eb Em Hms. destruct (layout_bounds s0 L0) as (Hst & Hmb & Htop).
  destruct (config_inv _ _ (as_config _ _ (proj1 R))) as (_ & _ & _ & Es & Et & _).
  pose proof T as (Tb & Te & _). unfold rebuild_backup_table.
  assert (Hlow : mgmt_start_ba s <= me) by lia.
  apply wp_assoc, reserve_ok; [done|done| |wp_step; by eapply running_updated; eauto].
  intros nst Hn. wp_step. wp_step. wp_step. rewrite Et in *.
  assert (Harea : forall b, within nst (mapping_blocks_top_ba s0) b -> mgmt_area s0 b)
    by (unfold within, mgmt_area, within; lia).
  apply write_info_table_ok; [apply L1|by apply (area_bytes s0), B0; apply R|lia|lia|..].
  - intros s2 M. step_eqs M. wp_step. pose proof (running_write _ _ _ _ R M Harea) as R2.
    apply (running_updated _ _ (main_table_ba s2) me); [done| | |by left].
    + apply (layout_intro s0); [done|apply R2|lia..].
    + replace (main_table_ba s2) with (main_table_ba s) by congruence.
      eapply table_at_step; [exact T|exact M|unfold within; lia].
  - intros s2 bst be M Hw. step_eqs M. pose proof (running_write _ _ _ _ R M Harea) as R2.
    destruct Hw as (Hb1 & Hb2 & _). wp_step. wp_step. wp_step. wp_step. wp_step.
    set (s3 := s2 <| backup_table_ba := bst |> <| mapping_blocks_ba := be |>).
    assert (R3 : running s0 s3) by (split; [assigned (proj1 R2)|apply R2]).
    apply erase_range_ok; [apply R3|lia|lia|]. intros s4 M4. step_eqs M4. wp_step.
    assert (R4 : running s0 s4).
    { eapply running_write; [exact R3|exact M4|]. unfold within, mgmt_area, within. lia. }
    assert (main_table_ba s4 = main_table_ba s /\ backup_table_ba s4 = bst /\
            mapping_blocks_ba s4 = be) as (E1 & E2 & E3)
      by (subst s3; simpl in *; split_and!; congruence).
    apply (running_updated _ _ (main_table_ba s4) me); [done| | |by left].
    + apply (layout_intro s0); [done|apply R4|lia..].
    + rewrite E1. eapply (table_at_step _ s3); [|exact M4|unfold within; lia].
      eapply (table_at_assign s2); [|done..].
      eapply table_at_step; [exact T|exact M|unfold within; lia].
Qed.

(** [nmbm_rebuild_info_table], entered in the middle of a run from [s0]. *)
Lemma rebuild_ok s0 s :
  layout_ok s0 -> bytes_cached s0 -> area_step s0 s -> wp nmbm_rebuild_info_table (updated s0) s.
Proof.
  intros L0 B0 A. destruct (layout_bounds s0 L0) as (Hst & Hmb & Htop).
  destruct (config_inv _ _ (as_config _ _ A)) as (_ & _ & _ & Es & Et & _).
  unfold nmbm_rebuild_info_table. do 10 wp_step. simpl. rewrite Et, Es.
  set (sA := s <| main_table_ba := 0 |> <| backup_table_ba := 0 |>
              <| mapping_blocks_ba := mapping_blocks_top_ba s0 |>).
  assert (AA : area_step s0 sA) by assigned A.
  wp_step. apply write_info_table_ok; [apply AA|by apply (area_bytes s0)|lia|lia| |].
  { intros sB M. step_eqs M. pose proof (area_write _ _ _ _ AA M ltac:(done)) as AB.
    wp_steps. assert (AC : area_step s0 (sB <| protected := 1 |>)) by assigned AB.
    split; [|done]. split; [done|].
    apply (layout_intro s0); [done|exact AC|simpl; subst sA; simpl in *; lia..]. }
  intros sB mst me M Hw. step_eqs M. pose proof (area_write _ _ _ _ AA M ltac:(done)) as AB.
  destruct (written_table _ _ _ _ _ _ _ M Hw) as (T & Hm1 & Hm2); [lia..|].
  pose proof T as ((Hm0 & Hm3) & _).
  unfold nmbm_mark_tables_clean. wp_steps.
  set (sC := sB <| main_table_ba := mst |> <| mapping_blocks_ba := me |>
                <| block_state_changed := 0 |> <| block_mapping_changed := 0 |>).
  assert (AC : area_step s0 sC) by assigned AB.
  assert (Eb : backup_table_ba sC = 0) by (simpl; subst sA; simpl in *; congruence).
  apply (rebuild_backup_ok s0 sC); try done.
  - split; [done|by left].
  - apply (layout_intro s0); [done|exact AC|rewrite ?Eb; simpl; lia..].
  - simpl. subst sA. simpl in *. lia.
Qed.

Lemma running_assign s0 s s' :
  running s0 s -> config s' = config s -> info_table s' = info_table s ->
  info_table_cache s' = info_table_cache s -> dev s' = dev s -> block_state s' = block_state s ->
  page_cache s' = page_cache s ->
  tables_changed s' = tables_changed s \/ tables_changed s' = false -> running s0 s'.
Proof.
  intros [A S] E1 E2 E3 E4 E5 E6 E7. split; [by eapply area_pointers|].
  unfold settled in *. rewrite E5. destruct E7 as [->| ->]; [done|by left].
Qed.

Lemma backup_becomes_main_ok s0 s e :
  layout_ok s0 -> running s0 s -> layout_ok s -> backup_table_ba s <> 0 ->
  table_at s (backup_table_ba s) e -> wp backup_becomes_main (updated s0) s.
Proof.
  intros L0 R L1 Hb T. unfold backup_becomes_main. wp_steps.
  set (s' := s <| main_table_ba := backup_table_ba s |> <| backup_table_ba := 0 |>).
  assert (R' : running s0 s') by (eapply running_assign; [exact R|try done..]; by left).
  apply (running_updated _ _ (backup_table_ba s) e); [done| |by eapply table_at_assign|by left].
  destruct (layout_bounds s L1) as (? & ? & ?). pose proof (lay_backup s L1).
  destruct (config_inv _ _ (as_config _ _ (proj1 R))) as (_ & _ & _ & Es & Et & _).
  apply (layout_intro s0); [done|apply R'|simpl; lia..].
Qed.

(** [nmbm_rescue_main_info_table]: the backup table in hand is complete. *)
Lemma rescue_main_ok s0 s e :
  layout_ok s0 -> bytes_cached s0 -> running s0 s -> layout_ok s -> backup_table_ba s <> 0 ->
  table_at s (backup_table_ba s) e -> e <= mapping_blocks_ba s ->
  wp nmbm_rescue_main_info_table (updated s0) s.
Proof.
  intros L0 B0 R L1 Hb T He. destruct (layout_bounds s L1) as (Hst & Hmb & Htop).
  destruct (config_inv _ _ (as_config _ _ (proj1 R))) as (_ & _ & _ & Es & Et & _).
  unfold nmbm_rescue_main_info_table. wp_step. wp_step.
  apply wp_assoc, reserve_ok; [done|lia| |by eapply backup_becomes_main_ok].
  intros wba Hw. wp_step.
  assert (Harea : forall b, within (mapping_blocks_ba s) (mapping_blocks_top_ba s) b -> mgmt_area s0 b)
    by (unfold within, mgmt_area, within; lia).
  geometry. apply write_down_ok; [apply L1|by apply (area_bytes s0), B0; apply R|lia|lia|lia|..].
  { intros s2 M. step_eqs M. pose proof (running_write _ _ _ _ R M Harea) as R2.
    pose proof (lay_main s L1). pose proof (lay_backup s L1). pose proof (lay_order s L1).
    eapply (backup_becomes_main_ok _ _ e); [done|done| |congruence|].
    - apply (layout_intro s0); [done|apply R2|lia..].
    - replace (backup_table_ba s2) with (backup_table_ba s) by congruence.
      eapply table_at_step; [exact T|exact M|unfold within; lia]. }
  intros s2 w ts te M Hlw Hwr. step_eqs M. pose proof (running_write _ _ _ _ R M Harea) as R2.
  destruct (written_table _ _ _ _ _ _ _ M Hwr) as (T2 & Ht1 & Ht2); [lia..|].
  pose proof T2 as ((Ht0 & Ht3) & _). do 5 wp_step.
  set (s3 := s2 <| mapping_blocks_ba := te |>).
  assert (R3 : running s0 s3) by (eapply running_assign; [exact R2|try done..]; by left).
  change (mgmt_start_ba s3) with (mgmt_start_ba s2).
  apply write_info_table_ok; [apply R3|by apply (area_bytes s0), B0; apply R3|lia|lia|..].
  - intros s4 M4. step_eqs M4. unfold nmbm_mark_tables_clean. wp_steps.
    set (s5 := s4 <| main_table_ba := ts |> <| backup_table_ba := 0 |>
                  <| block_state_changed := 0 |> <| block_mapping_changed := 0 |>).
    assert (R4 : running s0 s4).
    { eapply running_write; [exact R3|exact M4|]. unfold within, mgmt_area, within. lia. }
    assert (R5 : running s0 s5) by (eapply running_assign; [exact R4|try done..]; by right).
    change (mapping_blocks_ba s3) with te in *.
    apply (running_updated _ _ ts te); [done| | |by left].
    + apply (layout_intro s0); [done|apply R5|simpl; lia..].
    + eapply (table_at_assign s4); [|done..].
      eapply (table_at_step _ s3); [by eapply table_at_assign|exact M4|unfold within; lia].
  - intros s4 ms me M4 Hw4. step_eqs M4. change (mapping_blocks_ba s3) with te in *.
    destruct (written_table _ _ _ _ _ _ _ M4 Hw4) as (T4 & Hm1 & Hm2); [lia..|].
    pose proof T4 as ((Hm0 & Hm3) & _). unfold nmbm_mark_tables_clean.
    wp_step. wp_step. wp_step. wp_step. wp_step. wp_step.
    destruct (Z.leb_spec me ts); [|lia]. wp_steps.
    set (s5 := s4 <| main_table_ba := ms |> <| block_state_changed := 0 |>
                  <| block_mapping_changed := 0 |> <| backup_table_ba := ts |>).
    assert (R4 : running s0 s4).
    { eapply running_write; [exact R3|exact M4|]. unfold within, mgmt_area, within. lia. }
    assert (R5 : running s0 s5) by (eapply running_assign; [exact R4|try done..]; by right).
    apply (running_updated _ _ ms me); [done| |by eapply table_at_assign|by left].
    apply (layout_intro s0); [done|apply R5|simpl; lia..].
Qed.

(** The main table is written up to [limit]. *)
Lemma write_main_ok s0 s limit :
  layout_ok s0 -> bytes_cached s0 -> area_step s0 s -> layout_ok s ->
  (backup_table_ba s = 0 /\ limit = mapping_blocks_top_ba s \/
   backup_table_ba s <> 0 /\ limit = backup_table_ba s /\ running s0 s /\
   table_at s (backup_table_ba s) (mapping_blocks_ba s)) ->
  wp (write_main_table limit) (updated s0) s.
Proof.
  intros L0 B0 A L1 Hcase. destruct (layout_bounds s L1) as (Hst & Hmb & Htop).
  destruct (config_inv _ _ (as_config _ _ A)) as (_ & _ & _ & Es & Et & _).
  pose proof (lay_main s L1) as Hmain. pose proof (lay_backup s L1) as Hback.
  pose proof (lay_order s L1) as Hord.
  unfold write_main_table. wp_step. wp_step.
  destruct (Z.eqb_spec (main_table_ba s) 0) as [E0|E0]; [by apply rebuild_ok|].
  assert (Hlim : limit <= mapping_blocks_top_ba s) by (destruct Hcase as [[? ->]|(? & -> & _)]; lia).
  assert (Harea : forall b, within (main_table_ba s) limit b -> mgmt_area s0 b)
    by (unfold within, mgmt_area, within; lia).
  wp_step. apply write_info_table_ok; [apply L1|by apply (area_bytes s0)|lia|lia|..].
  - intros s2 M. step_eqs M. pose proof (area_write _ _ _ _ A M Harea) as A2. wp_step. wp_step.
    destruct (Z.eqb_spec (backup_table_ba s2) 0) as [Eb|Eb]; [by apply rebuild_ok|].
    destruct Hcase as [[? _]|(Hb & -> & R & T)]; [congruence|].
    pose proof (running_write _ _ _ _ R M Harea) as R2.
    apply (rescue_main_ok s0 s2 (mapping_blocks_ba s)); [done|done|done| |done| |lia].
    + apply (layout_intro s0); [done|apply R2|lia..].
    + replace (backup_table_ba s2) with (backup_table_ba s) by congruence.
      eapply table_at_step; [exact T|exact M|unfold within; lia].
  - intros s2 ms me M Hw. step_eqs M. pose proof (area_write _ _ _ _ A M Harea) as A2.
    destruct (written_table _ _ _ _ _ _ _ M Hw) as (T & Hm1 & Hm2); [lia..|].
    pose proof T as ((Hm0 & Hm3) & _). wp_step. wp_step. wp_step. wp_step. simpl.
    unfold nmbm_mark_tables_clean.
    destruct (Z.eqb_spec (backup_table_ba s2) 0) as [Eb|Eb]; wp_steps.
    + set (s5 := s2 <| main_table_ba := ms |> <| mapping_blocks_ba := me |>
                    <| block_state_changed := 0 |> <| block_mapping_changed := 0 |>).
      assert (R5 : running s0 s5) by (split; [assigned A2|by left]).
      apply (running_updated _ _ ms me); [done| |by eapply table_at_assign|by left].
      apply (layout_intro s0); [done|apply R5|simpl; lia..].
    + set (s5 := s2 <| main_table_ba := ms |>
                    <| block_state_changed := 0 |> <| block_mapping_changed := 0 |>).
      assert (R5 : running s0 s5) by (split; [assigned A2|by left]).
      destruct Hcase as [[? _]|(Hb & -> & _)]; [congruence|].
      apply (running_updated _ _ ms me); [done| |by eapply table_at_assign|by left].
      apply (layout_intro s0); [done|apply R5|simpl; lia..].
Qed.

(** *** One update round *)

Definition generated s img : nmbm_instance D :=
  s <| info_table := next_header s |> <| info_table_cache := img |>.

Lemma layout_generated s img :
  layout_ok s -> table_image (next_header s) (block_state s) (block_mapping s) img ->
  layout_ok (generated s img).
Proof.
  intros [[] [] Hw ? ? ? ? ? ?] Hi. constructor; try done.
  - constructor; try done. apply Hi.
  - by apply next_header_wf.
Qed.

Lemma write_both_ok s : layout_ok s -> bytes_cached s -> wp write_both_tables (updated s) s.
Proof.
  intros L1 B1. pose proof (area_step_refl s (lay_buffers _ L1)) as A1.
  destruct (layout_bounds s L1) as (Hst & Hmb & Htop).
  unfold write_both_tables. wp_step. wp_step. wp_step. wp_step.
  destruct (Z.eqb_spec (backup_table_ba s) 0) as [Eb|Eb]; [apply (write_main_ok s s); auto|].
  pose proof (lay_backup s L1) as Hback. pose proof (lay_main s L1) as Hmain.
  pose proof (lay_order s L1) as Hord.
  assert (Harea : forall b, within (backup_table_ba s) (mapping_blocks_top_ba s) b -> mgmt_area s b)
    by (unfold within, mgmt_area, within; lia).
  wp_step. apply write_info_table_ok; [apply L1|done|lia|lia|..].
  - intros s2 M. step_eqs M. pose proof (area_write _ _ _ _ A1 M Harea) as A2. do 4 wp_step.
    set (s3 := s2 <| mapping_blocks_ba := backup_table_ba s |> <| backup_table_ba := 0 |>).
    assert (A3 : area_step s s3) by assigned A2.
    apply (write_main_ok s s3); [done|done|done| |left; simpl; split; [done|congruence]].
    apply (layout_intro s); [done|done|simpl; lia..].
  - intros s2 bst be M Hw. step_eqs M. pose proof (area_write _ _ _ _ A1 M Harea) as A2.
    destruct (written_table _ _ _ _ _ _ _ M Hw) as (T & Hb1 & Hb2); [lia..|].
    pose proof T as ((Hb0 & Hb3) & _). unfold nmbm_mark_tables_clean. wp_steps.
    set (s3 := s2 <| backup_table_ba := bst |> <| mapping_blocks_ba := be |>
                  <| block_state_changed := 0 |> <| block_mapping_changed := 0 |>).
    assert (R3 : running s s3) by (split; [assigned A2|by left]).
    apply (write_main_ok s s3); [done|done|apply R3| |right; split_and!; try done; simpl; lia].
    apply (layout_intro s); [done|apply R3|simpl; lia..].
Qed.

Lemma update_once_ok s force Q :
  layout_ok s ->
  (forall img, table_image (next_header s) (block_state s) (block_mapping s) img ->
     tables_changed s = false -> force = false -> Q true (generated s img)) ->
  (forall img ok s', table_image (next_header s) (block_state s) (block_mapping s) img ->
     tables_changed s || force = true -> updated (generated s img) ok s' -> Q ok s') ->
  wp (nmbm_update_info_table_once force) Q s.
Proof.
  intros Hl HN HQ. unfold nmbm_update_info_table_once. wp_step.
  apply generate_ok; [apply Hl|apply Hl|apply Hl|]. intros img Himg.
  fold (generated s img). pose proof (layout_generated s img Hl Himg) as L1.
  specialize (HQ img). destruct (tables_changed s), force; simpl; try (apply wp_ret; by apply HN).
  all: eapply wp_conseq; [by apply write_both_ok; [|apply Himg]|]; intros ok s'; by apply HQ.
Qed.

(** *** Updating until nothing is pending *)

(** What any maintenance of the tables guarantees. *)
Record maint_step s s' : Prop := {
  ms_config : config s' = config s;
  ms_layout : layout_ok s';
  ms_pages : same_outside (blocks (mgmt_area s)) (dev s) (dev s');
  ms_worn : worn (failing (mgmt_area s)) (block_state s) (block_state s');
  ms_goods : block_state s' = block_state s \/
             (goods (block_state s') < goods (block_state s))%nat
}.

Lemma maint_step_refl s : layout_ok s -> maint_step s s.
Proof. intros. constructor; auto using worn_refl with nand. Qed.

Lemma maint_step_trans s1 s2 s3 : maint_step s1 s2 -> maint_step s2 s3 -> maint_step s1 s3.
Proof.
  intros [C1 B1 P1 W1 G1] [C2 B2 P2 W2 G2]. rewrite (config_area _ _ C1) in *.
  constructor; try done.
  - congruence.
  - by eapply same_outside_trans.
  - by eapply worn_trans.
  - destruct G1 as [E1|], G2 as [E2|]; [left; congruence|right..]; rewrite ?E2, ?E1 in *; lia.
Qed.

Lemma maint_generated s img s' : table_step (generated s img) s' -> maint_step s s'.
Proof. intros [[C T B P1 W G] Hl]. by constructor. Qed.

(** The chip holds a table with the current mapping, and with the block
    states from before the last write. *)
Definition synced s : Prop :=
  persisted s /\ exists bs0, worn (mgmt_area s) bs0 (block_state s) /\
    table_image (info_table s) bs0 (block_mapping s) (info_table_cache s).

Lemma updated_synced s img s' :
  table_image (next_header s) (block_state s) (block_mapping s) img ->
  updated (generated s img) true s' -> synced s'.
Proof.
  intros Hi [[A _] H]. destruct (H eq_refl) as [_ Hp]. split; [done|].
  exists (block_state s). destruct A as [C [T1 T2] _ _ W _]. split.
  - rewrite (config_area _ _ C). eapply worn_weaken; [|exact W]. by intros b [].
  - apply config_inv in C as (_ & -> & _). by rewrite T1, T2.
Qed.

(** [nmbm_update_info_table] always returns; when it reports success no
    change is pending and the pending ones are on the chip. *)
Lemma update_info_table_ok s :
  layout_ok s ->
  wp nmbm_update_info_table (fun ok s' =>
    maint_step s s' /\
    (protected s <> 0 -> ok = true /\ s' = s) /\
    (ok = true -> protected s = 0 ->
     tables_changed s' = false /\ (tables_changed s = true -> synced s'))) s.
Proof.
  intros Hl. unfold nmbm_update_info_table. wp_step. wp_step.
  destruct (Z.eqb_spec (protected s) 0) as [Ep|Ep]; simpl; cycle 1.
  { wp_step. split_and!; [by apply maint_step_refl|done|done]. }
  apply (wp_iter (fun _ s1 => maint_step s s1 /\ (s1 = s \/ synced s1))
    (fun _ s1 => if tables_changed s1 then S (goods (block_state s1)) else O)).
  - intros [] s1 [Hm Hs]. unfold update_body. wp_step. wp_step.
    destruct (tables_changed s1) eqn:Ech; cycle 1.
    { wp_step. split_and!; try done. intros _ _. split; [done|]. intros E.
      destruct Hs as [->|]; [congruence|done]. }
    wp_step. apply update_once_ok; [apply Hm|congruence|]. intros img ok s2 Hi _ U.
    pose proof (maint_generated _ _ _ (proj1 U)) as M2.
    assert (M : maint_step s s2) by (by eapply maint_step_trans).
    destruct ok; wp_step; [|by split_and!].
    pose proof (updated_synced _ _ _ Hi U) as Hsy. destruct U as [_ U].
    destruct (U eq_refl) as [Hset _]. split; [by auto|]. destruct Hset as [->|Hlt]; [lia|].
    change (block_state (generated s1 img)) with (block_state s1) in Hlt.
    destruct (tables_changed s2); lia.
  - split; [by apply maint_step_refl|by left].
  - pose proof (goods_bound (block_state s)). destruct (tables_changed s); lia.
Qed.

End Update.
