(* ===== verification/NmbmMapping.v ===== *)
(** * NMBM: the block mapping

    What [nmbm_map_block] does to the mapping table, and the invariant that
    logic operations rely on. *)

From stdpp Require Import base numbers list.
From Stdlib Require Import ZArith Lia.
From S2P Require Import Prelude IntLib NmbmTypes NmbmPhys NmbmState NmbmNand NmbmTable NmbmMgmt NmbmImage NmbmUpdate.

Section Mapping.
Context {D : Type} {L : nmbm_lower_device D} {P : NandModel D}.
Implicit Types s : nmbm_instance D.

(** Entries name blocks of the chip (or are negative: unusable), there are
    no more logic blocks than entries. *)
Record device_ok s : Prop := {
  dev_layout : layout_ok s;
  dev_entries : Forall (fun p => p < block_count) (block_mapping s);
  dev_count : 0 <= data_block_count s <= block_count
}.

(** No two logic blocks share a physical block, and none is mapped to the
    info tables or to a spare block. *)
Record mapping_ok s : Prop := {
  map_inj i j p : znth (block_mapping s) i = Some p -> znth (block_mapping s) j = Some p ->
                  0 <= p -> i = j;
  map_area i p : znth (block_mapping s) i = Some p -> 0 <= p ->
                 p < mgmt_start_ba s \/ mapping_blocks_top_ba s < p
}.

(** The state after mapping logic block [lb] to [pb]. *)
Definition mapped_to s lb pb : nmbm_instance D :=
  s <| block_mapping := <[Z.to_nat lb := pb]> (block_mapping s) |>
    <| mapping_blocks_top_ba := mapping_blocks_top_ba s - 1 |>
    <| block_mapping_changed := u32 (block_mapping_changed s + 1) |>.

End Mapping.

Section MappingFacts.
Context {D : Type} {L : nmbm_lower_device D} {P : NandModel D}.
Context {GO : geometry_ok L} {NL : nand_laws L P}.
Implicit Types s : nmbm_instance D.

Lemma device_ok_maint s s' : device_ok s -> maint_step s s' -> device_ok s'.
Proof.
  intros [] [C Hl _ _ _]. apply config_inv in C as (_ & E1 & E2 & _).
  constructor; rewrite ?E1, ?E2; done.
Qed.

Lemma layout_set_mapping s bm :
  layout_ok s -> zlen bm = block_count -> Forall (fun p => - 2 ^ 31 <= p < 2 ^ 31) bm ->
  layout_ok (s <| block_mapping := bm |>).
Proof. intros [[]] Hl Hv. by constructor. Qed.

Lemma insert_forall (p : Z -> Prop) l i x : Forall p l -> p x -> Forall p (<[i := x]> l).
Proof. intros. by apply Forall_insert. Qed.

Lemma layout_mapped s lb pb :
  layout_ok s -> mapping_blocks_ba s < pb <= mapping_blocks_top_ba s ->
  layout_ok (mapped_to s lb pb).
Proof.
  intros Hl Hpb. geometry. destruct (layout_bounds s Hl) as (? & ? & ?).
  destruct Hl as [[]]. constructor; try done; simpl; try lia.
  constructor; try done; simpl.
  - unfold zlen in *. by rewrite length_insert.
  - apply insert_forall; [done|lia].
Qed.

Lemma device_mapped s lb pb :
  device_ok s -> mapping_blocks_ba s < pb <= mapping_blocks_top_ba s -> device_ok (mapped_to s lb pb).
Proof.
  intros [Hl He Hc] Hpb. destruct (layout_bounds s Hl) as (? & ? & ?).
  constructor; [by apply layout_mapped| |done]. apply insert_forall; [done|lia].
Qed.

(** The nearest good block at or below [top], above [low]. *)
Lemma good_desc_head bs top low pb :
  good_desc bs top low !! 0%nat = Some pb ->
  low < pb <= top /\ good bs pb /\ forall b, pb < b <= top -> ~ good bs b.
Proof.
  intros E. assert (Hin : pb ∈ good_desc bs top low) by (by eapply list_elem_of_lookup_2).
  apply elem_of_good_desc in Hin as [Hr Hg]. split_and!; [lia..|done|].
  revert E. remember (Z.to_nat (top - low)) as n eqn:En. revert top En Hr.
  induction n as [|n IH]; intros top En Hr E b Hb; [lia|].
  rewrite good_desc_cons in E by lia. destruct (decide (good bs top)) as [Ht|Ht].
  - simpl in E. injection E as ->. lia.
  - destruct (decide (b = top)) as [->|]; [done|]. apply (IH (top - 1)); try done; try lia.
Qed.

(** [nmbm_map_block]: maps [lb] to the highest good spare block, or, when
    there is none, brings the info tables up to date and gives up. *)
Lemma map_block_ok s lb Q :
  layout_ok s -> 0 <= lb < block_count ->
  (mapping_blocks_ba s = mapping_blocks_top_ba s -> Q false s) ->
  (forall pb, mapping_blocks_ba s < pb <= mapping_blocks_top_ba s -> good (block_state s) pb ->
     (forall b, pb < b <= mapping_blocks_top_ba s -> ~ good (block_state s) b) ->
     Q true (mapped_to s lb pb)) ->
  (forall s', maint_step s s' -> mapping_blocks_ba s < mapping_blocks_top_ba s ->
     (forall b, mapping_blocks_ba s < b <= mapping_blocks_top_ba s -> ~ good (block_state s) b) ->
     Q false (s' <| mapping_blocks_top_ba := mapping_blocks_ba s' |>)) ->
  wp (nmbm_map_block lb) Q s.
Proof.
  intros Hl Hlb HQ0 HQ1 HQ2. geometry. destruct (layout_bounds s Hl) as (Hst & Hmb & Htop).
  unfold nmbm_map_block. wp_step. wp_step. wp_step. wp_step.
  destruct (Z.eqb_spec (mapping_blocks_ba s) (mapping_blocks_top_ba s)); [by wp_step; apply HQ0|].
  wp_step. apply walk_ok_desc; [apply Hl|lia..|].
  rewrite walk_limit_spec, Z.min_l by lia.
  change (Z.to_nat 0) with 0%nat. destruct (good_desc _ _ _ !! _) as [pb|] eqn:E.
  - apply good_desc_head in E as (Hr & Hg & Hno). wp_step. wp_step. wp_step.
    rewrite i32_small by lia.
    eapply wp_lift; [apply zset_some; rewrite (ok_map_len s); [lia|apply Hl]|].
    wp_steps. simpl. rewrite (u32_small (mapping_blocks_top_ba s - 1)) by lia. by apply HQ1.
  - wp_step. eapply wp_conseq; [by apply update_info_table_ok|]. cbv beta.
    intros ok s' (Hm & _). wp_steps. apply HQ2; [done|lia|]. intros b Hb Hg.
    assert (Hin : b ∈ good_desc (block_state s) (mapping_blocks_top_ba s) (mapping_blocks_ba s))
      by (by apply elem_of_good_desc).
    apply list_elem_of_lookup_1 in Hin as [i Hi]. apply lookup_lt_Some in Hi.
    apply lookup_ge_None in E. lia.
Qed.

Lemma layout_top_closed s :
  layout_ok s -> layout_ok (s <| mapping_blocks_top_ba := mapping_blocks_ba s |>).
Proof.
  intros Hl. destruct (layout_bounds s Hl) as (? & ? & ?). destruct Hl as [[]]. constructor; try done; simpl; try lia.
Qed.

Lemma znth_insert (l : list Z) i j x y :
  0 <= i < zlen l -> znth (<[Z.to_nat i := x]> l) j = Some y ->
  (j = i /\ y = x) \/ (j <> i /\ znth l j = Some y).
Proof.
  intros Hi H. pose proof (zset_some l i x Hi) as Hs. destruct (decide (j = i)) as [->|Hne].
  - left. rewrite (znth_zset_eq _ _ _ _ Hs) in H. by injection H as ->.
  - right. split; [done|]. by rewrite (znth_zset_ne _ _ _ _ _ Hs) in H by lia.
Qed.

(** Mapping to the topmost spare block keeps the mapping exclusive. *)
Lemma mapping_ok_mapped s lb :
  mapping_ok s -> layout_ok s -> 0 <= lb < block_count ->
  mapping_ok (mapped_to s lb (mapping_blocks_top_ba s)).
Proof.
  intros [Hi Ha] Hl Hlb. destruct (layout_bounds s Hl) as (Hst & Hmb & Htop).
  assert (Hlen : 0 <= lb < zlen (block_mapping s)) by (rewrite (ok_map_len s); [done|apply Hl]).
  constructor; simpl.
  - intros i j p Hpi Hpj Hp.
    apply (znth_insert _ _ _ _ _ Hlen) in Hpi as [[-> Ei]|[Ni Ei]];
      apply (znth_insert _ _ _ _ _ Hlen) in Hpj as [[-> Ej]|[Nj Ej]]; try done.
    + subst p. destruct (Ha j _ Ej); lia.
    + subst p. destruct (Ha i _ Ei); lia.
    + by eapply Hi.
  - intros i p Hp Hp0. apply (znth_insert _ _ _ _ _ Hlen) in Hp as [[-> ->]|[Ni Ei]]; [lia|].
    destruct (Ha i p Ei Hp0); lia.
Qed.

Lemma mapping_ok_unmap s lb :
  mapping_ok s -> buffers_ok s -> 0 <= lb < block_count ->
  mapping_ok (s <| block_mapping := <[Z.to_nat lb := -1]> (block_mapping s) |>).
Proof.
  intros [Hi Ha] Hok Hlb.
  assert (Hlen : 0 <= lb < zlen (block_mapping s)) by (by rewrite (ok_map_len s Hok)).
  constructor; simpl.
  - intros i j p Hpi Hpj Hp.
    apply (znth_insert _ _ _ _ _ Hlen) in Hpi as [[-> Ei]|[Ni Ei]]; [lia|].
    apply (znth_insert _ _ _ _ _ Hlen) in Hpj as [[-> Ej]|[Nj Ej]]; [lia|]. by eapply Hi.
  - intros i p Hp Hp0. apply (znth_insert _ _ _ _ _ Hlen) in Hp as [[-> ->]|[Ni Ei]]; [lia|].
    by eapply Ha.
Qed.

Lemma mapping_ok_maint s s' : mapping_ok s -> maint_step s s' -> mapping_ok s'.
Proof.
  intros [Hi Ha] [C _ _ _ _]. apply config_inv in C as (_ & E1 & _ & E2 & E3 & _).
  constructor; rewrite E1; [done|]. rewrite E2, E3. done.
Qed.

End MappingFacts.
