(* ===== verification/NmbmLogic.v ===== *)
(** * NMBM: the logic device

    Operations on logic addresses: erase, read, write, bad-block queries
    (drivers/mtd/nmbm/nmbm-core.c from [nmbm_erase_logic_block] on) and the
    debug query of nmbm-debug.inl. *)

From stdpp Require Import base numbers list.
From Stdlib Require Import ZArith Lia.
From S2P Require Import Prelude IntLib NmbmTypes NmbmPhys NmbmState NmbmTable.

Section Logic.
Context {D : Type} {L : nmbm_lower_device D}.
Local Abbreviation NM := (M (nmbm_instance D)).

(** [ni->block_mapping[lb]]. *)
Definition get_mapping (lb : Z) : NM Z :=
  do bm <- gets block_mapping;
  lift (znth bm lb).

Definition set_mapping (lb pb : Z) : NM unit :=
  do bm <- gets block_mapping;
  do bm <- lift (zset bm lb pb);
  block_mapping ::= bm.

(** "Mark bad unless the block waits for remapping". *)
Definition retire_mapped (pb : Z) : NM unit :=
  do st <- nmbm_get_block_state pb;
  if negb (st =? BLOCK_ST_NEED_REMAP) then nmbm_set_block_state pb BLOCK_ST_BAD;; ret tt
  else ret tt.

(** [remap_logic_block:] of [nmbm_erase_logic_block]; [inl] is [goto retry]. *)
Definition remap_logic_block (block_addr pb : Z) : NM (unit + Z) :=
  do success <- nmbm_map_block block_addr;
  if negb success then
    set_mapping block_addr (-1);;
    retire_mapped pb;;
    nmbm_update_info_table;;
    ret (inr (- EIO))
  else
    retire_mapped pb;;
    nmbm_update_info_table;;
    ret (inl tt).

Definition erase_logic_body (block_addr : Z) (_ : unit) : NM (unit + Z) :=
  do pb <- get_mapping block_addr;
  if pb <? 0 then ret (inr (- EIO))
  else
    do st1 <- nmbm_get_block_state pb;
    do st2 <- nmbm_get_block_state pb;
    if (st1 =? BLOCK_ST_BAD) || (st2 =? BLOCK_ST_NEED_REMAP) then remap_logic_block block_addr pb
    else
      do success <- nmbm_erase_phys_block (ba2addr pb);
      if success : bool then ret (inr 0)
      else
        nmbm_mark_phys_bad_block pb;;
        nmbm_set_block_state pb BLOCK_ST_BAD;;
        remap_logic_block block_addr pb.

(** [nmbm_erase_logic_block].  Every retry has taken one spare block. *)
Definition nmbm_erase_logic_block (block_addr : Z) : NM Z :=
  do top <- gets mapping_blocks_top_ba;
  iter (S (S (Z.to_nat top))) (erase_logic_body block_addr) tt.

(** [nmbm_erase_block_range]: the return value and [*failed_addr] if set. *)
Definition erase_blocks_body (end_ba start_ba : Z) : NM (Z + Z * option Z) :=
  if start_ba <=? end_ba then
    do r <- nmbm_erase_logic_block start_ba;
    if negb (r =? 0) then ret (inr (r, Some (ba2addr start_ba)))
    else ret (inl (u32 (start_ba + 1)))
  else ret (inr (0, None)).

Definition nmbm_erase_block_range (addr size : Z) : NM (Z * option Z) :=
  do prot <- gets protected;
  if negb (prot =? 0) then ret (- EROFS, None)
  else
    do count <- gets data_block_count;
    if ba2addr count <=? addr then ret (- EINVAL, None)
    else if ba2addr count <? u64 (addr + size) then ret (- EINVAL, None)
    else if size =? 0 then ret (0, None)
    else
      let start_ba := addr2ba addr in
      let end_ba := addr2ba (u64 (u64 (addr + size) - 1)) in
      iter (Z.to_nat (end_ba - start_ba) + 2) (erase_blocks_body end_ba) start_ba.

(** Reading.  [rd] reads one physical page into the destination, which is
    either the caller's buffers or the instance's page buffer; [keep] is the
    destination when nothing is read. *)
Definition read_logic {A} (rd : Z -> NM (Z * A)) (keep : A) (addr : Z) : NM (Z * A) :=
  let lb := addr2ba addr in
  let offset := u32 (Z.land addr erasesize_mask) in
  do pb <- get_mapping lb;
  if pb <? 0 then ret (- EIO, keep)
  else
    do st <- nmbm_get_block_state pb;
    if st =? BLOCK_ST_BAD then ret (- EIO, keep)
    else
      let paddr := u64 (ba2addr pb + offset) in
      do '(r, a) <- rd paddr;
      if r =? 0 then ret (0, a)
      else if 0 <? r then ret (1, a)
      else
        nmbm_set_block_state pb BLOCK_ST_NEED_REMAP;;
        nmbm_update_info_table;;
        ret (- EIO, a).

(** [nmbm_read_logic_page]. *)
Definition nmbm_read_logic_page (addr : Z) (data oob : option (list Z)) (mode : nmbm_oob_mode) :
    NM (Z * (option (list Z) * option (list Z))) :=
  read_logic (fun paddr => do '(r, d, o) <- nmbm_read_phys_page paddr data oob mode; ret (r, (d, o)))
    (data, oob) addr.

(** [nmbm_read_logic_page (ni, addr, ni->page_cache, NULL, mode)]. *)
Definition read_logic_page_cache (addr : Z) (mode : nmbm_oob_mode) : NM (Z * unit) :=
  read_logic (fun paddr => do r <- read_page_cache paddr mode; ret (r, tt)) tt addr.

(** [nmbm_read_single_page]. *)
Definition nmbm_read_single_page (addr : Z) (data oob : option (list Z)) (mode : nmbm_oob_mode) :
    NM (Z * (option (list Z) * option (list Z))) :=
  do prot <- gets protected;
  if negb (prot =? 0) then ret (- EROFS, (data, oob))
  else
    do count <- gets data_block_count;
    if ba2addr count <=? addr then ret (- EINVAL, (data, oob))
    else nmbm_read_logic_page addr data oob mode.

(** [nmbm_read_range (addr, size, data, mode, retlen)]: return value, buffer
    contents and [*retlen] ([None] where it is not set).  [buf] is the
    buffer before the call, of [size] bytes. *)
Definition read_range_body (mode : nmbm_oob_mode) (x : Z * Z * list Z) :
    NM (Z * Z * list Z + Z * list Z * option Z) :=
  let '(off, pos, buf) := x in
  let sizeremain := zlen buf - pos in
  if negb (sizeremain =? 0) then
    let leading := Z.land off writesize_mask in
    let chunksize := writesize - leading in
    let chunksize := if chunksize >? sizeremain then sizeremain else chunksize in
    if chunksize =? writesize then
      do dst <- lift (slice buf pos writesize);
      do '(r, (data, _)) <- nmbm_read_logic_page (u64 (off - leading)) (Some dst) None mode;
      do buf <- lift (splice buf pos (default [] data));
      if negb (r =? 0) then ret (inr (r, buf, Some pos))
      else ret (inl (u64 (off + chunksize), pos + chunksize, buf))
    else
      do '(r, _) <- read_logic_page_cache (u64 (off - leading)) mode;
      if negb (r =? 0) then ret (inr (r, buf, Some pos))
      else
        do pc <- gets page_cache;
        do src <- lift (slice pc leading chunksize);
        do buf <- lift (splice buf pos src);
        ret (inl (u64 (off + chunksize), pos + chunksize, buf))
  else ret (inr (0, buf, Some pos)).

Definition nmbm_read_range (addr : Z) (buf : list Z) (mode : nmbm_oob_mode) :
    NM (Z * list Z * option Z) :=
  do prot <- gets protected;
  if negb (prot =? 0) then ret (- EROFS, buf, None)
  else
    do count <- gets data_block_count;
    if ba2addr count <=? addr then ret (- EINVAL, buf, None)
    else if ba2addr count <? u64 (addr + zlen buf) then ret (- EINVAL, buf, None)
    else if zlen buf =? 0 then ret (0, buf, None)
    else iter (S (length buf)) (read_range_body mode) (addr, 0, buf).

(** [nmbm_write_logic_page]. *)
Definition nmbm_write_logic_page (addr : Z) (data oob : option (list Z)) (mode : nmbm_oob_mode) :
    NM Z :=
  let lb := addr2ba addr in
  let offset := u32 (Z.land addr erasesize_mask) in
  do pb <- get_mapping lb;
  if pb <? 0 then ret (- EIO)
  else
    do st <- nmbm_get_block_state pb;
    if st =? BLOCK_ST_BAD then ret (- EIO)
    else
      let paddr := u64 (ba2addr pb + offset) in
      do success <- nmbm_write_phys_page paddr data oob mode;
      if success : bool then ret 0
      else
        nmbm_set_block_state pb BLOCK_ST_NEED_REMAP;;
        nmbm_update_info_table;;
        ret (- EIO).

(** [nmbm_write_single_page]. *)
Definition nmbm_write_single_page (addr : Z) (data oob : option (list Z)) (mode : nmbm_oob_mode) :
    NM Z :=
  do prot <- gets protected;
  if negb (prot =? 0) then ret (- EROFS)
  else
    do count <- gets data_block_count;
    if ba2addr count <=? addr then ret (- EINVAL)
    else nmbm_write_logic_page addr data oob mode.

(** [nmbm_write_range]: return value and [*retlen]. *)
Definition write_range_body (data : list Z) (mode : nmbm_oob_mode) (x : Z * Z) :
    NM (Z * Z + Z * option Z) :=
  let '(off, pos) := x in
  let sizeremain := zlen data - pos in
  if negb (sizeremain =? 0) then
    let leading := Z.land off writesize_mask in
    let chunksize := writesize - leading in
    let chunksize := if chunksize >? sizeremain then sizeremain else chunksize in
    do page <-
      (if chunksize =? writesize then lift (slice data pos writesize)
       else
         do pc <- gets page_cache;
         do pc <- lift (splice pc 0 (fill 0xff leading));
         do chunk <- lift (slice data pos chunksize);
         do pc <- lift (splice pc leading chunk);
         page_cache ::= pc;;
         lift (slice pc 0 writesize));
    do r <- nmbm_write_logic_page (u64 (off - leading)) (Some page) None mode;
    if negb (r =? 0) then ret (inr (r, Some pos))
    else ret (inl (u64 (off + chunksize), pos + chunksize))
  else ret (inr (0, Some pos)).

Definition nmbm_write_range (addr : Z) (data : list Z) (mode : nmbm_oob_mode) : NM (Z * option Z) :=
  do prot <- gets protected;
  if negb (prot =? 0) then ret (- EROFS, None)
  else
    do count <- gets data_block_count;
    if ba2addr count <=? addr then ret (- EINVAL, None)
    else if ba2addr count <? u64 (addr + zlen data) then ret (- EINVAL, None)
    else if zlen data =? 0 then ret (0, None)
    else iter (S (length data)) (write_range_body data mode) (addr, 0).

(** [nmbm_check_bad_block]. *)
Definition nmbm_check_bad_block (addr : Z) : NM Z :=
  do count <- gets data_block_count;
  if ba2addr count <=? addr then ret (- EINVAL)
  else
    do pb <- get_mapping (addr2ba addr);
    if pb <? 0 then ret 1
    else
      do st <- nmbm_get_block_state pb;
      if st =? BLOCK_ST_BAD then ret 1 else ret 0.

(** [nmbm_mark_bad_block]. *)
Definition nmbm_mark_bad_block (addr : Z) : NM Z :=
  do count <- gets data_block_count;
  if ba2addr count <=? addr then ret (- EINVAL)
  else
    let lb := addr2ba addr in
    do pb <- get_mapping lb;
    if pb <? 0 then ret 0
    else
      set_mapping lb (-1);;
      nmbm_mark_phys_bad_block pb;;
      nmbm_set_block_state pb BLOCK_ST_BAD;;
      nmbm_update_info_table;;
      ret 0.

(** [nmbm_get_avail_size]. *)
Definition nmbm_get_avail_size : NM Z :=
  do count <- gets data_block_count;
  ret (u64 (Z.shiftl count erasesize_shift)).

(** [nmbm_debug_get_phys_block_type] and its result type. *)
Inductive nmmb_block_type :=
| NMBM_BLOCK_GOOD_DATA
| NMBM_BLOCK_GOOD_MGMT
| NMBM_BLOCK_BAD
| NMBM_BLOCK_MAIN_INFO_TABLE
| NMBM_BLOCK_BACKUP_INFO_TABLE
| NMBM_BLOCK_REMAPPED
| NMBM_BLOCK_SIGNATURE.

Definition nmbm_debug_get_phys_block_type (ba : Z) : NM nmmb_block_type :=
  do st <- nmbm_get_block_state ba;
  do s <- gets (fun s => s);
  if st =? BLOCK_ST_BAD then ret NMBM_BLOCK_BAD
  else if ba <? data_block_count s then ret NMBM_BLOCK_GOOD_DATA
  else if ba =? signature_ba s then ret NMBM_BLOCK_SIGNATURE
  else
    let limit := if backup_table_ba s =? 0 then mapping_blocks_ba s else backup_table_ba s in
    do eba <- (if main_table_ba s =? 0 then ret None
               else nmbm_block_walk_asc (main_table_ba s) (size2blk info_table_size) limit);
    let in_main :=
      match eba with
      | Some eba => (main_table_ba s <=? ba) && (ba <? eba)
      | None => false
      end in
    if in_main then ret NMBM_BLOCK_MAIN_INFO_TABLE
    else if (backup_table_ba s <=? ba) && (ba <? mapping_blocks_ba s) then ret NMBM_BLOCK_BACKUP_INFO_TABLE
    else if (mapping_blocks_top_ba s <? ba) && (ba <? signature_ba s) then ret NMBM_BLOCK_REMAPPED
    else ret NMBM_BLOCK_GOOD_MGMT.

End Logic.
