(* ===== verification/NmbmIO.v ===== *)
(** * NMBM: specifications of the logic device

    Reads deliver, and writes and erases change, exactly the physical pages
    the mapping table names; failures leave a usable instance. *)

From stdpp Require Import base numbers list.
From Stdlib Require Import ZArith Lia.
From S2P Require Import Prelude IntLib NmbmTypes NmbmPhys NmbmState NmbmNand NmbmTable NmbmMgmt NmbmImage NmbmUpdate NmbmMapping NmbmLogic.

Section LogicBytes.
Context {D : Type} {L : nmbm_lower_device D} {P : NandModel D}.
Implicit Types s : nmbm_instance D.

(** The physical address of a logic address. *)
Definition phys s (i : Z) : option Z :=
  match znth (block_mapping s) (i / erasesize) with
  | Some pb => if pb <? 0 then None else Some (pb * erasesize + i mod erasesize)
  | None => None
  end.

(** The byte at a logic address. *)
Definition logic_byte s (i : Z) : option Z :=
  match phys s i with Some a => flash_byte (dev s) a | None => None end.

(** The bytes the logic device offers to its user. *)
Definition avail s : Z := data_block_count s * erasesize.

(** The logic address is mapped to a block that is not bad, at a physical
    address with the property [R]. *)
Definition live (R : Z -> Prop) s (i : Z) : Prop :=
  exists pb, znth (block_mapping s) (i / erasesize) = Some pb /\ 0 <= pb /\
    state_of (block_state s) pb <> BLOCK_ST_BAD /\ R (pb * erasesize + i mod erasesize).

End LogicBytes.

Section IO.
Context {D : Type} {L : nmbm_lower_device D} {P : NandModel D}.
Context {GO : geometry_ok L} {NL : nand_laws L P}.
Implicit Types s : nmbm_instance D.

(** ** Members and addresses *)

Lemma layout_set_state s ba st c :
  layout_ok s -> 0 <= ba < block_count -> 0 <= st <= 3 ->
  layout_ok (s <| block_state := set_state (block_state s) ba st |> <| block_state_changed := c |>).
Proof.
  intros [] Hb Hst. constructor; try done. by apply buffers_ok_set_state.
Qed.

Lemma device_set_state s ba st c :
  device_ok s -> 0 <= ba < block_count -> 0 <= st <= 3 ->
  device_ok (s <| block_state := set_state (block_state s) ba st |> <| block_state_changed := c |>).
Proof. intros [] Hb Hst. constructor; try done. by apply layout_set_state. Qed.

Lemma device_io W s s' : device_ok s -> io_step W s s' -> device_ok s'.
Proof.
  intros [Hl He Hc] Hio. pose proof (buffers_ok_io _ _ _ (lay_buffers _ Hl) Hio) as Hok.
  destruct Hio as (d & pc & -> & _ & _). constructor; try done. destruct Hl. by constructor.
Qed.

Lemma get_mapping_ok s lb Q :
  device_ok s -> 0 <= lb < block_count ->
  (forall pb, znth (block_mapping s) lb = Some pb -> - 2 ^ 31 <= pb < block_count -> Q pb s) ->
  wp (get_mapping lb) Q s.
Proof.
  intros Hd Hlb HQ. unfold get_mapping. wp_step. wp_step.
  assert (Hin : 0 <= lb < zlen (block_mapping s)) by (rewrite (ok_map_len s); [done|apply Hd]).
  destruct (znth_some _ _ Hin) as [pb Hpb]. eapply wp_lift; [exact Hpb|]. apply HQ; [done|].
  unfold znth in Hpb. destruct (lb <? 0); [done|].
  pose proof (Forall_lookup_1 _ _ _ _ (dev_entries s Hd) Hpb).
  pose proof (Forall_lookup_1 _ _ _ _ (ok_map_val s (lay_buffers _ (dev_layout _ Hd))) Hpb). simpl in *. lia.
Qed.

(** A logic block is mapped to [b]. *)
Definition in_use s b : Prop := exists lb, znth (block_mapping s) lb = Some b.

(** A step of the logic device: mapping and layout stay, pages change only
    in [W] and in the management area, and a sound block that holds no logic
    block keeps its state. *)
Record data_step (W : Z -> Prop) s s' : Prop := {
  ds_config : config s' = config s;
  ds_pages : same_outside (fun p => W p \/ blocks (mgmt_area s) p) (dev s) (dev s');
  ds_states b : 0 <= b < block_count -> sound b -> ~ in_use s b ->
                state_of (block_state s') b = state_of (block_state s) b
}.

Lemma in_use_config s s' b : config s' = config s -> in_use s' b <-> in_use s b.
Proof. intros C. apply config_inv in C as (_ & E & _). unfold in_use. by rewrite E. Qed.

Lemma data_step_io W s s' : io_step W s s' -> data_step W s s'.
Proof.
  intros (d & pc & -> & _ & Hs). constructor; [done| |done]. eapply same_outside_weaken; [|exact Hs]. auto.
Qed.

Lemma data_step_maint W s s' : maint_step s s' -> data_step W s s'.
Proof.
  intros [C _ Hp Hw _]. constructor; [done| |].
  - eapply same_outside_weaken; [|exact Hp]. auto.
  - intros b Hb Hs _. by destruct (Hw b Hb) as [|([_ ?] & _)].
Qed.

Lemma data_step_set_state W s ba st c :
  buffers_ok s -> 0 <= ba < block_count -> 0 <= st <= 3 -> in_use s ba ->
  data_step W s (s <| block_state := set_state (block_state s) ba st |> <| block_state_changed := c |>).
Proof.
  intros Hok Hba Hst Hu. constructor; [done|done|]. intros b Hb _ Hn.
  destruct (set_state_spec s ba st Hok Hba Hst) as (_ & Ho & _). apply Ho; [lia|]. by intros ->.
Qed.

Lemma data_step_trans W s1 s2 s3 : data_step W s1 s2 -> data_step W s2 s3 -> data_step W s1 s3.
Proof.
  intros [C1 P1 S1] [C2 P2 S2]. rewrite (config_area _ _ C1) in P2. constructor; [congruence| |].
  - by eapply same_outside_trans.
  - intros b Hb Hs Hn. rewrite S2; [by apply S1|done..|]. by rewrite (in_use_config s1).
Qed.

Lemma data_step_weaken (W W' : Z -> Prop) s s' :
  (forall p, W p -> W' p) -> data_step W s s' -> data_step W' s s'.
Proof.
  intros Hw [C P' S]. constructor; [done| |done]. eapply same_outside_weaken; [|exact P'].
  intros p [?|?]; auto.
Qed.

(** Marking a mapped block and saving the tables. *)
Lemma mark_and_update_ok {A} s pb st (x : A) Q :
  device_ok s -> 0 <= pb < block_count -> 0 <= st <= 3 ->
  (forall s', device_ok s' -> (in_use s pb -> data_step (fun _ => False) s s') -> Q x s') ->
  wp (nmbm_set_block_state pb st;; nmbm_update_info_table;; ret x) Q s.
Proof.
  intros Hd Hpb Hst HQ. wp_step. apply wp_set_block_state; [apply Hd|done|done|]. wp_step.
  set (s1 := s <| block_state := _ |> <| block_state_changed := _ |>).
  assert (Hd1 : device_ok s1) by (by apply device_set_state).
  eapply wp_conseq; [apply update_info_table_ok, Hd1|]. cbv beta. intros ok s2 (Hm & _).
  wp_step. apply HQ; [by eapply device_ok_maint|]. intros Hu.
  eapply data_step_trans; [by apply data_step_set_state; [apply Hd|..]|by apply data_step_maint].
Qed.

Lemma addr_block s i :
  device_ok s -> 0 <= i < block_count * erasesize ->
  addr2ba i = i / erasesize /\ 0 <= addr2ba i < block_count /\
  u32 (Z.land i erasesize_mask) = i mod erasesize /\ 0 <= i mod erasesize < erasesize.
Proof.
  intros Hd Hi. geometry. assert (Hm : 0 <= i mod erasesize < erasesize) by (apply Z.mod_pos_bound; lia).
  rewrite addr2ba_spec by nia. rewrite land_erasesize_mask, u32_small by lia.
  split_and!; try lia; [apply Z.div_pos; lia|apply Z.div_lt_upper_bound; lia].
Qed.

Lemma phys_addr pb off :
  0 <= pb < block_count -> 0 <= off < erasesize ->
  u64 (ba2addr pb + off) = pb * erasesize + off /\ 0 <= pb * erasesize + off < 2 ^ 63.
Proof. intros Hp Ho. geometry. rewrite ba2addr_spec by lia. rewrite u64_small; nia. Qed.

(** A page lies within one block. *)
Lemma page_in_one_block p r :
  (writesize | p) -> 0 <= r < writesize ->
  (p + r) / erasesize = p / erasesize /\ (p + r) mod erasesize = p mod erasesize + r /\
  (writesize | p mod erasesize).
Proof.
  intros [k ->] Hr. geometry. destruct writesize_divides_erasesize as [q Hq].
  assert (Hq0 : 0 < q) by nia. assert (Hne : erasesize <> 0) by lia.
  assert (Hm : (k * writesize) mod erasesize = (k mod q) * writesize).
  { rewrite Hq, Z.mul_mod_distr_r by lia. done. }
  pose proof (Z.mod_pos_bound k q Hq0) as Hkq.
  pose proof (Z.div_mod (k * writesize) erasesize Hne) as Hdm.
  assert (E : k * writesize + r = erasesize * (k * writesize / erasesize) +
                                  ((k * writesize) mod erasesize + r)) by lia.
  assert (Hb : 0 <= (k * writesize) mod erasesize + r < erasesize) by (rewrite Hm; nia).
  split_and!; [symmetry; by eapply Z.div_unique_pos|symmetry; by eapply Z.mod_unique_pos|].
  rewrite Hm. apply Z.divide_factor_r.
Qed.

(** Within a page, logic and physical addresses run in parallel. *)
Lemma phys_offset s p r :
  (writesize | p) -> 0 <= r < writesize -> phys s (p + r) = (fun a => a + r) <$> phys s p.
Proof.
  intros Hp Hr. destruct (page_in_one_block p r Hp Hr) as (E1 & E2 & _). unfold phys. rewrite E1, E2.
  destruct (znth _ _) as [pb|]; [|done]. destruct (pb <? 0); [done|]. simpl. f_equal. lia.
Qed.

Lemma phys_aligned s p a : (writesize | p) -> phys s p = Some a -> (writesize | a).
Proof.
  intros Hp. geometry. assert (Hr : 0 <= 0 < writesize) by lia.
  destruct (page_in_one_block p 0 Hp Hr) as (_ & _ & Hd). unfold phys.
  destruct (znth _ _) as [pb|]; [|done]. destruct (pb <? 0); [done|]. intros E. injection E as <-.
  apply Z.divide_add_r; [apply Z.divide_mul_r, writesize_divides_erasesize|done].
Qed.

Lemma phys_page s p r a :
  (writesize | p) -> 0 <= r < writesize -> phys s p = Some a ->
  phys s (p + r) = Some (a + r) /\ (writesize | a).
Proof.
  intros Hp Hr Ha. split; [|by eapply phys_aligned]. by rewrite phys_offset, Ha.
Qed.

Lemma phys_page_of s i b : phys s i = Some b -> phys s (page_of i) = Some (page_of b).
Proof.
  intros H. pose proof (page_of_bounds i) as Hb. pose proof (page_of_divides i) as Hd.
  assert (Hr : 0 <= i - page_of i < writesize) by lia.
  pose proof (phys_offset s (page_of i) (i - page_of i) Hd Hr) as E.
  replace (page_of i + (i - page_of i)) with i in E by lia. rewrite H in E.
  destruct (phys s (page_of i)) as [c|] eqn:Ec; [|done]. injection E as ->. f_equal.
  symmetry. apply page_of_add; [by eapply phys_aligned|done].
Qed.

(** ** Reading a page *)

(** Success, an uncorrectable error in the data, or another error. *)
Definition read_code (r : Z) : Prop := r = 0 \/ r = 1 \/ r = - EIO.

Lemma read_logic_ok {A} (rd : Z -> M (nmbm_instance D) (Z * A)) keep addr s (K : A -> Prop)
    (G : nmbm_instance D -> Z -> A -> Prop) Q :
  device_ok s -> 0 <= addr < block_count * erasesize -> K keep ->
  (forall a, wp (rd a) (fun x s' => io_step (fun _ => False) s s' /\ K (snd x) /\
                          (fst x = 0 -> G s' a (snd x)) /\ (reliable_page a -> fst x = 0)) s) ->
  (forall r x s', device_ok s' -> data_step (fun _ => False) s s' -> read_code r -> K x ->
     (r = 0 -> io_step (fun _ => False) s s' /\ exists a, phys s addr = Some a /\ G s' a x) ->
     (live reliable_page s addr -> r = 0) -> Q (r, x) s') ->
  wp (read_logic rd keep addr) Q s.
Proof.
  intros Hd Ha Hk Hrd HQ. geometry. unfold read_logic.
  destruct (addr_block s addr Hd Ha) as (Eb & Hb & -> & Ho).
  wp_step. apply get_mapping_ok; [done|done|]. intros pb Hpb Hpr.
  assert (Hlive : forall R, live R s addr -> 0 <= pb /\ state_of (block_state s) pb <> BLOCK_ST_BAD /\
    R (pb * erasesize + addr mod erasesize)).
  { intros R (q & Hq & HR). rewrite <- Eb, Hpb in Hq. by injection Hq as <-. }
  assert (Hrefl : data_step (fun _ => False) s s) by apply data_step_io, io_step_refl.
  assert (Hc : read_code 0 /\ read_code 1 /\ read_code (- EIO)) by (unfold read_code; auto).
  destruct Hc as (Hc0 & Hc1 & Hce).
  destruct (Z.ltb_spec pb 0); [wp_step; apply HQ; try done; intros Hl%Hlive; lia|].
  wp_step. apply wp_get_block_state; [apply Hd|lia|].
  destruct (Z.eqb_spec (state_of (block_state s) pb) BLOCK_ST_BAD); [wp_step; apply HQ; try done; by intros (_ & Hl & _)%Hlive|].
  destruct (phys_addr pb (addr mod erasesize)) as [-> _]; [lia|done|].
  assert (Hph : phys s addr = Some (pb * erasesize + addr mod erasesize)).
  { unfold phys. rewrite <- Eb, Hpb. by destruct (Z.ltb_spec pb 0); [lia|]. }
  wp_step. eapply wp_conseq; [by apply Hrd|]. cbv beta. intros [r x] s1 (Hio & Hkx & HG & Hrel). simpl in *.
  assert (Hz : live reliable_page s addr -> r = 0) by (intros (_ & _ & Hl)%Hlive; by apply Hrel).
  pose proof (device_io _ _ _ Hd Hio) as Hd1. pose proof (data_step_io _ _ _ Hio) as Hds1.
  destruct (Z.eqb_spec r 0) as [->|Hr]; [wp_step; apply HQ; eauto|].
  destruct (Z.ltb_spec 0 r); [wp_step; apply HQ; try done; by intros Hl%Hz|].
  apply mark_and_update_ok; [done|lia|unfold BLOCK_ST_NEED_REMAP; lia|]. intros s2 Hd2 Hds2.
  assert (Hu : in_use s1 pb) by (rewrite (in_use_config s) by apply Hds1; by eexists).
  specialize (Hds2 Hu). apply HQ; try done; [by eapply data_step_trans|by intros Hl%Hz].
Qed.

Lemma read_logic_page_ok s addr data oob mode Q :
  device_ok s -> 0 <= addr < block_count * erasesize -> (writesize | addr) ->
  (forall r data' oob' s', device_ok s' -> data_step (fun _ => False) s s' -> read_code r ->
     buf_len_eq data data' -> buf_len_eq oob oob' ->
     (r = 0 -> io_step (fun _ => False) s s' /\ exists a, phys s addr = Some a /\
        (mode <> NMBM_MODE_RAW -> forall b, data = Some b -> zlen b = writesize -> data' = Some (page_at (dev s) a))) ->
     (live reliable_page s addr -> r = 0) -> Q (r, (data', oob')) s') ->
  wp (nmbm_read_logic_page addr data oob mode) Q s.
Proof.
  intros Hd Ha Hal HQ. pose proof (writesize_pos) as Hw. unfold nmbm_read_logic_page.
  apply (read_logic_ok _ _ _ _ (fun x => buf_len_eq data (fst x) /\ buf_len_eq oob (snd x))
    (fun _ a x => (writesize | a) -> mode <> NMBM_MODE_RAW -> forall b, data = Some b -> zlen b = writesize ->
                  fst x = Some (page_at (dev s) a)));
    [done|done|split; apply buf_len_eq_refl| |].
  - intros a. wp_step. apply read_phys_ok. intros [[r data'] oob'] d' (Hs & Hb & Ho & Hrd & Hrel).
    wp_step. split; [by apply io_step_dev|]. split; [by split|]. split; [|done]. simpl.
    intros -> Ha' Hm b Hb' Hl. by eapply Hrd.
  - intros r [data' oob'] s' Hd' Hds Hc [Hb Ho] Hr Hlv. simpl in *. apply HQ; try done. intros E.
    destruct (Hr E) as (Hio & a & Hp & HG). split; [done|]. exists a. split; [done|].
    apply HG. assert (H0 : 0 <= 0 < writesize) by lia. by eapply (phys_page s addr 0).
Qed.

Lemma read_logic_cache_ok s addr mode Q :
  device_ok s -> 0 <= addr < block_count * erasesize -> (writesize | addr) ->
  (forall r s', device_ok s' -> data_step (fun _ => False) s s' -> read_code r ->
     (r = 0 -> io_step (fun _ => False) s s' /\ exists a, phys s addr = Some a /\
        (mode <> NMBM_MODE_RAW -> slice (page_cache s') 0 writesize = Some (page_at (dev s) a))) ->
     (live reliable_page s addr -> r = 0) -> Q (r, tt) s') ->
  wp (read_logic_page_cache addr mode) Q s.
Proof.
  intros Hd Ha Hal HQ. pose proof (writesize_pos) as Hw. unfold read_logic_page_cache.
  apply (read_logic_ok _ _ _ _ (fun _ => True) (fun s' a _ => (writesize | a) -> mode <> NMBM_MODE_RAW ->
    slice (page_cache s') 0 writesize = Some (page_at (dev s) a))); [done|done|done| |].
  - intros a. wp_step. apply read_page_cache_ok; [apply Hd|]. intros r d' pc Hs Hpc Hrd Hrel. wp_step.
    split; [|by auto]. apply io_step_intro; [|done]. rewrite Hpc. symmetry. apply Hd.
  - intros r [] s' Hd' Hds Hc _ Hr Hlv. apply HQ; [done|done|done| |done]. intros E.
    destruct (Hr E) as (Hio & a & Hp & HG). split; [done|]. exists a. split; [done|].
    apply HG. assert (H0 : 0 <= 0 < writesize) by lia. by eapply (phys_page s addr 0).
Qed.

(** ** Reading a range *)

Lemma logic_byte_page s p r a :
  (writesize | p) -> 0 <= r < writesize -> phys s p = Some a ->
  logic_byte s (p + r) = znth (page_at (dev s) a) r.
Proof.
  intros Hp Hr Ha. destruct (phys_page s p r a Hp Hr Ha) as [E Hal].
  unfold logic_byte. rewrite E. by apply flash_byte_page.
Qed.

Definition read_range_inv s addr (buf : list Z) (mode : nmbm_oob_mode) (x : Z * Z * list Z) (s1 : nmbm_instance D) : Prop :=
  let '(off, pos, b) := x in
  0 <= pos <= zlen buf /\ off = addr + pos /\ zlen b = zlen buf /\
  io_step (fun _ => False) s s1 /\
  (mode <> NMBM_MODE_RAW -> forall i, 0 <= i < pos -> znth b i = logic_byte s (addr + i)).

(** What a range read returns: the bytes read, and how many.  What a raw
    read delivers is up to the chip. *)
Definition read_range_post s addr (buf : list Z) (mode : nmbm_oob_mode) (x : Z * list Z * option Z) (s' : nmbm_instance D) : Prop :=
  let '(r, b, retlen) := x in
  device_ok s' /\ data_step (fun _ => False) s s' /\ read_code r /\ zlen b = zlen buf /\ exists n, retlen = Some n /\ 0 <= n <= zlen buf /\
  (mode <> NMBM_MODE_RAW -> forall i, 0 <= i < n -> znth b i = logic_byte s (addr + i)) /\
  (r = 0 -> n = zlen buf /\ io_step (fun _ => False) s s') /\ (r <> 0 -> n < zlen buf) /\
  ((forall i, 0 <= i < zlen buf -> live reliable_page s (page_of (addr + i))) -> r = 0).

Lemma io_step_phys s s1 i : io_step (fun _ => False) s s1 -> phys s1 i = phys s i.
Proof. by intros (d & pc & -> & _). Qed.

Lemma io_step_live W R s s1 i : io_step W s s1 -> live R s i -> live R s1 i.
Proof. by intros (d & pc & -> & _). Qed.

(** A page that cannot be read ends the read with the bytes before it. *)
Lemma read_range_fail s s1 s' addr buf mode pos r b' :
  0 <= pos < zlen buf -> io_step (fun _ => False) s s1 -> r <> 0 -> device_ok s' ->
  data_step (fun _ => False) s1 s' -> read_code r -> zlen b' = zlen buf ->
  (live reliable_page s1 (page_of (addr + pos)) -> r = 0) ->
  (mode <> NMBM_MODE_RAW -> forall i, 0 <= i < pos -> znth b' i = logic_byte s (addr + i)) ->
  read_range_post s addr buf mode (r, b', Some pos) s'.
Proof.
  intros Hpos Hio Hr Hd' Hds Hc Hb Hlv Hpre. split_and!; try done.
  { eapply data_step_trans; [by apply data_step_io|done]. }
  exists pos. split_and!; try done; try lia.
  intros Hall. apply Hlv. eapply io_step_live; [exact Hio|]. apply Hall. lia.
Qed.

(** The bytes of a page of a device that has only been read. *)
Lemma page_at_logic s s1 p a i :
  io_step (fun _ => False) s s1 -> (writesize | p) -> 0 <= i < writesize -> phys s1 p = Some a ->
  znth (page_at (dev s1) a) i = logic_byte s (p + i).
Proof.
  intros Hio Hal Hi Hph. rewrite (io_step_phys _ _ _ Hio) in Hph.
  rewrite (logic_byte_page s p i a) by done.
  by rewrite (proj2 (io_step_page (fun _ => False) _ _ a Hio)).
Qed.

Lemma read_range_step s addr buf mode x s1 :
  device_ok s -> 0 <= addr -> addr + zlen buf <= block_count * erasesize ->
  read_range_inv s addr buf mode x s1 ->
  wp (read_range_body mode x) (fun r s' =>
    match r with
    | inl x' => read_range_inv s addr buf mode x' s' /\ snd (fst x) < snd (fst x') <= zlen buf
    | inr y => read_range_post s addr buf mode y s'
    end) s1.
Proof.
  intros Hd Ha Hfit. geometry. destruct x as [[off pos] b].
  intros (Hpos & -> & Hb & Hio & Hpre). unfold read_range_body. rewrite Hb.
  pose proof (device_io _ _ _ Hd Hio) as Hd1. pose proof (ok_page_cache _ (lay_buffers _ (dev_layout _ Hd1))) as Hpc1.
  destruct (Z.eqb_spec (zlen buf - pos) 0) as [E|E]; simpl.
  { apply wp_ret. split_and!; [done|by apply data_step_io|by left|done|]. exists pos. split_and!; try done; try lia.
    intros _. split; [lia|done]. }
  fold (chunk_at (addr + pos) (zlen buf - pos)).
  destruct (chunk_at_spec (addr + pos) (zlen buf - pos)) as (Hc & Hc0 & Hlead & Hle & Hal); [lia..|].
  set (chunk := chunk_at _ _) in *. set (lead := Z.land _ _) in *. set (p := addr + pos - lead) in *.
  rewrite !u64_small by nia. assert (Hp : 0 <= p < block_count * erasesize) by lia.
  assert (Hpg0 : page_of (addr + pos) = p).
  { unfold p, lead, page_of. by rewrite land_writesize_mask. }
  assert (Hfail : forall r b' s', _ -> _ -> _ -> _ -> _ -> _ -> _ -> read_range_post s addr buf mode (r, b', Some pos) s')
    by exact (fun r b' s' => read_range_fail s s1 s' addr buf mode pos r b' ltac:(lia) Hio).
  rewrite Hpg0 in Hfail.
  assert (Hsrc : forall a i, phys s1 p = Some a -> 0 <= i < chunk ->
    znth (page_at (dev s1) a) (lead + i) = logic_byte s (addr + (pos + i))).
  { intros a i Hph Hi. replace (addr + (pos + i)) with (p + (lead + i)) by lia. apply page_at_logic; try done; lia. }
  destruct (Z.eqb_spec chunk writesize) as [Ec|Ec].
  - wp_step. destruct (slice_exists b pos writesize) as (dst & Hdst & Hdl); [lia..|].
    eapply wp_lift; [exact Hdst|]. wp_step.
    apply read_logic_page_ok; [done|done|done|]. intros r data oob s2 Hd2 Hds2 Hc2 Hbl _ Hok Hlv. wp_step.
    destruct data as [data|]; [|done]. simpl in Hbl. simpl default.
    destruct (splice_exists b pos data) as (b' & Hsp & Hb'); [lia..|].
    eapply wp_lift; [exact Hsp|].
    destruct (Z.eqb_spec r 0) as [->|Hr]; simpl; wp_step; cycle 1.
    { apply Hfail; [done|done|done|done|congruence|done|]. intros Hm i Hi.
      rewrite (znth_splice_out _ _ _ _ _ Hsp) by lia. by apply Hpre. }
    split; [|simpl; lia]. destruct (Hok eq_refl) as (Hio2 & a & Hph & Hpg).
    unfold read_range_inv. split_and!; try lia; [by eapply io_step_trans|]. intros Hm. rewrite Ec.
    specialize (Hpg Hm dst eq_refl Hdl). injection Hpg as ->. rewrite law_page_len in *.
    assert (lead = 0) as El by lia. rewrite El, Ec in Hsrc.
    rewrite <- (law_page_len (dev s1) a). eapply prefix_splice; [by apply Hpre| |exact Hsp].
    rewrite law_page_len. intros i Hi. rewrite <- (Hsrc a i) by done. f_equal.
  - wp_step. apply read_logic_cache_ok; [done|done|done|]. intros r s2 Hd2 Hds2 Hc2 Hok Hlv.
    destruct (Z.eqb_spec r 0) as [->|Hr]; simpl; wp_step; [|by apply Hfail].
    destruct (Hok eq_refl) as (Hio2 & a & Hph & Hpg). wp_step. wp_step.
    pose proof (ok_page_cache _ (lay_buffers _ (dev_layout _ Hd2))) as Hpc2.
    destruct (slice_exists (page_cache s2) lead chunk) as (src & Hsl & Hsrl); [lia..|].
    eapply wp_lift; [exact Hsl|]. wp_step.
    destruct (splice_exists b pos src) as (b' & Hsp & Hb'); [lia..|].
    eapply wp_lift; [exact Hsp|]. wp_step. split; [|simpl; lia].
    unfold read_range_inv. split_and!; try lia; [by eapply io_step_trans|]. intros Hm. rewrite <- Hsrl.
    specialize (Hpg Hm). eapply prefix_splice; [by apply Hpre| |exact Hsp]. intros i Hi.
    rewrite (znth_slice _ _ _ _ i Hsl) by lia. rewrite <- (Hsrc a i) by (done || lia).
    assert (Hz : 0 <= lead + i < writesize) by lia.
    pose proof (znth_slice _ _ _ _ (lead + i) Hpg Hz) as E2. by rewrite Z.add_0_l in E2.
Qed.

Lemma avail_bound s : device_ok s ->
  (0 <= avail s <= block_count * erasesize /\ block_count * erasesize < 2 ^ 63) /\
  ba2addr (data_block_count s) = avail s.
Proof.
  intros Hd. pose proof (dev_count s Hd). geometry. unfold avail.
  rewrite ba2addr_spec by lia. split; [nia|done].
Qed.

Lemma read_range_ok s addr buf mode :
  device_ok s -> protected s = 0 -> 0 <= addr -> 0 < zlen buf -> addr + zlen buf <= avail s ->
  wp (nmbm_read_range addr buf mode) (read_range_post s addr buf mode) s.
Proof.
  intros Hd Hp Ha Hl Hfit. destruct (avail_bound s Hd) as [Hav Hba].
  unfold nmbm_read_range. wp_step. wp_step. rewrite Hp, Z.eqb_refl.
  cbn [negb]. wp_step. wp_step. rewrite Hba.
  destruct (Z.leb_spec (avail s) addr); [lia|]. rewrite u64_small by lia.
  destruct (Z.ltb_spec (avail s) (addr + zlen buf)); [lia|].
  destruct (Z.eqb_spec (zlen buf) 0); [lia|].
  apply (wp_iter (read_range_inv s addr buf mode) (fun x _ => Z.to_nat (zlen buf - snd (fst x)))); cycle 1.
  { split_and!; try lia; auto using io_step_refl. }
  { simpl. unfold zlen. lia. }
  intros x s1 Hinv. eapply wp_conseq; [apply (read_range_step s addr buf mode); try done; lia|]. cbv beta.
  intros [x'|y] s'; [intros [? ?]; split; [done|lia]|done].
Qed.

(** ** Writing *)

Lemma write_logic_page_ok s addr data oob mode Q :
  device_ok s -> 0 <= addr < block_count * erasesize -> (writesize | addr) ->
  (forall r s', device_ok s' ->
     data_step (fun p => phys s addr = Some p) s s' ->
     (r = 0 -> exists a d', phys s addr = Some a /\ s' = s <| dev := d' |> /\
        same_outside (fun p => p = a) (dev s) d' /\
        forall b, data = Some b -> zlen b = writesize -> mode <> NMBM_MODE_RAW ->
          page_at d' a = zip_with Z.land (page_at (dev s) a) b) ->
     (live programmable s addr -> r = 0) -> Q r s') ->
  wp (nmbm_write_logic_page addr data oob mode) Q s.
Proof.
  intros Hd Ha Hal HQ. geometry. unfold nmbm_write_logic_page.
  destruct (addr_block s addr Hd Ha) as (Eb & Hb & -> & Ho).
  wp_step. apply get_mapping_ok; [done|done|]. intros pb Hpb Hpr.
  assert (Hlive : forall R, live R s addr -> 0 <= pb /\ state_of (block_state s) pb <> BLOCK_ST_BAD /\
    R (pb * erasesize + addr mod erasesize)).
  { intros R (q & Hq & HR). rewrite <- Eb, Hpb in Hq. by injection Hq as <-. }
  assert (Hrefl : data_step (fun p => phys s addr = Some p) s s) by apply data_step_io, io_step_refl.
  destruct (Z.ltb_spec pb 0); [wp_step; apply HQ; try done; intros Hl%Hlive; lia|].
  wp_step. apply wp_get_block_state; [apply Hd|lia|].
  destruct (Z.eqb_spec (state_of (block_state s) pb) BLOCK_ST_BAD); [wp_step; apply HQ; try done; by intros (_ & Hl & _)%Hlive|].
  destruct (phys_addr pb (addr mod erasesize)) as [-> _]; [lia|done|].
  assert (Hph : phys s addr = Some (pb * erasesize + addr mod erasesize)).
  { unfold phys. rewrite <- Eb, Hpb. by destruct (Z.ltb_spec pb 0); [lia|]. }
  wp_step. apply write_phys_ok; [by eapply phys_aligned|]. intros ok d' Hs Hwr Hpr2.
  assert (Hz : live programmable s addr -> ok = true) by (intros (_ & _ & Hl)%Hlive; by apply Hpr2).
  assert (Hd1 : device_ok (s <| dev := d' |>)) by (by eapply device_io, io_step_dev).
  assert (Hds1 : data_step (fun p => phys s addr = Some p) s (s <| dev := d' |>)).
  { apply data_step_io, io_step_dev. eapply same_outside_weaken; [|exact Hs]. by intros p ->. }
  destruct ok; cycle 1.
  { apply mark_and_update_ok; [done|lia|unfold BLOCK_ST_NEED_REMAP; lia|]. intros s2 Hd2 Hds2.
    specialize (Hds2 ltac:(by eexists)).
    apply HQ; try done; [|by intros Hl%Hz]. eapply data_step_trans; [exact Hds1|].
    eapply data_step_weaken; [|exact Hds2]. done. }
  wp_step. apply HQ; [done|done| |done]. intros _. eexists _, d'. split_and!; try done.
  intros b Hbd Hl Hm. by apply Hwr.
Qed.

(** With an exclusive mapping, different logic addresses are different
    physical addresses. *)
Lemma phys_inj s x y a :
  mapping_ok s -> phys s x = Some a -> phys s y = Some a -> x = y.
Proof.
  intros Hm. geometry. unfold phys.
  destruct (znth _ (x / erasesize)) as [p|] eqn:Ep; [|done]. destruct (Z.ltb_spec p 0); [done|].
  destruct (znth _ (y / erasesize)) as [q|] eqn:Eq; [|done]. destruct (Z.ltb_spec q 0); [done|].
  intros E1 E2. injection E1 as <-. injection E2 as E2.
  assert (Hne : erasesize <> 0) by lia.
  assert (Hx : 0 <= x mod erasesize < erasesize) by (apply Z.mod_pos_bound; lia).
  assert (Hy : 0 <= y mod erasesize < erasesize) by (apply Z.mod_pos_bound; lia).
  assert (p = q) as -> by nia.
  pose proof (map_inj s Hm _ _ _ Ep Eq ltac:(lia)) as Ed.
  pose proof (Z.div_mod x erasesize Hne). pose proof (Z.div_mod y erasesize Hne). nia.
Qed.

(** The physical pages of the first [n] bytes from [addr] on. *)
Definition pages_of s addr n (q : Z) : Prop :=
  exists i, 0 <= i < n /\ phys s (page_of (addr + i)) = Some q.

(** Programming clears bits: the byte after is the conjunction. *)
Definition programmed s s' addr n (data : list Z) : Prop :=
  forall i old x, 0 <= i < n -> logic_byte s (addr + i) = Some old -> znth data i = Some x ->
    logic_byte s' (addr + i) = Some (Z.land old x).

Lemma logic_byte_same s d' i :
  (forall a, phys s i = Some a -> page_at d' (page_of a) = page_at (dev s) (page_of a)) ->
  logic_byte (s <| dev := d' |>) i = logic_byte s i.
Proof.
  intros H. unfold logic_byte. change (phys (s <| dev := d' |>) i) with (phys s i).
  destruct (phys s i) as [a|]; [|done]. unfold flash_byte. simpl. by rewrite H.
Qed.

(** Steps of the logic device and its bytes. *)
Lemma data_step_phys W s s' i : data_step W s s' -> phys s' i = phys s i.
Proof. intros [C _ _]. unfold phys. by destruct (config_inv _ _ C) as (_ & -> & _). Qed.

Lemma data_step_mapping W s s' : data_step W s s' -> mapping_ok s -> mapping_ok s'.
Proof.
  intros [C _ _] [Hi Ha]. apply config_inv in C as (_ & E1 & _ & E2 & E3 & _).
  constructor; rewrite E1; [done|]. rewrite E2, E3. done.
Qed.

Lemma data_step_frame W s s' i :
  data_step W s s' -> mapping_ok s -> (forall a, phys s i = Some a -> ~ W (page_of a)) ->
  logic_byte s' i = logic_byte s i.
Proof.
  intros Hds Hm HW. unfold logic_byte. rewrite (data_step_phys _ _ _ _ Hds).
  destruct (phys s i) as [a|] eqn:E; [|done]. eapply flash_byte_same; [apply Hds|].
  intros [Hw|(b & Hb & Hin)]; [by eapply HW|]. geometry. unfold phys in E.
  destruct (znth (block_mapping s) (i / erasesize)) as [pb|] eqn:Ep; [|done].
  destruct (Z.ltb_spec pb 0); [done|]. injection E as <-.
  assert (Ho : 0 <= i mod erasesize < erasesize) by (apply Z.mod_pos_bound; lia).
  assert (b = pb) as -> by (eapply in_block_inj; [exact Hin|]; by apply block_byte_page).
  unfold mgmt_area, within in Hb. destruct (map_area s Hm _ _ Ep); lia.
Qed.

Definition write_range_inv s addr (data : list Z) (x : Z * Z) (s1 : nmbm_instance D) : Prop :=
  let '(off, pos) := x in
  0 <= pos <= zlen data /\ off = addr + pos /\ io_step (pages_of s addr pos) s s1 /\
  (pos = 0 \/ (addr + pos) mod writesize = 0 \/ pos = zlen data) /\
  programmed s s1 addr pos data.

(** One page more. *)
Lemma write_range_page s s1 s2 addr data pos lead chunk a d' page :
  mapping_ok s -> 0 <= addr -> write_range_inv s addr data (addr + pos, pos) s1 ->
  lead = Z.land (addr + pos) writesize_mask -> 0 < chunk -> pos + chunk <= zlen data ->
  lead + chunk <= writesize -> (lead + chunk = writesize \/ pos + chunk = zlen data) ->
  phys s1 (addr + pos - lead) = Some a -> io_step (fun _ => False) s1 s2 ->
  same_outside (fun p => p = a) (dev s2) d' ->
  page_at d' a = zip_with Z.land (page_at (dev s2) a) page ->
  (forall i, 0 <= i < chunk -> znth page (lead + i) = znth data (pos + i)) ->
  write_range_inv s addr data (addr + pos + chunk, pos + chunk) (s2 <| dev := d' |>).
Proof.
  intros Hm Ha (Hpos & _ & Hio & Hal & Hprog) -> Hc0 Hc1 Hc2 Hc3 Hph Hio2 Hs Hpage Hsrc.
  set (lead := Z.land (addr + pos) writesize_mask) in *.
  pose proof (leading_bounds (addr + pos)) as Hlead. fold lead in Hlead.
  pose proof (page_aligned (addr + pos)) as Halp. fold lead in Halp. geometry.
  pose proof (land_writesize_mask (addr + pos)) as Elead. fold lead in Elead.
  assert (Hph1 : forall i, phys s1 i = phys s i) by (intros i; by destruct Hio as (? & ? & -> & _)).
  assert (Hph2 : forall i, phys s2 i = phys s1 i) by (intros i; by apply io_step_phys).
  rewrite Hph1 in Hph. set (p := addr + pos - lead) in *.
  assert (Hpgp : page_of (addr + pos) = p) by (unfold page_of, p; lia).
  (** Bytes before this chunk lie in other pages. *)
  assert (Hfar : forall i, i < pos -> 0 <= i -> phys s (page_of (addr + i)) <> Some a).
  { intros i Hi Hi0 E. pose proof (phys_inj _ _ _ _ Hm E Hph) as Ei.
    pose proof (page_of_bounds (addr + i)). destruct Hal as [|[Hz|]]; lia. }
  assert (Hold1 : page_at (dev s1) a = page_at (dev s) a).
  { destruct Hio as (d1 & pc1 & -> & _ & Hs1). simpl. apply Hs1. intros (i & Hi & Hq).
    apply (Hfar i); [lia|lia|done]. }
  unfold write_range_inv. split_and!; try lia.
  - eapply io_step_trans; [eapply io_step_weaken; [|exact Hio]|].
    { intros q (i & Hi & Hq). exists i. split; [lia|done]. }
    eapply io_step_trans; [eapply io_step_weaken; [|exact Hio2]; by intros ? []|].
    apply io_step_dev. eapply same_outside_weaken; [|exact Hs]. intros q ->. exists pos.
    split; [lia|]. by rewrite Hpgp.
  - destruct Hc3 as [Hc3|Hc3]; [|by right; right]. right. left.
    replace (addr + (pos + chunk)) with (p + 1 * writesize) by lia.
    rewrite Z_mod_plus_full. apply Z.mod_divide; [lia|done].
  - intros i old x Hi Hold Hx. destruct (Z_lt_le_dec i pos) as [Hlt|Hge].
    + rewrite logic_byte_same.
      * transitivity (logic_byte s1 (addr + i)); [|apply Hprog; [lia|done..]].
        unfold logic_byte. rewrite Hph2. destruct (phys s1 (addr + i)) as [b|]; [|done].
        destruct Hio2 as (d2 & pc2 & -> & _ & Hs2). eapply flash_byte_same; [exact Hs2|tauto].
      * intros b Hb. apply Hs. intros E. rewrite Hph2, Hph1 in Hb.
        apply (Hfar i Hlt); [lia|]. by rewrite (phys_page_of _ _ _ Hb), E.
    + assert (Hr : 0 <= lead + (i - pos) < writesize) by lia.
      replace (addr + i) with (p + (lead + (i - pos))) in * by lia.
      assert (Hph3 : phys (s2 <| dev := d' |>) p = Some a)
        by (change (phys s2 p = Some a); by rewrite Hph2, Hph1).
      rewrite (logic_byte_page _ p _ a Halp Hr Hph) in Hold.
      rewrite (logic_byte_page _ p _ a Halp Hr Hph3). simpl. rewrite Hpage. apply znth_zip.
      * by rewrite (proj2 (io_step_page (fun _ => False) _ _ a Hio2)), Hold1.
      * rewrite Hsrc by lia. by replace (pos + (i - pos)) with i by lia.
Qed.

(** What a range write returns: the number of bytes programmed.  When it
    fails, at a page, nothing behind that page has changed. *)
Definition write_range_post s addr (data : list Z) (x : Z * option Z) (s' : nmbm_instance D) : Prop :=
  let '(r, retlen) := x in
  device_ok s' /\ data_step (pages_of s addr (zlen data)) s s' /\
  exists n, retlen = Some n /\ 0 <= n <= zlen data /\ programmed s s' addr n data /\
  (r = 0 -> n = zlen data /\ io_step (pages_of s addr n) s s') /\
  (r <> 0 -> n < zlen data /\ data_step (pages_of s addr (n + 1)) s s') /\
  ((forall i, 0 <= i < zlen data -> live programmable s (page_of (addr + i))) -> r = 0).

Lemma mapping_ok_io W s s' : mapping_ok s -> io_step W s s' -> mapping_ok s'.
Proof. intros [Hi Ha] (d & pc & -> & _). by constructor. Qed.

(** The page at [addr + pos] could not be programmed. *)
Lemma write_range_failed s s1 s2 s3 addr data pos p r :
  mapping_ok s -> write_range_inv s addr data (addr + pos, pos) s1 -> 0 <= pos < zlen data ->
  page_of (addr + pos) = p -> io_step (fun _ => False) s1 s2 -> r <> 0 -> device_ok s3 ->
  data_step (fun q => phys s2 p = Some q) s2 s3 -> (live programmable s2 p -> r = 0) ->
  write_range_post s addr data (r, Some pos) s3.
Proof.
  intros Hm (_ & _ & Hio & Hal & Hprog) Hpos Hp Hio2 Hr Hd3 Hds3 Hlv. geometry.
  assert (Hph2 : forall i, phys s2 i = phys s i).
  { intros i. rewrite (io_step_phys _ _ _ Hio2). by destruct Hio as (? & ? & -> & _). }
  assert (Hds : data_step (pages_of s addr (pos + 1)) s s3).
  { eapply data_step_trans; [eapply data_step_weaken; [|by apply data_step_io]|].
    { intros q (i & Hi & Hq). exists i. split; [lia|done]. }
    eapply data_step_trans; [eapply data_step_weaken; [|by apply data_step_io]; by intros ? []|].
    eapply data_step_weaken; [|exact Hds3]. intros q Hq. exists pos. rewrite Hp, <- Hph2. split; [lia|done]. }
  split; [done|]. split; [eapply data_step_weaken; [|exact Hds]; intros q (i & Hi & Hq); exists i; split; [lia|done]|].
  exists pos. split_and!; try done; try lia.
  - intros i old x Hi Hold Hx. rewrite <- (Hprog i old x Hi Hold Hx).
    pose proof (mapping_ok_io _ _ _ (mapping_ok_io _ _ _ Hm Hio) Hio2) as Hm2.
    transitivity (logic_byte s2 (addr + i)); 
      [|apply (data_step_frame _ _ _ _ (data_step_io _ _ _ Hio2) (mapping_ok_io _ _ _ Hm Hio)); tauto].
    eapply data_step_frame; [exact Hds3|done|]. intros a Ha Hq. apply phys_page_of in Ha.
    pose proof (phys_inj _ _ _ _ Hm2 Ha Hq) as Ei. subst p. pose proof (page_of_bounds (addr + i)).
    unfold page_of in Ei. destruct Hal as [|[Hz|]]; unfold page_of in *; lia.
  - intros _. split; [lia|done].
  - intros Hall. apply Hlv. eapply io_step_live; [exact Hio2|]. eapply io_step_live; [exact Hio|].
    rewrite <- Hp. apply Hall. lia.
Qed.

(** A page goes out from a state that differs in the page buffer only. *)
Lemma write_range_go s s1 s2 addr data mode pos lead chunk page :
  device_ok s -> mapping_ok s -> mode <> NMBM_MODE_RAW -> 0 <= addr -> addr + zlen data <= block_count * erasesize ->
  write_range_inv s addr data (addr + pos, pos) s1 -> pos < zlen data ->
  lead = Z.land (addr + pos) writesize_mask -> chunk = chunk_at (addr + pos) (zlen data - pos) ->
  io_step (fun _ => False) s1 s2 -> zlen page = writesize ->
  (forall i, 0 <= i < chunk -> znth page (lead + i) = znth data (pos + i)) ->
  wp (do r <- nmbm_write_logic_page (addr + pos - lead) (Some page) None mode;
      if negb (r =? 0) then ret (inr (r, Some pos))
      else ret (inl (addr + pos + chunk, pos + chunk)))
    (fun r s' => match r with
     | inl x' => write_range_inv s addr data x' s' /\ pos < snd x' <= zlen data
     | inr y => write_range_post s addr data y s'
     end) s2.
Proof.
  intros Hd Hm Hmode Ha Hfit Hinv E El Ec Hio2 Hpl Hsrc. geometry.
  pose proof Hinv as (Hpos & _ & Hio & Hal & Hprog).
  destruct (chunk_at_spec (addr + pos) (zlen data - pos)) as (Hc & Hc0 & Hlead & Hle & Halp); [lia..|].
  rewrite <- El, <- Ec in *.
  assert (Hp : 0 <= addr + pos - lead < block_count * erasesize) by lia.
  assert (Hpg0 : page_of (addr + pos) = addr + pos - lead).
  { rewrite El. unfold page_of. by rewrite land_writesize_mask. }
  pose proof (device_io _ _ _ Hd Hio) as Hd1. pose proof (device_io _ _ _ Hd1 Hio2) as Hd2.
  wp_step. apply write_logic_page_ok; [done|done|done|]. intros r s3 Hd3 Hds3 Hok Hlv.
  destruct (Z.eqb_spec r 0) as [->|Hr]; simpl; wp_step; cycle 1.
  { eapply (write_range_failed s s1 s2); try done; lia. }
  destruct (Hok eq_refl) as (a & d' & Hph & -> & Hs & Hpg).
  split; [|simpl; lia]. rewrite (io_step_phys _ _ _ Hio2) in Hph.
  eapply (write_range_page s s1 s2 addr data pos lead chunk a d' page); try done; try lia.
  by apply Hpg.
Qed.

Lemma write_range_step s addr data mode x s1 :
  device_ok s -> mapping_ok s -> mode <> NMBM_MODE_RAW -> 0 <= addr ->
  addr + zlen data <= block_count * erasesize ->
  write_range_inv s addr data x s1 ->
  wp (write_range_body data mode x) (fun r s' =>
    match r with
    | inl x' => write_range_inv s addr data x' s' /\ snd x < snd x' <= zlen data
    | inr y => write_range_post s addr data y s'
    end) s1.
Proof.
  intros Hd Hm Hmode Ha Hfit. geometry. destruct x as [off pos]. intros Hinv.
  pose proof Hinv as (Hpos & -> & Hio & Hal & Hprog). unfold write_range_body.
  pose proof (device_io _ _ _ Hd Hio) as Hd1. pose proof (ok_page_cache _ (lay_buffers _ (dev_layout _ Hd1))) as Hpc1.
  destruct (Z.eqb_spec (zlen data - pos) 0) as [E|E]; simpl.
  { apply wp_ret. assert (pos = zlen data) as -> by lia. split; [done|]. split; [by apply data_step_io|].
    eexists. by split_and!; [done|lia..| | | |]. }
  fold (chunk_at (addr + pos) (zlen data - pos)).
  destruct (chunk_at_spec (addr + pos) (zlen data - pos)) as (Hc & Hc0 & Hlead & Hle & Halp); [lia..|].
  set (chunk := chunk_at _ _) in *. set (lead := Z.land _ _) in *.
  rewrite !u64_small by nia.
  assert (Hgo : forall s2 page, io_step (fun _ => False) s1 s2 -> zlen page = writesize ->
    (forall i, 0 <= i < chunk -> znth page (lead + i) = znth data (pos + i)) -> _)
    by exact (fun s2 page => write_range_go s s1 s2 addr data mode pos lead chunk page Hd Hm Hmode Ha Hfit Hinv ltac:(lia) eq_refl eq_refl).
  destruct (Z.eqb_spec chunk writesize) as [Ec|Ec].
  - wp_step. destruct (slice_exists data pos writesize) as (page & Hpg & Hpl); [lia..|].
    eapply wp_lift; [exact Hpg|]. apply Hgo; [apply io_step_refl|done|].
    intros i Hi. rewrite (znth_slice _ _ _ _ (lead + i) Hpg) by lia. f_equal. lia.
  - do 4 wp_step. destruct (splice_exists (page_cache s1) 0 (fill 255 lead)) as (pc1 & Hp1 & Hl1);
      [lia|rewrite fill_zlen; lia|]. eapply wp_lift; [exact Hp1|]. wp_step.
    destruct (slice_exists data pos chunk) as (src & Hsl & Hsrl); [lia..|].
    eapply wp_lift; [exact Hsl|]. wp_step.
    destruct (splice_exists pc1 lead src) as (pc2 & Hp2 & Hl2); [lia..|].
    eapply wp_lift; [exact Hp2|]. wp_step. wp_step.
    destruct (slice_exists pc2 0 writesize) as (page & Hpg & Hpl); [lia..|].
    eapply wp_lift; [exact Hpg|]. apply Hgo; [|done|].
    + exists (dev s1), pc2. split_and!; [by destruct s1|congruence|apply same_outside_refl].
    + intros i Hi. rewrite (znth_slice _ _ _ _ (lead + i) Hpg), Z.add_0_l by lia.
      rewrite (znth_splice_in _ _ _ _ _ Hp2) by lia.
      rewrite (znth_slice _ _ _ _ _ Hsl) by lia. f_equal. lia.
Qed.

Lemma write_range_ok s addr data mode :
  device_ok s -> mapping_ok s -> protected s = 0 -> mode <> NMBM_MODE_RAW ->
  0 <= addr -> 0 < zlen data -> addr + zlen data <= avail s ->
  wp (nmbm_write_range addr data mode) (write_range_post s addr data) s.
Proof.
  intros Hd Hm Hp Hmode Ha Hl Hfit. destruct (avail_bound s Hd) as [Hav Hba].
  unfold nmbm_write_range. wp_step. wp_step. rewrite Hp, Z.eqb_refl. cbn [negb].
  wp_step. wp_step. rewrite Hba.
  destruct (Z.leb_spec (avail s) addr); [lia|]. rewrite u64_small by lia.
  destruct (Z.ltb_spec (avail s) (addr + zlen data)); [lia|].
  destruct (Z.eqb_spec (zlen data) 0); [lia|].
  apply (wp_iter (write_range_inv s addr data) (fun x _ => Z.to_nat (zlen data - snd x))); cycle 1.
  { split_and!; try lia; [apply io_step_refl|]. intros i old x Hi. lia. }
  { simpl. unfold zlen. lia. }
  intros x s1 Hinv. eapply wp_conseq; [apply (write_range_step s addr data); try done; lia|]. cbv beta.
  intros [x'|y] s'; [intros [? ?]; split; [done|lia]|done].
Qed.

(** Programming erased bytes and reading them back. *)
Lemma land_ff x : is_byte x -> Z.land 255 x = x.
Proof.
  intros Hx. change 255 with (Z.ones 8). rewrite Z.land_comm, Z.land_ones by lia.
  apply Z.mod_small. exact Hx.
Qed.

Lemma programmed_erased s s' addr data i :
  programmed s s' addr (zlen data) data -> Forall is_byte data -> 0 <= i < zlen data ->
  logic_byte s (addr + i) = Some 255 -> logic_byte s' (addr + i) = znth data i.
Proof.
  intros Hp Hb Hi Hold. destruct (znth_some data i Hi) as [x Hx].
  rewrite (Hp i 255 x Hi Hold Hx), Hx, land_ff; [done|].
  unfold znth in Hx. destruct (i <? 0); [done|]. rewrite Forall_lookup in Hb. by apply Hb in Hx.
Qed.

Lemma io_step_count W s s' : io_step W s s' ->
  data_block_count s' = data_block_count s /\ protected s' = protected s.
Proof. by intros (d & pc & -> & _). Qed.

(** Writing, and reading back when the write succeeded. *)
Definition write_read addr (data buf : list Z) mode : M (nmbm_instance D) (Z * Z * list Z) :=
  do '(r, _) <- nmbm_write_range addr data mode;
  if negb (r =? 0) then ret (r, r, buf)
  else do '(r', b, _) <- nmbm_read_range addr buf mode; ret (r, r', b).

Lemma write_read_ok s addr data buf mode :
  device_ok s -> mapping_ok s -> protected s = 0 -> mode <> NMBM_MODE_RAW ->
  0 <= addr -> 0 < zlen data -> zlen buf = zlen data -> addr + zlen data <= avail s ->
  Forall is_byte data ->
  (forall i, 0 <= i < zlen data -> logic_byte s (addr + i) = Some 255) ->
  wp (write_read addr data buf mode)
     (fun '(r, r', b) _ =>
        (r = 0 -> r' = 0 -> b = data) /\
        ((forall i, 0 <= i < zlen data -> live programmable s (page_of (addr + i))) ->
         (forall i, 0 <= i < zlen data -> live reliable_page s (page_of (addr + i))) ->
         r = 0 /\ r' = 0)) s.
Proof.
  intros Hd Hm Hp Hmode Ha Hn Hlen Hav Hb Hold. apply wp_bind.
  eapply wp_conseq; [by apply write_range_ok|]. intros [r n] s1 (Hd1 & _ & n1 & -> & Hn1 & Hprog & Hok & _ & Hlv).
  destruct (Z.eqb_spec r 0) as [->|Hr]; cbn [negb].
  2: { apply wp_ret. split; [done|]. by intros Hl%Hlv. }
  destruct (Hok eq_refl) as (-> & Hio). destruct (io_step_count _ _ _ Hio) as [Hc Hpr].
  apply wp_bind. eapply wp_conseq; [apply read_range_ok; try done; try lia|].
  { unfold avail in *. rewrite Hc. lia. }
  intros [[r' b] n'] s2 (_ & _ & _ & Hlb & n2 & -> & Hn2 & Hbytes & Hok2 & _ & Hlv2). apply wp_ret. split.
  - intros _ ->. destruct (Hok2 eq_refl) as [-> _]. apply znth_ext; [lia|]. intros i Hi.
    rewrite (Hbytes Hmode i ltac:(lia)). apply (programmed_erased s); try done; [lia|]. apply Hold. lia.
  - intros _ Hl. split; [done|]. apply Hlv2. intros i Hi. eapply io_step_live; [exact Hio|].
    apply Hl. lia.
Qed.

End IO.
