(* ===== verification/NmbmErase.v ===== *)
(** * NMBM: erasing logic blocks

    [nmbm_erase_logic_block] terminates, either leaves its block blank and
    usable or reports an error, and touches no other logic block. *)

From stdpp Require Import base numbers list.
From Stdlib Require Import ZArith Lia.
From S2P Require Import Prelude IntLib NmbmTypes NmbmPhys NmbmState NmbmNand NmbmTable NmbmMgmt NmbmImage NmbmUpdate NmbmMapping NmbmLogic NmbmIO.

Section Erase.
Context {D : Type} {L : nmbm_lower_device D} {P : NandModel D}.
Context {GO : geometry_ok L} {NL : nand_laws L P}.
Implicit Types s : nmbm_instance D.

(** The blocks an erase of logic block [lb] may touch: the one it is mapped
    to, and those between the management area and the remapped blocks. *)
Definition erase_area s lb (b : Z) : Prop :=
  znth (block_mapping s) lb = Some b \/ mgmt_start_ba s <= b <= mapping_blocks_top_ba s.

(** An erase of [lb] that started in [s0] has reached [s]. *)
Record erasing s0 lb s : Prop := {
  er_device : device_ok s;
  er_start : mgmt_start_ba s = mgmt_start_ba s0;
  er_count : data_block_count s = data_block_count s0;
  er_top : mapping_blocks_top_ba s <= mapping_blocks_top_ba s0;
  er_others j : j <> lb -> znth (block_mapping s) j = znth (block_mapping s0) j;
  er_entry q : znth (block_mapping s) lb = Some q -> q < 0 \/ erase_area s0 lb q;
  er_pages : same_outside (blocks (erase_area s0 lb)) (dev s0) (dev s)
}.

Lemma erasing_refl s lb : device_ok s -> erasing s lb s.
Proof. intros. constructor; auto with nand; [done|]. intros q Hq. right. by left. Qed.

Lemma erasing_maint s0 lb s s' : erasing s0 lb s -> maint_step s s' -> erasing s0 lb s'.
Proof.
  intros [Hd E1 E2 Ht Ho He Hp] M. pose proof (device_ok_maint _ _ Hd M) as Hd'.
  destruct M as [C _ Hp' _ _]. apply config_inv in C as (_ & F1 & F2 & F3 & F4 & _).
  constructor; rewrite ?F1, ?F2, ?F3, ?F4; try done.
  eapply same_outside_trans; [exact Hp|]. eapply same_outside_weaken; [|exact Hp'].
  intros p (b & Hb & Hin). exists b. split; [|done]. right.
  unfold mgmt_area, within in Hb. lia.
Qed.

Lemma erasing_set_state s0 lb s ba st c :
  erasing s0 lb s -> 0 <= ba < block_count -> 0 <= st <= 3 ->
  erasing s0 lb (s <| block_state := set_state (block_state s) ba st |> <| block_state_changed := c |>).
Proof. intros [] Hb Hst. constructor; try done. by apply device_set_state. Qed.

Lemma erasing_io s0 lb s s' b :
  erasing s0 lb s -> io_step (in_block b) s s' -> erase_area s0 lb b -> erasing s0 lb s'.
Proof.
  intros [Hd E1 E2 Ht Ho He Hp] Hio Hb. pose proof (device_io _ _ _ Hd Hio) as Hd'.
  destruct Hio as (d & pc & -> & _ & Hs). constructor; try done; simpl.
  eapply same_outside_trans; [exact Hp|]. eapply same_outside_weaken; [|exact Hs].
  intros p Hin. by exists b.
Qed.

Lemma device_set_mapping s lb p :
  device_ok s -> - 2 ^ 31 <= p < block_count ->
  device_ok (s <| block_mapping := <[Z.to_nat lb := p]> (block_mapping s) |>).
Proof.
  intros [Hl He Hc] Hp. geometry. constructor; try done.
  - apply layout_set_mapping; [done| |].
    + unfold zlen. rewrite length_insert. apply Hl.
    + apply insert_forall; [apply Hl|lia].
  - apply insert_forall; [done|lia].
Qed.

Lemma erasing_mapping s0 lb s s' p :
  erasing s0 lb s -> 0 <= lb < block_count -> device_ok s' -> (p < 0 \/ erase_area s0 lb p) ->
  block_mapping s' = <[Z.to_nat lb := p]> (block_mapping s) -> mgmt_start_ba s' = mgmt_start_ba s ->
  data_block_count s' = data_block_count s -> dev s' = dev s ->
  mapping_blocks_top_ba s' <= mapping_blocks_top_ba s -> erasing s0 lb s'.
Proof.
  intros [Hd E1 E2 Ht Ho He Hp] Hlb Hd' Hpp Em Es Ec Ed Htop.
  assert (Hlen : 0 <= lb < zlen (block_mapping s)) by (rewrite (ok_map_len s); [done|apply Hd]).
  pose proof (zset_some _ lb p Hlen) as Hset. constructor; rewrite ?Em; try congruence; try lia.
  - intros j Hj. rewrite (znth_zset_ne _ _ _ _ _ Hset) by congruence. by apply Ho.
  - intros q Hq. rewrite (znth_zset_eq _ _ _ _ Hset) in Hq. by injection Hq as <-.
  - by rewrite Ed.
Qed.

Lemma retire_mapped_ok s0 lb s pb Q :
  erasing s0 lb s -> 0 <= pb < block_count ->
  (forall s', erasing s0 lb s' -> mapping_blocks_top_ba s' = mapping_blocks_top_ba s -> Q tt s') ->
  wp (retire_mapped pb) Q s.
Proof.
  intros He Hpb HQ. unfold retire_mapped. wp_step.
  apply wp_get_block_state; [apply He|done|]. wp_step; [|by wp_step; apply HQ].
  wp_step. apply wp_set_block_state; [apply He|done|unfold BLOCK_ST_BAD; lia|]. wp_step.
  apply HQ; [|done]. by apply erasing_set_state.
Qed.

Lemma erasing_update s0 lb s Q :
  erasing s0 lb s ->
  (forall r s', erasing s0 lb s' -> mapping_blocks_top_ba s' = mapping_blocks_top_ba s -> Q r s') ->
  wp nmbm_update_info_table Q s.
Proof.
  intros He HQ. eapply wp_conseq; [apply update_info_table_ok, He|]. cbv beta.
  intros ok s' (M & _). apply HQ; [by eapply erasing_maint|].
  by destruct (config_inv _ _ (ms_config _ _ M)) as (_ & _ & _ & _ & -> & _).
Qed.

(** No spare block is left: the logic block is given up. *)
Lemma remap_fail_ok s0 lb s pb Q :
  erasing s0 lb s -> 0 <= lb < block_count -> 0 <= pb < block_count ->
  (forall s', erasing s0 lb s' -> Q (inr (- EIO)) s') ->
  wp (set_mapping lb (-1);; retire_mapped pb;; nmbm_update_info_table;; ret (inr (- EIO) : unit + Z)) Q s.
Proof.
  intros He1 Hlb Hpb HN. unfold set_mapping. wp_step. wp_step. wp_step. wp_step.
  assert (Hlen : 0 <= lb < zlen (block_mapping s)) by (rewrite (ok_map_len s); [done|apply He1]).
  eapply wp_lift; [by apply zset_some|]. wp_step. wp_step.
  assert (He2 : erasing s0 lb (s <| block_mapping := <[Z.to_nat lb := -1]> (block_mapping s) |>)).
  { eapply (erasing_mapping s0 lb s _ (-1)); try done; [|by left].
    apply device_set_mapping; [apply He1|]. geometry. lia. }
  eapply retire_mapped_ok; [exact He2|done|]. intros s3 He3 _. wp_step.
  eapply erasing_update; [exact He3|]. intros _ s4 He4 _. wp_step. by apply HN.
Qed.

Lemma remap_ok s0 lb s pb Q :
  erasing s0 lb s -> 0 <= lb < block_count -> 0 <= pb < block_count ->
  (forall s', erasing s0 lb s' -> Q (inr (- EIO)) s') ->
  (forall s', erasing s0 lb s' -> mapping_blocks_top_ba s' < mapping_blocks_top_ba s ->
     Q (inl tt) s') ->
  wp (remap_logic_block lb pb) Q s.
Proof.
  intros He Hlb Hpb HN HS. destruct (layout_bounds s) as (Hst & Hmb & Htop); [apply He|].
  pose proof (er_start _ _ _ He) as Es. pose proof (er_top _ _ _ He) as Et.
  unfold remap_logic_block. wp_step.
  assert (Hfail : forall s1, erasing s0 lb s1 ->
    wp (set_mapping lb (-1);; retire_mapped pb;; nmbm_update_info_table;; ret (inr (- EIO))) Q s1).
  { intros s1 He1. by apply remap_fail_ok with s0. }
  apply map_block_ok; [apply He|done|by intros _; apply Hfail| |].
  - intros q Hq Hg Hno. cbn [negb]. assert (He1 : erasing s0 lb (mapped_to s lb q)).
    { eapply (erasing_mapping s0 lb s _ q); try done; [apply device_mapped; [apply He|done]| |simpl; lia].
      right. right. lia. }
    wp_step. eapply retire_mapped_ok; [exact He1|done|]. intros s3 He3 E3. wp_step.
    eapply erasing_update; [exact He3|]. intros _ s4 He4 E4. wp_step. apply HS; [done|].
    rewrite E4, E3. simpl. lia.
  - intros s1 M _ _. apply Hfail. pose proof (erasing_maint _ _ _ _ He M) as He1.
    assert (Hl1 : layout_ok s1) by apply M. destruct (layout_bounds s1 Hl1) as (? & ? & ?).
    destruct He1 as [[_ ? ?] ? ? ? ? ? ?]. constructor; try done; [|simpl; lia].
    constructor; try done. by apply layout_top_closed.
Qed.

(** A logic block that has just been erased. *)
Definition blank_block s lb : Prop :=
  exists pb, znth (block_mapping s) lb = Some pb /\ 0 <= pb < block_count /\ erased_block (dev s) pb.

Lemma erase_logic_ok s lb :
  device_ok s -> 0 <= lb < block_count ->
  wp (nmbm_erase_logic_block lb) (fun r s' =>
    erasing s lb s' /\ (r = 0 /\ blank_block s' lb \/ r = - EIO)) s.
Proof.
  intros Hd Hlb. destruct (layout_bounds s) as (Hst & Hmb & Htop); [apply Hd|].
  unfold nmbm_erase_logic_block. wp_step. wp_step.
  apply (wp_iter (fun _ s1 => erasing s lb s1) (fun _ s1 => Z.to_nat (mapping_blocks_top_ba s1)));
    [|by apply erasing_refl|lia].
  intros [] s1 He. unfold erase_logic_body. wp_step. apply get_mapping_ok; [apply He|done|].
  intros pb Hpb Hpr. destruct (Z.ltb_spec pb 0); [wp_step; auto|].
  destruct (layout_bounds s1) as (? & ? & ?); [apply He|].
  assert (Hret : forall s2, erasing s lb s2 -> mapping_blocks_top_ba s2 = mapping_blocks_top_ba s1 ->
    wp (remap_logic_block lb pb) (fun r s' => match r with
      | inl _ => erasing s lb s' /\ (Z.to_nat (mapping_blocks_top_ba s') < Z.to_nat (mapping_blocks_top_ba s1))%nat
      | inr r => erasing s lb s' /\ (r = 0 /\ blank_block s' lb \/ r = - EIO) end) s2).
  { intros s2 He2 E2. eapply remap_ok; [exact He2|done|lia|by auto|].
    intros s3 He3 Hlt. destruct (layout_bounds s3) as (? & ? & ?); [apply He3|]. split; [done|lia]. }
  wp_step. apply wp_get_block_state; [apply He|lia|]. wp_step. apply wp_get_block_state; [apply He|lia|].
  wp_step; [by apply Hret|].
  assert (Harea : erase_area s lb pb) by (by destruct (er_entry _ _ _ He pb Hpb); [lia|]).
  geometry. wp_step. apply erase_phys_ok; [lia|]. intros ok d' Hs Hbl _.
  assert (He2 : erasing s lb (s1 <| dev := d' |>)) by (by eapply erasing_io, Harea; [|apply io_step_dev]).
  destruct ok.
  { wp_step. split; [done|]. left. split; [done|]. exists pb. split_and!; [done|lia..|by apply Hbl]. }
  wp_step. apply mark_bad_ok; [apply He2|lia|]. intros r3 s3 Hio. wp_step.
  assert (He3 : erasing s lb s3) by (by eapply erasing_io).
  apply wp_set_block_state; [apply He3|lia|unfold BLOCK_ST_BAD; lia|].
  apply Hret; [apply erasing_set_state; [done|lia|unfold BLOCK_ST_BAD; lia]|].
  by destruct Hio as (? & ? & -> & _).
Qed.

(** A good block that erases without error is erased at the first attempt. *)
Lemma erase_logic_live s lb pb :
  device_ok s -> 0 <= lb < block_count -> znth (block_mapping s) lb = Some pb -> 0 <= pb ->
  good (block_state s) pb -> erasable pb ->
  wp (nmbm_erase_logic_block lb) (fun r s' => r = 0 /\ exists d', s' = s <| dev := d' |>) s.
Proof.
  intros Hd Hlb Hpb Hp0 Hg He. geometry. unfold nmbm_erase_logic_block. wp_step. wp_step.
  cbn [iter]. apply wp_bind. unfold erase_logic_body. wp_step. apply get_mapping_ok; [done..|].
  intros pb' Hpb' Hpr. rewrite Hpb in Hpb'. injection Hpb' as <-.
  destruct (Z.ltb_spec pb 0); [lia|].
  wp_step. apply wp_get_block_state; [apply Hd|lia|]. wp_step. apply wp_get_block_state; [apply Hd|lia|].
  rewrite Hg. change ((BLOCK_ST_GOOD =? BLOCK_ST_BAD) || (BLOCK_ST_GOOD =? BLOCK_ST_NEED_REMAP)) with false.
  cbv iota.
  wp_step. apply erase_phys_ok; [lia|]. intros ok d' _ _ Hok. rewrite (Hok He). wp_step. wp_step. eauto.
Qed.

End Erase.

Section EraseData.
Context {D : Type} {L : nmbm_lower_device D} {P : NandModel D}.
Context {GO : geometry_ok L} {NL : nand_laws L P}.
Implicit Types s : nmbm_instance D.

(** Every byte of a freshly erased block reads 0xff. *)
Lemma blank_block_bytes s lb i :
  blank_block s lb -> i / erasesize = lb -> logic_byte s i = Some 255.
Proof.
  intros (pb & Hpb & Hr & Hbl) <-. geometry. unfold logic_byte, phys. rewrite Hpb.
  destruct (Z.ltb_spec pb 0); [lia|].
  assert (Ho : 0 <= i mod erasesize < erasesize) by (apply Z.mod_pos_bound; lia).
  unfold flash_byte. rewrite (Hbl (page_of _)); [|by apply block_byte_page|apply page_of_divides].
  unfold erased_page, fill, znth.
  assert (Hm : 0 <= (pb * erasesize + i mod erasesize) mod writesize < writesize)
    by (apply Z.mod_pos_bound; lia).
  destruct (Z.ltb_spec ((pb * erasesize + i mod erasesize) mod writesize) 0); [lia|].
  apply lookup_replicate_2. lia.
Qed.

(** Erasing one logic block keeps the bytes of all others. *)
Lemma erasing_frame s lb s' i :
  erasing s lb s' -> mapping_ok s -> i / erasesize <> lb -> logic_byte s' i = logic_byte s i.
Proof.
  intros He Hm Hi. geometry. unfold logic_byte, phys. rewrite (er_others _ _ _ He) by done.
  destruct (znth (block_mapping s) (i / erasesize)) as [pb|] eqn:Ep; [|done].
  destruct (Z.ltb_spec pb 0); [done|]. eapply flash_byte_same; [apply He|].
  assert (Ho : 0 <= i mod erasesize < erasesize) by (apply Z.mod_pos_bound; lia).
  intros (b & Hb & Hin). assert (b = pb) as ->.
  { eapply in_block_inj; [exact Hin|]. by apply block_byte_page. }
  destruct Hb as [Hb|Hb].
  - apply Hi. by eapply (map_inj s Hm).
  - destruct (map_area s Hm _ _ Ep); lia.
Qed.

(** ** A device in service

    The logic blocks are mapped, to different blocks outside the management
    area, and the blocks of that area and the spare blocks are good and sound.
    The blocks that hold logic blocks may fail to read, program or erase at
    any time. *)
Record in_service s : Prop := {
  is_device : device_ok s;
  is_mapping : mapping_ok s;
  is_mapped lb : 0 <= lb < data_block_count s -> exists pb, znth (block_mapping s) lb = Some pb /\ 0 <= pb;
  is_spare b : mgmt_start_ba s <= b <= mapping_blocks_top_ba s -> good (block_state s) b /\ sound b
}.

(** The mapping and the spare blocks are what matters. *)
Lemma in_service_same s s' :
  in_service s -> device_ok s' -> block_mapping s' = block_mapping s ->
  data_block_count s' = data_block_count s -> mgmt_start_ba s' = mgmt_start_ba s ->
  mapping_blocks_top_ba s' = mapping_blocks_top_ba s ->
  (forall b, 0 <= b < block_count -> sound b -> ~ in_use s b ->
     state_of (block_state s') b = state_of (block_state s) b) -> in_service s'.
Proof.
  intros [Hd Hm Hmap Hsp] Hd' E1 E2 E3 E4 Hst. destruct (layout_bounds s) as (? & ? & ?); [apply Hd|].
  constructor; [done| |by rewrite E1, E2|].
  - destruct Hm as [Hi Ha]. constructor; rewrite E1; [done|by rewrite E3, E4].
  - intros b Hb. rewrite E3, E4 in Hb. destruct (Hsp b Hb) as [Hg Hs]. split; [|done].
    unfold good. rewrite Hst; [done|lia|done|]. intros (lb & Hlb). destruct (map_area s Hm _ _ Hlb); lia.
Qed.

Lemma in_service_data W s s' : in_service s -> device_ok s' -> data_step W s s' -> in_service s'.
Proof.
  intros Hs Hd' [C _ S]. apply config_inv in C as (_ & E1 & E2 & E3 & E4 & _). by apply (in_service_same s).
Qed.

Lemma in_service_io W s s' : in_service s -> io_step W s s' -> in_service s'.
Proof.
  intros Hs Hio. eapply in_service_data; [done|eapply device_io; [apply Hs|done]|by apply data_step_io].
Qed.

Lemma in_service_maint s s' : in_service s -> maint_step s s' -> in_service s'.
Proof.
  intros Hs M. eapply (in_service_data (fun _ => False)); [done|eapply device_ok_maint; [apply Hs|done]|].
  by apply data_step_maint.
Qed.

(** A block outside the area of the spares changes its state. *)
Lemma in_service_set_state s ba st c :
  in_service s -> 0 <= ba < block_count -> 0 <= st <= 3 ->
  ba < mgmt_start_ba s \/ mapping_blocks_top_ba s < ba ->
  in_service (s <| block_state := set_state (block_state s) ba st |> <| block_state_changed := c |>).
Proof.
  intros [Hd Hm Hmap Hsp] Hba Hst Hout. destruct (layout_bounds s) as (? & ? & ?); [apply Hd|].
  constructor; [by apply device_set_state|by destruct Hm|done|]. intros b Hb. simpl in Hb.
  destruct (Hsp b Hb) as [Hg Hs]. split; [|done]. unfold good. simpl.
  destruct (set_state_spec s ba st (lay_buffers _ (dev_layout _ Hd)) Hba Hst) as (_ & Ho & _).
  rewrite Ho; [done|lia|lia].
Qed.

Lemma in_service_mapped s lb :
  in_service s -> 0 <= lb < block_count -> mapping_blocks_ba s < mapping_blocks_top_ba s ->
  in_service (mapped_to s lb (mapping_blocks_top_ba s)).
Proof.
  intros [Hd Hm Hmap Hsp] Hlb Hlt. destruct (layout_bounds s) as (? & ? & ?); [apply Hd|].
  assert (Hlen : 0 <= lb < zlen (block_mapping s)) by (rewrite (ok_map_len s); [done|apply Hd]).
  pose proof (zset_some _ lb (mapping_blocks_top_ba s) Hlen) as Hset. constructor.
  - by apply device_mapped; [|lia].
  - by apply mapping_ok_mapped; [|apply Hd|].
  - intros j Hj. simpl in *. destruct (decide (j = lb)) as [->|Hne].
    + exists (mapping_blocks_top_ba s). rewrite (znth_zset_eq _ _ _ _ Hset). split; [done|lia].
    + rewrite (znth_zset_ne _ _ _ _ _ Hset) by congruence. by apply Hmap.
  - intros b Hb. simpl in *. apply Hsp. lia.
Qed.

Lemma retire_service s pb Q :
  in_service s -> 0 <= pb < block_count -> pb < mgmt_start_ba s \/ mapping_blocks_top_ba s < pb ->
  (forall s', in_service s' -> mapping_blocks_top_ba s' = mapping_blocks_top_ba s ->
     data_block_count s' = data_block_count s -> Q tt s') ->
  wp (retire_mapped pb) Q s.
Proof.
  intros Hs Hpb Hout HQ. unfold retire_mapped. wp_step. apply wp_get_block_state; [apply Hs|done|].
  wp_step; [|by wp_step; apply HQ]. wp_step.
  apply wp_set_block_state; [apply Hs|done|unfold BLOCK_ST_BAD; lia|]. wp_step.
  apply HQ; [|done|done]. by apply in_service_set_state.
Qed.

(** Remapping takes the topmost spare block, or there is none. *)
Lemma remap_service s lb pb Q :
  in_service s -> 0 <= lb < block_count -> znth (block_mapping s) lb = Some pb -> 0 <= pb < block_count ->
  (forall s', Q (inr (- EIO)) s') ->
  (forall s', in_service s' -> data_block_count s' = data_block_count s ->
     mapping_blocks_top_ba s' < mapping_blocks_top_ba s -> Q (inl tt) s') ->
  wp (remap_logic_block lb pb) Q s.
Proof.
  intros Hs Hlb Hmap Hpb HN HS. pose proof (is_device s Hs) as Hd.
  destruct (layout_bounds s) as (Hst & Hmb & Htop); [apply Hd|]. unfold remap_logic_block. wp_step.
  assert (Hgood : mapping_blocks_ba s < mapping_blocks_top_ba s -> good (block_state s) (mapping_blocks_top_ba s))
    by (intros _; apply (is_spare s Hs); lia).
  apply map_block_ok; [apply Hd|done| | |].
  - intros _. cbn [negb]. eapply remap_fail_ok; [by apply erasing_refl|done|done|]. intros s' _. apply HN.
  - intros q Hq _ Hno. cbn [negb]. assert (q = mapping_blocks_top_ba s) as ->.
    { destruct (decide (q = mapping_blocks_top_ba s)); [done|]. destruct (Hno (mapping_blocks_top_ba s)); [lia|]. apply Hgood. lia. }
    pose proof (in_service_mapped s lb Hs Hlb ltac:(lia)) as Hs1. wp_step.
    apply retire_service; [done|done| |].
    { destruct (map_area s (is_mapping s Hs) _ _ Hmap); simpl; lia. }
    intros s2 Hs2 E2 C2. wp_step. eapply wp_conseq; [apply update_info_table_ok, Hs2|]. cbv beta.
    intros ok s3 (M & _). wp_step. destruct (config_inv _ _ (ms_config _ _ M)) as (_ & _ & C3 & _ & E3 & _).
    apply HS; [by eapply in_service_maint|by rewrite C3, C2|]. rewrite E3, E2. simpl. lia.
  - intros s' _ Hlt Hno. destruct (Hno (mapping_blocks_top_ba s)); [lia|by apply Hgood].
Qed.

(** Erasing a logic block leaves a device in service if it succeeds: where
    its block is bad, is to be replaced or fails to erase, the block is
    retired and the logic block moves to a spare one. *)
Lemma erase_logic_service s lb :
  in_service s -> 0 <= lb < data_block_count s ->
  wp (nmbm_erase_logic_block lb) (fun r s' => r = 0 -> in_service s') s.
Proof.
  intros Hs Hlb. pose proof (dev_count s (is_device s Hs)) as Hc. unfold nmbm_erase_logic_block. wp_step. wp_step.
  destruct (layout_bounds s) as (Hst & Hmb & Htop); [apply Hs|].
  apply (wp_iter (fun _ s1 => in_service s1 /\ data_block_count s1 = data_block_count s)
           (fun _ s1 => Z.to_nat (mapping_blocks_top_ba s1))); [|done|lia].
  intros [] s1 [Hs1 C1]. unfold erase_logic_body. wp_step. apply get_mapping_ok; [apply Hs1|lia|].
  intros pb Hpb Hpr. destruct (Z.ltb_spec pb 0); [by wp_step|].
  assert (Hout : pb < mgmt_start_ba s1 \/ mapping_blocks_top_ba s1 < pb) by (by apply (map_area s1 (is_mapping s1 Hs1) lb)).
  assert (Hremap : forall s2, in_service s2 -> block_mapping s2 = block_mapping s1 ->
    data_block_count s2 = data_block_count s1 -> mapping_blocks_top_ba s2 = mapping_blocks_top_ba s1 ->
    wp (remap_logic_block lb pb) (fun r s' => match r with
      | inl _ => (in_service s' /\ data_block_count s' = data_block_count s) /\
                 (Z.to_nat (mapping_blocks_top_ba s') < Z.to_nat (mapping_blocks_top_ba s1))%nat
      | inr r => r = 0 -> in_service s' end) s2).
  { intros s2 Hs2 E2 C2 T2. apply remap_service; [done|lia|by rewrite E2|lia|done|].
    intros s3 Hs3 C3 T3. destruct (layout_bounds s3) as (? & ? & ?); [apply Hs3|]. split; [split; [done|congruence]|lia]. }
  wp_step. apply wp_get_block_state; [apply Hs1|lia|]. wp_step. apply wp_get_block_state; [apply Hs1|lia|].
  wp_step; [by apply Hremap|]. geometry. wp_step. apply erase_phys_ok; [lia|]. intros ok d' Hd' _ _.
  pose proof (in_service_io _ _ _ Hs1 (io_step_dev _ _ _ Hd')) as Hs2. destruct ok; [by wp_step|].
  wp_step. apply mark_bad_ok; [apply Hs2|lia|]. intros r3 s3 Hio. pose proof (in_service_io _ _ _ Hs2 Hio) as Hs3.
  destruct Hio as (d3 & pc3 & -> & _). wp_step.
  apply wp_set_block_state; [apply Hs3|lia|unfold BLOCK_ST_BAD; lia|].
  apply Hremap; [|done..]. by apply in_service_set_state; [|lia|unfold BLOCK_ST_BAD; lia|].
Qed.

(** What a range erase leaves: the blocks before [b] are blank, the others
    as they were. *)
Definition erased_range s b0 b s1 : Prop :=
  in_service s1 /\ data_block_count s1 = data_block_count s /\
  (forall i, b0 <= i / erasesize < b -> logic_byte s1 i = Some 255) /\
  (forall i, ~ (b0 <= i / erasesize < b) -> logic_byte s1 i = logic_byte s i).

Lemma erased_range_step s b0 b s1 Q :
  erased_range s b0 b s1 -> 0 <= b0 <= b -> b < data_block_count s ->
  (forall s2, erased_range s b0 (b + 1) s2 -> Q 0 s2) ->
  (forall s2, (forall i, ~ (b0 <= i / erasesize < b + 1) -> logic_byte s2 i = logic_byte s i) -> Q (- EIO) s2) ->
  wp (nmbm_erase_logic_block b) Q s1.
Proof.
  intros (Hs1 & C1 & Hin & Hout) Hb Hbc HQ HN. pose proof (dev_count s1 (is_device s1 Hs1)) as Hc.
  eapply wp_conseq; [apply wp_and;
    [apply (erase_logic_ok s1 b); [apply Hs1|lia]|apply (erase_logic_service s1 b); [done|lia]]|].
  cbv beta. intros r s2 [[Hera Hr] Hs2].
  assert (Hf : forall i, ~ (b0 <= i / erasesize < b + 1) -> logic_byte s2 i = logic_byte s i).
  { intros i Hi. rewrite (erasing_frame s1 b s2 i); [apply Hout; lia|done|apply Hs1|lia]. }
  destruct Hr as [[-> Hbl]| ->]; [|by apply HN]. apply HQ. split_and!; [auto|by rewrite (er_count _ _ _ Hera)| |done].
  intros i Hi. destruct (decide (i / erasesize = b)); [by eapply blank_block_bytes|].
  rewrite (erasing_frame s1 b s2 i); [apply Hin; lia|done|apply Hs1|done].
Qed.

Lemma erase_range_service s addr size Q :
  in_service s -> 0 <= addr -> 0 < size -> addr + size <= avail s ->
  let b0 := addr / erasesize in let e := (addr + size - 1) / erasesize in
  (forall s', erased_range s b0 (e + 1) s' -> Q (0, None) s') ->
  (forall r x s', r <> 0 -> (forall i, ~ (b0 <= i / erasesize < e + 1) -> logic_byte s' i = logic_byte s i) ->
     Q (r, x) s') ->
  wp (nmbm_erase_block_range addr size) Q s.
Proof.
  intros Hs Ha Hsz Hfit b0 e HQ HN. pose proof (is_device s Hs) as Hd. geometry.
  destruct (avail_bound s Hd) as [Hav Hba]. unfold nmbm_erase_block_range. wp_step. wp_step.
  destruct (Z.eqb_spec (protected s) 0); cbn [negb]; [|wp_step; by apply HN].
  wp_step. wp_step. rewrite Hba. destruct (Z.leb_spec (avail s) addr); [lia|].
  rewrite !u64_small by lia. destruct (Z.ltb_spec (avail s) (addr + size)); [lia|].
  destruct (Z.eqb_spec size 0); [lia|].
  assert (Hbig : block_count * erasesize < 2 ^ 32 * erasesize) by nia.
  rewrite !addr2ba_spec by lia. fold e b0.
  assert (H1 : 0 <= b0) by (apply Z.div_pos; lia).
  assert (H2 : e < data_block_count s) by (apply Z.div_lt_upper_bound; unfold avail in *; lia).
  assert (H3 : b0 <= e) by (apply Z.div_le_mono; lia).
  pose proof (dev_count s Hd) as Hc.
  apply (wp_iter (fun b s1 => b0 <= b <= e + 1 /\ erased_range s b0 b s1) (fun b _ => Z.to_nat (e + 1 - b))); cycle 1.
  { split; [lia|]. split_and!; [done|done|intros; lia|done]. }
  { lia. }
  intros b s1 [Hb Her]. unfold erase_blocks_body. destruct (Z.leb_spec b e); cycle 1.
  { wp_step. assert (b = e + 1) as -> by lia. by apply HQ. }
  wp_step. eapply erased_range_step; [exact Her|lia|lia| |].
  - intros s2 Her2. cbn [Z.eqb negb]. wp_step. rewrite u32_small by lia. split; [|lia]. split; [lia|done].
  - intros s2 Hf. change (negb (- EIO =? 0)) with true. cbv iota. wp_step. apply HN; [done|]. intros i Hi. apply Hf. lia.
Qed.

Definition erase_range_post s addr size (x : Z * option Z) (s' : nmbm_instance D) : Prop :=
  device_ok s' /\
  (x = (0, None) \/
   exists b, x = (- EIO, Some (b * erasesize)) /\ addr / erasesize <= b <= (addr + size - 1) / erasesize).

Lemma erase_block_range_ok s addr size :
  device_ok s -> protected s = 0 -> 0 <= addr -> 0 < size -> addr + size <= avail s ->
  wp (nmbm_erase_block_range addr size) (erase_range_post s addr size) s.
Proof.
  intros Hd Hp Ha Hs Hfit. geometry. destruct (avail_bound s Hd) as [Hav Hba].
  unfold nmbm_erase_block_range. wp_step. wp_step. rewrite Hp, Z.eqb_refl. cbn [negb].
  wp_step. wp_step. rewrite Hba. destruct (Z.leb_spec (avail s) addr); [lia|].
  rewrite !u64_small by lia. destruct (Z.ltb_spec (avail s) (addr + size)); [lia|].
  destruct (Z.eqb_spec size 0); [lia|].
  assert (Hbig : block_count * erasesize < 2 ^ 32 * erasesize) by nia.
  rewrite !addr2ba_spec by lia.
  assert (H1 : 0 <= addr / erasesize) by (apply Z.div_pos; lia).
  assert (H2 : (addr + size - 1) / erasesize < block_count) by (apply Z.div_lt_upper_bound; lia).
  assert (H3 : addr / erasesize <= (addr + size - 1) / erasesize) by (apply Z.div_le_mono; lia).
  set (e := (addr + size - 1) / erasesize) in *. set (b0 := addr / erasesize) in *.
  apply (wp_iter (fun b s1 => b0 <= b <= e + 1 /\ device_ok s1) (fun b _ => Z.to_nat (e + 1 - b)));
    [|split; [lia|done]|lia].
  intros b s1 [Hb Hd1]. unfold erase_blocks_body. destruct (Z.leb_spec b e); cycle 1.
  { wp_step. split; [done|]. by left. }
  wp_step. eapply wp_conseq; [apply erase_logic_ok; [done|lia]|]. cbv beta. intros r s2 [He Hr].
  destruct Hr as [[-> _]| ->]; simpl; wp_step.
  - rewrite u32_small by lia. split; [|lia]. split; [lia|apply He].
  - split; [apply He|]. right. exists b. rewrite ba2addr_spec by lia. split; [done|lia].
Qed.

End EraseData.
