(* ===== verification/NmbmSteps.v ===== *)
(** * NMBM: sequences of calls

    The operations an attached device offers, as one type of calls, and the
    well-formedness of the instance through any sequence of them. *)

From stdpp Require Import base numbers list.
From Stdlib Require Import ZArith Lia.
From S2P Require Import Prelude IntLib NmbmTypes NmbmPhys NmbmState NmbmNand NmbmTable NmbmMgmt NmbmImage NmbmUpdate NmbmMapping NmbmLogic NmbmIO NmbmErase.

Inductive nmbm_call :=
| CallEraseRange (addr size : Z)
| CallReadRange (addr : Z) (buf : list Z) (mode : nmbm_oob_mode)
| CallWriteRange (addr : Z) (data : list Z) (mode : nmbm_oob_mode)
| CallReadPage (addr : Z) (data oob : option (list Z)) (mode : nmbm_oob_mode)
| CallWritePage (addr : Z) (data oob : option (list Z)) (mode : nmbm_oob_mode)
| CallCheckBad (addr : Z)
| CallMarkBad (addr : Z).

Section Calls.
Context {D : Type} {L : nmbm_lower_device D}.
Local Abbreviation NM := (M (nmbm_instance D)).

Definition run_call (c : nmbm_call) : NM Z :=
  match c with
  | CallEraseRange addr size => do '(r, _) <- nmbm_erase_block_range addr size; ret r
  | CallReadRange addr buf mode => do '(r, _, _) <- nmbm_read_range addr buf mode; ret r
  | CallWriteRange addr data mode => do '(r, _) <- nmbm_write_range addr data mode; ret r
  | CallReadPage addr data oob mode => do '(r, _) <- nmbm_read_single_page addr data oob mode; ret r
  | CallWritePage addr data oob mode => nmbm_write_single_page addr data oob mode
  | CallCheckBad addr => nmbm_check_bad_block addr
  | CallMarkBad addr => nmbm_mark_bad_block addr
  end.

Fixpoint run_calls (cs : list nmbm_call) : NM (list Z) :=
  match cs with
  | [] => ret []
  | c :: cs => do r <- run_call c; do rs <- run_calls cs; ret (r :: rs)
  end.

(** Addresses are 64-bit numbers; a range does not wrap around, a page is
    addressed by its start. *)
Definition call_wf (c : nmbm_call) : Prop :=
  match c with
  | CallEraseRange addr size => 0 <= addr /\ 0 <= size /\ addr + size < 2 ^ 64
  | CallReadRange addr buf _ | CallWriteRange addr buf _ => 0 <= addr /\ addr + zlen buf < 2 ^ 64
  | CallReadPage addr _ _ _ | CallWritePage addr _ _ _ => 0 <= addr < 2 ^ 64 /\ (writesize | addr)
  | CallCheckBad addr | CallMarkBad addr => 0 <= addr < 2 ^ 64
  end.

End Calls.

Section KeepDevice.
Context {D : Type} {L : nmbm_lower_device D} {P : NandModel D}.
Context {GO : geometry_ok L} {NL : nand_laws L P}.
Implicit Types s : nmbm_instance D.

(** Every return value will do. *)
Local Abbreviation device_after := (fun _ s' => device_ok s').

Lemma erase_range_keeps s addr size :
  device_ok s -> 0 <= addr -> 0 <= size -> addr + size < 2 ^ 64 ->
  wp (nmbm_erase_block_range addr size) device_after s.
Proof.
  intros Hd Ha Hs Hw. destruct (avail_bound s Hd) as [Hav Hba].
  destruct (decide (protected s = 0 /\ 0 < size /\ addr + size <= avail s)) as [(Hp & Hs0 & Hfit)|Hno].
  { eapply wp_conseq; [by apply erase_block_range_ok|]. by intros r s' [? _]. }
  unfold nmbm_erase_block_range. wp_step. wp_step.
  destruct (Z.eqb_spec (protected s) 0); cbn [negb]; [|by wp_step]. wp_step. wp_step. rewrite Hba, u64_small by lia.
  destruct (Z.leb_spec (avail s) addr); [by wp_step|]. destruct (Z.ltb_spec (avail s) (addr + size)); [by wp_step|].
  destruct (Z.eqb_spec size 0); [by wp_step|]. lia.
Qed.

Lemma read_range_keeps s addr buf mode :
  device_ok s -> 0 <= addr -> addr + zlen buf < 2 ^ 64 -> wp (nmbm_read_range addr buf mode) device_after s.
Proof.
  intros Hd Ha Hw. pose proof (zlen_nonneg buf) as Hl. destruct (avail_bound s Hd) as [Hav Hba].
  destruct (decide (protected s = 0 /\ 0 < zlen buf /\ addr + zlen buf <= avail s)) as [(Hp & Hs0 & Hfit)|Hno].
  { eapply wp_conseq; [by apply read_range_ok|]. by intros [[r b] n] s' [? _]. }
  unfold nmbm_read_range. wp_step. wp_step.
  destruct (Z.eqb_spec (protected s) 0); cbn [negb]; [|by wp_step]. wp_step. wp_step. rewrite Hba, u64_small by lia.
  destruct (Z.leb_spec (avail s) addr); [by wp_step|]. destruct (Z.ltb_spec (avail s) (addr + zlen buf)); [by wp_step|].
  destruct (Z.eqb_spec (zlen buf) 0); [by wp_step|]. lia.
Qed.

(** One round of [nmbm_write_range] from any well-formed state. *)
Lemma write_round_keeps s addr data mode pos :
  device_ok s -> 0 <= addr -> addr + zlen data <= block_count * erasesize -> 0 <= pos <= zlen data ->
  wp (write_range_body data mode (addr + pos, pos)) (fun r s' => device_ok s' /\
    match r with
    | inl (off, pos') => off = addr + pos' /\ pos < pos' <= zlen data
    | inr _ => True
    end) s.
Proof.
  intros Hd Ha Hfit Hpos. geometry. pose proof (ok_page_cache _ (lay_buffers _ (dev_layout _ Hd))) as Hpc.
  unfold write_range_body. destruct (Z.eqb_spec (zlen data - pos) 0) as [E|E]; cbn [negb]; [by apply wp_ret|].
  fold (chunk_at (addr + pos) (zlen data - pos)).
  destruct (chunk_at_spec (addr + pos) (zlen data - pos)) as (Hc & Hc0 & Hlead & Hle & Halp); [lia..|].
  set (chunk := chunk_at _ _) in *. set (lead := Z.land _ _) in *. rewrite !u64_small by nia.
  assert (Hgo : forall s2 page, device_ok s2 ->
    wp (do r <- nmbm_write_logic_page (addr + pos - lead) (Some page) None mode;
        if negb (r =? 0) then ret (inr (r, Some pos)) else ret (inl (addr + pos + chunk, pos + chunk)))
      (fun r s' => device_ok s' /\
       match r with inl (off, pos') => off = addr + pos' /\ pos < pos' <= zlen data | inr _ => True end) s2).
  { intros s2 page Hd2. wp_step. apply write_logic_page_ok; [done|lia|done|]. intros r s3 Hd3 _ _ _.
    destruct (r =? 0); cbn [negb]; apply wp_ret; (split; [done|]); [lia|done]. }
  destruct (Z.eqb_spec chunk writesize) as [Ec|Ec].
  - wp_step. destruct (slice_exists data pos writesize) as (page & Hpg & _); [lia..|].
    eapply wp_lift; [exact Hpg|]. by apply Hgo.
  - do 4 wp_step. destruct (splice_exists (page_cache s) 0 (fill 255 lead)) as (pc1 & Hp1 & Hl1);
      [lia|rewrite fill_zlen; lia|]. eapply wp_lift; [exact Hp1|]. wp_step.
    destruct (slice_exists data pos chunk) as (src & Hsl & Hsrl); [lia..|].
    eapply wp_lift; [exact Hsl|]. wp_step.
    destruct (splice_exists pc1 lead src) as (pc2 & Hp2 & Hl2); [lia..|].
    eapply wp_lift; [exact Hp2|]. wp_step. wp_step.
    destruct (slice_exists pc2 0 writesize) as (page & Hpg & _); [lia..|].
    eapply wp_lift; [exact Hpg|]. apply Hgo. eapply (device_io (fun _ => False)); [exact Hd|].
    exists (dev s), pc2. split_and!; [by destruct s|congruence|apply same_outside_refl].
Qed.

Lemma write_range_keeps s addr data mode :
  device_ok s -> 0 <= addr -> addr + zlen data < 2 ^ 64 -> wp (nmbm_write_range addr data mode) device_after s.
Proof.
  intros Hd Ha Hw. pose proof (zlen_nonneg data) as Hl. destruct (avail_bound s Hd) as [Hav Hba].
  unfold nmbm_write_range. wp_step. wp_step.
  destruct (Z.eqb_spec (protected s) 0); cbn [negb]; [|by wp_step]. wp_step. wp_step. rewrite Hba, u64_small by lia.
  destruct (Z.leb_spec (avail s) addr); [by wp_step|]. destruct (Z.ltb_spec (avail s) (addr + zlen data)); [by wp_step|].
  destruct (Z.eqb_spec (zlen data) 0); [by wp_step|].
  apply (wp_iter (fun x s1 => fst x = addr + snd x /\ 0 <= snd x <= zlen data /\ device_ok s1)
           (fun x _ => Z.to_nat (zlen data - snd x))); cycle 1.
  { cbn. split_and!; [lia..|done]. }
  { cbn. unfold zlen. lia. }
  intros [off pos] s1 (E & Hpos & Hd1). cbn in *. subst off.
  eapply wp_conseq; [apply (write_round_keeps s1 addr data mode pos); [done|done|lia|done]|].
  intros [[off' pos']|y] s2; cbn; [intros (Hd2 & -> & Hlt)|by intros []]. split; [|lia]. split_and!; [lia..|done].
Qed.

Lemma read_page_keeps s addr data oob mode :
  device_ok s -> 0 <= addr -> (writesize | addr) -> wp (nmbm_read_single_page addr data oob mode) device_after s.
Proof.
  intros Hd Ha Hal. destruct (avail_bound s Hd) as [Hav Hba]. unfold nmbm_read_single_page. wp_step. wp_step.
  destruct (protected s =? 0); cbn [negb]; [|by wp_step]. wp_step. wp_step. rewrite Hba.
  destruct (Z.leb_spec (avail s) addr); [by wp_step|].
  apply read_logic_page_ok; [done|lia|done|]. by intros.
Qed.

Lemma write_page_keeps s addr data oob mode :
  device_ok s -> 0 <= addr -> (writesize | addr) -> wp (nmbm_write_single_page addr data oob mode) device_after s.
Proof.
  intros Hd Ha Hal. destruct (avail_bound s Hd) as [Hav Hba]. unfold nmbm_write_single_page. wp_step. wp_step.
  destruct (protected s =? 0); cbn [negb]; [|by wp_step]. wp_step. wp_step. rewrite Hba.
  destruct (Z.leb_spec (avail s) addr); [by wp_step|].
  apply write_logic_page_ok; [done|lia|done|]. by intros.
Qed.

Lemma check_bad_keeps s addr : device_ok s -> 0 <= addr -> wp (nmbm_check_bad_block addr) device_after s.
Proof.
  intros Hd Ha. destruct (avail_bound s Hd) as [Hav Hba]. unfold nmbm_check_bad_block. wp_step. wp_step. rewrite Hba.
  destruct (Z.leb_spec (avail s) addr); [by wp_step|]. destruct (addr_block s addr Hd) as (_ & Hb & _); [lia|].
  wp_step. apply get_mapping_ok; [done|done|]. intros pb Hpb Hpr. destruct (Z.ltb_spec pb 0); [by wp_step|].
  wp_step. apply wp_get_block_state; [apply Hd|lia|]. by destruct (_ =? _); wp_step.
Qed.

Lemma mark_bad_keeps s addr : device_ok s -> 0 <= addr -> wp (nmbm_mark_bad_block addr) device_after s.
Proof.
  intros Hd Ha. destruct (avail_bound s Hd) as [Hav Hba]. unfold nmbm_mark_bad_block. wp_step. wp_step. rewrite Hba.
  destruct (Z.leb_spec (avail s) addr); [by wp_step|]. destruct (addr_block s addr Hd) as (_ & Hb & _); [lia|].
  wp_step. apply get_mapping_ok; [done|done|]. intros pb Hpb Hpr. destruct (Z.ltb_spec pb 0); [by wp_step|].
  unfold set_mapping. do 4 wp_step.
  eapply wp_lift; [apply zset_some; rewrite (ok_map_len s); [done|apply Hd]|]. wp_step.
  assert (Hd1 : device_ok (s <| block_mapping := <[Z.to_nat (addr2ba addr) := -1]> (block_mapping s) |>)).
  { apply device_set_mapping; [done|]. pose proof (dev_count s Hd). lia. }
  wp_step. apply mark_bad_ok; [apply Hd1|lia|]. intros r s2 Hio.
  apply mark_and_update_ok; [by eapply device_io|lia|unfold BLOCK_ST_BAD; lia|]. by intros.
Qed.

#[local] Hint Resolve erase_range_keeps read_range_keeps write_range_keeps read_page_keeps write_page_keeps
  check_bad_keeps mark_bad_keeps : core.

Lemma run_call_keeps s c : device_ok s -> call_wf c -> wp (run_call c) device_after s.
Proof.
  intros Hd Hc. destruct c; cbn in *; destruct_and?; try wp_step; eauto.
  all: eapply wp_conseq; [eauto|]; cbv beta; intros; by repeat case_match; apply wp_ret.
Qed.

Lemma run_calls_keep s cs :
  device_ok s -> Forall call_wf cs -> wp (run_calls cs) (fun rs s' => length rs = length cs /\ device_ok s') s.
Proof.
  intros Hd Hc. revert s Hd. induction Hc as [|c cs Hc Hcs IH]; intros s Hd; cbn [run_calls]; [by apply wp_ret|].
  wp_step. eapply wp_conseq; [by apply run_call_keeps|]. cbv beta. intros r s1 Hd1. wp_step.
  eapply wp_conseq; [by apply IH|]. cbv beta. intros rs s2 [Hl Hd2]. apply wp_ret. cbn. by rewrite Hl.
Qed.

End KeepDevice.
