(* ===== verification/NmbmAttach.v ===== *)
(** * NMBM: creating, loading and attaching

    The second half of the set-up path of drivers/mtd/nmbm/nmbm-core.c: from
    [nmbm_create_new] to [nmbm_detach]. *)

From stdpp Require Import base numbers list.
From Stdlib Require Import ZArith Lia.
From S2P Require Import Prelude IntLib Crc32 NmbmTypes NmbmPhys NmbmState NmbmTable.

Section Attach.
Context {D : Type} {L : nmbm_lower_device D}.
Local Abbreviation NM := (M (nmbm_instance D)).

(** [nmbm_check_lower_members] replaces a ratio of 0 by 1 in the structure
    the instance then copies. *)
Definition lower_max_ratio : Z := if max_ratio =? 0 then 1 else max_ratio.

Definition nmbm_check_lower_members : bool :=
  if (nld_size =? 0) || negb (is_power_of_2_u64 nld_size) then false
  else if (erasesize =? 0) || negb (is_power_of_2 erasesize) then false
  else if (writesize =? 0) || negb (is_power_of_2 writesize) then false
  else if (oobsize =? 0) || negb (is_power_of_2 oobsize) then false
  else if negb has_required_ops then false
  else if NMBM_MGMT_DIV - 1 <=? lower_max_ratio then false
  else if negb (max_reserved_blocks =? 0) && (max_reserved_blocks <? NMBM_MGMT_BLOCKS_MIN)
       then false
  else true.

(** ** A new chip *)

(** "Determine the boundary of management blocks". *)
Definition create_mgmt_start : Z :=
  let start := u32 (block_count * (NMBM_MGMT_DIV - lower_max_ratio)) / NMBM_MGMT_DIV in
  if negb (max_reserved_blocks =? 0) && (max_reserved_blocks <? u32 (block_count - start))
  then u32 (block_count - max_reserved_blocks)
  else start.

(** The signature [nmbm_create_new] fills in, before its checksum. *)
Definition new_signature (old : nmbm_signature) (mgmt_start : Z) : nmbm_signature :=
  mkSignature
    (mkHeader NMBM_MAGIC_SIGNATURE NMBM_VER sizeof_signature (h_checksum (sig_header old)))
    nld_size erasesize writesize oobsize mgmt_start (u8 (Z.of_nat NMBM_TRY_COUNT))
    (sig_padding old) (sig_tail old).

(** [nmbm_create_new]. *)
Definition nmbm_create_new : NM bool :=
  mgmt_start_ba ::= create_mgmt_start;;
  nmbm_scan_badblocks;;
  nmbm_build_mapping_table;;
  do old <- gets signature;
  do start <- gets mgmt_start_ba;
  do bytes <- lift (nmbm_update_checksum (signature_bytes (new_signature old start)));
  signature ::= signature_of_bytes bytes;;
  do sig <- gets signature;
  do r <- nmbm_write_signature start (signature_bytes sig);
  match r with
  | None => ret false
  | Some sba => signature_ba ::= sba;; nmbm_create_info_table
  end.

(** ** Loading tables *)

(** [nmbm_check_info_table_header]; the subtractions are on [uint32_t]. *)
Definition nmbm_check_info_table_header (data : list Z) : bool :=
  let t := info_table_header_of_bytes data in
  if negb (h_magic (it_header t) =? NMBM_MAGIC_INFO_TABLE) then false
  else if negb (h_size (it_header t) =? info_table_size) then false
  else if u32 (mapping_table_off t - state_table_off t) <? state_table_size then false
  else if u32 (info_table_size - mapping_table_off t) <? mapping_table_size then false
  else true.

(** The [uint32_t] array a table offset points to. *)
Definition words_at (data : list Z) (off : Z) : list Z := le_words (drop (Z.to_nat off) data).

(** [nmbm_check_info_table]: [Some] of [*mapping_blocks_top_ba], or [None].
    The comparisons of mapping entries are unsigned. *)
Definition check_mapping_body (end_ba : Z) (mapping : list Z) (x : Z * Z) : NM (Z * Z + option Z) :=
  let '(ba, minimum) := x in
  do count <- gets data_block_count;
  if ba <? count then
    do pb <- lift (znth mapping ba);
    do sba <- gets signature_ba;
    if ((count <=? pb) && (pb <? end_ba)) || (pb =? sba) then ret (inr None)
    else
      let minimum := if (end_ba <=? pb) && (pb <? minimum) then pb else minimum in
      ret (inl (u32 (ba + 1), minimum))
  else ret (inr (Some minimum)).

Definition check_states_body (end_ba : Z) (states : list Z) (ba : Z) : NM (Z + bool) :=
  if ba <? end_ba then
    do st <- nmbm_get_block_state ba;
    if negb (st =? BLOCK_ST_GOOD) then ret (inl (u32 (ba + 1)))
    else
      do raw <- lift (nmbm_get_block_state_raw states ba);
      if negb (raw =? BLOCK_ST_GOOD) then ret (inr false) else ret (inl (u32 (ba + 1)))
  else ret (inr true).

Definition nmbm_check_info_table (start_ba end_ba : Z) (data : list Z) : NM (option Z) :=
  let t := info_table_header_of_bytes data in
  let mapping := words_at data (mapping_table_off t) in
  let states := words_at data (state_table_off t) in
  do sba <- gets signature_ba;
  do count <- gets data_block_count;
  do m <- iter (S (Z.to_nat count)) (check_mapping_body end_ba mapping) (0, sba);
  match m with
  | None => ret None
  | Some minimum_mapping_pb =>
      do ok <- iter (S (Z.to_nat (end_ba - start_ba))) (check_states_body end_ba states) start_ba;
      if ok : bool then ret (Some (u32 (minimum_mapping_pb - 1))) else ret None
  end.

(** [nmbm_try_load_info_table].  The loop reads the table block by block
    into the cache; it returns [Some (start_ba, ba)] when all is read. *)
Definition try_load_body (limit : Z) (x : Z * Z * Z * bool) :
    NM (Z * Z * Z * bool + option (Z * Z)) :=
  let '(ba, pos, start_ba, checkhdr) := x in
  let sizeremain := info_table_size - pos in
  if negb (sizeremain =? 0) && (ba <? limit) then
    do st <- nmbm_get_block_state ba;
    if negb (st =? BLOCK_ST_GOOD) then ret (inl (u32 (ba + 1), pos, start_ba, checkhdr))
    else
      do bad <- nmbm_check_bad_phys_block ba;
      if bad : bool then
        nmbm_set_block_state ba BLOCK_ST_BAD;;
        ret (inl (u32 (ba + 1), pos, start_ba, checkhdr))
      else
        let chunksize := if sizeremain >? erasesize then erasesize else sizeremain in
        do cache <- gets info_table_cache;
        do buf <- lift (slice cache pos chunksize);
        do '(r, buf) <- nmbn_read_data (ba2addr ba) buf;
        do cache <- gets info_table_cache;
        do cache <- lift (splice cache pos buf);
        info_table_cache ::= cache;;
        if r <? 0 then
          nmbm_set_block_state ba BLOCK_ST_BAD;;
          ret (inl (u32 (ba + 1), pos, start_ba, checkhdr))
        else if 0 <? r then ret (inr None)
        else if checkhdr && negb (nmbm_check_info_table_header buf) then ret (inr None)
        else ret (inl (u32 (ba + 1), pos + chunksize, if checkhdr then ba else start_ba, false))
  else if negb (sizeremain =? 0) then ret (inr None)
  else ret (inr (Some (start_ba, ba))).

(** Take over the tables in the cache. *)
Definition adopt_table : NM unit :=
  do cache <- gets info_table_cache;
  let t := info_table_header_of_bytes cache in
  info_table ::= t;;
  do states <- lift (slice cache (state_table_off t) state_table_size);
  block_state ::= le_words states;;
  do mapping <- lift (slice cache (mapping_table_off t) mapping_table_size);
  block_mapping ::= map i32 (le_words mapping).

(** [Some (eba, write_count, mapping_blocks_top_ba)] when a table was found. *)
Definition nmbm_try_load_info_table (ba : Z) (table_loaded : bool) : NM (option (Z * Z * Z)) :=
  let limit := u32 (ba + size2blk info_table_size) in
  do r <- iter (S (Z.to_nat (limit - ba))) (try_load_body limit) (ba, 0, 0, true);
  match r with
  | None => ret None
  | Some (start_ba, eba) =>
      do cache <- gets info_table_cache;
      do valid <- lift (nmbm_check_header cache info_table_size);
      if negb valid then ret None
      else
        let wc := write_count (info_table_header_of_bytes cache) in
        do top <- nmbm_check_info_table start_ba eba cache;
        match top with
        | None => ret None
        | Some top =>
            do it <- gets info_table;
            (if negb table_loaded || (write_count it <? wc) then adopt_table else ret tt);;
            ret (Some (eba, wc, top))
        end
  end.

(** [nmbm_search_info_table]: also returns [*table_start_ba]. *)
Definition search_body (limit : Z) (table_loaded : bool) (ba : Z) :
    NM (Z + option (Z * (Z * Z * Z))) :=
  if ba <? u32 (limit - size2blk info_table_size) then
    do r <- nmbm_try_load_info_table ba table_loaded;
    match r with
    | Some t => ret (inr (Some (ba, t)))
    | None => ret (inl (u32 (ba + 1)))
    end
  else ret (inr None).

Definition nmbm_search_info_table (ba limit : Z) (table_loaded : bool) :
    NM (option (Z * (Z * Z * Z))) :=
  iter (S (Z.to_nat (u32 (limit - size2blk info_table_size) - ba)))
    (search_body limit table_loaded) ba.

(** "Set final data_block_count": drop unmapped logic blocks at the end. *)
Definition data_count_body (i : Z) : NM (Z + unit) :=
  if 0 <? i then
    do bm <- gets block_mapping;
    do pb <- lift (znth bm (i - 1));
    if 0 <=? pb then data_block_count ::= i;; ret (inr tt) else ret (inl (u32 (i - 1)))
  else ret (inr tt).

(** The end of [nmbm_load_info_table]: bring both tables to the same state.
    (The loops before it only colour the debug map.) *)
Definition repair_tables (main_write_count backup_write_count : Z) : NM bool :=
  nmbm_generate_info_table_cache;;
  do backup <- gets backup_table_ba;
  do success <-
    (if backup =? 0 then nmbm_rescue_single_info_table
     else if negb (main_write_count =? backup_write_count) then
       block_state_changed ::= 1;;
       block_mapping_changed ::= 1;;
       nmbm_update_single_info_table (main_write_count <? backup_write_count)
     else ret true);
  do low <- gets mapping_blocks_ba;
  do top <- gets mapping_blocks_top_ba;
  (if low =? top then protected ::= 1
   else if negb success then protected ::= 1
   else ret tt);;
  ret true.

(** [nmbm_load_info_table]. *)
Definition nmbm_load_info_table (ba limit : Z) : NM bool :=
  main_table_ba ::= 0;;
  backup_table_ba ::= 0;;
  do it <- gets info_table;
  info_table ::= mkInfoHeader (it_header it) 0 (state_table_off it) (mapping_table_off it) (it_padding it);;
  do sba <- gets signature_ba;
  mapping_blocks_top_ba ::= u32 (sba - 1);;
  do sig <- gets signature;
  data_block_count ::= sig_mgmt_start_pb sig;;
  do r <- nmbm_search_info_table ba limit false;
  match r with
  | None => ret false
  | Some (main_ba, (main_end, main_wc, main_top)) =>
      main_table_ba ::= main_ba;;
      do r <- nmbm_search_info_table main_end limit true;
      do '(table_end_ba, backup_wc, backup_top) <-
        match r with
        | None => ret (main_end, 0, 0)
        | Some (backup_ba, t) => backup_table_ba ::= backup_ba;; ret t
        end;
      do backup <- gets backup_table_ba;
      mapping_blocks_top_ba ::=
        (if backup =? 0 then main_top
         else if backup_wc <=? main_wc then main_top else backup_top);;
      mapping_blocks_ba ::= table_end_ba;;
      iter (S (Z.to_nat (sig_mgmt_start_pb sig))) data_count_body (sig_mgmt_start_pb sig);;
      repair_tables main_wc backup_wc
  end.

(** [nmbm_load_existing]. *)
Definition nmbm_load_existing : NM bool :=
  do sig <- gets signature;
  mgmt_start_ba ::= sig_mgmt_start_pb sig;;
  do sba <- gets signature_ba;
  do loaded <- nmbm_load_info_table (sig_mgmt_start_pb sig) sba;
  if loaded : bool then ret true
  else if Z.land flags NMBM_F_CREATE =? 0 then ret false
  else
    nmbm_scan_badblocks;;
    nmbm_build_mapping_table;;
    nmbm_create_info_table.

(** ** Finding the signature *)

(** [limit] of [nmbm_find_signature]. *)
Definition find_limit : Z :=
  let limit := u32 (block_count / NMBM_MGMT_DIV * (NMBM_MGMT_DIV - lower_max_ratio)) in
  if negb (max_reserved_blocks =? 0) && (max_reserved_blocks <? u32 (block_count - limit))
  then u32 (block_count - max_reserved_blocks)
  else limit.

(** One page of a candidate block. *)
Definition find_page_body (addr off : Z) : NM (Z + option (list Z)) :=
  if off <? erasesize then
    do '(r, sig) <- nmbn_read_data (u64 (addr + off)) (fill 0 sizeof_signature);
    if negb (r =? 0) then ret (inl (u64 (off + writesize)))
    else
      do valid <- lift (nmbm_check_header sig sizeof_signature);
      if negb valid then ret (inl (u64 (off + writesize)))
      else if h_magic (header_of_bytes sig) =? NMBM_MAGIC_SIGNATURE then ret (inr (Some sig))
      else ret (inl (u64 (off + writesize)))
  else ret (inr None).

Definition find_signature_body (ba : Z) : NM (Z + option (nmbm_signature * Z)) :=
  if find_limit <=? ba then
    let ba := u32 (ba - 1) in
    do bad <- nmbm_check_bad_phys_block ba;
    if bad : bool then ret (inl ba)
    else
      do r <- iter (S (Z.to_nat pages_per_block)) (find_page_body (ba2addr ba)) 0;
      match r with
      | Some sig => ret (inr (Some (signature_of_bytes sig, ba)))
      | None => ret (inl ba)
      end
  else ret (inr None).

(** [nmbm_find_signature]. *)
Definition nmbm_find_signature : NM (option (nmbm_signature * Z)) :=
  iter (Z.to_nat block_count + 2) find_signature_body block_count.

(** ** Attaching *)

(** [nmbm_init_structure]: [mem] is the memory that follows the instance
    structure; the info table cache, the state table, the mapping table and
    the page buffer are laid out in it in this order. *)
Definition nmbm_init_structure (mem : list Z) : NM unit :=
  do cache <- lift (slice mem 0 info_table_size);
  let off := info_table_size in
  do _ <- lift (slice mem off state_table_size);
  let off := off + state_table_size in
  do mapping <- lift (slice mem off mapping_table_size);
  let off := off + mapping_table_size in
  do pc <- lift (slice mem off rawpage_size);
  do it <- gets info_table;
  info_table ::= mkInfoHeader (it_header it) (write_count it) init_state_table_off
                   init_mapping_table_off (it_padding it);;
  info_table_cache ::= cache;;
  block_mapping ::= map i32 (le_words mapping);;
  page_cache ::= pc;;
  block_state_changed ::= 0;;
  block_state ::= le_words (fill 0xff state_table_size);;
  block_mapping_changed ::= 0.

(** [nmbm_attach], for non-NULL arguments. *)
Definition nmbm_attach (mem : list Z) : NM Z :=
  log_display_level ::= NMBM_DEFAULT_LOG_LEVEL;;
  if negb nmbm_check_lower_members then ret (- EINVAL)
  else
    nmbm_init_structure mem;;
    do found <- nmbm_find_signature;
    match found with
    | None =>
        if Z.land flags NMBM_F_CREATE =? 0 then ret (- ENODEV)
        else
          do success <- nmbm_create_new;
          if success : bool then ret 0 else ret (- ENODEV)
    | Some (sig, sba) =>
        signature ::= sig;;
        signature_ba ::= sba;;
        if negb (h_version (sig_header sig) =? NMBM_VER) then ret (- EINVAL)
        else if negb (sig_nand_size sig =? nld_size) || negb (sig_block_size sig =? erasesize) ||
                negb (sig_page_size sig =? writesize) || negb (sig_spare_size sig =? oobsize)
        then ret (- EINVAL)
        else
          do success <- nmbm_load_existing;
          if success : bool then ret 0 else ret (- ENODEV)
    end.

(** [nmbm_detach]. *)
Definition nmbm_detach : NM Z :=
  nmbm_update_info_table;;
  ret 0.

End Attach.
