(* ===== verification/NmbmLoad.v ===== *)
(** * NMBM: reading a saved table back

    [nmbm_try_load_info_table] restores what [nmbm_generate_info_table_cache]
    put into an image, when the image lies in consecutive blocks that are
    readable and not marked bad. *)

From stdpp Require Import base numbers list.
From Stdlib Require Import ZArith Lia.
From S2P Require Import Prelude IntLib Crc32 NmbmTypes NmbmPhys NmbmState NmbmNand NmbmTable NmbmMgmt NmbmImage NmbmUpdate NmbmAttach.

#[local] Opaque nmbm_crc32 crc_ref le_bytes le_value nmbm_check_header.

(** ** Words of an image *)

Lemma le_words_app ws rest :
  Forall (fun w => 0 <= w < 2 ^ 32) ws -> le_words (words_bytes ws ++ rest) = ws ++ le_words rest.
Proof.
  induction 1 as [|w ws Hw Hws IH]; [done|]. cbn [words_bytes flat_map]. fold (words_bytes ws).
  rewrite <- app_assoc.
  change (le_words (le_bytes 4 w ++ words_bytes ws ++ rest))
    with (le_value (le_bytes 4 w) :: le_words (words_bytes ws ++ rest)).
  rewrite IH, le_value_le_bytes. simpl. f_equal. apply Z.mod_small. lia.
Qed.

Lemma words_at_image img off n ws :
  slice img off n = Some (words_bytes ws) -> Forall (fun w => 0 <= w < 2 ^ 32) ws ->
  forall i, 0 <= i < zlen ws -> znth (words_at img off) i = znth ws i.
Proof.
  intros (H0 & Hn & Hl & E)%slice_inv Hw i Hi. unfold words_at.
  rewrite <- (take_drop (Z.to_nat n) (drop (Z.to_nat off) img)), <- E, le_words_app by done.
  unfold znth, zlen in *. destruct (Z.ltb_spec i 0); [done|]. apply lookup_app_l. lia.
Qed.

Lemma u32_is_u32 (l : list Z) : Forall (fun w => 0 <= w < 2 ^ 32) (map u32 l).
Proof. apply Forall_map, Forall_true. intros x. apply u32_range. Qed.

Lemma map_i32_u32 l : Forall (fun p => - 2 ^ 31 <= p < 2 ^ 31) l -> map i32 (map u32 l) = l.
Proof.
  induction 1 as [|x l Hx Hl IH]; [done|]. simpl. rewrite IH. f_equal. rewrite i32_u32. by apply i32_small.
Qed.

Lemma znth_map {A B} (f : A -> B) l i : znth (map f l) i = f <$> znth l i.
Proof. unfold znth. destruct (i <? 0); [done|]. apply list_lookup_fmap. Qed.

Section Load.
Context {D : Type} {L : nmbm_lower_device D} {P : NandModel D}.
Context {GO : geometry_ok L} {NL : nand_laws L P}.
Implicit Types s : nmbm_instance D.

(** The tables as saved: what [buffers_ok] says of the arrays. *)
Record tables_wf (bs bm : list Z) : Prop := {
  tw_state : Forall (fun w => 0 <= w < 2 ^ 32) bs;
  tw_state_len : 4 * zlen bs = state_table_size;
  tw_map : Forall (fun p => - 2 ^ 31 <= p < 2 ^ 31) bm;
  tw_map_len : zlen bm = block_count
}.

(** Adopting an image restores the tables it was made from. *)
Lemma adopt_image_ok s t bs bm Q :
  table_image t bs bm (info_table_cache s) -> tables_wf bs bm ->
  (Q tt (s <| info_table := info_table_header_of_bytes (info_table_cache s) |>
           <| block_state := bs |> <| block_mapping := bm |>)) ->
  wp adopt_table Q s.
Proof.
  intros Hi Hw HQ. unfold adopt_table. wp_steps. rewrite (img_state_off _ _ _ _ Hi), (img_mapping_off _ _ _ _ Hi).
  eapply wp_lift; [apply Hi|]. wp_steps. eapply wp_lift; [apply Hi|]. wp_steps.
  rewrite !le_words_words_bytes, map_i32_u32 by (apply Hw || apply u32_is_u32). exact HQ.
Qed.

(** ** [nmbm_check_info_table] *)

(** Lowest block, not below [e], that one of the first [n] entries maps to,
    if it is below [sba]. *)
Definition lowest (bm : list Z) e sba n m : Prop :=
  m <= sba /\
  (forall lb p, 0 <= lb < n -> znth bm lb = Some p -> e <= u32 p -> m <= u32 p) /\
  (m = sba \/ exists lb p, 0 <= lb < n /\ znth bm lb = Some p /\ e <= u32 p /\ u32 p = m).

(** The conditions the check puts on a table that occupies [[start, e)). *)
Record table_fits s start e (bs bm : list Z) : Prop := {
  fit_mapping lb p : 0 <= lb < data_block_count s -> znth bm lb = Some p ->
    ~ (data_block_count s <= u32 p < e) /\ u32 p <> signature_ba s;
  fit_states b : start <= b < e -> good (block_state s) b -> good bs b
}.

Lemma lowest_step bm e sba n m p :
  lowest bm e sba n m -> 0 <= n -> znth bm n = Some p ->
  lowest bm e sba (n + 1) (if (e <=? u32 p) && (u32 p <? m) then u32 p else m).
Proof.
  intros (H1 & H2 & H3) Hn Hp. destruct (Z.leb_spec e (u32 p)), (Z.ltb_spec (u32 p) m); simpl.
  1: split_and!; [lia| |right; exists n, p; split_and!; (done || lia)].
  2-4: split_and!; [lia| |destruct H3 as [?|(lb & q & ? & ? & ?)]; [by left|right; exists lb, q; split; [lia|done]]].
  all: intros lb q Hlb Hq Hle; destruct (decide (lb = n)) as [->|Hne];
    [rewrite Hp in Hq; injection Hq as <-; lia|].
  all: pose proof (H2 lb q ltac:(lia) Hq Hle); lia.
Qed.

Lemma check_mapping_ok s t bs bm img e Q :
  table_image t bs bm img -> tables_wf bs bm -> 0 <= data_block_count s <= block_count ->
  (forall lb p, 0 <= lb < data_block_count s -> znth bm lb = Some p ->
    ~ (data_block_count s <= u32 p < e) /\ u32 p <> signature_ba s) ->
  (forall m, lowest bm e (signature_ba s) (data_block_count s) m -> Q (Some m) s) ->
  wp (iter (S (Z.to_nat (data_block_count s)))
        (check_mapping_body e (words_at img (mapping_table_off t))) (0, signature_ba s)) Q s.
Proof.
  intros Hi Hw Hc Hf HQ. geometry.
  assert (Hmap : forall i p, znth bm i = Some p -> znth (words_at img (mapping_table_off t)) i = Some (u32 p)).
  { intros i p Hp. pose proof (znth_bounds _ _ _ Hp).
    rewrite (words_at_image _ _ _ _ (img_mapping _ _ _ _ Hi) (u32_is_u32 bm)).
    - by rewrite znth_map, Hp.
    - unfold zlen in *. by rewrite length_map. }
  apply (wp_iter (fun x s1 => s1 = s /\ 0 <= fst x <= data_block_count s /\
                    lowest bm e (signature_ba s) (fst x) (snd x))
    (fun x _ => Z.to_nat (data_block_count s - fst x))); cycle 1.
  { split_and!; simpl; try lia; [done|]. split_and!; [lia|intros; lia|by left]. }
  { simpl. lia. }
  intros [b m] s1 (-> & Hbr & Hm). simpl in *. unfold check_mapping_body. wp_step. wp_step.
  destruct (Z.ltb_spec b (data_block_count s)) as [Hlt|Hge]; cycle 1.
  { wp_step. assert (b = data_block_count s) as -> by lia. by apply HQ. }
  pose proof (tw_map_len _ _ Hw) as Hml. destruct (znth_some bm b) as [p Hp]; [lia|].
  wp_step. eapply wp_lift; [by apply Hmap|]. wp_step. wp_step.
  destruct (Hf b p) as [Hf1 Hf2]; [lia|done|].
  destruct (Z.leb_spec (data_block_count s) (u32 p)), (Z.ltb_spec (u32 p) e),
    (Z.eqb_spec (u32 p) (signature_ba s)); simpl; try lia; wp_step; rewrite (u32_small (b + 1)) by lia.
  all: (split; [split_and!; simpl; try lia; [done|]|simpl; lia]).
  all: match goal with |- lowest _ _ _ _ ?m' =>
         replace m' with (if (e <=? u32 p) && (u32 p <? m) then u32 p else m) end;
       [by apply lowest_step; [|lia|]|].
  all: destruct (Z.leb_spec e (u32 p)); try lia; done.
Qed.

Lemma check_states_ok s t bs bm img start e Q :
  buffers_ok s -> table_image t bs bm img -> tables_wf bs bm -> 0 <= start -> e <= block_count ->
  (forall b, start <= b < e -> good (block_state s) b -> good bs b) ->
  Q true s ->
  wp (iter (S (Z.to_nat (e - start)))
        (check_states_body e (words_at img (state_table_off t))) start) Q s.
Proof.
  intros Hb Hi Hw Hs He Hf HQ. geometry.
  assert (Hraw : forall b, 0 <= b < block_count ->
    nmbm_get_block_state_raw (words_at img (state_table_off t)) b = Some (state_of bs b)).
  { intros b Hbb. pose proof (tw_state_len _ _ Hw) as Hl. destruct state_table_size_spec as [_ Hss].
    rewrite <- get_raw_some by lia. unfold nmbm_get_block_state_raw.
    change NMBM_BITMAP_BLOCKS_PER_UNIT with 16. f_equal.
    apply (words_at_image _ _ _ _ (img_states _ _ _ _ Hi)); [apply Hw|].
    split; [apply Z.div_pos; lia|apply Z.div_lt_upper_bound; lia]. }
  apply (wp_iter (fun x s1 => s1 = s /\ start <= x <= Z.max start e)
      (fun x _ => Z.to_nat (e - x))); [|split; [done|lia]|lia].
  intros b s1 (-> & Hb1). unfold check_states_body.
  destruct (Z.ltb_spec b e); [|by wp_step].
  wp_step. apply wp_get_block_state; [done|lia|]. rewrite u32_small by lia.
  destruct (Z.eqb_spec (state_of (block_state s) b) BLOCK_ST_GOOD) as [Eg|Eg]; cbn [negb];
    [|wp_step; split; [split; [done|lia]|lia]].
  wp_step. eapply wp_lift; [apply Hraw; lia|]. rewrite (Hf b ltac:(lia) Eg), Z.eqb_refl. cbn [negb].
  wp_step. split; [split; [done|lia]|lia].
Qed.

Lemma check_info_table_ok s t bs bm img start e Q :
  buffers_ok s -> table_image t bs bm img -> tables_wf bs bm ->
  0 <= data_block_count s <= block_count -> 0 <= start -> e <= block_count ->
  table_fits s start e bs bm ->
  (forall m, lowest bm e (signature_ba s) (data_block_count s) m -> Q (Some (u32 (m - 1))) s) ->
  wp (nmbm_check_info_table start e img) Q s.
Proof.
  intros Hb Hi Hw Hc Hs He Hf HQ. unfold nmbm_check_info_table.
  rewrite (img_state_off _ _ _ _ Hi), (img_mapping_off _ _ _ _ Hi). wp_steps.
  apply (check_mapping_ok _ _ _ _ _ _ _ Hi Hw); [done|apply Hf|]. intros m Hm. wp_step.
  apply (check_states_ok _ _ _ _ _ _ _ _ Hb Hi Hw); [done|done|apply Hf|]. wp_step. by apply HQ.
Qed.

(** ** [nmbm_try_load_info_table] *)

(** The chip driver does not report the block as bad. *)
Definition unmarked (b : Z) : Prop :=
  exists f, is_bad_block = Some f /\ forall d, snd (f d (ba2addr b)) = 0.

Lemma check_bad_unmarked s b Q :
  unmarked b -> (forall d', same_outside (fun _ => False) (dev s) d' -> Q false (s <| dev := d' |>)) ->
  wp (nmbm_check_bad_phys_block b) Q s.
Proof.
  intros (f & Ef & Hf) HQ. unfold nmbm_check_bad_phys_block. rewrite Ef. wp_step. wp_step.
  destruct (f (dev s) (ba2addr b)) as [d' r] eqn:E. wp_step. wp_step. wp_step.
  pose proof (Hf (dev s)) as Hr. rewrite E in Hr. simpl in Hr. subst r. simpl. apply HQ.
  by eapply law_is_bad.
Qed.

(** Loading changes the page buffer and the table cache, and no page. *)
Definition load_step s s' : Prop :=
  exists d pc c, s' = s <| dev := d |> <| page_cache := pc |> <| info_table_cache := c |> /\
    zlen pc = zlen (page_cache s) /\ zlen c = zlen (info_table_cache s) /\
    same_outside (fun _ => False) (dev s) d.

Lemma load_step_refl s : load_step s s.
Proof. exists (dev s), (page_cache s), (info_table_cache s). split_and!; [by destruct s|done..]. Qed.

Lemma load_step_trans s1 s2 s3 : load_step s1 s2 -> load_step s2 s3 -> load_step s1 s3.
Proof.
  intros (d & pc & c & -> & H1 & H2 & H3) (d' & pc' & c' & -> & H1' & H2' & H3'). simpl in *.
  exists d', pc', c'. split_and!; [done|congruence..|]. by eapply same_outside_trans.
Qed.

Lemma load_step_io s s' : io_step (fun _ => False) s s' -> load_step s s'.
Proof. intros (d & pc & -> & H1 & H2). exists d, pc, (info_table_cache s). by destruct s. Qed.

Lemma load_step_cache s c : zlen c = zlen (info_table_cache s) -> load_step s (s <| info_table_cache := c |>).
Proof. intros Hc. exists (dev s), (page_cache s), c. by destruct s. Qed.

Lemma load_step_inv s s' : load_step s s' -> buffers_ok s ->
  buffers_ok s' /\ block_state s' = block_state s /\ same_outside (fun _ => False) (dev s) (dev s').
Proof.
  intros (d & pc & c & -> & H1 & H2 & H3) []. split; [|done]. constructor; simpl; congruence.
Qed.

(** The first bytes of an image pass the header check. *)
Lemma image_header_ok t bs bm img buf :
  table_image t bs bm img -> offsets_ok t -> info_header_wf t ->
  32 <= zlen buf -> (forall i, 0 <= i < zlen buf -> znth buf i = znth img i) -> zlen buf <= zlen img ->
  nmbm_check_info_table_header buf = true.
Proof.
  intros Hi Ho Hwf Hl Hpre Hle. destruct info_table_layout as (_ & _ & _ & Hsz & _).
  assert (Hg : forall off, (off + 4 <= 32)%nat -> get_le 4 off buf = get_le 4 off img).
  { intros off Hoff. apply get_le_ext; [|lia].
    destruct (slice_exists buf (Z.of_nat off) (Z.of_nat 4)) as (d1 & E1 & L1); [lia..|].
    destruct (slice_exists img (Z.of_nat off) (Z.of_nat 4)) as (d2 & E2 & L2); [lia..|].
    rewrite E1, E2. f_equal. apply znth_ext; [lia|]. intros i Hx.
    rewrite (znth_slice _ _ _ _ i E1), (znth_slice _ _ _ _ i E2) by lia. apply Hpre. lia. }
  assert (E : info_table_header_of_bytes buf = info_table_header_of_bytes img).
  { unfold info_table_header_of_bytes, header_of_bytes. by rewrite !Hg by lia. }
  unfold nmbm_check_info_table_header. rewrite E. destruct Hi, Ho, Hwf.
  change (it_header (info_table_header_of_bytes img)) with (header_of_bytes img).
  unfold is_u32, sizeof_info_table_header in *.
  rewrite img_magic, img_size, img_state_off, img_mapping_off, !Z.eqb_refl. cbn [negb].
  destruct state_table_size_spec as [Hs0 Hs1]. pose proof mapping_table_size_spec. geometry.
  rewrite !u32_small by lia.
  destruct (Z.ltb_spec (mapping_table_off t - state_table_off t) state_table_size); [lia|].
  by destruct (Z.ltb_spec (info_table_size - mapping_table_off t) mapping_table_size); [lia|].
Qed.

(** Where a saved table lies and what a load needs of the blocks there. *)
Record saved_at s ba t (bs bm img : list Z) : Prop := {
  sv_image : table_image t bs bm img;
  sv_offsets : offsets_ok t;
  sv_header : info_header_wf t;
  sv_tables : tables_wf bs bm;
  sv_stored : stored (dev s) (ba * erasesize) img;
  sv_range : 0 <= ba /\ ba + size2blk info_table_size <= block_count;
  sv_good b : ba <= b < ba + size2blk info_table_size -> good (block_state s) b;
  sv_unmarked b : ba <= b < ba + size2blk info_table_size -> unmarked b;
  sv_reliable : reliable (ba * erasesize) info_table_size
}.

Lemma table_blocks :
  0 < info_table_size /\ info_table_size < 2 ^ 28 /\ 0 < size2blk info_table_size /\
  info_table_size <= size2blk info_table_size * erasesize < info_table_size + erasesize.
Proof.
  destruct info_table_layout as (H1 & H2 & H3 & H4 & _). unfold sizeof_info_table_header in H1.
  destruct state_table_size_spec as [Hs0 Hs1]. pose proof mapping_table_size_spec. geometry.
  destruct (size2blk_spec info_table_size) as [_ Hn]; [lia|]. split_and!; lia.
Qed.

Definition load_inv s ba (img : list Z) (x : Z * Z * Z * bool) s1 : Prop :=
  let '(b, pos, start, chk) := x in
  ba <= b <= ba + size2blk info_table_size /\ pos = Z.min ((b - ba) * erasesize) info_table_size /\
  chk = (b =? ba) /\ (ba < b -> start = ba) /\ load_step s s1 /\
  forall i, 0 <= i < pos -> znth (info_table_cache s1) i = znth img i.

(** The header at the start of a saved table is accepted. *)
Lemma saved_header_ok s ba t bs bm img buf :
  saved_at s ba t bs bm img -> zlen buf = Z.min erasesize info_table_size ->
  (forall i, 0 <= i < zlen buf -> znth buf i = znth img i) -> nmbm_check_info_table_header buf = true.
Proof.
  intros Hsv Hl Hbytes. geometry. destruct table_blocks as (Hsz0 & Hsz1 & Hn0 & Hn).
  destruct state_table_size_spec as [_ Hss]. pose proof mapping_table_size_spec.
  pose proof (img_len _ _ _ _ (sv_image _ _ _ _ _ _ Hsv)).
  apply (image_header_ok t bs bm img); try apply Hsv; try lia; [|done].
  destruct info_table_layout as (Hl1 & Hl2 & Hl3 & _). unfold sizeof_info_table_header in Hl1. lia.
Qed.

(** One block of the table: it is read and appended. *)
Lemma try_load_step s ba t bs bm img x s1 :
  buffers_ok s -> saved_at s ba t bs bm img -> load_inv s ba img x s1 ->
  wp (try_load_body (ba + size2blk info_table_size) x) (fun r s' =>
    match r with
    | inl x' => load_inv s ba img x' s' /\ fst (fst (fst x')) = fst (fst (fst x)) + 1 /\
                fst (fst (fst x')) <= ba + size2blk info_table_size
    | inr o => o = Some (ba, ba + size2blk info_table_size) /\ load_step s s' /\
               info_table_cache s' = img
    end) s1.
Proof.
  intros Hb Hsv. destruct x as [[[b pos] start] chk]. intros (Hbr & Hpos & -> & Hst & Hls & Hpre).
  destruct table_blocks as (Hsz0 & Hsz1 & Hn0 & Hn). geometry.
  destruct (load_step_inv _ _ Hls Hb) as (Hb1 & Ebs & Hpg). pose proof (ok_cache_len _ Hb1) as Hcl.
  pose proof (sv_range _ _ _ _ _ _ Hsv) as Hr. pose proof (img_len _ _ _ _ (sv_image _ _ _ _ _ _ Hsv)) as Hil.
  unfold try_load_body. destruct (Z.eqb_spec (info_table_size - pos) 0) as [E|E]; cbn [negb andb].
  { wp_step. assert (b = ba + size2blk info_table_size) as -> by nia.
    rewrite (Hst ltac:(lia)). split_and!; [done|done|]. apply znth_ext; [lia|].
    intros i Hi. apply Hpre. lia. }
  assert (Hblt : b < ba + size2blk info_table_size) by nia.
  destruct (Z.ltb_spec b (ba + size2blk info_table_size)); [|lia]. cbn [negb].
  assert (Ep : pos = (b - ba) * erasesize) by lia. assert (Hp0 : 0 <= pos < info_table_size) by nia.
  wp_step. apply wp_get_block_state; [done|lia|]. rewrite Ebs, (sv_good _ _ _ _ _ _ Hsv) by lia.
  rewrite Z.eqb_refl. cbn [negb]. wp_step. apply check_bad_unmarked; [apply (sv_unmarked _ _ _ _ _ _ Hsv); lia|].
  intros d2 Hs2. set (s2 := s1 <| dev := d2 |>).
  assert (Hls2 : load_step s s2).
  { eapply load_step_trans; [exact Hls|]. by apply load_step_io, io_step_dev. }
  destruct (load_step_inv _ _ Hls2 Hb) as (Hb2 & Ebs2 & Hpg2).
  set (chunk := if info_table_size - pos >? erasesize then erasesize else info_table_size - pos).
  assert (Hc : chunk = Z.min erasesize (info_table_size - pos)).
  { unfold chunk. destruct (Z.gtb_spec (info_table_size - pos) erasesize); lia. }
  wp_step. wp_step. wp_step. change (info_table_cache s2) with (info_table_cache s1).
  destruct (slice_exists (info_table_cache s1) pos chunk) as (buf & Hbuf & Hbl); [lia..|].
  eapply wp_lift; [exact Hbuf|]. wp_step. rewrite ba2addr_spec by lia.
  assert (Hbes : 0 <= b * erasesize /\ b * erasesize + erasesize <= 2 ^ 48) by nia.
  apply read_data_ok; [done|lia|lia|]. intros r buf' s3 Hio Hbl' Hok Hrel.
  assert (r = 0) as ->.
  { apply Hrel. intros i Hi. replace (b * erasesize + i) with (ba * erasesize + (pos + i)) by lia.
    apply (sv_reliable _ _ _ _ _ _ Hsv). lia. }
  specialize (Hok eq_refl).
  assert (Hbytes : forall i, 0 <= i < zlen buf' -> znth buf' i = znth img (pos + i)).
  { intros i Hi. rewrite (Hok i Hi), (sv_stored _ _ _ _ _ _ Hsv) by lia.
    replace (b * erasesize + i) with (ba * erasesize + (pos + i)) by lia.
    by eapply flash_byte_same; [exact Hpg2|]; tauto. }
  assert (Hls3 : load_step s s3) by (by eapply load_step_trans, load_step_io).
  assert (Ec3 : info_table_cache s3 = info_table_cache s1) by (by destruct Hio as (? & ? & -> & _)).
  wp_step. wp_step. rewrite Ec3.
  destruct (splice_exists (info_table_cache s1) pos buf') as (c' & Hsp & Hcl'); [lia..|].
  wp_step. eapply wp_lift; [exact Hsp|]. wp_step. wp_step. simpl.
  assert (Hls4 : load_step s (s3 <| info_table_cache := c' |>)).
  { eapply load_step_trans; [exact Hls3|]. apply load_step_cache. by rewrite Ec3. }
  assert (Hchk : (b =? ba) && negb (nmbm_check_info_table_header buf') = false).
  { destruct (Z.eqb_spec b ba) as [->|]; [|done]. simpl. apply negb_false_iff.
    eapply saved_header_ok; [done|lia|]. intros i Hi. rewrite Hbytes by done. f_equal. lia. }
  rewrite Hchk, (u32_small (b + 1)) by lia. wp_step. split; [|simpl; lia].
  unfold load_inv. split_and!; try lia.
  - intros _. destruct (Z.eqb_spec b ba); [done|]. apply Hst. lia.
  - done.
  - cbn [info_table_cache]. replace (pos + chunk) with (pos + zlen buf') by lia.
    apply (prefix_splice (znth img) (info_table_cache s1)); done.
Qed.

(** A saved table is found, passes the checks, and is taken over when no
    newer one was loaded before. *)
Lemma try_load_ok s ba t bs bm img loaded :
  buffers_ok s -> saved_at s ba t bs bm img -> 0 <= data_block_count s <= block_count ->
  table_fits s ba (ba + size2blk info_table_size) bs bm ->
  wp (nmbm_try_load_info_table ba loaded) (fun r s' =>
    exists m, lowest bm (ba + size2blk info_table_size) (signature_ba s) (data_block_count s) m /\
    r = Some (ba + size2blk info_table_size, write_count t, u32 (m - 1)) /\
    same_outside (fun _ => False) (dev s) (dev s') /\
    if negb loaded || (write_count (info_table s) <? write_count t)
    then block_state s' = bs /\ block_mapping s' = bm /\ info_table s' = info_table_header_of_bytes img
    else block_state s' = block_state s /\ block_mapping s' = block_mapping s /\
         info_table s' = info_table s) s.
Proof.
  intros Hb Hsv Hc Hf. destruct table_blocks as (Hsz0 & Hsz1 & Hn0 & Hn). geometry.
  pose proof (sv_range _ _ _ _ _ _ Hsv) as Hr. pose proof (sv_image _ _ _ _ _ _ Hsv) as Hi.
  unfold nmbm_try_load_info_table. rewrite (u32_small (ba + _)) by lia. wp_step.
  apply (wp_iter (load_inv s ba img)
    (fun x _ => Z.to_nat (ba + size2blk info_table_size - fst (fst (fst x))))); cycle 1.
  { unfold load_inv. split_and!; try lia. apply load_step_refl. }
  { simpl. lia. }
  intros x s1 Hinv. eapply wp_conseq; [by apply (try_load_step s ba t bs bm img)|].
  intros [x'|o] s2; [intros (? & ? & ?); split; [done|lia]|]. intros (-> & Hls & Ec).
  destruct (load_step_inv _ _ Hls Hb) as (Hb2 & Ebs & Hpg).
  assert (Es2 : signature_ba s2 = signature_ba s /\ data_block_count s2 = data_block_count s /\
                info_table s2 = info_table s /\ block_mapping s2 = block_mapping s)
    by (by destruct Hls as (? & ? & ? & -> & _)).
  destruct Es2 as (E1 & E2 & E3 & E4).
  wp_step. wp_step. wp_step. rewrite Ec. eapply wp_lift; [apply Hi|]. cbn [negb]. wp_step.
  apply (check_info_table_ok s2 t bs bm img); try done; try apply Hsv; try lia.
  { constructor; rewrite ?E1, ?E2, ?Ebs; apply Hf. }
  rewrite E1, E2. intros m Hm. wp_step. wp_step. rewrite E3, (img_write_count _ _ _ _ Hi). wp_step.
  destruct (negb loaded || (write_count (info_table s) <? write_count t)).
  - apply (adopt_image_ok s2 t bs bm); [by rewrite Ec|apply Hsv|]. wp_step. rewrite Ec.
    exists m. split_and!; done.
  - wp_step. wp_step. exists m. split_and!; done.
Qed.

(** A table laid out over good blocks only is stored contiguously. *)
Lemma laid_contiguous bs d start data e :
  laid_out bs d start data e -> (forall b, start <= b < e -> good bs b) ->
  stored d (start * erasesize) data /\ zlen data <= (e - start) * erasesize /\
  ((erasesize | zlen data) -> zlen data = (e - start) * erasesize).
Proof.
  geometry. induction 1 as [|data e Hl IH Hng|data e chunk Hl IH Hg Hd Hc Hst]; intros Hall.
  - split_and!; [intros i Hi; unfold zlen in Hi; simpl in Hi; lia|unfold zlen; simpl; lia|].
    unfold zlen. simpl. lia.
  - exfalso. apply Hng, Hall. pose proof (laid_end _ _ _ _ _ Hl). lia.
  - pose proof (laid_end _ _ _ _ _ Hl). destruct IH as (IH1 & IH2 & IH3); [intros b Hb; apply Hall; lia|].
    specialize (IH3 Hd). rewrite zlen_app.
    assert (Hs : stored d (start * erasesize) (data ++ chunk)).
    { intros i Hi. rewrite zlen_app in Hi. destruct (Z_lt_le_dec i (zlen data)).
      - rewrite znth_app_l by lia. apply IH1. lia.
      - rewrite znth_app_r by lia. rewrite Hst by lia. f_equal. rewrite IH3. lia. }
    split_and!; [done|lia|]. intros [q Hq]. destruct Hd as [q' Hq'].
    assert (Hq2 : zlen chunk = (q - q') * erasesize) by lia. assert (q - q' = 1) by nia. nia.
Qed.

End Load.
