(* ===== verification/NmbmCreate.v ===== *)
(** * NMBM: setting up a chip

    The memory the instance needs, the boundary of the management area, and
    the creation of signature and info tables on a new chip. *)

From stdpp Require Import base numbers list.
From Stdlib Require Import ZArith Lia.
From S2P Require Import Prelude IntLib Crc32 NmbmTypes NmbmPhys NmbmState NmbmNand NmbmTable NmbmMgmt NmbmImage NmbmUpdate NmbmMapping NmbmAttach.

#[local] Opaque nmbm_crc32 crc_ref le_bytes le_value nmbm_update_checksum.

Section Init.
Context {D : Type} {L : nmbm_lower_device D} {GO : geometry_ok L}.
Implicit Types s : nmbm_instance D.

(** ** Memory *)

Lemma calc_structure_size_spec :
  nmbm_calc_structure_size =
  info_table_size + state_table_size + mapping_table_size + rawpage_size.
Proof.
  geometry. destruct info_table_layout as (Hh & Hs & Hm & Hsz & _).
  destruct state_table_size_spec as [_ Hss]. pose proof mapping_table_size_spec as Hms.
  unfold sizeof_info_table_header in Hh.
  assert (E : nmbm_lldiv nld_size erasesize = block_count).
  { rewrite nmbm_lldiv_spec; [|destruct geo_chip as (c & Hc & ->)|lia].
    - rewrite <- block_count_spec. apply u32_small. lia.
    - split; [lia|]. apply Z.pow_lt_mono_r; lia. }
  assert (Hcalc : nmbm_calc_structure_size =
    u32 (info_table_size + state_table_size + mapping_table_size + writesize + oobsize)).
  { unfold nmbm_calc_structure_size, info_table_size, init_mapping_table_off, init_state_table_off,
      state_table_size, mapping_table_size. rewrite E. reflexivity. }
  rewrite Hcalc. clear Hcalc E.
  rewrite u32_small; lia.
Qed.

(** An instance fresh from [nmbm_init_structure]. *)
Record init_ok s : Prop := {
  init_buffers : buffers_ok s;
  init_offsets : offsets_ok (info_table s);
  init_header : info_header_wf (info_table s);
  init_good b : 0 <= b < block_count -> good (block_state s) b;
  init_clean : tables_changed s = false
}.

Lemma init_offsets_ok h wc pad :
  offsets_ok (mkInfoHeader h wc init_state_table_off init_mapping_table_off pad).
Proof. destruct info_table_layout as (Hh & Hs & Hm & _). by constructor. Qed.

Lemma state_of_replicate n b :
  0 <= b < 16 * Z.of_nat n -> state_of (replicate n (2 ^ 32 - 1)) b = BLOCK_ST_GOOD.
Proof.
  intros Hb. unfold state_of, nmbm_get_block_state_raw, znth.
  change NMBM_BITMAP_BLOCKS_PER_UNIT with 16. change NMBM_BITMAP_BITS_PER_BLOCK with 2.
  assert (Hd : 0 <= b / 16 < Z.of_nat n) by (split; [apply Z.div_pos; lia|apply Z.div_lt_upper_bound; lia]).
  destruct (Z.ltb_spec (b / 16) 0); [lia|]. rewrite lookup_replicate_2 by lia. simpl.
  pose proof (Z.mod_pos_bound b 16 ltac:(lia)) as Hm. set (r := b mod 16) in *.
  assert (H16 : r = 0 \/ r = 1 \/ r = 2 \/ r = 3 \/ r = 4 \/ r = 5 \/ r = 6 \/ r = 7 \/ r = 8 \/
    r = 9 \/ r = 10 \/ r = 11 \/ r = 12 \/ r = 13 \/ r = 14 \/ r = 15) by lia.
  clearbody r. by decompose [or] H16; subst r.
Qed.

(** [nmbm_calc_structure_size] bytes are enough for [nmbm_init_structure]. *)
Lemma init_structure_ok s mem :
  zlen mem = nmbm_calc_structure_size -> Forall is_byte mem -> info_header_wf (info_table s) ->
  exists s', nmbm_init_structure mem s = Ret tt s' /\ init_ok s' /\
    dev s' = dev s /\ signature s' = signature s /\ protected s' = protected s /\
    mapping_blocks_ba s' = mapping_blocks_ba s.
Proof.
  intros Hl Hb Hwf. rewrite calc_structure_size_spec in Hl. geometry.
  destruct info_table_layout as (Hh & Hs & Hm & Hsz & _).
  destruct state_table_size_spec as [Es Hss]. pose proof mapping_table_size_spec as Hms.
  unfold sizeof_info_table_header in Hh.
  set (W := wp (nmbm_init_structure mem) (fun _ s' => init_ok s' /\
    dev s' = dev s /\ signature s' = signature s /\ protected s' = protected s /\
    mapping_blocks_ba s' = mapping_blocks_ba s) s).
  enough (HW : W) by (apply wp_run in HW as ([] & s' & E & H); eauto).
  unfold W, nmbm_init_structure.
  destruct (slice_exists mem 0 info_table_size) as (cache & Hc & Hcl); [lia..|].
  destruct (slice_exists mem info_table_size state_table_size) as (st & Hst & _); [lia..|].
  destruct (slice_exists mem (info_table_size + state_table_size) mapping_table_size)
    as (mp & Hmp & Hmpl); [lia..|].
  destruct (slice_exists mem (info_table_size + state_table_size + mapping_table_size) rawpage_size)
    as (pc & Hpc & Hpl); [lia..|].
  wp_step. eapply wp_lift; [exact Hc|]. wp_step. eapply wp_lift; [exact Hst|].
  wp_step. eapply wp_lift; [exact Hmp|]. wp_step. eapply wp_lift; [exact Hpc|]. wp_steps.
  assert (Ew : le_words (fill 255 state_table_size) =
               replicate (Z.to_nat ((block_count + 15) / 16)) (2 ^ 32 - 1)).
  { rewrite <- le_words_fill. f_equal. f_equal. rewrite Es. rewrite Z2Nat.id; [done|].
    apply Z.div_pos; lia. }
  pose proof (Z.div_mod (block_count + 15) 16 ltac:(lia)) as Hdm.
  pose proof (Z.mod_pos_bound (block_count + 15) 16 ltac:(lia)) as Hmb.
  split_and!; try done. constructor; simpl.
  - constructor; simpl; rewrite ?Ew; try done.
    + unfold zlen. rewrite length_replicate. lia.
    + apply Forall_replicate. lia.
    + unfold zlen in *. rewrite length_map, (length_le_words (Z.to_nat block_count)); lia.
    + apply Forall_map, Forall_true. intros x. apply i32_range.
  - apply init_offsets_ok.
  - destruct Hwf as [? ? ? ? ?]. constructor; try done; unfold is_u32; simpl; lia.
  - intros b Hbb. rewrite Ew. apply state_of_replicate. lia.
  - done.
Qed.

(** ** The management boundary *)

Lemma block_count_pow2 : exists k, 5 <= k <= 24 /\ block_count = 2 ^ k.
Proof.
  pose proof block_count_bounds as Hb. rewrite block_count_spec in *.
  destruct geo_chip as (c & Hc & Ec). destruct geo_block as (e & He & Ee). rewrite Ec, Ee in *.
  destruct (Z_lt_le_dec c e) as [Hlt|Hge].
  - rewrite Z.div_small in Hb by (split; [lia|apply Z.pow_lt_mono_r; lia]). lia.
  - assert (E : 2 ^ c / 2 ^ e = 2 ^ (c - e)) by (symmetry; apply Z.pow_sub_r; lia).
    rewrite E in *. exists (c - e). split; [|done]. destruct Hb as [Hb1 Hb2]. change 32 with (2 ^ 5) in Hb1.
    apply Z.pow_le_mono_r_iff in Hb1; [|lia..]. apply Z.pow_le_mono_r_iff in Hb2; lia.
Qed.

(** Creation and signature search compute the same boundary. *)
Lemma mgmt_boundary_same : nmbm_check_lower_members = true -> create_mgmt_start = find_limit.
Proof.
  intros Hc. destruct block_count_pow2 as (k & Hk & E). geometry. pose proof geo_ratio as Hrat.
  assert (Hr : 1 < 16 - lower_max_ratio < 16).
  { unfold nmbm_check_lower_members in Hc.
    repeat (destruct (_ || _); [done|]). destruct has_required_ops; cbn [negb] in Hc; [|done].
    destruct (Z.leb_spec (NMBM_MGMT_DIV - 1) lower_max_ratio); [done|].
    unfold lower_max_ratio, NMBM_MGMT_DIV in *. destruct (Z.eqb_spec max_ratio 0); lia. }
  unfold create_mgmt_start, find_limit. change NMBM_MGMT_DIV with 16 in *.
  assert (Ed : block_count = block_count / 16 * 16).
  { rewrite E. replace k with ((k - 4) + 4) at 1 2 by lia. rewrite Z.pow_add_r by lia.
    change (2 ^ 4) with 16. by rewrite Z.div_mul. }
  assert (Hq : 0 <= block_count / 16 <= 2 ^ 24) by (split; [apply Z.div_pos; lia|lia]).
  enough (u32 (block_count * (16 - lower_max_ratio)) / 16 =
          u32 (block_count / 16 * (16 - lower_max_ratio))) as -> by done.
  rewrite !u32_small by nia. rewrite Ed at 1.
  replace (block_count / 16 * 16 * (16 - lower_max_ratio))
    with (block_count / 16 * (16 - lower_max_ratio) * 16) by lia.
  by rewrite Z.div_mul.
Qed.

End Init.

Section Create.
Context {D : Type} {L : nmbm_lower_device D} {P : NandModel D}.
Context {GO : geometry_ok L} {NL : nand_laws L P}.
Implicit Types s : nmbm_instance D.

(** ** Scanning for bad blocks *)

(** The scan changes the states, their counter and what reading changes. *)
Definition scanned s s' : Prop := buffers_ok s' /\ exists d pc bs c,
  s' = s <| dev := d |> <| page_cache := pc |> <| block_state := bs |> <| block_state_changed := c |>.

Lemma scan_ok s Q :
  init_ok s -> (forall s', scanned s s' -> Q tt s') -> wp nmbm_scan_badblocks Q s.
Proof.
  intros Hi HQ. geometry. unfold nmbm_scan_badblocks.
  apply (wp_iter (fun ba s1 => 0 <= ba <= block_count /\ scanned s s1)
           (fun ba _ => Z.to_nat (block_count - ba))); cycle 1.
  { split_and!; [lia..|]. split; [apply Hi|].
    exists (dev s), (page_cache s), (block_state s), (block_state_changed s). by destruct s. }
  { lia. }
  intros ba s1 (Hba & B1 & d1 & pc1 & bs1 & c1 & E1). unfold scan_body.
  destruct (Z.ltb_spec ba block_count); [|wp_step; apply HQ; split; [done|by eexists _, _, _, _]].
  rewrite u32_small by lia. wp_step. apply check_bad_ok; [apply B1|]. intros bad s2 Hio.
  pose proof (buffers_ok_io _ _ _ B1 Hio) as B2. destruct Hio as (d2 & pc2 & E2 & _).
  destruct bad; wp_step; cycle 1.
  { wp_step. wp_step. split; [|lia]. split_and!; [lia..|]. split; [done|]. subst. by eexists _, _, _, _. }
  wp_step. assert (Hlt : 0 <= ba < block_count) by lia.
  assert (Hst : 0 <= BLOCK_ST_BAD <= 3) by (unfold BLOCK_ST_BAD; lia).
  apply wp_set_block_state; [done|done|done|]. wp_step. wp_step. split; [|lia]. split_and!; [lia..|].
  split; [by apply buffers_ok_set_state|]. subst. by eexists _, _, _, _.
Qed.

(** ** Creating the info tables *)

Record create_pre s : Prop := {
  cp_buffers : buffers_ok s;
  cp_offsets : offsets_ok (info_table s);
  cp_header : info_header_wf (info_table s);
  cp_room : size2blk info_table_size <= mgmt_start_ba s;
  cp_start : mgmt_start_ba s < signature_ba s < block_count;
  cp_count : 0 <= data_block_count s <= mgmt_start_ba s;
  cp_entries : Forall (fun p => p < block_count) (block_mapping s);
  cp_protected : protected s = 0
}.

(** Pages outside the blocks [lo, hi) keep their contents. *)
Definition kept lo hi (d d' : D) : Prop := same_outside (blocks (within lo hi)) d d'.

Lemma kept_area s s' hi : same_outside (blocks (mgmt_area s)) (dev s) (dev s') ->
  mapping_blocks_top_ba s <= hi -> kept (mgmt_start_ba s) hi (dev s) (dev s').
Proof.
  intros H Ht. eapply same_outside_weaken; [|exact H]. intros p (b & Hb & Hp).
  exists b. split; [|done]. unfold mgmt_area, within in *. lia.
Qed.

Lemma map_tail_ok s n T Q :
  device_ok s -> data_block_count s = n -> 0 <= n <= mgmt_start_ba s -> mapping_blocks_top_ba s <= T ->
  (forall s', device_ok s' -> mgmt_start_ba s' = mgmt_start_ba s -> mapping_blocks_top_ba s' <= T ->
     kept (mgmt_start_ba s) T (dev s) (dev s') -> Q tt s') ->
  wp (iter (S (Z.to_nat (mgmt_start_ba s - n))) remap_tail_body n) Q s.
Proof.
  intros Hd Hn Hr HT HQ. geometry. set (m := mgmt_start_ba s) in *.
  apply (wp_iter (fun lb s1 => device_ok s1 /\ mgmt_start_ba s1 = m /\ data_block_count s1 = lb /\
             0 <= lb <= m /\ mapping_blocks_top_ba s1 <= T /\ kept m T (dev s) (dev s1))
           (fun lb _ => Z.to_nat (m - lb))); [|split_and!; try done; lia|lia].
  intros lb s1 (Hd1 & Em & Ec & Hlb & HT1 & Hk). unfold remap_tail_body. wp_step. wp_step. rewrite Em.
  destruct (layout_bounds s1) as (? & ? & ?); [apply Hd1|].
  destruct (Z.ltb_spec lb m); [|wp_step; by apply HQ].
  wp_step. apply map_block_ok; [apply Hd1|lia| | |].
  - intros _. wp_step. by apply HQ.
  - intros pb Hpb _ _. wp_steps. simpl. rewrite Ec, !u32_small by lia. split; [|lia].
    pose proof (device_mapped s1 lb pb Hd1 Hpb) as Hd2. split_and!; try done; try lia.
    destruct Hd2 as [Hl2 He2 Hc2]. constructor; [|done|simpl; lia].
    destruct Hl2 as [[]]. by constructor.
  - intros s2 M _ _. wp_step. pose proof (device_ok_maint _ _ Hd1 M) as [Hl2 He2 Hc2].
    destruct (config_inv _ _ (ms_config _ _ M)) as (_ & _ & _ & E4 & E5 & _).
    destruct (layout_bounds s2 Hl2) as (? & ? & ?).
    apply HQ; simpl; [|congruence|lia|].
    + constructor; try done. by apply layout_top_closed.
    + eapply same_outside_trans; [exact Hk|]. rewrite <- Em. apply (kept_area s1 s2); [apply M|lia].
Qed.

Lemma create_info_table_ok s Q :
  create_pre s -> Q false s ->
  (forall s' ok, (ok = true -> device_ok s' /\ mgmt_start_ba s' = mgmt_start_ba s /\
                  kept (mgmt_start_ba s) (signature_ba s) (dev s) (dev s') /\
                  (protected s' = 0 -> tables_changed s' = false)) -> Q ok s') ->
  wp nmbm_create_info_table Q s.
Proof.
  intros C HN HQ. geometry. destruct (cp_start s C) as [Hs1 Hs2]. pose proof (cp_room s C) as Hroom.
  pose proof (cp_count s C) as Hcnt. unfold nmbm_create_info_table.
  wp_step. wp_step. wp_step. wp_step. wp_step.
  apply walk_ok_desc; [apply C|lia..|]. rewrite walk_limit_spec, Z.min_l by lia.
  destruct (_ !! _) as [top|] eqn:Et; [|by wp_step].
  apply list_elem_of_lookup_2, elem_of_good_desc in Et as [Ht _].
  wp_step. wp_step. wp_step.
  set (s1 := s <| mapping_blocks_top_ba := top |>).
  assert (Hok1 : buffers_ok s1) by (destruct (cp_buffers s C); by constructor).
  apply generate_ok; [done|apply C|apply C|]. intros img Himg. fold (generated s1 img).
  set (s2 := generated s1 img).
  set (s0 := s2 <| main_table_ba := 0 |> <| backup_table_ba := 0 |> <| mapping_blocks_ba := top |>).
  assert (L0 : layout_ok s0).
  { constructor; simpl; try done; try lia; try (by left).
    - destruct Hok1. constructor; try done. apply Himg.
    - by destruct (cp_offsets s C).
    - apply next_header_wf, C. }
  assert (A0 : area_step s0 s2).
  { constructor; try done; [|apply worn_refl|by left]. destruct (lay_buffers _ L0). by constructor. }
  wp_step. eapply wp_conseq; [by apply (rebuild_ok s0); [done|apply Himg|]|]. cbv beta.
  intros ok s3 [[A3 L3] Hset]. destruct ok; cbn [negb]; [|wp_step; by apply HQ].
  destruct (config_inv _ _ (as_config _ _ A3)) as (_ & Eb & Ec & Em & Etop & _).
  assert (K3 : kept (mgmt_start_ba s) (signature_ba s) (dev s) (dev s3)).
  { apply (kept_area s0 s3); [apply A3|simpl; lia]. }
  change (mgmt_start_ba s0) with (mgmt_start_ba s) in Em.
  change (data_block_count s0) with (data_block_count s) in Ec.
  change (block_mapping s0) with (block_mapping s) in Eb.
  assert (D3 : device_ok s3).
  { constructor; [done|rewrite Eb; apply C|lia]. }
  wp_step. wp_step. wp_step. rewrite <- Em at 1.
  change (mapping_blocks_top_ba s0) with top in Etop.
  apply (map_tail_ok s3 _ (signature_ba s)); [done|done|lia|lia|]. intros s4 D4 Em4 HT4 K4.
  eapply wp_conseq; [apply update_info_table_ok, D4|]. cbv beta.
  intros ok s5 (M & Hp & Hok).
  apply HQ. intros ->. destruct (config_inv _ _ (ms_config _ _ M)) as (_ & _ & _ & E4 & _).
  split; [by eapply device_ok_maint|]. split; [congruence|]. split; cycle 1.
  { intros Ep.
    destruct (decide (protected s4 = 0)) as [E0|E0]; [by apply Hok|].
    destruct (Hp E0) as [_ ->]. congruence. }
  eapply same_outside_trans; [exact K3|]. rewrite <- Em.
  eapply same_outside_trans; [exact K4|]. rewrite <- Em4. apply (kept_area s4 s5); [apply M|done].
Qed.

(** ** Creating NMBM on a new chip *)

Lemma create_start_bounds : nmbm_check_lower_members = true -> 2 <= create_mgmt_start <= block_count - 2.
Proof.
  intros Hc. rewrite mgmt_boundary_same by done. geometry. pose proof geo_ratio as Hrat.
  pose proof geo_reserved as Hres.
  assert (Hr : 1 < 16 - lower_max_ratio < 16 /\ (max_reserved_blocks = 0 \/ 32 <= max_reserved_blocks)).
  { unfold nmbm_check_lower_members in Hc.
    repeat (destruct (_ || _); [done|]). destruct has_required_ops; cbn [negb] in Hc; [|done].
    destruct (Z.leb_spec (NMBM_MGMT_DIV - 1) lower_max_ratio); [done|].
    unfold lower_max_ratio, NMBM_MGMT_DIV, NMBM_MGMT_BLOCKS_MIN in *.
    destruct (Z.eqb_spec max_reserved_blocks 0), (Z.ltb_spec max_reserved_blocks 32); simpl in Hc; try done;
    destruct (Z.eqb_spec max_ratio 0); lia. }
  destruct block_count_pow2 as (k & Hk & E).
  assert (Ed : block_count = block_count / 16 * 16).
  { rewrite E. replace k with ((k - 4) + 4) at 1 2 by lia. rewrite Z.pow_add_r by lia.
    change (2 ^ 4) with 16. by rewrite Z.div_mul. }
  assert (Hq : 2 <= block_count / 16 <= 2 ^ 24) by lia.
  unfold find_limit. change NMBM_MGMT_DIV with 16.
  set (l := block_count / 16 * (16 - lower_max_ratio)).
  assert (Hl : 2 <= l <= block_count - 2) by (unfold l; nia). rewrite (u32_small l) by lia.
  rewrite (u32_small (block_count - l)) by lia.
  destruct (Z.eqb_spec max_reserved_blocks 0), (Z.ltb_spec max_reserved_blocks (block_count - l)); simpl; try lia.
  rewrite u32_small; lia.
Qed.

Definition padding_ok (g : nmbm_signature) : Prop :=
  length (sig_padding g) = 3%nat /\ length (sig_tail g) = 4%nat /\
  Forall is_byte (sig_padding g) /\ Forall is_byte (sig_tail g) /\
  is_u32 (h_checksum (sig_header g)).

Lemma new_signature_wf g m : padding_ok g -> 0 <= m < 2 ^ 32 ->
  signature_wf (new_signature g m) /\ length (signature_bytes (new_signature g m)) = 48%nat /\
  Forall is_byte (signature_bytes (new_signature g m)).
Proof.
  intros (Hp & Ht & Hpb & Htb & Hc) Hm. geometry. split_and!.
  - constructor; simpl; unfold is_u32; try done; try lia.
    destruct geo_chip as (c & Hcc & ->). split; [lia|]. apply Z.pow_lt_mono_r; lia.
  - unfold signature_bytes. rewrite !length_app, length_header_bytes, !length_le_bytes. simpl. lia.
  - unfold signature_bytes. rewrite !Forall_app. cbn [new_signature sig_padding sig_tail].
    split_and!; auto using le_bytes_is_byte, header_bytes_is_byte.
Qed.

(** The signature found on a chip describes this chip. *)
Definition signature_matches (g : nmbm_signature) m : Prop :=
  h_magic (sig_header g) = NMBM_MAGIC_SIGNATURE /\ h_version (sig_header g) = NMBM_VER /\
  sig_nand_size g = nld_size /\ sig_block_size g = erasesize /\ sig_page_size g = writesize /\
  sig_spare_size g = oobsize /\ sig_mgmt_start_pb g = m.

(** The bytes that [nmbm_create_new] writes pass the test of
    [nmbm_find_signature] and decode to a matching signature. *)
Lemma new_signature_image g m :
  padding_ok g -> 0 <= m < 2 ^ 32 ->
  exists b, nmbm_update_checksum (signature_bytes (new_signature g m)) = Some b /\
    length b = 48%nat /\ Forall is_byte b /\ nmbm_check_header b sizeof_signature = Some true /\
    signature_matches (signature_of_bytes b) m.
Proof.
  intros Hp Hm. destruct (new_signature_wf g m Hp Hm) as (Hwf & Hl & Hb).
  set (b0 := signature_bytes (new_signature g m)) in *.
  pose proof (signature_image _ [] Hwf) as Hi. rewrite app_nil_r in Hi. fold b0 in Hi.
  assert (Hh : header_of_bytes b0 = sig_header (new_signature g m)) by (by rewrite <- Hi).
  destruct (update_checksum_ok b0 Hb) as (b & Hup & Hbl & Hbb & Hsame & Hchk).
  { rewrite Hh. simpl. unfold sizeof_signature, zlen. lia. }
  { unfold zlen, UINT_MAX. lia. }
  exists b. unfold zlen in Hbl. split_and!; try done; [lia| |].
  - apply Hchk. by rewrite Hh.
  - assert (Hg : forall n off, Z.of_nat off + Z.of_nat n <= 12 \/ 16 <= Z.of_nat off ->
      Z.of_nat off + Z.of_nat n <= 48 -> get_le n off b = get_le n off b0).
    { intros n off Ho Hn. apply get_le_ext; [by apply Hsame|unfold zlen; lia]. }
    pose proof (f_equal sig_header Hi) as E0. pose proof (f_equal h_magic E0) as E1.
    pose proof (f_equal h_version E0) as E2.
    pose proof (f_equal sig_nand_size Hi) as E3. pose proof (f_equal sig_block_size Hi) as E4.
    pose proof (f_equal sig_page_size Hi) as E5. pose proof (f_equal sig_spare_size Hi) as E6.
    pose proof (f_equal sig_mgmt_start_pb Hi) as E7. simpl in E1, E2, E3, E4, E5, E6, E7.
    unfold signature_matches. simpl. rewrite !Hg by (simpl; lia). by split_and!.
Qed.

Lemma nonbad_entries bs m n :
  m <= block_count ->
  Forall (fun p => p < block_count) (nonbad_asc bs 0 m ++ replicate n (-1)).
Proof.
  intros Hm. geometry. apply Forall_app. split; [|apply Forall_replicate; lia].
  apply Forall_forall. intros x Hx. unfold nonbad_asc in Hx.
  apply list_elem_of_filter in Hx as [_ Hx%elem_of_seqZ]. lia.
Qed.

(** What creation on a blank chip achieves. *)
Definition created (s' : nmbm_instance D) : Prop :=
  device_ok s' /\ mgmt_start_ba s' = create_mgmt_start /\
  (protected s' = 0 -> tables_changed s' = false) /\
  exists sba b, create_mgmt_start < sba < block_count /\ length b = 48%nat /\
    copies (dev s') sba pages_per_block b /\ nmbm_check_header b sizeof_signature = Some true /\
    signature_matches (signature_of_bytes b) create_mgmt_start.

Lemma copies_kept d d' lo hi sba b n :
  copies d sba n b -> kept lo hi d d' -> hi <= sba -> n <= pages_per_block -> zlen b <= writesize ->
  copies d' sba n b.
Proof.
  intros Hc Hk Hhi Hn Hb k Hkk. geometry. eapply stored_same; [exact Hk| |by apply Hc].
  intros i Hi (q & Hq & Hin). unfold within in Hq.
  assert (q = sba); [|lia]. eapply in_block_inj; [exact Hin|].
  replace (sba * erasesize + k * writesize + i) with (sba * erasesize + (k * writesize + i)) by lia.
  apply block_byte_page. nia.
Qed.

Lemma create_new_ok s Q :
  init_ok s -> nmbm_check_lower_members = true -> size2blk info_table_size <= create_mgmt_start ->
  padding_ok (signature s) -> protected s = 0 ->
  (forall s', Q false s') -> (forall s', created s' -> Q true s') ->
  wp nmbm_create_new Q s.
Proof.
  intros Hi Hc Hroom Hpad Hprot HN HQ. geometry. pose proof (create_start_bounds Hc) as Hm.
  set (m := create_mgmt_start) in *. unfold nmbm_create_new. fold m. wp_step. wp_step. wp_step.
  set (s1 := s <| mgmt_start_ba := m |>).
  assert (Hi1 : init_ok s1) by (destruct Hi as [[] ? ? ? ?]; by constructor).
  apply scan_ok; [done|]. intros s2 (B2 & d2 & pc2 & bs2 & c2 & E2).
  assert (signature s2 = signature s1 /\ mgmt_start_ba s2 = m /\ info_table s2 = info_table s1 /\ protected s2 = protected s1)
    as (Eg2 & Em2 & T2 & Ep2) by (by rewrite E2). clear E2. wp_step.
  set (l := nonbad_asc (block_state s2) 0 m).
  assert (Hbm : nmbm_build_mapping_table s2 =
    Ret tt (s2 <| block_mapping := l ++ replicate (Z.to_nat (block_count - zlen l)) (-1) |>
               <| data_block_count := zlen l |>)).
  { rewrite build_mapping_table_ok, Em2; [done|done|lia]. }
  assert (Hll : 0 <= zlen l <= m).
  { split; [apply zlen_nonneg|apply nonbad_asc_length; lia]. }
  eapply wp_of_run; [exact Hbm|]. clear Hbm. wp_step. wp_step. wp_step. wp_step.
  set (s3 := s2 <| block_mapping := _ |> <| data_block_count := _ |>).
  change (mgmt_start_ba s3) with (mgmt_start_ba s2). rewrite Em2.
  change (signature s3) with (signature s2). rewrite Eg2.
  destruct (new_signature_image (signature s1) m) as (b & Hup & Hbl & Hbb & Hchk & Hmat); [done|lia|].
  wp_step. eapply wp_lift; [exact Hup|]. wp_step. wp_step. wp_step. wp_step. simpl.
  rewrite signature_bytes_of_bytes by done.
  set (s4 := s3 <| signature := signature_of_bytes b |>).
  assert (B4 : buffers_ok s4).
  { destruct B2. constructor; simpl; try done.
    - unfold zlen in *. rewrite length_app, length_replicate. lia.
    - apply Forall_app. split; [apply nonbad_asc_range; lia|]. apply Forall_replicate. lia. }
  wp_step. apply write_signature_ok; [done|lia|unfold zlen; lia|done|intros s5 _; wp_step; by apply HN|].
  intros s5 sba M5 Hsba Hg Hno Hcp. wp_step. wp_step.
  set (s6 := s5 <| signature_ba := sba |>).
  pose proof (mgmt_step_config _ _ _ M5) as (C5 & T5 & _).
  apply config_inv in C5 as (_ & Eb5 & Ec5 & Em5 & _).
  pose proof (mgmt_step_pointers _ _ _ M5) as (_ & _ & _ & Ep5 & _)%pointers_inv.
  assert (Em6 : mgmt_start_ba s6 = m) by (simpl; subst s4 s3; simpl in *; congruence).
  apply create_info_table_ok; [|by apply HN|].
  - constructor; rewrite ?Em6; simpl.
    + destruct (step_buffers _ _ _ M5). by constructor.
    + rewrite T5. simpl. rewrite T2. apply Hi.
    + rewrite T5. simpl. rewrite T2. apply Hi.
    + done.
    + lia.
    + rewrite Ec5. simpl. lia.
    + rewrite Eb5. simpl. apply nonbad_entries. lia.
    + rewrite Ep5. simpl. by rewrite Ep2.
  - intros s7 [|] H7; [|by apply HN]. apply HQ. destruct (H7 eq_refl) as (D7 & E7 & K7 & Hcl).
    rewrite Em6 in *. split_and!; try done. exists sba, b. split_and!; try done; try lia.
    eapply copies_kept; [exact Hcp|exact K7|done|lia|unfold zlen; lia].
Qed.

End Create.
