(* ===== verification/NmbmSim.v ===== *)
(** * A simulated NAND chip

    A small chip with injectable faults that satisfies [geometry_ok] and
    [nand_laws]: the assumptions of the specifications can hold, and the
    model of NMBM can be run. *)

From stdpp Require Import base numbers list gmap.
From Stdlib Require Import ZArith Lia.
From S2P Require Import Prelude IntLib NmbmTypes NmbmPhys NmbmState NmbmNand NmbmTable NmbmMgmt NmbmAttach NmbmLogic.

(** 64 blocks of 8 pages of 64 bytes. *)
Definition SIM_PAGE : Z := 64.
Definition SIM_BLOCK : Z := 512.
Definition SIM_SIZE : Z := 32768.
Definition SIM_OOB : Z := 16.

(** Defects of a chip, fixed for its life: what fails to erase, to program,
    to read (and with which error), and whether its driver keeps bad block
    marks. *)
Record faults := mkFaults {
  bad_erase : list Z;
  bad_write : list Z;
  bad_read : list (Z * Z);
  keeps_marks : bool
}.

Definition no_faults : faults := mkFaults [] [] [] true.

(** The contents of a chip with the defects [F]. *)
Record sim (F : faults) := mkSim {
  sim_pages : gmap Z (list Z);       (** programmed pages, by address *)
  sim_marks : list Z                 (** blocks (addresses) marked bad *)
}.
Arguments mkSim {F}.
Arguments sim_pages {F}.
Arguments sim_marks {F}.

Definition resize (n : nat) (l : list Z) : list Z := take n (l ++ replicate n 0xff).

Definition has (l : list Z) (a : Z) : bool := existsb (Z.eqb a) l.

Section Chip.
Context {F : faults}.

Definition blank_sim : sim F := mkSim ∅ [].

(** The contents of a page: 64 bytes whatever the map holds. *)
Definition sim_page (d : sim F) (a : Z) : list Z :=
  map u8 (resize 64 (default [] (sim_pages d !! a))).

Definition with_pages (d : sim F) (m : gmap Z (list Z)) : sim F := mkSim m (sim_marks d).

Definition sim_error (a : Z) : Z :=
  match find (fun x => fst x =? a) (bad_read F) with Some (_, e) => e | None => 0 end.

Definition sim_read (d : sim F) (a : Z) (data oob : option (list Z)) (_ : nmbm_oob_mode) :
    sim F * Z * list Z * list Z :=
  let r := sim_error a in
  let data' :=
    match data with
    | Some b => if r =? 0 then resize (length b) (sim_page d a) else b
    | None => []
    end in
  (d, r, data', default [] oob).

Definition sim_write (d : sim F) (a : Z) (data oob : option (list Z)) (mode : nmbm_oob_mode) :
    sim F * Z :=
  if has (bad_write F) a then (d, -5)
  else
    match data, mode with
    | Some b, NMBM_MODE_PLACE_OOB | Some b, NMBM_MODE_AUTO_OOB =>
        (with_pages d (<[a := zip_with Z.land (sim_page d a) (resize 64 b)]> (sim_pages d)), 0)
    | Some b, NMBM_MODE_RAW => (with_pages d (<[a := b]> (sim_pages d)), 0)
    | None, _ => (d, 0)
    end.

Definition sim_wipe (a : Z) (l : list nat) (m : gmap Z (list Z)) : gmap Z (list Z) :=
  fold_right (fun k m => delete (a + Z.of_nat k * SIM_PAGE) m) m l.

Definition sim_erase (d : sim F) (a : Z) : sim F * Z :=
  if has (bad_erase F) a then (d, -5)
  else
    (with_pages d (sim_wipe a (seq 0 8) (sim_pages d)), 0).

Definition sim_is_bad (d : sim F) (a : Z) : sim F * Z :=
  (d, if keeps_marks F && has (sim_marks d) a then 1 else 0).

Definition sim_mark_bad (d : sim F) (a : Z) : sim F * Z :=
  (mkSim (sim_pages d) (a :: sim_marks d), 0).

#[global] Instance sim_lower : nmbm_lower_device (sim F) :=
  mkLower 4 0 NMBM_F_CREATE SIM_SIZE SIM_BLOCK SIM_PAGE SIM_OOB 0 true
    None sim_read sim_write sim_erase (Some sim_is_bad) (Some sim_mark_bad).

#[global] Instance sim_model : NandModel (sim F) := sim_page.

#[global] Instance sim_geometry : geometry_ok sim_lower.
Proof.
  constructor.
  - by exists 6.
  - by exists 9.
  - by exists 15.
  - done.
  - done.
  - done.
  - done.
  - done.
  - done.
  - done.
  - done.
Qed.

Lemma length_resize n l : length (resize n l) = n.
Proof. unfold resize. rewrite length_take, length_app, length_replicate. lia. Qed.

Lemma resize_id l : resize (length l) l = l.
Proof. unfold resize. by rewrite take_app_length. Qed.

Lemma sim_page_len d a : length (sim_page d a) = 64%nat.
Proof. unfold sim_page. by rewrite length_map, length_resize. Qed.

Lemma sim_page_byte d a : Forall is_byte (sim_page d a).
Proof. apply Forall_map, Forall_true. intros x. apply Z.mod_pos_bound. lia. Qed.

Lemma map_u8_id l : Forall is_byte l -> map u8 l = l.
Proof. induction 1 as [|x l Hx Hl IH]; [done|]. simpl. rewrite IH. f_equal. by apply Z.mod_small. Qed.

Lemma zip_land_byte x y : Forall is_byte x -> Forall is_byte (zip_with Z.land x y).
Proof.
  intros H. revert y. induction H as [|a x Ha Hx IH]; intros [|b y]; simpl; constructor; auto.
  by apply land_byte.
Qed.

Lemma zip_land_idem x y : zip_with Z.land (zip_with Z.land x y) y = zip_with Z.land x y.
Proof.
  revert y. induction x as [|a x IH]; intros [|b y]; simpl; [done..|].
  by rewrite <- Z.land_assoc, Z.land_diag, IH.
Qed.

Lemma sim_page_insert d m a l :
  length l = 64%nat -> Forall is_byte l -> sim_page (with_pages d (<[a := l]> m)) a = l.
Proof.
  intros Hl Hb. unfold sim_page. simpl. rewrite lookup_insert_eq. simpl.
  rewrite <- Hl, resize_id. by apply map_u8_id.
Qed.

Lemma sim_wipe_other a l m p :
  (forall k, k ∈ l -> p <> a + Z.of_nat k * SIM_PAGE) -> sim_wipe a l m !! p = m !! p.
Proof.
  induction l as [|k l IH]; intros H; [done|]. simpl.
  rewrite lookup_delete_ne by (symmetry; apply H; by left). apply IH.
  intros j Hj. apply H. by right.
Qed.

Lemma sim_wipe_page a l m k : k ∈ l -> sim_wipe a l m !! (a + Z.of_nat k * SIM_PAGE) = None.
Proof.
  induction l as [|j l IH]; intros H; [by apply not_elem_of_nil in H|]. simpl.
  destruct (decide (j = k)) as [->|Hne]; [by rewrite lookup_delete_eq|].
  apply elem_of_cons in H as [->|H]; [done|].
  rewrite lookup_delete_ne; [by apply IH|]. unfold SIM_PAGE. lia.
Qed.

#[local] Opaque sim_wipe.

Lemma sim_erase_ok d ba d' r :
  sim_erase d (ba * SIM_BLOCK) = (d', r) ->
  same_outside (in_block ba) d d' /\
  (r = 0 -> forall p, in_block ba p -> (SIM_PAGE | p) -> sim_page d' p = erased_page).
Proof.
  unfold sim_erase. destruct (has _ _); intros E; apply pair_equal_spec in E as [<- <-].
  { split; [apply same_outside_refl|done]. }
  unfold in_block. change erasesize with SIM_BLOCK. split.
  - intros p Hp. unfold page_at, sim_model, sim_page. cbn [with_pages sim_pages]. rewrite sim_wipe_other; [done|].
    intros k Hk%elem_of_seq ->. apply Hp. unfold SIM_BLOCK, SIM_PAGE. lia.
  - intros _ p Hp [q ->]. unfold SIM_BLOCK, SIM_PAGE in *.
    replace (q * 64) with (ba * 512 + Z.of_nat (Z.to_nat (q - ba * 8)) * 64) by lia.
    unfold sim_page. cbn [with_pages sim_pages]. change 64 with SIM_PAGE.
    rewrite sim_wipe_page; [done|].
    apply elem_of_seq. lia.
Qed.

#[global] Instance sim_laws : nand_laws sim_lower sim_model.
Proof.
  constructor.
  - intros d p. unfold zlen, page_at, sim_model. by rewrite sim_page_len.
  - intros d p. apply sim_page_byte.
  - intros d a data oob mode d' r data' oob' E. unfold read_page in E. simpl in E.
    unfold sim_read in E. injection E as <- <- <- <-. split_and!.
    + apply same_outside_refl.
    + intros b ->. unfold zlen. destruct (_ =? 0); [by rewrite length_resize|done].
    + by intros b ->.
    + intros -> _ _ b -> Hb. simpl. unfold zlen in Hb. change writesize with 64 in Hb.
      replace (length b) with (length (sim_page d a)) by (rewrite sim_page_len; lia).
      apply resize_id.
  - intros d a data oob mode d' r _ E. unfold write_page in E. simpl in E. unfold sim_write in E.
    destruct (has _ _); [injection E as <- <-; by split; [apply same_outside_refl|]|].
    assert (Ho : forall l, same_outside (fun p => p = a) d (with_pages d (<[a := l]> (sim_pages d)))).
    { intros l p Hp. unfold page_at, sim_model, sim_page. simpl. by rewrite lookup_insert_ne by auto. }
    destruct data as [b|]; [|injection E as <- <-; by split; [apply same_outside_refl|]].
    assert (Hw : forall b0, Some b = Some b0 -> zlen b0 = writesize ->
      sim_page (with_pages d (<[a := zip_with Z.land (sim_page d a) (resize 64 b)]> (sim_pages d))) a =
      zip_with Z.land (sim_page d a) b0).
    { intros b0 E0 Hb0. injection E0 as <-. change writesize with 64 in Hb0. unfold zlen in Hb0.
      replace 64%nat with (length b) by lia. rewrite resize_id. apply sim_page_insert.
      - rewrite length_zip_with, sim_page_len. lia.
      - apply zip_land_byte, sim_page_byte. }
    destruct mode; injection E as <- <-; (split; [apply Ho|]); intros b0 E0 Hb0 Hm; [..|done].
    all: unfold page_at, sim_model; rewrite (Hw b0 E0 Hb0); split; [apply zip_land_idem|done].
  - intros d ba d' r E. by apply sim_erase_ok.
  - done.
  - intros f d a d' r E. injection E as <-. intros E. injection E as <- <-. apply same_outside_refl.
  - intros f d ba d' r E. injection E as <-. intros E. injection E as <- <-. done.
Qed.

(** Defects that are not there do not show. *)
Lemma sim_reliable a : sim_error a = 0 -> reliable_page a.
Proof. by intros H d data oob mode. Qed.

Lemma sim_programmable a : has (bad_write F) a = false -> programmable a.
Proof.
  intros H d data oob mode. unfold write_page, sim_lower, sim_write. simpl. rewrite H.
  by destruct data, mode.
Qed.

Lemma sim_erasable ba : has (bad_erase F) (ba * SIM_BLOCK) = false -> erasable ba.
Proof. intros H d. unfold erase_block, sim_lower, sim_erase. simpl. change erasesize with SIM_BLOCK. by rewrite H. Qed.

(** A block without a defect is sound. *)
Lemma sim_sound ba :
  has (bad_erase F) (ba * SIM_BLOCK) = false ->
  Forall (fun a => in_block ba a -> False) (bad_write F) ->
  Forall (fun x => in_block ba (fst x) -> snd x = 0) (bad_read F) -> sound ba.
Proof.
  intros He Hw Hr. split; [by apply sim_erasable|]. intros a Ha _. split.
  - apply sim_programmable. unfold has. apply not_true_is_false. intros (x & Hx & E)%existsb_exists.
    apply Z.eqb_eq in E as ->. rewrite Forall_forall in Hw. by apply (Hw x); [apply list_elem_of_In|].
  - apply sim_reliable. unfold sim_error. destruct (find _ _) as [[x e]|] eqn:E; [|done].
    apply find_some in E as [Hx E]. apply Z.eqb_eq in E. cbn in E. subst x.
    rewrite Forall_forall in Hr. by apply (Hr (a, e)); [apply list_elem_of_In|].
Qed.

(** ** Running NMBM on the chip *)

Definition zero_header : nmbm_header := mkHeader 0 0 0 0.

(** Cleared memory for the instance, as the callers of [nmbm_attach] pass. *)
Definition zero_instance (d : sim F) : nmbm_instance (sim F) :=
  mkInstance d (mkSignature zero_header 0 0 0 0 0 0 [0; 0; 0] [0; 0; 0; 0]) []
    (mkInfoHeader zero_header 0 0 0 0) [] 0 [] 0 [] 0 0 0 0 0 0 0 0 0.

Definition sim_mem : list Z := fill 0 (nmbm_calc_structure_size (D := sim F)).

Definition sim_attach (d : sim F) : res (nmbm_instance (sim F)) Z := nmbm_attach sim_mem (zero_instance d).

Definition run_state {A} (r : res (nmbm_instance (sim F)) A) (dflt : nmbm_instance (sim F)) : nmbm_instance (sim F) :=
  match r with Ret _ s => s | _ => dflt end.

Definition run_value {A} (r : res (nmbm_instance (sim F)) A) : option A :=
  match r with Ret a _ => Some a | _ => None end.

End Chip.

(** The state after attaching to a blank chip. *)
Definition sim_attached F : nmbm_instance (sim F) :=
  run_state (sim_attach blank_sim) (zero_instance blank_sim).
