(* ===== verification/NmbmRun.v ===== *)
(** * NMBM runs on the simulated chip

    The state that attaching to a blank chip reaches satisfies the invariants
    of the specifications, and so do the states a few operations later. *)

From stdpp Require Import base numbers list gmap.
From Stdlib Require Import ZArith Lia.
From S2P Require Import Prelude IntLib Crc32 NmbmTypes NmbmPhys NmbmState NmbmNand NmbmTable NmbmMgmt NmbmImage NmbmUpdate NmbmMapping NmbmLogic NmbmIO NmbmErase NmbmAttach NmbmLoad NmbmCreate NmbmSim.

(** ** Decidable invariants *)

(** Decide a record of propositions field by field. *)
Ltac decide_fields P :=
  destruct (decide P) as [H|H];
  [left; constructor; tauto|right; intros []; apply H; tauto].

Section Decide.
Context {D : Type} {L : nmbm_lower_device D}.
Implicit Types s : nmbm_instance D.

#[global] Instance buffers_ok_dec s : Decision (buffers_ok s).
Proof.
  decide_fields (zlen (page_cache s) = rawpage_size /\ 4 * zlen (block_state s) = state_table_size /\
    Forall (fun w => 0 <= w < 2 ^ 32) (block_state s) /\ zlen (block_mapping s) = block_count /\
    Forall (fun p => - 2 ^ 31 <= p < 2 ^ 31) (block_mapping s) /\
    zlen (info_table_cache s) = info_table_size).
Defined.

#[global] Instance is_u32_dec x : Decision (is_u32 x).
Proof. unfold is_u32. apply _. Defined.

#[global] Instance is_byte_dec x : Decision (is_byte x).
Proof. unfold is_byte. apply _. Defined.

#[global] Instance offsets_ok_dec t : Decision (offsets_ok t).
Proof.
  decide_fields (sizeof_info_table_header <= state_table_off t /\
    state_table_off t + state_table_size <= mapping_table_off t /\
    mapping_table_off t + mapping_table_size <= info_table_size).
Defined.

#[global] Instance header_wf_dec h : Decision (header_wf h).
Proof.
  decide_fields (is_u32 (h_magic h) /\ is_u32 (h_version h) /\ is_u32 (h_size h) /\
    is_u32 (h_checksum h)).
Defined.

#[global] Instance info_header_wf_dec t : Decision (info_header_wf t).
Proof.
  decide_fields (header_wf (it_header t) /\ is_u32 (write_count t) /\ is_u32 (state_table_off t) /\
    is_u32 (mapping_table_off t) /\ is_u32 (it_padding t)).
Defined.

#[global] Instance layout_ok_dec s : Decision (layout_ok s).
Proof.
  decide_fields (buffers_ok s /\ offsets_ok (info_table s) /\ info_header_wf (info_table s) /\
    size2blk info_table_size <= mgmt_start_ba s /\ mgmt_start_ba s <= mapping_blocks_ba s /\
    (mapping_blocks_ba s <= mapping_blocks_top_ba s < block_count) /\
    (main_table_ba s = 0 \/ mgmt_start_ba s <= main_table_ba s < mapping_blocks_ba s) /\
    (backup_table_ba s = 0 \/ mgmt_start_ba s <= backup_table_ba s < mapping_blocks_ba s) /\
    (main_table_ba s <> 0 -> backup_table_ba s <> 0 -> main_table_ba s < backup_table_ba s)).
Defined.

#[global] Instance device_ok_dec s : Decision (device_ok s).
Proof.
  decide_fields (layout_ok s /\ Forall (fun p => p < block_count) (block_mapping s) /\
    (0 <= data_block_count s <= block_count)).
Defined.

#[global] Instance bounded_dec (lo hi : Z) (P : Z -> Prop) `{!forall i, Decision (P i)} :
  Decision (forall i, lo <= i < hi -> P i).
Proof.
  destruct (decide (Forall P (seqZ lo (hi - lo)))) as [HF|HF].
  - left. intros i Hi. rewrite Forall_forall in HF. apply HF, elem_of_seqZ. lia.
  - right. intros Hall. apply HF, Forall_forall. intros i Hi%elem_of_seqZ. apply Hall. lia.
Defined.

#[global] Instance stored_dec `{NandModel D} (d : D) a data : Decision (stored d a data).
Proof. unfold stored. apply _. Defined.

#[global] Instance tables_wf_dec bs bm : Decision (tables_wf bs bm).
Proof.
  decide_fields (Forall (fun w => 0 <= w < 2 ^ 32) bs /\ 4 * zlen bs = state_table_size /\
    Forall (fun p => - 2 ^ 31 <= p < 2 ^ 31) bm /\ zlen bm = block_count).
Defined.

#[global] Instance table_image_dec t bs bm img : Decision (table_image t bs bm img).
Proof.
  decide_fields (zlen img = info_table_size /\ Forall is_byte img /\
    nmbm_check_header img info_table_size = Some true /\
    h_magic (header_of_bytes img) = NMBM_MAGIC_INFO_TABLE /\
    h_version (header_of_bytes img) = NMBM_VER /\ h_size (header_of_bytes img) = info_table_size /\
    write_count (info_table_header_of_bytes img) = write_count t /\
    state_table_off (info_table_header_of_bytes img) = state_table_off t /\
    mapping_table_off (info_table_header_of_bytes img) = mapping_table_off t /\
    it_padding (info_table_header_of_bytes img) = it_padding t /\
    slice img (state_table_off t) state_table_size = Some (words_bytes bs) /\
    slice img (mapping_table_off t) mapping_table_size = Some (words_bytes (map u32 bm))).
Defined.

(** [table_fits], with the entries looked up. *)
Definition fits_check s start e (bs bm : list Z) : bool :=
  bool_decide (forall lb, 0 <= lb < data_block_count s ->
    ~ (data_block_count s <= u32 (default 0 (znth bm lb)) < e) /\
    u32 (default 0 (znth bm lb)) <> signature_ba s) &&
  bool_decide (forall b, start <= b < e -> good (block_state s) b -> good bs b).

Lemma fits_check_ok s start e bs bm : fits_check s start e bs bm = true -> table_fits s start e bs bm.
Proof.
  unfold fits_check. rewrite andb_true_iff, !bool_decide_eq_true. intros [H1 H2]. constructor; [|done].
  intros lb p Hlb Hp. specialize (H1 lb Hlb). by rewrite Hp in H1.
Qed.

(** Mapped physical blocks, each paired with where it comes from. *)
Definition mapping_check s : bool :=
  bool_decide (Forall (fun p => 0 <= p -> p < mgmt_start_ba s \/ mapping_blocks_top_ba s < p) (block_mapping s)) &&
  bool_decide (NoDup (filter (fun p => 0 <= p) (block_mapping s))).

Lemma NoDup_filter_lookup (q : Z -> Prop) `{!forall x, Decision (q x)} (l : list Z) i j p :
  NoDup (filter q l) -> l !! i = Some p -> l !! j = Some p -> q p -> i = j.
Proof.
  revert i j. induction l as [|x l IH]; intros i j Hn Hi Hj Hq; [done|].
  rewrite filter_cons in Hn.
  assert (Hin : forall k, l !! k = Some p -> p ∈ filter q l).
  { intros k Hk. apply list_elem_of_filter. split; [done|]. by apply list_elem_of_lookup_2 in Hk. }
  destruct i as [|i], j as [|j]; simpl in Hi, Hj; [done|..].
  - injection Hi as ->. rewrite decide_True in Hn by done. apply NoDup_cons in Hn as [Hn _].
    by apply Hin in Hj.
  - injection Hj as ->. rewrite decide_True in Hn by done. apply NoDup_cons in Hn as [Hn _].
    by apply Hin in Hi.
  - f_equal. apply IH; try done. destruct (decide (q x)); [by apply NoDup_cons in Hn as [_ Hn]|done].
Qed.

Lemma mapping_check_ok s : mapping_check s = true -> mapping_ok s.
Proof.
  unfold mapping_check. rewrite andb_true_iff, !bool_decide_eq_true. intros [Harea Hnd]. constructor.
  - intros i j p Hi Hj Hp. pose proof (znth_bounds _ _ _ Hi). pose proof (znth_bounds _ _ _ Hj).
    unfold znth in Hi, Hj. destruct (i <? 0), (j <? 0); try done.
    pose proof (NoDup_filter_lookup _ _ _ _ _ Hnd Hi Hj Hp). lia.
  - intros i p Hi. rewrite Forall_forall in Harea. apply Harea.
    unfold znth in Hi. destruct (i <? 0); [done|]. by apply list_elem_of_lookup_2 in Hi.
Qed.

End Decide.

Lemma by_decision P `{!Decision P} : bool_decide P = true -> P.
Proof. apply bool_decide_eq_true. Qed.

(** ** The attached chip *)

Definition sim0 : nmbm_instance (sim no_faults) := sim_attached no_faults.

Lemma sim_device : device_ok sim0.
Proof. apply (by_decision _). vm_compute. reflexivity. Qed.

Lemma sim_mapping : mapping_ok sim0.
Proof. apply mapping_check_ok. vm_compute. reflexivity. Qed.

(** With a bad block recorded and not yet saved. *)
Definition sim_changed : nmbm_instance (sim no_faults) :=
  run_state (nmbm_set_block_state 5 BLOCK_ST_BAD sim0) sim0.

Lemma sim_changed_device : device_ok sim_changed.
Proof. apply (by_decision _). vm_compute. reflexivity. Qed.

(** A second boot: a fresh instance on the flash of a chip that was attached
    before, at the point where the tables are searched. *)
Definition quiet_faults : faults := mkFaults [] [] [] false.
Definition sim_saved : nmbm_instance (sim quiet_faults) := sim_attached quiet_faults.
Definition sim_fresh : nmbm_instance (sim quiet_faults) :=
  run_state (nmbm_init_structure (sim_mem (F := quiet_faults)) (zero_instance (dev sim_saved))) sim_saved.
Definition sim_reboot : nmbm_instance (sim quiet_faults) :=
  sim_fresh <| data_block_count := 48 |> <| signature_ba := 63 |>.

Lemma sim_saved_at :
  saved_at sim_reboot 48 (info_table sim_saved) (block_state sim_saved) (block_mapping sim_saved)
    (info_table_cache sim_saved).
Proof.
  constructor.
  1-5: apply (by_decision _); vm_compute; reflexivity.
  - vm_compute. split; congruence.
  - apply (by_decision _). vm_compute. reflexivity.
  - intros b _. exists sim_is_bad. split; [reflexivity|]. intros d. reflexivity.
  - intros i _. apply sim_reliable. reflexivity.
Qed.
