(* ===== verification/NmbmProps.v ===== *)
(** * What NMBM guarantees

    The properties of the flash management layer for any chip with the
    behaviour of [nand_laws].  The runs at the end of the file are on the
    simulated chip: the assumptions of the properties hold there. *)

From stdpp Require Import base numbers list gmap.
From Stdlib Require Import ZArith Lia.
From S2P Require Import Prelude IntLib Crc32 NmbmTypes NmbmPhys NmbmState NmbmNand NmbmTable NmbmMgmt NmbmImage NmbmUpdate NmbmMapping NmbmLogic NmbmIO NmbmErase NmbmSteps NmbmAttach NmbmLoad NmbmCreate NmbmSim NmbmRun.

#[local] Opaque nmbm_crc32 crc_ref le_bytes le_value.

Section Guarantees.
Context {D : Type} {L : nmbm_lower_device D} {P : NandModel D}.
Context {GO : geometry_ok L} {NL : nand_laws L P}.
Implicit Types s : nmbm_instance D.

(** C1 [nmbm_update_info_table] always returns, whatever program and erase
    errors the chip reports.  It changes no page and retires no block outside
    the management area and keeps the layout invariant.  When it reports
    success on a writable device the tables are clean, and if there was
    something to save, a checksummed image with the current block mapping lies
    in good blocks at the main or backup position; the states in the image are
    those in memory up to blocks of the area that wore out while writing. *)
Theorem nmbm_update_info_table_saves s :
  layout_ok s ->
  wp nmbm_update_info_table (fun ok s' =>
    maint_step s s' /\
    (protected s <> 0 -> ok = true /\ s' = s) /\
    (ok = true -> protected s = 0 ->
     tables_changed s' = false /\ (tables_changed s = true -> synced s'))) s.
Proof. apply update_info_table_ok. Qed.

(** C10 A table image that was saved in consecutive good, unmarked and
    readable blocks is found again by [nmbm_try_load_info_table], passes its
    checks, and gives back the block states and the block mapping it was made
    from (unless a table at least as new was loaded before); the top of the
    spare area it reports is just below the lowest remapped block. *)
Theorem nmbm_try_load_restores s ba t bs bm img loaded :
  buffers_ok s -> saved_at s ba t bs bm img -> 0 <= data_block_count s <= block_count ->
  table_fits s ba (ba + size2blk info_table_size) bs bm ->
  wp (nmbm_try_load_info_table ba loaded) (fun r s' =>
    exists m, lowest bm (ba + size2blk info_table_size) (signature_ba s) (data_block_count s) m /\
    r = Some (ba + size2blk info_table_size, write_count t, u32 (m - 1)) /\
    same_outside (fun _ => False) (dev s) (dev s') /\
    if negb loaded || (write_count (info_table s) <? write_count t)
    then block_state s' = bs /\ block_mapping s' = bm /\ info_table s' = info_table_header_of_bytes img
    else block_state s' = block_state s /\ block_mapping s' = block_mapping s /\
         info_table s' = info_table s) s.
Proof. apply try_load_ok. Qed.

(** C2 [nmbm_write_range] followed by [nmbm_read_range] of the same range
    returns the data written, if the range was erased and both calls report
    success; and both do report success when the pages of the range are mapped
    to blocks that are not bad and the chip neither fails to program nor to
    read them. *)
Theorem nmbm_write_read_roundtrip s addr data buf mode :
  device_ok s -> mapping_ok s -> protected s = 0 -> mode <> NMBM_MODE_RAW ->
  0 <= addr -> 0 < zlen data -> zlen buf = zlen data -> addr + zlen data <= avail s ->
  Forall is_byte data ->
  (forall i, 0 <= i < zlen data -> logic_byte s (addr + i) = Some 255) ->
  wp (write_read addr data buf mode)
     (fun '(r, r', b) _ =>
        (r = 0 -> r' = 0 -> b = data) /\
        ((forall i, 0 <= i < zlen data -> live programmable s (page_of (addr + i))) ->
         (forall i, 0 <= i < zlen data -> live reliable_page s (page_of (addr + i))) ->
         r = 0 /\ r' = 0)) s.
Proof. apply write_read_ok. Qed.

(** C8 [nmbm_erase_logic_block] returns after at most as many retries as
    there are spare blocks, with success and a logic block whose every byte
    reads 0xff, or with [-EIO].  Either way no byte of another logic block
    changes, if the mapping was exclusive before. *)
Theorem nmbm_erase_logic_block_correct s lb :
  device_ok s -> mapping_ok s -> 0 <= lb < block_count ->
  wp (nmbm_erase_logic_block lb) (fun r s' =>
    device_ok s' /\
    (r = 0 /\ (forall i, i / erasesize = lb -> logic_byte s' i = Some 255) \/ r = - EIO) /\
    (forall i, i / erasesize <> lb -> logic_byte s' i = logic_byte s i)) s.
Proof.
  intros Hd Hm Hlb. eapply wp_conseq; [by apply erase_logic_ok|]. intros r s' [He Hr].
  split; [apply He|]. split.
  - destruct Hr as [[-> Hbl]| ->]; [left|by right]. split; [done|]. intros i Hi. by eapply blank_block_bytes.
  - intros i Hi. by eapply erasing_frame.
Qed.

(** On a block that is good and erases without error,
    [nmbm_erase_logic_block] succeeds and leaves the tables alone. *)
Theorem nmbm_erase_logic_block_live s lb pb :
  device_ok s -> 0 <= lb < block_count -> znth (block_mapping s) lb = Some pb -> 0 <= pb ->
  good (block_state s) pb -> erasable pb ->
  wp (nmbm_erase_logic_block lb) (fun r s' => r = 0 /\ exists d', s' = s <| dev := d' |>) s.
Proof. apply erase_logic_live. Qed.

(** C20 [nmbm_write_range] on a valid range returns.  Whatever it returns,
    each of the first [*retlen] bytes of the range is the old byte with the
    zero bits of the data cleared.  On success these are all the bytes, and
    only pages of the range have changed.  An error is reported at a page:
    [*retlen] is less than the length, and outside the management area no page
    behind the one that holds byte [*retlen] has changed.  There is no error
    if all pages of the range are usable. *)
Theorem nmbm_write_range_correct s addr data mode :
  device_ok s -> mapping_ok s -> protected s = 0 -> mode <> NMBM_MODE_RAW ->
  0 <= addr -> 0 < zlen data -> addr + zlen data <= avail s ->
  wp (nmbm_write_range addr data mode) (write_range_post s addr data) s.
Proof. apply write_range_ok. Qed.

(** [nmbm_read_range] on a valid range returns; the first [*retlen]
    bytes of the buffer are the logic bytes of the range (unless the mode is
    raw), all of them on success, which is certain if all pages of the range are readable. *)
Theorem nmbm_read_range_correct s addr buf mode :
  device_ok s -> protected s = 0 -> 0 <= addr -> 0 < zlen buf -> addr + zlen buf <= avail s ->
  wp (nmbm_read_range addr buf mode) (read_range_post s addr buf mode) s.
Proof. apply read_range_ok. Qed.

(** [nmbm_erase_block_range] on a valid range keeps the device invariant
    and returns success, or [-EIO] with the address of a block of the range. *)
Theorem nmbm_erase_block_range_correct s addr size :
  device_ok s -> protected s = 0 -> 0 <= addr -> 0 < size -> addr + size <= avail s ->
  wp (nmbm_erase_block_range addr size) (erase_range_post s addr size) s.
Proof. apply erase_block_range_ok. Qed.

(** When the highest spare block is good, [nmbm_map_block] maps the logic
    block to exactly that block, keeps the mapping exclusive, and leaves the
    invariants intact. *)
Theorem nmbm_map_block_exclusive s lb :
  device_ok s -> mapping_ok s -> 0 <= lb < block_count ->
  mapping_blocks_ba s < mapping_blocks_top_ba s ->
  good (block_state s) (mapping_blocks_top_ba s) ->
  wp (nmbm_map_block lb) (fun ok s' =>
    ok = true /\ s' = mapped_to s lb (mapping_blocks_top_ba s) /\ device_ok s' /\ mapping_ok s') s.
Proof.
  intros Hd Hm Hlb Hspare Hg. apply map_block_ok; [apply Hd|done|lia| |].
  - intros pb Hpb Hgp Htop. assert (pb = mapping_blocks_top_ba s) as ->.
    { destruct (Z_lt_le_dec pb (mapping_blocks_top_ba s)); [|lia]. by destruct (Htop (mapping_blocks_top_ba s)); [lia|]. }
    split_and!; [done|done|by apply device_mapped|by apply mapping_ok_mapped; [|apply Hd|]].
  - intros s' _ _ Hnone. by destruct (Hnone (mapping_blocks_top_ba s)); [lia|].
Qed.

(** [nmbm_write_mgmt_range] writes outside no block of its range, retires
    only good blocks of the range, and on success the data lies, erase block
    by erase block, in the good blocks from the returned start to the returned
    end, with no good block before the start. *)
Theorem nmbm_write_mgmt_range_correct s ba limit data :
  buffers_ok s -> 0 <= ba -> limit <= block_count -> 0 < zlen data -> zlen data < 2 ^ 28 -> Forall is_byte data ->
  wp (nmbm_write_mgmt_range ba limit data) (fun r s' =>
    mgmt_step (within ba limit) s s' /\
    match r with Some (start, e) => written_at s' ba limit data start e | None => True end) s.
Proof. intros Hb H1 H2 H3 H4 H5. by apply write_mgmt_ok. Qed.

(** [nmbn_write_verify_data] reports success only if reading the flash
    afterwards yields the data, and touches no other page. *)
Theorem nmbn_write_verify_data_correct s addr data :
  buffers_ok s -> 0 <= addr -> addr + zlen data < 2 ^ 64 ->
  wp (nmbn_write_verify_data addr data) (fun ok s' =>
    io_step (fun p => exists i, 0 <= i < zlen data /\ p = page_of (addr + i)) s s' /\
    (ok = true -> stored (dev s') addr data)) s.
Proof.
  intros Hb H1 H2.
  apply (write_verify_ok (fun p => exists i, 0 <= i < zlen data /\ p = page_of (addr + i))); eauto.
Qed.

(** [nmbm_write_signature] puts a copy of the signature in every page of
    the highest good block above [limit]; every block above it is not good. *)
Theorem nmbm_write_signature_correct s limit sig :
  buffers_ok s -> 0 <= limit -> zlen sig <= writesize -> Forall is_byte sig ->
  wp (nmbm_write_signature limit sig) (fun r s' =>
    mgmt_step (within (limit + 1) block_count) s s' /\
    match r with
    | Some ba => limit < ba < block_count /\ good (block_state s') ba /\
                 (forall b, ba < b < block_count -> ~ good (block_state s') b) /\
                 copies (dev s') ba pages_per_block sig
    | None => True
    end) s.
Proof. intros Hb H1 H2 H3. by apply write_signature_ok. Qed.

(** C30 [nmbm_create_new] on a freshly initialised instance returns; success
    means a running device whose management area starts at the boundary of
    the chip's geometry, with clean tables, and a checksummed signature that
    describes the chip in every page of a block above it. *)
Theorem nmbm_create_new_correct s :
  init_ok s -> nmbm_check_lower_members = true -> size2blk info_table_size <= create_mgmt_start ->
  padding_ok (signature s) -> protected s = 0 ->
  wp nmbm_create_new (fun ok s' => ok = true -> created s') s.
Proof. intros H1 H2 H3 H4 H5. by apply create_new_ok. Qed.

End Guarantees.

Section Tables.
Context {D : Type} {L : nmbm_lower_device D} {GO : geometry_ok L}.
Implicit Types s : nmbm_instance D.

(** [nmbm_generate_info_table_cache] builds an image of the right size
    whose checksum and header are valid, that holds the state table and the
    mapping table at the header's offsets, and it counts the write exactly
    when a table changed. *)
Theorem nmbm_generate_info_table_cache_image s :
  buffers_ok s -> offsets_ok (info_table s) -> info_header_wf (info_table s) ->
  wp nmbm_generate_info_table_cache (fun changed s' =>
    changed = tables_changed s /\ info_table s' = next_header s /\
    table_image (next_header s) (block_state s) (block_mapping s) (info_table_cache s') /\
    s' = s <| info_table := next_header s |> <| info_table_cache := info_table_cache s' |>) s.
Proof. intros H1 H2 H3. apply generate_ok; try done. Qed.

(** C35 The size [nmbm_calc_structure_size] asks for is exactly what
    [nmbm_init_structure] uses, which stays inside the memory and leaves every
    buffer in its place and every block in the state good. *)
Theorem nmbm_init_structure_fits s mem :
  zlen mem = nmbm_calc_structure_size -> Forall is_byte mem -> info_header_wf (info_table s) ->
  nmbm_calc_structure_size = info_table_size + state_table_size + mapping_table_size + rawpage_size /\
  exists s', nmbm_init_structure mem s = Ret tt s' /\ init_ok s'.
Proof.
  intros H1 H2 H3. split; [apply calc_structure_size_spec|].
  destruct (init_structure_ok s mem) as (s' & E & Hi & _); [done..|]. eauto.
Qed.

(** The management area that [nmbm_create_new] sets up starts exactly
    where [nmbm_find_signature] stops searching. *)
Theorem create_find_boundary : nmbm_check_lower_members = true -> create_mgmt_start = find_limit.
Proof. apply mgmt_boundary_same. Qed.

(** [nmbm_set_block_state] changes the state of one block to the given
    one, of no other block, and reports and counts exactly the real changes. *)
Theorem nmbm_set_block_state_correct s ba st :
  buffers_ok s -> 0 <= ba < block_count -> 0 <= st <= 3 ->
  wp (nmbm_set_block_state ba st) (fun changed s' =>
    buffers_ok s' /\ state_of (block_state s') ba = st /\
    (forall b, 0 <= b -> b <> ba -> state_of (block_state s') b = state_of (block_state s) b) /\
    changed = negb (state_of (block_state s) ba =? st) /\
    block_state_changed s' =
      (if changed : bool then u32 (block_state_changed s + 1) else block_state_changed s)) s.
Proof.
  intros Hb Hr Hst. apply wp_set_block_state; [done..|].
  destruct (set_state_spec s ba st Hb Hr Hst) as (H1 & H2 & _).
  split_and!; [by apply buffers_ok_set_state|done|done|done|]. cbn [block_state_changed].
  by destruct (_ =? st).
Qed.

(** [nmbm_block_walk] upwards from [ba] finds the [count]-th good block
    (from 0) of those below the limit, and nothing if there are fewer. *)
Theorem nmbm_block_walk_asc_nth s ba count limit :
  buffers_ok s -> 0 <= ba -> 0 <= count < 2 ^ 31 -> 0 <= limit < 2 ^ 31 ->
  wp (nmbm_block_walk true ba count limit) (fun r s' =>
    s' = s /\ r = good_asc (block_state s) ba (Z.min limit (block_count - 1)) !! Z.to_nat count) s.
Proof. intros H1 H2 H3 H4. apply walk_ok_asc; try done. by rewrite walk_limit_spec. Qed.

(** [nmbm_block_walk] downwards, likewise. *)
Theorem nmbm_block_walk_desc_nth s ba count limit :
  buffers_ok s -> 0 <= ba < block_count -> 0 <= count < 2 ^ 31 -> 0 <= limit < 2 ^ 31 ->
  wp (nmbm_block_walk false ba count limit) (fun r s' =>
    s' = s /\ r = good_desc (block_state s) ba (Z.min limit (block_count - 1)) !! Z.to_nat count) s.
Proof. intros H1 H2 H3 H4. apply walk_ok_desc; try done. by rewrite walk_limit_spec. Qed.

(** [nmbm_try_reserve_blocks] returns the good block as many good blocks
    up as asked for, or as many as there are if there are fewer. *)
Theorem nmbm_try_reserve_blocks_correct s ba count limit :
  buffers_ok s -> 0 <= ba -> 0 <= count < 2 ^ 31 -> 0 <= limit < 2 ^ 31 ->
  let l := good_asc (block_state s) ba (walk_limit limit) in
  wp (nmbm_try_reserve_blocks ba count 0 limit) (fun r s' =>
    s' = s /\ r = l !! Nat.min (Z.to_nat count) (length l - 1)) s.
Proof. intros H1 H2 H3 H4 l. by apply try_reserve_ok. Qed.

(** [nmbm_build_mapping_table] maps the logic blocks one after the other
    to the blocks below the management area that are not bad, unmaps the
    rest, and counts the mapped ones. *)
Theorem nmbm_build_mapping_table_correct s :
  buffers_ok s -> 0 <= mgmt_start_ba s <= block_count ->
  let l := nonbad_asc (block_state s) 0 (mgmt_start_ba s) in
  nmbm_build_mapping_table s =
  Ret tt (s <| block_mapping := l ++ replicate (Z.to_nat (block_count - zlen l)) (-1) |>
            <| data_block_count := zlen l |>).
Proof. apply build_mapping_table_ok. Qed.

(** On a device forced read-only every access reports [-EROFS] and
    changes nothing. *)
Theorem protected_device_refuses s addr data buf size mode :
  protected s <> 0 ->
  nmbm_write_range addr data mode s = Ret (- EROFS, None) s /\
  nmbm_erase_block_range addr size s = Ret (- EROFS, None) s /\
  nmbm_read_range addr buf mode s = Ret (- EROFS, buf, None) s /\
  nmbm_write_single_page addr (Some data) None mode s = Ret (- EROFS) s.
Proof.
  intros Hp. apply Z.eqb_neq in Hp.
  unfold nmbm_write_range, nmbm_erase_block_range, nmbm_read_range, nmbm_write_single_page, bind, gets.
  rewrite Hp. done.
Qed.

End Tables.

(** [nmbm_update_checksum] makes a block of data with a header pass
    [nmbm_check_header], and changes nothing but the checksum field. *)
Theorem nmbm_checksum_roundtrip data :
  Forall is_byte data -> 16 <= h_size (header_of_bytes data) <= zlen data -> zlen data <= UINT_MAX ->
  exists data', nmbm_update_checksum data = Some data' /\ zlen data' = zlen data /\
    (forall o n, o + n <= 12 \/ 16 <= o -> slice data' o n = slice data o n) /\
    forall size, h_size (header_of_bytes data) <= size -> nmbm_check_header data' size = Some true.
Proof.
  intros H1 H2 H3. destruct (update_checksum_ok data H1 H2 H3) as (d & E & Hl & _ & Hs & Hc). eauto.
Qed.

(** The on-flash signature and the structure determine each other. *)
Theorem nmbm_signature_roundtrip b :
  Forall is_byte b -> length b = 48%nat ->
  signature_bytes (signature_of_bytes b) = b /\
  (forall g rest, signature_wf g -> signature_of_bytes (signature_bytes g ++ rest) = g).
Proof. intros H1 H2. split; [by apply signature_bytes_of_bytes|]. intros g rest. apply signature_image. Qed.

(** ** Runs on the simulated chip *)

Lemma nmbm_update_info_table_saves_witness :
  wp nmbm_update_info_table (fun ok s' => maint_step sim_changed s' /\ (ok = true -> synced s')) sim_changed.
Proof.
  eapply wp_conseq; [apply nmbm_update_info_table_saves, sim_changed_device|].
  intros ok s' (Hm & _ & Hok). split; [exact Hm|]. intros E. apply Hok; [exact E|vm_compute; reflexivity..].
Defined.

Lemma nmbm_try_load_restores_witness :
  wp (nmbm_try_load_info_table 48 false) (fun r s' =>
    r <> None /\ block_state s' = block_state sim_saved /\ block_mapping s' = block_mapping sim_saved) sim_reboot.
Proof.
  eapply wp_conseq; [apply (nmbm_try_load_restores sim_reboot 48 (info_table sim_saved) (block_state sim_saved)
    (block_mapping sim_saved) (info_table_cache sim_saved) false)|].
  - apply (by_decision _). vm_compute. reflexivity.
  - apply sim_saved_at.
  - vm_compute. split; congruence.
  - apply fits_check_ok. vm_compute. reflexivity.
  - intros r s' (m & _ & -> & _ & H1 & H2 & _). split; [congruence|]. split; [exact H1|exact H2].
Defined.

(** Every page of the attached chip is usable. *)
Lemma sim_live (R : Z -> Prop) i :
  (forall a, R a) -> 0 <= i < 48 * 512 -> live R sim0 i.
Proof.
  intros HR Hi. change erasesize with 512.
  assert (Hlb : 0 <= i / 512 < 48) by (split; [apply Z.div_pos; lia|apply Z.div_lt_upper_bound; lia]).
  assert (H : forall lb, 0 <= lb < 48 -> znth (block_mapping sim0) lb = Some lb /\
                        state_of (block_state sim0) lb = BLOCK_ST_GOOD).
  { apply (by_decision _). vm_compute. reflexivity. }
  destruct (H _ Hlb) as [H1 H2]. exists (i / 512). split_and!; [exact H1|lia|by rewrite H2|apply HR].
Qed.

Lemma nmbm_write_read_roundtrip_witness :
  wp (write_read 70 [1; 2; 3; 4] (fill 0 4) NMBM_MODE_PLACE_OOB)
     (fun '(r, r', b) _ => r = 0 /\ r' = 0 /\ b = [1; 2; 3; 4]) sim0.
Proof.
  eapply wp_conseq; [apply (nmbm_write_read_roundtrip sim0)|].
  - apply sim_device.
  - apply sim_mapping.
  - vm_compute. reflexivity.
  - congruence.
  - lia.
  - unfold zlen. simpl. lia.
  - vm_compute. reflexivity.
  - vm_compute. congruence.
  - apply (by_decision _). vm_compute. reflexivity.
  - apply (by_decision _). vm_compute. reflexivity.
  - intros [[r r'] b] s' [Hb Hlive].
    destruct Hlive as [-> ->].
    + intros i Hi. apply sim_live; [intros a; by apply sim_programmable|].
      revert i Hi. apply (by_decision _). vm_compute. reflexivity.
    + intros i Hi. apply sim_live; [intros a; by apply sim_reliable|].
      revert i Hi. apply (by_decision _). vm_compute. reflexivity.
    + split_and!; [reflexivity|reflexivity|by apply Hb].
Defined.

Lemma nmbm_erase_logic_block_correct_witness :
  wp (nmbm_erase_logic_block 5) (fun r s' => r = 0 -> logic_byte s' 2600 = Some 255) sim0.
Proof.
  eapply wp_conseq; [apply (nmbm_erase_logic_block_correct sim0 5)|].
  - apply sim_device.
  - apply sim_mapping.
  - vm_compute. split; congruence.
  - intros r s' (_ & [[_ Hb]|Hr] & _) E; [apply Hb; reflexivity|]. rewrite Hr in E. vm_compute in E. congruence.
Defined.

Lemma nmbm_erase_logic_block_live_witness :
  wp (nmbm_erase_logic_block 5) (fun r s' => r = 0 /\ exists d', s' = sim0 <| dev := d' |>) sim0.
Proof.
  apply (nmbm_erase_logic_block_live sim0 5 5).
  - apply sim_device.
  - vm_compute. split; congruence.
  - vm_compute. reflexivity.
  - lia.
  - vm_compute. reflexivity.
  - by apply sim_erasable.
Defined.

Lemma nmbm_write_range_correct_witness :
  wp (nmbm_write_range 70 [1; 2; 3; 4] NMBM_MODE_PLACE_OOB) (write_range_post sim0 70 [1; 2; 3; 4]) sim0.
Proof.
  apply nmbm_write_range_correct; try (vm_compute; congruence); [apply sim_device|apply sim_mapping].
Defined.

Lemma nmbm_read_range_correct_witness :
  wp (nmbm_read_range 70 (fill 0 100) NMBM_MODE_PLACE_OOB) (read_range_post sim0 70 (fill 0 100) NMBM_MODE_PLACE_OOB) sim0.
Proof. apply nmbm_read_range_correct; try (vm_compute; congruence). apply sim_device. Defined.

Lemma nmbm_erase_block_range_correct_witness :
  wp (nmbm_erase_block_range 512 2048) (erase_range_post sim0 512 2048) sim0.
Proof. apply nmbm_erase_block_range_correct; try (vm_compute; congruence). apply sim_device. Defined.

Lemma nmbm_map_block_exclusive_witness :
  wp (nmbm_map_block 5) (fun ok s' => ok = true /\ znth (block_mapping s') 5 = Some 62 /\ mapping_ok s') sim0.
Proof.
  eapply wp_conseq; [apply (nmbm_map_block_exclusive sim0 5)|].
  - apply sim_device.
  - apply sim_mapping.
  - vm_compute. split; congruence.
  - vm_compute. reflexivity.
  - vm_compute. reflexivity.
  - intros ok s' (-> & -> & _ & Hm). split_and!; [reflexivity|vm_compute; reflexivity|exact Hm].
Defined.

Lemma nmbm_write_mgmt_range_correct_witness :
  wp (nmbm_write_mgmt_range 50 60 (fill 7 600)) (fun r s' => mgmt_step (within 50 60) sim0 s') sim0.
Proof.
  eapply wp_conseq; [apply (nmbm_write_mgmt_range_correct sim0 50 60 (fill 7 600)); try (vm_compute; congruence)|].
  - apply sim_device.
  - by apply fill_is_byte.
  - intros r s' [H _]. exact H.
Defined.

Lemma nmbn_write_verify_data_correct_witness :
  wp (nmbn_write_verify_data 1024 [1; 2; 3]) (fun ok s' => ok = true -> stored (dev s') 1024 [1; 2; 3]) sim0.
Proof.
  eapply wp_conseq; [apply (nmbn_write_verify_data_correct sim0 1024 [1; 2; 3]); try (vm_compute; congruence)|].
  - apply sim_device.
  - intros ok s' [_ H]. exact H.
Defined.

Lemma nmbm_write_signature_correct_witness :
  wp (nmbm_write_signature 50 (fill 1 48)) (fun r s' =>
    mgmt_step (within 51 64) sim0 s' /\
    match r with Some ba => copies (dev s') ba 8 (fill 1 48) | None => True end) sim0.
Proof.
  eapply wp_conseq; [apply (nmbm_write_signature_correct sim0 50 (fill 1 48)); try (vm_compute; congruence)|].
  - apply sim_device.
  - by apply fill_is_byte.
  - intros [ba|] s' [H1 H2]; split; [exact H1|apply H2|exact H1|exact I].
Defined.

Lemma sim_fresh_init : init_ok sim_fresh.
Proof.
  constructor.
  1-4: apply (by_decision _); vm_compute; reflexivity.
  vm_compute. reflexivity.
Qed.

Lemma nmbm_create_new_correct_witness : wp nmbm_create_new (fun ok s' => ok = true -> created s') sim_fresh.
Proof.
  apply nmbm_create_new_correct.
  - apply sim_fresh_init.
  - vm_compute. reflexivity.
  - vm_compute. congruence.
  - unfold padding_ok. split_and!; try (vm_compute; reflexivity); vm_compute; repeat constructor; congruence.
  - vm_compute. reflexivity.
Defined.

Lemma nmbm_generate_info_table_cache_image_witness :
  wp nmbm_generate_info_table_cache (fun changed s' => changed = true /\
    table_image (L := sim_lower (F := no_faults)) (next_header sim_changed) (block_state sim_changed)
      (block_mapping sim_changed) (info_table_cache s')) sim_changed.
Proof.
  eapply wp_conseq; [apply (nmbm_generate_info_table_cache_image sim_changed); apply sim_changed_device|].
  intros c s' (-> & _ & Hi & _). split; [vm_compute; reflexivity|exact Hi].
Defined.

Lemma nmbm_init_structure_fits_witness :
  exists s' : nmbm_instance (sim no_faults),
    nmbm_init_structure (sim_mem (F := no_faults)) (zero_instance blank_sim) = Ret tt s' /\ init_ok s'.
Proof.
  apply (nmbm_init_structure_fits (zero_instance blank_sim) (sim_mem (F := no_faults))).
  - vm_compute. reflexivity.
  - apply (by_decision _). vm_compute. reflexivity.
  - apply (by_decision _). vm_compute. reflexivity.
Defined.

Lemma create_find_boundary_witness : create_mgmt_start (L := sim_lower (F := no_faults)) = find_limit (L := sim_lower (F := no_faults)).
Proof. apply create_find_boundary. vm_compute. reflexivity. Defined.

Lemma nmbm_set_block_state_correct_witness :
  wp (nmbm_set_block_state 37 BLOCK_ST_NEED_REMAP)
     (fun changed s' => changed = true /\ state_of (block_state s') 37 = BLOCK_ST_NEED_REMAP) sim0.
Proof.
  eapply wp_conseq; [apply (nmbm_set_block_state_correct sim0 37 BLOCK_ST_NEED_REMAP)|].
  - apply sim_device.
  - vm_compute. split; congruence.
  - vm_compute. split; congruence.
  - intros c s' (_ & H & _ & -> & _). split; [vm_compute; reflexivity|exact H].
Defined.

Lemma nmbm_block_walk_asc_nth_witness :
  wp (nmbm_block_walk true 3 4 20) (fun r s' => s' = sim_changed /\ r = Some 8) sim_changed.
Proof.
  eapply wp_conseq; [apply (nmbm_block_walk_asc_nth sim_changed 3 4 20); try lia; apply sim_changed_device|].
  intros r s' [-> ->]. split; [reflexivity|vm_compute; reflexivity].
Defined.

Lemma nmbm_block_walk_desc_nth_witness :
  wp (nmbm_block_walk false 8 3 0) (fun r s' => s' = sim_changed /\ r = Some 4) sim_changed.
Proof.
  eapply wp_conseq; [apply (nmbm_block_walk_desc_nth sim_changed 8 3 0)|].
  - apply sim_changed_device.
  - vm_compute. split; congruence.
  - lia.
  - lia.
  - intros r s' [-> ->]. split; [reflexivity|vm_compute; reflexivity].
Defined.

Lemma nmbm_try_reserve_blocks_correct_witness :
  wp (nmbm_try_reserve_blocks 3 40 0 10) (fun r s' => s' = sim_changed /\ r = Some 9) sim_changed.
Proof.
  eapply wp_conseq; [apply (nmbm_try_reserve_blocks_correct sim_changed 3 40 10); try lia; apply sim_changed_device|].
  intros r s' [-> ->]. split; [reflexivity|vm_compute; reflexivity].
Defined.

Lemma nmbm_build_mapping_table_correct_witness :
  exists s', nmbm_build_mapping_table sim_changed = Ret tt s' /\ data_block_count s' = 47.
Proof.
  eexists. split; [apply (nmbm_build_mapping_table_correct sim_changed)|vm_compute; reflexivity].
  - apply sim_changed_device.
  - vm_compute. split; congruence.
Defined.

Lemma nmbm_checksum_roundtrip_witness :
  exists data', nmbm_update_checksum (info_table_cache sim0) = Some data' /\
    nmbm_check_header data' (info_table_size (L := sim_lower (F := no_faults))) = Some true.
Proof.
  destruct (nmbm_checksum_roundtrip (info_table_cache sim0)) as (d & E & _ & _ & Hc).
  - apply (by_decision _). vm_compute. reflexivity.
  - vm_compute. split; congruence.
  - vm_compute. congruence.
  - exists d. split; [exact E|]. apply Hc. vm_compute. congruence.
Defined.

Lemma nmbm_signature_roundtrip_witness :
  signature_bytes (signature_of_bytes (fill 90 48)) = fill 90 48.
Proof.
  apply (nmbm_signature_roundtrip (fill 90 48)); [|reflexivity].
  apply (by_decision _). vm_compute. reflexivity.
Defined.

(** C14 Any sequence of calls on an attached device, in any order and with any
    result, returns and leaves the instance well-formed: buffers and tables
    keep their sizes and widths, the mapping points into the chip, and the
    management area stays where it was put. *)
Theorem nmbm_calls_well_formed {D} {L : nmbm_lower_device D} {P : NandModel D}
    {GO : geometry_ok L} {NL : nand_laws L P} (s : nmbm_instance D) (cs : list nmbm_call) :
  device_ok s -> Forall call_wf cs -> wp (run_calls cs) (fun rs s' => length rs = length cs /\ device_ok s') s.
Proof. apply run_calls_keep. Qed.

Lemma nmbm_calls_well_formed_witness :
  wp (run_calls [CallEraseRange 0 600; CallWriteRange 70 [1; 2; 3] NMBM_MODE_PLACE_OOB; CallMarkBad 1024;
                 CallReadPage 64 None None NMBM_MODE_RAW; CallCheckBad 1024])
     (fun rs s' => length rs = 5%nat /\ device_ok s') sim0.
Proof.
  apply (nmbm_calls_well_formed sim0); [apply sim_device|].
  repeat apply Forall_cons_2; [| | | | |apply Forall_nil_2]; cbn.
  - lia.
  - change (zlen [1; 2; 3]) with 3. lia.
  - lia.
  - split; [lia|]. exists 1. reflexivity.
  - lia.
Defined.
