(* ===== verification/NmbmFindings.v ===== *)
(** * Where NMBM departs from what it means to do

    Runs of the model on the simulated chip that show it. *)

From stdpp Require Import base numbers list gmap.
From Stdlib Require Import ZArith Lia.
From S2P Require Import Prelude IntLib Crc32 NmbmTypes NmbmPhys NmbmState NmbmTable NmbmLogic NmbmAttach NmbmSim NmbmRun.

(** A chip with a factory bad block in the spare area (61), on which three
    data blocks fail to erase. *)
Definition worn_faults : faults := mkFaults [5 * 512; 6 * 512; 7 * 512] [] [] true.
Definition worn_chip : nmbm_instance (sim worn_faults) :=
  run_state (sim_attach (mkSim ∅ [61 * 512])) (zero_instance blank_sim).

Definition erase_three : M (nmbm_instance (sim worn_faults)) (Z * Z * Z) :=
  do a <- nmbm_erase_logic_block 5;
  do b <- nmbm_erase_logic_block 6;
  do c <- nmbm_erase_logic_block 7;
  ret (a, b, c).

(** When the walk for a spare block passes a bad one, [nmbm_map_block]
    lowers the top by one instead of below the block it took, and hands the
    same block out again: three successful erases leave two logic blocks
    mapped to one physical block. *)
Theorem nmbm_map_block_aliases :
  exists s', erase_three worn_chip = Ret (0, 0, 0) s' /\
    znth (block_mapping s') 6 = Some 60 /\ znth (block_mapping s') 7 = Some 60.
Proof. eexists. split; [vm_compute; reflexivity|]. split; reflexivity. Qed.

(** Two partial page writes to an erased device, then the second page read. *)
Definition partial_writes : M (nmbm_instance (sim no_faults)) (Z * Z * list Z) :=
  do '(a, _) <- nmbm_write_range 64 [1; 2; 3] NMBM_MODE_PLACE_OOB;
  do '(b, _) <- nmbm_write_range 128 [7] NMBM_MODE_PLACE_OOB;
  do '(_, buf, _) <- nmbm_read_range 128 (fill 0 3) NMBM_MODE_PLACE_OOB;
  ret (a, b, buf).

(** [nmbm_write_range] fills only the part of the page buffer before a
    partial chunk: writing the single byte 7 to an erased page also programs
    the bytes 2 and 3 that an earlier write left in the buffer. *)
Theorem nmbm_write_range_stale_bytes :
  exists s', partial_writes sim0 = Ret (0, 0, [7; 2; 3]) s'.
Proof. eexists. vm_compute. reflexivity. Qed.

(** A table image whose mapping offset lies beyond its end and whose state
    offset is 0: both differences the check forms wrap around. *)
Definition wrapped_header : list Z :=
  info_table_header_bytes (mkInfoHeader (mkHeader NMBM_MAGIC_INFO_TABLE NMBM_VER
    (info_table_size (L := sim_lower (F := no_faults))) 0) 0 0
    (info_table_size (L := sim_lower (F := no_faults)) + 1) 0).

(** [nmbm_check_info_table_header] accepts a header whose mapping table
    does not lie inside the table (the unsigned subtraction wraps). *)
Theorem nmbm_check_info_table_header_wraps :
  nmbm_check_info_table_header (L := sim_lower (F := no_faults)) wrapped_header = true /\
  forall img : list Z, zlen img = info_table_size (L := sim_lower (F := no_faults)) ->
    slice img (mapping_table_off (info_table_header_of_bytes wrapped_header))
      (mapping_table_size (L := sim_lower (F := no_faults))) = None.
Proof.
  split; [vm_compute; reflexivity|]. intros img Hl.
  destruct (slice img _ _) as [d|] eqn:E; [|done]. exfalso.
  apply slice_inv in E as (_ & _ & Hb & _). rewrite Hl in Hb. vm_compute in Hb. congruence.
Qed.

(** A chip on which the first block of the management area cannot be written. *)
Definition weak_faults : faults := mkFaults [] [48 * 512] [] true.
Definition weak_chip : nmbm_instance (sim weak_faults) := sim_attached weak_faults.

(** A block that fails while the tables are written is recorded in
    memory, the change is forgotten although the image on flash still calls
    the block good, and the tables count as saved. *)
Theorem nmbm_update_forgets_new_bad_block :
  run_value (sim_attach (F := weak_faults) blank_sim) = Some 0 /\
  state_of (block_state weak_chip) 48 = BLOCK_ST_BAD /\ tables_changed weak_chip = false /\
  exists states,
    slice (info_table_cache weak_chip) (state_table_off (info_table weak_chip))
      (state_table_size (L := sim_lower (F := weak_faults))) = Some states /\
    state_of (le_words states) 48 = BLOCK_ST_GOOD.
Proof.
  split; [vm_compute; reflexivity|]. split; [vm_compute; reflexivity|]. split; [vm_compute; reflexivity|].
  eexists. split; vm_compute; reflexivity.
Qed.
