(* ===== verification/NetWire.v ===== *)
(** * Ethernet, IP and TCP headers ([net/net.c], [net/checksum.c],
      [net/tcp.c], [include/net.h], [net/tcp.h])

    Headers are records of the values a 32-bit little-endian machine loads
    from memory, so a network-order field is kept as it is stored and
    [htons]/[ntohs] appear where the code has them.  The file builds the
    frames the TCP stack sends, reads the headers it receives, and shows
    that what is sent passes the receiver's checks and parses back. *)

From stdpp Require Import base numbers list.
From Stdlib Require Import ZArith Lia.
From S2P Require Import Prelude.

(** ** Byte order *)

Definition swab16 (x : Z) : Z :=
  Z.lor (Z.shiftl (Z.land x 255) 8) (Z.shiftr (Z.land x (Z.shiftl 255 8)) 8).
Definition swab32 (x : Z) : Z :=
  Z.lor (Z.shiftl (Z.land x 255) 24)
    (Z.lor (Z.shiftl (Z.land x (Z.shiftl 255 8)) 8)
      (Z.lor (Z.shiftr (Z.land x (Z.shiftl 255 16)) 8)
        (Z.shiftr (Z.land x (Z.shiftl 255 24)) 24))).

Definition htons (x : Z) : Z := swab16 (u16 x).
Definition ntohs (x : Z) : Z := swab16 (u16 x).
Definition htonl (x : Z) : Z := swab32 (u32 x).
Definition ntohl (x : Z) : Z := swab32 (u32 x).

(** A checked load of [n] bytes. *)
Definition load (n : nat) (off : Z) (l : list Z) : option Z :=
  match slice l off (Z.of_nat n) with Some d => Some (le_value d) | None => None end.

(** ** Internet checksum *)

(** [while (len > 1) { sum += *ptr++; len -= 2; }  if (len == 1) ...], with
    an [int] accumulator, over the bytes still to be summed. *)
Fixpoint sum_words (data : list Z) (sum : Z) : Z :=
  match data with
  | b0 :: b1 :: t => sum_words t (i32 (sum + le_value [b0; b1]))
  | [b] => i32 (sum + le_value [b; 0])
  | [] => sum
  end.

(** The two folding steps and the complement. *)
Definition fold_sum (sum : Z) : Z :=
  let sum := i32 (Z.shiftr sum 16 + Z.land sum 65535) in
  let sum := i32 (sum + Z.shiftr sum 16) in
  Z.land (Z.lnot sum) 65535.

Definition compute_ip_checksum (data : list Z) (nbytes : Z) : option Z :=
  match slice data 0 nbytes with
  | Some d => Some (fold_sum (sum_words d 0))
  | None => None
  end.

Definition ip_checksum_ok (data : list Z) (nbytes : Z) : option bool :=
  match compute_ip_checksum data nbytes with
  | Some c => Some (Z.land c 65534 =? 0)
  | None => None
  end.

Definition IPPROTO_TCP : Z := 6.

Definition tcp_pseudo_hdr (sip dip len : Z) : list Z :=
  le_bytes 4 sip ++ le_bytes 4 dip ++ [0; IPPROTO_TCP] ++ le_bytes 2 (htons (Z.land len 65535)).

(** A negative [len] sums the pseudo header only. *)
Definition tcp_checksum_compute (data : list Z) (len sip dip : Z) : option Z :=
  let sum := sum_words (tcp_pseudo_hdr sip dip len) 0 in
  match slice data 0 (Z.max len 0) with
  | Some d => Some (u16 (fold_sum (sum_words d sum)))
  | None => None
  end.

(** ** Ethernet header *)

Definition PROT_IP : Z := 2048.
Definition PROT_VLAN : Z := 33024.
Definition VLAN_NONE : Z := 4095.
Definition VLAN_IDMASK : Z := 4095.

(** The header [net_set_ether] writes (its result is the length), for the
    addresses [net_ethaddr] and the tag [net_our_vlan]. *)
Definition net_set_ether (net_ethaddr : list Z) (net_our_vlan : Z)
    (dest_ethaddr : list Z) (prot : Z) : list Z :=
  let myvlanid := ntohs net_our_vlan in
  let myvlanid := if myvlanid =? 65535 then VLAN_NONE else myvlanid in
  if Z.land myvlanid VLAN_IDMASK =? VLAN_NONE
  then dest_ethaddr ++ net_ethaddr ++ le_bytes 2 (htons prot)
  else dest_ethaddr ++ net_ethaddr ++ le_bytes 2 (htons PROT_VLAN) ++
       le_bytes 2 (htons (Z.lor (Z.shiftl 0 5) (Z.land myvlanid VLAN_IDMASK))) ++
       le_bytes 2 (htons prot).

(** ** IP header *)

Definition IP_HDR_SIZE : Z := 20.
Definition IP_FLAGS_DFRAG : Z := 16384.

Record ip_hdr := mkIp {
  ip_hl_v : Z; ip_tos : Z; ip_len : Z; ip_id : Z; ip_off : Z;
  ip_ttl : Z; ip_p : Z; ip_sum : Z; ip_src : Z; ip_dst : Z
}.

Definition ip_bytes (h : ip_hdr) : list Z :=
  le_bytes 1 (ip_hl_v h) ++ le_bytes 1 (ip_tos h) ++ le_bytes 2 (ip_len h) ++
  le_bytes 2 (ip_id h) ++ le_bytes 2 (ip_off h) ++ le_bytes 1 (ip_ttl h) ++
  le_bytes 1 (ip_p h) ++ le_bytes 2 (ip_sum h) ++ le_bytes 4 (ip_src h) ++
  le_bytes 4 (ip_dst h).

Definition ip_load (l : list Z) : option ip_hdr :=
  match load 1 0 l, load 1 1 l, load 2 2 l, load 2 4 l, load 2 6 l,
        load 1 8 l, load 1 9 l, load 2 10 l, load 4 12 l, load 4 16 l with
  | Some hl, Some tos, Some len, Some id, Some off,
    Some ttl, Some p, Some sum, Some s, Some d => Some (mkIp hl tos len id off ttl p sum s d)
  | _, _, _, _, _, _, _, _, _, _ => None
  end.

(** [id] is the value of [net_ip_id] before its increment. *)
Definition net_set_ip_header (h : ip_hdr) (id dest source : Z) : ip_hdr :=
  mkIp 69 0 (htons IP_HDR_SIZE) (htons id) (htons IP_FLAGS_DFRAG) 255 (ip_p h) 0 source dest.

(** ** TCP header *)

Definition TCP_HDR_SIZE : Z := 20.
Definition TCP_FIN : Z := 1.
Definition TCP_SYN : Z := 2.
Definition TCP_RST : Z := 4.
Definition TCP_PSH : Z := 8.
Definition TCP_ACK : Z := 16.
Definition TCP_URG : Z := 32.
Definition TCP_FLAG_MASK : Z := 63.
Definition TCP_HDR_LEN_MASK : Z := 15.
Definition TCP_HDR_LEN_SHIFT : Z := 12.
Definition TCP_OPT_EOL : Z := 0.
Definition TCP_OPT_NOP : Z := 1.
Definition TCP_OPT_MSS : Z := 2.
Definition TCP_OPT_WS : Z := 3.

Record tcp_hdr := mkTcp {
  src : Z; dst : Z; seq : Z; ack : Z; hflags : Z; wnd : Z; chksum : Z; urg : Z
}.

Definition tcp_bytes (h : tcp_hdr) : list Z :=
  le_bytes 2 (src h) ++ le_bytes 2 (dst h) ++ le_bytes 4 (seq h) ++ le_bytes 4 (ack h) ++
  le_bytes 2 (hflags h) ++ le_bytes 2 (wnd h) ++ le_bytes 2 (chksum h) ++ le_bytes 2 (urg h).

(** The header at the start of [l], when all its bytes are there. *)
Definition tcp_load (l : list Z) : option tcp_hdr :=
  match load 2 0 l, load 2 2 l, load 4 4 l, load 4 8 l,
        load 2 12 l, load 2 14 l, load 2 16 l, load 2 18 l with
  | Some s, Some d, Some q, Some a, Some f, Some w, Some c, Some u =>
      Some (mkTcp s d q a f w c u)
  | _, _, _, _, _, _, _, _ => None
  end.

(** The options of a SYN segment. *)
Definition tcp_set_mss_opt (mss : Z) : list Z :=
  [TCP_OPT_MSS; 4; Z.land (Z.shiftr mss 8) 255; Z.land mss 255; TCP_OPT_WS; 3; 0; TCP_OPT_EOL].

(** * Checksums *)

(** The sum of the 16-bit words of [l], an odd byte counting as a word. *)
Fixpoint word_sum (l : list Z) : Z :=
  match l with
  | b0 :: b1 :: t => b0 + 256 * b1 + word_sum t
  | [b] => b
  | [] => 0
  end.

Lemma pair_ind {A} (P : list A -> Prop) :
  P [] -> (forall a, P [a]) -> (forall a b l, P l -> P (a :: b :: l)) -> forall l, P l.
Proof.
  intros H0 H1 H2 l. enough (P l /\ forall a, P (a :: l)) by tauto.
  induction l as [|a l [IH1 IH2]]; split; auto.
Qed.

Lemma word_sum_bound l : Forall is_byte l -> 0 <= word_sum l <= 65535 * zlen l.
Proof.
  unfold zlen, is_byte. induction l as [|a|a b l IH] using pair_ind; intros Hb; simpl in *; [lia| |].
  - inversion_clear Hb. lia.
  - inversion_clear Hb as [|? ? Ha Hb']. inversion_clear Hb'. specialize (IH H0). lia.
Qed.

(** As long as the [int] does not overflow, the loops add up the words. *)
Lemma sum_words_sum l : Forall is_byte l -> forall s,
  0 <= s -> s + word_sum l < 2 ^ 31 -> sum_words l s = s + word_sum l.
Proof.
  unfold is_byte. induction l as [|a|a b l IH] using pair_ind; intros Hb s H0 Hs; simpl in *.
  - lia.
  - inversion_clear Hb. rewrite i32_small; lia.
  - inversion_clear Hb as [|? ? Ha Hb']. inversion_clear Hb' as [|? ? Hb0 Hl].
    pose proof (word_sum_bound l Hl). rewrite i32_small by lia. rewrite IH; [lia|done|lia|lia].
Qed.

Lemma word_sum_app l1 l2 : Nat.Even (length l1) -> word_sum (l1 ++ l2) = word_sum l1 + word_sum l2.
Proof.
  induction l1 as [|a|a b l IH] using pair_ind; intros He; simpl in *; [done| |].
  - exfalso. destruct He as [k ?]. lia.
  - rewrite IH; [lia|]. destruct He as [k ?]. exists (k - 1)%nat. lia.
Qed.

(** The fold: a value between 0 and 65535, congruent to the sum modulo
    65535, and 0 only for the sum 0. *)
Lemma fold_sum_spec s : 0 < s < 2 ^ 31 ->
  exists r, fold_sum s = 65535 - r /\ 1 <= r <= 65535 /\ r mod 65535 = s mod 65535.
Proof.
  intros Hs. unfold fold_sum.
  change 65535 with (Z.ones 16). rewrite !Z.land_ones, !Z.shiftr_div_pow2 by lia. change (Z.ones 16) with 65535.
  pose proof (Z.div_mod s (2 ^ 16) ltac:(lia)) as Hd.
  pose proof (Z.mod_pos_bound s (2 ^ 16) ltac:(lia)).
  pose proof (Z.div_pos s (2 ^ 16) ltac:(lia) ltac:(lia)).
  pose proof (Z.div_lt_upper_bound s (2 ^ 16) (2 ^ 15) ltac:(lia) ltac:(lia)).
  set (q := s / 2 ^ 16) in *. set (m := s mod 2 ^ 16) in *.
  rewrite (i32_small (q + m)) by lia.
  assert (Hmod : (q + m) mod 65535 = s mod 65535).
  { rewrite Hd. replace (2 ^ 16 * q + m) with (q + m + q * 65535) by lia. by rewrite Z_mod_plus_full. }
  unfold Z.lnot. destruct (Z_lt_le_dec (q + m) (2 ^ 16)) as [Hlt|Hge].
  - exists (q + m). rewrite (Z.div_small (q + m)) by lia. rewrite i32_small by lia.
    split_and!; [|lia|lia|done].
    replace (Z.pred (- (q + m + 0))) with (65535 - (q + m) + (-1) * 2 ^ 16) by lia.
    rewrite Z_mod_plus_full. apply Z.mod_small. lia.
  - exists (q + m - 65535).
    assert ((q + m) / 2 ^ 16 = 1) as -> by (symmetry; apply (Z.div_unique _ _ _ (q + m - 2 ^ 16)); lia).
    rewrite i32_small by lia. split_and!; [|lia|lia|].
    + replace (Z.pred (- (q + m + 1))) with (65535 - (q + m - 65535) + (-2) * 2 ^ 16) by lia.
      rewrite Z_mod_plus_full. apply Z.mod_small. lia.
    + rewrite <- Hmod. replace (q + m - 65535) with (q + m + (-1) * 65535) by lia.
      by rewrite Z_mod_plus_full.
Qed.

(** Filling the checksum of a sum [s] into a field that was zero makes the
    fold of the whole 0. *)
Lemma fold_sum_complement s : 0 < s -> s + 65535 < 2 ^ 31 -> fold_sum (s + fold_sum s) = 0.
Proof.
  intros H0 Hs. destruct (fold_sum_spec s) as (r & -> & Hr & Hm); [lia|].
  destruct (fold_sum_spec (s + (65535 - r))) as (r' & -> & Hr' & Hm'); [lia|].
  enough (r' = 65535) by lia.
  assert (r' mod 65535 = 0) as Hz.
  { rewrite Hm'. replace (s + (65535 - r)) with (s - r + 1 * 65535) by lia.
    rewrite Z_mod_plus_full. rewrite Zminus_mod, Hm, Z.sub_diag. done. }
  apply Z.mod_divide in Hz as [k ->]; lia.
Qed.

Lemma fold_sum_range s : 0 < s < 2 ^ 31 -> 0 <= fold_sum s < 65535.
Proof. intros (r & -> & ? & ?)%fold_sum_spec. lia. Qed.

(** * Byte order *)

Lemma land_byte_at x k : 0 <= k -> Z.land x (Z.shiftl 255 k) = Z.shiftl (x / 2 ^ k mod 256) k.
Proof.
  intros Hk. rewrite <- Z.shiftr_div_pow2 by done.
  change 256 with (2 ^ 8). rewrite <- Z.land_ones by lia. change (Z.ones 8) with 255.
  apply Z.bits_inj'. intros i Hi. rewrite Z.land_spec.
  destruct (Z_lt_le_dec i k).
  - rewrite !Z.shiftl_spec_low by done. apply andb_false_r.
  - rewrite !Z.shiftl_spec, Z.land_spec, Z.shiftr_spec by lia. do 2 f_equal. lia.
Qed.

Lemma swab16_value x : swab16 x = x mod 256 * 256 + x / 256 mod 256.
Proof.
  unfold swab16. rewrite land_byte_at, Z.shiftr_shiftl_l by lia.
  change 255 with (Z.ones 8) at 1. rewrite Z.land_ones by lia.
  change (8 - 8) with 0. rewrite Z.shiftl_0_r. change (2 ^ 8) with 256.
  apply lor_shiftl_add; [lia|]. change (2 ^ 8) with 256. apply Z.mod_pos_bound. lia.
Qed.

Lemma swab32_value x :
  swab32 x = x mod 256 * 2 ^ 24 + x / 256 mod 256 * 2 ^ 16 + x / 2 ^ 16 mod 256 * 2 ^ 8 +
             x / 2 ^ 24 mod 256.
Proof.
  unfold swab32. rewrite !land_byte_at, !Z.shiftr_shiftl_l, !Z.shiftl_shiftl by lia.
  change 255 with (Z.ones 8) at 1. rewrite Z.land_ones by lia. change (2 ^ 8) with 256.
  change (8 + 8) with 16. change (16 - 8) with 8. change (24 - 24) with 0. rewrite Z.shiftl_0_r.
  pose proof (Z.mod_pos_bound x 256 ltac:(lia)).
  pose proof (Z.mod_pos_bound (x / 256) 256 ltac:(lia)).
  pose proof (Z.mod_pos_bound (x / 2 ^ 16) 256 ltac:(lia)).
  pose proof (Z.mod_pos_bound (x / 2 ^ 24) 256 ltac:(lia)).
  rewrite (lor_shiftl_add (x / 2 ^ 16 mod 256)) by lia.
  rewrite (lor_shiftl_add (x / 256 mod 256)) by lia.
  rewrite lor_shiftl_add by lia. lia.
Qed.

(** A 32-bit number is its four bytes. *)
Lemma bytes4 x : 0 <= x < 2 ^ 32 ->
  x = x mod 256 + x / 256 mod 256 * 256 + x / 2 ^ 16 mod 256 * 2 ^ 16 + x / 2 ^ 24 mod 256 * 2 ^ 24.
Proof.
  intros Hx. change (2 ^ 16) with (256 * 256). change (2 ^ 24) with (256 * 256 * 256).
  rewrite <- !Z.div_div by lia.
  pose proof (Z.div_mod x 256 ltac:(lia)).
  pose proof (Z.div_mod (x / 256) 256 ltac:(lia)).
  pose proof (Z.div_mod (x / 256 / 256) 256 ltac:(lia)).
  rewrite (Z.mod_small (x / 256 / 256 / 256) 256).
  - lia.
  - rewrite !Z.div_div by lia. split; [apply Z.div_pos; lia|apply Z.div_lt_upper_bound; lia].
Qed.

Lemma digits4 a b c d :
  0 <= a < 256 -> 0 <= b < 256 -> 0 <= c < 256 -> 0 <= d < 256 ->
  let x := a + b * 256 + c * 2 ^ 16 + d * 2 ^ 24 in
  x mod 256 = a /\ x / 256 mod 256 = b /\ x / 2 ^ 16 mod 256 = c /\ x / 2 ^ 24 mod 256 = d.
Proof.
  intros Ha Hb Hc Hd x. subst x.
  assert (Hdiv : forall k q r, 0 < k -> 0 <= r < k -> (q * k + r) / k = q).
  { intros k q r ? ?. rewrite Z.div_add_l, (Z.div_small r) by lia. lia. }
  split_and!.
  - symmetry. apply (Z.mod_unique _ _ (b + c * 256 + d * 2 ^ 16)); lia.
  - replace (a + b * 256 + c * 2 ^ 16 + d * 2 ^ 24) with ((b + c * 256 + d * 2 ^ 16) * 256 + a) by lia.
    rewrite Hdiv by lia. symmetry. apply (Z.mod_unique _ _ (c + d * 256)); lia.
  - replace (a + b * 256 + c * 2 ^ 16 + d * 2 ^ 24) with ((c + d * 256) * 2 ^ 16 + (a + b * 256)) by lia.
    rewrite Hdiv by lia. symmetry. apply (Z.mod_unique _ _ d); lia.
  - replace (a + b * 256 + c * 2 ^ 16 + d * 2 ^ 24) with (d * 2 ^ 24 + (a + b * 256 + c * 2 ^ 16)) by lia.
    rewrite Hdiv by lia. apply Z.mod_small. lia.
Qed.

Lemma swab32_range x : 0 <= swab32 x < 2 ^ 32.
Proof.
  rewrite swab32_value.
  pose proof (Z.mod_pos_bound x 256 ltac:(lia)).
  pose proof (Z.mod_pos_bound (x / 256) 256 ltac:(lia)).
  pose proof (Z.mod_pos_bound (x / 2 ^ 16) 256 ltac:(lia)).
  pose proof (Z.mod_pos_bound (x / 2 ^ 24) 256 ltac:(lia)). lia.
Qed.

Lemma swab16_range x : 0 <= swab16 x < 2 ^ 16.
Proof.
  rewrite swab16_value.
  pose proof (Z.mod_pos_bound x 256 ltac:(lia)).
  pose proof (Z.mod_pos_bound (x / 256) 256 ltac:(lia)). lia.
Qed.

Lemma swab32_swab32 x : 0 <= x < 2 ^ 32 -> swab32 (swab32 x) = x.
Proof.
  intros Hx. rewrite (swab32_value (swab32 x)), (swab32_value x).
  pose proof (Z.mod_pos_bound x 256 ltac:(lia)).
  pose proof (Z.mod_pos_bound (x / 256) 256 ltac:(lia)).
  pose proof (Z.mod_pos_bound (x / 2 ^ 16) 256 ltac:(lia)).
  pose proof (Z.mod_pos_bound (x / 2 ^ 24) 256 ltac:(lia)).
  replace (x mod 256 * 2 ^ 24 + x / 256 mod 256 * 2 ^ 16 + x / 2 ^ 16 mod 256 * 2 ^ 8 + x / 2 ^ 24 mod 256)
    with (x / 2 ^ 24 mod 256 + x / 2 ^ 16 mod 256 * 256 + x / 256 mod 256 * 2 ^ 16 + x mod 256 * 2 ^ 24)
    by lia.
  destruct (digits4 (x / 2 ^ 24 mod 256) (x / 2 ^ 16 mod 256) (x / 256 mod 256) (x mod 256))
    as (-> & -> & -> & ->); try done.
  rewrite (bytes4 x) at 5 by done. lia.
Qed.

Lemma swab16_swab16 x : 0 <= x < 2 ^ 16 -> swab16 (swab16 x) = x.
Proof.
  intros Hx. rewrite (swab16_value (swab16 x)), (swab16_value x).
  pose proof (Z.div_mod x 256 ltac:(lia)).
  pose proof (Z.mod_pos_bound x 256 ltac:(lia)).
  rewrite (Z.mod_small (x / 256)) by (split; [apply Z.div_pos; lia|apply Z.div_lt_upper_bound; lia]).
  rewrite Z.div_add_l by lia.
  rewrite (Z.div_small (x / 256) 256) by (split; [apply Z.div_pos; lia|apply Z.div_lt_upper_bound; lia]).
  rewrite Z.add_0_r, Z.mod_mod by lia.
  rewrite (Z.add_comm _ (x / 256)), Z_mod_plus_full.
  rewrite (Z.mod_small (x / 256)) by (split; [apply Z.div_pos; lia|apply Z.div_lt_upper_bound; lia]). lia.
Qed.

Lemma ntohs_htons x : ntohs (htons x) = u16 x.
Proof.
  unfold ntohs, htons. rewrite (u16_small (swab16 _)) by apply swab16_range.
  apply swab16_swab16. apply Z.mod_pos_bound. lia.
Qed.

Lemma ntohl_htonl x : ntohl (htonl x) = u32 x.
Proof.
  unfold ntohl, htonl. rewrite (u32_small (swab32 _)) by apply swab32_range.
  apply swab32_swab32, u32_range.
Qed.

Lemma htons_range x : 0 <= htons x < 2 ^ 16.
Proof. apply swab16_range. Qed.

Lemma htonl_range x : 0 <= htonl x < 2 ^ 32.
Proof. apply swab32_range. Qed.

(** * Headers in memory *)

Lemma load_at n pre x post off l :
  l = pre ++ le_bytes n x ++ post -> off = zlen pre -> 0 <= x < 256 ^ Z.of_nat n ->
  load n off l = Some x.
Proof.
  intros -> -> Hx. unfold load.
  rewrite slice_some; [|apply zlen_nonneg|lia|rewrite !zlen_app, zlen_le_bytes; pose proof (zlen_nonneg post); lia].
  unfold zlen. rewrite !Nat2Z.id, drop_app_length, take_app_le by (rewrite length_le_bytes; lia).
  rewrite take_ge by (rewrite length_le_bytes; lia).
  by rewrite le_value_le_bytes, Z.mod_small.
Qed.

Definition is_u16 (x : Z) : Prop := 0 <= x < 2 ^ 16.
Definition is_u32 (x : Z) : Prop := 0 <= x < 2 ^ 32.

Record tcp_hdr_ok (h : tcp_hdr) : Prop := {
  ok_src : is_u16 (src h);
  ok_dst : is_u16 (dst h);
  ok_seq : is_u32 (seq h);
  ok_ack : is_u32 (ack h);
  ok_flags : is_u16 (hflags h);
  ok_wnd : is_u16 (wnd h);
  ok_chksum : is_u16 (chksum h);
  ok_urg : is_u16 (urg h)
}.

Record ip_hdr_ok (h : ip_hdr) : Prop := {
  ok_hl_v : 0 <= ip_hl_v h < 256;
  ok_tos : 0 <= ip_tos h < 256;
  ok_len : is_u16 (ip_len h);
  ok_id : is_u16 (ip_id h);
  ok_off : is_u16 (ip_off h);
  ok_ttl : 0 <= ip_ttl h < 256;
  ok_p : 0 <= ip_p h < 256;
  ok_sum : is_u16 (ip_sum h);
  ok_ip_src : is_u32 (ip_src h);
  ok_ip_dst : is_u32 (ip_dst h)
}.

(** Find one field of a header, after the bytes [pre]. *)
Ltac load_field pre :=
  erewrite (load_at _ pre);
    [|rewrite <- ?app_assoc; reflexivity|rewrite ?zlen_app, ?zlen_le_bytes; reflexivity|done].

#[local] Opaque le_bytes.

Lemma tcp_load_bytes h rest : tcp_hdr_ok h -> tcp_load (tcp_bytes h ++ rest) = Some h.
Proof.
  intros [? ? ? ? ? ? ? ?]. unfold tcp_load, tcp_bytes. destruct h as [s d q a f w c u]; simpl in *.
  load_field (@nil Z).
  load_field (le_bytes 2 s).
  load_field (le_bytes 2 s ++ le_bytes 2 d).
  load_field (le_bytes 2 s ++ le_bytes 2 d ++ le_bytes 4 q).
  load_field (le_bytes 2 s ++ le_bytes 2 d ++ le_bytes 4 q ++ le_bytes 4 a).
  load_field (le_bytes 2 s ++ le_bytes 2 d ++ le_bytes 4 q ++ le_bytes 4 a ++ le_bytes 2 f).
  load_field (le_bytes 2 s ++ le_bytes 2 d ++ le_bytes 4 q ++ le_bytes 4 a ++ le_bytes 2 f ++ le_bytes 2 w).
  by load_field (le_bytes 2 s ++ le_bytes 2 d ++ le_bytes 4 q ++ le_bytes 4 a ++ le_bytes 2 f ++
                 le_bytes 2 w ++ le_bytes 2 c).
Qed.

Lemma ip_load_bytes h rest : ip_hdr_ok h -> ip_load (ip_bytes h ++ rest) = Some h.
Proof.
  intros [? ? ? ? ? ? ? ? ? ?]. unfold ip_load, ip_bytes.
  destruct h as [v t l i o tt p s sr d]; simpl in *.
  load_field (@nil Z).
  load_field (le_bytes 1 v).
  load_field (le_bytes 1 v ++ le_bytes 1 t).
  load_field (le_bytes 1 v ++ le_bytes 1 t ++ le_bytes 2 l).
  load_field (le_bytes 1 v ++ le_bytes 1 t ++ le_bytes 2 l ++ le_bytes 2 i).
  load_field (le_bytes 1 v ++ le_bytes 1 t ++ le_bytes 2 l ++ le_bytes 2 i ++ le_bytes 2 o).
  load_field (le_bytes 1 v ++ le_bytes 1 t ++ le_bytes 2 l ++ le_bytes 2 i ++ le_bytes 2 o ++ le_bytes 1 tt).
  load_field (le_bytes 1 v ++ le_bytes 1 t ++ le_bytes 2 l ++ le_bytes 2 i ++ le_bytes 2 o ++ le_bytes 1 tt ++
              le_bytes 1 p).
  load_field (le_bytes 1 v ++ le_bytes 1 t ++ le_bytes 2 l ++ le_bytes 2 i ++ le_bytes 2 o ++ le_bytes 1 tt ++
              le_bytes 1 p ++ le_bytes 2 s).
  erewrite (load_at _ (le_bytes 1 v ++ le_bytes 1 t ++ le_bytes 2 l ++ le_bytes 2 i ++ le_bytes 2 o ++
              le_bytes 1 tt ++ le_bytes 1 p ++ le_bytes 2 s ++ le_bytes 4 sr) d rest);
    [done|by rewrite <- ?app_assoc|by rewrite ?zlen_app, ?zlen_le_bytes|done].
Qed.

Lemma zlen_tcp_bytes h : zlen (tcp_bytes h) = TCP_HDR_SIZE.
Proof. unfold tcp_bytes. by rewrite !zlen_app, !zlen_le_bytes. Qed.

Lemma zlen_ip_bytes h : zlen (ip_bytes h) = IP_HDR_SIZE.
Proof. unfold ip_bytes. by rewrite !zlen_app, !zlen_le_bytes. Qed.

Lemma tcp_bytes_is_byte h : Forall is_byte (tcp_bytes h).
Proof. unfold tcp_bytes. rewrite !Forall_app. split_and!; apply le_bytes_is_byte. Qed.

Lemma ip_bytes_is_byte h : Forall is_byte (ip_bytes h).
Proof. unfold ip_bytes. rewrite !Forall_app. split_and!; apply le_bytes_is_byte. Qed.

Lemma word_sum_le_bytes2 x : is_u16 x -> word_sum (le_bytes 2 x) = x.
Proof.
  intros Hx. unfold is_u16 in Hx.
  change (word_sum (le_bytes 2 x)) with (x mod 256 + 256 * (x / 256 mod 256) + 0).
  rewrite (Z.mod_small (x / 256)) by (split; [apply Z.div_pos; lia|apply Z.div_lt_upper_bound; lia]).
  pose proof (Z.div_mod x 256 ltac:(lia)). lia.
Qed.

Lemma even_length_bytes n x : Nat.even n = true -> Nat.Even (length (le_bytes n x)).
Proof. rewrite length_le_bytes. apply Nat.even_spec. Qed.

Lemma even_app {A} (l1 l2 : list A) :
  Nat.Even (length l1) -> Nat.Even (length l2) -> Nat.Even (length (l1 ++ l2)).
Proof. rewrite length_app. intros [a ->] [b ->]. exists (a + b)%nat. lia. Qed.

Create HintDb even.
#[local] Hint Resolve even_app even_length_bytes : even.

(** The checksum field counts as one word of the sum. *)
Lemma word_sum_chksum s d q a f w c u rest : is_u16 c ->
  word_sum (tcp_bytes (mkTcp s d q a f w c u) ++ rest) =
  word_sum (tcp_bytes (mkTcp s d q a f w 0 u) ++ rest) + c.
Proof.
  intros Hc. unfold tcp_bytes; simpl. rewrite <- !app_assoc.
  rewrite !word_sum_app by auto with even.
  rewrite (word_sum_le_bytes2 c), (word_sum_le_bytes2 0) by (unfold is_u16 in *; lia). lia.
Qed.

Lemma word_sum_ip_sum v t l i o ttl p c s d : is_u16 c ->
  word_sum (ip_bytes (mkIp v t l i o ttl p c s d)) =
  word_sum (ip_bytes (mkIp v t l i o ttl p 0 s d)) + c.
Proof.
  intros Hc. unfold ip_bytes; simpl.
  rewrite !(app_assoc (le_bytes 1 v)), !(app_assoc (le_bytes 1 ttl)).
  assert (Hv : Nat.Even (length (le_bytes 1 v ++ le_bytes 1 t))).
  { rewrite length_app, !length_le_bytes. by exists 1%nat. }
  assert (Hp : Nat.Even (length (le_bytes 1 ttl ++ le_bytes 1 p))).
  { rewrite length_app, !length_le_bytes. by exists 1%nat. }
  generalize dependent (le_bytes 1 v ++ le_bytes 1 t). intros vt Hv.
  generalize dependent (le_bytes 1 ttl ++ le_bytes 1 p). intros tp Hp.
  rewrite !word_sum_app by auto with even.
  rewrite (word_sum_le_bytes2 c), (word_sum_le_bytes2 0) by (unfold is_u16 in *; lia). lia.
Qed.

Lemma zlen_pseudo sip dip len : zlen (tcp_pseudo_hdr sip dip len) = 12.
Proof. unfold tcp_pseudo_hdr. by rewrite !zlen_app, !zlen_le_bytes. Qed.

Lemma pseudo_is_byte sip dip len : Forall is_byte (tcp_pseudo_hdr sip dip len).
Proof.
  unfold tcp_pseudo_hdr. rewrite !Forall_app.
  split_and!; try apply le_bytes_is_byte. repeat constructor; unfold IPPROTO_TCP; lia.
Qed.

(** The protocol number makes every pseudo header's sum positive. *)
Lemma pseudo_sum_pos sip dip len : 0 < word_sum (tcp_pseudo_hdr sip dip len).
Proof.
  unfold tcp_pseudo_hdr. rewrite !word_sum_app by (auto with even || by exists 1%nat).
  change (word_sum [0; IPPROTO_TCP]) with 1536.
  pose proof (word_sum_bound _ (le_bytes_is_byte 4 sip)).
  pose proof (word_sum_bound _ (le_bytes_is_byte 4 dip)).
  pose proof (word_sum_bound _ (le_bytes_is_byte 2 (htons (Z.land len 65535)))). lia.
Qed.

(** Short enough not to overflow the [int] in the sums. *)
Definition MAX_SEG : Z := 32000.

Lemma tcp_checksum_value data sip dip :
  Forall is_byte data -> zlen data <= MAX_SEG ->
  tcp_checksum_compute data (zlen data) sip dip =
  Some (fold_sum (word_sum (tcp_pseudo_hdr sip dip (zlen data)) + word_sum data)).
Proof.
  intros Hb Hl. unfold tcp_checksum_compute. pose proof (zlen_nonneg data).
  rewrite Z.max_l, slice_full by done. unfold MAX_SEG in Hl.
  pose proof (word_sum_bound data Hb) as Hs.
  pose proof (word_sum_bound _ (pseudo_is_byte sip dip (zlen data))) as Hp. rewrite zlen_pseudo in Hp.
  pose proof (pseudo_sum_pos sip dip (zlen data)).
  rewrite (sum_words_sum (tcp_pseudo_hdr _ _ _)); [|by apply pseudo_is_byte|lia|lia].
  rewrite sum_words_sum; [|done|lia|lia]. rewrite Z.add_0_l.
  f_equal. unfold u16. apply Z.mod_small.
  pose proof (fold_sum_range (word_sum (tcp_pseudo_hdr sip dip (zlen data)) + word_sum data) ltac:(lia)). lia.
Qed.

(** A segment whose checksum field was filled in passes the check. *)
Lemma tcp_checksum_verifies s d q a f w u rest sip dip c :
  Forall is_byte rest -> TCP_HDR_SIZE + zlen rest <= MAX_SEG ->
  tcp_checksum_compute (tcp_bytes (mkTcp s d q a f w 0 u) ++ rest) (TCP_HDR_SIZE + zlen rest) sip dip = Some c ->
  is_u16 c /\
  tcp_checksum_compute (tcp_bytes (mkTcp s d q a f w c u) ++ rest) (TCP_HDR_SIZE + zlen rest) sip dip = Some 0.
Proof.
  intros Hr Hl.
  assert (Hlen : forall c, TCP_HDR_SIZE + zlen rest = zlen (tcp_bytes (mkTcp s d q a f w c u) ++ rest))
    by (intros; by rewrite zlen_app, zlen_tcp_bytes).
  assert (Hb : forall c, Forall is_byte (tcp_bytes (mkTcp s d q a f w c u) ++ rest))
    by (intros; apply Forall_app; split; [apply tcp_bytes_is_byte|done]).
  rewrite (Hlen 0) at 1. rewrite tcp_checksum_value by (rewrite <- ?Hlen; done || apply Hb).
  intros [= Hc]. rewrite <- Hlen in Hc.
  pose proof (word_sum_bound _ (Hb 0)) as Hs. rewrite <- Hlen in Hs. unfold MAX_SEG in Hl.
  pose proof (word_sum_bound _ (pseudo_is_byte sip dip (TCP_HDR_SIZE + zlen rest))) as Hp.
  rewrite zlen_pseudo in Hp. pose proof (pseudo_sum_pos sip dip (TCP_HDR_SIZE + zlen rest)).
  assert (Hcr : is_u16 c).
  { subst c. unfold is_u16.
    match goal with |- 0 <= fold_sum ?s < _ => pose proof (fold_sum_range s ltac:(lia)); lia end. }
  split; [done|]. rewrite (Hlen c) at 1. rewrite tcp_checksum_value by (rewrite <- ?Hlen; done || apply Hb).
  rewrite <- Hlen, word_sum_chksum by done. f_equal. rewrite <- Hc, Z.add_assoc.
  apply fold_sum_complement; lia.
Qed.

Lemma ip_checksum_verifies v t l i o ttl p s d c : ip_hdr_ok (mkIp v t l i o ttl p 0 s d) -> 0 < v ->
  compute_ip_checksum (ip_bytes (mkIp v t l i o ttl p 0 s d)) IP_HDR_SIZE = Some c ->
  is_u16 c /\ ip_checksum_ok (ip_bytes (mkIp v t l i o ttl p c s d)) IP_HDR_SIZE = Some true.
Proof.
  intros Hok Hv. unfold ip_checksum_ok, compute_ip_checksum.
  assert (Hfull : forall c, slice (ip_bytes (mkIp v t l i o ttl p c s d)) 0 IP_HDR_SIZE =
    Some (ip_bytes (mkIp v t l i o ttl p c s d))).
  { intros c0. rewrite <- (zlen_ip_bytes (mkIp v t l i o ttl p c0 s d)). apply slice_full. }
  rewrite !Hfull.
  assert (Hpos : 0 < word_sum (ip_bytes (mkIp v t l i o ttl p 0 s d))).
  { unfold ip_bytes. simpl ip_hl_v. simpl ip_tos. rewrite app_assoc, word_sum_app
      by (rewrite length_app, !length_le_bytes; by exists 1%nat).
    change (word_sum (le_bytes 1 v ++ le_bytes 1 t)) with (v mod 256 + 256 * (t mod 256) + 0).
    destruct Hok as [Hv' ? ? ? ? ? ? ? ? ?]; simpl in *. rewrite Z.mod_small by done.
    pose proof (Z.mod_pos_bound t 256 ltac:(lia)).
    match goal with |- 0 < _ + word_sum ?l => assert (Hb : Forall is_byte l) end.
    { rewrite !Forall_app. split_and!; apply le_bytes_is_byte. }
    pose proof (word_sum_bound _ Hb). lia. }
  pose proof (word_sum_bound _ (ip_bytes_is_byte (mkIp v t l i o ttl p 0 s d))) as Hs.
  rewrite zlen_ip_bytes in Hs. unfold IP_HDR_SIZE in Hs.
  rewrite sum_words_sum by (apply ip_bytes_is_byte || lia). rewrite Z.add_0_l. intros [= Hc].
  assert (Hcr : is_u16 c).
  { subst c. unfold is_u16.
    match goal with |- 0 <= fold_sum ?s < _ => pose proof (fold_sum_range s ltac:(lia)); lia end. }
  split; [done|]. f_equal.
  pose proof (word_sum_ip_sum v t l i o ttl p c s d Hcr) as Hsum. unfold is_u16 in Hcr.
  rewrite sum_words_sum by (apply ip_bytes_is_byte || lia).
  rewrite Hsum, <- Hc, Z.add_0_l, fold_sum_complement by lia. done.
Qed.
