(* ===== verification/Tcp.v ===== *)
(** * The TCP stack ([net/tcp.c], [net/tcp.h], [include/net/tcp.h])

    State and operations.  A pointer to a [struct tcp_conn] is a number that
    names the object for ever ([0] is NULL); using one that has been freed
    is [Stuck].  [unsigned long] has 32 bits.  The packet memory handed to
    [receive_tcp] is the list of bytes from the IP header to the end of the
    receive buffer.  The application's callback is a parameter; it gets the
    callback data by address and may change both them and the whole state. *)

From stdpp Require Import base numbers list.
From Stdlib Require Import ZArith Lia.
From S2P Require Import Prelude NetWire.

(** ** Constants *)

Definition EINVAL : Z := 22.
Definition ENOMEM : Z := 12.
Definition EADDRINUSE : Z := 98.

Definition PKTSIZE_ALIGN : Z := 1536.

Definition TCP_RTT_G : Z := 200.
Definition TCP_RTT_K : Z := 4.
Definition TCP_RTT_ALPHA : Z := 3.
Definition TCP_RTT_BETA : Z := 2.
Definition TCP_RTT_INTERVAL : Z := 3000.
Definition TCP_REXMIT_MAX_SEG_DELAY : Z := 60000.
Definition TCP_REXMIT_MAX_CONN_DELAY : Z := 300000.

Inductive tcp_state :=
| INVALID_TCP_STATE | LISTEN | SYN_SENT | SYN_RCVD | ESTABLISHED | FIN_WAIT_1
| FIN_WAIT_2 | CLOSE_WAIT | CLOSING | LAST_ACK | TIME_WAIT | CLOSED.

Inductive tcp_cb_status :=
| TCP_CB_NONE | TCP_CB_NEW_CONN | TCP_CB_DATA_RCVD | TCP_CB_DATA_SENT
| TCP_CB_REMOTE_CLOSING | TCP_CB_REMOTE_CLOSED | TCP_CB_CLOSING | TCP_CB_CLOSED.

Inductive net_loop_state :=
| NETLOOP_CONTINUE | NETLOOP_RESTART | NETLOOP_SUCCESS | NETLOOP_FAIL.

#[global] Instance tcp_state_eq_dec : EqDecision tcp_state.
Proof. solve_decision. Defined.
#[global] Instance tcp_cb_status_eq_dec : EqDecision tcp_cb_status.
Proof. solve_decision. Defined.

Definition status_eqb (a b : tcp_state) : bool := bool_decide (a = b).

(** ** Data structures *)

(** [tx] is NULL or the bytes from that address to the end of the object
    ([tcp.h]: they do not change before they are acknowledged). *)
Record tcp_conn := mkConn {
  status : tcp_state;
  ip_remote : Z;
  port_remote : Z;
  port_local : Z;
  peer_seq : Z;
  local_seq : Z;
  local_seq_last : Z;
  local_seq_acked : Z;
  ts : Z;
  ts_rexmit : Z;
  num_rexmit : Z;
  ethaddr : list Z;
  mss : Z;
  tx : option (list Z);
  txlen : Z;
  cb : Z;
  close_flag : Z;
  ack_flag : Z;
  rexmit_mode : Z;
  rexmit_wait_ack : Z;
  zw_mode : Z;
  peer_wnd : Z;
  peer_ws : Z;
  srtt : Z;
  rttvar : Z;
  rto : Z;
  ts_rtt : Z;
  ack_calc_rtt : Z;
  pdata : Z
}.

(** [memset (c, 0, sizeof (struct tcp_conn))]. *)
Definition zero_conn : tcp_conn :=
  mkConn INVALID_TCP_STATE 0 0 0 0 0 0 0 0 0 0 [0; 0; 0; 0; 0; 0] 0 None 0 0 0 0 0 0 0 0 0
    0 0 0 0 0 0.

Definition conn_eta : tcp_conn -> tcp_conn := fun c =>
  mkConn (status c) (ip_remote c) (port_remote c) (port_local c) (peer_seq c) (local_seq c)
    (local_seq_last c) (local_seq_acked c) (ts c) (ts_rexmit c) (num_rexmit c) (ethaddr c)
    (mss c) (tx c) (txlen c) (cb c) (close_flag c) (ack_flag c) (rexmit_mode c)
    (rexmit_wait_ack c) (zw_mode c) (peer_wnd c) (peer_ws c) (srtt c) (rttvar c) (rto c)
    (ts_rtt c) (ack_calc_rtt c) (pdata c).

#[global] Instance member_status : Member status.
Proof. derive_member conn_eta status. Defined.
#[global] Instance member_ip_remote : Member ip_remote.
Proof. derive_member conn_eta ip_remote. Defined.
#[global] Instance member_port_remote : Member port_remote.
Proof. derive_member conn_eta port_remote. Defined.
#[global] Instance member_port_local : Member port_local.
Proof. derive_member conn_eta port_local. Defined.
#[global] Instance member_peer_seq : Member peer_seq.
Proof. derive_member conn_eta peer_seq. Defined.
#[global] Instance member_local_seq : Member local_seq.
Proof. derive_member conn_eta local_seq. Defined.
#[global] Instance member_local_seq_last : Member local_seq_last.
Proof. derive_member conn_eta local_seq_last. Defined.
#[global] Instance member_local_seq_acked : Member local_seq_acked.
Proof. derive_member conn_eta local_seq_acked. Defined.
#[global] Instance member_ts : Member ts.
Proof. derive_member conn_eta ts. Defined.
#[global] Instance member_ts_rexmit : Member ts_rexmit.
Proof. derive_member conn_eta ts_rexmit. Defined.
#[global] Instance member_num_rexmit : Member num_rexmit.
Proof. derive_member conn_eta num_rexmit. Defined.
#[global] Instance member_ethaddr : Member ethaddr.
Proof. derive_member conn_eta ethaddr. Defined.
#[global] Instance member_mss : Member mss.
Proof. derive_member conn_eta mss. Defined.
#[global] Instance member_tx : Member tx.
Proof. derive_member conn_eta tx. Defined.
#[global] Instance member_txlen : Member txlen.
Proof. derive_member conn_eta txlen. Defined.
#[global] Instance member_cb : Member cb.
Proof. derive_member conn_eta cb. Defined.
#[global] Instance member_close_flag : Member close_flag.
Proof. derive_member conn_eta close_flag. Defined.
#[global] Instance member_ack_flag : Member ack_flag.
Proof. derive_member conn_eta ack_flag. Defined.
#[global] Instance member_rexmit_mode : Member rexmit_mode.
Proof. derive_member conn_eta rexmit_mode. Defined.
#[global] Instance member_rexmit_wait_ack : Member rexmit_wait_ack.
Proof. derive_member conn_eta rexmit_wait_ack. Defined.
#[global] Instance member_zw_mode : Member zw_mode.
Proof. derive_member conn_eta zw_mode. Defined.
#[global] Instance member_peer_wnd : Member peer_wnd.
Proof. derive_member conn_eta peer_wnd. Defined.
#[global] Instance member_peer_ws : Member peer_ws.
Proof. derive_member conn_eta peer_ws. Defined.
#[global] Instance member_srtt : Member srtt.
Proof. derive_member conn_eta srtt. Defined.
#[global] Instance member_rttvar : Member rttvar.
Proof. derive_member conn_eta rttvar. Defined.
#[global] Instance member_rto : Member rto.
Proof. derive_member conn_eta rto. Defined.
#[global] Instance member_ts_rtt : Member ts_rtt.
Proof. derive_member conn_eta ts_rtt. Defined.
#[global] Instance member_ack_calc_rtt : Member ack_calc_rtt.
Proof. derive_member conn_eta ack_calc_rtt. Defined.
#[global] Instance member_pdata : Member pdata.
Proof. derive_member conn_eta pdata. Defined.

Record tcp_listener := mkListener { port : Z; listen_cb : Z }.

(** [data] holds the bytes from that address to the end of the packet
    memory. *)
Record tcb_cb_data := mkCbd {
  cbd_conn : Z;
  cbd_status : tcp_cb_status;
  cbd_sip : Z;
  cbd_sp : Z;
  cbd_dp : Z;
  cbd_pdata : Z;
  cbd_data : list Z;
  cbd_datalen : Z
}.

Definition cbd_eta : tcb_cb_data -> tcb_cb_data := fun d =>
  mkCbd (cbd_conn d) (cbd_status d) (cbd_sip d) (cbd_sp d) (cbd_dp d) (cbd_pdata d)
    (cbd_data d) (cbd_datalen d).

#[global] Instance member_cbd_status : Member cbd_status.
Proof. derive_member cbd_eta cbd_status. Defined.
#[global] Instance member_cbd_pdata : Member cbd_pdata.
Proof. derive_member cbd_eta cbd_pdata. Defined.
#[global] Instance member_cbd_data : Member cbd_data.
Proof. derive_member cbd_eta cbd_data. Defined.
#[global] Instance member_cbd_datalen : Member cbd_datalen.
Proof. derive_member cbd_eta cbd_datalen. Defined.

(** What the stack does to the outside: frames given to [eth_send] and
    callbacks made, in order. *)
Inductive tcp_event :=
| EvSend (frame : list Z)
| EvCall (handler : Z) (cbd : tcb_cb_data).

(** The variables of [net/tcp.c], those of [net/net.c] and [net/arp.c] it
    uses, and the application's own state.  [conn_head] is the connection
    list in order, each with its address; [next_conn] the next address
    [malloc] gives out, [allocs] and [reads] count the calls of [malloc] and
    readings of the timer, and [trace] is the history of events. *)
Record tcp_world (A : Type) := mkWorld {
  listen_head : list tcp_listener;
  conn_head : list (Z * tcp_conn);
  tcp_stop : Z;
  net_state : net_loop_state;
  net_ip_id : Z;
  net_tx_packet : list Z;
  net_arp_wait_packet_ip : Z;
  net_arp_wait_reply_ip : Z;
  arp_wait_packet_ethaddr : Z;
  arp_wait_tx_packet_size : Z;
  arp_wait_try : Z;
  arp_wait_timer_start : Z;
  next_conn : Z;
  allocs : nat;
  reads : nat;
  trace : list tcp_event;
  app : A
}.
Arguments mkWorld {A}.
Arguments listen_head {A}.
Arguments conn_head {A}.
Arguments tcp_stop {A}.
Arguments net_state {A}.
Arguments net_ip_id {A}.
Arguments net_tx_packet {A}.
Arguments net_arp_wait_packet_ip {A}.
Arguments net_arp_wait_reply_ip {A}.
Arguments arp_wait_packet_ethaddr {A}.
Arguments arp_wait_tx_packet_size {A}.
Arguments arp_wait_try {A}.
Arguments arp_wait_timer_start {A}.
Arguments next_conn {A}.
Arguments allocs {A}.
Arguments reads {A}.
Arguments trace {A}.
Arguments app {A}.

Section Members.
Context {A : Type}.

Definition world_eta : tcp_world A -> tcp_world A := fun s =>
  mkWorld (listen_head s) (conn_head s) (tcp_stop s) (net_state s)
    (net_ip_id s) (net_tx_packet s) (net_arp_wait_packet_ip s) (net_arp_wait_reply_ip s)
    (arp_wait_packet_ethaddr s) (arp_wait_tx_packet_size s) (arp_wait_try s) (arp_wait_timer_start s)
    (next_conn s) (allocs s) (reads s) (trace s)
    (app s).

#[global] Instance member_listen_head : Member (@listen_head A).
Proof. derive_member world_eta (@listen_head A). Defined.
#[global] Instance member_conn_head : Member (@conn_head A).
Proof. derive_member world_eta (@conn_head A). Defined.
#[global] Instance member_tcp_stop : Member (@tcp_stop A).
Proof. derive_member world_eta (@tcp_stop A). Defined.
#[global] Instance member_net_state : Member (@net_state A).
Proof. derive_member world_eta (@net_state A). Defined.
#[global] Instance member_net_ip_id : Member (@net_ip_id A).
Proof. derive_member world_eta (@net_ip_id A). Defined.
#[global] Instance member_net_tx_packet : Member (@net_tx_packet A).
Proof. derive_member world_eta (@net_tx_packet A). Defined.
#[global] Instance member_net_arp_wait_packet_ip : Member (@net_arp_wait_packet_ip A).
Proof. derive_member world_eta (@net_arp_wait_packet_ip A). Defined.
#[global] Instance member_net_arp_wait_reply_ip : Member (@net_arp_wait_reply_ip A).
Proof. derive_member world_eta (@net_arp_wait_reply_ip A). Defined.
#[global] Instance member_arp_wait_packet_ethaddr : Member (@arp_wait_packet_ethaddr A).
Proof. derive_member world_eta (@arp_wait_packet_ethaddr A). Defined.
#[global] Instance member_arp_wait_tx_packet_size : Member (@arp_wait_tx_packet_size A).
Proof. derive_member world_eta (@arp_wait_tx_packet_size A). Defined.
#[global] Instance member_arp_wait_try : Member (@arp_wait_try A).
Proof. derive_member world_eta (@arp_wait_try A). Defined.
#[global] Instance member_arp_wait_timer_start : Member (@arp_wait_timer_start A).
Proof. derive_member world_eta (@arp_wait_timer_start A). Defined.
#[global] Instance member_next_conn : Member (@next_conn A).
Proof. derive_member world_eta (@next_conn A). Defined.
#[global] Instance member_allocs : Member (@allocs A).
Proof. derive_member world_eta (@allocs A). Defined.
#[global] Instance member_reads : Member (@reads A).
Proof. derive_member world_eta (@reads A). Defined.
#[global] Instance member_trace : Member (@trace A).
Proof. derive_member world_eta (@trace A). Defined.
#[global] Instance member_app : Member (@app A).
Proof. derive_member world_eta (@app A). Defined.

End Members.

(** ** Surroundings

    Configuration ([net_ip], [net_netmask], [net_gateway], [net_ethaddr],
    [net_our_vlan]), the [n]-th reading of the millisecond timer, whether
    the [n]-th [malloc] succeeds, the result of [eth_send], and the code
    behind a callback pointer. *)
Class tcp_env (A : Type) := mkEnv {
  net_ip : Z;
  net_netmask : Z;
  net_gateway : Z;
  net_ethaddr : list Z;
  net_our_vlan : Z;
  clock : nat -> Z;
  malloc_ok : nat -> bool;
  eth_send_rc : list Z -> Z;
  run_cb : Z -> tcb_cb_data -> M (tcp_world A) tcb_cb_data
}.
Arguments mkEnv {A}.

(** ** Pure helpers *)

(** [time_after] on [unsigned long]. *)
Definition time_after (a b : Z) : bool := i32 (u32 (b - a)) <? 0.

Definition tcp_seq_sub (a b : Z) : Z :=
  if time_after a b then
    if b <=? a then i32 (u32 (a - b)) else i32 (u32 (u32 (a + u32 (Z.lnot b)) + 1))
  else
    if a <=? b then i32 (- i32 (u32 (b - a)))
    else i32 (- i32 (u32 (u32 (b + u32 (Z.lnot a)) + 1))).

Fixpoint find_conn (c : Z) (l : list (Z * tcp_conn)) : option tcp_conn :=
  match l with
  | [] => None
  | (i, x) :: l => if i =? c then Some x else find_conn c l
  end.

Fixpoint update_conn (c : Z) (x : tcp_conn) (l : list (Z * tcp_conn)) : list (Z * tcp_conn) :=
  match l with
  | [] => []
  | (i, y) :: l => if i =? c then (i, x) :: l else (i, y) :: update_conn c x l
  end.

Fixpoint remove_conn (c : Z) (l : list (Z * tcp_conn)) : list (Z * tcp_conn) :=
  match l with
  | [] => []
  | (i, y) :: l => if i =? c then l else (i, y) :: remove_conn c l
  end.

(** The list element after [c]: [None] when [c] is not on the list (freed),
    [Some 0] when it is the last. *)
Fixpoint conn_after (c : Z) (l : list (Z * tcp_conn)) : option Z :=
  match l with
  | [] => None
  | (i, _) :: l => if i =? c then Some (match l with (j, _) :: _ => j | [] => 0 end)
                   else conn_after c l
  end.

(** What [memcpy (dst, payload, len)] reads: the object and the offset the
    pointer has in it. *)
Definition payload_bytes (payload : option (list Z) * Z) (len : Z) : option (list Z) :=
  if len =? 0 then Some []
  else match payload with
       | (Some b, off) => slice b off len
       | (None, _) => None
       end.

Definition no_payload : option (list Z) * Z := (None, 0).

Definition is_null_ethaddr (e : list Z) : bool := bool_decide (e = [0; 0; 0; 0; 0; 0]).

(** A received segment after the header checks: the peer, the header, the
    packet memory from there on, and the variables of [receive_tcp]. *)
Record segment := mkSegment {
  sg_ip : Z;
  sg_hdr : tcp_hdr;
  sg_bytes : list Z;
  sg_hdrlen : Z;
  sg_flags : Z;
  sg_seq : Z;
  sg_ack : Z;
  sg_data : Z;
  sg_size : Z
}.

Section Tcp.
Context {A : Type} {E : tcp_env A}.

Definition T (R : Type) : Type := M (tcp_world A) R.

(** ** Surroundings as computations *)

Definition get_timer (base : Z) : T Z :=
  do n <- gets reads;
  reads ::= S n;;
  ret (u32 (clock n - base)).

(** Access to the members of a connection. *)
Definition get_conn (c : Z) : T tcp_conn :=
  do l <- gets conn_head;
  lift (find_conn c l).

Definition set_conn (c : Z) (f : tcp_conn -> tcp_conn) : T unit :=
  do x <- get_conn c;
  do l <- gets conn_head;
  conn_head ::= update_conn c (f x) l.

Definition tcp_conn_del (c : Z) : T unit :=
  do _ <- get_conn c;
  do l <- gets conn_head;
  conn_head ::= remove_conn c l.

(** [malloc (sizeof (struct tcp_conn))]. *)
Definition malloc_conn : T Z :=
  do n <- gets allocs;
  allocs ::= S n;;
  if malloc_ok n then
    do i <- gets next_conn;
    next_conn ::= i + 1;;
    ret i
  else ret 0.

Definition emit (e : tcp_event) : T unit :=
  do t <- gets trace;
  trace ::= t ++ [e].

(** [c->cb (&cbd)]; the result is the structure afterwards. *)
Definition call_cb (c : Z) (cbd : tcb_cb_data) : T tcb_cb_data :=
  do x <- get_conn c;
  emit (EvCall (cb x) cbd);;
  run_cb (cb x) cbd.

Definition eth_send (frame : list Z) : T Z :=
  emit (EvSend frame);;
  ret (eth_send_rc frame).

(** ** ARP ([net/arp.c]) *)

Definition PROT_ARP : Z := 2054.
Definition net_bcast_ethaddr : list Z := [255; 255; 255; 255; 255; 255].
Definition net_null_ethaddr : list Z := [0; 0; 0; 0; 0; 0].

Definition arp_raw_request (source_ip : Z) (target_ethaddr : list Z) (target_ip : Z) : T unit :=
  do _ <- eth_send
    (net_set_ether net_ethaddr net_our_vlan net_bcast_ethaddr PROT_ARP ++
     le_bytes 2 (htons 1) ++ le_bytes 2 (htons PROT_IP) ++ [6; 4] ++ le_bytes 2 (htons 1) ++
     net_ethaddr ++ le_bytes 4 source_ip ++ target_ethaddr ++ le_bytes 4 target_ip);
  ret tt.

Definition arp_request : T unit :=
  do w <- gets net_arp_wait_packet_ip;
  (if negb (Z.land w net_netmask =? Z.land net_ip net_netmask) then
     if net_gateway =? 0 then net_arp_wait_reply_ip ::= w
     else net_arp_wait_reply_ip ::= net_gateway
   else net_arp_wait_reply_ip ::= w);;
  do r <- gets net_arp_wait_reply_ip;
  arp_raw_request net_ip net_null_ethaddr r.

(** ** Sending *)

Definition tcp_send_packet_opt (c : Z) (flags seq ack : Z) (opt : list Z)
    (payload : option (list Z) * Z) (payload_len : Z) : T Z :=
  let opt_size := zlen opt in
  let seq := htonl seq in
  let ack := htonl ack in
  do x <- get_conn c;
  do pkt <- gets net_tx_packet;
  let eth := net_set_ether net_ethaddr net_our_vlan (ethaddr x) PROT_IP in
  do h <- lift (ip_load (drop (length eth) pkt));
  do id <- gets net_ip_id;
  net_ip_id ::= u32 (id + 1);;
  let h := net_set_ip_header h id (ip_remote x) net_ip in
  let h := mkIp (ip_hl_v h) (ip_tos h) (htons (IP_HDR_SIZE + TCP_HDR_SIZE + opt_size + payload_len))
             (ip_id h) (ip_off h) (ip_ttl h) IPPROTO_TCP (ip_sum h) (ip_src h) (ip_dst h) in
  do sum <- lift (compute_ip_checksum (ip_bytes h) IP_HDR_SIZE);
  let h := mkIp (ip_hl_v h) (ip_tos h) (ip_len h) (ip_id h) (ip_off h) (ip_ttl h) (ip_p h)
             (u16 sum) (ip_src h) (ip_dst h) in
  let flags := htons (Z.lor (Z.shiftl ((TCP_HDR_SIZE + opt_size) / 4) TCP_HDR_LEN_SHIFT)
                        (Z.land flags TCP_FLAG_MASK)) in
  let tcp sum := mkTcp (port_local x) (port_remote x) seq ack flags (htons (mss x)) sum 0 in
  do body <- lift (payload_bytes payload payload_len);
  do sum <- lift (tcp_checksum_compute (tcp_bytes (tcp 0) ++ opt ++ body)
                    (TCP_HDR_SIZE + opt_size + payload_len) net_ip (ip_remote x));
  let frame := eth ++ ip_bytes h ++ tcp_bytes (tcp sum) ++ opt ++ body in
  do pkt <- lift (splice pkt 0 frame);
  net_tx_packet ::= pkt;;
  if is_null_ethaddr (ethaddr x) then
    net_arp_wait_packet_ip ::= ip_remote x;;
    arp_wait_packet_ethaddr ::= c;;
    arp_wait_tx_packet_size ::= zlen frame;;
    arp_wait_try ::= 1;;
    do t <- get_timer 0;
    arp_wait_timer_start ::= t;;
    arp_request;;
    ret 0
  else eth_send frame.

Definition tcp_send_packet (c flags seq ack : Z) (payload : option (list Z) * Z)
    (payload_len : Z) : T Z :=
  tcp_send_packet_opt c flags seq ack [] payload payload_len.

Definition tcp_send_packet_ctrl (c flags : Z) : T Z :=
  do x <- get_conn c;
  tcp_send_packet_opt c flags (local_seq x) (u32 (peer_seq x + 1)) [] no_payload 0.

(** ** Listening ports and the connection list *)

Definition tcp_start : T unit := tcp_stop ::= 0.

Fixpoint tcp_listen_find (port0 : Z) (l : list tcp_listener) : option tcp_listener :=
  match l with
  | [] => None
  | x :: l => if port x =? port0 then Some x else tcp_listen_find port0 l
  end.

Definition tcp_listen (port0 cb0 : Z) : T Z :=
  if (port0 =? 0) || (cb0 =? 0) then ret (- EINVAL)
  else
    do l <- gets listen_head;
    match tcp_listen_find port0 l with
    | Some _ => ret (- EADDRINUSE)
    | None =>
        do n <- gets allocs;
        allocs ::= S n;;
        if malloc_ok n then
          listen_head ::= l ++ [mkListener port0 cb0];;
          ret 0
        else ret (- ENOMEM)
    end.

(** [list_del] of the element found. *)
Fixpoint listen_del (port0 : Z) (l : list tcp_listener) : list tcp_listener :=
  match l with
  | [] => []
  | x :: l => if port x =? port0 then l else x :: listen_del port0 l
  end.

Definition tcp_listen_stop (port0 : Z) : T Z :=
  do l <- gets listen_head;
  match tcp_listen_find port0 l with
  | Some _ => listen_head ::= listen_del port0 l;; ret 0
  | None => ret (-1)
  end.

(** [0] when there is no such connection. *)
Fixpoint tcp_conn_find (remoteip remoteport localport : Z) (l : list (Z * tcp_conn)) : Z :=
  match l with
  | [] => 0
  | (i, c) :: l =>
      if (ip_remote c =? remoteip) && (port_remote c =? remoteport) && (port_local c =? localport)
      then i else tcp_conn_find remoteip remoteport localport l
  end.

(** ** Round-trip time *)

Definition rtt_calc (c : Z) : T unit :=
  do x <- get_conn c;
  do rtt <- get_timer (ts_rtt x);
  let sub := if srtt x <? rtt then rtt - srtt x else srtt x - rtt in
  let var := u32 (rttvar x - Z.shiftr (rttvar x) TCP_RTT_ALPHA + Z.shiftr sub TCP_RTT_ALPHA) in
  let s := u32 (srtt x - Z.shiftr (srtt x) TCP_RTT_BETA + Z.shiftr rtt TCP_RTT_BETA) in
  set_conn c (fun x => x <| rttvar := var |> <| srtt := s |>
                         <| rto := u32 (s + Z.max TCP_RTT_G (u32 (TCP_RTT_K * var))) |>).

(** ** Creating a connection *)

(** One round of the option loop; [o] is the offset from the start of the
    TCP header [tcp] whose bytes are [seg]. *)
Definition option_body (c : Z) (seg : list Z) (optend o : Z) : T (Z + unit) :=
  if negb (o <? optend) then ret (inr tt)
  else
    do kind <- lift (znth seg o);
    if kind =? TCP_OPT_EOL then ret (inr tt)
    else if kind =? TCP_OPT_NOP then ret (inl (o + 1))
    else
      (if kind =? TCP_OPT_MSS then
         do hi <- lift (znth seg (o + 2));
         do lo <- lift (znth seg (o + 3));
         let m := u16 (Z.lor (Z.shiftl hi 8) lo) in
         do x <- get_conn c;
         if m <? mss x then set_conn c (fun x => x <| mss := m |>) else ret tt
       else if kind =? TCP_OPT_WS then
         do w <- lift (znth seg (o + 2));
         set_conn c (fun x => x <| peer_ws := Z.min w 14 |>)
       else ret tt);;
      do len <- lift (znth seg (o + 1));
      ret (inl (o + len)).

(** The options take at most 40 bytes and every round that advances takes at
    least one. *)
Definition option_fuel : nat := 64.

Definition tcp_conn_create (remoteip : Z) (tcp : tcp_hdr) (seg : list Z) (tcphdr_len : Z)
    (et_src : list Z) (cb0 : Z) : T Z :=
  do c <- malloc_conn;
  if c =? 0 then
    do x <- get_conn c;
    do _ <- tcp_send_packet c (Z.lor TCP_RST TCP_ACK) 1 (peer_seq x) no_payload 0;
    ret 0
  else
    do l <- gets conn_head;
    conn_head ::= l ++ [(c, zero_conn)];;
    do t0 <- get_timer 0;
    set_conn c (fun x => x
      <| status := SYN_RCVD |> <| ethaddr := et_src |> <| ip_remote := remoteip |>
      <| port_remote := src tcp |> <| port_local := dst tcp |>
      <| peer_seq := ntohl (seq tcp) |>
      <| local_seq := u32 (u64 (64000 * t0) / 500) |>
      <| peer_wnd := ntohs (wnd tcp) |> <| peer_ws := 0 |> <| mss := 1460 |> <| cb := cb0 |>);;
    (if TCP_HDR_SIZE <? tcphdr_len
     then iter option_fuel (option_body c seg tcphdr_len) TCP_HDR_SIZE
     else ret tt);;
    do x <- get_conn c;
    do _ <- tcp_send_packet_opt c (Z.lor TCP_SYN TCP_ACK) (local_seq x) (u32 (peer_seq x + 1))
              (tcp_set_mss_opt (mss x)) no_payload 0;
    do t1 <- get_timer 0;
    do t2 <- get_timer 0;
    do t3 <- get_timer 0;
    set_conn c (fun x => x <| ts_rtt := t1 |> <| ts := t2 |> <| ts_rexmit := t3 |>
                           <| num_rexmit := 0 |>);;
    ret c.

(** ** Receiving *)

(** The ESTABLISHED case of [receive_tcp], in three parts.  The window is
    updated and the part of the payload that is already known is cut off;
    the result is the position and length of what is left. *)
Definition recv_trim (c : Z) (tcp : tcp_hdr) (seq data data_size : Z) : T (Z * Z) :=
  do x <- get_conn c;
  let tmp := u32 (Z.shiftl (ntohs (wnd tcp)) (peer_ws x)) in
  set_conn c (fun x => (if (mss x <? tmp) && (peer_wnd x <? tmp) then x <| zw_mode := 0 |> else x)
                         <| peer_wnd := tmp |>);;
  if tcp_seq_sub seq (peer_seq x) <? 0 then
    if 0 <? tcp_seq_sub (u32 (seq + data_size)) (peer_seq x) then
      let tmp := u32 (seq + data_size - peer_seq x) in
      ret (data + u32 (data_size - tmp), tmp)
    else
      set_conn c (fun x => x <| ack_flag := i32 (ack_flag x + 1) |>);;
      ret (data, 0)
  else if 0 <? tcp_seq_sub seq (peer_seq x) then
    set_conn c (fun x => x <| ack_flag := i32 (ack_flag x + 1) |>);;
    ret (data, 0)
  else ret (data, data_size).

(** The acknowledgement number; [None] when the segment is left alone after
    that ([break]). *)
Definition recv_ack (c ack : Z) (cbd : tcb_cb_data) : T (option tcb_cb_data) :=
  do x <- get_conn c;
  if 0 <? tcp_seq_sub ack (local_seq_acked x) then
    set_conn c (fun x => x <| rexmit_mode := 0 |> <| rexmit_wait_ack := 0 |>
                           <| local_seq_acked := ack |>);;
    (if (0 <=? tcp_seq_sub ack (ack_calc_rtt x)) && negb (ack_calc_rtt x =? 0) then
       set_conn c (fun x => x <| ack_calc_rtt := 0 |>);;
       rtt_calc c
     else ret tt);;
    do x <- get_conn c;
    if u32 (tcp_seq_sub (local_seq_acked x) (local_seq_last x)) =? txlen x then
      set_conn c (fun x => x <| tx := None |> <| txlen := 0 |>);;
      do cbd <- call_cb c (cbd <| cbd_status := TCP_CB_DATA_SENT |>);
      ret (Some cbd)
    else ret (Some cbd)
  else if tcp_seq_sub ack (local_seq_last x) <? 0 then ret None
  else if local_seq x =? local_seq_acked x then ret (Some cbd)
  else
    set_conn c (fun x => x <| local_seq_acked := ack |> <| rexmit_mode := 1 |>);;
    ret (Some cbd).

(** New payload and FIN ([check_new_data]). *)
Definition recv_data (c flags : Z) (pkt : list Z) (data data_size : Z) (cbd : tcb_cb_data) : T unit :=
  do cbd <-
    (if negb (data_size =? 0) then
       set_conn c (fun x => x <| peer_seq := u32 (peer_seq x + data_size) |>
                              <| ack_flag := i32 (ack_flag x + 1) |>);;
       call_cb c (cbd <| cbd_status := TCP_CB_DATA_RCVD |>
                      <| cbd_data := drop (Z.to_nat data) pkt |> <| cbd_datalen := data_size |>)
     else ret cbd);
  if negb (Z.land flags TCP_FIN =? 0) then
    set_conn c (fun x => x <| status := CLOSE_WAIT |>);;
    do _ <- call_cb c (cbd <| cbd_status := TCP_CB_REMOTE_CLOSING |>);
    ret tt
  else ret tt.

Definition recv_established (c : Z) (tcp : tcp_hdr) (flags seq ack : Z) (pkt : list Z)
    (data data_size : Z) (cbd : tcb_cb_data) : T unit :=
  do '(data, data_size) <- recv_trim c tcp seq data data_size;
  do r <- recv_ack c ack cbd;
  match r with
  | None => ret tt
  | Some cbd => recv_data c flags pkt data data_size cbd
  end.

(** The SYN_RCVD case: the handshake is complete. *)
Definition recv_syn_rcvd (c : Z) (tcp : tcp_hdr) (flags seq ack : Z) (pkt : list Z)
    (data data_size : Z) (cbd : tcb_cb_data) : T unit :=
  do x <- get_conn c;
  do t <- get_timer (ts_rtt x);
  set_conn c (fun x => x <| srtt := t |> <| rttvar := t / 2 |>
    <| rto := u32 (t + Z.max TCP_RTT_G (u32 (TCP_RTT_K * (t / 2)))) |>
    <| status := ESTABLISHED |>
    <| peer_seq := u32 (peer_seq x + 1) |>
    <| local_seq := u32 (local_seq x + 1) |>
    <| local_seq_last := u32 (local_seq x + 1) |>
    <| local_seq_acked := u32 (local_seq x + 1) |>);;
  do cbd <- call_cb c (cbd <| cbd_status := TCP_CB_NEW_CONN |>);
  if data_size =? 0 then ret tt
  else recv_established c tcp flags seq ack pkt data data_size cbd.

(** The [switch] over the state of an existing connection. *)
Definition recv_state (c : Z) (tcp : tcp_hdr) (flags seq ack : Z) (pkt : list Z)
    (data data_size : Z) (cbd : tcb_cb_data) : T unit :=
  do x <- get_conn c;
  match status x with
  | SYN_RCVD => recv_syn_rcvd c tcp flags seq ack pkt data data_size cbd
  | ESTABLISHED => recv_established c tcp flags seq ack pkt data data_size cbd
  | LAST_ACK =>
      if negb (tcp_seq_sub ack (u32 (local_seq x + 1)) =? 0) then ret tt
      else
        set_conn c (fun x => x <| status := CLOSE_WAIT |>);;
        do _ <- call_cb c (cbd <| cbd_status := TCP_CB_REMOTE_CLOSED |>);
        tcp_conn_del c
  | FIN_WAIT_1 =>
      if negb (Z.land flags TCP_ACK =? 0) && negb (tcp_seq_sub ack (u32 (local_seq x + 1)) =? 0)
      then ret tt
      else if Z.land flags (Z.lor TCP_ACK TCP_FIN) =? Z.lor TCP_ACK TCP_FIN then
        set_conn c (fun x => x <| status := TIME_WAIT |> <| local_seq := u32 (local_seq x + 1) |>)
      else if negb (Z.land flags TCP_ACK =? 0) then
        set_conn c (fun x => x <| status := FIN_WAIT_2 |> <| local_seq := u32 (local_seq x + 1) |>)
      else if negb (Z.land flags TCP_FIN =? 0) then
        set_conn c (fun x => x <| status := CLOSING |>)
      else ret tt
  | FIN_WAIT_2 =>
      if negb (Z.land flags TCP_FIN =? 0) then set_conn c (fun x => x <| status := TIME_WAIT |>)
      else ret tt
  | CLOSING =>
      if negb (tcp_seq_sub ack (u32 (local_seq x + 1)) =? 0) then ret tt
      else set_conn c (fun x => x <| status := TIME_WAIT |> <| local_seq := u32 (local_seq x + 1) |>)
  | _ => ret tt
  end.

(** A segment for the connection [c]. *)
Definition recv_conn (c : Z) (tcp : tcp_hdr) (flags seq ack : Z) (pkt : list Z)
    (data data_size : Z) : T unit :=
  do x <- get_conn c;
  let cbd := mkCbd c TCP_CB_NONE (ip_remote x) (src tcp) (dst tcp) (pdata x) [] 0 in
  if negb (Z.land flags TCP_RST =? 0) then
    (if negb (status_eqb (status x) SYN_RCVD)
     then do _ <- call_cb c (cbd <| cbd_status := TCP_CB_REMOTE_CLOSED |>); ret tt
     else ret tt);;
    tcp_conn_del c
  else if (Z.land flags TCP_ACK =? 0) &&
          negb (status_eqb (status x) FIN_WAIT_1 || status_eqb (status x) FIN_WAIT_2) then ret tt
  else recv_state c tcp flags seq ack pkt data data_size cbd.

(** The header checks of [receive_tcp]: [None] is an access outside the
    packet memory, [Some None] a segment that is dropped.  [sg_data] is the
    offset of the payload from the IP header. *)
Definition parse_segment (pkt : list Z) (len : Z) : option (option segment) :=
  match ip_load pkt with
  | None => None
  | Some ip =>
      let iphdr_len := Z.land (ip_hl_v ip) 15 * 4 in
      let tcp := drop (Z.to_nat iphdr_len) pkt in
      match tcp_checksum_compute tcp (i32 (len - iphdr_len)) (ip_src ip) (ip_dst ip) with
      | None => None
      | Some sum =>
          if negb (sum =? 0) then Some None
          else
            match load 2 12 tcp with
            | None => None
            | Some fl =>
                let flags := ntohs fl in
                let tcphdr_len := Z.land (Z.shiftr flags TCP_HDR_LEN_SHIFT) TCP_HDR_LEN_MASK * 4 in
                if tcphdr_len <? TCP_HDR_SIZE then Some None
                else if u32 len <? iphdr_len + tcphdr_len then Some None
                else
                  match tcp_load tcp with
                  | None => None
                  | Some h =>
                      let data := iphdr_len + tcphdr_len in
                      let data_size := u32 (len - iphdr_len - tcphdr_len) in
                      let '(data, data_size) :=
                        if negb (Z.land flags TCP_URG =? 0)
                        then (data + ntohs (urg h), u32 (data_size - ntohs (urg h)))
                        else (data, data_size) in
                      Some (Some (mkSegment (ip_src ip) h tcp tcphdr_len flags
                                    (ntohl (seq h)) (ntohl (ack h)) data data_size))
                  end
            end
      end
  end.

Definition receive_tcp (pkt : list Z) (len : Z) (et_src : list Z) : T unit :=
  do p <- lift (parse_segment pkt len);
  match p with
  | None => ret tt
  | Some s =>
      do l <- gets conn_head;
      let c := tcp_conn_find (sg_ip s) (src (sg_hdr s)) (dst (sg_hdr s)) l in
      if c =? 0 then
        if Z.land (sg_flags s) TCP_FLAG_MASK =? TCP_SYN then
          do ll <- gets listen_head;
          match tcp_listen_find (dst (sg_hdr s)) ll with
          | Some li =>
              do _ <- tcp_conn_create (sg_ip s) (sg_hdr s) (sg_bytes s) (sg_hdrlen s) et_src
                        (listen_cb li);
              ret tt
          | None => ret tt
          end
        else ret tt
      else recv_conn c (sg_hdr s) (sg_flags s) (sg_seq s) (sg_ack s) pkt (sg_data s) (sg_size s)
  end.

(** ** Retransmission timer *)

Definition tcp_rexmit_init (c : Z) : T unit :=
  do t1 <- get_timer 0;
  do t2 <- get_timer 0;
  set_conn c (fun x => x <| ts_rexmit := t1 |> <| ts := t2 |> <| num_rexmit := 0 |>).

Definition tcp_rexmit_reset (c : Z) : T unit :=
  do t <- get_timer 0;
  set_conn c (fun x => x <| ts := t |> <| num_rexmit := u32 (num_rexmit x + 1) |>).

(** [c->rto << c->num_rexmit], shifted by the low five bits of the count as
    the MIPS [sllv] instruction does, and limited. *)
Definition rexmit_delay (x : tcp_conn) : Z :=
  Z.min (u32 (Z.shiftl (rto x) (num_rexmit x mod 32))) TCP_REXMIT_MAX_SEG_DELAY.

Definition tcp_rexmit_check (c : Z) (cbd : tcb_cb_data) : T Z :=
  do x <- get_conn c;
  do t <- get_timer (ts_rexmit x);
  if TCP_REXMIT_MAX_CONN_DELAY <? t then
    do _ <- tcp_send_packet c (Z.lor TCP_RST TCP_ACK) (local_seq x) (peer_seq x) no_payload 0;
    do x <- get_conn c;
    (match status x with
     | ESTABLISHED => do _ <- call_cb c (cbd <| cbd_status := TCP_CB_REMOTE_CLOSED |>); ret tt
     | FIN_WAIT_1 | CLOSE_WAIT =>
         do _ <- call_cb c (cbd <| cbd_status := TCP_CB_CLOSED |>); ret tt
     | _ => ret tt
     end);;
    tcp_conn_del c;;
    ret (-1)
  else
    let timeout := u32 (rexmit_delay x + ts x) in
    do curts <- get_timer 0;
    ret (if time_after curts timeout then 1 else 0).

(** ** Periodic work *)

(** The local variables of the ESTABLISHED case of [tcp_conn_check]. *)
Record send_vars := mkSend {
  s_data : option (list Z) * Z;
  s_datalen : Z;
  s_flags : Z;
  s_sendseq : Z
}.

(** New data, or waiting for the acknowledgement of what was sent.  [None]
    when the connection is gone ([return]). *)
Definition check_send (c : Z) (cbd : tcb_cb_data) (datalen_sent datalen_acked : Z)
    (v : send_vars) : T (option send_vars) :=
  do x <- get_conn c;
  if negb (rexmit_mode x =? 0) then ret (Some v)
  else if datalen_sent <? txlen x then
    let data := (tx x, datalen_sent) in
    let rest := u32 (txlen x - datalen_sent) in
    let datalen := Z.min rest (mss x) in
    if peer_wnd x <=? datalen then
      (if zw_mode x =? 0 then tcp_rexmit_init c else ret tt);;
      set_conn c (fun x => x <| zw_mode := 1 |>);;
      ret (Some (mkSend data 0 (s_flags v) (s_sendseq v)))
    else
      set_conn c (fun x => x <| local_seq := u32 (local_seq x + datalen) |>
                             <| peer_wnd := u32 (peer_wnd x - datalen) |>
                             <| ack_flag := i32 (ack_flag x + 1) |>);;
      tcp_rexmit_init c;;
      ret (Some (mkSend data datalen
                   (if datalen =? rest then Z.lor (s_flags v) TCP_PSH else s_flags v)
                   (s_sendseq v)))
  else if datalen_acked <? txlen x then
    do r <- tcp_rexmit_check c cbd;
    if r =? -1 then ret None
    else if r =? 1 then
      set_conn c (fun x => x <| rexmit_mode := 1 |> <| rexmit_wait_ack := 0 |>);;
      ret (Some v)
    else ret (Some v)
  else ret (Some v).

(** Retransmission of what has not been acknowledged. *)
Definition check_resend (c datalen_acked : Z) (v : send_vars) : T send_vars :=
  do x <- get_conn c;
  if negb (rexmit_wait_ack x =? 0) then ret v
  else
    let v := mkSend (s_data v) (s_datalen v) (s_flags v) (local_seq_acked x) in
    do v <-
      (if zw_mode x =? 0 then
         let datalen := Z.min (u32 (txlen x - datalen_acked)) (mss x) in
         set_conn c (fun x => x <| ack_flag := i32 (ack_flag x + 1) |> <| rexmit_wait_ack := 1 |>);;
         tcp_rexmit_reset c;;
         ret (mkSend (tx x, datalen_acked) datalen (s_flags v) (s_sendseq v))
       else ret v);
    do t <- get_timer (ts_rtt x);
    if TCP_RTT_INTERVAL <? t then
      do t <- get_timer 0;
      set_conn c (fun x => x <| ack_calc_rtt := u32 (local_seq_acked x + s_datalen v) |>
                             <| ts_rtt := t |>);;
      ret v
    else ret v.

Definition check_rexmit (c : Z) (cbd : tcb_cb_data) (datalen_acked : Z) (v : send_vars) :
    T (option send_vars) :=
  do x <- get_conn c;
  if rexmit_mode x =? 0 then ret (Some v)
  else if negb (rexmit_wait_ack x =? 0) then
    do r <- tcp_rexmit_check c cbd;
    if r =? -1 then ret None
    else
      (if r =? 1 then set_conn c (fun x => x <| rexmit_wait_ack := 0 |>) else ret tt);;
      do v <- check_resend c datalen_acked v;
      ret (Some v)
  else
    do v <- check_resend c datalen_acked v;
    ret (Some v).

(** Probing a closed window. *)
Definition check_probe (c : Z) (cbd : tcb_cb_data) (datalen_sent datalen_acked : Z)
    (v : send_vars) : T (option send_vars) :=
  do x <- get_conn c;
  if negb (peer_wnd x =? 0) && (zw_mode x =? 0) then ret (Some v)
  else
    (if zw_mode x =? 0 then set_conn c (fun x => x <| zw_mode := 1 |>);; tcp_rexmit_init c
     else ret tt);;
    if datalen_sent <? txlen x then
      do r <- tcp_rexmit_check c cbd;
      if r =? -1 then ret None
      else if r =? 1 then
        do x <- get_conn c;
        set_conn c (fun x =>
          (if local_seq x =? local_seq_acked x then x <| local_seq := u32 (local_seq x + 1) |> else x)
            <| ack_flag := i32 (ack_flag x + 1) |>);;
        tcp_rexmit_reset c;;
        ret (Some (mkSend (tx x, datalen_acked) 1 (s_flags v) (local_seq_acked x)))
      else ret (Some v)
    else ret (Some v).

(** Sending what was decided, and closing once there is nothing left. *)
Definition check_flush (c : Z) (v : send_vars) : T unit :=
  do x <- get_conn c;
  if negb (ack_flag x =? 0) then
    set_conn c (fun x => x <| ack_flag := 0 |>);;
    do _ <- tcp_send_packet c (s_flags v) (s_sendseq v) (peer_seq x) (s_data v) (s_datalen v);
    ret tt
  else ret tt.

Definition check_close (c : Z) (cbd : tcb_cb_data) : T unit :=
  do x <- get_conn c;
  if negb (close_flag x =? 0) && ((match tx x with None => true | Some _ => false end) || (txlen x =? 0))
  then
    do _ <- tcp_send_packet c (Z.lor TCP_FIN TCP_ACK) (local_seq x) (peer_seq x) no_payload 0;
    set_conn c (fun x => x <| status := FIN_WAIT_1 |>);;
    tcp_rexmit_init c;;
    do _ <- call_cb c (cbd <| cbd_status := TCP_CB_CLOSING |>);
    ret tt
  else ret tt.

Definition check_established (c : Z) (cbd : tcb_cb_data) : T unit :=
  do x <- get_conn c;
  let datalen_sent := u32 (tcp_seq_sub (local_seq x) (local_seq_last x)) in
  let datalen_acked := u32 (tcp_seq_sub (local_seq_acked x) (local_seq_last x)) in
  do r <- check_send c cbd datalen_sent datalen_acked
            (mkSend no_payload 0 TCP_ACK (local_seq x));
  match r with
  | None => ret tt
  | Some v =>
      do r <- check_rexmit c cbd datalen_acked v;
      match r with
      | None => ret tt
      | Some v =>
          do r <- check_probe c cbd datalen_sent datalen_acked v;
          match r with
          | None => ret tt
          | Some v => check_flush c v;; check_close c cbd
          end
      end
  end.

(** [switch (tcp_rexmit_check (c, &cbd)) { case -1: return; case 1: again; tcp_rexmit_reset (c); }] *)
Definition check_again (c : Z) (cbd : tcb_cb_data) (again : T Z) : T unit :=
  do r <- tcp_rexmit_check c cbd;
  if r =? -1 then ret tt
  else if r =? 1 then
    do _ <- again;
    tcp_rexmit_reset c
  else ret tt.

Definition tcp_conn_check (c : Z) : T unit :=
  do _ <- get_timer 0;
  do x <- get_conn c;
  let cbd := mkCbd c TCP_CB_NONE (ip_remote x) (port_remote x) (port_local x) (pdata x) [] 0 in
  match status x with
  | SYN_RCVD =>
      check_again c cbd
        (tcp_send_packet_opt c (Z.lor TCP_SYN TCP_ACK) (local_seq x) (u32 (peer_seq x + 1))
           (tcp_set_mss_opt (mss x)) no_payload 0)
  | ESTABLISHED => check_established c cbd
  | CLOSE_WAIT =>
      do _ <- tcp_send_packet_ctrl c (Z.lor TCP_FIN TCP_ACK);
      set_conn c (fun x => x <| status := LAST_ACK |>);;
      tcp_rexmit_init c
  | LAST_ACK => check_again c cbd (tcp_send_packet_ctrl c (Z.lor TCP_FIN TCP_ACK))
  | FIN_WAIT_1 =>
      check_again c cbd
        (tcp_send_packet c (Z.lor TCP_FIN TCP_ACK) (local_seq x) (peer_seq x) no_payload 0)
  | TIME_WAIT =>
      do _ <- tcp_send_packet_ctrl c TCP_ACK;
      do _ <- call_cb c (cbd <| cbd_status := TCP_CB_CLOSED |>);
      tcp_conn_del c
  | _ => ret tt
  end.

(** [list_for_each_safe] over the connections with a function of each; the
    result is the number of rounds.  The next element is fixed before the
    body runs. *)
Definition each_conn_body (f : Z -> T unit) (st : Z * Z) : T (Z * Z + Z) :=
  let '(lh, num) := st in
  if lh =? 0 then ret (inr num)
  else
    do l <- gets conn_head;
    do n <- lift (conn_after lh l);
    f lh;;
    ret (inl (n, num + 1)).

Definition each_conn (f : Z -> T unit) : T Z :=
  do l <- gets conn_head;
  iter (S (length l)) (each_conn_body f) (match l with (i, _) :: _ => i | [] => 0 end, 0).

Definition tcp_periodic_check : T unit :=
  do num <- each_conn tcp_conn_check;
  do stop <- gets tcp_stop;
  if negb (stop =? 0) && (num =? 0) then net_state ::= NETLOOP_SUCCESS else ret tt.

(** ** Calls of the application *)

Definition tcp_conn_set_pdata (c p : Z) : T Z :=
  if c =? 0 then ret 0
  else
    do x <- get_conn c;
    set_conn c (fun x => x <| pdata := p |>);;
    ret (pdata x).

Definition tcp_send_data (c : Z) (data : option (list Z)) (size : Z) : T Z :=
  match data with
  | None => ret (- EINVAL)
  | Some _ =>
      if (c =? 0) || (size =? 0) then ret (- EINVAL)
      else
        do x <- get_conn c;
        if negb (close_flag x =? 0) then ret 1
        else
          let datalen_acked := u32 (tcp_seq_sub (local_seq_acked x) (local_seq_last x)) in
          if (match tx x with Some _ => true | None => false end) && (datalen_acked <? txlen x)
          then ret 1
          else
            set_conn c (fun x => x <| tx := data |> <| txlen := size |>
                                   <| local_seq_last := local_seq x |>
                                   <| local_seq_acked := local_seq x |>);;
            ret 0
  end.

Definition tcp_close_conn (c rst : Z) : T Z :=
  if c =? 0 then ret (- EINVAL)
  else if negb (rst =? 0) then
    do x <- get_conn c;
    do _ <- tcp_send_packet c (Z.lor TCP_RST TCP_ACK) (local_seq x) (peer_seq x) no_payload 0;
    tcp_conn_del c;;
    ret 0
  else
    set_conn c (fun x => x <| close_flag := 1 |>);;
    ret 0.

Definition tcp_close_all_conn : T unit :=
  do _ <- each_conn (fun c => do _ <- tcp_close_conn c 0; ret tt);
  tcp_stop ::= 1.

Definition tcp_reset_all_conn : T unit :=
  do _ <- each_conn (fun c => do _ <- tcp_close_conn c 1; ret tt);
  tcp_stop ::= 1.

Definition tcp_conn_is_alive (c : Z) : T bool :=
  do x <- get_conn c;
  ret (status_eqb (status x) ESTABLISHED).

End Tcp.
