(* ===== verification/TcpInv.v ===== *)
(** * Invariant of the TCP stack and its primitive steps

    When a connection and the whole state are well-formed ([conn_ok],
    [world_ok]), what an application may do in a callback ([polite]), and
    how the primitive operations change the state ([wstep]). *)

From stdpp Require Import base numbers list.
From Stdlib Require Import ZArith Lia.
From S2P Require Import Prelude NetWire Tcp.

(** ** Sequence numbers *)

Lemma u32_eq a b : (a - b) mod 2 ^ 32 = 0 -> u32 a = u32 b.
Proof.
  intros H. unfold u32. replace a with (b + (a - b)) by lia.
  rewrite Z.add_mod, H, Z.add_0_r, Z.mod_mod by lia. done.
Qed.

Lemma i32_eq a b : u32 a = u32 b -> i32 a = i32 b.
Proof. unfold i32. by intros ->. Qed.

Lemma i32_unique a k : u32 a = u32 k -> - 2 ^ 31 <= k < 2 ^ 31 -> i32 a = k.
Proof. intros H Hk. rewrite (i32_eq _ _ H). by apply i32_small. Qed.

Lemma i32_exact a : exists k, i32 a = a + k * 2 ^ 32.
Proof.
  unfold i32, u32. pose proof (Z.div_mod a (2 ^ 32) ltac:(lia)).
  destruct (Z.ltb_spec (a mod 2 ^ 32) (2 ^ 31)).
  - exists (- (a / 2 ^ 32)). lia.
  - exists (- (a / 2 ^ 32) - 1). lia.
Qed.

(** The comparison of sequence numbers is the signed 32-bit difference. *)
Lemma tcp_seq_sub_i32 a b : is_u32 a -> is_u32 b -> tcp_seq_sub a b = i32 (a - b).
Proof.
  unfold is_u32. intros Ha Hb. unfold tcp_seq_sub, time_after.
  assert (Hn : forall x y, is_u32 x -> is_u32 y -> u32 (u32 (x + u32 (Z.lnot y)) + 1) = u32 (x - y)).
  { intros x y Hx Hy. unfold u32, Z.lnot. rewrite Z.add_mod_idemp_r, Z.add_mod_idemp_l by lia.
    f_equal. lia. }
  rewrite !Hn by done. rewrite !i32_u32.
  destruct (i32_exact (b - a)) as [k Hk]. destruct (i32_exact (a - b)) as [m Hm].
  pose proof (i32_range (b - a)). pose proof (i32_range (a - b)).
  destruct (Z.ltb_spec (i32 (b - a)) 0).
  - by destruct (Z.leb_spec b a).
  - assert (i32 (- i32 (b - a)) = i32 (a - b)).
    { rewrite i32_small by lia. lia. }
    by destruct (Z.leb_spec a b).
Qed.

Lemma i32_add a b : - 2 ^ 31 <= i32 a + i32 b < 2 ^ 31 -> i32 (a + b) = i32 a + i32 b.
Proof.
  intros H. destruct (i32_exact a) as [k Hk], (i32_exact b) as [m Hm], (i32_exact (a + b)) as [n Hn].
  pose proof (i32_range (a + b)). lia.
Qed.

Lemma i32_0_inv a b : is_u32 a -> is_u32 b -> i32 (a - b) = 0 -> a = b.
Proof. unfold is_u32. intros Ha Hb H. destruct (i32_exact (a - b)) as [k Hk]. lia. Qed.

Lemma is_u32_u32 x : is_u32 (u32 x).
Proof. apply u32_range. Qed.

Lemma u32_idemp x : u32 (u32 x) = u32 x.
Proof. unfold u32. by rewrite Z.mod_mod. Qed.

Create HintDb net.
#[export] Hint Resolve is_u32_u32 : net.

(** ** Connections *)

Definition off_sent (x : tcp_conn) : Z := i32 (local_seq x - local_seq_last x).
Definition off_acked (x : tcp_conn) : Z := i32 (local_seq_acked x - local_seq_last x).

(** Nothing to send: everything sent is acknowledged. *)
Definition tx_idle (x : tcp_conn) : Prop :=
  txlen x = 0 /\ rexmit_mode x = 0 /\ local_seq_acked x = local_seq x.

(** A chunk of the application is being sent: its bytes are there, and the
    acknowledged part is inside the sent part. *)
Definition tx_active (x : tcp_conn) : Prop :=
  (exists b, tx x = Some b /\ txlen x <= zlen b) /\
  0 < txlen x < 2 ^ 30 /\ 0 <= off_acked x <= off_sent x /\ off_sent x <= txlen x /\
  off_acked x < txlen x.

Record conn_ok (x : tcp_conn) : Prop := {
  co_ip : is_u32 (ip_remote x);
  co_rport : is_u16 (port_remote x);
  co_lport : is_u16 (port_local x);
  co_peer : is_u32 (peer_seq x);
  co_local : is_u32 (local_seq x);
  co_last : is_u32 (local_seq_last x);
  co_acked : is_u32 (local_seq_acked x);
  co_mss : 0 <= mss x <= 1460;
  co_ws : 0 <= peer_ws x <= 14;
  co_eth : length (ethaddr x) = 6%nat /\ Forall is_byte (ethaddr x);
  co_tx : forall b, tx x = Some b -> Forall is_byte b;
  co_syn : status x = SYN_RCVD -> txlen x = 0 /\ rexmit_mode x = 0;
  co_send : status x = ESTABLISHED -> tx_idle x \/ tx_active x
}.

(** What the application may do to a connection during a callback. *)
Record conn_app (x x' : tcp_conn) : Prop := {
  ca_status : status x' = status x;
  ca_ip : ip_remote x' = ip_remote x;
  ca_rport : port_remote x' = port_remote x;
  ca_lport : port_local x' = port_local x;
  ca_peer : peer_seq x' = peer_seq x;
  ca_local : local_seq x' = local_seq x;
  ca_ok : conn_ok x -> conn_ok x'
}.

Lemma conn_app_refl x : conn_app x x.
Proof. by split. Qed.

Lemma conn_app_trans x y z : conn_app x y -> conn_app y z -> conn_app x z.
Proof. intros [] []. split; congruence || auto. Qed.

#[export] Hint Resolve conn_app_refl : net.

(** ** The connection list *)

Lemma find_update_eq c x y l : find_conn c l = Some y -> find_conn c (update_conn c x l) = Some x.
Proof.
  induction l as [|[i z] l IH]; [done|]. simpl. destruct (Z.eqb_spec i c) as [->|Hne]; intros H; simpl.
  - by rewrite Z.eqb_refl.
  - destruct (Z.eqb_spec i c); [done|]. auto.
Qed.

Lemma find_update_ne c d x l : d <> c -> find_conn d (update_conn c x l) = find_conn d l.
Proof.
  intros Hne. induction l as [|[i z] l IH]; [done|]. simpl.
  destruct (Z.eqb_spec i c) as [->|]; simpl.
  - destruct (Z.eqb_spec c d); congruence.
  - by destruct (Z.eqb_spec i d).
Qed.

Lemma map_fst_update c x l : map fst (update_conn c x l) = map fst l.
Proof.
  induction l as [|[i z] l IH]; [done|]. simpl. destruct (i =? c); simpl; congruence.
Qed.

Lemma find_in c l x : find_conn c l = Some x -> c ∈ map fst l.
Proof.
  induction l as [|[i z] l IH]; [done|]. simpl. destruct (Z.eqb_spec i c) as [->|]; intros H.
  - apply elem_of_cons. by left.
  - apply elem_of_cons. right. auto.
Qed.

Lemma in_find c l : c ∈ map fst l -> exists x, find_conn c l = Some x.
Proof.
  induction l as [|[i z] l IH]; simpl; [by intros ?%not_elem_of_nil|].
  intros [->|H]%elem_of_cons; [exists z; by rewrite Z.eqb_refl|].
  destruct (Z.eqb_spec i c); [by exists z|auto].
Qed.

Lemma find_remove_ne c d l : d <> c -> find_conn d (remove_conn c l) = find_conn d l.
Proof.
  intros Hne. induction l as [|[i z] l IH]; [done|]. simpl.
  destruct (Z.eqb_spec i c) as [->|]; simpl; [by destruct (Z.eqb_spec c d)|].
  by destruct (Z.eqb_spec i d).
Qed.

Lemma remove_incl c l d : d ∈ map fst (remove_conn c l) -> d ∈ map fst l.
Proof.
  induction l as [|[i z] l IH]; [done|]. simpl. destruct (i =? c); simpl; rewrite ?elem_of_cons; tauto.
Qed.

Lemma remove_nodup c l : NoDup (map fst l) -> NoDup (map fst (remove_conn c l)).
Proof.
  induction l as [|[i z] l IH]; [done|]. simpl. rewrite NoDup_cons. intros [Hi Hl].
  destruct (i =? c); [done|]. simpl. apply NoDup_cons. split; [|auto].
  intros H. by apply Hi, (remove_incl c).
Qed.

Lemma find_remove_eq c l : NoDup (map fst l) -> find_conn c (remove_conn c l) = None.
Proof.
  induction l as [|[i z] l IH]; [done|]. simpl. rewrite NoDup_cons. intros [Hi Hl].
  destruct (Z.eqb_spec i c) as [->|].
  - destruct (find_conn c l) eqn:E; [|done]. by apply find_in in E.
  - simpl. destruct (Z.eqb_spec i c); [done|]. auto.
Qed.

Lemma remove_fst c l1 l2 :
  map fst l1 = map fst l2 -> map fst (remove_conn c l1) = map fst (remove_conn c l2).
Proof.
  revert l2. induction l1 as [|[i z] l1 IH]; intros [|[j y] l2]; try done. simpl.
  intros [= -> Hl]. destruct (j =? c); simpl; [done|]. f_equal. auto.
Qed.

Lemma tcp_conn_find_some ip rp lp l :
  Forall (fun i => 0 < i) (map fst l) -> NoDup (map fst l) -> tcp_conn_find ip rp lp l <> 0 ->
  exists x, find_conn (tcp_conn_find ip rp lp l) l = Some x /\
    ip_remote x = ip /\ port_remote x = rp /\ port_local x = lp.
Proof.
  induction l as [|[i z] l IH]; [done|]. cbn [map fst tcp_conn_find find_conn].
  rewrite Forall_cons, NoDup_cons. intros [Hi Hl] [Hni Hnd] H.
  destruct ((ip_remote z =? ip) && (port_remote z =? rp) && (port_local z =? lp)) eqn:E.
  - rewrite Z.eqb_refl. exists z. split; [done|].
    apply andb_prop in E as [E ?%Z.eqb_eq]. apply andb_prop in E as [?%Z.eqb_eq ?%Z.eqb_eq]. done.
  - destruct (IH Hl Hnd H) as (x & Hx & ?). exists x. split; [|done].
    destruct (Z.eqb_spec i (tcp_conn_find ip rp lp l)) as [->|]; [|done].
    by apply find_in in Hx.
Qed.

(** ** The state *)

(** The payload bytes handed to the application for connection [c]. *)
Fixpoint rcvd (c : Z) (t : list tcp_event) : list Z :=
  match t with
  | [] => []
  | EvCall _ d :: t =>
      (if (cbd_conn d =? c) && bool_decide (cbd_status d = TCP_CB_DATA_RCVD)
       then take (Z.to_nat (cbd_datalen d)) (cbd_data d) else []) ++ rcvd c t
  | EvSend _ :: t => rcvd c t
  end.

Lemma rcvd_app c t1 t2 : rcvd c (t1 ++ t2) = rcvd c t1 ++ rcvd c t2.
Proof.
  induction t1 as [|[f|h d] t1 IH]; [done|done|]. simpl. by rewrite IH, app_assoc.
Qed.

Abbreviation conn_of c w := (find_conn c (conn_head w)).

Section World.
Context {A : Type} {E : tcp_env A}.
Implicit Types w : tcp_world A.

Record world_ok w : Prop := {
  wo_nodup : NoDup (map fst (conn_head w));
  wo_ids : Forall (fun i => 0 < i) (map fst (conn_head w));
  wo_next : Forall (fun i => i < next_conn w) (map fst (conn_head w));
  wo_pos : 0 < next_conn w;
  wo_conns : forall c x, conn_of c w = Some x -> conn_ok x;
  wo_buf : zlen (net_tx_packet w) = PKTSIZE_ALIGN
}.

(** The configuration is well-formed. *)
Class env_ok : Prop := {
  eo_ip : is_u32 net_ip;
  eo_eth : length net_ethaddr = 6%nat /\ Forall is_byte net_ethaddr
}.

(** Connections may be given data to send, be marked for closing or get
    private data. *)
Record app_step w w' : Prop := {
  as_ids : map fst (conn_head w') = map fst (conn_head w);
  as_buf : zlen (net_tx_packet w') = zlen (net_tx_packet w);
  as_next : next_conn w' = next_conn w;
  as_conns : forall d x, conn_of d w = Some x ->
    exists x', conn_of d w' = Some x' /\ conn_app x x';
  as_trace : trace w' = trace w
}.

(** A callback about a connection returns, and neither frees a connection
    nor sends by itself. *)
Class polite : Prop :=
  run_cb_polite : forall h cbd w x, world_ok w -> conn_of (cbd_conn cbd) w = Some x ->
    wp (run_cb h cbd) (fun cbd' w' => app_step w w' /\ cbd_conn cbd' = cbd_conn cbd) w.

(** Work on connection [c], which stays: other connections change at most as
    the application may change them, and [B] is the payload delivered. *)
Record wstep (c : Z) (B : list Z) w w' : Prop := {
  ws_ids : map fst (conn_head w') = map fst (conn_head w);
  ws_buf : zlen (net_tx_packet w') = zlen (net_tx_packet w);
  ws_next : next_conn w' = next_conn w;
  ws_others : forall d x, d <> c -> conn_of d w = Some x ->
    exists x', conn_of d w' = Some x' /\ conn_app x x';
  ws_trace : exists t, trace w' = trace w ++ t /\ rcvd c t = B /\
    forall d, d <> c -> rcvd d t = []
}.

Lemma wstep_refl c w : wstep c [] w w.
Proof. split; eauto with net. exists []. by rewrite app_nil_r. Qed.

Lemma wstep_trans c B1 B2 w1 w2 w3 :
  wstep c B1 w1 w2 -> wstep c B2 w2 w3 -> wstep c (B1 ++ B2) w1 w3.
Proof.
  intros [Hi1 Hb1 Hn1 Ho1 (t1 & Ht1 & Hr1 & Hq1)] [Hi2 Hb2 Hn2 Ho2 (t2 & Ht2 & Hr2 & Hq2)].
  split; [congruence|congruence|congruence| |].
  - intros d x Hd Hx. destruct (Ho1 d x Hd Hx) as (y & Hy & ?).
    destruct (Ho2 d y Hd Hy) as (z & Hz & ?). eauto using conn_app_trans.
  - exists (t1 ++ t2). rewrite Ht2, Ht1, app_assoc, rcvd_app, Hr1, Hr2. split_and!; [done|done|].
    intros d Hd. by rewrite rcvd_app, Hq1, Hq2.
Qed.

Lemma wstep_trans_l c B w1 w2 w3 : wstep c [] w1 w2 -> wstep c B w2 w3 -> wstep c B w1 w3.
Proof. apply (wstep_trans c []). Qed.

Lemma wstep_ok c B w w' x' :
  world_ok w -> wstep c B w w' -> conn_of c w' = Some x' -> conn_ok x' -> world_ok w'.
Proof.
  intros [? ? ? ? Hc ?] [Hi Hb Hn Ho _] Hx' Hok. split; rewrite ?Hi, ?Hn; try done; [|congruence].
  intros d y Hy. destruct (decide (d = c)) as [->|Hne]; [congruence|].
  apply find_in in Hy as Hin. rewrite Hi in Hin. apply in_find in Hin as [x Hx].
  destruct (Ho d x Hne Hx) as (y' & Hy' & Happ). assert (y' = y) as -> by congruence.
  eapply ca_ok; eauto.
Qed.

(** Work on connection [c], which may be gone afterwards. *)
Record wfin (c : Z) (B : list Z) w w' : Prop := {
  wf_ok : world_ok w';
  wf_ids : map fst (conn_head w') = map fst (conn_head w) \/
           map fst (conn_head w') = map fst (remove_conn c (conn_head w));
  wf_next : next_conn w' = next_conn w;
  wf_others : forall d x, d <> c -> conn_of d w = Some x ->
    exists x', conn_of d w' = Some x' /\ conn_app x x';
  wf_trace : exists t, trace w' = trace w ++ t /\ rcvd c t = B /\
    forall d, d <> c -> rcvd d t = []
}.

Lemma wstep_fin c B w w' : wstep c B w w' -> world_ok w' -> wfin c B w w'.
Proof. intros [Hi Hb Hn Ho Ht] Hw. split; auto. Qed.

Lemma wstep_fin_trans c B1 B2 w1 w2 w3 :
  wstep c B1 w1 w2 -> wfin c B2 w2 w3 -> wfin c (B1 ++ B2) w1 w3.
Proof.
  intros [Hi1 Hb1 Hn1 Ho1 (t1 & Ht1 & Hr1 & Hq1)] [Hw Hi2 Hn2 Ho2 (t2 & Ht2 & Hr2 & Hq2)].
  split; [done| |congruence| |].
  - rewrite <- Hi1. destruct Hi2 as [?|Hi2]; [by left|right]. rewrite Hi2. by apply remove_fst.
  - intros d x Hd Hx. destruct (Ho1 d x Hd Hx) as (y & Hy & ?).
    destruct (Ho2 d y Hd Hy) as (z & Hz & ?). eauto using conn_app_trans.
  - exists (t1 ++ t2). rewrite Ht2, Ht1, app_assoc, rcvd_app, Hr1, Hr2. split_and!; [done|done|].
    intros d Hd. by rewrite rcvd_app, Hq1, Hq2.
Qed.

(** ** Primitive operations *)

Lemma wp_get_conn c x Q w : conn_of c w = Some x -> Q x w -> wp (get_conn c) Q w.
Proof. intros H HQ. unfold get_conn, wp, bind, gets, lift. by rewrite H. Qed.

Lemma wp_set_conn_t c f x Q w :
  conn_of c w = Some x ->
  (forall w', wstep c [] w w' -> trace w' = trace w -> conn_of c w' = Some (f x) -> Q tt w') ->
  wp (set_conn c f) Q w.
Proof.
  intros Hx HQ. unfold set_conn. apply wp_bind. eapply wp_get_conn; [done|]. wp_steps.
  apply HQ; [|done|].
  - split; [apply map_fst_update|done|done| |].
    + intros d y Hd Hy. exists y. split; [|apply conn_app_refl]. cbn. by rewrite find_update_ne.
    + exists []. by rewrite app_nil_r.
  - cbn. by eapply find_update_eq.
Qed.

Lemma wp_set_conn c f x Q w :
  conn_of c w = Some x ->
  (forall w', wstep c [] w w' -> conn_of c w' = Some (f x) -> Q tt w') ->
  wp (set_conn c f) Q w.
Proof. intros Hx HQ. eapply wp_set_conn_t; eauto. Qed.

Lemma wp_get_timer_t c x base Q w :
  conn_of c w = Some x ->
  (forall w' t, wstep c [] w w' -> trace w' = trace w -> conn_of c w' = Some x -> is_u32 t -> Q t w') ->
  wp (get_timer base) Q w.
Proof.
  intros Hx HQ. unfold get_timer. wp_steps. apply HQ; [|done|done|apply u32_range].
  split; eauto with net. exists []. by rewrite app_nil_r.
Qed.

Lemma wp_get_timer c x base Q w :
  conn_of c w = Some x ->
  (forall w' t, wstep c [] w w' -> conn_of c w' = Some x -> is_u32 t -> Q t w') ->
  wp (get_timer base) Q w.
Proof. intros Hx HQ. eapply wp_get_timer_t; eauto. Qed.

(** Removing [c] at the end of work on it. *)
Lemma wp_conn_del_t c B w0 w x Q :
  world_ok w -> wstep c B w0 w -> conn_of c w = Some x ->
  (forall w', wfin c B w0 w' -> trace w' = trace w -> conn_of c w' = None -> Q tt w') ->
  wp (tcp_conn_del c) Q w.
Proof.
  intros [Hnd Hpos Hnx Hp Hc Hb] [Hi Hb' Hn Ho Ht] Hx HQ. unfold tcp_conn_del.
  apply wp_bind. eapply wp_get_conn; [done|]. wp_steps.
  assert (Hnone : find_conn c (remove_conn c (conn_head w)) = None) by (by apply find_remove_eq).
  apply HQ; [|done|done]. split.
  - split; try done; cbn.
    + by apply remove_nodup.
    + apply Forall_forall. intros i Hi'%remove_incl. by eapply Forall_forall in Hpos.
    + apply Forall_forall. intros i Hi'%remove_incl. by eapply Forall_forall in Hnx.
    + intros d y Hy. destruct (decide (d = c)) as [->|Hne]; [congruence|].
      rewrite find_remove_ne in Hy by done. eauto.
  - right. cbn. by apply remove_fst.
  - done.
  - intros d y Hd Hy. destruct (Ho d y Hd Hy) as (y' & Hy' & ?). exists y'. split; [|done].
    cbn. by rewrite find_remove_ne.
  - done.
Qed.

Lemma wp_conn_del c B w0 w x Q :
  world_ok w -> wstep c B w0 w -> conn_of c w = Some x ->
  (forall w', wfin c B w0 w' -> conn_of c w' = None -> Q tt w') ->
  wp (tcp_conn_del c) Q w.
Proof. intros ? ? ? HQ. eapply wp_conn_del_t; eauto. Qed.

(** A callback about [c]. *)
Lemma wp_call_t c cbd x Q w :
  polite -> world_ok w -> conn_of c w = Some x -> cbd_conn cbd = c ->
  (forall cbd' w' x', wstep c (rcvd c [EvCall (cb x) cbd]) w w' ->
     trace w' = trace w ++ [EvCall (cb x) cbd] -> conn_of c w' = Some x' ->
     conn_app x x' -> cbd_conn cbd' = c -> Q cbd' w') ->
  wp (call_cb c cbd) Q w.
Proof.
  intros HP Hw Hx Hc HQ. unfold call_cb. apply wp_bind. eapply wp_get_conn; [done|].
  unfold emit. wp_steps. eapply wp_conseq.
  - eapply run_cb_polite; [|by rewrite Hc]. destruct Hw. split; done.
  - intros cbd' w' [[Hi Hb Hn Ho Ht] Hcc]. destruct (Ho c x Hx) as (x' & Hx' & Happ).
    apply (HQ _ _ x'); [|done|done|done|congruence].
    split; [done|done|done|naive_solver|]. exists [EvCall (cb x) cbd]. rewrite Ht.
    split_and!; [done|done|]. intros d Hd. simpl. rewrite Hc.
    by destruct (Z.eqb_spec c d) as [->|].
Qed.

Lemma wp_call c cbd x Q w :
  polite -> world_ok w -> conn_of c w = Some x -> cbd_conn cbd = c ->
  (forall cbd' w' x', wstep c (rcvd c [EvCall (cb x) cbd]) w w' -> conn_of c w' = Some x' ->
     conn_app x x' -> cbd_conn cbd' = c -> Q cbd' w') ->
  wp (call_cb c cbd) Q w.
Proof. intros ? ? ? ? HQ. eapply wp_call_t; eauto. Qed.

(** One that is not about received data. *)
Lemma wp_call_cb c cbd x Q w :
  polite -> world_ok w -> conn_of c w = Some x -> cbd_conn cbd = c ->
  cbd_status cbd <> TCP_CB_DATA_RCVD ->
  (forall cbd' w' x', wstep c [] w w' -> conn_of c w' = Some x' -> conn_app x x' ->
     cbd_conn cbd' = c -> Q cbd' w') ->
  wp (call_cb c cbd) Q w.
Proof.
  intros HP Hw Hx Hc Hs HQ. eapply wp_call; [done..|]. intros cbd' w' x' Hst.
  apply HQ. simpl in Hst. by rewrite (bool_decide_false _ Hs), andb_false_r in Hst.
Qed.

End World.

#[export] Hint Resolve wstep_refl : net.
Arguments polite {A} E.
Arguments env_ok {A} E.
