(* ===== verification/TcpSend.v ===== *)
(** * Sending segments

    [tcp_send_packet_opt] builds one frame in the packet buffer and sends
    it; the frame carries the requested segment, with correct checksums, and
    a receiver's header checks recover exactly that segment. *)

From stdpp Require Import base numbers list.
From Stdlib Require Import ZArith Lia.
From S2P Require Import Prelude NetWire Tcp TcpInv.

#[local] Opaque le_bytes.

Lemma net_set_ether_len mac vlan dest prot :
  length mac = 6%nat -> length dest = 6%nat ->
  (14 <= length (net_set_ether mac vlan dest prot) <= 18)%nat.
Proof.
  intros Hm Hd. unfold net_set_ether. cbv zeta.
  match goal with |- context [if ?b then _ else _] => destruct b end;
    match goal with |- context [if ?b then _ else _] => destruct b | _ => idtac end;
    rewrite ?length_app, ?length_le_bytes, Hm, Hd; lia.
Qed.

Lemma load_some n off l : 0 <= off -> off + Z.of_nat n <= zlen l -> exists v, load n off l = Some v.
Proof. intros H0 Hl. unfold load. rewrite slice_some by lia. eauto. Qed.

Lemma ip_load_some l : IP_HDR_SIZE <= zlen l -> exists h, ip_load l = Some h.
Proof.
  unfold IP_HDR_SIZE. intros Hl. unfold ip_load.
  edestruct (load_some 1 0 l) as [? ->]; [lia|lia|].
  edestruct (load_some 1 1 l) as [? ->]; [lia|lia|].
  edestruct (load_some 2 2 l) as [? ->]; [lia|lia|].
  edestruct (load_some 2 4 l) as [? ->]; [lia|lia|].
  edestruct (load_some 2 6 l) as [? ->]; [lia|lia|].
  edestruct (load_some 1 8 l) as [? ->]; [lia|lia|].
  edestruct (load_some 1 9 l) as [? ->]; [lia|lia|].
  edestruct (load_some 2 10 l) as [? ->]; [lia|lia|].
  edestruct (load_some 4 12 l) as [? ->]; [lia|lia|].
  edestruct (load_some 4 16 l) as [? ->]; [lia|lia|]. eauto.
Qed.

(** The data offset and the flags share one field. *)
Lemma flags_field n flags : 0 <= n < 16 ->
  let f := Z.lor (Z.shiftl n TCP_HDR_LEN_SHIFT) (Z.land flags TCP_FLAG_MASK) in
  is_u16 f /\ Z.land (Z.shiftr f TCP_HDR_LEN_SHIFT) TCP_HDR_LEN_MASK = n /\
  Z.land f TCP_FLAG_MASK = Z.land flags TCP_FLAG_MASK /\
  (forall m, 0 <= m < 64 -> Z.land f m = Z.land flags m).
Proof.
  intros Hn f.
  assert (Hl : 0 <= Z.land flags TCP_FLAG_MASK < 64).
  { unfold TCP_FLAG_MASK. change 63 with (Z.ones 6). rewrite Z.land_ones by lia. apply Z.mod_pos_bound. lia. }
  assert (Hf : f = n * 2 ^ 12 + Z.land flags TCP_FLAG_MASK)
    by (apply lor_shiftl_add; unfold TCP_HDR_LEN_SHIFT; lia).
  assert (Hm : forall m, 0 <= m < 64 -> Z.land f m = Z.land flags m).
  { intros m Hm. assert (m = Z.land TCP_FLAG_MASK m) as Em.
    { unfold TCP_FLAG_MASK. change 63 with (Z.ones 6). rewrite Z.land_comm, Z.land_ones by lia.
      symmetry. by apply Z.mod_small. }
    rewrite Em, !Z.land_assoc. f_equal. rewrite Hf. unfold TCP_FLAG_MASK. change 63 with (Z.ones 6).
    rewrite !Z.land_ones by lia. rewrite Z.add_comm, Z.mul_comm.
    replace (2 ^ 12 * n) with (64 * n * 2 ^ 6) by lia. rewrite Z_mod_plus_full. by apply Z.mod_mod. }
  split_and!; [unfold is_u16; lia| |by apply Hm|done].
  rewrite Hf. unfold TCP_HDR_LEN_SHIFT, TCP_HDR_LEN_MASK. rewrite Z.shiftr_div_pow2 by lia.
  rewrite Z.div_add_l, Z.div_small by lia. change 15 with (Z.ones 4). rewrite Z.land_ones by lia.
  rewrite Z.add_0_r. by apply Z.mod_small.
Qed.

Lemma mss_opt_ok m : Forall is_byte (tcp_set_mss_opt m) /\ zlen (tcp_set_mss_opt m) = 8.
Proof.
  split; [|done]. unfold tcp_set_mss_opt, TCP_OPT_MSS, TCP_OPT_WS, TCP_OPT_EOL, is_byte.
  change 255 with (Z.ones 8). rewrite !Z.land_ones by lia. change (2 ^ 8) with 256.
  pose proof (Z.mod_pos_bound (Z.shiftr m 8) 256 ltac:(lia)).
  pose proof (Z.mod_pos_bound m 256 ltac:(lia)). repeat constructor; lia.
Qed.

Section Send.
Context {A : Type} {E : tcp_env A}.
Implicit Types w : tcp_world A.

(** The frame [frame] carries, from this machine to the peer of [x], the
    segment with these flags, numbers, options and payload. *)
Record carries (x : tcp_conn) (flags sq ak : Z) (opt body frame : list Z)
    (eth : list Z) (h : ip_hdr) (t : tcp_hdr) : Prop := {
  fr_frame : frame = eth ++ ip_bytes h ++ tcp_bytes t ++ opt ++ body;
  fr_eth : eth = net_set_ether net_ethaddr net_our_vlan (ethaddr x) PROT_IP;
  fr_ip_ok : ip_hdr_ok h;
  fr_hl : ip_hl_v h = 69;
  fr_ip_len : ntohs (ip_len h) = IP_HDR_SIZE + TCP_HDR_SIZE + zlen opt + zlen body;
  fr_proto : ip_p h = IPPROTO_TCP;
  fr_addr : ip_src h = net_ip /\ ip_dst h = ip_remote x;
  fr_ip_sum : ip_checksum_ok (ip_bytes h) IP_HDR_SIZE = Some true;
  fr_tcp_ok : tcp_hdr_ok t;
  fr_ports : src t = port_local x /\ dst t = port_remote x;
  fr_seq : ntohl (NetWire.seq t) = u32 sq;
  fr_ack : ntohl (NetWire.ack t) = u32 ak;
  fr_flags : ntohs (hflags t) =
    Z.lor (Z.shiftl ((TCP_HDR_SIZE + zlen opt) / 4) TCP_HDR_LEN_SHIFT) (Z.land flags TCP_FLAG_MASK);
  fr_sum : tcp_checksum_compute (tcp_bytes t ++ opt ++ body) (TCP_HDR_SIZE + zlen opt + zlen body)
             net_ip (ip_remote x) = Some 0;
  fr_off : ip_off h = htons IP_FLAGS_DFRAG
}.

(** The address asked for, and the question. *)
Definition next_hop (ip : Z) : Z :=
  if Z.land ip net_netmask =? Z.land net_ip net_netmask then ip
  else if net_gateway =? 0 then ip else net_gateway.

Definition arp_question (ip : Z) : list Z :=
  net_set_ether net_ethaddr net_our_vlan net_bcast_ethaddr PROT_ARP ++
  le_bytes 2 (htons 1) ++ le_bytes 2 (htons PROT_IP) ++ [6; 4] ++ le_bytes 2 (htons 1) ++
  net_ethaddr ++ le_bytes 4 net_ip ++ net_null_ethaddr ++ le_bytes 4 ip.

(** The frame is kept until the address of its receiver is known. *)
Record waiting (c : Z) (x : tcp_conn) (frame : list Z) w w' : Prop := {
  wt_ip : net_arp_wait_packet_ip w' = ip_remote x;
  wt_reply : net_arp_wait_reply_ip w' = next_hop (ip_remote x);
  wt_conn : arp_wait_packet_ethaddr w' = c;
  wt_size : arp_wait_tx_packet_size w' = zlen frame;
  wt_frame : splice (net_tx_packet w) 0 frame = Some (net_tx_packet w');
  wt_trace : trace w' = trace w ++ [EvSend (arp_question (next_hop (ip_remote x)))]
}.

(** A step that sends one frame. *)
Lemma wstep_emit c w w' f :
  conn_head w' = conn_head w -> zlen (net_tx_packet w') = zlen (net_tx_packet w) ->
  next_conn w' = next_conn w -> trace w' = trace w ++ [EvSend f] -> wstep c [] w w'.
Proof.
  intros Hc Hb Hn Ht. split; rewrite ?Hc; eauto with net.
Qed.

(** The headers [tcp_send_packet_opt] fills in. *)
Lemma send_headers_ok (EO : env_ok E) x id flags sq ak opt body s1 s2 :
  conn_ok x -> Forall is_byte opt -> Forall is_byte body -> zlen opt <= 8 ->
  zlen opt + zlen body <= 1470 ->
  let len := htons (IP_HDR_SIZE + TCP_HDR_SIZE + zlen opt + zlen body) in
  let h s := mkIp 69 0 len (htons id) (htons IP_FLAGS_DFRAG) 255 IPPROTO_TCP s net_ip (ip_remote x) in
  let t s := mkTcp (port_local x) (port_remote x) (htonl sq) (htonl ak)
    (htons (Z.lor (Z.shiftl ((TCP_HDR_SIZE + zlen opt) / 4) TCP_HDR_LEN_SHIFT)
              (Z.land flags TCP_FLAG_MASK))) (htons (mss x)) s 0 in
  compute_ip_checksum (ip_bytes (h 0)) IP_HDR_SIZE = Some s1 ->
  tcp_checksum_compute (tcp_bytes (t 0) ++ opt ++ body) (TCP_HDR_SIZE + zlen opt + zlen body)
    net_ip (ip_remote x) = Some s2 ->
  let eth := net_set_ether net_ethaddr net_our_vlan (ethaddr x) PROT_IP in
  carries x flags sq ak opt body (eth ++ ip_bytes (h (u16 s1)) ++ tcp_bytes (t s2) ++ opt ++ body)
    eth (h (u16 s1)) (t s2).
Proof.
  intros Hx Ho Hb Hol Hl len h t Hs1 Hs2 eth.
  pose proof (zlen_nonneg opt). pose proof (zlen_nonneg body).
  assert (Hdiv : 0 <= (TCP_HDR_SIZE + zlen opt) / 4 < 16).
  { unfold TCP_HDR_SIZE. split; [apply Z.div_pos; lia|apply Z.div_lt_upper_bound; lia]. }
  assert (Hip0 : ip_hdr_ok (h 0)).
  { destruct EO, Hx. split; cbn [ip_hl_v ip_tos ip_len ip_id ip_off ip_ttl ip_p ip_sum ip_src ip_dst h];
      try apply htons_range; try done; unfold IPPROTO_TCP, is_u16; lia. }
  destruct (ip_checksum_verifies _ _ _ _ _ _ _ _ _ _ Hip0 ltac:(lia) Hs1) as [Hu1 Hv1].
  assert (Hrest : TCP_HDR_SIZE + zlen opt + zlen body = TCP_HDR_SIZE + zlen (opt ++ body))
    by (rewrite zlen_app; lia).
  rewrite Hrest in Hs2.
  assert (Hob : Forall is_byte (opt ++ body)) by (by apply Forall_app).
  assert (Hmax : TCP_HDR_SIZE + zlen (opt ++ body) <= MAX_SEG)
    by (rewrite zlen_app; unfold TCP_HDR_SIZE, MAX_SEG; lia).
  destruct (tcp_checksum_verifies _ _ _ _ _ _ _ _ _ _ _ Hob Hmax Hs2) as [Hu2 Hv2].
  rewrite (u16_small s1) by apply Hu1. split; try done.
  - destruct EO, Hx. split; cbn [ip_hl_v ip_tos ip_len ip_id ip_off ip_ttl ip_p ip_sum ip_src ip_dst h];
      try apply htons_range; try done; unfold IPPROTO_TCP, is_u16; lia.
  - cbn [ip_len h]. unfold len. rewrite ntohs_htons. apply u16_small.
    unfold IP_HDR_SIZE, TCP_HDR_SIZE. lia.
  - destruct Hx. split; cbn [src dst NetWire.seq NetWire.ack hflags wnd chksum urg t];
      try apply htons_range; try apply htonl_range; try done; unfold is_u16; lia.
  - apply ntohl_htonl.
  - apply ntohl_htonl.
  - cbn [hflags t]. rewrite ntohs_htons. apply u16_small.
    by destruct (flags_field ((TCP_HDR_SIZE + zlen opt) / 4) flags Hdiv) as (? & _).
  - by rewrite Hrest.
Qed.

Lemma compute_ip_checksum_some h : exists s, compute_ip_checksum (ip_bytes h) IP_HDR_SIZE = Some s.
Proof.
  unfold compute_ip_checksum. rewrite <- (zlen_ip_bytes h), slice_full. eauto.
Qed.

Lemma tcp_checksum_some t opt body sip dip :
  exists s, tcp_checksum_compute (tcp_bytes t ++ opt ++ body) (TCP_HDR_SIZE + zlen opt + zlen body)
              sip dip = Some s.
Proof.
  unfold tcp_checksum_compute. cbv zeta.
  replace (TCP_HDR_SIZE + zlen opt + zlen body) with (zlen (tcp_bytes t ++ opt ++ body))
    by (rewrite !zlen_app, zlen_tcp_bytes; lia).
  rewrite Z.max_l by apply zlen_nonneg. rewrite slice_full. eauto.
Qed.

Lemma wp_arp_request (Q : unit -> tcp_world A -> Prop) w :
  let hop := next_hop (net_arp_wait_packet_ip w) in
  Q tt (w <| net_arp_wait_reply_ip := hop |> <| trace := trace w ++ [EvSend (arp_question hop)] |>) ->
  wp arp_request Q w.
Proof.
  intros hop HQ. unfold arp_request, arp_raw_request, eth_send, emit. unfold hop, next_hop in HQ. wp_step. wp_step. wp_step.
  destruct (_ =? _); cbn [negb]; [|destruct (_ =? _)]; wp_steps; exact HQ.
Qed.

(** Sending a segment on a well-formed connection: one frame goes out that
    carries it (or, without the peer's address, an ARP request). *)
Lemma wp_send_opt_full (EO : env_ok E) c x flags sq ak opt payload body Q w :
  world_ok w -> conn_of c w = Some x -> Forall is_byte opt -> zlen opt <= 8 ->
  payload_bytes payload (zlen body) = Some body -> Forall is_byte body ->
  zlen opt + zlen body <= 1470 ->
  (forall w' r, wstep c [] w w' -> conn_head w' = conn_head w ->
     (is_null_ethaddr (ethaddr x) = false ->
      exists frame eth h t, carries x flags sq ak opt body frame eth h t /\
        trace w' = trace w ++ [EvSend frame]) ->
     (is_null_ethaddr (ethaddr x) = true ->
      exists frame eth h t, carries x flags sq ak opt body frame eth h t /\ waiting c x frame w w') ->
     Q r w') ->
  wp (tcp_send_packet_opt c flags sq ak opt payload (zlen body)) Q w.
Proof.
  intros Hw Hx Ho Hol Hp Hb Hl HQ.
  pose proof (wo_conns _ Hw _ _ Hx) as Hok.
  pose proof (zlen_nonneg opt). pose proof (zlen_nonneg body).
  unfold tcp_send_packet_opt. apply wp_bind. eapply wp_get_conn; [done|]. do 2 wp_step.
  set (eth := net_set_ether _ _ _ _).
  assert (Heth : (14 <= length eth <= 18)%nat)
    by (apply net_set_ether_len; [apply EO|apply Hok]).
  pose proof (wo_buf _ Hw) as Hbuf. unfold PKTSIZE_ALIGN, zlen in Hbuf.
  destruct (ip_load_some (drop (length eth) (net_tx_packet w))) as [h0 Hh0].
  { unfold IP_HDR_SIZE, zlen. rewrite length_drop. lia. }
  apply wp_bind. eapply wp_lift; [exact Hh0|]. do 4 wp_step. apply wp_bind.
  cbn [net_set_ip_header ip_hl_v ip_tos ip_len ip_id ip_off ip_ttl ip_p ip_sum ip_src ip_dst].
  edestruct compute_ip_checksum_some as [s1 Hs1]. eapply wp_lift; [exact Hs1|].
  apply wp_bind. eapply wp_lift; [exact Hp|].
  apply wp_bind. edestruct tcp_checksum_some as [s2 Hs2]. eapply wp_lift; [exact Hs2|].
  set (frame := eth ++ _).
  pose proof (send_headers_ok EO x _ flags sq ak opt body s1 s2 Hok Ho Hb Hol Hl Hs1 Hs2) as Hcar.
  assert (Hfl : zlen frame <= PKTSIZE_ALIGN).
  { unfold frame. rewrite !zlen_app, zlen_ip_bytes, zlen_tcp_bytes.
    unfold PKTSIZE_ALIGN, IP_HDR_SIZE, TCP_HDR_SIZE. assert (zlen eth <= 18) by (unfold zlen; lia). lia. }
  destruct (splice (net_tx_packet w) 0 frame) as [pkt|] eqn:Hsp;
    [|rewrite splice_some in Hsp; [done|lia|rewrite (wo_buf _ Hw); lia]].
  apply wp_bind. eapply wp_lift; [reflexivity|]. do 2 wp_step.
  pose proof (splice_zlen _ _ _ _ Hsp) as Hpl.
  destruct (is_null_ethaddr (ethaddr x)).
  - unfold get_timer. wp_steps. apply wp_arp_request. wp_steps.
    apply HQ; [by eapply wstep_emit|done|done|]. intros _. do 4 eexists. split; [exact Hcar|]. by constructor.
  - unfold eth_send, emit. wp_steps. apply HQ; [by eapply wstep_emit|done| |done].
    intros _. do 4 eexists. split; [exact Hcar|done].
Qed.

Lemma wp_send_opt (EO : env_ok E) c x flags sq ak opt payload body Q w :
  world_ok w -> conn_of c w = Some x -> Forall is_byte opt -> zlen opt <= 8 ->
  payload_bytes payload (zlen body) = Some body -> Forall is_byte body ->
  zlen opt + zlen body <= 1470 ->
  (forall w' r, wstep c [] w w' -> conn_head w' = conn_head w ->
     (is_null_ethaddr (ethaddr x) = false ->
      exists frame eth h t, carries x flags sq ak opt body frame eth h t /\
        trace w' = trace w ++ [EvSend frame]) ->
     Q r w') ->
  wp (tcp_send_packet_opt c flags sq ak opt payload (zlen body)) Q w.
Proof. intros. eapply wp_send_opt_full; eauto. Qed.

(** A receiver that gets the frame recovers the segment. *)
Lemma carries_parses x flags sq ak opt body frame eth h t :
  carries x flags sq ak opt body frame eth h t -> Forall is_byte opt -> Forall is_byte body ->
  zlen opt <= 8 -> zlen opt mod 4 = 0 -> zlen opt + zlen body <= 1470 -> Z.land flags TCP_URG = 0 ->
  exists s, parse_segment (drop (length eth) frame) (ntohs (ip_len h)) = Some (Some s) /\
    sg_ip s = net_ip /\ src (sg_hdr s) = port_local x /\ dst (sg_hdr s) = port_remote x /\
    sg_seq s = u32 sq /\ sg_ack s = u32 ak /\
    (forall m, 0 <= m < 64 -> Z.land (sg_flags s) m = Z.land flags m) /\
    sg_hdrlen s = TCP_HDR_SIZE + zlen opt /\
    drop (Z.to_nat (sg_data s)) (drop (length eth) frame) = body /\ sg_size s = zlen body.
Proof.
  intros [Hf Heth Hiok Hhl Hlen Hp [Hsrc Hdst] Hisum Htok [Hsp Hdp] Hsq Hak Hfl Hsum] Ho Hb Hol Hm4 Hl Hurg.
  pose proof (zlen_nonneg opt). pose proof (zlen_nonneg body).
  rewrite Hf, drop_app_length. unfold parse_segment.
  rewrite ip_load_bytes by done. rewrite Hhl. change (Z.land 69 15 * 4) with 20.
  assert (Hd : drop (Z.to_nat 20) (ip_bytes h ++ tcp_bytes t ++ opt ++ body) = tcp_bytes t ++ opt ++ body).
  { change 20 with IP_HDR_SIZE. rewrite <- (zlen_ip_bytes h). unfold zlen. by rewrite Nat2Z.id, drop_app_length. }
  cbv zeta. rewrite Hd, Hlen, Hsrc, Hdst.
  unfold IP_HDR_SIZE, TCP_HDR_SIZE in *.
  replace (20 + 20 + zlen opt + zlen body - 20) with (20 + zlen opt + zlen body) by lia.
  rewrite i32_small, Hsum by lia. cbn [negb Z.eqb].
  assert (Hfo : load 2 12 (tcp_bytes t ++ opt ++ body) = Some (hflags t)).
  { pose proof (tcp_load_bytes t (opt ++ body) Htok) as Ht. unfold tcp_load in Ht.
    repeat match type of Ht with context [match ?o with _ => _ end] => destruct o; [|done] end.
    simplify_eq. done. }
  rewrite Hfo, Hfl.
  destruct (flags_field ((20 + zlen opt) / 4) flags) as (_ & Hn & _ & Hmask).
  { split; [apply Z.div_pos; lia|apply Z.div_lt_upper_bound; lia]. }
  rewrite Hn.
  assert (Hdv : (20 + zlen opt) / 4 * 4 = 20 + zlen opt).
  { pose proof (Z.div_mod (zlen opt) 4 ltac:(lia)). change 20 with (5 * 4) at 1.
    rewrite Z.add_comm, Z.div_add by lia. lia. }
  rewrite Hdv. destruct (Z.ltb_spec (20 + zlen opt) 20); [lia|].
  rewrite (u32_small (20 + 20 + zlen opt + zlen body)) by lia.
  destruct (Z.ltb_spec (20 + 20 + zlen opt + zlen body) (20 + (20 + zlen opt))); [lia|].
  rewrite tcp_load_bytes by done.
  rewrite (Hmask TCP_URG) by (unfold TCP_URG; lia). rewrite Hurg. cbn [negb Z.eqb].
  eexists. split; [reflexivity|]. cbn [sg_ip sg_hdr sg_seq sg_ack sg_flags sg_hdrlen sg_data sg_size].
  split_and!; try done.
  - rewrite !app_assoc.
    replace (Z.to_nat (20 + (20 + zlen opt))) with (length ((ip_bytes h ++ tcp_bytes t) ++ opt)).
    + by rewrite drop_app_length.
    + pose proof (zlen_ip_bytes h) as E1. pose proof (zlen_tcp_bytes t) as E2.
      unfold zlen, IP_HDR_SIZE, TCP_HDR_SIZE in *. rewrite !length_app. lia.
  - rewrite u32_small by lia. lia.
Qed.

End Send.
