(* ===== verification/TcpRecv.v ===== *)
(** * Receiving segments

    [receive_tcp] keeps the invariant, follows the TCP state diagram, and
    hands the application the bytes of the peer's stream in order, each
    exactly once. *)

From stdpp Require Import base numbers list relations.
From Stdlib Require Import ZArith Lia.
From S2P Require Import Prelude NetWire Tcp TcpInv TcpSend.

#[local] Opaque le_bytes.

(** Change members of a connection that [conn_ok] does not restrict. *)
Ltac conn_simpl :=
  cbn [update member_status member_ip_remote member_port_remote member_port_local member_peer_seq
    member_local_seq member_local_seq_last member_local_seq_acked member_ts member_ts_rexmit
    member_num_rexmit member_ethaddr member_mss member_tx member_txlen member_cb member_close_flag
    member_ack_flag member_rexmit_mode member_rexmit_wait_ack member_zw_mode member_peer_wnd
    member_peer_ws member_srtt member_rttvar member_rto member_ts_rtt member_ack_calc_rtt
    member_pdata status ip_remote port_remote port_local peer_seq local_seq local_seq_last
    local_seq_acked ts ts_rexmit num_rexmit ethaddr mss tx txlen cb close_flag ack_flag rexmit_mode rexmit_wait_ack
    zw_mode peer_wnd peer_ws srtt rttvar rto ts_rtt ack_calc_rtt pdata].

(** The same peer and ports. *)
Definition same_peer (x x' : tcp_conn) : Prop :=
  ip_remote x' = ip_remote x /\ port_remote x' = port_remote x /\ port_local x' = port_local x.

Lemma conn_app_peer x x' : conn_app x x' -> same_peer x x'.
Proof. intros []. done. Qed.

Lemma same_peer_trans x y z : same_peer x y -> same_peer y z -> same_peer x z.
Proof. unfold same_peer. intuition congruence. Qed.

(** Members a segment or a timer may change without touching what
    [conn_ok] and the receiver's position depend on. *)
Definition soft (x x' : tcp_conn) : Prop :=
  x' = mkConn (status x) (ip_remote x) (port_remote x) (port_local x) (peer_seq x) (local_seq x)
    (local_seq_last x) (local_seq_acked x) (ts x') (ts_rexmit x') (num_rexmit x') (ethaddr x)
    (mss x) (tx x) (txlen x) (cb x) (close_flag x) (ack_flag x') (rexmit_mode x)
    (rexmit_wait_ack x') (zw_mode x') (peer_wnd x') (peer_ws x) (srtt x') (rttvar x') (rto x')
    (ts_rtt x') (ack_calc_rtt x') (pdata x).

Lemma soft_ok x x' : soft x x' -> conn_ok x -> conn_ok x'.
Proof.
  intros -> [? ? ? ? ? ? ? ? ? ? ? ? Hs]. split; try done.
Qed.

Lemma soft_refl x : soft x x.
Proof. by destruct x. Qed.

Lemma soft_trans x y z : soft x y -> soft y z -> soft x z.
Proof. intros H1 H2. unfold soft in *. rewrite H2, H1. done. Qed.

Lemma soft_app x x' : soft x x' -> conn_app x x'.
Proof. intros H. split; try (by rewrite H). by apply soft_ok. Qed.

#[export] Hint Resolve soft_refl : net.

(** A step that leaves only soft changes on [c]. *)
(** The state diagram of TCP (for a connection opened by the peer). *)
Inductive tcp_edge : tcp_state -> tcp_state -> Prop :=
| edge_open : tcp_edge SYN_RCVD ESTABLISHED
| edge_close : tcp_edge ESTABLISHED FIN_WAIT_1
| edge_remote_fin : tcp_edge ESTABLISHED CLOSE_WAIT
| edge_last_ack : tcp_edge CLOSE_WAIT LAST_ACK
| edge_fin_acked : tcp_edge FIN_WAIT_1 FIN_WAIT_2
| edge_both_close : tcp_edge FIN_WAIT_1 CLOSING
| edge_fin_fin_ack : tcp_edge FIN_WAIT_1 TIME_WAIT
| edge_fin_late : tcp_edge FIN_WAIT_2 TIME_WAIT
| edge_closing : tcp_edge CLOSING TIME_WAIT.

#[export] Hint Constructors tcp_edge : net.
#[export] Hint Resolve rtc_refl rtc_once : net.

(** The sequence number of the next byte the application will get. *)
Definition rx_pos (x : tcp_conn) : Z :=
  if status_eqb (status x) SYN_RCVD then u32 (peer_seq x + 1) else peer_seq x.

(** The peer acknowledges nothing that was not sent. *)
Definition ack_honest (x : tcp_conn) (ak : Z) : Prop :=
  i32 (ak - (if status_eqb (status x) SYN_RCVD then u32 (local_seq x + 1) else local_seq x)) <= 0.

(** How many bytes of a segment at [sq] the receiver at [p] has not seen and
    can take. *)
Definition fresh (sq size p : Z) : Z :=
  let d := i32 (sq - p) in
  if d <=? 0 then Z.max 0 (size + d) else 0.

(** An acknowledgement of what was sent before the current chunk; the segment
    that carries it is left alone. *)
Definition stale_ack (x : tcp_conn) (ak : Z) : bool := i32 (ak - local_seq_last x) <? 0.

Section Recv.
Context {A : Type} {E : tcp_env A}.
Implicit Types w : tcp_world A.

Lemma wp_soft c f x Q w :
  world_ok w -> conn_of c w = Some x -> soft x (f x) ->
  (forall w', world_ok w' -> wstep c [] w w' -> conn_of c w' = Some (f x) -> Q tt w') ->
  wp (set_conn c f) Q w.
Proof.
  intros Hw Hx Hs HQ. eapply wp_set_conn; [done|]. intros w' Hst Hx'. apply HQ; [|done|done].
  eapply wstep_ok; [done..|]. eapply soft_ok; [done|]. by eapply wo_conns.
Qed.

Lemma wp_timer c x base Q w :
  world_ok w -> conn_of c w = Some x ->
  (forall w' t, world_ok w' -> wstep c [] w w' -> conn_of c w' = Some x -> is_u32 t -> Q t w') ->
  wp (get_timer base) Q w.
Proof.
  intros Hw Hx HQ. eapply wp_get_timer; [done|]. intros w' t Hst Hx' Ht. apply HQ; try done.
  eapply wstep_ok; [done..|]. by eapply wo_conns.
Qed.

(** What is left of the payload starts where the receiver expects it. *)
Lemma wp_recv_trim c x tcp sq data size Q w :
  world_ok w -> conn_of c w = Some x -> is_u32 sq -> 0 <= size < 2 ^ 30 ->
  (forall w' x' data' size', world_ok w' -> wstep c [] w w' -> conn_of c w' = Some x' -> soft x x' ->
     (size' = 0 \/ exists k, 0 <= k < size /\ data' = data + k /\ size' = size - k /\
                             u32 (sq + k) = peer_seq x) ->
     size' = fresh sq size (peer_seq x) ->
     Q (data', size') w') ->
  wp (recv_trim c tcp sq data size) Q w.
Proof.
  intros Hw Hx Hsq Hsize HQ. pose proof (wo_conns _ Hw _ _ Hx) as Hok.
  pose proof (co_peer _ Hok) as Hp. unfold recv_trim. apply wp_bind. eapply wp_get_conn; [done|].
  apply wp_bind. eapply wp_soft; [done|done| |].
  { by destruct x, (_ && _). }
  intros w1 Hw1 Hst1 Hx1. set (x1 := update _ _ _) in Hx1.
  assert (Hs1 : soft x x1) by (unfold x1; by destruct x, (_ && _)).
  rewrite !tcp_seq_sub_i32 by (done || apply is_u32_u32).
  replace (i32 (u32 (sq + size) - peer_seq x)) with (i32 (sq - peer_seq x + size)).
  2:{ apply i32_eq, u32_eq. unfold u32.
      replace (sq - peer_seq x + size - ((sq + size) mod 2 ^ 32 - peer_seq x))
        with (sq + size - (sq + size) mod 2 ^ 32) by lia.
      pose proof (Z.div_mod (sq + size) (2 ^ 32) ltac:(lia)) as Hd.
      replace (sq + size - (sq + size) mod 2 ^ 32) with ((sq + size) / 2 ^ 32 * 2 ^ 32) by lia.
      apply Z_mod_mult. }
  pose proof (i32_range (sq - peer_seq x)).
  assert (Hack : 0 = fresh sq size (peer_seq x) -> forall data', wp (set_conn c (fun x => x <| ack_flag := i32 (ack_flag x + 1) |>);;
    ret (data', 0)) Q w1).
  { intros Hfr data'. apply wp_bind. eapply wp_soft; [done|done|done|]. intros w2 Hw2 Hst2 Hx2. apply wp_ret.
    eapply HQ; [done|by eapply wstep_trans_l|done|by eapply soft_trans|by left|done]. }
  unfold fresh in *.
  destruct (Z.ltb_spec (i32 (sq - peer_seq x)) 0).
  - rewrite i32_add by (rewrite (i32_small size) by lia; lia). rewrite (i32_small size) by lia.
    destruct (Z.ltb_spec 0 (i32 (sq - peer_seq x) + size)) as [Hpos|].
    2:{ apply Hack. destruct (Z.leb_spec (i32 (sq - peer_seq x)) 0); lia. }
    destruct (i32_exact (sq - peer_seq x)) as [m Hm].
    set (k := - i32 (sq - peer_seq x)) in *.
    assert (Htmp : u32 (sq + size - peer_seq x) = size - k).
    { rewrite <- (u32_small (size - k)) by lia. apply u32_eq.
      replace (sq + size - peer_seq x - (size - k)) with ((- m) * 2 ^ 32) by lia. apply Z_mod_mult. }
    apply wp_ret. eapply HQ; [done|done|done|done| |].
    2:{ rewrite Htmp. destruct (Z.leb_spec (i32 (sq - peer_seq x)) 0); lia. }
    right. exists k. rewrite Htmp.
    rewrite (u32_small (size - (size - k))) by lia. split_and!; try lia.
    rewrite <- (u32_small (peer_seq x)) by done. apply u32_eq.
    replace (sq + k - peer_seq x) with ((- m) * 2 ^ 32) by lia. apply Z_mod_mult.
  - destruct (Z.ltb_spec 0 (i32 (sq - peer_seq x))) as [|Heq].
    { apply Hack. destruct (Z.leb_spec (i32 (sq - peer_seq x)) 0); lia. }
    assert (sq = peer_seq x) as -> by (apply i32_0_inv; [done|done|lia]).
    apply wp_ret. eapply HQ; [done|done|done|done| |].
    2:{ destruct (Z.leb_spec (i32 (peer_seq x - peer_seq x)) 0); lia. }
    destruct (decide (size = 0)) as [->|]; [by left|]. right. exists 0. split_and!; try lia.
    rewrite Z.add_0_r. by apply u32_small.
Qed.

Lemma wp_rtt_calc c x Q w :
  conn_of c w = Some x ->
  (forall w' x', wstep c [] w w' -> conn_of c w' = Some x' -> soft x x' -> Q tt w') ->
  wp (rtt_calc c) Q w.
Proof.
  intros Hx HQ. unfold rtt_calc. apply wp_bind. eapply wp_get_conn; [done|].
  apply wp_bind. eapply wp_get_timer; [done|]. intros w1 t Hst1 Hx1 _.
  eapply wp_set_conn; [done|]. intros w2 Hst2 Hx2.
  eapply HQ; [by eapply wstep_trans_l|done|]. by destruct x.
Qed.

(** An acknowledgement of new data moves [local_seq_acked] inside the part
    that was sent. *)
Lemma ack_gain x ack :
  conn_ok x -> status x = ESTABLISHED -> is_u32 ack ->
  i32 (ack - local_seq x) <= 0 -> 0 < i32 (ack - local_seq_acked x) ->
  tx_active x /\ off_acked x < i32 (ack - local_seq_last x) <= off_sent x.
Proof.
  intros Hok Hst Ha Hle Hgt. destruct (co_send _ Hok Hst) as [(H0 & H1 & H2)|Hact].
  - rewrite H2 in Hgt. lia.
  - split; [done|]. destruct Hact as (_ & Hlen & Hoff & Hs & Hlt). unfold off_acked, off_sent in *.
    pose proof (i32_range (ack - local_seq x)).
    assert (Hp : i32 (local_seq x - local_seq_acked x) =
                 i32 (local_seq x - local_seq_last x) - i32 (local_seq_acked x - local_seq_last x)).
    { apply i32_unique; [|lia]. apply u32_eq.
      destruct (i32_exact (local_seq x - local_seq_last x)) as [k ->].
      destruct (i32_exact (local_seq_acked x - local_seq_last x)) as [m ->].
      replace (_ - _) with ((m - k) * 2 ^ 32) by lia. apply Z_mod_mult. }
    replace (ack - local_seq_acked x) with ((ack - local_seq x) + (local_seq x - local_seq_acked x)) in Hgt by lia.
    rewrite i32_add in Hgt by lia.
    replace (ack - local_seq_last x) with ((ack - local_seq x) + (local_seq x - local_seq_last x)) by lia.
    rewrite i32_add by lia. lia.
Qed.

(** A repeated acknowledgement that is not older than the chunk. *)
Lemma ack_back x ack :
  tx_active x -> is_u32 ack -> i32 (ack - local_seq_acked x) <= 0 -> 0 <= i32 (ack - local_seq_last x) ->
  i32 (ack - local_seq_last x) <= off_acked x.
Proof.
  intros (_ & Hlen & Hoff & Hs & Hlt) Ha Hle H0. unfold off_acked, off_sent in *.
  pose proof (i32_range (ack - local_seq_acked x)).
  replace (ack - local_seq_last x) with ((ack - local_seq_acked x) + (local_seq_acked x - local_seq_last x)) by lia.
  rewrite i32_add by lia. lia.
Qed.

(** The connection after the three kinds of acknowledgement: of the whole
    chunk, of a part of it, and a repeated one. *)
Lemma ack_all_app x x2 ak :
  conn_ok x -> status x = ESTABLISHED -> is_u32 ak -> tx_active x ->
  off_acked x < i32 (ak - local_seq_last x) <= off_sent x -> i32 (ak - local_seq_last x) = txlen x ->
  soft (x <| rexmit_mode := 0 |> <| rexmit_wait_ack := 0 |> <| local_seq_acked := ak |>) x2 ->
  conn_app x (x2 <| tx := None |> <| txlen := 0 |>).
Proof.
  intros [? ? ? ? ? ? ? ? ? ? ? ? ?] Hst Ha (Hb & Hlen & Ho & Hs & Hlt) Hoff Heq Hs2.
  split; try (rewrite Hs2; by destruct x).
  intros _. rewrite Hs2. split; conn_simpl; try done; try (intros; congruence).
  intros _. left. unfold tx_idle; conn_simpl. split_and!; try done.
  apply i32_0_inv; [done|done|]. unfold off_sent in *.
  destruct (i32_exact (ak - local_seq_last x)) as [k Hk].
  destruct (i32_exact (local_seq x - local_seq_last x)) as [m Hm].
  apply i32_unique; [|lia]. apply u32_eq.
  replace (ak - local_seq x - 0) with ((m - k) * 2 ^ 32) by lia. apply Z_mod_mult.
Qed.

Lemma ack_some_app x x2 ak :
  conn_ok x -> status x = ESTABLISHED -> is_u32 ak -> tx_active x ->
  off_acked x < i32 (ak - local_seq_last x) <= off_sent x -> i32 (ak - local_seq_last x) <> txlen x ->
  soft (x <| rexmit_mode := 0 |> <| rexmit_wait_ack := 0 |> <| local_seq_acked := ak |>) x2 ->
  conn_app x x2.
Proof.
  intros [? ? ? ? ? ? ? ? ? ? ? ? ?] Hst Ha (Hb & Hlen & Ho & Hs & Hlt) Hoff Hne Hs2.
  split; try (rewrite Hs2; by destruct x).
  intros _. rewrite Hs2. split; conn_simpl; try done; try (intros; congruence).
  intros _. right. unfold tx_active, off_acked, off_sent in *; conn_simpl. split_and!; try done; lia.
Qed.

Lemma ack_back_app x ak :
  conn_ok x -> status x = ESTABLISHED -> is_u32 ak -> tx_active x ->
  i32 (ak - local_seq_acked x) <= 0 -> 0 <= i32 (ak - local_seq_last x) ->
  conn_app x (x <| local_seq_acked := ak |> <| rexmit_mode := 1 |>).
Proof.
  intros Hok Hst Ha Hact Hng H0. pose proof (ack_back x ak Hact Ha Hng H0) as Hback.
  split; try (by destruct x). intros _. destruct Hok as [? ? ? ? ? ? ? ? ? ? ? ? ?], Hact as (Hb & Hlen & Ho & Hs & Hlt).
  split; conn_simpl; try done; try (intros; congruence). intros _. right.
  unfold tx_active, off_acked, off_sent in *; conn_simpl. split_and!; try done; lia.
Qed.

Lemma wp_recv_ack (P : polite E) c x ak cbd Q w :
  world_ok w -> conn_of c w = Some x -> status x = ESTABLISHED -> is_u32 ak ->
  i32 (ak - local_seq x) <= 0 -> cbd_conn cbd = c ->
  (forall w' x' r, world_ok w' -> wstep c [] w w' -> conn_of c w' = Some x' -> conn_app x x' ->
     (forall cbd', r = Some cbd' -> cbd_conn cbd' = c) ->
     (r = None <-> stale_ack x ak = true) -> Q r w') ->
  wp (recv_ack c ak cbd) Q w.
Proof.
  intros Hw Hx Hst Ha Hle Hc HQ. pose proof (wo_conns _ Hw _ _ Hx) as Hok.
  unfold recv_ack. apply wp_bind. eapply wp_get_conn; [done|].
  rewrite (tcp_seq_sub_i32 ak (local_seq_acked x)), (tcp_seq_sub_i32 ak (local_seq_last x))
    by (done || apply Hok).
  assert (Hrefl : forall r, (forall cbd', r = Some cbd' -> cbd_conn cbd' = c) ->
    (r = None <-> stale_ack x ak = true) -> wp (ret r) Q w).
  { intros r Hr Hn. apply wp_ret. eapply HQ; eauto with net. }
  destruct (Z.ltb_spec 0 (i32 (ak - local_seq_acked x))) as [Hgt|Hng].
  - destruct (ack_gain x ak Hok Hst Ha Hle Hgt) as [Hact Hoff].
    assert (Hns : stale_ack x ak = false) by (apply Z.ltb_ge; destruct Hact as (_ & _ & ? & _); lia).
    apply wp_bind. eapply wp_set_conn; [done|]. intros w1 Hst1 Hx1.
    set (x1 := update _ _ _) in Hx1.
    apply wp_bind. eapply (wp_conseq _ (fun _ w2 => exists x2, wstep c [] w1 w2 /\
      conn_of c w2 = Some x2 /\ soft x1 x2)).
    { destruct (_ && _); [|apply wp_ret; eauto with net].
      apply wp_bind. eapply wp_set_conn; [done|]. intros w2 Hst2 Hx2.
      eapply wp_rtt_calc; [done|]. intros w3 x3 Hst3 Hx3 Hs3. exists x3.
      split_and!; [by eapply wstep_trans_l|done|]. eapply soft_trans; [|done]. by destruct x. }
    intros [] w2 (x2 & Hst2 & Hx2 & Hs2). pose proof (wstep_trans_l _ _ _ _ _ Hst1 Hst2) as Hst02.
    apply wp_bind. eapply wp_get_conn; [done|].
    assert (is_u32 (local_seq_last x)) by apply Hok.
    assert (0 < txlen x < 2 ^ 30 /\ 0 <= off_acked x) as [] by (split; apply Hact).
    rewrite tcp_seq_sub_i32 by (rewrite Hs2; done).
    replace (i32 (local_seq_acked x2 - local_seq_last x2)) with (i32 (ak - local_seq_last x))
      by (by rewrite Hs2).
    replace (txlen x2) with (txlen x) by (by rewrite Hs2).
    rewrite u32_small by (pose proof (i32_range (ak - local_seq_last x)); lia).
    destruct (Z.eqb_spec (i32 (ak - local_seq_last x)) (txlen x)) as [Heq|Hne].
    + apply wp_bind. eapply wp_set_conn; [done|]. intros w3 Hst3 Hx3. set (x3 := update _ _ _) in Hx3.
      pose proof (wstep_trans_l _ _ _ _ _ Hst02 Hst3) as Hst03.
      assert (Happ : conn_app x x3) by (by apply (ack_all_app x x2 ak)).
      assert (Hw3 : world_ok w3) by (eapply wstep_ok; [done..|]; eapply ca_ok; [done|]; by eapply wo_conns).
      apply wp_bind. eapply wp_call_cb; [done|done|done|done|done|].
      intros cbd' w4 x4 Hst4 Hx4 Happ4 Hc'. apply wp_ret.
      eapply HQ; [|by eapply wstep_trans_l|done|by eapply conn_app_trans|congruence|by rewrite Hns].
      eapply wstep_ok; [exact Hw3|done..|]. eapply ca_ok; [done|]. by eapply wo_conns.
    + apply wp_ret.
      assert (Happ : conn_app x x2) by (by apply (ack_some_app x x2 ak)).
      eapply HQ; [|done|done|done|congruence|by rewrite Hns].
      eapply wstep_ok; [done..|]. eapply ca_ok; [done|]. by eapply wo_conns.
  - unfold stale_ack in *. destruct (Z.ltb_spec (i32 (ak - local_seq_last x)) 0); [by apply Hrefl|].
    destruct (Z.eqb_spec (local_seq x) (local_seq_acked x)) as [Heq|Hne].
    { apply Hrefl; [congruence|done]. }
    destruct (co_send _ Hok Hst) as [(_ & _ & ?)|Hact]; [congruence|].
    apply wp_bind. eapply wp_set_conn; [done|]. intros w1 Hst1 Hx1. apply wp_ret.
    assert (Happ : conn_app x (x <| local_seq_acked := ak |> <| rexmit_mode := 1 |>)) by (by apply ack_back_app).
    eapply HQ; [|done|done|done|congruence|done].
    eapply wstep_ok; [done..|]. by apply Happ.
Qed.

Lemma wp_recv_data (P : polite E) c x flags pkt data size cbd Q w :
  world_ok w -> conn_of c w = Some x -> status x = ESTABLISHED -> 0 <= size -> cbd_conn cbd = c ->
  (forall w' x', world_ok w' ->
     wstep c (take (Z.to_nat size) (drop (Z.to_nat data) pkt)) w w' -> conn_of c w' = Some x' ->
     same_peer x x' -> peer_seq x' = u32 (peer_seq x + size) ->
     (status x' = ESTABLISHED \/ status x' = CLOSE_WAIT) -> Q tt w') ->
  wp (recv_data c flags pkt data size cbd) Q w.
Proof.
  intros Hw Hx Hst Hsz Hc HQ. pose proof (wo_conns _ Hw _ _ Hx) as Hok.
  unfold recv_data. apply wp_bind.
  eapply (wp_conseq _ (fun cbd' w1 => exists x1, world_ok w1 /\ cbd_conn cbd' = c /\
    wstep c (take (Z.to_nat size) (drop (Z.to_nat data) pkt)) w w1 /\ conn_of c w1 = Some x1 /\
    same_peer x x1 /\ status x1 = ESTABLISHED /\ peer_seq x1 = u32 (peer_seq x + size))).
  { destruct (Z.eqb_spec size 0) as [->|Hnz]; cbn [negb].
    - apply wp_ret. exists x. rewrite Z.add_0_r, u32_small by apply Hok. split_and!; try done.
      apply wstep_refl.
    - apply wp_bind. eapply wp_set_conn; [done|]. intros w1 Hst1 Hx1. set (x1 := update _ _ _) in Hx1.
      assert (Hok1 : conn_ok x1).
      { destruct Hok. unfold x1. split; conn_simpl; try done. apply u32_range. }
      pose proof (wstep_ok _ _ _ _ _ Hw Hst1 Hx1 Hok1) as Hw1.
      eapply wp_call; [done|done|done|done|]. intros cbd' w2 x2 Hst2 Hx2 Happ Hc'.
      pose proof (wo_conns _ Hw1 _ _ Hx1) as Hok1'.
      exists x2. split_and!; [|done| |done| | |].
      + eapply wstep_ok; [exact Hw1|done|done|by apply Happ].
      + eapply wstep_trans_l; [done|]. cbn -[take] in Hst2. rewrite Hc, Z.eqb_refl, app_nil_r in Hst2. done.
      + apply conn_app_peer in Happ. by destruct x.
      + by rewrite (ca_status _ _ Happ).
      + by rewrite (ca_peer _ _ Happ). }
  intros cbd' w1 (x1 & Hw1 & Hc' & Hst1 & Hx1 & Hsp & Hs1 & Hp1).
  destruct (negb _).
  - apply wp_bind. eapply wp_set_conn; [done|]. intros w2 Hst2 Hx2. set (x2 := update _ _ _) in Hx2.
    assert (Hok2 : conn_ok x2).
    { destruct (wo_conns _ Hw1 _ _ Hx1). unfold x2. split; conn_simpl; done. }
    pose proof (wstep_ok _ _ _ _ _ Hw1 Hst2 Hx2 Hok2) as Hw2.
    apply wp_bind. eapply wp_call_cb; [done|done|done|done|done|]. intros cbd3 w3 x3 Hst3 Hx3 Happ3 _.
    apply wp_ret. eapply (HQ _ x3).
    + eapply wstep_ok; [exact Hw2|done|done|by apply Happ3].
    + rewrite <- (app_nil_r (take _ _)). eapply wstep_trans; [done|]. by eapply wstep_trans_l.
    + done.
    + eapply same_peer_trans; [done|]. apply conn_app_peer in Happ3. by destruct x1.
    + rewrite (ca_peer _ _ Happ3). by rewrite <- Hp1.
    + right. by rewrite (ca_status _ _ Happ3).
  - apply wp_ret. eapply HQ; eauto.
Qed.

(** The bytes [B] delivered from a segment at sequence number [sq] take the
    receiver from position [p] to [p']. *)
Definition delivers (pkt : list Z) (sq data size p p' : Z) (B : list Z) : Prop :=
  (B = [] /\ p' = p) \/
  exists k, 0 <= k < size /\ u32 (sq + k) = p /\ p' = u32 (p + (size - k)) /\
    B = take (Z.to_nat (size - k)) (drop (Z.to_nat (data + k)) pkt).

Lemma wp_recv_established (P : polite E) c x tcp flags sq ak pkt data size cbd Q w :
  world_ok w -> conn_of c w = Some x -> status x = ESTABLISHED -> is_u32 sq -> is_u32 ak ->
  i32 (ak - local_seq x) <= 0 -> 0 <= size < 2 ^ 30 -> cbd_conn cbd = c ->
  (forall w' x' B, world_ok w' -> wstep c B w w' -> conn_of c w' = Some x' -> same_peer x x' ->
     delivers pkt sq data size (peer_seq x) (peer_seq x') B ->
     peer_seq x' = u32 (peer_seq x + (if stale_ack x ak then 0 else fresh sq size (peer_seq x))) ->
     (status x' = ESTABLISHED \/ status x' = CLOSE_WAIT) -> Q tt w') ->
  wp (recv_established c tcp flags sq ak pkt data size cbd) Q w.
Proof.
  intros Hw Hx Hst Hsq Hak Hle Hsz Hc HQ. unfold recv_established.
  apply wp_bind. eapply wp_recv_trim; [done|done|done|done|].
  intros w1 x1 data' size' Hw1 Hst1 Hx1 Hs1 Htr Hfr. pose proof (soft_app _ _ Hs1) as Ha1.
  apply wp_bind. eapply wp_recv_ack; [done|done|done|by rewrite (ca_status _ _ Ha1)|done| |done|].
  { by rewrite (ca_local _ _ Ha1). }
  intros w2 x2 r Hw2 Hst2 Hx2 Ha2 Hr Hnn. pose proof (conn_app_trans _ _ _ Ha1 Ha2) as Ha.
  pose proof (wstep_trans_l _ _ _ _ _ Hst1 Hst2) as Hst02.
  assert (Hs2 : status x2 = ESTABLISHED) by (by rewrite (ca_status _ _ Ha)).
  destruct r as [cbd'|].
  - eapply wp_recv_data; [done|done|done|done| |by apply Hr|].
    { destruct Htr as [->|(k & ? & ? & -> & ?)]; lia. }
    intros w3 x3 Hw3 Hst3 Hx3 Hsp3 Hp3 Hs3.
    rewrite (ca_peer _ _ Ha) in Hp3.
    eapply (HQ _ x3); [done|by eapply wstep_trans_l|done| | | |done].
    { eapply same_peer_trans; [by apply conn_app_peer|done]. }
    2:{ rewrite Hp3, Hfr. destruct (stale_ack x ak) eqn:Es; [|done].
        unfold stale_ack in *. rewrite Hs1 in Hnn. by apply Hnn in Es. }
    rewrite Hp3.
    destruct Htr as [->|(k & Hk & -> & -> & Hpk)].
    + left. rewrite Z.add_0_r, u32_small by apply (wo_conns _ Hw _ _ Hx). done.
    + right. exists k. done.
  - apply wp_ret. eapply (HQ _ x2 []); [done|done|done|by apply conn_app_peer| | |by left].
    + left. by rewrite (ca_peer _ _ Ha).
    + assert (stale_ack x ak = true) as ->.
      { unfold stale_ack in *. rewrite Hs1 in Hnn. by apply Hnn. }
      rewrite (ca_peer _ _ Ha), Z.add_0_r. symmetry. apply u32_small, (wo_conns _ Hw _ _ Hx).
Qed.

Lemma wp_recv_syn_rcvd (P : polite E) c x tcp flags sq ak pkt data size cbd Q w :
  world_ok w -> conn_of c w = Some x -> status x = SYN_RCVD -> is_u32 sq -> is_u32 ak ->
  i32 (ak - u32 (local_seq x + 1)) <= 0 -> 0 <= size < 2 ^ 30 -> cbd_conn cbd = c ->
  (forall w' x' B, world_ok w' -> wstep c B w w' -> conn_of c w' = Some x' -> same_peer x x' ->
     delivers pkt sq data size (u32 (peer_seq x + 1)) (peer_seq x') B ->
     (status x' = ESTABLISHED \/ status x' = CLOSE_WAIT) -> Q tt w') ->
  wp (recv_syn_rcvd c tcp flags sq ak pkt data size cbd) Q w.
Proof.
  intros Hw Hx Hst Hsq Hak Hle Hsz Hc HQ. pose proof (wo_conns _ Hw _ _ Hx) as Hok.
  unfold recv_syn_rcvd. apply wp_bind. eapply wp_get_conn; [done|].
  apply wp_bind. eapply wp_timer; [done|done|]. intros w1 t Hw1 Hst1 Hx1 Ht.
  apply wp_bind. eapply wp_set_conn; [done|]. intros w2 Hst2 Hx2. set (x2 := update _ _ _) in Hx2.
  assert (Hok2 : conn_ok x2).
  { destruct Hok as [? ? ? ? ? ? ? ? ? ? ? Hsyn ?]. destruct (Hsyn Hst) as [Hl Hr].
    unfold x2. split; conn_simpl; try done; try apply u32_range.
    intros _. left. unfold tx_idle. conn_simpl. done. }
  pose proof (wstep_ok _ _ _ _ _ Hw1 Hst2 Hx2 Hok2) as Hw2.
  apply wp_bind. eapply wp_call_cb; [done|done|done|done|done|]. intros cbd3 w3 x3 Hst3 Hx3 Ha3 Hc3.
  assert (Hw3 : world_ok w3) by (eapply wstep_ok; [exact Hw2|done|done|by apply Ha3]).
  assert (Hst03 : wstep c [] w w3) by (eapply wstep_trans_l; [done|]; by eapply wstep_trans_l).
  assert (Hsp : same_peer x x3) by (apply conn_app_peer in Ha3; by destruct x).
  assert (Hs3 : status x3 = ESTABLISHED) by (by rewrite (ca_status _ _ Ha3)).
  assert (Hp3 : peer_seq x3 = u32 (peer_seq x + 1)) by (by rewrite (ca_peer _ _ Ha3)).
  assert (Hl3 : local_seq x3 = u32 (local_seq x + 1)) by (by rewrite (ca_local _ _ Ha3)).
  destruct (size =? 0).
  - apply wp_ret. eapply (HQ _ x3 []); [done|done|done|done| |by left]. left. by rewrite Hp3.
  - eapply wp_recv_established; [done|done|done|done|done|done|by rewrite Hl3|done|done|].
    intros w4 x4 B Hw4 Hst4 Hx4 Hsp4 Hd4 _ Hs4. rewrite Hp3 in Hd4.
    eapply (HQ _ x4 B); [done|by eapply wstep_trans_l|done|by eapply same_peer_trans|done|done].
Qed.

(** Work on [c] after which it is gone, or has moved along the diagram and
    its bytes were delivered in order. *)
Definition recv_post (pkt : list Z) (sq data size c : Z) (x : tcp_conn) w w' : Prop :=
  exists B, wfin c B w w' /\
    match conn_of c w' with
    | None => B = []
    | Some x' => same_peer x x' /\ rtc tcp_edge (status x) (status x') /\
                 delivers pkt sq data size (rx_pos x) (rx_pos x') B
    end.

Lemma recv_post_stay pkt sq data size c x x' w w' :
  world_ok w' -> wstep c [] w w' -> conn_of c w' = Some x' -> same_peer x x' ->
  rtc tcp_edge (status x) (status x') -> rx_pos x' = rx_pos x ->
  recv_post pkt sq data size c x w w'.
Proof.
  intros Hw' Hst Hx' Hsp He Hp. exists []. split; [by apply wstep_fin|]. rewrite Hx'.
  split_and!; [done|done|]. left. done.
Qed.

(** Setting the state and the sequence number of a connection that is being
    closed. *)
Lemma wp_set_closing c f x pkt sq data size w :
  world_ok w -> conn_of c w = Some x -> same_peer x (f x) -> tcp_edge (status x) (status (f x)) ->
  status x <> SYN_RCVD -> status (f x) <> ESTABLISHED -> status (f x) <> SYN_RCVD ->
  peer_seq (f x) = peer_seq x -> (conn_ok x -> conn_ok (f x)) ->
  wp (set_conn c f) (fun _ => recv_post pkt sq data size c x w) w.
Proof.
  intros Hw Hx Hsp He Hs1 Hs2 Hs3 Hp Hok. eapply wp_set_conn; [done|]. intros w' Hst Hx'.
  eapply recv_post_stay; [|done|done|done|by apply rtc_once|].
  - eapply wstep_ok; [done..|]. eapply Hok. by eapply wo_conns.
  - unfold rx_pos, status_eqb. rewrite !bool_decide_false by done. done.
Qed.

Lemma wp_recv_state (P : polite E) c x tcp flags sq ak pkt data size cbd w :
  world_ok w -> conn_of c w = Some x -> is_u32 sq -> is_u32 ak -> ack_honest x ak ->
  0 <= size < 2 ^ 30 -> cbd_conn cbd = c ->
  wp (recv_state c tcp flags sq ak pkt data size cbd)
    (fun _ => recv_post pkt sq data size c x w) w.
Proof.
  intros Hw Hx Hsq Hak Hh Hsz Hc. pose proof (wo_conns _ Hw _ _ Hx) as Hok.
  unfold recv_state. apply wp_bind. eapply wp_get_conn; [done|].
  assert (Hrefl : wp (ret tt) (fun _ => recv_post pkt sq data size c x w) w).
  { apply wp_ret. eapply recv_post_stay; eauto with net. done. }
  destruct (status x) eqn:Hst; try done.
  - eapply wp_recv_syn_rcvd; [done|done|done|done|done|done| |done|done|].
    { unfold ack_honest, status_eqb in Hh. rewrite Hst in Hh. done. }
    intros w' x' B Hw' Hs Hx' Hsp Hd Hs'. exists B. split; [by apply wstep_fin|]. rewrite Hx', Hst.
    split_and!; [done| |].
    + destruct Hs' as [->| ->]; [eauto with net|]. eapply rtc_l; eauto with net.
    + unfold rx_pos, status_eqb. rewrite Hst, bool_decide_true by done.
      rewrite bool_decide_false by (destruct Hs' as [->| ->]; done). done.
  - eapply wp_recv_established; [done|done|done|done|done|done| |done|done|].
    { unfold ack_honest, status_eqb in Hh. rewrite Hst in Hh. done. }
    intros w' x' B Hw' Hs Hx' Hsp Hd _ Hs'. exists B. split; [by apply wstep_fin|]. rewrite Hx', Hst.
    split_and!; [done| |].
    + destruct Hs' as [->| ->]; eauto with net.
    + unfold rx_pos, status_eqb. rewrite Hst, bool_decide_false by done.
      rewrite bool_decide_false by (destruct Hs' as [->| ->]; done). done.
  - destruct (_ && _); [done|]. destruct (_ =? _); [|destruct (negb _); [|destruct (negb _); [|done]]];
      eapply wp_set_closing; conn_simpl; rewrite ?Hst; try done; try (by constructor);
      intros []; (split; conn_simpl; try done; apply u32_range).
  - destruct (negb _); [|done].
    eapply wp_set_closing; conn_simpl; rewrite ?Hst; try done; try (by constructor).
    intros []; (split; conn_simpl; done).
  - destruct (negb _); [done|].
    eapply wp_set_closing; conn_simpl; rewrite ?Hst; try done; try (by constructor).
    intros []; (split; conn_simpl; try done; apply u32_range).
  - destruct (negb _); [done|]. apply wp_bind. eapply wp_set_conn; [done|]. intros w1 Hst1 Hx1.
    assert (Hw1 : world_ok w1).
    { eapply wstep_ok; [done..|]. destruct Hok. split; conn_simpl; done. }
    apply wp_bind. eapply wp_call_cb; [done|done|done|done|done|]. intros cbd2 w2 x2 Hst2 Hx2 Ha2 _.
    eapply (wp_conn_del c [] w); [|by eapply wstep_trans_l|done|].
    { eapply wstep_ok; [exact Hw1|done|done|]. apply Ha2. by eapply wo_conns. }
    intros w3 Hf Hnone. exists []. split; [done|]. by rewrite Hnone.
Qed.

Lemma wp_recv_conn (P : polite E) c x tcp flags sq ak pkt data size w :
  world_ok w -> conn_of c w = Some x -> is_u32 sq -> is_u32 ak -> ack_honest x ak ->
  0 <= size < 2 ^ 30 ->
  wp (recv_conn c tcp flags sq ak pkt data size)
    (fun _ => recv_post pkt sq data size c x w) w.
Proof.
  intros Hw Hx Hsq Hak Hh Hsz. unfold recv_conn. apply wp_bind. eapply wp_get_conn; [done|].
  destruct (negb _).
  - apply wp_bind.
    eapply (wp_conseq _ (fun _ w1 => exists x1, world_ok w1 /\ wstep c [] w w1 /\ conn_of c w1 = Some x1)).
    + destruct (negb _); [|apply wp_ret; eauto with net].
      apply wp_bind. eapply wp_call_cb; [done|done|done|done|done|]. intros cbd1 w1 x1 Hst1 Hx1 Ha1 _.
      apply wp_ret. exists x1. split_and!; [|done|done].
      eapply wstep_ok; [exact Hw|done|done|]. apply Ha1. by eapply wo_conns.
    + intros [] w1 (x1 & Hw1 & Hst1 & Hx1). eapply (wp_conn_del c [] w); [done|done|done|].
      intros w2 Hf Hnone. exists []. split; [done|]. by rewrite Hnone.
  - destruct (_ && _).
    + apply wp_ret. eapply recv_post_stay; eauto with net. done.
    + by apply wp_recv_state.
Qed.

End Recv.
