(* ===== verification/TcpOpen.v ===== *)
(** * Opening connections

    The option loop of [tcp_conn_create] ends on well-formed options and
    runs for ever on an option of length zero; a SYN to a listening port
    creates one connection in SYN_RCVD. *)

From stdpp Require Import base numbers list relations.
From Stdlib Require Import ZArith Lia.
From S2P Require Import Prelude NetWire Tcp TcpInv TcpSend TcpRecv.

#[local] Opaque le_bytes.

(** Options that make progress and lie inside the packet memory. *)
Inductive opts_wf (seg : list Z) (optend : Z) : Z -> Prop :=
| ow_end o : optend <= o -> opts_wf seg optend o
| ow_eol o : znth seg o = Some TCP_OPT_EOL -> opts_wf seg optend o
| ow_nop o : znth seg o = Some TCP_OPT_NOP -> opts_wf seg optend (o + 1) -> opts_wf seg optend o
| ow_opt o k n :
    znth seg o = Some k -> k <> TCP_OPT_EOL -> k <> TCP_OPT_NOP -> znth seg (o + 1) = Some n ->
    1 <= n -> (k = TCP_OPT_MSS -> o + 3 < zlen seg) -> (k = TCP_OPT_WS -> o + 2 < zlen seg) ->
    opts_wf seg optend (o + n) -> opts_wf seg optend o.

(** What the options may change. *)
Definition opt_rel (x x' : tcp_conn) : Prop :=
  x' = mkConn (status x) (ip_remote x) (port_remote x) (port_local x) (peer_seq x) (local_seq x)
    (local_seq_last x) (local_seq_acked x) (ts x) (ts_rexmit x) (num_rexmit x) (ethaddr x)
    (mss x') (tx x) (txlen x) (cb x) (close_flag x) (ack_flag x) (rexmit_mode x)
    (rexmit_wait_ack x) (zw_mode x) (peer_wnd x) (peer_ws x') (srtt x) (rttvar x) (rto x)
    (ts_rtt x) (ack_calc_rtt x) (pdata x) /\
  0 <= mss x' <= mss x /\ 0 <= peer_ws x' <= 14.

Section Open.
Context {A : Type} {E : tcp_env A}.
Implicit Types w : tcp_world A.

Lemma wp_option_body c x seg optend o Q w :
  conn_of c w = Some x -> 0 <= mss x -> 0 <= peer_ws x <= 14 -> Forall is_byte seg -> 0 <= o ->
  opts_wf seg optend o ->
  (forall w', wstep c [] w w' -> conn_of c w' = Some x -> Q (inr tt) w') ->
  (forall w' x' o', wstep c [] w w' -> conn_of c w' = Some x' -> opt_rel x x' -> o < o' ->
     o < optend -> opts_wf seg optend o' -> Q (inl o') w') ->
  wp (option_body c seg optend o) Q w.
Proof.
  intros Hx Hm Hws Hb Ho Hwf Hend Hgo.
  assert (Hrr : opt_rel x x).
  { split; [by destruct x|]. split; lia. }
  unfold option_body. destruct (Z.ltb_spec o optend) as [Hlt|]; cbn [negb];
    [|apply wp_ret; eapply Hend; [apply wstep_refl|done]].
  inversion Hwf as [? ?|? Hk|? Hk Hn|? k n Hk H0 H1 Hl Hn Hmss Hw Hwf']; subst; [lia| | |];
    (apply wp_bind; eapply wp_lift; [exact Hk|]).
  - apply wp_ret. eapply Hend; [apply wstep_refl|done].
  - apply wp_ret. eapply Hgo; [apply wstep_refl|done|done|lia|done|done].
  - rewrite (proj2 (Z.eqb_neq _ _) H0), (proj2 (Z.eqb_neq _ _) H1).
    apply wp_bind. eapply (wp_conseq _ (fun _ w' => exists x', wstep c [] w w' /\
      conn_of c w' = Some x' /\ opt_rel x x')).
    + destruct (Z.eqb_spec k TCP_OPT_MSS) as [->|].
      * destruct (znth_some seg (o + 2)) as [hi Hhi]; [specialize (Hmss eq_refl); lia|].
        destruct (znth_some seg (o + 3)) as [lo Hlo]; [specialize (Hmss eq_refl); lia|].
        apply wp_bind. eapply wp_lift; [done|]. apply wp_bind. eapply wp_lift; [done|].
        apply wp_bind. eapply wp_get_conn; [done|].
        match goal with |- context [?m <? mss x] => destruct (Z.ltb_spec m (mss x)) end.
        -- eapply wp_set_conn; [done|]. intros w' Hst Hx'. eexists. split_and!; [done|done|].
           split; [by destruct x|]. conn_simpl. split; [|done]. split; [|lia].
           apply Z.mod_pos_bound. lia.
        -- apply wp_ret. eauto with net.
      * destruct (Z.eqb_spec k TCP_OPT_WS) as [->|]; [|apply wp_ret; eauto with net].
        destruct (znth_some seg (o + 2)) as [ws Hwsv]; [specialize (Hw eq_refl); lia|].
        apply wp_bind. eapply wp_lift; [done|].
        pose proof (znth_byte _ _ _ Hb Hwsv) as Hby. unfold is_byte in Hby.
        eapply wp_set_conn; [done|]. intros w' Hst Hx'. eexists. split_and!; [done|done|].
        split; [by destruct x|]. conn_simpl. lia.
    + intros [] w' (x' & Hst & Hx' & Hr). apply wp_bind. eapply wp_lift; [done|]. apply wp_ret.
      eapply Hgo; [done|done|done|lia|done|done].
Qed.

Lemma opt_rel_trans x y z : opt_rel x y -> opt_rel y z -> opt_rel x z.
Proof.
  intros (H1 & ? & ?) (H2 & ? & ?). split_and!; try lia. rewrite H2, H1. by destruct x.
Qed.

Lemma wp_option_loop c x seg optend Q w :
  conn_of c w = Some x -> 0 <= mss x -> 0 <= peer_ws x <= 14 -> Forall is_byte seg -> optend <= 60 ->
  opts_wf seg optend TCP_HDR_SIZE ->
  (forall w' x', wstep c [] w w' -> conn_of c w' = Some x' -> opt_rel x x' -> Q tt w') ->
  wp (iter option_fuel (option_body c seg optend) TCP_HDR_SIZE) Q w.
Proof.
  intros Hx Hm Hws Hb He Hwf HQ.
  eapply (wp_iter
    (fun o w' => exists x', TCP_HDR_SIZE <= o /\ wstep c [] w w' /\ conn_of c w' = Some x' /\
       opt_rel x x' /\ opts_wf seg optend o)
    (fun o _ => Z.to_nat (optend - o))).
  - intros o w1 (x1 & Ho & Hst1 & Hx1 & (Hr & Hr1 & Hr2) & Hwf1). unfold TCP_HDR_SIZE in Ho.
    eapply wp_option_body; [done|lia|done|done|lia|done| |].
    + intros w2 Hst2 Hx2. eapply HQ; [by eapply wstep_trans_l|done|done].
    + intros w2 x2 o2 Hst2 Hx2 Hr' Hlt Hlt' Hwf2. split; [|lia].
      exists x2. split_and!; [unfold TCP_HDR_SIZE; lia|by eapply wstep_trans_l|done| |done].
      by eapply opt_rel_trans.
  - exists x. split_and!; [done|apply wstep_refl|done| |done]. split; [by destruct x|]. split; lia.
  - unfold option_fuel, TCP_HDR_SIZE. lia.
Qed.

(** An option of length zero is examined again and again. *)
Lemma option_loop_diverges c seg optend o k w :
  o < optend -> znth seg o = Some k -> k <> TCP_OPT_EOL -> k <> TCP_OPT_NOP -> k <> TCP_OPT_MSS ->
  k <> TCP_OPT_WS -> znth seg (o + 1) = Some 0 ->
  forall fuel, iter fuel (option_body c seg optend) o w = NoFuel.
Proof.
  intros Hlt Hk H0 H1 H2 H3 Hz fuel.
  assert (Hb : option_body c seg optend o w = Ret (inl o) w).
  { unfold option_body. rewrite (proj2 (Z.ltb_lt _ _) Hlt). cbn [negb].
    unfold bind, lift. rewrite Hk, (proj2 (Z.eqb_neq _ _) H0), (proj2 (Z.eqb_neq _ _) H1),
      (proj2 (Z.eqb_neq _ _) H2), (proj2 (Z.eqb_neq _ _) H3). cbn. rewrite Hz. unfold ret.
    by rewrite Z.add_0_r. }
  induction fuel as [|n IH]; [done|]. cbn [iter]. unfold bind at 1. by rewrite Hb.
Qed.

(** A new connection has been added behind the others. *)
Record created (c : Z) (x : tcp_conn) w w' : Prop := {
  cr_ok : world_ok w';
  cr_new : c = next_conn w;
  cr_conn : conn_of c w' = Some x;
  cr_ids : map fst (conn_head w') = map fst (conn_head w) ++ [c];
  cr_next : next_conn w' = next_conn w + 1;
  cr_others : forall d y, conn_of d w = Some y -> exists y', conn_of d w' = Some y' /\ conn_app y y';
  cr_trace : exists t, trace w' = trace w ++ t /\ forall d, rcvd d t = []
}.

Lemma find_app c x l : find_conn c l = None -> find_conn c (l ++ [(c, x)]) = Some x.
Proof.
  induction l as [|[i y] l IH]; simpl; [by rewrite Z.eqb_refl|]. by destruct (i =? c).
Qed.

Lemma find_app_old c d x y l : find_conn d l = Some y -> find_conn d (l ++ [(c, x)]) = Some y.
Proof. induction l as [|[i z] l IH]; simpl; [done|]. by destruct (i =? d). Qed.

Lemma find_app_inv c d x y l :
  d <> c -> find_conn d (l ++ [(c, x)]) = Some y -> find_conn d l = Some y.
Proof.
  intros Hne. induction l as [|[i z] l IH]; simpl; [by destruct (Z.eqb_spec c d)|].
  by destruct (i =? d).
Qed.

Lemma zero_conn_ok : conn_ok zero_conn.
Proof.
  split; cbn; try done; unfold is_u32, is_u16; try lia. split; [done|].
  repeat constructor; lia.
Qed.

(** The state with the zeroed structure added. *)
Lemma world_add (w w1 : tcp_world A) c :
  world_ok w -> c = next_conn w -> next_conn w1 = c + 1 ->
  conn_head w1 = conn_head w ++ [(c, zero_conn)] -> net_tx_packet w1 = net_tx_packet w ->
  world_ok w1 /\ conn_of c w1 = Some zero_conn.
Proof.
  intros [Hnd Hpos Hnx Hp Hc Hb] Hcn Hn Hh Ht.
  assert (Hfresh : c ∉ map fst (conn_head w)).
  { intros Hin. eapply Forall_forall in Hnx; [|done]. simpl in Hnx. lia. }
  assert (Hnone : find_conn c (conn_head w) = None).
  { destruct (find_conn c (conn_head w)) eqn:Ef; [|done]. by apply find_in in Ef. }
  rewrite Hh. split; [|by apply find_app]. split; rewrite ?Hh, ?map_app; cbn [map fst].
  - apply NoDup_app. split_and!; [done| |apply NoDup_singleton].
    intros i Hi ->%list_elem_of_singleton. done.
  - apply Forall_app. split; [done|]. repeat constructor. lia.
  - apply Forall_app. split; [|repeat constructor; lia].
    eapply Forall_impl; [done|]. simpl. lia.
  - lia.
  - intros d y Hy. destruct (decide (d = c)) as [->|Hne].
    + rewrite find_app in Hy by done. simplify_eq. apply zero_conn_ok.
    + apply find_app_inv in Hy; [|done]. eauto.
  - by rewrite Ht.
Qed.

(** The members [tcp_conn_create] sets before it looks at the options. *)
Definition new_conn (ip : Z) (h : tcp_hdr) (et : list Z) (cb0 t0 : Z) : tcp_conn :=
  mkConn SYN_RCVD ip (src h) (dst h) (ntohl (NetWire.seq h)) (u32 (u64 (64000 * t0) / 500)) 0 0 0 0 0
    et 1460 None 0 cb0 0 0 0 0 0 (ntohs (wnd h)) 0 0 0 0 0 0 0.

Lemma wp_tcp_conn_create (EO : env_ok E) ip h seg hl et cb0 Q w :
  world_ok w -> malloc_ok (allocs w) = true -> is_u32 ip -> is_u16 (src h) -> is_u16 (dst h) ->
  Forall is_byte seg -> hl <= 60 -> (TCP_HDR_SIZE < hl -> opts_wf seg hl TCP_HDR_SIZE) ->
  length et = 6%nat /\ Forall is_byte et ->
  (forall c x w', created c x w w' -> status x = SYN_RCVD -> ip_remote x = ip ->
     port_remote x = src h -> port_local x = dst h -> peer_seq x = ntohl (NetWire.seq h) ->
     cb x = cb0 -> rto x = 0 -> Q c w') ->
  wp (tcp_conn_create ip h seg hl et cb0) Q w.
Proof.
  intros Hw Hm Hip Hsrc Hdst Hb Hhl Hopt Het HQ. unfold tcp_conn_create, malloc_conn.
  apply wp_bind. do 4 wp_step. rewrite Hm. do 5 wp_step.
  cbn [update member_next_conn member_allocs next_conn].
  pose proof (wo_pos _ Hw) as Hpos.
  destruct (Z.eqb_spec (next_conn w) 0); [lia|]. do 5 wp_step.
  match goal with |- wp _ _ ?s => set (w1 := s) end. set (c := next_conn w) in *.
  destruct (world_add w w1 c Hw eq_refl eq_refl eq_refl eq_refl) as [Hw1 Hx1].
  assert (Hold : forall d y, conn_of d w = Some y -> conn_of d w1 = Some y)
    by (intros; by apply find_app_old).
  assert (Hne : forall d y, conn_of d w = Some y -> d <> c).
  { intros d y Hy ->. apply find_in in Hy. pose proof (wo_next _ Hw) as Hn.
    eapply Forall_forall in Hn; [|done]. simpl in Hn. unfold c in Hn. lia. }
  apply wp_bind. eapply wp_timer; [done|done|]. intros w2 t0 Hw2 Hst2 Hx2 Ht0.
  apply wp_bind. eapply wp_set_conn; [done|]. intros w3 Hst3 Hx3. set (x3 := update _ _ _) in Hx3.
  assert (Hx3e : x3 = new_conn ip h et cb0 t0) by reflexivity. clearbody x3. subst x3.
  set (x3 := new_conn ip h et cb0 t0) in *.
  pose proof (wstep_trans_l _ _ _ _ _ Hst2 Hst3) as Hst13.
  apply wp_bind. eapply (wp_conseq _ (fun _ w4 => exists x4, wstep c [] w3 w4 /\
    conn_of c w4 = Some x4 /\ opt_rel x3 x4)).
  { assert (Hr3 : opt_rel x3 x3) by (split; [done|cbn; lia]).
    destruct (Z.ltb_spec TCP_HDR_SIZE hl); [|apply wp_ret; exists x3; split_and!; auto with net].
    eapply wp_option_loop; [done|cbn; lia|cbn; lia|done|done|auto|]. eauto. }
  intros [] w4 (x4 & Hst4 & Hx4 & (Hx4e & Hm4 & Hws4)).
  pose proof (wstep_trans_l _ _ _ _ _ Hst13 Hst4) as Hst14.
  assert (Hok4 : conn_ok x4).
  { rewrite Hx4e. change (mss x3) with 1460 in Hm4. split; conn_simpl; cbn; try done.
    - apply swab32_range.
    - apply u32_range. }
  pose proof (wstep_ok _ _ _ _ _ Hw1 Hst14 Hx4 Hok4) as Hw4.
  apply wp_bind. eapply wp_get_conn; [done|]. apply wp_bind.
  destruct (mss_opt_ok (mss x4)) as [Hob Hol].
  eapply (wp_send_opt EO c x4 _ _ _ _ no_payload []); [done|done|done|lia|done|done|by rewrite Hol|].
  intros w5 r Hst5 Hh5 _. assert (Hx5 : conn_of c w5 = Some x4) by (by rewrite Hh5).
  assert (Hw5 : world_ok w5) by (by eapply wstep_ok).
  apply wp_bind. eapply wp_timer; [done|done|]. intros w6 t1 Hw6 Hst6 Hx6 _.
  apply wp_bind. eapply wp_timer; [done|done|]. intros w7 t2 Hw7 Hst7 Hx7 _.
  apply wp_bind. eapply wp_timer; [done|done|]. intros w8 t3 Hw8 Hst8 Hx8 _.
  apply wp_bind. eapply wp_soft; [done|done|by destruct x4|]. intros w9 Hw9 Hst9 Hx9. apply wp_ret.
  assert (Hst : wstep c [] w1 w9).
  { eapply wstep_trans_l; [exact Hst14|]. eapply wstep_trans_l; [exact Hst5|].
    eapply wstep_trans_l; [exact Hst6|]. eapply wstep_trans_l; [exact Hst7|].
    eapply wstep_trans_l; [exact Hst8|done]. }
  set (x9 := update _ _ _) in Hx9. eapply (HQ c x9 w9); [|unfold x9; conn_simpl; rewrite Hx4e; reflexivity..]. destruct Hst as [Hi Hbf Hnx Ho (t & Ht & Hr & Hq)].
  split; [done|done|exact Hx9| |done| |].
  - rewrite Hi. cbn. by rewrite map_app.
  - intros d y Hy. apply (Ho d y); [by eapply Hne|by apply Hold].
  - exists t. split; [done|]. intros d. destruct (decide (d = c)) as [->|]; auto.
Qed.

(** ** [receive_tcp] as a whole *)

Definition target w (s : segment) : Z :=
  tcp_conn_find (sg_ip s) (src (sg_hdr s)) (dst (sg_hdr s)) (conn_head w).

(** What is asked of a segment: on a connection, that it acknowledges only
    what was sent and that the urgent pointer lies inside it; for a new
    connection, that there is memory and the options are well-formed. *)
Record seg_ok w (s : segment) : Prop := {
  so_conn : forall x, conn_of (target w s) w = Some x -> ack_honest x (sg_ack s) /\ 0 <= sg_size s < 2 ^ 30;
  so_new : target w s = 0 -> Z.land (sg_flags s) TCP_FLAG_MASK = TCP_SYN ->
    tcp_listen_find (dst (sg_hdr s)) (listen_head w) <> None ->
    malloc_ok (allocs w) = true /\
    (TCP_HDR_SIZE < sg_hdrlen s -> opts_wf (sg_bytes s) (sg_hdrlen s) TCP_HDR_SIZE)
}.

(** The ways a packet can be dealt with. *)
Inductive received (pkt : list Z) w w' : option segment -> Prop :=
| rx_dropped : w' = w -> received pkt w w' None
| rx_ignored s : w' = w -> received pkt w w' (Some s)
| rx_conn s x : conn_of (target w s) w = Some x ->
    recv_post pkt (sg_seq s) (sg_data s) (sg_size s) (target w s) x w w' ->
    received pkt w w' (Some s)
| rx_new s c x : created c x w w' -> status x = SYN_RCVD -> ip_remote x = sg_ip s ->
    port_remote x = src (sg_hdr s) -> port_local x = dst (sg_hdr s) -> peer_seq x = sg_seq s ->
    received pkt w w' (Some s).

Lemma load_range n off l v : Forall is_byte l -> load n off l = Some v -> 0 <= v < 256 ^ Z.of_nat n.
Proof.
  intros Hb. unfold load. destruct (slice l off (Z.of_nat n)) as [d|] eqn:Es; [|done].
  intros [= <-]. pose proof (slice_zlen _ _ _ _ Es) as Hl. rewrite <- Hl. apply le_value_bound.
  apply slice_inv in Es as (_ & _ & _ & ->). by apply Forall_take, Forall_drop.
Qed.

Record seg_ranges (s : segment) : Prop := {
  sr_ip : is_u32 (sg_ip s);
  sr_src : is_u16 (src (sg_hdr s));
  sr_dst : is_u16 (dst (sg_hdr s));
  sr_seq : is_u32 (sg_seq s) /\ sg_seq s = ntohl (NetWire.seq (sg_hdr s));
  sr_ack : is_u32 (sg_ack s);
  sr_hl : sg_hdrlen s <= 60;
  sr_data : 0 <= sg_data s;
  sr_bytes : Forall is_byte (sg_bytes s)
}.

Lemma tcp_load_ports l h : Forall is_byte l -> tcp_load l = Some h -> is_u16 (src h) /\ is_u16 (dst h).
Proof.
  intros Hb. unfold tcp_load.
  destruct (load 2 0 l) eqn:E1; [|done]. destruct (load 2 2 l) eqn:E2; [|done].
  repeat (match goal with |- context [match ?o with _ => _ end] => destruct o; [|done] end).
  intros [= <-]. split; [by apply (load_range _ _ _ _ Hb) in E1|by apply (load_range _ _ _ _ Hb) in E2].
Qed.

Lemma ip_load_src l h : Forall is_byte l -> ip_load l = Some h -> is_u32 (ip_src h).
Proof.
  intros Hb. unfold ip_load. destruct (load 4 12 l) eqn:E1.
  - repeat (match goal with |- context [match ?o with _ => _ end] => destruct o; [|done] end).
    intros [= <-]. by apply (load_range _ _ _ _ Hb) in E1.
  - repeat (match goal with |- context [match ?o with _ => _ end] => destruct o; [|done] end). done.
Qed.

Lemma parse_ranges pkt len s :
  Forall is_byte pkt -> parse_segment pkt len = Some (Some s) -> seg_ranges s.
Proof.
  intros Hb. unfold parse_segment.
  destruct (ip_load pkt) as [ip|] eqn:Eip; [|done].
  set (seg := drop _ pkt). assert (Hbs : Forall is_byte seg) by (by apply Forall_drop).
  destruct (tcp_checksum_compute _ _ _ _); [|done]. destruct (negb _); [done|].
  destruct (load 2 12 seg) as [fl|]; [|done]. set (hl := Z.land _ TCP_HDR_LEN_MASK).
  assert (Hhl : hl <= 15).
  { unfold hl, TCP_HDR_LEN_MASK. change 15 with (Z.ones 4) at 1. rewrite Z.land_ones by lia.
    pose proof (Z.mod_pos_bound (Z.shiftr (ntohs fl) TCP_HDR_LEN_SHIFT) (2 ^ 4) ltac:(lia)). lia. }
  destruct (Z.ltb_spec (hl * 4) TCP_HDR_SIZE); [done|]. destruct (_ <? _); [done|].
  assert (Hil : 0 <= Z.land (ip_hl_v ip) 15).
  { change 15 with (Z.ones 4). rewrite Z.land_ones by lia. apply Z.mod_pos_bound. lia. }
  unfold TCP_HDR_SIZE in *. pose proof swab16_range as Hsw.
  destruct (tcp_load seg) as [h|] eqn:Eh; [|done]. pose proof (tcp_load_ports _ _ Hbs Eh) as [Hs Hd].
  pose proof (ip_load_src _ _ Hb Eip) as Hip.
  destruct (negb _); intros [= <-]; (split; cbn [sg_ip sg_hdr sg_seq sg_ack sg_hdrlen sg_data sg_bytes]; try done; try lia;
    first [apply swab32_range | split; [apply swab32_range|done] |
           pose proof (Hsw (u16 (urg h))); unfold ntohs; lia]).
Qed.

Lemma wp_receive_tcp (EO : env_ok E) (P : polite E) pkt len et p w :
  world_ok w -> Forall is_byte pkt -> parse_segment pkt len = Some p ->
  length et = 6%nat /\ Forall is_byte et -> (forall s, p = Some s -> seg_ok w s) ->
  wp (receive_tcp pkt len et) (fun _ w' => world_ok w' /\ received pkt w w' p) w.
Proof.
  intros Hw Hb Hp Het Hok. unfold receive_tcp. apply wp_bind. eapply wp_lift; [done|].
  destruct p as [s|]; [|apply wp_ret; split; [done|by constructor]].
  destruct (parse_ranges _ _ _ Hb Hp) as [Hip Hsrc Hdst [Hsq Hsqe] Hak Hhl _ Hbs].
  destruct (Hok s eq_refl) as [Hc Hn]. wp_step. wp_step. fold (target w s).
  destruct (Z.eqb_spec (target w s) 0) as [Hz|Hnz].
  - assert (Hign : wp (ret tt) (fun _ w' => world_ok w' /\ received pkt w w' (Some s)) w)
      by (apply wp_ret; split; [done|by apply rx_ignored]).
    destruct (Z.eqb_spec (Z.land (sg_flags s) TCP_FLAG_MASK) TCP_SYN) as [Hsyn|]; [|done].
    do 2 wp_step. destruct (tcp_listen_find _ _) as [li|] eqn:El; [|done].
    destruct (Hn Hz Hsyn) as [Hm Ho]; [congruence|]. apply wp_bind.
    eapply wp_tcp_conn_create; [done..|]. intros c x w' Hcr Hst Hi Hr Hl Hps _ _. apply wp_ret.
    split; [apply Hcr|]. eapply rx_new; [done..|]. congruence.
  - destruct (tcp_conn_find_some _ _ _ _ (wo_ids _ Hw) (wo_nodup _ Hw) Hnz) as (x & Hx & _).
    fold (target w s) in Hx. destruct (Hc x Hx) as [Hh Hsz].
    eapply wp_conseq; [by apply wp_recv_conn|]. intros [] w' Hpost. split.
    + by destruct Hpost as (B & [? ? ? ? ?] & _).
    + by eapply rx_conn.
Qed.

End Open.
