(* ===== verification/TcpTimer.v ===== *)
(** * Periodic work

    [tcp_conn_check] never reads outside the application's chunk, sends only
    segments whose payload is the chunk's bytes at the segment's sequence
    number, keeps the invariant and follows the state diagram; the timer
    gives up on a silent peer. *)

From stdpp Require Import base numbers list relations.
From Stdlib Require Import ZArith Lia.
From S2P Require Import Prelude NetWire Tcp TcpInv TcpSend TcpRecv.

#[local] Opaque le_bytes.

Lemma off_add a b n :
  0 <= i32 (a - b) -> 0 <= n -> i32 (a - b) + n < 2 ^ 31 -> i32 (u32 (a + n) - b) = i32 (a - b) + n.
Proof.
  intros H0 Hn Hs. destruct (i32_exact (a - b)) as [k Hk]. apply i32_unique; [|lia]. apply u32_eq.
  unfold u32. pose proof (Z.div_mod (a + n) (2 ^ 32) ltac:(lia)) as Hd.
  replace ((a + n) mod 2 ^ 32 - b - (i32 (a - b) + n)) with ((- k - (a + n) / 2 ^ 32) * 2 ^ 32) by lia.
  apply Z_mod_mult.
Qed.

Lemma slice_chunk (b : list Z) off n : 0 <= off -> 0 <= n -> off + n <= zlen b ->
  exists body, slice b off n = Some body /\ zlen body = n.
Proof.
  intros. rewrite slice_some by done. eexists. split; [done|].
  eapply slice_zlen. by apply slice_some.
Qed.

Section Check.
Context {A : Type} {E : tcp_env A} (EO : env_ok E) (P : polite E).
Implicit Types w : tcp_world A.

(** [body] is the part of the chunk of [x] at sequence number [sq]. *)
Definition chunk (x : tcp_conn) (sq : Z) (body : list Z) : Prop :=
  exists b, tx x = Some b /\ 0 <= i32 (sq - local_seq_last x) /\
    i32 (sq - local_seq_last x) + zlen body <= txlen x /\
    slice b (i32 (sq - local_seq_last x)) (zlen body) = Some body.

(** A frame for the peer of [x], without payload or with a part of the
    chunk (when the peer's address is not known, an ARP request). *)
Definition sends_for (x : tcp_conn) (f : list Z) : Prop :=
  is_null_ethaddr (ethaddr x) = true \/
  exists flags sq ak opt body eth h t, carries x flags sq ak opt body f eth h t /\
    (body = [] \/ chunk x sq body).

Definition frame_ok (x : tcp_conn) (e : tcp_event) : Prop :=
  match e with EvSend f => sends_for x f | EvCall _ _ => True end.

(** Members a check may change before it sends. *)
Definition chk_conn (x0 x : tcp_conn) : Prop :=
  x = mkConn (status x0) (ip_remote x0) (port_remote x0) (port_local x0) (peer_seq x0) (local_seq x)
    (local_seq_last x0) (local_seq_acked x0) (ts x) (ts_rexmit x) (num_rexmit x) (ethaddr x0)
    (mss x0) (tx x0) (txlen x0) (cb x0) (close_flag x0) (ack_flag x) (rexmit_mode x)
    (rexmit_wait_ack x) (zw_mode x) (peer_wnd x) (peer_ws x0) (srtt x) (rttvar x) (rto x)
    (ts_rtt x) (ack_calc_rtt x) (pdata x0).

(** Work on [c] in progress: it was [x0] in [w0] and is [x] now. *)
Record chk (c : Z) (x0 : tcp_conn) w0 (x : tcp_conn) w : Prop := {
  ck_ok : world_ok w;
  ck_step : wstep c [] w0 w;
  ck_trace : exists t, trace w = trace w0 ++ t /\ Forall (frame_ok x0) t;
  ck_conn : conn_of c w = Some x;
  ck_chk : chk_conn x0 x
}.

(** Work on [c] is finished. *)
Record check_post (c : Z) (x0 : tcp_conn) w0 w : Prop := {
  cp_fin : wfin c [] w0 w;
  cp_trace : exists t, trace w = trace w0 ++ t /\ Forall (frame_ok x0) t;
  cp_conn : forall x, conn_of c w = Some x ->
    same_peer x0 x /\ rtc tcp_edge (status x0) (status x) /\ rx_pos x = rx_pos x0
}.

Section Conn.
Context {c : Z} {x0 : tcp_conn} {w0 : tcp_world A}.

Lemma chk_start : world_ok w0 -> conn_of c w0 = Some x0 -> chk c x0 w0 x0 w0.
Proof.
  intros Hw Hx. split; [done|apply wstep_refl| |done|by destruct x0].
  exists []. by rewrite app_nil_r.
Qed.

Lemma chk_set f x w :
  chk c x0 w0 x w -> chk_conn x0 (f x) -> conn_ok (f x) ->
  wp (set_conn c f) (fun _ w' => chk c x0 w0 (f x) w') w.
Proof.
  intros [Hw Hst (t & Ht & HF) Hx Hc] Hc' Hok. eapply wp_set_conn_t; [done|]. intros w' Hst' Ht' Hx'.
  split; [by eapply wstep_ok|by eapply wstep_trans_l| |done|done].
  exists t. by rewrite Ht'.
Qed.

Lemma soft_chk x x' : chk_conn x0 x -> soft x x' -> chk_conn x0 x'.
Proof. intros Hc Hs. unfold chk_conn, soft in *. rewrite Hs, Hc. done. Qed.

Lemma chk_soft f x w :
  chk c x0 w0 x w -> soft x (f x) -> wp (set_conn c f) (fun _ w' => chk c x0 w0 (f x) w') w.
Proof.
  intros Hk Hs. apply chk_set; [done|by eapply soft_chk; [apply Hk|]|].
  eapply soft_ok; [done|]. eapply wo_conns; apply Hk.
Qed.

Lemma chk_timer base x w :
  chk c x0 w0 x w -> wp (get_timer base) (fun t w' => is_u32 t /\ chk c x0 w0 x w') w.
Proof.
  intros [Hw Hst (t & Ht & HF) Hx Hc]. eapply wp_get_timer_t; [done|].
  intros w' v Hst' Ht' Hx' Hv. split; [done|].
  split; [|by eapply wstep_trans_l| |done|done].
  - eapply wstep_ok; [done..|]. by eapply wo_conns.
  - exists t. by rewrite Ht'.
Qed.

Lemma chk_rexmit_init x w :
  chk c x0 w0 x w -> wp (tcp_rexmit_init c) (fun _ w' => exists x', soft x x' /\ zw_mode x' = zw_mode x /\
    ack_flag x' = ack_flag x /\ rexmit_wait_ack x' = rexmit_wait_ack x /\ chk c x0 w0 x' w') w.
Proof.
  intros Hk. unfold tcp_rexmit_init.
  apply wp_bind. eapply wp_conseq; [by apply chk_timer|]. intros t1 w1 [_ Hk1].
  apply wp_bind. eapply wp_conseq; [by apply chk_timer|]. intros t2 w2 [_ Hk2].
  eapply wp_conseq; [apply chk_soft; [done|by destruct x]|]. intros [] w3 Hk3.
  eexists. split_and!; [| | | |exact Hk3]; by destruct x.
Qed.

Lemma chk_rexmit_reset x w :
  chk c x0 w0 x w -> wp (tcp_rexmit_reset c) (fun _ w' => exists x', soft x x' /\ zw_mode x' = zw_mode x /\
    ack_flag x' = ack_flag x /\ rexmit_wait_ack x' = rexmit_wait_ack x /\ chk c x0 w0 x' w') w.
Proof.
  intros Hk. unfold tcp_rexmit_reset.
  apply wp_bind. eapply wp_conseq; [by apply chk_timer|]. intros t1 w1 [_ Hk1].
  eapply wp_conseq; [apply chk_soft; [done|by destruct x]|]. intros [] w3 Hk3.
  eexists. split_and!; [| | | |exact Hk3]; by destruct x.
Qed.

(** Sending a segment with a part of the chunk. *)
Lemma chk_send flags sq ak opt payload body x w :
  chk c x0 w0 x w -> Forall is_byte opt -> zlen opt <= 8 ->
  payload_bytes payload (zlen body) = Some body -> Forall is_byte body ->
  zlen opt + zlen body <= 1470 -> (body = [] \/ chunk x0 sq body) ->
  wp (tcp_send_packet_opt c flags sq ak opt payload (zlen body)) (fun _ w' => chk c x0 w0 x w') w.
Proof.
  intros [Hw Hst (t & Ht & HF) Hx Hc] Ho Hol Hp Hb Hl Hch.
  eapply wp_send_opt; [done|done|done|done|done|done|done|done|]. intros w' r Hst' Hh Hcar.
  assert (Hx' : conn_of c w' = Some x) by (by rewrite Hh).
  split; [|by eapply wstep_trans_l| |done|done].
  - eapply wstep_ok; [done..|]. by eapply wo_conns.
  - destruct (is_null_ethaddr (ethaddr x)) eqn:En.
    + destruct Hst' as [_ _ _ _ (t' & Ht' & _)]. exists (t ++ t'). rewrite Ht', Ht, app_assoc. split; [done|].
      apply Forall_app. split; [done|]. apply Forall_true. intros [f|]; [|done].
      unfold frame_ok, sends_for. left. rewrite Hc in En. done.
    + destruct (Hcar eq_refl) as (frame & eth & h & tc & Hca & Ht'). exists (t ++ [EvSend frame]).
      rewrite Ht', Ht, app_assoc. split; [done|]. apply Forall_app. split; [done|].
      apply Forall_singleton. unfold frame_ok, sends_for. right. exists flags, sq, ak, opt, body, eth, h, tc. split; [|done].
      rewrite Hc in Hca. destruct Hca. split; done.
Qed.

Lemma chk_send_empty flags sq ak x w :
  chk c x0 w0 x w -> wp (tcp_send_packet c flags sq ak no_payload 0) (fun _ w' => chk c x0 w0 x w') w.
Proof.
  intros Hk. unfold tcp_send_packet. eapply (chk_send _ _ _ [] no_payload []); try done; by left.
Qed.

(** A callback at the end of the work. *)
Lemma chk_call cbd x w :
  chk c x0 w0 x w -> cbd_conn cbd = c -> cbd_status cbd <> TCP_CB_DATA_RCVD ->
  wp (call_cb c cbd) (fun _ w' => world_ok w' /\ wstep c [] w0 w' /\
    (exists t, trace w' = trace w0 ++ t /\ Forall (frame_ok x0) t) /\
    exists x', conn_of c w' = Some x' /\ conn_app x x') w.
Proof.
  intros [Hw Hst (t & Ht & HF) Hx Hc] Hcc Hs. eapply wp_call_t; [done|done|done|done|].
  intros cbd' w' x' Hst' Ht' Hx' Happ _. simpl in Hst'.
  rewrite (bool_decide_false _ Hs), andb_false_r in Hst'.
  split_and!; [|by eapply wstep_trans_l| |eauto].
  - eapply wstep_ok; [done|done|done|]. apply Happ. by eapply wo_conns.
  - exists (t ++ [EvCall (cb x) cbd]). rewrite Ht', Ht, app_assoc. split; [done|].
    apply Forall_app. split; [done|]. by apply Forall_singleton.
Qed.

(** The connection is removed. *)
Lemma end_del x w :
  world_ok w -> wstep c [] w0 w -> (exists t, trace w = trace w0 ++ t /\ Forall (frame_ok x0) t) ->
  conn_of c w = Some x -> wp (tcp_conn_del c) (fun _ w' => check_post c x0 w0 w' /\ conn_of c w' = None) w.
Proof.
  intros Hw Hst (t & Ht & HF) Hx. eapply (wp_conn_del_t c [] w0); [done|done|done|].
  intros w' Hf Ht' Hn. split; [|done]. split; [done| |intros; congruence]. exists t. by rewrite Ht'.
Qed.

Lemma chk_post x w :
  chk c x0 w0 x w -> check_post c x0 w0 w.
Proof.
  intros [Hw Hst Ht Hx Hc]. split; [by apply wstep_fin|done|]. intros y Hy.
  assert (y = x) as -> by congruence. rewrite Hc. split_and!; [done|apply rtc_refl|done].
Qed.

(** Giving up: a reset is sent, the application is told, and the connection
    is removed. *)
Definition abandon (c : Z) (cbd : tcb_cb_data) (x : tcp_conn) : T Z :=
  do _ <- tcp_send_packet c (Z.lor TCP_RST TCP_ACK) (local_seq x) (peer_seq x) no_payload 0;
  do x <- get_conn c;
  (match status x with
   | ESTABLISHED => do _ <- call_cb c (cbd <| cbd_status := TCP_CB_REMOTE_CLOSED |>); ret tt
   | FIN_WAIT_1 | CLOSE_WAIT =>
       do _ <- call_cb c (cbd <| cbd_status := TCP_CB_CLOSED |>); ret tt
   | _ => ret tt
   end);;
  tcp_conn_del c;;
  ret (-1).

Lemma chk_abandon cbd x w :
  chk c x0 w0 x w -> cbd_conn cbd = c ->
  wp (abandon c cbd x) (fun r w' => r = -1 /\ check_post c x0 w0 w' /\ conn_of c w' = None) w.
Proof.
  intros Hk1 Hc. unfold abandon. apply wp_bind. eapply wp_conseq; [by apply chk_send_empty|].
  cbv beta. intros r0 w2 Hk2.
  apply wp_bind. eapply wp_get_conn; [apply Hk2|].
  apply wp_bind. eapply (wp_conseq _ (fun _ w3 => world_ok w3 /\ wstep c [] w0 w3 /\
    (exists t, trace w3 = trace w0 ++ t /\ Forall (frame_ok x0) t) /\
    exists x', conn_of c w3 = Some x')).
  - assert (Hret : wp (ret tt) (fun _ w3 => world_ok w3 /\ wstep c [] w0 w3 /\
      (exists t, trace w3 = trace w0 ++ t /\ Forall (frame_ok x0) t) /\
      exists x', conn_of c w3 = Some x') w2) by (apply wp_ret; destruct Hk2; eauto).
    destruct (status x); try done;
      (apply wp_bind; eapply wp_conseq; [by eapply chk_call|];
       intros _ w3 (? & ? & ? & x' & ? & _); apply wp_ret; eauto).
  - intros [] w3 (Hw3 & Hst3 & Ht3 & x3 & Hx3). apply wp_bind.
    eapply wp_conseq; [by eapply end_del|]. intros [] w4 [Hp4 Hn4]. by apply wp_ret.
Qed.

Lemma chk_rexmit_check cbd x w :
  chk c x0 w0 x w -> cbd_conn cbd = c ->
  wp (tcp_rexmit_check c cbd) (fun r w' =>
    (r = -1 /\ check_post c x0 w0 w' /\ conn_of c w' = None) \/
    ((r = 0 \/ r = 1) /\ chk c x0 w0 x w')) w.
Proof.
  intros Hk Hc. unfold tcp_rexmit_check. apply wp_bind. eapply wp_get_conn; [apply Hk|].
  apply wp_bind. eapply wp_conseq; [by apply chk_timer|]. intros t w1 [_ Hk1].
  destruct (_ <? _).
  - eapply wp_conseq; [by apply chk_abandon|]. by left.
  - apply wp_bind. eapply wp_conseq; [by apply chk_timer|]. intros t2 w2 [_ Hk2]. apply wp_ret.
    right. split; [|done]. destruct (time_after _ _); auto.
Qed.

(** A peer silent for too long is given up. *)
Lemma chk_rexmit_silent cbd x w :
  chk c x0 w0 x w -> cbd_conn cbd = c ->
  TCP_REXMIT_MAX_CONN_DELAY < u32 (clock (reads w) - ts_rexmit x) ->
  wp (tcp_rexmit_check c cbd) (fun r w' => r = -1 /\ conn_of c w' = None) w.
Proof.
  intros Hk Hc Hlt. unfold tcp_rexmit_check. apply wp_bind. eapply wp_get_conn; [apply Hk|].
  apply wp_bind. pose proof (chk_timer (ts_rexmit x) x w Hk) as Ht.
  destruct (wp_run _ _ _ Ht) as (t & w1 & Hrun & _ & Hk1). eapply wp_of_run; [done|].
  assert (t = u32 (clock (reads w) - ts_rexmit x)) as ->.
  { unfold get_timer, bind, gets, modify, ret in Hrun. congruence. }
  rewrite (proj2 (Z.ltb_lt _ _) Hlt).
  eapply wp_conseq; [by apply chk_abandon|]. intros r w2 (? & _ & ?). done.
Qed.

(** The segment decided on is a part of the chunk. *)
Definition vars_ok (v : send_vars) : Prop :=
  s_datalen v = 0 \/
  exists b, tx x0 = Some b /\ s_data v = (Some b, i32 (s_sendseq v - local_seq_last x0)) /\
    0 <= i32 (s_sendseq v - local_seq_last x0) /\ 0 < s_datalen v <= 1460 /\
    i32 (s_sendseq v - local_seq_last x0) + s_datalen v <= txlen x0 /\ txlen x0 <= zlen b.

(** How far the decision has come. *)
Definition decided (r : option send_vars) w : Prop :=
  match r with
  | None => check_post c x0 w0 w
  | Some v => exists x, chk c x0 w0 x w /\ vars_ok v /\ (rexmit_mode x <> 0 -> s_datalen v = 0)
  end.

Hypothesis Hest : status x0 = ESTABLISHED.

Lemma chk_send_state x w : chk c x0 w0 x w -> tx_idle x \/ tx_active x.
Proof.
  intros Hk. eapply co_send; [eapply wo_conns; apply Hk|]. destruct Hk as [_ _ _ _ ->]. done.
Qed.

Lemma chk_mss x w : chk c x0 w0 x w -> 0 <= mss x <= 1460 /\ mss x = mss x0.
Proof.
  intros Hk. split; [eapply co_mss, wo_conns; apply Hk|]. destruct Hk as [_ _ _ _ ->]. done.
Qed.

(** Moving [local_seq] forward inside the chunk. *)
Lemma advance_ok x x' n :
  conn_ok x -> status x = ESTABLISHED -> tx_active x -> 0 <= n -> off_sent x + n <= txlen x ->
  soft (x <| local_seq := u32 (local_seq x + n) |>) x' -> conn_ok x'.
Proof.
  intros Hok Hs (Hb & Hl & Ho & Hsl & Ha) Hn Hle Hsoft. eapply soft_ok; [done|].
  destruct Hok as [? ? ? ? ? ? ? ? ? ? ? ? ?]. split; conn_simpl; try done.
  - apply u32_range.
  - intros _. right. unfold tx_active, off_acked, off_sent in *. conn_simpl.
    rewrite off_add by lia. split_and!; try done; lia.
Qed.

Lemma wp_check_send cbd w :
  chk c x0 w0 x0 w -> cbd_conn cbd = c ->
  wp (check_send c cbd (u32 (tcp_seq_sub (local_seq x0) (local_seq_last x0)))
        (u32 (tcp_seq_sub (local_seq_acked x0) (local_seq_last x0)))
        (mkSend no_payload 0 TCP_ACK (local_seq x0))) decided w.
Proof.
  intros Hk Hc. assert (Hok : conn_ok x0) by (eapply wo_conns; apply Hk).
  unfold check_send. apply wp_bind. eapply wp_get_conn; [apply Hk|].
  assert (Hskip : forall x w', chk c x0 w0 x w' ->
    wp (ret (Some (mkSend no_payload 0 TCP_ACK (local_seq x0)))) decided w').
  { intros x w' Hk'. apply wp_ret. exists x. split_and!; [done|by left|done]. }
  destruct (Z.eqb_spec (rexmit_mode x0) 0) as [Hrm|]; cbn [negb]; [|by apply (Hskip x0)].
  rewrite !tcp_seq_sub_i32 by apply Hok. fold (off_sent x0) (off_acked x0).
  destruct (Z.ltb_spec (u32 (off_sent x0)) (txlen x0)) as [Hlt|Hge].
  - destruct (co_send _ Hok Hest) as [(H0 & _)|Hact].
    { pose proof (u32_range (off_sent x0)). lia. }
    pose proof Hact as ((b & Hb & Hbl) & Hl & Ho & Hsl & Ha).
    rewrite (u32_small (off_sent x0)) in * by lia. rewrite (u32_small (txlen x0 - off_sent x0)) by lia.
    pose proof (co_mss _ Hok) as Hm.
    set (n := Z.min (txlen x0 - off_sent x0) (mss x0)). assert (Hn : 0 <= n <= 1460 /\ n <= txlen x0 - off_sent x0) by lia.
    destruct (_ <=? _).
    + apply wp_bind. eapply (wp_conseq _ (fun _ w1 => exists x1, soft x0 x1 /\ chk c x0 w0 x1 w1)).
      { destruct (_ =? 0); [|apply wp_ret; eauto with net].
        eapply wp_conseq; [by apply chk_rexmit_init|]. intros [] w1 (x1 & ? & _ & _ & _ & ?). eauto. }
      intros [] w1 (x1 & Hs1 & Hk1). apply wp_bind.
      eapply wp_conseq; [apply chk_soft; [done|by destruct x1]|]. intros [] w2 Hk2. apply wp_ret.
      eexists. split_and!; [done|by left|]. done.
    + apply wp_bind. eapply wp_conseq; [apply chk_set; [done| |]|].
      { reflexivity. }
      { eapply (advance_ok x0 _ n Hok Hest Hact); [lia|lia|reflexivity]. }
      intros [] w1 Hk1. apply wp_bind. eapply wp_conseq; [by apply chk_rexmit_init|].
      intros [] w2 (x2 & Hs2 & _ & _ & _ & Hk2). apply wp_ret. exists x2. split_and!; [done| |].
      * destruct (decide (n = 0)) as [Hz|Hnz]; [by left|]. right. exists b. cbn [s_data s_datalen s_sendseq].
        fold (off_sent x0). rewrite Hb. split_and!; try done; lia.
      * intros Hne. exfalso. apply Hne. rewrite Hs2. done.
  - destruct (Z.ltb_spec (u32 (off_acked x0)) (txlen x0)) as [Hpos|]; [|by apply (Hskip x0)]. apply wp_bind.
    eapply wp_conseq; [by apply chk_rexmit_check|]. intros r w1 [(-> & Hp & _)|([-> | ->] & Hk1)].
    + by apply wp_ret.
    + by apply (Hskip x0).
    + apply wp_bind. eapply wp_conseq; [apply chk_set; [done|reflexivity|]|].
      { destruct Hok as [? ? ? ? ? ? ? ? ? ? ? ? Hsend]. split; conn_simpl; try done; [congruence|].
        intros Hs. destruct (Hsend Hs) as [(H0 & _ & He)|Hact]; [|right; exact Hact].
        exfalso. pose proof (u32_range (off_acked x0)). lia. }
      intros [] w2 Hk2. by eapply Hskip.
Qed.

(** While retransmitting, the chunk is not finished. *)
Lemma rexmit_active x w : chk c x0 w0 x w -> rexmit_mode x <> 0 -> tx_active x.
Proof. intros Hk Hne. by destruct (chk_send_state x w Hk) as [(_ & ? & _)|]. Qed.

Lemma active_acked x w :
  chk c x0 w0 x w -> tx_active x ->
  u32 (tcp_seq_sub (local_seq_acked x0) (local_seq_last x0)) = off_acked x0 /\
  0 <= off_acked x0 < txlen x0 /\ txlen x0 < 2 ^ 30 /\
  exists b, tx x0 = Some b /\ txlen x0 <= zlen b.
Proof.
  intros Hk ((b & Hb & Hbl) & Hl & Ho & Hsl & Ha).
  assert (Hok : conn_ok x) by (eapply wo_conns; apply Hk). destruct Hk as [_ _ _ _ Hc].
  unfold off_acked in *. rewrite Hc in *. cbn in *.
  rewrite tcp_seq_sub_i32 by (destruct Hok; done). rewrite u32_small by lia. split_and!; try lia. eauto.
Qed.

Lemma wp_check_resend v x w :
  chk c x0 w0 x w -> rexmit_mode x <> 0 -> s_datalen v = 0 ->
  wp (check_resend c (u32 (tcp_seq_sub (local_seq_acked x0) (local_seq_last x0))) v)
    (fun v' w' => decided (Some v') w' \/
       exists x', chk c x0 w0 x' w' /\ vars_ok v') w.
Proof.
  intros Hk Hrm Hv. unfold check_resend. apply wp_bind. eapply wp_get_conn; [apply Hk|].
  destruct (negb _).
  { apply wp_ret. left. exists x. split_and!; [done|by left|done]. }
  pose proof (rexmit_active _ _ Hk Hrm) as Hact.
  destruct (active_acked _ _ Hk Hact) as (Eacked & Ha & Hl & b & Hb & Hbl).
  destruct (chk_mss _ _ Hk) as [Hm Hme].
  assert (Hacked : local_seq_acked x = local_seq_acked x0) by (by rewrite (ck_chk _ _ _ _ _ Hk)).
  assert (Htx : tx x = tx x0 /\ txlen x = txlen x0) by (by rewrite (ck_chk _ _ _ _ _ Hk)).
  destruct Htx as [Htx Htl].
  apply wp_bind. eapply (wp_conseq _ (fun v' w1 => exists x1, chk c x0 w0 x1 w1 /\ vars_ok v')).
  { destruct (_ =? 0); [|apply wp_ret; exists x; split; [done|by left]].
    apply wp_bind. eapply wp_conseq; [apply chk_soft; [done|by destruct x]|]. intros [] w1 Hk1.
    apply wp_bind. eapply wp_conseq; [by apply chk_rexmit_reset|].
    intros [] w2 (x2 & _ & _ & _ & _ & Hk2). apply wp_ret. exists x2. split; [done|].
    rewrite Eacked, Htx, Htl, Hb, Hacked, u32_small by lia. unfold vars_ok. cbn [s_datalen s_data s_sendseq].
    destruct (decide (Z.min (txlen x0 - off_acked x0) (mss x) = 0)); [by left|]. right. exists b.
    fold (off_acked x0). split_and!; try done; lia. }
  intros v' w1 (x1 & Hk1 & Hv'). apply wp_bind. eapply wp_conseq; [by apply chk_timer|].
  intros t w2 [_ Hk2]. destruct (_ <? _); [|apply wp_ret; right; eauto].
  apply wp_bind. eapply wp_conseq; [by apply chk_timer|]. intros t2 w3 [_ Hk3].
  apply wp_bind. eapply wp_conseq; [apply chk_soft; [done|by destruct x1]|]. intros [] w4 Hk4.
  apply wp_ret. right. eauto.
Qed.

(** After this point only what is to be sent matters. *)
Definition ready (r : option send_vars) w : Prop :=
  match r with
  | None => check_post c x0 w0 w
  | Some v => exists x, chk c x0 w0 x w /\ vars_ok v
  end.

Lemma decided_ready r w : decided r w -> ready r w.
Proof. destruct r as [v|]; [|done]. intros (x & ? & ? & _). by exists x. Qed.

Lemma wp_check_rexmit cbd v w :
  decided (Some v) w -> cbd_conn cbd = c ->
  wp (check_rexmit c cbd (u32 (tcp_seq_sub (local_seq_acked x0) (local_seq_last x0))) v) ready w.
Proof.
  intros (x & Hk & Hv & Hrm) Hc. unfold check_rexmit. apply wp_bind. eapply wp_get_conn; [apply Hk|].
  destruct (Z.eqb_spec (rexmit_mode x) 0) as [|Hne]; [apply wp_ret; by exists x|].
  assert (Hre : forall x' w', chk c x0 w0 x' w' -> rexmit_mode x' <> 0 ->
    wp (bind (check_resend c (u32 (tcp_seq_sub (local_seq_acked x0) (local_seq_last x0))) v)
          (fun v => ret (Some v))) ready w').
  { intros x' w' Hk' Hne'. apply wp_bind. eapply wp_conseq; [apply (wp_check_resend _ x'); auto|].
    intros v' w2 Hd. apply wp_ret. destruct Hd as [Hd|Hd]; [by apply decided_ready|done]. }
  destruct (negb _); [|by apply (Hre x)].
  apply wp_bind. eapply wp_conseq; [by apply chk_rexmit_check|].
  intros r w1 [(-> & Hp & _)|([-> | ->] & Hk1)].
  - by apply wp_ret.
  - apply wp_bind, wp_ret. by apply (Hre x).
  - apply wp_bind. eapply wp_conseq; [apply chk_soft; [done|by destruct x]|]. intros [] w2 Hk2.
    eapply Hre; [done|]. by destruct x.
Qed.

Lemma wp_check_probe cbd v w :
  ready (Some v) w -> cbd_conn cbd = c ->
  wp (check_probe c cbd (u32 (tcp_seq_sub (local_seq x0) (local_seq_last x0)))
        (u32 (tcp_seq_sub (local_seq_acked x0) (local_seq_last x0))) v) ready w.
Proof.
  intros (x & Hk & Hv) Hc. unfold check_probe. apply wp_bind. eapply wp_get_conn; [apply Hk|].
  destruct (_ && _); [apply wp_ret; by exists x|].
  assert (Htx : txlen x = txlen x0) by (by rewrite (ck_chk _ _ _ _ _ Hk)). rewrite Htx.
  apply wp_bind. eapply (wp_conseq _ (fun _ w1 => exists x1, chk c x0 w0 x1 w1)).
  { destruct (_ =? 0); [|apply wp_ret; eauto].
    apply wp_bind. eapply wp_conseq; [apply chk_soft; [done|by destruct x]|]. intros [] w1 Hk1.
    eapply wp_conseq; [by apply chk_rexmit_init|]. intros [] w2 (x2 & _ & _ & _ & _ & Hk2). eauto. }
  intros [] w1 (x1 & Hk1).
  destruct (Z.ltb_spec (u32 (tcp_seq_sub (local_seq x0) (local_seq_last x0))) (txlen x0)) as [Hlt|];
    [|apply wp_ret; by exists x1].
  apply wp_bind. eapply wp_conseq; [by apply chk_rexmit_check|].
  intros r w2 [(-> & Hp & _)|([-> | ->] & Hk2)]; [by apply wp_ret|apply wp_ret; by exists x1|].
  assert (Hact : tx_active x1).
  { destruct (chk_send_state x1 w2 Hk2) as [(H0 & _)|]; [|done]. exfalso.
    rewrite (ck_chk _ _ _ _ _ Hk2) in H0. cbn in H0.
    pose proof (u32_range (tcp_seq_sub (local_seq x0) (local_seq_last x0))). lia. }
  destruct (active_acked _ _ Hk2 Hact) as (Eacked & Ha & Hl & b & Hb & Hbl).
  apply wp_bind. eapply wp_get_conn; [apply Hk2|].
  assert (Hok1 : conn_ok x1) by (eapply wo_conns; apply Hk2).
  assert (Hs1 : status x1 = ESTABLISHED) by (by rewrite (ck_chk _ _ _ _ _ Hk2)).
  apply wp_bind. eapply wp_conseq; [apply chk_set; [done| |]|].
  { pose proof (ck_chk _ _ _ _ _ Hk2) as Hc1. destruct (_ =? _); rewrite Hc1; reflexivity. }
  { destruct (Z.eqb_spec (local_seq x1) (local_seq_acked x1)) as [Heq|].
    - pose proof Hact as ((b' & _) & Hl1 & Ho1 & Hs & Ha1).
      eapply (advance_ok x1 _ 1 Hok1 Hs1 Hact); [lia| |reflexivity].
      unfold off_acked, off_sent in *. rewrite Heq in *. lia.
    - eapply (soft_ok x1); [by destruct x1|done]. }
  intros [] w3 Hk3. apply wp_bind. eapply wp_conseq; [by apply chk_rexmit_reset|].
  intros [] w4 (x4 & _ & _ & _ & _ & Hk4). apply wp_ret. exists x4. split; [done|].
  assert (Hx1 : tx x1 = tx x0 /\ local_seq_acked x1 = local_seq_acked x0)
    by (by rewrite (ck_chk _ _ _ _ _ Hk2)).
  destruct Hx1 as [-> ->]. right. exists b. cbn [s_datalen s_data s_sendseq]. rewrite Hb, Eacked.
  fold (off_acked x0). split_and!; try done; lia.
Qed.

Lemma wp_check_flush v w :
  ready (Some v) w -> wp (check_flush c v) (fun _ w' => exists x, chk c x0 w0 x w') w.
Proof.
  intros (x & Hk & Hv). unfold check_flush. apply wp_bind. eapply wp_get_conn; [apply Hk|].
  destruct (negb _); [|apply wp_ret; eauto].
  apply wp_bind. eapply wp_conseq; [apply chk_soft; [done|by destruct x]|]. intros [] w1 Hk1.
  apply wp_bind. unfold tcp_send_packet.
  assert (Hok : conn_ok x) by (eapply wo_conns; apply Hk).
  destruct Hv as [Hz|(b & Hb & Hd & H0 & Hdl & Hle & Hbl)].
  - rewrite Hz.
    eapply wp_conseq;
      [eapply (chk_send _ _ _ [] (s_data v) []); [done|by constructor|done|done|by constructor|done|by left]|].
    intros r w2 Hk2. apply wp_ret. eexists. exact Hk2.
  - destruct (slice_chunk b (i32 (s_sendseq v - local_seq_last x0)) (s_datalen v)) as (body & Hsl & Hbody);
      [lia|lia|lia|]. rewrite <- Hbody.
    assert (Hbytes : Forall is_byte body).
    { apply slice_inv in Hsl as (_ & _ & _ & ->). apply Forall_take, Forall_drop.
      eapply (co_tx _ Hok). by rewrite (ck_chk _ _ _ _ _ Hk). }
    eapply wp_conseq; [eapply chk_send; [done|by constructor|done| |done| |]|].
    + rewrite Hd. unfold payload_bytes. destruct (Z.eqb_spec (zlen body) 0); [lia|]. by rewrite Hbody.
    + change (zlen (@nil Z)) with 0. lia.
    + right. exists b. rewrite Hbody. split_and!; done.
    + intros r w2 Hk2. apply wp_ret. eexists. exact Hk2.
Qed.

Lemma wp_check_close cbd x w :
  chk c x0 w0 x w -> cbd_conn cbd = c ->
  wp (check_close c cbd) (fun _ w' => check_post c x0 w0 w') w.
Proof.
  intros Hk Hc. unfold check_close. apply wp_bind. eapply wp_get_conn; [apply Hk|].
  destruct (_ && _); [|apply wp_ret; by eapply chk_post].
  apply wp_bind. eapply wp_conseq; [by apply chk_send_empty|]. intros r1 w1 Hk1. cbv beta in Hk1.
  assert (Hok : conn_ok x) by (eapply wo_conns; apply Hk).
  apply wp_bind. destruct Hk1 as [Hw1 Hst1 (t & Ht & HF) Hx1 Hc1]. eapply wp_set_conn_t; [done|].
  intros w2 Hst2 Ht2 Hx2. set (x2 := update _ _ _) in Hx2.
  assert (Hok2 : conn_ok x2) by (destruct Hok; split; conn_simpl; done).
  apply wp_bind. unfold tcp_rexmit_init.
  apply wp_bind. eapply wp_get_timer_t; [done|]. intros w3 t1 Hst3 Ht3 Hx3 _.
  apply wp_bind. eapply wp_get_timer_t; [done|]. intros w4 t2 Hst4 Ht4 Hx4 _.
  eapply wp_set_conn_t; [done|]. intros w5 Hst5 Ht5 Hx5. set (x5 := update _ _ _) in Hx5.
  assert (Hok5 : conn_ok x5) by (eapply (soft_ok x2); [by destruct x|done]).
  assert (Hst15 : wstep c [] w1 w5).
  { eapply wstep_trans_l; [exact Hst2|]. eapply wstep_trans_l; [exact Hst3|].
    eapply wstep_trans_l; [exact Hst4|done]. }
  pose proof (wstep_ok _ _ _ _ _ Hw1 Hst15 Hx5 Hok5) as Hw5.
  apply wp_bind. eapply wp_call_t; [done|done|done|done|]. intros cbd' w6 x6 Hst6 Ht6 Hx6 Happ _.
  apply wp_ret. cbn in Hst6. rewrite andb_false_r in Hst6.
  assert (Hw6 : world_ok w6) by (eapply wstep_ok; [exact Hw5|done|done|by apply Happ]).
  split.
  - apply wstep_fin; [|done]. eapply wstep_trans_l; [exact Hst1|]. eapply wstep_trans_l; done.
  - exists (t ++ [EvCall (cb x5) (cbd <| cbd_status := TCP_CB_CLOSING |>)]).
    rewrite Ht6, Ht5, Ht4, Ht3, Ht2, Ht, app_assoc. split; [done|].
    apply Forall_app. split; [done|]. by apply Forall_singleton.
  - intros y Hy. assert (y = x6) as -> by congruence.
    assert (Hsp : same_peer x0 x5) by (unfold x5, x2; rewrite Hc1; done).
    split_and!.
    + eapply same_peer_trans; [done|by apply conn_app_peer].
    + rewrite (ca_status _ _ Happ), Hest. apply rtc_once. constructor.
    + unfold rx_pos, status_eqb. rewrite (ca_status _ _ Happ), (ca_peer _ _ Happ), Hest.
      unfold x5, x2. rewrite Hc1. done.
Qed.

Lemma wp_check_established cbd w :
  chk c x0 w0 x0 w -> cbd_conn cbd = c ->
  wp (check_established c cbd) (fun _ w' => check_post c x0 w0 w') w.
Proof.
  intros Hk Hc. unfold check_established. apply wp_bind. eapply wp_get_conn; [apply Hk|].
  apply wp_bind. eapply wp_conseq; [by apply wp_check_send|]. intros [v|] w1 Hd; [|by apply wp_ret].
  apply wp_bind. eapply wp_conseq; [by apply wp_check_rexmit|]. intros [v2|] w2 Hd2; [|by apply wp_ret].
  apply wp_bind. eapply wp_conseq; [by apply wp_check_probe|]. intros [v3|] w3 Hd3; [|by apply wp_ret].
  apply wp_bind. eapply wp_conseq; [by apply wp_check_flush|]. intros [] w4 (x4 & Hk4).
  by eapply wp_check_close.
Qed.

End Conn.

(** The three states that wait for an acknowledgement of SYN or FIN. *)
Lemma wp_check_again c x0 w0 cbd again w :
  chk c x0 w0 x0 w -> cbd_conn cbd = c ->
  (forall w1, chk c x0 w0 x0 w1 -> wp again (fun _ w' => chk c x0 w0 x0 w') w1) ->
  wp (check_again c cbd again) (fun _ w' => check_post c x0 w0 w') w.
Proof.
  intros Hk Hc Ha. unfold check_again. apply wp_bind. eapply wp_conseq; [by eapply chk_rexmit_check|].
  intros r w1 [(-> & Hp & _)|([-> | ->] & Hk1)].
  - by apply wp_ret.
  - apply wp_ret. by eapply chk_post.
  - apply wp_bind. eapply wp_conseq; [by apply Ha|]. intros r2 w2 Hk2. cbv beta in Hk2.
    eapply wp_conseq; [by eapply chk_rexmit_reset|]. intros [] w3 (x3 & _ & _ & _ & _ & Hk3).
    by eapply chk_post.
Qed.

Lemma chk_send_ctrl c x0 w0 flags x w :
  chk c x0 w0 x w -> wp (tcp_send_packet_ctrl c flags) (fun _ w' => chk c x0 w0 x w') w.
Proof.
  intros Hk. unfold tcp_send_packet_ctrl. apply wp_bind. eapply wp_get_conn; [apply Hk|].
  eapply (chk_send _ _ _ [] no_payload []); try done; by left.
Qed.

Lemma wp_tcp_conn_check c x w :
  world_ok w -> conn_of c w = Some x ->
  wp (tcp_conn_check c) (fun _ w' => check_post c x w w') w.
Proof.
  intros Hw Hx. unfold tcp_conn_check. pose proof (chk_start Hw Hx) as Hk0.
  assert (Hok : conn_ok x) by (by eapply wo_conns).
  apply wp_bind. eapply wp_conseq; [by eapply chk_timer|]. intros t w1 [_ Hk1].
  apply wp_bind. eapply wp_get_conn; [apply Hk1|].
  assert (Hret : wp (ret tt) (fun _ w' => check_post c x w w') w1)
    by (apply wp_ret; by eapply chk_post).
  destruct (status x) eqn:Hs; try done.
  - apply wp_check_again; [done|done|]. intros w2 Hk2. destruct (mss_opt_ok (mss x)) as [Ho Hl].
    eapply (chk_send _ _ _ _ no_payload []);
      [exact Hk2|exact Ho|by rewrite Hl|done|by constructor|by rewrite Hl|by left].
  - by apply wp_check_established.
  - apply wp_check_again; [done|done|intros; by eapply chk_send_empty].
  - apply wp_bind. eapply wp_conseq; [by eapply chk_send_ctrl|]. cbv beta.
    intros r w2 [Hw2 Hst2 (tr & Ht & HF) Hx2 Hc2].
    apply wp_bind. eapply wp_set_conn_t; [done|]. intros w3 Hst3 Ht3 Hx3. set (x3 := update _ _ _) in Hx3.
    unfold tcp_rexmit_init.
    apply wp_bind. eapply wp_get_timer_t; [done|]. intros w4 t1 Hst4 Ht4 Hx4 _.
    apply wp_bind. eapply wp_get_timer_t; [done|]. intros w5 t2 Hst5 Ht5 Hx5 _.
    eapply wp_set_conn_t; [done|]. intros w6 Hst6 Ht6 Hx6. set (x6 := update _ _ _) in Hx6.
    assert (Hok6 : conn_ok x6) by (destruct Hok; split; conn_simpl; done).
    assert (Hst : wstep c [] w w6).
    { eapply wstep_trans_l; [exact Hst2|]. eapply wstep_trans_l; [exact Hst3|].
      eapply wstep_trans_l; [exact Hst4|]. eapply wstep_trans_l; [exact Hst5|done]. }
    split.
    + apply wstep_fin; [done|]. exact (wstep_ok _ _ _ _ _ Hw Hst Hx6 Hok6).
    + exists tr. by rewrite Ht6, Ht5, Ht4, Ht3, Ht.
    + intros y Hy. assert (y = x6) as -> by congruence. split_and!; [done| |].
      * rewrite Hs. apply rtc_once. constructor.
      * unfold rx_pos, status_eqb. rewrite Hs. done.
  - apply wp_check_again; [done|done|intros; by eapply chk_send_ctrl].
  - apply wp_bind. eapply wp_conseq; [by eapply chk_send_ctrl|]. intros r w2 Hk2. cbv beta in Hk2.
    apply wp_bind. eapply wp_conseq; [by eapply chk_call|].
    intros _ w3 (Hw3 & Hst3 & Ht3 & x3 & Hx3 & _).
    eapply wp_conseq; [by eapply end_del|]. by intros [] w4 [Hp _].
Qed.

(** States that wait for the peer's acknowledgement of SYN or FIN. *)
Definition awaits_peer (s : tcp_state) : Prop := s = SYN_RCVD \/ s = FIN_WAIT_1 \/ s = LAST_ACK.

Lemma wp_conn_check_silent c x w :
  world_ok w -> conn_of c w = Some x -> awaits_peer (status x) ->
  TCP_REXMIT_MAX_CONN_DELAY < u32 (clock (S (reads w)) - ts_rexmit x) ->
  wp (tcp_conn_check c) (fun _ w' => conn_of c w' = None) w.
Proof.
  intros Hw Hx Hs Hlt. unfold tcp_conn_check. pose proof (chk_start Hw Hx) as Hk0.
  pose proof (chk_timer 0 x w Hk0) as Ht.
  destruct (wp_run _ _ _ Ht) as (t & w1 & Hrun & _ & Hk1). apply wp_bind. eapply wp_of_run; [done|].
  assert (Hr1 : reads w1 = S (reads w)).
  { unfold get_timer, bind, gets, modify, ret in Hrun. by injection Hrun as <- <-. }
  apply wp_bind. eapply wp_get_conn; [apply Hk1|]. rewrite <- Hr1 in Hlt.
  assert (Hag : forall cbd again, cbd_conn cbd = c ->
    wp (check_again c cbd again) (fun _ w' => conn_of c w' = None) w1).
  { intros cbd again Hc. unfold check_again. apply wp_bind.
    eapply wp_conseq; [by eapply chk_rexmit_silent|]. intros r w2 [-> Hn]. by apply wp_ret. }
  destruct Hs as [->|[->| ->]]; by apply Hag.
Qed.

(** The others wait without a limit: the check does nothing but read the
    timer. *)
Lemma conn_check_idle c x w :
  conn_of c w = Some x -> status x = FIN_WAIT_2 \/ status x = CLOSING ->
  tcp_conn_check c w = Ret tt (w <| reads := S (reads w) |>).
Proof.
  intros Hx Hs. unfold tcp_conn_check, get_timer, get_conn, bind, gets, modify, ret, lift. cbn [conn_head update member_reads].
  rewrite Hx. by destruct Hs as [->| ->].
Qed.

End Check.
