(* ===== verification/TcpStream.v ===== *)
(** * The stack as a whole

    Sequences of received packets, periodic checks and calls of the
    application: the invariant holds throughout, every connection follows
    the state diagram, and the bytes a connection delivers are a prefix of
    the peer's stream whatever is lost, repeated or reordered. *)

From stdpp Require Import base numbers list relations.
From Stdlib Require Import ZArith Lia.
From S2P Require Import Prelude NetWire Tcp TcpInv TcpSend TcpRecv TcpOpen TcpTimer.

Section System.
Context {A : Type} {E : tcp_env A}.
Implicit Types w : tcp_world A.

(** ** Walking over the connections *)

Lemma conn_after_next lh l pre suf :
  map fst l = pre ++ lh :: suf -> lh ∉ pre -> conn_after lh l = Some (hd 0 suf).
Proof.
  revert pre. induction l as [|[i x] l IH]; intros pre Hl Hni; [by destruct pre|].
  destruct pre as [|p pre]; simpl in Hl; simplify_eq; simpl.
  - rewrite Z.eqb_refl. by destruct l as [|[j y] l].
  - destruct (Z.eqb_spec p lh) as [->|]; [exfalso; apply Hni, list_elem_of_here|].
    apply (IH pre); [done|]. intros H. by apply Hni, list_elem_of_further.
Qed.

Lemma remove_conn_split lh l pre suf :
  map fst l = pre ++ lh :: suf -> lh ∉ pre -> map fst (remove_conn lh l) = pre ++ suf.
Proof.
  revert pre. induction l as [|[i x] l IH]; intros pre Hl Hni; [by destruct pre|].
  destruct pre as [|p pre]; simpl in Hl; simplify_eq; simpl.
  - by rewrite Z.eqb_refl.
  - destruct (Z.eqb_spec p lh) as [->|]; [exfalso; apply Hni, list_elem_of_here|].
    simpl. f_equal. apply (IH pre); [done|]. intros H. by apply Hni, list_elem_of_further.
Qed.

(** A walk calls [f] once for every connection there was, in order; [J]
    holds of what is still to come. *)
Lemma wp_each_conn (f : Z -> T unit) (J : list Z -> tcp_world A -> Prop) w :
  (forall lh suf w1 pre x, J (lh :: suf) w1 -> world_ok w1 ->
     map fst (conn_head w1) = pre ++ lh :: suf -> lh ∉ pre -> conn_of lh w1 = Some x ->
     wp (f lh) (fun _ w2 => J suf w2 /\ world_ok w2 /\
       exists pre', map fst (conn_head w2) = pre' ++ suf) w1) ->
  world_ok w -> J (map fst (conn_head w)) w ->
  wp (each_conn f) (fun num w' => J [] w' /\ world_ok w' /\ num = zlen (conn_head w)) w.
Proof.
  intros Hf Hw HJ. unfold each_conn. do 2 wp_step.
  eapply (wp_iter
    (fun '(lh, num) w1 => exists pre suf, map fst (conn_head w1) = pre ++ suf /\ lh = hd 0 suf /\
       J suf w1 /\ world_ok w1 /\ num + zlen suf = zlen (conn_head w) /\
       (length suf <= length (conn_head w))%nat)
    (fun '(lh, num) w1 => Z.to_nat (zlen (conn_head w) - num))).
  - intros [lh num] w1 (pre & suf & Hids & -> & HJ1 & Hw1 & Hn & Hlen). unfold each_conn_body.
    destruct suf as [|lh suf]; cbn [hd].
    { rewrite Z.eqb_refl. apply wp_ret. split_and!; [done|done|]. unfold zlen in *. simpl in Hn. lia. }
    assert (Hin : lh ∈ map fst (conn_head w1)) by (rewrite Hids; apply elem_of_app; right; apply list_elem_of_here).
    pose proof (wo_ids _ Hw1) as Hpos. eapply Forall_forall in Hpos; [|exact Hin].
    destruct (Z.eqb_spec lh 0); [lia|]. do 2 wp_step.
    assert (Hni : lh ∉ pre).
    { pose proof (wo_nodup _ Hw1) as Hnd. rewrite Hids in Hnd. apply NoDup_app in Hnd as (_ & Hd & _).
      intros H. apply (Hd _ H), list_elem_of_here. }
    apply wp_bind. eapply wp_lift; [by eapply conn_after_next|].
    apply in_find in Hin as [x Hx]. apply wp_bind. eapply wp_conseq; [by eapply Hf|].
    intros [] w2 (HJ2 & Hw2 & pre' & Hids2). apply wp_ret. unfold zlen in *. simpl in Hn, Hlen. split.
    + exists pre', suf. split_and!; try done; lia.
    + lia.
  - exists [], (map fst (conn_head w)). unfold zlen. rewrite length_map.
    split_and!; try done. by destruct (conn_head w) as [|[i x] l].
  - unfold zlen. lia.
Qed.

(** ** Steps of the system *)

(** Connections move along the diagram or go away, and nothing is
    delivered. *)
Definition conn_evo (x x' : tcp_conn) : Prop :=
  same_peer x x' /\ rtc tcp_edge (status x) (status x') /\ rx_pos x' = rx_pos x.

Record evolved w w' : Prop := {
  ev_next : next_conn w' = next_conn w;
  ev_conns : forall c x', conn_of c w' = Some x' -> exists x, conn_of c w = Some x /\ conn_evo x x';
  ev_trace : exists t, trace w' = trace w ++ t /\ forall d, rcvd d t = []
}.

Lemma conn_evo_refl x : conn_evo x x.
Proof. split_and!; [done|apply rtc_refl|done]. Qed.

Lemma conn_evo_trans x y z : conn_evo x y -> conn_evo y z -> conn_evo x z.
Proof.
  intros (? & ? & ?) (? & ? & ?). split_and!; [by eapply same_peer_trans|by etrans|congruence].
Qed.

Lemma conn_app_evo x x' : conn_app x x' -> conn_evo x x'.
Proof.
  intros H. split_and!; [by apply conn_app_peer|rewrite (ca_status _ _ H); apply rtc_refl|].
  unfold rx_pos. by rewrite (ca_status _ _ H), (ca_peer _ _ H).
Qed.

Lemma evolved_refl w : evolved w w.
Proof. split; [done|eauto using conn_evo_refl|]. exists []. by rewrite app_nil_r. Qed.

Lemma evolved_trans w1 w2 w3 : evolved w1 w2 -> evolved w2 w3 -> evolved w1 w3.
Proof.
  intros [Hn1 Hc1 (t1 & Ht1 & Hr1)] [Hn2 Hc2 (t2 & Ht2 & Hr2)]. split; [congruence| |].
  - intros c z Hz. destruct (Hc2 c z Hz) as (y & Hy & ?). destruct (Hc1 c y Hy) as (x & Hx & ?).
    eauto using conn_evo_trans.
  - exists (t1 ++ t2). rewrite Ht2, Ht1, app_assoc. split; [done|]. intros d. by rewrite rcvd_app, Hr1, Hr2.
Qed.

(** Work on one connection, seen from the system. *)
Lemma fin_find c B w w' d y :
  world_ok w -> wfin c B w w' -> d <> c -> conn_of d w' = Some y ->
  exists x, conn_of d w = Some x /\ conn_app x y.
Proof.
  intros Hw [Hw' Hi _ Ho _] Hd Hy.
  assert (Hin : d ∈ map fst (conn_head w)).
  { apply find_in in Hy as Hin. destruct Hi as [Hi|Hi]; rewrite Hi in Hin; [done|by eapply remove_incl]. }
  apply in_find in Hin as [x Hx]. destruct (Ho d x Hd Hx) as (y' & Hy' & ?). exists x. split; [done|congruence].
Qed.

Lemma check_post_evolved c x w w' :
  world_ok w -> conn_of c w = Some x -> check_post c x w w' -> evolved w w'.
Proof.
  intros Hw Hx [Hf _ Hc]. split; [apply Hf| |].
  - intros d y Hy. destruct (decide (d = c)) as [->|Hne]; [exists x; split; [done|by apply Hc]|].
    destruct (fin_find _ _ _ _ _ _ Hw Hf Hne Hy) as (z & Hz & ?). eauto using conn_app_evo.
  - destruct Hf as [_ _ _ _ (t & Ht & Hr & Hq)]. exists t. split; [done|].
    intros d. destruct (decide (d = c)) as [->|]; auto.
Qed.

Lemma fin_suffix c B w w' pre suf :
  wfin c B w w' -> map fst (conn_head w) = pre ++ c :: suf -> c ∉ pre ->
  exists pre', map fst (conn_head w') = pre' ++ suf.
Proof.
  intros Hf Hids Hni. destruct (wf_ids _ _ _ _ Hf) as [Hi|Hi]; rewrite Hi.
  - exists (pre ++ [c]). by rewrite Hids, <- app_assoc.
  - exists pre. by apply remove_conn_split.
Qed.

Lemma wp_tcp_periodic_check (EO : env_ok E) (P : polite E) w :
  world_ok w ->
  wp tcp_periodic_check (fun _ w' => world_ok w' /\ evolved w w') w.
Proof.
  intros Hw. unfold tcp_periodic_check. apply wp_bind.
  eapply wp_conseq; [apply (wp_each_conn _ (fun _ w1 => evolved w w1))|].
  - intros lh suf w1 pre x Hev Hw1 Hids Hni Hx. eapply wp_conseq; [by apply wp_tcp_conn_check|].
    intros [] w2 Hp. split_and!.
    + eapply evolved_trans; [done|]. by eapply check_post_evolved.
    + apply Hp.
    + eapply fin_suffix; [apply Hp|done|done].
  - done.
  - apply evolved_refl.
  - intros num w1 (Hev & Hw1 & _). wp_steps; (split; [by destruct Hw1|by destruct Hev]).
Qed.

(** ** Streams *)

(** The segment carries bytes of the peer's stream, which starts at the
    sequence number [base], and is within 2^30 bytes of what has been
    delivered. *)
Definition from_stream (base : Z) (stream : Z -> Z) (n : Z) (pkt : list Z) (s : segment) : Prop :=
  exists o, sg_seq s = u32 (base + o) /\ - 2 ^ 30 < o - n < 2 ^ 30 /\
    forall i, 0 <= i < sg_size s -> znth pkt (sg_data s + i) = Some (stream (o + i)).

(** What has been delivered is the beginning of the stream, and the
    receiver expects the next byte. *)
Record in_order (c base : Z) (stream : Z -> Z) w : Prop := {
  io_bytes : forall i, 0 <= i < zlen (rcvd c (trace w)) -> znth (rcvd c (trace w)) i = Some (stream i);
  io_pos : forall x, conn_of c w = Some x -> rx_pos x = u32 (base + zlen (rcvd c (trace w)));
  io_old : c < next_conn w
}.

Lemma u32_add_l a b : u32 (u32 a + b) = u32 (a + b).
Proof. unfold u32. by rewrite Z.add_mod_idemp_l. Qed.

Lemma in_order_evolved c base stream w w' :
  in_order c base stream w -> evolved w w' -> in_order c base stream w'.
Proof.
  intros [Hb Hp Ho] [Hn Hc (t & Ht & Hr)].
  assert (Hrc : rcvd c (trace w') = rcvd c (trace w)) by (by rewrite Ht, rcvd_app, Hr, app_nil_r).
  split; rewrite ?Hrc; [done| |lia].
  intros x' Hx'. destruct (Hc c x' Hx') as (x & Hx & _ & _ & ->). auto.
Qed.

(** Bytes delivered from one segment continue the stream. *)
Lemma delivers_in_order base stream n pkt s p' B :
  from_stream base stream n pkt s -> 0 <= sg_size s < 2 ^ 30 -> 0 <= sg_data s ->
  delivers pkt (sg_seq s) (sg_data s) (sg_size s) (u32 (base + n)) p' B ->
  p' = u32 (base + (n + zlen B)) /\ forall i, 0 <= i < zlen B -> znth B i = Some (stream (n + i)).
Proof.
  intros (o & Hsq & Hrange & Hbytes) Hsz Hd [[-> ->]|(k & Hk & Hp & -> & ->)].
  { change (zlen (@nil Z)) with 0. split; [f_equal; lia|lia]. }
  assert (Hok : o + k = n).
  { rewrite Hsq, u32_add_l in Hp.
    assert (u32 (o + k - n) = 0) as H0.
    { unfold u32 in *. replace (o + k - n) with ((base + o + k) - (base + n)) by lia.
      rewrite Zminus_mod, Hp, Z.sub_diag. done. }
    unfold u32 in H0. apply Z.mod_divide in H0 as [q Hq]; lia. }
  set (m := sg_size s - k).
  assert (Hslice : slice pkt (sg_data s + k) m =
    Some (take (Z.to_nat m) (drop (Z.to_nat (sg_data s + k)) pkt))).
  { apply slice_some; [lia|lia|]. specialize (Hbytes (sg_size s - 1) ltac:(lia)).
    apply znth_bounds in Hbytes. lia. }
  pose proof (slice_zlen _ _ _ _ Hslice) as Hl. rewrite Hl. split.
  - rewrite u32_add_l. f_equal. lia.
  - intros i Hi. rewrite (znth_slice _ _ _ _ _ Hslice Hi).
    replace (sg_data s + k + i) with (sg_data s + (k + i)) by lia.
    rewrite Hbytes by lia. do 2 f_equal. lia.
Qed.

(** One packet keeps the order. *)
Lemma received_in_order c base stream pkt w w' p :
  world_ok w -> 0 < c -> in_order c base stream w -> received pkt w w' p ->
  (forall s, p = Some s -> target w s = c ->
     from_stream base stream (zlen (rcvd c (trace w))) pkt s /\ 0 <= sg_size s < 2 ^ 30 /\ 0 <= sg_data s) ->
  in_order c base stream w'.
Proof.
  intros Hw Hc0 Hio Hrx Hs. pose proof Hio as [Hb Hp Ho].
  destruct Hrx as [->|s ->|s x Hx (B & Hf & Hpost)|s d x [Hcok Hcn Hcc Hci Hcx Hco (t & Ht & Hr)] _ _ _ _ _].
  - done.
  - done.
  - destruct (Hf) as [Hw' Hids Hn Hoth (t & Ht & Hr & Hq)].
    destruct (decide (target w s = c)) as [Heq|Hne].
    + destruct (Hs s eq_refl Heq) as (Hfs & Hsz & Hd). rewrite Heq in *.
      set (n := zlen (rcvd c (trace w))) in *.
      assert (Hrc : rcvd c (trace w') = rcvd c (trace w) ++ B) by (by rewrite Ht, rcvd_app, Hr).
      destruct (conn_of c w') as [x'|] eqn:Ex'.
      * destruct Hpost as (_ & _ & Hdel). rewrite (Hp x Hx) in Hdel.
        destruct (delivers_in_order _ _ _ _ _ _ _ Hfs Hsz Hd Hdel) as [Hpos Hbb].
        split; rewrite ?Hrc, ?zlen_app; fold n; [| |lia].
        -- intros i Hi. destruct (Z_lt_le_dec i n).
           ++ rewrite znth_app_l by done. apply Hb. unfold n in *. lia.
           ++ rewrite znth_app_r by done. fold n. rewrite Hbb by lia. do 2 f_equal. lia.
        -- intros y Hy. assert (y = x') as -> by congruence. done.
      * subst B. rewrite app_nil_r in Hrc. split; rewrite ?Hrc; [done|congruence|lia].
    + assert (Hrc : rcvd c (trace w') = rcvd c (trace w)) by (by rewrite Ht, rcvd_app, Hq, app_nil_r).
      split; rewrite ?Hrc; [done| |lia]. intros y Hy.
      destruct (fin_find _ _ _ _ _ _ Hw Hf (not_eq_sym Hne) Hy) as (z & Hz & Happ).
      destruct (conn_app_evo _ _ Happ) as (_ & _ & ->). auto.
  - assert (Hrc : rcvd c (trace w') = rcvd c (trace w)) by (by rewrite Ht, rcvd_app, Hr, app_nil_r).
    split; rewrite ?Hrc; [done| |lia]. intros y Hy.
    assert (Hin : c ∈ map fst (conn_head w)).
    { apply find_in in Hy. rewrite Hci in Hy. apply elem_of_app in Hy as [?|Hy]; [done|].
      apply list_elem_of_singleton in Hy. lia. }
    apply in_find in Hin as [z Hz]. destruct (Hco c z Hz) as (y' & Hy' & Happ).
    assert (y' = y) as -> by congruence. destruct (conn_app_evo _ _ Happ) as (_ & _ & ->). auto.
Qed.

(** ** Runs *)

(** A packet arrives ([ok] says what is assumed of its segment), the timer
    work is done, or the application makes calls. *)
Inductive tcp_step (ok : tcp_world A -> list Z -> segment -> Prop) : tcp_world A -> tcp_world A -> Prop :=
| step_receive pkt len et p w w' :
    Forall is_byte pkt -> parse_segment pkt len = Some p -> length et = 6%nat /\ Forall is_byte et ->
    (forall s, p = Some s -> seg_ok w s /\ ok w pkt s) ->
    receive_tcp pkt len et w = Ret tt w' -> tcp_step ok w w'
| step_periodic w w' : tcp_periodic_check w = Ret tt w' -> tcp_step ok w w'
| step_app w w' : app_step w w' -> tcp_step ok w w'.

Lemma app_step_ok w w' : world_ok w -> app_step w w' -> world_ok w'.
Proof.
  intros [? ? ? ? Hc ?] [Hi Hb Hn Ho Ht]. split; rewrite ?Hi, ?Hn; try done; [|congruence].
  intros d y Hy. apply find_in in Hy as Hin. rewrite Hi in Hin. apply in_find in Hin as [x Hx].
  destruct (Ho d x Hx) as (y' & Hy' & Happ). assert (y' = y) as -> by congruence.
  eapply ca_ok; eauto.
Qed.

Lemma app_step_evolved w w' : app_step w w' -> evolved w w'.
Proof.
  intros [Hi Hb Hn Ho Ht]. split; [done| |exists []; by rewrite app_nil_r].
  intros d y Hy. apply find_in in Hy as Hin. rewrite Hi in Hin. apply in_find in Hin as [x Hx].
  destruct (Ho d x Hx) as (y' & Hy' & Happ). assert (y' = y) as -> by congruence.
  eauto using conn_app_evo.
Qed.

Section Runs.
Context (EO : env_ok E) (P : polite E).

(** What one step does. *)
Lemma tcp_step_cases ok w w' :
  world_ok w -> tcp_step ok w w' ->
  world_ok w' /\
  (evolved w w' \/
   exists pkt p, received pkt w w' p /\
     forall s, p = Some s -> seg_ok w s /\ ok w pkt s /\ 0 <= sg_data s).
Proof.
  intros Hw Hst. revert Hw.
  destruct Hst as [pkt len et p w1 w2 Hb Hp Het Hs Hrun|w1 w2 Hrun|w1 w2 Happ]; intros Hw.
  - pose proof (wp_receive_tcp EO P pkt len et p w1 Hw Hb Hp Het (fun s Hs' => proj1 (Hs s Hs'))) as H.
    eapply wp_elim in H as [Hw2 Hrx]; [|done]. split; [done|]. right. exists pkt, p. split; [done|].
    intros s ->. destruct (Hs s eq_refl). split_and!; [done|done|]. by destruct (parse_ranges _ _ _ Hb Hp).
  - pose proof (wp_tcp_periodic_check EO P w1 Hw) as H. eapply wp_elim in H as [Hw2 Hev]; [|done].
    split; [done|by left].
  - split; [by eapply app_step_ok|]. left. by apply app_step_evolved.
Qed.

Lemma tcp_step_in_order c base stream w w' :
  0 < c -> world_ok w -> in_order c base stream w ->
  tcp_step (fun w pkt s => target w s = c ->
              from_stream base stream (zlen (rcvd c (trace w))) pkt s) w w' ->
  world_ok w' /\ in_order c base stream w'.
Proof.
  intros Hc Hw Hio Hst. destruct (tcp_step_cases _ _ _ Hw Hst) as [Hw' [Hev|(pkt & p & Hrx & Hs)]].
  - split; [done|]. by eapply in_order_evolved.
  - split; [done|]. eapply received_in_order; [exact Hw|done|done|done|]. intros s Hp Ht.
    destruct (Hs s Hp) as (Hok & Hfs & Hd). split; [by apply Hfs|]. split; [|done].
    assert (Hnz : target w s <> 0) by lia.
    destruct (tcp_conn_find_some _ _ _ _ (wo_ids _ Hw) (wo_nodup _ Hw) Hnz) as (x & Hx & _).
    by destruct (so_conn _ _ Hok x Hx).
Qed.

(** The life of one connection: it keeps its peer and follows the diagram;
    its address is never used again. *)
Definition lived (c : Z) (x0 : tcp_conn) w : Prop :=
  c < next_conn w /\
  forall x, conn_of c w = Some x -> same_peer x0 x /\ rtc tcp_edge (status x0) (status x).

Lemma tcp_step_lived c x0 ok w w' :
  world_ok w -> lived c x0 w -> tcp_step ok w w' -> world_ok w' /\ lived c x0 w'.
Proof.
  intros Hw [Hn Hl] Hst. destruct (tcp_step_cases _ _ _ Hw Hst) as [Hw' Hcase]. split; [done|].
  destruct Hcase as [[Hn' Hc' _]|(pkt & p & Hrx & _)].
  { split; [lia|]. intros x' Hx'. destruct (Hc' c x' Hx') as (x & Hx & Hsp & He & _).
    destruct (Hl x Hx). split; [by eapply same_peer_trans|by etrans]. }
  destruct Hrx as [->|s ->|s x Hx (B & Hf & Hpost)|s d x [Hcok Hcn Hcc Hci Hcx Hco _] _ _ _ _ _];
    [done|done| |].
  - split; [rewrite (wf_next _ _ _ _ Hf); lia|]. intros y Hy.
    destruct (decide (target w s = c)) as [Heq|Hne].
    + rewrite Heq in *. rewrite Hy in Hpost. destruct Hpost as (Hsp & He & _).
      destruct (Hl x Hx). split; [by eapply same_peer_trans|by etrans].
    + destruct (fin_find _ _ _ _ _ _ Hw Hf (not_eq_sym Hne) Hy) as (z & Hz & Happ).
      destruct (conn_app_evo _ _ Happ) as (Hsp & He & _). destruct (Hl z Hz).
      split; [by eapply same_peer_trans|by etrans].
  - split; [lia|]. intros y Hy.
    assert (Hin : c ∈ map fst (conn_head w)).
    { apply find_in in Hy. rewrite Hci in Hy. apply elem_of_app in Hy as [?|Hy]; [done|].
      apply list_elem_of_singleton in Hy. lia. }
    apply in_find in Hin as [z Hz]. destruct (Hco c z Hz) as (y' & Hy' & Happ).
    assert (y' = y) as -> by congruence. destruct (conn_app_evo _ _ Happ) as (Hsp & He & _).
    destruct (Hl z Hz). split; [by eapply same_peer_trans|by etrans].
Qed.

Lemma tcp_run_lived c x0 ok w w' :
  world_ok w -> lived c x0 w -> rtc (tcp_step ok) w w' -> world_ok w' /\ lived c x0 w'.
Proof.
  intros Hw Hl Hr. induction Hr as [|w1 w2 w3 Hst _ IH]; [done|].
  destruct (tcp_step_lived _ _ _ _ _ Hw Hl Hst). auto.
Qed.

Lemma tcp_run_in_order c base stream w w' :
  0 < c -> world_ok w -> in_order c base stream w ->
  rtc (tcp_step (fun w pkt s => target w s = c ->
                   from_stream base stream (zlen (rcvd c (trace w))) pkt s)) w w' ->
  world_ok w' /\ in_order c base stream w'.
Proof.
  intros Hc Hw Hio Hr. induction Hr as [|w1 w2 w3 Hst _ IH]; [done|].
  destruct (tcp_step_in_order _ _ _ _ _ Hc Hw Hio Hst). auto.
Qed.

End Runs.
End System.
