(* ===== verification/TcpApi.v ===== *)
(** * Calls of the application, listening ports and timers *)

From stdpp Require Import base numbers list relations.
From Stdlib Require Import ZArith Lia.
From S2P Require Import Prelude NetWire Tcp TcpInv TcpSend TcpRecv TcpOpen TcpTimer TcpStream.

Section Api.
Context {A : Type} {E : tcp_env A}.
Implicit Types w : tcp_world A.

(** ** Calls on a connection *)

(** A change of [c] that an application may make. *)
Lemma app_set c f x w :
  conn_of c w = Some x -> conn_app x (f x) ->
  wp (set_conn c f) (fun _ w' => app_step w w' /\ conn_of c w' = Some (f x)) w.
Proof.
  intros Hx Happ. eapply wp_set_conn_t; [done|]. intros w' [Hi Hb Hn Ho _] Ht Hx'. split; [|done].
  split; try done. intros d y Hy. destruct (decide (d = c)) as [->|Hne]; [|eauto].
  assert (y = x) as -> by congruence. eauto.
Qed.

Lemma app_step_refl w : app_step w w.
Proof. split; try done. eauto using conn_app_refl. Qed.

(** There is an unacknowledged chunk or the connection is being closed. *)
Definition tx_busy (x : tcp_conn) : Prop :=
  close_flag x <> 0 \/
  (tx x <> None /\ u32 (off_acked x) < txlen x).

(** The connection with a new chunk. *)
Definition with_chunk (data : list Z) (size : Z) (x : tcp_conn) : tcp_conn :=
  x <| tx := Some data |> <| txlen := size |> <| local_seq_last := local_seq x |>
    <| local_seq_acked := local_seq x |>.

Lemma with_chunk_app data size x :
  status x <> SYN_RCVD -> Forall is_byte data -> 0 < size < 2 ^ 30 -> size <= zlen data ->
  conn_app x (with_chunk data size x).
Proof.
  intros Hs Hb Hsz Hl. split; try done. intros []. unfold with_chunk. split; conn_simpl; try done.
  - by intros b [= <-].
  - intros _. right. unfold tx_active, off_sent, off_acked. conn_simpl.
    rewrite Z.sub_diag. split; [by exists data|]. change (i32 0) with 0. lia.
Qed.

Lemma wp_tcp_send_data c x data size w :
  world_ok w -> conn_of c w = Some x -> 0 < c -> status x <> SYN_RCVD ->
  Forall is_byte data -> 0 < size < 2 ^ 30 -> size <= zlen data ->
  wp (tcp_send_data c (Some data) size) (fun r w' => app_step w w' /\
    ((r = 1 /\ tx_busy x /\ w' = w) \/
     (r = 0 /\ ~ tx_busy x /\ conn_of c w' = Some (with_chunk data size x)))) w.
Proof.
  intros Hw Hx Hc Hs Hb Hsz Hl. pose proof (wo_conns _ Hw _ _ Hx) as Hok. unfold tcp_send_data.
  destruct (Z.eqb_spec c 0); [lia|]. destruct (Z.eqb_spec size 0); [lia|]. cbn [orb].
  apply wp_bind. eapply wp_get_conn; [done|].
  rewrite tcp_seq_sub_i32 by apply Hok. fold (off_acked x).
  destruct (Z.eqb_spec (close_flag x) 0) as [Hcf|Hcf]; cbn [negb].
  2:{ apply wp_ret. split; [apply app_step_refl|]. left. split_and!; [done|by left|done]. }
  match goal with |- context [if ?b then _ else _] => destruct b eqn:Eb end.
  - apply wp_ret. split; [apply app_step_refl|]. left. split_and!; [done| |done]. right.
    apply andb_prop in Eb as [E1 E2%Z.ltb_lt]. split; [|done]. by destruct (tx x).
  - apply wp_bind. eapply wp_conseq; [apply (app_set _ _ x); [done|by apply with_chunk_app]|].
    intros [] w' [Happ Hx']. apply wp_ret. split; [done|]. right. split_and!; [done| |done].
    intros [?|[Htx Hlt]]; [done|]. destruct (tx x); [|done]. cbn [andb] in Eb. apply Z.ltb_ge in Eb. lia.
Qed.

Lemma wp_tcp_close_conn c x w :
  conn_of c w = Some x -> 0 < c ->
  wp (tcp_close_conn c 0) (fun r w' => r = 0 /\ app_step w w' /\
    conn_of c w' = Some (x <| close_flag := 1 |>)) w.
Proof.
  intros Hx Hc. unfold tcp_close_conn. destruct (Z.eqb_spec c 0); [lia|]. cbn [negb Z.eqb].
  apply wp_bind. eapply wp_conseq; [apply (app_set _ _ x); [done|]|].
  - split; try done. intros []. split; conn_simpl; done.
  - intros [] w' [? ?]. by apply wp_ret.
Qed.

Lemma wp_tcp_conn_set_pdata c x p w :
  conn_of c w = Some x -> 0 < c ->
  wp (tcp_conn_set_pdata c p) (fun r w' => r = pdata x /\ app_step w w' /\
    conn_of c w' = Some (x <| pdata := p |>)) w.
Proof.
  intros Hx Hc. unfold tcp_conn_set_pdata. destruct (Z.eqb_spec c 0); [lia|].
  apply wp_bind. eapply wp_get_conn; [done|].
  apply wp_bind. eapply wp_conseq; [apply (app_set _ _ x); [done|]|].
  - split; try done. intros []. split; conn_simpl; done.
  - intros [] w' [? ?]. by apply wp_ret.
Qed.

(** ** Delivery in full *)

Lemma u32_cancel p a b : 0 <= a < 2 ^ 32 -> 0 <= b < 2 ^ 32 -> u32 (p + a) = u32 (p + b) -> a = b.
Proof.
  intros Ha Hb H. unfold u32 in H.
  assert (((p + a) - (p + b)) mod 2 ^ 32 = 0) as H0 by (by rewrite Zminus_mod, H, Z.sub_diag).
  apply Z.mod_divide in H0 as [q Hq]; lia.
Qed.

(** A segment for an established connection that is not a reset: every byte
    of it the receiver has not seen and can take is delivered at once, unless
    it acknowledges what was sent before the current chunk. *)
Lemma wp_receive_fresh (EO : env_ok E) (P : polite E) pkt len et s x w :
  world_ok w -> Forall is_byte pkt -> parse_segment pkt len = Some (Some s) ->
  conn_of (target w s) w = Some x -> 0 < target w s -> status x = ESTABLISHED ->
  Z.land (sg_flags s) TCP_RST = 0 -> Z.land (sg_flags s) TCP_ACK <> 0 ->
  i32 (sg_ack s - local_seq x) <= 0 -> 0 <= sg_size s < 2 ^ 30 ->
  let n := if stale_ack x (sg_ack s) then 0 else fresh (sg_seq s) (sg_size s) (peer_seq x) in
  wp (receive_tcp pkt len et) (fun _ w' => world_ok w' /\ exists x' t,
    conn_of (target w s) w' = Some x' /\ peer_seq x' = u32 (peer_seq x + n) /\
    trace w' = trace w ++ t /\
    rcvd (target w s) t = take (Z.to_nat n) (drop (Z.to_nat (sg_data s + (sg_size s - n))) pkt)) w.
Proof.
  intros Hw Hb Hp Hx Hc Hs Hrst Hack Hle Hsz n.
  destruct (parse_ranges _ _ _ Hb Hp) as [_ _ _ [Hsq _] Hak _ _ _].
  unfold receive_tcp. apply wp_bind. eapply wp_lift; [done|]. cbv beta iota.
  do 2 wp_step. fold (target w s). destruct (Z.eqb_spec (target w s) 0); [lia|].
  unfold recv_conn. apply wp_bind. eapply wp_get_conn; [done|].
  rewrite Hrst. cbn [negb Z.eqb]. rewrite (proj2 (Z.eqb_neq _ _) Hack). cbn [andb].
  unfold recv_state. apply wp_bind. eapply wp_get_conn; [done|]. rewrite Hs.
  eapply wp_recv_established; try done.
  intros w' x' B Hw' Hst Hx' _ Hd Hpos _. split; [done|].
  destruct (ws_trace _ _ _ _ Hst) as (t & Ht & Hr & _). exists x', t.
  split_and!; [done|done|done|]. rewrite Hr.
  assert (Hn : 0 <= n <= sg_size s) by (unfold n, fresh; destruct (stale_ack _ _), (Z.leb_spec (i32 (sg_seq s - peer_seq x)) 0); lia).
  fold n in Hpos. destruct Hd as [[-> Hsame]|(k & Hk & _ & Hpk & ->)].
  - assert (n = 0) as ->; [|done]. apply (u32_cancel (peer_seq x)); [lia|lia|].
    rewrite <- Hpos, Hsame, Z.add_0_r. symmetry. apply u32_small. by apply (wo_conns _ Hw _ _ Hx).
  - assert (n = sg_size s - k) as ->; [|do 3 f_equal; lia].
    apply (u32_cancel (peer_seq x)); [lia|lia|]. congruence.
Qed.

(** ** Closing everything *)

Lemma wp_tcp_close_rst (EO : env_ok E) c x w :
  world_ok w -> conn_of c w = Some x -> 0 < c ->
  wp (tcp_close_conn c 1) (fun r w' => r = 0 /\ wfin c [] w w' /\ conn_of c w' = None) w.
Proof.
  intros Hw Hx Hc. unfold tcp_close_conn. destruct (Z.eqb_spec c 0); [lia|]. cbn [negb Z.eqb].
  apply wp_bind. eapply wp_get_conn; [done|]. apply wp_bind. unfold tcp_send_packet.
  eapply (wp_send_opt EO c x _ _ _ [] no_payload []); try done.
  intros w1 r Hst Hh _. assert (Hx1 : conn_of c w1 = Some x) by (by rewrite Hh).
  apply wp_bind. eapply (wp_conn_del c [] w); [|done|done|].
  - eapply wstep_ok; [done..|]. by eapply wo_conns.
  - intros w2 Hf Hn. by apply wp_ret.
Qed.

Lemma map_fst_nil (l : list (Z * tcp_conn)) : map fst l = [] -> l = [].
Proof. by destruct l. Qed.

Lemma wp_tcp_reset_all (EO : env_ok E) w :
  world_ok w ->
  wp tcp_reset_all_conn (fun _ w' => world_ok w' /\ conn_head w' = [] /\ tcp_stop w' = 1) w.
Proof.
  intros Hw. unfold tcp_reset_all_conn. apply wp_bind.
  eapply wp_conseq; [apply (wp_each_conn _ (fun suf w1 => map fst (conn_head w1) = suf))|].
  - intros lh suf w1 pre x Hids Hw1 _ _ Hx.
    assert (Hpos : 0 < lh).
    { pose proof (wo_ids _ Hw1) as Hp. rewrite Hids in Hp. by inversion Hp. }
    apply wp_bind. eapply wp_conseq; [by eapply wp_tcp_close_rst|].
    intros r w2 (_ & Hf & Hn). apply wp_ret.
    assert (Hids2 : map fst (conn_head w2) = suf).
    { destruct (wf_ids _ _ _ _ Hf) as [Hi|Hi].
      - exfalso. rewrite Hids in Hi. assert (lh ∈ map fst (conn_head w2)) as Hin
          by (rewrite Hi; apply list_elem_of_here). apply in_find in Hin as [y Hy]. congruence.
      - rewrite Hi. apply (remove_conn_split _ _ []); [done|apply not_elem_of_nil]. }
    split_and!; [done|apply Hf|]. exists []. done.
  - done.
  - done.
  - intros num w1 (Hnil & Hw1 & _). apply map_fst_nil in Hnil. wp_steps. split; [by destruct Hw1|done].
Qed.

(** With no connection left, the next periodic check ends the loop. *)
Lemma periodic_ends w :
  conn_head w = [] -> tcp_stop w <> 0 ->
  tcp_periodic_check w = Ret tt (w <| net_state := NETLOOP_SUCCESS |>).
Proof.
  intros Hc Hs. unfold tcp_periodic_check, each_conn, bind, gets. rewrite Hc. cbn.
  by rewrite (proj2 (Z.eqb_neq _ _) Hs).
Qed.

(** ** Listening ports *)

Definition listen_ok w : Prop :=
  NoDup (map port (listen_head w)) /\ Forall (fun p => p <> 0) (map port (listen_head w)).

Lemma tcp_listen_find_some p l li : tcp_listen_find p l = Some li -> port li = p /\ p ∈ map port l.
Proof.
  induction l as [|x l IH]; [done|]. simpl. destruct (Z.eqb_spec (port x) p) as [<-|].
  - intros [= <-]. split; [done|apply list_elem_of_here].
  - intros H. destruct (IH H). split; [done|by apply list_elem_of_further].
Qed.

Lemma tcp_listen_find_none p l : tcp_listen_find p l = None -> p ∉ map port l.
Proof.
  induction l as [|x l IH]; [intros _; apply not_elem_of_nil|]. simpl.
  destruct (Z.eqb_spec (port x) p); [done|]. intros H. apply not_elem_of_cons. split; [done|auto].
Qed.

Lemma tcp_listen_find_app p cb0 l :
  tcp_listen_find p l = None -> tcp_listen_find p (l ++ [mkListener p cb0]) = Some (mkListener p cb0).
Proof.
  induction l as [|x l IH]; simpl; [by rewrite Z.eqb_refl|]. by destruct (_ =? _).
Qed.

Lemma listen_del_ports p l : forall q, q ∈ map port (listen_del p l) -> q ∈ map port l.
Proof.
  induction l as [|x l IH]; [done|]. intros q. simpl. destruct (_ =? _); simpl; rewrite !elem_of_cons.
  - by right.
  - intros [->|Hq]; [by left|right; auto].
Qed.

Lemma listen_del_nodup p l : NoDup (map port l) -> NoDup (map port (listen_del p l)).
Proof.
  induction l as [|x l IH]; [done|]. simpl. rewrite NoDup_cons. intros [Hx Hl].
  destruct (_ =? _); [done|]. simpl. apply NoDup_cons. split; [|auto].
  intros H%listen_del_ports. done.
Qed.

Lemma listen_del_gone p l : NoDup (map port l) -> tcp_listen_find p (listen_del p l) = None.
Proof.
  induction l as [|x l IH]; [done|]. simpl. rewrite NoDup_cons. intros [Hx Hl].
  destruct (Z.eqb_spec (port x) p) as [<-|Hne].
  - destruct (tcp_listen_find (port x) l) eqn:Ef; [|done]. by apply tcp_listen_find_some in Ef as [_ ?].
  - simpl. rewrite (proj2 (Z.eqb_neq _ _) Hne). auto.
Qed.

Lemma listen_del_other p q l : p <> q -> tcp_listen_find q (listen_del p l) = tcp_listen_find q l.
Proof.
  intros Hne. induction l as [|x l IH]; [done|]. simpl. destruct (Z.eqb_spec (port x) p) as [->|]; simpl.
  - by rewrite (proj2 (Z.eqb_neq _ _) Hne).
  - by rewrite IH.
Qed.

Lemma wp_tcp_listen p cb0 w :
  listen_ok w ->
  wp (tcp_listen p cb0) (fun r w' => listen_ok w' /\
    (p = 0 \/ cb0 = 0 -> r = - EINVAL /\ w' = w) /\
    (r = 0 -> tcp_listen_find p (listen_head w) = None /\
       listen_head w' = listen_head w ++ [mkListener p cb0] /\
       tcp_listen_find p (listen_head w') = Some (mkListener p cb0)) /\
    (p <> 0 -> cb0 <> 0 -> tcp_listen_find p (listen_head w) <> None -> r = - EADDRINUSE /\ w' = w)) w.
Proof.
  intros [Hnd Hnz]. unfold tcp_listen.
  destruct (Z.eqb_spec p 0) as [->|Hp]; cbn [orb].
  { apply wp_ret. split_and!; try done. }
  destruct (Z.eqb_spec cb0 0) as [->|Hc]; cbn [orb].
  { apply wp_ret. split_and!; try done. }
  do 2 wp_step. destruct (tcp_listen_find p (listen_head w)) as [li|] eqn:Ef.
  { apply wp_ret. split_and!; try done. by intros [?|?]. }
  do 4 wp_step. destruct (malloc_ok (allocs w)).
  - wp_steps. cbn. rewrite tcp_listen_find_app by done. split_and!; try done.
    + unfold listen_ok. cbn. rewrite map_app. split.
      * apply NoDup_app. split_and!; [done| |apply NoDup_singleton].
        intros q Hq ->%list_elem_of_singleton. by apply tcp_listen_find_none in Ef.
      * apply Forall_app. split; [done|]. by constructor.
    + by intros [?|?].
  - wp_steps. split_and!; try done. by intros [?|?].
Qed.

Lemma wp_tcp_listen_stop p w :
  listen_ok w ->
  wp (tcp_listen_stop p) (fun r w' => listen_ok w' /\ tcp_listen_find p (listen_head w') = None /\
    (forall q, q <> p -> tcp_listen_find q (listen_head w') = tcp_listen_find q (listen_head w)) /\
    (r = 0 <-> tcp_listen_find p (listen_head w) <> None)) w.
Proof.
  intros [Hnd Hnz]. unfold tcp_listen_stop. do 2 wp_step.
  destruct (tcp_listen_find p (listen_head w)) as [li|] eqn:Ef.
  - wp_steps. cbn. split_and!; try done.
    + split; [by apply listen_del_nodup|].
      apply Forall_forall. intros q Hq%listen_del_ports. by eapply Forall_forall in Hnz.
    + by apply listen_del_gone.
    + intros q Hq. apply listen_del_other. congruence.
  - wp_steps. split_and!; done.
Qed.

(** ** Round-trip estimates *)

Definition rtt_bounded (m : Z) (x : tcp_conn) : Prop := 0 <= srtt x <= m /\ 0 <= rttvar x <= m.

Lemma smooth_bound k s r m : 0 <= k -> 0 <= s <= m -> 0 <= r <= m ->
  0 <= s - Z.shiftr s k + Z.shiftr r k <= m.
Proof.
  intros Hk Hs Hr. rewrite !Z.shiftr_div_pow2 by done.
  assert (0 < 2 ^ k) by (by apply Z.pow_pos_nonneg).
  pose proof (Z.div_le_mono r m (2 ^ k) ltac:(lia) ltac:(lia)).
  pose proof (Z.div_pos r (2 ^ k) ltac:(lia) ltac:(lia)).
  pose proof (Z.div_le_upper_bound s (2 ^ k) s ltac:(lia) ltac:(nia)).
  assert (m / 2 ^ k - s / 2 ^ k <= m - s); [|lia].
  pose proof (Z.div_mod m (2 ^ k) ltac:(lia)). pose proof (Z.div_mod s (2 ^ k) ltac:(lia)).
  pose proof (Z.mod_pos_bound m (2 ^ k) ltac:(lia)). pose proof (Z.mod_pos_bound s (2 ^ k) ltac:(lia)).
  nia.
Qed.

Lemma wp_rtt_calc_bounded c x m w :
  conn_of c w = Some x -> rtt_bounded m x -> m < 2 ^ 28 -> u32 (clock (reads w) - ts_rtt x) <= m ->
  wp (rtt_calc c) (fun _ w' => exists x', conn_of c w' = Some x' /\ rtt_bounded m x' /\
    rto x' = srtt x' + Z.max TCP_RTT_G (TCP_RTT_K * rttvar x') /\
    TCP_RTT_G <= rto x' <= 5 * m + TCP_RTT_G) w.
Proof.
  intros Hx [Hs Hv] Hm Hrtt. unfold rtt_calc. apply wp_bind. eapply wp_get_conn; [done|].
  unfold get_timer. wp_steps. cbn [update member_reads clock].
  set (rtt := u32 (clock (reads w) - ts_rtt x)) in *. pose proof (u32_range (clock (reads w) - ts_rtt x)) as Hr.
  fold rtt in Hr. unfold TCP_RTT_ALPHA, TCP_RTT_BETA, TCP_RTT_G, TCP_RTT_K.
  set (sub := if srtt x <? rtt then rtt - srtt x else srtt x - rtt).
  assert (Hsub : 0 <= sub <= m) by (unfold sub; destruct (Z.ltb_spec (srtt x) rtt); lia).
  pose proof (smooth_bound 3 (rttvar x) sub m ltac:(lia) Hv Hsub) as Hv'.
  pose proof (smooth_bound 2 (srtt x) rtt m ltac:(lia) Hs ltac:(lia)) as Hs'.
  rewrite (u32_small (rttvar x - _ + _)) by lia. rewrite (u32_small (srtt x - _ + _)) by lia.
  rewrite (u32_small (4 * _)) by lia. rewrite u32_small by lia.
  eapply wp_set_conn; [done|]. intros w' _ Hx'. eexists. split; [done|].
  unfold rtt_bounded. conn_simpl. split_and!; lia.
Qed.

End Api.
