(* ===== verification/TcpHistory.v ===== *)
(** * The application behind the TCP stack

    The stack changes the application's state through callbacks only: over any
    run, the state of the application is the result of the callbacks in the
    trace, in order.  And a peer that is silent: work on other connections
    leaves the timer of its connection alone, which runs out. *)

From stdpp Require Import base numbers list option relations.
From Stdlib Require Import ZArith Lia.
From S2P Require Import Prelude NetWire Tcp TcpInv TcpRecv TcpOpen TcpTimer TcpStream.

(** The callbacks among the events. *)
Definition callbacks (t : list tcp_event) : list (Z * tcb_cb_data) :=
  omap (fun e => match e with EvCall h d => Some (h, d) | EvSend _ => None end) t.

Lemma callbacks_app t1 t2 : callbacks (t1 ++ t2) = callbacks t1 ++ callbacks t2.
Proof. apply omap_app. Qed.

Section History.
Context {A : Type} {E : tcp_env A}.
Implicit Types w : tcp_world A.

(** ** Without callbacks *)

Definition quiet w w' : Prop :=
  app w' = app w /\ exists t, trace w' = trace w ++ t /\ callbacks t = [].

#[global] Instance quiet_preorder : PreOrder quiet.
Proof.
  split.
  - intros w. split; [done|]. exists []. by rewrite app_nil_r.
  - intros w1 w2 w3 [Ha1 (t1 & Ht1 & Hc1)] [Ha2 (t2 & Ht2 & Hc2)]. split; [congruence|].
    exists (t1 ++ t2). by rewrite Ht2, Ht1, app_assoc, callbacks_app, Hc1, Hc2.
Qed.

Lemma quiet_same w w' : app w' = app w -> trace w' = trace w -> quiet w w'.
Proof. intros Ha Ht. split; [done|]. exists []. by rewrite app_nil_r. Qed.
Hint Extern 1 (quiet _ _) => apply quiet_same; reflexivity : history.

Lemma get_timer_quiet b : within quiet (get_timer b).
Proof. unfold get_timer. within. Qed.
Lemma get_conn_quiet c : within quiet (get_conn c).
Proof. unfold get_conn. within. Qed.
Hint Resolve get_timer_quiet get_conn_quiet : history.

Lemma set_conn_quiet c f : within quiet (set_conn c f).
Proof. unfold set_conn. within. Qed.
Lemma tcp_conn_del_quiet c : within quiet (tcp_conn_del c).
Proof. unfold tcp_conn_del. within. Qed.
Lemma malloc_conn_quiet : within quiet malloc_conn.
Proof. unfold malloc_conn. within. Qed.
Lemma emit_send_quiet frame : within quiet (emit (EvSend frame)).
Proof.
  intros w [] w' [= <-]. split; [done|]. by exists [EvSend frame].
Qed.
Hint Resolve emit_send_quiet : history.
Lemma eth_send_quiet frame : within quiet (eth_send frame).
Proof. unfold eth_send. within. Qed.
Hint Resolve set_conn_quiet tcp_conn_del_quiet malloc_conn_quiet eth_send_quiet : history.

Lemma arp_request_quiet : within quiet arp_request.
Proof. unfold arp_request, arp_raw_request. within. Qed.
Hint Resolve arp_request_quiet : history.

Lemma tcp_send_packet_opt_quiet c flags sq ak opt payload len :
  within quiet (tcp_send_packet_opt c flags sq ak opt payload len).
Proof. unfold tcp_send_packet_opt. within. Qed.
Hint Resolve tcp_send_packet_opt_quiet : history.

Lemma tcp_send_packet_quiet c flags sq ak payload len :
  within quiet (tcp_send_packet c flags sq ak payload len).
Proof. apply tcp_send_packet_opt_quiet. Qed.
Lemma tcp_send_packet_ctrl_quiet c flags : within quiet (tcp_send_packet_ctrl c flags).
Proof. unfold tcp_send_packet_ctrl. within. Qed.
Hint Resolve tcp_send_packet_quiet tcp_send_packet_ctrl_quiet : history.

Lemma rtt_calc_quiet c : within quiet (rtt_calc c).
Proof. unfold rtt_calc. within. Qed.
Lemma option_body_quiet c seg e o : within quiet (option_body c seg e o).
Proof. unfold option_body. within. Qed.
Lemma recv_trim_quiet c h sq data n : within quiet (recv_trim c h sq data n).
Proof. unfold recv_trim. within. Qed.
Lemma tcp_rexmit_init_quiet c : within quiet (tcp_rexmit_init c).
Proof. unfold tcp_rexmit_init. within. Qed.
Lemma tcp_rexmit_reset_quiet c : within quiet (tcp_rexmit_reset c).
Proof. unfold tcp_rexmit_reset. within. Qed.
Hint Resolve rtt_calc_quiet option_body_quiet recv_trim_quiet tcp_rexmit_init_quiet tcp_rexmit_reset_quiet : history.

Lemma tcp_conn_create_quiet ip h seg n et cb0 : within quiet (tcp_conn_create ip h seg n et cb0).
Proof. unfold tcp_conn_create. within. Qed.
Lemma check_resend_quiet c n v : within quiet (check_resend c n v).
Proof. unfold check_resend. within. Qed.
Lemma check_flush_quiet c v : within quiet (check_flush c v).
Proof. unfold check_flush. within. Qed.

(** The calls of the application. *)
Lemma tcp_listen_stop_quiet p : within quiet (tcp_listen_stop p).
Proof. unfold tcp_listen_stop. within. Qed.
Lemma tcp_conn_set_pdata_quiet c p : within quiet (tcp_conn_set_pdata c p).
Proof. unfold tcp_conn_set_pdata. within. Qed.
Lemma tcp_send_data_quiet c d n : within quiet (tcp_send_data c d n).
Proof. unfold tcp_send_data. within. Qed.
Lemma tcp_close_conn_quiet c rst : within quiet (tcp_close_conn c rst).
Proof. unfold tcp_close_conn. within. Qed.
Hint Resolve tcp_conn_create_quiet check_resend_quiet check_flush_quiet tcp_close_conn_quiet : history.
Lemma tcp_close_all_conn_quiet : within quiet tcp_close_all_conn.
Proof. unfold tcp_close_all_conn, each_conn, each_conn_body. within. Qed.

(** ** With callbacks *)

(** What a callback does to the application's state; [None] if it does not
    return. *)
Context (sem : Z -> tcb_cb_data -> A -> option A).

Fixpoint replay (t : list (Z * tcb_cb_data)) (a : A) : option A :=
  match t with
  | [] => Some a
  | (h, d) :: t => sem h d a ≫= replay t
  end.

Lemma replay_app t1 t2 a : replay (t1 ++ t2) a = replay t1 a ≫= replay t2.
Proof.
  revert a. induction t1 as [|[h d] t1 IH]; intros a; [done|]. cbn. destruct (sem h d a); [apply IH|done].
Qed.

(** A callback changes the application's state as [sem] says; apart from that
    it makes calls of the stack. *)
Class recorded : Prop :=
  run_cb_recorded h cbd w cbd' w' : run_cb h cbd w = Ret cbd' w' ->
    sem h cbd (app w) = Some (app w') /\ exists t, trace w' = trace w ++ t /\ callbacks t = [].
Context `{!recorded}.

Definition history w w' : Prop :=
  exists t, trace w' = trace w ++ t /\ replay (callbacks t) (app w) = Some (app w').

#[global] Instance history_preorder : PreOrder history.
Proof.
  split.
  - intros w. exists []. by rewrite app_nil_r.
  - intros w1 w2 w3 (t1 & Ht1 & Hc1) (t2 & Ht2 & Hc2). exists (t1 ++ t2).
    by rewrite Ht2, Ht1, app_assoc, callbacks_app, replay_app, Hc1.
Qed.

Lemma quiet_step w w' : quiet w w' -> history w w'.
Proof. intros [Ha (t & Ht & Hc)]. exists t. by rewrite Hc, <- Ha. Qed.

Lemma quiet_history {X} (m : M (tcp_world A) X) : within quiet m -> within history m.
Proof. apply within_sub, quiet_step. Qed.
Hint Resolve quiet_step quiet_history : history.

Lemma call_cb_history c cbd : within history (call_cb c cbd).
Proof.
  unfold call_cb. apply within_bind; [exact _|eauto with history|]. intros x w cbd' w'.
  unfold bind, emit, gets, modify. cbn. intros Hr. apply run_cb_recorded in Hr as [Ha (t & Ht & Hc)].
  cbn in Ha, Ht. exists (EvCall (cb x) cbd :: t). split; [by rewrite Ht, <- app_assoc|]. cbn.
  change (omap _ t) with (callbacks t). by rewrite Hc, Ha.
Qed.
Hint Resolve call_cb_history : history.

Lemma recv_ack_history c ack cbd : within history (recv_ack c ack cbd).
Proof. unfold recv_ack. within. Qed.
Lemma recv_data_history c flags pkt data n cbd : within history (recv_data c flags pkt data n cbd).
Proof. unfold recv_data. within. Qed.
Lemma tcp_rexmit_check_history c cbd : within history (tcp_rexmit_check c cbd).
Proof. unfold tcp_rexmit_check. within. Qed.
Lemma check_close_history c cbd : within history (check_close c cbd).
Proof. unfold check_close. within. Qed.
Hint Resolve recv_ack_history recv_data_history tcp_rexmit_check_history check_close_history : history.

Lemma recv_established_history c h flags sq ak pkt data n cbd :
  within history (recv_established c h flags sq ak pkt data n cbd).
Proof. unfold recv_established. within. Qed.
Hint Resolve recv_established_history : history.
Lemma recv_state_history c h flags sq ak pkt data n cbd :
  within history (recv_state c h flags sq ak pkt data n cbd).
Proof. unfold recv_state, recv_syn_rcvd. within. Qed.
Hint Resolve recv_state_history : history.
Lemma receive_tcp_history pkt len et : within history (receive_tcp pkt len et).
Proof. unfold receive_tcp, recv_conn. within. Qed.

Lemma check_send_history c cbd n m v : within history (check_send c cbd n m v).
Proof. unfold check_send. within. Qed.
Lemma check_rexmit_history c cbd n v : within history (check_rexmit c cbd n v).
Proof. unfold check_rexmit. within. Qed.
Lemma check_probe_history c cbd n m v : within history (check_probe c cbd n m v).
Proof. unfold check_probe. within. Qed.
Hint Resolve check_send_history check_rexmit_history check_probe_history : history.
Lemma check_established_history c cbd : within history (check_established c cbd).
Proof. unfold check_established. within. Qed.
Lemma check_again_history c cbd m : within history m -> within history (check_again c cbd m).
Proof. intros Hm. unfold check_again. within. Qed.
Hint Resolve check_established_history check_again_history : history.
Lemma tcp_conn_check_history c : within history (tcp_conn_check c).
Proof. unfold tcp_conn_check. within. Qed.
Hint Resolve tcp_conn_check_history : history.
Lemma tcp_periodic_check_history : within history tcp_periodic_check.
Proof. unfold tcp_periodic_check, each_conn, each_conn_body. within. Qed.

End History.

(** ** Timers of other connections *)

Lemma update_conn_elem c d y l x : (c, x) ∈ update_conn d y l -> (c, x) ∈ l \/ d = c /\ x = y.
Proof.
  induction l as [|[i z] l IH]; [by intros ?%elem_of_nil|]. cbn [update_conn]. destruct (Z.eqb_spec i d) as [->|].
  - intros [[= -> ->]|Hin]%elem_of_cons; [by right|left; by apply elem_of_cons; right].
  - intros [Heq|Hin]%elem_of_cons; [left; rewrite Heq; apply list_elem_of_here|].
    destruct (IH Hin) as [|]; [left; by apply elem_of_cons; right|by right].
Qed.

Lemma remove_conn_elem c d l x : (c, x) ∈ remove_conn d l -> (c, x) ∈ l.
Proof.
  induction l as [|[i z] l IH]; [done|]. cbn [remove_conn]. destruct (i =? d); intros Hin; [by apply elem_of_cons; right|].
  apply elem_of_cons in Hin as [Heq|Hin]; [rewrite Heq; apply list_elem_of_here|]. apply elem_of_cons. right. by apply IH.
Qed.

Lemma find_elem c l x : find_conn c l = Some x -> (c, x) ∈ l.
Proof.
  induction l as [|[i y] l IH]; [done|]. cbn [find_conn]. destruct (Z.eqb_spec i c) as [->|].
  - intros [= ->]. apply list_elem_of_here.
  - intros Hx. apply elem_of_cons. right. by apply IH.
Qed.

(** The state and the start of the timer, which decide when a connection is
    given up. *)
Definition same_wait (x x' : tcp_conn) : Prop := status x' = status x /\ ts_rexmit x' = ts_rexmit x.

Section Spares.
Context {A : Type} {E : tcp_env A} (c : Z).
Implicit Types w : tcp_world A.

(** The timer of [c] is not started again, nor is its state changed. *)
Record spares w w' : Prop := {
  sp_reads : (reads w <= reads w')%nat;
  sp_next : next_conn w <= next_conn w';
  sp_conns : c < next_conn w -> forall x', (c, x') ∈ conn_head w' -> exists x, (c, x) ∈ conn_head w /\ same_wait x x'
}.

#[global] Instance spares_preorder : PreOrder spares.
Proof.
  split.
  - intros w. split; [done|done|]. intros _ x Hx. by exists x.
  - intros w1 w2 w3 [Hr1 Hn1 Hc1] [Hr2 Hn2 Hc2]. split; [lia|lia|]. intros Hlt z Hz.
    destruct (Hc2 ltac:(lia) z Hz) as (y & Hy & H1 & H2). destruct (Hc1 Hlt y Hy) as (x & Hx & H3 & H4).
    exists x. split; [done|]. split; congruence.
Qed.

Lemma spares_same w w' :
  conn_head w' = conn_head w -> next_conn w' = next_conn w -> (reads w <= reads w')%nat -> spares w w'.
Proof. intros Hc Hn Hr. split; [done|lia|]. intros _ x. rewrite Hc. intros Hx. by exists x. Qed.
Hint Extern 1 (spares _ _) => apply spares_same; [reflexivity|reflexivity|cbn; lia] : history.

Lemma set_conn_spares d f : d <> c \/ (forall x, same_wait x (f x)) -> within spares (set_conn d f).
Proof.
  intros Hd w [] w'. unfold set_conn, get_conn, bind, gets, modify, lift. destruct (find_conn d (conn_head w)) as [x|] eqn:Ex; [|done].
  intros [= <-]. split; [done|done|]. intros _ x' [Hin|[-> ->]]%update_conn_elem; [by exists x'|].
  exists x. split; [by apply find_elem|]. destruct Hd as [?|Hf]; [done|apply Hf].
Qed.

Lemma set_conn_ne d f : d <> c -> within spares (set_conn d f).
Proof. intros Hd. apply set_conn_spares. by left. Qed.
Lemma set_conn_wait d f : (forall x, same_wait x (f x)) -> within spares (set_conn d f).
Proof. intros Hf. apply set_conn_spares. by right. Qed.
Hint Extern 1 (within spares (set_conn _ _)) =>
  first [apply set_conn_ne; assumption | apply set_conn_wait; intros ?; split; reflexivity] : history.

Lemma get_timer_spares b : within spares (get_timer b).
Proof. intros w t w' [= _ <-]. apply spares_same; [reflexivity|reflexivity|cbn; lia]. Qed.
Hint Resolve get_timer_spares : history.

Lemma tcp_conn_del_spares d : within spares (tcp_conn_del d).
Proof.
  intros w [] w'. unfold tcp_conn_del, get_conn, bind, gets, modify, lift. destruct (find_conn d (conn_head w)); [|done].
  intros [= <-]. split; [done|done|]. intros _ x' Hin%remove_conn_elem. by exists x'.
Qed.
Hint Resolve tcp_conn_del_spares : history.

Lemma tcp_send_packet_opt_spares d flags sq ak opt payload len :
  within spares (tcp_send_packet_opt d flags sq ak opt payload len).
Proof. within_unfold. Qed.
Hint Resolve tcp_send_packet_opt_spares : history.

(** Of the application: its callbacks do not touch them either. *)
Context (cb_spares : forall h cbd, within spares (run_cb h cbd)).
Hint Resolve cb_spares : history.

Lemma tcp_rexmit_check_spares d cbd : within spares (tcp_rexmit_check d cbd).
Proof. within_unfold. Qed.
Hint Resolve tcp_rexmit_check_spares : history.

Lemma check_again_spares d cbd m : within spares m -> within spares (check_again d cbd m).
Proof. intros Hm. unfold check_again. within_unfold. Qed.

Lemma tcp_conn_check_spares d : d <> c -> within spares (tcp_conn_check d).
Proof. intros Hd. within_unfold. Qed.

Lemma recv_conn_spares d h flags sq ak pkt data n : d <> c -> within spares (recv_conn d h flags sq ak pkt data n).
Proof. intros Hd. within_unfold. Qed.

End Spares.

#[export] Hint Extern 1 (spares _ _ _) => apply spares_same; [reflexivity|reflexivity|cbn; lia] : history.
#[export] Hint Extern 1 (within (spares _) (set_conn _ _)) =>
  first [apply set_conn_ne; assumption | apply set_conn_wait; intros ?; split; reflexivity] : history.
#[export] Hint Resolve get_timer_spares tcp_conn_del_spares tcp_send_packet_opt_spares : history.

Section Silent.
Context {A : Type} {E : tcp_env A}.
Implicit Types w : tcp_world A.

(** A new connection gets an address that was not used before. *)
Lemma malloc_conn_spares c w i w' : malloc_conn w = Ret i w' -> spares c w w' /\ (i = 0 \/ i = next_conn w).
Proof.
  unfold malloc_conn, bind, gets, modify, ret. destruct (malloc_ok _); intros [= <- <-]; (split; [|auto]); [|auto with history].
  split; [done|cbn; lia|]. intros _ x Hx. by exists x.
Qed.

Lemma conn_append_spares c i w : i <> c -> spares c w (w <| conn_head := conn_head w ++ [(i, zero_conn)] |>).
Proof.
  intros Hi. split; [done|done|]. intros _ x [Hx|Hx]%elem_of_app; [by exists x|].
  apply list_elem_of_singleton in Hx as [= -> _]. done.
Qed.

Lemma tcp_conn_create_spares c ip h seg n et cb0 : within (spares c) (tcp_conn_create ip h seg n et cb0).
Proof.
  intros w r w'. unfold tcp_conn_create. unfold bind at 1. destruct (malloc_conn w) as [i w1| |] eqn:Em; [|done|done].
  destruct (malloc_conn_spares c w i w1 Em) as [Hs Hi]. destruct (Z.eqb_spec i 0) as [->|H0].
  { intros Hr. transitivity w1; [done|]. revert Hr.
    match goal with |- ?m w1 = _ -> _ => assert (Hm : within (spares c) m) by within_unfold; apply Hm end. }
  destruct Hi as [|Hi]; [done|]. unfold bind at 1 2, gets at 1, modify at 1. intros Hr.
  assert (Hrest : forall c', i <> c' -> spares c' w1 w').
  { intros c' Hc'. etransitivity; [by apply (conn_append_spares c' i)|]. revert Hr.
    match goal with |- ?m ?w2 = _ -> _ => assert (Hm : within (spares c') m) by within_unfold; apply Hm end. }
  destruct (decide (i = c)) as [->|Hne]; [|etransitivity; [exact Hs|by apply Hrest]].
  destruct (Hrest (c + 1)) as [Hr' Hn' _]; [lia|]. destruct Hs as [Hr1 Hn1 _]. split; [lia|lia|]. lia.
Qed.

(** ** A silent peer *)

(** The callbacks of the application change neither the state nor the timer of a
    connection (none of the calls of the stack does). *)
Class spares_waits : Prop := run_cb_spares c h cbd : within (spares c) (run_cb h cbd).

Section Patience.
Context (EO : env_ok E) (P : polite E) (K : spares_waits).
Hint Resolve run_cb_spares tcp_conn_create_spares : history.

Lemma tcp_rexmit_check_reads d cbd w r w' : tcp_rexmit_check d cbd w = Ret r w' -> (S (reads w) <= reads w')%nat.
Proof.
  unfold tcp_rexmit_check. unfold bind at 1, get_conn at 1, gets at 1. unfold bind at 1, lift at 1.
  destruct (find_conn d (conn_head w)) as [x|]; [|done]. unfold bind at 1, get_timer at 1.
  unfold bind at 1 2, gets at 1, modify at 1, ret at 1. intros Hr. change (S (reads w)) with (reads (w <| reads := S (reads w) |>)).
  apply (sp_reads 0). revert Hr.
  match goal with |- ?m _ = _ -> _ => assert (Hm : within (spares 0) m) by within_unfold; apply Hm end.
Qed.

(** The check of a connection that waits for its peer. *)
Lemma conn_check_waits c x w w' :
  conn_of c w = Some x -> awaits_peer (status x) -> tcp_conn_check c w = Ret tt w' ->
  spares c w w' /\ (S (S (reads w)) <= reads w')%nat.
Proof.
  intros Hx Hs. set (w1 := w <| reads := S (reads w) |>). assert (H1 : spares c w w1) by (apply spares_same; [done|done|cbn; lia]).
  assert (Hag : forall cbd m, within (spares c) m -> check_again c cbd m w1 = Ret tt w' ->
    spares c w w' /\ (S (S (reads w)) <= reads w')%nat).
  { intros cbd m Hm Hr. split; [etransitivity; [exact H1|]; eapply (check_again_spares c (run_cb_spares c)); [exact Hm|exact Hr]|].
    unfold check_again, bind at 1 in Hr. destruct (tcp_rexmit_check c cbd w1) as [r w2| |] eqn:Er; [|done|done].
    apply tcp_rexmit_check_reads in Er. change (reads w1) with (S (reads w)) in Er.
    assert (spares c w2 w') as [? _ _]; [|lia]. revert Hr.
    match goal with |- ?m w2 = _ -> _ => assert (Hm' : within (spares c) m) by within_unfold; apply Hm' end. }
  intros Hr. unfold tcp_conn_check, get_timer, get_conn, bind at 1 2 3 4 5, gets at 1 2, modify at 1, ret at 1, lift at 1 in Hr.
  fold w1 in Hr. change (conn_head w1) with (conn_head w) in Hr. rewrite Hx in Hr.
  destruct Hs as [Hs|[Hs|Hs]]; rewrite Hs in Hr; eapply Hag; [| exact Hr| |exact Hr| |exact Hr]; within_unfold.
Qed.

(** The connection is in the state [st] with its timer started at [t], or it is
    gone for good. *)
Definition waiting (c : Z) (st : tcp_state) (t : Z) w : Prop :=
  c < next_conn w /\ forall x, (c, x) ∈ conn_head w -> status x = st /\ ts_rexmit x = t.

Lemma spares_waiting c st t w w' : waiting c st t w -> spares c w w' -> waiting c st t w'.
Proof.
  intros [Hc Hx] [_ Hn Hs]. split; [lia|]. intros x' Hx'. destruct (Hs Hc x' Hx') as (x & Hin & H1 & H2).
  destruct (Hx x Hin). split; congruence.
Qed.

Lemma waiting_conn c x w : world_ok w -> conn_of c w = Some x -> waiting c (status x) (ts_rexmit x) w.
Proof.
  intros Hw Hx. split.
  - pose proof (wo_next _ Hw) as Hn. eapply Forall_forall in Hn; [|by eapply find_in]. done.
  - intros y Hy. pose proof (wo_nodup _ Hw) as Hnd. apply find_elem in Hx.
    assert (y = x) as ->; [|done]. revert Hnd Hx Hy. generalize (conn_head w).
    induction l as [|[i z] l IH]; [by intros _ ?%elem_of_nil|]. cbn [map fst]. intros [Hi Hnd]%NoDup_cons.
    assert (Hout : forall v, (i, v) ∉ l) by (intros v Hv; apply Hi; by apply (list_elem_of_fmap_2 fst) in Hv).
    rewrite !elem_of_cons. intros [H1|H1] [H2|H2]; simplify_eq; [done|by destruct (Hout y)|by destruct (Hout x)|by apply IH].
Qed.

(** A check of any connection, as [c] waits. *)
Lemma wp_check_waiting c st t d x w :
  world_ok w -> awaits_peer st -> waiting c st t w -> conn_of d w = Some x ->
  wp (tcp_conn_check d) (fun _ w' => check_post d x w w' /\ spares c w w' /\ (d = c -> (S (S (reads w)) <= reads w')%nat)) w.
Proof.
  intros Hw Ha Hwt Hx. destruct (wp_run _ _ _ (wp_tcp_conn_check EO P d x w Hw Hx)) as ([] & w' & Hr & Hp).
  eapply wp_of_run; [exact Hr|]. split; [done|]. destruct (decide (d = c)) as [->|Hne].
  - destruct (proj2 Hwt x (find_elem _ _ _ Hx)) as [Hst _]. rewrite <- Hst in Ha.
    destruct (conn_check_waits c x w w' Hx Ha Hr). by split.
  - split; [|done]. by eapply (tcp_conn_check_spares c (run_cb_spares c)).
Qed.

(** A periodic check that comes late enough ends the wait; any other leaves the
    timer alone. *)
Lemma wp_periodic_waiting c st t w :
  world_ok w -> awaits_peer st -> waiting c st t w ->
  wp tcp_periodic_check (fun _ w' => world_ok w' /\ waiting c st t w' /\
    ((forall n, (reads w <= n < reads w')%nat -> TCP_REXMIT_MAX_CONN_DELAY < u32 (clock n - t)) -> conn_of c w' = None)) w.
Proof.
  intros Hw Ha Hwt. unfold tcp_periodic_check. apply wp_bind.
  set (late w' := forall n, (reads w <= n < reads w')%nat -> TCP_REXMIT_MAX_CONN_DELAY < u32 (clock n - t)).
  eapply wp_conseq; [apply (wp_each_conn _ (fun suf w1 => (reads w <= reads w1)%nat /\ waiting c st t w1 /\
    (c ∉ suf -> late w1 -> conn_of c w1 = None)))|].
  - intros d suf w1 pre x (Hr1 & Hwt1 & Hg1) Hw1 Hids Hni Hx.
    assert (Hsil : d = c -> late w1 /\ TCP_REXMIT_MAX_CONN_DELAY < u32 (clock (S (reads w1)) - t) ->
      wp (tcp_conn_check d) (fun _ w2 => conn_of c w2 = None) w1).
    { intros -> [_ Hlt]. destruct (proj2 Hwt1 x (find_elem _ _ _ Hx)) as [Hst Hts]. rewrite <- Hts in Hlt. rewrite <- Hst in Ha.
      by eapply (wp_conn_check_silent EO P). }
    destruct (wp_run _ _ _ (wp_check_waiting c st t d x w1 Hw1 Ha Hwt1 Hx)) as ([] & w2 & Hrun & Hp & Hs & Hrd).
    eapply wp_of_run; [exact Hrun|]. pose proof (sp_reads _ _ _ Hs) as Hr2. split_and!; [lia|by eapply spares_waiting| | |].
    + intros Hc Hl. destruct (decide (d = c)) as [Hd|Hne].
      * assert (Hl1 : late w1) by (intros n Hn; apply Hl; lia). specialize (Hrd Hd).
        assert (Hlt : TCP_REXMIT_MAX_CONN_DELAY < u32 (clock (S (reads w1)) - t)) by (apply Hl; lia).
        exact (wp_elim _ _ _ _ _ (Hsil Hd (conj Hl1 Hlt)) Hrun).
      * assert (Hn : conn_of c w1 = None).
        { apply Hg1; [by intros [->|]%elem_of_cons|]. intros n Hn. apply Hl. lia. }
        destruct (conn_of c w2) as [y|] eqn:Ey; [|done]. apply find_elem in Ey.
        destruct (sp_conns _ _ _ Hs (proj1 Hwt1) y Ey) as (z & Hz & _). apply (list_elem_of_fmap_2 fst) in Hz.
        apply in_find in Hz as [v Hv]. cbn in Hv. congruence.
    + apply Hp.
    + eapply fin_suffix; [apply Hp|done|done].
  - done.
  - split_and!; [done|done|]. intros Hc _. destruct (conn_of c w) as [x|] eqn:Ex; [|done]. by apply find_in in Ex.
  - intros num w1 ((_ & Hwt1 & Hg) & Hw1 & _).
    assert (Hg' : late w1 -> conn_of c w1 = None) by (apply Hg; apply not_elem_of_nil).
    wp_steps; (split_and!; [by destruct Hw1|done|done]).
Qed.

(** A step in which nothing arrives for [c]: a packet for another connection or
    for none, the timer work, or calls of the application. *)
Inductive silent_step (c : Z) : tcp_world A -> tcp_world A -> Prop :=
| silent_receive pkt len et p w w' :
    Forall is_byte pkt -> parse_segment pkt len = Some p -> length et = 6%nat /\ Forall is_byte et ->
    (forall s, p = Some s -> seg_ok w s /\ target w s <> c) ->
    receive_tcp pkt len et w = Ret tt w' -> silent_step c w w'
| silent_periodic w w' : tcp_periodic_check w = Ret tt w' -> silent_step c w w'
| silent_app w w' : app_step w w' -> spares c w w' -> silent_step c w w'.

Lemma receive_tcp_spares c pkt len et p w w' :
  parse_segment pkt len = Some p -> (forall s, p = Some s -> target w s <> c) ->
  receive_tcp pkt len et w = Ret tt w' -> spares c w w'.
Proof.
  intros Hp Ht. unfold receive_tcp, bind at 1, lift at 1. rewrite Hp. destruct p as [s|]; [|by intros [= <-]].
  unfold bind at 1, gets at 1. specialize (Ht s eq_refl). unfold target in Ht.
  destruct (_ =? 0); [|by apply (recv_conn_spares c (run_cb_spares c))]. intros Hr. revert Hr.
  match goal with |- ?m w = _ -> _ => assert (Hm : within (spares c) m) by within_unfold; apply Hm end.
Qed.

Lemma silent_step_waiting c st t w w' :
  awaits_peer st -> world_ok w -> waiting c st t w -> silent_step c w w' -> world_ok w' /\ waiting c st t w'.
Proof.
  intros Ha Hw Hwt Hst. revert Hw Hwt. destruct Hst as [pkt len et p w w' Hb Hp Het Hs Hr|w w' Hr|w w' Happ Hsp]; intros Hw Hwt.
  - pose proof (wp_receive_tcp EO P pkt len et p w Hw Hb Hp Het (fun s Hs' => proj1 (Hs s Hs'))) as H.
    eapply wp_elim in H as [Hw' _]; [|exact Hr]. split; [done|]. eapply spares_waiting; [exact Hwt|].
    eapply receive_tcp_spares; [exact Hp| |exact Hr]. intros s Hs'. by apply Hs.
  - pose proof (wp_periodic_waiting c st t w Hw Ha Hwt) as H. by eapply wp_elim in H as (Hw' & Hwt' & _); [|exact Hr].
  - split; [by eapply app_step_ok|by eapply spares_waiting].
Qed.

Lemma silent_run_waiting c st t w w' :
  awaits_peer st -> world_ok w -> waiting c st t w -> rtc (silent_step c) w w' -> world_ok w' /\ waiting c st t w'.
Proof.
  intros Ha Hw Hwt Hr. induction Hr as [|w1 w2 w3 Hst _ IH]; [done|].
  destruct (silent_step_waiting c st t w1 w2 Ha Hw Hwt Hst). by apply IH.
Qed.

End Patience.
End Silent.

Arguments spares_waits {A} E.
