(* ===== verification/Net.v ===== *)
(** * Frames and the network loop: definitions

    net/net.c, net/arp.c and [eth_rx]: a received frame goes to ARP or TCP, and
    the loop that alternates between the receiver and the timers.  The
    configuration is that of the board with [CONFIG_WEBUI_FAILSAFE]: without
    [CONFIG_CMD_PING], [CONFIG_IP_DEFRAG], [CONFIG_CMD_CDP], [CONFIG_CMD_RARP],
    [CONFIG_CMD_TFTPPUT] and [CONFIG_UDP_CHECKSUM]. *)

From stdpp Require Import base numbers list.
From Stdlib Require Import ZArith Lia.
From S2P Require Import Prelude NetWire Tcp.

(** ** Headers *)

Definition ETHER_HDR_SIZE : Z := 14.
Definition E802_HDR_SIZE : Z := 22.
Definition VLAN_ETHER_HDR_SIZE : Z := 18.
Definition IP_UDP_HDR_SIZE : Z := 28.
Definition ARP_HDR_SIZE : Z := 28.
Definition ARP_ETHER : Z := 1.
Definition ARP_HLEN : Z := 6.
Definition ARP_PLEN : Z := 4.
Definition ARPOP_REQUEST : Z := 1.
Definition ARPOP_REPLY : Z := 2.
Definition IPPROTO_ICMP : Z := 1.
Definition IPPROTO_UDP : Z := 17.
Definition IP_OFFS : Z := 8191.
Definition IP_FLAGS_MFRAG : Z := 8192.
Definition ARP_TIMEOUT : Z := 5000.
Definition ARP_TIMEOUT_COUNT : Z := 5.

Record arp_hdr := mkArp {
  ar_hrd : Z; ar_pro : Z; ar_hln : Z; ar_pln : Z; ar_op : Z;
  ar_sha : list Z; ar_spa : Z; ar_tha : list Z; ar_tpa : Z
}.

Definition arp_load (l : list Z) : option arp_hdr :=
  match load 2 0 l, load 2 2 l, load 1 4 l, load 1 5 l, load 2 6 l,
        slice l 8 6, load 4 14 l, slice l 18 6, load 4 24 l with
  | Some hrd, Some pro, Some hln, Some pln, Some op, Some sha, Some spa, Some tha, Some tpa =>
      Some (mkArp hrd pro hln pln op sha spa tha tpa)
  | _, _, _, _, _, _, _, _, _ => None
  end.

(** The tag of a VLAN variable. *)
Definition vlan_id (v : Z) : Z := let id := ntohs v in if id =? 65535 then VLAN_NONE else id.

(** The frame with new addresses, and the length of its header. *)
Definition net_update_ether (net_ethaddr et addr : list Z) (prot : Z) : option (list Z * Z) :=
  match splice et 0 addr with
  | None => None
  | Some et =>
      match splice et 6 net_ethaddr, load 2 12 et with
      | Some et, Some p =>
          let protlen := ntohs p in
          let '(off, size) := if protlen =? PROT_VLAN then (16, VLAN_ETHER_HDR_SIZE)
                              else if 1514 <? protlen then (12, ETHER_HDR_SIZE)
                              else (20, E802_HDR_SIZE) in
          match splice et off (le_bytes 2 (htons prot)) with
          | Some et => Some (et, size)
          | None => None
          end
      | _, _ => None
      end
  end.

Section Net.
Context {A : Type} {E : tcp_env A}.

(** The handler of UDP packets and ARP replies while the web server runs. *)
Definition dummy_handler : T (A := A) unit := ret tt.

(** ** ARP *)

(** The answer to a request, made in the received frame [et]; the ARP header
    is at [hdr]. *)
Definition arp_answer (et : list Z) (hdr : Z) (arp : arp_hdr) : T unit :=
  do src <- lift (slice et 6 6);
  do '(et, eth_hdr_size) <- lift (net_update_ether net_ethaddr et src PROT_ARP);
  do et <- lift (splice et (hdr + 6) (le_bytes 2 (htons ARPOP_REPLY)));
  do et <- lift (splice et (hdr + 18) (ar_sha arp));
  do et <- lift (splice et (hdr + 24) (le_bytes 4 (ar_spa arp)));
  do et <- lift (splice et (hdr + 8) net_ethaddr);
  do et <- lift (splice et (hdr + 14) (le_bytes 4 net_ip));
  do frame <- lift (slice et 0 (eth_hdr_size + ARP_HDR_SIZE));
  do pkt <- gets net_tx_packet;
  do pkt <- lift (splice pkt 0 frame);
  net_tx_packet ::= pkt;;
  do _ <- eth_send frame;
  ret tt.

(** The reply that is waited for: the connection gets the address, and the
    packet is sent. *)
Definition arp_resolved (arp : arp_hdr) : T unit :=
  do c <- gets arp_wait_packet_ethaddr;
  (if negb (c =? 0) then set_conn c (fun x => x <| ethaddr := ar_sha arp |>) else ret tt);;
  dummy_handler;;
  do pkt <- gets net_tx_packet;
  do pkt <- lift (splice pkt 0 (ar_sha arp));
  net_tx_packet ::= pkt;;
  do n <- gets arp_wait_tx_packet_size;
  do frame <- lift (slice pkt 0 n);
  do _ <- eth_send frame;
  net_arp_wait_packet_ip ::= 0;;
  arp_wait_tx_packet_size ::= 0;;
  arp_wait_packet_ethaddr ::= 0.

Definition arp_receive (et : list Z) (hdr len : Z) : T unit :=
  if len <? ARP_HDR_SIZE then ret tt
  else
    do arp <- lift (arp_load (drop (Z.to_nat hdr) et));
    if negb (ntohs (ar_hrd arp) =? ARP_ETHER) then ret tt
    else if negb (ntohs (ar_pro arp) =? PROT_IP) then ret tt
    else if negb (ar_hln arp =? ARP_HLEN) then ret tt
    else if negb (ar_pln arp =? ARP_PLEN) then ret tt
    else if net_ip =? 0 then ret tt
    else if negb (ar_tpa arp =? net_ip) then ret tt
    else if ntohs (ar_op arp) =? ARPOP_REQUEST then arp_answer et hdr arp
    else if ntohs (ar_op arp) =? ARPOP_REPLY then
      do w <- gets net_arp_wait_packet_ip;
      if w =? 0 then ret tt
      else
        do r <- gets net_arp_wait_reply_ip;
        if ar_spa arp =? r then arp_resolved arp else ret tt
    else ret tt.

(** Whether an answer is still waited for; gives up after some requests. *)
Definition arp_timeout_check : T Z :=
  do ip <- gets net_arp_wait_packet_ip;
  if ip =? 0 then ret 0
  else
    do t <- get_timer 0;
    do start <- gets arp_wait_timer_start;
    (if ARP_TIMEOUT <? u32 (t - start) then
       do n <- gets arp_wait_try;
       let n := i32 (n + 1) in
       arp_wait_try ::= n;;
       if ARP_TIMEOUT_COUNT <=? n then
         arp_wait_try ::= 0;;
         net_state ::= NETLOOP_FAIL
       else
         arp_wait_timer_start ::= t;;
         arp_request
     else ret tt);;
    ret 1.

(** ** Received frames *)

(** Not a fragment. *)
Definition net_defragment (h : ip_hdr) : bool :=
  Z.land (ntohs (ip_off h)) (Z.lor IP_OFFS IP_FLAGS_MFRAG) =? 0.

(** The case [PROT_IP]: [ip] is the memory from the IP header on. *)
Definition receive_ip (ip : list Z) (len : Z) (et_src : list Z) : T unit :=
  if u32 len <? IP_UDP_HDR_SIZE then ret tt
  else
    do h <- lift (ip_load ip);
    if len <? ntohs (ip_len h) then ret tt
    else
      let len := ntohs (ip_len h) in
      if negb (Z.land (ip_hl_v h) 0xf0 =? 0x40) then ret tt
      else if 0x05 <? Z.land (ip_hl_v h) 0x0f then ret tt
      else
        do ok <- lift (ip_checksum_ok ip IP_HDR_SIZE);
        if negb ok then ret tt
        else if negb (net_ip =? 0) && negb (ip_dst h =? net_ip) && negb (ip_dst h =? 0xFFFFFFFF) then ret tt
        else if negb (net_defragment h) then ret tt
        else if ip_p h =? IPPROTO_ICMP then ret tt (* at most a message *)
        else if ip_p h =? IPPROTO_TCP then receive_tcp ip len et_src
        else if negb (ip_p h =? IPPROTO_UDP) then ret tt
        else dummy_handler.

(** [in_packet] is the receive buffer, [len] the length of the frame. *)
Definition net_process_received_packet (net_native_vlan : Z) (in_packet : list Z) (len : Z) : T unit :=
  if u32 len <? ETHER_HDR_SIZE then ret tt
  else
    let myvlanid := vlan_id net_our_vlan in
    let mynvlanid := vlan_id net_native_vlan in
    do p <- lift (load 2 12 in_packet);
    let eth_proto := ntohs p in
    do r <-
      (if eth_proto <? 1514 then
         do p <- lift (load 2 20 in_packet);
         ret (Some (ntohs p, E802_HDR_SIZE, VLAN_NONE))
       else if negb (eth_proto =? PROT_VLAN) then ret (Some (eth_proto, ETHER_HDR_SIZE, VLAN_NONE))
       else if u32 len <? VLAN_ETHER_HDR_SIZE then ret None
       else if Z.land (ntohs net_our_vlan) VLAN_IDMASK =? VLAN_NONE then ret None
       else
         do cti <- lift (load 2 14 in_packet);
         do p <- lift (load 2 16 in_packet);
         ret (Some (ntohs p, VLAN_ETHER_HDR_SIZE, Z.land (ntohs cti) VLAN_IDMASK)));
    match r with
    | None => ret tt
    | Some (eth_proto, hdr, vlanid) =>
        let len := i32 (len - hdr) in
        let vlanid := if vlanid =? VLAN_NONE then Z.land mynvlanid VLAN_IDMASK else vlanid in
        if negb (Z.land myvlanid VLAN_IDMASK =? VLAN_NONE) && negb (vlanid =? Z.land myvlanid VLAN_IDMASK) then ret tt
        else if eth_proto =? PROT_ARP then arp_receive in_packet hdr len
        else if eth_proto =? PROT_IP then
          do src <- lift (slice in_packet 6 6);
          receive_ip (drop (Z.to_nat hdr) in_packet) len src
        else ret tt
    end.

(** ** The loop *)

Fixpoint process_all (net_native_vlan : Z) (l : list (list Z * Z)) : T unit :=
  match l with
  | [] => ret tt
  | (pkt, len) :: l => net_process_received_packet net_native_vlan pkt len;; process_all net_native_vlan l
  end.

(** [l] is what the driver has received. *)
Definition eth_rx (net_native_vlan : Z) (l : list (list Z * Z)) : T unit := process_all net_native_vlan (take 32 l).

(** One round of the loop in [net_loop], without a key pressed: no time-out
    handler is set for TCP, so that the time read while an address is waited
    for has no use. *)
Definition net_loop_round (net_native_vlan : Z) (l : list (list Z * Z)) : T unit :=
  do r <- arp_timeout_check;
  (if 0 <? r then do _time_start <- get_timer 0; ret tt else ret tt);;
  eth_rx net_native_vlan l;;
  tcp_periodic_check.

(** Rounds as long as the state is [NETLOOP_CONTINUE] and frames are given; what
    [net_loop] does in the other states (starting again, cleaning up) comes
    after the last round. *)
Fixpoint net_loop_rounds (net_native_vlan : Z) (ls : list (list (list Z * Z))) : T unit :=
  match ls with
  | [] => ret tt
  | l :: ls =>
      net_loop_round net_native_vlan l;;
      do st <- gets net_state;
      match st with NETLOOP_CONTINUE => net_loop_rounds net_native_vlan ls | _ => ret tt end
  end.

End Net.
