(* ===== verification/NetSpec.v ===== *)
(** * Frames and the network loop: proofs *)

From stdpp Require Import base numbers list option.
From Stdlib Require Import ZArith Lia.
From S2P Require Import Prelude NetWire Tcp TcpInv TcpSend TcpRecv TcpOpen TcpTimer TcpStream TcpApi TcpHistory Net.

(** ** History *)

Section NetHistory.
Context {A : Type} {E : tcp_env A}.

#[local] Hint Extern 1 (quiet _ _) => apply quiet_same; reflexivity : history.
#[local] Hint Resolve get_timer_quiet set_conn_quiet eth_send_quiet arp_request_quiet : history.

Lemma arp_answer_quiet et hdr arp : within quiet (arp_answer et hdr arp).
Proof. unfold arp_answer. within. Qed.
Lemma arp_resolved_quiet arp : within quiet (arp_resolved arp).
Proof. unfold arp_resolved, dummy_handler. within. Qed.
#[local] Hint Resolve arp_answer_quiet arp_resolved_quiet : history.
Lemma arp_receive_quiet et hdr len : within quiet (arp_receive et hdr len).
Proof. unfold arp_receive. within. Qed.
Lemma arp_timeout_check_quiet : within quiet arp_timeout_check.
Proof. unfold arp_timeout_check. within. Qed.

Context (sem : Z -> tcb_cb_data -> A -> option A) `{!recorded sem}.

#[local] Hint Resolve quiet_history arp_receive_quiet arp_timeout_check_quiet receive_tcp_history tcp_periodic_check_history : history.

Lemma net_process_history nv pkt len : within (history sem) (net_process_received_packet nv pkt len).
Proof. unfold net_process_received_packet, receive_ip, dummy_handler. within. Qed.
#[local] Hint Resolve net_process_history : history.

Lemma process_all_history nv l : within (history sem) (process_all nv l).
Proof. induction l as [|[pkt len] l IH]; cbn [process_all]; within. Qed.
#[local] Hint Resolve process_all_history : history.

Lemma net_loop_rounds_history nv ls : within (history sem) (net_loop_rounds nv ls).
Proof. induction ls as [|l ls IH]; cbn [net_loop_rounds]; unfold net_loop_round, eth_rx; within. Qed.

End NetHistory.

(** ** Accepted frames *)

Lemma slice_app_l {X} (l r : list X) off n : 0 <= off -> 0 <= n -> off + n <= zlen l -> slice (l ++ r) off n = slice l off n.
Proof.
  intros Ho Hn Hl. rewrite !slice_some by (rewrite ?zlen_app; pose proof (zlen_nonneg r); lia). f_equal.
  unfold zlen in Hl. rewrite drop_app_le, take_app_le by (rewrite ?length_drop; lia). done.
Qed.

(** What can be read stays readable behind more memory. *)
Lemma slice_more {X} (l r : list X) off n d : slice l off n = Some d -> slice (l ++ r) off n = Some d.
Proof. intros Hs. pose proof Hs as (Ho & Hn & Hl & _)%slice_inv. by rewrite slice_app_l. Qed.

Lemma load_more n off (l r : list Z) v : load n off l = Some v -> load n off (l ++ r) = Some v.
Proof. unfold load. destruct (slice l off _) eqn:Es; [|done]. by rewrite (slice_more _ _ _ _ _ Es). Qed.

Lemma ip_load_more l r h : ip_load l = Some h -> ip_load (l ++ r) = Some h.
Proof.
  unfold ip_load. repeat match goal with |- context [load ?n ?o l] =>
    let H := fresh in destruct (load n o l) eqn:H; [rewrite (load_more _ _ _ r _ H); clear H|done] end. done.
Qed.

Lemma tcp_load_more l r h : tcp_load l = Some h -> tcp_load (l ++ r) = Some h.
Proof.
  unfold tcp_load. repeat match goal with |- context [load ?n ?o l] =>
    let H := fresh in destruct (load n o l) eqn:H; [rewrite (load_more _ _ _ r _ H); clear H|done] end. done.
Qed.

Lemma parse_segment_more pkt r len s :
  parse_segment pkt len = Some (Some s) ->
  parse_segment (pkt ++ r) len = Some (Some (mkSegment (sg_ip s) (sg_hdr s) (sg_bytes s ++ r) (sg_hdrlen s) (sg_flags s)
    (sg_seq s) (sg_ack s) (sg_data s) (sg_size s))).
Proof.
  unfold parse_segment. destruct (ip_load pkt) as [ip|] eqn:Ei; [|done]. rewrite (ip_load_more _ r _ Ei). cbv zeta.
  set (n := Z.to_nat (Z.land (ip_hl_v ip) 15 * 4)).
  destruct (tcp_checksum_compute (drop n pkt) _ _ _) as [sum|] eqn:Es; [|done].
  destruct (negb (sum =? 0)) eqn:E0; [done|]. destruct (load 2 12 (drop n pkt)) as [fl|] eqn:Ef; [|done].
  assert (Hd : drop n (pkt ++ r) = drop n pkt ++ r).
  { apply drop_app_le. destruct (decide (n <= length pkt)%nat) as [|Hlt]; [done|]. rewrite drop_ge in Ef by lia. done. }
  rewrite Hd. unfold tcp_checksum_compute in *. destruct (slice (drop n pkt) 0 _) as [d|] eqn:Esl; [|done].
  rewrite (slice_more _ r _ _ _ Esl). apply (inj Some) in Es. rewrite Es, E0, (load_more _ _ _ r _ Ef).
  destruct (_ <? TCP_HDR_SIZE); [done|]. destruct (_ <? _); [done|].
  destruct (tcp_load (drop n pkt)) as [h|] eqn:Eh; [|done]. rewrite (tcp_load_more _ r _ Eh).
  destruct (negb (Z.land (ntohs fl) TCP_URG =? 0)); intros Hs; apply (inj Some), (inj Some) in Hs; by subst s.
Qed.

Lemma slice_mid {X} (a b c : list X) : slice (a ++ b ++ c) (zlen a) (zlen b) = Some b.
Proof.
  pose proof (zlen_nonneg a). pose proof (zlen_nonneg b). pose proof (zlen_nonneg c).
  rewrite slice_some by (rewrite ?zlen_app; lia). unfold zlen. by rewrite !Nat2Z.id, drop_app_length, take_app_length.
Qed.

Section Accept.
Context {A : Type} {E : tcp_env A}.

(** After the header: the VLAN check and the protocols. *)
Definition dispatch (nv : Z) (in_packet : list Z) (len eth_proto hdr vlanid : Z) : M (tcp_world A) unit :=
  let vlanid := if vlanid =? VLAN_NONE then Z.land (vlan_id nv) VLAN_IDMASK else vlanid in
  if negb (Z.land (vlan_id net_our_vlan) VLAN_IDMASK =? VLAN_NONE) && negb (vlanid =? Z.land (vlan_id net_our_vlan) VLAN_IDMASK) then ret tt
  else if eth_proto =? PROT_ARP then arp_receive in_packet hdr (i32 (len - hdr))
  else if eth_proto =? PROT_IP then
    do src <- lift (slice in_packet 6 6);
    receive_ip (drop (Z.to_nat hdr) in_packet) (i32 (len - hdr)) src
  else ret tt.

Lemma process_plain nv in_packet len p w :
  14 <= len < 2 ^ 31 -> load 2 12 in_packet = Some p -> 1514 <= ntohs p -> ntohs p <> PROT_VLAN ->
  net_process_received_packet nv in_packet len w = dispatch nv in_packet len (ntohs p) 14 VLAN_NONE w.
Proof.
  intros Hl Hp H1 H2. unfold net_process_received_packet. rewrite u32_small by lia.
  unfold ETHER_HDR_SIZE at 1. rewrite (proj2 (Z.ltb_ge len 14)) by lia. unfold bind at 1, lift at 1. rewrite Hp.
  rewrite (proj2 (Z.ltb_ge (ntohs p) 1514)), (proj2 (Z.eqb_neq _ _) H2) by lia. done.
Qed.

Lemma process_tagged nv in_packet len p cti q w :
  18 <= len < 2 ^ 31 -> load 2 12 in_packet = Some p -> ntohs p = PROT_VLAN ->
  Z.land (ntohs net_our_vlan) VLAN_IDMASK <> VLAN_NONE -> load 2 14 in_packet = Some cti -> load 2 16 in_packet = Some q ->
  net_process_received_packet nv in_packet len w =
    dispatch nv in_packet len (ntohs q) 18 (Z.land (ntohs cti) VLAN_IDMASK) w.
Proof.
  intros Hl Hp H1 H2 Hc Hq. unfold net_process_received_packet. rewrite u32_small by lia.
  unfold ETHER_HDR_SIZE at 1. rewrite (proj2 (Z.ltb_ge len 14)) by lia. unfold bind at 1, lift at 1. rewrite Hp, H1.
  change (PROT_VLAN <? 1514) with false. change (PROT_VLAN =? PROT_VLAN) with true. cbn [negb].
  unfold VLAN_ETHER_HDR_SIZE at 1. rewrite (proj2 (Z.ltb_ge len 18)), (proj2 (Z.eqb_neq _ _) H2) by lia.
  unfold bind at 1 2 3. unfold lift at 1 2. rewrite Hc, Hq. done.
Qed.

(** A frame with the header a sender of the same VLAN writes. *)
Lemma ether_accepted nv mac dest prot rest len (w : tcp_world A) :
  length mac = 6%nat -> length dest = 6%nat -> prot = PROT_IP \/ prot = PROT_ARP ->
  let eth := net_set_ether mac net_our_vlan dest prot in
  zlen eth <= len < 2 ^ 31 ->
  net_process_received_packet nv (eth ++ rest) len w =
    (if prot =? PROT_ARP then arp_receive (eth ++ rest) (zlen eth) (len - zlen eth) w
     else receive_ip rest (len - zlen eth) mac w).
Proof.
  intros Hm Hd Hp eth Hl. pose proof (zlen_nonneg eth) as H0.
  assert (Hsl : slice (eth ++ rest) 6 6 = Some mac).
  { assert (Z.of_nat (length mac) = 6 /\ Z.of_nat (length dest) = 6) as [Em Ed] by lia. fold (zlen mac) in Em. fold (zlen dest) in Ed.
    unfold eth, net_set_ether. destruct (_ =? VLAN_NONE); rewrite <- !app_assoc; rewrite <- Ed at 1; rewrite <- Em; apply slice_mid. }
  assert (Hgo : forall v, (v = VLAN_NONE /\ Z.land (vlan_id net_our_vlan) VLAN_IDMASK = VLAN_NONE) \/ v = Z.land (vlan_id net_our_vlan) VLAN_IDMASK ->
    dispatch nv (eth ++ rest) len prot (zlen eth) v w =
      (if prot =? PROT_ARP then arp_receive (eth ++ rest) (zlen eth) (len - zlen eth) w else receive_ip rest (len - zlen eth) mac w)).
  { intros v Hv. unfold dispatch. rewrite i32_small by lia.
    assert (Hc : negb (Z.land (vlan_id net_our_vlan) VLAN_IDMASK =? VLAN_NONE) &&
      negb ((if v =? VLAN_NONE then Z.land (vlan_id nv) VLAN_IDMASK else v) =? Z.land (vlan_id net_our_vlan) VLAN_IDMASK) = false).
    { destruct Hv as [[_ ->] | ->]; [done|]. destruct (Z.eqb_spec (Z.land (vlan_id net_our_vlan) VLAN_IDMASK) VLAN_NONE); [done|].
      by rewrite Z.eqb_refl. }
    rewrite Hc. destruct (Z.eqb_spec prot PROT_ARP) as [|Hne]; [done|]. destruct Hp as [-> | ?]; [|done]. change (PROT_IP =? PROT_IP) with true. cbv iota.
    unfold bind, lift. rewrite Hsl. unfold zlen. by rewrite Nat2Z.id, drop_app_length. }
  assert (Hp' : 0 <= htons prot < 256 ^ Z.of_nat 2) by apply htons_range.
  assert (Hn : ntohs (htons prot) = prot) by (rewrite ntohs_htons; by destruct Hp as [-> | ->]).
  assert (Hz : zlen (dest ++ mac) = 12) by (unfold zlen; rewrite length_app, Hm, Hd; done).
  unfold eth, net_set_ether in *. cbv zeta in *. fold (vlan_id net_our_vlan) in *.
  destruct (Z.eqb_spec (Z.land (vlan_id net_our_vlan) VLAN_IDMASK) VLAN_NONE) as [Ev|Ev].
  - assert (He : zlen (dest ++ mac ++ le_bytes 2 (htons prot)) = 14) by (rewrite app_assoc, zlen_app, zlen_le_bytes, Hz; done).
    rewrite He in *. rewrite (process_plain nv _ len (htons prot)).
    + rewrite Hn. apply Hgo. by left.
    + lia.
    + apply (load_at 2 (dest ++ mac) (htons prot) rest); [by rewrite <- !app_assoc|by rewrite Hz|done].
    + rewrite Hn. destruct Hp as [-> | ->]; done.
    + rewrite Hn. destruct Hp as [-> | ->]; done.
  - set (tag := htons (Z.lor (Z.shiftl 0 5) (Z.land (vlan_id net_our_vlan) VLAN_IDMASK))) in *.
    assert (Ht : Z.land (ntohs tag) VLAN_IDMASK = Z.land (vlan_id net_our_vlan) VLAN_IDMASK).
    { unfold tag. rewrite ntohs_htons. change (Z.shiftl 0 5) with 0. rewrite Z.lor_0_l. unfold VLAN_IDMASK. change 4095 with (Z.ones 12).
      rewrite !Z.land_ones by lia. unfold u16. pose proof (Z.mod_pos_bound (vlan_id net_our_vlan) (2 ^ 12) ltac:(lia)).
      rewrite (Z.mod_small _ (2 ^ 16)), Z.mod_small by lia. done. }
    assert (Hv : Z.land (ntohs net_our_vlan) VLAN_IDMASK <> VLAN_NONE).
    { unfold vlan_id in Ev. by destruct (Z.eqb_spec (ntohs net_our_vlan) 65535). }
    assert (He : zlen (dest ++ mac ++ le_bytes 2 (htons PROT_VLAN) ++ le_bytes 2 tag ++ le_bytes 2 (htons prot)) = 18)
      by (rewrite app_assoc, !zlen_app, !zlen_le_bytes, <- zlen_app, Hz; done).
    rewrite He in *. rewrite (process_tagged nv _ len (htons PROT_VLAN) tag (htons prot)).
    + rewrite Hn, Ht. apply Hgo. by right.
    + lia.
    + apply (load_at 2 (dest ++ mac) _ (le_bytes 2 tag ++ le_bytes 2 (htons prot) ++ rest)); [by rewrite <- !app_assoc|by rewrite Hz|done].
    + done.
    + done.
    + apply (load_at 2 (dest ++ mac ++ le_bytes 2 (htons PROT_VLAN)) _ (le_bytes 2 (htons prot) ++ rest));
        [by rewrite <- !app_assoc|by rewrite app_assoc, zlen_app, zlen_le_bytes, Hz|apply htons_range].
    + apply (load_at 2 (dest ++ mac ++ le_bytes 2 (htons PROT_VLAN) ++ le_bytes 2 tag) _ rest);
        [by rewrite <- !app_assoc|by rewrite app_assoc, !zlen_app, !zlen_le_bytes, <- zlen_app, Hz|done].
Qed.

Lemma ip_accepted h rest len et (w : tcp_world A) :
  ip_hdr_ok h -> ip_hl_v h = 69 -> ip_checksum_ok (ip_bytes h) IP_HDR_SIZE = Some true ->
  ip_dst h = net_ip -> ip_off h = htons IP_FLAGS_DFRAG -> ip_p h = IPPROTO_TCP ->
  28 <= len < 2 ^ 31 -> ntohs (ip_len h) <= len ->
  receive_ip (ip_bytes h ++ rest) len et w = receive_tcp (ip_bytes h ++ rest) (ntohs (ip_len h)) et w.
Proof.
  intros Hok Hv Hs Hd Ho Hp Hl Hn. unfold receive_ip. rewrite u32_small by lia. unfold IP_UDP_HDR_SIZE.
  rewrite (proj2 (Z.ltb_ge len 28)) by lia. unfold bind at 1, lift at 1. rewrite (ip_load_bytes _ _ Hok).
  rewrite (proj2 (Z.ltb_ge len _)) by lia. rewrite Hv. change (negb (Z.land 69 240 =? 64)) with false. change (5 <? Z.land 69 15) with false. cbv iota.
  assert (Hs' : ip_checksum_ok (ip_bytes h ++ rest) IP_HDR_SIZE = Some true).
  { unfold ip_checksum_ok, compute_ip_checksum in *. destruct (slice (ip_bytes h) 0 IP_HDR_SIZE) eqn:Es; [|done]. by rewrite (slice_more _ _ _ _ _ Es). }
  unfold bind at 1, lift at 1. rewrite Hs'. cbn [negb]. rewrite Hd, Z.eqb_refl, andb_false_r. cbn [andb].
  unfold net_defragment. rewrite Ho, Hp. done.
Qed.

(** What a sender of the same network sends arrives at the connection's peer. *)
Lemma carries_accepted {A1} (E1 : tcp_env A1) x flags sq ak opt body frame eth h t nv junk (w : tcp_world A) :
  carries (E := E1) x flags sq ak opt body frame eth h t ->
  length (net_ethaddr (tcp_env := E1)) = 6%nat -> length (ethaddr x) = 6%nat ->
  net_our_vlan (tcp_env := E1) = net_our_vlan (tcp_env := E) -> ip_remote x = net_ip (tcp_env := E) -> zlen opt + zlen body <= 1470 ->
  let pkt := drop (length eth) frame in
  net_process_received_packet (E := E) nv (frame ++ junk) (zlen frame) w =
    receive_tcp (E := E) (pkt ++ junk) (ntohs (ip_len h)) (net_ethaddr (tcp_env := E1)) w.
Proof.
  intros Hc Hm Hd Hvl Hip Hle pkt. pose proof (zlen_nonneg opt). pose proof (zlen_nonneg body).
  destruct Hc as [Hf Heth Hiok Hhl Hlen Hp [Hsrc Hdst] Hisum Htok _ _ _ _ _ Hoff].
  assert (Hpkt : pkt = ip_bytes h ++ tcp_bytes t ++ opt ++ body) by (unfold pkt; by rewrite Hf, drop_app_length).
  assert (Hzp : zlen pkt = ntohs (ip_len h)) by (rewrite Hpkt, !zlen_app, zlen_ip_bytes, zlen_tcp_bytes; lia).
  rewrite Hvl in Heth. unfold IP_HDR_SIZE, TCP_HDR_SIZE in Hlen.
  assert (Hef : frame ++ junk = eth ++ pkt ++ junk) by (by rewrite Hpkt, Hf, <- !app_assoc).
  assert (Hzf : zlen frame = zlen eth + zlen pkt) by (by rewrite Hpkt, Hf, zlen_app).
  pose proof (net_set_ether_len _ (net_our_vlan (tcp_env := E)) _ PROT_IP Hm Hd) as Hel. rewrite <- Heth in Hel.
  assert (14 <= zlen eth <= 18) by (unfold zlen; lia).
  rewrite Hef, Heth, ether_accepted; [|done|done|by left|rewrite <- Heth; lia]. rewrite <- Heth.
  change (PROT_IP =? PROT_ARP) with false. cbv iota. replace (zlen frame - zlen eth) with (zlen pkt) by lia.
  rewrite Hpkt, <- app_assoc, <- Hpkt. apply ip_accepted; try done; [congruence|lia|lia].
Qed.

End Accept.

(** ** Address resolution *)

Section Arp.
Context {A : Type} {E : tcp_env A}.
Implicit Types w : tcp_world A.

(** The frame with another destination. *)
Lemma net_set_ether_dest mac vlan dest dest' prot :
  length dest = 6%nat -> dest' ++ drop 6 (net_set_ether mac vlan dest prot) = net_set_ether mac vlan dest' prot.
Proof.
  intros Hd. unfold net_set_ether. cbv zeta. rewrite <- Hd. destruct (_ =? VLAN_NONE); by rewrite drop_app_length.
Qed.

Lemma carries_readdress x flags sq ak opt body frame eth h t sha :
  carries x flags sq ak opt body frame eth h t -> length (ethaddr x) = 6%nat -> length (net_ethaddr) = 6%nat ->
  carries (x <| ethaddr := sha |>) flags sq ak opt body (sha ++ drop 6 frame) (sha ++ drop 6 eth) h t.
Proof.
  intros [Hf Heth Hiok Hhl Hlen Hp [Hsrc Hdst] Hisum Htok [Hsp Hdp] Hsq Hak Hfl Hsum Hoff] Hx Hm.
  pose proof (net_set_ether_len _ net_our_vlan _ PROT_IP Hm Hx) as Hl. rewrite <- Heth in Hl.
  constructor; try done.
  - by rewrite Hf, drop_app_le, app_assoc by lia.
  - rewrite Heth. by apply net_set_ether_dest.
Qed.

(** A reply from [ip] to the one who asked. *)
Record arp_reply (ip : Z) (a : arp_hdr) : Prop := {
  rp_hrd : ntohs (ar_hrd a) = ARP_ETHER;
  rp_pro : ntohs (ar_pro a) = PROT_IP;
  rp_hln : ar_hln a = ARP_HLEN;
  rp_pln : ar_pln a = ARP_PLEN;
  rp_op : ntohs (ar_op a) = ARPOP_REPLY;
  rp_spa : ar_spa a = ip;
  rp_tpa : ar_tpa a = net_ip
}.

Lemma arp_receive_reply et hdr len a w :
  arp_load (drop (Z.to_nat hdr) et) = Some a -> arp_reply (net_arp_wait_reply_ip w) a -> 28 <= len -> net_ip <> 0 ->
  net_arp_wait_packet_ip w <> 0 -> arp_receive et hdr len w = arp_resolved a w.
Proof.
  intros Ha [H1 H2 H3 H4 H5 H6 H7] Hl Hip Hw. unfold arp_receive. unfold ARP_HDR_SIZE. rewrite (proj2 (Z.ltb_ge len 28)) by lia.
  unfold bind at 1, lift at 1. rewrite Ha, H1, H2, H3, H4, H5, H7. rewrite (proj2 (Z.eqb_neq _ _) Hip), !Z.eqb_refl. cbn [negb].
  change (ARPOP_REPLY =? ARPOP_REQUEST) with false. cbv iota. unfold bind at 1, gets at 1. rewrite (proj2 (Z.eqb_neq _ _) Hw).
  unfold bind at 1, gets at 1. by rewrite H6, Z.eqb_refl.
Qed.

Lemma wp_arp_resolved c x frame pkt0 a w :
  conn_of c w = Some x -> 0 < c -> arp_wait_packet_ethaddr w = c -> arp_wait_tx_packet_size w = zlen frame ->
  splice pkt0 0 frame = Some (net_tx_packet w) -> zlen (ar_sha a) = 6 -> 6 <= zlen frame ->
  wp (arp_resolved a) (fun _ w' => conn_of c w' = Some (x <| ethaddr := ar_sha a |>) /\
    trace w' = trace w ++ [EvSend (ar_sha a ++ drop 6 frame)] /\ net_arp_wait_packet_ip w' = 0) w.
Proof.
  intros Hx Hc Hw Hn Hsp Hs Hf. unfold arp_resolved, dummy_handler. do 2 wp_step. rewrite Hw. destruct (Z.eqb_spec c 0); [lia|]. cbn [negb].
  apply splice_inv in Hsp as (_ & Hl & Hpkt). change (Z.to_nat 0) with 0%nat in Hpkt. cbn [Datatypes.app take Nat.add] in Hpkt.
  set (r := drop (length frame) pkt0) in *.
  assert (Hfr : net_tx_packet w = [] ++ take 6 frame ++ drop 6 frame ++ r) by (cbn [Datatypes.app]; by rewrite app_assoc, take_drop).
  assert (H6 : zlen (ar_sha a) = zlen (take 6 frame)) by (rewrite Hs; unfold zlen in *; rewrite length_take; lia).
  unfold set_conn, get_conn, eth_send, emit. wp_steps. eapply wp_lift; [exact Hx|]. wp_steps.
  eapply wp_lift; [change (net_tx_packet (w <| conn_head := _ |>)) with (net_tx_packet w); rewrite Hfr; by apply (splice_zlen_app [])|].
  wp_steps. cbn [Datatypes.app]. eapply wp_lift.
  { change (arp_wait_tx_packet_size _) with (arp_wait_tx_packet_size w). rewrite Hn.
    replace (zlen frame) with (zlen (ar_sha a ++ drop 6 frame)) by (rewrite zlen_app, H6, <- zlen_app, take_drop; done).
    rewrite app_assoc. apply (slice_mid [] _ r). }
  wp_steps. split_and!; [|done|done]. cbn. by eapply find_update_eq.
Qed.

End Arp.

(** ** Any frame *)

Section Safe.
Context {A : Type} {E : tcp_env A} (EO : env_ok E).
Implicit Types w : tcp_world A.

Lemma splice_fits {X} (l : list X) off d : 0 <= off -> off + zlen d <= zlen l -> exists l', splice l off d = Some l' /\ zlen l' = zlen l.
Proof. intros Ho Hl. eexists. rewrite splice_some by done. split; [done|]. symmetry. eapply eq_sym, splice_zlen. by apply splice_some. Qed.

(** The headers of a packet lie in a buffer of this size. *)
Lemma parse_segment_total pkt len h :
  ip_load pkt = Some h -> Z.land (ip_hl_v h) 0x0f <= 5 -> 34 <= zlen pkt -> 0 <= len < 2 ^ 16 -> len <= zlen pkt ->
  exists p, parse_segment pkt len = Some p.
Proof.
  intros Hh Hhl Hz Hl Hlz. unfold parse_segment. rewrite Hh. cbv zeta. change 15 with 0x0f.
  assert (H0 : 0 <= Z.land (ip_hl_v h) 0x0f).
  { change 0x0f with (Z.ones 4). rewrite Z.land_ones by lia. apply Z.mod_pos_bound. lia. }
  set (n := Z.land (ip_hl_v h) 0x0f * 4) in *. assert (Hn : 0 <= n <= 20) by lia.
  assert (Hzd : zlen (drop (Z.to_nat n) pkt) = zlen pkt - n) by (unfold zlen in *; rewrite length_drop; lia).
  unfold tcp_checksum_compute. rewrite i32_small by lia. rewrite slice_some by lia. destruct (negb _); [by eexists|].
  destruct (load_some 2 12 (drop (Z.to_nat n) pkt)) as [fl Hfl]; [lia|lia|]. rewrite Hfl.
  set (m := Z.land (Z.shiftr (ntohs fl) TCP_HDR_LEN_SHIFT) TCP_HDR_LEN_MASK * 4).
  destruct (Z.ltb_spec m TCP_HDR_SIZE); [by eexists|]. rewrite u32_small by lia. destruct (Z.ltb_spec len (n + m)); [by eexists|].
  unfold TCP_HDR_SIZE in *. destruct (tcp_load (drop (Z.to_nat n) pkt)) as [t|] eqn:Et.
  - destruct (negb _); by eexists.
  - exfalso. unfold tcp_load in Et.
    repeat match type of Et with context [load ?k ?o ?l] => let v := fresh "v" in let H := fresh in
      destruct (load_some k o l) as [v H]; [lia|lia|]; rewrite H in Et; clear H end. done.
Qed.

(** An IP packet for TCP that is for us. *)
Record for_us (ip : list Z) (len : Z) (h : ip_hdr) : Prop := {
  fu_load : ip_load ip = Some h;
  fu_len : ntohs (ip_len h) <= len;
  fu_version : Z.land (ip_hl_v h) 0xf0 = 0x40 /\ Z.land (ip_hl_v h) 0x0f <= 5;
  fu_sum : ip_checksum_ok ip IP_HDR_SIZE = Some true;
  fu_dst : net_ip = 0 \/ ip_dst h = net_ip \/ ip_dst h = 0xFFFFFFFF;
  fu_whole : net_defragment h = true;
  fu_tcp : ip_p h = IPPROTO_TCP
}.

(** [ip] is memory, [len] the length of the packet in it: it is dropped, or it
    is for us and all of its headers lie in the memory. *)
Lemma receive_ip_routed ip len et w :
  34 <= zlen ip -> len <= zlen ip ->
  receive_ip ip len et w = Ret tt w \/
  exists h p, for_us ip len h /\ parse_segment ip (ntohs (ip_len h)) = Some p /\
    receive_ip ip len et w = receive_tcp ip (ntohs (ip_len h)) et w.
Proof.
  intros Hz Hl. unfold receive_ip, dummy_handler. destruct (_ <? IP_UDP_HDR_SIZE); [by left|].
  destruct (ip_load_some ip) as [h Hh]; [unfold IP_HDR_SIZE; lia|]. unfold bind at 1 3, lift at 1 3. rewrite Hh.
  destruct (Z.ltb_spec len (ntohs (ip_len h))); [by left|].
  destruct (Z.eqb_spec (Z.land (ip_hl_v h) 0xf0) 0x40); [|by left]. destruct (Z.ltb_spec 0x05 (Z.land (ip_hl_v h) 0x0f)); [by left|]. cbn [negb].
  assert (Hok : exists b, ip_checksum_ok ip IP_HDR_SIZE = Some b).
  { unfold ip_checksum_ok, compute_ip_checksum. rewrite slice_some by (unfold IP_HDR_SIZE; lia). by eexists. }
  destruct Hok as [b Hok]. unfold bind, lift. rewrite Hok. destruct b; [|by left]. cbn [negb].
  destruct (negb (net_ip =? 0) && _ && _) eqn:Ed; [by left|]. destruct (net_defragment h) eqn:Ef; [|by left]. cbn [negb].
  destruct (ip_p h =? IPPROTO_ICMP); [by left|]. destruct (Z.eqb_spec (ip_p h) IPPROTO_TCP); [|left; by destruct (ip_p h =? IPPROTO_UDP)].
  assert (Hn : 0 <= ntohs (ip_len h) < 2 ^ 16) by apply swab16_range.
  destruct (parse_segment_total ip (ntohs (ip_len h)) h) as [p Hp]; [done..|lia|].
  right. exists h, p. split_and!; [|done|done]. constructor; try done.
  destruct (Z.eqb_spec net_ip 0), (Z.eqb_spec (ip_dst h) net_ip), (Z.eqb_spec (ip_dst h) 0xFFFFFFFF); auto. done.
Qed.

(** If a packet waits for an address, the place for it is still there. *)
Definition arp_live w : Prop :=
  net_arp_wait_packet_ip w <> 0 ->
  (arp_wait_packet_ethaddr w = 0 \/ exists x, conn_of (arp_wait_packet_ethaddr w) w = Some x) /\
  0 <= arp_wait_tx_packet_size w <= PKTSIZE_ALIGN.

(** What ARP may do: answer or send the waiting packet, and fill in the
    Ethernet address of a connection. *)
Record readdressed w w' : Prop := {
  rd_ids : map fst (conn_head w') = map fst (conn_head w);
  rd_next : next_conn w' = next_conn w;
  rd_buf : zlen (net_tx_packet w') = zlen (net_tx_packet w);
  rd_conns d x' : conn_of d w' = Some x' -> exists x mac, conn_of d w = Some x /\ x' = x <| ethaddr := mac |> /\ conn_ok x';
  rd_app : app w' = app w;
  rd_trace : exists t, trace w' = trace w ++ t /\ callbacks t = []
}.

Lemma readdressed_ok w w' : world_ok w -> readdressed w w' -> world_ok w'.
Proof.
  intros [H1 H2 H3 H4 H5 H6] [Hi Hn Hb Hc _ _]. constructor; rewrite ?Hi, ?Hn; try done.
  - intros c x Hx. by destruct (Hc c x Hx) as (? & ? & _ & _ & ?).
  - congruence.
Qed.

Lemma same_address (x : tcp_conn) : x = x <| ethaddr := ethaddr x |>.
Proof. by destruct x. Qed.

Lemma readdressed_send w w' f :
  world_ok w -> conn_head w' = conn_head w -> next_conn w' = next_conn w -> zlen (net_tx_packet w') = zlen (net_tx_packet w) ->
  app w' = app w -> trace w' = trace w ++ [EvSend f] -> readdressed w w'.
Proof.
  intros Hw Hc Hn Hb Ha Ht. constructor; rewrite ?Hc; try done.
  - intros d x Hx. exists x, (ethaddr x). split_and!; [done|apply same_address|by eapply wo_conns].
  - by exists [EvSend f].
Qed.

Lemma readdressed_refl w : world_ok w -> readdressed w w.
Proof.
  intros Hw. constructor; try done.
  - intros d x Hx. exists x, (ethaddr x). split_and!; [done|apply same_address|by eapply wo_conns].
  - exists []. by rewrite app_nil_r.
Qed.

(** One [memcpy] into a buffer that is large enough. *)
Ltac wp_splice :=
  match goal with |- wp (lift (splice ?l ?o ?d)) _ _ =>
    let l' := fresh "mem" in let H := fresh in let Hz := fresh "Hz" in
    destruct (splice_fits l o d) as (l' & H & Hz);
    [lia|rewrite ?zlen_le_bytes; lia|eapply wp_lift; [exact H|]; clear H]
  end.

Lemma wp_arp_answer et hdr a w :
  world_ok w -> zlen et = PKTSIZE_ALIGN -> 14 <= hdr <= 22 -> zlen (ar_sha a) = 6 ->
  wp (arp_answer et hdr a) (fun _ w' => readdressed w w') w.
Proof.
  intros Hw Hz Hh Hs. unfold PKTSIZE_ALIGN in Hz. pose proof (wo_buf _ Hw) as Hbuf. unfold PKTSIZE_ALIGN in Hbuf.
  assert (Hm : zlen net_ethaddr = 6) by (unfold zlen; by rewrite (proj1 eo_eth)).
  unfold arp_answer. wp_step. eapply wp_lift; [by apply slice_some; lia|]. wp_step.
  set (src := take _ _). assert (Hsrc : zlen src = 6) by (unfold src, zlen in *; rewrite length_take, length_drop; lia).
  assert (Hu : exists et' n, net_update_ether net_ethaddr et src PROT_ARP = Some (et', n) /\ zlen et' = 1536 /\ 14 <= n <= 22).
  { unfold net_update_ether. destruct (splice_fits et 0 src) as (e1 & -> & H1); [lia|lia|].
    destruct (splice_fits e1 6 net_ethaddr) as (e2 & -> & H2); [lia|lia|]. destruct (load_some 2 12 e1) as [p ->]; [lia|lia|].
    destruct (_ =? PROT_VLAN); [|destruct (1514 <? _)].
    - destruct (splice_fits e2 16 (le_bytes 2 (htons PROT_ARP))) as (e3 & -> & H3); [lia|rewrite zlen_le_bytes; lia|].
      exists e3, 18. split_and!; [done|lia|lia|lia].
    - destruct (splice_fits e2 12 (le_bytes 2 (htons PROT_ARP))) as (e3 & -> & H3); [lia|rewrite zlen_le_bytes; lia|].
      exists e3, 14. split_and!; [done|lia|lia|lia].
    - destruct (splice_fits e2 20 (le_bytes 2 (htons PROT_ARP))) as (e3 & -> & H3); [lia|rewrite zlen_le_bytes; lia|].
      exists e3, 22. split_and!; [done|lia|lia|lia]. }
  destruct Hu as (et' & n & -> & Hz' & Hn). eapply wp_lift; [done|]. cbv beta iota.
  wp_step. wp_splice. wp_step. wp_splice. wp_step. wp_splice. wp_step. wp_splice. wp_step. wp_splice. wp_step.
  eapply wp_lift; [apply slice_some; unfold ARP_HDR_SIZE; lia|]. set (f := take _ _).
  assert (Hf : zlen f <= 50) by (unfold f, zlen, ARP_HDR_SIZE; rewrite length_take; lia). do 3 wp_step. wp_splice.
  unfold eth_send, emit. wp_steps. eapply readdressed_send; try done.
Qed.

Lemma wp_arp_resolved_safe a w :
  world_ok w -> arp_live w -> net_arp_wait_packet_ip w <> 0 -> length (ar_sha a) = 6%nat -> Forall is_byte (ar_sha a) ->
  wp (arp_resolved a) (fun _ w' => readdressed w w') w.
Proof.
  intros Hw Hlv Hip Hs Hby. destruct (Hlv Hip) as [Hc Hn]. unfold PKTSIZE_ALIGN in Hn.
  pose proof (wo_buf _ Hw) as Hbuf. unfold PKTSIZE_ALIGN in Hbuf. assert (Hz : zlen (ar_sha a) = 6) by (unfold zlen; lia).
  unfold arp_resolved, dummy_handler. do 3 wp_step. apply (wp_conseq _ (fun _ w1 => readdressed w w1 /\ arp_wait_tx_packet_size w1 = arp_wait_tx_packet_size w)).
  - destruct (Z.eqb_spec (arp_wait_packet_ethaddr w) 0) as [|H0]; cbn [negb]; [apply wp_ret; by split; [apply readdressed_refl|]|].
    destruct Hc as [|[x Hx]]; [done|]. set (c := arp_wait_packet_ethaddr w) in *. unfold set_conn, get_conn. wp_steps. eapply wp_lift; [exact Hx|]. wp_steps.
    split; [|done]. constructor; try done.
    + apply map_fst_update.
    + intros d y. cbn. destruct (decide (d = c)) as [->|Hne].
      * erewrite find_update_eq by exact Hx. intros [= <-]. exists x, (ar_sha a). split_and!; [done|done|].
        destruct (wo_conns _ Hw _ _ Hx). by constructor.
      * rewrite find_update_ne by done. intros Hy. exists y, (ethaddr y). split_and!; [done|apply same_address|by eapply wo_conns].
    + exists []. by rewrite app_nil_r.
  - intros _ w1 [Hr Hsz]. pose proof (rd_buf _ _ Hr) as Hb1. do 4 wp_step. apply wp_bind. wp_splice. do 5 wp_step.
    eapply wp_lift; [apply slice_some; cbn; lia|]. unfold eth_send, emit. wp_steps. destruct Hr as [Hi Hnx Hbf Hcs Ha (t & Ht & Hcb)].
    constructor; try done.
    + cbn. lia.
    + cbn. exists (t ++ [EvSend (take (Z.to_nat (arp_wait_tx_packet_size w1)) (drop (Z.to_nat 0) mem))]). by rewrite Ht, <- app_assoc, callbacks_app, Hcb.
Qed.

Lemma arp_load_some l : 28 <= zlen l -> exists a, arp_load l = Some a /\ length (ar_sha a) = 6%nat /\ (Forall is_byte l -> Forall is_byte (ar_sha a)).
Proof.
  intros Hl. unfold arp_load. repeat match goal with |- context [load ?k ?o l] => let v := fresh "v" in
    destruct (load_some k o l) as [v ->]; [lia|lia|] end. rewrite !slice_some by lia. eexists. split; [done|]. cbn [ar_sha]. split.
  - unfold zlen in Hl. rewrite length_take, length_drop. lia.
  - intros Hb. by apply Forall_take, Forall_drop.
Qed.

Lemma wp_arp_receive et hdr len w :
  world_ok w -> arp_live w -> zlen et = PKTSIZE_ALIGN -> Forall is_byte et -> 14 <= hdr <= 22 ->
  wp (arp_receive et hdr len) (fun _ w' => readdressed w w') w.
Proof.
  intros Hw Hlv Hz Hb Hh. assert (Hskip : wp (ret tt) (fun _ w' => readdressed w w') w) by (by apply wp_ret, readdressed_refl).
  unfold arp_receive. destruct (_ <? ARP_HDR_SIZE); [done|].
  destruct (arp_load_some (drop (Z.to_nat hdr) et)) as (a & Ha & Hs & Hsb).
  { unfold PKTSIZE_ALIGN, zlen in *. rewrite length_drop. lia. }
  apply wp_bind. eapply wp_lift; [exact Ha|].
  repeat match goal with |- wp (if negb ?b then ret tt else _) _ _ => destruct b; cbn [negb]; [|exact Hskip] end.
  destruct (net_ip =? 0); [done|]. destruct (_ =? net_ip); cbn [negb]; [|done]. destruct (_ =? ARPOP_REQUEST).
  { apply wp_arp_answer; try done. unfold zlen. lia. }
  destruct (_ =? ARPOP_REPLY); [|done]. do 2 wp_step. destruct (Z.eqb_spec (net_arp_wait_packet_ip w) 0); [done|].
  do 2 wp_step. destruct (_ =? _); [|done]. apply wp_arp_resolved_safe; try done. by apply Hsb, Forall_drop.
Qed.

(** Where the payload of a frame starts. *)
Definition frame_header (hdr : Z) : Prop := hdr = 14 \/ hdr = 18 \/ hdr = 22.

(** Where the processing of a frame leads: nowhere, to ARP, or to TCP with an
    IP packet that is for us and lies in the buffer, headers and all. *)
Inductive routed (nv : Z) (mem : list Z) (len : Z) w : Prop :=
| routed_dropped : net_process_received_packet nv mem len w = Ret tt w -> routed nv mem len w
| routed_arp hdr : frame_header hdr ->
    net_process_received_packet nv mem len w = arp_receive mem hdr (len - hdr) w -> routed nv mem len w
| routed_tcp hdr h p src : frame_header hdr -> for_us (drop (Z.to_nat hdr) mem) (len - hdr) h ->
    parse_segment (drop (Z.to_nat hdr) mem) (ntohs (ip_len h)) = Some p -> slice mem 6 6 = Some src ->
    net_process_received_packet nv mem len w = receive_tcp (drop (Z.to_nat hdr) mem) (ntohs (ip_len h)) src w ->
    routed nv mem len w.

Lemma net_process_routed nv mem len w : zlen mem = PKTSIZE_ALIGN -> 0 <= len <= PKTSIZE_ALIGN -> routed nv mem len w.
Proof.
  unfold PKTSIZE_ALIGN. intros Hz Hl.
  assert (Hld : forall k, 0 <= k <= 100 -> exists v, load 2 k mem = Some v) by (intros k Hk; apply load_some; lia).
  assert (Hgo : forall p hdr v, frame_header hdr ->
    net_process_received_packet nv mem len w = dispatch nv mem len p hdr v w -> routed nv mem len w).
  { intros p hdr v Hh Hd. unfold dispatch in Hd. destruct (negb _ && _); [by apply routed_dropped|]. unfold frame_header in Hh. rewrite i32_small in Hd by lia.
    assert (Hzd : zlen (drop (Z.to_nat hdr) mem) = 1536 - hdr) by (unfold zlen in *; rewrite length_drop; lia).
    destruct (p =? PROT_ARP); [by apply (routed_arp _ _ _ _ hdr)|]. destruct (p =? PROT_IP); [|by apply routed_dropped].
    destruct (slice mem 6 6) as [src|] eqn:Esl; [|rewrite slice_some in Esl by lia; done].
    unfold bind, lift in Hd.
    destruct (receive_ip_routed (drop (Z.to_nat hdr) mem) (len - hdr) src w) as [E0|(h & q & Hu & Hp & Er)]; [lia|lia| |].
    - apply routed_dropped. congruence.
    - eapply routed_tcp; [done|exact Hu|exact Hp|exact Esl|congruence]. }
  destruct (Hld 12 ltac:(lia)) as [p Hp].
  destruct (u32 len <? ETHER_HDR_SIZE) eqn:E0; [apply routed_dropped; unfold net_process_received_packet; by rewrite E0|].
  destruct (ntohs p <? 1514) eqn:E1.
  { destruct (Hld 20 ltac:(lia)) as [q Hq]. apply (Hgo (ntohs q) 22 VLAN_NONE); [by right; right|].
    unfold net_process_received_packet. rewrite E0. unfold bind, lift. by rewrite Hp, E1, Hq. }
  destruct (ntohs p =? PROT_VLAN) eqn:E2.
  2:{ apply (Hgo (ntohs p) 14 VLAN_NONE); [by left|].
      unfold net_process_received_packet. rewrite E0. unfold bind at 1, lift at 1. by rewrite Hp, E1, E2. }
  destruct (u32 len <? VLAN_ETHER_HDR_SIZE) eqn:E3.
  { apply routed_dropped. unfold net_process_received_packet. rewrite E0. unfold bind, lift. by rewrite Hp, E1, E2, E3. }
  destruct (Z.land (ntohs net_our_vlan) VLAN_IDMASK =? VLAN_NONE) eqn:E4.
  { apply routed_dropped. unfold net_process_received_packet. rewrite E0. unfold bind, lift. by rewrite Hp, E1, E2, E3, E4. }
  destruct (Hld 14 ltac:(lia)) as [c Hc]. destruct (Hld 16 ltac:(lia)) as [q Hq].
  apply (Hgo (ntohs q) 18 (Z.land (ntohs c) VLAN_IDMASK)); [by right; left|].
  unfold net_process_received_packet. rewrite E0. unfold bind, lift. by rewrite Hp, E1, E2, E3, E4, Hc, Hq.
Qed.

(** What a frame may do to the stack. *)
Inductive handled (mem : list Z) (len : Z) w w' : Prop :=
| handled_dropped : w' = w -> handled mem len w w'
| handled_arp : readdressed w w' -> handled mem len w w'
| handled_tcp hdr h p : frame_header hdr -> for_us (drop (Z.to_nat hdr) mem) (len - hdr) h ->
    parse_segment (drop (Z.to_nat hdr) mem) (ntohs (ip_len h)) = Some p -> received (drop (Z.to_nat hdr) mem) w w' p -> handled mem len w w'.

Lemma wp_net_process (P : polite E) nv mem len w :
  world_ok w -> arp_live w -> zlen mem = PKTSIZE_ALIGN -> Forall is_byte mem -> 0 <= len <= PKTSIZE_ALIGN ->
  (forall hdr h s, frame_header hdr -> for_us (drop (Z.to_nat hdr) mem) (len - hdr) h ->
     parse_segment (drop (Z.to_nat hdr) mem) (ntohs (ip_len h)) = Some (Some s) -> seg_ok w s) ->
  wp (net_process_received_packet nv mem len) (fun _ w' => world_ok w' /\ handled mem len w w') w.
Proof.
  intros Hw Hlv Hz Hb Hl Hs. unfold wp.
  destruct (net_process_routed nv mem len w Hz Hl) as [-> |hdr Hh -> |hdr h p src Hh Hu Hp Hsrc ->].
  - split; [done|by apply handled_dropped].
  - apply (wp_conseq (arp_receive mem hdr (len - hdr)) (fun _ w' => readdressed w w')).
    + apply wp_arp_receive; try done. unfold frame_header in Hh. lia.
    + intros [] w' Hr. split; [by eapply readdressed_ok|by apply handled_arp].
  - apply (wp_conseq (receive_tcp (drop (Z.to_nat hdr) mem) (ntohs (ip_len h)) src)
      (fun _ w' => world_ok w' /\ received (drop (Z.to_nat hdr) mem) w w' p)).
    + apply (wp_receive_tcp EO P); [done|by apply Forall_drop|done| |intros s ->; by eapply Hs].
      split; [apply slice_zlen in Hsrc; unfold zlen in Hsrc; lia|by eapply slice_forall].
    + intros [] w' [Hw' Hr]. split; [done|by eapply handled_tcp].
Qed.

End Safe.
