(* ===== verification/TcpRun.v ===== *)
(** * A concrete run of the TCP stack

    A small server, a peer's packets, and the states they lead to: evidence
    that the hypotheses of the theorems can hold, and the runs behind the
    findings. *)

From stdpp Require Import base numbers list relations.
From Stdlib Require Import ZArith Lia.
From S2P Require Import Prelude NetWire Tcp TcpInv TcpSend TcpRecv TcpOpen TcpTimer TcpStream TcpApi.

(** ** Checking the invariant *)

Definition byteb (b : Z) : bool := (0 <=? b) && (b <? 256).
Definition u16b (x : Z) : bool := (0 <=? x) && (x <? 2 ^ 16).
Definition u32b (x : Z) : bool := (0 <=? x) && (x <? 2 ^ 32).

Definition tx_idleb (x : tcp_conn) : bool :=
  (txlen x =? 0) && (rexmit_mode x =? 0) && (local_seq_acked x =? local_seq x).

Definition tx_activeb (x : tcp_conn) : bool :=
  match tx x with
  | None => false
  | Some b => (txlen x <=? zlen b) && (0 <? txlen x) && (txlen x <? 2 ^ 30) &&
              (0 <=? off_acked x) && (off_acked x <=? off_sent x) && (off_sent x <=? txlen x) &&
              (off_acked x <? txlen x)
  end.

Definition conn_okb (x : tcp_conn) : bool :=
  u32b (ip_remote x) && u16b (port_remote x) && u16b (port_local x) && u32b (peer_seq x) &&
  u32b (local_seq x) && u32b (local_seq_last x) && u32b (local_seq_acked x) &&
  (0 <=? mss x) && (mss x <=? 1460) && (0 <=? peer_ws x) && (peer_ws x <=? 14) &&
  Nat.eqb (length (ethaddr x)) 6 && forallb byteb (ethaddr x) &&
  match tx x with None => true | Some b => forallb byteb b end &&
  (negb (status_eqb (status x) SYN_RCVD) || (txlen x =? 0) && (rexmit_mode x =? 0)) &&
  (negb (status_eqb (status x) ESTABLISHED) || tx_idleb x || tx_activeb x).

Lemma forallb_bytes l : forallb byteb l = true -> Forall is_byte l.
Proof.
  induction l as [|b l IH]; [constructor|]. simpl. rewrite andb_true_iff. intros [Hb Hl].
  constructor; [|auto]. unfold byteb in Hb. unfold is_byte. lia.
Qed.

Lemma conn_okb_ok x : conn_okb x = true -> conn_ok x.
Proof.
  unfold conn_okb, u32b, u16b. rewrite !andb_true_iff. intros H.
  repeat match type of H with _ /\ _ => destruct H as [H ?] end.
  split; unfold is_u32, is_u16; try lia.
  - split; [by apply Nat.eqb_eq|by apply forallb_bytes].
  - intros b Hb. rewrite Hb in *. by apply forallb_bytes.
  - intros Hs. rewrite Hs in *.
    match goal with H : negb (status_eqb SYN_RCVD SYN_RCVD) || _ = true |- _ =>
      apply andb_prop in H as [??] end. lia.
  - intros Hs. rewrite Hs in *.
    match goal with H : negb (status_eqb ESTABLISHED ESTABLISHED) || _ || _ = true |- _ =>
      apply orb_true_iff in H as [Hi|Ha] end.
    + left. change (tx_idleb x = true) in Hi. unfold tx_idleb in Hi. unfold tx_idle. lia.
    + right. unfold tx_activeb in Ha. unfold tx_active.
      destruct (tx x) as [b|]; [|done]. rewrite !andb_true_iff in Ha. split; [exists b; split; [done|lia]|lia].
Qed.

Definition world_okb {A} (w : tcp_world A) : bool :=
  bool_decide (NoDup (map fst (conn_head w))) &&
  forallb (fun i => (0 <? i) && (i <? next_conn w)) (map fst (conn_head w)) &&
  (0 <? next_conn w) && forallb (fun c => conn_okb (snd c)) (conn_head w) &&
  (zlen (net_tx_packet w) =? PKTSIZE_ALIGN).

Lemma find_snd c l x : find_conn c l = Some x -> exists i, (i, x) ∈ l.
Proof.
  induction l as [|[i y] l IH]; [done|]. simpl. destruct (i =? c).
  - intros [= ->]. exists i. apply list_elem_of_here.
  - intros H. destruct (IH H) as [j Hj]. exists j. by apply list_elem_of_further.
Qed.

Lemma world_okb_ok {A} (w : tcp_world A) : world_okb w = true -> world_ok w.
Proof.
  unfold world_okb. rewrite !andb_true_iff. intros ((((H1 & H2) & H3) & H4) & H5).
  apply bool_decide_eq_true in H1. rewrite forallb_forall in H2, H4.
  split; [done| | |lia| |lia].
  - apply Forall_forall. intros i Hi%list_elem_of_In%H2. lia.
  - apply Forall_forall. intros i Hi%list_elem_of_In%H2. lia.
  - intros c x Hx. apply find_snd in Hx as [i Hi]. apply list_elem_of_In, H4 in Hi. by apply conn_okb_ok.
Qed.

(** ** A server that answers every packet *)

Definition reply : list Z := [72; 105; 33].

Definition server_cb (h : Z) (cbd : tcb_cb_data) : M (tcp_world unit) tcb_cb_data :=
  do alive <- tcp_conn_is_alive (cbd_conn cbd);
  if alive && bool_decide (cbd_status cbd = TCP_CB_DATA_RCVD) then
    do _ <- tcp_send_data (cbd_conn cbd) (Some reply) 3;
    ret cbd
  else ret cbd.

Definition mac_server : list Z := [2; 0; 0; 0; 0; 1].
Definition mac_peer : list Z := [2; 0; 0; 0; 0; 2].
Definition ip_server : Z := le_value [192; 168; 1; 1].
Definition ip_peer : Z := le_value [192; 168; 1; 2].

(** One millisecond passes from one reading of the timer to the next. *)
#[export] Instance server : tcp_env unit :=
  mkEnv ip_server (le_value [255; 255; 255; 0]) 0 mac_server 65535 (fun n => 1000 + Z.of_nat n)
    (fun _ => true) (fun _ => 0) server_cb.

#[export] Instance server_env_ok : env_ok server.
Proof. split; [done|]. split; [done|]. by apply forallb_bytes. Qed.

Lemma server_polite : polite server.
Proof.
  intros h cbd w x Hw Hx. cbn [run_cb server]. unfold server_cb, tcp_conn_is_alive.
  assert (Hpos : 0 < cbd_conn cbd).
  { pose proof (wo_ids _ Hw) as Hi. eapply Forall_forall in Hi; [|by eapply find_in]. done. }
  do 2 apply wp_bind. eapply wp_get_conn; [done|]. apply wp_ret.
  destruct (_ && _) eqn:Eb; [|apply wp_ret; split; [apply app_step_refl|done]].
  apply andb_prop in Eb as [Es%bool_decide_eq_true _]. apply wp_bind.
  eapply wp_conseq; [apply (wp_tcp_send_data _ x); try done|].
  - by rewrite Es.
  - by apply forallb_bytes.
  - intros r w' [Happ _]. by apply wp_ret.
Qed.

(** ** Packets of a peer *)

Definition peer_opt_pkt (opt : list Z) (flags sq ak wn : Z) (payload : list Z) : list Z :=
  let len := zlen opt + zlen payload in
  let h := mkIp 69 0 (htons (40 + len)) 0 0 64 IPPROTO_TCP 0 ip_peer ip_server in
  let t sum := mkTcp (htons 40000) (htons 80) (htonl sq) (htonl ak)
    (htons (Z.lor (Z.shiftl ((20 + zlen opt) / 4) 12) flags)) (htons wn) sum 0 in
  match tcp_checksum_compute (tcp_bytes (t 0) ++ opt ++ payload) (20 + len) ip_peer ip_server with
  | Some sum => ip_bytes h ++ tcp_bytes (t sum) ++ opt ++ payload
  | None => []
  end.

Definition peer_pkt : Z -> Z -> Z -> Z -> list Z -> list Z := peer_opt_pkt [].

Definition do_ {R} (m : M (tcp_world unit) R) (w : tcp_world unit) : tcp_world unit :=
  match m w with Ret _ w' => w' | _ => w end.

Definition rx (pkt : list Z) : M (tcp_world unit) unit := receive_tcp pkt (zlen pkt) mac_peer.

(** Listening on port 80. *)
Definition w_start : tcp_world unit :=
  mkWorld [mkListener (htons 80) 1] [] 0 NETLOOP_CONTINUE 1 (fill 0 PKTSIZE_ALIGN) 0 0 0 0 0 0 1 0 0 [] tt.

(** After SYN, after the handshake, and after five bytes of data. *)
Definition syn_pkt : list Z := peer_pkt TCP_SYN 1000 0 4096 [].
Definition w_syn : tcp_world unit := Eval vm_compute in do_ (rx syn_pkt) w_start.

Definition ack_pkt : list Z := peer_pkt TCP_ACK 1001 128001 4096 [].
Definition w_est : tcp_world unit := Eval vm_compute in do_ (rx ack_pkt) w_syn.

Definition hello : list Z := [104; 101; 108; 108; 111].
Definition hello_pkt : list Z := peer_pkt TCP_ACK 1001 128001 4096 hello.
Definition w_data : tcp_world unit := Eval vm_compute in do_ (rx hello_pkt) w_est.

(** The only connection of these states. *)
Definition conn1 (w : tcp_world unit) : tcp_conn :=
  match conn_of 1 w with Some x => x | None => zero_conn end.
