(* ===== verification/TcpProps.v ===== *)
(** * Properties of the TCP stack

    The theorems about [net/tcp.c], each with a concrete run it applies to
    ([TcpRun]). *)

From stdpp Require Import base numbers list relations.
From Stdlib Require Import ZArith Lia.
From S2P Require Import Prelude NetWire Tcp TcpInv TcpSend TcpRecv TcpOpen TcpTimer TcpStream TcpApi TcpHistory TcpRun.

(** C4 In any run of received packets, periodic checks and application calls,
    the bytes handed to the application for a connection are a prefix of the
    peer's byte stream, in order and without gaps or repetitions, provided
    the segments for it carry bytes of that stream (anything may be lost,
    repeated, overlapping or reordered). *)
Theorem tcp_stream_in_order {A} {E : tcp_env A} (EO : env_ok E) (P : polite E)
    (c base : Z) (stream : Z -> Z) (w w' : tcp_world A) :
  0 < c -> world_ok w -> in_order c base stream w ->
  rtc (tcp_step (fun w pkt s => target w s = c ->
                   from_stream base stream (zlen (rcvd c (trace w))) pkt s)) w w' ->
  world_ok w' /\ in_order c base stream w'.
Proof. intros. by eapply tcp_run_in_order. Qed.

(** The stream of the concrete peer. *)
Definition hello_stream (i : Z) : Z := match znth hello i with Some b => b | None => 0 end.

Definition hello_seg : segment :=
  match parse_segment hello_pkt (zlen hello_pkt) with Some (Some s) => s | _ => mkSegment 0 (mkTcp 0 0 0 0 0 0 0 0) [] 0 0 0 0 0 0 end.

Lemma hello_parses : parse_segment hello_pkt (zlen hello_pkt) = Some (Some hello_seg).
Proof. vm_compute. reflexivity. Qed.

Lemma hello_seg_ok : seg_ok w_est hello_seg.
Proof.
  split.
  - intros x Hx. vm_compute in Hx. injection Hx as <-. vm_compute. split; [discriminate|split; [discriminate|reflexivity]].
  - intros H. vm_compute in H. discriminate H.
Qed.

Lemma hello_from_stream : from_stream 1001 hello_stream 0 hello_pkt hello_seg.
Proof.
  exists 0. split; [vm_compute; reflexivity|]. split; [lia|]. intros i Hi.
  change (sg_size hello_seg) with 5 in Hi. change (sg_data hello_seg) with 40.
  assert (Hcases : i = 0 \/ i = 1 \/ i = 2 \/ i = 3 \/ i = 4) by lia.
  destruct Hcases as [->|[->|[->|[->| ->]]]]; vm_compute; reflexivity.
Qed.

Lemma tcp_stream_in_order_witness :
  world_ok w_data /\ in_order 1 1001 hello_stream w_data /\ rcvd 1 (trace w_data) = hello.
Proof.
  assert (H : world_ok w_data /\ in_order 1 1001 hello_stream w_data).
  { apply (tcp_stream_in_order server_env_ok server_polite 1 1001 hello_stream w_est w_data).
    - lia.
    - apply world_okb_ok. vm_compute. reflexivity.
    - split; [|  |vm_compute; reflexivity].
      { intros i Hi. change (zlen (rcvd 1 (trace w_est))) with 0 in Hi. lia. }
      intros x Hx. vm_compute in Hx. injection Hx as <-. vm_compute. reflexivity.
    - apply rtc_once. eapply (step_receive _ hello_pkt (zlen hello_pkt) mac_peer).
      + apply forallb_bytes. vm_compute. reflexivity.
      + apply hello_parses.
      + split; [done|]. by apply forallb_bytes.
      + intros s Hs. apply (inj Some) in Hs as <-. split; [apply hello_seg_ok|]. intros _. apply hello_from_stream.
      + vm_compute. reflexivity. }
  split; [apply H|]. split; [apply H|]. vm_compute. reflexivity.
Defined.

(** C13 A segment with ACK and without RST for an established connection, which
    acknowledges nothing unsent and whose payload has a size below 2^30: if it
    acknowledges a position before the chunk that was sent last, nothing of it
    is delivered and the receiver's position stays; otherwise exactly the bytes
    of it the receiver has not yet seen are handed to the application, and the
    receiver's position moves past them. *)
Theorem receive_tcp_delivers {A} {E : tcp_env A} (EO : env_ok E) (P : polite E)
    (pkt : list Z) (len : Z) (et : list Z) (s : segment) (x : tcp_conn) (w : tcp_world A) :
  world_ok w -> Forall is_byte pkt -> parse_segment pkt len = Some (Some s) ->
  conn_of (target w s) w = Some x -> 0 < target w s -> status x = ESTABLISHED ->
  Z.land (sg_flags s) TCP_RST = 0 -> Z.land (sg_flags s) TCP_ACK <> 0 ->
  i32 (sg_ack s - local_seq x) <= 0 -> 0 <= sg_size s < 2 ^ 30 ->
  let n := if stale_ack x (sg_ack s) then 0 else fresh (sg_seq s) (sg_size s) (peer_seq x) in
  wp (receive_tcp pkt len et) (fun _ w' => world_ok w' /\ exists x' t,
    conn_of (target w s) w' = Some x' /\ peer_seq x' = u32 (peer_seq x + n) /\
    trace w' = trace w ++ t /\
    rcvd (target w s) t = take (Z.to_nat n) (drop (Z.to_nat (sg_data s + (sg_size s - n))) pkt)) w.
Proof. intros. by apply wp_receive_fresh. Qed.

Lemma receive_tcp_delivers_witness :
  exists x', conn_of 1 w_data = Some x' /\ peer_seq x' = 1006.
Proof.
  assert (H : wp (receive_tcp hello_pkt (zlen hello_pkt) mac_peer) (fun _ w' => world_ok w' /\ exists x' t,
    conn_of 1 w' = Some x' /\ peer_seq x' = u32 (1001 + 5) /\ trace w' = trace w_est ++ t /\
    rcvd 1 t = take 5 (drop 40 hello_pkt)) w_est).
  { apply (receive_tcp_delivers server_env_ok server_polite hello_pkt (zlen hello_pkt) mac_peer
      hello_seg (conn1 w_est) w_est).
    - apply world_okb_ok. vm_compute. reflexivity.
    - apply forallb_bytes. vm_compute. reflexivity.
    - apply hello_parses.
    - reflexivity.
    - vm_compute. reflexivity.
    - reflexivity.
    - vm_compute. reflexivity.
    - vm_compute. discriminate.
    - vm_compute. discriminate.
    - vm_compute. split; [discriminate|reflexivity]. }
  assert (Hrun : receive_tcp hello_pkt (zlen hello_pkt) mac_peer w_est = Ret tt w_data)
    by (vm_compute; reflexivity).
  destruct (wp_elim _ _ _ _ _ H Hrun) as [_ (x' & t & Hx' & Hp & _)]. exists x'. split; [exact Hx'|]. rewrite Hp. reflexivity.
Defined.

(** C27 The periodic work on a connection always returns, reads nothing
    outside the application's chunk, and every frame it sends is a correct
    segment to the peer whose payload is empty or the part of the chunk at
    the segment's sequence number; the invariant is kept and the connection
    moves along the TCP state diagram or is removed. *)
Theorem tcp_conn_check_sends_chunk {A} {E : tcp_env A} (EO : env_ok E) (P : polite E)
    (c : Z) (x : tcp_conn) (w : tcp_world A) :
  world_ok w -> conn_of c w = Some x ->
  wp (tcp_conn_check c) (fun _ w' => world_ok w' /\
    (exists t, trace w' = trace w ++ t /\
       forall f, EvSend f ∈ t -> sends_for x f) /\
    (forall x', conn_of c w' = Some x' -> same_peer x x' /\ rtc tcp_edge (status x) (status x'))) w.
Proof.
  intros Hw Hx. eapply wp_conseq; [by apply wp_tcp_conn_check|].
  intros [] w' [Hf (t & Ht & HF) Hc]. split; [apply Hf|]. split.
  - exists t. split; [done|]. intros f Hin. by apply (proj1 (Forall_forall _ _) HF (EvSend f)).
  - intros x' Hx'. by destruct (Hc x' Hx') as (? & ? & _).
Qed.

Lemma tcp_conn_check_sends_chunk_witness :
  exists f, trace (do_ (tcp_conn_check 1) w_data) = trace w_data ++ [EvSend f] /\
    sends_for (conn1 w_data) f /\ drop 54 f = reply.
Proof.
  assert (H : wp (tcp_conn_check 1) (fun _ w' => world_ok w' /\
    (exists t, trace w' = trace w_data ++ t /\ forall f, EvSend f ∈ t -> sends_for (conn1 w_data) f) /\
    (forall x', conn_of 1 w' = Some x' ->
       same_peer (conn1 w_data) x' /\ rtc tcp_edge (status (conn1 w_data)) (status x'))) w_data).
  { apply (tcp_conn_check_sends_chunk server_env_ok server_polite 1 (conn1 w_data) w_data).
    - apply world_okb_ok. vm_compute. reflexivity.
    - reflexivity. }
  assert (Hrun : exists w', tcp_conn_check 1 w_data = Ret tt w' /\ exists f,
    trace w' = trace w_data ++ [EvSend f] /\ drop 54 f = reply)
    by (eexists; split; [vm_compute; reflexivity|eexists; split; vm_compute; reflexivity]).
  destruct Hrun as (w' & Hrun & f & Hf & Hbody). exists f. unfold do_. rewrite Hrun.
  split; [exact Hf|]. split; [|exact Hbody].
  destruct (wp_elim _ _ _ _ _ H Hrun) as [_ [(t & Ht & Hs) _]].
  apply Hs. rewrite Hf in Ht. apply app_inv_head in Ht as <-. apply list_elem_of_here.
Defined.

(** C28 Throughout any run a connection keeps its peer and its state follows
    the TCP state diagram, and every state of the stack satisfies the
    invariant. *)
Theorem tcp_states_follow_diagram {A} {E : tcp_env A} (EO : env_ok E) (P : polite E)
    (ok : tcp_world A -> list Z -> segment -> Prop) (c : Z) (x x' : tcp_conn) (w w' : tcp_world A) :
  world_ok w -> conn_of c w = Some x -> rtc (tcp_step ok) w w' -> conn_of c w' = Some x' ->
  world_ok w' /\ same_peer x x' /\ rtc tcp_edge (status x) (status x').
Proof.
  intros Hw Hx Hr Hx'.
  assert (Hl : lived c x w).
  { split.
    - pose proof (wo_next _ Hw) as Hn. eapply Forall_forall in Hn; [|by eapply find_in]. done.
    - intros y Hy. assert (y = x) as -> by congruence. split; [done|apply rtc_refl]. }
  destruct (tcp_run_lived EO P _ _ _ _ _ Hw Hl Hr) as [Hw' [_ Hl']]. by split; [|apply Hl'].
Qed.

Lemma ack_parses : exists s, parse_segment ack_pkt (zlen ack_pkt) = Some (Some s) /\ seg_ok w_syn s.
Proof.
  destruct (parse_segment ack_pkt (zlen ack_pkt)) as [[s|]|] eqn:Ep;
    [|vm_compute in Ep; discriminate Ep|vm_compute in Ep; discriminate Ep].
  exists s. split; [reflexivity|]. vm_compute in Ep. apply (inj Some), (inj Some) in Ep as <-. split.
  - intros x Hx. vm_compute in Hx. apply (inj Some) in Hx as <-. vm_compute.
    split; [discriminate|split; [discriminate|reflexivity]].
  - intros H. vm_compute in H. discriminate H.
Qed.

Lemma tcp_states_follow_diagram_witness : rtc tcp_edge SYN_RCVD ESTABLISHED.
Proof.
  apply (tcp_states_follow_diagram server_env_ok server_polite (fun _ _ _ => True) 1
    (conn1 w_syn) (conn1 w_est) w_syn w_est).
  - apply world_okb_ok. vm_compute. reflexivity.
  - reflexivity.
  - apply rtc_once. destruct ack_parses as (s & Hp & Hs).
    eapply (step_receive _ ack_pkt (zlen ack_pkt) mac_peer).
    + apply forallb_bytes. vm_compute. reflexivity.
    + exact Hp.
    + split; [reflexivity|]. by apply forallb_bytes.
    + intros s' Hs'. apply (inj Some) in Hs' as <-. split; [exact Hs|exact I].
    + vm_compute. reflexivity.
  - reflexivity.
Defined.

(** A segment sent on a connection is received as it was meant: the frame
    passes the receiver's IP and TCP checksums, and the header checks of
    [receive_tcp] recover the addresses, numbers, flags and payload. *)
Theorem tcp_frame_roundtrip {A} {E : tcp_env A} (EO : env_ok E) (c : Z) (x : tcp_conn)
    (flags sq ak : Z) (opt : list Z) (payload : option (list Z) * Z) (body : list Z) (w : tcp_world A) :
  world_ok w -> conn_of c w = Some x -> is_null_ethaddr (ethaddr x) = false ->
  Forall is_byte opt -> zlen opt <= 8 -> zlen opt mod 4 = 0 ->
  payload_bytes payload (zlen body) = Some body -> Forall is_byte body ->
  zlen opt + zlen body <= 1470 -> Z.land flags TCP_URG = 0 ->
  wp (tcp_send_packet_opt c flags sq ak opt payload (zlen body)) (fun _ w' =>
    exists eth pkt len s, trace w' = trace w ++ [EvSend (eth ++ pkt)] /\
      ip_checksum_ok pkt IP_HDR_SIZE = Some true /\
      parse_segment pkt len = Some (Some s) /\ len = zlen pkt /\
      sg_ip s = net_ip /\ src (sg_hdr s) = port_local x /\ dst (sg_hdr s) = port_remote x /\
      sg_seq s = u32 sq /\ sg_ack s = u32 ak /\
      (forall m, 0 <= m < 64 -> Z.land (sg_flags s) m = Z.land flags m) /\
      sg_hdrlen s = TCP_HDR_SIZE + zlen opt /\
      drop (Z.to_nat (sg_data s)) pkt = body /\ sg_size s = zlen body) w.
Proof.
  intros Hw Hx Hnn Ho Hol Hm4 Hp Hb Hl Hu. eapply wp_send_opt; [done..|].
  intros w' r Hst Hh Hcar. destruct (Hcar Hnn) as (frame & eth & h & t & Hca & Ht).
  destruct (carries_parses _ _ _ _ _ _ _ _ _ _ Hca Ho Hb Hol Hm4 Hl Hu) as (s & Hps & Hs).
  rewrite (fr_frame _ _ _ _ _ _ _ _ _ _ Hca) in Hps, Hs, Ht. rewrite drop_app_length in Hps, Hs.
  exists eth, (ip_bytes h ++ tcp_bytes t ++ opt ++ body), (ntohs (ip_len h)), s.
  split_and!; try apply Hs; try done.
  - pose proof (fr_ip_sum _ _ _ _ _ _ _ _ _ _ Hca) as Hsum.
    unfold ip_checksum_ok, compute_ip_checksum in *.
    replace (slice (ip_bytes h ++ tcp_bytes t ++ opt ++ body) 0 IP_HDR_SIZE) with (slice (ip_bytes h) 0 IP_HDR_SIZE); [done|].
    pose proof (zlen_nonneg (tcp_bytes t)). pose proof (zlen_nonneg opt). pose proof (zlen_nonneg body).
    rewrite (slice_some (ip_bytes h)), (slice_some (ip_bytes h ++ _))
      by (rewrite ?zlen_app, ?zlen_ip_bytes; unfold IP_HDR_SIZE; lia).
    by rewrite !drop_0.
  - rewrite (fr_ip_len _ _ _ _ _ _ _ _ _ _ Hca), !zlen_app, zlen_ip_bytes, zlen_tcp_bytes. lia.
Qed.

Lemma tcp_frame_roundtrip_witness :
  wp (tcp_send_packet_opt 1 TCP_ACK 128001 1006 [] (Some reply, 0) (zlen reply)) (fun _ w' =>
    exists eth pkt len s, trace w' = trace w_data ++ [EvSend (eth ++ pkt)] /\
      parse_segment pkt len = Some (Some s) /\ sg_seq s = 128001 /\
      drop (Z.to_nat (sg_data s)) pkt = reply) w_data.
Proof.
  eapply wp_conseq.
  - apply (tcp_frame_roundtrip server_env_ok 1 (conn1 w_data) TCP_ACK 128001 1006 [] (Some reply, 0) reply w_data).
    + apply world_okb_ok. vm_compute. reflexivity.
    + reflexivity.
    + vm_compute. reflexivity.
    + constructor.
    + vm_compute. discriminate.
    + reflexivity.
    + reflexivity.
    + by apply forallb_bytes.
    + vm_compute. discriminate.
    + reflexivity.
  - intros r w' (eth & pkt & len & s & Ht & _ & Hp & _ & _ & _ & _ & Hq & _ & _ & _ & Hb & _).
    exists eth, pkt, len, s. split; [exact Ht|]. split; [exact Hp|]. split; [exact Hq|exact Hb].
Defined.

(** [receive_tcp] always returns on a packet whose headers lie in memory
    and which acknowledges nothing unsent (a SYN must find memory and carry
    well-formed options): no freed connection is used, the invariant is kept,
    and the packet is dropped, serves one connection, or adds one in
    SYN_RCVD for a listening port. *)
Theorem receive_tcp_safe {A} {E : tcp_env A} (EO : env_ok E) (P : polite E)
    (pkt : list Z) (len : Z) (et : list Z) (p : option segment) (w : tcp_world A) :
  world_ok w -> Forall is_byte pkt -> parse_segment pkt len = Some p ->
  length et = 6%nat /\ Forall is_byte et -> (forall s, p = Some s -> seg_ok w s) ->
  wp (receive_tcp pkt len et) (fun _ w' => world_ok w' /\ received pkt w w' p) w.
Proof. intros. by apply wp_receive_tcp. Qed.

Lemma syn_parses : exists s, parse_segment syn_pkt (zlen syn_pkt) = Some (Some s) /\ seg_ok w_start s.
Proof.
  destruct (parse_segment syn_pkt (zlen syn_pkt)) as [[s|]|] eqn:Ep;
    [|vm_compute in Ep; discriminate Ep|vm_compute in Ep; discriminate Ep].
  exists s. split; [reflexivity|]. vm_compute in Ep. apply (inj Some), (inj Some) in Ep as <-. split.
  - intros x Hx. vm_compute in Hx. discriminate Hx.
  - intros _ _ _. split; [reflexivity|]. intros H. vm_compute in H. discriminate H.
Qed.

Lemma receive_tcp_safe_witness :
  wp (rx syn_pkt) (fun _ w' => world_ok w' /\ exists p, received syn_pkt w_start w' p) w_start.
Proof.
  destruct syn_parses as (s & Hp & Hs). unfold rx. eapply wp_conseq.
  - apply (receive_tcp_safe server_env_ok server_polite syn_pkt (zlen syn_pkt) mac_peer (Some s) w_start).
    + apply world_okb_ok. vm_compute. reflexivity.
    + apply forallb_bytes. vm_compute. reflexivity.
    + exact Hp.
    + split; [reflexivity|]. by apply forallb_bytes.
    + intros s' Hs'. apply (inj Some) in Hs' as <-. exact Hs.
  - intros r w' [Hw Hr]. split; [exact Hw|]. exists (Some s). exact Hr.
Defined.

(** [tcp_send_data] accepts a chunk exactly when the previous one is
    acknowledged and the connection is not being closed; it then starts at
    the current sequence number, and otherwise nothing changes. *)
Theorem tcp_send_data_correct {A} {E : tcp_env A} (c : Z) (x : tcp_conn) (data : list Z) (size : Z)
    (w : tcp_world A) :
  world_ok w -> conn_of c w = Some x -> 0 < c -> status x <> SYN_RCVD ->
  Forall is_byte data -> 0 < size < 2 ^ 30 -> size <= zlen data ->
  wp (tcp_send_data c (Some data) size) (fun r w' => app_step w w' /\
    ((r = 1 /\ tx_busy x /\ w' = w) \/
     (r = 0 /\ ~ tx_busy x /\ conn_of c w' = Some (with_chunk data size x)))) w.
Proof. intros. by apply wp_tcp_send_data. Qed.

Lemma tcp_send_data_correct_witness :
  wp (tcp_send_data 1 (Some hello) 5) (fun r w' => r = 0) w_est /\
  wp (tcp_send_data 1 (Some hello) 5) (fun r w' => r = 1) w_data.
Proof.
  split.
  - eapply wp_conseq.
    + apply (tcp_send_data_correct (E := server) 1 (conn1 w_est) hello 5 w_est);
        [apply world_okb_ok; vm_compute; reflexivity|reflexivity|lia|discriminate|
         by apply forallb_bytes|lia|vm_compute; discriminate].
    + intros r w' [_ [(_ & Hb & _)|(Hr & _)]]; [|exact Hr]. exfalso.
      destruct Hb as [Hb|[Hb _]]; vm_compute in Hb; [|apply Hb; reflexivity]. apply Hb. reflexivity.
  - eapply wp_conseq.
    + apply (tcp_send_data_correct (E := server) 1 (conn1 w_data) hello 5 w_data);
        [apply world_okb_ok; vm_compute; reflexivity|reflexivity|lia|discriminate|
         by apply forallb_bytes|lia|vm_compute; discriminate].
    + intros r w' [_ [(Hr & _)|(_ & Hb & _)]]; [exact Hr|]. exfalso. apply Hb. right.
      split; [discriminate|]. vm_compute. reflexivity.
Defined.






(** Resetting everything ends the network loop: all connections are
    removed without the use of a freed one, and the next periodic check
    reports success. *)
Theorem tcp_reset_all_ends {A} {E : tcp_env A} (EO : env_ok E) (w : tcp_world A) :
  world_ok w ->
  wp (tcp_reset_all_conn;; tcp_periodic_check)
    (fun _ w' => conn_head w' = [] /\ net_state w' = NETLOOP_SUCCESS) w.
Proof.
  intros Hw. apply wp_bind. eapply wp_conseq; [by apply wp_tcp_reset_all|].
  intros [] w' (_ & Hc & Hs). eapply wp_of_run; [apply periodic_ends; [done|lia]|]. by cbn.
Qed.

Lemma tcp_reset_all_ends_witness :
  wp (tcp_reset_all_conn;; tcp_periodic_check)
    (fun _ w' => conn_head w' = [] /\ net_state w' = NETLOOP_SUCCESS) w_data.
Proof.
  apply (tcp_reset_all_ends server_env_ok w_data). apply world_okb_ok. vm_compute. reflexivity.
Defined.

(** The comparison of sequence numbers is the signed difference modulo
    2^32, so it is right whenever the numbers are less than 2^31 apart. *)
Theorem tcp_seq_sub_correct (a n : Z) :
  is_u32 a -> - 2 ^ 31 <= n < 2 ^ 31 -> tcp_seq_sub (u32 (a + n)) a = n.
Proof.
  intros Ha Hn. rewrite tcp_seq_sub_i32 by (done || apply is_u32_u32). apply i32_unique; [|done].
  unfold u32. rewrite Zminus_mod_idemp_l. f_equal. lia.
Qed.

Lemma tcp_seq_sub_correct_witness : tcp_seq_sub 5 4294967290 = 11.
Proof. apply (tcp_seq_sub_correct 4294967290 11); unfold is_u32; lia. Defined.

(** Listening ports stay distinct: a port in use is refused, a new one is
    found afterwards. *)
Theorem tcp_listen_correct {A} {E : tcp_env A} (p cb0 : Z) (w : tcp_world A) :
  listen_ok w ->
  wp (tcp_listen p cb0) (fun r w' => listen_ok w' /\
    (p = 0 \/ cb0 = 0 -> r = - EINVAL /\ w' = w) /\
    (r = 0 -> tcp_listen_find p (listen_head w) = None /\
       listen_head w' = listen_head w ++ [mkListener p cb0] /\
       tcp_listen_find p (listen_head w') = Some (mkListener p cb0)) /\
    (p <> 0 -> cb0 <> 0 -> tcp_listen_find p (listen_head w) <> None -> r = - EADDRINUSE /\ w' = w)) w.
Proof. intros. by apply wp_tcp_listen. Qed.

Lemma tcp_listen_correct_witness : wp (tcp_listen (htons 80) 7) (fun r w' => r = - EADDRINUSE) w_start.
Proof.
  eapply wp_conseq.
  - apply (tcp_listen_correct (E := server) (htons 80) 7 w_start).
    split; [apply NoDup_singleton|]. by repeat constructor.
  - intros r w' (_ & _ & _ & H). apply H; vm_compute; discriminate.
Defined.

(** Round-trip estimates stay bounded by the largest round trip measured,
    and the retransmission timeout is at least 200 ms and does not overflow. *)
Theorem rtt_calc_bounded {A} {E : tcp_env A} (c : Z) (x : tcp_conn) (m : Z) (w : tcp_world A) :
  conn_of c w = Some x -> rtt_bounded m x -> m < 2 ^ 28 -> u32 (clock (reads w) - ts_rtt x) <= m ->
  wp (rtt_calc c) (fun _ w' => exists x', conn_of c w' = Some x' /\ rtt_bounded m x' /\
    rto x' = srtt x' + Z.max TCP_RTT_G (TCP_RTT_K * rttvar x') /\
    TCP_RTT_G <= rto x' <= 5 * m + TCP_RTT_G) w.
Proof. intros. by eapply wp_rtt_calc_bounded. Qed.

Lemma rtt_calc_bounded_witness :
  wp (rtt_calc 1) (fun _ w' => exists x', conn_of 1 w' = Some x' /\ 200 <= rto x' <= 700) w_data.
Proof.
  eapply wp_conseq.
  - apply (rtt_calc_bounded (E := server) 1 (conn1 w_data) 100 w_data);
      [reflexivity|split; vm_compute; split; discriminate|lia|vm_compute; discriminate].
  - intros [] w' (x' & Hx & _ & _ & Hr). exists x'. split; [exact Hx|exact Hr].
Defined.
