(* ===== verification/TcpFindings.v ===== *)
(** * Behaviour of the TCP stack on hostile or unlucky input

    Concrete runs, each checked by evaluation, that show where the
    assumptions of the theorems are needed. *)

From stdpp Require Import base numbers list relations.
From Stdlib Require Import ZArith Lia.
From S2P Require Import Prelude NetWire Tcp TcpInv TcpSend TcpRecv TcpOpen TcpTimer TcpStream TcpApi TcpRun.

(** The answer has been sent but not acknowledged. *)
Definition w_sent : tcp_world unit := Eval vm_compute in do_ tcp_periodic_check w_data.

(** A peer that acknowledges bytes that were never sent, twice. *)
Definition bad_ack_pkt : list Z := peer_pkt TCP_ACK 1006 128010 4096 [].
Definition w_bad_ack : tcp_world unit := Eval vm_compute in do_ (rx bad_ack_pkt;; rx bad_ack_pkt) w_sent.

(** C40 Two acknowledgements of bytes beyond those sent make the next periodic
    check read behind the application's data: the amount to retransmit wraps
    around. *)
Theorem tcp_overack_reads_outside :
  (rx bad_ack_pkt;; rx bad_ack_pkt) w_sent = Ret tt w_bad_ack /\
  txlen (conn1 w_bad_ack) = 3 /\ off_acked (conn1 w_bad_ack) = 9 /\
  rexmit_mode (conn1 w_bad_ack) = 1 /\
  tcp_periodic_check w_bad_ack = Stuck.
Proof. vm_compute. repeat split. Qed.

(** A SYN whose options start with an option of length zero. *)
Definition zero_opt_pkt : list Z := peer_opt_pkt [8; 0; 0; 0] TCP_SYN 1000 0 4096 [].

(** A TCP option with length byte zero makes [tcp_conn_create] examine it
    for ever: no number of rounds is enough. *)
Theorem tcp_zero_option_hangs :
  (exists s, parse_segment zero_opt_pkt (zlen zero_opt_pkt) = Some (Some s) /\
     forall fuel w, iter fuel (option_body (A := unit) 1 (sg_bytes s) (sg_hdrlen s)) TCP_HDR_SIZE w = NoFuel) /\
  rx zero_opt_pkt w_start = NoFuel.
Proof.
  split; [|vm_compute; reflexivity].
  eexists. split; [vm_compute; reflexivity|]. intros fuel w.
  by apply (option_loop_diverges 1 _ _ _ 8).
Qed.

(** A server on a machine where a reading of the timer takes 50 ms. *)
Definition slow : tcp_env unit :=
  mkEnv ip_server (le_value [255; 255; 255; 0]) 0 mac_server 65535 (fun n => 1000 + 50 * Z.of_nat n)
    (fun _ => true) (fun _ => 0) server_cb.

Definition slow_rx (pkt : list Z) : M (tcp_world unit) unit :=
  receive_tcp (E := slow) pkt (zlen pkt) mac_peer.
Definition slow_check : M (tcp_world unit) unit := tcp_periodic_check (E := slow).

Definition w_closed_window : tcp_world unit :=
  do_ (slow_rx (peer_pkt TCP_ACK 1001 128001 0 hello)) w_est.

(** The probe byte is sent and lost, the window opens, the chunk is sent
    again from the start, and the peer acknowledges all of it. *)
Definition w_probed : tcp_world unit := do_ (slow_check;; slow_check) w_closed_window.
Definition w_reopened : tcp_world unit :=
  do_ (slow_rx (peer_pkt TCP_ACK 1006 128001 4096 []);; slow_check) w_probed.
Definition full_ack_pkt : list Z := peer_pkt TCP_ACK 1006 128004 4096 [].
Definition w_lagging : tcp_world unit := do_ (slow_rx full_ack_pkt) w_reopened.

(** After a zero-window probe the retransmission goes beyond [local_seq],
    so that when the chunk is acknowledged the stack's next sequence number
    is behind what the peer has; a repeated acknowledgement then makes the
    periodic check read through the NULL pointer left in [tx]. *)
Theorem tcp_probe_leaves_sequence_behind :
  (txlen (conn1 w_reopened) = 3 /\ local_seq (conn1 w_reopened) = 128002 /\
   local_seq_acked (conn1 w_reopened) = 128001) /\
  (tx (conn1 w_lagging) = None /\ txlen (conn1 w_lagging) = 0 /\
   local_seq (conn1 w_lagging) = 128002 /\ local_seq_acked (conn1 w_lagging) = 128004) /\
  (slow_rx full_ack_pkt;; slow_check) w_lagging = Stuck.
Proof. vm_compute. repeat split. Qed.

(** The number of frames sent. *)
Fixpoint frames (t : list tcp_event) : nat :=
  match t with [] => O | EvSend _ :: t => S (frames t) | EvCall _ _ :: t => frames t end.

Fixpoint repeat_ (n : nat) (m : M (tcp_world unit) unit) : M (tcp_world unit) unit :=
  match n with O => ret tt | S n => m;; repeat_ n m end.

(** The timeout of a connection in SYN_RCVD is zero and doubling it does not
    help: each of twenty checks sends SYN and ACK again, within 80 ms. *)
Theorem tcp_syn_ack_without_backoff :
  rto (conn1 w_syn) = 0 /\ frames (trace w_syn) = 1%nat /\
  match repeat_ 20 tcp_periodic_check w_syn with
  | Ret _ w => frames (trace w) = 21%nat /\ (reads w <= reads w_syn + 80)%nat
  | _ => False
  end.
Proof. vm_compute. repeat split; lia. Qed.

(** An urgent pointer behind the end of the segment makes the length given to
    the application wrap around. *)
Definition urg_pkt : list Z :=
  let h := mkIp 69 0 (htons 45) 0 0 64 IPPROTO_TCP 0 ip_peer ip_server in
  let t sum := mkTcp (htons 40000) (htons 80) (htonl 1001) (htonl 128001)
    (htons (Z.lor (Z.shiftl 5 12) (Z.lor TCP_ACK TCP_URG))) (htons 4096) sum (htons 10) in
  match tcp_checksum_compute (tcp_bytes (t 0) ++ hello) 25 ip_peer ip_server with
  | Some sum => ip_bytes h ++ tcp_bytes (t sum) ++ hello
  | None => []
  end.

Theorem tcp_urgent_length_wraps :
  match rx urg_pkt w_est with
  | Ret _ w => exists cbd, trace w = trace w_est ++ [EvCall 1 cbd] /\
      cbd_status cbd = TCP_CB_DATA_RCVD /\ cbd_datalen cbd = 4294967291 /\ cbd_data cbd = []
  | _ => False
  end.
Proof. vm_compute. eexists. repeat split. Qed.

(** No memory for a new connection: the error path uses the NULL pointer. *)
Definition poor : tcp_env unit :=
  mkEnv ip_server (le_value [255; 255; 255; 0]) 0 mac_server 65535 (fun n => 1000 + Z.of_nat n)
    (fun _ => false) (fun _ => 0) server_cb.

Theorem tcp_conn_create_null :
  receive_tcp (E := poor) syn_pkt (zlen syn_pkt) mac_peer w_start = Stuck.
Proof. vm_compute. reflexivity. Qed.

(** A callback that resets its connection, as [httpd_tcp_callback] does on
    errors: [receive_tcp] goes on using the freed structure. *)
Definition rude_cb (h : Z) (cbd : tcb_cb_data) : M (tcp_world unit) tcb_cb_data :=
  do _ <- tcp_close_conn (E := server) (cbd_conn cbd) 1;
  ret cbd.

Definition rude : tcp_env unit :=
  mkEnv ip_server (le_value [255; 255; 255; 0]) 0 mac_server 65535 (fun n => 1000 + Z.of_nat n)
    (fun _ => true) (fun _ => 0) rude_cb.

Theorem tcp_callback_reset_used_after_free :
  receive_tcp (E := rude) (peer_pkt (Z.lor TCP_ACK TCP_FIN) 1001 128001 4096 hello) 45 mac_peer w_est = Stuck.
Proof. vm_compute. reflexivity. Qed.
