(* ===== verification/NetProps.v ===== *)
(** * Frames and the network loop: theorems

    Frames of any contents, frames between two devices, and packets that wait
    for an address; the frames they are applied to. *)

From stdpp Require Import base numbers list option.
From Stdlib Require Import ZArith Lia.
From S2P Require Import Prelude NetWire Tcp TcpInv TcpSend TcpRecv TcpOpen TcpTimer TcpStream TcpApi TcpHistory Net NetSpec TcpRun.

(** ** Frames of a peer

    Those of the peer of [TcpRun], and a connection whose peer's Ethernet address
    is not known. *)

(** An IP packet with its checksum, in a frame at the start of a buffer. *)
Definition with_ip_sum (pkt : list Z) : list Z :=
  match compute_ip_checksum pkt IP_HDR_SIZE with
  | Some sum => match splice pkt 10 (le_bytes 2 (u16 sum)) with Some pkt => pkt | None => [] end
  | None => []
  end.

Definition received_frame (prot : Z) (dest body : list Z) : list Z * Z :=
  let frame := net_set_ether mac_peer 65535 dest prot ++ body in
  (frame ++ fill 0 (PKTSIZE_ALIGN - zlen frame), zlen frame).

Definition from_peer (pkt : list Z) : list (list Z * Z) := [received_frame PROT_IP mac_server (with_ip_sum pkt)].

(** ARP packets of the peer. *)
Definition arp_packet (op : Z) : list Z :=
  le_bytes 2 (htons ARP_ETHER) ++ le_bytes 2 (htons PROT_IP) ++ [ARP_HLEN; ARP_PLEN] ++ le_bytes 2 (htons op) ++
  mac_peer ++ le_bytes 4 ip_peer ++ net_null_ethaddr ++ le_bytes 4 ip_server.

Definition who_has : list (list Z * Z) := [received_frame PROT_ARP net_bcast_ethaddr (arp_packet ARPOP_REQUEST)].
Definition is_at : list (list Z * Z) := [received_frame PROT_ARP mac_server (arp_packet ARPOP_REPLY)].

(** ** A peer without an address *)

Definition nowhere : tcp_conn := (conn1 w_est) <| ethaddr := net_null_ethaddr |>.
Definition w_nowhere : tcp_world unit := w_est <| conn_head := [(1, nowhere)] |>.

(** The reply arrives after the peer has reset the connection: its address is
    written into the freed connection. *)
Theorem arp_reply_after_reset :
  (do _ <- tcp_send_packet_opt 1 TCP_ACK 128001 1001 [] (Some reply, 0) 3;
   process_all 65535 (from_peer (peer_pkt (Z.lor TCP_RST TCP_ACK) 1001 128001 4096 []));;
   process_all 65535 is_at)%mon w_nowhere = Stuck.
Proof. vm_compute. reflexivity. Qed.

(** The waiting packet shares its buffer with everything else that is sent:
    here it is replaced by an answer to a request. *)
Theorem arp_waiting_packet_overwritten :
  match (do _ <- tcp_send_packet_opt 1 TCP_ACK 128001 1001 [] (Some reply, 0) 3;
         process_all 65535 who_has;; process_all 65535 is_at)%mon w_nowhere with
  | Ret _ w => exists q a f, trace w = trace w_nowhere ++ [EvSend q; EvSend a; EvSend f] /\
      load 2 12 f = Some (htons PROT_ARP) /\ slice f 14 28 = slice a 14 28
  | _ => False
  end.
Proof. vm_compute. do 3 eexists. repeat split. Qed.

(** C15 A frame of any contents, with any application on the stack, is routed
    without an access outside the receive buffer: it is dropped without a
    trace, or given to ARP, or it carries an IP packet for this device with a
    correct header, no fragment and within the frame, which is given to
    [receive_tcp], whose header checks stay in the buffer.  What follows keeps
    the invariant and touches no freed connection under three conditions: the
    connection a packet waits to be addressed for is still there
    ([arp_live]); the segment acknowledges nothing unsent, has less than 2^30
    bytes, and if it opens a connection finds memory and well-formed options
    ([seg_ok]); and the application does not free connections in its
    callbacks ([polite]).  Then the frame is dropped, or ARP answers it or uses it
    for an address, or it has the effect [receive_tcp] promises. *)
Theorem net_frame_safe {A} {E : tcp_env A} (EO : env_ok E) (nv : Z) (mem : list Z) (len : Z) (w : tcp_world A) :
  world_ok w -> zlen mem = PKTSIZE_ALIGN -> Forall is_byte mem -> 0 <= len <= PKTSIZE_ALIGN ->
  routed nv mem len w /\
  (polite E -> arp_live w ->
   (forall hdr h s, frame_header hdr -> for_us (drop (Z.to_nat hdr) mem) (len - hdr) h ->
      parse_segment (drop (Z.to_nat hdr) mem) (ntohs (ip_len h)) = Some (Some s) -> seg_ok w s) ->
   wp (net_process_received_packet nv mem len) (fun _ w' => world_ok w' /\ handled mem len w w') w).
Proof. intros Hw Hz Hb Hl. split; [by apply net_process_routed|]. intros P Hlv Hs. by apply wp_net_process. Qed.

(** The opening packet of [TcpRun] in a frame. *)
Definition syn_mem : list Z := (received_frame PROT_IP mac_server (with_ip_sum syn_pkt)).1.

Lemma syn_frame_ok hdr h s : frame_header hdr ->
  for_us (E := server) (drop (Z.to_nat hdr) syn_mem) (54 - hdr) h ->
  parse_segment (drop (Z.to_nat hdr) syn_mem) (ntohs (ip_len h)) = Some (Some s) -> seg_ok (E := server) w_start s.
Proof.
  intros Hh [Hl _ [Hv _] Hs _ _ _] Hp. destruct Hh as [-> | [-> | ->]].
  - vm_compute in Hl. apply (inj Some) in Hl as <-. vm_compute in Hp. apply (inj Some), (inj Some) in Hp as <-. split.
    + intros x Hx. vm_compute in Hx. discriminate Hx.
    + intros _ _ _. split; [reflexivity|]. intros Hn. vm_compute in Hn. discriminate Hn.
  - vm_compute in Hl. apply (inj Some) in Hl as <-. vm_compute in Hv. discriminate Hv.
  - vm_compute in Hs. discriminate Hs.
Qed.

Lemma net_frame_safe_witness :
  routed (E := server) 65535 syn_mem 54 w_start /\
  wp (net_process_received_packet (E := server) 65535 syn_mem 54) (fun _ w' => world_ok w' /\ handled (E := server) syn_mem 54 w_start w') w_start.
Proof.
  destruct (net_frame_safe server_env_ok 65535 syn_mem 54 w_start) as [Hr Hs].
  - apply world_okb_ok. vm_compute. reflexivity.
  - vm_compute. reflexivity.
  - apply forallb_bytes. vm_compute. reflexivity.
  - vm_compute. split; discriminate.
  - split; [exact Hr|]. apply Hs.
    + exact server_polite.
    + intros Hn. exfalso. apply Hn. reflexivity.
    + exact syn_frame_ok.
Defined.

(** C31 Two devices in the same network: a segment one of them sends on a
    connection to the other reaches the other's [receive_tcp], from the receive
    buffer behind all checks of the network code, and parses to the same
    addresses, numbers, flags and payload; the receiver takes the sender's
    Ethernet address. *)
Theorem net_frame_arrives {A A2} {E : tcp_env A} {E2 : tcp_env A2} (EO : env_ok E) (c : Z) (x : tcp_conn)
    (flags sq ak : Z) (opt : list Z) (payload : option (list Z) * Z) (body : list Z) (w : tcp_world A) :
  net_our_vlan (tcp_env := E) = net_our_vlan (tcp_env := E2) -> ip_remote x = net_ip (tcp_env := E2) ->
  world_ok w -> conn_of c w = Some x -> is_null_ethaddr (ethaddr x) = false ->
  Forall is_byte opt -> zlen opt <= 8 -> zlen opt mod 4 = 0 ->
  payload_bytes payload (zlen body) = Some body -> Forall is_byte body ->
  zlen opt + zlen body <= 1470 -> Z.land flags TCP_URG = 0 ->
  wp (tcp_send_packet_opt (E := E) c flags sq ak opt payload (zlen body)) (fun _ w' => exists frame pkt,
    trace w' = trace w ++ [EvSend frame] /\
    forall nv junk, exists s,
      (forall w2, net_process_received_packet (E := E2) nv (frame ++ junk) (zlen frame) w2 =
        receive_tcp (E := E2) (pkt ++ junk) (zlen pkt) (net_ethaddr (tcp_env := E)) w2) /\
      parse_segment (pkt ++ junk) (zlen pkt) = Some (Some s) /\
      sg_ip s = net_ip (tcp_env := E) /\ src (sg_hdr s) = port_local x /\ dst (sg_hdr s) = port_remote x /\
      sg_seq s = u32 sq /\ sg_ack s = u32 ak /\ (forall m, 0 <= m < 64 -> Z.land (sg_flags s) m = Z.land flags m) /\
      take (Z.to_nat (sg_size s)) (drop (Z.to_nat (sg_data s)) (pkt ++ junk)) = body) w.
Proof.
  intros Hvl Hip Hw Hx Hnn Ho Hol Hm4 Hp Hb Hl Hu. eapply wp_send_opt; [done..|].
  intros w' r _ _ Hcar. destruct (Hcar Hnn) as (frame & eth & h & t & Hca & Ht).
  destruct (carries_parses _ _ _ _ _ _ _ _ _ _ Hca Ho Hb Hol Hm4 Hl Hu) as (s & Hps & H1 & H2 & H3 & H4 & H5 & H6 & _ & H8 & H9).
  exists frame, (drop (length eth) frame). split; [done|]. intros nv junk.
  assert (Hz : zlen (drop (length eth) frame) = ntohs (ip_len h)).
  { rewrite (fr_frame _ _ _ _ _ _ _ _ _ _ Hca), drop_app_length, !zlen_app, zlen_ip_bytes, zlen_tcp_bytes.
    rewrite (fr_ip_len _ _ _ _ _ _ _ _ _ _ Hca). lia. }
  eexists. split_and!.
  - intros w2. rewrite Hz. eapply (carries_accepted E); [exact Hca|apply EO| |done|done|done].
    by destruct (wo_conns _ Hw _ _ Hx) as [_ _ _ _ _ _ _ _ _ [? _] _ _ _].
  - rewrite Hz. apply parse_segment_more, Hps.
  - done.
  - done.
  - done.
  - done.
  - done.
  - done.
  - cbn [sg_size sg_data]. rewrite H9. unfold zlen. rewrite Nat2Z.id. set (n := Z.to_nat (sg_data s)) in *.
    destruct (decide (n <= length (drop (length eth) frame))%nat) as [Hn|Hn].
    + rewrite drop_app_le, H8 by done. apply take_app_length.
    + assert (E0 : body = []) by (rewrite <- H8; apply drop_ge; lia). by rewrite E0.
Qed.

(** The peer of the connection of [TcpRun]. *)
Definition peer : tcp_env unit :=
  mkEnv ip_peer (le_value [255; 255; 255; 0]) 0 mac_peer 65535 (fun n => 1000 + Z.of_nat n) (fun _ => true) (fun _ => 0) server_cb.

Lemma net_frame_arrives_witness :
  wp (tcp_send_packet_opt (E := server) 1 TCP_ACK 128001 1006 [] (Some reply, 0) (zlen reply)) (fun _ w' => exists frame pkt,
    trace w' = trace w_data ++ [EvSend frame] /\
    forall nv junk, exists s,
      (forall w2, net_process_received_packet (E := peer) nv (frame ++ junk) (zlen frame) w2 =
        receive_tcp (E := peer) (pkt ++ junk) (zlen pkt) mac_server w2) /\
      parse_segment (pkt ++ junk) (zlen pkt) = Some (Some s) /\ sg_seq s = 128001) w_data.
Proof.
  eapply wp_conseq.
  - apply (net_frame_arrives (E2 := peer) server_env_ok 1 (conn1 w_data) TCP_ACK 128001 1006 [] (Some reply, 0) reply w_data).
    + reflexivity.
    + vm_compute. reflexivity.
    + apply world_okb_ok. vm_compute. reflexivity.
    + reflexivity.
    + vm_compute. reflexivity.
    + constructor.
    + vm_compute. discriminate.
    + reflexivity.
    + reflexivity.
    + by apply forallb_bytes.
    + vm_compute. discriminate.
    + reflexivity.
  - intros r w' (frame & pkt & Ht & Hf). exists frame, pkt. split; [exact Ht|]. intros nv junk.
    destruct (Hf nv junk) as (s & Hp & Hs & _ & _ & _ & Hq & _). exists s. split; [exact Hp|]. split; [exact Hs|exact Hq].
Defined.

Lemma arp_load_sha l a : arp_load l = Some a -> zlen (ar_sha a) = 6.
Proof.
  intros Ha. unfold arp_load in Ha. destruct (slice l 8 6) as [sha|] eqn:Es; repeat case_match; try done.
  injection Ha as <-. by eapply slice_zlen.
Qed.

(** C32 A segment for a peer whose Ethernet address is not known is not lost: the
    address of the next hop is asked for, and when the reply arrives the segment
    is sent to that address, and the connection keeps it. *)
Theorem arp_sends_waiting {A} {E : tcp_env A} (EO : env_ok E) (c : Z) (x : tcp_conn) (flags sq ak : Z) (opt : list Z)
    (payload : option (list Z) * Z) (body : list Z) (nv : Z) (mac dest rest : list Z) (len : Z) (a : arp_hdr) (w : tcp_world A) :
  world_ok w -> conn_of c w = Some x -> 0 < c -> is_null_ethaddr (ethaddr x) = true -> ip_remote x <> 0 -> net_ip <> 0 ->
  Forall is_byte opt -> zlen opt <= 8 -> payload_bytes payload (zlen body) = Some body -> Forall is_byte body -> zlen opt + zlen body <= 1470 ->
  length mac = 6%nat -> length dest = 6%nat -> arp_load rest = Some a -> arp_reply (next_hop (ip_remote x)) a ->
  let eth := net_set_ether mac net_our_vlan dest PROT_ARP in
  zlen eth + ARP_HDR_SIZE <= len < 2 ^ 31 ->
  wp (do _ <- tcp_send_packet_opt c flags sq ak opt payload (zlen body); net_process_received_packet nv (eth ++ rest) len)
    (fun _ w' => exists frame eth h t, carries (x <| ethaddr := ar_sha a |>) flags sq ak opt body frame eth h t /\
      trace w' = trace w ++ [EvSend (arp_question (next_hop (ip_remote x))); EvSend frame] /\
      conn_of c w' = Some (x <| ethaddr := ar_sha a |>) /\ net_arp_wait_packet_ip w' = 0) w.
Proof.
  intros Hw Hx Hc Hnull Hr0 Hip Ho Hol Hp Hb Hl Hm Hd Ha Hrp eth Hlen. apply wp_bind. eapply wp_send_opt_full; [done..|].
  intros w1 _ Hst Hh _ Hwt. destruct (Hwt Hnull) as (frame & e & h & t & Hca & [Hw1 Hw2 Hw3 Hw4 Hw5 Hw6]).
  pose proof (wo_conns _ Hw _ _ Hx) as Hok. pose proof (net_set_ether_len _ net_our_vlan _ PROT_IP (proj1 eo_eth) (proj1 (co_eth _ Hok))) as Hel.
  unfold wp, eth. unfold ARP_HDR_SIZE in Hlen. rewrite ether_accepted; [|done|done|by right|fold eth; lia]. fold eth.
  change (PROT_ARP =? PROT_ARP) with true. cbv iota.
  rewrite (arp_receive_reply _ _ _ a); [|unfold zlen; by rewrite Nat2Z.id, drop_app_length|by rewrite Hw2|lia|done|by rewrite Hw1].
  change (wp (arp_resolved a) (fun _ w' => exists frame eth h t, carries (x <| ethaddr := ar_sha a |>) flags sq ak opt body frame eth h t /\
      trace w' = trace w ++ [EvSend (arp_question (next_hop (ip_remote x))); EvSend frame] /\
      conn_of c w' = Some (x <| ethaddr := ar_sha a |>) /\ net_arp_wait_packet_ip w' = 0) w1).
  eapply wp_conseq; [apply (wp_arp_resolved c x frame (net_tx_packet w)); try done; [by rewrite Hh|by eapply arp_load_sha|]|].
  - rewrite (fr_frame _ _ _ _ _ _ _ _ _ _ Hca), zlen_app, (fr_eth _ _ _ _ _ _ _ _ _ _ Hca). pose proof (zlen_nonneg (ip_bytes h ++ tcp_bytes t ++ opt ++ body)).
    unfold zlen at 1. lia.
  - intros [] w2 (Hx2 & Ht2 & Hz2). do 4 eexists. split; [eapply carries_readdress; [exact Hca|apply Hok|apply EO]|].
    split_and!; [|done|done]. by rewrite Ht2, Hw6, <- app_assoc.
Qed.

Lemma nowhere_reply : exists a, arp_load (arp_packet ARPOP_REPLY) = Some a /\ arp_reply (E := server) ip_peer a /\ ar_sha a = mac_peer.
Proof. eexists. split; [vm_compute; reflexivity|]. split; [|reflexivity]. constructor; vm_compute; reflexivity. Qed.

Lemma arp_sends_waiting_witness :
  wp (do _ <- tcp_send_packet_opt (E := server) 1 TCP_ACK 128001 1001 [] (Some reply, 0) (zlen reply);
      net_process_received_packet (E := server) 65535 (net_set_ether mac_peer 65535 mac_server PROT_ARP ++ arp_packet ARPOP_REPLY) 42)
    (fun _ w' => exists frame, trace w' = trace w_nowhere ++ [EvSend (arp_question (E := server) ip_peer); EvSend frame] /\
      conn_of 1 w' = Some (nowhere <| ethaddr := mac_peer |>)) w_nowhere.
Proof.
  destruct nowhere_reply as (a & Ha & Hr & Hs). eapply wp_conseq.
  - apply (arp_sends_waiting (E := server) server_env_ok 1 nowhere TCP_ACK 128001 1001 [] (Some reply, 0) reply 65535
      mac_peer mac_server (arp_packet ARPOP_REPLY) 42 a w_nowhere).
    + apply world_okb_ok. vm_compute. reflexivity.
    + reflexivity.
    + lia.
    + reflexivity.
    + vm_compute. discriminate.
    + vm_compute. discriminate.
    + constructor.
    + vm_compute. discriminate.
    + reflexivity.
    + by apply forallb_bytes.
    + vm_compute. discriminate.
    + reflexivity.
    + reflexivity.
    + exact Ha.
    + exact Hr.
    + vm_compute. split; [discriminate|reflexivity].
  - intros [] w' (frame & _ & _ & _ & _ & Ht & Hx & _). rewrite Hs in Hx. exists frame. split; [exact Ht|exact Hx].
Defined.
