(* ===== verification/Mtd.v ===== *)
(** * The MTD layer

    [struct mtd_info] with its operations and the entry points of
    drivers/mtd/mtdcore.c and include/linux/mtd/mtd.h that the flash code of
    the board goes through.  A device's operations are function pointers: the
    record is parameterised by the monad they run in, so the same entry
    points serve the raw NAND device below NMBM and the device NMBM offers. *)

From stdpp Require Import base numbers list option.
From Stdlib Require Import ZArith Lia.
From S2P Require Import Prelude NmbmTypes.

(** ** Constants *)

Definition MTD_NANDFLASH : Z := 4.
Definition MTD_WRITEABLE : Z := 0x400.
Definition MTD_CAP_NANDFLASH : Z := MTD_WRITEABLE.
Definition MTD_DEV_TYPE_NMBM : Z := 0x10.

Definition MTD_OPS_PLACE_OOB : Z := 0.
Definition MTD_OPS_AUTO_OOB : Z := 1.
Definition MTD_OPS_RAW : Z := 2.

Definition MTD_ERASING : Z := 0x02.
Definition MTD_ERASE_DONE : Z := 0x08.
Definition MTD_ERASE_FAILED : Z := 0x10.
Definition MTD_FAIL_ADDR_UNKNOWN : Z := u64 (-1).

Definition ENOMEM : Z := 12.
Definition EBADMSG : Z := 74.
Definition EOPNOTSUPP : Z := 95.
Definition EUCLEAN : Z := 117.
Definition ENOTSUPP : Z := 524.

(** ** Structures *)

(** [struct erase_info].  All callers leave [callback] NULL, so that
    [mtd_erase_callback] does nothing. *)
Record erase_info := mkErase {
  ei_addr : Z;
  ei_len : Z;
  ei_fail_addr : Z;
  ei_state : Z
}.

(** [struct mtd_oob_ops]; a buffer is [None] for NULL, otherwise its bytes. *)
Record mtd_oob_ops := mkOobOps {
  ops_mode : Z;
  ops_len : Z;
  ops_retlen : Z;
  ops_ooblen : Z;
  ops_oobretlen : Z;
  ops_ooboffs : Z;
  ops_datbuf : option (list Z);
  ops_oobbuf : option (list Z)
}.

(** [struct mtd_info], the members the modelled code uses.  [_read] and
    [_write] are given the value behind [retlen] and return its new value. *)
Record mtd_info (m : Type -> Type) := mkMtd {
  mtd_type : Z;
  mtd_flags : Z;
  mtd_size : Z;
  mtd_erasesize : Z;
  mtd_writesize : Z;
  mtd_oobsize : Z;
  mtd_oobavail_field : Z;
  mtd_bitflip_threshold : Z;
  mtd_ecc_strength : Z;
  mtd_read_op : Z -> list Z -> Z -> m (Z * list Z * Z)%type;
  mtd_write_op : option (Z -> list Z -> Z -> m (Z * Z)%type);
  mtd_erase_op : erase_info -> m (Z * erase_info)%type;
  mtd_read_oob_op : option (Z -> mtd_oob_ops -> m (Z * mtd_oob_ops)%type);
  mtd_write_oob_op : option (Z -> mtd_oob_ops -> m (Z * mtd_oob_ops)%type);
  mtd_block_isbad_op : option (Z -> m Z);
  mtd_block_markbad_op : option (Z -> m Z)
}.
Arguments mkMtd {m}.
Arguments mtd_type {m}.
Arguments mtd_flags {m}.
Arguments mtd_size {m}.
Arguments mtd_erasesize {m}.
Arguments mtd_writesize {m}.
Arguments mtd_oobsize {m}.
Arguments mtd_oobavail_field {m}.
Arguments mtd_bitflip_threshold {m}.
Arguments mtd_ecc_strength {m}.
Arguments mtd_read_op {m}.
Arguments mtd_write_op {m}.
Arguments mtd_erase_op {m}.
Arguments mtd_read_oob_op {m}.
Arguments mtd_write_oob_op {m}.
Arguments mtd_block_isbad_op {m}.
Arguments mtd_block_markbad_op {m}.

Definition erase_info_eta (e : erase_info) : erase_info :=
  mkErase (ei_addr e) (ei_len e) (ei_fail_addr e) (ei_state e).

#[global] Instance member_ei_fail_addr : Member ei_fail_addr.
Proof. derive_member erase_info_eta ei_fail_addr. Defined.
#[global] Instance member_ei_state : Member ei_state.
Proof. derive_member erase_info_eta ei_state. Defined.

Definition oob_ops_eta (o : mtd_oob_ops) : mtd_oob_ops :=
  mkOobOps (ops_mode o) (ops_len o) (ops_retlen o) (ops_ooblen o) (ops_oobretlen o)
    (ops_ooboffs o) (ops_datbuf o) (ops_oobbuf o).

#[global] Instance member_ops_retlen : Member ops_retlen.
Proof. derive_member oob_ops_eta ops_retlen. Defined.
#[global] Instance member_ops_oobretlen : Member ops_oobretlen.
Proof. derive_member oob_ops_eta ops_oobretlen. Defined.
#[global] Instance member_ops_datbuf : Member ops_datbuf.
Proof. derive_member oob_ops_eta ops_datbuf. Defined.
#[global] Instance member_ops_oobbuf : Member ops_oobbuf.
Proof. derive_member oob_ops_eta ops_oobbuf. Defined.

(** ** Monads *)

#[global] Instance M_ret {S} : MRet (M S) := fun _ a => ret a.
#[global] Instance M_bind {S} : MBind (M S) := fun _ _ f m => bind m f.

(** Operations of a driver that always returns. *)
Definition total (D A : Type) : Type := D -> A * D.
#[global] Instance total_ret {D} : MRet (total D) := fun _ a d => (a, d).
#[global] Instance total_bind {D} : MBind (total D) := fun _ _ f m d => let (a, d') := m d in f a d'.

(** ** Entry points *)

Section Entry.
Context {m : Type -> Type} {Hret : MRet m} {Hbind : MBind m}.
Implicit Types mtd : mtd_info m.

Definition mtd_oobavail mtd (ops : mtd_oob_ops) : Z :=
  if ops_mode ops =? MTD_OPS_AUTO_OOB then mtd_oobavail_field mtd else mtd_oobsize mtd.

Definition mtd_writeable mtd : bool := negb (Z.land (mtd_flags mtd) MTD_WRITEABLE =? 0).

Definition mtd_erase mtd (instr : erase_info) : m (Z * erase_info)%type :=
  if (mtd_size mtd <? ei_addr instr) || (mtd_size mtd - ei_addr instr <? ei_len instr)
  then mret (- EINVAL, instr)
  else if negb (mtd_writeable mtd) then mret (- EROFS, instr)
  else
    let instr := instr <| ei_fail_addr := MTD_FAIL_ADDR_UNKNOWN |> in
    if ei_len instr =? 0 then mret (0, instr <| ei_state := MTD_ERASE_DONE |>)
    else mtd_erase_op mtd instr.

(** The driver's count of corrected bit flips, as an error code. *)
Definition mtd_read_code mtd (ret_code : Z) : Z :=
  if ret_code <? 0 then ret_code
  else if mtd_ecc_strength mtd =? 0 then 0
  else if mtd_bitflip_threshold mtd <=? ret_code then - EUCLEAN else 0.

Definition mtd_read_oob mtd (from : Z) (ops : mtd_oob_ops) : m (Z * mtd_oob_ops)%type :=
  let ops := ops <| ops_oobretlen := 0 |> <| ops_retlen := 0 |> in
  match mtd_read_oob_op mtd with
  | None => mret (- EOPNOTSUPP, ops)
  | Some f => '(ret_code, ops) ← f from ops; mret (mtd_read_code mtd ret_code, ops)
  end.

Definition mtd_write_oob mtd (to : Z) (ops : mtd_oob_ops) : m (Z * mtd_oob_ops)%type :=
  let ops := ops <| ops_oobretlen := 0 |> <| ops_retlen := 0 |> in
  match mtd_write_oob_op mtd with
  | None => mret (- EOPNOTSUPP, ops)
  | Some f => if negb (mtd_writeable mtd) then mret (- EROFS, ops) else f to ops
  end.

Definition mtd_block_isbad mtd (ofs : Z) : m Z :=
  if (ofs <? 0) || (mtd_size mtd <? ofs) then mret (- EINVAL)
  else match mtd_block_isbad_op mtd with None => mret 0 | Some f => f ofs end.

Definition mtd_block_markbad mtd (ofs : Z) : m Z :=
  match mtd_block_markbad_op mtd with
  | None => mret (- EOPNOTSUPP)
  | Some f =>
      if (ofs <? 0) || (mtd_size mtd <? ofs) then mret (- EINVAL)
      else if negb (mtd_writeable mtd) then mret (- EROFS)
      else f ofs
  end.

End Entry.

(** [mtd_read] and [mtd_write]: return value, buffer, and the value behind
    [retlen], which is [None] for a NULL pointer.  The first statement of
    both stores through it. *)
Section ReadWrite.
Context {S : Type}.
Implicit Types mtd : mtd_info (M S).

Definition mtd_read mtd (from : Z) (buf : list Z) (retlen : option Z) : M S (Z * list Z * Z) :=
  do _ <- lift retlen;
  let len := zlen buf in
  if (from <? 0) || (mtd_size mtd <? from) || (mtd_size mtd - from <? len) then ret (- EINVAL, buf, 0)
  else if len =? 0 then ret (0, buf, 0)
  else
    do '(ret_code, buf, retlen) <- mtd_read_op mtd from buf 0;
    ret (mtd_read_code mtd ret_code, buf, retlen).

Definition mtd_write mtd (to : Z) (buf : list Z) (retlen : option Z) : M S (Z * Z) :=
  do _ <- lift retlen;
  let len := zlen buf in
  if (to <? 0) || (mtd_size mtd <? to) || (mtd_size mtd - to <? len) then ret (- EINVAL, 0)
  else
    match mtd_write_op mtd with
    | None => ret (- EROFS, 0)
    | Some f =>
        if negb (mtd_writeable mtd) then ret (- EROFS, 0)
        else if len =? 0 then ret (0, 0)
        else f to buf 0
    end.

End ReadWrite.
