(* ===== verification/NmbmMtd.v ===== *)
(** * NMBM as an MTD device

    drivers/mtd/nmbm/nmbm-mtd.c: the lower device NMBM drives, made from the
    raw NAND's [struct mtd_info], and the MTD device NMBM offers. *)

From stdpp Require Import base numbers list option.
From Stdlib Require Import ZArith Lia.
From S2P Require Import Prelude IntLib NmbmTypes NmbmPhys NmbmState NmbmTable NmbmAttach NmbmLogic Mtd.

(** ** The lower side

    [lower] is the raw NAND device; its operations belong to the NAND driver.
    [nand_reset] is the driver's chip reset, whose result NMBM ignores. *)
Section Lower.
Context {D : Type} (nand_reset : D -> D) (lower : mtd_info (total D)).

Definition nmbm_lower_reset_chip (d : D) : D := nand_reset d.

Definition lower_ops_mode (mode : nmbm_oob_mode) : Z :=
  match mode with
  | NMBM_MODE_PLACE_OOB => MTD_OPS_PLACE_OOB
  | NMBM_MODE_AUTO_OOB => MTD_OPS_AUTO_OOB
  | NMBM_MODE_RAW => MTD_OPS_RAW
  end.

(** The request both page operations build. *)
Definition lower_ops (buf oob : option (list Z)) (mode : nmbm_oob_mode) : mtd_oob_ops :=
  let ops := mkOobOps (lower_ops_mode mode) 0 0 0 0 0 None None in
  mkOobOps (lower_ops_mode mode)
    (match buf with Some _ => mtd_writesize lower | None => 0 end) 0
    (match oob with Some _ => mtd_oobavail lower ops | None => 0 end) 0 0 buf oob.

(** The ECC counters of the upper device, copied from the lower one here, are
    read by nothing in the library and left out. *)
Definition nmbm_lower_read_page (d : D) (addr : Z) (buf oob : option (list Z))
    (mode : nmbm_oob_mode) : D * Z * list Z * list Z :=
  let '(r, ops, d) := mtd_read_oob lower addr (lower_ops buf oob mode) d in
  (d,
   (if r =? - EBADMSG then 1
    else if negb (r =? 0) && negb (r =? - EUCLEAN) then r
    else 0),
   default [] (ops_datbuf ops), default [] (ops_oobbuf ops)).

Definition nmbm_lower_write_page (d : D) (addr : Z) (buf oob : option (list Z))
    (mode : nmbm_oob_mode) : D * Z :=
  let '(r, _, d) := mtd_write_oob lower addr (lower_ops buf oob mode) d in
  (d, r).

Definition nmbm_lower_erase_block (d : D) (addr : Z) : D * Z :=
  let '(r, _, d) := mtd_erase lower (mkErase addr (mtd_erasesize lower) 0 0) d in
  (d, r).

Definition nmbm_lower_is_bad_block (d : D) (addr : Z) : D * Z :=
  let '(r, d) := mtd_block_isbad lower addr d in (d, r).

Definition nmbm_lower_mark_bad_block (d : D) (addr : Z) : D * Z :=
  let '(r, d) := mtd_block_markbad lower addr d in (d, r).

(** [struct nmbm_lower_device nld] of [nmbm_attach_mtd]. *)
Definition nmbm_nld (fl ratio reserved : Z) : nmbm_lower_device D :=
  mkLower ratio reserved fl (mtd_size lower) (mtd_erasesize lower) (mtd_writesize lower)
    (mtd_oobsize lower) (mtd_oobavail_field lower) true
    (Some nmbm_lower_reset_chip) nmbm_lower_read_page nmbm_lower_write_page
    nmbm_lower_erase_block (Some nmbm_lower_is_bad_block) (Some nmbm_lower_mark_bad_block).

End Lower.

(** ** The device state ([struct nmbm_mtd])

    [nm_lower] identifies the lower device, [nm_upper_size] is [upper.size];
    the other members of [upper] are copies of the lower device's. *)
Record nmbm_mtd (D : Type) := mkNm {
  nm_id : Z;
  nm_lower : Z;
  nm_upper_size : Z;
  nm_ni : nmbm_instance D;
  nm_page_cache : list Z
}.
Arguments mkNm {D}.
Arguments nm_id {D}.
Arguments nm_lower {D}.
Arguments nm_upper_size {D}.
Arguments nm_ni {D}.
Arguments nm_page_cache {D}.

Section NmMembers.
Context {D : Type}.

Definition nmbm_mtd_eta : nmbm_mtd D -> nmbm_mtd D := fun nm =>
  mkNm (nm_id nm) (nm_lower nm) (nm_upper_size nm) (nm_ni nm) (nm_page_cache nm).

#[global] Instance member_nm_ni : Member (@nm_ni D).
Proof. derive_member nmbm_mtd_eta (@nm_ni D). Defined.
#[global] Instance member_nm_page_cache : Member (@nm_page_cache D).
Proof. derive_member nmbm_mtd_eta (@nm_page_cache D). Defined.

End NmMembers.

(** An operation of the NMBM core on [nm->ni]. *)
Definition on_ni {D A} (f : M (nmbm_instance D) A) : M (nmbm_mtd D) A := fun nm =>
  match f (nm_ni nm) with
  | Ret a s => Ret a (nm <| nm_ni := s |>)
  | Stuck => Stuck
  | NoFuel => NoFuel
  end.

(** ** The upper side *)

Section Upper.
Context {D : Type} {L : nmbm_lower_device D}.
Local Abbreviation NMM := (M (nmbm_mtd D)).

(** [MTD_OPS_PLACE_OOB] as [enum nmbm_oob_mode] is [NMBM_MODE_PLACE_OOB]. *)
Definition nmbm_mtd_read (from : Z) (buf : list Z) (retlen : Z) : NMM (Z * list Z * Z) :=
  do size <- gets nm_upper_size;
  if size <? u64 (from + zlen buf) then ret (- EINVAL, buf, retlen)
  else
    do '(r, buf, n) <- on_ni (nmbm_read_range from buf NMBM_MODE_PLACE_OOB);
    ret (r, buf, default retlen n).

Definition nmbm_mtd_write (to : Z) (buf : list Z) (retlen : Z) : NMM (Z * Z) :=
  do size <- gets nm_upper_size;
  if size <? u64 (to + zlen buf) then ret (- EINVAL, retlen)
  else
    do '(r, n) <- on_ni (nmbm_write_range to buf NMBM_MODE_PLACE_OOB);
    ret (r, default retlen n).

Definition nmbm_mtd_erase (instr : erase_info) : NMM (Z * erase_info) :=
  let instr := instr <| ei_state := MTD_ERASING |> in
  do '(r, failed) <- on_ni (nmbm_erase_block_range (ei_addr instr) (ei_len instr));
  let instr := instr <| ei_fail_addr := default (ei_fail_addr instr) failed |> in
  if negb (r =? 0) then ret (- EIO, instr <| ei_state := MTD_ERASE_FAILED |>)
  else ret (0, instr <| ei_state := MTD_ERASE_DONE |>).

(** [maxooblen] of the read and write functions. *)
Definition nm_oobavail (ops : mtd_oob_ops) : Z :=
  if ops_mode ops =? MTD_OPS_AUTO_OOB then oobavail else oobsize.

(** [writesize_mask] is an [unsigned int]: its complement has 32 bits. *)
Definition page_col (addr : Z) : Z := Z.land addr writesize_mask.
Definition page_base (addr : Z) : Z := Z.land addr (u32 (Z.lnot writesize_mask)).

(** The parts of [nm->page_cache] passed to the core: [datcache] and
    [oobcache], NULL if there was nothing of the kind to transfer. *)
Definition cache_parts (dat oob : bool) : NMM (option (list Z) * option (list Z)) :=
  do pc <- gets nm_page_cache;
  do d <- lift (slice pc 0 writesize);
  do o <- lift (slice pc writesize oobsize);
  ret (if dat then Some d else None, if oob then Some o else None).

Definition cache_store (off : Z) (part : option (list Z)) : NMM unit :=
  match part with
  | None => ret tt
  | Some b =>
      do pc <- gets nm_page_cache;
      do pc <- lift (splice pc off b);
      nm_page_cache ::= pc
  end.

(** The loop variables of [nmbm_mtd_read_data] and [nmbm_mtd_write_data]:
    [addr], [len], [col], [ooblen], [ooboffs] and the request. *)
Definition oob_vars : Type := Z * Z * Z * Z * Z * mtd_oob_ops.

(** Copy [datcache + col] to the data buffer, [oobcache + ooboffs] to the
    OOB buffer. *)
Definition move_data_out (len col : Z) (ops : mtd_oob_ops) : NMM (Z * Z * mtd_oob_ops) :=
  if len =? 0 then ret (len, col, ops)
  else
    let chklen := writesize - col in
    let chklen := if len <? chklen then len else chklen in
    do pc <- gets nm_page_cache;
    do src <- lift (slice pc col chklen);
    do dst <- lift (ops_datbuf ops);
    do dst <- lift (splice dst (ops_retlen ops) src);
    ret (len - chklen, 0, ops <| ops_datbuf := Some dst |> <| ops_retlen := ops_retlen ops + chklen |>).

Definition move_oob_out (maxooblen ooblen ooboffs : Z) (ops : mtd_oob_ops) : NMM (Z * Z * mtd_oob_ops) :=
  if ooblen =? 0 then ret (ooblen, ooboffs, ops)
  else
    let chklen := maxooblen - ooboffs in
    let chklen := if ooblen <? chklen then ooblen else chklen in
    do pc <- gets nm_page_cache;
    do src <- lift (slice pc (writesize + ooboffs) chklen);
    do dst <- lift (ops_oobbuf ops);
    do dst <- lift (splice dst (ops_oobretlen ops) src);
    ret (ooblen - chklen, 0, ops <| ops_oobbuf := Some dst |> <| ops_oobretlen := ops_oobretlen ops + chklen |>).

Definition read_oob_body (dat oob : bool) (maxooblen : Z) (mode : nmbm_oob_mode) (x : oob_vars) :
    NMM (oob_vars + Z * mtd_oob_ops) :=
  let '(addr, len, col, ooblen, ooboffs, ops) := x in
  if negb (len =? 0) || negb (ooblen =? 0) then
    do '(datcache, oobcache) <- cache_parts dat oob;
    do '(r, (datcache, oobcache)) <- on_ni (nmbm_read_single_page addr datcache oobcache mode);
    cache_store 0 datcache;;
    cache_store writesize oobcache;;
    if negb (r =? 0) then ret (inr (if 0 <? r then - EBADMSG else - EIO, ops))
    else
      do '(len, col, ops) <- move_data_out len col ops;
      do '(ooblen, ooboffs, ops) <- move_oob_out maxooblen ooblen ooboffs ops;
      ret (inl (u64 (addr + writesize), len, col, ooblen, ooboffs, ops))
  else ret (inr (0, ops)).

(** Every round moves at least one byte of data or of OOB data. *)
Definition nmbm_mtd_read_data (addr : Z) (ops : mtd_oob_ops) (mode : nmbm_oob_mode) :
    NMM (Z * mtd_oob_ops) :=
  let ops := ops <| ops_oobretlen := 0 |> <| ops_retlen := 0 |> in
  iter (Z.to_nat (ops_len ops + ops_ooblen ops) + 1)
    (read_oob_body (negb (ops_len ops =? 0)) (negb (ops_ooblen ops =? 0)) (nm_oobavail ops) mode)
    (page_base addr, ops_len ops, page_col addr, ops_ooblen ops, ops_ooboffs ops, ops).

(** Fill the page buffer: 0xff around the bytes to write. *)
Definition move_data_in (len col : Z) (ops : mtd_oob_ops) : NMM (Z * Z * mtd_oob_ops) :=
  if len =? 0 then ret (len, col, ops)
  else
    let chklen := writesize - col in
    let chklen := if len <? chklen then len else chklen in
    do src <- lift (ops_datbuf ops);
    do src <- lift (slice src (ops_retlen ops) chklen);
    cache_store 0 (Some (fill 0xff col));;
    cache_store col (Some src);;
    cache_store (col + chklen) (Some (fill 0xff (writesize - col - chklen)));;
    ret (len - chklen, 0, ops <| ops_retlen := ops_retlen ops + chklen |>).

Definition move_oob_in (maxooblen ooblen ooboffs : Z) (ops : mtd_oob_ops) : NMM (Z * Z * mtd_oob_ops) :=
  if ooblen =? 0 then ret (ooblen, ooboffs, ops)
  else
    let chklen := maxooblen - ooboffs in
    let chklen := if ooblen <? chklen then ooblen else chklen in
    do src <- lift (ops_oobbuf ops);
    do src <- lift (slice src (ops_oobretlen ops) chklen);
    cache_store writesize (Some (fill 0xff ooboffs));;
    cache_store (writesize + ooboffs) (Some src);;
    cache_store (writesize + ooboffs + chklen) (Some (fill 0xff (oobsize - ooboffs - chklen)));;
    ret (ooblen - chklen, 0, ops <| ops_oobretlen := ops_oobretlen ops + chklen |>).

Definition write_oob_body (dat oob : bool) (maxooblen : Z) (mode : nmbm_oob_mode) (x : oob_vars) :
    NMM (oob_vars + Z * mtd_oob_ops) :=
  let '(addr, len, col, ooblen, ooboffs, ops) := x in
  if negb (len =? 0) || negb (ooblen =? 0) then
    do '(len, col, ops) <- move_data_in len col ops;
    do '(ooblen, ooboffs, ops) <- move_oob_in maxooblen ooblen ooboffs ops;
    do '(datcache, oobcache) <- cache_parts dat oob;
    do r <- on_ni (nmbm_write_single_page addr datcache oobcache mode);
    if negb (r =? 0) then ret (inr (r, ops))
    else ret (inl (u64 (addr + writesize), len, col, ooblen, ooboffs, ops))
  else ret (inr (0, ops)).

Definition nmbm_mtd_write_data (addr : Z) (ops : mtd_oob_ops) (mode : nmbm_oob_mode) :
    NMM (Z * mtd_oob_ops) :=
  let ops := ops <| ops_oobretlen := 0 |> <| ops_retlen := 0 |> in
  iter (Z.to_nat (ops_len ops + ops_ooblen ops) + 1)
    (write_oob_body (negb (ops_len ops =? 0)) (negb (ops_ooblen ops =? 0)) (nm_oobavail ops) mode)
    (page_base addr, ops_len ops, page_col addr, ops_ooblen ops, ops_ooboffs ops, ops).

(** [switch (ops->mode)]; [None] is the default branch. *)
Definition nmbm_mode_of (mode : Z) : option nmbm_oob_mode :=
  if mode =? MTD_OPS_PLACE_OOB then Some NMBM_MODE_PLACE_OOB
  else if mode =? MTD_OPS_AUTO_OOB then Some NMBM_MODE_AUTO_OOB
  else if mode =? MTD_OPS_RAW then Some NMBM_MODE_RAW
  else None.

(** The OOB range check of both functions: [nand->page_shift] is the
    logarithm of the page size. *)
Definition oob_beyond_end (size from : Z) (ops : mtd_oob_ops) : bool :=
  (size <=? u64 from) ||
  (u64 (u64 (Z.shiftr size writesize_shift - Z.shiftr from writesize_shift) * nm_oobavail ops)
     <? u32 (ops_ooboffs ops + ops_ooblen ops)).

(** The checks and the choice of path [nmbm_mtd_read_oob] and
    [nmbm_mtd_write_oob] have in common; [range] transfers data only,
    [pages] data and OOB data page by page. *)
Definition oob_request (from : Z) (ops : mtd_oob_ops)
    (range : list Z -> nmbm_oob_mode -> NMM (Z * mtd_oob_ops))
    (pages : nmbm_oob_mode -> NMM (Z * mtd_oob_ops)) : NMM (Z * mtd_oob_ops) :=
  do size <- gets nm_upper_size;
  match ops_oobbuf ops, ops_datbuf ops with
  | None, None =>
      if negb (ops_ooblen ops =? 0) || negb (ops_len ops =? 0) then ret (- EINVAL, ops) else ret (0, ops)
  | oobbuf, datbuf =>
      match nmbm_mode_of (ops_mode ops) with
      | None => ret (- ENOTSUPP, ops)
      | Some mode =>
          if match datbuf with Some _ => size <? u64 (from + ops_len ops) | None => false end
          then ret (- EINVAL, ops)
          else
            match oobbuf with
            | None => do buf <- lift datbuf; range buf mode
            | Some _ =>
                if nm_oobavail ops <=? ops_ooboffs ops then ret (- EINVAL, ops)
                else if oob_beyond_end size from ops then ret (- EINVAL, ops)
                else pages mode
            end
      end
  end.

(** The data-only path transfers [ops->len] bytes of [ops->datbuf]. *)
Definition nmbm_mtd_read_oob (from : Z) (ops : mtd_oob_ops) : NMM (Z * mtd_oob_ops) :=
  oob_request from ops
    (fun buf mode =>
       do dst <- lift (slice buf 0 (ops_len ops));
       do '(r, dst, n) <- on_ni (nmbm_read_range from dst mode);
       do buf <- lift (splice buf 0 dst);
       let ops := ops <| ops_datbuf := Some buf |> <| ops_retlen := default (ops_retlen ops) n |> in
       ret (if 0 <? r then - EBADMSG else if negb (r =? 0) then - EIO else 0, ops))
    (nmbm_mtd_read_data from ops).

Definition nmbm_mtd_write_oob (to : Z) (ops : mtd_oob_ops) : NMM (Z * mtd_oob_ops) :=
  oob_request to ops
    (fun buf mode =>
       do src <- lift (slice buf 0 (ops_len ops));
       do '(r, n) <- on_ni (nmbm_write_range to src mode);
       ret (r, ops <| ops_retlen := default (ops_retlen ops) n |>))
    (nmbm_mtd_write_data to ops).

Definition nmbm_mtd_block_isbad (offs : Z) : NMM Z := on_ni (nmbm_check_bad_block offs).

Definition nmbm_mtd_block_markbad (offs : Z) : NMM Z := on_ni (nmbm_mark_bad_block offs).

End Upper.

(** ** Attaching and detaching *)

(** Cleared memory ([calloc]). *)
Definition calloc_instance {D} (d : D) : nmbm_instance D :=
  let h := mkHeader 0 0 0 0 in
  mkInstance d (mkSignature h 0 0 0 0 0 0 [0; 0; 0] [0; 0; 0; 0]) []
    (mkInfoHeader h 0 0 0 0) [] 0 [] 0 [] 0 0 0 0 0 0 0 0 0.

(** [nmbm_id_cnt] and [nmbm_devs].  All devices of the list drive chips of
    the same kind (the board has one). *)
Record nmbm_world (D : Type) := mkWorld {
  nmbm_id_cnt : Z;
  nmbm_devs : list (nmbm_mtd D)
}.
Arguments mkWorld {D}.
Arguments nmbm_id_cnt {D}.
Arguments nmbm_devs {D}.

Section Attach.
Context {D : Type} (nand_reset : D -> D) (lower : mtd_info (total D)).

(** The members of [upper] set by [nmbm_attach_mtd]. *)
Definition nmbm_upper (L : nmbm_lower_device D) (size : Z) : mtd_info (M (nmbm_mtd D)) :=
  mkMtd MTD_DEV_TYPE_NMBM (mtd_flags lower) size (mtd_erasesize lower) (mtd_writesize lower)
    (mtd_oobsize lower) (mtd_oobavail_field lower)
    (mtd_bitflip_threshold lower) (mtd_ecc_strength lower)
    nmbm_mtd_read (Some nmbm_mtd_write) nmbm_mtd_erase
    (Some nmbm_mtd_read_oob) (Some nmbm_mtd_write_oob)
    (Some nmbm_mtd_block_isbad) (Some nmbm_mtd_block_markbad).

(** [nmbm_attach_mtd (lower, flags, max_ratio, max_reserved_blocks, &upper)]
    on a chip in state [d]: the return value and [*upper].  [lower_id] is
    the identity of [lower] (0 is NULL); [nm_alloc] and [ni_alloc] say whether
    the two allocations succeed.  The last result is the state of the chip,
    which a failed attachment may have changed, too. *)
Definition nmbm_attach_mtd (lower_id fl ratio reserved : Z) (nm_alloc ni_alloc : bool) (d : D) :
    M (nmbm_world D) (Z * option (nmbm_mtd D) * D) :=
  let L := nmbm_nld nand_reset lower fl ratio reserved in
  if lower_id =? 0 then ret (- EINVAL, None, d)
  else if negb (mtd_type lower =? MTD_NANDFLASH) || negb (mtd_flags lower =? MTD_CAP_NANDFLASH)
  then ret (- ENOTSUPP, None, d)
  else if negb nm_alloc then ret (- ENOMEM, None, d)
  else
    do id <- gets nmbm_id_cnt;
    modify (fun w => mkWorld (u32 (id + 1)) (nmbm_devs w));;
    if negb ni_alloc then ret (- ENOMEM, None, d)
    else
      match nmbm_attach (fill 0 nmbm_calc_structure_size) (calloc_instance d) with
      | Ret r ni =>
          if negb (r =? 0) then ret (r, None, dev ni)
          else
            let nm := mkNm id lower_id (u64 (data_block_count ni * mtd_erasesize lower)) ni
                        (fill 0 (mtd_writesize lower + mtd_oobsize lower)) in
            modify (fun w => mkWorld (nmbm_id_cnt w) (nmbm_devs w ++ [nm]));;
            ret (0, Some nm, dev ni)
      | Stuck => fun _ => Stuck
      | NoFuel => fun _ => NoFuel
      end.

(** [nmbm_free_mtd (upper)]: the device is named by its id, [None] is NULL.
    The lower device's final state is returned with the result. *)
Definition nmbm_free_mtd {L : nmbm_lower_device D} (upper : option Z) : M (nmbm_world D) (Z * option D) :=
  match upper with
  | None => ret (- EINVAL, None)
  | Some id =>
      do devs <- gets nmbm_devs;
      match list_find (fun nm => nm_id nm = id) devs with
      | None => ret (- ENODEV, None)
      | Some (i, nm) =>
          modify (fun w => mkWorld (nmbm_id_cnt w) (delete i (nmbm_devs w)));;
          match nmbm_detach (nm_ni nm) with
          | Ret _ ni => ret (0, Some (dev ni))
          | Stuck => fun _ => Stuck
          | NoFuel => fun _ => NoFuel
          end
      end
  end.

Definition nmbm_mtd_get_upper_by_index (index : Z) (w : nmbm_world D) : option (nmbm_mtd D) :=
  snd <$> list_find (fun nm => nm_id nm = index) (nmbm_devs w).

Definition nmbm_mtd_get_upper (lower_id : Z) (w : nmbm_world D) : option (nmbm_mtd D) :=
  snd <$> list_find (fun nm => nm_lower nm = lower_id) (nmbm_devs w).

End Attach.
