(* ===== verification/NmbmLower.v ===== *)
(** * NMBM's lower device is a NAND chip

    The functions nmbm-mtd.c passes to the NMBM core behave as [nand_laws]
    demands, if the raw NAND driver behaves as the MTD interface documents. *)

From stdpp Require Import base numbers list option.
From Stdlib Require Import ZArith Lia.
From S2P Require Import Prelude IntLib NmbmTypes NmbmPhys NmbmNand Mtd NmbmMtd.

(** Error correction worked: the driver's [_read_oob] counts corrected bit
    flips, or reports [-EUCLEAN]. *)
Definition corrected (rc : Z) : Prop := 0 <= rc \/ rc = - EUCLEAN.

(** A request for the data, the spare bytes or both of one page. *)
Definition page_request {m} (lower : mtd_info m) (ops : mtd_oob_ops) : Prop :=
  ops_len ops = match ops_datbuf ops with Some _ => mtd_writesize lower | None => 0 end /\
  ops_ooblen ops = match ops_oobbuf ops with Some _ => mtd_oobavail lower ops | None => 0 end /\
  ops_ooboffs ops = 0.

(** The raw NAND driver behind [struct mtd_info]: what a page read, a page
    write, a block erase and the bad block functions may do to the pages.
    Reads and writes are constrained for requests of one page at the address
    of a page only (a longer request touches as many pages as it is long), and
    the contents only where the mode lets the driver correct errors: what a
    raw read returns, or a raw write leaves in its page, is not stated. *)
Class nand_driver {D} (reset : D -> D) (lower : mtd_info (total D)) (P : NandModel D) : Prop := {
  drv_page_len d p : zlen (page_at d p) = mtd_writesize lower;
  drv_page_byte d p : Forall is_byte (page_at d p);
  drv_writeable : mtd_flags lower = MTD_CAP_NANDFLASH;
  drv_reset d : same_outside (fun _ => False) d (reset d);
  drv_read f d a ops rc ops' d' :
    mtd_read_oob_op lower = Some f -> page_request lower ops -> f a ops d = (rc, ops', d') ->
    same_outside (fun _ => False) d d' /\
    (zlen <$> ops_datbuf ops') = (zlen <$> ops_datbuf ops) /\
    (zlen <$> ops_oobbuf ops') = (zlen <$> ops_oobbuf ops) /\
    (corrected rc -> (mtd_writesize lower | a) -> ops_mode ops <> MTD_OPS_RAW ->
     (zlen <$> ops_datbuf ops) = Some (mtd_writesize lower) -> ops_datbuf ops' = Some (page_at d a));
  drv_write f d a ops rc ops' d' :
    mtd_write_oob_op lower = Some f -> page_request lower ops -> (mtd_writesize lower | a) ->
    f a ops d = (rc, ops', d') ->
    same_outside (fun p => p = a) d d' /\
    (forall b, ops_datbuf ops = Some b -> zlen b = mtd_writesize lower -> ops_mode ops <> MTD_OPS_RAW ->
     zip_with Z.land (page_at d' a) b = zip_with Z.land (page_at d a) b /\
     (rc = 0 -> page_at d' a = zip_with Z.land (page_at d a) b));
  drv_erase d ba ei rc ei' d' :
    ei_addr ei = ba * mtd_erasesize lower -> ei_len ei = mtd_erasesize lower ->
    mtd_erase_op lower ei d = (rc, ei', d') ->
    same_outside (fun p => ba * mtd_erasesize lower <= p < (ba + 1) * mtd_erasesize lower) d d' /\
    (rc = 0 -> forall p, ba * mtd_erasesize lower <= p < (ba + 1) * mtd_erasesize lower ->
     (mtd_writesize lower | p) -> page_at d' p = fill 0xff (mtd_writesize lower));
  drv_isbad f d a rc d' :
    mtd_block_isbad_op lower = Some f -> f a d = (rc, d') -> same_outside (fun _ => False) d d';
  drv_markbad f d ba rc d' :
    mtd_block_markbad_op lower = Some f -> f (ba * mtd_erasesize lower) d = (rc, d') ->
    same_outside (fun p => ba * mtd_erasesize lower <= p < (ba + 1) * mtd_erasesize lower) d d'
}.

Section LowerLaws.
Context {D : Type} (reset : D -> D) (lower : mtd_info (total D)) {P : NandModel D}.
Context {ND : nand_driver reset lower P}.
Context (Herase : 0 < mtd_erasesize lower) (Hwrite : 0 < mtd_writesize lower).

Lemma drv_writeable_b : mtd_writeable lower = true.
Proof. unfold mtd_writeable. by rewrite drv_writeable. Qed.

(** [nmbm_lower_read_page] reports success exactly when the data is right. *)
Lemma lower_read_code rc :
  (if mtd_read_code lower rc =? - EBADMSG then 1
   else if negb (mtd_read_code lower rc =? 0) && negb (mtd_read_code lower rc =? - EUCLEAN)
   then mtd_read_code lower rc else 0) = 0 <-> corrected rc.
Proof.
  unfold mtd_read_code, corrected. destruct (Z.ltb_spec rc 0).
  - destruct (Z.eqb_spec rc (- EBADMSG)) as [->|]; [split; [done|intros [?|?]; done]|].
    destruct (Z.eqb_spec rc 0); [lia|]. destruct (Z.eqb_spec rc (- EUCLEAN)); cbn [negb andb]; [by split; auto|].
    split; [done|]. intros [?|?]; lia.
  - assert (H0 : 0 <= rc \/ rc = - EUCLEAN) by (by left).
    destruct (mtd_ecc_strength lower =? 0); [by split|]. destruct (_ <=? rc); by split.
Qed.

Lemma lower_read_law d a data oob mode d' r data' oob' :
  nmbm_lower_read_page lower d a data oob mode = (d', r, data', oob') ->
  same_outside (fun _ => False) d d' /\
  (forall b, data = Some b -> zlen data' = zlen b) /\
  (forall b, oob = Some b -> zlen oob' = zlen b) /\
  (r = 0 -> mode <> NMBM_MODE_RAW -> (mtd_writesize lower | a) ->
   forall b, data = Some b -> zlen b = mtd_writesize lower -> data' = page_at d a).
Proof.
  unfold nmbm_lower_read_page, mtd_read_oob. destruct (mtd_read_oob_op lower) as [f|] eqn:Ef; cycle 1.
  { cbn. intros E. injection E as <- <- <- <-. split_and!; [apply same_outside_refl|..]; intros; by subst. }
  unfold mbind, mret, total_bind, total_ret. cbv beta. set (ops := update _ _ _).
  destruct (f a ops d) as [[rc ops'] d1] eqn:E. intros H. cbv beta iota zeta in H. injection H as <- <- <- <-.
  destruct (drv_read f d a ops rc ops' d1 Ef ltac:(done) E) as (Hs & Hl & Ho & Hd).
  change (ops_datbuf ops) with data in *. change (ops_oobbuf ops) with oob in *.
  split_and!; [done|..].
  - intros b ->. cbn in Hl. destruct (ops_datbuf ops') as [x|]; [|done]. cbn. by injection Hl.
  - intros b ->. cbn in Ho. destruct (ops_oobbuf ops') as [x|]; [|done]. cbn. by injection Ho.
  - intros Hr%lower_read_code Hm Ha b -> Hb. rewrite Hd; [done|done|done|by destruct mode|cbn; by rewrite Hb].
Qed.

Lemma lower_write_law d a data oob mode d' r :
  (mtd_writesize lower | a) -> nmbm_lower_write_page lower d a data oob mode = (d', r) ->
  same_outside (fun p => p = a) d d' /\
  (forall b, data = Some b -> zlen b = mtd_writesize lower -> mode <> NMBM_MODE_RAW ->
   zip_with Z.land (page_at d' a) b = zip_with Z.land (page_at d a) b /\
   (r = 0 -> page_at d' a = zip_with Z.land (page_at d a) b)).
Proof.
  intros Ha. unfold nmbm_lower_write_page, mtd_write_oob. rewrite drv_writeable_b. cbn [negb].
  destruct (mtd_write_oob_op lower) as [f|] eqn:Ef; cycle 1.
  { cbn. intros E. injection E as <- <-. split; [apply same_outside_refl|]. intros. by split. }
  set (ops := update _ _ _). destruct (f a ops d) as [[rc ops'] d1] eqn:E. intros H. injection H as <- <-.
  destruct (drv_write f d a ops rc ops' d1 Ef ltac:(done) Ha E) as (Hs & Hd). split; [done|]. intros b -> Hb Hm.
  apply Hd; [done|done|]. cbn. by destruct mode.
Qed.

Lemma lower_erase_law d ba d' r :
  nmbm_lower_erase_block lower d (ba * mtd_erasesize lower) = (d', r) ->
  same_outside (fun p => ba * mtd_erasesize lower <= p < (ba + 1) * mtd_erasesize lower) d d' /\
  (r = 0 -> forall p, ba * mtd_erasesize lower <= p < (ba + 1) * mtd_erasesize lower ->
   (mtd_writesize lower | p) -> page_at d' p = fill 0xff (mtd_writesize lower)).
Proof.
  unfold nmbm_lower_erase_block, mtd_erase. rewrite drv_writeable_b. cbn [negb ei_addr ei_len].
  destruct (_ || _).
  { cbn. intros E. injection E as <- <-. split; [apply same_outside_refl|done]. }
  change (ei_len _) with (mtd_erasesize lower). destruct (Z.eqb_spec (mtd_erasesize lower) 0); [lia|].
  set (ei := update _ _ _). destruct (mtd_erase_op lower ei d) as [[rc ei'] d1] eqn:E.
  intros H. injection H as <- <-. by eapply (drv_erase d ba ei).
Qed.

(** The device structure NMBM attaches to satisfies the laws of the core. *)
Lemma nmbm_nld_laws fl ratio reserved : nand_laws (nmbm_nld reset lower fl ratio reserved) P.
Proof.
  constructor.
  - apply drv_page_len.
  - apply drv_page_byte.
  - apply lower_read_law.
  - apply lower_write_law.
  - intros d ba d' r H. exact (lower_erase_law d ba d' r H).
  - intros f d E. injection E as <-. apply drv_reset.
  - intros f d a d' r E. injection E as <-. cbn. unfold nmbm_lower_is_bad_block, mtd_block_isbad.
    destruct (_ || _); [intros H; injection H as <- <-; apply same_outside_refl|].
    destruct (mtd_block_isbad_op lower) as [g|] eqn:Eg; [|intros H; injection H as <- <-; apply same_outside_refl].
    destruct (g a d) as [rc d1] eqn:E. intros H. injection H as <- <-. by eapply drv_isbad.
  - intros f d ba d' r E. injection E as <-. cbn. unfold nmbm_lower_mark_bad_block, mtd_block_markbad.
    destruct (mtd_block_markbad_op lower) as [g|] eqn:Eg; [|intros H; injection H as <- <-; apply same_outside_refl].
    rewrite drv_writeable_b. destruct (_ || _); [intros H; injection H as <- <-; apply same_outside_refl|].
    cbn [negb]. change (@erasesize D _) with (mtd_erasesize lower).
    destruct (g _ d) as [rc d1] eqn:E. intros H. injection H as <- <-. by eapply drv_markbad.
Qed.

End LowerLaws.
