(* ===== verification/Flash.v ===== *)
(** * The flash interface of the board code

    The functions of board/ralink/common/flash_helper.h, as operations and as
    laws: what the code that stores images, environment and configuration
    relies on, whatever device implements them. *)

From stdpp Require Import base numbers list strings.
From Stdlib Require Import ZArith Lia.
From S2P Require Import Prelude.

(** [S] is the state behind the [flashdev] handle.  A read is given the
    buffer and returns what it holds afterwards.  [get_mtd_part_info] gives
    offset and size of a partition, [None] for an error. *)
Class flash_helper (S : Type) := {
  mtk_board_get_flash_dev : bool;
  mtk_board_get_flash_erase_size : Z;
  mtk_board_flash_erase : Z -> Z -> M S Z;
  mtk_board_flash_read : Z -> list Z -> M S (Z * list Z);
  mtk_board_flash_write : Z -> list Z -> M S Z;
  get_mtd_part_info : string -> option (Z * Z)
}.

(** How to look at a flash device: its size, its page size, the states in
    which it works, and the byte at an address. *)
Class flash_view (S : Type) := {
  flash_size : Z;
  flash_page : Z;
  usable : S -> Prop;
  byte_at : S -> Z -> option Z
}.

Local Abbreviation erase_size := mtk_board_get_flash_erase_size.

Section View.
Context {S : Type} {V : flash_view S}.
Implicit Types s : S.

(** Only bytes in [W] may differ. *)
Definition keeps (W : Z -> Prop) s s' : Prop :=
  forall i, 0 <= i < flash_size -> ~ W i -> byte_at s' i = byte_at s i.

(** The bytes from [off] on are [data]. *)
Definition holds s (off : Z) (data : list Z) : Prop :=
  forall i, 0 <= i < zlen data -> byte_at s (off + i) = znth data i.

(** Address [i] shares a unit (page, erase block) of size [u] with the range. *)
Definition touches (u off len i : Z) : Prop := 0 < len /\ off / u <= i / u <= (off + len - 1) / u.

Lemma keeps_refl W s : keeps W s s.
Proof. done. Qed.

Lemma keeps_trans W s1 s2 s3 : keeps W s1 s2 -> keeps W s2 s3 -> keeps W s1 s3.
Proof. intros H1 H2 i Hi Hw. by rewrite H2, H1. Qed.

Lemma keeps_weaken (W W' : Z -> Prop) s s' : (forall i, W i -> W' i) -> keeps W s s' -> keeps W' s s'.
Proof. intros Hw H i Hi Hn. apply H; auto. Qed.

Lemma holds_frame W s s' off data :
  keeps W s s' -> holds s off data -> 0 <= off -> off + zlen data <= flash_size ->
  (forall i, off <= i < off + zlen data -> ~ W i) -> holds s' off data.
Proof. intros Hk Hh H0 H1 Hw i Hi. rewrite Hk; [by apply Hh|lia|apply Hw; lia]. Qed.

Lemma holds_back s s' off data :
  keeps (fun _ => False) s s' -> holds s' off data -> 0 <= off -> off + zlen data <= flash_size -> holds s off data.
Proof. intros Hk Hh H0 H1 i Hi. rewrite <- Hk; [by apply Hh|lia|tauto]. Qed.

Lemma holds_prefix s off d1 d2 : holds s off (d1 ++ d2) -> holds s off d1.
Proof.
  intros H i Hi. pose proof (zlen_nonneg d2). rewrite H by (rewrite zlen_app; lia). by rewrite znth_app_l by lia.
Qed.

Lemma holds_same s off data data' : holds s off data -> holds s off data' -> zlen data = zlen data' -> data = data'.
Proof. intros H1 H2 E. apply znth_ext; [done|]. intros i Hi. rewrite <- H1, <- H2 by lia. done. Qed.

Lemma holds_app s off d1 d2 : holds s off d1 -> holds s (off + zlen d1) d2 -> holds s off (d1 ++ d2).
Proof.
  intros H1 H2 i Hi. rewrite zlen_app in Hi. destruct (Z_lt_le_dec i (zlen d1)).
  - rewrite znth_app_l by done. apply H1. lia.
  - rewrite znth_app_r by done. rewrite <- H2 by lia. f_equal. lia.
Qed.

End View.

(** What the functions promise.  A failure may leave the device unusable
    (worn out), but never changes a byte outside the pages or erase blocks
    that were addressed. *)
Class flash_laws {S} (F : flash_helper S) (V : flash_view S) : Prop := {
  flash_page_pos : 0 < flash_page;
  flash_page_block : (flash_page | erase_size);
  flash_block_pow : exists k, 0 <= k < 31 /\ erase_size = 2 ^ k;
  flash_block_chip : (erase_size | flash_size);
  flash_size_range : 0 <= flash_size < 2 ^ 63;
  flash_total s i : usable s -> 0 <= i < flash_size -> exists x, byte_at s i = Some x /\ is_byte x;
  flash_read_law s off buf : usable s -> 0 <= off < 2 ^ 64 -> zlen buf < 2 ^ 32 ->
    wp (mtk_board_flash_read off buf) (fun '(r, b) s' =>
      zlen b = zlen buf /\ keeps (fun _ => False) s s' /\
      (r = 0 -> usable s' /\ off + zlen buf <= flash_size /\ holds s off b)) s;
  flash_write_law s off data : usable s -> 0 <= off < 2 ^ 64 -> zlen data < 2 ^ 32 ->
    wp (mtk_board_flash_write off data) (fun r s' =>
      keeps (touches flash_page off (zlen data)) s s' /\
      (r = 0 -> usable s' /\ off + zlen data <= flash_size /\
       forall i old x, 0 <= i < zlen data -> byte_at s (off + i) = Some old -> znth data i = Some x ->
         byte_at s' (off + i) = Some (Z.land old x))) s;
  flash_erase_law s off len : usable s -> 0 <= off < 2 ^ 64 -> 0 <= len < 2 ^ 64 ->
    wp (mtk_board_flash_erase off len) (fun r s' =>
      keeps (touches erase_size off len) s s' /\
      (r = 0 -> usable s' /\ off + len <= flash_size /\
       forall i, 0 <= i < flash_size -> touches erase_size off len i -> byte_at s' i = Some 255)) s
}.

(** Reading, successful or not, does not wear the device out. *)
Class flash_steady {S} (F : flash_helper S) (V : flash_view S) : Prop :=
  flash_steady_law s off buf : usable s -> 0 <= off < 2 ^ 64 -> zlen buf < 2 ^ 32 ->
    wp (mtk_board_flash_read off buf) (fun _ s' => usable s') s.

(** Clearing the low bits rounds down to a multiple of a power of two. *)
Lemma land_block_mask x k :
  0 <= k < 32 -> 0 <= x < 2 ^ 32 -> Z.land x (u32 (Z.lnot (2 ^ k - 1))) = x / 2 ^ k * 2 ^ k.
Proof.
  intros Hk Hx.
  assert (Hl : u32 (Z.lnot (2 ^ k - 1)) = Z.ldiff (Z.ones 32) (Z.ones k)).
  { unfold u32. rewrite <- Z.land_ones by lia.
    apply Z.bits_inj'. intros n Hn. rewrite Z.land_spec, Z.ldiff_spec, Z.lnot_spec by lia.
    replace (2 ^ k - 1) with (Z.ones k) by (rewrite Z.ones_equiv; lia). by rewrite andb_comm. }
  rewrite Hl. replace (Z.land x (Z.ldiff (Z.ones 32) (Z.ones k))) with (Z.ldiff x (Z.ones k)).
  - by rewrite Z.ldiff_ones_r, Z.shiftr_div_pow2, Z.shiftl_mul_pow2 by lia.
  - apply Z.bits_inj'. intros n Hn. rewrite Z.land_spec, !Z.ldiff_spec.
    destruct (Z_lt_le_dec n 32).
    + by rewrite (Z.ones_spec_low 32) by lia.
    + replace (Z.testbit x n) with false; [done|]. symmetry.
      apply Z.testbit_false; [lia|]. rewrite Z.div_small; [done|]. split; [lia|].
      eapply Z.lt_le_trans; [apply Hx|]. apply Z.pow_le_mono_r; lia.
Qed.

Section Clients.
Context {S : Type} {F : flash_helper S} {V : flash_view S} {FL : flash_laws F V}.
Implicit Types s : S.

Lemma erase_size_pos : 0 < erase_size < 2 ^ 31.
Proof. destruct flash_block_pow as (k & Hk & ->). split; [lia|]. apply Z.pow_lt_mono_r; lia. Qed.

(** Programming erased bytes stores them. *)
Lemma programmed_blank s s' off data :
  Forall is_byte data ->
  (forall i, 0 <= i < zlen data -> byte_at s (off + i) = Some 255) ->
  (forall i old x, 0 <= i < zlen data -> byte_at s (off + i) = Some old -> znth data i = Some x ->
     byte_at s' (off + i) = Some (Z.land old x)) ->
  holds s' off data.
Proof.
  intros Hb Hold Hp i Hi. destruct (znth_some data i Hi) as [x Hx]. rewrite Hx, (Hp i 255 x Hi (Hold i Hi) Hx).
  f_equal. change 255 with (Z.ones 8). rewrite Z.land_comm, Z.land_ones by lia. apply Z.mod_small.
  unfold znth in Hx. destruct (i <? 0); [done|]. rewrite Forall_lookup in Hb. by apply Hb in Hx.
Qed.

(** What was read is made of bytes. *)
Lemma holds_bytes s off data :
  usable s -> 0 <= off -> off + zlen data <= flash_size -> holds s off data -> Forall is_byte data.
Proof.
  intros Hu H0 H1 Hh. apply Forall_lookup. intros i x Hx.
  assert (Hi : 0 <= Z.of_nat i < zlen data) by (apply lookup_lt_Some in Hx; unfold zlen; lia).
  destruct (flash_total s (off + Z.of_nat i) Hu ltac:(lia)) as (y & Hy & Hyb).
  rewrite (Hh _ Hi) in Hy. unfold znth in Hy. destruct (Z.ltb_spec (Z.of_nat i) 0); [lia|].
  rewrite Nat2Z.id, Hx in Hy. by injection Hy as ->.
Qed.

(** A page range lies in the erase blocks of the range. *)
Lemma touches_page off len i : 0 < len -> touches flash_page off len i -> touches erase_size off len i.
Proof.
  intros Hl [_ [H1 H2]]. split; [done|]. pose proof flash_page_pos. pose proof erase_size_pos.
  destruct flash_page_block as [q Hq]. assert (0 < q) by nia. rewrite Hq, (Z.mul_comm q).
  rewrite <- !Z.div_div by lia. split; apply Z.div_le_mono; lia.
Qed.

Lemma touches_range u off len i : 0 < u -> off <= i < off + len -> touches u off len i.
Proof. intros Hu Hi. split; [lia|]. split; apply Z.div_le_mono; lia. Qed.

(** A range of whole units touches nothing outside. *)
Lemma touches_aligned u off len i :
  0 < u -> (u | off) -> (u | len) -> touches u off len i -> off <= i < off + len.
Proof.
  intros Hu [a ->] [b ->] [Hl [H1 H2]]. rewrite Z.div_mul in H1 by lia.
  replace (a * u + b * u - 1) with ((a + b - 1) * u + (u - 1)) in H2 by lia.
  rewrite Z.div_add_l, (Z.div_small (u - 1)), Z.add_0_r in H2 by lia.
  pose proof (Z.div_mod i u ltac:(lia)). pose proof (Z.mod_pos_bound i u Hu). nia.
Qed.

(** The unit of [off] alone. *)
Lemma touches_one u off len i :
  0 < u -> (u | off) -> len <= u -> touches u off len i -> off <= i < off + u.
Proof.
  intros Hu Ha Hl [Hp [H1 H2]]. apply (touches_aligned u); [done|done|apply Z.divide_refl|].
  split; [lia|]. split; [done|]. etransitivity; [exact H2|]. apply Z.div_le_mono; lia.
Qed.

(** The end of a range, rounded up to an erase block. *)
Definition align_up (n : Z) : Z := (n + erase_size - 1) / erase_size * erase_size.

Lemma align_up_spec n : 0 <= n -> n <= align_up n < n + erase_size /\ (erase_size | align_up n).
Proof.
  intros Hn. pose proof erase_size_pos as He. unfold align_up.
  assert (Hne : erase_size <> 0) by lia. assert (Hp : 0 < erase_size) by lia.
  pose proof (Z.div_mod (n + erase_size - 1) erase_size Hne). pose proof (Z.mod_pos_bound (n + erase_size - 1) erase_size Hp).
  split; [nia|apply Z.divide_factor_r].
Qed.

Lemma align_up_id n : (erase_size | n) -> align_up n = n.
Proof.
  intros [q ->]. pose proof erase_size_pos as He. unfold align_up.
  replace (q * erase_size + erase_size - 1) with (q * erase_size + (erase_size - 1)) by lia.
  rewrite Z.div_add_l, (Z.div_small (erase_size - 1)) by lia. lia.
Qed.

Lemma align_up_unique n m : (erase_size | m) -> n <= m < n + erase_size -> align_up n = m.
Proof.
  intros [q ->] Hm. pose proof erase_size_pos as He. unfold align_up. f_equal.
  symmetry. apply (Z.div_unique_pos _ _ _ (n + erase_size - 1 - q * erase_size)); lia.
Qed.

Lemma align_up_le n m : (erase_size | m) -> n <= m -> align_up n <= m.
Proof.
  intros [q ->] Hn. pose proof erase_size_pos as He. unfold align_up.
  apply Z.mul_le_mono_nonneg_r; [lia|]. apply Z.lt_succ_r. apply Z.div_lt_upper_bound; lia.
Qed.


(** Erasing a range and programming its beginning. *)
Lemma erase_write_keeps s s1 s2 off (data : list Z) len :
  0 < zlen data <= len ->
  keeps (touches erase_size off len) s s1 -> keeps (touches flash_page off (zlen data)) s1 s2 ->
  keeps (touches erase_size off len) s s2.
Proof.
  intros Hl Hk1 Hk2. pose proof erase_size_pos as He. eapply keeps_trans; [exact Hk1|]. eapply keeps_weaken; [|exact Hk2].
  intros i Hi. apply touches_page in Hi as [_ Hi]; [|lia]. split; [lia|].
  assert ((off + zlen data - 1) / erase_size <= (off + len - 1) / erase_size) by (apply Z.div_le_mono; lia). lia.
Qed.

Lemma erase_write_holds s1 s2 off data len :
  0 <= off -> zlen data <= len -> off + len <= flash_size -> Forall is_byte data ->
  (forall i, 0 <= i < flash_size -> touches erase_size off len i -> byte_at s1 i = Some 255) ->
  (forall i old x, 0 <= i < zlen data -> byte_at s1 (off + i) = Some old -> znth data i = Some x ->
     byte_at s2 (off + i) = Some (Z.land old x)) ->
  holds s2 off data.
Proof.
  intros H0 Hl Hf Hb Hblank Hp. pose proof erase_size_pos as He. eapply programmed_blank; [exact Hb| |exact Hp].
  intros i Hi. apply Hblank; [lia|]. apply touches_range; lia.
Qed.

End Clients.
