(* ===== verification/Board.v ===== *)
(** * The board's flash functions

    board/ralink/mt7621_nand_rfb/mt7621_nand_rfb.c: NMBM on the board's NAND
    chip and the implementation of the flash interface on top of the MTD
    layer; the environment storage of env/nmbm.c. *)

From stdpp Require Import base numbers list strings option.
From Stdlib Require Import ZArith Lia.
From S2P Require Import Prelude NmbmTypes NmbmAttach NmbmLogic Mtd NmbmMtd Flash.

(** ** Start-up *)

(** [board_nmbm_init]: it always returns 0; the result here is [nmbm_usable]
    and the state of the chip.  [lower_id] is the raw NAND device, 0 if
    there is none; [ratio] and [blocks] are [CONFIG_NMBM_MAX_RATIO] and
    [CONFIG_NMBM_MAX_BLOCKS]. *)
Definition board_nmbm_init {D} (nand_reset : D -> D) (lower : mtd_info (total D))
    (lower_id ratio blocks : Z) (nm_alloc ni_alloc : bool) (d : D) : M (nmbm_world D) (bool * D) :=
  if lower_id =? 0 then ret (false, d)
  else
    do '(r, _, d) <- nmbm_attach_mtd nand_reset lower lower_id NMBM_F_CREATE ratio blocks nm_alloc ni_alloc d;
    if negb (r =? 0) then ret (false, d) else ret (true, d).

(** ** Flash functions *)

Section BoardFlash.
Context {S : Type} (mtd : mtd_info (M S)).

Definition board_flash_erase_size : Z := mtd_erasesize mtd.

Definition board_flash_erase (offset len : Z) : M S Z :=
  do '(r, instr) <- mtd_erase mtd (mkErase offset len 0 0);
  if negb (r =? 0) then ret r
  else if negb (ei_state instr =? MTD_ERASE_DONE) then ret (-1)
  else ret 0.

(** [offset] becomes a signed [loff_t]. *)
Definition board_flash_read (offset : Z) (buf : list Z) : M S (Z * list Z) :=
  do '(r, b, retlen) <- mtd_read mtd (i64 offset) buf (Some 0);
  if negb (r =? 0) && negb (r =? - EUCLEAN) then ret (r, b)
  else if negb (retlen =? zlen buf) then ret (- EIO, b)
  else ret (0, b).

Definition board_flash_write (offset : Z) (buf : list Z) : M S Z :=
  do '(r, _) <- mtd_write mtd (i64 offset) buf (Some 0);
  ret r.

(** The flash interface on this device; [parts] are the MTD partitions. *)
Definition board_flash (parts : string -> option (Z * Z)) : flash_helper S := {|
  mtk_board_get_flash_dev := true;
  mtk_board_get_flash_erase_size := board_flash_erase_size;
  mtk_board_flash_erase := board_flash_erase;
  mtk_board_flash_read := board_flash_read;
  mtk_board_flash_write := board_flash_write;
  get_mtd_part_info := parts
|}.

End BoardFlash.

(** ** The environment (env/nmbm.c)

    [mtd] is the NMBM device with index 0, [None] if there is none;
    [exported] is what [env_export] produces, [inl] its error code. *)
Section Env.
Context {S : Type} (mtd : option (mtd_info (M S))).

Definition CONFIG_ENV_OFFSET : Z := 0x80000.
Definition CONFIG_ENV_SIZE : Z := 0x20000.

Definition env_nmbm_save (exported : Z + list Z) : M S Z :=
  match exported with
  | inl r => ret r
  | inr env_new =>
      match mtd with
      | None => ret 1
      | Some mtd =>
          do '(r, _) <- mtd_erase mtd (mkErase CONFIG_ENV_OFFSET CONFIG_ENV_SIZE 0 0);
          if negb (r =? 0) then ret 1
          else
            do '(r, _) <- mtd_write mtd CONFIG_ENV_OFFSET env_new None;
            ret (if r =? 0 then 0 else 1)
      end
  end.

Definition readenv (offset : Z) (buf : list Z) : M S (Z * list Z) :=
  match mtd with
  | None => ret (1, buf)
  | Some mtd =>
      do '(r, buf, _) <- mtd_read mtd offset buf None;
      if negb (r =? 0) then ret (1, buf) else ret (0, buf)
  end.

(** [env_nmbm_load]: the return value and the image passed to [env_import]
    (with its result), or [None] where the default environment is used. *)
Definition env_nmbm_load (env_import : list Z -> Z) (buf : list Z) : M S (Z * option (list Z)) :=
  do '(r, buf) <- readenv CONFIG_ENV_OFFSET buf;
  if negb (r =? 0) then ret (- EIO, None)
  else ret (env_import buf, Some buf).

End Env.
