(* ===== verification/NmbmFlash.v ===== *)
(** * NMBM implements the flash interface

    The chain [mtk_board_flash_*], [mtd_*], [nmbm_mtd_*], NMBM core fulfils
    [flash_laws] on a device in service ([in_service]): the spare blocks and
    those of the management area are sound, while any block that holds data
    may fail to read, program or erase at any time. *)

From stdpp Require Import base numbers list strings option.
From Stdlib Require Import ZArith Lia.
From S2P Require Import Prelude IntLib NmbmTypes NmbmPhys NmbmState NmbmNand NmbmTable NmbmMgmt NmbmImage NmbmUpdate NmbmMapping NmbmLogic NmbmIO NmbmErase Mtd NmbmMtd Flash Board.

Lemma wp_on_ni {D A} (m : M (nmbm_instance D) A) (Q : A -> nmbm_mtd D -> Prop) nm :
  wp m (fun a s => Q a (nm <| nm_ni := s |>)) (nm_ni nm) -> wp (on_ni m) Q nm.
Proof. unfold wp, on_ni. by destruct (m (nm_ni nm)). Qed.

Section NmbmFlash.
Context {D : Type} {L : nmbm_lower_device D} {P : NandModel D}.
Context {GO : geometry_ok L} {NL : nand_laws L P}.
Implicit Types s : nmbm_instance D.
Implicit Types nm : nmbm_mtd D.

Definition mapped s lb : Prop := exists pb, znth (block_mapping s) lb = Some pb /\ 0 <= pb.

Lemma mapped_byte s i : mapped s (i / erasesize) -> exists x, logic_byte s i = Some x /\ is_byte x.
Proof.
  intros (pb & Hpb & Hp0). geometry. unfold logic_byte, phys. rewrite Hpb.
  destruct (Z.ltb_spec pb 0); [lia|]. unfold flash_byte.
  set (a := pb * erasesize + i mod erasesize).
  assert (Hr : 0 <= a mod writesize < zlen (page_at (dev s) (page_of a)))
    by (rewrite law_page_len; apply Z.mod_pos_bound; lia).
  destruct (znth_some _ _ Hr) as [x Hx]. exists x. split; [done|]. by eapply znth_byte, Hx; apply law_page_byte.
Qed.

Lemma avail_block s i : 0 <= i < avail s -> 0 <= i / erasesize < data_block_count s.
Proof. intros Hi. geometry. unfold avail in Hi. split; [apply Z.div_pos; lia|apply Z.div_lt_upper_bound; lia]. Qed.

(** The logic bytes of a page are those whose physical pages are its page. *)
Lemma pages_of_touches s addr n i a :
  mapping_ok s -> 0 < n -> 0 <= addr -> phys s i = Some a -> pages_of s addr n (page_of a) ->
  touches writesize addr n i.
Proof.
  intros Hm Hn Ha Hp (j & Hj & Hq). geometry.
  pose proof (phys_page_of _ _ _ Hp) as Hp'. pose proof (phys_inj _ _ _ _ Hm Hq Hp') as E.
  assert (Ei : i / writesize = (addr + j) / writesize).
  { unfold page_of in E. assert (Hw : writesize <> 0) by (pose proof writesize_pos; lia).
    pose proof (Z.div_mod i writesize Hw). pose proof (Z.div_mod (addr + j) writesize Hw).
    apply (Z.mul_reg_l _ _ writesize); lia. }
  split; [done|]. rewrite Ei. split; apply Z.div_le_mono; lia.
Qed.

(** ** The interface

    [lower] is the raw device the upper device copies its members from. *)
Context (lower : mtd_info (total D)) (parts : string -> option (Z * Z)) (size : Z).
Context (Hes : mtd_erasesize lower = erasesize) (Hflags : mtd_flags lower = MTD_CAP_NANDFLASH).
Context (Hsize : exists n, 0 <= n <= block_count /\ size = n * erasesize).

Definition nmbm_flash : flash_helper (nmbm_mtd D) := board_flash (nmbm_upper lower L size) parts.

Definition nmbm_view : flash_view (nmbm_mtd D) := {|
  flash_size := size;
  flash_page := writesize;
  usable nm := in_service (nm_ni nm) /\ avail (nm_ni nm) = size /\ nm_upper_size nm = size;
  byte_at nm := logic_byte (nm_ni nm)
|}.

#[local] Existing Instance nmbm_flash.
#[local] Existing Instance nmbm_view.

Lemma size_bound : 0 <= size < 2 ^ 63.
Proof. destruct Hsize as (n & Hn & ->). geometry. nia. Qed.

Lemma usable_data W nm s' :
  usable nm -> device_ok s' -> data_step W (nm_ni nm) s' -> usable (nm <| nm_ni := s' |>).
Proof.
  intros (Hs & Ha & Hu) Hd' Hds. split_and!; [by eapply in_service_data| |done].
  unfold avail in *. simpl. by destruct (config_inv _ _ (ds_config _ _ _ Hds)) as (_ & _ & -> & _).
Qed.

(** A protected device refuses every access. *)
Lemma protected_refuses s off (buf : list Z) len mode :
  protected s <> 0 ->
  nmbm_read_range off buf mode s = Ret (- EROFS, buf, None) s /\
  nmbm_write_range off buf mode s = Ret (- EROFS, None) s /\
  nmbm_erase_block_range off len s = Ret (- EROFS, None) s.
Proof.
  intros Hp. apply Z.eqb_neq in Hp.
  unfold nmbm_read_range, nmbm_write_range, nmbm_erase_block_range, bind, gets. by rewrite Hp.
Qed.

Lemma i64_range off : 0 <= off < 2 ^ 64 -> i64 off = off /\ off < 2 ^ 63 \/ i64 off < 0.
Proof.
  intros H. unfold i64. rewrite Z.mod_small by lia. destruct (Z.ltb_spec off (2 ^ 63)); [by left|right; lia].
Qed.

Lemma nmbm_flash_read nm off buf :
  usable nm -> 0 <= off < 2 ^ 64 ->
  wp (mtk_board_flash_read off buf) (fun '(r, b) nm' =>
    zlen b = zlen buf /\ keeps (fun _ => False) nm nm' /\
    (r = 0 -> off + zlen buf <= flash_size /\ holds nm off b) /\
    r <> - EBADMSG /\ usable nm') nm.
Proof.
  intros Hu Ho. pose proof size_bound as Hsz. pose proof (zlen_nonneg buf) as Hl.
  cbn [mtk_board_flash_read nmbm_flash board_flash]. unfold board_flash_read, mtd_read.
  apply wp_bind, wp_bind. eapply wp_lift; [done|]. cbn [mtd_size nmbm_upper].
  assert (Hbad : wp (if negb (- EINVAL =? 0) && negb (- EINVAL =? - EUCLEAN) then ret (- EINVAL, buf)
      else if negb (0 =? zlen buf) then ret (- EIO, buf) else ret (0, buf))
    (fun '(r, b) nm' => zlen b = zlen buf /\ keeps (fun _ => False) nm nm' /\
      (r = 0 -> off + zlen buf <= flash_size /\ holds nm off b) /\ r <> - EBADMSG /\ usable nm') nm).
  { apply wp_ret. by split_and!. }
  destruct (i64_range off Ho) as [[-> Ho63]|Hneg]; cycle 1.
  { destruct (Z.ltb_spec (i64 off) 0); [|lia]. cbn [orb]. apply wp_ret. exact Hbad. }
  destruct (Z.ltb_spec off 0); [lia|]. destruct (Z.ltb_spec size off); [apply wp_ret; exact Hbad|].
  destruct (Z.ltb_spec (size - off) (zlen buf)); [apply wp_ret; exact Hbad|]. cbn [orb].
  destruct (Z.eqb_spec (zlen buf) 0) as [E0|E0].
  { apply wp_ret. change (0 =? 0) with true. cbn [negb andb]. rewrite E0. apply wp_ret.
    split_and!; [done|apply keeps_refl| |done|done]. intros _. split; [cbn; lia|intros i; lia]. }
  pose proof Hu as (Hs & Hav & Hus). apply wp_bind. cbn [mtd_read_op nmbm_upper]. unfold nmbm_mtd_read.
  apply wp_bind, wp_gets. rewrite Hus, u64_small by lia.
  destruct (Z.ltb_spec size (off + zlen buf)); [lia|]. apply wp_bind, wp_on_ni.
  destruct (decide (protected (nm_ni nm) = 0)) as [Hp|Hp]; cycle 1.
  { eapply wp_of_run; [by apply (protected_refuses _ off buf 0)|]. apply wp_ret, wp_ret, wp_ret.
    destruct nm. by split_and!. }
  eapply wp_conseq; [apply (read_range_ok (nm_ni nm) off buf); try apply Hs; try lia; done|].
  intros [[r b] retlen] s' (Hd' & Hds & Hc & Hlb & n & -> & Hn & Hby & Hok & Hko & Hlv). change (default 0 (Some n)) with n.
  apply wp_ret, wp_ret. set (r' := mtd_read_code _ r).
  assert (Hk : keeps (fun _ => False) nm (nm <| nm_ni := s' |>)).
  { intros i _ _. cbn. eapply data_step_frame; [exact Hds|apply Hs|tauto]. }
  assert (Hst : @usable _ nmbm_view (nm <| nm_ni := s' |>)) by (by eapply usable_data).
  destruct (negb (r' =? 0) && negb (r' =? - EUCLEAN)) eqn:Ec.
  { apply andb_true_iff in Ec as [E1 E2]. apply wp_ret. split_and!; [done|done| | |done].
    - intros E. rewrite E in E1. done.
    - destruct Hc as [-> |[-> | ->]]; subst r'; unfold mtd_read_code; cbn [Z.ltb]; by repeat case_match. }
  destruct (Z.eqb_spec n (zlen buf)) as [En|En]; cbn [negb]; apply wp_ret.
  - assert (r = 0) as -> by (destruct (decide (r = 0)); [done|]; specialize (Hko n0); lia).
    split_and!; [done|done| |done|done]. intros _. split; [cbn; lia|]. intros i Hi. by rewrite Hby by (done || lia).
  - by split_and!.
Qed.

Lemma nmbm_writeable : mtd_writeable (nmbm_upper lower L size) = true.
Proof. unfold mtd_writeable. cbn [mtd_flags nmbm_upper]. by rewrite Hflags. Qed.

Lemma nmbm_flash_write nm off data :
  usable nm -> 0 <= off < 2 ^ 64 ->
  wp (mtk_board_flash_write off data) (fun r nm' =>
    keeps (touches flash_page off (zlen data)) nm nm' /\
    (r = 0 -> usable nm' /\ off + zlen data <= flash_size /\
     forall i old x, 0 <= i < zlen data -> byte_at nm (off + i) = Some old -> znth data i = Some x ->
       byte_at nm' (off + i) = Some (Z.land old x))) nm.
Proof.
  intros Hu Ho. pose proof size_bound as Hsz. pose proof (zlen_nonneg data) as Hl.
  cbn [mtk_board_flash_write nmbm_flash board_flash]. unfold board_flash_write, mtd_write.
  apply wp_bind, wp_bind. eapply wp_lift; [done|]. cbn [mtd_size mtd_write_op nmbm_upper].
  rewrite nmbm_writeable. cbn [negb].
  destruct (i64_range off Ho) as [[-> Ho63]|Hneg]; cycle 1.
  { destruct (Z.ltb_spec (i64 off) 0); [|lia]. cbn [orb]. apply wp_ret, wp_ret. by split. }
  destruct (Z.ltb_spec off 0); [lia|]. destruct (Z.ltb_spec size off); [apply wp_ret, wp_ret; by split|].
  destruct (Z.ltb_spec (size - off) (zlen data)); [apply wp_ret, wp_ret; by split|]. cbn [orb].
  destruct (Z.eqb_spec (zlen data) 0) as [E0|E0].
  { apply wp_ret, wp_ret. split; [apply keeps_refl|]. intros _.
    split_and!; [done|cbn; lia|intros i old x Hi; lia]. }
  pose proof Hu as (Hs & Hav & Hus). unfold nmbm_mtd_write. apply wp_bind, wp_gets. rewrite Hus, u64_small by lia.
  destruct (Z.ltb_spec size (off + zlen data)); [lia|]. apply wp_bind, wp_on_ni.
  destruct (decide (protected (nm_ni nm) = 0)) as [Hp|Hp]; cycle 1.
  { eapply wp_of_run; [by apply (protected_refuses _ off data 0)|]. apply wp_ret, wp_ret. destruct nm. by split. }
  eapply wp_conseq; [apply (write_range_ok (nm_ni nm) off data); try apply Hs; try lia; done|].
  intros [r retlen] s' (Hd' & Hds & n & -> & Hn & Hprog & Hok & _). apply wp_ret, wp_ret. split.
  - intros i Hi Hw. cbn. eapply data_step_frame; [exact Hds|apply Hs|]. intros a Ha Hq. apply Hw.
    by eapply pages_of_touches; [apply Hs|lia|lia|exact Ha|exact Hq].
  - intros ->. destruct (Hok eq_refl) as (-> & _). split_and!; [by eapply usable_data|cbn; lia|exact Hprog].
Qed.

Lemma nmbm_flash_erase nm off len :
  usable nm -> 0 <= off < 2 ^ 64 -> 0 <= len < 2 ^ 64 ->
  wp (mtk_board_flash_erase off len) (fun r nm' =>
    keeps (touches mtk_board_get_flash_erase_size off len) nm nm' /\
    (r = 0 -> usable nm' /\ off + len <= flash_size /\
     forall i, 0 <= i < flash_size -> touches mtk_board_get_flash_erase_size off len i ->
       byte_at nm' i = Some 255)) nm.
Proof.
  intros Hu Ho Hl. pose proof size_bound as Hsz.
  cbn [mtk_board_flash_erase mtk_board_get_flash_erase_size nmbm_flash board_flash].
  unfold board_flash_erase, board_flash_erase_size, mtd_erase. rewrite nmbm_writeable.
  cbn [mtd_size mtd_erasesize mtd_erase_op nmbm_upper ei_addr ei_len negb]. rewrite Hes. apply wp_bind.
  destruct (Z.ltb_spec size off); [apply wp_ret, wp_ret; by split|].
  destruct (Z.ltb_spec (size - off) len); [apply wp_ret, wp_ret; by split|]. cbn [orb].
  change (ei_len ((mkErase off len 0 0) <| ei_fail_addr := MTD_FAIL_ADDR_UNKNOWN |>)) with len.
  destruct (Z.eqb_spec len 0) as [->|E0].
  { apply wp_ret, wp_ret. split; [apply keeps_refl|]. intros _.
    split_and!; [done|cbn; lia|intros i _ [Hz _]; lia]. }
  pose proof Hu as (Hs & Hav & Hus). unfold nmbm_mtd_erase. apply wp_bind, wp_on_ni.
  change (ei_addr _) with off. change (ei_len _) with len.
  assert (Hk : forall s', (forall i, ~ (off / erasesize <= i / erasesize < (off + len - 1) / erasesize + 1) ->
    logic_byte s' i = logic_byte (nm_ni nm) i) -> keeps (touches erasesize off len) nm (nm <| nm_ni := s' |>)).
  { intros s' Hout i Hi Hw. cbn. apply Hout. intros Hr. apply Hw. split; [lia|]. lia. }
  apply erase_range_service; [done|lia..| |].
  - intros s' (Hs' & Hc' & Hin & Hout). apply wp_ret, wp_ret. split; [by apply Hk|]. intros _.
    split_and!; [split_and!; [exact Hs'|cbn; unfold avail in *; by rewrite Hc'|exact Hus]|cbn; lia|].
    intros i _ [_ Hi]. cbn. apply Hin. lia.
  - intros r x s' Hr Hout. destruct (Z.eqb_spec r 0) as [|_]; [done|]. destruct x as [x|].
    all: apply wp_ret, wp_ret; split; [by apply Hk|done].
Qed.

Lemma nmbm_flash_laws : flash_laws nmbm_flash nmbm_view.
Proof.
  constructor.
  - apply writesize_pos.
  - cbn. unfold board_flash_erase_size. cbn. rewrite Hes. apply writesize_divides_erasesize.
  - cbn. unfold board_flash_erase_size. cbn. rewrite Hes. destruct geo_block as (b & Hb & E).
    exists b. split; [|done]. pose proof geo_erase as He. rewrite E in He.
    assert (b <= 24); [|lia]. apply (Z.pow_le_mono_r_iff 2); lia.
  - cbn. unfold board_flash_erase_size. cbn. rewrite Hes. destruct Hsize as (n & _ & ->). apply Z.divide_factor_r.
  - apply size_bound.
  - intros nm i (Hs & Hav & _) Hi. apply mapped_byte, (is_mapped _ Hs), avail_block. by rewrite Hav.
  - intros nm off buf Hu Ho _. eapply wp_conseq; [by apply nmbm_flash_read|].
    intros [r b] nm' (H1 & H2 & H3 & _ & Hu'). split_and!; try done. intros E. split; [done|auto].
  - intros nm off data Hu Ho _. by apply nmbm_flash_write.
  - intros nm off len Hu Ho Hl. by apply nmbm_flash_erase.
Qed.

(** Reading, successful or not, leaves the device in service. *)
Lemma nmbm_flash_steady : flash_steady nmbm_flash nmbm_view.
Proof.
  intros nm off buf Hu Ho _. eapply wp_conseq; [by apply nmbm_flash_read|]. by intros [r b] nm' (_ & _ & _ & _ & H).
Qed.

End NmbmFlash.
