(* ===== verification/MtdWorks.v ===== *)
(** * MTD devices that work

    The promise of an MTD device whose reads, writes and erases succeed, for
    the code that does not look at results; NMBM on a chip without read and
    write errors keeps it, and so does a plain array of bytes. *)

From stdpp Require Import base numbers list strings option.
From Stdlib Require Import ZArith Lia.
From S2P Require Import Prelude IntLib NmbmTypes NmbmPhys NmbmState NmbmNand NmbmTable NmbmMgmt NmbmImage NmbmMapping NmbmLogic NmbmIO NmbmErase Mtd NmbmMtd Flash Board NmbmFlash.

Class mtd_works {S} (mtd : mtd_info (M S)) (V : flash_view S) : Prop := {
  mw_size : mtd_size mtd = flash_size;
  mw_bound : 0 <= flash_size < 2 ^ 63;
  mw_flags : mtd_writeable mtd = true;
  mw_page : 0 < flash_page;
  mw_page_block : (flash_page | mtd_erasesize mtd);
  mw_block : exists k, 0 <= k < 31 /\ mtd_erasesize mtd = 2 ^ k;
  mw_blocks : (mtd_erasesize mtd | flash_size);
  mw_total s i : usable s -> 0 <= i < flash_size -> exists x, byte_at s i = Some x /\ is_byte x;
  mw_read s off buf : usable s -> 0 <= off -> 0 < zlen buf -> off + zlen buf <= flash_size ->
    wp (mtd_read_op mtd off buf 0) (fun '(r, b, n) s' =>
      mtd_read_code mtd r = 0 /\ n = zlen buf /\ zlen b = zlen buf /\
      usable s' /\ keeps (fun _ => False) s s' /\ holds s off b) s;
  mw_write s off data f : mtd_write_op mtd = Some f ->
    usable s -> 0 <= off -> 0 < zlen data -> off + zlen data <= flash_size ->
    wp (f off data 0) (fun '(r, n) s' =>
      r = 0 /\ usable s' /\ keeps (touches flash_page off (zlen data)) s s' /\
      forall i old x, 0 <= i < zlen data -> byte_at s (off + i) = Some old -> znth data i = Some x ->
        byte_at s' (off + i) = Some (Z.land old x)) s;
  mw_write_op : is_Some (mtd_write_op mtd);
  mw_erase s ei : usable s -> 0 <= ei_addr ei -> 0 < ei_len ei -> ei_addr ei + ei_len ei <= flash_size ->
    wp (mtd_erase_op mtd ei) (fun '(r, ei') s' =>
      r = 0 /\ ei_state ei' = MTD_ERASE_DONE /\ usable s' /\
      keeps (touches (mtd_erasesize mtd) (ei_addr ei) (ei_len ei)) s s' /\
      forall i, 0 <= i < flash_size -> touches (mtd_erasesize mtd) (ei_addr ei) (ei_len ei) i -> byte_at s' i = Some 255) s
}.

(** ** The entry points *)

Section Entry.
Context {S : Type} {mtd : mtd_info (M S)} {V : flash_view S} {MW : mtd_works mtd V}.
Implicit Types s : S.

Lemma works_read s off buf :
  usable s -> 0 <= off -> 0 < zlen buf -> off + zlen buf <= flash_size ->
  wp (mtd_read mtd off buf (Some 0)) (fun '(r, b, n) s' =>
    r = 0 /\ n = zlen buf /\ zlen b = zlen buf /\ usable s' /\ keeps (fun _ => False) s s' /\ holds s off b) s.
Proof.
  intros Hu H0 Hl Hf. unfold mtd_read. apply wp_bind. eapply wp_lift; [done|]. rewrite mw_size.
  destruct (Z.ltb_spec off 0); [lia|]. destruct (Z.ltb_spec flash_size off); [lia|].
  destruct (Z.ltb_spec (flash_size - off) (zlen buf)); [lia|]. cbn [orb].
  destruct (Z.eqb_spec (zlen buf) 0); [lia|]. apply wp_bind.
  eapply wp_conseq; [by apply mw_read|]. intros [[r b] n'] s' (Hr & Hx). apply wp_ret. by split.
Qed.

Lemma works_write s off data :
  usable s -> 0 <= off -> 0 < zlen data -> off + zlen data <= flash_size ->
  wp (mtd_write mtd off data (Some 0)) (fun '(r, n) s' =>
    r = 0 /\ usable s' /\ keeps (touches flash_page off (zlen data)) s s' /\
    forall i old x, 0 <= i < zlen data -> byte_at s (off + i) = Some old -> znth data i = Some x ->
      byte_at s' (off + i) = Some (Z.land old x)) s.
Proof.
  intros Hu H0 Hl Hf. unfold mtd_write. apply wp_bind. eapply wp_lift; [done|]. rewrite mw_size, mw_flags.
  destruct (Z.ltb_spec off 0); [lia|]. destruct (Z.ltb_spec flash_size off); [lia|].
  destruct (Z.ltb_spec (flash_size - off) (zlen data)); [lia|]. cbn [orb negb].
  destruct mw_write_op as [f Ef]. rewrite Ef. destruct (Z.eqb_spec (zlen data) 0); [lia|]. by apply mw_write.
Qed.

Lemma works_erase s off len :
  usable s -> 0 <= off -> 0 < len -> off + len <= flash_size ->
  wp (mtd_erase mtd (mkErase off len 0 0)) (fun '(r, ei) s' =>
    r = 0 /\ ei_state ei = MTD_ERASE_DONE /\ usable s' /\ keeps (touches (mtd_erasesize mtd) off len) s s' /\
    forall i, 0 <= i < flash_size -> touches (mtd_erasesize mtd) off len i -> byte_at s' i = Some 255) s.
Proof.
  intros Hu H0 Hl Hf. unfold mtd_erase. rewrite mw_size, mw_flags. cbn [ei_addr ei_len negb].
  destruct (Z.ltb_spec flash_size off); [lia|]. destruct (Z.ltb_spec (flash_size - off) len); [lia|]. cbn [orb].
  change (ei_len ((mkErase off len 0 0) <| ei_fail_addr := MTD_FAIL_ADDR_UNKNOWN |>)) with len.
  destruct (Z.eqb_spec len 0); [lia|]. exact (mw_erase (mtd := mtd) s ((mkErase off len 0 0) <| ei_fail_addr := MTD_FAIL_ADDR_UNKNOWN |>) Hu H0 Hl Hf).
Qed.

(** ** The board's flash functions on such a device *)

Context (parts : string -> option (Z * Z)).

(** Requests that do not reach the device. *)
Lemma read_edge s off buf :
  ~ (0 <= off /\ 0 < zlen buf /\ off + zlen buf <= flash_size) ->
  exists r, mtd_read mtd off buf (Some 0) s = Ret (r, buf, 0) s /\
    (r = - EINVAL \/ r = 0 /\ zlen buf = 0 /\ 0 <= off <= flash_size).
Proof.
  intros Hn. unfold mtd_read, bind, lift. rewrite mw_size. pose proof (zlen_nonneg buf).
  destruct (Z.ltb_spec off 0); [by eexists; split; [|left]|].
  destruct (Z.ltb_spec flash_size off); [by eexists; split; [|left]|].
  destruct (Z.ltb_spec (flash_size - off) (zlen buf)); [by eexists; split; [|left]|]. cbn [orb].
  destruct (Z.eqb_spec (zlen buf) 0); [|lia]. eexists. split; [done|]. right. lia.
Qed.

Lemma write_edge s off data :
  ~ (0 <= off /\ 0 < zlen data /\ off + zlen data <= flash_size) ->
  exists r, mtd_write mtd off data (Some 0) s = Ret (r, 0) s /\
    (r = - EINVAL \/ r = 0 /\ zlen data = 0 /\ 0 <= off <= flash_size).
Proof.
  intros Hn. unfold mtd_write, bind, lift. rewrite mw_size, mw_flags. pose proof (zlen_nonneg data).
  destruct (Z.ltb_spec off 0); [by eexists; split; [|left]|].
  destruct (Z.ltb_spec flash_size off); [by eexists; split; [|left]|].
  destruct (Z.ltb_spec (flash_size - off) (zlen data)); [by eexists; split; [|left]|]. cbn [orb negb].
  destruct mw_write_op as [f ->]. destruct (Z.eqb_spec (zlen data) 0); [|lia]. eexists. split; [done|]. right. lia.
Qed.

Lemma i64_nonneg off : 0 <= off < 2 ^ 64 -> 0 <= i64 off -> i64 off = off.
Proof. intros H. unfold i64. rewrite Z.mod_small by lia. destruct (Z.ltb_spec off (2 ^ 63)); lia. Qed.

Lemma board_read_works s off buf :
  usable s -> 0 <= off < 2 ^ 64 ->
  wp (board_flash_read mtd off buf) (fun '(r, b) s' =>
    zlen b = zlen buf /\ keeps (fun _ => False) s s' /\ usable s' /\
    (r = 0 -> off + zlen buf <= flash_size /\ holds s off b)) s.
Proof.
  intros Hu Ho. pose proof mw_bound as Hb. pose proof (zlen_nonneg buf). unfold board_flash_read. apply wp_bind.
  destruct (decide (0 <= i64 off /\ 0 < zlen buf /\ i64 off + zlen buf <= flash_size)) as [(H0 & H1 & H2)|Hn].
  - rewrite i64_nonneg in * by lia. eapply wp_conseq; [by apply works_read|].
    intros [[r b] n] s' (-> & -> & Hl & Hu' & Hk & Hh). cbn [Z.eqb negb andb]. rewrite Z.eqb_refl. cbn [negb].
    apply wp_ret. by split_and!.
  - destruct (read_edge s (i64 off) buf Hn) as (r & E & Hr). eapply wp_of_run; [exact E|].
    destruct Hr as [->|(-> & Hz & Hf)]; [apply wp_ret; by split_and!|].
    rewrite Hz. change (negb (0 =? 0)) with false. cbn [andb]. apply wp_ret.
    split_and!; [lia|apply keeps_refl|done|]. intros _. rewrite i64_nonneg in Hf by lia. split; [lia|]. intros i. rewrite Hz. lia.
Qed.

Lemma board_write_works s off data :
  usable s -> 0 <= off < 2 ^ 64 ->
  wp (board_flash_write mtd off data) (fun r s' =>
    keeps (touches flash_page off (zlen data)) s s' /\
    (r = 0 -> usable s' /\ off + zlen data <= flash_size /\
     forall i old x, 0 <= i < zlen data -> byte_at s (off + i) = Some old -> znth data i = Some x ->
       byte_at s' (off + i) = Some (Z.land old x))) s.
Proof.
  intros Hu Ho. pose proof mw_bound as Hb. pose proof (zlen_nonneg data). unfold board_flash_write. apply wp_bind.
  destruct (decide (0 <= i64 off /\ 0 < zlen data /\ i64 off + zlen data <= flash_size)) as [(H0 & H1 & H2)|Hn].
  - rewrite i64_nonneg in * by lia. eapply wp_conseq; [by apply works_write|].
    intros [r n] s' (-> & Hu' & Hk & Hp). apply wp_ret. by split_and!.
  - destruct (write_edge s (i64 off) data Hn) as (r & E & Hr). eapply wp_of_run; [exact E|]. apply wp_ret.
    split; [apply keeps_refl|]. destruct Hr as [->|(-> & Hz & Hf)]; [done|]. intros _.
    rewrite i64_nonneg in Hf by lia. split_and!; [done|lia|intros; lia].
Qed.

Lemma board_erase_works s off len :
  usable s -> 0 <= off < 2 ^ 64 -> 0 <= len < 2 ^ 64 ->
  wp (board_flash_erase mtd off len) (fun r s' =>
    keeps (touches (mtd_erasesize mtd) off len) s s' /\
    (r = 0 -> usable s' /\ off + len <= flash_size /\
     forall i, 0 <= i < flash_size -> touches (mtd_erasesize mtd) off len i -> byte_at s' i = Some 255)) s.
Proof.
  intros Hu Ho Hl. pose proof mw_bound as Hb. unfold board_flash_erase. apply wp_bind.
  destruct (decide (0 < len /\ off + len <= flash_size)) as [(H1 & H2)|Hn].
  - eapply wp_conseq; [by apply works_erase; [|lia|..]|]. intros [r ei] s' (-> & Es & Hu' & Hk & Hbl).
    cbn [Z.eqb negb]. rewrite Es. cbn. apply wp_ret. by split_and!.
  - unfold mtd_erase. rewrite mw_size, mw_flags. cbn [ei_addr ei_len negb].
    destruct (Z.ltb_spec flash_size off); [apply wp_ret, wp_ret; by split|].
    destruct (Z.ltb_spec (flash_size - off) len); [apply wp_ret, wp_ret; by split|]. cbn [orb].
    change (ei_len ((mkErase off len 0 0) <| ei_fail_addr := MTD_FAIL_ADDR_UNKNOWN |>)) with len.
    destruct (Z.eqb_spec len 0) as [->|]; [|lia]. apply wp_ret, wp_ret. split; [apply keeps_refl|]. intros _.
    split_and!; [done|lia|]. intros i _ [? _]. lia.
Qed.

Lemma works_flash_laws : flash_laws (board_flash mtd parts) V.
Proof.
  constructor; try apply MW.
  - intros s off buf Hu Ho _. eapply wp_conseq; [by apply board_read_works|].
    intros [r b] s' (H1 & H2 & H3 & H4). split_and!; try done. intros E. split; [done|by apply H4].
  - intros s off data Hu Ho _. by apply board_write_works.
  - intros s off len Hu Ho Hl. by apply board_erase_works.
Qed.

Lemma works_flash_steady : flash_steady (board_flash mtd parts) V.
Proof.
  intros s off buf Hu Ho _. eapply wp_conseq; [by apply board_read_works|]. by intros [r b] s' (_ & _ & H & _).
Qed.

End Entry.

(** ** NMBM on a chip without read and write errors *)

Section NmbmWorks.
Context {D : Type} {L : nmbm_lower_device D} {P : NandModel D}.
Context {GO : geometry_ok L} {NL : nand_laws L P}.
Implicit Types s : nmbm_instance D.
Implicit Types nm : nmbm_mtd D.

(** Every logic block is mapped to a good block that erases. *)
Definition healthy s : Prop :=
  forall lb, 0 <= lb < data_block_count s ->
    exists pb, znth (block_mapping s) lb = Some pb /\ 0 <= pb /\ good (block_state s) pb /\ erasable pb.

Record flawless s : Prop := {
  fl_device : device_ok s;
  fl_mapping : mapping_ok s;
  fl_writable : protected s = 0;
  fl_healthy : healthy s
}.

Lemma flawless_io W s s' : flawless s -> io_step W s s' -> flawless s'.
Proof.
  intros [Hd Hm Hp Hh] Hio. constructor.
  - by eapply device_io.
  - by eapply mapping_ok_io.
  - by rewrite (proj2 (io_step_count _ _ _ Hio)).
  - by destruct Hio as (d & pc & -> & _).
Qed.

Lemma live_flawless R s i : (forall a, R a) -> flawless s -> 0 <= i < avail s -> live R s (page_of i).
Proof.
  intros HR Hs Hi. geometry. unfold avail in Hi. unfold page_of.
  assert (Hw : 0 < writesize) by lia. pose proof (Z.mod_pos_bound i writesize Hw). pose proof (Z.mod_le i writesize (proj1 Hi) Hw).
  destruct (fl_healthy _ Hs ((i - i mod writesize) / erasesize)) as (pb & Hpb & Hp0 & Hg & _).
  { split; [apply Z.div_pos; lia|apply Z.div_lt_upper_bound; lia]. }
  exists pb. split_and!; [done|lia|by rewrite Hg|apply HR].
Qed.

(** Erasing a range takes no spare block. *)
Definition wiped_range s b0 b1 s1 : Prop :=
  (exists d', s1 = s <| dev := d' |>) /\ device_ok s1 /\
  (forall i, b0 <= i / erasesize < b1 -> logic_byte s1 i = Some 255) /\
  (forall i, ~ (b0 <= i / erasesize < b1) -> logic_byte s1 i = logic_byte s i).

Lemma wiped_range_step s b0 b s1 Q :
  flawless s -> wiped_range s b0 b s1 -> 0 <= b0 <= b -> b < data_block_count s ->
  (forall s2, wiped_range s b0 (b + 1) s2 -> Q 0 s2) ->
  wp (nmbm_erase_logic_block b) Q s1.
Proof.
  intros Hs ((d1 & E) & Hd1 & Hin & Hout) Hb Hbc HQ.
  pose proof (dev_count s (fl_device s Hs)) as Hc. pose proof erasesize_pos as He.
  destruct (fl_healthy _ Hs b ltac:(lia)) as (pb & Hpb & Hp0 & Hg & Her).
  eapply wp_conseq; [apply wp_and;
    [apply (erase_logic_ok s1 b); [done|lia]
    |apply (erase_logic_live s1 b pb); subst s1; try done; lia]|].
  cbv beta. intros r s2 [[Hera Hr] [-> (d2 & E2)]]. apply HQ.
  assert (Hm1 : mapping_ok s1) by (subst s1; destruct Hs as [_ [] _ _]; by constructor).
  split_and!.
  - exists d2. subst. done.
  - apply Hera.
  - intros i Hi. destruct Hr as [[_ Hbl]|Hr]; [|unfold EIO in Hr; lia].
    destruct (decide (i / erasesize = b)); [by eapply blank_block_bytes|].
    rewrite (erasing_frame s1 b s2 i) by done. apply Hin. lia.
  - intros i Hi. rewrite (erasing_frame s1 b s2 i); [apply Hout; lia|done|done|lia].
Qed.

Lemma erase_range_flawless s addr size Q :
  flawless s -> 0 <= addr -> 0 < size -> addr + size <= avail s ->
  (forall s', wiped_range s (addr / erasesize) ((addr + size - 1) / erasesize + 1) s' -> Q (0, None) s') ->
  wp (nmbm_erase_block_range addr size) Q s.
Proof.
  intros Hs Ha Hsz Hfit HQ. pose proof (fl_device s Hs) as Hd. geometry.
  destruct (avail_bound s Hd) as [Hav Hba]. unfold nmbm_erase_block_range. wp_step. wp_step.
  rewrite (fl_writable s Hs), Z.eqb_refl. cbn [negb].
  wp_step. wp_step. rewrite Hba. destruct (Z.leb_spec (avail s) addr); [lia|].
  rewrite !u64_small by lia. destruct (Z.ltb_spec (avail s) (addr + size)); [lia|].
  destruct (Z.eqb_spec size 0); [lia|].
  assert (Hbig : block_count * erasesize < 2 ^ 32 * erasesize) by nia.
  rewrite !addr2ba_spec by lia.
  assert (H1 : 0 <= addr / erasesize) by (apply Z.div_pos; lia).
  assert (H2 : (addr + size - 1) / erasesize < data_block_count s)
    by (apply Z.div_lt_upper_bound; unfold avail in *; lia).
  assert (H3 : addr / erasesize <= (addr + size - 1) / erasesize) by (apply Z.div_le_mono; lia).
  pose proof (dev_count s Hd) as Hc.
  set (e := (addr + size - 1) / erasesize) in *. set (b0 := addr / erasesize) in *.
  apply (wp_iter (fun b s1 => b0 <= b <= e + 1 /\ wiped_range s b0 b s1) (fun b _ => Z.to_nat (e + 1 - b))); cycle 1.
  { split; [lia|]. split_and!; [exists (dev s); by destruct s|done|intros; lia|done]. }
  { lia. }
  intros b s1 [Hb Her]. unfold erase_blocks_body. destruct (Z.leb_spec b e); cycle 1.
  { wp_step. assert (b = e + 1) as -> by lia. by apply HQ. }
  wp_step. eapply wiped_range_step; [exact Hs|exact Her|lia|lia|]. intros s2 Her2.
  cbn [Z.eqb negb]. wp_step. rewrite u32_small by lia. split; [|lia]. split; [lia|done].
Qed.

(** ** The device *)

Context (lower : mtd_info (total D)) (size : Z).
Context (Hes : mtd_erasesize lower = erasesize) (Hflags : mtd_flags lower = MTD_CAP_NANDFLASH).
Context (Hsize : exists n, 0 <= n <= block_count /\ size = n * erasesize).
Context (Hthr : 0 < mtd_bitflip_threshold lower).
Context (HR : forall a, reliable_page a) (HW : forall a, programmable a).

(** The bytes of [nmbm_view], as long as the device is flawless. *)
Definition flawless_view : flash_view (nmbm_mtd D) := {|
  flash_size := size;
  flash_page := writesize;
  usable nm := flawless (nm_ni nm) /\ avail (nm_ni nm) = size /\ nm_upper_size nm = size;
  byte_at nm := logic_byte (nm_ni nm)
|}.

#[local] Existing Instance flawless_view.

Lemma flawless_usable W nm s' : usable nm -> io_step W (nm_ni nm) s' -> usable (nm <| nm_ni := s' |>).
Proof.
  intros (Hs & Ha & Hu) Hio. split_and!; [by eapply flawless_io| |done].
  unfold avail in *. simpl. by rewrite (proj1 (io_step_count _ _ _ Hio)).
Qed.

Lemma nmbm_works_read nm off buf :
  usable nm -> 0 <= off -> 0 < zlen buf -> off + zlen buf <= size ->
  wp (nmbm_mtd_read off buf 0) (fun '(r, b, n) nm' =>
    mtd_read_code (nmbm_upper lower L size) r = 0 /\ n = zlen buf /\ zlen b = zlen buf /\
    usable nm' /\ keeps (fun _ => False) nm nm' /\ holds nm off b) nm.
Proof.
  intros Hu H0 Hl Hf. pose proof (size_bound size Hsize) as Hsz. pose proof Hu as (Hs & Hav & Hus).
  unfold nmbm_mtd_read. apply wp_bind, wp_gets. rewrite Hus, u64_small by lia.
  destruct (Z.ltb_spec size (off + zlen buf)); [lia|]. apply wp_bind, wp_on_ni.
  eapply wp_conseq; [apply (read_range_ok (nm_ni nm) off buf); try apply Hs; lia|].
  intros [[r b] retlen] s' (Hd' & Hds & Hc & Hlb & n & -> & Hn & Hby & Hok & Hko & Hlv). change (default 0 (Some n)) with n.
  assert (r = 0) as -> by (apply Hlv; intros i Hi; apply live_flawless; [done|done|lia]).
  destruct (Hok eq_refl) as [-> Hio]. apply wp_ret. split_and!; [|done|done|by eapply flawless_usable| |].
  - unfold mtd_read_code. cbn [Z.ltb]. destruct (_ =? 0); [done|]. cbn [mtd_bitflip_threshold nmbm_upper].
    change (0 <? 0) with false. cbv iota. destruct (Z.leb_spec (mtd_bitflip_threshold lower) 0); [lia|done].
  - intros i _ _. cbn. eapply data_step_frame; [exact Hds|apply Hs|tauto].
  - intros i Hi. by rewrite Hby by (done || lia).
Qed.

Lemma nmbm_works_write nm off data :
  usable nm -> 0 <= off -> 0 < zlen data -> off + zlen data <= size ->
  wp (nmbm_mtd_write off data 0) (fun '(r, n) nm' =>
    r = 0 /\ usable nm' /\ keeps (touches writesize off (zlen data)) nm nm' /\
    forall i old x, 0 <= i < zlen data -> byte_at nm (off + i) = Some old -> znth data i = Some x ->
      byte_at nm' (off + i) = Some (Z.land old x)) nm.
Proof.
  intros Hu H0 Hl Hf. pose proof (size_bound size Hsize) as Hsz. pose proof Hu as (Hs & Hav & Hus).
  unfold nmbm_mtd_write. apply wp_bind, wp_gets. rewrite Hus, u64_small by lia.
  destruct (Z.ltb_spec size (off + zlen data)); [lia|]. apply wp_bind, wp_on_ni.
  eapply wp_conseq; [apply (write_range_ok (nm_ni nm) off data); try apply Hs; try lia; done|].
  intros [r retlen] s' (Hd' & Hds & n & -> & Hn & Hprog & Hok & _ & Hlv). apply wp_ret.
  assert (r = 0) as -> by (apply Hlv; intros i Hi; apply live_flawless; [done|done|lia]).
  destruct (Hok eq_refl) as (-> & Hio). split_and!; [done|by eapply flawless_usable| |exact Hprog].
  intros i Hi Hw. cbn. eapply data_step_frame; [exact Hds|apply Hs|]. intros a Ha Hp. apply Hw.
  by eapply pages_of_touches; [apply Hs|lia|lia|exact Ha|exact Hp].
Qed.

Lemma nmbm_works_erase nm ei :
  usable nm -> 0 <= ei_addr ei -> 0 < ei_len ei -> ei_addr ei + ei_len ei <= size ->
  wp (nmbm_mtd_erase ei) (fun '(r, ei') nm' =>
    r = 0 /\ ei_state ei' = MTD_ERASE_DONE /\ usable nm' /\
    keeps (touches erasesize (ei_addr ei) (ei_len ei)) nm nm' /\
    forall i, 0 <= i < size -> touches erasesize (ei_addr ei) (ei_len ei) i -> byte_at nm' i = Some 255) nm.
Proof.
  intros Hu H0 Hl Hf. pose proof Hu as (Hs & Hav & Hus). unfold nmbm_mtd_erase. apply wp_bind, wp_on_ni.
  change (ei_addr _) with (ei_addr ei). change (ei_len _) with (ei_len ei).
  apply erase_range_flawless; [done|lia..|]. intros s' ((d' & Es) & Hd' & Hin & Hout). apply wp_ret.
  split_and!; [done|done|..].
  - subst s'. destruct Hs as [_ [] ? ?]. split_and!; [|done|done]. by constructor.
  - intros i Hi Hw. cbn. apply Hout. intros Hr. apply Hw. split; [lia|]. lia.
  - intros i _ [_ Hi]. cbn. apply Hin. lia.
Qed.

Lemma nmbm_mtd_works : mtd_works (nmbm_upper lower L size) flawless_view.
Proof.
  pose proof (nmbm_flash_laws lower (fun _ => None) size Hes Hflags Hsize) as FL.
  constructor; try apply FL; try done.
  - by apply nmbm_writeable.
  - intros nm i (Hs & Hav & _) Hi. apply mapped_byte.
    destruct (fl_healthy _ Hs (i / erasesize)) as (pb & Hpb & Hp0 & _); [apply avail_block; by rewrite Hav|by exists pb].
  - intros s off buf. apply nmbm_works_read.
  - intros s off data f E. injection E as <-. apply nmbm_works_write.
  - intros s ei. cbn. rewrite Hes. apply nmbm_works_erase.
Qed.

End NmbmWorks.

(** ** An array of bytes *)

Section Array.
Context (size block page : Z).

Definition array_touched (u off len i : Z) : bool :=
  (0 <? len) && (off / u <=? i / u) && (i / u <=? (off + len - 1) / u).

Definition array_mtd : mtd_info (M (Z -> Z)) :=
  mkMtd MTD_DEV_TYPE_NMBM MTD_CAP_NANDFLASH size block page 0 0 1 0
    (fun off buf _ => do s <- gets (fun s => s); ret (0, map s (seqZ off (zlen buf)), zlen buf))
    (Some (fun off data _ =>
       modify (fun s i => match znth data (i - off) with Some x => Z.land (s i) x | None => s i end);; ret (0, zlen data)))
    (fun ei =>
       modify (fun s i => if array_touched block (ei_addr ei) (ei_len ei) i then 255 else s i);;
       ret (0, ei <| ei_state := MTD_ERASE_DONE |>))
    None None None None.

Definition array_view : flash_view (Z -> Z) := {|
  flash_size := size;
  flash_page := page;
  usable s := forall i, is_byte (s i);
  byte_at s i := Some (s i)
|}.

Lemma znth_seqZ (s : Z -> Z) off n i : 0 <= i < n -> znth (map s (seqZ off n)) i = Some (s (off + i)).
Proof.
  intros Hi. unfold znth. destruct (Z.ltb_spec i 0); [lia|]. rewrite list_lookup_fmap.
  rewrite lookup_seqZ_lt by lia. cbn. do 2 f_equal. lia.
Qed.

Lemma array_touched_spec u off len i : array_touched u off len i = true <-> touches u off len i.
Proof. unfold array_touched, touches. rewrite !andb_true_iff, Z.ltb_lt, !Z.leb_le. tauto. Qed.

Lemma array_works :
  0 <= size < 2 ^ 63 -> 0 < page -> (page | block) -> (exists k, 0 <= k < 31 /\ block = 2 ^ k) -> (block | size) ->
  mtd_works array_mtd array_view.
Proof.
  intros Hs Hp Hpb Hb Hbs. constructor; try done.
  - intros s i Hu Hi. by exists (s i).
  - intros s off buf Hu H0 Hl Hf. cbn [mtd_read_op array_mtd]. apply wp_bind, wp_gets, wp_ret.
    assert (Hlen : zlen (map s (seqZ off (zlen buf))) = zlen buf).
    { unfold zlen at 1. rewrite length_map, length_seqZ. pose proof (zlen_nonneg buf). lia. }
    split_and!; [done|done|done|done|apply keeps_refl|]. intros i Hi. rewrite Hlen in Hi. cbn. by rewrite znth_seqZ.
  - intros s off data f E. injection E as <-. intros Hu H0 Hl Hf. apply wp_bind, wp_modify, wp_ret. split_and!; [done|..].
    + intros i. destruct (znth _ _); [by apply land_byte|done].
    + intros i Hi Hn. cbn. destruct (znth data (i - off)) as [x|] eqn:E; [|done]. exfalso. apply Hn.
      apply znth_bounds in E. apply touches_range; [done|lia].
    + intros i old x Hi Ho Hx. cbn in *. injection Ho as <-. replace (off + i - off) with i by lia. by rewrite Hx.
  - intros s ei Hu H0 Hl Hf. cbn [mtd_erase_op array_mtd]. apply wp_bind, wp_modify, wp_ret. split_and!; [done|done|..].
    + intros i. by destruct (array_touched _ _ _ _).
    + intros i Hi Hn. cbn. destruct (array_touched _ _ _ i) eqn:E; [|done]. by apply array_touched_spec in E.
    + intros i Hi Ht. apply array_touched_spec in Ht. cbn in *. by rewrite Ht.
Qed.

End Array.
