(* ===== verification/Image.v ===== *)
(** * Legacy images

    [image_header_t] and its checks (include/image.h, common/image.c) and the
    watchdog-friendly checksum of lib/crc32.c.  A header is its 64 bytes. *)

From stdpp Require Import base numbers list.
From Stdlib Require Import ZArith Lia.
From S2P Require Import Prelude Crc32.

(** ** Definitions *)

Definition IH_MAGIC : Z := 0x27051956.
Definition IH_NMLEN : Z := 32.
Definition sizeof_image_header : Z := 64.

(** The big-endian 32-bit member at [off] ([uimage_to_cpu (hdr->ih_..)]). *)
Definition be32_at (off : nat) (hdr : list Z) : Z := le_value (rev (take 4 (drop off hdr))).

Definition image_get_magic (hdr : list Z) : Z := be32_at 0 hdr.
Definition image_get_hcrc (hdr : list Z) : Z := be32_at 4 hdr.
Definition image_get_size (hdr : list Z) : Z := be32_at 12 hdr.
Definition image_get_dcrc (hdr : list Z) : Z := be32_at 24 hdr.

Definition image_check_magic (hdr : list Z) : bool := image_get_magic hdr =? IH_MAGIC.

(** [uint32_t]: the sum wraps around. *)
Definition image_get_image_size (hdr : list Z) : Z := u32 (image_get_size hdr + sizeof_image_header).

(** [image_set_hcrc (&header, 0)]. *)
Definition blank_hcrc (hdr : list Z) : list Z := take 4 hdr ++ fill 0 4 ++ drop 8 hdr.

(** [image_check_hcrc] on the first 64 bytes of [hdr]. *)
Definition image_check_hcrc (hdr : list Z) : bool :=
  crc32 0 0 (blank_hcrc (take 64 hdr)) =? image_get_hcrc hdr.

(** [crc32_wd]: with a watchdog, in chunks of [chunk_sz] bytes. *)
Fixpoint crc32_chunks (fuel : nat) (p crc : Z) (buf : list Z) (chunk_sz : Z) : option Z :=
  match fuel with
  | O => None
  | S n =>
      if zlen buf =? 0 then Some crc
      else
        let chunk := if chunk_sz <? zlen buf then chunk_sz else zlen buf in
        crc32_chunks n (p + chunk) (crc32 p crc (take (Z.to_nat chunk) buf))
          (drop (Z.to_nat chunk) buf) chunk_sz
  end.

Definition CHUNKSZ_CRC32 : Z := 64 * 1024.

Definition crc32_wd (watchdog : bool) (p crc : Z) (buf : list Z) (chunk_sz : Z) : option Z :=
  if watchdog then crc32_chunks (S (length buf)) p crc buf chunk_sz
  else Some (crc32 p crc buf).

(** [image_check_dcrc] on the memory from the header on; [None] is an access
    beyond its end.  [p] is the address of the header. *)
Definition image_check_dcrc (watchdog : bool) (p : Z) (mem : list Z) : option bool :=
  data ← slice mem sizeof_image_header (image_get_size mem);
  dcrc ← crc32_wd watchdog (p + sizeof_image_header) 0 data CHUNKSZ_CRC32;
  Some (dcrc =? image_get_dcrc mem).

(** ** Lemmas *)

Lemma crc32_ref p crc buf :
  Forall is_byte buf -> crc32 p crc buf = Z.lxor (crc_ref (Z.lxor crc 0xffffffff) buf) 0xffffffff.
Proof. intros Hb. unfold crc32. by rewrite crc32_no_comp_ref. Qed.

(** The checksum of a concatenation, from any pair of addresses. *)
Lemma crc32_app p q r crc a b :
  Forall is_byte a -> Forall is_byte b -> crc32 p crc (a ++ b) = crc32 q (crc32 r crc a) b.
Proof.
  intros Ha Hb. rewrite !crc32_ref by (done || by apply Forall_app). rewrite crc_ref_app.
  by rewrite (Z.lxor_assoc (crc_ref _ a)), Z.lxor_nilpotent, Z.lxor_0_r.
Qed.

Lemma crc32_any_addr p q crc a : Forall is_byte a -> crc32 p crc a = crc32 q crc a.
Proof. intros Ha. by rewrite !crc32_ref. Qed.

Lemma crc32_nil p crc : crc32 p crc [] = crc.
Proof.
  rewrite crc32_ref by done. change (crc_ref ?c []) with c.
  by rewrite Z.lxor_assoc, Z.lxor_nilpotent, Z.lxor_0_r.
Qed.

(** Chunking does not change the checksum. *)
Lemma crc32_chunks_ok fuel p crc buf chunk_sz :
  0 < chunk_sz -> Forall is_byte buf -> (length buf < fuel)%nat ->
  crc32_chunks fuel p crc buf chunk_sz = Some (crc32 p crc buf).
Proof.
  intros Hc. revert p crc buf. induction fuel as [|n IH]; intros p crc buf Hb Hf; [lia|].
  cbn [crc32_chunks]. destruct (Z.eqb_spec (zlen buf) 0) as [E|E].
  { destruct buf; [by rewrite crc32_nil|]. unfold zlen in E. simpl in E. lia. }
  set (chunk := if _ <? _ then _ else _).
  assert (Hch : 0 < chunk <= zlen buf) by (unfold chunk; pose proof (zlen_nonneg buf); destruct (Z.ltb_spec chunk_sz (zlen buf)); lia).
  rewrite IH.
  - f_equal. transitivity (crc32 p crc (take (Z.to_nat chunk) buf ++ drop (Z.to_nat chunk) buf)).
    + symmetry. apply crc32_app; [by apply Forall_take|by apply Forall_drop].
    + by rewrite take_drop.
  - by apply Forall_drop.
  - rewrite length_drop. unfold zlen in *. lia.
Qed.

Lemma crc32_wd_ok watchdog p crc buf chunk_sz :
  0 < chunk_sz -> Forall is_byte buf -> crc32_wd watchdog p crc buf chunk_sz = Some (crc32 p crc buf).
Proof. intros Hc Hb. unfold crc32_wd. destruct watchdog; [|done]. apply crc32_chunks_ok; [done|done|lia]. Qed.

(** The header is read from the first bytes of an image. *)
Lemma be32_at_prefix off hdr hdr' :
  (off + 4 <= 64)%nat -> take 64 hdr = take 64 hdr' -> be32_at off hdr = be32_at off hdr'.
Proof.
  intros Ho E. unfold be32_at. f_equal. f_equal.
  assert (H : forall l : list Z, take (off + 4) l = take (off + 4) (take 64 l)).
  { intros l. rewrite take_take, Nat.min_l by lia. done. }
  rewrite !take_drop_commute. by rewrite (H hdr), (H hdr'), E.
Qed.

Lemma be32_at_range off hdr : Forall is_byte hdr -> 0 <= be32_at off hdr < 2 ^ 32.
Proof.
  intros Hb. unfold be32_at. set (l := rev _).
  assert (Hl : Forall is_byte l).
  { unfold l. apply Forall_rev, Forall_take, Forall_drop, Hb. }
  pose proof (le_value_bound l Hl) as [H1 H2]. split; [done|]. eapply Z.lt_le_trans; [exact H2|].
  change (2 ^ 32) with (256 ^ 4). apply Z.pow_le_mono_r; [lia|]. unfold l, zlen.
  rewrite length_rev, length_take. lia.
Qed.

(** A valid legacy image: header and data checksums match, and the size
    member gives its length. *)
Record legacy_image (img : list Z) : Prop := {
  li_magic : image_get_magic img = IH_MAGIC;
  li_hcrc : image_check_hcrc img = true;
  li_len : zlen img = sizeof_image_header + image_get_size img;
  li_dcrc : crc32 0 0 (drop 64 img) = image_get_dcrc img
}.
