(* ===== verification/DualImage.v ===== *)
(** * Dual images: definitions

    board/ralink/common/dual_image.c: checking the main and the backup
    firmware and restoring one from the other. *)

From stdpp Require Import base numbers list strings option.
From Stdlib Require Import ZArith Lia.
From S2P Require Import Prelude IntLib NmbmTypes Mtd Crc32 Image Flash.

(** What the code takes from the configuration. *)
Class dual_config := {
  MTK_DUAL_IMAGE_PARTNAME_MAIN : string;
  MTK_DUAL_IMAGE_PARTNAME_BACKUP : string;
  MTK_DUAL_IMAGE_SQUASHFS_DATA_CHECK : bool;
  MTK_DUAL_IMAGE_RESTORE_KERNEL_ONLY : bool;
  CONFIG_WATCHDOG : bool;
  CONFIG_FIT : bool
}.

(** The flattened image tree library, on the memory from an address on. *)
Class fit_library := {
  fdt_check_header : list Z -> Z;
  fit_check_format : list Z -> bool;
  fit_all_image_verify : list Z -> bool
}.

Definition SQUASHFS_MAGIC : Z := 0x73717368.
Definition sizeof_squashfs_super_block : Z := 48.

(** [fit_get_size]: the big-endian [totalsize] of the tree. *)
Definition fit_get_size (mem : list Z) : Z := be32_at 4 mem.

Inductive image_format := IMAGE_FORMAT_LEGACY | IMAGE_FORMAT_FIT | IMAGE_FORMAT_INVALID.

Definition genimg_get_format {FT : fit_library} (mem : list Z) : image_format :=
  if image_check_magic mem then IMAGE_FORMAT_LEGACY
  else if fdt_check_header mem =? 0 then IMAGE_FORMAT_FIT
  else IMAGE_FORMAT_INVALID.

Section DualImage.
Context {S : Type} {F : flash_helper S} {FT : fit_library} {C : dual_config}.

(** [ram] is the memory from [CONFIG_SYS_LOAD_ADDR] on: [at] bytes further,
    [size] bytes are read from the flash. *)
Definition read_to_ram (at_ : Z) (offset size : Z) (ram : list Z) : M S (Z * list Z) :=
  do dst <- lift (slice ram at_ size);
  do '(r, b) <- mtk_board_flash_read offset dst;
  do ram <- lift (splice ram at_ b);
  ret (r, ram).

(** Results of the verification functions: the return value, the size
    stored through the pointer if any, and the memory. *)
Definition read_failed (r : Z) : Z := if r =? - EBADMSG then 1 else - EIO.

Definition verify_legacy_image (offset maxsize : Z) (ram : list Z) : M S (Z * option Z * list Z) :=
  do hdr <- lift (slice ram 0 sizeof_image_header);
  if negb (image_check_hcrc hdr) then ret (1, None, ram)
  else
    let size := image_get_image_size hdr in
    if maxsize <? size then ret (1, None, ram)
    else
      do '(r, ram) <- read_to_ram 0 offset size ram;
      if negb (r =? 0) then ret (read_failed r, None, ram)
      else
        do dcrc <- lift (image_check_dcrc CONFIG_WATCHDOG 0 ram);
        if negb dcrc then ret (1, None, ram)
        else ret (0, Some size, ram).

Definition verify_fit_image (offset maxsize : Z) (ram : list Z) : M S (Z * option Z * list Z) :=
  let size := fit_get_size ram in
  if maxsize <? size then ret (1, None, ram)
  else
    do '(r, ram) <- read_to_ram 0 offset size ram;
    if negb (r =? 0) then ret (read_failed r, None, ram)
    else if negb (fit_check_format ram) then ret (1, None, ram)
    else if negb (fit_all_image_verify ram) then ret (1, None, ram)
    else ret (0, Some size, ram).

Definition verify_image (offset maxsize : Z) (ram : list Z) : M S (Z * option Z * list Z) :=
  do '(r, ram) <- read_to_ram 0 offset sizeof_image_header ram;
  if negb (r =? 0) then ret (read_failed r, None, ram)
  else
    match genimg_get_format ram with
    | IMAGE_FORMAT_LEGACY => verify_legacy_image offset maxsize ram
    | IMAGE_FORMAT_FIT =>
        if CONFIG_FIT then verify_fit_image offset maxsize ram else ret (1, None, ram)
    | IMAGE_FORMAT_INVALID => ret (1, None, ram)
    end.

(** [sb] and [data] are local variables, whose contents before do not matter. *)
Definition verify_squashfs (offset fs_end : Z) : M S (Z * option Z) :=
  do '(r, sb) <- mtk_board_flash_read offset (fill 0 sizeof_squashfs_super_block);
  if negb (r =? 0) then ret (read_failed r, None)
  else if negb (get_le 4 0 sb =? SQUASHFS_MAGIC) then ret (1, None)
  else
    let size := get_le 8 40 sb in
    if fs_end <=? u64 (offset + size) then ret (1, None)
    else if MTK_DUAL_IMAGE_SQUASHFS_DATA_CHECK then
      do '(r, data) <- mtk_board_flash_read (u64 (offset + size - 1)) (fill 0 1);
      if negb (r =? 0) then ret (0, None)
      else
        do data <- lift (znth data 0);
        if data =? 0xff then ret (1, None) else ret (0, Some (u32 size))
    else ret (0, Some (u32 size)).

(** [verify_rootfs]: the return value, [*header_prefix_bytes] if stored and
    [*rootfs_size] if stored. *)
Definition verify_rootfs (offset maxsize : Z) : M S (Z * option Z * option Z) :=
  let fs_end := u64 (offset + maxsize) in
  do '(r, size1) <- verify_squashfs offset fs_end;
  if r =? 0 then ret (0, Some 0, size1)
  else
    let leading := offset mod mtk_board_get_flash_erase_size in
    if leading =? 0 then ret (1, None, size1)
    else
      let extra_bytes := mtk_board_get_flash_erase_size - leading in
      let offset := u64 (offset + extra_bytes) in
      do '(r, size2) <- verify_squashfs offset fs_end;
      let size := match size2 with Some _ => size2 | None => size1 end in
      if r =? 0 then ret (0, Some (u32 extra_bytes), size)
      else ret (1, None, size).

(** One erase block of [copy_firmware]: the source is read to [buff], the
    start of [ram], and compared with what was written, read to [verify], one
    erase block further. *)
Definition copy_block (src_offset addr chunksz : Z) (ram : list Z) : M S (Z * list Z) :=
  let erasesize := mtk_board_get_flash_erase_size in
  do '(r, ram) <- read_to_ram 0 src_offset chunksz ram;
  if negb (r =? 0) then ret (- EIO, ram)
  else
    do r <- mtk_board_flash_erase addr erasesize;
    if negb (r =? 0) then ret (- EIO, ram)
    else
      do buff <- lift (slice ram 0 chunksz);
      do r <- mtk_board_flash_write addr buff;
      if negb (r =? 0) then ret (- EIO, ram)
      else
        do '(r, ram) <- read_to_ram erasesize addr chunksz ram;
        if negb (r =? 0) then ret (- EIO, ram)
        else
          do buff <- lift (slice ram 0 chunksz);
          do verify <- lift (slice ram erasesize chunksz);
          ret (if bool_decide (buff = verify) then 0 else 1, ram).

Definition copy_firmware_body (x : Z * Z * Z * list Z) : M S (Z * Z * Z * list Z + Z * Z * list Z) :=
  let '(src_offset, addr, sizeleft, ram) := x in
  if negb (sizeleft =? 0) then
    let erasesize := mtk_board_get_flash_erase_size in
    let chunksz := if erasesize <? sizeleft then erasesize else sizeleft in
    do '(r, ram) <- copy_block src_offset addr chunksz ram;
    if negb (r =? 0) then ret (inr (r, addr, ram))
    else ret (inl (u64 (src_offset + chunksz), u64 (addr + chunksz), sizeleft - chunksz, ram))
  else ret (inr (0, addr, ram)).

Definition deadc0de_bytes : list Z := [0xde; 0xad; 0xc0; 0xde].

(** The erase block mask has 32 bits. *)
Definition marker_addr (addr : Z) : Z :=
  let erasesize := mtk_board_get_flash_erase_size in
  Z.land (u64 (addr + erasesize - 1)) (u32 (Z.lnot (erasesize - 1))).

Definition copy_firmware (src_offset dst_offset size : Z) (deadc0de : bool) (ram : list Z) : M S Z :=
  let sizeleft := u32 size in
  do '(r, addr, ram) <- iter (Z.to_nat sizeleft + 1) copy_firmware_body (src_offset, dst_offset, sizeleft, ram);
  if negb (r =? 0) then ret r
  else if negb deadc0de then ret 0
  else
    let addr := marker_addr addr in
    do r <- mtk_board_flash_erase addr mtk_board_get_flash_erase_size;
    if negb (r =? 0) then ret (- EIO)
    else
      do r <- mtk_board_flash_write addr deadc0de_bytes;
      if negb (r =? 0) then ret (- EIO) else ret 0.

(** Checking one image: [verify_image] and, on success, [verify_rootfs]; the
    result is the early return for a failed read, or whether the image is
    good with its size, padding and root file system size. *)
Definition check_one (off partsize : Z) (ram : list Z) : M S (option (bool * Z * Z * Z) * list Z) :=
  do '(r, size, ram) <- verify_image off partsize ram;
  if r <? 0 then ret (None, ram)
  else if r =? 0 then
    do size <- lift size;
    do '(r, padding, rootfs) <- verify_rootfs (u64 (off + size)) (u64 (partsize - size));
    ret (Some (r =? 0, size, default 0 padding, default 0 rootfs), ram)
  else ret (Some (false, 0, 0, 0), ram).

(** The tail of [dual_image_check]: restore partition [dst] from [src]. *)
Definition restore_image (src_off dst_off dst_partsize size padding rootfs : Z) (ram : list Z) : M S Z :=
  let total :=
    if MTK_DUAL_IMAGE_RESTORE_KERNEL_ONLY then size else u64 (size + u32 (padding + rootfs)) in
  if dst_partsize <? total then ret 4
  else copy_firmware src_off dst_off total (negb MTK_DUAL_IMAGE_RESTORE_KERNEL_ONLY) ram.

Definition dual_image_check (ram : list Z) : M S Z :=
  if negb mtk_board_get_flash_dev then ret (-1)
  else
    match get_mtd_part_info MTK_DUAL_IMAGE_PARTNAME_MAIN with
    | None => ret (-1)
    | Some (image1_off, image1_partsize) =>
        match get_mtd_part_info MTK_DUAL_IMAGE_PARTNAME_BACKUP with
        | None => ret (-1)
        | Some (image2_off, image2_partsize) =>
            do '(c1, ram) <- check_one image1_off image1_partsize ram;
            match c1 with
            | None => ret 0
            | Some (image1_ok, size1, padding1, rootfs1) =>
                do '(c2, ram) <- check_one image2_off image2_partsize ram;
                match c2 with
                | None => ret 0
                | Some (image2_ok, size2, padding2, rootfs2) =>
                    if negb image1_ok && negb image2_ok then ret 3
                    else if image1_ok && image2_ok then ret 0
                    else if negb image2_ok
                    then restore_image image1_off image2_off image2_partsize size1 padding1 rootfs1 ram
                    else restore_image image2_off image1_off image1_partsize size2 padding2 rootfs2 ram
                end
            end
        end
    end.

End DualImage.
