(* ===== verification/DualCopy.v ===== *)
(** * Dual images: copying

    [copy_firmware] on a device that obeys the flash laws: what it copies and
    what it leaves alone, whether it succeeds or not. *)

From stdpp Require Import base numbers list strings option.
From Stdlib Require Import ZArith Lia.
From S2P Require Import Prelude IntLib NmbmTypes Mtd Crc32 Image Flash DualImage.

Local Abbreviation es := mtk_board_get_flash_erase_size.

Section Copy.
Context {S : Type} {F : flash_helper S} {V : flash_view S} {FL : flash_laws F V}.
Implicit Types s : S.

(** The block of the end marker. *)
Lemma marker_addr_spec a : 0 <= a -> a + es <= 2 ^ 32 -> marker_addr a = align_up a.
Proof.
  intros Ha Hb. pose proof erase_size_pos as He. unfold marker_addr, align_up.
  rewrite u64_small by lia. destruct flash_block_pow as (k & Hk & E). rewrite E in *.
  rewrite land_block_mask by lia. done.
Qed.

(** Reading to memory. *)
Lemma read_to_ram_ok s at_ off size ram Q :
  usable s -> 0 <= at_ -> 0 <= size < 2 ^ 32 -> at_ + size <= zlen ram -> 0 <= off < 2 ^ 64 ->
  (forall r ram' b s', zlen ram' = zlen ram -> keeps (fun _ => False) s s' ->
     slice ram' at_ size = Some b ->
     (forall o n, o + n <= at_ \/ at_ + size <= o -> slice ram' o n = slice ram o n) ->
     (r = 0 -> usable s' /\ off + size <= flash_size /\ holds s off b) -> Q (r, ram') s') ->
  wp (read_to_ram at_ off size ram) Q s.
Proof.
  intros Hu Ha Hs Hfit Ho HQ. unfold read_to_ram. apply wp_bind.
  pose proof (slice_some ram at_ size Ha ltac:(lia) Hfit) as Hsl.
  eapply wp_lift; [exact Hsl|]. pose proof (slice_zlen _ _ _ _ Hsl) as Hlen. set (dst := take _ _) in *.
  apply wp_bind. eapply wp_conseq; [apply (flash_read_law s off dst Hu Ho); lia|].
  intros [r b] s' (Hb & Hk & Hr). apply wp_bind.
  pose proof (splice_some ram at_ b Ha ltac:(lia)) as Hsp. eapply wp_lift; [exact Hsp|].
  apply wp_ret. rewrite Hlen in *. apply (HQ _ _ b); [by eapply splice_zlen|done| | |done].
  - rewrite <- Hb. by eapply slice_splice_eq.
  - intros o n Hon. eapply slice_splice_ne; [exact Hsp|lia].
Qed.

(** One block. *)
Lemma copy_block_ok s src addr n ram Q :
  usable s -> 0 <= src < 2 ^ 64 -> 0 <= addr < 2 ^ 64 -> (es | addr) -> 0 < n <= es -> 2 * es <= zlen ram ->
  (forall r ram' s', zlen ram' = zlen ram -> keeps (fun i => addr <= i < addr + es) s s' ->
     (r = 0 -> usable s' /\ src + n <= flash_size /\ addr + es <= flash_size /\
        forall i, 0 <= i < n -> byte_at s' (addr + i) = byte_at s (src + i)) -> Q (r, ram') s') ->
  wp (copy_block src addr n ram) Q s.
Proof.
  intros Hu Hsrc Haddr Hal Hn Hram HQ. pose proof erase_size_pos as He.
  assert (HE : - EIO <> 0) by done.
  unfold copy_block. apply wp_bind. apply read_to_ram_ok; [done|lia..|].
  intros r1 ram1 b s1 Hl1 Hk1 Hb1 _ Hr1. destruct (Z.eqb_spec r1 0) as [->|]; cbn [negb]; cycle 1.
  { apply wp_ret, HQ; [done| |done]. eapply keeps_weaken; [|exact Hk1]. tauto. }
  destruct (Hr1 eq_refl) as (Hu1 & Hfs & Hh1). pose proof (slice_zlen _ _ _ _ Hb1) as Hbl.
  apply wp_bind. eapply wp_conseq; [apply (flash_erase_law s1 addr es Hu1); lia|].
  intros r2 s2 (Hk2 & Hr2).
  assert (Hk2' : keeps (fun i => addr <= i < addr + es) s s2).
  { eapply keeps_trans; [eapply keeps_weaken; [|exact Hk1]; tauto|]. eapply keeps_weaken; [|exact Hk2].
    intros i. apply touches_one; [lia|done|lia]. }
  destruct (Z.eqb_spec r2 0) as [->|]; cbn [negb]; [|by apply wp_ret, HQ].
  destruct (Hr2 eq_refl) as (Hu2 & Hfa & Hblank). apply wp_bind. eapply wp_lift; [exact Hb1|].
  apply wp_bind. eapply wp_conseq; [apply (flash_write_law s2 addr b Hu2); lia|].
  intros r3 s3 (Hk3 & Hr3).
  assert (Hk3' : keeps (fun i => addr <= i < addr + es) s s3).
  { eapply keeps_trans; [exact Hk2'|]. eapply keeps_weaken; [|exact Hk3]. intros i Hi.
    apply (touches_one es _ n); [lia|done|lia|]. apply touches_page; [lia|]. by rewrite <- Hbl. }
  destruct (Z.eqb_spec r3 0) as [->|]; cbn [negb]; [|apply wp_ret, HQ; congruence || done].
  destruct (Hr3 eq_refl) as (Hu3 & _ & Hp). apply wp_bind.
  assert (Hh3 : holds s3 addr b).
  { eapply programmed_blank; [|intros i Hi; apply Hblank; [lia|apply touches_range; lia]|exact Hp].
    eapply holds_bytes; [exact Hu| | |exact Hh1]; lia. }
  apply read_to_ram_ok; [done|lia..|]. intros r4 ram4 b4 s4 Hl4 Hk4 Hb4 Hsame Hr4.
  assert (Hk4' : keeps (fun i => addr <= i < addr + es) s s4).
  { eapply keeps_trans; [exact Hk3'|]. eapply keeps_weaken; [|exact Hk4]. tauto. }
  destruct (Z.eqb_spec r4 0) as [->|]; cbn [negb]; [|apply wp_ret, HQ; congruence || done].
  destruct (Hr4 eq_refl) as (Hu4 & _ & Hh4). apply wp_bind.
  eapply wp_lift; [rewrite Hsame by lia; exact Hb1|]. apply wp_bind. eapply wp_lift; [exact Hb4|].
  apply wp_ret, HQ; [congruence|done|]. intros _. split_and!; [done|lia|lia|].
  intros i Hi. rewrite (Hk4 (addr + i)) by (lia || tauto). rewrite Hh3, <- Hh1 by lia. done.
Qed.

(** The area [copy_firmware] may change: whole erase blocks, and one more
    for the end marker. *)
Definition copy_area (dst size : Z) (deadc0de : bool) (i : Z) : Prop :=
  dst <= i < dst + align_up size + if deadc0de then es else 0.

(** [size] bytes from [src] on in [s] are found from [dst] on in [s']. *)
Definition copied s s' src dst size : Prop :=
  forall i, 0 <= i < size -> byte_at s' (dst + i) = byte_at s (src + i).

Definition copy_inv s src dst size ram0 (x : Z * Z * Z * list Z) s1 : Prop :=
  let '(src1, addr, left_, ram) := x in
  exists pos, 0 <= pos <= size /\ src1 = src + pos /\ addr = dst + pos /\ left_ = size - pos /\
    ((es | pos) \/ pos = size) /\ zlen ram = ram0 /\ usable s1 /\
    keeps (fun i => dst <= i < dst + align_up pos) s s1 /\ copied s s1 src dst pos.

Lemma copy_loop_ok s src dst size ram Q :
  usable s -> 0 <= src -> src + size < 2 ^ 64 -> 0 <= dst -> dst + size < 2 ^ 64 -> (es | dst) ->
  0 <= size < 2 ^ 32 -> 2 * es <= zlen ram ->
  (src + size <= dst \/ dst + align_up size <= src) ->
  (forall r addr ram' s', zlen ram' = zlen ram -> keeps (copy_area dst size false) s s' ->
     (r = 0 -> addr = dst + size /\ usable s' /\ copied s s' src dst size) -> Q (r, addr, ram') s') ->
  wp (iter (Z.to_nat size + 1) copy_firmware_body (src, dst, size, ram)) Q s.
Proof.
  intros Hu Hs0 Hs1 Hd0 Hd1 Hal Hsz Hram Hdis HQ. pose proof erase_size_pos as He.
  apply (wp_iter (copy_inv s src dst size (zlen ram)) (fun x _ => Z.to_nat (snd (fst x)))); cycle 1.
  { exists 0. split_and!; try lia; [left; apply Z.divide_0_r|done|apply keeps_refl|intros i Hi; lia]. }
  { cbn. lia. }
  intros [[[src1 addr] left_] ram1] s1 (pos & Hpos & -> & -> & -> & Hbd & Hrl & Hu1 & Hk & Hcp).
  unfold copy_firmware_body. destruct (Z.eqb_spec (size - pos) 0) as [E|E]; cbn [negb].
  { apply wp_ret. assert (pos = size) as -> by lia. apply HQ; [done| |done].
    unfold copy_area. eapply keeps_weaken; [|exact Hk]. intros i. cbn. lia. }
  assert (Hpal : (es | pos)) by (destruct Hbd; [done|lia]).
  set (n := if _ <? _ then _ else _). assert (Hn : 0 < n <= es /\ pos + n <= size /\ (n = es \/ pos + n = size))
    by (unfold n; destruct (Z.ltb_spec es (size - pos)); lia).
  assert (Hend : align_up (pos + n) = pos + es).
  { apply align_up_unique; [apply Z.divide_add_r; [done|apply Z.divide_refl]|lia]. }
  assert (Hcap : pos + es <= align_up size).
  { destruct (align_up_spec size) as [Hb [q Hq]]; [lia|]. destruct Hpal as [p ->]. rewrite Hq in *.
    assert (Hp : p < q) by (apply (Z.mul_lt_mono_pos_r es); lia).
    replace (p * es + es) with ((p + 1) * es) by lia. apply Z.mul_le_mono_nonneg_r; lia. }
  apply wp_bind. apply copy_block_ok; [done|lia|lia|by apply Z.divide_add_r|lia|lia|].
  intros r ram' s2 Hrl' Hk2 Hr2.
  assert (Hk' : keeps (fun i => dst <= i < dst + align_up (pos + n)) s s2).
  { rewrite Hend. eapply keeps_trans; eapply keeps_weaken; [|exact Hk| |exact Hk2]; cbn; [|lia].
    rewrite align_up_id by done. lia. }
  destruct (Z.eqb_spec r 0) as [->|Hr]; cbn [negb]; apply wp_ret; cycle 1.
  { apply HQ; [congruence| |done]. eapply keeps_weaken; [|exact Hk']. intros i. cbn.
    rewrite Hend. unfold copy_area. lia. }
  destruct (Hr2 eq_refl) as (Hu2 & Hfs & Hfd & Hb2). rewrite !u64_small by lia. split; [|cbn; lia].
  exists (pos + n). split_and!; try lia; [|done|done|].
  - destruct Hn as (_ & _ & [->|?]); [left; apply Z.divide_add_r; [done|apply Z.divide_refl]|by right].
  - intros i Hi. destruct (Z_lt_le_dec i pos) as [Hlt|Hge].
    + rewrite Hk2 by lia. apply Hcp. lia.
    + replace (dst + i) with (dst + pos + (i - pos)) by lia. rewrite Hb2 by lia.
      rewrite Hk; [f_equal; lia|lia|]. rewrite align_up_id by done. lia.
Qed.

Lemma zlen_deadc0de : zlen deadc0de_bytes = 4.
Proof. done. Qed.

(** [copy_firmware]: on success the destination holds the source's bytes
    and, if asked for, the marker in the block behind them; nothing outside
    the area changes in any case. *)
Definition copy_post s src dst size (deadc0de : bool) (r : Z) s' : Prop :=
  keeps (copy_area dst size deadc0de) s s' /\
  (r = 0 -> usable s' /\ copied s s' src dst size /\
   (deadc0de = true -> holds s' (dst + align_up size) deadc0de_bytes)).

Lemma copy_firmware_ok s src dst size deadc0de ram :
  usable s -> 0 <= src -> src + size < 2 ^ 64 -> 0 <= dst -> dst + size + es <= 2 ^ 32 -> (es | dst) ->
  0 <= size < 2 ^ 32 -> 2 * es <= zlen ram -> 4 <= es ->
  (src + size <= dst \/ dst + align_up size <= src) ->
  wp (copy_firmware src dst size deadc0de ram) (copy_post s src dst size deadc0de) s.
Proof.
  intros Hu Hs0 Hs1 Hd0 Hd1 Hal Hsz Hram H4 Hdis. pose proof erase_size_pos as He.
  unfold copy_firmware. rewrite u32_small by lia. apply wp_bind.
  apply copy_loop_ok; [done|lia..|done|lia|lia|done|]. intros r addr ram' s1 _ Hk1 Hr1.
  assert (Hk1' : forall b, keeps (copy_area dst size b) s s1).
  { intros b. eapply keeps_weaken; [|exact Hk1]. intros i. unfold copy_area. destruct b; lia. }
  destruct (Z.eqb_spec r 0) as [->|Hr]; cbn [negb]; [|apply wp_ret; by split].
  destruct (Hr1 eq_refl) as (-> & Hu1 & Hcp).
  destruct deadc0de; cbn [negb]; [|apply wp_ret; by split].
  rewrite marker_addr_spec by lia.
  assert (Hm : align_up (dst + size) = dst + align_up size).
  { destruct (align_up_spec size) as [Hb Hd]; [lia|]. apply align_up_unique; [by apply Z.divide_add_r|lia]. }
  rewrite Hm. destruct (align_up_spec size) as [Hb Hdv]; [lia|].
  assert (Hmal : (es | dst + align_up size)) by (by apply Z.divide_add_r).
  apply wp_bind. eapply wp_conseq; [apply (flash_erase_law s1 (dst + align_up size) es Hu1); lia|].
  intros r2 s2 (Hk2 & Hr2).
  assert (Hmb : forall i, touches es (dst + align_up size) es i -> dst + align_up size <= i < dst + align_up size + es).
  { intros i. apply touches_one; [lia|done|lia]. }
  assert (Hk2' : keeps (copy_area dst size true) s s2).
  { eapply keeps_trans; [apply Hk1'|]. eapply keeps_weaken; [|exact Hk2]. intros i Hi%Hmb. unfold copy_area. lia. }
  destruct (Z.eqb_spec r2 0) as [->|]; cbn [negb]; [|apply wp_ret; by split].
  destruct (Hr2 eq_refl) as (Hu2 & Hf2 & Hbl). apply wp_bind.
  eapply wp_conseq; [apply (flash_write_law s2 (dst + align_up size) deadc0de_bytes Hu2); [lia|done]|].
  rewrite zlen_deadc0de. intros r3 s3 (Hk3 & Hr3).
  assert (Hw : forall i, touches flash_page (dst + align_up size) 4 i -> dst + align_up size <= i < dst + align_up size + es).
  { intros i Hi. apply (touches_one es _ 4); [lia|done|lia|]. apply touches_page; [lia|done]. }
  assert (Hk3' : keeps (copy_area dst size true) s s3).
  { eapply keeps_trans; [exact Hk2'|]. eapply keeps_weaken; [|exact Hk3]. intros i Hi%Hw. unfold copy_area. lia. }
  destruct (Z.eqb_spec r3 0) as [->|]; cbn [negb]; apply wp_ret; [|by split].
  destruct (Hr3 eq_refl) as (Hu3 & _ & Hp). split; [done|]. intros _. split_and!; [done| |].
  - intros i Hi. rewrite Hk3 by (lia || (intros Hx%Hw; lia)).
    rewrite Hk2 by (lia || (intros Hx%Hmb; lia)). by apply Hcp.
  - intros _. eapply programmed_blank; [repeat constructor; done| |exact Hp]. rewrite zlen_deadc0de.
    intros i Hi. apply Hbl; [lia|]. apply touches_range; lia.
Qed.

End Copy.
