(* ===== verification/DualCheck.v ===== *)
(** * Dual images: verification and restoring

    What the checks of dual_image.c establish about the flash contents, and
    what [dual_image_check] does on the strength of them. *)

From stdpp Require Import base numbers list strings option.
From Stdlib Require Import ZArith Lia.
From S2P Require Import Prelude IntLib NmbmTypes Mtd Crc32 Image Flash DualImage DualCopy.

Local Abbreviation es := mtk_board_get_flash_erase_size.

Section Check.
Context {S : Type} {F : flash_helper S} {V : flash_view S} {FL : flash_laws F V}.
Context {FT : fit_library} {C : dual_config}.
Implicit Types s : S.

(** A flattened image tree that the library accepts. *)
Definition fit_image (img : list Z) : Prop :=
  CONFIG_FIT = true /\
  exists mem, take (length img) mem = img /\ fit_check_format mem = true /\ fit_all_image_verify mem = true.

(** The kernel image at [off]. *)
Definition image_at s off partsize size : Prop :=
  exists img, holds s off img /\ zlen img = size /\ size <= partsize /\ off + size <= flash_size /\
    (legacy_image img \/ fit_image img).

(** A SquashFS super block at [off] whose file system ends before [fs_end];
    [rootfs] is the size the code works with. *)
Definition squashfs_at s off fs_end rootfs : Prop :=
  off + sizeof_squashfs_super_block <= flash_size /\
  exists sb, holds s off sb /\ zlen sb = sizeof_squashfs_super_block /\
    get_le 4 0 sb = SQUASHFS_MAGIC /\ u64 (off + get_le 8 40 sb) < fs_end /\
    (rootfs = u32 (get_le 8 40 sb) \/ MTK_DUAL_IMAGE_SQUASHFS_DATA_CHECK = true /\ rootfs = 0).

(** The firmware in a partition: a kernel image and, directly behind it or
    in the next erase block, a root file system. *)
Definition firmware_at s off partsize size padding rootfs : Prop :=
  image_at s off partsize size /\
  (padding = 0 \/ padding = es - (off + size) mod es) /\
  squashfs_at s (off + size + padding) (off + partsize) rootfs.

(** If there is an intact legacy header, its size member does not overflow
    the image size. *)
Definition size_sane s off : Prop :=
  forall hdr, holds s off hdr -> zlen hdr = sizeof_image_header -> off + sizeof_image_header <= flash_size ->
    image_check_magic hdr = true -> image_check_hcrc hdr = true ->
    image_get_size hdr + sizeof_image_header < 2 ^ 32.

Lemma read_failed_nz r : r <> 0 -> read_failed r <> 0.
Proof. unfold read_failed. by destruct (_ =? _). Qed.

Lemma image_at_back s s' off partsize size :
  0 <= off -> keeps (fun _ => False) s s' -> image_at s' off partsize size -> image_at s off partsize size.
Proof. intros Ho Hk (img & Hh & Hl & Hp & Hf & Hv). exists img. split_and!; try done. eapply holds_back; [done..|lia]. Qed.

Lemma squashfs_at_back s s' off fs_end rootfs :
  0 <= off -> keeps (fun _ => False) s s' -> squashfs_at s' off fs_end rootfs -> squashfs_at s off fs_end rootfs.
Proof.
  intros Ho Hk (Hf & sb & Hh & Hl & Hr). split; [done|]. exists sb. split_and!; [|done|apply Hr..].
  eapply holds_back; [done..|lia].
Qed.

Lemma size_sane_back s s' off : 0 <= off -> keeps (fun _ => False) s s' -> size_sane s off -> size_sane s' off.
Proof. intros Ho Hk Hs h Hh Hl Hf. apply Hs; [|done|done]. eapply holds_back; [exact Hk|done|lia|lia]. Qed.

Lemma slice_take (l b : list Z) n : slice l 0 n = Some b -> b = take (Z.to_nat n) l.
Proof. intros (_ & _ & _ & ->)%slice_inv. by rewrite drop_0. Qed.

End Check.

Section Verify.
Context {S : Type} {F : flash_helper S} {V : flash_view S} {FL : flash_laws F V} {FS : flash_steady F V}.
Context {FT : fit_library} {C : dual_config}.
Implicit Types s : S.

(** The result of a check: nothing changes, and success comes with a size
    that [P] accepts. *)
Definition check_post (P : Z -> Prop) s (ram0 : list Z) (x : Z * option Z * list Z) s' : Prop :=
  let '(r, size, ram) := x in
  zlen ram = zlen ram0 /\ keeps (fun _ => False) s s' /\ usable s' /\
  (r = 0 -> exists n, size = Some n /\ P n).

Lemma check_fail P s ram0 r ram s' :
  r <> 0 -> zlen ram = zlen ram0 -> keeps (fun _ => False) s s' -> usable s' ->
  check_post P s ram0 (r, None, ram) s'.
Proof. intros. by split_and!. Qed.

(** [read_to_ram] on a steady device. *)
Lemma read_steady s off size ram Q :
  usable s -> 0 <= size < 2 ^ 32 -> size <= zlen ram -> 0 <= off < 2 ^ 64 ->
  (forall r ram' b s', zlen ram' = zlen ram -> keeps (fun _ => False) s s' -> usable s' ->
     b = take (Z.to_nat size) ram' -> zlen b = size ->
     (r = 0 -> off + size <= flash_size /\ holds s off b) -> Q (r, ram') s') ->
  wp (read_to_ram 0 off size ram) Q s.
Proof.
  intros Hu Hs Hfit Ho HQ.
  eapply wp_conseq; [apply (wp_and _ (fun x s' => exists b, zlen (snd x) = zlen ram /\ keeps (fun _ => False) s s' /\
     slice (snd x) 0 size = Some b /\ (fst x = 0 -> off + size <= flash_size /\ holds s off b)) (fun _ s' => usable s'))|].
  - apply read_to_ram_ok; [done|lia..|]. intros r ram' b s' Hl Hk Hb _ Hr. exists b. split_and!; try done.
    intros E. by destruct (Hr E) as (_ & ? & ?).
  - unfold read_to_ram. apply wp_bind.
    pose proof (slice_some ram 0 size ltac:(lia) ltac:(lia) ltac:(lia)) as Hsl.
    eapply wp_lift; [exact Hsl|]. pose proof (slice_zlen _ _ _ _ Hsl) as Hlen. apply wp_bind.
    eapply wp_conseq; [apply wp_and; [apply (flash_read_law s off _ Hu Ho)|apply (flash_steady_law s off _ Hu Ho)]; lia|].
    intros [r b] s' [(Hb & _) Hu']. apply wp_bind. eapply wp_lift; [apply splice_some; lia|]. by apply wp_ret.
  - cbv beta. intros [r ram'] s' [(b & Hl & Hk & Hb & Hr) Hu']. cbn in *.
    eapply (HQ r ram' b); try done; [by apply slice_take|by eapply slice_zlen].
Qed.

Lemma take_of_take {A} (l : list A) (n m : nat) : (n <= m)%nat -> take n (take m l) = take n l.
Proof. intros H. rewrite take_take. by rewrite Nat.min_l. Qed.

(** The data checksum, computed in memory. *)
Lemma check_dcrc_ok wd s off ram b :
  usable s -> 0 <= off -> off + zlen b <= flash_size -> holds s off b ->
  b = take (Z.to_nat (zlen b)) ram -> zlen b = sizeof_image_header + image_get_size b -> 0 <= image_get_size b ->
  zlen b <= zlen ram ->
  image_check_dcrc wd 0 ram = Some (crc32 0 0 (drop 64 b) =? image_get_dcrc b).
Proof.
  intros Hu Ho Hf Hh Hb Hl Hsz Hr. unfold sizeof_image_header in *.
  assert (Hn : zlen b = 64 + image_get_size b) by done. set (n := image_get_size b) in *.
  assert (Hg : forall o, (o + 4 <= 64)%nat -> be32_at o ram = be32_at o b).
  { intros o Ho4. apply be32_at_prefix; [done|]. rewrite Hb at 1. rewrite take_of_take; [done|]. lia. }
  assert (Hgs : image_get_size ram = n) by (apply Hg; lia).
  assert (Hgd : image_get_dcrc ram = image_get_dcrc b) by (apply Hg; lia).
  unfold image_check_dcrc. rewrite Hgs, Hgd. unfold sizeof_image_header.
  rewrite slice_some by lia. cbn [mbind option_bind].
  assert (Hd : take (Z.to_nat n) (drop (Z.to_nat 64) ram) = drop 64 b).
  { rewrite Hb, skipn_firstn_comm. change (Z.to_nat 64) with 64%nat. f_equal. lia. }
  pose proof (holds_bytes s off b Hu Ho Hf Hh) as Hbb.
  rewrite Hd, crc32_wd_ok; [|done|by apply Forall_drop]. cbn [mbind option_bind].
  done.
Qed.

Lemma verify_legacy_ok s off maxsize ram hdr :
  usable s -> 0 <= off -> off < 2 ^ 64 -> 0 <= maxsize <= zlen ram ->
  hdr = take 64 ram -> zlen hdr = 64 -> holds s off hdr -> off + 64 <= flash_size -> image_get_magic ram = IH_MAGIC ->
  size_sane s off ->
  wp (verify_legacy_image off maxsize ram) (check_post (image_at s off maxsize) s ram) s.
Proof.
  intros Hu Ho Ho2 Hm Eh Hhl Hh Hf Hmag Hsane. unfold verify_legacy_image, sizeof_image_header in *.
  assert (Hrl : 64 <= zlen ram) by (subst hdr; unfold zlen in *; rewrite length_take in Hhl; lia).
  apply wp_bind. eapply wp_lift; [apply slice_some; lia|]. rewrite drop_0. change (Z.to_nat 64) with 64%nat.
  rewrite <- Eh. destruct (image_check_hcrc hdr) eqn:Ehc; cbn [negb]; [|apply wp_ret, check_fail; done || apply keeps_refl].
  pose proof (holds_bytes s off hdr Hu Ho ltac:(lia) Hh) as Hhb.
  pose proof (be32_at_range 12 hdr Hhb) as Hsr. 
  assert (Hmh : image_check_magic hdr = true).
  { apply Z.eqb_eq. rewrite <- Hmag. apply be32_at_prefix; [lia|]. rewrite Eh. by rewrite take_of_take. }
  pose proof (Hsane hdr Hh Hhl Hf Hmh Ehc) as Hsn.
  change (be32_at 12 hdr) with (image_get_size hdr) in Hsr. unfold image_get_image_size, sizeof_image_header in *.
  rewrite u32_small by lia. set (size := image_get_size hdr + 64) in *.
  destruct (Z.ltb_spec maxsize size); [apply wp_ret, check_fail; done || apply keeps_refl|].
  apply wp_bind, read_steady; [done|lia..|]. intros r ram' b s' Hl Hk Hu' Hb Hbl Hr.
  destruct (Z.eqb_spec r 0) as [->|Hne]; cbn [negb]; [|apply wp_ret, check_fail; try done; by apply read_failed_nz].
  destruct (Hr eq_refl) as [Hfs Hhb']. apply wp_bind.
  assert (Hpre : take 64 b = hdr).
  { apply (holds_same s off).
    - apply (holds_prefix s off _ (drop 64 b)). by rewrite take_drop.
    - done.
    - rewrite Hhl. unfold zlen in *. rewrite length_take. lia. }
  assert (Hget : forall o, (o + 4 <= 64)%nat -> be32_at o b = be32_at o hdr).
  { intros o Ho4. apply be32_at_prefix; [done|]. rewrite <- Hpre, take_of_take by lia. done. }
  assert (Hsb : image_get_size b = image_get_size hdr) by (apply Hget; lia).
  eapply wp_lift; [eapply (check_dcrc_ok _ s off ram' b); try done; rewrite ?Hsb, ?Hbl; try done; unfold size, sizeof_image_header in *; lia|].
  destruct (Z.eqb_spec (crc32 0 0 (drop 64 b)) (image_get_dcrc b)) as [Ed|]; cbn [negb]; [|apply wp_ret, check_fail; done].
  apply wp_ret. split_and!; [done|done|done|]. intros _. exists size. split; [done|].
  exists b. split_and!; [done|done|done|done|left]. constructor.
  - unfold image_get_magic in *. rewrite Hget by lia. rewrite <- Hmag. apply be32_at_prefix; [lia|].
    rewrite Eh. by rewrite take_of_take.
  - rewrite <- Ehc. unfold image_check_hcrc. rewrite Hpre.
    rewrite (firstn_all2 hdr) by (unfold zlen in *; lia). f_equal. unfold image_get_hcrc. apply Hget. lia.
  - rewrite Hsb. unfold sizeof_image_header, size in *. lia.
  - done.
Qed.

Lemma verify_fit_ok s off maxsize ram :
  usable s -> CONFIG_FIT = true -> 0 <= off -> off < 2 ^ 64 -> 0 <= maxsize <= zlen ram ->
  0 <= fit_get_size ram < 2 ^ 32 ->
  wp (verify_fit_image off maxsize ram) (check_post (image_at s off maxsize) s ram) s.
Proof.
  intros Hu Hcf Ho Ho2 Hm Hsz. unfold verify_fit_image. set (size := fit_get_size ram) in *.
  destruct (Z.ltb_spec maxsize size); [apply wp_ret, check_fail; done || apply keeps_refl|].
  apply wp_bind, read_steady; [done|lia..|]. intros r ram' b s' Hl Hk Hu' Hb Hbl Hr.
  destruct (Z.eqb_spec r 0) as [->|Hne]; cbn [negb]; [|apply wp_ret, check_fail; try done; by apply read_failed_nz].
  destruct (Hr eq_refl) as [Hfs Hhb]. destruct (fit_check_format ram') eqn:E1; cbn [negb]; [|by apply wp_ret, check_fail].
  destruct (fit_all_image_verify ram') eqn:E2; cbn [negb]; apply wp_ret; [|by apply check_fail].
  split_and!; [done|done|done|]. intros _. exists size. split; [done|]. exists b. split_and!; [done|done|done|done|right].
  split; [done|]. exists ram'. split_and!; [|done|done]. rewrite Hb at 2. f_equal. unfold zlen in Hbl. lia.
Qed.

Lemma verify_image_ok s off maxsize ram :
  usable s -> 0 <= off -> off < 2 ^ 64 -> 0 <= maxsize <= zlen ram -> 64 <= zlen ram -> size_sane s off ->
  wp (verify_image off maxsize ram) (check_post (image_at s off maxsize) s ram) s.
Proof.
  intros Hu Ho Ho2 Hm Hrl Hsane. unfold verify_image, sizeof_image_header in *. apply wp_bind, read_steady; [done|lia..|].
  intros r ram' hdr s' Hl Hk Hu' Hb Hbl Hr.
  destruct (Z.eqb_spec r 0) as [->|Hne]; cbn [negb]; [|apply wp_ret, check_fail; try done; by apply read_failed_nz].
  destruct (Hr eq_refl) as [Hfs Hh]. change (Z.to_nat 64) with 64%nat in Hb.
  assert (Hpost : forall x s2, check_post (image_at s' off maxsize) s' ram' x s2 ->
    check_post (image_at s off maxsize) s ram x s2).
  { intros [[r2 sz2] ram2] s2 (H1 & H2 & H3 & H4). split_and!; [congruence|by eapply keeps_trans|done|].
    intros E. destruct (H4 E) as (n & -> & Hi). exists n. split; [done|]. by eapply image_at_back. }
  pose proof (holds_bytes s off hdr Hu Ho ltac:(lia) Hh) as Hhb.
  assert (Hh' : holds s' off hdr) by (eapply holds_frame; [exact Hk|done|lia|lia|tauto]).
  assert (Hsane' : size_sane s' off).
  { by eapply size_sane_back. }
  destruct (genimg_get_format ram') eqn:Ef.
  - eapply wp_conseq; [apply (verify_legacy_ok s' off maxsize ram' hdr); try done; try lia|exact Hpost].
    unfold genimg_get_format, image_check_magic in Ef. destruct (Z.eqb_spec (image_get_magic ram') IH_MAGIC); [done|].
    by destruct (_ =? _).
  - destruct CONFIG_FIT eqn:Ecf; [|apply wp_ret, check_fail; done].
    eapply wp_conseq; [apply (verify_fit_ok s' off maxsize ram'); try done; try lia|exact Hpost].
    unfold fit_get_size. rewrite (be32_at_prefix 4 ram' hdr); [by apply be32_at_range|lia|].
    by rewrite Hb, take_of_take.
  - apply wp_ret, check_fail; done.
Qed.

(** [verify_squashfs]. *)
Lemma verify_squashfs_ok s off fs_end Q :
  usable s -> 0 <= off < 2 ^ 64 ->
  (forall r size s', keeps (fun _ => False) s s' -> usable s' ->
     (r = 0 -> squashfs_at s off fs_end (default 0 size)) -> (r <> 0 -> size = None) -> Q (r, size) s') ->
  wp (verify_squashfs off fs_end) Q s.
Proof.
  intros Hu Ho HQ. unfold verify_squashfs. apply wp_bind.
  set (buf := fill 0 sizeof_squashfs_super_block).
  assert (Hbl : zlen buf = 48) by done.
  eapply wp_conseq; [apply wp_and; [apply (flash_read_law s off buf Hu Ho)|apply (flash_steady_law s off buf Hu Ho)]; lia|].
  intros [r sb] s1 [(Hl & Hk & Hr) Hu1].
  destruct (Z.eqb_spec r 0) as [->|Hne]; cbn [negb]; [|apply wp_ret, HQ; try done; intros E; by apply read_failed_nz in E].
  destruct (Hr eq_refl) as (_ & Hf & Hh). destruct (Z.eqb_spec (get_le 4 0 sb) SQUASHFS_MAGIC) as [Em|]; cbn [negb]; [|by apply wp_ret, HQ].
  destruct (Z.leb_spec fs_end (u64 (off + get_le 8 40 sb))) as [|Hend]; [by apply wp_ret, HQ|].
  assert (Hsq : forall v, v = u32 (get_le 8 40 sb) \/ MTK_DUAL_IMAGE_SQUASHFS_DATA_CHECK = true /\ v = 0 ->
    squashfs_at s off fs_end v).
  { intros v Hv. split; [rewrite Hbl in Hf; exact Hf|]. exists sb. split_and!; [done|rewrite Hl; exact Hbl|done|done|done]. }
  destruct MTK_DUAL_IMAGE_SQUASHFS_DATA_CHECK eqn:Edc; [|apply wp_ret, HQ; auto; done].
  apply wp_bind. set (o2 := u64 _). pose proof (u64_range (off + get_le 8 40 sb - 1)) as Ho2. fold o2 in Ho2.
  assert (Hb1 : zlen (fill 0 1) = 1) by done.
  eapply wp_conseq; [apply wp_and; [apply (flash_read_law s1 o2 (fill 0 1) Hu1 Ho2)|apply (flash_steady_law s1 o2 (fill 0 1) Hu1 Ho2)]; lia|].
  intros [r2 data] s2 [(Hl2 & Hk2 & _) Hu2]. assert (Hk' : keeps (fun _ => False) s s2) by (by eapply keeps_trans).
  destruct (Z.eqb_spec r2 0) as [->|]; cbn [negb]; [|apply wp_ret, HQ; auto; done].
  apply wp_bind. destruct (znth_some data 0) as [x Hx]; [lia|]. eapply wp_lift; [exact Hx|].
  destruct (x =? 255); apply wp_ret, HQ; auto; done.
Qed.

(** [verify_rootfs]. *)
Lemma verify_rootfs_ok s off maxsize Q :
  usable s -> 0 <= off -> 0 <= maxsize -> off + maxsize + es < 2 ^ 64 ->
  (forall r pad size s', keeps (fun _ => False) s s' -> usable s' ->
     (r = 0 -> exists p, pad = Some p /\ (p = 0 \/ p = es - off mod es) /\
        squashfs_at s (off + p) (off + maxsize) (default 0 size)) -> Q (r, pad, size) s') ->
  wp (verify_rootfs off maxsize) Q s.
Proof.
  intros Hu Ho Hm Hb HQ. pose proof erase_size_pos as He. unfold verify_rootfs.
  rewrite (u64_small (off + maxsize)) by lia. apply wp_bind. apply verify_squashfs_ok; [done|lia|].
  intros r1 size1 s1 Hk1 Hu1 Hok1 Hno1. destruct (Z.eqb_spec r1 0) as [->|Hr1].
  { apply wp_ret, HQ; [done..|]. intros _. exists 0. rewrite Z.add_0_r. split_and!; auto. }
  rewrite (Hno1 Hr1) in *. destruct (Z.eqb_spec (off mod es) 0) as [|Hl]; [by apply wp_ret, HQ|].
  assert (Hmod : 0 <= off mod es < es) by (apply Z.mod_pos_bound; lia).
  rewrite u64_small, u32_small by lia. apply wp_bind. apply verify_squashfs_ok; [done|lia|].
  intros r2 size2 s2 Hk2 Hu2 Hok2 _. assert (Hk' : keeps (fun _ => False) s s2) by (by eapply keeps_trans).
  replace (match size2 with Some _ => size2 | None => None end) with size2 by (by destruct size2).
  destruct (Z.eqb_spec r2 0) as [->|Hr2]; apply wp_ret, HQ; try done. intros _.
  exists (es - off mod es). split_and!; [done|by right|]. eapply squashfs_at_back; [lia|exact Hk1|by apply Hok2].
Qed.

(** One image. *)
Definition one_post s off partsize (ram0 : list Z) (x : option (bool * Z * Z * Z) * list Z) s' : Prop :=
  zlen (snd x) = zlen ram0 /\ keeps (fun _ => False) s s' /\ usable s' /\
  forall size pad rootfs, fst x = Some (true, size, pad, rootfs) -> firmware_at s off partsize size pad rootfs.

Lemma image_at_size s off partsize size : image_at s off partsize size -> 0 <= size <= partsize.
Proof. intros (img & _ & <- & Hp & _). pose proof (zlen_nonneg img). lia. Qed.

Lemma check_one_ok s off partsize ram :
  usable s -> 0 <= off -> 0 <= partsize <= zlen ram -> off + partsize + es < 2 ^ 64 -> 64 <= zlen ram ->
  size_sane s off ->
  wp (check_one off partsize ram) (one_post s off partsize ram) s.
Proof.
  intros Hu Ho Hp Hb Hrl Hsane. pose proof erase_size_pos as He. unfold check_one. apply wp_bind.
  eapply wp_conseq; [apply (verify_image_ok s off partsize ram); try done; lia|].
  intros [[r size] ram1] s1 (Hl1 & Hk1 & Hu1 & Hr1).
  destruct (Z.ltb_spec r 0); [apply wp_ret; by split_and!|].
  destruct (Z.eqb_spec r 0) as [->|]; [|apply wp_ret; by split_and!].
  destruct (Hr1 eq_refl) as (n & -> & Himg). pose proof (image_at_size _ _ _ _ Himg) as Hn.
  apply wp_bind. eapply wp_lift; [done|]. rewrite !u64_small by lia. apply wp_bind.
  apply verify_rootfs_ok; [done|lia..|]. intros r2 pad rootfs s2 Hk2 Hu2 Hok. apply wp_ret.
  split_and!; [done|by eapply keeps_trans|done|]. cbn. intros size p' rf E.
  injection E as Er En <- <-. subst size. apply Z.eqb_eq in Er. destruct (Hok Er) as (p & -> & Hpp & Hsq).
  split; [done|]. cbn. split; [done|]. replace (off + partsize) with (off + n + (partsize - n)) by lia.
  eapply squashfs_at_back; [|exact Hk1|exact Hsq].
  assert (Hmod : 0 <= (off + n) mod es < es) by (apply Z.mod_pos_bound; lia). lia.
Qed.

(** The bytes [dual_image_check] copies. *)
Definition total_size (size pad rootfs : Z) : Z :=
  if MTK_DUAL_IMAGE_RESTORE_KERNEL_ONLY then size else u64 (size + u32 (pad + rootfs)).

(** The outcome of a restore: a copy of firmware that passed its checks. *)
Definition restored s src srcp dst dstp (r : Z) s' : Prop :=
  exists size pad rootfs, let total := total_size size pad rootfs in
    firmware_at s src srcp size pad rootfs /\ total <= dstp /\
    copy_post s src dst total (negb MTK_DUAL_IMAGE_RESTORE_KERNEL_ONLY) r s'.

(** Two partitions of at most [p] bytes: on erase block boundaries, in the
    flash and in the memory, below 4 GiB and at least [p] bytes apart. *)
Record parts_ok o1 p1 o2 p2 p (ram : list Z) : Prop := {
  po_off1 : 0 <= o1 /\ (es | o1) /\ o1 + p <= flash_size;
  po_off2 : 0 <= o2 /\ (es | o2) /\ o2 + p <= flash_size;
  po_len1 : 0 <= p1 <= p;
  po_len2 : 0 <= p2 <= p;
  po_block : (es | p);
  po_apart : o1 + p <= o2 \/ o2 + p <= o1;
  po_small : flash_size + es <= 2 ^ 32;
  po_min : 4 <= es;
  po_ram : p <= zlen ram /\ 64 <= zlen ram /\ 2 * es <= zlen ram
}.

Lemma parts_ok_ram o1 p1 o2 p2 p ram ram' : zlen ram' = zlen ram -> parts_ok o1 p1 o2 p2 p ram -> parts_ok o1 p1 o2 p2 p ram'.
Proof. intros E []. constructor; rewrite ?E; done. Qed.

Lemma parts_ok_swap o1 p1 o2 p2 p ram : parts_ok o1 p1 o2 p2 p ram -> parts_ok o2 p2 o1 p1 p ram.
Proof. intros []. constructor; try done. tauto. Qed.

Lemma restore_ok s0 s o1 p1 o2 p2 p size pad rootfs ram :
  usable s -> keeps (fun _ => False) s0 s -> parts_ok o1 p1 o2 p2 p ram -> firmware_at s0 o1 p1 size pad rootfs ->
  wp (restore_image o1 o2 p2 size pad rootfs ram) (fun r s' =>
    keeps (fun _ => False) s0 s' \/ restored s0 o1 p1 o2 p2 r s') s.
Proof.
  intros Hu Hk [(Ho1 & Ha1 & Hf1) (Ho2 & Ha2 & Hf2) Hp1 Hp2 Hbp Hap Hsm Hmin (Hr1 & Hr2 & Hr3)] Hfw.
  pose proof erase_size_pos as He. unfold restore_image. fold (total_size size pad rootfs).
  pose proof Hfw as (Himg & _). pose proof (image_at_size _ _ _ _ Himg) as Hsz.
  assert (Ht : 0 <= total_size size pad rootfs).
  { unfold total_size. destruct MTK_DUAL_IMAGE_RESTORE_KERNEL_ONLY; [lia|apply u64_range]. }
  set (total := total_size size pad rootfs) in *.
  destruct (Z.ltb_spec p2 total); [apply wp_ret; by left|].
  assert (Hal : align_up total <= p) by (apply align_up_le; [done|lia]).
  eapply wp_conseq; [apply (copy_firmware_ok s o1 o2 total); try done; lia|].
  intros r s' [Hkc Hc]. right. exists size, pad, rootfs. split_and!; [done|done|].
  split; [eapply keeps_trans; [|exact Hkc]; eapply keeps_weaken; [|exact Hk]; tauto|].
  intros E. destruct (Hc E) as (Hu' & Hcp & Hm). split_and!; [done| |done].
  intros i Hi. rewrite Hcp by done. apply Hk; [lia|tauto].
Qed.

(** [dual_image_check] either leaves the flash alone or restores one image
    from the other, which has passed all checks. *)
Definition dual_post s o1 p1 o2 p2 (r : Z) s' : Prop :=
  keeps (fun _ => False) s s' \/ restored s o1 p1 o2 p2 r s' \/ restored s o2 p2 o1 p1 r s'.

Lemma dual_image_check_ok s o1 p1 o2 p2 p ram :
  usable s ->
  get_mtd_part_info MTK_DUAL_IMAGE_PARTNAME_MAIN = Some (o1, p1) ->
  get_mtd_part_info MTK_DUAL_IMAGE_PARTNAME_BACKUP = Some (o2, p2) ->
  parts_ok o1 p1 o2 p2 p ram -> size_sane s o1 -> size_sane s o2 ->
  wp (dual_image_check ram) (dual_post s o1 p1 o2 p2) s.
Proof.
  intros Hu E1 E2 HP Hs1 Hs2. pose proof erase_size_pos as He. unfold dual_image_check.
  pose proof HP as [(Ho1 & Ha1 & Hf1) (Ho2 & Ha2 & Hf2) Hp1 Hp2 Hbp Hap Hsm Hmin (Hr1 & Hr2 & Hr3)].
  destruct mtk_board_get_flash_dev; cbn [negb]; [|apply wp_ret; left; apply keeps_refl].
  rewrite E1, E2. apply wp_bind.
  eapply wp_conseq; [apply (check_one_ok s o1 p1 ram); try done; lia|].
  intros [c1 ram1] s1 (Hl1 & Hk1 & Hu1 & Hv1). cbn in *.
  destruct c1 as [[[[ok1 size1] pad1] rf1]|]; [|apply wp_ret; by left].
  assert (Hs2' : size_sane s1 o2).
  { by eapply size_sane_back. }
  apply wp_bind. eapply wp_conseq; [apply (check_one_ok s1 o2 p2 ram1); try done; lia|].
  intros [c2 ram2] s2 (Hl2 & Hk2 & Hu2 & Hv2). cbn in *.
  assert (Hk : keeps (fun _ => False) s s2) by (by eapply keeps_trans).
  destruct c2 as [[[[ok2 size2] pad2] rf2]|]; [|apply wp_ret; by left].
  assert (HP2 : parts_ok o1 p1 o2 p2 p ram2) by (eapply parts_ok_ram; [|done]; congruence).
  assert (Hfw2 : ok2 = true -> firmware_at s o2 p2 size2 pad2 rf2).
  { intros ->. destruct (Hv2 _ _ _ eq_refl) as (Hi & Hpd & Hsq). pose proof (image_at_size _ _ _ _ Hi).
    split; [apply (image_at_back s s1); [lia|exact Hk1|exact Hi]|]. split; [done|]. eapply squashfs_at_back; [|exact Hk1|done].
    assert (Hmod : 0 <= (o2 + size2) mod es < es) by (apply Z.mod_pos_bound; lia). lia. }
  destruct ok1, ok2; cbn [negb andb]; try (apply wp_ret; by left).
  - eapply wp_conseq; [apply (restore_ok s s2 o1 p1 o2 p2 p); try done; by apply Hv1|].
    intros r s' [?|?]; [by left|by right; left].
  - eapply wp_conseq; [apply (restore_ok s s2 o2 p2 o1 p1 p); try done; [by apply parts_ok_swap|by apply Hfw2]|].
    intros r s' [?|?]; [by left|by right; right].
Qed.

Lemma total_size_ge size pad rootfs : 0 <= size < 2 ^ 32 -> size <= total_size size pad rootfs.
Proof.
  intros Hs. unfold total_size. destruct MTK_DUAL_IMAGE_RESTORE_KERNEL_ONLY; [lia|].
  pose proof (u32_range (pad + rootfs)). rewrite u64_small; lia.
Qed.

(** A restore that succeeds leaves the kernel image in the destination; it
    never harms the source if there is room for the end marker. *)
Definition images_post s o1 p1 o2 p2 p (r : Z) s' : Prop :=
  exists size, image_at s o1 p1 size /\ (r = 0 -> image_at s' o2 p2 size) /\ (p2 + es <= p -> image_at s' o1 p1 size).

Lemma restored_images s o1 p1 o2 p2 p ram r s' :
  parts_ok o1 p1 o2 p2 p ram -> restored s o1 p1 o2 p2 r s' -> images_post s o1 p1 o2 p2 p r s'.
Proof.
  intros [(Ho1 & Ha1 & Hf1) (Ho2 & Ha2 & Hf2) Hp1 Hp2 Hbp Hap Hsm Hmin _] (size & pad & rootfs & Hfw & Ht & Hk & Hr).
  pose proof erase_size_pos as He. destruct Hfw as (Himg & _). exists size. split; [done|].
  pose proof (image_at_size _ _ _ _ Himg) as Hsz. pose proof (total_size_ge size pad rootfs ltac:(lia)) as Hge.
  set (total := total_size size pad rootfs) in *. destruct Himg as (img & Hh & Hl & Hp & Hf & Hv). split.
  - intros E. destruct (Hr E) as (_ & Hc & _). exists img. split_and!; [|done|lia|lia|done].
    intros i Hi. rewrite Hc by lia. by apply Hh.
  - intros Hroom. exists img. split_and!; [|done|lia|lia|done].
    assert (Hal : align_up total <= p - es).
    { apply align_up_le; [|lia]. by apply Z.divide_sub_r; [|apply Z.divide_refl]. }
    eapply holds_frame; [exact Hk|done|lia|lia|]. intros i Hi. unfold copy_area. destruct (negb _); lia.
Qed.

Lemma dual_images_ok s o1 p1 o2 p2 p ram :
  usable s ->
  get_mtd_part_info MTK_DUAL_IMAGE_PARTNAME_MAIN = Some (o1, p1) ->
  get_mtd_part_info MTK_DUAL_IMAGE_PARTNAME_BACKUP = Some (o2, p2) ->
  parts_ok o1 p1 o2 p2 p ram -> size_sane s o1 -> size_sane s o2 ->
  wp (dual_image_check ram) (fun r s' =>
    keeps (fun _ => False) s s' \/ images_post s o1 p1 o2 p2 p r s' \/ images_post s o2 p2 o1 p1 p r s') s.
Proof.
  intros Hu E1 E2 HP Hs1 Hs2. eapply wp_conseq; [by apply (dual_image_check_ok s o1 p1 o2 p2 p)|].
  intros r s' [?|[H|H]]; [by left|right; left|right; right].
  - by apply (restored_images s o1 p1 o2 p2 p ram).
  - apply (restored_images s o2 p2 o1 p1 p ram); [by apply parts_ok_swap|done].
Qed.

End Verify.
