(* ===== verification/Stage2.v ===== *)
(** * Two-stage boot loaders: definitions

    lib/crc32c_be.c and board/ralink/common/spl_helper_nand.c: the checksum of
    the boot ROM's NAND header, and finding the second stage of a boot loader
    in memory and in the flash. *)

From stdpp Require Import base numbers list option.
From Stdlib Require Import ZArith Lia.
From S2P Require Import Prelude NmbmTypes Mtd Crc32 Image.

(** ** CRC-32, most significant bit first *)

(** One shift; the loop body of [crc32c_be_init]. *)
Definition crc_be_shift (poly v : Z) : Z :=
  Z.lxor (u32 (Z.shiftl v 1)) (if negb (Z.land v (2 ^ 31) =? 0) then poly else 0).

Definition crc32c_be_init (pol : Z) : list Z :=
  map (fun i => Nat.iter 8 (crc_be_shift pol) (Z.shiftl (Z.of_nat i) 24)) (seq 0 256).

(** The index is a byte, the table has 256 entries. *)
Definition crc32c_be_cal (crc : Z) (data : list Z) (crc32c_table : list Z) : Z :=
  fold_left (fun crc x =>
    Z.lxor (default 0 (znth crc32c_table (u8 (Z.lxor (Z.shiftr crc 24) x)))) (u32 (Z.shiftl crc 8))) data crc.

Definition MT7621_IH_CRC_POLYNOMIAL : Z := 0x04c11db7.

(** [crc32_init] on the contents of [crc32tbl], which is cleared at start. *)
Definition crc32_init (tbl : list Z) : list Z :=
  if bool_decide (znth tbl 1 = Some MT7621_IH_CRC_POLYNOMIAL) then tbl
  else crc32c_be_init MT7621_IH_CRC_POLYNOMIAL.

Definition crc32tbl : list Z := crc32_init (fill 0 256).

(** The bytes of the length, least significant first, without leading zeros. *)
Fixpoint length_bytes (fuel : nat) (length : Z) : list Z :=
  match fuel with
  | O => []
  | S n => if length =? 0 then [] else Z.land length 0xff :: length_bytes n (Z.shiftr length 8)
  end.

(** An [int] has four bytes. *)
Definition crc32_cal (data : list Z) : Z :=
  let crc := crc32c_be_cal 0 data crc32tbl in
  let crc := crc32c_be_cal crc (length_bytes 4 (zlen data)) crc32tbl in
  Z.lxor crc 0xffffffff.

(** ** Headers *)

Definition MTK_SPL_ROM_CFG_OFFS : Z := 0x40.
Definition MTK_ROM_CFG_MAGIC : Z := 0x31323637.

(** [struct mtk_spl_rom_cfg] ([magic], [size], [align]), in the machine's byte
    order. *)
Definition sizeof_rom_cfg : Z := 12.
Definition rom_cfg_magic (cfg : list Z) : Z := get_le 4 0 cfg.
Definition rom_cfg_size (cfg : list Z) : Z := get_le 4 4 cfg.
Definition rom_cfg_align (cfg : list Z) : Z := get_le 4 8 cfg.

(** The checksum of the image header, [hdr] with the checksum cleared. *)
Definition header_intact (hdr : list Z) : bool := crc32 0 0 (blank_hcrc hdr) =? image_get_hcrc hdr.

(** [nand_header_t] lies over [ih_name]; its [crc] is the last of its words,
    at offset 60 of the header. *)
Definition nand_crc_off : nat := 60.
Definition nand_header_crc (hdr : list Z) : Z := be32_at nand_crc_off hdr.

(** The header with both checksums cleared, as the code has it by then. *)
Definition blank_crcs (hdr : list Z) : list Z := take nand_crc_off (blank_hcrc hdr) ++ fill 0 4.

Definition is_spl_header (hdr : list Z) : bool := crc32_cal (blank_crcs hdr) =? nand_header_crc hdr.

Definition ALIGN (x a : Z) : Z := Z.land (u32 (x + u32 (a - 1))) (u32 (Z.lnot (u32 (a - 1)))).

(** ** In memory

    [mem] is the memory from [data] on.  The outer [None] is an access beyond
    it or a loop beyond its bound; a pointer is an offset from [data], [None]
    for NULL. *)
Fixpoint find_stage2 (fuel : nat) (mem : list Z) (size align off : Z) : option (option Z) :=
  match fuel with
  | O => None
  | S n =>
      if off <? size then
        hdr ← slice mem off sizeof_image_header;
        if image_check_magic hdr && header_intact hdr then Some (Some off)
        else find_stage2 n mem size align (u32 (off + align))
      else Some None
  end.

(** [off] moves by [align] in one direction until it leaves the data. *)
Definition get_mtk_stage2_image_ptr (mem : list Z) (size : Z) : option (option Z) :=
  hdr ← slice mem 0 sizeof_image_header;
  let magic := image_check_magic hdr in
  if magic && negb (header_intact hdr) then Some None
  else if magic && negb (is_spl_header hdr) then Some (Some 0)
  else
    rom_cfg ← slice mem (sizeof_image_header + MTK_SPL_ROM_CFG_OFFS) sizeof_rom_cfg;
    if negb (rom_cfg_magic rom_cfg =? MTK_ROM_CFG_MAGIC) then Some None
    else
      let off := u32 (rom_cfg_size rom_cfg + sizeof_image_header) in
      if rom_cfg_align rom_cfg =? 0 then Some (Some off)
      else find_stage2 (S (S (Z.to_nat size))) mem size (rom_cfg_align rom_cfg) (ALIGN off (rom_cfg_align rom_cfg)).

(** ** In the flash

    [mtd] is the raw NAND device, [None] if there is none; [max_size] is
    [CONFIG_MAX_U_BOOT_SIZE], [None] where it is not configured.  The result
    is [(stage2_off_min, stage2_off, align_size)], or [None] for 0. *)
Section Stock.
Context {S : Type} (mtd : option (mtd_info (M S))) (max_size : option Z).

(** A read whose length is checked, too; [None] is a failure. *)
Definition read_stock (mtd : mtd_info (M S)) (off len : Z) : M S (option (list Z)) :=
  do '(r, buf, retlen) <- mtd_read mtd off (fill 0 len) (Some 0);
  if (negb (r =? 0) && negb (r =? - EUCLEAN)) || negb (retlen =? len) then ret None else ret (Some buf).

Definition stock_body (mtd : mtd_info (M S)) (off align limit addr : Z) : M S (Z + Z * Z * Z) :=
  if addr <? limit then
    do hdr <- read_stock mtd addr sizeof_image_header;
    if match hdr with Some hdr => image_check_magic hdr && header_intact hdr | None => false end
    then ret (inr (off, addr, align))
    else ret (inl (u32 (addr + align)))
  else ret (inr (off, off, align)).

Definition check_mtk_stock_stage2_info : M S (option (Z * Z * Z)) :=
  match max_size, mtd with
  | None, _ | _, None => ret None
  | Some limit, Some mtd =>
      do hdr <- read_stock mtd 0 sizeof_image_header;
      match hdr with
      | None => ret None
      | Some hdr =>
          if image_check_magic hdr && negb (header_intact hdr && is_spl_header hdr) then ret None
          else
            do rom_cfg <- read_stock mtd (sizeof_image_header + MTK_SPL_ROM_CFG_OFFS) sizeof_rom_cfg;
            match rom_cfg with
            | None => ret None
            | Some rom_cfg =>
                if negb (rom_cfg_magic rom_cfg =? MTK_ROM_CFG_MAGIC) then ret None
                else
                  let off := u32 (rom_cfg_size rom_cfg + sizeof_image_header) in
                  let align := rom_cfg_align rom_cfg in
                  if align =? 0 then ret (Some (off, off, align))
                  else
                    let off := ALIGN off align in
                    do x <- iter (Datatypes.S (Datatypes.S (Z.to_nat limit))) (stock_body mtd off align limit) off;
                    ret (Some x)
            end
      end
  end.

End Stock.
