(* ===== verification/Stage2Spec.v ===== *)
(** * Two-stage boot loaders: properties

    The table-driven checksum is the bit-by-bit one, and the search for the
    second stage terminates with an intact header. *)

From stdpp Require Import base numbers list option.
From Stdlib Require Import ZArith Lia.
From S2P Require Import Prelude NmbmTypes Mtd Crc32 Image Flash Stage2.

(** ** The checksum *)

(** The textbook division: a byte is added at the top, then eight shifts. *)
Definition crc_be_byte (poly crc x : Z) : Z := Nat.iter 8 (crc_be_shift poly) (Z.lxor crc (Z.shiftl x 24)).
Definition crc_be_ref (poly crc : Z) (data : list Z) : Z := fold_left (crc_be_byte poly) data crc.

Section CrcBe.
Context (poly : Z) (Hpoly : 0 <= poly < 2 ^ 32).

Lemma u32_lxor a b : u32 (Z.lxor a b) = Z.lxor (u32 a) (u32 b).
Proof.
  unfold u32. rewrite <- !Z.land_ones by lia. apply Z.bits_inj'. intros n Hn.
  rewrite !Z.land_spec, !Z.lxor_spec, !Z.land_spec. by destruct (Z.testbit a n), (Z.testbit b n), (Z.testbit (Z.ones 32) n).
Qed.

Lemma top_bit v : negb (Z.land v (2 ^ 31) =? 0) = Z.testbit v 31.
Proof.
  destruct (Z.testbit v 31) eqn:E.
  - apply negb_true_iff, Z.eqb_neq. intros H. apply (f_equal (fun z => Z.testbit z 31)) in H.
    rewrite Z.land_spec, E, Z.pow2_bits_true in H by lia. by rewrite Z.bits_0 in H.
  - apply negb_false_iff, Z.eqb_eq. apply Z.bits_inj'. intros n Hn. rewrite Z.land_spec, Z.bits_0.
    rewrite Z.pow2_bits_eqb by lia. destruct (Z.eqb_spec 31 n) as [<-|]; [by rewrite E|by rewrite andb_false_r].
Qed.

Lemma crc_be_shift_lxor a b : crc_be_shift poly (Z.lxor a b) = Z.lxor (crc_be_shift poly a) (crc_be_shift poly b).
Proof.
  unfold crc_be_shift. rewrite !top_bit, Z.lxor_spec, Z.shiftl_lxor, u32_lxor.
  apply Z.bits_inj'. intros n Hn. rewrite !Z.lxor_spec.
  destruct (Z.testbit a 31), (Z.testbit b 31); cbn [xorb]; rewrite ?Z.bits_0;
    repeat (match goal with |- context [Z.testbit ?x n] => destruct (Z.testbit x n) end); done.
Qed.

Lemma iter_shift_lxor k a b :
  Nat.iter k (crc_be_shift poly) (Z.lxor a b) = Z.lxor (Nat.iter k (crc_be_shift poly) a) (Nat.iter k (crc_be_shift poly) b).
Proof. induction k as [|k IH]; [done|]. rewrite !Nat.iter_succ, IH. apply crc_be_shift_lxor. Qed.

(** Bits that do not reach the top are shifted only. *)
Lemma iter_shift_low k v : 0 <= v -> v * 2 ^ Z.of_nat k < 2 ^ 32 -> Nat.iter k (crc_be_shift poly) v = v * 2 ^ Z.of_nat k.
Proof.
  intros Hv. induction k as [|k IH]; intros Hk; [cbn; lia|].
  rewrite Nat2Z.inj_succ, Z.pow_succ_r in * by lia. rewrite Nat.iter_succ, IH by lia.
  unfold crc_be_shift. rewrite top_bit. replace (Z.testbit _ 31) with false.
  - rewrite Z.lxor_0_r, Z.shiftl_mul_pow2, u32_small by lia. lia.
  - symmetry. apply Z.testbit_false; [lia|]. rewrite Z.div_small; [done|]. split; [lia|].
    change (2 ^ 32) with (2 * 2 ^ 31) in Hk. lia.
Qed.

Lemma table_entry i : 0 <= i < 256 -> znth (crc32c_be_init poly) i = Some (Nat.iter 8 (crc_be_shift poly) (Z.shiftl i 24)).
Proof.
  intros Hi. unfold znth, crc32c_be_init. destruct (Z.ltb_spec i 0); [lia|].
  rewrite list_lookup_fmap, lookup_seq_lt by lia. cbn [fmap option_fmap option_map].
  by rewrite Nat.add_0_l, Z2Nat.id by lia.
Qed.

Lemma crc_be_shift_range v : 0 <= crc_be_shift poly v < 2 ^ 32.
Proof.
  unfold crc_be_shift. rewrite top_bit. set (b := if Z.testbit v 31 then poly else 0).
  assert (Hb : 0 <= b < 2 ^ 32) by (unfold b; destruct (Z.testbit v 31); lia).
  rewrite <- (u32_small b Hb), <- u32_lxor. apply u32_range.
Qed.

Lemma crc_be_byte_range crc x : 0 <= crc_be_byte poly crc x < 2 ^ 32.
Proof. unfold crc_be_byte. rewrite Nat.iter_succ. apply crc_be_shift_range. Qed.

(** One table lookup is eight shifts. *)
Lemma table_step crc x :
  0 <= crc < 2 ^ 32 -> is_byte x ->
  Z.lxor (default 0 (znth (crc32c_be_init poly) (u8 (Z.lxor (Z.shiftr crc 24) x)))) (u32 (Z.shiftl crc 8)) =
  crc_be_byte poly crc x.
Proof.
  intros Hc Hx. unfold is_byte in Hx. set (t := Z.shiftr crc 24).
  assert (Ht : 0 <= t < 256).
  { unfold t. rewrite Z.shiftr_div_pow2 by lia. split; [apply Z.div_pos; lia|apply Z.div_lt_upper_bound; lia]. }
  assert (Htx : 0 <= Z.lxor t x < 256).
  { split; [apply Z.lxor_nonneg; lia|]. destruct (Z.eq_dec (Z.lxor t x) 0) as [->|Hne]; [lia|].
    apply (Z.log2_lt_pow2 _ 8); [pose proof (Z.lxor_nonneg t x); lia|].
    eapply Z.le_lt_trans; [apply Z.log2_lxor; lia|]. apply Z.max_lub_lt.
    - destruct (Z.eq_dec t 0) as [->|]; [done|]. apply Z.log2_lt_pow2; lia.
    - destruct (Z.eq_dec x 0) as [->|]; [done|]. apply Z.log2_lt_pow2; lia. }
  unfold u8. rewrite Z.mod_small by exact Htx. rewrite table_entry by exact Htx. cbn [default].
  set (low := crc mod 2 ^ 24). assert (Hl : 0 <= low < 2 ^ 24) by (apply Z.mod_pos_bound; lia).
  assert (Esplit : Z.lxor crc (Z.shiftl x 24) = Z.lxor (Z.shiftl (Z.lxor t x) 24) low).
  { unfold low, t. rewrite <- Z.land_ones by lia. apply Z.bits_inj'. intros n Hn.
    rewrite !Z.lxor_spec, Z.land_spec. destruct (Z_lt_le_dec n 24).
    - rewrite !Z.shiftl_spec_low by lia. rewrite Z.ones_spec_low by lia. by rewrite andb_true_r, xorb_false_r, xorb_false_l.
    - rewrite !Z.shiftl_spec_high by lia. rewrite Z.lxor_spec, Z.shiftr_spec, Z.ones_spec_high by lia.
      rewrite andb_false_r, xorb_false_r. do 2 f_equal. lia. }
  unfold crc_be_byte. rewrite Esplit, iter_shift_lxor. f_equal.
  rewrite iter_shift_low by (change (2 ^ Z.of_nat 8) with 256; lia).
  unfold u32, low. rewrite Z.shiftl_mul_pow2 by lia. change (2 ^ 32) with (2 ^ 24 * 2 ^ 8).
  by rewrite Z.mul_mod_distr_r by lia.
Qed.

Lemma crc32c_be_cal_ref crc data :
  0 <= crc < 2 ^ 32 -> Forall is_byte data -> crc32c_be_cal crc data (crc32c_be_init poly) = crc_be_ref poly crc data.
Proof.
  pose proof table_step as Hf. unfold crc32c_be_cal, crc_be_ref. generalize dependent (crc32c_be_init poly). intros tbl Hf Hc Hd. revert crc Hc. induction Hd as [|x data Hx Hd IH]; intros crc Hc; [done|].
  rewrite !fold_left_step, Hf by done. apply IH, crc_be_byte_range.
Qed.

End CrcBe.

(** The table is built once, from the cleared one. *)
Lemma crc32tbl_built : crc32tbl = crc32c_be_init MT7621_IH_CRC_POLYNOMIAL.
Proof. unfold crc32tbl, crc32_init. rewrite bool_decide_eq_false_2; [done|]. vm_compute. congruence. Qed.

Lemma crc32_init_again : crc32_init crc32tbl = crc32tbl.
Proof. unfold crc32_init. rewrite crc32tbl_built. by destruct (bool_decide _). Qed.

Lemma length_bytes_byte n x : Forall is_byte (length_bytes n x).
Proof.
  revert x. induction n as [|n IH]; intros x; cbn; [done|]. destruct (x =? 0); [done|]. constructor; [|done].
  change 255 with (Z.ones 8). rewrite Z.land_ones by lia. apply Z.mod_pos_bound. lia.
Qed.

(** The checksum of the boot ROM's header: data and length, complemented. *)
Lemma crc32_cal_ref data :
  Forall is_byte data ->
  crc32_cal data = Z.lxor (crc_be_ref MT7621_IH_CRC_POLYNOMIAL 0 (data ++ length_bytes 4 (zlen data))) 0xffffffff.
Proof.
  intros Hd. unfold crc32_cal. rewrite crc32tbl_built. f_equal.
  unfold crc_be_ref. rewrite fold_left_app. fold (crc_be_ref MT7621_IH_CRC_POLYNOMIAL 0 data).
  assert (Hp : 0 <= MT7621_IH_CRC_POLYNOMIAL < 2 ^ 32) by done. assert (H0 : 0 <= 0 < 2 ^ 32) by done.
  rewrite (crc32c_be_cal_ref _ Hp 0 data H0 Hd).
  apply crc32c_be_cal_ref; [done| |apply length_bytes_byte].
  destruct data as [|x data] using rev_ind; [done|]. unfold crc_be_ref. rewrite fold_left_app. apply crc_be_byte_range. done.
Qed.

(** ** Searching *)

(** An intact image header at [off]. *)
Definition header_at (mem : list Z) (off : Z) : Prop :=
  exists hdr, slice mem off sizeof_image_header = Some hdr /\ image_check_magic hdr = true /\ header_intact hdr = true.

Lemma find_stage2_found fuel mem size align off o :
  find_stage2 fuel mem size align off = Some (Some o) -> o < size /\ header_at mem o.
Proof.
  revert off. induction fuel as [|n IH]; intros off; cbn [find_stage2]; [done|].
  destruct (Z.ltb_spec off size); [|done].
  destruct (slice mem off sizeof_image_header) as [hdr|] eqn:Es; [|done]. cbn [mbind option_bind].
  destruct (image_check_magic hdr && header_intact hdr) eqn:Eh; [|apply IH].
  intros E. injection E as <-. apply andb_true_iff in Eh as [? ?]. split; [done|]. by exists hdr.
Qed.

(** Stepping up by less than the size of the data, or down by the complement
    of a larger step, leaves the data within its size. *)
Definition search_measure (size align off : Z) : nat :=
  if off <? size then S (Z.to_nat (if align <? size then size - off else off)) else O.

Lemma search_step size align off :
  0 < align < 2 ^ 32 -> 0 <= off < size -> size <= 2 ^ 31 ->
  (search_measure size align (u32 (off + align)) < search_measure size align off)%nat.
Proof.
  intros Ha Ho Hs. unfold search_measure. destruct (Z.ltb_spec off size); [|lia].
  destruct (Z.ltb_spec align size).
  - rewrite u32_small by lia. destruct (Z.ltb_spec (off + align) size); lia.
  - destruct (Z_lt_le_dec (off + align) (2 ^ 32)) as [Hlt|Hge].
    + rewrite u32_small by lia. destruct (Z.ltb_spec (off + align) size); lia.
    + assert (E : u32 (off + align) = off + align - 2 ^ 32).
      { unfold u32. rewrite <- (Z.mod_add _ (-1)) by lia. rewrite Z.mod_small; lia. }
      rewrite E. destruct (Z.ltb_spec (off + align - 2 ^ 32) size); lia.
Qed.

Lemma find_stage2_total fuel mem size align off :
  0 < align < 2 ^ 32 -> 0 <= off < 2 ^ 32 -> size <= 2 ^ 31 -> size + 63 <= zlen mem ->
  (search_measure size align off < fuel)%nat -> is_Some (find_stage2 fuel mem size align off).
Proof.
  intros Ha Ho Hs Hm. revert off Ho. induction fuel as [|n IH]; intros off Ho Hf; [lia|]. cbn [find_stage2].
  destruct (Z.ltb_spec off size); [|done]. unfold sizeof_image_header.
  rewrite slice_some by lia. cbn [mbind option_bind]. destruct (_ && _); [done|].
  apply IH; [apply u32_range|]. pose proof (search_step size align off). lia.
Qed.

Lemma get_le_range off l : Forall is_byte l -> 0 <= get_le 4 off l < 2 ^ 32.
Proof.
  intros Hb. unfold get_le. set (m := take 4 _).
  assert (Hm : Forall is_byte m) by (by apply Forall_take, Forall_drop).
  pose proof (le_value_bound m Hm) as [H1 H2]. split; [done|]. eapply Z.lt_le_trans; [exact H2|].
  change (2 ^ 32) with (256 ^ 4). apply Z.pow_le_mono_r; [lia|]. unfold m, zlen. rewrite length_take. lia.
Qed.

Lemma land_u32_range a b : 0 <= a < 2 ^ 32 -> 0 <= Z.land a b < 2 ^ 32.
Proof.
  intros Ha. split; [apply Z.land_nonneg; lia|]. rewrite <- (u32_small a Ha). unfold u32. rewrite <- Z.land_ones by lia.
  rewrite <- Z.land_assoc, (Z.land_comm (Z.ones 32)), Z.land_assoc, Z.land_ones by lia. apply Z.mod_pos_bound. lia.
Qed.

(** The search always ends, within the memory if that reaches a header beyond
    the data. *)
Lemma get_stage2_total mem size :
  Forall is_byte mem -> 0 <= size <= 2 ^ 31 -> size + 63 <= zlen mem -> 140 <= zlen mem ->
  is_Some (get_mtk_stage2_image_ptr mem size).
Proof.
  intros Hb Hs Hm H1. unfold get_mtk_stage2_image_ptr, sizeof_image_header.
  rewrite (slice_some mem 0 64) by lia. cbn [mbind option_bind].
  destruct (_ && negb _); [done|]. destruct (_ && negb _); [done|].
  unfold MTK_SPL_ROM_CFG_OFFS, sizeof_rom_cfg.
  destruct (slice mem (64 + 64) 12) as [cfg|] eqn:Ec; [|by rewrite slice_some in Ec by lia]. cbn [mbind option_bind].
  destruct (negb _); [done|]. destruct (Z.eqb_spec (rom_cfg_align cfg) 0); [done|].
  pose proof (get_le_range 8 cfg (slice_forall _ _ _ _ _ Hb Ec)) as Ha. fold (rom_cfg_align cfg) in Ha.
  apply find_stage2_total; [lia| |lia|lia|].
  - unfold ALIGN. apply land_u32_range, u32_range.
  - unfold search_measure. set (o := ALIGN _ _). assert (0 <= o) by (apply land_u32_range, u32_range).
    destruct (Z.ltb_spec o size); [|lia]. destruct (_ <? _); lia.
Qed.

(** A first stage that says nothing of the alignment: the second stage is
    taken to follow it, unseen. *)
Definition follows_unseen (mem : list Z) (off : Z) : Prop :=
  exists cfg, slice mem (sizeof_image_header + MTK_SPL_ROM_CFG_OFFS) sizeof_rom_cfg = Some cfg /\
    rom_cfg_align cfg = 0 /\ off = u32 (rom_cfg_size cfg + sizeof_image_header).

Lemma get_stage2_found mem size off :
  get_mtk_stage2_image_ptr mem size = Some (Some off) -> header_at mem off \/ follows_unseen mem off.
Proof.
  unfold get_mtk_stage2_image_ptr. destruct (slice mem 0 sizeof_image_header) as [hdr|] eqn:Eh; [|done]. cbn [mbind option_bind].
  destruct (image_check_magic hdr && negb (header_intact hdr)) eqn:E1; [done|].
  destruct (image_check_magic hdr && negb (is_spl_header hdr)) eqn:E2.
  { intros E. injection E as <-. left. exists hdr. apply andb_true_iff in E2 as [Em _]. rewrite Em in E1.
    split; [done|]. split; [exact Em|]. by destruct (header_intact hdr). }
  destruct (slice mem _ sizeof_rom_cfg) as [cfg|] eqn:Ec; [|done]. cbn [mbind option_bind].
  destruct (negb (_ =? MTK_ROM_CFG_MAGIC)); [done|]. destruct (Z.eqb_spec (rom_cfg_align cfg) 0).
  - intros E. injection E as <-. right. by exists cfg.
  - intros E. left. by apply find_stage2_found in E as [_ Hh].
Qed.

(** ** The stock boot loader *)

Section Stock.
Context {S : Type} (mtd : mtd_info (M S)) (I : S -> Prop).

(** What the raw device promises: a read keeps [I] and delivers bytes. *)
Context (Hread : forall s off len, I s -> 0 <= off < 2 ^ 32 -> 0 <= len <= 64 ->
  wp (read_stock mtd off len) (fun r s' => I s' /\ forall b, r = Some b -> Forall is_byte b) s).

Definition pow2 (a : Z) : Prop := exists k, 0 <= k < 32 /\ a = 2 ^ k.

Lemma u32_divide x a : pow2 a -> (a | x) -> (a | u32 x).
Proof.
  intros (k & Hk & ->) Hx. unfold u32. apply Z.mod_divide; [lia|].
  rewrite <- (Z.mod_divide x) in Hx by lia. replace (2 ^ 32) with (2 ^ k * 2 ^ (32 - k)).
  - rewrite Z.rem_mul_r, Hx by lia. rewrite Z.add_0_l, Z.mul_comm. apply Z.mod_mul. lia.
  - rewrite <- Z.pow_add_r by lia. f_equal. lia.
Qed.

(** A step that is a multiple of a power of two rounds to a multiple. *)
Lemma ALIGN_multiple x a k : 0 <= k < 32 -> 0 < a < 2 ^ 32 -> (2 ^ k | a) -> (2 ^ k | ALIGN x a).
Proof.
  intros Hk Ha Hd. unfold ALIGN. apply Z.mod_divide; [lia|]. rewrite <- Z.land_ones by lia.
  rewrite <- Z.land_assoc. replace (Z.land (u32 (Z.lnot (u32 (a - 1)))) (Z.ones k)) with 0; [apply Z.land_0_r|].
  symmetry. apply Z.bits_inj'. intros n Hn. rewrite Z.bits_0, Z.land_spec.
  destruct (Z_lt_le_dec n k); [|by rewrite Z.ones_spec_high, andb_false_r by lia].
  rewrite (u32_small (a - 1)) by lia. unfold u32. rewrite Z.mod_pow2_bits_low by lia. rewrite Z.lnot_spec by lia.
  destruct Hd as [q ->]. replace (q * 2 ^ k - 1) with ((2 ^ k - 1) + (q - 1) * 2 ^ k) by lia.
  assert (E : Z.testbit ((2 ^ k - 1) + (q - 1) * 2 ^ k) n = Z.testbit (2 ^ k - 1) n).
  { rewrite <- (Z.mod_pow2_bits_low ((2 ^ k - 1) + (q - 1) * 2 ^ k) k n) by lia.
    rewrite Z_mod_plus_full, Z.mod_small by lia. done. }
  rewrite E. replace (2 ^ k - 1) with (Z.ones k) by (rewrite Z.ones_equiv; lia). by rewrite Z.ones_spec_low by lia.
Qed.

Lemma u32_multiple x k : 0 <= k < 32 -> (2 ^ k | x) -> (2 ^ k | u32 x).
Proof. intros Hk. apply u32_divide. by exists k. Qed.

(** What the search reports: offsets below 4 GiB; each power of two that
    divides the alignment divides them; a small alignment only moves up. *)
Definition stock_ok (r : option (Z * Z * Z)) : Prop :=
  forall off_min off align, r = Some (off_min, off, align) ->
    0 <= off_min < 2 ^ 32 /\ 0 <= off < 2 ^ 32 /\ 0 <= align < 2 ^ 32 /\
    (align <> 0 -> forall k, 0 <= k < 32 -> (2 ^ k | align) -> (2 ^ k | off)) /\
    (align < 2 ^ 31 -> off_min <= off).

(** The search terminates. *)
Lemma stock_info_ok s limit :
  I s -> 0 <= limit <= 2 ^ 31 ->
  wp (check_mtk_stock_stage2_info (Some mtd) (Some limit)) (fun r s' => I s' /\ stock_ok r) s.
Proof.
  intros Hi Hl. unfold check_mtk_stock_stage2_info, sizeof_image_header, MTK_SPL_ROM_CFG_OFFS, sizeof_rom_cfg.
  apply wp_bind. eapply wp_conseq; [apply Hread; [done|lia|lia]|]. intros [hdr|] s1 [Hi1 _]; [|by apply wp_ret].
  destruct (_ && negb _); [by apply wp_ret|].
  apply wp_bind. eapply wp_conseq; [apply Hread; [done|lia|lia]|]. intros [cfg|] s2 [Hi2 Hc]; [|by apply wp_ret].
  destruct (negb _); [by apply wp_ret|].
  pose proof (get_le_range 8 cfg (Hc cfg eq_refl)) as Ha. fold (rom_cfg_align cfg) in Ha.
  destruct (Z.eqb_spec (rom_cfg_align cfg) 0) as [E|E].
  { apply wp_ret. split; [done|]. intros mn o a H. injection H as <- <- <-. split_and!; try apply u32_range; lia. }
  set (align := rom_cfg_align cfg) in *. set (off := ALIGN _ align).
  assert (Ho : 0 <= off < 2 ^ 32) by (apply land_u32_range, u32_range).
  assert (Hod : forall k, 0 <= k < 32 -> (2 ^ k | align) -> (2 ^ k | off)) by (intros k Hk Hd; apply ALIGN_multiple; [done|lia|done]).
  apply wp_bind.
  apply (wp_iter (fun addr s' => I s' /\ 0 <= addr < 2 ^ 32 /\ (align < 2 ^ 31 -> off <= addr) /\
                    forall k, 0 <= k < 32 -> (2 ^ k | align) -> (2 ^ k | addr))
           (fun addr _ => search_measure limit align addr)); [|by split_and!; [|apply Ho..| |]|].
  - intros addr s3 (Hi3 & Hr & Hge & Had).
    assert (Hrep : forall o, 0 <= o < 2 ^ 32 -> (align < 2 ^ 31 -> off <= o) ->
      (forall k, 0 <= k < 32 -> (2 ^ k | align) -> (2 ^ k | o)) -> stock_ok (Some (off, o, align))).
    { intros o Hor Hog Hok mn o' a H'. injection H' as <- <- <-. split_and!; try lia; auto. }
    unfold stock_body. destruct (Z.ltb_spec addr limit).
    + apply wp_bind. eapply wp_conseq; [apply Hread; [done|lia|done]|]. intros hdr' s4 [Hi4 _].
      destruct (match hdr' with Some _ => _ | None => _ end); apply wp_ret.
      * apply wp_ret. split; [done|]. by apply Hrep.
      * split; [|apply search_step; lia]. split_and!; [done|apply u32_range..| |].
        { intros Hsm. specialize (Hge Hsm). rewrite u32_small by lia. lia. }
        intros k Hk Hd. apply u32_multiple; [done|]. apply Z.divide_add_r; [auto|done].
    + apply wp_ret, wp_ret. split; [done|]. apply Hrep; [done|lia|done].
  - unfold search_measure. destruct (Z.ltb_spec off limit); [|lia]. destruct (_ <? _); lia.
Qed.

End Stock.
