(* ===== verification/Strto.v ===== *)
(** * Numbers in commands

    lib/strto.c: reading numbers from text, and the hexadecimal output of
    [snprintf] that the board code builds its commands with.  A C string is
    the list of its character codes, without the final NUL. *)

From stdpp Require Import base numbers list.
From Stdlib Require Import ZArith Lia String Ascii.
From S2P Require Import Prelude.

(** ** Definitions *)

(** What a command returns. *)
Definition CMD_RET_SUCCESS : Z := 0.
Definition CMD_RET_FAILURE : Z := 1.
Definition CMD_RET_USAGE : Z := -1.

(** The characters of a literal. *)
Fixpoint chars (s : string) : list Z :=
  match s with
  | EmptyString => []
  | String c s => Z.of_nat (nat_of_ascii c) :: chars s
  end.

(** The classes of lib/ctype.c, for the character codes below 128. *)
Definition isdigit (c : Z) : bool := (48 <=? c) && (c <=? 57).
Definition islower (c : Z) : bool := (97 <=? c) && (c <=? 122).
Definition isxdigit (c : Z) : bool :=
  isdigit c || ((65 <=? c) && (c <=? 70)) || ((97 <=? c) && (c <=? 102)).
Definition tolower (c : Z) : Z := if (65 <=? c) && (c <=? 90) then c + 32 else c.
Definition toupper (c : Z) : Z := if islower c then c - 32 else c.

(** The character at an index; behind the last one comes NUL. *)
Definition char_at (s : list Z) (i : nat) : Z := nth i s 0.

(** The base, and how many characters of prefix to skip. *)
Definition _parse_integer_fixup_radix (s : list Z) (base : Z) : nat * Z :=
  let base :=
    if base =? 0 then
      if char_at s 0 =? 48 then
        if (tolower (char_at s 1) =? 120) && isxdigit (char_at s 2) then 16 else 8
      else 10
    else base in
  (if (base =? 16) && (char_at s 0 =? 48) && (tolower (char_at s 1) =? 120) then 2%nat else 0%nat, base).

Definition digit_value (c : Z) : Z :=
  if isdigit c then c - 48 else (if islower c then toupper c else c) - 65 + 10.

(** The digits at the start of [s], in arithmetic modulo [2 ^ w]: the value
    and the number of characters. *)
Fixpoint parse_digits (w base result : Z) (s : list Z) (n : nat) : Z * nat :=
  match s with
  | [] => (result, n)
  | c :: s =>
      if isxdigit c && (digit_value c <? base)
      then parse_digits w base ((result * base + digit_value c) mod 2 ^ w) s (S n)
      else (result, n)
  end.

(** The value and the number of characters used ([*endp - cp]). *)
Definition strto (w : Z) (s : list Z) (base : Z) : Z * nat :=
  let '(skip, base) := _parse_integer_fixup_radix s base in
  parse_digits w base 0 (drop skip s) skip.

Definition simple_strtoull (s : list Z) (base : Z) : Z * nat := strto 64 s base.
Definition simple_strtoul (s : list Z) (base : Z) : Z * nat := strto 32 s base.

(** [%x]; 16 digits are enough for 64 bits. *)
Definition hex_digit (d : Z) : Z := if d <? 10 then 48 + d else 87 + d.

Fixpoint hex_digits (fuel : nat) (n : Z) (acc : list Z) : list Z :=
  match fuel with
  | O => acc
  | S f => if n <? 16 then hex_digit n :: acc else hex_digits f (n / 16) (hex_digit (n mod 16) :: acc)
  end.

(** [0x%x]. *)
Definition print_0x (n : Z) : list Z := 48 :: 120 :: hex_digits 16 n [].

(** ** Printing and reading back *)

Lemma hex_digit_ok d : 0 <= d < 16 -> isxdigit (hex_digit d) = true /\ digit_value (hex_digit d) = d.
Proof.
  intros Hd. unfold hex_digit. destruct (Z.ltb_spec d 10).
  - assert (E : isdigit (48 + d) = true) by (unfold isdigit; rewrite andb_true_iff, !Z.leb_le; lia).
    unfold isxdigit, digit_value. rewrite E. split; [done|lia].
  - assert (E : isdigit (87 + d) = false) by (unfold isdigit; rewrite andb_false_iff, !Z.leb_gt; lia).
    assert (El : islower (87 + d) = true) by (unfold islower; rewrite andb_true_iff, !Z.leb_le; lia).
    unfold isxdigit, digit_value, toupper. rewrite E, El. split; [|lia].
    cbn [orb]. rewrite orb_true_iff. right. rewrite andb_true_iff, !Z.leb_le. lia.
Qed.

(** What is printed in front of [acc] is read as [n]. *)
Lemma parse_hex fuel n acc k :
  0 <= n < 16 ^ Z.of_nat fuel -> n < 2 ^ 64 ->
  exists m, parse_digits 64 16 0 (hex_digits fuel n acc) k = parse_digits 64 16 n acc (k + m).
Proof.
  revert n acc k. induction fuel as [|f IH]; intros n acc k Hn H64; [cbn in Hn; exists 0%nat; rewrite Nat.add_0_r; cbn; f_equal; lia|].
  cbn [hex_digits]. destruct (Z.ltb_spec n 16).
  - exists 1%nat. cbn [parse_digits]. destruct (hex_digit_ok n) as [-> ->]; [lia|].
    destruct (Z.ltb_spec n 16); [|lia]. cbn [andb]. rewrite Z.mod_small by lia. f_equal. lia.
  - rewrite Nat2Z.inj_succ, Z.pow_succ_r in Hn by lia.
    destruct (IH (n / 16) (hex_digit (n mod 16) :: acc) k) as (m & ->).
    { split; [apply Z.div_pos; lia|apply Z.div_lt_upper_bound; lia]. }
    { apply Z.div_lt_upper_bound; lia. }
    exists (m + 1)%nat. pose proof (Z.mod_pos_bound n 16 ltac:(lia)) as Hm. cbn [parse_digits].
    destruct (hex_digit_ok (n mod 16) Hm) as [-> ->]. destruct (Z.ltb_spec (n mod 16) 16); [|lia]. cbn [andb].
    pose proof (Z.div_mod n 16 ltac:(lia)). replace (n / 16 * 16 + n mod 16) with n by lia.
    rewrite Z.mod_small by lia. f_equal. lia.
Qed.

(** The 32-bit reader, from the 64-bit one. *)
Lemma parse_narrow base r s n :
  0 < base -> 0 <= r ->
  fst (parse_digits 32 base (r mod 2 ^ 32) s n) = fst (parse_digits 64 base (r mod 2 ^ 64) s n) mod 2 ^ 32.
Proof.
  intros Hb. revert r n. induction s as [|c s IH]; intros r n Hr; cbn [parse_digits fst].
  - change (2 ^ 64) with (2 ^ 32 * 2 ^ 32). rewrite Z.rem_mul_r, Z.mul_comm, Z.mod_add, Z.mod_mod by lia. done.
  - destruct (isxdigit c && (digit_value c <? base)) eqn:E.
    + set (v := digit_value c). pose proof (Z.mod_pos_bound r (2 ^ 64) ltac:(lia)) as Hr64.
      transitivity (fst (parse_digits 32 base ((r * base + v) mod 2 ^ 32) s (S n))).
      { do 2 f_equal. by rewrite Z.add_mod, Z.mul_mod_idemp_l, <- Z.add_mod by lia. }
      assert (Hv : 0 <= v).
      { apply andb_true_iff in E as [Ex _]. unfold v, digit_value, isxdigit, isdigit, islower, toupper in *.
        destruct (Z.leb_spec 48 c), (Z.leb_spec c 57), (Z.leb_spec 65 c), (Z.leb_spec c 70), (Z.leb_spec 97 c), (Z.leb_spec c 102),
          (Z.leb_spec c 122); cbn in *; try done; unfold islower; try lia;
        destruct (Z.leb_spec 97 c), (Z.leb_spec c 122); cbn; lia. }
      rewrite IH by nia. do 3 f_equal. symmetry. by rewrite Z.add_mod, Z.mul_mod_idemp_l, <- Z.add_mod by lia.
    + change (2 ^ 64) with (2 ^ 32 * 2 ^ 32). cbn [fst]. rewrite Z.rem_mul_r, Z.mul_comm, Z.mod_add, Z.mod_mod by lia. done.
Qed.

Lemma strtoull_print n : 0 <= n < 2 ^ 64 -> exists m, simple_strtoull (print_0x n) 16 = (n, S m).
Proof.
  intros Hn. change (exists m, parse_digits 64 16 0 (hex_digits 16 n []) 2 = (n, S m)).
  destruct (parse_hex 16 n [] 2) as (m & ->); [change (16 ^ Z.of_nat 16) with (2 ^ 64); lia|lia|].
  exists (1 + m)%nat. cbn [parse_digits]. f_equal.
Qed.

Lemma parse_count w w' base r r' s n : snd (parse_digits w base r s n) = snd (parse_digits w' base r' s n).
Proof. revert r r' n. induction s as [|c s IH]; intros r r' n; cbn [parse_digits]; [done|]. destruct (_ && _); [apply IH|done]. Qed.

Lemma strtoul_print n : 0 <= n < 2 ^ 32 -> exists m, simple_strtoul (print_0x n) 16 = (n, S m).
Proof.
  intros Hn. destruct (strtoull_print n) as (m & E); [lia|]. exists m.
  change (simple_strtoull (print_0x n) 16) with (parse_digits 64 16 (0 mod 2 ^ 64) (hex_digits 16 n []) 2) in E.
  change (parse_digits 32 16 (0 mod 2 ^ 32) (hex_digits 16 n []) 2 = (n, S m)).
  rewrite (surjective_pairing (parse_digits 32 _ _ _ _)), parse_narrow by lia.
  rewrite (parse_count 32 64 16 _ (0 mod 2 ^ 64)), E. cbn [fst snd]. f_equal. apply Z.mod_small. lia.
Qed.
