(* ===== verification/NmbmCmd.v ===== *)
(** * The nmbm command

    cmd/nmbm.c: reading, writing, erasing and booting from an NMBM device by
    console commands, which the board code runs, too. *)

From stdpp Require Import base numbers list strings option.
From Stdlib Require Import ZArith Lia.
From S2P Require Import Prelude NmbmTypes Mtd Strto Image DualImage.

(** ** The world of a command: the flash device, the memory and [load_addr] *)

Record cmd_world (S : Type) := mkCmd {
  cw_dev : S;
  cw_mem : Z -> Z;
  cw_load_addr : Z
}.
Arguments mkCmd {S}.
Arguments cw_dev {S}.
Arguments cw_mem {S}.
Arguments cw_load_addr {S}.

Definition mem_get (mem : Z -> Z) (addr n : Z) : list Z := map mem (seqZ addr n).

Definition mem_put (mem : Z -> Z) (addr : Z) (l : list Z) : Z -> Z := fun i =>
  match znth l (i - addr) with Some x => x | None => mem i end.

Definition on_dev {S A} (m : M S A) : M (cmd_world S) A := fun w =>
  match m (cw_dev w) with
  | Ret a s => Ret a (mkCmd s (cw_mem w) (cw_load_addr w))
  | Stuck => Stuck
  | NoFuel => NoFuel
  end.

Definition load_mem {S} (addr n : Z) : M (cmd_world S) (list Z) := gets (fun w => mem_get (cw_mem w) addr n).

Definition store_mem {S} (addr : Z) (l : list Z) : M (cmd_world S) unit :=
  modify (fun w => mkCmd (cw_dev w) (mem_put (cw_mem w) addr l) (cw_load_addr w)).

Definition SIZE_MAX : Z := 2 ^ 32 - 1.

(** What the command finds around it: MTD devices by name (with an identity),
    NMBM devices by index, partitions (type, number and offset), the functions
    that print tables, and the boot command. *)
Class nmbm_cmd_env (S : Type) := {
  get_mtd_device_nm : list Z -> option (Z * mtd_info (M S));
  upper_by_index : Z -> option Z;
  CMD_MTDPARTS : bool;
  find_dev_and_part : list Z -> option (Z * Z * Z);
  print_table : list Z -> list Z -> Z;
  CMD_FIT : bool;
  bootm_maybe_autostart : M (cmd_world S) Z
}.

Section Cmd.
Context {S : Type} {E : nmbm_cmd_env S} {FT : fit_library}.
Implicit Types mtd : mtd_info (M S).
Local Abbreviation CM := (M (cmd_world S)).

(** [None] is [-EINVAL].  The second comparison of [end] is with the first
    string, into which it never points. *)
Definition nmbm_parse_offset_size mtd (off_str size_str : list Z) : option (Z * Z) :=
  let '(off, n) := simple_strtoull off_str 16 in
  if Nat.eqb n 0 then None
  else if mtd_size mtd <=? off then None
  else
    let '(size, _) := simple_strtoull size_str 16 in
    if mtd_size mtd <? u64 (off + size) then None else Some (off, size).

Definition do_nmbm_erase mtd (offset size : Z) : CM Z :=
  do '(r, _) <- on_dev (mtd_erase mtd (mkErase offset size 0 0));
  if r =? 0 then ret CMD_RET_SUCCESS else ret CMD_RET_FAILURE.

Definition do_nmbm_rw (read : bool) mtd (addr offset size : Z) : CM Z :=
  do buf <- load_mem addr size;
  do r <-
    (if read then
       do '(r, buf, _) <- on_dev (mtd_read mtd (i64 offset) buf (Some 0));
       store_mem addr buf;;
       ret r
     else
       do '(r, _) <- on_dev (mtd_write mtd (i64 offset) buf (Some 0));
       ret r);
  if r =? 0 then ret CMD_RET_SUCCESS else ret CMD_RET_FAILURE.

(** All of the text is a number. *)
Definition whole_number (s : list Z) (n : nat) : bool := negb (Nat.eqb n 0) && Nat.eqb n (length s).

(** The offset to boot from: a number, or a partition of this device. *)
Definition boot_offset (id : Z) (arg : list Z) : option Z :=
  let '(off, n) := simple_strtoull arg 0 in
  if whole_number arg n then Some off
  else if CMD_MTDPARTS then
    '(type, num, offset) ← find_dev_and_part arg;
    if negb (type =? MTD_DEV_TYPE_NMBM) then None
    else if bool_decide (upper_by_index num = Some id) then Some offset else None
  else None.

(** Read into memory; true if all of it was read. *)
Definition read_all mtd (off size loadaddr : Z) : CM bool :=
  do buf <- load_mem loadaddr size;
  do '(r, buf, retlen) <- on_dev (mtd_read mtd (i64 off) buf (Some 0));
  store_mem loadaddr buf;;
  ret ((r =? 0) && (retlen =? size)).

Definition boot_from mtd (off loadaddr : Z) : CM Z :=
  do ok <- read_all mtd off sizeof_image_header loadaddr;
  if negb ok then ret CMD_RET_FAILURE
  else
    do hdr <- load_mem loadaddr sizeof_image_header;
    let size :=
      match genimg_get_format hdr with
      | IMAGE_FORMAT_LEGACY => Some (image_get_image_size hdr)
      | IMAGE_FORMAT_FIT => if CMD_FIT then Some (fit_get_size hdr) else None
      | IMAGE_FORMAT_INVALID => None
      end in
    match size with
    | None => ret CMD_RET_FAILURE
    | Some size =>
        do ok <- read_all mtd off size loadaddr;
        if negb ok then ret CMD_RET_FAILURE
        else
          modify (fun w => mkCmd (cw_dev w) (cw_mem w) loadaddr);;
          bootm_maybe_autostart
    end.

(** [argv] are the arguments behind [boot]. *)
Definition do_nmbm_mtd_boot (id : Z) mtd (argv : list (list Z)) : CM Z :=
  do loadaddr <- gets cw_load_addr;
  match argv with
  | [a0; a1] =>
      let '(loadaddr, n) := simple_strtoul a0 0 in
      if negb (whole_number a0 n) then ret CMD_RET_FAILURE
      else match boot_offset id a1 with None => ret CMD_RET_FAILURE | Some off => boot_from mtd off loadaddr end
  | a0 :: _ =>
      match boot_offset id a0 with None => ret CMD_RET_FAILURE | Some off => boot_from mtd off loadaddr end
  | [] => fun _ => Stuck
  end.

Definition is_word (s : list Z) (w : string) : bool := bool_decide (s = chars w).

(** The transfers: [nmbm <name> (read|write) <addr> <offset> <size>]. *)
Definition do_nmbm_transfer mtd (verb addr_str off_str size_str : list Z) : CM Z :=
  match nmbm_parse_offset_size mtd off_str size_str with
  | None => ret CMD_RET_FAILURE
  | Some (offset, size) =>
      if SIZE_MAX <? size then ret (- EINVAL)
      else
        let '(addr, n) := simple_strtoul addr_str 16 in
        if Nat.eqb n 0 then ret (- EINVAL)
        else if is_word verb "read" then do_nmbm_rw true mtd addr offset size
        else if is_word verb "write" then do_nmbm_rw false mtd addr offset size
        else ret CMD_RET_USAGE
  end.

(** [do_nmbm]; [argv] without the command's own name. *)
Definition do_nmbm (argv : list (list Z)) : CM Z :=
  match argv with
  | [] => ret CMD_RET_USAGE
  | name :: rest =>
      if is_word name "list" then ret CMD_RET_SUCCESS
      else
        match rest with
        | [] => ret CMD_RET_USAGE
        | verb :: args =>
            if is_word verb "info" || is_word verb "state" || is_word verb "bad"
            then ret (if print_table name verb =? 0 then 0 else 1)
            else if is_word verb "mapping" then ret (print_table name verb)
            else
              match args with
              | [] => ret CMD_RET_USAGE
              | a3 :: args' =>
                  match get_mtd_device_nm name with
                  | None => ret CMD_RET_FAILURE
                  | Some (id, mtd) =>
                      if negb (mtd_type mtd =? MTD_DEV_TYPE_NMBM) then ret CMD_RET_FAILURE
                      else if is_word verb "boot" then do_nmbm_mtd_boot id mtd args
                      else
                        match args' with
                        | [] => ret CMD_RET_USAGE
                        | a4 :: args'' =>
                            if is_word verb "erase" then
                              match nmbm_parse_offset_size mtd a3 a4 with
                              | None => ret CMD_RET_FAILURE
                              | Some (offset, size) => do_nmbm_erase mtd offset size
                              end
                            else
                              match args'' with
                              | [] => ret CMD_RET_USAGE
                              | a5 :: _ => do_nmbm_transfer mtd verb a3 a4 a5
                              end
                        end
                  end
              end
        end
  end.

End Cmd.

(** ** Commands the board code runs *)

Section Printed.
Context {S : Type} {E : nmbm_cmd_env S} {FT : fit_library} (mtd : mtd_info (M S)) (id : Z) (name : list Z).
Context (Hdev : get_mtd_device_nm name = Some (id, mtd)) (Htype : mtd_type mtd = MTD_DEV_TYPE_NMBM).
Context (Hname : name <> chars "list").

Lemma parse_printed off size :
  0 <= off -> 0 <= size -> off < mtd_size mtd -> off + size <= mtd_size mtd -> mtd_size mtd < 2 ^ 64 ->
  nmbm_parse_offset_size mtd (print_0x off) (print_0x size) = Some (off, size).
Proof.
  intros H0 H1 H2 H3 H4. unfold nmbm_parse_offset_size.
  destruct (strtoull_print off) as (m & ->); [lia|]. destruct (strtoull_print size) as (m' & ->); [lia|]. cbn [Nat.eqb].
  destruct (Z.leb_spec (mtd_size mtd) off); [lia|]. rewrite u64_small by lia.
  destruct (Z.ltb_spec (mtd_size mtd) (off + size)); [lia|]. done.
Qed.

Lemma do_nmbm_erase_printed off size :
  0 <= off -> 0 <= size -> off < mtd_size mtd -> off + size <= mtd_size mtd -> mtd_size mtd < 2 ^ 64 ->
  do_nmbm [name; chars "erase"; print_0x off; print_0x size] = do_nmbm_erase mtd off size.
Proof.
  intros. unfold do_nmbm. unfold is_word at 1. rewrite bool_decide_eq_false_2 by done. cbn -[print_0x do_nmbm_erase].
  rewrite Hdev, Htype. cbn -[print_0x do_nmbm_erase]. by rewrite parse_printed.
Qed.

Lemma do_nmbm_rw_printed (read : bool) addr off size :
  0 <= addr < 2 ^ 32 -> 0 <= off -> 0 <= size < 2 ^ 32 -> off < mtd_size mtd -> off + size <= mtd_size mtd ->
  mtd_size mtd < 2 ^ 64 ->
  do_nmbm [name; chars (if read then "read" else "write"); print_0x addr; print_0x off; print_0x size] =
  do_nmbm_rw read mtd addr off size.
Proof.
  intros Ha H0 H1 H2 H3 H4. unfold do_nmbm. unfold is_word at 1. rewrite bool_decide_eq_false_2 by done.
  destruct (strtoul_print addr) as (m & Ea); [done|]. pose proof (parse_printed off size H0 (proj1 H1) H2 H3 H4) as Hp.
  destruct read; cbn -[print_0x do_nmbm_transfer]; rewrite Hdev, Htype; cbn -[print_0x do_nmbm_transfer];
    unfold do_nmbm_transfer; rewrite Hp; unfold SIZE_MAX;
    (destruct (Z.ltb_spec (2 ^ 32 - 1) size); [lia|]); by rewrite Ea.
Qed.

End Printed.
