(* ===== verification/Upgrade.v ===== *)
(** * Upgrading: definitions

    The flash writing half of board/ralink/common/cmd_mtkupgrade.c: storing a
    new boot loader or new firmware that was loaded to memory. *)

From stdpp Require Import base numbers list strings option.
From Stdlib Require Import ZArith Lia.
From S2P Require Import Prelude IntLib NmbmTypes Mtd Strto Crc32 Image Flash Board Stage2.

Definition SZ_4K : Z := 4096.

Inductive file_type := TYPE_BL | TYPE_FW.

(** What the code takes from the configuration and from its surroundings:
    the answer to [confirm_yesno], and the NAND device of the board. *)
Class upgrade_env (S : Type) := {
  MTK_DUAL_IMAGE_SUPPORT : bool;
  DUAL_PARTNAME_BACKUP : string;
  CONFIG_ENV_IS_NOWHERE : bool;
  confirm_yesno : bool;
  get_mtk_board_nand_mtd : option (mtd_info (M S));
  CONFIG_MAX_U_BOOT_SIZE : option Z
}.

Section Upgrade.
Context {S : Type} {F : flash_helper S} {U : upgrade_env S}.

Definition check_mtd_bootloader_size (data_size : Z) : Z :=
  let check part_off part_size :=
    if (part_off =? 0) && (part_size <? data_size) && negb confirm_yesno then CMD_RET_FAILURE
    else CMD_RET_SUCCESS in
  match get_mtd_part_info "u-boot" with
  | Some (part_off, part_size) => check part_off part_size
  | None =>
      match get_mtd_part_info "Bootloader" with
      | Some (part_off, part_size) => check part_off part_size
      | None => CMD_RET_SUCCESS
      end
  end.

(** [do_data_verify (flash, offset, len, buf)] with [buf] of [len] bytes;
    [data] is a local buffer. *)
Definition data_verify_body (x : Z * list Z) : M S (Z * list Z + Z) :=
  let '(offset, ptr) := x in
  if negb (zlen ptr =? 0) then
    let readlen := if zlen ptr <? SZ_4K then zlen ptr else SZ_4K in
    do '(r, data) <- mtk_board_flash_read offset (fill 0 readlen);
    if negb (r =? 0) then ret (inr r)
    else
      do p <- lift (slice ptr 0 readlen);
      if negb (bool_decide (data = p)) then ret (inr 1)
      else ret (inl (u64 (offset + readlen), drop (Z.to_nat readlen) ptr))
  else ret (inr 0).

Definition do_data_verify (offset : Z) (buf : list Z) : M S Z :=
  iter (Datatypes.S (length buf)) data_verify_body (offset, buf).

(** [mem] is the memory from [data_addr] on. *)
Definition do_write_bootloader (stock_stage2_off : Z) (mem : list Z) (data_size stage1_size : Z) : M S Z :=
  let stock_stage2_off := if negb (stock_stage2_off =? 0) && negb (stage1_size =? 0) then 0 else stock_stage2_off in
  if negb (check_mtd_bootloader_size (u32 (stock_stage2_off + data_size)) =? CMD_RET_SUCCESS)
  then ret CMD_RET_FAILURE
  else
    let erase_size := ALIGN data_size mtk_board_get_flash_erase_size in
    do r <- mtk_board_flash_erase stock_stage2_off erase_size;
    if negb (r =? 0) then ret CMD_RET_FAILURE
    else
      do data <- lift (slice mem 0 data_size);
      do r <- mtk_board_flash_write stock_stage2_off data;
      if negb (r =? 0) then ret CMD_RET_FAILURE
      else
        do r <- do_data_verify stock_stage2_off data;
        if negb (r =? 0) then ret CMD_RET_FAILURE
        else
          (if CONFIG_ENV_IS_NOWHERE then ret 0
           else mtk_board_flash_erase CONFIG_ENV_OFFSET CONFIG_ENV_SIZE);;
          ret CMD_RET_SUCCESS.

(** The 32-bit sum may wrap around; the data is checksummed where the memory
    holds it. *)
Definition verify_stage2_integrity (mem : list Z) (size : Z) : option Z :=
  hdr ← slice mem 0 sizeof_image_header;
  if negb (image_check_magic hdr) then Some 1
  else
    let data_size := image_get_size hdr in
    if size <? u32 (data_size + sizeof_image_header) then Some 1
    else
      data ← slice mem sizeof_image_header data_size;
      if negb (crc32 sizeof_image_header 0 data =? image_get_dcrc hdr) then Some 1 else Some 0.

(** The offset at which [write_bootloader] writes a two-stage boot loader;
    [None] is [goto do_write_bl_single]. *)
Definition stage2_target (stock_stage2_off_min stock_stage2_off stock_block_size flash_block_size : Z) : option Z :=
  if stock_block_size =? flash_block_size then Some stock_stage2_off
  else if stock_block_size <? flash_block_size then
    if stock_block_size =? 0 then None
    else if negb (flash_block_size mod stock_block_size =? 0) then None
    else if negb (stock_stage2_off mod flash_block_size =? 0) then
      if negb (stock_stage2_off_min mod flash_block_size =? 0) then
        let tmp := ALIGN stock_stage2_off_min flash_block_size in
        if stock_stage2_off <? tmp then None else Some tmp
      else Some stock_stage2_off_min
    else Some stock_stage2_off
  else if negb (stock_block_size mod flash_block_size =? 0) then None
  else Some stock_stage2_off.

Definition write_bootloader (mem : list Z) (data_size : Z) : M S Z :=
  let single := do_write_bootloader 0 mem data_size 0 in
  do ptr <- lift (get_mtk_stage2_image_ptr mem data_size);
  match ptr with
  | None => single
  | Some data_stage1_size =>
      let data_stage2_size := u32 (data_size - data_stage1_size) in
      do r <- lift (verify_stage2_integrity (drop (Z.to_nat data_stage1_size) mem) data_stage2_size);
      if negb (r =? 0) then ret CMD_RET_FAILURE
      else
        do stock <- check_mtk_stock_stage2_info get_mtk_board_nand_mtd CONFIG_MAX_U_BOOT_SIZE;
        match stock with
        | None => single
        | Some (stock_stage2_off_min, stock_stage2_off, stock_block_size) =>
            let flash_block_size := mtk_board_get_flash_erase_size in
            if flash_block_size =? 0 then single
            else
              match stage2_target stock_stage2_off_min stock_stage2_off stock_block_size flash_block_size with
              | None => single
              | Some off => do_write_bootloader off mem data_size data_stage1_size
              end
        end
  end.

(** [_write_firmware]; [do_div] leaves the remainder of the division. *)
Definition _write_firmware (mem : list Z) (data_size : Z) : M S Z :=
  match get_mtd_part_info "firmware" with
  | None => ret CMD_RET_FAILURE
  | Some (part_off, part_size) =>
      if part_off =? 0 then ret CMD_RET_FAILURE
      else if negb (part_off mod mtk_board_get_flash_erase_size =? 0) then ret CMD_RET_FAILURE
      else if part_size <? data_size then ret CMD_RET_FAILURE
      else
        let erase_size := ALIGN data_size mtk_board_get_flash_erase_size in
        do r <- mtk_board_flash_erase part_off erase_size;
        if negb (r =? 0) then ret CMD_RET_FAILURE
        else
          do data <- lift (slice mem 0 data_size);
          do r <- mtk_board_flash_write part_off data;
          if negb (r =? 0) then ret CMD_RET_FAILURE
          else
            (if MTK_DUAL_IMAGE_SUPPORT then
               match get_mtd_part_info DUAL_PARTNAME_BACKUP with
               | Some (part_off, _) => mtk_board_flash_erase part_off mtk_board_get_flash_erase_size
               | None => ret 0
               end
             else ret 0);;
            ret CMD_RET_SUCCESS
  end.

Definition write_firmware_failsafe (mem : list Z) (data_size : Z) : M S Z :=
  if negb mtk_board_get_flash_dev then ret CMD_RET_FAILURE else _write_firmware mem data_size.

Definition write_firmware (mem : list Z) (data_size : Z) : M S Z := _write_firmware mem data_size.

Definition write_data (ft : file_type) (mem : list Z) (data_size : Z) : M S Z :=
  if negb mtk_board_get_flash_dev then ret CMD_RET_FAILURE
  else
    do r <- (match ft with TYPE_BL => write_bootloader mem data_size | TYPE_FW => write_firmware mem data_size end);
    if negb (r =? 0) then ret CMD_RET_FAILURE else ret CMD_RET_SUCCESS.

End Upgrade.
