(* ===== verification/UpgradeSpec.v ===== *)
(** * Upgrading: what the flash holds afterwards

    The functions of [Upgrade] on a device that obeys the flash laws. *)

From stdpp Require Import base numbers list strings option.
From Stdlib Require Import ZArith Lia.
From S2P Require Import Prelude IntLib NmbmTypes Mtd Strto Crc32 Image Flash Board Stage2 Stage2Spec Upgrade.

Local Abbreviation es := mtk_board_get_flash_erase_size.

Section UpgradeSpec.
Context {S : Type} {F : flash_helper S} {V : flash_view S} {FL : flash_laws F V} {U : upgrade_env S}.
Implicit Types s : S.

Lemma ALIGN_spec x : 0 <= x -> x + es <= 2 ^ 32 -> ALIGN x es = align_up x.
Proof.
  intros Hx Hb. pose proof erase_size_pos as He. unfold ALIGN, align_up.
  rewrite (u32_small (es - 1)), (u32_small (x + _)) by lia.
  destruct flash_block_pow as (k & Hk & E). rewrite E in *. rewrite land_block_mask by lia. f_equal. f_equal. lia.
Qed.

(** [do_data_verify] reports 0 only for equal data, and changes nothing. *)
Lemma data_verify_ok s off buf :
  usable s -> 0 <= off -> off + zlen buf < 2 ^ 64 ->
  wp (do_data_verify off buf) (fun r s' =>
    keeps (fun _ => False) s s' /\ (r = 0 -> usable s' /\ (0 < zlen buf -> off + zlen buf <= flash_size) /\ holds s off buf)) s.
Proof.
  intros Hu H0 H1. unfold do_data_verify.
  apply (wp_iter (fun '(o, ptr) s1 => exists pre, buf = pre ++ ptr /\ o = off + zlen pre /\
           keeps (fun _ => False) s s1 /\ usable s1 /\ (0 < zlen pre -> off + zlen pre <= flash_size) /\ holds s off pre)
         (fun '(_, ptr) _ => length ptr)); cycle 1.
  { exists []. change (zlen []) with 0. split_and!; [done|lia|done|done|lia|]. intros i Hi. change (zlen []) with 0 in Hi. lia. }
  { cbn. lia. }
  intros [o ptr] s1 (pre & -> & -> & Hk & Hu1 & Hfit & Hh). rewrite zlen_app in *. unfold data_verify_body.
  pose proof (zlen_nonneg ptr). pose proof (zlen_nonneg pre).
  destruct (Z.eqb_spec (zlen ptr) 0) as [E|E]; cbn [negb].
  { destruct ptr; [|unfold zlen in E; cbn in E; lia]. rewrite app_nil_r. apply wp_ret. cbn.
    split; [done|]. intros _. split_and!; [done|lia|done]. }
  set (n := if _ <? _ then _ else _). assert (Hn : 0 < n <= zlen ptr /\ n <= 4096).
  { unfold n, SZ_4K. destruct (Z.ltb_spec (zlen ptr) 4096); lia. }
  apply wp_bind. eapply wp_conseq; [apply (flash_read_law s1 (off + zlen pre) (fill 0 n) Hu1)|].
  { lia. }
  { rewrite fill_zlen; lia. }
  intros [r data] s2 (Hl & Hk2 & Hr). rewrite fill_zlen in Hl, Hr by lia.
  assert (Hk' : keeps (fun _ => False) s s2) by (by eapply keeps_trans).
  destruct (Z.eqb_spec r 0) as [->|]; cbn [negb]; [|by apply wp_ret].
  destruct (Hr eq_refl) as (Hu2 & Hfs & Hh2). apply wp_bind.
  eapply wp_lift; [apply slice_some; lia|]. rewrite drop_0.
  case_bool_decide as Ed; cbn [negb]; [|by apply wp_ret].
  apply wp_ret. rewrite u64_small by lia. split.
  - exists (pre ++ data). rewrite zlen_app, Hl. split_and!; [|lia|done|done|lia|].
    + rewrite <- app_assoc. f_equal. rewrite Ed. by rewrite take_drop.
    + apply holds_app; [done|]. eapply holds_back; [exact Hk|exact Hh2|lia|lia].
  - rewrite length_drop. unfold zlen in *. lia.
Qed.

(** The environment's erase blocks. *)
Definition env_area (i : Z) : Prop := touches es CONFIG_ENV_OFFSET CONFIG_ENV_SIZE i.

(** The area a range of data is stored in. *)
Definition store_area (off size i : Z) : Prop := off <= i < off + align_up size.

Lemma store_area_touches off size i :
  (es | off) -> 0 <= size -> touches es off (align_up size) i -> store_area off size i.
Proof.
  intros Ho Hs. pose proof erase_size_pos as He. destruct (align_up_spec size Hs) as [_ Hd].
  apply touches_aligned; [lia|done|done].
Qed.

(** Erasing and writing, the step both kinds of upgrade have in common. *)
Lemma store_ok {A} s off mem size (fail : M S A) (k : list Z -> M S A) Q :
  usable s -> 0 <= off < 2 ^ 32 -> (es | off) -> 0 < size -> size + es <= 2 ^ 32 ->
  size <= zlen mem -> Forall is_byte mem ->
  (forall s', keeps (store_area off size) s s' -> wp fail Q s') ->
  (forall data s', slice mem 0 size = Some data -> keeps (store_area off size) s s' -> usable s' ->
     off + align_up size <= flash_size -> holds s' off data -> wp (k data) Q s') ->
  wp (do r <- mtk_board_flash_erase off (ALIGN size es);
      if negb (r =? 0) then fail
      else do data <- lift (slice mem 0 size);
           do r <- mtk_board_flash_write off data;
           if negb (r =? 0) then fail else k data) Q s.
Proof.
  intros Hu H0 Hal Hsz Hb Hm Hbytes Hfail Hk. pose proof erase_size_pos as He. rewrite ALIGN_spec by lia.
  destruct (align_up_spec size) as [Hup Hd]; [lia|].
  apply wp_bind. eapply wp_conseq; [apply (flash_erase_law s off (align_up size) Hu); lia|]. intros r s1 [Hk1 Hr1].
  assert (Hw : forall i, touches es off (align_up size) i -> store_area off size i).
  { intros i. apply store_area_touches; [done|lia]. }
  destruct (Z.eqb_spec r 0) as [->|]; cbn [negb]; [|apply Hfail; by eapply keeps_weaken].
  destruct (Hr1 eq_refl) as (Hu1 & Hf & Hblank). apply wp_bind.
  pose proof (slice_some mem 0 size ltac:(lia) ltac:(lia) ltac:(lia)) as Hsl.
  eapply wp_lift; [exact Hsl|]. pose proof (slice_zlen _ _ _ _ Hsl) as Hlen. set (data := take _ _) in *.
  apply wp_bind. eapply wp_conseq; [apply (flash_write_law s1 off data Hu1); lia|]. intros r2 s2 [Hk2 Hr2].
  assert (Hks : keeps (store_area off size) s s2).
  { eapply keeps_weaken; [exact Hw|]. eapply erase_write_keeps; [|exact Hk1|exact Hk2]. lia. }
  destruct (Z.eqb_spec r2 0) as [->|]; cbn [negb]; [|by apply Hfail].
  destruct (Hr2 eq_refl) as (Hu2 & _ & Hp). eapply Hk; try done.
  eapply erase_write_holds; [lia| | | |exact Hblank|exact Hp]; [lia|lia|].
  unfold data. by apply Forall_take, Forall_drop.
Qed.

(** ** The boot loader *)

(** The boot loader goes to [off]; the environment is erased afterwards. *)
Definition bootloader_post s off mem size (r : Z) s' : Prop :=
  keeps (fun i => store_area off size i \/ env_area i) s s' /\
  (r = CMD_RET_SUCCESS -> CONFIG_ENV_IS_NOWHERE = true \/ (forall i, off <= i < off + size -> ~ env_area i) ->
   off + size <= flash_size /\ holds s' off (take (Z.to_nat size) mem)).

(** Where [do_write_bootloader] really writes. *)
Definition write_offset (stock_stage2_off stage1_size : Z) : Z :=
  if negb (stock_stage2_off =? 0) && negb (stage1_size =? 0) then 0 else stock_stage2_off.

Lemma bootloader_fail s off mem size s' :
  keeps (store_area off size) s s' -> bootloader_post s off mem size CMD_RET_FAILURE s'.
Proof. intros Hk. split; [|done]. eapply keeps_weaken; [|exact Hk]. auto. Qed.

Lemma do_write_bootloader_ok s off0 mem size stage1 :
  let off := write_offset off0 stage1 in
  usable s -> 0 <= off < 2 ^ 32 -> (es | off) -> 0 < size -> size + es <= 2 ^ 32 -> size <= zlen mem -> Forall is_byte mem ->
  wp (do_write_bootloader off0 mem size stage1) (bootloader_post s off mem size) s.
Proof.
  intros off Hu H0 Hal Hsz Hb Hm Hbytes. pose proof erase_size_pos as He. unfold do_write_bootloader.
  fold (write_offset off0 stage1). fold off. destruct (negb _).
  { apply wp_ret, bootloader_fail, keeps_refl. }
  cbv zeta. apply store_ok; try done.
  { intros s' Hk. by apply wp_ret, bootloader_fail. }
  intros data s1 Hsl Hk1 Hu1 Hfit Hh. pose proof (slice_zlen _ _ _ _ Hsl) as Hlen.
  destruct (align_up_spec size) as [Hup _]; [lia|].
  assert (Hd : data = take (Z.to_nat size) mem) by (apply slice_inv in Hsl as (_ & _ & _ & ->); by rewrite drop_0).
  apply wp_bind. eapply wp_conseq; [apply (data_verify_ok s1 off data Hu1); lia|]. intros r s2 [Hk2 Hr2].
  assert (Hk : keeps (store_area off size) s s2).
  { eapply keeps_trans; [exact Hk1|]. eapply keeps_weaken; [|exact Hk2]. tauto. }
  destruct (Z.eqb_spec r 0) as [->|]; cbn [negb]; [|by apply wp_ret, bootloader_fail].
  destruct (Hr2 eq_refl) as (Hu2 & _ & _).
  assert (Hh2 : holds s2 off data) by (eapply holds_frame; [exact Hk2|done|lia|lia|tauto]).
  apply wp_bind. destruct CONFIG_ENV_IS_NOWHERE eqn:En.
  { apply wp_ret, wp_ret. split; [eapply keeps_weaken; [|exact Hk]; auto|]. intros _ _. rewrite <- Hd. split; [lia|done]. }
  eapply wp_conseq; [apply (flash_erase_law s2 CONFIG_ENV_OFFSET CONFIG_ENV_SIZE Hu2); done|]. intros r3 s3 [Hk3 _].
  apply wp_ret. split.
  - eapply keeps_trans; [eapply keeps_weaken; [|exact Hk]; auto|]. eapply keeps_weaken; [|exact Hk3]. auto.
  - intros _ [E|Hdis]; [congruence|]. split; [lia|]. rewrite <- Hd.
    eapply holds_frame; [exact Hk3|done|lia|lia|]. intros i Hi. apply Hdis. lia.
Qed.

(** *** Where a second stage goes *)

(** The place of a second stage in the flash of a stock boot loader whose own
    second stage starts at [off], or at [off_min] if nothing moved it up, and
    is aligned to [align]: there, or at the first erase block from [off_min]
    on, or, if neither is possible, at the start of the flash. *)
Definition stage2_place (off_min off align : Z) : Z :=
  if negb (align =? 0) && ((align mod es =? 0) || (es mod align =? 0)) then
    if off mod es =? 0 then off else if align_up off_min <=? off then align_up off_min else 0
  else 0.

Lemma ALIGN_wraps x : 0 <= x < 2 ^ 32 -> 2 ^ 32 < x + es -> ALIGN x es = 0.
Proof.
  intros Hx Hb. pose proof erase_size_pos as He. unfold ALIGN. rewrite (u32_small (es - 1)) by lia.
  assert (E : u32 (x + (es - 1)) = x + (es - 1) - 2 ^ 32).
  { unfold u32. rewrite <- (Z.mod_add _ (-1)) by lia. rewrite Z.mod_small; lia. }
  rewrite E. destruct flash_block_pow as (k & Hk & Ek). rewrite Ek in *. rewrite land_block_mask by lia.
  rewrite Z.div_small by lia. done.
Qed.

(** The case analysis of [write_bootloader] comes down to this. *)
Lemma stage2_target_place off_min off align :
  stock_ok (Some (off_min, off, align)) -> default 0 (stage2_target off_min off align es) = stage2_place off_min off align.
Proof.
  intros Hst. destruct (Hst _ _ _ eq_refl) as (Hm & Ho & Ha & Hd & Hle). pose proof erase_size_pos as He.
  destruct flash_block_pow as (k & Hk & Ek).
  assert (Hmul : align <> 0 -> align mod es = 0 -> off mod es = 0).
  { intros Hne Hz. apply Z.mod_divide; [lia|]. rewrite Ek. apply Hd; [done|lia|]. rewrite <- Ek. apply Z.mod_divide; [lia|done]. }
  unfold stage2_target, stage2_place. destruct (Z.eqb_spec align es) as [->|Ha1].
  { rewrite Z_mod_same_full in *. destruct (Z.eqb_spec es 0); [lia|]. cbn. by rewrite (Hmul ltac:(lia) eq_refl). }
  destruct (Z.ltb_spec align es).
  - destruct (Z.eqb_spec align 0) as [->|Ha0]; [done|]. cbn [negb andb]. rewrite (Z.mod_small align es) by lia.
    destruct (Z.eqb_spec align 0); [lia|]. cbn [orb]. destruct (Z.eqb_spec (es mod align) 0); cbn [negb]; [|done].
    destruct (Z.eqb_spec (off mod es) 0); cbn [negb]; [done|].
    destruct (Z.eqb_spec (off_min mod es) 0) as [Em|Em]; cbn [negb].
    { apply Z.mod_divide in Em; [|lia]. rewrite align_up_id by done. cbn. destruct (Z.leb_spec off_min off); [done|lia]. }
    destruct (align_up_spec off_min) as [Hup Hdiv]; [lia|]. destruct (Z_lt_le_dec (2 ^ 32) (off_min + es)) as [Hw|Hw].
    + rewrite ALIGN_wraps by lia. destruct (Z.ltb_spec off 0); [lia|]. cbn.
      destruct (Z.leb_spec (align_up off_min) off); [|done]. exfalso.
      destruct Hdiv as [q Hq]. assert (Ep : 2 ^ 32 = 2 ^ (32 - k) * es) by (rewrite Ek, <- Z.pow_add_r by lia; f_equal; lia).
      assert (2 ^ (32 - k) <= q) by nia. nia.
    + rewrite ALIGN_spec by lia. destruct (Z.ltb_spec off (align_up off_min)), (Z.leb_spec (align_up off_min) off); done || lia.
  - destruct (Z.eqb_spec align 0); [lia|]. cbn [negb andb]. rewrite (Z.mod_small es align) by lia.
    destruct (Z.eqb_spec es 0); [lia|]. rewrite orb_false_r. destruct (Z.eqb_spec (align mod es) 0) as [Ez|]; cbn [negb]; [|done].
    by rewrite (Hmul ltac:(lia) Ez).
Qed.

Lemma stage2_place_ok off_min off align :
  stock_ok (Some (off_min, off, align)) ->
  (es | stage2_place off_min off align) /\ 0 <= stage2_place off_min off align < 2 ^ 32.
Proof.
  intros Hst. destruct (Hst _ _ _ eq_refl) as (Hm & Ho & _). pose proof erase_size_pos as He.
  assert (H0 : (es | 0)) by apply Z.divide_0_r. unfold stage2_place. destruct (_ && _); [|split; [done|lia]].
  destruct (Z.eqb_spec (off mod es) 0) as [E|]; [apply Z.mod_divide in E; [split; [done|lia]|lia]|].
  destruct (align_up_spec off_min) as [Hup Hdiv]; [lia|]. destruct (Z.leb_spec (align_up off_min) off); (split; [done|lia]).
Qed.

(** The place of a boot loader: a second stage alone follows the first stage
    of the stock boot loader, anything else starts the flash. *)
Definition loader_place (mem : list Z) (size : Z) (stock : option (Z * Z * Z)) : Z :=
  match get_mtk_stage2_image_ptr mem size, stock with
  | Some (Some 0), Some (off_min, off, align) => stage2_place off_min off align
  | _, _ => 0
  end.

(** *** The search in the flash

    The board's flash functions and the search use the same MTD device. *)
Definition same_device : Prop :=
  match get_mtk_board_nand_mtd with
  | Some mtd => forall off buf, mtk_board_flash_read off buf = board_flash_read mtd off buf
  | None => True
  end.

Definition limit_ok : Prop :=
  match CONFIG_MAX_U_BOOT_SIZE with Some limit => 0 <= limit <= 2 ^ 31 | None => True end.

Lemma read_stock_ok {FS : flash_steady F V} s0 s mtd off len :
  get_mtk_board_nand_mtd = Some mtd -> same_device ->
  keeps (fun _ => False) s0 s /\ usable s -> 0 <= off < 2 ^ 32 -> 0 <= len <= 64 ->
  wp (read_stock mtd off len) (fun r s' => (keeps (fun _ => False) s0 s' /\ usable s') /\ forall b, r = Some b -> Forall is_byte b) s.
Proof.
  intros Em Hsame [Hk Hu] Ho Hl. unfold same_device in Hsame. rewrite Em in Hsame.
  assert (Hf : zlen (fill 0 len) < 2 ^ 32) by (rewrite fill_zlen; lia).
  pose proof (flash_read_law s off (fill 0 len) Hu ltac:(lia) Hf) as H1.
  pose proof (flash_steady_law s off (fill 0 len) Hu ltac:(lia) Hf) as H2. rewrite Hsame in H1, H2.
  unfold board_flash_read in H1, H2. unfold i64 in H1, H2. rewrite Z.mod_small in H1, H2 by lia.
  destruct (Z.ltb_spec off (2 ^ 63)); [|lia]. unfold read_stock. rewrite fill_zlen in H1, H2 by lia.
  unfold wp, bind in *. destruct (mtd_read mtd off (fill 0 len) (Some 0) s) as [[[r b] n] s'| |]; [|done|done].
  destruct (negb (r =? 0) && negb (r =? - EUCLEAN)) eqn:Er; cbn [orb].
  - cbn in H1, H2 |- *. destruct H1 as (_ & Hk' & _). split; [|done]. split; [by eapply keeps_trans|done].
  - destruct (negb (n =? len)); cbn in H1, H2 |- *; destruct H1 as (Hlb & Hk' & Hok);
      (split; [split; [by eapply keeps_trans|done]|]); [done|]. intros b' E. injection E as <-.
    destruct (Hok eq_refl) as (_ & Hfs & Hh). eapply (holds_bytes s off); [exact Hu|lia| |exact Hh]. lia.
Qed.

(** The second stage in the new boot loader, if there is one, and whether
    its checksum is right. *)
Definition stage2_verdict mem size : option Z :=
  match get_mtk_stage2_image_ptr mem size with
  | Some (Some off) => verify_stage2_integrity (drop (Z.to_nat off) mem) (u32 (size - off))
  | _ => Some 0
  end.

(** The search returns, and leaves the flash alone. *)
Lemma stock_search_ok {FS : flash_steady F V} s :
  usable s -> same_device -> limit_ok ->
  exists stock s', check_mtk_stock_stage2_info get_mtk_board_nand_mtd CONFIG_MAX_U_BOOT_SIZE s = Ret stock s' /\
    keeps (fun _ => False) s s' /\ usable s' /\ stock_ok stock.
Proof.
  intros Hu Hsame Hlim. unfold limit_ok in Hlim.
  assert (H : wp (check_mtk_stock_stage2_info get_mtk_board_nand_mtd CONFIG_MAX_U_BOOT_SIZE)
    (fun r s' => (keeps (fun _ => False) s s' /\ usable s') /\ stock_ok r) s).
  { destruct CONFIG_MAX_U_BOOT_SIZE as [limit|]; [|apply wp_ret; by split; [split; [apply keeps_refl|]|]].
    destruct get_mtk_board_nand_mtd as [mtd|] eqn:Em; [|apply wp_ret; by split; [split; [apply keeps_refl|]|]].
    apply (stock_info_ok mtd (fun s' => keeps (fun _ => False) s s' /\ usable s')); [|split; [apply keeps_refl|done]|done].
    intros s1 off len. by apply read_stock_ok. }
  unfold wp in H. destruct (check_mtk_stock_stage2_info _ _ s) as [stock s'| |] eqn:E; [|done|done].
  destruct H as [[? ?] ?]. by exists stock, s'.
Qed.

Lemma bootloader_post_pre s s1 off mem size r s' :
  keeps (fun _ => False) s s1 -> bootloader_post s1 off mem size r s' -> bootloader_post s off mem size r s'.
Proof.
  intros Hk [Hk' Hr]. split; [|exact Hr]. eapply keeps_trans; [|exact Hk']. eapply keeps_weaken; [|exact Hk]. done.
Qed.

Lemma write_bootloader_ok {FS : flash_steady F V} s mem size verdict :
  usable s -> Forall is_byte mem -> 0 < size <= 2 ^ 31 -> size + 63 <= zlen mem -> 140 <= zlen mem ->
  same_device -> limit_ok -> stage2_verdict mem size = Some verdict ->
  wp (write_bootloader mem size) (fun r s' =>
    (verdict <> 0 -> r = CMD_RET_FAILURE /\ s' = s) /\
    exists stock s1, check_mtk_stock_stage2_info get_mtk_board_nand_mtd CONFIG_MAX_U_BOOT_SIZE s = Ret stock s1 /\
      bootloader_post s (loader_place mem size stock) mem size r s') s.
Proof.
  intros Hu Hb Hs Hm H1 Hsame Hlim Hv. pose proof erase_size_pos as He.
  destruct (stock_search_ok s Hu Hsame Hlim) as (stock & s1 & Estock & Hk1 & Hu1 & Hst).
  assert (Hsingle : forall s2, usable s2 -> keeps (fun _ => False) s s2 ->
    wp (do_write_bootloader 0 mem size 0) (bootloader_post s 0 mem size) s2).
  { intros s2 Hu2 Hk. eapply wp_conseq; [apply (do_write_bootloader_ok s2 0 mem size 0); try done; cbn; try lia; apply Z.divide_0_r|].
    intros r s'. by apply bootloader_post_pre. }
  destruct (get_stage2_total mem size) as [ptr Ep]; [done|lia..|].
  assert (Hgo : forall m, wp m (bootloader_post s (loader_place mem size stock) mem size) s ->
    verdict = 0 -> wp m (fun r s' => (verdict <> 0 -> r = CMD_RET_FAILURE /\ s' = s) /\
      exists stock s1, check_mtk_stock_stage2_info get_mtk_board_nand_mtd CONFIG_MAX_U_BOOT_SIZE s = Ret stock s1 /\
        bootloader_post s (loader_place mem size stock) mem size r s') s).
  { intros m Hw E. eapply wp_conseq; [exact Hw|]. intros r s' Hp. split; [done|]. by exists stock, s1. }
  unfold stage2_verdict in Hv. rewrite Ep in Hv. unfold write_bootloader. unfold loader_place in *. rewrite Ep in *.
  apply wp_bind. eapply wp_lift; [done|]. destruct ptr as [off|]; [|apply Hgo; [by apply Hsingle|congruence]].
  apply wp_bind. eapply wp_lift; [exact Hv|]. destruct (Z.eqb_spec verdict 0) as [->|Hne]; cbn [negb]; cycle 1.
  { apply wp_ret. split; [done|]. exists stock, s1. split; [done|]. apply bootloader_fail, keeps_refl. }
  apply Hgo; [|done]. apply wp_bind. eapply wp_of_run; [exact Estock|].
  destruct stock as [[[mn o] al]|]; [|destruct off; by apply Hsingle].
  destruct (Z.eqb_spec es 0); [lia|]. pose proof (stage2_target_place mn o al Hst) as Hpl.
  destruct (stage2_place_ok mn o al Hst) as [Hd Hr].
  destruct (stage2_target mn o al es) as [tgt|]; cbn in Hpl; [subst tgt|rewrite <- Hpl; destruct off; by apply Hsingle].
  assert (Hw : write_offset (stage2_place mn o al) off = match off with 0 => stage2_place mn o al | _ => 0 end).
  { unfold write_offset. destruct (Z.eqb_spec (stage2_place mn o al) 0) as [E|]; [rewrite E; by destruct off|by destruct off]. }
  eapply wp_conseq; [apply (do_write_bootloader_ok s1 (stage2_place mn o al) mem size off); try done; try lia|].
  - rewrite Hw. destruct off; lia.
  - rewrite Hw. destruct off; [done|apply Z.divide_0_r..].
  - rewrite Hw. intros r s'. by apply bootloader_post_pre.
Qed.

(** ** Firmware *)

(** The first block of the backup copy, which is erased to force an update. *)
Definition backup_area (i : Z) : Prop :=
  MTK_DUAL_IMAGE_SUPPORT = true /\
  exists off size, get_mtd_part_info DUAL_PARTNAME_BACKUP = Some (off, size) /\ touches es off es i.

(** The size fits the partition, which starts at an erase block and not at 0. *)
Definition part_accepts (po ps size : Z) : Prop := po <> 0 /\ (es | po) /\ size <= ps.

Definition firmware_post s po ps mem size (r : Z) s' : Prop :=
  (~ part_accepts po ps size -> r = CMD_RET_FAILURE /\ s' = s) /\
  keeps (fun i => store_area po size i \/ backup_area i) s s' /\
  (r = CMD_RET_SUCCESS -> (forall i, po <= i < po + size -> ~ backup_area i) ->
   po + size <= flash_size /\ holds s' po (take (Z.to_nat size) mem)).

Lemma firmware_refused s po ps mem size :
  ~ part_accepts po ps size -> wp (ret CMD_RET_FAILURE) (firmware_post s po ps mem size) s.
Proof. intros Hn. apply wp_ret. split_and!; [done|apply keeps_refl|done]. Qed.

Lemma write_firmware_ok s mem size po ps :
  usable s -> get_mtd_part_info "firmware" = Some (po, ps) -> 0 <= po -> po + ps + es <= 2 ^ 32 ->
  (forall off sz, get_mtd_part_info DUAL_PARTNAME_BACKUP = Some (off, sz) -> 0 <= off < 2 ^ 64) ->
  0 < size <= zlen mem -> Forall is_byte mem ->
  wp (_write_firmware mem size) (firmware_post s po ps mem size) s.
Proof.
  intros Hu Ep H0 Hb Hbk Hsz Hbytes. pose proof erase_size_pos as He. unfold _write_firmware. rewrite Ep.
  destruct (Z.eqb_spec po 0); [apply firmware_refused; intros []; done|].
  destruct (Z.eqb_spec (po mod es) 0) as [Em|Em]; cbn [negb]; cycle 1.
  { apply firmware_refused. intros (_ & Hd & _). apply Em, Z.mod_divide; [lia|done]. }
  apply Z.mod_divide in Em; [|lia].
  destruct (Z.ltb_spec ps size); [apply firmware_refused; unfold part_accepts; lia|].
  assert (Hacc : part_accepts po ps size) by (by split_and!).
  cbv zeta. apply store_ok; try done; try lia.
  { intros s' Hk. apply wp_ret. split_and!; [done| |done]. eapply keeps_weaken; [|exact Hk]. auto. }
  intros data s1 Hsl Hk1 Hu1 Hfit Hh. pose proof (slice_zlen _ _ _ _ Hsl) as Hlen.
  destruct (align_up_spec size) as [Hup _]; [lia|].
  assert (Hd : data = take (Z.to_nat size) mem) by (apply slice_inv in Hsl as (_ & _ & _ & ->); by rewrite drop_0).
  assert (Hdone : forall s2, keeps backup_area s1 s2 -> firmware_post s po ps mem size CMD_RET_SUCCESS s2).
  { intros s2 Hk2. split_and!; [done| |].
    - eapply keeps_trans; [eapply keeps_weaken; [|exact Hk1]; auto|]. eapply keeps_weaken; [|exact Hk2]. auto.
    - intros _ Hdis. split; [lia|]. rewrite <- Hd. eapply holds_frame; [exact Hk2|done|lia|lia|].
      intros i Hi. apply Hdis. lia. }
  apply wp_bind. destruct MTK_DUAL_IMAGE_SUPPORT eqn:Ed; [|apply wp_ret, wp_ret, Hdone, keeps_refl].
  destruct (get_mtd_part_info DUAL_PARTNAME_BACKUP) as [[bo bs]|] eqn:Eb; [|apply wp_ret, wp_ret, Hdone, keeps_refl].
  eapply wp_conseq; [apply (flash_erase_law s1 bo es Hu1); [by eapply Hbk|lia]|]. intros r s2 [Hk2 _].
  apply wp_ret, Hdone. eapply keeps_weaken; [|exact Hk2]. intros i Hi. split; [done|]. by exists bo, bs.
Qed.

Lemma write_data_firmware_ok s mem size po ps :
  usable s -> get_mtd_part_info "firmware" = Some (po, ps) -> 0 <= po -> po + ps + es <= 2 ^ 32 ->
  (forall off sz, get_mtd_part_info DUAL_PARTNAME_BACKUP = Some (off, sz) -> 0 <= off < 2 ^ 64) ->
  0 < size <= zlen mem -> Forall is_byte mem -> mtk_board_get_flash_dev = true ->
  wp (write_data TYPE_FW mem size) (firmware_post s po ps mem size) s.
Proof.
  intros Hu Ep H0 Hb Hbk Hsz Hbytes Hdev. unfold write_data, write_firmware. rewrite Hdev. cbn [negb]. apply wp_bind.
  eapply wp_conseq; [by apply write_firmware_ok|]. intros r s' (Hn & Hk & Hok).
  destruct (Z.eqb_spec r 0) as [->|Hr]; cbn [negb]; apply wp_ret; [by split_and!|].
  split_and!; [|done|done]. intros Hx. by apply Hn in Hx as [_ ?].
Qed.

End UpgradeSpec.
