(* ===== verification/Zyxel.v ===== *)
(** * ZyXEL's board code: definitions

    board/ralink/common/zyxel_util.c: the boot configuration (which of the two
    firmware images to start), the manufacturer's data (MRD) and the boot
    loader update; the commands of board/ralink/common/cmd_at.c that use them.
    [atgo] is the board's boot command. *)

From stdpp Require Import base numbers list strings option.
From Stdlib Require Import ZArith Lia.
From S2P Require Import Prelude NmbmTypes Mtd Strto Crc32 Image Flash Board DualImage Stage2 NmbmCmd Upgrade.

(** ** Constants and structures (include/zyxel_util.h) *)

Definition NUMOFIMAGE : Z := 2.
Definition BOOTCONFIG_OFFSET : Z := 0x7700000.
Definition BOOTCONFIG_LOAD_ADDR : Z := 0x8ff00000.
Definition BOOTCONFIG_SIZE : Z := 0x20000.
Definition DUALIMAGE_IMGSTATE_MASK : Z := 0xc.
Definition DUALIMAGE_IMGLOG_MASK : Z := 0x2.
Definition BOOTIMAGE_IMAGE_MASK : Z := 0x1.
Definition PART_NAME_BOOTLOADER : string := "u-boot".
Definition PART_NAME_MRD : string := "mrd".

(** [ImageState] and [zyDualImageLog]; a value read from the flash is kept as
    the number it is. *)
Definition NONE : Z := 0.
Definition NEW_IMAGE : Z := 1.
Definition SUCCESS_IMAGE : Z := 2.
Definition FAIL_IMAGE : Z := 3.

Record ImageInfo := mkImage { state : Z; log : Z; age : Z }.

Record dualImageInfo := mkDual { bootImage : Z; upgradeImage : Z; image : list ImageInfo }.

Definition sizeof_dualImageInfo : Z := 32.

Definition i8 (x : Z) : Z := let y := u8 x in if y <? 2 ^ 7 then y else y - 2 ^ 8.

(** [posOfStartbit (b, n, m)]: the position of the lowest run of ones in [b]
    and a mask of its length.  An [int] has 32 bits. *)
Fixpoint skip_zeros (fuel : nat) (def n : Z) : Z * Z :=
  match fuel with
  | O => (def, n)
  | S f => if def =? 0 then (def, n) else if negb (Z.land def 1 =? 0) then (def, n) else skip_zeros f (Z.shiftr def 1) (n + 1)
  end.

Fixpoint count_ones (fuel : nat) (def len : Z) : Z :=
  match fuel with
  | O => len
  | S f => if def =? 0 then len else if Z.land def 1 =? 0 then len else count_ones f (Z.shiftr def 1) (len + 1)
  end.

Definition posOfStartbit (b : Z) : Z * Z :=
  let '(def, n) := skip_zeros 32 b 0 in
  (n, Z.shiftl 1 (count_ones 32 def 0) - 1).

(** ** The board's state *)

Record zy_world (S : Type) := mkZy {
  zw_cmd : cmd_world S;
  dualIMAGE : dualImageInfo;
  eng_debug : Z
}.
Arguments mkZy {S}.
Arguments zw_cmd {S}.
Arguments dualIMAGE {S}.
Arguments eng_debug {S}.

Definition on_cmd {S A} (m : M (cmd_world S) A) : M (zy_world S) A := fun w =>
  match m (zw_cmd w) with
  | Ret a c => Ret a (mkZy c (dualIMAGE w) (eng_debug w))
  | Stuck => Stuck
  | NoFuel => NoFuel
  end.

Definition set_dual {S} (d : dualImageInfo) : M (zy_world S) unit := modify (fun w => mkZy (zw_cmd w) d (eng_debug w)).

Definition set_image (i : Z) (f : ImageInfo -> ImageInfo) (d : dualImageInfo) : option dualImageInfo :=
  x ← znth (image d) i;
  imgs ← zset (image d) i (f x);
  Some (mkDual (bootImage d) (upgradeImage d) imgs).

(** ** The boot configuration *)

(** The two fields of an image in the low bits of [data]. *)
Definition image_fields (data : Z) (x : ImageInfo) : ImageInfo :=
  let '(startOfStatMaskbit, statMaskbit) := posOfStartbit DUALIMAGE_IMGSTATE_MASK in
  let '(startOfLogMaskbit, logMaskbit) := posOfStartbit DUALIMAGE_IMGLOG_MASK in
  mkImage (Z.land (Z.shiftr data startOfStatMaskbit) statMaskbit)
    (Z.land (Z.shiftr data startOfLogMaskbit) logMaskbit) (age x).

Definition image_byte (x : ImageInfo) : Z :=
  let '(startOfStatMaskbit, statMaskbit) := posOfStartbit DUALIMAGE_IMGSTATE_MASK in
  let '(startOfLogMaskbit, logMaskbit) := posOfStartbit DUALIMAGE_IMGLOG_MASK in
  i8 (Z.lor (i8 (Z.shiftl (Z.land (state x) statMaskbit) startOfStatMaskbit))
            (Z.shiftl (Z.land (log x) logMaskbit) startOfLogMaskbit)).

(** The number of rounds of both loops: two images to a byte. *)
Definition image_rounds : nat :=
  Z.to_nat (NUMOFIMAGE / 2 + if negb (NUMOFIMAGE mod 2 =? 0) then 1 else 0).

(** One byte after the other; [bytes] starts at [dualInfo]. *)
Fixpoint dump_images (num : nat) (bytes : list Z) (d : dualImageInfo) : option (list Z * dualImageInfo) :=
  match num, bytes with
  | O, _ => Some (bytes, d)
  | S n, b :: bytes =>
      let arrNum := Z.of_nat n * 2 in
      d ← (if negb (arrNum =? NUMOFIMAGE - 1)
           then set_image (arrNum + 1) (image_fields (i8 (Z.shiftr (i8 b) 4))) d else Some d);
      d ← set_image arrNum (image_fields (i8 b)) d;
      dump_images n bytes d
  | S _, [] => None
  end.

(** The rest of [dumpDualImageInfoFromBootconfig] after the command. *)
Definition decode_bootconfig (bytes : list Z) (d : dualImageInfo) : option dualImageInfo :=
  '(bytes, d) ← dump_images image_rounds bytes d;
  data ← znth bytes 0;
  let '(start, mask) := posOfStartbit BOOTIMAGE_IMAGE_MASK in
  let boot := Z.land (Z.shiftr (i8 data) start) mask in
  Some (mkDual boot (Z.land ((boot + 1) mod NUMOFIMAGE) BOOTIMAGE_IMAGE_MASK) (image d)).

Fixpoint encode_images (num : nat) (d : dualImageInfo) : option (list Z) :=
  match num with
  | O => Some []
  | S n =>
      let arrNum := Z.of_nat n * 2 in
      high ← (if negb (arrNum =? NUMOFIMAGE - 1)
              then x ← znth (image d) (arrNum + 1); Some (i8 (Z.shiftl (image_byte x) 4)) else Some 0);
      x ← znth (image d) arrNum;
      rest ← encode_images n d;
      Some (u8 (Z.lor high (image_byte x)) :: rest)
  end.

(** [bootconfig] as [writeDualImageInfoToBootconfig] fills it. *)
Definition encode_bootconfig (d : dualImageInfo) : option (list Z) :=
  bytes ← encode_images image_rounds d;
  let '(start, mask) := posOfStartbit BOOTIMAGE_IMAGE_MASK in
  let bytes := bytes ++ [u8 (Z.shiftl (Z.land (bootImage d) mask) start)] in
  Some (bytes ++ fill 0 (sizeof_dualImageInfo - zlen bytes)).

Section Zyxel.
Context {S : Type} {F : flash_helper S} {E : nmbm_cmd_env S} {FT : fit_library} {U : upgrade_env S}.
Local Abbreviation ZM := (M (zy_world S)).

Definition run_nmbm (argv : list (list Z)) : ZM Z := on_cmd (do_nmbm (chars "nmbm0" :: argv)).

(** [mw.b]. *)
Definition run_mw_b (addr value : Z) : ZM unit := on_cmd (store_mem addr [u8 value]).

Definition dumpDualImageInfoFromBootconfig : ZM unit :=
  run_nmbm [chars "read"; print_0x BOOTCONFIG_LOAD_ADDR; print_0x BOOTCONFIG_OFFSET; print_0x BOOTCONFIG_SIZE];;
  do bytes <- on_cmd (load_mem BOOTCONFIG_LOAD_ADDR sizeof_dualImageInfo);
  do d <- gets dualIMAGE;
  do d <- lift (decode_bootconfig bytes d);
  set_dual d.

(** The commands [mw.b], for [i] from [from] on. *)
Fixpoint poke_bytes (addr : Z) (bytes : list Z) : ZM unit :=
  match bytes with
  | [] => ret tt
  | b :: bytes => run_mw_b addr b;; poke_bytes (addr + 1) bytes
  end.

Definition writeDualImageInfoToBootconfig : ZM unit :=
  do d <- gets dualIMAGE;
  do bootconfig <- lift (encode_bootconfig d);
  poke_bytes BOOTCONFIG_LOAD_ADDR bootconfig;;
  run_nmbm [chars "erase"; print_0x BOOTCONFIG_OFFSET; print_0x BOOTCONFIG_SIZE];;
  run_nmbm [chars "write"; print_0x BOOTCONFIG_LOAD_ADDR; print_0x BOOTCONFIG_OFFSET; print_0x BOOTCONFIG_SIZE];;
  ret tt.

Definition setImageState (i stat : Z) : ZM unit :=
  do d <- gets dualIMAGE;
  do d <- lift (set_image i (fun x => mkImage stat (log x) (age x)) d);
  set_dual d.

Definition setImageLog (i l : Z) : ZM unit :=
  do d <- gets dualIMAGE;
  do d <- lift (set_image i (fun x => mkImage (state x) l (age x)) d);
  set_dual d.

Definition setBootImageNum (n : Z) : ZM unit :=
  do d <- gets dualIMAGE; set_dual (mkDual n (upgradeImage d) (image d)).

Definition setUpgradeImageNum (n : Z) : ZM unit :=
  do d <- gets dualIMAGE; set_dual (mkDual (bootImage d) n (image d)).

Definition getBootImageNum : ZM Z := gets (fun w => bootImage (dualIMAGE w)).
Definition getUpgradeImageNum : ZM Z := gets (fun w => upgradeImage (dualIMAGE w)).

Definition new_image_body (imageNum : Z) : ZM (Z + Z) :=
  if imageNum <? NUMOFIMAGE then
    do d <- gets dualIMAGE;
    do x <- lift (znth (image d) imageNum);
    if state x =? NEW_IMAGE then
      setImageState imageNum FAIL_IMAGE;;
      writeDualImageInfoToBootconfig;;
      ret (inr imageNum)
    else ret (inl (imageNum + 1))
  else ret (inr imageNum).

Definition checkHaveNewImage : ZM Z :=
  do imageNum <- iter (Datatypes.S (Z.to_nat NUMOFIMAGE)) new_image_body 0;
  if imageNum =? NUMOFIMAGE then getBootImageNum else ret imageNum.

(** ** Partitions: read, modify, write

    [buf] has [size] bytes; [malloc_ok] says whether the block buffer can be
    allocated, its contents before the read do not matter. *)
Inductive flash_mode := FLASH_READ | FLASH_WRITE.

Definition flash_part_rw_common (malloc_ok : bool) (part_name : string) (buf : list Z) (offset : Z)
    (mode : flash_mode) : M S (Z * list Z) :=
  let size := zlen buf in
  if negb mtk_board_get_flash_dev then ret (-1, buf)
  else
    let block_size := mtk_board_get_flash_erase_size in
    if block_size =? 0 then ret (-1, buf)
    else
      match get_mtd_part_info part_name with
      | None => ret (-1, buf)
      | Some (part_offset, part_size) =>
          if (part_size <? offset) || (part_size <? size) then ret (-1, buf)
          else
            let length := u32 (u32 (offset + size + block_size - 1) / block_size * block_size) in
            if negb malloc_ok then ret (- ENOMEM, buf)
            else
              do '(r, block_buf) <- mtk_board_flash_read part_offset (fill 0 length);
              if negb (r =? 0) then ret (- EIO, buf)
              else
                match mode with
                | FLASH_READ =>
                    do b <- lift (slice block_buf offset size);
                    ret (0, b)
                | FLASH_WRITE =>
                    do block_buf <- lift (splice block_buf offset buf);
                    do r <- mtk_board_flash_erase part_offset length;
                    if negb (r =? 0) then ret (- EIO, buf)
                    else
                      do r <- mtk_board_flash_write part_offset block_buf;
                      if negb (r =? 0) then ret (- EIO, buf) else ret (0, buf)
                end
      end.

Definition flash_part_read (malloc_ok : bool) (part_name : string) (buf : list Z) (offset : Z) : M S (Z * list Z) :=
  flash_part_rw_common malloc_ok part_name buf offset FLASH_READ.

Definition flash_part_write (malloc_ok : bool) (part_name : string) (buf : list Z) (offset : Z) : M S Z :=
  do '(r, _) <- flash_part_rw_common malloc_ok part_name buf offset FLASH_WRITE; ret r.

(** ** Manufacturer related data

    An [MRD] is its 240 bytes; the offsets are those of the packed structure. *)
Definition sizeof_MRD : Z := 240.
Definition mrd_FeatureBits : nat := 200.
Definition mrd_EtherAddr : Z := 232.
Definition mrd_AreaCode : Z := 239.

Definition pad (n : Z) (l : list Z) : list Z := l ++ fill 0 (n - zlen l).

Definition dummy_mrd : list Z :=
  fill 0 16 ++ fill 0 16 ++
  pad 32 (chars "Zyxel dummy - dummy") ++ pad 32 (chars "Z34131340 80-009-011DUMMY") ++
  [0x00; 0x00; 0x06; 0x01; 0x02; 0x03; 0x04; 0x05; 0x06; 0x07; 0x08; 0x09; 0x10; 0x11; 0x12; 0x13;
   0x14; 0x15; 0x16; 0x17; 0x18; 0x19; 0x20; 0x00; 0x00; 0x02; 0x00; 0x00; 0x00; 0x10; 0x00; 0x00] ++
  pad 32 (chars "Zyxel Communications Corp.") ++ pad 32 (chars "dummy") ++
  [0x00; 0x00; 0x00; 0x00] ++ [0xff; 0xff] ++ [0x0a] ++ [0xff] ++
  [0xff; 0xff; 0x00; 0x00; 0x00; 0x00; 0x00; 0x00; 0x00; 0x00; 0x00; 0x00; 0x00; 0x00; 0x00; 0x00;
   0x03; 0x00; 0x00; 0x00; 0x00; 0x00; 0x00; 0x00; 0x00; 0x00; 0x00; 0x00; 0x00; 0x00] ++
  [0x00] ++ [0xff] ++ [0x00; 0x13; 0x49; 0x00; 0x00; 0x01] ++ [0xff] ++ [0x01].

Definition mrd_offset_get : Z :=
  if mtk_board_get_flash_erase_size =? 0 then -1 else mtk_board_get_flash_erase_size - sizeof_MRD.

(** The return value and the data; [mrd] is what the buffer held before. *)
Definition mrd_read (malloc_ok : bool) (mrd : list Z) : M S (Z * list Z) :=
  let mrd_offset := mrd_offset_get in
  do '(r, mrd) <- (if mrd_offset <? 0 then ret (mrd_offset, mrd)
                   else flash_part_read malloc_ok PART_NAME_MRD mrd mrd_offset);
  ret (r, if r <? 0 then dummy_mrd else mrd).

Definition mrd_write (malloc_ok : bool) (mrd : list Z) : M S Z :=
  let mrd_offset := mrd_offset_get in
  if mrd_offset <? 0 then ret (-1) else flash_part_write malloc_ok PART_NAME_MRD mrd mrd_offset.

(** ** The boot loader *)

Definition verify_bootloader_stage2_integrity (mem : list Z) (size : Z) : option Z :=
  hdr ← slice mem 0 sizeof_image_header;
  if negb (image_check_magic hdr) then Some 1
  else
    let data_size := image_get_size hdr in
    if size <? u32 (data_size + sizeof_image_header) then Some 1
    else
      data ← slice mem sizeof_image_header data_size;
      if negb (crc32 sizeof_image_header 0 data =? image_get_dcrc hdr) then Some 1 else Some 0.

(** [net_loop (TFTPGET)] has delivered [data_size], negative for an error,
    and the memory from [CONFIG_SYS_LOAD_ADDR] on.  The result of
    [get_mtd_part_info] is not checked: without the partition its size is
    not initialised. *)
Definition bootloader_write (malloc_ok : bool) (data_size : Z) (mem : list Z) : M S Z :=
  if negb mtk_board_get_flash_dev then ret (-1)
  else if i32 data_size <? 0 then ret (-1)
  else
    do '(_, part_size) <- lift (get_mtd_part_info PART_NAME_BOOTLOADER);
    if part_size <? data_size then ret (-1)
    else
      do ptr <- lift (get_mtk_stage2_image_ptr mem data_size);
      match ptr with
      | None => ret (-1)
      | Some data_stage1_size =>
          do r <- lift (verify_bootloader_stage2_integrity (drop (Z.to_nat data_stage1_size) mem) (u32 (data_size - data_stage1_size)));
          if negb (r =? 0) then ret (-1)
          else
            do stock <- check_mtk_stock_stage2_info get_mtk_board_nand_mtd CONFIG_MAX_U_BOOT_SIZE;
            match stock with
            | None => ret (-1)
            | Some _ =>
                do data <- lift (slice mem 0 data_size);
                do r <- flash_part_write malloc_ok PART_NAME_BOOTLOADER data 0;
                if negb (r =? 0) then ret r
                else mtk_board_flash_erase CONFIG_ENV_OFFSET CONFIG_ENV_SIZE
            end
      end.

Definition model_get (malloc_ok : bool) : M S Z :=
  do '(_, mrd) <- mrd_read malloc_ok (fill 0 sizeof_MRD);
  ret (get_le 2 mrd_FeatureBits mrd).

Definition zy_init (malloc_ok : bool) : ZM Z :=
  dumpDualImageInfoFromBootconfig;;
  do '(_, mrd) <- on_cmd (on_dev (mrd_read malloc_ok (fill 0 sizeof_MRD)));
  do area <- lift (znth mrd mrd_AreaCode);
  modify (fun w => mkZy (zw_cmd w) (dualIMAGE w) (if 0 <? area then 1 else 0));;
  ret 0.

(** ** Commands (cmd_at.c)

    The text put into the environment ([autostart], [bootargs]) is not
    modelled; [argv] is without the command's name. *)

(** The MAC address of [atwe]: six pairs of characters. *)
Definition parse_mac (s : list Z) : list Z :=
  map (fun i => u8 (fst (simple_strtoul (take 2 (drop (2 * i) s)) 16))) (seq 0 6).

(** The result, and whether the command runs [reset], from which there is no
    return. *)
Definition do_atwe (malloc_ok : bool) (argv : list (list Z)) : M S (Z * bool) :=
  match argv with
  | [mac] =>
      if negb (zlen mac =? 12) then ret (CMD_RET_USAGE, false)
      else
        do '(_, mrd) <- mrd_read malloc_ok (fill 0 sizeof_MRD);
        do mrd <- lift (splice mrd mrd_EtherAddr (parse_mac mac));
        do r <- mrd_write malloc_ok mrd;
        if r <? 0 then ret (CMD_RET_FAILURE, false) else ret (CMD_RET_SUCCESS, true)
  | _ => ret (CMD_RET_USAGE, false)
  end.

Definition boot_image (imageNum : Z) : ZM Z :=
  run_nmbm [chars "boot"; chars (if imageNum =? 1 then "firmware_1" else "firmware")];;
  ret CMD_RET_SUCCESS.

Definition do_atgo (argv : list (list Z)) : ZM Z :=
  match argv with
  | [n] =>
      let desired_boot_image := i32 (fst (simple_strtoul n 10)) in
      if negb (desired_boot_image =? 0) && negb (desired_boot_image =? 1) then ret CMD_RET_USAGE
      else boot_image desired_boot_image
  | _ => do imageNum <- checkHaveNewImage; boot_image imageNum
  end.

Definition do_atnb (malloc_ok : bool) (data_size : Z) (mem : list Z) (argv : list (list Z)) : M S Z :=
  match argv with
  | [_] =>
      do r <- bootloader_write malloc_ok data_size mem;
      if negb (r =? 0) then ret CMD_RET_FAILURE else ret CMD_RET_SUCCESS
  | _ => ret CMD_RET_USAGE
  end.

End Zyxel.
