(* ===== verification/ZyxelSpec.v ===== *)
(** * ZyXEL's board code: properties

    The boot configuration survives a restart, a new image is tried once, and
    the manufacturer's data is stored without harm to its surroundings. *)

From stdpp Require Import base numbers list strings option.
From Stdlib Require Import ZArith Lia.
From S2P Require Import Prelude NmbmTypes Mtd Strto Crc32 Image Flash Board DualImage MtdWorks Stage2 Stage2Spec NmbmCmd Upgrade UpgradeSpec Zyxel.

(** ** The encoding of the boot configuration *)

Definition image_wf (x : ImageInfo) : Prop := 0 <= state x < 4 /\ 0 <= log x < 2.

(** Two images, with values that fit their fields. *)
Definition dual_wf (d : dualImageInfo) : Prop :=
  (exists x0 x1, image d = [x0; x1] /\ image_wf x0 /\ image_wf x1) /\ 0 <= bootImage d < 2.

(** What the flash holds of a configuration; ages are kept in memory only, and
    the upgrade image is the one not booted. *)
Definition same_image (x y : ImageInfo) : Prop := state x = state y /\ log x = log y.

Definition same_config (d d' : dualImageInfo) : Prop :=
  bootImage d' = bootImage d /\ upgradeImage d' = (bootImage d + 1) mod 2 /\ Forall2 same_image (image d) (image d').

Lemma encode_decode d :
  dual_wf d -> exists bytes, encode_bootconfig d = Some bytes /\ zlen bytes = sizeof_dualImageInfo /\ Forall is_byte bytes /\
    forall d0, length (image d0) = 2%nat -> exists d', decode_bootconfig bytes d0 = Some d' /\ same_config d d'.
Proof.
  destruct d as [boot up imgs]. intros [(x0 & x1 & Hi & [Hs0 Hl0] & [Hs1 Hl1]) Hb]. cbn in Hi. subst imgs. destruct x0 as [s0 l0 a0], x1 as [s1 l1 a1].
  cbn [state log bootImage image] in *.
  assert (E0 : s0 = 0 \/ s0 = 1 \/ s0 = 2 \/ s0 = 3) by lia. assert (E1 : s1 = 0 \/ s1 = 1 \/ s1 = 2 \/ s1 = 3) by lia.
  assert (F0 : l0 = 0 \/ l0 = 1) by lia. assert (F1 : l1 = 0 \/ l1 = 1) by lia. assert (Eb : boot = 0 \/ boot = 1) by lia.
  clear Hs0 Hl0 Hs1 Hl1 Hb.
  destruct E0 as [->|[->|[->| ->]]], E1 as [->|[->|[->| ->]]], F0 as [->| ->], F1 as [->| ->], Eb as [->| ->];
    (eexists; split; [cbv; reflexivity|]; split; [reflexivity|]; split; [by repeat constructor|];
     intros [b u [|y0 [|y1 [|]]]] Hlen; [discriminate Hlen..| |discriminate Hlen];
     eexists; split; [reflexivity|]; split; [reflexivity|]; split; [reflexivity|]; by repeat constructor).
Qed.

(** ** Running commands *)

Lemma wp_on_cmd {S A} (m : M (cmd_world S) A) (Q : A -> zy_world S -> Prop) w :
  wp m (fun a c => Q a (mkZy c (dualIMAGE w) (eng_debug w))) (zw_cmd w) -> wp (on_cmd m) Q w.
Proof. unfold wp, on_cmd. by destruct (m (zw_cmd w)). Qed.

Lemma wp_on_dev {S A} (m : M S A) (Q : A -> cmd_world S -> Prop) w :
  wp m (fun a s => Q a (mkCmd s (cw_mem w) (cw_load_addr w))) (cw_dev w) -> wp (on_dev m) Q w.
Proof. unfold wp, on_dev. by destruct (m (cw_dev w)). Qed.

Lemma mem_put_cons mem a b l i : mem_put (mem_put mem a [b]) (a + 1) l i = mem_put mem a (b :: l) i.
Proof.
  unfold mem_put. destruct (decide (i = a)) as [->|Hne].
  - replace (a - (a + 1)) with (-1) by lia. replace (a - a) with 0 by lia. done.
  - destruct (Z_lt_le_dec i a).
    + assert (Hneg : forall k (l : list Z), k < 0 -> znth l k = None) by (intros k l' Hk; unfold znth; by destruct (Z.ltb_spec k 0); [|lia]).
      by rewrite !Hneg by lia.
    + replace (znth (b :: l) (i - a)) with (znth l (i - (a + 1))).
      * destruct (znth l (i - (a + 1))); [done|]. unfold znth. destruct (Z.ltb_spec (i - a) 0); [done|].
        rewrite list_lookup_singleton. destruct (Z.to_nat (i - a)) eqn:E; [lia|done].
      * unfold znth. destruct (Z.ltb_spec (i - (a + 1)) 0); [lia|]. destruct (Z.ltb_spec (i - a) 0); [lia|].
        replace (Z.to_nat (i - a)) with (Datatypes.S (Z.to_nat (i - (a + 1)))) by lia. done.
Qed.

Lemma mem_get_znth mem a n i : 0 <= i < n -> znth (mem_get mem a n) i = Some (mem (a + i)).
Proof. apply znth_seqZ. Qed.

Lemma zlen_mem_get mem a n : 0 <= n -> zlen (mem_get mem a n) = n.
Proof. intros. unfold mem_get, zlen. rewrite length_map, length_seqZ. lia. Qed.

Lemma mem_put_get mem a l i : 0 <= i < zlen l -> Some (mem_put mem a l (a + i)) = znth l i.
Proof.
  intros Hi. unfold mem_put. replace (a + i - a) with i by lia. by destruct (znth_some l i Hi) as [x ->].
Qed.

(** ** The stored configuration

    The NMBM device [nmbm0] works and is large enough. *)

Section Stored.
Context {S : Type} {E : nmbm_cmd_env S} {FT : fit_library} (mtd : mtd_info (M S)) (id : Z) (V : flash_view S).
Context {MW : mtd_works mtd V}.
Context (Hdev : get_mtd_device_nm (chars "nmbm0") = Some (id, mtd)) (Htype : mtd_type mtd = MTD_DEV_TYPE_NMBM).
Context (Hfit : BOOTCONFIG_OFFSET + BOOTCONFIG_SIZE <= flash_size).
Implicit Types w : zy_world S.

Definition dev w : S := cw_dev (zw_cmd w).

Definition stored (s : S) (d : dualImageInfo) : Prop :=
  usable s /\ exists bytes, encode_bootconfig d = Some bytes /\ holds s BOOTCONFIG_OFFSET bytes.

(** The bytes the configuration shares its erase blocks with. *)
Definition bootconfig_area (i : Z) : Prop := touches (mtd_erasesize mtd) BOOTCONFIG_OFFSET BOOTCONFIG_SIZE i.

Lemma run_nmbm_read (Q : Z -> zy_world S -> Prop) w :
  usable (dev w) ->
  (forall s' b, usable s' -> keeps (fun _ => False) (dev w) s' -> zlen b = BOOTCONFIG_SIZE -> holds (dev w) BOOTCONFIG_OFFSET b ->
     Q CMD_RET_SUCCESS (mkZy (mkCmd s' (mem_put (cw_mem (zw_cmd w)) BOOTCONFIG_LOAD_ADDR b) (cw_load_addr (zw_cmd w))) (dualIMAGE w) (eng_debug w))) ->
  wp (run_nmbm [chars "read"; print_0x BOOTCONFIG_LOAD_ADDR; print_0x BOOTCONFIG_OFFSET; print_0x BOOTCONFIG_SIZE]) Q w.
Proof.
  intros Hu HQ. pose proof mw_bound as Hb. unfold BOOTCONFIG_OFFSET, BOOTCONFIG_SIZE in Hfit. unfold run_nmbm.
  rewrite (do_nmbm_rw_printed mtd id (chars "nmbm0") Hdev Htype ltac:(done) true); [|unfold BOOTCONFIG_LOAD_ADDR; rewrite ?mw_size; unfold BOOTCONFIG_OFFSET, BOOTCONFIG_SIZE; lia..].
  apply wp_on_cmd. unfold do_nmbm_rw, load_mem. apply wp_bind, wp_gets, wp_bind, wp_bind, wp_on_dev.
  assert (Hl : zlen (mem_get (cw_mem (zw_cmd w)) BOOTCONFIG_LOAD_ADDR BOOTCONFIG_SIZE) = BOOTCONFIG_SIZE) by (by apply zlen_mem_get).
  rewrite i64_small by (unfold BOOTCONFIG_OFFSET; lia).
  eapply wp_conseq; [apply works_read; [done|unfold BOOTCONFIG_OFFSET, BOOTCONFIG_SIZE in *; lia..]|].
  intros [[r b] n] s' (-> & _ & Hlb & Hu' & Hk & Hh). unfold store_mem.
  apply wp_bind, wp_modify, wp_ret. cbn [Z.eqb]. apply wp_ret. apply HQ; [done|done|lia|done].
Qed.

Lemma run_nmbm_erase (Q : Z -> zy_world S -> Prop) w :
  usable (dev w) ->
  (forall s', usable s' -> keeps bootconfig_area (dev w) s' ->
     (forall i, 0 <= i < flash_size -> bootconfig_area i -> byte_at s' i = Some 255) ->
     Q CMD_RET_SUCCESS (mkZy (mkCmd s' (cw_mem (zw_cmd w)) (cw_load_addr (zw_cmd w))) (dualIMAGE w) (eng_debug w))) ->
  wp (run_nmbm [chars "erase"; print_0x BOOTCONFIG_OFFSET; print_0x BOOTCONFIG_SIZE]) Q w.
Proof.
  intros Hu HQ. pose proof mw_bound as Hb. unfold BOOTCONFIG_OFFSET, BOOTCONFIG_SIZE in Hfit. unfold run_nmbm.
  rewrite (do_nmbm_erase_printed mtd id (chars "nmbm0") Hdev Htype ltac:(done)); [|rewrite ?mw_size; unfold BOOTCONFIG_OFFSET, BOOTCONFIG_SIZE; lia..].
  apply wp_on_cmd. unfold do_nmbm_erase. apply wp_bind, wp_on_dev.
  eapply wp_conseq; [apply works_erase; [done|unfold BOOTCONFIG_OFFSET, BOOTCONFIG_SIZE; lia..]|].
  intros [r ei] s' (-> & _ & Hu' & Hk & Hbl). cbn [Z.eqb]. apply wp_ret. by apply HQ.
Qed.

Lemma run_nmbm_write (Q : Z -> zy_world S -> Prop) w :
  usable (dev w) ->
  (forall s', usable s' -> keeps (touches flash_page BOOTCONFIG_OFFSET BOOTCONFIG_SIZE) (dev w) s' ->
     (forall i old, 0 <= i < BOOTCONFIG_SIZE -> byte_at (dev w) (BOOTCONFIG_OFFSET + i) = Some old ->
        byte_at s' (BOOTCONFIG_OFFSET + i) = Some (Z.land old (cw_mem (zw_cmd w) (BOOTCONFIG_LOAD_ADDR + i)))) ->
     Q CMD_RET_SUCCESS (mkZy (mkCmd s' (cw_mem (zw_cmd w)) (cw_load_addr (zw_cmd w))) (dualIMAGE w) (eng_debug w))) ->
  wp (run_nmbm [chars "write"; print_0x BOOTCONFIG_LOAD_ADDR; print_0x BOOTCONFIG_OFFSET; print_0x BOOTCONFIG_SIZE]) Q w.
Proof.
  intros Hu HQ. pose proof mw_bound as Hb. unfold BOOTCONFIG_OFFSET, BOOTCONFIG_SIZE in Hfit. unfold run_nmbm.
  rewrite (do_nmbm_rw_printed mtd id (chars "nmbm0") Hdev Htype ltac:(done) false); [|unfold BOOTCONFIG_LOAD_ADDR; rewrite ?mw_size; unfold BOOTCONFIG_OFFSET, BOOTCONFIG_SIZE; lia..].
  apply wp_on_cmd. unfold do_nmbm_rw, load_mem. apply wp_bind, wp_gets, wp_bind, wp_bind, wp_on_dev.
  assert (Hl : zlen (mem_get (cw_mem (zw_cmd w)) BOOTCONFIG_LOAD_ADDR BOOTCONFIG_SIZE) = BOOTCONFIG_SIZE) by (by apply zlen_mem_get).
  rewrite i64_small by (unfold BOOTCONFIG_OFFSET; lia).
  eapply wp_conseq; [apply works_write; [done|unfold BOOTCONFIG_OFFSET, BOOTCONFIG_SIZE in *; lia..]|].
  intros [r n] s' (-> & Hu' & Hk & Hp). rewrite Hl in Hk. apply wp_ret. cbn [Z.eqb]. apply wp_ret. apply HQ; [done|done|].
  intros i old Hi Ho. apply Hp; [lia|done|]. by apply mem_get_znth.
Qed.

(** The commands [mw.b] put the bytes into memory and do nothing else. *)
Lemma poke_bytes_ok bytes addr (Q : unit -> zy_world S -> Prop) w :
  Forall is_byte bytes ->
  (forall mem, (forall i, mem i = mem_put (cw_mem (zw_cmd w)) addr bytes i) ->
     Q tt (mkZy (mkCmd (dev w) mem (cw_load_addr (zw_cmd w))) (dualIMAGE w) (eng_debug w))) ->
  wp (poke_bytes addr bytes) Q w.
Proof.
  intros Hb. revert addr w. induction Hb as [|b bytes Hx Hb IH]; intros addr w HQ.
  - apply wp_ret. destruct w as [[s m l] d e]. apply HQ. intros i. unfold mem_put, znth.
    destruct (i - addr <? 0); [done|]. by rewrite lookup_nil.
  - cbn [poke_bytes]. apply wp_bind. unfold run_mw_b. apply wp_on_cmd. unfold store_mem. apply wp_modify. apply IH.
    intros mem Hm. apply HQ. intros i. rewrite Hm. cbn [zw_cmd cw_mem]. rewrite <- mem_put_cons.
    unfold u8. by rewrite Z.mod_small by exact Hx.
Qed.

Lemma write_bootconfig_ok w :
  usable (dev w) -> dual_wf (dualIMAGE w) ->
  wp writeDualImageInfoToBootconfig (fun _ w' =>
    stored (dev w') (dualIMAGE w) /\ dualIMAGE w' = dualIMAGE w /\ keeps bootconfig_area (dev w) (dev w')) w.
Proof.
  intros Hu Hwf. destruct (encode_decode _ Hwf) as (bytes & Eb & Hlen & Hbytes & _). pose proof mw_page as Hpg.
  assert (Hes : 0 < mtd_erasesize mtd) by (destruct mw_block as (k & Hk & ->); lia).
  unfold writeDualImageInfoToBootconfig. apply wp_bind, wp_gets, wp_bind. eapply wp_lift; [exact Eb|].
  apply wp_bind, poke_bytes_ok; [done|]. intros mem Hmem. apply wp_bind, run_nmbm_erase; [done|].
  intros s1 Hu1 Hk1 Hblank. apply wp_bind, run_nmbm_write; [done|]. intros s2 Hu2 Hk2 Hp. apply wp_ret.
  cbn [dev zw_cmd cw_dev cw_mem dualIMAGE] in *. split_and!; [|done|].
  - split; [done|]. exists bytes. split; [done|].
    assert (Hin : forall i, 0 <= i < sizeof_dualImageInfo -> 0 <= i < BOOTCONFIG_SIZE) by (unfold BOOTCONFIG_SIZE, sizeof_dualImageInfo; lia).
    eapply (programmed_blank s1); [done| |].
    + intros i Hi. rewrite Hlen in Hi. apply Hin in Hi. apply Hblank; [unfold BOOTCONFIG_OFFSET in *; lia|]. apply touches_range; [done|lia].
    + intros i old x Hi Ho Hx. rewrite (Hp i old); [|apply Hin; lia|done]. do 2 f_equal. rewrite Hmem.
      pose proof (mem_put_get (cw_mem (zw_cmd w)) BOOTCONFIG_LOAD_ADDR bytes i Hi) as Eg. rewrite Hx in Eg. by injection Eg.
  - eapply keeps_trans; [exact Hk1|]. eapply keeps_weaken; [|exact Hk2]. intros i.
    by apply (touches_page (FL := works_flash_laws (mtd := mtd) (fun _ => None))).
Qed.

Lemma holds_take s off l n : holds s off l -> holds s off (take n l).
Proof. intros Hh. rewrite <- (take_drop n l) in Hh. by apply holds_prefix in Hh. Qed.

(** What was stored is what a later start finds, whatever is in memory. *)
Lemma dump_bootconfig_ok w d :
  stored (dev w) d -> dual_wf d -> length (image (dualIMAGE w)) = 2%nat ->
  wp dumpDualImageInfoFromBootconfig (fun _ w' =>
    usable (dev w') /\ keeps (fun _ => False) (dev w) (dev w') /\ same_config d (dualIMAGE w')) w.
Proof.
  intros (Hu & bytes & Eb & Hh) Hwf Himg. destruct (encode_decode _ Hwf) as (bytes' & Eb' & Hlen & _ & Hdec).
  rewrite Eb in Eb'. injection Eb' as <-. unfold dumpDualImageInfoFromBootconfig.
  apply wp_bind, run_nmbm_read; [done|]. intros s' b Hu' Hk Hlb Hb.
  apply wp_bind, wp_on_cmd. unfold load_mem. apply wp_gets. apply wp_bind, wp_gets. cbn [zw_cmd cw_mem dualIMAGE].
  destruct (Hdec (dualIMAGE w) Himg) as (d' & Ed & Hsame).
  replace (mem_get _ _ _) with bytes; cycle 1.
  { apply znth_ext; [by rewrite zlen_mem_get|]. intros i Hi. rewrite Hlen in Hi. rewrite mem_get_znth by done.
    unfold BOOTCONFIG_SIZE, sizeof_dualImageInfo in *. rewrite mem_put_get by lia. rewrite <- Hb, <- Hh by lia. done. }
  apply wp_bind. eapply wp_lift; [exact Ed|]. unfold set_dual. apply wp_modify. by split_and!.
Qed.

(** ** Which image is started *)

(** The first of the new images. *)
Definition first_new (d : dualImageInfo) : option Z :=
  match image d with
  | [x0; x1] => if state x0 =? NEW_IMAGE then Some 0 else if state x1 =? NEW_IMAGE then Some 1 else None
  | _ => None
  end.

(** The configuration after image [n] has been chosen as a new image. *)
Definition mark_tried (n : Z) (d : dualImageInfo) : option dualImageInfo :=
  set_image n (fun x => mkImage FAIL_IMAGE (log x) (age x)) d.

Definition choice (d : dualImageInfo) (r : Z) (d' : dualImageInfo) : Prop :=
  match first_new d with
  | Some n => r = n /\ mark_tried n d = Some d'
  | None => r = bootImage d /\ d' = d
  end.

Lemma mark_tried_wf n d d' : dual_wf d -> mark_tried n d = Some d' -> dual_wf d'.
Proof.
  intros [(x0 & x1 & Ei & [] & []) Hb]. destruct d as [boot up imgs]. cbn in Ei. subst imgs. unfold mark_tried, set_image. cbn [image].
  intros Hm. destruct (znth [x0; x1] n) as [x|] eqn:Ex; [|done]. pose proof (znth_bounds _ _ _ Ex) as Hn. unfold zlen in Hn. cbn in Hn.
  assert (n = 0 \/ n = 1) as [-> | ->] by lia; cbn in Ex, Hm; injection Ex as <-; injection Hm as <-;
    (split; [eexists _, _; split; [reflexivity|]; split; split; cbn; unfold FAIL_IMAGE; lia|done]).
Qed.

(** Choosing image [n] stores the mark before anything is started. *)
Lemma take_new_ok n w d' :
  usable (dev w) -> dual_wf (dualIMAGE w) -> mark_tried n (dualIMAGE w) = Some d' ->
  wp (setImageState n FAIL_IMAGE;; writeDualImageInfoToBootconfig;; ret (@inr Z Z n)) (fun r w' =>
    r = inr n /\ dualIMAGE w' = d' /\ stored (dev w') d' /\ keeps bootconfig_area (dev w) (dev w')) w.
Proof.
  intros Hu Hwf Hm. apply wp_bind. unfold setImageState. apply wp_bind, wp_gets, wp_bind. eapply wp_lift; [exact Hm|].
  unfold set_dual. apply wp_modify. apply wp_bind.
  eapply wp_conseq; [apply write_bootconfig_ok; [done|by eapply mark_tried_wf]|]. intros _ w' (Hst & Ed & Hk).
  apply wp_ret. by split_and!.
Qed.

Lemma mark_tried_some n d : dual_wf d -> 0 <= n < 2 -> exists d', mark_tried n d = Some d'.
Proof.
  intros [(x0 & x1 & Ei & _) _] Hn. unfold mark_tried, set_image. rewrite Ei.
  assert (n = 0 \/ n = 1) as [-> | ->] by lia; cbn; eauto.
Qed.

Lemma check_new_ok w :
  usable (dev w) -> dual_wf (dualIMAGE w) ->
  wp checkHaveNewImage (fun r w' =>
    choice (dualIMAGE w) r (dualIMAGE w') /\ keeps bootconfig_area (dev w) (dev w') /\
    (first_new (dualIMAGE w) = None /\ w' = w \/ stored (dev w') (dualIMAGE w'))) w.
Proof.
  intros Hu Hwf. pose proof Hwf as [(x0 & x1 & Ei & _) Hb]. unfold checkHaveNewImage. apply wp_bind.
  assert (Hf : first_new (dualIMAGE w) = if state x0 =? NEW_IMAGE then Some 0 else if state x1 =? NEW_IMAGE then Some 1 else None)
    by (unfold first_new; by rewrite Ei).
  apply (wp_iter (fun n w1 => w1 = w /\ (n = 0 \/ n = 1 /\ (state x0 =? NEW_IMAGE) = false \/ n = 2 /\ first_new (dualIMAGE w) = None))
           (fun n _ => Z.to_nat (2 - n))); [|auto|unfold NUMOFIMAGE; lia].
  intros n w1 [-> Hn]. unfold new_image_body. unfold NUMOFIMAGE. destruct (Z.ltb_spec n 2).
  - assert (Hn' : 0 <= n < 2) by lia. destruct (mark_tried_some n _ Hwf Hn') as (d' & Hm).
    assert (exists x, znth (image (dualIMAGE w)) n = Some x /\ (n = 0 /\ x = x0 \/ n = 1 /\ x = x1)) as (x & Ex & Hx).
    { rewrite Ei. destruct Hn as [->|[[-> _]|[-> _]]]; [..|lia]; cbn; eauto. }
    apply wp_bind, wp_gets, wp_bind. eapply wp_lift; [exact Ex|]. destruct (state x =? NEW_IMAGE) eqn:Enew.
    + eapply wp_conseq; [by apply take_new_ok|]. intros r w' (-> & Ed & Hst & Hk). cbv beta iota.
      destruct (Z.eqb_spec n 2); [lia|]. apply wp_ret. split_and!; [|done|right; by rewrite Ed].
      unfold choice. rewrite Hf. destruct Hx as [[-> ->]|[-> ->]]; [by rewrite Enew, Ed|].
      destruct Hn as [|[[_ ->]|[? _]]]; [lia| |lia]. by rewrite Enew, Ed.
    + apply wp_ret. split; [|lia]. split; [done|]. destruct Hx as [[-> ->]|[-> ->]]; [by auto|].
      right. right. split; [done|]. destruct Hn as [|[[_ E0]|[? _]]]; [lia| |lia]. by rewrite Hf, E0, Enew.
  - destruct Hn as [|[[]|[-> Hno]]]; [lia..|]. apply wp_ret. cbn [Z.eqb Pos.eqb]. unfold getBootImageNum. apply wp_gets.
    split_and!; [|apply keeps_refl|by left]. unfold choice. by rewrite Hno.
Qed.

(** ** Starting *)

Definition zero_dual : dualImageInfo := mkDual 0 0 [mkImage 0 0 0; mkImage 0 0 0].

(** After power-on the memory has any contents, the static variables are zero. *)
Definition power_on (mem : Z -> Z) (s : S) : zy_world S := mkZy (mkCmd s mem 0) zero_dual 0.

(** The number of the image that is started, the flash afterwards. *)
Definition start_image (mem : Z -> Z) : M S Z := fun s =>
  match (dumpDualImageInfoFromBootconfig;; checkHaveNewImage) (power_on mem s) with
  | Ret r w => Ret r (dev w)
  | Stuck => Stuck
  | NoFuel => NoFuel
  end.

(** One start after the other. *)
Fixpoint starts (mems : list (Z -> Z)) : M S (list Z) :=
  match mems with
  | [] => ret []
  | mem :: mems => do r <- start_image mem; do rs <- starts mems; ret (r :: rs)
  end.

Lemma encode_same d d' : dual_wf d -> same_config d d' -> encode_bootconfig d' = encode_bootconfig d /\ dual_wf d' /\ first_new d' = first_new d.
Proof.
  intros [(x0 & x1 & Ei & Hw0 & Hw1) Hb] (Eb & _ & Hi). destruct d as [boot up imgs], d' as [boot' up' imgs'].
  cbn in *. subst imgs boot'. inversion Hi as [|? y0 ? l [Es0 El0] Hi1]; subst. inversion Hi1 as [|? y1 ? l' [Es1 El1] Hi2]; subst.
  inversion Hi2; subst. destruct x0, x1, y0, y1. cbn in *. subst. split_and!; [done| |done].
  split; [|done]. eexists _, _. split; [reflexivity|]. by split.
Qed.

Lemma start_image_ok mem s d :
  stored s d -> dual_wf d ->
  wp (start_image mem) (fun r s' => keeps bootconfig_area s s' /\
    exists d1 d', same_config d d1 /\ choice d1 r d' /\ dual_wf d' /\ stored s' d') s.
Proof.
  intros Hst Hwf. unfold start_image.
  assert (Hrun : wp (dumpDualImageInfoFromBootconfig;; checkHaveNewImage) (fun r w' =>
      keeps bootconfig_area s (dev w') /\ exists d1 d', same_config d d1 /\ choice d1 r d' /\ dual_wf d' /\ stored (dev w') d') (power_on mem s)).
  { apply wp_bind. eapply wp_conseq; [by apply dump_bootconfig_ok|]. intros _ w1 (Hu1 & Hk1 & Hs1). change (dev (power_on mem s)) with s in Hk1.
    destruct (encode_same d _ Hwf Hs1) as (Ee & Hwf1 & _). eapply wp_conseq; [by apply check_new_ok|].
    intros r w' (Hc & Hk & Hr). split; [eapply keeps_trans; [eapply keeps_weaken; [|exact Hk1]; tauto|done]|].
    exists (dualIMAGE w1), (dualIMAGE w'). split_and!; [done|done|..].
    - unfold choice in Hc. destruct (first_new (dualIMAGE w1)); destruct Hc as [_ Hd]; [by eapply mark_tried_wf|by rewrite Hd].
    - destruct Hr as [[_ ->]|]; [|done]. split; [done|]. destruct Hst as (_ & bytes & Eb & Hh). exists bytes. split; [by rewrite Ee|].
      destruct (encode_decode d Hwf) as (b' & Eb' & Hlen & _). rewrite Eb in Eb'. injection Eb' as <-.
      eapply holds_frame; [exact Hk1|done|done| |tauto]. rewrite Hlen. unfold BOOTCONFIG_OFFSET, BOOTCONFIG_SIZE, sizeof_dualImageInfo in *. lia. }
  unfold wp in *. by destruct ((dumpDualImageInfoFromBootconfig;; checkHaveNewImage) (power_on mem s)).
Qed.

Definition not_new (n : Z) (d : dualImageInfo) : Prop := forall x, znth (image d) n = Some x -> state x <> NEW_IMAGE.

Lemma first_new_is_new n d : first_new d = Some n -> exists x, znth (image d) n = Some x /\ state x = NEW_IMAGE.
Proof.
  unfold first_new. destruct (image d) as [|x0 [|x1 [|]]]; try done.
  destruct (Z.eqb_spec (state x0) NEW_IMAGE); [intros E1; injection E1 as <-; by exists x0|].
  destruct (Z.eqb_spec (state x1) NEW_IMAGE); [intros E1; injection E1 as <-; by exists x1|done].
Qed.

Lemma mark_tried_effect m d d' :
  mark_tried m d = Some d' ->
  bootImage d' = bootImage d /\ not_new m d' /\ forall n, not_new n d -> not_new n d'.
Proof.
  unfold mark_tried, set_image. destruct (znth (image d) m) as [x|] eqn:Ex; [cbn|done].
  destruct (zset (image d) m _) as [imgs|] eqn:Es; [cbn|done]. intros E1. injection E1 as <-.
  assert (Hm : forall y, znth imgs m = Some y -> state y <> NEW_IMAGE).
  { intros y. rewrite (znth_zset_eq _ _ _ _ Es). intros E1. by injection E1 as <-. }
  split_and!; [done|exact Hm|]. intros n Hn. destruct (decide (m = n)) as [<-|Hne]; [exact Hm|].
  intros y. cbn [image]. rewrite (znth_zset_ne _ _ _ _ _ Es Hne). apply Hn.
Qed.

Lemma choice_effect n d r d' :
  choice d r d' -> not_new n d -> bootImage d <> n -> r <> n /\ not_new n d' /\ bootImage d' = bootImage d.
Proof.
  unfold choice. destruct (first_new d) as [m|] eqn:Ef; intros [-> Hd] Hn Hb; [|by subst].
  apply mark_tried_effect in Hd as (-> & _ & Hkeep). split_and!; [|by apply Hkeep|done].
  intros ->. apply first_new_is_new in Ef as (x & Ex & Hx). by apply (Hn x).
Qed.

Lemma same_not_new n d d' : same_config d d' -> not_new n d -> not_new n d'.
Proof.
  intros (_ & _ & Hi) Hn y Hy. unfold znth in Hy. unfold not_new, znth in Hn. destruct (n <? 0); [done|].
  destruct (Forall2_lookup_r _ _ _ _ _ Hi Hy) as (x & Hx & [Es _]). rewrite <- Es. by apply Hn.
Qed.

Lemma starts_avoid n mems s d :
  stored s d -> dual_wf d -> not_new n d -> bootImage d <> n -> wp (starts mems) (fun rs _ => n ∉ rs) s.
Proof.
  revert s d. induction mems as [|mem mems IH]; intros s d Hst Hwf Hn Hb; [apply wp_ret; apply not_elem_of_nil|].
  cbn [starts]. apply wp_bind. eapply wp_conseq; [by apply (start_image_ok mem s d)|].
  intros r s' (_ & d1 & d' & Hs1 & Hc & Hwf' & Hst'). assert (Hb1 : bootImage d1 = bootImage d) by apply Hs1.
  destruct (choice_effect n d1 r d' Hc) as (Hr & Hn' & Hb'); [by eapply same_not_new|lia|].
  apply wp_bind. eapply wp_conseq; [apply (IH s' d'); try done; lia|]. intros rs s2 Hrs. apply wp_ret.
  apply not_elem_of_cons. auto.
Qed.

(** A new image that is not the one to boot otherwise is started once. *)
Lemma new_image_once n mem mems s d :
  stored s d -> dual_wf d -> first_new d = Some n -> bootImage d <> n ->
  wp (starts (mem :: mems)) (fun rs _ => exists later, rs = n :: later /\ n ∉ later) s.
Proof.
  intros Hst Hwf Hf Hb. cbn [starts]. apply wp_bind. eapply wp_conseq; [by apply (start_image_ok mem s d)|].
  intros r s' (_ & d1 & d' & Hs1 & Hc & Hwf' & Hst'). destruct (encode_same d d1 Hwf Hs1) as (_ & _ & Hf1).
  unfold choice in Hc. rewrite Hf1, Hf in Hc. destruct Hc as [-> Hm]. apply mark_tried_effect in Hm as (Hb' & Hn & _).
  assert (Hb1 : bootImage d1 = bootImage d) by apply Hs1.
  apply wp_bind. eapply wp_conseq; [apply (starts_avoid n mems s' d'); try done; lia|]. intros rs s2 Hrs.
  apply wp_ret. by exists rs.
Qed.

End Stored.
