(* ===== verification/ZyxelData.v ===== *)
(** * ZyXEL's partitions: properties

    Reading and changing part of a partition, the manufacturer's data, and the
    boot loader update, on a device that obeys the flash laws. *)

From stdpp Require Import base numbers list strings option.
From Stdlib Require Import ZArith Lia.
From S2P Require Import Prelude NmbmTypes Mtd Strto Crc32 Image Flash Board DualImage Stage2 Stage2Spec NmbmCmd Upgrade UpgradeSpec Zyxel.

Local Abbreviation es := mtk_board_get_flash_erase_size.

Section Parts.
Context {S : Type} {F : flash_helper S} {V : flash_view S} {FL : flash_laws F V}.
Implicit Types s : S.

(** The partition, and a range of it for which the sizes do not overflow. *)
Context (name : string) (po ps : Z) (Hpart : get_mtd_part_info name = Some (po, ps)).
Context (Hdev : mtk_board_get_flash_dev = true) (Hpo : 0 <= po < 2 ^ 63) (Hal : (es | po)).

Definition range_ok (offset size : Z) : Prop := 0 <= offset /\ 0 <= size /\ offset + size + es <= 2 ^ 32.

(** The blocks that are read, and written back. *)
Definition part_area (offset size i : Z) : Prop := po <= i < po + align_up (offset + size).

Definition range_area (offset size i : Z) : Prop := po + offset <= i < po + offset + size.

Lemma part_length offset size :
  range_ok offset size -> u32 (u32 (offset + size + es - 1) / es * es) = align_up (offset + size).
Proof.
  intros (H0 & H1 & H2). pose proof erase_size_pos as He. rewrite (u32_small (_ - 1)) by lia.
  destruct (align_up_spec (offset + size)) as [Hb _]; [lia|]. unfold align_up in *. by rewrite u32_small by lia.
Qed.

Lemma part_read_ok s buf offset :
  usable s -> range_ok offset (zlen buf) ->
  wp (flash_part_read true name buf offset) (fun '(r, b) s' =>
    keeps (fun _ => False) s s' /\ r <= 0 /\
    (r = 0 -> usable s' /\ zlen b = zlen buf /\ po + offset + zlen buf <= flash_size /\ holds s (po + offset) b)) s.
Proof.
  intros Hu Hr. pose proof Hr as (H0 & H1 & H2). pose proof erase_size_pos as He. unfold flash_part_read, flash_part_rw_common.
  rewrite Hdev, Hpart. cbn [negb]. destruct (Z.eqb_spec es 0); [lia|]. destruct (_ || _); [apply wp_ret; by split|].
  cbv zeta. rewrite part_length by done. destruct (align_up_spec (offset + zlen buf)) as [Hb _]; [lia|].
  assert (Hlf : zlen (fill 0 (align_up (offset + zlen buf))) = align_up (offset + zlen buf)) by (apply fill_zlen; lia).
  apply wp_bind. eapply wp_conseq; [apply (flash_read_law s po _ Hu); lia|]. intros [r b] s1 (Hl & Hk & Hok). rewrite Hlf in *.
  destruct (Z.eqb_spec r 0) as [->|]; cbn [negb]; [|apply wp_ret; by split].
  destruct (Hok eq_refl) as (Hu1 & Hf & Hh). apply wp_bind. pose proof (slice_some b offset (zlen buf) ltac:(lia) ltac:(lia) ltac:(lia)) as Hs.
  eapply wp_lift; [exact Hs|]. apply wp_ret. set (d := take _ _) in *. pose proof (slice_zlen _ _ _ _ Hs) as Hld.
  split_and!; [done|lia|]. intros _. split_and!; [done|done|lia|].
  intros i Hi. replace (po + offset + i) with (po + (offset + i)) by lia. rewrite Hh by lia.
  symmetry. eapply znth_slice; [exact Hs|lia].
Qed.

(** Writing touches the blocks of the range; when it succeeds, only the range
    itself has changed. *)
Lemma part_write_ok s data offset :
  usable s -> range_ok offset (zlen data) -> 0 < zlen data -> Forall is_byte data ->
  wp (flash_part_write true name data offset) (fun r s' =>
    keeps (part_area offset (zlen data)) s s' /\ r <= 0 /\
    (r = 0 -> usable s' /\ po + offset + zlen data <= flash_size /\ holds s' (po + offset) data /\
       keeps (range_area offset (zlen data)) s s')) s.
Proof.
  intros Hu Hr Hpos Hbytes. pose proof Hr as (H0 & H1 & H2). pose proof erase_size_pos as He.
  unfold flash_part_write, flash_part_rw_common. rewrite Hdev, Hpart. cbn [negb].
  destruct (Z.eqb_spec es 0); [lia|]. apply wp_bind. destruct (_ || _); [apply wp_ret, wp_ret; by split|].
  cbv zeta. rewrite part_length by done. destruct (align_up_spec (offset + zlen data)) as [Hb Hdv]; [lia|].
  set (len := align_up _) in *. assert (Hlf : zlen (fill 0 len) = len) by (apply fill_zlen; lia).
  apply wp_bind. eapply wp_conseq; [apply (flash_read_law s po _ Hu); lia|]. intros [r b] s1 (Hl & Hk1 & Hok). rewrite Hlf in *.
  assert (Hk1' : keeps (part_area offset (zlen data)) s s1) by (eapply keeps_weaken; [|exact Hk1]; tauto).
  destruct (Z.eqb_spec r 0) as [->|]; cbn [negb]; [|apply wp_ret, wp_ret; by split].
  destruct (Hok eq_refl) as (Hu1 & Hf & Hh). apply wp_bind.
  pose proof (splice_some b offset data ltac:(lia) ltac:(lia)) as Hs. eapply wp_lift; [exact Hs|].
  set (b' := _ ++ _) in *. pose proof (splice_zlen _ _ _ _ Hs) as Hlb.
  assert (Hbb : Forall is_byte b') by (pose proof (holds_bytes s po b Hu ltac:(lia) ltac:(lia) Hh); unfold b';
    repeat apply Forall_app_2; [by apply Forall_take|done|by apply Forall_drop]).
  apply wp_bind. eapply wp_conseq; [apply (flash_erase_law s1 po len Hu1); lia|]. intros r1 s2 [Hk2 Hr2].
  assert (Hw : forall i, touches es po len i -> part_area offset (zlen data) i) by (intros i; apply touches_aligned; [lia|done|done]).
  assert (Hk2' : keeps (part_area offset (zlen data)) s s2).
  { eapply keeps_trans; [exact Hk1'|]. by eapply keeps_weaken. }
  destruct (Z.eqb_spec r1 0) as [->|]; cbn [negb]; [|apply wp_ret, wp_ret; by split].
  destruct (Hr2 eq_refl) as (Hu2 & _ & Hblank). apply wp_bind.
  eapply wp_conseq; [apply (flash_write_law s2 po b' Hu2); lia|]. intros r2 s3 [Hk3 Hr3].
  assert (Hk3' : keeps (part_area offset (zlen data)) s s3).
  { eapply keeps_trans; [exact Hk1'|]. eapply keeps_weaken; [exact Hw|]. eapply erase_write_keeps; [|exact Hk2|exact Hk3]. lia. }
  destruct (Z.eqb_spec r2 0) as [->|]; cbn [negb]; [|apply wp_ret, wp_ret; by split].
  destruct (Hr3 eq_refl) as (Hu3 & _ & Hp). apply wp_ret, wp_ret. split_and!; [done|lia|]. intros _.
  assert (Hh3 : holds s3 po b') by (eapply (erase_write_holds s2 s3 po b' len); [lia..|done|exact Hblank|exact Hp]).
  split_and!; [done|lia|..].
  - intros i Hi. replace (po + offset + i) with (po + (offset + i)) by lia. rewrite Hh3 by lia.
    rewrite (znth_splice_in _ _ _ _ _ Hs) by lia. f_equal. lia.
  - intros i Hi Hn. unfold range_area in Hn. destruct (decide (po <= i < po + len)) as [Hin|Hout]; [|by apply Hk3'].
    replace i with (po + (i - po)) by lia. rewrite Hh3, Hh by lia. apply (znth_splice_out _ _ _ _ _ Hs). lia.
Qed.

End Parts.

(** ** Manufacturer's data *)

Section MrdSpec.
Context {S : Type} {F : flash_helper S} {V : flash_view S} {FL : flash_laws F V}.
Implicit Types s : S.
Context (po ps : Z) (Hpart : get_mtd_part_info PART_NAME_MRD = Some (po, ps)).
Context (Hdev : mtk_board_get_flash_dev = true) (Hpo : 0 <= po < 2 ^ 63) (Hal : (es | po)) (Hes : sizeof_MRD <= es).

(** At the end of the partition's first block. *)
Definition mrd_start : Z := po + (es - sizeof_MRD).

Lemma mrd_offset_ok : mrd_offset_get = es - sizeof_MRD /\ (mrd_offset_get <? 0) = false.
Proof.
  unfold mrd_offset_get. destruct (Z.eqb_spec es 0) as [E|]; [rewrite E in Hes; unfold sizeof_MRD in *; lia|].
  split; [done|]. apply Z.ltb_ge. lia.
Qed.

Lemma mrd_range : range_ok (es - sizeof_MRD) sizeof_MRD.
Proof. pose proof erase_size_pos. unfold range_ok, sizeof_MRD in *. lia. Qed.

Lemma mrd_read_ok s buf :
  usable s -> zlen buf = sizeof_MRD ->
  wp (mrd_read true buf) (fun '(r, m) s' =>
    keeps (fun _ => False) s s' /\ zlen m = sizeof_MRD /\ Forall is_byte m /\
    (r = 0 /\ usable s' /\ mrd_start + sizeof_MRD <= flash_size /\ holds s mrd_start m \/ r < 0 /\ m = dummy_mrd)) s.
Proof.
  intros Hu Hl. destruct mrd_offset_ok as [Eo Elt]. pose proof mrd_range as Hr. unfold mrd_read. cbv zeta. rewrite Elt, Eo.
  apply wp_bind. rewrite <- Hl in Hr at 2.
  eapply wp_conseq; [apply (part_read_ok PART_NAME_MRD po ps Hpart Hdev Hpo s buf _ Hu Hr)|].
  intros [r m] s' (Hk & Hle & Hok). apply wp_ret. split; [done|]. destruct (Z.ltb_spec r 0).
  - split_and!; [done|by repeat constructor|by right].
  - destruct Hok as (Hu' & Hlm & Hf & Hh); [lia|]. fold mrd_start in *.
    split_and!; [lia| |left; split_and!; [lia|done|lia|done]]. eapply holds_bytes; [exact Hu| | |exact Hh]; [|lia].
    unfold mrd_start. lia.
Qed.

Lemma mrd_write_ok s m :
  usable s -> zlen m = sizeof_MRD -> Forall is_byte m ->
  wp (mrd_write true m) (fun r s' =>
    keeps (fun i => po <= i < po + es) s s' /\ r <= 0 /\
    (r = 0 -> usable s' /\ mrd_start + sizeof_MRD <= flash_size /\ holds s' mrd_start m /\
       keeps (fun i => mrd_start <= i < mrd_start + sizeof_MRD) s s')) s.
Proof.
  intros Hu Hl Hb. destruct mrd_offset_ok as [Eo Elt]. pose proof mrd_range as Hr. unfold mrd_write. cbv zeta. rewrite Elt, Eo.
  rewrite <- Hl in Hr at 2.
  eapply wp_conseq; [apply (part_write_ok PART_NAME_MRD po ps Hpart Hdev Hpo Hal s m _ Hu Hr); [unfold sizeof_MRD in *; lia|done]|].
  rewrite Hl. intros r s' (Hk & Hle & Hok). split_and!; [|done|].
  - eapply keeps_weaken; [|exact Hk]. intros i. unfold part_area. rewrite Z.sub_add.
    by rewrite align_up_id by apply Z.divide_refl.
  - intros E. exact (Hok E).
Qed.

(** What was written is read back, or the read fails and says so. *)
Lemma mrd_write_read s m buf :
  usable s -> zlen m = sizeof_MRD -> Forall is_byte m -> zlen buf = sizeof_MRD ->
  wp (mrd_write true m) (fun r s' => r = 0 ->
    wp (mrd_read true buf) (fun '(r', m') _ => r' = 0 /\ m' = m \/ r' < 0 /\ m' = dummy_mrd) s') s.
Proof.
  intros Hu Hl Hb Hlb. eapply wp_conseq; [by apply mrd_write_ok|]. intros r s' (_ & _ & Hok) E.
  destruct (Hok E) as (Hu' & _ & Hh & _). eapply wp_conseq; [by apply mrd_read_ok|].
  intros [r' m'] s2 (_ & Hl' & _ & Hr). destruct Hr as [(-> & _ & _ & Hh')|]; [|by right]. left. split; [done|].
  eapply holds_same; [exact Hh'|exact Hh|lia].
Qed.

(** [atwe] sets the MAC address. *)
Definition with_mac (m mac : list Z) : option (list Z) := splice m mrd_EtherAddr (parse_mac mac).

Lemma zlen_parse_mac mac : zlen (parse_mac mac) = 6.
Proof. done. Qed.

Lemma parse_mac_bytes mac : Forall is_byte (parse_mac mac).
Proof. unfold parse_mac. apply Forall_fmap, Forall_true. intros i. unfold compose, is_byte, u8. apply Z.mod_pos_bound. lia. Qed.

(** The block that ends with the data can be read. *)
Definition mrd_readable s : Prop := exists b s1, mtk_board_flash_read po (fill 0 es) s = Ret (0, b) s1.

(** The partition has no room for the data. *)
Definition mrd_misfit : bool := (ps <? es - sizeof_MRD) || (ps <? sizeof_MRD).

Lemma mrd_length : u32 (u32 (es - sizeof_MRD + sizeof_MRD + es - 1) / es * es) = es.
Proof.
  pose proof erase_size_pos as He. rewrite Z.sub_add. rewrite (u32_small (es + es - 1)) by lia.
  replace (es + es - 1) with (1 * es + (es - 1)) by lia. rewrite Z.div_add_l, (Z.div_small (es - 1)) by lia.
  rewrite Z.add_0_r, Z.mul_1_l. apply u32_small. lia.
Qed.

(** Reading leaves the flash usable, and yields the dummy data only if the
    flash cannot be read. *)
Lemma mrd_read_result {FS : flash_steady F V} s buf :
  usable s -> zlen buf = sizeof_MRD ->
  wp (mrd_read true buf) (fun '(r, m) s' => usable s' /\
    (mrd_misfit = false -> r = 0 /\ mrd_readable s \/ r < 0 /\ ~ mrd_readable s)) s.
Proof.
  intros Hu Hl. destruct mrd_offset_ok as [Eo Elt]. pose proof erase_size_pos as He. unfold mrd_read. cbv zeta. rewrite Elt, Eo.
  unfold flash_part_read, flash_part_rw_common. rewrite Hl, Hdev, Hpart. cbn [negb]. fold mrd_misfit.
  destruct (Z.eqb_spec es 0); [lia|]. apply wp_bind. destruct mrd_misfit; [by apply wp_ret, wp_ret|].
  cbv zeta. rewrite mrd_length. assert (Hlf : zlen (fill 0 es) = es) by (apply fill_zlen; lia). apply wp_bind.
  assert (Hsplit : forall r b s1, mtk_board_flash_read po (fill 0 es) s = Ret (r, b) s1 -> (r = 0 <-> mrd_readable s)).
  { intros r b s1 E. unfold mrd_readable. rewrite E. split; [intros ->; by eexists _, _|]. intros (b' & s' & E'). congruence. }
  assert (Hp : 0 <= po < 2 ^ 64) by lia. assert (Hsm : zlen (fill 0 es) < 2 ^ 32) by (rewrite Hlf; lia).
  pose proof (flash_read_law s po (fill 0 es) Hu Hp Hsm) as H1.
  pose proof (flash_steady_law s po (fill 0 es) Hu Hp Hsm) as H2. unfold wp in *.
  destruct (mtk_board_flash_read po (fill 0 es) s) as [[r b] s1| |] eqn:E; [|done|done].
  destruct H1 as (Hlb & _). specialize (Hsplit r b s1 eq_refl). destruct (Z.eqb_spec r 0) as [->|Hr]; cbn [negb].
  - rewrite slice_some by (unfold sizeof_MRD in *; lia). cbn. split; [done|]. intros _. left. by rewrite <- Hsplit.
  - cbn. split; [done|]. intros _. right. split; [done|]. by rewrite <- Hsplit.
Qed.

Lemma mrd_write_misfit s m : mrd_misfit = true -> zlen m = sizeof_MRD -> mrd_write true m s = Ret (-1) s.
Proof.
  intros Hm Hl. destruct mrd_offset_ok as [Eo Elt]. pose proof erase_size_pos as He. unfold mrd_write. cbv zeta. rewrite Elt, Eo.
  unfold flash_part_write, flash_part_rw_common. rewrite Hl, Hdev, Hpart. cbn [negb]. fold mrd_misfit. rewrite Hm.
  by destruct (Z.eqb_spec es 0); [lia|].
Qed.

(** The six bytes of the address. *)
Definition mac_area (i : Z) : Prop := mrd_start + mrd_EtherAddr <= i < mrd_start + mrd_EtherAddr + 6.

(** Storing the data with another address over itself changes only that. *)
Lemma mac_only s s' old new mac :
  zlen old = sizeof_MRD -> with_mac old mac = Some new -> holds s mrd_start old -> holds s' mrd_start new ->
  keeps (fun i => mrd_start <= i < mrd_start + sizeof_MRD) s s' -> keeps mac_area s s'.
Proof.
  intros Hl Hn Ho Hh Hk i Hi Hm. destruct (decide (mrd_start <= i < mrd_start + sizeof_MRD)) as [Hin|]; [|by apply Hk].
  replace i with (mrd_start + (i - mrd_start)) by lia. rewrite Hh by (rewrite (splice_zlen _ _ _ _ Hn); lia).
  rewrite Ho by lia. apply (znth_splice_out _ _ _ _ _ Hn). rewrite zlen_parse_mac. unfold mac_area in Hm. lia.
Qed.

Definition atwe_post s mac (x : Z * bool) s' : Prop :=
  let '(r, reset) := x in
  keeps (fun i => po <= i < po + es) s s' /\ (reset = true <-> r = CMD_RET_SUCCESS) /\
  (r = CMD_RET_SUCCESS ->
     holds s' (mrd_start + mrd_EtherAddr) (parse_mac mac) /\
     (mrd_readable s -> keeps mac_area s s') /\
     (~ mrd_readable s -> exists new, with_mac dummy_mrd mac = Some new /\ holds s' mrd_start new /\
        keeps (fun i => mrd_start <= i < mrd_start + sizeof_MRD) s s')).

Lemma atwe_ok {FS : flash_steady F V} s mac :
  usable s -> zlen mac = 12 -> wp (do_atwe true [mac]) (atwe_post s mac) s.
Proof.
  intros Hu Hm. unfold do_atwe. rewrite Hm. cbn [Z.eqb Pos.eqb negb]. apply wp_bind.
  eapply wp_conseq; [eapply wp_and; [by apply mrd_read_ok|by apply mrd_read_result]|].
  intros [r old] s1 [(Hk1 & Hl & Hb & Hr) [Hu1 Hrd]]. apply wp_bind.
  assert (exists new, with_mac old mac = Some new) as [new Hn].
  { eexists. apply splice_some; unfold mrd_EtherAddr; rewrite ?zlen_parse_mac, ?Hl; unfold sizeof_MRD; lia. }
  pose proof (splice_zlen _ _ _ _ Hn) as Hnl. rewrite Hl in Hnl. eapply wp_lift; [exact Hn|]. apply wp_bind.
  destruct mrd_misfit eqn:Ef.
  { eapply wp_of_run; [by apply mrd_write_misfit|]. apply wp_ret. split_and!; [|done|done].
    eapply keeps_weaken; [|exact Hk1]. tauto. }
  eapply wp_conseq; [apply (mrd_write_ok s1 new Hu1); [done|]|].
  { eapply (splice_forall is_byte); [|apply parse_mac_bytes|exact Hn]; done. }
  intros r2 s2 (Hk2 & Hle & Hok). assert (Hk : keeps (fun i => po <= i < po + es) s s2).
  { eapply keeps_trans; [eapply keeps_weaken; [|exact Hk1]; tauto|done]. }
  destruct (Z.ltb_spec r2 0); apply wp_ret; (split_and!; [done|done|]); [done|]. intros _.
  destruct Hok as (_ & Hf & Hh & Hk3); [lia|].
  assert (Hk' : keeps (fun i => mrd_start <= i < mrd_start + sizeof_MRD) s s2).
  { eapply keeps_trans; [eapply keeps_weaken; [|exact Hk1]; tauto|done]. }
  split_and!.
  - intros i Hi. rewrite zlen_parse_mac in Hi. replace (mrd_start + mrd_EtherAddr + i) with (mrd_start + (mrd_EtherAddr + i)) by lia.
    rewrite Hh by (rewrite Hnl; unfold mrd_EtherAddr, sizeof_MRD; lia).
    rewrite (znth_splice_in _ _ _ _ _ Hn) by (rewrite zlen_parse_mac; unfold mrd_EtherAddr; lia). f_equal. lia.
  - intros Hread. destruct (Hrd eq_refl) as [[E _]|[_ Hno]]; [|done].
    destruct Hr as [(_ & _ & _ & Ho)|[? _]]; [|lia]. exact (mac_only s s2 old new mac Hl Hn Ho Hh Hk').
  - intros Hno. destruct (Hrd eq_refl) as [[_ Hread]|[E _]]; [done|].
    destruct Hr as [(? & _)|[_ ->]]; [lia|]. by exists new.
Qed.

End MrdSpec.

(** ** The boot loader *)

Section LoaderSpec.
Context {S : Type} {F : flash_helper S} {V : flash_view S} {FL : flash_laws F V} {U : upgrade_env S}.
Implicit Types s : S.
Context (po ps : Z) (Hpart : get_mtd_part_info PART_NAME_BOOTLOADER = Some (po, ps)).
Context (Hdev : mtk_board_get_flash_dev = true) (Hpo : 0 <= po < 2 ^ 63) (Hal : (es | po)).

(** A boot loader whose second stage is missing or damaged. *)
Definition bad_loader (mem : list Z) (size : Z) : Prop :=
  get_mtk_stage2_image_ptr mem size = Some None \/ exists v, stage2_verdict mem size = Some v /\ v <> 0.

Definition loader_post s (mem : list Z) (size : Z) (r : Z) s' : Prop :=
  (bad_loader mem size \/ ps < size -> r = -1 /\ s' = s) /\
  keeps (fun i => po <= i < po + align_up size \/ env_area i) s s' /\
  (r = 0 -> (forall i, po <= i < po + size -> ~ env_area i) ->
   po + size <= flash_size /\ holds s' po (take (Z.to_nat size) mem)).

(** The check is that of cmd_mtkupgrade.c. *)
Lemma same_integrity mem size : verify_bootloader_stage2_integrity mem size = verify_stage2_integrity mem size.
Proof. reflexivity. Qed.

Lemma loader_refused s mem size : wp (ret (-1)) (loader_post s mem size) s.
Proof. apply wp_ret. split_and!; [done|apply keeps_refl|done]. Qed.

Lemma bootloader_write_ok {FS : flash_steady F V} s mem size :
  usable s -> Forall is_byte mem -> 0 < size < 2 ^ 31 -> size + 63 <= zlen mem -> 140 <= zlen mem ->
  is_Some (stage2_verdict mem size) -> same_device -> limit_ok ->
  wp (bootloader_write true size mem) (loader_post s mem size) s.
Proof.
  intros Hu Hb Hs Hm H1 [v Hv] Hsame Hlim. pose proof erase_size_pos as He. unfold bootloader_write. rewrite Hdev, Hpart. cbn [negb].
  destruct (i32 size <? 0); [apply loader_refused|]. apply wp_bind. eapply wp_lift; [done|]. cbv beta iota.
  destruct (Z.ltb_spec ps size); [apply loader_refused|].
  destruct (get_stage2_total mem size) as [ptr Ep]; [done|lia..|]. apply wp_bind. eapply wp_lift; [exact Ep|].
  destruct ptr as [off|]; [|apply loader_refused]. pose proof Hv as Hv'. unfold stage2_verdict in Hv'. rewrite Ep in Hv'.
  apply wp_bind. rewrite same_integrity. eapply wp_lift; [exact Hv'|]. destruct (Z.eqb_spec v 0) as [->|]; cbn [negb]; [|apply loader_refused].
  assert (Hgood : ~ (bad_loader mem size \/ ps < size)).
  { unfold bad_loader. rewrite Ep, Hv. intros [[|(v & E & Hv0)]|]; [congruence| |lia]. congruence. }
  destruct (stock_search_ok s Hu Hsame Hlim) as (stock & s1 & Estock & Hk1 & Hu1 & _).
  apply wp_bind. eapply wp_of_run; [exact Estock|].
  destruct stock; [|apply wp_ret; split_and!; [done|eapply keeps_weaken; [|exact Hk1]; tauto|done]].
  apply wp_bind. pose proof (slice_some mem 0 size ltac:(lia) ltac:(lia) ltac:(lia)) as Hsl. rewrite drop_0 in Hsl.
  eapply wp_lift; [exact Hsl|]. pose proof (slice_zlen _ _ _ _ Hsl) as Hlen. set (data := take _ _) in *.
  assert (Hr : range_ok 0 (zlen data)) by (unfold range_ok; lia). apply wp_bind.
  eapply wp_conseq; [apply (part_write_ok PART_NAME_BOOTLOADER po ps Hpart Hdev Hpo Hal s1 data 0 Hu1 Hr); [lia|by apply Forall_take]|].
  unfold part_area. rewrite Hlen, Z.add_0_l. intros r s2 (Hk2 & _ & Hok).
  assert (Hk : keeps (fun i => po <= i < po + align_up size \/ env_area i) s s2).
  { eapply keeps_trans; [eapply keeps_weaken; [|exact Hk1]; tauto|]. eapply keeps_weaken; [|exact Hk2]. auto. }
  destruct (Z.eqb_spec r 0) as [->|]; cbn [negb]; [|apply wp_ret; split_and!; [done|done|congruence]].
  destruct (Hok eq_refl) as (Hu2 & Hf & Hh & _). rewrite Z.add_0_r in *.
  eapply wp_conseq; [apply (flash_erase_law s2 CONFIG_ENV_OFFSET CONFIG_ENV_SIZE Hu2); done|]. intros r3 s3 [Hk3 _].
  split_and!; [done|eapply keeps_trans; [exact Hk|]; eapply keeps_weaken; [|exact Hk3]; auto|].
  intros _ Hdis. fold data. split; [lia|]. eapply holds_frame; [exact Hk3|done|lia|lia|]. intros i Hi. apply Hdis. lia.
Qed.

End LoaderSpec.
