(* ===== verification/ZyxelBoot.v ===== *)
(** * Starting the firmware: properties

    From the configuration in the flash to the memory the boot command finds:
    [nmbm boot] and [atgo] on a device that works. *)

From stdpp Require Import base numbers list strings option.
From Stdlib Require Import ZArith Lia.
From S2P Require Import Prelude NmbmTypes Mtd Strto Crc32 Image Flash Board DualImage MtdWorks NmbmCmd Upgrade Zyxel ZyxelSpec.

Section BootSpec.
Context {S : Type} {E : nmbm_cmd_env S} {FT : fit_library} (mtd : mtd_info (M S)) (id : Z) (V : flash_view S).
Context {MW : mtd_works mtd V}.
Implicit Types w : cmd_world S.

Lemma read_all_ok off size la (Q : bool -> cmd_world S -> Prop) w :
  usable (cw_dev w) -> 0 <= off -> 0 < size -> off + size <= flash_size ->
  (forall s' b, usable s' -> keeps (fun _ => False) (cw_dev w) s' -> zlen b = size -> holds (cw_dev w) off b ->
     Q true (mkCmd s' (mem_put (cw_mem w) la b) (cw_load_addr w))) ->
  wp (read_all mtd off size la) Q w.
Proof.
  intros Hu H0 Hs Hf HQ. pose proof mw_bound as Hb. unfold read_all, load_mem. apply wp_bind, wp_gets, wp_bind, wp_on_dev.
  assert (Hl : zlen (mem_get (cw_mem w) la size) = size) by (apply zlen_mem_get; lia). rewrite i64_small by lia.
  eapply wp_conseq; [apply works_read; [done|lia..]|]. intros [[r b] n] s' (-> & -> & Hlb & Hu' & Hk & Hh).
  unfold store_mem. apply wp_bind, wp_modify, wp_ret. rewrite Hl. cbn [Z.eqb andb]. rewrite Z.eqb_refl. apply HQ; [done|done|lia|done].
Qed.

(** The size of the image behind a header, if the command knows its format. *)
Definition format_size (hdr : list Z) : option Z :=
  match genimg_get_format hdr with
  | IMAGE_FORMAT_LEGACY => Some (image_get_image_size hdr)
  | IMAGE_FORMAT_FIT => if CMD_FIT then Some (fit_get_size hdr) else None
  | IMAGE_FORMAT_INVALID => None
  end.

(** The flash holds an image of [size] bytes at [off]. *)
Definition image_at (s : S) (off size : Z) : Prop :=
  0 <= off /\ 0 < size /\ off + size <= flash_size /\ off + sizeof_image_header <= flash_size /\
  exists hdr, zlen hdr = sizeof_image_header /\ holds s off hdr /\ format_size hdr = Some size.

(** The memory from [load_addr] on is the flash from [off] on. *)
Definition loaded (s : S) (off size la : Z) w : Prop :=
  usable (cw_dev w) /\ keeps (fun _ => False) s (cw_dev w) /\ cw_load_addr w = la /\
  forall i, 0 <= i < size -> byte_at s (off + i) = Some (cw_mem w (la + i)).

Lemma header_loaded mem la b : zlen b = sizeof_image_header -> mem_get (mem_put mem la b) la sizeof_image_header = b.
Proof.
  intros Hl. apply znth_ext; [by rewrite zlen_mem_get|]. rewrite zlen_mem_get by done. intros i Hi.
  rewrite mem_get_znth by done. by rewrite mem_put_get by lia.
Qed.

Lemma boot_from_ok off size la (Q : Z -> cmd_world S -> Prop) w :
  usable (cw_dev w) -> image_at (cw_dev w) off size ->
  (forall w', loaded (cw_dev w) off size la w' -> wp bootm_maybe_autostart Q w') ->
  wp (boot_from mtd off la) Q w.
Proof.
  intros Hu (H0 & Hs & Hf & Hfh & hdr & Hlh & Hh & Ebs) HQ. unfold boot_from. apply wp_bind.
  apply read_all_ok; [done|done|done|done|]. intros s1 b Hu1 Hk1 Hlb Hb. cbn [negb].
  assert (b = hdr) as -> by (eapply holds_same; [exact Hb|exact Hh|lia]).
  apply wp_bind. unfold load_mem at 1. apply wp_gets. cbn [cw_mem]. rewrite header_loaded by done.
  fold (format_size hdr). rewrite Ebs. cbv zeta iota. apply wp_bind.
  apply read_all_ok; [done|done|done|done|]. intros s2 d Hu2 Hk2 Hld Hd. cbn [negb cw_dev] in *.
  apply wp_bind, wp_modify, HQ. assert (Hk : keeps (fun _ => False) (cw_dev w) s2) by (by eapply keeps_trans).
  split_and!; [done|done|done|]. intros i Hi. cbn [cw_mem]. rewrite mem_put_get by lia.
  rewrite <- Hd by lia. symmetry. apply Hk1; [lia|tauto].
Qed.

(** An image in a format that is not known is not started. *)
Lemma boot_from_unknown off la hdr w :
  usable (cw_dev w) -> 0 <= off -> off + sizeof_image_header <= flash_size ->
  zlen hdr = sizeof_image_header -> holds (cw_dev w) off hdr -> format_size hdr = None ->
  wp (boot_from mtd off la) (fun r w' => r = CMD_RET_FAILURE /\ keeps (fun _ => False) (cw_dev w) (cw_dev w')) w.
Proof.
  intros Hu H0 Hfh Hlh Hh Ebs. unfold boot_from. apply wp_bind. apply read_all_ok; [done|done|done|done|].
  intros s1 b Hu1 Hk1 Hlb Hb. cbn [negb]. assert (b = hdr) as -> by (eapply holds_same; [exact Hb|exact Hh|lia]).
  apply wp_bind. unfold load_mem at 1. apply wp_gets. cbn [cw_mem]. rewrite header_loaded by done.
  fold (format_size hdr). rewrite Ebs. by apply wp_ret.
Qed.

(** ** [nmbm boot] with a partition *)

Context (Hdev : get_mtd_device_nm (chars "nmbm0") = Some (id, mtd)) (Htype : mtd_type mtd = MTD_DEV_TYPE_NMBM).
Context (Hparts : CMD_MTDPARTS = true) (num off0 off1 : Z) (Hnum : upper_by_index num = Some id).
Context (Hfw0 : find_dev_and_part (chars "firmware") = Some (MTD_DEV_TYPE_NMBM, num, off0)).
Context (Hfw1 : find_dev_and_part (chars "firmware_1") = Some (MTD_DEV_TYPE_NMBM, num, off1)).

Definition firmware_off (n : Z) : Z := if n =? 1 then off1 else off0.

Definition firmware_name (n : Z) : list Z := chars (if n =? 1 then "firmware_1" else "firmware").

Lemma boot_offset_firmware n : boot_offset id (firmware_name n) = Some (firmware_off n).
Proof.
  unfold boot_offset, firmware_name, firmware_off. destruct (n =? 1).
  - replace (simple_strtoull (chars "firmware_1") 0) with (0, 0%nat) by (vm_compute; reflexivity). cbn [whole_number Nat.eqb negb andb].
    rewrite Hparts, Hfw1. cbn. by rewrite bool_decide_eq_true_2.
  - replace (simple_strtoull (chars "firmware") 0) with (0, 0%nat) by (vm_compute; reflexivity). cbn [whole_number Nat.eqb negb andb].
    rewrite Hparts, Hfw0. cbn. by rewrite bool_decide_eq_true_2.
Qed.

Lemma do_nmbm_boot n w :
  do_nmbm [chars "nmbm0"; chars "boot"; firmware_name n] w = boot_from mtd (firmware_off n) (cw_load_addr w) w.
Proof.
  assert (Hne : chars "nmbm0" <> chars "list") by done. pose proof Hdev as Hd. revert Hd Hne.
  generalize (chars "nmbm0"). intros name Hd Hne. unfold do_nmbm. unfold is_word at 1.
  rewrite bool_decide_eq_false_2 by done. cbn -[firmware_name do_nmbm_mtd_boot]. rewrite Hd, Htype. cbn -[firmware_name do_nmbm_mtd_boot]. unfold do_nmbm_mtd_boot, bind at 1, gets at 1.
  by rewrite boot_offset_firmware.
Qed.

(** ** [atgo] *)

Context (Hfit : BOOTCONFIG_OFFSET + BOOTCONFIG_SIZE <= flash_size).

(** The image to start: the first new one, otherwise the configured one. *)
Definition chosen (d : dualImageInfo) : Z := default (bootImage d) (first_new d).

(** The areas of the image that [off] and [size] give. *)
Definition apart (off size : Z) : Prop :=
  forall i, off <= i < off + Z.max size sizeof_image_header -> ~ bootconfig_area mtd i.

(** What the boot command finds: the image of flash state [s] in memory, and in
    the flash a configuration in which a new image counts as tried. *)
Definition handed_over (s : S) (d : dualImageInfo) (off size : Z) w : Prop :=
  (exists d', stored V (cw_dev w) d' /\ bootImage d' = bootImage d /\ forall n, first_new d = Some n -> not_new n d') /\
  forall i, 0 <= i < size -> byte_at s (off + i) = Some (cw_mem w (cw_load_addr w + i)).

Lemma image_at_frame s s' off size :
  apart off size -> keeps (bootconfig_area mtd) s s' -> image_at s off size -> image_at s' off size.
Proof.
  intros Ha Hk (H0 & Hs & Hf & Hfh & hdr & Hl & Hh & Eb). split_and!; try done. exists hdr. split_and!; [done| |done].
  eapply holds_frame; [exact Hk|done|done|lia|]. intros i Hi. apply Ha. lia.
Qed.

Lemma stored_frame s s' d : dual_wf d -> stored V s d -> usable s' -> keeps (fun _ => False) s s' -> stored V s' d.
Proof.
  intros Hwf (_ & bytes & Eb & Hh) Hu Hk. split; [done|]. exists bytes. split; [done|].
  destruct (encode_decode d Hwf) as (b' & Eb' & Hlen & _). rewrite Eb in Eb'. injection Eb' as <-.
  eapply holds_frame; [exact Hk|done|done| |tauto].
  rewrite Hlen. unfold BOOTCONFIG_OFFSET, BOOTCONFIG_SIZE, sizeof_dualImageInfo in *. lia.
Qed.

Lemma atgo_ok d size (R : cmd_world S -> Prop) (z : zy_world S) :
  let off := firmware_off (chosen d) in
  stored V (dev z) d -> dual_wf d -> length (image (dualIMAGE z)) = 2%nat ->
  image_at (dev z) off size -> apart off size ->
  (forall w, handed_over (dev z) d off size w -> wp bootm_maybe_autostart (fun _ w' => R w') w) ->
  wp (dumpDualImageInfoFromBootconfig;; do_atgo []) (fun r z' => r = CMD_RET_SUCCESS /\ R (zw_cmd z')) z.
Proof.
  intros off Hst Hwf Himg Hat Hap HR. apply wp_bind.
  eapply wp_conseq; [by eapply (dump_bootconfig_ok mtd id V Hdev Htype Hfit)|]. intros _ z1 (Hu1 & Hk1 & Hs1).
  destruct (encode_same d _ Hwf Hs1) as (Ee & Hwf1 & Ef). unfold do_atgo. apply wp_bind.
  eapply wp_conseq; [by eapply (check_new_ok mtd id V Hdev Htype Hfit)|]. intros n z2 (Hc & Hk2 & Hr).
  assert (Hk : keeps (bootconfig_area mtd) (dev z) (dev z2)).
  { eapply keeps_trans; [eapply keeps_weaken; [|exact Hk1]; tauto|done]. }
  assert (Hn : n = chosen d /\ stored V (dev z2) (dualIMAGE z2) /\ dual_wf (dualIMAGE z2) /\
               bootImage (dualIMAGE z2) = bootImage d /\ forall m, first_new d = Some m -> not_new m (dualIMAGE z2)).
  { unfold choice in Hc. unfold chosen. rewrite Ef in *. assert (Hb1 : bootImage (dualIMAGE z1) = bootImage d) by apply Hs1.
    destruct (first_new d) as [m|] eqn:Em; destruct Hc as [-> Hd].
    - destruct (mark_tried_effect _ _ _ Hd) as (Hb & Hnn & _). split_and!; [done|by destruct Hr as [[]|]|by eapply mark_tried_wf|lia|].
      intros m' E'. by injection E' as <-.
    - rewrite Hd. split_and!; [done| |done|done|done]. destruct Hr as [[_ ->]|Hr]; [|by rewrite <- Hd].
      eapply stored_frame; [done| |done|exact Hk1]. destruct Hst as (? & bytes & Eb & Hh). split; [done|]. exists bytes. by rewrite Ee. }
  destruct Hn as (-> & Hst2 & Hwf2 & Hb2 & Hnn). unfold boot_image, run_nmbm. fold (firmware_name (chosen d)).
  apply wp_bind, wp_on_cmd. unfold wp. rewrite do_nmbm_boot.
  change (wp (boot_from mtd (firmware_off (chosen d)) (cw_load_addr (zw_cmd z2))) (fun _ c =>
    wp (ret CMD_RET_SUCCESS) (fun r z' => r = CMD_RET_SUCCESS /\ R (zw_cmd z')) (mkZy c (dualIMAGE z2) (eng_debug z2))) (zw_cmd z2)).
  apply (boot_from_ok _ size); [apply Hst2|by eapply image_at_frame|]. intros w (Huw & Hkw & Ela & Hmem).
  eapply wp_conseq; [apply HR|intros r w' Hw; by apply wp_ret]. split.
  - exists (dualIMAGE z2). split_and!; [|done|done]. by eapply stored_frame.
  - intros i Hi. rewrite Ela, <- Hmem by done. symmetry. destruct Hat as (H0 & _ & Hf & _). fold off. apply Hk; [lia|apply Hap; lia].
Qed.

End BootSpec.
