(* ===== verification/FirmwareRun.v ===== *)
(** * Runs of the flash and firmware code

    A small flash device, a raw NAND device in front of the simulated chip, and
    firmware in the simulated flash: the concrete inputs of the board code's theorems. *)

From stdpp Require Import base numbers list strings option gmap.
From Stdlib Require Import ZArith Lia.
From S2P Require Import Prelude Crc32 IntLib NmbmTypes NmbmPhys NmbmState NmbmNand NmbmTable NmbmMgmt NmbmImage NmbmMapping NmbmLogic NmbmIO NmbmErase NmbmAttach NmbmSim NmbmRun Mtd NmbmMtd NmbmLower Flash Board NmbmFlash MtdWorks Image DualImage DualCopy DualCheck.

(** ** A small flash device *)

Definition SIM_FLASH_SIZE : Z := 1024.
Definition SIM_FLASH_BLOCK : Z := 64.
Definition SIM_FLASH_PAGE : Z := 16.

(** Change every byte as a function of its address. *)
Definition alter_bytes (f : Z -> Z -> Z) (l : list Z) : list Z := imap (fun i x => f (Z.of_nat i) x) l.

Definition touchesb (u off len i : Z) : bool :=
  (0 <? len) && (off / u <=? i / u) && (i / u <=? (off + len - 1) / u).

Definition in_rangeb (off len : Z) : bool := (0 <=? off) && (off + len <=? SIM_FLASH_SIZE).

Definition sim_flash_erase (off len : Z) : M (list Z) Z :=
  if in_rangeb off len then
    modify (alter_bytes (fun i x => if touchesb SIM_FLASH_BLOCK off len i then 0xff else x));; ret 0
  else ret (- EINVAL).

Definition sim_flash_read (off : Z) (buf : list Z) : M (list Z) (Z * list Z) :=
  do l <- gets (fun l => l);
  match slice l off (zlen buf) with
  | Some b => if in_rangeb off (zlen buf) then ret (0, b) else ret (- EINVAL, buf)
  | None => ret (- EINVAL, buf)
  end.

Definition sim_flash_write (off : Z) (data : list Z) : M (list Z) Z :=
  if in_rangeb off (zlen data) then
    modify (alter_bytes (fun i x => match znth data (i - off) with Some y => Z.land x y | None => x end));; ret 0
  else ret (- EINVAL).

Section SimFlash.
Context (parts : string -> option (Z * Z)).

Definition sim_flash : flash_helper (list Z) := {|
  mtk_board_get_flash_dev := true;
  mtk_board_get_flash_erase_size := SIM_FLASH_BLOCK;
  mtk_board_flash_erase := sim_flash_erase;
  mtk_board_flash_read := sim_flash_read;
  mtk_board_flash_write := sim_flash_write;
  get_mtd_part_info := parts
|}.

#[global] Instance sim_flash_view : flash_view (list Z) := {|
  flash_size := SIM_FLASH_SIZE;
  flash_page := SIM_FLASH_PAGE;
  usable l := zlen l = SIM_FLASH_SIZE /\ Forall is_byte l;
  byte_at l i := znth l i
|}.

Lemma znth_alter f l i : znth (alter_bytes f l) i = f i <$> znth l i.
Proof.
  unfold znth, alter_bytes. destruct (Z.ltb_spec i 0); [done|].
  rewrite list_lookup_imap. destruct (l !! _); cbn; [|done]. by rewrite Z2Nat.id.
Qed.

Lemma zlen_alter f l : zlen (alter_bytes f l) = zlen l.
Proof. unfold zlen, alter_bytes. by rewrite length_imap. Qed.

Lemma alter_is_byte f l :
  (forall i x, is_byte x -> is_byte (f i x)) -> Forall is_byte l -> Forall is_byte (alter_bytes f l).
Proof.
  intros Hf Hl. apply Forall_lookup. intros i x Hx. unfold alter_bytes in Hx. rewrite list_lookup_imap in Hx.
  destruct (l !! i) as [y|] eqn:E; [|done]. injection Hx as <-. apply Hf. rewrite Forall_lookup in Hl. by apply (Hl i).
Qed.

Lemma touchesb_spec u off len i : touchesb u off len i = true <-> touches u off len i.
Proof. unfold touchesb, touches. rewrite !andb_true_iff, Z.ltb_lt, !Z.leb_le. tauto. Qed.

Lemma in_rangeb_spec off len : in_rangeb off len = true <-> 0 <= off /\ off + len <= SIM_FLASH_SIZE.
Proof. unfold in_rangeb. rewrite andb_true_iff, !Z.leb_le. tauto. Qed.

Lemma sim_read_post s off buf :
  usable s -> 0 <= off ->
  wp (sim_flash_read off buf) (fun '(r, b) s' =>
    s' = s /\ zlen b = zlen buf /\ (r = 0 -> off + zlen buf <= SIM_FLASH_SIZE /\ holds s off b)) s.
Proof.
  intros Hu Ho. unfold sim_flash_read. apply wp_bind, wp_gets.
  destruct (slice s off (zlen buf)) as [b|] eqn:E; [|by apply wp_ret].
  destruct (in_rangeb off (zlen buf)) eqn:Er; apply wp_ret; [|done]. apply in_rangeb_spec in Er.
  split_and!; [done|by eapply slice_zlen|]. intros _. split; [lia|]. intros i Hi.
  pose proof (slice_zlen _ _ _ _ E). rewrite (znth_slice _ _ _ _ i E) by lia. done.
Qed.

#[global] Instance sim_flash_laws : flash_laws sim_flash sim_flash_view.
Proof.
  constructor.
  - done.
  - exists 4. done.
  - exists 6. done.
  - exists 16. done.
  - done.
  - intros s i [Hl Hb] Hi. destruct (znth_some s i) as [x Hx]; [by rewrite Hl|]. exists x. split; [done|].
    unfold znth in Hx. destruct (i <? 0); [done|]. rewrite Forall_lookup in Hb. by apply Hb in Hx.
  - intros s off buf Hu Ho _. eapply wp_conseq; [apply sim_read_post; [done|lia]|].
    intros [r b] s' (-> & Hl & Hr). split_and!; [done|apply keeps_refl|]. intros E. split; [done|by apply Hr].
  - intros s off data Hu Ho _. cbn. unfold sim_flash_write.
    destruct (in_rangeb off (zlen data)) eqn:E; [|apply wp_ret; by split]. apply in_rangeb_spec in E.
    apply wp_bind, wp_modify, wp_ret. split.
    + intros i Hi Hn. cbn. rewrite znth_alter. destruct (znth s i) as [x|]; [|done]. cbn.
      destruct (znth data (i - off)) as [y|] eqn:Ey; [|done]. exfalso. apply Hn.
      apply znth_bounds in Ey. apply touches_range; [done|lia].
    + intros _. destruct Hu as [Hl Hb]. split_and!.
      * by rewrite zlen_alter.
      * apply alter_is_byte; [|done]. intros i x Hx. destruct (znth _ _); [by apply land_byte|done].
      * lia.
      * intros i old x Hi Hold Hx. cbn in *. rewrite znth_alter, Hold. cbn.
        replace (off + i - off) with i by lia. by rewrite Hx.
  - intros s off len Hu Ho Hl. cbn. unfold sim_flash_erase.
    destruct (in_rangeb off len) eqn:E; [|apply wp_ret; by split]. apply in_rangeb_spec in E.
    apply wp_bind, wp_modify, wp_ret. split.
    + intros i Hi Hn. cbn. rewrite znth_alter. destruct (znth s i) as [x|]; [|done]. cbn.
      destruct (touchesb _ off len i) eqn:Et; [|done]. by apply touchesb_spec in Et.
    + intros _. destruct Hu as [Hz Hb]. split_and!.
      * by rewrite zlen_alter.
      * apply alter_is_byte; [|done]. intros i x Hx. by destruct (touchesb _ _ _ _).
      * lia.
      * intros i Hi Ht. cbn. rewrite znth_alter. destruct (znth_some s i) as [x ->]; [by rewrite Hz|]. cbn.
        apply touchesb_spec in Ht. by rewrite Ht.
Qed.

#[global] Instance sim_flash_steady : flash_steady sim_flash sim_flash_view.
Proof.
  intros s off buf Hu Ho _. eapply wp_conseq; [apply sim_read_post; [done|lia]|]. by intros [r b] s' (-> & _).
Qed.

End SimFlash.

(** ** The chip as a raw MTD device *)

Section RawMtd.
Context {F : faults}.
Implicit Types d : sim F.

Definition raw_mode (ops : mtd_oob_ops) : nmbm_oob_mode :=
  if ops_mode ops =? MTD_OPS_RAW then NMBM_MODE_RAW else NMBM_MODE_PLACE_OOB.

(** Uncorrectable data stays in the chip. *)
Definition raw_read_oob (a : Z) (ops : mtd_oob_ops) : total (sim F) (Z * mtd_oob_ops) := fun d =>
  if @sim_error F a =? 0
  then (0, ops <| ops_datbuf := (fun b => resize (length b) (sim_page d a)) <$> ops_datbuf ops |>, d)
  else (- EBADMSG, ops, d).

Definition raw_write_oob (a : Z) (ops : mtd_oob_ops) : total (sim F) (Z * mtd_oob_ops) := fun d =>
  let '(d, r) := sim_write d a (ops_datbuf ops) None (raw_mode ops) in (r, ops, d).

Definition raw_erase (ei : erase_info) : total (sim F) (Z * erase_info) := fun d =>
  let '(d, r) := sim_erase d (ei_addr ei) in
  (r, ei <| ei_state := if r =? 0 then MTD_ERASE_DONE else MTD_ERASE_FAILED |>, d).

Definition raw_mtd : mtd_info (total (sim F)) :=
  mkMtd MTD_NANDFLASH MTD_CAP_NANDFLASH SIM_SIZE SIM_BLOCK SIM_PAGE SIM_OOB 0 3 4
    (fun _ buf retlen d => (- EOPNOTSUPP, buf, retlen, d)) None raw_erase
    (Some raw_read_oob) (Some raw_write_oob)
    (Some (fun a d => let '(d, r) := sim_is_bad d a in (r, d)))
    (Some (fun a d => let '(d, r) := sim_mark_bad d a in (r, d))).

#[global] Instance raw_driver : nand_driver (fun d => d) raw_mtd (@sim_model F).
Proof.
  constructor.
  - intros d p. exact (law_page_len (L := sim_lower) d p).
  - intros d p. apply sim_page_byte.
  - done.
  - intros d. apply same_outside_refl.
  - intros f d a ops rc ops' d' E _. injection E as <-. unfold raw_read_oob.
    destruct (sim_error a =? 0); intros E; injection E as <- <- <-; cbn.
    + split_and!; [apply same_outside_refl| |done|].
      * destruct (ops_datbuf ops); [|done]. cbn. unfold zlen. by rewrite length_resize.
      * intros _ _ _. destruct (ops_datbuf ops) as [b|]; [|done]. cbn. intros Hb. injection Hb as Hb.
        f_equal. unfold zlen in Hb. unfold SIM_PAGE in Hb.
        replace (length b) with (length (sim_page d a)) by (rewrite sim_page_len; lia). apply resize_id.
    + split_and!; [apply same_outside_refl|done|done|]. by intros [?|?].
  - intros f d a ops rc ops' d' E _ Ha. injection E as <-. unfold raw_write_oob.
    destruct (sim_write d a (ops_datbuf ops) None (raw_mode ops)) as [d1 r] eqn:Ew.
    intros E. injection E as <- <- <-.
    destruct (law_write (L := sim_lower) d a (ops_datbuf ops) None (raw_mode ops) d1 r Ha Ew) as [Hs Hw].
    split; [exact Hs|]. intros b Hb Hl Hm. apply (Hw b Hb Hl). unfold raw_mode.
    by destruct (Z.eqb_spec (ops_mode ops) MTD_OPS_RAW).
  - intros d ba ei rc ei' d' Ha Hl E. cbn in E. unfold raw_erase in E.
    destruct (sim_erase d (ei_addr ei)) as [d1 r] eqn:Ee. injection E as <- <- <-.
    rewrite Ha in Ee. exact (sim_erase_ok d ba d1 r Ee).
  - intros f d a rc d' E. injection E as <-. cbn. intros E. injection E as <- <-. apply same_outside_refl.
  - intros f d ba rc d' E. injection E as <-. cbn. intros E. injection E as <- <-. by intros p.
Qed.

End RawMtd.

(** ** NMBM on the blank chip *)

(** The chip as nmbm-mtd.c presents it to the NMBM core. *)
Definition boot_lower : nmbm_lower_device (sim no_faults) := nmbm_nld (fun d => d) raw_mtd NMBM_F_CREATE 4 0.

Lemma boot_geometry : geometry_ok boot_lower.
Proof.
  constructor.
  - by exists 6.
  - by exists 9.
  - by exists 15.
  - done.
  - done.
  - done.
  - done.
  - done.
  - done.
  - done.
  - done.
Qed.

(** What [nmbm_attach_mtd] makes of it. *)
Definition boot_nm : nmbm_mtd (sim no_faults) :=
  match nmbm_attach_mtd (fun d => d) raw_mtd 1 NMBM_F_CREATE 4 0 true true blank_sim (mkWorld 0 []) with
  | Ret (_, Some nm, _) _ => nm
  | _ => mkNm 0 0 0 (calloc_instance blank_sim) []
  end.

Definition boot_size : Z := 48 * 512.

#[local] Existing Instance boot_lower.
#[local] Existing Instance boot_geometry.

Lemma boot_reliable a : @reliable_page _ boot_lower a.
Proof.
  intros d data oob mode. cbn. unfold nmbm_lower_read_page, mtd_read_oob. cbn.
  unfold mbind, total_bind, raw_read_oob. by destruct data, oob, mode.
Qed.

Lemma boot_erasable ba : 0 <= ba < 64 -> @erasable _ boot_lower ba.
Proof.
  intros Hb d. cbn. unfold nmbm_lower_erase_block, mtd_erase. cbn. unfold SIM_SIZE, SIM_BLOCK.
  destruct (Z.ltb_spec 32768 (ba * 512)); [lia|]. destruct (Z.ltb_spec (32768 - ba * 512) 512); [lia|]. done.
Qed.

Lemma boot_programmable a : @programmable _ boot_lower a.
Proof.
  intros d data oob mode. cbn. unfold nmbm_lower_write_page, mtd_write_oob. cbn.
  unfold mbind, total_bind, raw_write_oob. by destruct data, oob, mode.
Qed.

Lemma boot_sound ba : 0 <= ba < 64 -> @sound _ boot_lower ba.
Proof.
  intros Hb. split; [by apply boot_erasable|]. intros a _ _. split; [apply boot_programmable|apply boot_reliable].
Qed.

(** Logic and physical blocks agree, and all of them are good. *)
Lemma boot_blocks : (forall lb, 0 <= lb < 48 -> znth (block_mapping (nm_ni boot_nm)) lb = Some lb) /\
  forall b, 0 <= b < 64 -> state_of (block_state (nm_ni boot_nm)) b = BLOCK_ST_GOOD.
Proof. split; apply (by_decision _); vm_compute; reflexivity. Qed.

Lemma boot_device : @device_ok _ boot_lower (nm_ni boot_nm) /\ @mapping_ok _ (nm_ni boot_nm).
Proof.
  split; [apply (by_decision _); vm_compute; reflexivity|]. apply mapping_check_ok. vm_compute. reflexivity.
Qed.

Lemma boot_usable : @usable _ (nmbm_view (L := boot_lower) boot_size) boot_nm.
Proof.
  destruct boot_blocks as [Hm Hg]. destruct boot_device as [Hd Hmap]. split; [|by vm_compute]. constructor; [done|done| |].
  - intros lb Hlb. assert (Hlb' : 0 <= lb < 48) by exact Hlb. exists lb. split; [by apply Hm|lia].
  - intros b Hb. assert (Hb' : 48 <= b <= 62) by exact Hb. split; [apply Hg; lia|apply boot_sound; lia].
Qed.

Lemma boot_flawless : @usable _ (flawless_view (L := boot_lower) boot_size) boot_nm.
Proof.
  destruct boot_blocks as [Hm Hg]. destruct boot_device as [Hd Hmap]. split; [|by vm_compute].
  constructor; [done|done|reflexivity|]. intros lb Hlb. assert (Hlb' : 0 <= lb < 48) by exact Hlb.
  exists lb. split_and!; [by apply Hm|lia|apply Hg; lia|apply boot_erasable; lia].
Qed.

(** ** NMBM on a chip with defects

    Block 5 fails to erase, a page of block 6 to program and one of block 7 to
    read; the blocks from 48 on, NMBM's own, are without defect. *)
Definition weak_faults : faults := mkFaults [5 * 512] [6 * 512] [(7 * 512, -5)] true.

Definition weak_lower : nmbm_lower_device (sim weak_faults) := nmbm_nld (fun d => d) raw_mtd NMBM_F_CREATE 4 0.

Lemma weak_geometry : geometry_ok weak_lower.
Proof. destruct boot_geometry. by constructor. Qed.

Definition weak_nm : nmbm_mtd (sim weak_faults) :=
  match nmbm_attach_mtd (fun d => d) raw_mtd 1 NMBM_F_CREATE 4 0 true true blank_sim (mkWorld 0 []) with
  | Ret (_, Some nm, _) _ => nm
  | _ => mkNm 0 0 0 (calloc_instance blank_sim) []
  end.

Lemma weak_sound ba : 48 <= ba < 64 -> @sound _ weak_lower ba.
Proof.
  intros Hb. split; [|intros a Ha _; assert (Ha' : ba * 512 <= a) by apply Ha; split].
  - intros d. cbn. unfold nmbm_lower_erase_block, mtd_erase. cbn. unfold SIM_SIZE, SIM_BLOCK.
    destruct (Z.ltb_spec 32768 (ba * 512)); [lia|]. destruct (Z.ltb_spec (32768 - ba * 512) 512); [lia|]. cbn.
    unfold raw_erase, sim_erase, has. cbn. by destruct (Z.eqb_spec (ba * 512) (5 * 512)); [lia|].
  - intros d data oob mode. cbn. unfold nmbm_lower_write_page, mtd_write_oob. cbn.
    unfold mbind, total_bind, raw_write_oob, sim_write, has. cbn.
    destruct (Z.eqb_spec a (6 * 512)); [lia|]. by destruct data, oob, mode.
  - intros d data oob mode. cbn. unfold nmbm_lower_read_page, mtd_read_oob. cbn.
    unfold mbind, total_bind, raw_read_oob, sim_error. cbn.
    destruct (Z.eqb_spec (7 * 512) a); [lia|]. by destruct data, oob, mode.
Qed.

Lemma weak_usable : @usable _ (nmbm_view (L := weak_lower) boot_size) weak_nm.
Proof.
  assert (Hm : forall lb, 0 <= lb < 48 -> znth (block_mapping (nm_ni weak_nm)) lb = Some lb)
    by (apply (by_decision _); vm_compute; reflexivity).
  assert (Hg : forall b, 48 <= b < 64 -> state_of (block_state (nm_ni weak_nm)) b = BLOCK_ST_GOOD)
    by (apply (by_decision _); vm_compute; reflexivity).
  split; [|by vm_compute]. constructor.
  - apply (by_decision _). vm_compute. reflexivity.
  - apply mapping_check_ok. vm_compute. reflexivity.
  - intros lb Hlb. assert (Hlb' : 0 <= lb < 48) by exact Hlb. exists lb. split; [by apply Hm|lia].
  - intros b Hb. assert (Hb' : 48 <= b <= 62) by exact Hb. split; [apply Hg; lia|apply weak_sound; lia].
Qed.

(** ** Firmware in the simulated flash *)

Definition be32_bytes (x : Z) : list Z := rev (le_bytes 4 x).

(** A legacy image of [data]. *)
Definition make_image (data : list Z) : list Z :=
  let hdr hcrc := be32_bytes IH_MAGIC ++ be32_bytes hcrc ++ fill 0 4 ++ be32_bytes (zlen data) ++ fill 0 8 ++
    be32_bytes (crc32 0 0 data) ++ fill 0 36 in
  hdr (crc32 0 0 (hdr 0)) ++ data.

(** A SquashFS file system of [size] bytes. *)
Definition make_squashfs (size : Z) : list Z :=
  le_bytes 4 SQUASHFS_MAGIC ++ fill 0 36 ++ le_bytes 8 size ++ fill 7 (size - 48).

#[global] Instance sim_config : dual_config := {|
  MTK_DUAL_IMAGE_PARTNAME_MAIN := "firmware";
  MTK_DUAL_IMAGE_PARTNAME_BACKUP := "firmware_backup";
  MTK_DUAL_IMAGE_SQUASHFS_DATA_CHECK := true;
  MTK_DUAL_IMAGE_RESTORE_KERNEL_ONLY := false;
  CONFIG_WATCHDOG := true;
  CONFIG_FIT := false
|}.

#[global] Instance no_fit : fit_library := {|
  fdt_check_header _ := -1;
  fit_check_format _ := false;
  fit_all_image_verify _ := false
|}.

Definition sim_parts (name : string) : option (Z * Z) :=
  if decide (name = "firmware"%string) then Some (128, 384)
  else if decide (name = "firmware_backup"%string) then Some (512, 384)
  else None.

#[global] Instance sim_board : flash_helper (list Z) := sim_flash sim_parts.

(** 104 bytes of kernel, padded to the erase block, and a root file system. *)
Definition sim_firmware (rootfs : Z) : list Z :=
  make_image (fill 0x5a 40) ++ fill 0xff 24 ++ make_squashfs rootfs.

(** The main partition is blank, the backup holds firmware. *)
Definition sim_broken (rootfs : Z) : list Z :=
  fill 0xff 512 ++ sim_firmware rootfs ++ fill 0xff (1024 - 512 - 128 - rootfs).

Definition sim_ram : list Z := fill 0 512.

Lemma sim_broken_usable : usable (sim_broken 100).
Proof. split; [vm_compute; reflexivity|]. apply (by_decision _). vm_compute. reflexivity. Qed.

Lemma sim_parts_ok : parts_ok 128 384 512 384 384 sim_ram.
Proof.
  constructor; try (vm_compute; intuition congruence).
  - split_and!; [done|by exists 2|done].
  - split_and!; [done|by exists 8|done].
  - by exists 6.
Qed.

(** The header in the flash decides [size_sane]. *)
Definition size_saneb (s : list Z) (off : Z) : bool :=
  match slice s off sizeof_image_header with
  | Some hdr => negb (image_check_magic hdr) || (image_get_size hdr + sizeof_image_header <? 2 ^ 32)
  | None => false
  end.

Lemma size_sane_by_run s off : size_saneb s off = true -> size_sane s off.
Proof.
  unfold size_saneb. destruct (slice s off _) as [hdr|] eqn:E; [|done]. intros Hs h Hh Hl _ Hm _.
  assert (h = hdr) as ->; [|rewrite Hm in Hs; by apply Z.ltb_lt]. pose proof (slice_zlen _ _ _ _ E) as El.
  apply (holds_same s off); [done| |by rewrite Hl, El]. intros i Hi. cbn.
  rewrite (znth_slice _ _ _ _ i E) by lia. done.
Qed.

(** Partitions of the NMBM device. *)
Definition boot_parts (name : string) : option (Z * Z) :=
  if decide (name = "firmware"%string) then Some (1024, 2048)
  else if decide (name = "firmware_backup"%string) then Some (4096, 2048)
  else None.

(** Blank flash is no image. *)
Lemma blank_sane off :
  0 <= off -> off + 64 <= boot_size ->
  (forall i, 0 <= i < 64 -> logic_byte (L := boot_lower) (nm_ni boot_nm) (off + i) = Some 255) ->
  size_sane (V := nmbm_view (L := boot_lower) boot_size) boot_nm off.
Proof.
  intros H0 H1 Hb h Hh Hl _ Hm. assert (h = fill 255 64) as ->.
  - apply (holds_same (V := nmbm_view (L := boot_lower) boot_size) boot_nm off); [done| |done].
    intros i Hi. cbn. rewrite Hb by exact Hi. symmetry. apply znth_fill. exact Hi.
  - vm_compute in Hm. congruence.
Qed.
