(* ===== verification/FirmwareProps.v ===== *)
(** * The flash and firmware code: properties

    What the functions of nmbm-mtd.c, of the board's flash interface and of
    dual_image.c guarantee, each with a run it applies to. *)

From stdpp Require Import base numbers list strings option gmap.
From Stdlib Require Import ZArith Lia.
From S2P Require Import Prelude IntLib Crc32 NmbmTypes NmbmPhys NmbmState NmbmNand NmbmTable NmbmMgmt NmbmImage NmbmMapping NmbmLogic NmbmIO NmbmAttach NmbmSim NmbmRun Mtd NmbmMtd NmbmLower Flash Board NmbmFlash Image DualImage DualCopy DualCheck FirmwareRun.

(** ** NMBM between the NAND driver and the board code *)



(** C18 The functions nmbm-mtd.c passes to the NMBM core satisfy the core's
    assumptions about a NAND chip, for every raw NAND driver that handles
    requests of one page, erases of one block and bad block marks as
    [nand_driver] states; the requests these functions make are of this kind. *)
Theorem nmbm_lower_is_nand {D} (reset : D -> D) (lower : mtd_info (total D)) {P : NandModel D}
    {ND : nand_driver reset lower P} fl ratio reserved :
  0 < mtd_erasesize lower -> nand_laws (nmbm_nld reset lower fl ratio reserved) P.
Proof. intros He. by apply nmbm_nld_laws. Qed.

Lemma nmbm_lower_is_nand_witness :
  nand_laws (nmbm_nld (fun d => d) (@raw_mtd no_faults) NMBM_F_CREATE 4 0) sim_model.
Proof. apply (nmbm_lower_is_nand (fun d => d) raw_mtd NMBM_F_CREATE 4 0). reflexivity. Defined.

(** ** Firmware images *)



(** C21 If [dual_image_check] changed the flash and returns 0, the partition
    it wrote holds the valid kernel image of the other one.  If the partitions
    leave room for the end marker, the image that was copied is still valid
    afterwards, whatever the flash reported. *)
Theorem dual_image_check_keeps_an_image {S} {F : flash_helper S} {V : flash_view S} {FL : flash_laws F V}
    {FS : flash_steady F V} {FT : fit_library} {C : dual_config} (s : S) o1 p1 o2 p2 p ram :
  usable s ->
  get_mtd_part_info MTK_DUAL_IMAGE_PARTNAME_MAIN = Some (o1, p1) ->
  get_mtd_part_info MTK_DUAL_IMAGE_PARTNAME_BACKUP = Some (o2, p2) ->
  parts_ok o1 p1 o2 p2 p ram -> size_sane s o1 -> size_sane s o2 ->
  wp (dual_image_check ram) (fun r s' =>
    keeps (fun _ => False) s s' \/ images_post s o1 p1 o2 p2 p r s' \/ images_post s o2 p2 o1 p1 p r s') s.
Proof. apply dual_images_ok. Qed.

Lemma dual_image_check_keeps_an_image_witness :
  wp (dual_image_check sim_ram) (fun r s' =>
    keeps (fun _ => False) (sim_broken 100) s' \/ images_post (sim_broken 100) 128 384 512 384 384 r s' \/
    images_post (sim_broken 100) 512 384 128 384 384 r s') (sim_broken 100).
Proof.
  apply (dual_image_check_keeps_an_image (sim_broken 100) 128 384 512 384 384).
  - apply sim_broken_usable.
  - reflexivity.
  - reflexivity.
  - apply sim_parts_ok.
  - apply size_sane_by_run. vm_compute. reflexivity.
  - apply size_sane_by_run. vm_compute. reflexivity.
Defined.

(** C3 The whole stack: on a raw NAND driver as [nand_driver] describes it,
    behind NMBM's adapters, the NMBM core, its MTD device and the board's flash
    functions, [dual_image_check] meets its specification for the logic bytes
    of the NMBM device, started with good and sound management and spare
    blocks.  The blocks that hold data may fail to read, program or erase. *)
Theorem dual_image_check_on_nmbm {D} (reset : D -> D) (lower : mtd_info (total D)) {P : NandModel D}
    {ND : nand_driver reset lower P} {FT : fit_library} {C : dual_config} fl ratio reserved parts size
    (nm : nmbm_mtd D) o1 p1 o2 p2 p ram :
  let L := nmbm_nld reset lower fl ratio reserved in
  let F := nmbm_flash (L := L) lower parts size in
  let V := nmbm_view (L := L) size in
  geometry_ok L -> (exists n, 0 <= n <= block_count /\ size = n * mtd_erasesize lower) ->
  usable nm ->
  parts MTK_DUAL_IMAGE_PARTNAME_MAIN = Some (o1, p1) ->
  parts MTK_DUAL_IMAGE_PARTNAME_BACKUP = Some (o2, p2) ->
  parts_ok o1 p1 o2 p2 p ram -> size_sane nm o1 -> size_sane nm o2 ->
  wp (dual_image_check ram) (dual_post nm o1 p1 o2 p2) nm.
Proof.
  intros L F V GO Hsize Hu E1 E2. assert (He : 0 < mtd_erasesize lower) by (apply (erasesize_pos (L := L))).
  pose proof (nmbm_nld_laws reset lower He fl ratio reserved) as NL.
  pose proof (nmbm_flash_laws (L := L) lower parts size eq_refl drv_writeable Hsize) as FL.
  pose proof (nmbm_flash_steady (L := L) lower parts size Hsize) as FS.
  by apply (dual_image_check_ok nm o1 p1 o2 p2 p ram).
Qed.

Lemma dual_image_check_on_nmbm_witness :
  wp (dual_image_check (F := nmbm_flash (L := boot_lower) raw_mtd boot_parts boot_size) (fill 0 2048))
    (dual_post (F := nmbm_flash (L := boot_lower) raw_mtd boot_parts boot_size)
       (V := nmbm_view (L := boot_lower) boot_size) boot_nm 1024 2048 4096 2048) boot_nm.
Proof.
  apply (dual_image_check_on_nmbm (fun d => d) raw_mtd NMBM_F_CREATE 4 0 boot_parts boot_size boot_nm 1024 2048 4096 2048 2048).
  - apply boot_geometry.
  - exists 48. split; [split; [lia|vm_compute; congruence]|reflexivity].
  - apply boot_usable.
  - reflexivity.
  - reflexivity.
  - constructor; try (vm_compute; intuition congruence).
    + split; [lia|]. split; [exists 2; reflexivity|vm_compute; congruence].
    + split; [lia|]. split; [exists 8; reflexivity|vm_compute; congruence].
    + exists 4. reflexivity.
  - apply blank_sane; [lia|vm_compute; congruence|]. apply (by_decision _). vm_compute. reflexivity.
  - apply blank_sane; [lia|vm_compute; congruence|]. apply (by_decision _). vm_compute. reflexivity.
Defined.

(** [copy_firmware] terminates; it changes only the erase blocks of the
    destination (and of the end marker), and if it returns 0 the destination
    holds the source's bytes and the marker follows in the next block. *)
Theorem copy_firmware_correct {S} {F : flash_helper S} {V : flash_view S} {FL : flash_laws F V}
    (s : S) src dst size deadc0de ram :
  usable s -> 0 <= src -> src + size < 2 ^ 64 ->
  0 <= dst -> dst + size + mtk_board_get_flash_erase_size <= 2 ^ 32 ->
  (mtk_board_get_flash_erase_size | dst) -> 0 <= size < 2 ^ 32 ->
  2 * mtk_board_get_flash_erase_size <= zlen ram -> 4 <= mtk_board_get_flash_erase_size ->
  (src + size <= dst \/ dst + align_up size <= src) ->
  wp (copy_firmware src dst size deadc0de ram) (copy_post s src dst size deadc0de) s.
Proof. apply copy_firmware_ok. Qed.

Lemma copy_firmware_correct_witness :
  wp (copy_firmware 512 128 228 true sim_ram) (copy_post (sim_broken 100) 512 128 228 true) (sim_broken 100).
Proof.
  apply (copy_firmware_correct (sim_broken 100) 512 128 228 true sim_ram).
  - apply sim_broken_usable.
  - lia.
  - lia.
  - lia.
  - vm_compute. congruence.
  - exists 2. reflexivity.
  - lia.
  - vm_compute. congruence.
  - vm_compute. congruence.
  - right. vm_compute. congruence.
Defined.

(** [crc32_wd] splits the data into chunks to serve the watchdog, and
    computes the checksum of the whole whatever the chunk size. *)
Theorem crc32_wd_correct watchdog p crc buf chunk_sz :
  0 < chunk_sz -> Forall is_byte buf -> crc32_wd watchdog p crc buf chunk_sz = Some (crc32 p crc buf).
Proof. apply crc32_wd_ok. Qed.

Lemma crc32_wd_correct_witness : crc32_wd true 0 0 [1; 2; 3; 4; 5] 2 = Some (crc32 0 0 [1; 2; 3; 4; 5]).
Proof. apply crc32_wd_correct; [lia|]. apply (by_decision _). reflexivity. Defined.
