(* ===== verification/FirmwareFindings.v ===== *)
(** * The flash and firmware code: defects

    Runs in which nmbm-mtd.c, env/nmbm.c and dual_image.c do not do what they
    are meant to do. *)

From stdpp Require Import base numbers list strings option gmap.
From Stdlib Require Import ZArith Lia.
From S2P Require Import Prelude IntLib Crc32 NmbmTypes NmbmPhys NmbmState NmbmNand NmbmTable NmbmLogic NmbmIO NmbmAttach NmbmSim NmbmRun Mtd NmbmMtd Flash Board Image DualImage FirmwareRun.

(** ** Inputs *)

(** The kernel image and the root file system in a partition of the flash
    still pass their checks. *)
Definition firmware_valid (off size : Z) (s : list Z) : bool :=
  match check_one off size sim_ram s with
  | Ret (Some (ok, _, _, _), _) _ => ok
  | _ => false
  end.

(** A chip on which one page in the first block cannot be corrected, with
    NMBM attached. *)
Definition worn_faults : faults := mkFaults [] [] [(64, 1)] true.

Definition worn_lower : nmbm_lower_device (sim worn_faults) := nmbm_nld (fun d => d) raw_mtd NMBM_F_CREATE 4 0.

Definition worn_nm : nmbm_mtd (sim worn_faults) :=
  match nmbm_attach_mtd (fun d => d) raw_mtd 1 NMBM_F_CREATE 4 0 true true blank_sim (mkWorld 0 []) with
  | Ret (_, Some nm, _) _ => nm
  | _ => mkNm 0 0 0 (calloc_instance blank_sim) []
  end.

(** A header whose size member is close to 2^32. *)
Definition huge_image : list Z :=
  let hdr hcrc := be32_bytes IH_MAGIC ++ be32_bytes hcrc ++ fill 0 4 ++ be32_bytes 0xffffffd0 ++ fill 0 48 in
  hdr (crc32 0 0 (hdr 0)).

Definition huge_flash : list Z := fill 0xff 128 ++ huge_image ++ fill 0xff (1024 - 128 - 64).

(** A page of data with the OOB data of two pages. *)
Definition page_and_two_oobs : mtd_oob_ops :=
  mkOobOps MTD_OPS_PLACE_OOB 64 0 32 0 0 (Some (fill 0x5a 64)) (Some (fill 0xff 32)).

(** ** Runs *)

(** C37 The end marker destroys the good image: firmware that fits its
    partition, but not with the marker's erase block, is restored from the
    backup behind it; [dual_image_check] returns 0, and the backup is gone. *)
Theorem dual_image_marker_destroys_source :
  firmware_valid 128 384 (sim_broken 250) = false /\ firmware_valid 512 384 (sim_broken 250) = true /\
  exists s', dual_image_check sim_ram (sim_broken 250) = Ret 0 s' /\
    firmware_valid 128 384 s' = true /\ firmware_valid 512 384 s' = false.
Proof.
  split; [vm_compute; reflexivity|]. split; [vm_compute; reflexivity|].
  eexists. split; [vm_compute; reflexivity|]. split; vm_compute; reflexivity.
Qed.

(** C39 A page that cannot be corrected is read as if it were fine:
    [nmbm_mtd_read] returns 1, which [mtd_read] takes for a count of corrected
    bit flips, so that the caller gets 0 although no data was transferred. *)
Theorem nmbm_ecc_error_reads_as_success :
  exists nm', mtd_read (nmbm_upper raw_mtd worn_lower (48 * 512)) 64 (fill 0 64) (Some 0) worn_nm =
    Ret (0, fill 0 64, 0) nm' /\
  logic_byte (L := worn_lower) (nm_ni worn_nm) 64 = Some 255.
Proof. eexists. split; vm_compute; reflexivity. Qed.

(** Loading and saving the environment store through a null pointer
    whenever there is an NMBM device (and, for saving, erasing worked). *)
Theorem env_nmbm_null_retlen {S} (mtd : mtd_info (M S)) (s : S) env_import buf :
  env_nmbm_load (Some mtd) env_import buf s = Stuck /\
  (forall env ei s', mtd_erase mtd (mkErase CONFIG_ENV_OFFSET CONFIG_ENV_SIZE 0 0) s = Ret (0, ei) s' ->
   env_nmbm_save (Some mtd) (inr env) s = Stuck).
Proof.
  split; [reflexivity|]. intros env ei s' E. unfold env_nmbm_save, bind. by rewrite E.
Qed.

Lemma env_nmbm_null_retlen_witness :
  env_nmbm_load (Some (nmbm_upper raw_mtd boot_lower boot_size)) (fun _ => 0) (fill 0 4) boot_nm = Stuck.
Proof. apply (env_nmbm_null_retlen (nmbm_upper raw_mtd boot_lower boot_size) boot_nm (fun _ => 0) (fill 0 4)). Defined.

(** The image size of a legacy header wraps around: with a size member
    close to 2^32 it passes the check against the partition size, and the data
    checksum then runs beyond the memory. *)
Theorem legacy_size_wraps :
  image_get_image_size huge_image = 16 /\ image_check_hcrc huge_image = true /\
  dual_image_check sim_ram huge_flash = Stuck.
Proof. split; [vm_compute; reflexivity|]. split; vm_compute; reflexivity. Qed.

(** [nmbm_mtd_write_oob] with one page of data and the OOB data of two
    pages programs the data into both pages: the page buffer is passed again
    although all data is written. *)
Theorem nmbm_write_oob_repeats_page :
  exists ops nm', nmbm_mtd_write_oob (L := boot_lower) 0 page_and_two_oobs boot_nm = Ret (0, ops) nm' /\
    ops_retlen ops = 64 /\
    logic_byte (L := boot_lower) (nm_ni boot_nm) 64 = Some 255 /\
    logic_byte (L := boot_lower) (nm_ni nm') 64 = Some 0x5a.
Proof. eexists _, _. split; [vm_compute; reflexivity|]. split; [|split]; vm_compute; reflexivity. Qed.
