(* ===== verification/BoardRun.v ===== *)
(** * A board to apply the properties of the board code to

    A NAND flash of 128 MiB with blocks of 128 KiB, the partitions of the
    board, and concrete images and configurations in it. *)

From stdpp Require Import base numbers list strings option.
From Stdlib Require Import ZArith Lia.
From S2P Require Import Prelude NmbmTypes NmbmPhys NmbmNand Mtd NmbmMtd NmbmLower Strto Crc32 Image Flash Board DualImage MtdWorks Stage2 Stage2Spec NmbmCmd Upgrade UpgradeSpec Zyxel ZyxelSpec ZyxelData ZyxelBoot NmbmSim NmbmRun FirmwareRun.

Definition nand_mtd : mtd_info (M (Z -> Z)) := array_mtd (2 ^ 27) 0x20000 2048.

#[global] Instance nand_view : flash_view (Z -> Z) := array_view (2 ^ 27) 2048.

Lemma nand_works : mtd_works nand_mtd nand_view.
Proof.
  apply array_works; [lia|lia|by exists 64|by exists 17|by exists 1024].
Qed.

(** ** Partitions *)

Definition nand_parts (name : string) : option (Z * Z) :=
  if decide (name = "u-boot"%string) then Some (0, 0x80000)
  else if decide (name = "mrd"%string) then Some (0x100000, 0x80000)
  else if decide (name = "firmware"%string) then Some (0x180000, 0x2800000)
  else if decide (name = "firmware_1"%string) then Some (0x2980000, 0x2800000)
  else None.

#[global] Instance nand_board : flash_helper (Z -> Z) := board_flash nand_mtd nand_parts.
#[global] Instance nand_laws_ok : flash_laws nand_board nand_view := works_flash_laws (MW := nand_works) nand_parts.
#[global] Instance nand_steady : flash_steady nand_board nand_view := works_flash_steady (MW := nand_works) nand_parts.

(** [bootm] returns 0. *)
#[global] Instance nand_cmds : nmbm_cmd_env (Z -> Z) := {|
  get_mtd_device_nm name := if decide (name = chars "nmbm0") then Some (0, nand_mtd) else None;
  upper_by_index n := if n =? 0 then Some 0 else None;
  CMD_MTDPARTS := true;
  find_dev_and_part name :=
    if decide (name = chars "firmware") then Some (MTD_DEV_TYPE_NMBM, 0, 0x180000)
    else if decide (name = chars "firmware_1") then Some (MTD_DEV_TYPE_NMBM, 0, 0x2980000) else None;
  print_table _ _ := 0;
  CMD_FIT := false;
  bootm_maybe_autostart := ret 0
|}.

#[global] Instance nand_upgrade : upgrade_env (Z -> Z) := {|
  MTK_DUAL_IMAGE_SUPPORT := true;
  DUAL_PARTNAME_BACKUP := "firmware_1";
  CONFIG_ENV_IS_NOWHERE := false;
  confirm_yesno := true;
  get_mtk_board_nand_mtd := Some nand_mtd;
  CONFIG_MAX_U_BOOT_SIZE := Some 0x80000
|}.

Lemma nand_same_device : same_device.
Proof. done. Qed.

(** ** Contents *)

Definition blank_nand : Z -> Z := fun _ => 255.

Lemma blank_nand_usable : usable blank_nand.
Proof. done. Qed.

(** What lies within the flash can be read. *)
Lemma nand_read_run (s : Z -> Z) off buf :
  0 <= off -> 0 < zlen buf -> off + zlen buf <= 2 ^ 27 ->
  board_flash_read nand_mtd off buf s = Ret (0, map s (seqZ off (zlen buf))) s.
Proof.
  intros H0 Hl Hs. unfold board_flash_read, mtd_read. rewrite i64_small by lia.
  cbn [bind lift ret nand_mtd array_mtd mtd_size mtd_read_op].
  destruct (Z.ltb_spec off 0); [lia|]. destruct (Z.ltb_spec (2 ^ 27) off); [lia|].
  destruct (Z.ltb_spec (2 ^ 27 - off) (zlen buf)); [lia|]. destruct (Z.eqb_spec (zlen buf) 0); [lia|].
  cbn. by rewrite Z.eqb_refl.
Qed.

(** The block with the manufacturer's data can be read. *)
Lemma blank_mrd_readable : mrd_readable 0x100000 blank_nand.
Proof.
  unfold mrd_readable. eexists _, _. assert (E : zlen (fill 0 0x20000) = 0x20000) by (apply fill_zlen; lia).
  apply (nand_read_run blank_nand 0x100000 (fill 0 0x20000)); rewrite ?E; lia.
Qed.

(** The flash with [data] at [off]. *)
Lemma mem_put_usable (s : Z -> Z) off data : usable s -> Forall is_byte data -> usable (mem_put s off data).
Proof.
  intros Hu Hb i. unfold mem_put. destruct (znth data (i - off)) as [x|] eqn:Ex; [|apply Hu].
  unfold znth in Ex. destruct (_ <? 0); [done|]. rewrite Forall_lookup in Hb. by apply Hb in Ex.
Qed.

Lemma mem_put_holds (s : Z -> Z) off data : holds (mem_put s off data) off data.
Proof. intros i Hi. by apply mem_put_get. Qed.

(** A boot loader (or kernel) image of 104 bytes with room behind it. *)
Definition new_loader : list Z := make_image (fill 0x5a 40) ++ fill 0 100.

Lemma new_loader_bytes : Forall is_byte new_loader.
Proof. apply (by_decision _). vm_compute. reflexivity. Qed.

Lemma new_loader_intact : stage2_verdict new_loader 104 = Some 0.
Proof. vm_compute. reflexivity. Qed.

(** A stock boot loader whose first stage says that the second one starts at
    0x40000, aligned to erase blocks. *)
Definition stock_nand : Z -> Z :=
  mem_put blank_nand 0x80 (le_bytes 4 MTK_ROM_CFG_MAGIC ++ le_bytes 4 0x3ffc0 ++ le_bytes 4 0x20000).

Lemma stock_nand_usable : usable stock_nand.
Proof. apply mem_put_usable; [done|]. apply (by_decision _). vm_compute. reflexivity. Qed.

(** The new boot loader goes where the old second stage was. *)
Lemma stock_nand_place :
  match check_mtk_stock_stage2_info (Some nand_mtd) (Some 0x80000) stock_nand with
  | Ret stock _ => stock = Some (0x40000, 0x40000, 0x20000) /\ loader_place new_loader 104 stock = 0x40000
  | _ => False
  end.
Proof. vm_compute. split; reflexivity. Qed.

(** Image 1 is new, image 0 works. *)
Definition upgraded : dualImageInfo := mkDual 0 1 [mkImage SUCCESS_IMAGE 0 0; mkImage NEW_IMAGE 1 0].

Lemma upgraded_wf : dual_wf upgraded.
Proof. split; [|done]. eexists _, _. split; [reflexivity|]. by repeat split. Qed.

Definition upgraded_bytes : list Z := default [] (encode_bootconfig upgraded).

(** The kernel in the second firmware partition, the configuration stored. *)
Definition upgraded_nand : Z -> Z :=
  mem_put (mem_put blank_nand 0x2980000 (make_image (fill 0x5a 40))) BOOTCONFIG_OFFSET upgraded_bytes.

Lemma upgraded_stored : stored nand_view upgraded_nand upgraded.
Proof.
  split; [|exists upgraded_bytes; split; [reflexivity|apply mem_put_holds]].
  apply mem_put_usable; [apply mem_put_usable; [done|]|]; apply (by_decision _); vm_compute; reflexivity.
Qed.

Lemma mem_put_outside (s : Z -> Z) off data i : ~ off <= i < off + zlen data -> mem_put s off data i = s i.
Proof.
  intros Hn. unfold mem_put. destruct (znth data (i - off)) eqn:Ex; [|done]. apply znth_bounds in Ex. lia.
Qed.

(** The header of the kernel. *)
Definition kernel_header : list Z := take 64 (make_image (fill 0x5a 40)).

Lemma kernel_header_size : zlen kernel_header = 64 /\ zlen (make_image (fill 0x5a 40)) = 104 /\ zlen upgraded_bytes = 32.
Proof. vm_compute. auto. Qed.

Lemma kernel_boots : format_size kernel_header = Some 104.
Proof. vm_compute. reflexivity. Qed.

Lemma upgraded_image : image_at nand_view upgraded_nand 0x2980000 104.
Proof.
  destruct kernel_header_size as (Hk & Hm & Hu). split; [lia|]. split; [lia|].
  split; [cbn; lia|]. split; [unfold sizeof_image_header; cbn; lia|].
  exists kernel_header. split; [exact Hk|]. split; [|exact kernel_boots].
  assert (Hh : holds upgraded_nand 0x2980000 (make_image (fill 0x5a 40))); [|by apply holds_take].
  intros i Hi. cbn [byte_at nand_view array_view]. unfold upgraded_nand.
  rewrite (mem_put_outside _ BOOTCONFIG_OFFSET) by (rewrite Hu; unfold BOOTCONFIG_OFFSET; lia).
  exact (mem_put_holds blank_nand 0x2980000 (make_image (fill 0x5a 40)) i Hi).
Qed.

Lemma upgraded_apart : apart nand_mtd 0x2980000 104.
Proof.
  unfold apart, bootconfig_area, sizeof_image_header, BOOTCONFIG_OFFSET, BOOTCONFIG_SIZE. intros i Hi [_ [H1 _]].
  change (mtd_erasesize nand_mtd) with 0x20000 in *. assert (H2 : i / 0x20000 <= 0x2980067 / 0x20000) by (apply Z.div_le_mono; lia).
  change (0x7700000 / 0x20000) with 952 in H1. change (0x2980067 / 0x20000) with 332 in H2. lia.
Qed.

