(* ===== verification/BoardProps.v ===== *)
(** * The board code: properties

    Upgrading, starting firmware and the manufacturer's data: what
    cmd_mtkupgrade.c, zyxel_util.c, cmd_at.c, cmd/nmbm.c, spl_helper_nand.c and
    the library functions they use guarantee, each with a run it applies to. *)

From stdpp Require Import base numbers list strings option.
From Stdlib Require Import ZArith Lia.
From S2P Require Import Prelude IntLib NmbmTypes NmbmPhys NmbmState NmbmNand NmbmTable NmbmMgmt NmbmImage NmbmMapping NmbmLogic NmbmIO NmbmAttach Mtd NmbmMtd NmbmLower Strto Crc32 Image Flash Board NmbmFlash DualImage MtdWorks Stage2 Stage2Spec NmbmCmd Upgrade UpgradeSpec Zyxel ZyxelSpec ZyxelData ZyxelBoot NmbmSim NmbmRun FirmwareRun BoardRun.

Local Abbreviation es := mtk_board_get_flash_erase_size.

(** ** Starting firmware *)

(** C7 Starting the board without an argument runs the boot command with the
    image of the right partition in memory, byte for byte: the first image
    marked new, otherwise the configured one.  By then the flash already holds
    the configuration in which the new image counts as tried. *)
Theorem atgo_starts_chosen {S} {E : nmbm_cmd_env S} {FT : fit_library} (mtd : mtd_info (M S)) id (V : flash_view S)
    {MW : mtd_works mtd V} num off0 off1 d size (R : cmd_world S -> Prop) (z : zy_world S) :
  get_mtd_device_nm (chars "nmbm0") = Some (id, mtd) -> mtd_type mtd = MTD_DEV_TYPE_NMBM ->
  CMD_MTDPARTS = true -> upper_by_index num = Some id ->
  find_dev_and_part (chars "firmware") = Some (MTD_DEV_TYPE_NMBM, num, off0) ->
  find_dev_and_part (chars "firmware_1") = Some (MTD_DEV_TYPE_NMBM, num, off1) ->
  BOOTCONFIG_OFFSET + BOOTCONFIG_SIZE <= flash_size ->
  let off := firmware_off off0 off1 (chosen d) in
  stored V (dev z) d -> dual_wf d -> length (image (dualIMAGE z)) = 2%nat ->
  image_at V (dev z) off size -> apart mtd off size ->
  (forall w, handed_over V (dev z) d off size w -> wp bootm_maybe_autostart (fun _ w' => R w') w) ->
  wp (dumpDualImageInfoFromBootconfig;; do_atgo []) (fun r z' => r = CMD_RET_SUCCESS /\ R (zw_cmd z')) z.
Proof. intros Hd Ht Hp Hn H0 H1 Hf off. by apply (atgo_ok mtd id V Hd Ht Hp num off0 off1 Hn H0 H1 Hf). Qed.

Lemma atgo_starts_chosen_witness :
  let z := power_on (fun _ => 0) upgraded_nand in
  wp (dumpDualImageInfoFromBootconfig;; do_atgo []) (fun r z' =>
    r = CMD_RET_SUCCESS /\ handed_over nand_view upgraded_nand upgraded 0x2980000 104 (zw_cmd z')) z.
Proof.
  intros z. pose proof nand_works as MW. assert (Hfit : BOOTCONFIG_OFFSET + BOOTCONFIG_SIZE <= 2 ^ 27) by (vm_compute; congruence).
  apply (atgo_starts_chosen nand_mtd 0 nand_view 0 0x180000 0x2980000 upgraded 104 _ z);
    [reflexivity|reflexivity|reflexivity|reflexivity|vm_compute; reflexivity|vm_compute; reflexivity|exact Hfit|
     exact upgraded_stored|exact upgraded_wf|reflexivity|exact upgraded_image|exact upgraded_apart|].
  intros w Hw. apply wp_ret, Hw.
Defined.

(** C11 A new image is started once: however often the board is started
    again, with whatever in its memory, it chooses that image first and never
    again, unless it is the image that is configured. *)
Theorem new_image_started_once {S} {E : nmbm_cmd_env S} {FT : fit_library} (mtd : mtd_info (M S)) id (V : flash_view S)
    {MW : mtd_works mtd V} n mem mems s d :
  get_mtd_device_nm (chars "nmbm0") = Some (id, mtd) -> mtd_type mtd = MTD_DEV_TYPE_NMBM ->
  BOOTCONFIG_OFFSET + BOOTCONFIG_SIZE <= flash_size ->
  stored V s d -> dual_wf d -> first_new d = Some n -> bootImage d <> n ->
  wp (starts (mem :: mems)) (fun rs _ => exists later, rs = n :: later /\ n ∉ later) s.
Proof. intros Hd Ht Hf. apply (new_image_once mtd id V Hd Ht Hf). Qed.

Lemma new_image_started_once_witness :
  wp (starts [fun _ => 0; fun _ => 255; fun i => i mod 256]) (fun rs _ => exists later, rs = 1 :: later /\ 1 ∉ later) upgraded_nand.
Proof.
  pose proof nand_works as MW. assert (Hfit : BOOTCONFIG_OFFSET + BOOTCONFIG_SIZE <= 2 ^ 27) by (vm_compute; congruence).
  apply (new_image_started_once nand_mtd 0 nand_view 1 (fun _ => 0) [fun _ => 255; fun i => i mod 256] upgraded_nand upgraded);
    [reflexivity|reflexivity|exact Hfit|exact upgraded_stored|exact upgraded_wf|reflexivity|discriminate].
Defined.

(** C22 The boot configuration survives a restart: what
    [writeDualImageInfoToBootconfig] stores is what
    [dumpDualImageInfoFromBootconfig] finds after power-on, and only the erase
    blocks of the configuration change. *)
Theorem bootconfig_survives_restart {S} {E : nmbm_cmd_env S} {FT : fit_library} (mtd : mtd_info (M S)) id (V : flash_view S)
    {MW : mtd_works mtd V} (w : zy_world S) :
  get_mtd_device_nm (chars "nmbm0") = Some (id, mtd) -> mtd_type mtd = MTD_DEV_TYPE_NMBM ->
  BOOTCONFIG_OFFSET + BOOTCONFIG_SIZE <= flash_size -> usable (dev w) -> dual_wf (dualIMAGE w) ->
  wp writeDualImageInfoToBootconfig (fun _ w' => keeps (bootconfig_area mtd) (dev w) (dev w') /\
    forall mem, wp dumpDualImageInfoFromBootconfig (fun _ z => same_config (dualIMAGE w) (dualIMAGE z)) (power_on mem (dev w'))) w.
Proof.
  intros Hd Ht Hf Hu Hwf. eapply wp_conseq; [by eapply (write_bootconfig_ok mtd id V Hd Ht Hf)|].
  intros _ w' (Hst & _ & Hk). split; [done|]. intros mem.
  eapply wp_conseq; [by eapply (dump_bootconfig_ok mtd id V Hd Ht Hf)|]. by intros _ z (_ & _ & Hs).
Qed.

Lemma bootconfig_survives_restart_witness :
  wp writeDualImageInfoToBootconfig (fun _ w' => keeps (bootconfig_area nand_mtd) blank_nand (dev w') /\
    forall mem, wp dumpDualImageInfoFromBootconfig (fun _ z => same_config upgraded (dualIMAGE z)) (power_on mem (dev w')))
    (mkZy (mkCmd blank_nand (fun _ => 0) 0) upgraded 0).
Proof.
  pose proof nand_works as MW. assert (Hfit : BOOTCONFIG_OFFSET + BOOTCONFIG_SIZE <= 2 ^ 27) by (vm_compute; congruence).
  apply (bootconfig_survives_restart nand_mtd 0 nand_view (mkZy (mkCmd blank_nand (fun _ => 0) 0) upgraded 0));
    [reflexivity|reflexivity|exact Hfit|exact blank_nand_usable|exact upgraded_wf].
Defined.

(** ** Upgrading *)

(** C16 Storing new firmware: a partition that is not aligned or too small is
    refused and nothing changes; otherwise only the blocks of the image and
    the first block of the backup copy may change, and success means that the
    partition starts with the image, byte for byte. *)
Theorem write_firmware_correct {S} {F : flash_helper S} {V : flash_view S} {FL : flash_laws F V} {U : upgrade_env S}
    (s : S) mem size po ps :
  usable s -> get_mtd_part_info "firmware" = Some (po, ps) -> 0 <= po -> po + ps + es <= 2 ^ 32 ->
  (forall off sz, get_mtd_part_info DUAL_PARTNAME_BACKUP = Some (off, sz) -> 0 <= off < 2 ^ 64) ->
  0 < size <= zlen mem -> Forall is_byte mem -> mtk_board_get_flash_dev = true ->
  wp (write_data TYPE_FW mem size) (firmware_post s po ps mem size) s.
Proof. intros. by apply write_data_firmware_ok. Qed.

Lemma write_firmware_correct_witness :
  wp (write_data TYPE_FW new_loader 104) (firmware_post blank_nand 0x180000 0x2800000 new_loader 104) blank_nand.
Proof.
  apply (write_firmware_correct blank_nand new_loader 104 0x180000 0x2800000).
  - exact blank_nand_usable.
  - reflexivity.
  - lia.
  - vm_compute. congruence.
  - intros off sz Eq. vm_compute in Eq. injection Eq as <- <-. lia.
  - vm_compute. split; congruence.
  - exact new_loader_bytes.
  - reflexivity.
Defined.

(** C17 Storing a new boot loader: one whose second stage has a wrong checksum
    is refused and nothing changes.  Otherwise it goes to [loader_place]: a
    boot loader with a first stage, or without a second one, to the start of
    the flash, a second stage alone to where the search in the flash finds that
    of the stock boot loader, or to an erase block before it.  Only the blocks
    it needs there and those of the environment may change, and success means
    that it is there, byte for byte, unless the environment, which is erased
    last, lies in the same blocks.  The board's flash functions and the search
    work on the same MTD device. *)
Theorem write_bootloader_correct {S} {F : flash_helper S} {V : flash_view S} {FL : flash_laws F V} {FS : flash_steady F V}
    {U : upgrade_env S} (s : S) mem size verdict :
  usable s -> Forall is_byte mem -> 0 < size <= 2 ^ 31 -> size + 63 <= zlen mem -> 140 <= zlen mem ->
  same_device -> limit_ok -> stage2_verdict mem size = Some verdict ->
  wp (write_bootloader mem size) (fun r s' =>
    (verdict <> 0 -> r = CMD_RET_FAILURE /\ s' = s) /\
    exists stock s1, check_mtk_stock_stage2_info get_mtk_board_nand_mtd CONFIG_MAX_U_BOOT_SIZE s = Ret stock s1 /\
      bootloader_post s (loader_place mem size stock) mem size r s') s.
Proof. apply write_bootloader_ok. Qed.

Lemma write_bootloader_correct_witness :
  stage2_verdict new_loader 104 = Some 0 /\
  wp (write_bootloader new_loader 104) (fun r s' => bootloader_post stock_nand 0x40000 new_loader 104 r s') stock_nand.
Proof.
  split; [exact new_loader_intact|].
  eapply wp_conseq; [apply (write_bootloader_correct stock_nand new_loader 104 0)|].
  - exact stock_nand_usable.
  - exact new_loader_bytes.
  - lia.
  - vm_compute. congruence.
  - vm_compute. congruence.
  - exact nand_same_device.
  - vm_compute. split; congruence.
  - exact new_loader_intact.
  - intros r s' [_ (stock & s1 & Es & Hp)]. pose proof stock_nand_place as Hpl.
    change get_mtk_board_nand_mtd with (Some nand_mtd) in Es. change CONFIG_MAX_U_BOOT_SIZE with (Some 0x80000) in Es.
    rewrite Es in Hpl. destruct Hpl as [_ Hpl]. rewrite Hpl in Hp. exact Hp.
Defined.

(** [atnb] stores a boot loader only if it has an intact second stage and
    fits its partition, otherwise nothing changes; success means that the
    partition starts with it, byte for byte, and only the blocks of the
    partition it needs and of the environment have changed. *)
Theorem bootloader_write_correct {S} {F : flash_helper S} {V : flash_view S} {FL : flash_laws F V} {FS : flash_steady F V}
    {U : upgrade_env S} po ps (s : S) mem size :
  get_mtd_part_info PART_NAME_BOOTLOADER = Some (po, ps) -> mtk_board_get_flash_dev = true -> 0 <= po < 2 ^ 63 -> (es | po) ->
  usable s -> Forall is_byte mem -> 0 < size < 2 ^ 31 -> size + 63 <= zlen mem -> 140 <= zlen mem ->
  is_Some (stage2_verdict mem size) -> same_device -> limit_ok ->
  wp (bootloader_write true size mem) (loader_post po ps s mem size) s.
Proof. intros Hp Hd H0 Ha. by apply (bootloader_write_ok po ps Hp Hd H0 Ha). Qed.

Lemma bootloader_write_correct_witness :
  wp (bootloader_write true 104 new_loader) (loader_post 0 0x80000 blank_nand new_loader 104) blank_nand.
Proof.
  apply (bootloader_write_correct 0 0x80000 blank_nand new_loader 104).
  - reflexivity.
  - reflexivity.
  - lia.
  - apply Z.divide_0_r.
  - exact blank_nand_usable.
  - exact new_loader_bytes.
  - lia.
  - vm_compute. congruence.
  - vm_compute. congruence.
  - rewrite new_loader_intact. by exists 0.
  - exact nand_same_device.
  - vm_compute. split; congruence.
Defined.

(** C33 The search for the second stage in a boot loader always ends without
    reading beyond the memory behind it, whatever the header of the first
    stage says; what it finds is an image header with the right magic number
    and checksum, except where the first stage gives no alignment. *)
Theorem stage2_search_correct mem size :
  Forall is_byte mem -> 0 <= size <= 2 ^ 31 -> size + 63 <= zlen mem -> 140 <= zlen mem ->
  exists r, get_mtk_stage2_image_ptr mem size = Some r /\
    forall off, r = Some off -> header_at mem off \/ follows_unseen mem off.
Proof.
  intros Hb Hs Hm H1. destruct (get_stage2_total mem size Hb Hs Hm H1) as [r Er]. exists r. split; [done|].
  intros off ->. by eapply get_stage2_found.
Qed.

Lemma stage2_search_correct_witness :
  get_mtk_stage2_image_ptr new_loader 104 = Some (Some 0) /\
  exists r, get_mtk_stage2_image_ptr new_loader 104 = Some r /\
    forall off, r = Some off -> header_at new_loader off \/ follows_unseen new_loader off.
Proof.
  split; [vm_compute; reflexivity|]. apply stage2_search_correct.
  - exact new_loader_bytes.
  - lia.
  - vm_compute. congruence.
  - vm_compute. congruence.
Defined.

(** ** Manufacturer's data *)

(** What [mrd_write] stores is what [mrd_read] returns; a read that fails
    says so and returns the dummy data. *)
Theorem mrd_roundtrip {S} {F : flash_helper S} {V : flash_view S} {FL : flash_laws F V} po ps (s : S) m buf :
  get_mtd_part_info PART_NAME_MRD = Some (po, ps) -> mtk_board_get_flash_dev = true -> 0 <= po < 2 ^ 63 -> (es | po) ->
  sizeof_MRD <= es -> usable s -> zlen m = sizeof_MRD -> Forall is_byte m -> zlen buf = sizeof_MRD ->
  wp (mrd_write true m) (fun r s' => r = 0 ->
    wp (mrd_read true buf) (fun '(r', m') _ => r' = 0 /\ m' = m \/ r' < 0 /\ m' = dummy_mrd) s') s.
Proof. intros Hp Hd H0 Ha He. apply (mrd_write_read po ps Hp Hd H0 Ha He). Qed.

Lemma mrd_roundtrip_witness :
  wp (mrd_write true (fill 7 240)) (fun r s' => r = 0 ->
    wp (mrd_read true (fill 0 240)) (fun '(r', m') _ => r' = 0 /\ m' = fill 7 240 \/ r' < 0 /\ m' = dummy_mrd) s') blank_nand.
Proof.
  apply (mrd_roundtrip 0x100000 0x80000 blank_nand (fill 7 240) (fill 0 240)).
  - reflexivity.
  - reflexivity.
  - lia.
  - by exists 8.
  - vm_compute. congruence.
  - exact blank_nand_usable.
  - reflexivity.
  - apply Forall_replicate. done.
  - reflexivity.
Defined.

(** C29 [atwe] sets the MAC address: when it reports success, and then only,
    it restarts the board, and the flash holds the six bytes of the address.
    If the block with the manufacturer's data could be read, no other byte of
    the flash has changed; if it could not, the dummy data with the address has
    taken the place of the data.  Nothing outside that block changes in any
    case. *)
Theorem atwe_sets_mac_only {S} {F : flash_helper S} {V : flash_view S} {FL : flash_laws F V} {FS : flash_steady F V}
    po ps (s : S) mac :
  get_mtd_part_info PART_NAME_MRD = Some (po, ps) -> mtk_board_get_flash_dev = true -> 0 <= po < 2 ^ 63 -> (es | po) ->
  sizeof_MRD <= es -> usable s -> zlen mac = 12 ->
  wp (do_atwe true [mac]) (atwe_post po s mac) s.
Proof. intros Hp Hd H0 Ha He. apply (atwe_ok po ps Hp Hd H0 Ha He). Qed.

Lemma atwe_sets_mac_only_witness :
  parse_mac (chars "a0e4cb01fe02") = [0xa0; 0xe4; 0xcb; 0x01; 0xfe; 0x02] /\ mrd_readable 0x100000 blank_nand /\
  wp (do_atwe true [chars "a0e4cb01fe02"]) (atwe_post 0x100000 blank_nand (chars "a0e4cb01fe02")) blank_nand.
Proof.
  split; [vm_compute; reflexivity|]. split; [exact blank_mrd_readable|].
  apply (atwe_sets_mac_only 0x100000 0x80000 blank_nand (chars "a0e4cb01fe02")).
  - reflexivity.
  - reflexivity.
  - lia.
  - by exists 8.
  - vm_compute. congruence.
  - exact blank_nand_usable.
  - reflexivity.
Defined.

(** ** What the board code is built on *)



(** The checksum of the SPL header, computed byte by byte with the table
    [crc32_init] builds, is the polynomial division bit by bit, over the data
    and the bytes of its length. *)
Theorem crc32_cal_correct data :
  Forall is_byte data ->
  crc32_cal data = Z.lxor (crc_be_ref MT7621_IH_CRC_POLYNOMIAL 0 (data ++ length_bytes 4 (zlen data))) 0xffffffff.
Proof. apply crc32_cal_ref. Qed.

Lemma crc32_cal_correct_witness :
  crc32_cal [0x31; 0x32; 0x33; 0x34; 0x35; 0x36; 0x37; 0x38; 0x39] = 0x377a6011 /\
  crc32_cal [0x31; 0x32; 0x33; 0x34; 0x35; 0x36; 0x37; 0x38; 0x39] =
  Z.lxor (crc_be_ref MT7621_IH_CRC_POLYNOMIAL 0
    ([0x31; 0x32; 0x33; 0x34; 0x35; 0x36; 0x37; 0x38; 0x39] ++ length_bytes 4 9)) 0xffffffff.
Proof.
  split; [vm_compute; reflexivity|]. apply (crc32_cal_correct [0x31; 0x32; 0x33; 0x34; 0x35; 0x36; 0x37; 0x38; 0x39]).
  apply (by_decision _). reflexivity.
Defined.

(** Numbers survive the way through a command line: [simple_strtoull]
    reads what the board code prints with [0x%x]. *)
Theorem strtoull_roundtrip n :
  0 <= n < 2 ^ 64 -> exists m, simple_strtoull (print_0x n) 16 = (n, S m).
Proof. apply strtoull_print. Qed.

Lemma strtoull_roundtrip_witness : exists m, simple_strtoull (print_0x BOOTCONFIG_OFFSET) 16 = (BOOTCONFIG_OFFSET, S m).
Proof. apply (strtoull_roundtrip BOOTCONFIG_OFFSET). vm_compute. split; congruence. Defined.
