(* ===== verification/Md5.v ===== *)
(** * MD5: definitions

    lib/md5.c and include/u-boot/md5.h, which compute the checksum the recovery
    pages show, and the algorithm as RFC 1321 describes it.  The target is
    little-endian. *)

From stdpp Require Import base numbers list option.
From Stdlib Require Import ZArith Lia.
From S2P Require Import Prelude.

(** ** lib/md5.c *)

(** [in] and [in32] share their memory: 64 bytes. *)
Record MD5Context := mkMd5 {
  md_buf : list Z;
  md_bits0 : Z;
  md_bits1 : Z;
  md_in : list Z
}.

(** Words are read byte by byte and stored in the byte order of the target. *)
Fixpoint byteReverse (buf : list Z) (longs : nat) : list Z :=
  match longs, buf with
  | S n, b0 :: b1 :: b2 :: b3 :: r =>
      let t := Z.lor (u32 (Z.shiftl (Z.lor (Z.shiftl b3 8) b2) 16)) (Z.lor (Z.shiftl b1 8) b0) in
      le_bytes 4 t ++ byteReverse r n
  | _, _ => buf
  end.

Definition MD5Init (ctx : MD5Context) : MD5Context :=
  mkMd5 [0x67452301; 0xefcdab89; 0x98badcfe; 0x10325476] 0 0 (md_in ctx).

(** [~] of a 32-bit word. *)
Definition not32 (x : Z) : Z := u32 (Z.lnot x).

Definition F1 (x y z : Z) : Z := Z.lxor z (Z.land x (Z.lxor y z)).
Definition F2 (x y z : Z) : Z := F1 z x y.
Definition F3 (x y z : Z) : Z := Z.lxor (Z.lxor x y) z.
Definition F4 (x y z : Z) : Z := Z.lxor y (Z.lor x (not32 z)).

(** The new value of [w]. *)
Definition MD5STEP (f : Z -> Z -> Z -> Z) (w x y z data s : Z) : Z :=
  let w := u32 (w + u32 (f x y z + data)) in
  let w := Z.lor (u32 (Z.shiftl w s)) (Z.shiftr w (32 - s)) in
  u32 (w + x).

(** The local variable a step changes; its other arguments follow from it:
    [(a, b, c, d)], [(d, a, b, c)], [(c, d, a, b)] or [(b, c, d, a)]. *)
Inductive md5_var := Ra | Rb | Rc | Rd.

(** The 64 steps: function, variable, index in [in], constant, rotation. *)
Definition md5_steps : list ((Z -> Z -> Z -> Z) * md5_var * nat * Z * Z) :=
  [(F1, Ra, 0%nat, 0xd76aa478, 7); (F1, Rd, 1%nat, 0xe8c7b756, 12); (F1, Rc, 2%nat, 0x242070db, 17); (F1, Rb, 3%nat, 0xc1bdceee, 22);
   (F1, Ra, 4%nat, 0xf57c0faf, 7); (F1, Rd, 5%nat, 0x4787c62a, 12); (F1, Rc, 6%nat, 0xa8304613, 17); (F1, Rb, 7%nat, 0xfd469501, 22);
   (F1, Ra, 8%nat, 0x698098d8, 7); (F1, Rd, 9%nat, 0x8b44f7af, 12); (F1, Rc, 10%nat, 0xffff5bb1, 17); (F1, Rb, 11%nat, 0x895cd7be, 22);
   (F1, Ra, 12%nat, 0x6b901122, 7); (F1, Rd, 13%nat, 0xfd987193, 12); (F1, Rc, 14%nat, 0xa679438e, 17); (F1, Rb, 15%nat, 0x49b40821, 22);
   (F2, Ra, 1%nat, 0xf61e2562, 5); (F2, Rd, 6%nat, 0xc040b340, 9); (F2, Rc, 11%nat, 0x265e5a51, 14); (F2, Rb, 0%nat, 0xe9b6c7aa, 20);
   (F2, Ra, 5%nat, 0xd62f105d, 5); (F2, Rd, 10%nat, 0x02441453, 9); (F2, Rc, 15%nat, 0xd8a1e681, 14); (F2, Rb, 4%nat, 0xe7d3fbc8, 20);
   (F2, Ra, 9%nat, 0x21e1cde6, 5); (F2, Rd, 14%nat, 0xc33707d6, 9); (F2, Rc, 3%nat, 0xf4d50d87, 14); (F2, Rb, 8%nat, 0x455a14ed, 20);
   (F2, Ra, 13%nat, 0xa9e3e905, 5); (F2, Rd, 2%nat, 0xfcefa3f8, 9); (F2, Rc, 7%nat, 0x676f02d9, 14); (F2, Rb, 12%nat, 0x8d2a4c8a, 20);
   (F3, Ra, 5%nat, 0xfffa3942, 4); (F3, Rd, 8%nat, 0x8771f681, 11); (F3, Rc, 11%nat, 0x6d9d6122, 16); (F3, Rb, 14%nat, 0xfde5380c, 23);
   (F3, Ra, 1%nat, 0xa4beea44, 4); (F3, Rd, 4%nat, 0x4bdecfa9, 11); (F3, Rc, 7%nat, 0xf6bb4b60, 16); (F3, Rb, 10%nat, 0xbebfbc70, 23);
   (F3, Ra, 13%nat, 0x289b7ec6, 4); (F3, Rd, 0%nat, 0xeaa127fa, 11); (F3, Rc, 3%nat, 0xd4ef3085, 16); (F3, Rb, 6%nat, 0x04881d05, 23);
   (F3, Ra, 9%nat, 0xd9d4d039, 4); (F3, Rd, 12%nat, 0xe6db99e5, 11); (F3, Rc, 15%nat, 0x1fa27cf8, 16); (F3, Rb, 2%nat, 0xc4ac5665, 23);
   (F4, Ra, 0%nat, 0xf4292244, 6); (F4, Rd, 7%nat, 0x432aff97, 10); (F4, Rc, 14%nat, 0xab9423a7, 15); (F4, Rb, 5%nat, 0xfc93a039, 21);
   (F4, Ra, 12%nat, 0x655b59c3, 6); (F4, Rd, 3%nat, 0x8f0ccc92, 10); (F4, Rc, 10%nat, 0xffeff47d, 15); (F4, Rb, 1%nat, 0x85845dd1, 21);
   (F4, Ra, 8%nat, 0x6fa87e4f, 6); (F4, Rd, 15%nat, 0xfe2ce6e0, 10); (F4, Rc, 6%nat, 0xa3014314, 15); (F4, Rb, 13%nat, 0x4e0811a1, 21);
   (F4, Ra, 4%nat, 0xf7537e82, 6); (F4, Rd, 11%nat, 0xbd3af235, 10); (F4, Rc, 2%nat, 0x2ad7d2bb, 15); (F4, Rb, 9%nat, 0xeb86d391, 21)].

Definition md5_step (inw : list Z) (st : Z * Z * Z * Z) (row : (Z -> Z -> Z -> Z) * md5_var * nat * Z * Z) : Z * Z * Z * Z :=
  let '(a, b, c, d) := st in
  let '(f, v, k, t, s) := row in
  let data := u32 (nth k inw 0 + t) in
  match v with
  | Ra => (MD5STEP f a b c d data s, b, c, d)
  | Rd => (a, b, c, MD5STEP f d a b c data s)
  | Rc => (a, b, MD5STEP f c d a b data s, d)
  | Rb => (a, MD5STEP f b c d a data s, c, d)
  end.

Definition MD5Transform (buf inw : list Z) : list Z :=
  match buf with
  | [b0; b1; b2; b3] =>
      let '(a, b, c, d) := fold_left (md5_step inw) md5_steps (b0, b1, b2, b3) in
      [u32 (b0 + a); u32 (b1 + b); u32 (b2 + c); u32 (b3 + d)]
  | _ => buf
  end.

(** [byteReverse (ctx->in, 16); MD5Transform (ctx->buf, (__u32 * ) ctx->in)]. *)
Definition transform_in (buf bytes : list Z) : list Z * list Z :=
  let bytes := byteReverse bytes 16 in
  (MD5Transform buf (le_words bytes), bytes).

(** The loop over whole blocks, and what is left. *)
Fixpoint md5_blocks (fuel : nat) (ctx : MD5Context) (buf : list Z) (len : Z) : option MD5Context :=
  match fuel with
  | O => None
  | S fuel =>
      if 64 <=? len then
        d ← slice buf 0 64;
        bytes ← splice (md_in ctx) 0 d;
        let '(h, bytes) := transform_in (md_buf ctx) bytes in
        md5_blocks fuel (mkMd5 h (md_bits0 ctx) (md_bits1 ctx) bytes) (drop 64 buf) (len - 64)
      else
        d ← slice buf 0 len;
        bytes ← splice (md_in ctx) 0 d;
        Some (mkMd5 (md_buf ctx) (md_bits0 ctx) (md_bits1 ctx) bytes)
  end.

(** [None] is an access beyond [buf]. *)
Definition MD5Update (ctx : MD5Context) (buf : list Z) (len : Z) : option MD5Context :=
  let t := md_bits0 ctx in
  let bits0 := u32 (t + u32 (Z.shiftl len 3)) in
  let bits1 := if bits0 <? t then u32 (md_bits1 ctx + 1) else md_bits1 ctx in
  let bits1 := u32 (bits1 + Z.shiftr len 29) in
  let t := Z.land (Z.shiftr t 3) 0x3f in
  if negb (t =? 0) then
    let r := 64 - t in
    if len <? r then
      d ← slice buf 0 len;
      bytes ← splice (md_in ctx) t d;
      Some (mkMd5 (md_buf ctx) bits0 bits1 bytes)
    else
      d ← slice buf 0 r;
      bytes ← splice (md_in ctx) t d;
      let '(h, bytes) := transform_in (md_buf ctx) bytes in
      md5_blocks (S (Z.to_nat (len / 64))) (mkMd5 h bits0 bits1 bytes) (drop (Z.to_nat r) buf) (len - r)
  else md5_blocks (S (Z.to_nat (len / 64))) (mkMd5 (md_buf ctx) bits0 bits1 (md_in ctx)) buf len.

(** The digest; the context is cleared. *)
Definition MD5Final (ctx : MD5Context) : option (list Z * MD5Context) :=
  let count := Z.land (Z.shiftr (md_bits0 ctx) 3) 0x3f in
  bytes ← splice (md_in ctx) count [0x80];
  let p := count + 1 in
  let count := 64 - 1 - count in
  '(h, bytes) ← (if count <? 8 then
      bytes ← splice bytes p (fill 0 count);
      let '(h, bytes) := transform_in (md_buf ctx) bytes in
      bytes ← splice bytes 0 (fill 0 56);
      Some (h, bytes)
    else
      bytes ← splice bytes p (fill 0 (count - 8));
      Some (md_buf ctx, bytes));
  let bytes := byteReverse bytes 14 in
  bytes ← splice bytes 56 (le_bytes 4 (md_bits0 ctx));
  bytes ← splice bytes 60 (le_bytes 4 (md_bits1 ctx));
  let h := MD5Transform h (le_words bytes) in
  digest ← slice (byteReverse (words_bytes h) 4) 0 16;
  Some (digest, mkMd5 [0; 0; 0; 0] 0 0 (fill 0 64)).

(** The context on the stack has some contents before [MD5Init]. *)
Definition md5 (stack : MD5Context) (input : list Z) (len : Z) : option (list Z) :=
  ctx ← MD5Update (MD5Init stack) input (u32 len);
  '(output, _) ← MD5Final ctx;
  Some output.

(** The loop of [md5_wd]: [rest] is what is between [curr] and [end]. *)
Fixpoint md5_wd_chunks (fuel : nat) (ctx : MD5Context) (rest : list Z) (left chunk_sz : Z) : option MD5Context :=
  match fuel with
  | O => None
  | S fuel =>
      if 0 <? left then
        let chunk := if chunk_sz <? u32 left then i32 chunk_sz else left in
        ctx ← MD5Update ctx rest (u32 chunk);
        md5_wd_chunks fuel ctx (drop (Z.to_nat chunk) rest) (left - chunk) chunk_sz
      else Some ctx
  end.

(** [watchdog] is [CONFIG_HW_WATCHDOG] or [CONFIG_WATCHDOG]. *)
Definition md5_wd (watchdog : bool) (stack : MD5Context) (input : list Z) (len chunk_sz : Z) : option (list Z) :=
  ctx ← (if watchdog then md5_wd_chunks (S (Z.to_nat len)) (MD5Init stack) input len chunk_sz
         else MD5Update (MD5Init stack) input (u32 len));
  '(output, _) ← MD5Final ctx;
  Some output.

(** ** RFC 1321 *)

Module Rfc1321.

Definition F (x y z : Z) : Z := Z.lor (Z.land x y) (Z.land (not32 x) z).
Definition G (x y z : Z) : Z := Z.lor (Z.land x z) (Z.land y (not32 z)).
Definition H (x y z : Z) : Z := Z.lxor (Z.lxor x y) z.
Definition I (x y z : Z) : Z := Z.lxor y (Z.lor x (not32 z)).

Definition rotl (x s : Z) : Z := Z.lor (u32 (Z.shiftl x s)) (Z.shiftr x (32 - s)).

(** The integer part of [2^32 * abs (sin (i + 1))]. *)
Definition T : list Z :=
  [0xd76aa478; 0xe8c7b756; 0x242070db; 0xc1bdceee; 0xf57c0faf; 0x4787c62a; 0xa8304613; 0xfd469501;
   0x698098d8; 0x8b44f7af; 0xffff5bb1; 0x895cd7be; 0x6b901122; 0xfd987193; 0xa679438e; 0x49b40821;
   0xf61e2562; 0xc040b340; 0x265e5a51; 0xe9b6c7aa; 0xd62f105d; 0x02441453; 0xd8a1e681; 0xe7d3fbc8;
   0x21e1cde6; 0xc33707d6; 0xf4d50d87; 0x455a14ed; 0xa9e3e905; 0xfcefa3f8; 0x676f02d9; 0x8d2a4c8a;
   0xfffa3942; 0x8771f681; 0x6d9d6122; 0xfde5380c; 0xa4beea44; 0x4bdecfa9; 0xf6bb4b60; 0xbebfbc70;
   0x289b7ec6; 0xeaa127fa; 0xd4ef3085; 0x04881d05; 0xd9d4d039; 0xe6db99e5; 0x1fa27cf8; 0xc4ac5665;
   0xf4292244; 0x432aff97; 0xab9423a7; 0xfc93a039; 0x655b59c3; 0x8f0ccc92; 0xffeff47d; 0x85845dd1;
   0x6fa87e4f; 0xfe2ce6e0; 0xa3014314; 0x4e0811a1; 0xf7537e82; 0xbd3af235; 0x2ad7d2bb; 0xeb86d391].

(** Operation [i] of the four rounds: function, word of the block, rotation. *)
Definition operation (i : nat) : (Z -> Z -> Z -> Z) * nat * Z :=
  let pick l := nth (i mod 4) l 0 in
  match (i / 16)%nat with
  | 0%nat => (F, i, pick [7; 12; 17; 22])
  | 1%nat => (G, ((5 * i + 1) mod 16)%nat, pick [5; 9; 14; 20])
  | 2%nat => (H, ((3 * i + 5) mod 16)%nat, pick [4; 11; 16; 23])
  | _ => (I, ((7 * i) mod 16)%nat, pick [6; 10; 15; 21])
  end.

(** [a = b + ((a + f(b,c,d) + X[k] + T[i]) <<< s)], then the names move on. *)
Definition op (X : list Z) (st : Z * Z * Z * Z) (i : nat) : Z * Z * Z * Z :=
  let '(a, b, c, d) := st in
  let '(f, k, s) := operation i in
  (d, u32 (b + rotl (u32 (a + f b c d + nth k X 0 + nth i T 0)) s), b, c).

Definition block (st : Z * Z * Z * Z) (X : list Z) : Z * Z * Z * Z :=
  let '(a, b, c, d) := fold_left (op X) (seq 0 64) st in
  let '(a0, b0, c0, d0) := st in
  (u32 (a0 + a), u32 (b0 + b), u32 (c0 + c), u32 (d0 + d)).

Definition start : Z * Z * Z * Z := (0x67452301, 0xefcdab89, 0x98badcfe, 0x10325476).

(** A one bit, zero bits up to 448 modulo 512, the number of bits. *)
Definition pad (m : list Z) : list Z :=
  m ++ 0x80 :: fill 0 ((55 - zlen m) mod 64) ++ le_bytes 8 (8 * zlen m).

(** The first [n] blocks of 16 words. *)
Fixpoint blocks (n : nat) (st : Z * Z * Z * Z) (l : list Z) : Z * Z * Z * Z :=
  match n with
  | O => st
  | S n => blocks n (block st (le_words (take 64 l))) (drop 64 l)
  end.

Definition digest (m : list Z) : list Z :=
  let '(a, b, c, d) := blocks (length (pad m) / 64) start (pad m) in words_bytes [a; b; c; d].

End Rfc1321.
