(* ===== verification/Md5Spec.v ===== *)
(** * MD5: correctness

    The code computes the digest of RFC 1321, in however many pieces the
    message is passed. *)

From stdpp Require Import base numbers list option.
From Stdlib Require Import ZArith Lia.
From S2P Require Import Prelude Md5.
Import Rfc1321.

(** ** The transformation *)

Definition word (x : Z) : Prop := 0 <= x < 2 ^ 32.

Lemma word_bit x i : word x -> 32 <= i -> Z.testbit x i = false.
Proof. intros Hx Hi. rewrite <- (Z.mod_small x (2 ^ 32)) by exact Hx. apply Z.mod_pow2_bits_high. lia. Qed.

Lemma not32_bit x i : 0 <= i -> Z.testbit (not32 x) i = (i <? 32) && negb (Z.testbit x i).
Proof.
  intros Hi. unfold not32, u32. destruct (Z.ltb_spec i 32).
  - by rewrite Z.mod_pow2_bits_low, Z.lnot_spec by lia.
  - by rewrite Z.mod_pow2_bits_high by lia.
Qed.

Ltac bits :=
  apply Z.bits_inj'; intros i Hi; rewrite ?Z.lxor_spec, ?Z.lor_spec, ?Z.land_spec, ?Z.lxor_spec, ?not32_bit by done;
  destruct (Z.ltb_spec i 32); [|rewrite ?(word_bit _ i) by done]; cbn [andb];
  repeat match goal with |- context [Z.testbit ?x i] => destruct (Z.testbit x i) end; reflexivity.

(** The cheaper form of the choice. *)
Lemma F1_ok x y z : word x -> word y -> word z -> F1 x y z = F x y z.
Proof. intros. unfold F1, F. bits. Qed.

Lemma F2_ok x y z : word x -> word y -> word z -> F2 x y z = G x y z.
Proof. intros. unfold F2, F1, G. bits. Qed.

Lemma MD5STEP_ok f g w x y z v t s :
  f x y z = g x y z -> MD5STEP f w x y z (u32 (v + t)) s = u32 (x + rotl (u32 (w + g x y z + v + t)) s).
Proof.
  intros Hf. unfold MD5STEP, rotl. rewrite Hf. assert (E : u32 (w + u32 (g x y z + u32 (v + t))) = u32 (w + g x y z + v + t)).
  { unfold u32. rewrite Zplus_mod_idemp_r, Z.add_assoc, Zplus_mod_idemp_r. f_equal. lia. }
  rewrite E. f_equal. lia.
Qed.

Definition words4 (st : Z * Z * Z * Z) : Prop := let '(a, b, c, d) := st in word a /\ word b /\ word c /\ word d.

(** Four steps, after which the variables are where they were. *)
Lemma four_steps X f g k0 k1 k2 k3 t0 t1 t2 t3 s0 s1 s2 s3 i rows l st :
  (forall x y z, word x -> word y -> word z -> f x y z = g x y z) ->
  operation i = (g, k0, s0) -> operation (i + 1) = (g, k1, s1) -> operation (i + 2) = (g, k2, s2) -> operation (i + 3) = (g, k3, s3) ->
  nth i T 0 = t0 -> nth (i + 1) T 0 = t1 -> nth (i + 2) T 0 = t2 -> nth (i + 3) T 0 = t3 ->
  words4 st ->
  (forall st, words4 st -> words4 (fold_left (md5_step X) rows st) /\ fold_left (md5_step X) rows st = fold_left (op X) l st) ->
  words4 (fold_left (md5_step X) ((f, Ra, k0, t0, s0) :: (f, Rd, k1, t1, s1) :: (f, Rc, k2, t2, s2) :: (f, Rb, k3, t3, s3) :: rows) st) /\
  fold_left (md5_step X) ((f, Ra, k0, t0, s0) :: (f, Rd, k1, t1, s1) :: (f, Rc, k2, t2, s2) :: (f, Rb, k3, t3, s3) :: rows) st =
  fold_left (op X) (i :: (i + 1) :: (i + 2) :: (i + 3) :: l)%nat st.
Proof.
  intros Hf O0 O1 O2 O3 T0 T1 T2 T3 Hst IH. destruct st as [[[a b] c] d]. destruct Hst as (Ha & Hb & Hc & Hd). cbn [fold_left].
  unfold op at 2 3 4 5. rewrite O0, O1, O2, O3, T0, T1, T2, T3. unfold md5_step at 2 3 4 5 7 8 9 10.
  assert (Hw : forall x, word (u32 x)) by apply u32_range.
  rewrite (MD5STEP_ok f g a) by (apply Hf; assumption). set (a' := u32 _). assert (Ha' : word a') by apply Hw.
  rewrite (MD5STEP_ok f g d) by (apply Hf; assumption). set (d' := u32 _). assert (Hd' : word d') by apply Hw.
  rewrite (MD5STEP_ok f g c) by (apply Hf; assumption). set (c' := u32 _). assert (Hc' : word c') by apply Hw.
  rewrite (MD5STEP_ok f g b) by (apply Hf; assumption). apply IH. split_and!; try assumption. apply Hw.
Qed.

Lemma md5_steps_ok X st : words4 st ->
  words4 (fold_left (md5_step X) md5_steps st) /\ fold_left (md5_step X) md5_steps st = fold_left (op X) (seq 0 64) st.
Proof.
  revert st. unfold md5_steps. cbn [seq].
  do 16 (intros st Hst; eapply four_steps; [first [exact F1_ok|exact F2_ok|reflexivity]|reflexivity..|exact Hst|]; clear st Hst).
  intros st Hst. by split.
Qed.

Definition regs (st : Z * Z * Z * Z) : list Z := let '(a, b, c, d) := st in [a; b; c; d].

Lemma block_words st X : words4 (block st X).
Proof. unfold block. destruct (fold_left _ _ _) as [[[a b] c] d], st as [[[a0 b0] c0] d0]. split_and!; apply u32_range. Qed.

Lemma MD5Transform_ok st X : words4 st -> MD5Transform (regs st) X = regs (block st X).
Proof.
  intros Hst. destruct (md5_steps_ok X st Hst) as [_ E]. unfold block. rewrite <- E. destruct st as [[[a0 b0] c0] d0]. unfold MD5Transform, regs.
  by destruct (fold_left _ _ _) as [[[a b] c] d].
Qed.

(** On a little-endian machine nothing has to be reversed. *)
Lemma byteReverse_id l n : Forall is_byte l -> byteReverse l n = l.
Proof.
  revert l. induction n as [|n IH]; intros l Hl; [by destruct l|]. destruct l as [|b0 [|b1 [|b2 [|b3 r]]]]; try done. cbn [byteReverse].
  do 4 (apply Forall_cons_1 in Hl as [? Hl]). rewrite IH by done. unfold is_byte in *.
  rewrite (lor_shiftl_add b3 b2 8) by lia. rewrite (lor_shiftl_add b1 b0 8) by lia.
  rewrite u32_small by (rewrite Z.shiftl_mul_pow2; lia). rewrite (lor_shiftl_add _ _ 16) by lia.
  replace ((b3 * 2 ^ 8 + b2) * 2 ^ 16 + (b1 * 2 ^ 8 + b0)) with (le_value [b0; b1; b2; b3]) by (cbn; lia).
  change 4%nat with (length [b0; b1; b2; b3]). rewrite le_bytes_le_value; [done|]. repeat first [apply Forall_nil_2|apply Forall_cons_2; [done|]].
Qed.

Lemma transform_in_ok st l : words4 st -> Forall is_byte l -> transform_in (regs st) l = (regs (block st (le_words l)), l).
Proof. intros Hst Hl. unfold transform_in. by rewrite byteReverse_id, MD5Transform_ok. Qed.

(** ** Blocks *)

Lemma blocks_words n st l : words4 st -> words4 (blocks n st l).
Proof. revert st l. induction n as [|n IH]; intros st l H; [done|]. cbn [blocks]. apply IH, block_words. Qed.

Lemma blocks_app n k st l1 l2 : length l1 = (64 * n)%nat -> blocks (n + k) st (l1 ++ l2) = blocks k (blocks n st l1) l2.
Proof.
  revert st l1. induction n as [|n IH]; intros st l1 Hl.
  - destruct l1; [done|]. cbn in Hl. lia.
  - cbn [Nat.add blocks]. rewrite take_app_le, drop_app_le by lia. apply IH. rewrite length_drop. lia.
Qed.

Lemma blocks_prefix n st l1 l2 : length l1 = (64 * n)%nat -> blocks n st (l1 ++ l2) = blocks n st l1.
Proof. intros Hl. rewrite <- (Nat.add_0_r n) at 1. by rewrite blocks_app. Qed.

(** [inn] starts with [t]. *)
Definition buffered (inn t : list Z) : Prop := length inn = 64%nat /\ Forall is_byte inn /\ exists junk, inn = t ++ junk.

Lemma buffered_splice inn t d inn' :
  buffered inn t -> Forall is_byte d -> splice inn (zlen t) d = Some inn' -> buffered inn' (t ++ d).
Proof.
  intros (Hl & Hb & junk & ->) Hd Hs. apply splice_inv in Hs as (H1 & H2 & ->). rewrite take_zlen.
  rewrite zlen_app in H2. apply Forall_app in Hb as [Hbt Hbj]. unfold zlen in *. rewrite length_app in Hl.
  split_and!; [rewrite !length_app, length_drop, length_app; lia| |by eexists; rewrite <- app_assoc].
  rewrite drop_app_ge by lia. apply Forall_app; split; [done|]. apply Forall_app; split; [done|]. by apply Forall_drop.
Qed.

(** [memmove] behind what is there. *)
Lemma put inn t d : buffered inn t -> Forall is_byte d -> zlen t + zlen d <= 64 ->
  exists inn', splice inn (zlen t) d = Some inn' /\ buffered inn' (t ++ d).
Proof.
  intros Hin Hd Hl. destruct (splice inn (zlen t) d) as [inn'|] eqn:E.
  - exists inn'. split; [done|]. by eapply buffered_splice.
  - rewrite splice_some in E; [done|apply zlen_nonneg|]. destruct Hin as [Hin _]. unfold zlen in *. lia.
Qed.

Lemma buffered_nil inn t : buffered inn t -> buffered inn [].
Proof. intros (H1 & H2 & _). split_and!; [done|done|by exists inn]. Qed.

Lemma buffered_full inn b : buffered inn b -> length b = 64%nat -> inn = b.
Proof. intros (Hl & _ & junk & ->) Hb. rewrite length_app in Hl. destruct junk; [by rewrite app_nil_r|cbn [length] in Hl; lia]. Qed.

Definition rest (l : list Z) : list Z := drop (64 * (length l / 64)) l.

Lemma md5_blocks_ok fuel d extra st b0 b1 inn t0 :
  words4 st -> buffered inn t0 -> Forall is_byte d -> (length d / 64 < fuel)%nat ->
  exists inn', md5_blocks fuel (mkMd5 (regs st) b0 b1 inn) (d ++ extra) (zlen d) = Some (mkMd5 (regs (blocks (length d / 64) st d)) b0 b1 inn') /\
    buffered inn' (rest d).
Proof.
  revert d st inn t0. induction fuel as [|fuel IH]; intros d st inn t0 Hst Hin Hd Hf; [lia|]. cbn [md5_blocks md_in md_buf md_bits0 md_bits1].
  apply buffered_nil in Hin. pose proof (zlen_nonneg extra).
  pose proof (Nat.div_mod_eq (length d) 64) as Hq. pose proof (Nat.mod_upper_bound (length d) 64 ltac:(lia)).
  destruct (Z.leb_spec 64 (zlen d)) as [Hge|Hlt].
  - unfold zlen in Hge. set (h := take 64 d). set (r := drop 64 d). assert (Ed : d = h ++ r) by (symmetry; apply take_drop).
    assert (Hh : length h = 64%nat) by (unfold h; rewrite length_take; lia). assert (Hr : length r = (length d - 64)%nat) by apply length_drop.
    pose proof (Nat.div_mod_eq (length r) 64). pose proof (Nat.mod_upper_bound (length r) 64 ltac:(lia)).
    assert (Eq : (length d / 64 = 1 + length r / 64)%nat) by lia.
    rewrite slice_some by (rewrite ?zlen_app; unfold zlen in *; lia). change (Z.to_nat 64) with 64%nat.
    rewrite drop_0, take_app_le by lia. fold h. cbn [mbind option_bind].
    destruct (put inn [] h Hin) as (inn1 & E1 & Hin1); [by apply Forall_take|change (zlen (@nil Z)) with 0; unfold zlen; lia|].
    change (zlen (@nil Z)) with 0 in E1. rewrite E1. cbn [mbind option_bind]. rewrite transform_in_ok by (done || apply Hin1).
    rewrite drop_app_le by lia. fold r. replace (zlen d - 64) with (zlen r) by (unfold zlen; lia).
    destruct (IH r (block st (le_words inn1)) inn1 h) as (inn' & E' & Hin'); [apply block_words|exact Hin1|by apply Forall_drop|lia|].
    exists inn'. rewrite E'. split.
    + rewrite Eq. rewrite Ed at 1. rewrite blocks_app by lia. cbn [blocks]. rewrite take_ge by lia. by rewrite (buffered_full inn1 h).
    + unfold rest in *. rewrite Eq. replace (64 * (1 + length r / 64))%nat with (64 + 64 * (length r / 64))%nat by lia. by rewrite <- drop_drop.
  - unfold zlen in Hlt. assert (Eq : (length d / 64 = 0)%nat) by lia.
    rewrite slice_some by (rewrite ?zlen_app; unfold zlen in *; lia). rewrite drop_0, take_zlen. cbn [mbind option_bind].
    destruct (put inn [] d Hin) as (inn1 & E1 & Hin1); [done|change (zlen (@nil Z)) with 0; unfold zlen; lia|].
    change (zlen (@nil Z)) with 0 in E1. rewrite E1. cbn [mbind option_bind]. exists inn1. unfold rest. rewrite Eq. split; [done|].
    cbn [Nat.mul]. by rewrite drop_0.
Qed.

(** ** Contexts *)

(** The message so far is [m]. *)
Record absorbed (m : list Z) (ctx : MD5Context) : Prop := {
  ab_buf : md_buf ctx = regs (blocks (length m / 64) start m);
  ab_in : buffered (md_in ctx) (rest m);
  ab_bits0 : word (md_bits0 ctx);
  ab_bits1 : word (md_bits1 ctx);
  ab_bits : md_bits0 ctx + 2 ^ 32 * md_bits1 ctx = (8 * zlen m) mod 2 ^ 64
}.

Lemma start_words : words4 start.
Proof. repeat split; vm_compute; congruence. Qed.

Lemma MD5Init_ok stack : length (md_in stack) = 64%nat -> Forall is_byte (md_in stack) -> absorbed [] (MD5Init stack).
Proof. intros Hl Hb. constructor; try done. split_and!; [done|done|]. by exists (md_in stack). Qed.

(** The bytes of the message that are in the buffer. *)
Lemma zlen_rest m : zlen (rest m) = zlen m mod 64.
Proof.
  unfold rest, zlen. change 64 with (Z.of_nat 64). rewrite length_drop, <- (Nat2Z.inj_mod (length m) 64). f_equal.
  pose proof (Nat.div_mod_eq (length m) 64). lia.
Qed.

Lemma in_buffer m b0 b1 : word b0 -> word b1 -> b0 + 2 ^ 32 * b1 = (8 * zlen m) mod 2 ^ 64 -> Z.land (Z.shiftr b0 3) 0x3f = zlen (rest m).
Proof.
  intros H0 H1 E. rewrite zlen_rest. change 0x3f with (Z.ones 6). rewrite Z.land_ones, Z.shiftr_div_pow2 by lia.
  pose proof (Z.div_mod (8 * zlen m) (2 ^ 64) ltac:(lia)) as Hd. rewrite <- E in Hd. set (k := 8 * zlen m / 2 ^ 64) in *.
  assert (E0 : b0 = (zlen m - 2 ^ 61 * k - 2 ^ 29 * b1) * 8) by lia. rewrite E0. change (2 ^ 3) with 8. rewrite Z.div_mul by lia.
  change (2 ^ 6) with 64. replace (zlen m - 2 ^ 61 * k - 2 ^ 29 * b1) with (zlen m + (- 2 ^ 55 * k - 2 ^ 23 * b1) * 64) by lia.
  by rewrite Z_mod_plus_full.
Qed.

(** The 64-bit count of bits, with its carry. *)
Lemma count_bits L len t b :
  word t -> word b -> 0 <= len < 2 ^ 32 -> t + 2 ^ 32 * b = (8 * L) mod 2 ^ 64 ->
  let t' := u32 (t + u32 (Z.shiftl len 3)) in
  let b' := u32 ((if t' <? t then u32 (b + 1) else b) + Z.shiftr len 29) in
  word t' /\ word b' /\ t' + 2 ^ 32 * b' = (8 * (L + len)) mod 2 ^ 64.
Proof.
  intros Ht Hb Hl E t' b'. split_and!; [apply u32_range|apply u32_range|]. unfold word in *.
  assert (Elo : u32 (Z.shiftl len 3) = 8 * len - 2 ^ 32 * (len / 2 ^ 29)).
  { unfold u32. rewrite Z.shiftl_mul_pow2 by lia. symmetry. apply (Z.mod_unique _ _ (len / 2 ^ 29)).
    - left. pose proof (Z.div_mod len (2 ^ 29) ltac:(lia)). pose proof (Z.mod_pos_bound len (2 ^ 29) ltac:(lia)). lia.
    - lia. }
  assert (Hhi : 0 <= len / 2 ^ 29 < 8) by (split; [apply Z.div_pos; lia|apply Z.div_lt_upper_bound; lia]).
  assert (Ehi : Z.shiftr len 29 = len / 2 ^ 29) by (apply Z.shiftr_div_pow2; lia). set (hi := len / 2 ^ 29) in *. pose proof (u32_range (Z.shiftl len 3)) as Hlo. rewrite Elo in Hlo.
  assert (Hc : exists c, (c = 0 \/ c = 1) /\ t' = t + 8 * len - 2 ^ 32 * hi - 2 ^ 32 * c /\ (t' <? t) = (c =? 1)).
  { unfold t'. rewrite Elo. destruct (Z_lt_le_dec (t + (8 * len - 2 ^ 32 * hi)) (2 ^ 32)).
    - exists 0. rewrite u32_small by lia. split_and!; [auto|lia|]. destruct (Z.ltb_spec (t + (8 * len - 2 ^ 32 * hi)) t); [lia|done].
    - exists 1. assert (Et : u32 (t + (8 * len - 2 ^ 32 * hi)) = t + (8 * len - 2 ^ 32 * hi) - 2 ^ 32).
      { unfold u32. symmetry. apply (Z.mod_unique _ _ 1); [left; lia|lia]. }
      rewrite Et. split_and!; [auto|lia|]. destruct (Z.ltb_spec (t + (8 * len - 2 ^ 32 * hi) - 2 ^ 32) t); [done|lia]. }
  destruct Hc as (c & Hc & Et & Ec).
  assert (Eb : exists k, b' = b + c + hi - 2 ^ 32 * k).
  { unfold b'. rewrite Ec, Ehi. destruct Hc as [-> | ->]; cbn [Z.eqb Pos.eqb]; unfold u32; rewrite ?Zplus_mod_idemp_l;
      [exists ((b + hi) / 2 ^ 32); pose proof (Z.div_mod (b + hi) (2 ^ 32) ltac:(lia))|
       exists ((b + 1 + hi) / 2 ^ 32); pose proof (Z.div_mod (b + 1 + hi) (2 ^ 32) ltac:(lia))]; lia. }
  destruct Eb as (k & Eb). pose proof (u32_range (t + u32 (Z.shiftl len 3))) as Ht'. fold t' in Ht'.
  assert (Hb' : 0 <= b' < 2 ^ 32) by apply u32_range.
  pose proof (Z.div_mod (8 * L) (2 ^ 64) ltac:(lia)) as Hd. rewrite <- E in Hd.
  apply (Z.mod_unique _ _ (8 * L / 2 ^ 64 + k)); [left; lia|]. rewrite Eb, Et. lia.
Qed.

(** The message so far and another piece of it. *)
Lemma absorb_split m d :
  let q := (length m / 64)%nat in
  blocks (length (m ++ d) / 64) start (m ++ d) = blocks (length (rest m ++ d) / 64) (blocks q start m) (rest m ++ d) /\
  rest (m ++ d) = rest (rest m ++ d).
Proof.
  intros q. pose proof (Nat.div_mod_eq (length m) 64) as Hm. pose proof (Nat.mod_upper_bound (length m) 64 ltac:(lia)). fold q in Hm.
  set (h := take (64 * q) m). assert (Hh : length h = (64 * q)%nat) by (unfold h; rewrite length_take; lia).
  assert (Em : m = h ++ rest m) by (symmetry; apply take_drop). set (r := rest m) in *.
  pose proof (Nat.div_mod_eq (length (m ++ d)) 64). pose proof (Nat.mod_upper_bound (length (m ++ d)) 64 ltac:(lia)).
  pose proof (Nat.div_mod_eq (length (r ++ d)) 64). pose proof (Nat.mod_upper_bound (length (r ++ d)) 64 ltac:(lia)).
  assert (El : length (m ++ d) = (64 * q + length (r ++ d))%nat) by (rewrite Em at 1; rewrite !length_app; lia).
  assert (Eq : (length (m ++ d) / 64 = q + length (r ++ d) / 64)%nat) by lia.
  split.
  - rewrite Eq. rewrite Em at 1. rewrite <- app_assoc, blocks_app by done. f_equal. rewrite Em at 1. by rewrite blocks_prefix.
  - unfold rest at 1 2. rewrite Eq. replace (64 * (q + length (r ++ d) / 64))%nat with (64 * q + 64 * (length (r ++ d) / 64))%nat by lia.
    rewrite <- drop_drop. f_equal. rewrite Em at 1. by rewrite <- app_assoc, <- Hh, drop_app_length.
Qed.

(** A whole block in front. *)
Lemma blocks_first st b l : length b = 64%nat ->
  blocks (length (b ++ l) / 64) st (b ++ l) = blocks (length l / 64) (block st (le_words b)) l /\ rest (b ++ l) = rest l.
Proof.
  intros Hb. pose proof (Nat.div_mod_eq (length l) 64). pose proof (Nat.mod_upper_bound (length l) 64 ltac:(lia)).
  assert (El : length (b ++ l) = (64 + length l)%nat) by (rewrite length_app; lia).
  pose proof (Nat.div_mod_eq (length (b ++ l)) 64). pose proof (Nat.mod_upper_bound (length (b ++ l)) 64 ltac:(lia)).
  assert (Eq : (length (b ++ l) / 64 = 1 + length l / 64)%nat) by lia. unfold rest. rewrite Eq. split.
  - rewrite blocks_app by lia. cbn [blocks]. by rewrite take_ge by lia.
  - replace (64 * (1 + length l / 64))%nat with (64 + 64 * (length l / 64))%nat by lia. rewrite <- drop_drop. by rewrite drop_app_length' by done.
Qed.

Lemma short_rest l : (length l < 64)%nat -> (length l / 64 = 0)%nat /\ rest l = l.
Proof. intros Hl. unfold rest. rewrite Nat.div_small by done. split; [done|]. by rewrite Nat.mul_0_r, drop_0. Qed.

Lemma fuel_ok (d : list Z) n : zlen d <= n -> (length d / 64 < Datatypes.S (Z.to_nat (n / 64)))%nat.
Proof.
  intros Hn. unfold zlen in Hn. assert (Z.of_nat (length d / 64) <= n / 64); [|lia].
  rewrite Nat2Z.inj_div. change (Z.of_nat 64) with 64. apply Z.div_le_mono; lia.
Qed.

Lemma MD5Update_ok m ctx d extra :
  absorbed m ctx -> Forall is_byte d -> zlen d < 2 ^ 32 -> exists ctx', MD5Update ctx (d ++ extra) (zlen d) = Some ctx' /\ absorbed (m ++ d) ctx'.
Proof.
  intros [Hbuf Hin H0 H1 Hbits] Hd Hlen. pose proof (zlen_nonneg d). pose proof (zlen_nonneg extra). unfold MD5Update. rewrite (in_buffer m _ _ H0 H1 Hbits).
  destruct (count_bits (zlen m) (zlen d) (md_bits0 ctx) (md_bits1 ctx)) as (Hw0 & Hw1 & Hb'); [done|done|lia|done|]. rewrite <- zlen_app in Hb'.
  set (b0 := u32 (md_bits0 ctx + _)) in *. set (b1 := u32 (_ + Z.shiftr (zlen d) 29)) in *.
  destruct (absorb_split m d) as [Eb Er]. set (st := blocks (length m / 64) start m) in *. assert (Hst : words4 st) by apply blocks_words, start_words.
  pose proof (zlen_rest m) as Ht. pose proof (Z.mod_pos_bound (zlen m) 64 ltac:(lia)) as Htb.
  assert (Hdone : forall inn', buffered inn' (rest (rest m ++ d)) ->
    absorbed (m ++ d) (mkMd5 (regs (blocks (length (rest m ++ d) / 64) st (rest m ++ d))) b0 b1 inn')).
  { intros inn' Hinn. constructor; cbn [md_buf md_in md_bits0 md_bits1]; [by rewrite Eb|by rewrite Er|done..]. }
  destruct (Z.eqb_spec (zlen (rest m)) 0) as [Ez|Enz]; cbn [negb].
  - assert (Em : rest m = []) by (destruct (rest m); [done|]; unfold zlen in Ez; cbn in Ez; lia). rewrite Em in *.
    rewrite Hbuf. destruct (md5_blocks_ok (Datatypes.S (Z.to_nat (zlen d / 64))) d extra st b0 b1 (md_in ctx) []) as (inn' & E & Hin'); try done.
    { by apply fuel_ok. }
    rewrite E. eexists. split; [done|]. by apply Hdone.
  - destruct (Z.ltb_spec (zlen d) (64 - zlen (rest m))) as [Hlt|Hge].
    + rewrite slice_some by (rewrite ?zlen_app; lia). rewrite drop_0, take_zlen. cbn [mbind option_bind].
      destruct (put (md_in ctx) (rest m) d Hin Hd) as (inn' & E & Hin'); [lia|]. rewrite E. cbn [mbind option_bind]. eexists. split; [done|].
      rewrite Hbuf. destruct (short_rest (rest m ++ d)) as [Eq Er'].
      { rewrite length_app. unfold zlen in *. lia. }
      specialize (Hdone inn'). rewrite Eq in Hdone. apply Hdone. by rewrite Er'.
    + set (r := 64 - zlen (rest m)) in *. set (d1 := take (Z.to_nat r) d). set (d2 := drop (Z.to_nat r) d).
      assert (Ed : d = d1 ++ d2) by (symmetry; apply take_drop). assert (Hd1 : zlen d1 = r) by (unfold d1, zlen in *; rewrite length_take; lia).
      rewrite slice_some by (rewrite ?zlen_app; lia). rewrite drop_0, take_app_le by (unfold zlen in *; lia). fold d1. cbn [mbind option_bind].
      assert (Hbd : Forall is_byte d1 /\ Forall is_byte d2) by (apply Forall_app; by rewrite <- Ed). destruct Hbd as [Hbd1 Hbd2].
      destruct (put (md_in ctx) (rest m) d1 Hin Hbd1) as (inn1 & E & Hin1); [lia|]. rewrite E. cbn [mbind option_bind].
      assert (Hfull : length (rest m ++ d1) = 64%nat) by (rewrite length_app; unfold zlen in *; lia).
      rewrite Hbuf, transform_in_ok by (done || apply Hin1). rewrite drop_app_le by (unfold zlen in *; lia). fold d2.
      assert (Hd2 : zlen d - r = zlen d2) by (rewrite Ed, zlen_app; lia). rewrite Hd2.
      destruct (md5_blocks_ok (Datatypes.S (Z.to_nat (zlen d / 64))) d2 extra (block st (le_words inn1)) b0 b1 inn1 (rest m ++ d1)) as (inn' & E' & Hin');
        [apply block_words|done|done|apply fuel_ok; lia|].
      rewrite E'. eexists. split; [done|]. destruct (blocks_first st (rest m ++ d1) d2 Hfull) as [F1' F2'].
      specialize (Hdone inn'). rewrite Ed, app_assoc, F1', F2' in Hdone. rewrite (buffered_full inn1 _ Hin1 Hfull), Ed. by apply Hdone.
Qed.

(** ** The end of a message *)

Lemma le_bytes_mod n x : le_bytes n (x mod 256 ^ Z.of_nat n) = le_bytes n x.
Proof.
  rewrite <- le_value_le_bytes. rewrite <- (length_le_bytes n x) at 1. apply le_bytes_le_value, le_bytes_is_byte.
Qed.

Lemma le_value_app l1 l2 : le_value (l1 ++ l2) = le_value l1 + 256 ^ zlen l1 * le_value l2.
Proof.
  induction l1 as [|x l1 IH]; [cbn [app le_value]; change (zlen (@nil Z)) with 0; lia|]. cbn [app le_value].
  rewrite IH, zlen_cons, Z.pow_add_r by (pose proof (zlen_nonneg l1); lia). lia.
Qed.

(** Both words of the count. *)
Lemma count_bytes (m : list Z) b0 b1 : word b0 -> word b1 -> b0 + 2 ^ 32 * b1 = (8 * zlen m) mod 2 ^ 64 -> le_bytes 8 (8 * zlen m) = le_bytes 4 b0 ++ le_bytes 4 b1.
Proof.
  intros H0 H1 E. rewrite <- le_bytes_mod. change (256 ^ Z.of_nat 8) with (2 ^ 64). rewrite <- E. unfold word in *.
  assert (El : le_value (le_bytes 4 b0 ++ le_bytes 4 b1) = b0 + 2 ^ 32 * b1).
  { rewrite le_value_app, !le_value_le_bytes, zlen_le_bytes. change (256 ^ Z.of_nat 4) with (2 ^ 32). by rewrite !Z.mod_small. }
  rewrite <- El. change 8%nat with (length (le_bytes 4 b0 ++ le_bytes 4 b1)) at 1.
  apply le_bytes_le_value. apply Forall_app. split; apply le_bytes_is_byte.
Qed.

Lemma fill_app n k : 0 <= n -> 0 <= k -> fill 0 n ++ fill 0 k = fill 0 (n + k).
Proof. intros Hn Hk. unfold fill. rewrite Z2Nat.inj_add by done. by rewrite replicate_add. Qed.

Lemma fill_bytes n : Forall is_byte (fill 0 n).
Proof. apply Forall_replicate. unfold is_byte. lia. Qed.

(** The last block: 56 bytes and the count. *)
Lemma last_block inn x b0 b1 st :
  words4 st -> length x = 56%nat -> buffered inn x ->
  (bytes ← splice (byteReverse inn 14) 56 (le_bytes 4 b0);
   bytes ← splice bytes 60 (le_bytes 4 b1);
   let h := MD5Transform (regs st) (le_words bytes) in
   digest ← slice (byteReverse (words_bytes h) 4) 0 16;
   Some (digest, mkMd5 [0; 0; 0; 0] 0 0 (fill 0 64))) =
  Some (words_bytes (regs (block st (le_words (x ++ le_bytes 4 b0 ++ le_bytes 4 b1)))), mkMd5 [0; 0; 0; 0] 0 0 (fill 0 64)).
Proof.
  intros Hst Hx (Hl & Hb & junk & Ej). rewrite byteReverse_id by done. rewrite Ej in Hl |- *. rewrite length_app in Hl.
  do 8 (destruct junk as [|? junk]; [cbn in Hl; lia|]). destruct junk; [|cbn in Hl; lia].
  replace 56 with (zlen x) by (unfold zlen; lia).
  match goal with |- context [splice (x ++ ?l) _ _] => change l with ([z; z0; z1; z2] ++ [z3; z4; z5; z6]) end.
  rewrite splice_zlen_app by done. cbn [mbind option_bind]. rewrite app_assoc.
  replace 60 with (zlen (x ++ le_bytes 4 b0)) by (rewrite zlen_app, zlen_le_bytes; unfold zlen; lia).
  rewrite <- (app_nil_r [z3; z4; z5; z6]). rewrite splice_zlen_app by done. cbn [mbind option_bind]. rewrite app_nil_r, <- app_assoc.
  rewrite MD5Transform_ok by done. rewrite byteReverse_id by apply words_bytes_is_byte.
  destruct (block st _) as [[[a b] c] d]. cbn [regs].
  pose proof (zlen_words_bytes [a; b; c; d]) as Hz. change (zlen [a; b; c; d]) with 4 in Hz.
  rewrite slice_some by lia. rewrite drop_0, take_ge; [done|]. unfold zlen in Hz. lia.
Qed.

(** Padding: [inn] starts with the rest of the message and the one bit.  What
    is left is the last block without its count. *)
Definition pad_blocks (h inn : list Z) (p count : Z) : option (list Z * list Z) :=
  if count <? 8 then
    bytes ← splice inn p (fill 0 count);
    let '(h, bytes) := transform_in h bytes in
    bytes ← splice bytes 0 (fill 0 56);
    Some (h, bytes)
  else
    bytes ← splice inn p (fill 0 (count - 8));
    Some (h, bytes).

Lemma pad_one (m t : list Z) st inn :
  buffered inn t -> zlen t = zlen m mod 64 + 1 -> zlen t <= 56 ->
  let x := t ++ fill 0 ((55 - zlen m) mod 64) in
  length x = 56%nat /\ exists inn', pad_blocks (regs st) inn (zlen t) (64 - zlen t) = Some (regs st, inn') /\ buffered inn' x.
Proof.
  intros Hin Ht Hle x. pose proof (Z.mod_pos_bound (zlen m) 64 ltac:(lia)).
  assert (Hpad : (55 - zlen m) mod 64 = 56 - zlen t).
  { symmetry. apply (Z.mod_unique _ _ (- (zlen m / 64))); [lia|]. pose proof (Z.div_mod (zlen m) 64 ltac:(lia)). lia. }
  unfold x. rewrite Hpad. pose proof (fill_zlen 0 (56 - zlen t) ltac:(lia)) as Hz. split; [rewrite length_app; unfold zlen in *; lia|].
  unfold pad_blocks. destruct (Z.ltb_spec (64 - zlen t) 8); [lia|]. replace (64 - zlen t - 8) with (56 - zlen t) by lia.
  destruct (put inn t (fill 0 (56 - zlen t)) Hin (fill_bytes _)) as (inn' & E & Hin'); [lia|]. rewrite E. by exists inn'.
Qed.

Lemma pad_two (m t : list Z) st inn :
  words4 st -> buffered inn t -> zlen t = zlen m mod 64 + 1 -> 56 < zlen t <= 64 ->
  exists b, length b = 64%nat /\ t ++ fill 0 ((55 - zlen m) mod 64) = b ++ fill 0 56 /\
  exists inn', pad_blocks (regs st) inn (zlen t) (64 - zlen t) = Some (regs (block st (le_words b)), inn') /\ buffered inn' (fill 0 56).
Proof.
  intros Hst Hin Ht Hle. pose proof (Z.mod_pos_bound (zlen m) 64 ltac:(lia)). exists (t ++ fill 0 (64 - zlen t)).
  assert (Hpad : (55 - zlen m) mod 64 = 64 - zlen t + 56).
  { symmetry. apply (Z.mod_unique _ _ (- (zlen m / 64) - 1)); [lia|]. pose proof (Z.div_mod (zlen m) 64 ltac:(lia)). lia. }
  pose proof (fill_zlen 0 (64 - zlen t) ltac:(lia)) as Hz. assert (Hb : length (t ++ fill 0 (64 - zlen t)) = 64%nat) by (rewrite length_app; unfold zlen in *; lia).
  rewrite Hpad, <- fill_app by lia. split; [done|]. split; [by rewrite app_assoc|]. unfold pad_blocks. destruct (Z.ltb_spec (64 - zlen t) 8); [|lia].
  destruct (put inn t (fill 0 (64 - zlen t)) Hin (fill_bytes _)) as (inn1 & E1 & Hin1); [lia|]. rewrite E1. cbn [mbind option_bind].
  rewrite transform_in_ok by (done || apply Hin1). rewrite (buffered_full inn1 _ Hin1 Hb).
  destruct (put (t ++ fill 0 (64 - zlen t)) [] (fill 0 56)) as (inn2 & E2 & Hin2); [|apply fill_bytes|done|].
  { rewrite (buffered_full inn1 _ Hin1 Hb) in Hin1. by eapply buffered_nil. }
  change (zlen (@nil Z)) with 0 in E2. rewrite E2. by exists inn2.
Qed.

Lemma blocks_one st l : length l = 64%nat -> blocks (length l / 64) st l = block st (le_words l).
Proof. intros Hl. rewrite <- (app_nil_r l) at 1 2. destruct (blocks_first st l [] Hl) as [-> _]. done. Qed.

Lemma MD5Final_ok m ctx : absorbed m ctx -> MD5Final ctx = Some (digest m, mkMd5 [0; 0; 0; 0] 0 0 (fill 0 64)).
Proof.
  intros [Hbuf Hin H0 H1 Hbits]. unfold MD5Final. rewrite (in_buffer m _ _ H0 H1 Hbits), Hbuf.
  set (st := blocks (length m / 64) start m). assert (Hst : words4 st) by apply blocks_words, start_words.
  pose proof (zlen_rest m) as Ht. pose proof (Z.mod_pos_bound (zlen m) 64 ltac:(lia)) as Htb.
  set (p := 0x80 :: fill 0 ((55 - zlen m) mod 64) ++ le_bytes 8 (8 * zlen m)).
  assert (Hdig : digest m = words_bytes (regs (blocks (length (rest m ++ p) / 64) st (rest m ++ p)))).
  { unfold digest. change (pad m) with (m ++ p). destruct (absorb_split m p) as [-> _]. fold st.
    by destruct (blocks (length (rest m ++ p) / 64) st (rest m ++ p)) as [[[a b] c] d]. }
  set (t := rest m ++ [0x80]). set (cnt := le_bytes 4 (md_bits0 ctx) ++ le_bytes 4 (md_bits1 ctx)).
  assert (Ep : rest m ++ p = (t ++ fill 0 ((55 - zlen m) mod 64)) ++ cnt).
  { unfold p, t. rewrite (count_bytes m _ _ H0 H1 Hbits), <- !app_assoc. done. }
  assert (Hc : length cnt = 8%nat) by (unfold cnt; rewrite length_app, !length_le_bytes; done).
  assert (Hzt : zlen t = zlen m mod 64 + 1) by (unfold t; rewrite zlen_app, Ht; done).
  destruct (put (md_in ctx) (rest m) [0x80] Hin) as (inn1 & E1 & Hin1); [constructor; [unfold is_byte; lia|constructor]|change (zlen [0x80]) with 1; lia|].
  rewrite E1. cbn [mbind option_bind]. fold t in Hin1. replace (64 - 1 - zlen (rest m)) with (64 - zlen t) by lia. replace (zlen (rest m) + 1) with (zlen t) by lia.
  match goal with |- context [mbind _ ?c] => change c with (pad_blocks (regs st) inn1 (zlen t) (64 - zlen t)) end. rewrite Hdig, Ep.
  destruct (Z_le_gt_dec (zlen t) 56) as [Hle|Hgt].
  - destruct (pad_one m t st inn1) as (Hx & inn2 & E2 & Hin2); [done|done|done|]. rewrite E2. cbn [mbind option_bind].
    rewrite (last_block inn2 _ _ _ st Hst Hx Hin2). fold cnt. rewrite blocks_one; [done|]. rewrite length_app. lia.
  - destruct (pad_two m t st inn1) as (b & Hb & Eb & inn2 & E2 & Hin2); [done|done|done|lia|]. rewrite E2. cbn [mbind option_bind].
    rewrite (last_block inn2 (fill 0 56) _ _ _ (block_words _ _) eq_refl Hin2). fold cnt. rewrite Eb, <- app_assoc.
    destruct (blocks_first st b (fill 0 56 ++ cnt) Hb) as [-> _]. rewrite blocks_one; [done|]. rewrite length_app, Hc. done.
Qed.

(** ** Digests *)

(** Any sequence of updates. *)
Fixpoint MD5Updates (ctx : MD5Context) (pieces : list (list Z)) : option MD5Context :=
  match pieces with
  | [] => Some ctx
  | d :: pieces => ctx ← MD5Update ctx d (zlen d); MD5Updates ctx pieces
  end.

Lemma MD5Updates_ok m ctx pieces :
  absorbed m ctx -> Forall (fun d => Forall is_byte d /\ zlen d < 2 ^ 32) pieces ->
  exists ctx', MD5Updates ctx pieces = Some ctx' /\ absorbed (m ++ concat pieces) ctx'.
Proof.
  revert m ctx. induction pieces as [|d pieces IH]; intros m ctx Ha Hp; [exists ctx; cbn; by rewrite app_nil_r|].
  apply Forall_cons_1 in Hp as [[Hd Hl] Hp]. destruct (MD5Update_ok m ctx d [] Ha Hd Hl) as (ctx1 & E1 & Ha1). rewrite app_nil_r in E1.
  destruct (IH (m ++ d) ctx1 Ha1 Hp) as (ctx2 & E2 & Ha2). exists ctx2. cbn [MD5Updates concat]. rewrite E1. cbn [mbind option_bind].
  by rewrite app_assoc.
Qed.

(** What the stack holds before [MD5Init]. *)
Definition stack_ok (stack : MD5Context) : Prop := length (md_in stack) = 64%nat /\ Forall is_byte (md_in stack).

Lemma md5_ok stack d extra len : stack_ok stack -> Forall is_byte d -> u32 len = zlen d -> md5 stack (d ++ extra) len = Some (digest d).
Proof.
  intros [Hl Hb] Hd Hn. unfold md5. pose proof (u32_range len). rewrite Hn.
  destruct (MD5Update_ok [] (MD5Init stack) d extra) as (ctx & -> & Ha); [by apply MD5Init_ok|done|lia|]. cbn [mbind option_bind].
  by rewrite (MD5Final_ok _ _ Ha).
Qed.

Lemma md5_wd_chunks_ok fuel m ctx d extra sz :
  absorbed m ctx -> Forall is_byte d -> zlen d < 2 ^ 31 -> 0 < sz < 2 ^ 32 -> zlen d < Z.of_nat fuel ->
  exists ctx', md5_wd_chunks fuel ctx (d ++ extra) (zlen d) sz = Some ctx' /\ absorbed (m ++ d) ctx'.
Proof.
  revert m ctx d. induction fuel as [|fuel IH]; intros m ctx d Ha Hd Hn Hsz Hf; [pose proof (zlen_nonneg d); lia|]. cbn [md5_wd_chunks].
  destruct (Z.ltb_spec 0 (zlen d)) as [Hpos|H0]; cycle 1.
  { assert (d = []) as -> by (destruct d; [done|]; unfold zlen in H0; cbn in H0; lia). exists ctx. by rewrite app_nil_r. }
  rewrite (u32_small (zlen d)) by lia. set (chunk := if sz <? zlen d then i32 sz else zlen d).
  assert (Hc : 0 < chunk <= zlen d) by (unfold chunk; destruct (Z.ltb_spec sz (zlen d)); [rewrite i32_small by lia; lia|lia]).
  set (d1 := take (Z.to_nat chunk) d). set (d2 := drop (Z.to_nat chunk) d). assert (Ed : d = d1 ++ d2) by (symmetry; apply take_drop).
  assert (H1 : zlen d1 = chunk) by (unfold d1, zlen in *; rewrite length_take; lia).
  assert (H2 : zlen d2 = zlen d - chunk) by (unfold d2, zlen in *; rewrite length_drop; lia).
  assert (Hbd : Forall is_byte d1 /\ Forall is_byte d2) by (apply Forall_app; by rewrite <- Ed). destruct Hbd as [Hb1 Hb2].
  destruct (MD5Update_ok m ctx d1 (d2 ++ extra)) as (ctx1 & E1 & Ha1); [done|done|lia|].
  rewrite (u32_small chunk) by lia. rewrite app_assoc, <- Ed, H1 in E1. rewrite E1. cbn [mbind option_bind].
  rewrite drop_app_le by (unfold zlen in *; lia). fold d2. rewrite <- H2.
  destruct (IH (m ++ d1) ctx1 d2) as (ctx2 & E2 & Ha2); [done|done|lia|lia|lia|]. exists ctx2. rewrite E2. split; [done|]. by rewrite Ed, app_assoc.
Qed.

Lemma md5_wd_ok wd stack d extra sz :
  stack_ok stack -> Forall is_byte d -> zlen d < 2 ^ 31 -> 0 < sz < 2 ^ 32 -> md5_wd wd stack (d ++ extra) (zlen d) sz = Some (digest d).
Proof.
  intros [Hl Hb] Hd Hn Hsz. pose proof (MD5Init_ok stack Hl Hb) as Hi. pose proof (zlen_nonneg d). unfold md5_wd.
  assert (E : exists ctx, (if wd then md5_wd_chunks (Datatypes.S (Z.to_nat (zlen d))) (MD5Init stack) (d ++ extra) (zlen d) sz
                           else MD5Update (MD5Init stack) (d ++ extra) (u32 (zlen d))) = Some ctx /\ absorbed ([] ++ d) ctx).
  { destruct wd; [apply md5_wd_chunks_ok; try done; lia|]. rewrite u32_small by lia. apply MD5Update_ok; [done|done|lia]. }
  destruct E as (ctx & -> & Ha). cbn [mbind option_bind]. by rewrite (MD5Final_ok _ _ Ha).
Qed.

Lemma zlen_digest m : zlen (digest m) = 16.
Proof. unfold digest. destruct (blocks _ _ _) as [[[a b] c] d]. by rewrite zlen_words_bytes. Qed.
