(* ===== verification/CStr.v ===== *)
(** * C strings

    The string functions the web server uses (lib/string.c), on the bytes from
    an address to the end of its object: a string ends at the first NUL, and
    [None] is an access beyond the object. *)

From stdpp Require Import base numbers list.
From Stdlib Require Import ZArith Lia.
From S2P Require Import Prelude.

(** ** Definitions *)

Fixpoint prefixb (p l : list Z) : bool :=
  match p, l with
  | [], _ => true
  | x :: p, y :: l => (x =? y) && prefixb p l
  | _ :: _, [] => false
  end.

(** The position of the first occurrence of [p]. *)
Fixpoint find_sub (p l : list Z) : option nat :=
  if prefixb p l then Some O
  else match l with [] => None | _ :: l => S <$> find_sub p l end.

(** The string at the start of the bytes. *)
Fixpoint cstr (l : list Z) : option (list Z) :=
  match l with
  | [] => None
  | x :: l => if x =? 0 then Some [] else cons x <$> cstr l
  end.

Definition strlen (l : list Z) : option Z := zlen <$> cstr l.

(** [strstr] and [strchr]: where the result points, counted from [l]; inner
    [None] is NULL. *)
Definition strstr (l p : list Z) : option (option Z) := (fun s => Z.of_nat <$> find_sub p s) <$> cstr l.
Definition strchr (l : list Z) (c : Z) : option (option Z) := strstr l [c].

(** [!strcmp (s, p)]. *)
Definition str_eq (l p : list Z) : option bool := (fun s => bool_decide (s = p)) <$> cstr l.

(** [!strncmp (s, p, strlen (p))]: the comparison stops at the first
    difference. *)
Fixpoint starts_with (l p : list Z) : option bool :=
  match p, l with
  | [], _ => Some true
  | _ :: _, [] => None
  | x :: p, y :: l => if x =? y then starts_with l p else Some false
  end.

(** [memcmp] over the whole of [p]. *)
Definition mem_eq (l p : list Z) : option bool :=
  (fun d => bool_decide (d = p)) <$> slice l 0 (zlen p).

(** [memstr (src, limit, str)] of net/httpd.c. *)
Fixpoint memstr (l : list Z) (limit : Z) (p : list Z) : option (option Z) :=
  if limit <? zlen p then Some None
  else
    match mem_eq l p with
    | None => None
    | Some true => Some (Some 0)
    | Some false => match l with [] => None | _ :: l => option_map (option_map (Z.add 1)) (memstr l (limit - 1) p) end
    end.

(** ** Strings *)

(** No NUL. *)
Definition text (s : list Z) : Prop := Forall (fun x => x <> 0) s.

Lemma cstr_text s l : text s -> cstr (s ++ 0 :: l) = Some s.
Proof.
  intros Hs. induction Hs as [|x s Hx Hs IH]; [done|]. cbn [app cstr]. destruct (Z.eqb_spec x 0); [done|]. by rewrite IH.
Qed.

Lemma cstr_inv l s : cstr l = Some s -> text s /\ exists l', l = s ++ 0 :: l'.
Proof.
  revert s. induction l as [|x l IH]; intros s; cbn [cstr]; [done|]. destruct (Z.eqb_spec x 0) as [->|Hx].
  - intros E. injection E as <-. split; [constructor|]. by exists l.
  - destruct (cstr l) as [s'|]; [|done]. cbn. intros E. injection E as <-. destruct (IH s' eq_refl) as [Ht [l' ->]].
    split; [by constructor|]. by exists l'.
Qed.

(** ** Searching *)

Lemma prefixb_spec p l : prefixb p l = true <-> exists l', l = p ++ l'.
Proof.
  revert l. induction p as [|x p IH]; intros l; cbn [prefixb].
  - split; [by exists l|done].
  - destruct l as [|y l]; [split; [done|by intros [? ?]]|]. rewrite andb_true_iff, Z.eqb_eq, IH. split.
    + intros [-> [l' ->]]. by exists l'.
    + intros [l' E]. injection E as -> ->. split; [done|]. by exists l'.
Qed.

Lemma prefixb_app p l : prefixb p (p ++ l) = true.
Proof. apply prefixb_spec. by exists l. Qed.

Lemma find_sub_none p l : find_sub p l = None <-> forall a b, l <> a ++ p ++ b.
Proof.
  induction l as [|y l IH]; cbn [find_sub].
  - destruct (prefixb p []) eqn:E; [|split; [|done]].
    + apply prefixb_spec in E as [l' El]. symmetry in El. apply app_eq_nil in El as [-> ->]. split; [done|]. intros H. by destruct (H [] []).
    + intros _ a b Ea. symmetry in Ea. apply app_eq_nil in Ea as [_ Ea]. apply app_eq_nil in Ea as [-> _]. done.
  - destruct (prefixb p (y :: l)) eqn:E.
    + split; [done|]. intros H. apply prefixb_spec in E as [l' El]. by destruct (H [] l').
    + destruct (find_sub p l) as [n|].
      * split; [done|]. intros H. assert (Hn : Some n = None); [|done]. apply IH. intros a b ->. by apply (H (y :: a) b).
      * split; [|done]. intros _ a b Ea. destruct a as [|z a]; cbn in Ea.
        -- rewrite Ea, prefixb_app in E. done.
        -- injection Ea as _ Ea. by apply (proj1 IH eq_refl a b).
Qed.

(** The first occurrence: found behind [a], and nowhere earlier. *)
Definition first_at (p a l : list Z) : Prop := forall a' b, a ++ p ++ l = a' ++ p ++ b -> (length a <= length a')%nat.

Lemma find_sub_first p a l : first_at p a l -> find_sub p (a ++ p ++ l) = Some (length a).
Proof.
  intros Hf. assert (Hne : find_sub p (a ++ p ++ l) <> None).
  { intros E. by apply (proj1 (find_sub_none _ _) E a l). }
  assert (H : forall l0 n, find_sub p l0 = Some n -> exists b, l0 = take n l0 ++ p ++ b /\ length (take n l0) = n /\
            forall a' b', l0 = a' ++ p ++ b' -> (n <= length a')%nat).
  { clear. induction l0 as [|y l0 IH]; intros n; cbn [find_sub].
    - destruct (prefixb p []) eqn:E; [|done]. intros E0. injection E0 as <-. apply prefixb_spec in E as [l' El].
      exists l'. split_and!; [done|done|lia].
    - destruct (prefixb p (y :: l0)) eqn:E.
      + intros E0. injection E0 as <-. apply prefixb_spec in E as [l' El]. exists l'. split_and!; [done|done|lia].
      + destruct (find_sub p l0) as [m|] eqn:Em; [|done]. cbn. intros E0. injection E0 as <-.
        destruct (IH m eq_refl) as (b & Eb & Hl & Hmin). exists b. cbn [take app length]. split_and!; [by rewrite <- Eb|by rewrite Hl|].
        intros a' b' Ea. destruct a' as [|z a']; cbn in Ea; [rewrite Ea, prefixb_app in E; done|].
        injection Ea as _ Ea. cbn. apply Hmin in Ea. lia. }
  destruct (find_sub p (a ++ p ++ l)) as [n|] eqn:E; [|done]. destruct (H _ _ E) as (b & Eb & Hl & Hmin).
  f_equal. apply Nat.le_antisymm; [by apply (Hmin a l)|]. rewrite <- Hl. by apply (Hf _ b).
Qed.

Lemma first_at_head c p a l : c ∉ a -> first_at (c :: p) a l.
Proof.
  intros Hc a' b E. destruct (Nat.le_gt_cases (length a) (length a')) as [|Hlt]; [done|]. exfalso. apply Hc.
  apply (f_equal (fun x => x !! length a')) in E. rewrite lookup_app_l in E by done.
  rewrite lookup_app_r, Nat.sub_diag in E by lia. cbn in E. by apply list_elem_of_lookup_2 in E.
Qed.

Lemma mem_eq_app p l : mem_eq (p ++ l) p = Some true.
Proof.
  unfold mem_eq. rewrite slice_some; [|lia|apply zlen_nonneg|rewrite zlen_app; pose proof (zlen_nonneg l); lia].
  rewrite drop_0. unfold zlen. rewrite Nat2Z.id, take_app_length. unfold fmap, option_fmap, option_map.
  by rewrite bool_decide_eq_true_2.
Qed.

Lemma mem_eq_false l p : (forall b, l <> p ++ b) -> zlen p <= zlen l -> mem_eq l p = Some false.
Proof.
  intros Hn Hl. unfold mem_eq. rewrite slice_some; [|lia|apply zlen_nonneg|lia]. rewrite drop_0.
  unfold fmap, option_fmap, option_map. rewrite bool_decide_eq_false_2; [done|]. intros E.
  apply (Hn (drop (Z.to_nat (zlen p)) l)). rewrite <- E at 1. by rewrite take_drop.
Qed.

(** [memstr] finds the first occurrence. *)
Lemma memstr_first p a l limit :
  first_at p a l -> zlen a + zlen p <= limit -> memstr (a ++ p ++ l) limit p = Some (Some (zlen a)).
Proof.
  revert limit. induction a as [|x a IH]; intros limit Hf Hl.
  - cbn [app]. pose proof (mem_eq_app p l) as Hm. destruct (p ++ l) as [|y q]; cbn [memstr];
      (destruct (Z.ltb_spec limit (zlen p)) as [Hlt|_]; [unfold zlen in *; cbn in *; lia|]); by rewrite Hm.
  - cbn [app memstr]. unfold zlen in Hl. cbn [length] in Hl. destruct (Z.ltb_spec limit (zlen p)); [unfold zlen in *; lia|].
    rewrite mem_eq_false.
    + rewrite IH; [cbn; do 2 f_equal; unfold zlen; cbn [length]; lia| |unfold zlen in *; lia].
      intros a' b E. assert (H' : (length (x :: a) <= length (x :: a'))%nat) by (apply (Hf (x :: a') b); cbn; by rewrite E). cbn in H'. lia.
    + intros b E. assert (Hbad : (length (x :: a) <= length (@nil Z))%nat); [|cbn in Hbad; lia]. by apply (Hf [] b).
    + unfold zlen. cbn [length]. rewrite !length_app. lia.
Qed.

(** ** Texts in pieces *)

Lemma cstr_app s l : text s -> cstr (s ++ l) = (fun t => s ++ t) <$> cstr l.
Proof.
  intros Hs. induction Hs as [|x s Hx Hs IH]; cbn [app cstr]; [by destruct (cstr l)|].
  destruct (Z.eqb_spec x 0); [done|]. rewrite IH. by destruct (cstr l).
Qed.

Lemma text_app s t : text (s ++ t) <-> text s /\ text t.
Proof. apply Forall_app. Qed.

Lemma prefixb_long p l x : (length p <= length l)%nat -> prefixb p (l ++ x) = prefixb p l.
Proof.
  revert l. induction p as [|c p IH]; intros [|y l] Hl; cbn in *; try done; try lia. f_equal. apply IH. lia.
Qed.

Lemma find_sub_bound p l n : find_sub p l = Some n -> (n + length p <= length l)%nat.
Proof.
  revert n. induction l as [|y l IH]; intros n; cbn [find_sub].
  - destruct (prefixb p []) eqn:E; [|done]. intros E0. injection E0 as <-. apply prefixb_spec in E as [l' El].
    symmetry in El. apply app_eq_nil in El as [-> _]. done.
  - destruct (prefixb p (y :: l)) eqn:E.
    + intros E0. injection E0 as <-. apply prefixb_spec in E as [l' ->]. rewrite length_app. lia.
    + destruct (find_sub p l) as [m|]; [|done]. cbn. intros E0. injection E0 as <-. specialize (IH m eq_refl). lia.
Qed.

(** What follows an occurrence does not matter. *)
Lemma find_sub_more p l x n : find_sub p l = Some n -> find_sub p (l ++ x) = Some n.
Proof.
  revert n. induction l as [|y l IH]; intros n Hn; pose proof (find_sub_bound _ _ _ Hn) as Hb; cbn [find_sub] in Hn.
  - destruct p; [|cbn in Hb; lia]. cbn in Hn. injection Hn as <-. by destruct x.
  - cbn [app find_sub]. rewrite <- (prefixb_long p (y :: l) x) in Hn by lia. cbn [app] in Hn.
    destruct (prefixb p (y :: l ++ x)); [done|]. destruct (find_sub p l) as [m|]; [|done]. cbn in Hn. injection Hn as <-.
    by rewrite (IH m eq_refl).
Qed.

Lemma find_sub_char c a l : c ∉ a -> find_sub [c] (a ++ c :: l) = Some (length a).
Proof. intros Hc. exact (find_sub_first [c] a l (first_at_head c [] a l Hc)). Qed.

Lemma starts_with_app p l : starts_with (p ++ l) p = Some true.
Proof. induction p as [|x p IH]; cbn; [by destruct l|]. by rewrite Z.eqb_refl. Qed.

Lemma find_sub_min p l n a b : find_sub p l = Some n -> l = a ++ p ++ b -> (n <= length a)%nat.
Proof.
  revert n a. induction l as [|y l IH]; intros n a; cbn [find_sub].
  - destruct (prefixb p []); [|done]. intros E0. injection E0 as <-. lia.
  - destruct (prefixb p (y :: l)) eqn:E; [intros E0; injection E0 as <-; lia|].
    destruct (find_sub p l) as [m|]; [|done]. cbn. intros E0. injection E0 as <-. intros Ea.
    destruct a as [|z a]; cbn in Ea; [by rewrite Ea, prefixb_app in E|]. injection Ea as _ Ea.
    specialize (IH m a eq_refl Ea). cbn. lia.
Qed.

(** [p] does not occur in [a], nor across its end. *)
Definition absent (p a : list Z) : Prop := find_sub p (a ++ p) = Some (length a).

Lemma absent_first p a l : absent p a -> first_at p a l.
Proof.
  intros Ha a' b E. destruct (Nat.le_gt_cases (length a) (length a')) as [|Hlt]; [done|].
  assert (E' : a ++ p = a' ++ p ++ take (length (a ++ p) - length (a' ++ p)) b).
  { apply (f_equal (take (length (a ++ p)))) in E. rewrite app_assoc, take_app_length in E.
    rewrite (app_assoc a' p b), take_app in E. rewrite (take_ge (a' ++ p)) in E by (rewrite !length_app; lia).
    by rewrite <- app_assoc in E. }
  apply (find_sub_min _ _ _ _ _ Ha E').
Qed.

Lemma absent_find p a l : absent p a -> find_sub p (a ++ p ++ l) = Some (length a).
Proof. intros Ha. by apply find_sub_first, absent_first. Qed.

(** Bytes with a NUL somewhere behind them start with a string. *)
Lemma nul_ends d y : exists t r, d ++ 0 :: y = t ++ 0 :: r /\ text t.
Proof.
  induction d as [|x d (t & r & E & Ht)].
  - exists [], y. split; [done|constructor].
  - destruct (decide (x = 0)) as [->|Hx].
    + exists [], (d ++ 0 :: y). split; [done|constructor].
    + exists (x :: t), r. cbn. rewrite E. split; [done|by constructor].
Qed.

Definition textb (s : list Z) : bool := forallb (fun x => negb (x =? 0)) s.

Lemma textb_text s : textb s = true -> text s.
Proof.
  induction s as [|x s IH]; [constructor|]. cbn. intros [Hx Hs]%andb_true_iff. constructor; [|by apply IH].
  by destruct (Z.eqb_spec x 0).
Qed.

Lemma find_char_none c s : c ∉ s -> find_sub [c] s = None.
Proof.
  intros Hc. apply find_sub_none. intros a b ->. apply Hc. rewrite elem_of_app, elem_of_app. right. left. by apply list_elem_of_singleton.
Qed.

(** [t], ended by a NUL, at offset [k] of an object. *)
Definition str_in (o : list Z) (k : Z) (t : list Z) : Prop := text t /\ exists a r, o = a ++ t ++ 0 :: r /\ zlen a = k.
