(* ===== verification/Http.v ===== *)
(** * The web server: definitions

    net/httpd.c, include/net/httpd.h.  Memory consists of objects (the 4 KiB
    buffer of each session, the RAM region for uploads, what the handlers
    allocate); a pointer is an object and an offset in it.  The handlers of
    the pages are parameters.  Calls into the TCP stack, whose results the
    server ignores, are recorded in order. *)

From stdpp Require Import base numbers list strings gmap option.
From Stdlib Require Import ZArith Lia.
From S2P Require Import Prelude NetWire Tcp Strto CStr.

(** ** Data *)

Definition ptr : Type := Z * Z.

Definition ptr_add (p : ptr) (n : Z) : ptr := (p.1, p.2 + n).

(** What a [const char *] member refers to: a literal or memory. *)
Inductive data_ref := Lit (l : list Z) | Mem (p : ptr).

Inductive httpd_session_status :=
| HTTPD_S_NEW | HTTPD_S_HEADER_RECVING | HTTPD_S_PAYLOAD_RECVING | HTTPD_S_FULL_RCVD
| HTTPD_S_RESPONDING | HTTPD_S_CLOSING.

#[global] Instance session_status_eq_dec : EqDecision httpd_session_status.
Proof. solve_decision. Defined.

Inductive httpd_request_method := HTTP_GET | HTTP_POST.

Inductive httpd_uri_handler_status := HTTP_CB_NEW | HTTP_CB_RESPONDING | HTTP_CB_CLOSED.

Inductive httpd_response_status := HTTP_RESP_NONE | HTTP_RESP_STD | HTTP_RESP_CUSTOM.

#[global] Instance response_status_eq_dec : EqDecision httpd_response_status.
Proof. solve_decision. Defined.

Record httpd_form_value := mkForm {
  fv_name : option ptr;
  fv_data : ptr;
  fv_filename : option ptr;
  fv_size : Z
}.

Record http_response_info := mkInfo {
  ri_code : Z;
  ri_content_type : option (list Z);
  ri_content_length : Z;
  ri_location : option (list Z);
  ri_connection_close : Z;
  ri_chunked_encoding : Z;
  ri_http_1_0 : Z
}.

Record httpd_response := mkResponse {
  rs_status : httpd_response_status;
  rs_info : http_response_info;
  rs_data : option data_ref;
  rs_size : Z;
  rs_session_data : Z
}.

(** [struct httpd_tcp_pdata] without its buffer, an object of its own.
    [ss_urih] is the callback of [request.urih], [ss_form] the form values
    that are counted. *)
Record httpd_tcp_pdata := mkPdata {
  ss_status : httpd_session_status;
  ss_bufsize : Z;
  ss_uri : ptr;
  ss_boundary : option ptr;
  ss_is_uploading : Z;
  ss_upload_ptr : ptr;
  ss_payload_size : Z;
  ss_upload_size : Z;
  ss_method : httpd_request_method;
  ss_urih : option Z;
  ss_form : list httpd_form_value;
  ss_response : httpd_response;
  ss_resp_std_cnt : Z
}.

Definition zero_info : http_response_info := mkInfo 0 None 0 None 0 0 0.
Definition zero_response : httpd_response := mkResponse HTTP_RESP_NONE zero_info None 0 0.

(** [calloc (1, sizeof (struct httpd_tcp_pdata))]; the pointers are NULL. *)
Definition zero_pdata : httpd_tcp_pdata :=
  mkPdata HTTPD_S_NEW 0 (0, 0) None 0 (0, 0) 0 0 HTTP_GET None [] zero_response 0.

Definition sizeof_buf : Z := 4096.
Definition MAX_HTTP_FORM_VALUE_ITEMS : nat := 5.

(** [uh_node] is the address of the handler. *)
Record httpd_uri_handler := mkUrih { uh_uri : list Z; uh_cb : Z; uh_node : Z }.
Record httpd_instance := mkInst { in_port : Z; in_uri_handlers : list httpd_uri_handler }.

(** Calls of net/tcp.c. *)
Inductive tcp_call :=
| CallSend (conn : Z) (data : option (list Z)) (size : Z)
| CallClose (conn rst : Z)
| CallSetPdata (conn pdata : Z)
| CallCloseAll
| CallListenStop (port : Z).

(** The variables of net/httpd.c, the memory, and the handlers' own state.
    [hw_sessions] are the sessions by address, which is also the object of
    their buffer; [hw_next] the next address [malloc] gives out, [hw_rands]
    counts the calls of [rand]. *)
Record httpd_world (B : Type) := mkHttpd {
  inst_head : list httpd_instance;
  is_uploading : Z;
  upload_id : Z;
  hw_objs : gmap Z (list Z);
  hw_sessions : gmap Z httpd_tcp_pdata;
  hw_next : Z;
  hw_rands : nat;
  hw_calls : list tcp_call;
  hw_user : B
}.
Arguments mkHttpd {B}.
Arguments inst_head {B}.
Arguments is_uploading {B}.
Arguments upload_id {B}.
Arguments hw_objs {B}.
Arguments hw_sessions {B}.
Arguments hw_next {B}.
Arguments hw_rands {B}.
Arguments hw_calls {B}.
Arguments hw_user {B}.

(** ** Member updates *)

Definition info_eta : http_response_info -> http_response_info := fun x =>
  mkInfo (ri_code x) (ri_content_type x) (ri_content_length x) (ri_location x) (ri_connection_close x) (ri_chunked_encoding x) (ri_http_1_0 x).

#[global] Instance member_ri_code : Member ri_code.
Proof. derive_member info_eta ri_code. Defined.
#[global] Instance member_ri_content_type : Member ri_content_type.
Proof. derive_member info_eta ri_content_type. Defined.
#[global] Instance member_ri_content_length : Member ri_content_length.
Proof. derive_member info_eta ri_content_length. Defined.
#[global] Instance member_ri_location : Member ri_location.
Proof. derive_member info_eta ri_location. Defined.
#[global] Instance member_ri_connection_close : Member ri_connection_close.
Proof. derive_member info_eta ri_connection_close. Defined.
#[global] Instance member_ri_chunked_encoding : Member ri_chunked_encoding.
Proof. derive_member info_eta ri_chunked_encoding. Defined.
#[global] Instance member_ri_http_1_0 : Member ri_http_1_0.
Proof. derive_member info_eta ri_http_1_0. Defined.

Definition response_eta : httpd_response -> httpd_response := fun x =>
  mkResponse (rs_status x) (rs_info x) (rs_data x) (rs_size x) (rs_session_data x).

#[global] Instance member_rs_status : Member rs_status.
Proof. derive_member response_eta rs_status. Defined.
#[global] Instance member_rs_info : Member rs_info.
Proof. derive_member response_eta rs_info. Defined.
#[global] Instance member_rs_data : Member rs_data.
Proof. derive_member response_eta rs_data. Defined.
#[global] Instance member_rs_size : Member rs_size.
Proof. derive_member response_eta rs_size. Defined.
#[global] Instance member_rs_session_data : Member rs_session_data.
Proof. derive_member response_eta rs_session_data. Defined.

Definition pdata_eta : httpd_tcp_pdata -> httpd_tcp_pdata := fun x =>
  mkPdata (ss_status x) (ss_bufsize x) (ss_uri x) (ss_boundary x) (ss_is_uploading x) (ss_upload_ptr x) (ss_payload_size x) (ss_upload_size x) (ss_method x) (ss_urih x) (ss_form x) (ss_response x) (ss_resp_std_cnt x).

#[global] Instance member_ss_status : Member ss_status.
Proof. derive_member pdata_eta ss_status. Defined.
#[global] Instance member_ss_bufsize : Member ss_bufsize.
Proof. derive_member pdata_eta ss_bufsize. Defined.
#[global] Instance member_ss_uri : Member ss_uri.
Proof. derive_member pdata_eta ss_uri. Defined.
#[global] Instance member_ss_boundary : Member ss_boundary.
Proof. derive_member pdata_eta ss_boundary. Defined.
#[global] Instance member_ss_is_uploading : Member ss_is_uploading.
Proof. derive_member pdata_eta ss_is_uploading. Defined.
#[global] Instance member_ss_upload_ptr : Member ss_upload_ptr.
Proof. derive_member pdata_eta ss_upload_ptr. Defined.
#[global] Instance member_ss_payload_size : Member ss_payload_size.
Proof. derive_member pdata_eta ss_payload_size. Defined.
#[global] Instance member_ss_upload_size : Member ss_upload_size.
Proof. derive_member pdata_eta ss_upload_size. Defined.
#[global] Instance member_ss_method : Member ss_method.
Proof. derive_member pdata_eta ss_method. Defined.
#[global] Instance member_ss_urih : Member ss_urih.
Proof. derive_member pdata_eta ss_urih. Defined.
#[global] Instance member_ss_form : Member ss_form.
Proof. derive_member pdata_eta ss_form. Defined.
#[global] Instance member_ss_response : Member ss_response.
Proof. derive_member pdata_eta ss_response. Defined.
#[global] Instance member_ss_resp_std_cnt : Member ss_resp_std_cnt.
Proof. derive_member pdata_eta ss_resp_std_cnt. Defined.

Section Members.
Context {B : Type}.

Definition httpd_eta : httpd_world B -> httpd_world B := fun x =>
  mkHttpd (inst_head x) (is_uploading x) (upload_id x) (hw_objs x) (hw_sessions x) (hw_next x) (hw_rands x) (hw_calls x) (hw_user x).

#[global] Instance member_inst_head : Member (@inst_head B).
Proof. derive_member httpd_eta (@inst_head B). Defined.
#[global] Instance member_is_uploading : Member (@is_uploading B).
Proof. derive_member httpd_eta (@is_uploading B). Defined.
#[global] Instance member_upload_id : Member (@upload_id B).
Proof. derive_member httpd_eta (@upload_id B). Defined.
#[global] Instance member_hw_objs : Member (@hw_objs B).
Proof. derive_member httpd_eta (@hw_objs B). Defined.
#[global] Instance member_hw_sessions : Member (@hw_sessions B).
Proof. derive_member httpd_eta (@hw_sessions B). Defined.
#[global] Instance member_hw_next : Member (@hw_next B).
Proof. derive_member httpd_eta (@hw_next B). Defined.
#[global] Instance member_hw_rands : Member (@hw_rands B).
Proof. derive_member httpd_eta (@hw_rands B). Defined.
#[global] Instance member_hw_calls : Member (@hw_calls B).
Proof. derive_member httpd_eta (@hw_calls B). Defined.
#[global] Instance member_hw_user : Member (@hw_user B).
Proof. derive_member httpd_eta (@hw_user B). Defined.

End Members.

(** ** Text *)

Definition CR : Z := 13.
Definition CRLF : list Z := [13; 10].

Fixpoint dec_digits (fuel : nat) (n : Z) (acc : list Z) : list Z :=
  match fuel with
  | O => acc
  | S f => let acc := (48 + n mod 10) :: acc in if n <? 10 then acc else dec_digits f (n / 10) acc
  end.

(** [%u], and [%d] of what is not negative: at most ten digits. *)
Definition print_dec (n : Z) : list Z := dec_digits 10 n [].

Definition http_resp_codes : list (Z * list Z) :=
  [(200, chars "OK"); (302, chars "Found"); (307, chars "Temporary Redirect"); (400, chars "Bad Request");
   (403, chars "Forbidden"); (404, chars "Not Found"); (405, chars "Method Not Allowed");
   (413, chars "Request Entity Too Large"); (431, chars "Request Header Fields Too Large");
   (500, chars "Internal Server Error"); (503, chars "Service Unavailable")].

Fixpoint find_code (code : Z) (l : list (Z * list Z)) : option (list Z) :=
  match l with
  | [] => None
  | (c, t) :: l => if c =? code then Some t else find_code code l
  end.

(** The lines of a response header, up to the empty one. *)
Definition response_lines (info : http_response_info) : list (list Z) :=
  let ver := if negb (ri_http_1_0 info =? 0) then chars "0" else chars "1" in
  [chars "HTTP/1." ++ ver ++ chars " " ++ print_dec (ri_code info) ++
     match find_code (ri_code info) http_resp_codes with Some t => chars " " ++ t | None => [] end ++ CRLF] ++
  match ri_content_type info with Some t => [chars "Content-Type: " ++ t ++ CRLF] | None => [] end ++
  (if 0 <=? ri_content_length info then [chars "Content-Length: " ++ print_dec (ri_content_length info) ++ CRLF] else []) ++
  match ri_location info with Some t => [chars "Location: " ++ t ++ CRLF] | None => [] end ++
  (if negb (ri_chunked_encoding info =? 0) then [chars "Transfer-Encoding: chunked" ++ CRLF] else []) ++
  (if negb (ri_connection_close info =? 0) then [chars "Connection: close" ++ CRLF] else []).

(** [snprintf (p, size - p, "%s", s)] in [buff]: it writes what fits, with the
    final NUL, and returns the full length. *)
Definition snprintf (buff : list Z) (p size : Z) (s : list Z) : option (list Z) :=
  splice buff p (take (Z.to_nat (size - p - 1)) s ++ [0]).

(** The header in [buff] and its size. *)
Fixpoint put_lines (lines : list (list Z)) (p size : Z) (buff : list Z) : option (list Z * Z) :=
  match lines with
  | [] => buff ← snprintf buff p size CRLF; Some (buff, p + zlen CRLF)
  | s :: lines =>
      buff ← snprintf buff p size s;
      let p := p + zlen s in
      if size <=? p then Some (buff, size) else put_lines lines p size buff
  end.

Definition http_make_response_header (info : http_response_info) (buff : list Z) (size : Z) : option (list Z * Z) :=
  put_lines (response_lines info) 0 size buff.

(** ** Operations *)

(** The object of the RAM region for uploads ([CONFIG_SYS_SDRAM_BASE +
    0x10000]). *)
Definition UPLOAD : Z := 1.

(** What the server finds around it: the [n]-th random number, whether the
    object at an address can be allocated, and the code behind a handler,
    which gets the session. *)
Class http_env (B : Type) := {
  rand : nat -> Z;
  calloc_ok : Z -> bool;
  run_urih : Z -> httpd_uri_handler_status -> Z -> M (httpd_world B) unit
}.

Section Httpd.
Context {B : Type} {E : http_env B}.
Local Abbreviation HM := (M (httpd_world B)).

(** *** Memory *)

(** The bytes from [p] to the end of its object. *)
Definition load (p : ptr) : HM (list Z) :=
  do objs <- gets hw_objs;
  do o <- lift (objs !! p.1);
  if (0 <=? p.2) && (p.2 <=? zlen o) then ret (drop (Z.to_nat p.2) o) else lift None.

Definition store (p : ptr) (l : list Z) : HM unit :=
  do objs <- gets hw_objs;
  do o <- lift (objs !! p.1);
  do o <- lift (splice o p.2 l);
  hw_objs ::= <[p.1 := o]> objs.

(** The bytes something refers to, for [tcp_send_data]. *)
Definition load_ref (d : option data_ref) : HM (option (list Z)) :=
  match d with
  | None => ret None
  | Some (Lit l) => ret (Some l)
  | Some (Mem p) => do l <- load p; ret (Some l)
  end.

Definition strstr_at (p : ptr) (s : list Z) : HM (option ptr) :=
  do l <- load p;
  do r <- lift (strstr l s);
  ret (ptr_add p <$> r).

Definition strchr_at (p : ptr) (c : Z) : HM (option ptr) := strstr_at p [c].

(** *** Sessions and calls *)

Definition get_session (s : Z) : HM httpd_tcp_pdata :=
  do l <- gets hw_sessions; lift (l !! s).

Definition set_session (s : Z) (f : httpd_tcp_pdata -> httpd_tcp_pdata) : HM unit :=
  do l <- gets hw_sessions;
  do x <- lift (l !! s);
  hw_sessions ::= <[s := f x]> l.

Definition call (c : tcp_call) : HM unit := modify (fun w => w <| hw_calls := hw_calls w ++ [c] |>).

Definition next_rand : HM Z :=
  do n <- gets hw_rands;
  hw_rands ::= Datatypes.S n;;
  ret (rand n).

(** *** Instances and handlers *)

Fixpoint find_instance (port : Z) (l : list httpd_instance) : option httpd_instance :=
  match l with
  | [] => None
  | i :: l => if in_port i =? port then Some i else find_instance port l
  end.

Definition httpd_find_instance (port : Z) : HM (option httpd_instance) := gets (fun w => find_instance port (inst_head w)).

(** [listen] is the result of [tcp_listen], [malloc_ok] that of [malloc]. *)
Definition httpd_create_instance (malloc_ok : bool) (listen port : Z) : HM (option httpd_instance) :=
  do i <- httpd_find_instance port;
  match i with
  | Some _ => ret None
  | None =>
      if negb malloc_ok then ret None
      else if negb (listen =? 0) then ret None
      else
        let inst := mkInst port [] in
        modify (fun w => w <| inst_head := inst_head w ++ [inst] |>);;
        ret (Some inst)
  end.

Fixpoint remove_instance (port : Z) (l : list httpd_instance) : list httpd_instance :=
  match l with
  | [] => []
  | i :: l => if in_port i =? port then l else i :: remove_instance port l
  end.

Definition httpd_free_instance (port : Z) : HM unit :=
  call (CallListenStop (htons port));;
  do i <- httpd_find_instance port;
  do _ <- lift i;
  modify (fun w => w <| inst_head := remove_instance port (inst_head w) |>).

Definition httpd_free_instance_by_port (port : Z) : HM Z :=
  do i <- httpd_find_instance port;
  match i with Some inst => httpd_free_instance (in_port inst);; ret 0 | None => ret (- EINVAL) end.

(** The handlers of an instance. *)
Fixpoint update_handlers (port : Z) (f : list httpd_uri_handler -> list httpd_uri_handler) (l : list httpd_instance) : list httpd_instance :=
  match l with
  | [] => []
  | i :: l => if in_port i =? port then mkInst port (f (in_uri_handlers i)) :: l else i :: update_handlers port f l
  end.

(** Instances are named by their ports; the second result is [*returih]. *)
Definition httpd_register_uri_handler (malloc_ok : bool) (httpd_inst : option Z) (uri : option (list Z)) (cb : option Z) : HM (Z * option Z) :=
  match httpd_inst, uri, cb with
  | Some port, Some uri, Some cb =>
      if negb malloc_ok then ret (- ENOMEM, None)
      else
        do u <- gets hw_next;
        hw_next ::= u + 1;;
        modify (fun w => w <| inst_head := update_handlers port (fun l => l ++ [mkUrih uri cb u]) (inst_head w) |>);;
        ret (0, Some u)
  | _, _, _ => ret (- EINVAL, None)
  end.

Fixpoint remove_handler (urih : Z) (l : list httpd_uri_handler) : list httpd_uri_handler :=
  match l with
  | [] => []
  | u :: l => if uh_node u =? urih then l else u :: remove_handler urih l
  end.

Definition httpd_unregister_uri_handler (httpd_inst urih : option Z) : HM Z :=
  match httpd_inst, urih with
  | Some port, Some u =>
      modify (fun w => w <| inst_head := update_handlers port (remove_handler u) (inst_head w) |>);;
      ret 0
  | _, _ => ret (- EINVAL)
  end.

Fixpoint find_handler (uri : list Z) (l : list httpd_uri_handler) : option Z :=
  match l with
  | [] => None
  | u :: l => if bool_decide (uh_uri u = uri) then Some (uh_cb u) else find_handler uri l
  end.

(** The callback for [uri], otherwise the one registered for the empty URI. *)
Definition httpd_find_uri_handler (inst : httpd_instance) (uri : list Z) : option Z :=
  match find_handler uri (in_uri_handlers inst) with
  | Some cb => Some cb
  | None => find_handler [] (in_uri_handlers inst)
  end.

(** [cb] of [dummy_urih] does nothing. *)
Definition DUMMY_CB : Z := 0.

Definition call_urih (cb : Z) (st : httpd_uri_handler_status) (s : Z) : HM unit :=
  if cb =? DUMMY_CB then ret tt else run_urih cb st s.

(** *** Responses *)

(** Generates the header in the session's buffer and sends it. *)
Definition send_header (cbd : tcb_cb_data) : HM unit :=
  let s := cbd_pdata cbd in
  do pd <- get_session s;
  do buf <- load (s, 0);
  do '(buf, size) <- lift (http_make_response_header (rs_info (ss_response pd)) buf sizeof_buf);
  store (s, 0) buf;;
  call (CallSend (cbd_conn cbd) (Some buf) size).

Definition httpd_std_err_response (cbd : tcb_cb_data) (code : Z) : HM unit :=
  let s := cbd_pdata cbd in
  let body := find_code code http_resp_codes in
  set_session s (fun pd =>
    let size := match body with Some b => zlen b | None => rs_size (ss_response pd) end in
    let info := (rs_info (ss_response pd)) <| ri_code := code |> <| ri_connection_close := 1 |>
                  <| ri_content_length := i32 size |> <| ri_content_type := Some (chars "text/html") |> in
    pd <| ss_status := HTTPD_S_RESPONDING |> <| ss_urih := Some DUMMY_CB |>
       <| ss_response := (ss_response pd) <| rs_status := HTTP_RESP_STD |> <| rs_data := Lit <$> body |>
            <| rs_size := size |> <| rs_info := info |> |>);;
  send_header cbd;;
  set_session s (fun pd => pd <| ss_resp_std_cnt := match body with Some _ => 0 | None => 1 end |>).

Definition bad_request (cbd : tcb_cb_data) (code : Z) : HM Z := httpd_std_err_response cbd code;; ret 1.

(** *** Receiving the header *)

(** Copies what fits into the buffer, with a final NUL; the number of bytes. *)
Definition copy_in (cbd : tcb_cb_data) : HM Z :=
  let s := cbd_pdata cbd in
  do pd <- get_session s;
  let size_rcvd := Z.min (cbd_datalen cbd) (u32 (sizeof_buf - ss_bufsize pd - 1)) in
  do d <- lift (slice (cbd_data cbd) 0 size_rcvd);
  store (s, ss_bufsize pd) d;;
  let bufsize := u32 (ss_bufsize pd + size_rcvd) in
  set_session s (fun pd => pd <| ss_bufsize := bufsize |>);;
  store (s, bufsize) [0];;
  ret size_rcvd.

(** [*p = 0] unless [p] is NULL. *)
Definition terminate (p : option ptr) : HM unit :=
  match p with Some p => store p [0] | None => ret tt end.

(** Method and URI: [inl] an error code. *)
Definition parse_request_line (s : Z) : HM (Z + httpd_request_method * ptr) :=
  do p <- strchr_at (s, 0) 32;
  match p with
  | None => ret (inl 400)
  | Some p =>
      store p [0];;
      let uri_ptr := ptr_add p 1 in
      do l <- load (s, 0);
      do get <- lift (str_eq l (chars "GET"));
      do post <- lift (str_eq l (chars "POST"));
      if negb (get || post) then ret (inl 405)
      else
        do p <- strchr_at uri_ptr 32;
        match p with
        | None => ret (inl 400)
        | Some p =>
            store p [0];;
            do p <- strchr_at uri_ptr 63;
            terminate p;;
            ret (inr (if get : bool then HTTP_GET else HTTP_POST, uri_ptr))
        end
  end.

Fixpoint skip_spaces (l : list Z) : list Z :=
  match l with
  | x :: l' => if x =? 32 then skip_spaces l' else l
  | [] => []
  end.

(** [Content-Length]: the number, unless the field is missing. *)
Definition content_length (fields_ptr : ptr) : HM (option Z) :=
  do cl <- strstr_at fields_ptr (chars "Content-Length:");
  match cl with
  | None => ret None
  | Some cl =>
      do l <- load (ptr_add cl 15);
      do t <- lift (cstr (skip_spaces l));
      ret (Some (fst (simple_strtoul t 10)))
  end.

(** The text behind a quotation mark up to the next one, otherwise up to the
    end of the line. *)
Definition name_extract (p : ptr) : HM ptr :=
  do l <- load p;
  do c <- lift (l !! 0%nat);
  if c =? 34 then
    let p := ptr_add p 1 in
    do q <- strchr_at p 34;
    terminate q;;
    ret p
  else
    do q <- strchr_at p CR;
    terminate q;;
    ret p.

(** [Content-Type]: [inl tt] is a bad request, [inr] the boundary if the field
    is there. *)
Definition content_boundary (fields_ptr : ptr) : HM (unit + option ptr) :=
  do ct <- strstr_at fields_ptr (chars "Content-Type:");
  match ct with
  | None => ret (inr None)
  | Some ct =>
      do p <- strstr_at ct CRLF;
      terminate p;;
      do b <- strstr_at ct (chars "boundary=");
      match b with
      | None => ret (inl tt)
      | Some b => do b <- name_extract (ptr_add b 9); ret (inr (Some b))
      end
  end.

(** Where the payload goes; [true] if the connection was refused. *)
Definition place_upload (cbd : tcb_cb_data) (hdr_size size_rcvd : Z) : HM bool :=
  let s := cbd_pdata cbd in
  do pd <- get_session s;
  let upload_size := u32 (ss_bufsize pd - hdr_size) in
  if u32 (hdr_size + ss_payload_size pd) <? sizeof_buf then
    set_session s (fun pd => pd <| ss_upload_ptr := (s, hdr_size) |> <| ss_upload_size := upload_size |>);;
    ret false
  else
    do up <- gets is_uploading;
    if negb (up =? 0) then call (CallClose (cbd_conn cbd) 1);; ret true
    else
      do r <- next_rand;
      upload_id ::= r;;
      do l <- load (s, hdr_size);
      do d <- lift (slice l 0 upload_size);
      store (UPLOAD, 0) d;;
      (if size_rcvd <? cbd_datalen cbd then
         do d <- lift (slice (cbd_data cbd) size_rcvd (cbd_datalen cbd - size_rcvd));
         store (UPLOAD, upload_size) d
       else ret tt);;
      set_session s (fun pd => pd <| ss_upload_ptr := (UPLOAD, 0) |>
        <| ss_upload_size := if size_rcvd <? cbd_datalen cbd then u32 (upload_size + (cbd_datalen cbd - size_rcvd)) else upload_size |>);;
      ret false.

(** The upload is complete: a final NUL. *)
Definition finish_upload (s : Z) : HM unit :=
  do pd <- get_session s;
  store (ptr_add (ss_upload_ptr pd) (ss_payload_size pd)) [0];;
  set_session s (fun pd => pd <| ss_status := HTTPD_S_FULL_RCVD |>).

(** After the payload has its place. *)
Definition start_payload (s : Z) : HM Z :=
  do pd <- get_session s;
  if ss_upload_size pd =? ss_payload_size pd then finish_upload s;; ret 0
  else
    set_session s (fun pd => pd <| ss_status := HTTPD_S_PAYLOAD_RECVING |> <| ss_is_uploading := 1 |>);;
    is_uploading ::= 1;;
    ret (if ss_upload_size pd =? 0 then 1 else 0).

(** The fields a POST request needs: [inl] is the value to return at once. *)
Definition parse_post (cbd : tcb_cb_data) (fields_ptr : ptr) (hdr_size size_rcvd : Z) : HM (Z + Z) :=
  let s := cbd_pdata cbd in
  do n <- content_length fields_ptr;
  match n with Some n => set_session s (fun pd => pd <| ss_payload_size := n |>) | None => ret tt end;;
  do b <- content_boundary fields_ptr;
  match b with
  | inl _ => do r <- bad_request cbd 400; ret (inl r)
  | inr b =>
      match b with Some b => set_session s (fun pd => pd <| ss_boundary := Some b |>) | None => ret tt end;;
      do refused <- place_upload cbd hdr_size size_rcvd;
      if refused : bool then ret (inl 1) else do r <- start_payload s; ret (inr r)
  end.

Definition httpd_recv_hdr (cbd : tcb_cb_data) : HM Z :=
  let s := cbd_pdata cbd in
  do size_rcvd <- copy_in cbd;
  do p <- strstr_at (s, 0) (CRLF ++ CRLF);
  match p with
  | None => if size_rcvd =? cbd_datalen cbd then ret 1 else bad_request cbd 413
  | Some payload_ptr =>
      store payload_ptr [0];;
      let hdr_size := payload_ptr.2 + 4 in
      do p <- strstr_at (s, 0) CRLF;
      match p with
      | None => bad_request cbd 400
      | Some fields_ptr =>
          store fields_ptr [0];;
          let fields_ptr := ptr_add fields_ptr 2 in
          do r <- parse_request_line s;
          match r with
          | inl code => bad_request cbd code
          | inr (method, uri_ptr) =>
              set_session s (fun pd => pd <| ss_uri := uri_ptr |>);;
              do r <- (match method with
                       | HTTP_POST => parse_post cbd fields_ptr hdr_size size_rcvd
                       | HTTP_GET => set_session s (fun pd => pd <| ss_status := HTTPD_S_FULL_RCVD |>);; ret (inr 0)
                       end);
              match r with
              | inl r => ret r
              | inr r => set_session s (fun pd => pd <| ss_method := method |>);; ret r
              end
          end
      end
  end.

(** *** Receiving the payload *)

Definition httpd_recv_payload (cbd : tcb_cb_data) : HM Z :=
  let s := cbd_pdata cbd in
  do pd <- get_session s;
  let size_recv := Z.min (u32 (ss_payload_size pd - ss_upload_size pd)) (cbd_datalen cbd) in
  do d <- lift (slice (cbd_data cbd) 0 size_recv);
  store (ptr_add (ss_upload_ptr pd) (ss_upload_size pd)) d;;
  let upload_size := u32 (ss_upload_size pd + size_recv) in
  set_session s (fun pd => pd <| ss_upload_size := upload_size |>);;
  if upload_size =? ss_payload_size pd then
    finish_upload s;;
    set_session s (fun pd => pd <| ss_is_uploading := 0 |>);;
    is_uploading ::= 0;;
    ret 0
  else ret 1.

(** *** The form *)

(** One round of the loop that splits the payload at the boundary: [p] is at a
    boundary, [acc] are the parts found so far (start and end). *)
Definition split_body (boundary : list Z) (payload_end : ptr) (x : ptr * list (ptr * ptr)) :
    HM (ptr * list (ptr * ptr) + list (ptr * ptr)) :=
  let '(p, acc) := x in
  let p := ptr_add p (zlen boundary) in
  do l <- load p;
  do nl <- lift (starts_with l CRLF);
  if negb nl then ret (inr acc)
  else
    let start := ptr_add p 2 in
    do l <- load start;
    do r <- lift (memstr l (u32 (payload_end.2 - start.2)) boundary);
    match r with
    | None => ret (inr acc)
    | Some n =>
        let p := ptr_add start n in
        do l <- load (ptr_add p (-2));
        do nl <- lift (starts_with l CRLF);
        store (if nl : bool then ptr_add p (-2) else p) [0];;
        let acc := acc ++ [(start, ptr_add p (-2))] in
        if Nat.ltb (length acc) MAX_HTTP_FORM_VALUE_ITEMS then ret (inl (p, acc)) else ret (inr acc)
    end.

(** One form value. *)
Definition form_value (part : ptr * ptr) : HM (option httpd_form_value) :=
  let '(start, stop) := part in
  do p <- strstr_at start (CRLF ++ CRLF);
  match p with
  | None => ret None
  | Some p =>
      store p [0];;
      let data := ptr_add p 4 in
      do name_ptr <- strstr_at start (chars "name=");
      do filename_ptr <- strstr_at start (chars "filename=");
      do name <- (match name_ptr with
                  | Some q => do n <- name_extract (ptr_add q 5); ret (Some n)
                  | None => ret None
                  end);
      do filename <- (match filename_ptr with
                      | Some q => do n <- name_extract (ptr_add q 9); ret (Some n)
                      | None => ret None
                      end);
      ret (Some (mkForm name data filename (u32 (stop.2 - data.2))))
  end.

Fixpoint form_values (parts : list (ptr * ptr)) : HM (list httpd_form_value) :=
  match parts with
  | [] => ret []
  | x :: parts =>
      do v <- form_value x;
      do vs <- form_values parts;
      ret (match v with Some v => v :: vs | None => vs end)
  end.

(** The form of a POST request.  [malloc_ok] is for the copy of the boundary. *)
Definition parse_form (s : Z) : HM unit :=
  do pd <- get_session s;
  do b <- lift (ss_boundary pd);
  do l <- load b;
  do b <- lift (cstr l);
  let boundary := [45; 45] ++ b in
  do parts <- iter (Datatypes.S MAX_HTTP_FORM_VALUE_ITEMS)
                (split_body boundary (ptr_add (ss_upload_ptr pd) (ss_payload_size pd))) (ss_upload_ptr pd, []);
  do vs <- form_values parts;
  set_session s (fun pd => pd <| ss_form := ss_form pd ++ vs |>).

(** The answer of a handler to a new request. *)
Definition first_response (cbd : tcb_cb_data) : HM Z :=
  let s := cbd_pdata cbd in
  do pd <- get_session s;
  match rs_status (ss_response pd) with
  | HTTP_RESP_NONE => call (CallClose (cbd_conn cbd) 0);; ret 1
  | st =>
      (if bool_decide (st = HTTP_RESP_STD) then
         set_session s (fun pd => pd <| ss_response := (ss_response pd)
           <| rs_info := (rs_info (ss_response pd)) <| ri_content_length := i32 (rs_size (ss_response pd)) |> |> |>);;
         send_header cbd;;
         set_session s (fun pd => pd <| ss_resp_std_cnt := 0 |>)
       else
         do d <- load_ref (rs_data (ss_response pd));
         call (CallSend (cbd_conn cbd) d (rs_size (ss_response pd))));;
      set_session s (fun pd => pd <| ss_status := HTTPD_S_RESPONDING |>);;
      ret 0
  end.

Definition httpd_handle_request (malloc_ok : bool) (inst : httpd_instance) (cbd : tcb_cb_data) : HM Z :=
  let s := cbd_pdata cbd in
  do pd <- get_session s;
  do l <- load (ss_uri pd);
  do uri <- lift (cstr l);
  let urih := httpd_find_uri_handler inst uri in
  set_session s (fun pd => pd <| ss_urih := urih |>);;
  match urih with
  | None => call (CallClose (cbd_conn cbd) 1);; ret 1
  | Some cb =>
      match ss_method pd, malloc_ok with
      | HTTP_POST, false =>
          do _ <- lift (ss_boundary pd);
          call (CallClose (cbd_conn cbd) 1);; ret 1
      | m, _ =>
          (match m with HTTP_POST => parse_form s | HTTP_GET => ret tt end);;
          call_urih cb HTTP_CB_NEW s;;
          first_response cbd
      end
  end.

(** *** The callback *)

Definition status_is (s : Z) (st : httpd_session_status) : HM bool :=
  do pd <- get_session s; ret (bool_decide (ss_status pd = st)).

Definition httpd_rx (malloc_ok : bool) (inst : httpd_instance) (cbd : tcb_cb_data) : HM unit :=
  let s := cbd_pdata cbd in
  do new <- status_is s HTTPD_S_NEW;
  (if new : bool then set_session s (fun pd => pd <| ss_status := HTTPD_S_HEADER_RECVING |>) else ret tt);;
  do h <- status_is s HTTPD_S_HEADER_RECVING;
  do r <- (if h : bool then httpd_recv_hdr cbd else ret 0);
  if negb (r =? 0) then ret tt
  else
    do h <- status_is s HTTPD_S_PAYLOAD_RECVING;
    do r <- (if h : bool then httpd_recv_payload cbd else ret 0);
    if negb (r =? 0) then ret tt
    else
      do h <- status_is s HTTPD_S_FULL_RCVD;
      if h : bool then httpd_handle_request malloc_ok inst cbd;; ret tt else ret tt.

Definition httpd_tx (cbd : tcb_cb_data) : HM unit :=
  let s := cbd_pdata cbd in
  do pd <- get_session s;
  let send (pd : httpd_tcp_pdata) :=
    do d <- load_ref (rs_data (ss_response pd));
    call (CallSend (cbd_conn cbd) d (rs_size (ss_response pd))) in
  let close :=
    call (CallClose (cbd_conn cbd) 0);;
    set_session s (fun pd => pd <| ss_status := HTTPD_S_CLOSING |>) in
  if bool_decide (rs_status (ss_response pd) = HTTP_RESP_STD) then
    if ss_resp_std_cnt pd =? 0 then
      send pd;;
      set_session s (fun pd => pd <| ss_resp_std_cnt := 1 |>)
    else close
  else
    do cb <- lift (ss_urih pd);
    call_urih cb HTTP_CB_RESPONDING s;;
    do pd <- get_session s;
    if bool_decide (rs_status (ss_response pd) = HTTP_RESP_NONE) then close else send pd.

(** [free]: the session and its buffer are gone. *)
Definition free_session (s : Z) : HM unit :=
  modify (fun w => w <| hw_sessions := delete s (hw_sessions w) |> <| hw_objs := delete s (hw_objs w) |>).

Definition httpd_cleanup (cbd : tcb_cb_data) : HM unit :=
  let s := cbd_pdata cbd in
  do pd <- get_session s;
  (if negb (ss_is_uploading pd =? 0) then is_uploading ::= 0 else ret tt);;
  match ss_urih pd with Some cb => call_urih cb HTTP_CB_CLOSED s | None => ret tt end;;
  free_session s.

(** [calloc] of a session: its address, [0] for NULL. *)
Definition new_session : HM Z :=
  do s <- gets hw_next;
  if negb (calloc_ok s) then ret 0
  else
    hw_next ::= s + 1;;
    modify (fun w => w <| hw_sessions := <[s := zero_pdata]> (hw_sessions w) |>
                       <| hw_objs := <[s := fill 0 sizeof_buf]> (hw_objs w) |>);;
    ret s.

Definition httpd_tcp_callback (malloc_ok : bool) (cbd : tcb_cb_data) : HM tcb_cb_data :=
  do i <- httpd_find_instance (ntohs (cbd_dp cbd));
  match i with
  | None => call (CallClose (cbd_conn cbd) 1);; ret cbd
  | Some inst =>
      do cbd <-
        (if bool_decide (cbd_status cbd = TCP_CB_NEW_CONN) then
           do s <- new_session; ret (cbd <| cbd_pdata := s |>)
         else ret cbd);
      if bool_decide (cbd_status cbd = TCP_CB_NEW_CONN) && (cbd_pdata cbd =? 0) then
        call (CallClose (cbd_conn cbd) 1);; ret cbd
      else
        (if bool_decide (cbd_status cbd = TCP_CB_NEW_CONN) then call (CallSetPdata (cbd_conn cbd) (cbd_pdata cbd)) else ret tt);;
        (match cbd_status cbd with
         | TCP_CB_NEW_CONN | TCP_CB_DATA_RCVD =>
             if negb (cbd_datalen cbd =? 0) then httpd_rx malloc_ok inst cbd else ret tt
         | TCP_CB_DATA_SENT => httpd_tx cbd
         | TCP_CB_REMOTE_CLOSED | TCP_CB_CLOSED => httpd_cleanup cbd
         | _ => ret tt
         end);;
        ret cbd
  end.

(** The form value with this name; a value without a name is a null pointer. *)
Fixpoint find_value (vs : list httpd_form_value) (name : list Z) : HM (option httpd_form_value) :=
  match vs with
  | [] => ret None
  | v :: vs =>
      do p <- lift (fv_name v);
      do l <- load p;
      do eq <- lift (str_eq l name);
      if eq : bool then ret (Some v) else find_value vs name
  end.

Definition httpd_request_find_value (s : Z) (name : list Z) : HM (option httpd_form_value) :=
  do pd <- get_session s; find_value (ss_form pd) name.

End Httpd.
