(* ===== verification/HttpMem.v ===== *)
(** * The web server: memory and sessions

    Rules for the accesses of [Http]: an object is written as a concatenation,
    a pointer as the length of what is in front. *)

From stdpp Require Import base numbers list strings gmap option.
From Stdlib Require Import ZArith Lia.
From S2P Require Import Prelude NetWire Tcp Strto CStr Http.

Ltac list_assoc := repeat first [rewrite <- app_assoc | rewrite <- app_comm_cons]; reflexivity.

Section Worlds.
Context {B : Type}.
Implicit Types w : httpd_world B.

Definition with_obj (k : Z) (o : list Z) w : httpd_world B := w <| hw_objs := <[k := o]> (hw_objs w) |>.

Definition with_session (s : Z) (pd : httpd_tcp_pdata) w : httpd_world B :=
  w <| hw_sessions := <[s := pd]> (hw_sessions w) |>.

Definition add_call (c : tcp_call) w : httpd_world B := w <| hw_calls := hw_calls w ++ [c] |>.

Lemma with_obj_twice k o o' w : with_obj k o (with_obj k o' w) = with_obj k o w.
Proof. destruct w. unfold with_obj. cbn. by rewrite insert_insert_eq. Qed.

Lemma with_session_twice s pd pd' w : with_session s pd (with_session s pd' w) = with_session s pd w.
Proof. destruct w. unfold with_session. cbn. by rewrite insert_insert_eq. Qed.

Lemma with_obj_session k o s pd w : with_obj k o (with_session s pd w) = with_session s pd (with_obj k o w).
Proof. done. Qed.

Lemma with_obj_same k o w : hw_objs w !! k = Some o -> with_obj k o w = w.
Proof. intros H. unfold with_obj. destruct w. cbn in *. by rewrite insert_id. Qed.

Lemma with_session_same s pd w : hw_sessions w !! s = Some pd -> with_session s pd w = w.
Proof. intros H. unfold with_session. destruct w. cbn in *. by rewrite insert_id. Qed.

Lemma obj_session s pd w : hw_objs (with_session s pd w) = hw_objs w.
Proof. done. Qed.

Lemma session_obj k o w : hw_sessions (with_obj k o w) = hw_sessions w.
Proof. done. Qed.

Lemma obj_here k o w : hw_objs (with_obj k o w) !! k = Some o.
Proof. cbn. apply lookup_insert_eq. Qed.

Lemma obj_other k k' o w : k <> k' -> hw_objs (with_obj k o w) !! k' = hw_objs w !! k'.
Proof. intros H. cbn. by apply lookup_insert_ne. Qed.

Lemma session_here s pd w : hw_sessions (with_session s pd w) !! s = Some pd.
Proof. cbn. apply lookup_insert_eq. Qed.

Lemma session_other s s' pd w : s <> s' -> hw_sessions (with_session s pd w) !! s' = hw_sessions w !! s'.
Proof. intros H. cbn. by apply lookup_insert_ne. Qed.

(** *** Accesses *)

Lemma wp_load (p : ptr) a b (Q : list Z -> httpd_world B -> Prop) w :
  hw_objs w !! p.1 = Some (a ++ b) -> p.2 = zlen a -> Q b w -> wp (load p) Q w.
Proof.
  intros Ho Hp HQ. unfold load. apply wp_bind, wp_gets, wp_bind. eapply wp_lift; [exact Ho|]. rewrite Hp.
  pose proof (zlen_nonneg a). pose proof (zlen_nonneg b). destruct (Z.leb_spec 0 (zlen a)); [|lia].
  rewrite zlen_app. destruct (Z.leb_spec (zlen a) (zlen a + zlen b)); [|lia]. cbn [andb]. apply wp_ret. by rewrite drop_zlen.
Qed.

Lemma wp_store (p : ptr) a b c d (Q : unit -> httpd_world B -> Prop) w :
  hw_objs w !! p.1 = Some (a ++ b ++ c) -> p.2 = zlen a -> zlen d = zlen b ->
  Q tt (with_obj p.1 (a ++ d ++ c) w) -> wp (store p d) Q w.
Proof.
  intros Ho Hp Hl HQ. unfold store. apply wp_bind, wp_gets, wp_bind. eapply wp_lift; [exact Ho|]. rewrite Hp.
  apply wp_bind. eapply wp_lift; [by apply splice_zlen_app|]. by apply wp_modify.
Qed.

(** [*p = 0]. *)
Lemma wp_store_nul (p : ptr) a x c (Q : unit -> httpd_world B -> Prop) w :
  hw_objs w !! p.1 = Some (a ++ x :: c) -> p.2 = zlen a -> Q tt (with_obj p.1 (a ++ 0 :: c) w) -> wp (store p [0]) Q w.
Proof. intros Ho Hp HQ. by apply (wp_store p a [x] c [0]). Qed.

Lemma wp_get_session s pd (Q : httpd_tcp_pdata -> httpd_world B -> Prop) w :
  hw_sessions w !! s = Some pd -> Q pd w -> wp (get_session s) Q w.
Proof. intros Hs HQ. unfold get_session. apply wp_bind, wp_gets. by eapply wp_lift. Qed.

Lemma wp_set_session s pd f (Q : unit -> httpd_world B -> Prop) w :
  hw_sessions w !! s = Some pd -> Q tt (with_session s (f pd) w) -> wp (set_session s f) Q w.
Proof. intros Hs HQ. unfold set_session. apply wp_bind, wp_gets, wp_bind. eapply wp_lift; [exact Hs|]. by apply wp_modify. Qed.

(** *** Strings in memory: [t], ended by a NUL *)

Lemma wp_strstr (p : ptr) a t r pat n (Q : option ptr -> httpd_world B -> Prop) w :
  hw_objs w !! p.1 = Some (a ++ t ++ 0 :: r) -> p.2 = zlen a -> text t -> find_sub pat t = n ->
  Q ((fun i => (p.1, p.2 + Z.of_nat i)) <$> n) w -> wp (strstr_at p pat) Q w.
Proof.
  intros Ho Hp Ht Hn HQ. unfold strstr_at. apply wp_bind. eapply wp_load; [exact Ho|exact Hp|].
  apply wp_bind. eapply wp_lift; [unfold strstr; rewrite cstr_text by done; reflexivity|]. apply wp_ret.
  rewrite Hn. by destruct n.
Qed.

(** The text up to a character [c] that does not occur in it. *)
Lemma wp_strchr (p : ptr) a t c u r (Q : option ptr -> httpd_world B -> Prop) w :
  hw_objs w !! p.1 = Some (a ++ t ++ c :: u ++ 0 :: r) -> p.2 = zlen a -> text t -> c <> 0 -> text u -> c ∉ t ->
  Q (Some (p.1, p.2 + zlen t)) w -> wp (strchr_at p c) Q w.
Proof.
  intros Ho Hp Ht Hc Hu Hn HQ. unfold strchr_at. eapply (wp_strstr p a (t ++ c :: u) r); [by rewrite <- app_assoc|done| |by apply find_sub_char|exact HQ].
  apply text_app. split; [done|by constructor].
Qed.

(** A quoted text is cut off at the second quotation mark. *)
Lemma wp_name_quoted (p : ptr) a t u r (Q : ptr -> httpd_world B -> Prop) w :
  hw_objs w !! p.1 = Some (a ++ 34 :: t ++ 34 :: u ++ 0 :: r) -> p.2 = zlen a -> text t -> text u -> 34 ∉ t ->
  Q (ptr_add p 1) (with_obj p.1 (a ++ 34 :: t ++ 0 :: u ++ 0 :: r) w) -> wp (name_extract p) Q w.
Proof.
  intros Ho Hp Ht Hu Hn HQ. unfold name_extract. apply wp_bind. eapply wp_load; [exact Ho|exact Hp|].
  apply wp_bind. eapply wp_lift; [reflexivity|]. cbn [Z.eqb Pos.eqb]. apply wp_bind.
  assert (Ha : a ++ 34 :: t ++ 34 :: u ++ 0 :: r = (a ++ [34]) ++ t ++ 34 :: u ++ 0 :: r) by (by rewrite <- app_assoc).
  assert (Hl : p.2 + 1 = zlen (a ++ [34])) by (rewrite zlen_app, Hp; done).
  eapply (wp_strchr (ptr_add p 1)); [cbn; rewrite <- Ha; exact Ho|exact Hl|done|done|exact Hu|done|].
  apply wp_bind. unfold terminate. eapply (wp_store_nul _ (a ++ 34 :: t) 34).
  - cbn. rewrite Ho. f_equal. by rewrite <- app_assoc.
  - cbn. rewrite Hl, !zlen_app. unfold zlen. cbn. lia.
  - apply wp_ret. rewrite <- app_assoc. exact HQ.
Qed.

End Worlds.
