(* ===== verification/HttpForm.v ===== *)
(** * The web server: the form of an upload

    What [httpd_handle_request] makes of the multipart body a browser sends for
    a file input named [firmware]. *)

From stdpp Require Import base numbers list strings gmap option.
From Stdlib Require Import ZArith Lia.
From S2P Require Import Prelude NetWire Tcp Strto CStr Http HttpMem.

(** ** The body *)

Definition disposition : list Z := chars "Content-Disposition: form-data; name=".
Definition filename_eq : list Z := chars "; filename=".

(** The header of the part, up to its empty line. *)
Definition part_header (filename more : list Z) : list Z :=
  disposition ++ 34 :: chars "firmware" ++ 34 :: filename_eq ++ 34 :: filename ++ 34 :: more.

(** What is between the boundaries. *)
Definition part (filename more data : list Z) : list Z := part_header filename more ++ CRLF ++ CRLF ++ data ++ CRLF.

Definition delimiter (boundary : list Z) : list Z := [45; 45] ++ boundary.

(** One part, then the final boundary and anything else. *)
Definition form_body (boundary filename more data tail : list Z) : list Z :=
  delimiter boundary ++ CRLF ++ part filename more data ++ delimiter boundary ++ 45 :: tail.

(** What a browser guarantees: texts without NUL, a header that ends at its
    first empty line, and a boundary that does not occur in the part. *)
Record form_sane (boundary filename more data : list Z) : Prop := {
  sane_boundary : text boundary;
  sane_filename : text filename;
  sane_quote : 34 ∉ filename;
  sane_more : text more;
  sane_end : absent (CRLF ++ CRLF) (part_header filename more);
  sane_unique : absent (delimiter boundary) (part filename more data)
}.

(** ** After parsing *)

(** The header of the part with the NULs that end name, file name and header. *)
Definition cut_header (filename more : list Z) : list Z :=
  disposition ++ 34 :: chars "firmware" ++ 0 :: filename_eq ++ 34 :: filename ++ 0 :: more.

Definition cut_body (boundary filename more data tail : list Z) : list Z :=
  delimiter boundary ++ CRLF ++ cut_header filename more ++ 0 :: [10; 13; 10] ++ data ++ 0 :: 10 :: delimiter boundary ++ 45 :: tail.

(** Where the value is in the body. *)
Definition name_off (boundary : list Z) : Z := zlen (delimiter boundary) + 2 + zlen disposition + 1.
Definition data_off (boundary filename more : list Z) : Z := zlen (delimiter boundary) + 2 + zlen (part_header filename more) + 4.

Lemma zlen_cut_header filename more : zlen (cut_header filename more) = zlen (part_header filename more).
Proof. unfold cut_header, part_header. by rewrite !zlen_app, !zlen_cons, !zlen_app, !zlen_cons, !zlen_app, !zlen_cons, !zlen_app. Qed.

Section Form.
Context {B : Type} {E : http_env B}.
Implicit Types w : httpd_world B.
Context (boundary filename more data tail : list Z) (Hs : form_sane boundary filename more data).
Context (u : Z) (pre rest : list Z).
Local Abbreviation dl := (delimiter boundary).
Local Abbreviation body := (form_body boundary filename more data tail).

Definition part_start : ptr := (u, zlen pre + zlen dl + 2).
Definition part_stop : ptr := (u, zlen pre + zlen dl + 2 + zlen (part_header filename more) + 4 + zlen data).

(** The object once the part is cut off at its end. *)
Definition split_obj : list Z :=
  pre ++ dl ++ CRLF ++ part_header filename more ++ CRLF ++ CRLF ++ data ++ 0 :: 10 :: dl ++ 45 :: tail ++ 0 :: rest.

(** The part without its final line end. *)
Local Abbreviation cut := (part_header filename more ++ CRLF ++ CRLF ++ data).

Lemma part_cut : part filename more data = cut ++ CRLF.
Proof. unfold part. by rewrite <- !app_assoc. Qed.

Lemma zlen_cut_part : zlen cut = zlen (part_header filename more) + 4 + zlen data.
Proof. rewrite !zlen_app. change (zlen CRLF) with 2. lia. Qed.

Lemma split_ok w :
  hw_objs w !! u = Some (pre ++ body ++ 0 :: rest) -> zlen pre + zlen body < 2 ^ 32 ->
  wp (iter (Datatypes.S MAX_HTTP_FORM_VALUE_ITEMS) (split_body dl (u, zlen pre + zlen body)) ((u, zlen pre), []))
    (fun parts w' => parts = [(part_start, part_stop)] /\ w' = with_obj u split_obj w) w.
Proof.
  intros Ho Hb. cbn [iter MAX_HTTP_FORM_VALUE_ITEMS]. apply wp_bind. unfold split_body at 1, ptr_add. cbn [fst snd].
  assert (Ho1 : hw_objs w !! u = Some ((pre ++ dl) ++ CRLF ++ part filename more data ++ dl ++ 45 :: tail ++ 0 :: rest)).
  { rewrite Ho. f_equal. unfold form_body. by rewrite <- !app_assoc. }
  apply wp_bind. eapply (wp_load _ (pre ++ dl)); [exact Ho1|by rewrite zlen_app|].
  apply wp_bind. eapply wp_lift; [apply starts_with_app|]. cbn [negb]. apply wp_bind.
  eapply (wp_load _ (pre ++ dl ++ CRLF) (part filename more data ++ dl ++ 45 :: tail ++ 0 :: rest)).
  { cbn [fst]. rewrite Ho1. f_equal. by rewrite <- !app_assoc. }
  { cbn [snd]. rewrite !zlen_app. change (zlen CRLF) with 2. lia. }
  apply wp_bind. eapply wp_lift.
  { apply memstr_first; [apply absent_first, Hs|]. cbn [snd]. unfold form_body in *. rewrite !zlen_app in *.
    change (zlen CRLF) with 2 in *. pose proof (zlen_nonneg (45 :: tail)). pose proof (zlen_nonneg dl).
    pose proof (zlen_nonneg pre). pose proof (zlen_nonneg (part filename more data)). rewrite u32_small; lia. }
  assert (Ho2 : hw_objs w !! u = Some ((pre ++ dl ++ CRLF ++ cut) ++ CRLF ++ dl ++ 45 :: tail ++ 0 :: rest)).
  { rewrite Ho1, part_cut. f_equal. by rewrite <- !app_assoc. }
  assert (Hp : zlen pre + zlen dl + 2 + zlen (part filename more data) + -2 = zlen (pre ++ dl ++ CRLF ++ cut)).
  { rewrite part_cut, (zlen_app cut), (zlen_app pre), (zlen_app dl), (zlen_app CRLF). change (zlen CRLF) with 2. lia. }
  apply wp_bind. eapply (wp_load _ (pre ++ dl ++ CRLF ++ cut)); [exact Ho2|exact Hp|].
  apply wp_bind. eapply wp_lift; [apply starts_with_app|]. apply wp_bind.
  eapply (wp_store_nul _ (pre ++ dl ++ CRLF ++ cut) 13); [exact Ho2|exact Hp|]. cbn [app length Nat.ltb Nat.leb]. apply wp_ret.
  cbv iota. apply wp_bind. unfold split_body at 1, ptr_add. cbn [fst snd]. apply wp_bind.
  eapply (wp_load _ ((pre ++ dl ++ CRLF ++ cut) ++ 0 :: 10 :: dl) (45 :: tail ++ 0 :: rest)).
  { cbn [fst]. rewrite obj_here. f_equal. by rewrite <- !app_assoc. }
  { cbn [snd]. rewrite (zlen_app (pre ++ _)), !zlen_cons, <- Hp. lia. }
  apply wp_bind. eapply wp_lift; [reflexivity|]. cbn [negb]. apply wp_ret, wp_ret. split.
  - unfold part_start, part_stop. rewrite Hp, (zlen_app pre), (zlen_app dl), (zlen_app CRLF), zlen_cut_part. change (zlen CRLF) with 2.
    by rewrite !Z.add_assoc.
  - f_equal. unfold split_obj. by rewrite <- !app_assoc.
Qed.

Lemma header_text : text (part_header filename more).
Proof.
  destruct Hs. unfold part_header. rewrite text_app. split; [by apply textb_text|]. constructor; [done|].
  rewrite text_app. split; [by apply textb_text|]. constructor; [done|]. rewrite text_app. split; [by apply textb_text|].
  constructor; [done|]. rewrite text_app. split; [done|]. by constructor.
Qed.

(** Name and file name are found in the header. *)
Lemma name_found : find_sub (chars "name=") (part_header filename more) = Some 32%nat.
Proof. unfold part_header. apply find_sub_more. vm_compute. reflexivity. Qed.

Lemma filename_found : find_sub (chars "filename=") (part_header filename more) = Some 49%nat.
Proof.
  unfold part_header.
  change (disposition ++ 34 :: chars "firmware" ++ 34 :: filename_eq ++ 34 :: filename ++ 34 :: more)
    with ((disposition ++ 34 :: chars "firmware" ++ 34 :: filename_eq) ++ 34 :: filename ++ 34 :: more).
  apply find_sub_more. vm_compute. reflexivity.
Qed.

Local Abbreviation front := (pre ++ dl ++ CRLF).

Lemma zlen_front : zlen front = zlen pre + zlen dl + 2.
Proof. rewrite !zlen_app. change (zlen CRLF) with 2. lia. Qed.

Definition firmware_value : httpd_form_value :=
  mkForm (Some (u, zlen pre + name_off boundary)) (u, zlen pre + data_off boundary filename more)
    (Some (u, zlen front + 59)) (zlen data).

(** What is behind the header of the part. *)
Definition behind : list Z := [10; 13; 10] ++ data ++ 0 :: 10 :: dl ++ 45 :: tail ++ 0 :: rest.

Definition cut_obj : list Z := front ++ cut_header filename more ++ 0 :: behind.

Lemma form_value_ok w :
  hw_objs w !! u = Some split_obj -> zlen data < 2 ^ 32 ->
  wp (form_value (part_start, part_stop)) (fun v w' => v = Some firmware_value /\ w' = with_obj u cut_obj w) w.
Proof.
  intros Ho Hd. pose proof header_text as Hht. pose proof zlen_front as Hzf. unfold form_value.
  destruct (nul_ends data (10 :: dl ++ 45 :: tail ++ 0 :: rest)) as (t & r & Et & Htt).
  assert (Ho1 : split_obj = front ++ (part_header filename more ++ CRLF ++ CRLF ++ t) ++ 0 :: r).
  { unfold split_obj. rewrite Et. by rewrite <- !app_assoc. }
  apply wp_bind. eapply (wp_strstr part_start front (part_header filename more ++ CRLF ++ CRLF ++ t) r).
  { cbn [fst part_start]. by rewrite Ho, Ho1. }
  { done. }
  { rewrite !text_app. split_and!; [done|by apply textb_text|by apply textb_text|done]. }
  { rewrite (app_assoc CRLF CRLF). apply absent_find, Hs. }
  cbn [fmap option_fmap option_map part_start fst snd]. apply wp_bind.
  assert (Ho2 : split_obj = (front ++ part_header filename more) ++ 13 :: behind).
  { unfold split_obj, behind. by rewrite <- !app_assoc. }
  eapply (wp_store_nul _ (front ++ part_header filename more) 13).
  { cbn [fst]. by rewrite Ho, Ho2. }
  { cbn [snd]. rewrite zlen_app, Hzf. unfold zlen. lia. }
  cbn [fst]. set (w1 := with_obj u ((front ++ part_header filename more) ++ 0 :: behind) w).
  assert (Hw1 : hw_objs w1 !! u = Some (front ++ part_header filename more ++ 0 :: behind)).
  { unfold w1. rewrite obj_here. f_equal. list_assoc. }
  apply wp_bind. eapply (wp_strstr _ front (part_header filename more) behind); [exact Hw1|done|done|exact name_found|].
  apply wp_bind. eapply (wp_strstr _ front (part_header filename more) behind); [exact Hw1|done|done|exact filename_found|].
  cbn [fmap option_fmap option_map]. unfold ptr_add, part_start, part_stop. cbn [fst snd]. apply wp_bind, wp_bind.
  destruct Hs as [_ Hfn Hq Hmore _ _].
  eapply (wp_name_quoted _ (front ++ disposition) (chars "firmware") (filename_eq ++ 34 :: filename ++ 34 :: more) behind).
  { cbn [fst]. rewrite Hw1. unfold part_header. f_equal. list_assoc. }
  { cbn [snd]. rewrite (zlen_app front), Hzf. change (zlen disposition) with 37. lia. }
  { by apply textb_text. }
  { rewrite text_app. split; [by apply textb_text|]. constructor; [done|]. rewrite text_app. split; [done|]. by constructor. }
  { apply (bool_decide_unpack _). vm_compute. exact I. }
  apply wp_ret. cbn [fst]. apply wp_bind, wp_bind.
  eapply (wp_name_quoted _ (front ++ disposition ++ 34 :: chars "firmware" ++ 0 :: filename_eq) filename more behind).
  { cbn [fst]. rewrite obj_here. f_equal. list_assoc. }
  { cbn [snd]. rewrite (zlen_app front), Hzf. change (zlen (disposition ++ _)) with 58. lia. }
  { done. }
  { done. }
  { done. }
  apply wp_ret. unfold ptr_add. cbn [fst snd]. apply wp_ret. split.
  - unfold firmware_value, name_off, data_off. f_equal. rewrite Hzf.
    change (zlen disposition) with 37. f_equal.
    + f_equal. f_equal. lia.
    + f_equal. unfold zlen. lia.
    + f_equal. f_equal. lia.
    + rewrite u32_small; unfold zlen in *; lia.
  - unfold w1. rewrite !with_obj_twice. f_equal. unfold cut_obj, cut_header. list_assoc.
Qed.

End Form.
