(* ===== verification/HttpRecv.v ===== *)
(** * The web server: receiving an upload

    The request header, in any number of segments, and the payload, in any
    number of segments. *)

From stdpp Require Import base numbers list strings gmap option.
From Stdlib Require Import ZArith Lia.
From S2P Require Import Prelude NetWire Tcp Strto CStr Http HttpMem.

(** ** Decimal numbers *)

Lemma parse_dec fuel n acc k :
  0 <= n < 10 ^ Z.of_nat fuel -> n < 2 ^ 32 ->
  exists m, parse_digits 32 10 0 (dec_digits fuel n acc) k = parse_digits 32 10 n acc (k + m).
Proof.
  assert (Hd : forall d, 0 <= d < 10 -> isxdigit (48 + d) = true /\ digit_value (48 + d) = d).
  { intros d Hd. assert (E : isdigit (48 + d) = true) by (unfold isdigit; rewrite andb_true_iff, !Z.leb_le; lia).
    unfold isxdigit, digit_value. rewrite E. split; [done|lia]. }
  revert n acc k. induction fuel as [|f IH]; intros n acc k Hn H32; [cbn in Hn; exists 0%nat; rewrite Nat.add_0_r; cbn; f_equal; lia|].
  cbn [dec_digits]. destruct (Z.ltb_spec n 10).
  - rewrite Z.mod_small by lia. exists 1%nat. cbn [parse_digits]. destruct (Hd n) as [-> ->]; [lia|].
    destruct (Z.ltb_spec n 10); [|lia]. cbn [andb]. rewrite Z.mod_small by lia. do 2 f_equal; lia.
  - pose proof (Z.div_mod n 10 ltac:(lia)). pose proof (Z.mod_pos_bound n 10 ltac:(lia)).
    rewrite Nat2Z.inj_succ, Z.pow_succ_r in Hn by lia.
    destruct (IH (n / 10) ((48 + n mod 10) :: acc) k) as (m & ->); [split; [lia|]; apply Z.div_lt_upper_bound; lia|lia|].
    exists (Datatypes.S m). cbn [parse_digits]. destruct (Hd (n mod 10)) as [-> ->]; [lia|].
    destruct (Z.ltb_spec (n mod 10) 10); [|lia]. cbn [andb]. rewrite Z.mod_small by lia. do 2 f_equal; lia.
Qed.

(** [simple_strtoul] reads a printed number up to the end of its line. *)
Lemma strtoul_dec n rest : 0 <= n < 2 ^ 32 -> fst (simple_strtoul (print_dec n ++ 13 :: rest) 10) = n.
Proof.
  intros Hn. unfold print_dec. assert (Happ : forall f n acc, dec_digits f n acc ++ 13 :: rest = dec_digits f n (acc ++ 13 :: rest)).
  { clear. intros f. induction f as [|f IH]; intros n acc; cbn [dec_digits]; [done|]. destruct (n <? 10); [done|]. apply IH. }
  rewrite Happ. change (fst (parse_digits 32 10 0 (dec_digits 10 n ([] ++ 13 :: rest)) 0) = n). destruct (parse_dec 10 n ([] ++ 13 :: rest) 0) as (m & E); [lia|lia|].
  by rewrite E.
Qed.

Lemma dec_digits_ok fuel n acc : 0 <= n -> Forall (fun x => 48 <= x <= 57) acc -> Forall (fun x => 48 <= x <= 57) (dec_digits fuel n acc).
Proof.
  revert n acc. induction fuel as [|f IH]; intros n acc Hn Ha; cbn [dec_digits]; [done|].
  pose proof (Z.mod_pos_bound n 10 ltac:(lia)). assert (Forall (fun x => 48 <= x <= 57) ((48 + n mod 10) :: acc)) by (constructor; [lia|done]).
  destruct (n <? 10); [done|]. apply IH; [by apply Z.div_pos|done].
Qed.

Lemma print_dec_digits n : 0 <= n -> Forall (fun x => 48 <= x <= 57) (print_dec n).
Proof. intros Hn. apply dec_digits_ok; [done|constructor]. Qed.

Lemma print_dec_text n : 0 <= n -> text (print_dec n).
Proof. intros Hn. eapply Forall_impl; [|by apply print_dec_digits]. cbn. lia. Qed.

Lemma skip_spaces_dec n rest : 0 <= n -> skip_spaces (32 :: print_dec n ++ 13 :: rest) = print_dec n ++ 13 :: rest.
Proof.
  intros Hn. pose proof (print_dec_digits n Hn) as Hd. change (skip_spaces (32 :: ?l)) with (skip_spaces l).
  destruct (print_dec n) as [|x l]; [done|]. inversion Hd as [|? ? Hx ?]; subst. cbn. destruct (Z.eqb_spec x 32); [lia|done].
Qed.

(** ** The request line *)

Definition method_text (m : httpd_request_method) : list Z :=
  match m with HTTP_GET => chars "GET" | HTTP_POST => chars "POST" end.

Definition line (m : httpd_request_method) (uri version : list Z) : list Z := method_text m ++ 32 :: uri ++ 32 :: version.

(** The buffer in front of the fields, once the line is cut. *)
Definition cut (m : httpd_request_method) (uri version : list Z) : list Z := method_text m ++ 0 :: uri ++ 0 :: version ++ [0; 10].

Lemma zlen_cut_line m uri version : zlen (cut m uri version) = zlen (line m uri version) + 2.
Proof. unfold cut, line. rewrite !zlen_app, !zlen_cons, !zlen_app, !zlen_cons, !zlen_app. change (zlen [0; 10]) with 2. lia. Qed.

Lemma request_line_ok {B} m uri version s R (Q : Z + httpd_request_method * ptr -> httpd_world B -> Prop) w :
  text uri -> text version -> 32 ∉ uri -> 63 ∉ uri -> hw_objs w !! s = Some (line m uri version ++ 0 :: 10 :: R) ->
  Q (inr (m, (s, zlen (method_text m) + 1))) (with_obj s (cut m uri version ++ R) w) -> wp (parse_request_line s) Q w.
Proof.
  intros Hu Hv Hsp Hqm Ho HQ. unfold line in Ho. unfold cut in HQ. unfold parse_request_line. set (mt := method_text m) in *.
  assert (Hmt : text mt) by (apply textb_text; by destruct m).
  assert (Hms : 32 ∉ mt) by (destruct m; apply (bool_decide_unpack _); vm_compute; exact I).
  apply wp_bind. eapply (wp_strchr (s, 0) [] mt 32 (uri ++ 32 :: version) (10 :: R)).
  { cbn [fst]. rewrite Ho. list_assoc. }
  { done. }
  { done. }
  { done. }
  { rewrite text_app. split; [done|by constructor]. }
  { done. }
  apply wp_bind. eapply (wp_store_nul _ mt 32 (uri ++ 32 :: version ++ 0 :: 10 :: R)).
  { cbn [fst]. rewrite Ho. list_assoc. }
  { done. }
  apply wp_bind. eapply (wp_load (s, 0) [] (mt ++ 0 :: uri ++ 32 :: version ++ 0 :: 10 :: R)).
  { cbn [fst]. by rewrite obj_here. }
  { done. }
  assert (Hc : cstr (mt ++ 0 :: uri ++ 32 :: version ++ 0 :: 10 :: R) = Some mt) by (by apply cstr_text).
  apply wp_bind. eapply wp_lift; [unfold str_eq; rewrite Hc; reflexivity|].
  apply wp_bind. eapply wp_lift; [unfold str_eq; rewrite Hc; reflexivity|].
  assert (Hm : bool_decide (mt = chars "GET") || bool_decide (mt = chars "POST") = true /\
               (if bool_decide (mt = chars "GET") then HTTP_GET else HTTP_POST) = m) by (by destruct m).
  destruct Hm as [-> Hm]. cbn [negb]. apply wp_bind. unfold ptr_add. cbn [fst snd].
  eapply (wp_strchr _ (mt ++ [0]) uri 32 version (10 :: R)).
  { cbn [fst]. rewrite obj_here. list_assoc. }
  { cbn [snd]. by rewrite zlen_app. }
  { done. }
  { done. }
  { done. }
  { done. }
  apply wp_bind. eapply (wp_store_nul _ (mt ++ 0 :: uri) 32 (version ++ 0 :: 10 :: R)).
  { cbn [fst]. rewrite obj_here. list_assoc. }
  { cbn [snd]. rewrite (zlen_app mt), zlen_cons. lia. }
  apply wp_bind. eapply (wp_strstr _ (mt ++ [0]) uri (version ++ 0 :: 10 :: R)).
  { cbn [fst]. rewrite obj_here. list_assoc. }
  { cbn [snd]. by rewrite zlen_app. }
  { done. }
  { by apply find_char_none. }
  apply wp_bind, wp_ret, wp_ret. cbn [fst]. rewrite with_obj_twice, Hm.
  replace ((mt ++ 0 :: uri) ++ 0 :: version ++ 0 :: 10 :: R) with ((mt ++ 0 :: uri ++ 0 :: version ++ [0; 10]) ++ R) by list_assoc.
  exact HQ.
Qed.

(** ** The request *)

Section Post.
Context {B : Type} {E : http_env B}.
Implicit Types w : httpd_world B.

(** Other fields may stand before, between and behind the two that matter. *)
Record post := mkPost {
  pr_uri : list Z;
  pr_version : list Z;
  pr_before : list Z;
  pr_size : Z;
  pr_between : list Z;
  pr_kind : list Z;
  pr_boundary : list Z;
  pr_behind : list Z
}.

Definition length_field (q : post) : list Z := chars "Content-Length: " ++ print_dec (pr_size q).
Definition type_start (q : post) : list Z := chars "Content-Type: " ++ pr_kind q.
Definition boundary_eq : list Z := chars "boundary=".

(** The fields in front of [Content-Type]. *)
Definition fields_front (q : post) : list Z := pr_before q ++ length_field q ++ CRLF ++ pr_between q.
Definition fields (q : post) : list Z := fields_front q ++ type_start q ++ boundary_eq ++ pr_boundary q ++ pr_behind q.
Definition request_line (q : post) : list Z := line HTTP_POST (pr_uri q) (pr_version q).
Definition header (q : post) : list Z := request_line q ++ CRLF ++ fields q.

Record post_sane (q : post) : Prop := {
  ps_text : text (header q);
  ps_uri : (32 ∉ pr_uri q) /\ (63 ∉ pr_uri q);
  ps_line : 13 ∉ request_line q;
  ps_length : absent (chars "Content-Length:") (pr_before q);
  ps_type : absent (chars "Content-Type:") (fields_front q);
  ps_boundary_eq : absent boundary_eq (type_start q);
  ps_type_line : 13 ∉ (type_start q ++ boundary_eq ++ pr_boundary q);
  ps_unquoted : head (pr_boundary q) <> Some 34;
  ps_behind : pr_behind q = [] \/ exists more, pr_behind q = CRLF ++ more;
  ps_end : absent (CRLF ++ CRLF) (header q);
  ps_size : 0 <= pr_size q < 2 ^ 32;
  ps_fits : zlen (header q) + 4 < sizeof_buf
}.

(** ** Copying into the buffer *)

Lemma copy_in_ok cbd s pd x junk d extra (Q : Z -> httpd_world B -> Prop) w :
  cbd_pdata cbd = s -> cbd_data cbd = d ++ extra -> cbd_datalen cbd = zlen d ->
  hw_sessions w !! s = Some pd -> ss_bufsize pd = zlen x ->
  hw_objs w !! s = Some (x ++ 0 :: junk) -> zlen (x ++ 0 :: junk) = sizeof_buf -> zlen x + zlen d < sizeof_buf ->
  Q (zlen d) (with_session s (pd <| ss_bufsize := zlen (x ++ d) |>) (with_obj s ((x ++ d) ++ 0 :: drop (length d) junk) w)) ->
  wp (copy_in cbd) Q w.
Proof.
  intros Es Ed El Hs Hx Ho Hl Hf HQ. unfold copy_in. rewrite Es, Ed, El. apply wp_bind. eapply wp_get_session; [exact Hs|].
  pose proof (zlen_nonneg x). pose proof (zlen_nonneg d). unfold sizeof_buf in *. rewrite Hx, (u32_small (4096 - _ - _)) by lia.
  rewrite Z.min_l by lia. apply wp_bind.
  eapply wp_lift; [rewrite slice_some by (rewrite ?zlen_app; pose proof (zlen_nonneg extra); lia); reflexivity|].
  rewrite drop_0, take_zlen.
  rewrite zlen_app, zlen_cons in Hl. assert (Hj : (length d <= length junk)%nat) by (unfold zlen in *; lia).
  assert (Hspl : x ++ 0 :: junk = x ++ take (length d) (0 :: junk) ++ drop (length d) (0 :: junk)) by (by rewrite take_drop).
  apply wp_bind. eapply (wp_store (s, zlen x) x (take (length d) (0 :: junk)) (drop (length d) (0 :: junk))).
  { cbn [fst]. by rewrite Ho, <- Hspl. }
  { done. }
  { unfold zlen. rewrite length_take. cbn [length]. lia. }
  rewrite u32_small by lia. apply wp_bind. eapply wp_set_session; [exact Hs|]. apply wp_bind.
  destruct (drop (length d) (0 :: junk)) as [|y r] eqn:Er.
  { apply (f_equal length) in Er. rewrite length_drop in Er. cbn in Er. lia. }
  eapply (wp_store_nul _ (x ++ d) y r); [cbn [fst]; rewrite obj_session, obj_here; list_assoc|by rewrite zlen_app|].
  assert (r = drop (length d) junk) as ->.
  { change (drop (length d) junk) with (drop (Datatypes.S (length d)) (0 :: junk)). by rewrite <- Nat.add_1_r, <- drop_drop, Er. }
  apply wp_ret. cbn [fst]. rewrite with_obj_session, with_obj_twice. rewrite zlen_app in HQ. exact HQ.
Qed.

(** ** The header *)

Context (s : Z).

(** Nothing but this session, its buffer, the RAM region and the mark of a
    running upload changes. *)
Record frame w w' : Prop := {
  fr_insts : inst_head w' = inst_head w;
  fr_next : hw_next w' = hw_next w;
  fr_user : hw_user w' = hw_user w;
  fr_id : upload_id w' = upload_id w;
  fr_rands : hw_rands w' = hw_rands w;
  fr_objs k : k <> s -> k <> UPLOAD -> hw_objs w' !! k = hw_objs w !! k;
  fr_sessions k : k <> s -> hw_sessions w' !! k = hw_sessions w !! k
}.

Lemma frame_refl w : frame w w.
Proof. by constructor. Qed.

Lemma frame_trans w1 w2 w3 : frame w1 w2 -> frame w2 w3 -> frame w1 w3.
Proof.
  intros [] []. constructor; try congruence.
  - intros k H1 H2. rewrite fr_objs1 by done. by apply fr_objs0.
  - intros k H1. rewrite fr_sessions1 by done. by apply fr_sessions0.
Qed.

(** A new number for what is in the RAM region. *)
Definition drawn w : httpd_world B := w <| upload_id := rand (hw_rands w) |> <| hw_rands := Datatypes.S (hw_rands w) |>.

Lemma frame_drawn w w' : frame w w' -> frame (drawn w) (drawn w').
Proof. intros [? ? ? ? Hr ? ?]. constructor; try done; cbn; by rewrite Hr. Qed.

(** Nothing but this session and its buffer changes. *)
Definition local w w' : Prop := exists pd o, w' = with_session s pd (with_obj s o w).

Lemma local_trans w1 w2 w3 : local w1 w2 -> local w2 w3 -> local w1 w3.
Proof. intros (pd & o & ->) (pd' & o' & ->). exists pd', o'. by rewrite with_obj_session, with_session_twice, with_obj_twice. Qed.

(** The start [x] of the header is in the buffer. *)
Record reading (x ram : list Z) w : Prop := {
  rd_session : hw_sessions w !! s = Some (zero_pdata <| ss_status := HTTPD_S_HEADER_RECVING |> <| ss_bufsize := zlen x |>);
  rd_buffer : exists junk, hw_objs w !! s = Some (x ++ 0 :: junk) /\ zlen (x ++ 0 :: junk) = sizeof_buf;
  rd_ram : hw_objs w !! UPLOAD = Some ram
}.

Lemma with_frame f o w : frame w (with_session s f (with_obj s o w)).
Proof.
  constructor; try done.
  - intros k H1 _. rewrite obj_session. by apply obj_other.
  - intros k H1. rewrite session_other by done. done.
Qed.

Lemma local_frame w w' : local w w' -> frame w w'.
Proof. intros (pd & o & ->). apply with_frame. Qed.

Definition header_event (cbd : tcb_cb_data) (d : list Z) : Prop :=
  cbd_pdata cbd = s /\ cbd_datalen cbd = zlen d /\ exists extra, cbd_data cbd = d ++ extra.

(** A segment that does not complete the header. *)
Lemma recv_hdr_partial cbd x d ram w :
  header_event cbd d -> reading x ram w -> s <> UPLOAD -> text (x ++ d) -> find_sub (CRLF ++ CRLF) (x ++ d) = None ->
  zlen x + zlen d < sizeof_buf ->
  wp (httpd_recv_hdr cbd) (fun r w' => r = 1 /\ reading (x ++ d) ram w' /\ local w w') w.
Proof.
  intros (Es & El & extra & Ed) [Hs (junk & Ho & Hl) Hr] HsU Ht Hn Hf. unfold httpd_recv_hdr. apply wp_bind.
  eapply copy_in_ok; [exact Es|exact Ed|exact El|exact Hs|reflexivity|exact Ho|exact Hl|exact Hf|]. set (w1 := with_session s _ _).
  assert (Ho1 : hw_objs w1 !! s = Some ((x ++ d) ++ 0 :: drop (length d) junk)) by (unfold w1; rewrite obj_session; apply obj_here).
  apply wp_bind. rewrite Es. eapply (wp_strstr _ [] (x ++ d)); [exact Ho1|done|done|exact Hn|].
  cbn [fmap option_fmap option_map]. rewrite El, Z.eqb_refl. apply wp_ret. split_and!; [done| |by eexists _, _].
  constructor; [by unfold w1; rewrite session_here| |unfold w1; by rewrite obj_session, obj_other by done].
  exists (drop (length d) junk). split; [done|]. unfold sizeof_buf, zlen in *. rewrite !length_app in *. cbn [length] in *. rewrite length_drop. lia.
Qed.

(** The segment that completes the header: what is left once the request line
    is read. *)
Lemma recv_hdr_line cbd x d ram m uri version fs (Q : Z -> httpd_world B -> Prop) w :
  header_event cbd d -> reading x ram w -> x ++ d = (line m uri version ++ CRLF ++ fs) ++ CRLF ++ CRLF ->
  text (line m uri version) -> text fs -> 32 ∉ uri -> 63 ∉ uri -> 13 ∉ line m uri version ->
  absent (CRLF ++ CRLF) (line m uri version ++ CRLF ++ fs) -> zlen (x ++ d) < sizeof_buf ->
  (forall R, let o := cut m uri version ++ fs ++ 0 :: R in
   let w1 := with_session s (zero_pdata <| ss_status := HTTPD_S_HEADER_RECVING |> <| ss_bufsize := zlen (x ++ d) |>
               <| ss_uri := (s, zlen (method_text m) + 1) |>) (with_obj s o w) in
   zlen o = sizeof_buf ->
   wp (do r <- (match m with
                | HTTP_POST => parse_post cbd (s, zlen (cut m uri version)) (zlen (x ++ d)) (cbd_datalen cbd)
                | HTTP_GET => set_session s (fun pd => pd <| ss_status := HTTPD_S_FULL_RCVD |>);; ret (inr 0)
                end);
       match r with
       | inl r => ret r
       | inr r => set_session s (fun pd => pd <| ss_method := m |>);; ret r
       end) Q w1) ->
  wp (httpd_recv_hdr cbd) Q w.
Proof.
  intros (Es & El & extra & Ed) [Hs (junk & Ho & Hl) Hr] Hx Htl Htf Hsp Hqm Hcr He Hfit HQ. unfold httpd_recv_hdr.
  rewrite zlen_app in Hfit. set (l := line m uri version) in *. set (h := l ++ CRLF ++ fs) in *.
  apply wp_bind. eapply copy_in_ok; [exact Es|exact Ed|exact El|exact Hs|reflexivity|exact Ho|exact Hl|exact Hfit|].
  set (junk' := drop (length d) junk). set (w1 := with_session s _ _).
  assert (Ho1 : hw_objs w1 !! s = Some ((h ++ CRLF ++ CRLF) ++ 0 :: junk')) by (unfold w1; rewrite obj_session, <- Hx; apply obj_here).
  assert (Hl1 : zlen ((h ++ CRLF ++ CRLF) ++ 0 :: junk') = sizeof_buf).
  { rewrite <- Hx. unfold junk', sizeof_buf, zlen in *. rewrite !length_app in *. cbn [length] in *. rewrite length_drop. lia. }
  assert (Ht : text h) by (unfold h; rewrite !text_app; split_and!; [done|by apply textb_text|done]).
  assert (Huv : text uri /\ text version).
  { unfold l, line in Htl. rewrite text_app in Htl. destruct Htl as [_ H]. inversion H as [|? ? _ H1]; subst.
    rewrite text_app in H1. destruct H1 as [H1 H2]. split; [done|]. by inversion H2. }
  apply wp_bind. rewrite Es. eapply (wp_strstr _ [] (h ++ CRLF ++ CRLF) junk' _ (Some (length h))).
  { exact Ho1. }
  { done. }
  { rewrite !text_app. split_and!; [done|by apply textb_text|by apply textb_text]. }
  { exact He. }
  cbn [fmap option_fmap option_map fst snd]. set (R := 10 :: CRLF ++ 0 :: junk'). apply wp_bind.
  eapply (wp_store_nul _ h 13 R); [cbn [fst]; rewrite Ho1; list_assoc|done|]. cbn [fst]. apply wp_bind.
  eapply (wp_strstr _ [] h R _ (Some (length l))).
  { by rewrite obj_here. }
  { done. }
  { done. }
  { by apply find_sub_first, first_at_head. }
  cbn [fmap option_fmap option_map fst snd]. apply wp_bind.
  eapply (wp_store_nul _ l 13 (10 :: fs ++ 0 :: R)); [cbn [fst]; rewrite obj_here; unfold h; list_assoc|done|].
  cbn [fst]. rewrite with_obj_twice. apply wp_bind. destruct Huv as [Hut Hvt].
  eapply (request_line_ok m uri version); [done|done|done|done|apply obj_here|]. rewrite with_obj_twice.
  apply wp_bind. eapply wp_set_session; [rewrite session_obj; unfold w1; apply session_here|].
  unfold ptr_add. cbn [fst snd].
  assert (Ep : 0 + Z.of_nat (length l) + 2 = zlen (cut m uri version)) by (rewrite zlen_cut_line; unfold zlen, l; lia).
  assert (Eh : 0 + Z.of_nat (length h) + 4 = zlen (x ++ d)) by (rewrite Hx, !zlen_app; change (zlen CRLF) with 2; unfold zlen; lia).
  rewrite Ep, Eh, <- El. unfold w1. rewrite with_obj_session, with_session_twice, with_obj_twice. apply (HQ R).
  rewrite <- Hl1. unfold R, h. rewrite !zlen_app, !zlen_cons, !zlen_app, zlen_cut_line. change (zlen CRLF) with 2. rewrite zlen_cons. unfold l. lia.
Qed.

(** A GET request is complete with its header. *)
Record asked (uri : list Z) w : Prop := {
  ak_session : exists pd o k, hw_sessions w !! s = Some pd /\ hw_objs w !! s = Some o /\ zlen o = sizeof_buf /\
    ss_status pd = HTTPD_S_FULL_RCVD /\ ss_method pd = HTTP_GET /\ ss_is_uploading pd = 0 /\ ss_response pd = zero_response /\
    ss_uri pd = (s, k) /\ str_in o k uri
}.

Lemma recv_hdr_get cbd x d ram uri version fs w :
  header_event cbd d -> reading x ram w -> x ++ d = (line HTTP_GET uri version ++ CRLF ++ fs) ++ CRLF ++ CRLF ->
  text (line HTTP_GET uri version) -> text fs -> 32 ∉ uri -> 63 ∉ uri -> 13 ∉ line HTTP_GET uri version ->
  absent (CRLF ++ CRLF) (line HTTP_GET uri version ++ CRLF ++ fs) -> zlen (x ++ d) < sizeof_buf ->
  wp (httpd_recv_hdr cbd) (fun r w' => r = 0 /\ asked uri w' /\ local w w') w.
Proof.
  intros He Hrd Hx Htl Htf Hsp Hqm Hcr Ha Hfit. eapply recv_hdr_line; try done. intros R o w1 Hl.
  apply wp_bind, wp_bind. eapply wp_set_session; [apply session_here|]. apply wp_ret, wp_bind.
  eapply wp_set_session; [apply session_here|]. apply wp_ret. unfold w1. rewrite !with_session_twice. split; [done|].
  split; [|by eexists _, o]. constructor. eexists _, o, 4. split; [apply session_here|]. split; [rewrite obj_session; apply obj_here|].
  split_and!; try done.
  split.
  - unfold line in Htl. rewrite text_app in Htl. destruct Htl as [_ H]. inversion H as [|? ? _ H1]; subst. rewrite text_app in H1. tauto.
  - exists (chars "GET" ++ [0]), (version ++ [0; 10] ++ fs ++ 0 :: R). split; [unfold o, cut; list_assoc|done].
Qed.

(** ** Parsing the header *)

Context (q : post) (Hq : post_sane q).

Lemma line_text : text (request_line q) /\ text (fields q).
Proof. pose proof (ps_text q Hq) as H. unfold header in H. rewrite !text_app in H. tauto. Qed.

Lemma uri_text : text (pr_uri q) /\ text (pr_version q).
Proof.
  destruct line_text as [H _]. unfold request_line, line in H. rewrite text_app in H. destruct H as [_ H].
  inversion H as [|? ? _ H1]; subst. rewrite text_app in H1. destruct H1 as [H1 H2]. split; [done|]. by inversion H2.
Qed.

(** [Content-Length]. *)
Lemma content_length_ok a R w :
  hw_objs w !! s = Some (a ++ fields q ++ 0 :: R) ->
  wp (content_length (s, zlen a)) (fun n w' => n = Some (pr_size q) /\ w' = w) w.
Proof.
  intros Ho. pose proof (ps_size q Hq) as Hn. destruct line_text as [_ Hf]. unfold content_length. apply wp_bind.
  set (tl := 10 :: pr_between q ++ type_start q ++ boundary_eq ++ pr_boundary q ++ pr_behind q).
  assert (Ef : fields q = pr_before q ++ chars "Content-Length:" ++ 32 :: print_dec (pr_size q) ++ 13 :: tl).
  { unfold fields, fields_front, length_field, tl. change (chars "Content-Length: ") with (chars "Content-Length:" ++ [32]). list_assoc. }
  eapply (wp_strstr _ a (fields q) R); [exact Ho|done|done|rewrite Ef; apply absent_find, Hq|].
  cbn [fmap option_fmap option_map fst snd]. apply wp_bind. unfold ptr_add. cbn [fst snd].
  eapply (wp_load _ (a ++ pr_before q ++ chars "Content-Length:") (32 :: print_dec (pr_size q) ++ 13 :: tl ++ 0 :: R)).
  { cbn [fst]. rewrite Ho, Ef. list_assoc. }
  { cbn [snd]. rewrite !zlen_app. change (zlen (chars "Content-Length:")) with 15. unfold zlen. lia. }
  assert (Htl : text (print_dec (pr_size q) ++ 13 :: tl)) by (rewrite Ef, text_app in Hf; destruct Hf as [_ Hf]; rewrite text_app in Hf;
    destruct Hf as [_ Hf]; by inversion Hf).
  apply wp_bind. eapply wp_lift.
  { rewrite skip_spaces_dec by lia. change (13 :: tl ++ 0 :: R) with ((13 :: tl) ++ 0 :: R). rewrite app_assoc. by apply cstr_text. }
  apply wp_ret. by rewrite strtoul_dec.
Qed.

Local Abbreviation cut_line := (cut HTTP_POST (pr_uri q) (pr_version q)).

(** The fields up to the boundary. *)
Definition fields_upto : list Z := fields_front q ++ type_start q ++ boundary_eq.

Lemma name_unquoted p a R w :
  hw_objs w !! s = Some (a ++ pr_boundary q ++ 0 :: R) -> p = (s, zlen a) -> text (pr_boundary q) -> 13 ∉ pr_boundary q ->
  wp (name_extract p) (fun p' w' => p' = p /\ w' = w) w.
Proof.
  intros Ho -> Ht Hcr. pose proof (ps_unquoted q Hq) as Hu. unfold name_extract. apply wp_bind.
  eapply (wp_load _ a (pr_boundary q ++ 0 :: R)); [exact Ho|done|]. apply wp_bind.
  assert (exists c, (pr_boundary q ++ 0 :: R) !! 0%nat = Some c /\ c <> 34) as (c & Ec & Hc).
  { destruct (pr_boundary q) as [|x l]; [by exists 0|]. exists x. split; [done|]. intros ->. done. }
  eapply wp_lift; [exact Ec|]. destruct (Z.eqb_spec c 34); [done|]. apply wp_bind.
  eapply (wp_strstr _ a (pr_boundary q) R); [exact Ho|done|done|by apply find_char_none|]. by apply wp_bind, wp_ret, wp_ret.
Qed.

Lemma content_boundary_ok a R w :
  hw_objs w !! s = Some (a ++ fields q ++ 0 :: R) ->
  wp (content_boundary (s, zlen a)) (fun b w' => b = inr (Some (s, zlen (a ++ fields_upto))) /\
    exists R', w' = with_obj s (a ++ fields_upto ++ pr_boundary q ++ 0 :: R') w /\
      zlen (pr_boundary q ++ 0 :: R') = zlen (pr_boundary q ++ pr_behind q ++ 0 :: R)) w.
Proof.
  intros Ho. destruct line_text as [_ Hf]. pose proof (ps_type_line q Hq) as Hcr. unfold content_boundary. apply wp_bind.
  set (T0 := type_start q ++ boundary_eq ++ pr_boundary q) in *.
  assert (Ef : fields q = fields_front q ++ T0 ++ pr_behind q) by (unfold fields, T0; list_assoc).
  assert (HT : text (T0 ++ pr_behind q)) by (rewrite Ef, text_app in Hf; tauto).
  pose proof HT as HT'. rewrite text_app in HT'. destruct HT' as [HT0 _].
  eapply (wp_strstr _ a (fields q) R); [exact Ho|done|done| |].
  { rewrite Ef. unfold T0, type_start. change (chars "Content-Type: ") with (chars "Content-Type:" ++ [32]).
    rewrite <- !app_assoc. apply absent_find, Hq. }
  cbn [fmap option_fmap option_map fst snd]. apply wp_bind.
  assert (Hz : zlen a + Z.of_nat (length (fields_front q)) = zlen (a ++ fields_front q)) by (by rewrite zlen_app).
  assert (Hrest : forall w1 R', hw_objs w1 !! s = Some ((a ++ fields_front q) ++ T0 ++ 0 :: R') ->
    wp (do b <- strstr_at (s, zlen a + Z.of_nat (length (fields_front q))) (chars "boundary=");
        match b with None => ret (inl tt) | Some b => do b <- name_extract (ptr_add b 9); ret (inr (Some b)) end)
      (fun b w' => b = inr (Some (s, zlen (a ++ fields_upto))) /\ w' = w1) w1).
  { intros w1 R' Ho1. apply wp_bind. eapply (wp_strstr _ (a ++ fields_front q) T0 R'); [exact Ho1|exact Hz|done|unfold T0; apply absent_find, Hq|].
    cbn [fmap option_fmap option_map fst snd]. apply wp_bind. unfold ptr_add. cbn [fst snd].
    assert (Hp : zlen a + Z.of_nat (length (fields_front q)) + Z.of_nat (length (type_start q)) + 9 = zlen (a ++ fields_upto)).
    { unfold fields_upto. rewrite !zlen_app. change (zlen boundary_eq) with 9. unfold zlen. lia. }
    rewrite Hp. eapply wp_conseq; [apply (name_unquoted _ (a ++ fields_upto) R'); [|done|..]|].
    - rewrite Ho1. unfold fields_upto, T0. list_assoc.
    - unfold T0 in HT0. rewrite !text_app in HT0. tauto.
    - intros Hin. apply Hcr. unfold T0. rewrite !elem_of_app. tauto.
    - intros p w2 [-> ->]. by apply wp_ret. }
  destruct (ps_behind q Hq) as [Eb|[more Eb]].
  - rewrite Eb in *. rewrite app_nil_r in *. eapply (wp_strstr _ (a ++ fields_front q) T0 R _ None).
    { cbn [fst]. rewrite Ho, Ef. list_assoc. }
    { exact Hz. }
    { done. }
    { apply find_sub_none. intros x y Exy. apply Hcr. rewrite Exy, !elem_of_app. right. left. by left. }
    apply wp_bind, wp_ret. eapply wp_conseq; [apply (Hrest w R); rewrite Ho, Ef; list_assoc|]. intros b w' [-> ->]. split; [done|].
    exists R. split; [|done]. symmetry. apply with_obj_same. rewrite Ho, Ef. unfold fields_upto, T0. list_assoc.
  - rewrite Eb in *. eapply (wp_strstr _ (a ++ fields_front q) (T0 ++ CRLF ++ more) R _ (Some (length T0))).
    { cbn [fst]. rewrite Ho, Ef. list_assoc. }
    { exact Hz. }
    { done. }
    { by apply find_sub_first, first_at_head. }
    cbn [fmap option_fmap option_map fst snd]. apply wp_bind.
    eapply (wp_store_nul _ (a ++ fields_front q ++ T0) 13 (10 :: more ++ 0 :: R)).
    { cbn [fst]. rewrite Ho, Ef. list_assoc. }
    { cbn [snd]. rewrite Hz, !zlen_app. unfold zlen. lia. }
    cbn [fst]. eapply wp_conseq; [apply (Hrest _ (10 :: more ++ 0 :: R)); rewrite obj_here; list_assoc|]. intros b w' [-> ->]. split; [done|].
    exists (10 :: more ++ 0 :: R). split; [f_equal; unfold fields_upto, T0; list_assoc|]. unfold zlen. rewrite !length_app. cbn. rewrite !length_app. cbn. lia.
Qed.

(** ** Stages of an upload into the RAM region *)

(** What the session knows of the request. *)
Record requested (pd : httpd_tcp_pdata) (o : list Z) : Prop := {
  rq_length : zlen o = sizeof_buf;
  rq_method : ss_method pd = HTTP_POST;
  rq_size : ss_payload_size pd = pr_size q;
  rq_ptr : ss_upload_ptr pd = (UPLOAD, 0);
  rq_form : ss_form pd = [];
  rq_response : ss_response pd = zero_response;
  rq_uri : exists k, ss_uri pd = (s, k) /\ str_in o k (pr_uri q);
  rq_boundary : exists k, ss_boundary pd = Some (s, k) /\ str_in o k (pr_boundary q)
}.

(** The start [got] of the payload is in the RAM region, [ram] is behind it. *)
Record receiving (got ram : list Z) w : Prop := {
  rc_session : exists pd o, hw_sessions w !! s = Some pd /\ hw_objs w !! s = Some o /\ requested pd o /\
    ss_status pd = HTTPD_S_PAYLOAD_RECVING /\ ss_upload_size pd = zlen got;
  rc_ram : hw_objs w !! UPLOAD = Some (got ++ ram)
}.

Context (HsU : s <> UPLOAD).

Lemma place_upload_ok cbd pd o hs ram w :
  cbd_pdata cbd = s -> hw_sessions w !! s = Some pd -> hw_objs w !! s = Some o -> hw_objs w !! UPLOAD = Some ram -> is_uploading w = 0 ->
  ss_bufsize pd = hs -> 0 <= hs <= zlen o -> zlen o = sizeof_buf -> 0 <= ss_payload_size pd ->
  sizeof_buf <= hs + ss_payload_size pd < 2 ^ 32 ->
  wp (place_upload cbd hs (cbd_datalen cbd)) (fun r w' => r = false /\ frame (drawn w) w' /\
    hw_sessions w' !! s = Some (pd <| ss_upload_ptr := (UPLOAD, 0) |> <| ss_upload_size := 0 |>) /\
    hw_objs w' !! s = Some o /\ hw_objs w' !! UPLOAD = Some ram) w.
Proof.
  intros Es Hs Ho Hr Hi Eb Hhs Hlo Hp0 Hp. unfold place_upload. rewrite Es. apply wp_bind. eapply wp_get_session; [exact Hs|].
  rewrite Eb, Z.sub_diag. change (u32 0) with 0. rewrite u32_small by (unfold sizeof_buf in *; lia).
  destruct (Z.ltb_spec (hs + ss_payload_size pd) sizeof_buf); [lia|]. apply wp_bind, wp_gets. rewrite Hi. cbn [Z.eqb negb].
  apply wp_bind. unfold next_rand. apply wp_bind, wp_gets, wp_bind, wp_modify, wp_ret, wp_bind, wp_modify. apply wp_bind.
  eapply (wp_load _ (take (Z.to_nat hs) o) (drop (Z.to_nat hs) o)).
  { cbn. by rewrite take_drop. }
  { cbn [snd]. unfold zlen in *. rewrite length_take. lia. }
  apply wp_bind. eapply wp_lift; [rewrite slice_some by (pose proof (zlen_nonneg (drop (Z.to_nat hs) o)); lia); reflexivity|].
  cbn [Z.to_nat take]. apply wp_bind. eapply (wp_store _ [] [] ram []); [exact Hr|done|done|]. cbn [fst app].
  rewrite Z.ltb_irrefl. apply wp_bind, wp_ret, wp_bind. eapply wp_set_session; [rewrite session_obj; exact Hs|]. apply wp_ret.
  split_and!; [done| |by rewrite session_here|rewrite obj_session, obj_other by done; exact Ho|rewrite obj_session; apply obj_here].
  constructor; try done.
  - intros k H1 H2. rewrite obj_session, obj_other by done. done.
  - intros k H1. by rewrite session_other by done.
Qed.

Lemma zlen_header : zlen (header q) = zlen cut_line + zlen (fields q).
Proof. unfold header, request_line. rewrite zlen_cut_line, !zlen_app. change (zlen CRLF) with 2. lia. Qed.

(** The fields, up to the place for the payload. *)
Lemma parse_post_fields cbd pd R (Q : Z + Z -> httpd_world B -> Prop) w :
  cbd_pdata cbd = s -> hw_sessions w !! s = Some pd -> hw_objs w !! s = Some (cut_line ++ fields q ++ 0 :: R) ->
  zlen (cut_line ++ fields q ++ 0 :: R) = sizeof_buf ->
  (forall R', let o := cut_line ++ fields_upto ++ pr_boundary q ++ 0 :: R' in
   let pd1 := pd <| ss_payload_size := pr_size q |> <| ss_boundary := Some (s, zlen (cut_line ++ fields_upto)) |> in zlen o = sizeof_buf ->
   wp (do refused <- place_upload cbd (zlen (header q) + 4) (cbd_datalen cbd);
       if refused : bool then ret (inl 1) else do r <- start_payload s; ret (inr r)) Q (with_session s pd1 (with_obj s o w))) ->
  wp (parse_post cbd (s, zlen cut_line) (zlen (header q) + 4) (cbd_datalen cbd)) Q w.
Proof.
  intros Es Hs Ho Hl HQ. unfold parse_post. rewrite Es. apply wp_bind. eapply wp_conseq; [by eapply content_length_ok|]. intros n w1 [-> ->].
  apply wp_bind. eapply wp_set_session; [exact Hs|]. apply wp_bind.
  eapply wp_conseq; [eapply content_boundary_ok; rewrite obj_session; exact Ho|]. intros b w1 [-> (R' & -> & Hl')].
  apply wp_bind. eapply wp_set_session; [rewrite session_obj, session_here; reflexivity|].
  rewrite with_obj_session, with_session_twice. apply (HQ R').
  rewrite <- Hl. unfold fields. rewrite !zlen_app in *. unfold fields_upto. rewrite !zlen_app. lia.
Qed.

Lemma parse_post_ok cbd pd R ram w :
  cbd_pdata cbd = s -> hw_sessions w !! s = Some pd -> hw_objs w !! s = Some (cut_line ++ fields q ++ 0 :: R) ->
  hw_objs w !! UPLOAD = Some ram -> is_uploading w = 0 ->
  zlen (cut_line ++ fields q ++ 0 :: R) = sizeof_buf -> ss_bufsize pd = zlen (header q) + 4 ->
  sizeof_buf <= zlen (header q) + 4 + pr_size q < 2 ^ 32 ->
  ss_form pd = [] -> ss_response pd = zero_response -> ss_uri pd = (s, 5) ->
  wp (parse_post cbd (s, zlen cut_line) (zlen (header q) + 4) (cbd_datalen cbd)) (fun r w' => r = inr 1 /\ frame (drawn w) w' /\
    hw_objs w' !! UPLOAD = Some ram /\ exists pd' o, hw_sessions w' !! s = Some pd' /\ hw_objs w' !! s = Some o /\
      requested (pd' <| ss_method := HTTP_POST |>) o /\ ss_status pd' = HTTPD_S_PAYLOAD_RECVING /\ ss_upload_size pd' = 0) w.
Proof.
  intros Es Hs Ho Hr Hi Hl Hb Hbig Hform Hresp Huri. pose proof (ps_size q Hq) as Hsz. pose proof (ps_fits q Hq) as Hfit.
  pose proof (zlen_nonneg (header q)). eapply parse_post_fields; [exact Es|exact Hs|exact Ho|exact Hl|]. intros R' o pd1 Hlo. apply wp_bind.
  eapply wp_conseq; [eapply (place_upload_ok cbd pd1 o _ ram); [exact Es|apply session_here|rewrite obj_session; apply obj_here|
    rewrite obj_session, obj_other by done; exact Hr|exact Hi|exact Hb| |exact Hlo|exact (proj1 Hsz)|exact Hbig]|]; [lia|].
  intros r w2 (-> & Hfr & Hs2 & Ho2 & Hr2). apply wp_bind. unfold start_payload. apply wp_bind. eapply wp_get_session; [exact Hs2|].
  assert (Hne : 0 <> pr_size q) by (unfold sizeof_buf in *; lia).
  match goal with |- context [ss_upload_size ?p =? ss_payload_size ?p] => change (ss_upload_size p) with 0; change (ss_payload_size p) with (pr_size q) end.
  destruct (Z.eqb_spec 0 (pr_size q)); [done|].
  apply wp_bind. eapply wp_set_session; [exact Hs2|]. apply wp_bind, wp_modify, wp_ret. cbn [Z.eqb]. apply wp_ret. split; [done|].
  split; [|split; [exact Hr2|]].
  - eapply frame_trans; [apply frame_drawn, with_frame|]. eapply frame_trans; [exact Hfr|]. constructor; try done. intros k Hk. by apply session_other.
  - eexists _, o. split; [apply session_here|]. split; [exact Ho2|]. split; [|done].
    destruct uri_text as [Hut Hvt]. destruct line_text as [_ Hft].
    constructor; try done.
    + exists 5. split; [done|]. split; [exact Hut|].
      exists (chars "POST" ++ [0]), (pr_version q ++ [0; 10] ++ fields_upto ++ pr_boundary q ++ 0 :: R'). split; [|done].
      unfold o, cut. list_assoc.
    + exists (zlen (cut_line ++ fields_upto)). split; [done|]. split.
      * unfold fields in Hft. rewrite !text_app in Hft. tauto.
      * exists (cut_line ++ fields_upto), R'. split; [unfold o; list_assoc|done].
Qed.

(** The segment that completes the header, without any payload. *)
Lemma recv_hdr_final cbd x d ram w :
  header_event cbd d -> reading x ram w -> is_uploading w = 0 -> x ++ d = header q ++ CRLF ++ CRLF ->
  sizeof_buf <= zlen (header q) + 4 + pr_size q < 2 ^ 32 ->
  wp (httpd_recv_hdr cbd) (fun r w' => r = 1 /\ receiving [] ram w' /\ frame (drawn w) w') w.
Proof.
  intros He Hrd Hi Hx Hbig. pose proof (ps_fits q Hq) as Hfit. destruct line_text as [Htl Htf]. destruct (ps_uri q Hq) as [Hsp Hqm].
  assert (Hxl : zlen (x ++ d) = zlen (header q) + 4) by (rewrite Hx, !zlen_app; change (zlen CRLF) with 2; lia).
  destruct (Hrd) as [_ _ Hr]. destruct (He) as (Es & _ & _).
  eapply (recv_hdr_line cbd x d ram HTTP_POST (pr_uri q) (pr_version q) (fields q)); try done; try apply Hq; [lia|].
  intros R o1 w2 Hl. rewrite Hxl. apply wp_bind.
  eapply wp_conseq; [eapply (parse_post_ok cbd _ R ram w2); [exact Es|apply session_here|unfold w2; rewrite obj_session; apply obj_here|
    |exact Hi|exact Hl|exact Hxl|exact Hbig|done|done|done]|].
  { unfold w2. by rewrite obj_session, obj_other by done. }
  intros r w3 (-> & Hfr & Hr3 & pd' & o & Hs3 & Ho3 & Hrq & Hst & Hup). apply wp_bind. eapply wp_set_session; [exact Hs3|]. apply wp_ret.
  split; [done|]. split.
  - constructor; [|by rewrite obj_session]. eexists _, o. split; [apply session_here|]. split; [exact Ho3|]. by split_and!.
  - apply (frame_trans _ w3); [|constructor; try done; intros k Hk; by apply session_other].
    apply (frame_trans _ (drawn w2)); [|exact Hfr]. apply frame_drawn, with_frame.
Qed.

(** While another upload runs the connection is reset, and nothing but this
    session changes. *)
Lemma recv_hdr_refused cbd x d ram w :
  header_event cbd d -> reading x ram w -> is_uploading w <> 0 -> x ++ d = header q ++ CRLF ++ CRLF ->
  sizeof_buf <= zlen (header q) + 4 + pr_size q < 2 ^ 32 ->
  wp (httpd_recv_hdr cbd) (fun r w' => r = 1 /\ exists w1, local w w1 /\ w' = add_call (CallClose (cbd_conn cbd) 1) w1) w.
Proof.
  intros He Hrd Hi Hx Hbig. pose proof (ps_fits q Hq) as Hfit. destruct line_text as [Htl Htf]. destruct (ps_uri q Hq) as [Hsp Hqm].
  assert (Hxl : zlen (x ++ d) = zlen (header q) + 4) by (rewrite Hx, !zlen_app; change (zlen CRLF) with 2; lia).
  destruct (He) as (Es & _ & _). pose proof (ps_size q Hq) as Hsz. pose proof (zlen_nonneg (header q)).
  eapply (recv_hdr_line cbd x d ram HTTP_POST (pr_uri q) (pr_version q) (fields q)); try done; try apply Hq; [lia|].
  intros R o1 w2 Hl. rewrite Hxl. apply wp_bind.
  eapply (parse_post_fields cbd); [exact Es|apply session_here|unfold w2; rewrite obj_session; apply obj_here|exact Hl|]. intros R' o pd1 Hlo.
  apply wp_bind. unfold place_upload. rewrite Es. apply wp_bind. eapply wp_get_session; [apply session_here|].
  change (ss_payload_size pd1) with (pr_size q). rewrite (u32_small (_ + pr_size q)) by (unfold sizeof_buf in *; lia).
  destruct (Z.ltb_spec (zlen (header q) + 4 + pr_size q) sizeof_buf); [lia|]. apply wp_bind, wp_gets.
  change (is_uploading (with_session s pd1 (with_obj s o w2))) with (is_uploading w). destruct (Z.eqb_spec (is_uploading w) 0); [done|]. cbn [negb].
  apply wp_bind. unfold call. apply wp_modify, wp_ret, wp_ret, wp_ret. split; [done|]. eexists. split; [|reflexivity].
  unfold w2. exists pd1, o. by rewrite with_obj_session, with_session_twice, with_obj_twice.
Qed.

(** ** Receiving the payload *)

(** The whole payload is in the RAM region, followed by a NUL. *)
Record received (body ram : list Z) w : Prop := {
  rv_session : exists pd o, hw_sessions w !! s = Some pd /\ hw_objs w !! s = Some o /\ requested pd o /\
    ss_status pd = HTTPD_S_FULL_RCVD /\ ss_is_uploading pd = 0;
  rv_ram : hw_objs w !! UPLOAD = Some (body ++ 0 :: ram);
  rv_idle : is_uploading w = 0
}.

Lemma requested_more pd o n st u : requested pd o -> requested (pd <| ss_upload_size := n |> <| ss_status := st |> <| ss_is_uploading := u |>) o.
Proof. by intros []. Qed.

Lemma recv_payload_store cbd got d ram (Q : Z -> httpd_world B -> Prop) w :
  header_event cbd d -> receiving got ram w -> zlen got + zlen d <= pr_size q -> zlen d <= zlen ram ->
  (forall pd o, let w1 := with_session s (pd <| ss_upload_size := zlen (got ++ d) |>) (with_obj UPLOAD ((got ++ d) ++ drop (length d) ram) w) in
   hw_objs w1 !! s = Some o -> requested pd o -> ss_status pd = HTTPD_S_PAYLOAD_RECVING ->
   wp (if zlen (got ++ d) =? pr_size q then
         finish_upload s;; set_session s (fun pd => pd <| ss_is_uploading := 0 |>);; is_uploading ::= 0;; ret 0
       else ret 1) Q w1) ->
  wp (httpd_recv_payload cbd) Q w.
Proof.
  intros (Es & El & extra & Ed) [(pd & o & Hs & Ho & Hrq & Hst & Hup) Hr] Hsz Hram HQ. unfold httpd_recv_payload. rewrite Es.
  pose proof (ps_size q Hq). pose proof (zlen_nonneg got). pose proof (zlen_nonneg d). pose proof (zlen_nonneg extra).
  apply wp_bind. eapply wp_get_session; [exact Hs|]. rewrite (rq_size _ _ Hrq), (rq_ptr _ _ Hrq), Hup, El.
  rewrite (u32_small (pr_size q - _)), Z.min_r by lia. rewrite (u32_small (zlen got + zlen d)), <- zlen_app by lia. apply wp_bind.
  eapply wp_lift; [rewrite Ed, slice_some by (rewrite ?zlen_app; lia); reflexivity|]. rewrite drop_0, take_zlen. apply wp_bind.
  eapply (wp_store _ got (take (length d) ram) (drop (length d) ram)).
  { cbn [ptr_add fst]. by rewrite take_drop. }
  { done. }
  { unfold zlen in *. rewrite length_take. lia. }
  cbn [ptr_add fst]. apply wp_bind. eapply wp_set_session; [rewrite session_obj; exact Hs|].
  rewrite app_assoc. apply (HQ pd o); [by rewrite obj_session, obj_other by done|done|done].
Qed.

Lemma payload_frame pd o w : frame w (with_session s pd (with_obj UPLOAD o w)).
Proof.
  constructor; try done.
  - intros k _ H2. rewrite obj_session. by apply obj_other.
  - intros k H1. by rewrite session_other.
Qed.

(** A segment in the middle. *)
Lemma recv_payload_more cbd got d ram w :
  header_event cbd d -> receiving got ram w -> zlen got + zlen d < pr_size q -> zlen d <= zlen ram ->
  wp (httpd_recv_payload cbd) (fun r w' => r = 1 /\ receiving (got ++ d) (drop (length d) ram) w' /\ frame w w') w.
Proof.
  intros He Hrc Hsz Hram. eapply recv_payload_store; [exact He|exact Hrc|lia|exact Hram|]. intros pd o w1 Ho Hrq Hst.
  destruct (Z.eqb_spec (zlen (got ++ d)) (pr_size q)); [rewrite zlen_app in *; lia|]. apply wp_ret. split; [done|].
  split; [|apply payload_frame]. constructor; [|unfold w1; rewrite obj_session; apply obj_here].
  eexists _, o. split; [apply session_here|]. split_and!; try done. by apply (requested_more pd o _ (ss_status pd) (ss_is_uploading pd)).
Qed.

(** The last segment. *)
Lemma recv_payload_last cbd got d ram w :
  header_event cbd d -> receiving got ram w -> zlen got + zlen d = pr_size q -> zlen d < zlen ram ->
  wp (httpd_recv_payload cbd) (fun r w' => r = 0 /\ received (got ++ d) (drop (Datatypes.S (length d)) ram) w' /\ frame w w') w.
Proof.
  intros He Hrc Hsz Hram. eapply recv_payload_store; [exact He|exact Hrc|lia|lia|]. intros pd o w1 Ho Hrq Hst.
  destruct (Z.eqb_spec (zlen (got ++ d)) (pr_size q)) as [Es|]; [|rewrite zlen_app in *; lia]. unfold finish_upload.
  apply wp_bind, wp_bind. eapply wp_get_session; [apply session_here|]. apply wp_bind.
  destruct (drop (length d) ram) as [|y r] eqn:Er.
  { apply (f_equal length) in Er. rewrite length_drop in Er. unfold zlen in *. cbn in Er. lia. }
  match goal with |- context [ss_upload_ptr ?p] => change (ss_upload_ptr p) with (ss_upload_ptr pd); change (ss_payload_size p) with (ss_payload_size pd) end.
  rewrite (rq_ptr _ _ Hrq), (rq_size _ _ Hrq).
  eapply (wp_store_nul _ (got ++ d) y r); [unfold w1; cbn [ptr_add fst]; rewrite obj_session; apply obj_here|by rewrite Es|].
  eapply wp_set_session; [rewrite session_obj; apply session_here|]. apply wp_bind. eapply wp_set_session; [apply session_here|].
  apply wp_bind, wp_modify, wp_ret. split; [done|]. split.
  - assert (r = drop (Datatypes.S (length d)) ram) as -> by (by rewrite <- Nat.add_1_r, <- drop_drop, Er).
    constructor; [|cbn [ptr_add fst]|done].
    + eexists _, o. split; [apply session_here|]. split_and!; try done; [|by apply (requested_more pd o)].
      match goal with |- ?x = _ => change x with (hw_objs (with_obj UPLOAD ((got ++ d) ++ 0 :: drop (Datatypes.S (length d)) ram) w1) !! s) end.
      by rewrite obj_other by done.
    + apply obj_here.
  - eapply frame_trans; [apply payload_frame|]. constructor; try done.
    + intros k _ H2. by apply obj_other.
    + intros k H1. etransitivity; [apply session_other; done|]. etransitivity; [apply session_other; done|]. done.
Qed.

End Post.
