(* ===== verification/HttpHandle.v ===== *)
(** * The web server: answering a request

    Response headers always fit, and what [httpd_handle_request] does with a
    complete upload or a GET request. *)

From stdpp Require Import base numbers list strings gmap option.
From Stdlib Require Import ZArith Lia.
From S2P Require Import Prelude NetWire Tcp Strto CStr Http HttpMem HttpForm HttpRecv.

(** ** Response headers *)

Lemma snprintf_ok buff p size t :
  0 <= p < size -> zlen buff = size -> exists buff', snprintf buff p size t = Some buff' /\ zlen buff' = size.
Proof.
  intros Hp Hb. unfold snprintf. set (d := _ ++ [0]).
  assert (Hd : p + zlen d <= size).
  { unfold d, zlen. rewrite length_app, length_take. cbn. lia. }
  destruct (splice buff p d) as [b|] eqn:E; [|rewrite splice_some in E by lia; done].
  exists b. split; [done|]. apply splice_zlen in E. lia.
Qed.

Lemma put_lines_ok lines p size buff :
  0 <= p < size -> zlen buff = size -> exists buff' n, put_lines lines p size buff = Some (buff', n) /\ zlen buff' = size.
Proof.
  revert p buff. induction lines as [|t lines IH]; intros p buff Hp Hb; cbn [put_lines].
  - destruct (snprintf_ok buff p size CRLF Hp Hb) as (b & -> & Hl). cbn. by eexists _, _.
  - destruct (snprintf_ok buff p size t Hp Hb) as (b & -> & Hl). cbn. pose proof (zlen_nonneg t).
    destruct (Z.leb_spec size (p + zlen t)); [by eexists _, _|]. apply IH; [lia|done].
Qed.

Section Handle.
Context {B : Type} {E : http_env B}.
Implicit Types w : httpd_world B.
Context (s : Z).

Lemma send_header_ok cbd pd o (Q : unit -> httpd_world B -> Prop) w :
  cbd_pdata cbd = s -> hw_sessions w !! s = Some pd -> hw_objs w !! s = Some o -> zlen o = sizeof_buf ->
  (forall o' c, zlen o' = sizeof_buf -> Q tt (add_call c (with_obj s o' w))) -> wp (send_header cbd) Q w.
Proof.
  intros Es Hs Ho Hl HQ. unfold send_header. rewrite Es. apply wp_bind. eapply wp_get_session; [exact Hs|].
  apply wp_bind. eapply (wp_load _ [] o); [exact Ho|done|].
  destruct (put_lines_ok (response_lines (rs_info (ss_response pd))) 0 sizeof_buf o) as (o' & n & Eo & Hl'); [by unfold sizeof_buf|done|].
  apply wp_bind. eapply wp_lift; [exact Eo|]. cbv beta iota. apply wp_bind.
  eapply (wp_store _ [] o [] o'); [by rewrite app_nil_r|done|by rewrite Hl'|]. rewrite app_nil_r. cbn [fst app].
  unfold call. apply wp_modify. by apply HQ.
Qed.

(** ** The form of a complete upload *)

Section Form.
Context (q : post) (Hq : post_sane q) (HsU : s <> UPLOAD).
Context (filename more data tail : list Z) (Hf : form_sane (pr_boundary q) filename more data).
Local Abbreviation body := (form_body (pr_boundary q) filename more data tail).
Context (Hbody : zlen body = pr_size q).

(** The RAM region after parsing, with [ram] behind the payload, and the value
    found there. *)
Definition parsed_ram (ram : list Z) : list Z := cut_obj (pr_boundary q) filename more data tail [] ram.
Definition parsed_value : httpd_form_value := firmware_value (pr_boundary q) filename more data UPLOAD [].

Lemma data_short : zlen data < 2 ^ 32.
Proof.
  pose proof (ps_size q Hq) as Hp. rewrite <- Hbody in Hp. unfold form_body, part in Hp. rewrite !zlen_app in Hp.
  repeat match type of Hp with context [zlen ?l] => lazymatch goal with H : 0 <= zlen l |- _ => fail | _ => pose proof (zlen_nonneg l) end end. lia.
Qed.

Lemma parse_form_ok pd o ram (Q : unit -> httpd_world B -> Prop) w :
  hw_sessions w !! s = Some pd -> hw_objs w !! s = Some o -> requested s q pd o -> hw_objs w !! UPLOAD = Some (body ++ 0 :: ram) ->
  Q tt (with_session s (pd <| ss_form := [parsed_value] |>) (with_obj UPLOAD (parsed_ram ram) w)) -> wp (parse_form s) Q w.
Proof.
  intros Hs Ho Hrq Hr HQ. destruct (rq_boundary _ _ _ _ Hrq) as (k & Hb & Ht & a & r & -> & Hk). pose proof (ps_size q Hq) as Hsz.
  unfold parse_form. apply wp_bind. eapply wp_get_session; [exact Hs|]. rewrite Hb, (rq_ptr _ _ _ _ Hrq), (rq_size _ _ _ _ Hrq). apply wp_bind.
  eapply wp_lift; [reflexivity|]. apply wp_bind. eapply (wp_load _ a (pr_boundary q ++ 0 :: r)); [exact Ho|done|].
  apply wp_bind. eapply wp_lift; [by apply cstr_text|]. apply wp_bind. rewrite <- Hbody.
  eapply wp_conseq; [apply (split_ok (pr_boundary q) filename more data tail Hf UPLOAD [] ram); [exact Hr|]|].
  { change (zlen []) with 0. lia. }
  intros parts w1 [-> ->]. cbn [form_values]. apply wp_bind, wp_bind.
  eapply wp_conseq; [apply (form_value_ok (pr_boundary q) filename more data tail Hf UPLOAD [] ram); [apply obj_here|apply data_short]|].
  intros v w1 [-> ->]. apply wp_bind, wp_ret, wp_ret. rewrite with_obj_twice.
  eapply wp_set_session; [rewrite session_obj; exact Hs|]. rewrite (rq_form _ _ _ _ Hrq). exact HQ.
Qed.

(** Up to the handler. *)
Lemma handle_post_ok inst cbd cb body_ram ram w (Q : Z -> httpd_world B -> Prop) :
  cbd_pdata cbd = s -> received s q body ram w -> httpd_find_uri_handler inst (pr_uri q) = Some cb -> body_ram = parsed_ram ram ->
  (forall pd o, zlen o = sizeof_buf -> ss_response pd = zero_response -> ss_urih pd = Some cb -> ss_form pd = [parsed_value] ->
   ss_is_uploading pd = 0 -> hw_objs w !! s = Some o ->
   wp (call_urih cb HTTP_CB_NEW s;; first_response cbd) Q (with_session s pd (with_obj UPLOAD body_ram w))) ->
  wp (httpd_handle_request true inst cbd) Q w.
Proof.
  intros Es [(pd & o & Hs & Ho & Hrq & Hst & Hup) Hr Hi] Hcb -> HQ. unfold httpd_handle_request. rewrite Es. apply wp_bind.
  eapply wp_get_session; [exact Hs|]. destruct (rq_uri _ _ _ _ Hrq) as (k & Hu & Ht & a & r & Eo & Hk). rewrite Hu.
  apply wp_bind. eapply (wp_load _ a (pr_uri q ++ 0 :: r)); [cbn [fst]; by rewrite Ho, Eo|done|]. apply wp_bind.
  eapply wp_lift; [by apply cstr_text|]. rewrite Hcb. apply wp_bind. eapply wp_set_session; [exact Hs|].
  rewrite (rq_method _ _ _ _ Hrq). apply wp_bind.
  eapply parse_form_ok; [apply session_here|rewrite obj_session; exact Ho| |rewrite obj_session; exact Hr|].
  { by destruct Hrq. }
  rewrite with_obj_session, with_session_twice. destruct Hrq. by apply (HQ _ o).
Qed.

End Form.

(** A GET request, up to the handler. *)
Lemma handle_get_ok inst cbd cb uri w (Q : Z -> httpd_world B -> Prop) :
  cbd_pdata cbd = s -> asked s uri w -> httpd_find_uri_handler inst uri = Some cb ->
  (forall pd o, zlen o = sizeof_buf -> ss_response pd = zero_response -> ss_urih pd = Some cb -> ss_is_uploading pd = 0 ->
   hw_objs w !! s = Some o -> wp (call_urih cb HTTP_CB_NEW s;; first_response cbd) Q (with_session s pd w)) ->
  wp (httpd_handle_request true inst cbd) Q w.
Proof.
  intros Es [(pd & o & k & Hs & Ho & Hl & Hst & Hm & Hup & Hresp & Hu & Ht & a & r & Eo & Hk)] Hcb HQ. unfold httpd_handle_request.
  rewrite Es. apply wp_bind. eapply wp_get_session; [exact Hs|]. rewrite Hu. apply wp_bind.
  eapply (wp_load _ a (uri ++ 0 :: r)); [cbn [fst]; by rewrite Ho, Eo|done|]. apply wp_bind. eapply wp_lift; [by apply cstr_text|]. rewrite Hcb.
  apply wp_bind. eapply wp_set_session; [exact Hs|]. rewrite Hm. apply wp_bind, wp_ret. by apply (HQ _ o).
Qed.

(** ** The first answer *)

Lemma first_std_ok cbd pd o w :
  cbd_pdata cbd = s -> hw_sessions w !! s = Some pd -> hw_objs w !! s = Some o -> zlen o = sizeof_buf ->
  rs_status (ss_response pd) = HTTP_RESP_STD ->
  wp (first_response cbd) (fun r w' => exists i o' c, zlen o' = sizeof_buf /\
    w' = with_session s (pd <| ss_response := (ss_response pd) <| rs_info := i |> |> <| ss_resp_std_cnt := 0 |> <| ss_status := HTTPD_S_RESPONDING |>)
           (add_call c (with_obj s o' w))) w.
Proof.
  intros Es Hs Ho Hl Hst. unfold first_response. rewrite Es. apply wp_bind. eapply wp_get_session; [exact Hs|]. rewrite Hst.
  rewrite bool_decide_eq_true_2 by done. apply wp_bind, wp_bind. eapply wp_set_session; [exact Hs|]. apply wp_bind.
  eapply (send_header_ok cbd _ o); [exact Es|apply session_here|rewrite obj_session; exact Ho|exact Hl|]. intros o' c Hl'.
  eapply wp_set_session; [apply session_here|]. apply wp_bind. eapply wp_set_session; [apply session_here|]. apply wp_ret.
  eexists _, o', c. split; [exact Hl'|]. unfold add_call. cbn. rewrite !with_session_twice. unfold with_session, with_obj. cbn.
  by rewrite !insert_insert_eq.
Qed.

Lemma first_custom_ok cbd pd p o w :
  cbd_pdata cbd = s -> hw_sessions w !! s = Some pd -> rs_status (ss_response pd) = HTTP_RESP_CUSTOM ->
  rs_data (ss_response pd) = Some (Mem (p, 0)) -> hw_objs w !! p = Some o ->
  wp (first_response cbd) (fun r w' => exists c, w' = with_session s (pd <| ss_status := HTTPD_S_RESPONDING |>) (add_call c w)) w.
Proof.
  intros Es Hs Hst Hd Ho. unfold first_response. rewrite Es. apply wp_bind. eapply wp_get_session; [exact Hs|]. rewrite Hst, Hd.
  rewrite bool_decide_eq_false_2 by done. apply wp_bind, wp_bind, wp_bind. eapply (wp_load _ [] o); [exact Ho|done|]. apply wp_ret.
  unfold call. apply wp_modify, wp_bind. eapply wp_set_session; [exact Hs|]. apply wp_ret. by eexists.
Qed.

End Handle.
