(* ===== verification/HttpEvents.v ===== *)
(** * The web server: sequences of callbacks

    A connection as the TCP stack reports it: header and payload arrive in
    segments of any size. *)

From stdpp Require Import base numbers list strings gmap option.
From Stdlib Require Import ZArith Lia.
From S2P Require Import Prelude NetWire Tcp Strto CStr Http HttpMem HttpForm HttpRecv HttpHandle.

(** A callback for connection [c] with session [s]; the server does not use
    the address of the other side. *)
Definition event (c : Z) (st : tcp_cb_status) (s : Z) (data : list Z) : tcb_cb_data :=
  mkCbd c st 0 0 (htons 80) s data (zlen data).

Section Events.
Context {B : Type} {E : http_env B}.
Implicit Types w : httpd_world B.

Fixpoint deliver (l : list tcb_cb_data) : M (httpd_world B) unit :=
  match l with
  | [] => ret tt
  | e :: l => httpd_tcp_callback true e;; deliver l
  end.

Lemma wp_deliver e l (Q : unit -> httpd_world B -> Prop) w :
  wp (httpd_tcp_callback true e) (fun _ => wp (deliver l) Q) w -> wp (deliver (e :: l)) Q w.
Proof. intros H. cbn [deliver]. apply wp_bind. eapply wp_conseq; [exact H|]. done. Qed.

Context (inst : httpd_instance).

Definition served w : Prop := find_instance 80 (inst_head w) = Some inst.

Context (c s : Z).
Definition rx (d : list Z) : tcb_cb_data := event c TCP_CB_DATA_RCVD s d.

Lemma rx_event d : header_event s (rx d) d.
Proof. split_and!; [done|done|]. exists []. by rewrite app_nil_r. Qed.

(** *** One callback *)

Lemma callback_port st d (Q : tcb_cb_data -> httpd_world B -> Prop) w :
  served w -> st <> TCP_CB_NEW_CONN ->
  wp (match st with
      | TCP_CB_NEW_CONN | TCP_CB_DATA_RCVD => if negb (zlen d =? 0) then httpd_rx true inst (event c st s d) else ret tt
      | TCP_CB_DATA_SENT => httpd_tx (event c st s d)
      | TCP_CB_REMOTE_CLOSED | TCP_CB_CLOSED => httpd_cleanup (event c st s d)
      | _ => ret tt
      end) (fun _ => Q (event c st s d)) w ->
  wp (httpd_tcp_callback true (event c st s d)) Q w.
Proof.
  intros Hs Hst H. unfold httpd_tcp_callback, httpd_find_instance. apply wp_bind, wp_gets.
  change (ntohs (cbd_dp (event c st s d))) with 80. rewrite Hs. change (cbd_status (event c st s d)) with st.
  rewrite (bool_decide_eq_false_2 _ Hst). apply wp_bind, wp_ret. change (cbd_status (event c st s d)) with st.
  rewrite (bool_decide_eq_false_2 _ Hst). cbn [andb]. apply wp_bind, wp_ret. apply wp_bind.
  eapply wp_conseq; [exact H|]. intros x w' Hq. by apply wp_ret.
Qed.

Lemma callback_rx d (Q : unit -> httpd_world B -> Prop) l w :
  served w -> d <> [] -> wp (httpd_rx true inst (rx d)) (fun _ => wp (deliver l) Q) w -> wp (deliver (rx d :: l)) Q w.
Proof.
  intros Hs Hd H. apply wp_deliver, callback_port; [done|done|]. destruct (Z.eqb_spec (zlen d) 0) as [Hz|_]; [|exact H].
  destruct d; [done|]. unfold zlen in Hz. cbn in Hz. lia.
Qed.

(** Segments without data change nothing. *)
Lemma deliver_empty ds l (Q : unit -> httpd_world B -> Prop) w :
  served w -> concat ds = [] -> wp (deliver l) Q w -> wp (deliver (map rx ds ++ l)) Q w.
Proof.
  intros Hs Hc H. induction ds as [|d ds IH]; [exact H|]. cbn [concat] in Hc. apply app_eq_nil in Hc as [-> Hc].
  apply wp_deliver, callback_port; [done|done|]. apply wp_ret. by apply IH.
Qed.

(** A new connection gets the next address. *)
Definition opened w : httpd_world B :=
  add_call (CallSetPdata c (hw_next w))
    (with_session (hw_next w) zero_pdata (with_obj (hw_next w) (fill 0 sizeof_buf) (w <| hw_next := hw_next w + 1 |>))).

(** The first callback of a connection, and the others with the session that
    one creates. *)
Definition conversation (evs : list (tcp_cb_status * list Z)) : M (httpd_world B) unit :=
  do cbd <- httpd_tcp_callback true (event c TCP_CB_NEW_CONN 0 []);
  deliver (map (fun e => event c e.1 (cbd_pdata cbd) e.2) evs).

Lemma wp_conversation evs (Q : unit -> httpd_world B -> Prop) w :
  served w -> calloc_ok (hw_next w) = true -> hw_next w <> 0 ->
  wp (deliver (map (fun e => event c e.1 (hw_next w) e.2) evs)) Q (opened w) -> wp (conversation evs) Q w.
Proof.
  intros Hs Hc H0 H. unfold conversation. apply wp_bind. unfold httpd_tcp_callback, httpd_find_instance. apply wp_bind, wp_gets.
  change (ntohs (cbd_dp (event c TCP_CB_NEW_CONN 0 []))) with 80. rewrite Hs. cbn [cbd_status event].
  apply wp_bind. change (bool_decide (TCP_CB_NEW_CONN = TCP_CB_NEW_CONN)) with true. cbv iota. apply wp_bind. unfold new_session.
  apply wp_bind, wp_gets. rewrite Hc. cbn [negb]. apply wp_bind, wp_modify, wp_bind, wp_modify, wp_ret, wp_ret.
  change (cbd_status (_ <| cbd_pdata := _ |>)) with TCP_CB_NEW_CONN. change (bool_decide (TCP_CB_NEW_CONN = TCP_CB_NEW_CONN)) with true.
  change (cbd_pdata (_ <| cbd_pdata := hw_next w |>)) with (hw_next w). destruct (Z.eqb_spec (hw_next w) 0); [done|]. cbn [andb].
  apply wp_bind. unfold call. apply wp_modify, wp_bind, wp_ret, wp_ret. exact H.
Qed.

(** Segments from the other side. *)
Definition sent (ds : list (list Z)) : list (tcp_cb_status * list Z) := map (pair TCP_CB_DATA_RCVD) ds.

Lemma map_sent ds : map (fun e => event c e.1 s e.2) (sent ds) = map rx ds.
Proof. unfold sent. by rewrite map_map. Qed.

(** *** Header segments *)

Lemma wp_status pd st (Q : bool -> httpd_world B -> Prop) w :
  hw_sessions w !! s = Some pd -> Q (bool_decide (ss_status pd = st)) w -> wp (status_is s st) Q w.
Proof. intros Hs HQ. unfold status_is. apply wp_bind. eapply wp_get_session; [exact Hs|]. by apply wp_ret. Qed.

(** The start [x] of the header has arrived, perhaps nothing yet. *)
Definition reading_pdata (x : list Z) : httpd_tcp_pdata := zero_pdata <| ss_status := HTTPD_S_HEADER_RECVING |> <| ss_bufsize := zlen x |>.

Definition started (x ram : list Z) w : Prop :=
  (exists st, (st = HTTPD_S_NEW \/ st = HTTPD_S_HEADER_RECVING) /\
     hw_sessions w !! s = Some (zero_pdata <| ss_status := st |> <| ss_bufsize := zlen x |>)) /\
  reading s x ram (with_session s (reading_pdata x) w).

Lemma started_opened ram w : hw_next w = s -> s <> UPLOAD -> hw_objs w !! UPLOAD = Some ram -> started [] ram (opened w).
Proof.
  intros Hn HU Hr. unfold opened. rewrite Hn. split; [exists HTTPD_S_NEW; split; [by left|apply session_here]|]. constructor.
  - apply session_here.
  - exists (fill 0 4095). split; [apply obj_here|done].
  - rewrite obj_session. change (hw_objs (add_call _ _)) with (hw_objs (with_obj s (fill 0 sizeof_buf) w)). by rewrite obj_other by done.
Qed.

Lemma started_local x ram w : started x ram w -> local s w (with_session s (reading_pdata x) w).
Proof.
  intros [_ [_ (junk & Ho & _) _]]. rewrite obj_session in Ho. exists (reading_pdata x), (x ++ 0 :: junk). by rewrite (with_obj_same s) by done.
Qed.

(** What follows the header. *)
Definition rx_rest (cbd : tcb_cb_data) (r : Z) : M (httpd_world B) unit :=
  if negb (r =? 0) then ret tt
  else
    do h <- status_is s HTTPD_S_PAYLOAD_RECVING;
    do r <- (if h : bool then httpd_recv_payload cbd else ret 0);
    if negb (r =? 0) then ret tt
    else
      do h <- status_is s HTTPD_S_FULL_RCVD;
      if h : bool then httpd_handle_request true inst cbd;; ret tt else ret tt.

Lemma rx_header d x ram (Q : unit -> httpd_world B -> Prop) w :
  started x ram w ->
  wp (httpd_recv_hdr (rx d)) (fun r => wp (rx_rest (rx d) r) Q) (with_session s (reading_pdata x) w) ->
  wp (httpd_rx true inst (rx d)) Q w.
Proof.
  intros [(st & Hst & Hs) Hrd] H. unfold httpd_rx. change (cbd_pdata (rx d)) with s. apply wp_bind.
  eapply wp_status; [exact Hs|]. change (ss_status (_ <| ss_bufsize := zlen x |>)) with st. apply wp_bind.
  assert (Hgo : wp (do h <- status_is s HTTPD_S_HEADER_RECVING;
                    do r <- (if h : bool then httpd_recv_hdr (rx d) else ret 0); rx_rest (rx d) r) Q (with_session s (reading_pdata x) w)).
  { apply wp_bind. eapply wp_status; [apply session_here|]. change (bool_decide _) with true. cbv iota. by apply wp_bind. }
  destruct Hst as [-> | ->].
  - change (bool_decide _) with true. cbv iota. eapply wp_set_session; [exact Hs|]. exact Hgo.
  - change (bool_decide _) with false. cbv iota. apply wp_ret. rewrite (with_session_same s (reading_pdata x) w) in Hgo by done. exact Hgo.
Qed.

(** Segments up to the one that completes the header. *)
Lemma header_segments h ds x ram l (Q : unit -> httpd_world B -> Prop) w :
  let full := h ++ CRLF ++ CRLF in
  s <> UPLOAD -> text full -> absent (CRLF ++ CRLF) h -> zlen full < sizeof_buf ->
  served w -> started x ram w -> zlen x < zlen full -> x ++ concat ds = full ->
  (forall x' d rest w', started x' ram w' -> x' ++ d = full -> d <> [] -> concat rest = [] -> local s w w' -> served w' ->
     wp (deliver (map rx (d :: rest) ++ l)) Q w') ->
  wp (deliver (map rx ds ++ l)) Q w.
Proof.
  intros full HU Ht Ha Hfit. revert x w. induction ds as [|d ds IH]; intros x w Hsv Hst Hlt Hx HQ.
  { exfalso. cbn in Hx. rewrite app_nil_r in Hx. rewrite Hx in Hlt. lia. }
  destruct (decide (d = [])) as [-> |Hd].
  { cbn [map app]. apply wp_deliver, callback_port; [done|done|]. apply wp_ret. by apply (IH x). }
  cbn [concat] in Hx. destruct (decide (concat ds = [])) as [Ec|Hne].
  { apply (HQ x); [done|by rewrite Ec, app_nil_r in Hx|done|done| |done]. destruct Hst as [(st & _ & Hs) [_ (junk & Ho & _) _]].
    rewrite obj_session in Ho. exists (zero_pdata <| ss_status := st |> <| ss_bufsize := zlen x |>), (x ++ 0 :: junk).
    rewrite (with_obj_same s) by done. by rewrite with_session_same. }
  rewrite app_assoc in Hx. cbn [map app]. apply callback_rx; [done|done|]. eapply rx_header; [exact Hst|].
  assert (Hlen : zlen x + zlen d < zlen full).
  { rewrite <- Hx, !zlen_app. destruct (concat ds); [done|]. rewrite zlen_cons. pose proof (zlen_nonneg l0). lia. }
  eapply wp_conseq; [apply (recv_hdr_partial s (rx d) x d ram); [apply rx_event|apply Hst|done| | |lia]|].
  - rewrite <- Hx, text_app in Ht. tauto.
  - apply find_sub_none. intros a b Eab. rewrite Eab in Hx. rewrite <- !app_assoc in Hx.
    assert (Hm : (length h <= length a)%nat).
    { eapply (find_sub_min _ _ _ a (b ++ concat ds) Ha). rewrite <- !app_assoc. symmetry. exact Hx. }
    rewrite <- zlen_app, Eab in Hlen. unfold full, zlen in Hlen. rewrite !length_app in Hlen. lia.
  - intros r w1 (-> & Hrd & Hloc). apply wp_ret. pose proof (local_trans s _ _ _ (started_local _ _ _ Hst) Hloc) as Hl2.
    assert (Hst1 : started (x ++ d) ram w1).
    { split; [exists HTTPD_S_HEADER_RECVING; split; [by right|apply Hrd]|]. rewrite with_session_same; [done|apply Hrd]. }
    assert (Hsv1 : served w1) by (destruct Hl2 as (? & ? & ->); exact Hsv).
    apply (IH (x ++ d)); [done|done|by rewrite zlen_app|done|].
    intros x' d' rest w' H1 H2 H3 H4 H5 H6. apply (HQ x'); try done. by eapply local_trans.
Qed.

(** A GET request with other fields [fs]. *)
Record get_sane (uri version fs : list Z) : Prop := {
  gs_line : text (line HTTP_GET uri version);
  gs_fields : text fs;
  gs_uri : (32 ∉ uri) /\ (63 ∉ uri);
  gs_cr : 13 ∉ line HTTP_GET uri version;
  gs_end : absent (CRLF ++ CRLF) (line HTTP_GET uri version ++ CRLF ++ fs);
  gs_fits : zlen (line HTTP_GET uri version ++ CRLF ++ fs) + 4 < sizeof_buf
}.

(** The handler is called once the header is complete. *)
Lemma get_segments uri version fs ds ram l (Q : unit -> httpd_world B -> Prop) w :
  get_sane uri version fs -> s <> UPLOAD -> served w -> started [] ram w ->
  concat ds = (line HTTP_GET uri version ++ CRLF ++ fs) ++ CRLF ++ CRLF ->
  (forall d w', asked s uri w' -> local s w w' ->
     wp (httpd_handle_request true inst (rx d)) (fun _ w'' => served w'' /\ wp (deliver l) Q w'') w') ->
  wp (deliver (map rx ds ++ l)) Q w.
Proof.
  intros Hg HU Hsv Hst Hc HQ. destruct Hg as [H1 H2 [H3 H4] H5 H6 H7]. set (h := line HTTP_GET uri version ++ CRLF ++ fs) in *.
  assert (Hfull : zlen (h ++ CRLF ++ CRLF) = zlen h + 4) by (rewrite !(zlen_app _ (_ ++ _)), zlen_app; change (zlen CRLF) with 2; lia).
  pose proof (zlen_nonneg h). eapply (header_segments h ds [] ram); [done| |exact H6| |done|done| |exact Hc|].
  { unfold h. rewrite !text_app. split_and!; try done; by apply textb_text. }
  { lia. }
  { rewrite Hfull. change (zlen (@nil Z)) with 0. lia. }
  intros x d rest w1 Hst1 Hx Hd Hrest Hloc Hsv1. cbn [map app]. apply callback_rx; [done|done|]. eapply rx_header; [exact Hst1|].
  eapply wp_conseq; [apply (recv_hdr_get s (rx d) x d ram uri version fs); try done; [apply rx_event|apply Hst1|rewrite Hx; lia]|].
  intros r w2 (-> & Hak & Hloc2). unfold rx_rest. cbn [Z.eqb negb]. destruct (Hak) as [(pd & o & k & Hs & _ & _ & Hst2 & _)].
  apply wp_bind. eapply wp_status; [exact Hs|]. rewrite Hst2. change (bool_decide _) with false. cbv iota. apply wp_bind, wp_ret. cbn [Z.eqb negb].
  apply wp_bind. eapply wp_status; [exact Hs|]. rewrite Hst2. change (bool_decide _) with true. cbv iota. apply wp_bind.
  eapply wp_conseq; [apply (HQ d w2 Hak)|].
  { eapply local_trans; [exact Hloc|]. eapply local_trans; [by apply (started_local x ram)|done]. }
  intros r w3 [Hsv3 H8]. apply wp_ret. by apply deliver_empty.
Qed.

(** *** Answers *)

Definition tx : tcb_cb_data := event c TCP_CB_DATA_SENT s [].
Definition closed : tcb_cb_data := event c TCP_CB_CLOSED s [].

(** An answer with header and data is sent and the connection closed. *)
Lemma tx_std pd p o l (Q : unit -> httpd_world B -> Prop) w :
  served w -> hw_sessions w !! s = Some pd -> rs_status (ss_response pd) = HTTP_RESP_STD -> ss_resp_std_cnt pd = 0 ->
  rs_data (ss_response pd) = Some (Mem (p, 0)) -> hw_objs w !! p = Some o ->
  (forall c1 c2 pd', ss_response pd' = ss_response pd -> ss_urih pd' = ss_urih pd -> ss_is_uploading pd' = ss_is_uploading pd ->
     wp (deliver l) Q (with_session s pd' (add_call c2 (add_call c1 w)))) ->
  wp (deliver (tx :: tx :: l)) Q w.
Proof.
  intros Hsv Hs Hst Hcnt Hd Ho HQ. apply wp_deliver, callback_port; [done|done|]. unfold httpd_tx. change (cbd_pdata _) with s.
  apply wp_bind. eapply wp_get_session; [exact Hs|]. rewrite Hst, Hcnt, Hd. cbn [Z.eqb load_ref]. change (bool_decide (HTTP_RESP_STD = HTTP_RESP_STD)) with true. cbv iota.
  apply wp_bind, wp_bind, wp_bind. eapply (wp_load _ [] o); [exact Ho|done|]. apply wp_ret. unfold call. apply wp_modify.
  eapply wp_set_session; [exact Hs|]. apply wp_deliver, callback_port; [exact Hsv|done|]. unfold httpd_tx. change (cbd_pdata _) with s.
  apply wp_bind. eapply wp_get_session; [apply session_here|].
  match goal with |- context [ss_response ?x] => change (ss_response x) with (ss_response pd) end. rewrite Hst. change (bool_decide (HTTP_RESP_STD = HTTP_RESP_STD)) with true.
  match goal with |- context [ss_resp_std_cnt ?x] => change (ss_resp_std_cnt x) with 1 end. cbn [Z.eqb]. cbv iota. unfold call.
  apply wp_bind, wp_modify. eapply wp_set_session; [apply session_here|].
  match goal with |- wp _ _ (with_session s ?f _) => specialize (HQ (CallSend c (Some o) (rs_size (ss_response pd))) (CallClose c 0) f eq_refl eq_refl eq_refl) end.
  unfold with_session, add_call in *. cbn in *. rewrite insert_insert_eq. exact HQ.
Qed.

(** Handlers with their own answers. *)
Lemma tx_custom pd cb l (Q : unit -> httpd_world B -> Prop) w :
  served w -> hw_sessions w !! s = Some pd -> rs_status (ss_response pd) = HTTP_RESP_CUSTOM -> ss_urih pd = Some cb -> cb <> DUMMY_CB ->
  wp (run_urih cb HTTP_CB_RESPONDING s) (fun _ w' => exists pd', hw_sessions w' !! s = Some pd' /\
    wp (if bool_decide (rs_status (ss_response pd') = HTTP_RESP_NONE)
        then call (CallClose c 0);; set_session s (fun pd => pd <| ss_status := HTTPD_S_CLOSING |>)
        else do d <- load_ref (rs_data (ss_response pd')); call (CallSend c d (rs_size (ss_response pd')))) (fun _ => wp (deliver l) Q) w') w ->
  wp (deliver (tx :: l)) Q w.
Proof.
  intros Hsv Hs Hst Hcb Hd H. apply wp_deliver, callback_port; [done|done|]. unfold httpd_tx. change (cbd_pdata _) with s.
  apply wp_bind. eapply wp_get_session; [exact Hs|]. rewrite Hst. change (bool_decide (HTTP_RESP_CUSTOM = HTTP_RESP_STD)) with false. cbv iota.
  apply wp_bind. eapply wp_lift; [exact Hcb|]. apply wp_bind. unfold call_urih. destruct (Z.eqb_spec cb DUMMY_CB); [done|].
  eapply wp_conseq; [exact H|]. intros x w' (pd' & Hs' & H'). apply wp_bind. eapply wp_get_session; [exact Hs'|]. exact H'.
Qed.

(** The end of a connection. *)
Definition freed w : httpd_world B := w <| hw_sessions := delete s (hw_sessions w) |> <| hw_objs := delete s (hw_objs w) |>.

Lemma tx_closed pd cb l (Q : unit -> httpd_world B -> Prop) w :
  served w -> hw_sessions w !! s = Some pd -> ss_is_uploading pd = 0 -> ss_urih pd = Some cb -> cb <> DUMMY_CB ->
  wp (run_urih cb HTTP_CB_CLOSED s) (fun _ w' => wp (deliver l) Q (freed w')) w -> wp (deliver (closed :: l)) Q w.
Proof.
  intros Hsv Hs Hup Hcb Hd H. apply wp_deliver, callback_port; [done|done|]. unfold httpd_cleanup. change (cbd_pdata _) with s.
  apply wp_bind. eapply wp_get_session; [exact Hs|]. rewrite Hup, Hcb. cbn [Z.eqb negb]. apply wp_bind, wp_ret, wp_bind.
  unfold call_urih. destruct (Z.eqb_spec cb DUMMY_CB); [done|]. eapply wp_conseq; [exact H|]. intros x w' H'.
  unfold free_session. by apply wp_modify.
Qed.

(** *** Payload segments *)

Context (q : post) (Hq : post_sane q) (HsU : s <> UPLOAD).

Lemma rx_payload d got ram (Q : unit -> httpd_world B -> Prop) w :
  receiving s q got ram w ->
  wp (httpd_recv_payload (rx d)) (fun r => wp (if negb (r =? 0) then ret tt
    else do h <- status_is s HTTPD_S_FULL_RCVD; if h : bool then httpd_handle_request true inst (rx d);; ret tt else ret tt) Q) w ->
  wp (httpd_rx true inst (rx d)) Q w.
Proof.
  intros [(pd & o & Hs & _ & _ & Hst & _) _] H. unfold httpd_rx. change (cbd_pdata (rx d)) with s.
  apply wp_bind. eapply wp_status; [exact Hs|]. rewrite Hst. change (bool_decide _) with false. cbv iota. apply wp_bind, wp_ret.
  apply wp_bind. eapply wp_status; [exact Hs|]. rewrite Hst. change (bool_decide _) with false. cbv iota. apply wp_bind, wp_ret.
  cbn [Z.eqb negb]. apply wp_bind. eapply wp_status; [exact Hs|]. rewrite Hst. change (bool_decide _) with true. cbv iota. by apply wp_bind.
Qed.

Lemma served_frame w w' : frame s w w' -> served w -> served w'.
Proof. intros Hf Hsv. unfold served. by rewrite (fr_insts _ _ _ Hf). Qed.

(** Segments up to the one that completes the payload. *)
Lemma payload_segments body ds got ram l (Q : unit -> httpd_world B -> Prop) w :
  zlen body = pr_size q -> served w -> receiving s q got ram w -> zlen got < zlen body -> got ++ concat ds = body -> zlen body < zlen (got ++ ram) ->
  (forall got' ram' d rest w', receiving s q got' ram' w' -> got' ++ d = body -> d <> [] -> zlen d < zlen ram' -> concat rest = [] -> frame s w w' ->
     served w' -> wp (deliver (map rx (d :: rest) ++ l)) Q w') ->
  wp (deliver (map rx ds ++ l)) Q w.
Proof.
  intros Hb. revert got ram w. induction ds as [|d ds IH]; intros got ram w Hsv Hrc Hlt Hx Hram HQ.
  { exfalso. cbn in Hx. rewrite app_nil_r in Hx. rewrite Hx in Hlt. lia. }
  destruct (decide (d = [])) as [-> |Hd].
  { cbn [map app]. apply wp_deliver, callback_port; [done|done|]. apply wp_ret. by apply (IH got ram). }
  cbn [concat] in Hx. rewrite zlen_app in Hram. rewrite app_assoc in Hx. assert (Hx' := f_equal zlen Hx). rewrite !zlen_app in Hx'.
  destruct (decide (concat ds = [])) as [Ec|Hne].
  { rewrite Ec, app_nil_r in Hx. rewrite Ec in Hx'. change (zlen (@nil Z)) with 0 in Hx'. apply (HQ got ram); try done; lia. }
  assert (Hpos : 0 < zlen (concat ds)) by (destruct (concat ds); [done|]; rewrite zlen_cons; pose proof (zlen_nonneg l0); lia).
  cbn [map app]. apply callback_rx; [done|done|]. eapply rx_payload; [exact Hrc|].
  eapply wp_conseq; [apply (recv_payload_more s q Hq HsU (rx d) got d ram); [apply rx_event|done|lia|lia]|].
  intros r w1 (-> & Hrc1 & Hf). apply wp_ret. pose proof (served_frame _ _ Hf Hsv) as Hsv1.
  apply (IH (got ++ d) (drop (length d) ram)); [done|done|rewrite zlen_app; lia|done| |].
  - unfold zlen in *. rewrite !length_app, length_drop. lia.
  - intros got' ram' d' rest w' H1 H2 H3 H4 H5 H6 H7. apply (HQ got' ram'); try done. by eapply frame_trans.
Qed.

(** The whole payload, into the handler. *)
Lemma rx_payload_last d got ram body (Q : unit -> httpd_world B -> Prop) w :
  receiving s q got ram w -> got ++ d = body -> zlen body = pr_size q -> zlen d < zlen ram ->
  (forall w', received s q body (drop (Datatypes.S (length d)) ram) w' -> frame s w w' ->
     wp (httpd_handle_request true inst (rx d)) (fun _ => Q tt) w') ->
  wp (httpd_rx true inst (rx d)) Q w.
Proof.
  intros Hrc Hx Hb Hram HQ. eapply rx_payload; [exact Hrc|].
  eapply wp_conseq; [apply (recv_payload_last s q Hq HsU (rx d) got d ram); [apply rx_event|done| |done]|].
  { rewrite <- Hb, <- Hx, zlen_app. lia. }
  intros r w1 (-> & Hrv & Hf). cbn [Z.eqb negb]. rewrite Hx in Hrv. destruct (rv_session _ _ _ _ _ Hrv) as (pd & o & Hs & _ & _ & Hst & _).
  apply wp_bind. eapply wp_status; [exact Hs|]. rewrite Hst. change (bool_decide _) with true. cbv iota. apply wp_bind.
  eapply wp_conseq; [by apply HQ|]. intros r w2 H2. by apply wp_ret.
Qed.

(** The whole upload: the handler is called for exactly the payload the
    client sent, whatever the segments were. *)
Lemma upload_segments hds bds body ram l (Q : unit -> httpd_world B -> Prop) w :
  served w -> started [] ram w -> is_uploading w = 0 -> concat hds = header q ++ CRLF ++ CRLF -> concat bds = body -> zlen body = pr_size q ->
  sizeof_buf <= zlen (header q) + 4 + pr_size q < 2 ^ 32 -> 0 < pr_size q < zlen ram ->
  (forall d ram' w', received s q body ram' w' -> frame s (drawn w) w' ->
     wp (httpd_handle_request true inst (rx d)) (fun _ w'' => served w'' /\ wp (deliver l) Q w'') w') ->
  wp (deliver (map rx hds ++ map rx bds ++ l)) Q w.
Proof.
  intros Hsv Hst Hi Hh Hb Hbs Hbig Hram HQ. pose proof (ps_fits q Hq). pose proof (zlen_nonneg (header q)).
  assert (Hfull : zlen (header q ++ CRLF ++ CRLF) = zlen (header q) + 4) by (rewrite !zlen_app; change (zlen CRLF) with 2; lia).
  eapply (header_segments (header q) hds [] ram); [done| |apply Hq| |done|done| |exact Hh|].
  { rewrite !text_app. split_and!; [apply Hq|by apply textb_text|by apply textb_text]. }
  { lia. }
  { rewrite Hfull. change (zlen (@nil Z)) with 0. lia. }
  intros x d rest w1 Hst1 Hx Hd Hrest Hloc Hsv1. cbn [map app]. apply callback_rx; [done|done|]. eapply rx_header; [exact Hst1|].
  eapply wp_conseq; [apply (recv_hdr_final s q Hq HsU (rx d) x d ram); [apply rx_event|apply Hst1| |exact Hx|exact Hbig]|].
  { destruct Hloc as (pd1 & o1 & ->). exact Hi. }
  intros r w2 (-> & Hrc & Hf2). apply wp_ret.
  assert (Hf : frame s (drawn w) w2).
  { eapply frame_trans; [|exact Hf2]. apply frame_drawn. eapply frame_trans; [by apply local_frame|].
    by apply local_frame, (started_local x ram). }
  pose proof (served_frame _ _ Hf Hsv) as Hsv2. apply deliver_empty; [done|done|].
  eapply (payload_segments body bds [] ram); [done|done|exact Hrc| |exact Hb|change ([] ++ ram) with ram; lia|].
  { change (zlen (@nil Z)) with 0. lia. }
  intros got ram' d' rest' w3 Hrc3 Hx3 Hd3 Hram3 Hrest3 Hf3 Hsv3. cbn [map app]. apply callback_rx; [done|done|].
  eapply rx_payload_last; [exact Hrc3|exact Hx3|done|done|]. intros w4 Hrv Hf4.
  eapply wp_conseq; [apply (HQ d' _ w4 Hrv); eapply frame_trans; [exact Hf|]; by eapply frame_trans|].
  intros r w5 [Hsv5 H5]. by apply deliver_empty.
Qed.

(** A second upload into the RAM region. *)
Lemma refused_segments hds ram w :
  served w -> started [] ram w -> is_uploading w <> 0 -> concat hds = header q ++ CRLF ++ CRLF ->
  sizeof_buf <= zlen (header q) + 4 + pr_size q < 2 ^ 32 ->
  wp (deliver (map rx hds)) (fun _ w' => exists w1, local s w w1 /\ w' = add_call (CallClose c 1) w1) w.
Proof.
  intros Hsv Hst Hi Hh Hbig. pose proof (ps_fits q Hq). pose proof (zlen_nonneg (header q)).
  assert (Hfull : zlen (header q ++ CRLF ++ CRLF) = zlen (header q) + 4) by (rewrite !zlen_app; change (zlen CRLF) with 2; lia).
  rewrite <- (app_nil_r (map rx hds)). eapply (header_segments (header q) hds [] ram); [done| |apply Hq| |done|done| |exact Hh|].
  { rewrite !text_app. split_and!; [apply Hq|by apply textb_text|by apply textb_text]. }
  { lia. }
  { rewrite Hfull. change (zlen (@nil Z)) with 0. lia. }
  intros x d rest w1 Hst1 Hx Hd Hrest Hloc Hsv1. cbn [map app]. apply callback_rx; [done|done|]. eapply rx_header; [exact Hst1|].
  eapply wp_conseq; [apply (recv_hdr_refused s q Hq (rx d) x d ram); [apply rx_event|apply Hst1| |exact Hx|exact Hbig]|].
  { destruct Hloc as (pd1 & o1 & ->). exact Hi. }
  intros r w2 (-> & w3 & Hl3 & ->). apply wp_ret.
  assert (Hl : local s w w3) by (eapply local_trans; [exact Hloc|]; eapply local_trans; [by apply (started_local x ram)|done]).
  apply deliver_empty; [|done|apply wp_ret; by exists w3]. destruct Hl as (pd3 & o3 & ->). exact Hsv.
Qed.

End Events.
