(* ===== verification/Failsafe.v ===== *)
(** * The recovery pages: definitions

    failsafe/failsafe.c and failsafe/fs.c: the handlers of the web server's
    pages, which take a firmware upload and write it to the flash. *)

From stdpp Require Import base numbers list strings gmap option.
From Stdlib Require Import ZArith Lia.
From S2P Require Import Prelude NmbmTypes NetWire Tcp Strto CStr Md5 Flash Upgrade Http.

(** [struct flashing_status]; its buffer is an object of its own. *)
Record flashing_status := mkFlashing { fl_ret : Z; fl_body_sent : Z }.

(** The variables of failsafe.c, the flash, and the [flashing_status]
    structures by address. *)
Record failsafe (S : Type) := mkFailsafe {
  upload_data_id : Z;
  upload_data : ptr;
  fs_upload_size : Z;
  upgrade_success : Z;
  fs_status : gmap Z flashing_status;
  fs_flash : S
}.
Arguments mkFailsafe {S}.
Arguments upload_data_id {S}.
Arguments upload_data {S}.
Arguments fs_upload_size {S}.
Arguments upgrade_success {S}.
Arguments fs_status {S}.
Arguments fs_flash {S}.

Section Members.
Context {S : Type}.

Definition failsafe_eta : failsafe S -> failsafe S := fun x =>
  mkFailsafe (upload_data_id x) (upload_data x) (fs_upload_size x) (upgrade_success x) (fs_status x) (fs_flash x).

#[global] Instance member_upload_data_id : Member (@upload_data_id S).
Proof. derive_member failsafe_eta (@upload_data_id S). Defined.
#[global] Instance member_upload_data : Member (@upload_data S).
Proof. derive_member failsafe_eta (@upload_data S). Defined.
#[global] Instance member_fs_upload_size : Member (@fs_upload_size S).
Proof. derive_member failsafe_eta (@fs_upload_size S). Defined.
#[global] Instance member_upgrade_success : Member (@upgrade_success S).
Proof. derive_member failsafe_eta (@upgrade_success S). Defined.
#[global] Instance member_fs_status : Member (@fs_status S).
Proof. derive_member failsafe_eta (@fs_status S). Defined.
#[global] Instance member_fs_flash : Member (@fs_flash S).
Proof. derive_member failsafe_eta (@fs_flash S). Defined.

End Members.

(** The files linked into the program, what the stack holds before [md5],
    random numbers and whether an object can be allocated. *)
Class failsafe_env := {
  fs_files : list (list Z * list Z);
  fs_stack : MD5Context;
  fs_rand : nat -> Z;
  fs_alloc_ok : Z -> bool
}.

(** The addresses of the handlers. *)
Definition CB_INDEX : Z := 1.
Definition CB_UPLOAD : Z := 2.
Definition CB_FLASHING : Z := 3.
Definition CB_RESULT : Z := 4.
Definition CB_STYLE : Z := 5.
Definition CB_NOT_FOUND : Z := 6.

Section Failsafe.
Context {S : Type} {F : flash_helper S} {U : upgrade_env S} {FE : failsafe_env}.
Local Abbreviation HM := (M (httpd_world (failsafe S))).

Fixpoint find_file (path : list Z) (l : list (list Z * list Z)) : option (list Z) :=
  match l with
  | [] => None
  | (p, d) :: l => if bool_decide (p = path) then Some d else find_file path l
  end.

Definition fs_find_file (path : list Z) : option (list Z) := find_file path fs_files.

Definition set_user (f : failsafe S -> failsafe S) : HM unit :=
  modify (fun w => w <| hw_user := f (hw_user w) |>).

Definition set_response (s : Z) (f : httpd_response -> httpd_response) : HM unit :=
  set_session s (fun pd => pd <| ss_response := f (ss_response pd) |>).

Definition set_info (s : Z) (f : http_response_info -> http_response_info) : HM unit :=
  set_response s (fun r => r <| rs_info := f (rs_info r) |>).

(** [malloc] with contents: the address, [0] for NULL. *)
Definition alloc (l : list Z) : HM Z :=
  do o <- gets hw_next;
  if negb (fs_alloc_ok o) then ret 0
  else
    hw_next ::= o + 1;;
    modify (fun w => w <| hw_objs := <[o := l]> (hw_objs w) |>);;
    ret o.

Definition free (o : Z) : HM unit := modify (fun w => w <| hw_objs := delete o (hw_objs w) |>).

Definition output_plain_file (s : Z) (filename : string) : HM Z :=
  let file := fs_find_file (chars filename) in
  let data := default (chars "Error: file not found") file in
  set_response s (fun r => r <| rs_status := HTTP_RESP_STD |> <| rs_data := Some (Lit data) |> <| rs_size := zlen data |>
    <| rs_info := (rs_info r) <| ri_code := 200 |> <| ri_connection_close := 1 |>
         <| ri_content_type := Some (chars "text/html") |> |>);;
  ret (match file with Some _ => 0 | None => 1 end).

Definition page_handler (filename : string) (st : httpd_uri_handler_status) (s : Z) : HM unit :=
  match st with HTTP_CB_NEW => output_plain_file s filename;; ret tt | _ => ret tt end.

Definition index_handler := page_handler "index.html".
Definition flashing_handler := page_handler "flashing.html".

Definition style_handler (st : httpd_uri_handler_status) (s : Z) : HM unit :=
  match st with
  | HTTP_CB_NEW => output_plain_file s "style.css";; set_info s (fun i => i <| ri_content_type := Some (chars "text/css") |>)
  | _ => ret tt
  end.

Definition not_found_handler (st : httpd_uri_handler_status) (s : Z) : HM unit :=
  match st with
  | HTTP_CB_NEW => output_plain_file s "404.html";; set_info s (fun i => i <| ri_code := 404 |>)
  | _ => ret tt
  end.

(** *** Uploads *)

Definition hex_text (sum : list Z) : list Z := flat_map (fun x => [hex_digit (Z.land (Z.shiftr x 4) 0xf); hex_digit (Z.land x 0xf)]) sum.

(** [%d] of an [int]. *)
Definition print_int (n : Z) : list Z := if n <? 0 then 45 :: print_dec (- n) else print_dec n.

(** Ten characters: the number, then spaces. *)
Definition size_text (n : Z) : list Z := take 10 (print_int (i32 n) ++ fill 32 16).

(** A copy of the page with checksum and size in place of their marks. *)
Definition upload_page (s : Z) (fw : httpd_form_value) : HM unit :=
  do pd <- get_session s;
  do d <- load_ref (rs_data (ss_response pd));
  do d <- lift d;
  do d <- lift (slice d 0 (rs_size (ss_response pd)));
  do buff <- alloc (d ++ [0]);
  if buff =? 0 then ret tt
  else
    do md5_ptr <- strstr_at (buff, 0) (fill 88 32);
    do size_ptr <- strstr_at (buff, 0) (fill 89 10);
    (match md5_ptr with
     | Some q =>
         do l <- load (fv_data fw);
         do sum <- lift (md5 fs_stack l (i32 (fv_size fw)));
         store q (hex_text sum)
     | None => ret tt
     end);;
    (match size_ptr with Some q => store q (size_text (fv_size fw)) | None => ret tt end);;
    set_response s (fun r => r <| rs_data := Some (Mem (buff, 0)) |>).

Definition upload_handler (st : httpd_uri_handler_status) (s : Z) : HM unit :=
  match st with
  | HTTP_CB_NEW =>
      do fw <- httpd_request_find_value s (chars "firmware");
      match fw with
      | None => set_info s (fun i => i <| ri_code := 302 |> <| ri_connection_close := 1 |> <| ri_location := Some (chars "/") |>)
      | Some fw =>
          do r <- output_plain_file s "upload.html";
          if negb (r =? 0) then set_info s (fun i => i <| ri_code := 500 |>)
          else
            upload_page s fw;;
            do id <- gets upload_id;
            set_user (fun u => u <| upload_data_id := id |> <| upload_data := fv_data fw |> <| fs_upload_size := fv_size fw |>)
      end
  | HTTP_CB_CLOSED =>
      do pd <- get_session s;
      match fs_find_file (chars "upload.html"), rs_data (ss_response pd) with
      | Some _, Some (Mem p) => free p.1
      | _, _ => ret tt
      end
  | HTTP_CB_RESPONDING => ret tt
  end.

(** *** Writing *)

Definition get_flashing (o : Z) : HM flashing_status :=
  do u <- gets hw_user; lift (fs_status u !! o).

Definition set_flashing (o : Z) (f : flashing_status -> flashing_status) : HM unit :=
  do x <- get_flashing o;
  set_user (fun u => u <| fs_status := <[o := f x]> (fs_status u) |>).

Definition on_flash {A} (m : M S A) : HM A := fun w =>
  match m (fs_flash (hw_user w)) with
  | Ret a s => Ret a (w <| hw_user := (hw_user w) <| fs_flash := s |> |>)
  | Stuck => Stuck
  | NoFuel => NoFuel
  end.

Definition result_new (s : Z) : HM unit :=
  do st <- alloc (fill 0 4096);
  if st =? 0 then set_info s (fun i => i <| ri_code := 500 |>)
  else
    set_user (fun u => u <| fs_status := <[st := mkFlashing (-1) 0]> (fs_status u) |>);;
    set_response s (fun r => r <| rs_session_data := st |> <| rs_status := HTTP_RESP_CUSTOM |>
      <| rs_info := (rs_info r) <| ri_http_1_0 := 1 |> <| ri_content_length := -1 |> <| ri_connection_close := 1 |>
           <| ri_content_type := Some (chars "text/html") |> <| ri_code := 200 |> |>);;
    do pd <- get_session s;
    do buf <- load (st, 0);
    do '(buf, size) <- lift (http_make_response_header (rs_info (ss_response pd)) buf 4096);
    store (st, 0) buf;;
    set_response s (fun r => r <| rs_data := Some (Mem (st, 0)) |> <| rs_size := size |>).

(** Writes the last upload, if it is still the one in memory. *)
Definition flash_upload (st : Z) : HM unit :=
  do id <- gets upload_id;
  do u <- gets hw_user;
  if upload_data_id u =? id then
    do l <- load (upload_data u);
    do r <- on_flash (write_firmware_failsafe l (fs_upload_size u));
    set_flashing st (fun x => mkFlashing r (fl_body_sent x))
  else ret tt.

Definition result_responding (s : Z) : HM unit :=
  do pd <- get_session s;
  let st := rs_session_data (ss_response pd) in
  do x <- get_flashing st;
  if negb (fl_body_sent x =? 0) then set_response s (fun r => r <| rs_status := HTTP_RESP_NONE |>)
  else
    flash_upload st;;
    do n <- gets hw_rands;
    hw_rands ::= Datatypes.S n;;
    set_user (fun u => u <| upload_data_id := fs_rand n |>);;
    do x <- get_flashing st;
    let ok := fl_ret x =? 0 in
    match fs_find_file (chars (if ok then "success.html" else "fail.html")) with
    | None =>
        let t := chars (if ok then "Upgrade completed!" else "Upgrade failed!") in
        set_response s (fun r => r <| rs_data := Some (Lit t) |> <| rs_size := zlen t |>)
    | Some d =>
        set_response s (fun r => r <| rs_data := Some (Lit d) |> <| rs_size := zlen d |>);;
        set_flashing st (fun x => mkFlashing (fl_ret x) 1)
    end.

Definition result_closed (s : Z) : HM unit :=
  do pd <- get_session s;
  let st := rs_session_data (ss_response pd) in
  do x <- get_flashing st;
  let ok := if fl_ret x =? 0 then 1 else 0 in
  set_user (fun u => u <| upgrade_success := ok |> <| fs_status := delete st (fs_status u) |>);;
  free st;;
  if negb (ok =? 0) then call CallCloseAll else ret tt.

Definition result_handler (st : httpd_uri_handler_status) (s : Z) : HM unit :=
  match st with
  | HTTP_CB_NEW => result_new s
  | HTTP_CB_RESPONDING => result_responding s
  | HTTP_CB_CLOSED => result_closed s
  end.

(** ** The web server with these pages *)

#[global] Instance failsafe_http : http_env (failsafe S) := {|
  rand := fs_rand;
  calloc_ok := fs_alloc_ok;
  run_urih cb st s :=
    if cb =? CB_INDEX then index_handler st s
    else if cb =? CB_UPLOAD then upload_handler st s
    else if cb =? CB_FLASHING then flashing_handler st s
    else if cb =? CB_RESULT then result_handler st s
    else if cb =? CB_STYLE then style_handler st s
    else if cb =? CB_NOT_FOUND then not_found_handler st s
    else lift None
|}.

(** The handlers [start_web_failsafe] registers. *)
Definition failsafe_uris : list (list Z * Z) :=
  [(chars "/", CB_INDEX); (chars "/cgi-bin/luci", CB_INDEX); (chars "/upload", CB_UPLOAD);
   (chars "/flashing", CB_FLASHING); (chars "/result", CB_RESULT); (chars "/style.css", CB_STYLE); ([], CB_NOT_FOUND)].

Fixpoint register_all (malloc_ok : bool) (l : list (list Z * Z)) : HM unit :=
  match l with
  | [] => ret tt
  | (uri, cb) :: l => httpd_register_uri_handler malloc_ok (Some 80) (Some uri) (Some cb);; register_all malloc_ok l
  end.

(** [listen] is the result of [tcp_listen]; [net_loop], the network loop, is
    what the callbacks do until it ends. *)
Definition start_web_failsafe (malloc_ok : bool) (listen : Z) (net_loop : HM unit) : HM Z :=
  do i <- httpd_find_instance 80;
  match i with Some _ => httpd_free_instance 80 | None => ret tt end;;
  do i <- httpd_create_instance malloc_ok listen 80;
  match i with
  | None => ret (-1)
  | Some _ => register_all malloc_ok failsafe_uris;; net_loop;; ret 0
  end.

(** The second result says whether the board is reset. *)
Definition do_httpd (malloc_ok : bool) (listen : Z) (net_loop : HM unit) : HM (Z * bool) :=
  do ret_ <- start_web_failsafe malloc_ok listen net_loop;
  do u <- gets hw_user;
  ret (ret_, negb (upgrade_success u =? 0)).

End Failsafe.
