(* ===== verification/FailsafeSpec.v ===== *)
(** * The recovery pages: the handlers

    What the handlers of [/upload] and [/result] do. *)

From stdpp Require Import base numbers list strings gmap option.
From Stdlib Require Import ZArith Lia.
From S2P Require Import Prelude NmbmTypes NetWire Tcp Strto CStr Md5 Md5Spec Flash Upgrade UpgradeSpec Http HttpMem HttpForm HttpRecv HttpHandle Failsafe.

Section FailsafeSpec.
Context {S : Type} {F : flash_helper S} {U : upgrade_env S} {FE : failsafe_env}.
Local Abbreviation W := (httpd_world (failsafe S)).
Implicit Types w : W.
Context (s : Z).

Lemma wp_store_in (p : ptr) o d (Q : unit -> W -> Prop) w :
  hw_objs w !! p.1 = Some o -> 0 <= p.2 -> p.2 + zlen d <= zlen o ->
  (forall o', zlen o' = zlen o -> Q tt (with_obj p.1 o' w)) -> wp (store p d) Q w.
Proof.
  intros Ho H0 Hl HQ. unfold store. apply wp_bind, wp_gets, wp_bind. eapply wp_lift; [exact Ho|]. apply wp_bind.
  destruct (splice o p.2 d) as [o'|] eqn:E; [|rewrite splice_some in E by lia; done].
  eapply wp_lift; [reflexivity|]. apply wp_modify, HQ. by apply splice_zlen in E.
Qed.

(** ** Upload *)

(** A form value named [firmware] with contents [data], in objects below the
    next address. *)
Record file_value (v : httpd_form_value) (data : list Z) w : Prop := {
  fw_name : exists p a r, fv_name v = Some p /\ hw_objs w !! p.1 = Some (a ++ chars "firmware" ++ 0 :: r) /\ p.2 = zlen a;
  fw_data : exists a r, hw_objs w !! (fv_data v).1 = Some (a ++ data ++ r) /\ (fv_data v).2 = zlen a;
  fw_size : fv_size v = zlen data;
  fw_below : (fv_data v).1 < hw_next w
}.

Lemma parsed_file q filename more data tail ram w :
  UPLOAD < hw_next w -> file_value (parsed_value q filename more data) data (with_obj UPLOAD (parsed_ram q filename more data tail ram) w).
Proof.
  intros Hn. unfold parsed_value, firmware_value, parsed_ram, cut_obj. constructor; cbn [fv_name fv_data fv_size fst snd]; [| |done|done].
  - exists (UPLOAD, zlen (@nil Z) + name_off (pr_boundary q)), (delimiter (pr_boundary q) ++ CRLF ++ disposition ++ [34]).
    eexists. split; [done|]. split.
    + cbn [fst]. rewrite obj_here. unfold cut_header. cbn [app]. list_assoc.
    + cbn [snd]. unfold name_off. rewrite !zlen_app. change (zlen CRLF) with 2. change (zlen [34]) with 1. change (zlen (@nil Z)) with 0. lia.
  - exists (delimiter (pr_boundary q) ++ CRLF ++ cut_header filename more ++ [0; 10; 13; 10]). eexists. split.
    + rewrite obj_here. unfold behind. cbn [app]. list_assoc.
    + unfold data_off. rewrite !zlen_app, zlen_cut_header. change (zlen CRLF) with 2. change (zlen [0; 10; 13; 10]) with 4. change (zlen (@nil Z)) with 0. lia.
Qed.

Lemma find_firmware pd v data (Q : option httpd_form_value -> W -> Prop) w :
  hw_sessions w !! s = Some pd -> ss_form pd = [v] -> file_value v data w -> Q (Some v) w ->
  wp (httpd_request_find_value s (chars "firmware")) Q w.
Proof.
  intros Hs Hv [(p & a & r & Hn & Ho & Hp) _ _ _] HQ. unfold httpd_request_find_value. apply wp_bind. eapply wp_get_session; [exact Hs|].
  rewrite Hv. cbn [find_value]. rewrite Hn. apply wp_bind. eapply wp_lift; [reflexivity|]. apply wp_bind.
  eapply wp_load; [exact Ho|exact Hp|]. apply wp_bind.
  eapply wp_lift; [unfold str_eq; rewrite cstr_text by (by apply textb_text); reflexivity|].
  change (bool_decide (chars "firmware" = chars "firmware")) with true. by apply wp_ret.
Qed.

Lemma zlen_hex l : zlen (hex_text l) = 2 * zlen l.
Proof. induction l as [|x l IH]; [done|]. change (hex_text (x :: l)) with ([hex_digit (Z.land (Z.shiftr x 4) 0xf); hex_digit (Z.land x 0xf)] ++ hex_text l).
  rewrite zlen_app, zlen_cons, IH. unfold zlen. cbn [length]. lia.
Qed.

Lemma zlen_size_text n : zlen (size_text n) <= 10.
Proof. unfold size_text, zlen. rewrite length_take. lia. Qed.

Lemma wp_alloc l (Q : Z -> W -> Prop) w :
  fs_alloc_ok (hw_next w) = true -> Q (hw_next w) (with_obj (hw_next w) l (w <| hw_next := hw_next w + 1 |>)) -> wp (alloc l) Q w.
Proof.
  intros Ha HQ. unfold alloc. apply wp_bind, wp_gets. rewrite Ha. cbn [negb]. apply wp_bind, wp_modify, wp_bind, wp_modify, wp_ret. exact HQ.
Qed.

(** The page is copied and filled in; nothing else changes. *)
Lemma upload_page_ok pd v data page w :
  stack_ok fs_stack -> Forall is_byte data -> zlen data < 2 ^ 32 -> hw_sessions w !! s = Some pd -> rs_data (ss_response pd) = Some (Lit page) ->
  rs_size (ss_response pd) = zlen page -> file_value v data w -> fs_alloc_ok (hw_next w) = true -> 0 < hw_next w ->
  wp (upload_page s v) (fun _ w' => exists page',
    w' = with_session s (pd <| ss_response := (ss_response pd) <| rs_data := Some (Mem (hw_next w, 0)) |> |>)
           (with_obj (hw_next w) page' (w <| hw_next := hw_next w + 1 |>))) w.
Proof.
  intros Hmd Hby Hdl Hs Hd Hsz [_ (a & r & Hdo & Hdp) Hvs Hlt] Hal Hn. unfold upload_page. apply wp_bind. eapply wp_get_session; [exact Hs|].
  rewrite Hd, Hsz. cbn [load_ref]. apply wp_bind, wp_ret, wp_bind. eapply wp_lift; [reflexivity|]. apply wp_bind.
  pose proof (zlen_nonneg page). pose proof (zlen_nonneg data).
  eapply wp_lift; [rewrite slice_some by lia; reflexivity|]. rewrite drop_0.
  assert (Et : take (Z.to_nat (zlen page)) page = page) by (apply take_ge; unfold zlen; lia). rewrite Et.
  apply wp_bind. apply wp_alloc; [done|]. set (n := hw_next w) in *. set (w0 := w <| hw_next := n + 1 |>).
  destruct (Z.eqb_spec n 0); [lia|]. destruct (nul_ends page []) as (t & r' & Ep & Ht).
  set (o := page ++ [0]) in *. assert (Ho : hw_objs (with_obj n o w0) !! n = Some ([] ++ t ++ 0 :: r')) by (rewrite obj_here; cbn [app]; by rewrite <- Ep).
  apply wp_bind. eapply (wp_strstr (n, 0) [] t r' _ _ _ _ Ho); [done|done|reflexivity|]. apply wp_bind.
  eapply (wp_strstr (n, 0) [] t r' _ _ _ _ Ho); [done|done|reflexivity|].
  assert (Hlt' : zlen t <= zlen o) by (rewrite Ep, zlen_app; pose proof (zlen_nonneg (0 :: r')); lia).
  assert (Hbound : forall pat i, find_sub pat t = Some i -> 0 <= Z.of_nat i /\ Z.of_nat i + zlen pat <= zlen o).
  { intros pat i Hi. apply find_sub_bound in Hi. unfold zlen in *. lia. }
  assert (Hlast : forall o1, zlen o1 = zlen o -> hw_sessions (with_obj n o1 w0) !! s = Some pd /\
    wp ((match (fun i => ((n, 0).1, (n, 0).2 + Z.of_nat i)) <$> find_sub (fill 89 10) t with
         | Some q => store q (size_text (fv_size v)) | None => ret tt end);;
        set_response s (fun r => r <| rs_data := Some (Mem (n, 0)) |>)) (fun _ w' => exists page',
      w' = with_session s (pd <| ss_response := (ss_response pd) <| rs_data := Some (Mem (n, 0)) |> |>) (with_obj n page' w0)) (with_obj n o1 w0)).
  { intros o1 Ho1. split; [done|]. apply wp_bind. destruct (find_sub (fill 89 10) t) as [i|] eqn:Ei; cbn [fmap option_fmap option_map fst snd].
    - apply Hbound in Ei. change (zlen (fill 89 10)) with 10 in Ei. pose proof (zlen_size_text (fv_size v)).
      eapply (wp_store_in _ o1); [apply obj_here|cbn [snd]; lia|cbn [snd]; lia|]. intros o2 _. cbn [fst]. rewrite with_obj_twice.
      unfold set_response. eapply wp_set_session; [exact Hs|]. by exists o2.
    - apply wp_ret. unfold set_response. eapply wp_set_session; [exact Hs|]. by exists o1. }
  apply wp_bind. destruct (find_sub (fill 88 32) t) as [i|] eqn:Ei; cbn [fmap option_fmap option_map fst snd]; [|by apply wp_ret, Hlast].
  apply Hbound in Ei. change (zlen (fill 88 32)) with 32 in Ei. apply wp_bind.
  eapply (wp_load _ a (data ++ r)); [rewrite obj_other by lia; exact Hdo|done|]. apply wp_bind. rewrite Hvs.
  eapply wp_lift; [apply (md5_ok fs_stack data r); [done|done|by rewrite u32_i32, u32_small by lia]|].
  eapply (wp_store_in _ o); [apply obj_here|cbn [snd]; lia|cbn [snd]; rewrite zlen_hex, zlen_digest; lia|]. intros o1 Ho1. cbn [fst].
  rewrite with_obj_twice. rewrite <- Hvs. by apply Hlast.
Qed.

(** The page shows the digest and the size of the upload. *)
Lemma upload_page_shows pd v data a b c w :
  let page := a ++ fill 88 32 ++ b ++ fill 89 10 ++ c in
  text page -> find_sub (fill 88 32) page = Some (length a) -> find_sub (fill 89 10) page = Some (length (a ++ fill 88 32 ++ b)) ->
  stack_ok fs_stack -> Forall is_byte data -> zlen data < 2 ^ 32 -> hw_sessions w !! s = Some pd -> rs_data (ss_response pd) = Some (Lit page) ->
  rs_size (ss_response pd) = zlen page -> file_value v data w -> fs_alloc_ok (hw_next w) = true -> 0 < hw_next w ->
  wp (upload_page s v) (fun _ w' =>
    w' = with_session s (pd <| ss_response := (ss_response pd) <| rs_data := Some (Mem (hw_next w, 0)) |> |>)
           (with_obj (hw_next w) ((a ++ hex_text (Rfc1321.digest data) ++ b ++ size_text (zlen data) ++ c) ++ [0])
              (w <| hw_next := hw_next w + 1 |>))) w.
Proof.
  intros page Ht H88 H89 Hmd Hby Hdl Hs Hd Hsz [_ (x & r & Hdo & Hdp) Hvs Hlt] Hal Hn. unfold upload_page. apply wp_bind.
  eapply wp_get_session; [exact Hs|]. rewrite Hd, Hsz. cbn [load_ref]. apply wp_bind, wp_ret, wp_bind. eapply wp_lift; [reflexivity|].
  apply wp_bind. pose proof (zlen_nonneg data). eapply wp_lift; [apply slice_full|]. apply wp_bind. apply wp_alloc; [done|].
  set (n := hw_next w) in *. set (w0 := w <| hw_next := n + 1 |>). destruct (Z.eqb_spec n 0); [lia|].
  assert (Ho : hw_objs (with_obj n (page ++ [0]) w0) !! n = Some ([] ++ page ++ 0 :: [])) by apply obj_here.
  apply wp_bind. eapply (wp_strstr (n, 0) [] page [] _ _ _ _ Ho); [done|done|exact H88|]. apply wp_bind.
  eapply (wp_strstr (n, 0) [] page [] _ _ _ _ Ho); [done|done|exact H89|]. cbn [fmap option_fmap option_map fst snd]. apply wp_bind, wp_bind.
  eapply (wp_load _ x (data ++ r)); [rewrite obj_other by lia; exact Hdo|done|]. apply wp_bind. rewrite Hvs.
  eapply wp_lift; [apply (md5_ok fs_stack data r); [done|done|by rewrite u32_i32, u32_small by lia]|].
  eapply (wp_store _ a (fill 88 32) (b ++ fill 89 10 ++ c ++ [0])).
  { cbn [fst]. rewrite obj_here. unfold page. list_assoc. }
  { done. }
  { by rewrite zlen_hex, zlen_digest. }
  cbn [fst]. rewrite with_obj_twice. apply wp_bind.
  eapply (wp_store _ (a ++ hex_text (Rfc1321.digest data) ++ b) (fill 89 10) (c ++ [0])).
  { cbn [fst]. rewrite obj_here. list_assoc. }
  { cbn [snd]. rewrite !zlen_app, zlen_hex, zlen_digest. unfold zlen. rewrite !length_app. change (length (fill 88 32)) with 32%nat. lia. }
  { unfold size_text, zlen. rewrite length_take, length_app. change (length (fill 32 16)) with 16%nat. change (length (fill 89 10)) with 10%nat. lia. }
  cbn [fst]. rewrite with_obj_twice. unfold set_response. eapply wp_set_session; [exact Hs|].
  do 2 f_equal. list_assoc.
Qed.

(** The variables of failsafe.c after an upload. *)
Definition noted (v : httpd_form_value) w : failsafe S :=
  (hw_user w) <| upload_data_id := upload_id w |> <| upload_data := fv_data v |> <| fs_upload_size := fv_size v |>.

Lemma upload_new_ok pd v data page w :
  stack_ok fs_stack -> Forall is_byte data -> zlen data < 2 ^ 32 -> fs_find_file (chars "upload.html") = Some page -> hw_sessions w !! s = Some pd -> ss_form pd = [v] ->
  file_value v data w -> fs_alloc_ok (hw_next w) = true -> 0 < hw_next w ->
  wp (upload_handler HTTP_CB_NEW s) (fun _ w' => exists rsp page', rs_status rsp = HTTP_RESP_STD /\ rs_data rsp = Some (Mem (hw_next w, 0)) /\
    w' = with_session s (pd <| ss_response := rsp |>) (with_obj (hw_next w) page' (w <| hw_next := hw_next w + 1 |> <| hw_user := noted v w |>))) w.
Proof.
  intros Hmd Hby Hdl Hp Hs Hv Hfw Hal Hn. unfold upload_handler. apply wp_bind. eapply find_firmware; [exact Hs|exact Hv|exact Hfw|]. cbv beta iota.
  apply wp_bind. unfold output_plain_file. rewrite Hp. apply wp_bind. unfold set_response. eapply wp_set_session; [exact Hs|]. apply wp_ret.
  cbn [Z.eqb negb]. apply wp_bind. set (pd1 := pd <| ss_response := _ |>).
  eapply wp_conseq; [eapply (upload_page_ok pd1 v data page); [exact Hmd|exact Hby|exact Hdl|apply session_here|done|done| |done|done]|].
  { destruct Hfw as [H1 H2 H3 H4]. by constructor. }
  intros _ w1 (page' & ->). apply wp_bind, wp_gets, wp_modify. eexists _, page'. split; [|split]; [| |].
  3: { unfold with_session, with_obj. cbn. rewrite insert_insert_eq. reflexivity. }
  - done.
  - done.
Qed.

(** ** Result *)

Lemma result_new_ok pd w :
  hw_sessions w !! s = Some pd -> fs_alloc_ok (hw_next w) = true -> 0 < hw_next w ->
  wp (result_handler HTTP_CB_NEW s) (fun _ w' => exists rsp o, rs_status rsp = HTTP_RESP_CUSTOM /\
    rs_data rsp = Some (Mem (hw_next w, 0)) /\ rs_session_data rsp = hw_next w /\
    w' = with_session s (pd <| ss_response := rsp |>) (with_obj (hw_next w) o (w <| hw_next := hw_next w + 1 |>
           <| hw_user := (hw_user w) <| fs_status := <[hw_next w := mkFlashing (-1) 0]> (fs_status (hw_user w)) |> |>))) w.
Proof.
  intros Hs Hal Hn. unfold result_handler, result_new. apply wp_bind. apply wp_alloc; [done|]. set (n := hw_next w) in *.
  destruct (Z.eqb_spec n 0); [lia|]. apply wp_bind, wp_modify. apply wp_bind. unfold set_response. eapply wp_set_session; [exact Hs|].
  apply wp_bind. eapply wp_get_session; [apply session_here|]. apply wp_bind. eapply (wp_load _ [] (fill 0 4096)); [apply obj_here|done|].
  destruct (put_lines_ok (response_lines (rs_info (ss_response (pd <| ss_response := (ss_response pd) <| rs_session_data := n |>
    <| rs_status := HTTP_RESP_CUSTOM |> <| rs_info := (rs_info (ss_response pd)) <| ri_http_1_0 := 1 |> <| ri_content_length := -1 |>
    <| ri_connection_close := 1 |> <| ri_content_type := Some (chars "text/html") |> <| ri_code := 200 |> |> |>)))) 0 4096 (fill 0 4096))
    as (o & k & Eo & Hl); [lia|done|].
  apply wp_bind. eapply wp_lift; [exact Eo|]. cbv beta iota. apply wp_bind.
  eapply (wp_store _ [] (fill 0 4096) [] o); [rewrite app_nil_r; apply obj_here|done|exact Hl|].
  eapply wp_set_session; [apply session_here|]. eexists _, o. split_and!; cycle 3.
  { unfold with_session, with_obj. cbn. rewrite app_nil_r, !insert_insert_eq. reflexivity. }
  all: done.
Qed.

(** The last upload is still in memory. *)
Record pending (data : list Z) w : Prop := {
  pn_id : upload_data_id (hw_user w) = upload_id w;
  pn_data : exists a r, hw_objs w !! (upload_data (hw_user w)).1 = Some (a ++ data ++ r) /\ (upload_data (hw_user w)).2 = zlen a;
  pn_size : fs_upload_size (hw_user w) = zlen data;
  pn_below : (upload_data (hw_user w)).1 < hw_next w
}.

Definition with_flash (fl : S) w : W := w <| hw_user := (hw_user w) <| fs_flash := fl |> |>.

Lemma wp_on_flash {A} (m : M S A) (Q : A -> W -> Prop) w :
  wp m (fun a fl => Q a (with_flash fl w)) (fs_flash (hw_user w)) -> wp (on_flash m) Q w.
Proof. unfold wp, on_flash. by destruct (m _). Qed.

(** Only the bytes that are written matter. *)
Lemma write_firmware_prefix data r : _write_firmware (data ++ r) (zlen data) = _write_firmware (S := S) data (zlen data).
Proof.
  unfold _write_firmware. assert (E : slice (data ++ r) 0 (zlen data) = slice data 0 (zlen data)); [|by rewrite E].
  pose proof (zlen_nonneg data). pose proof (zlen_nonneg r). rewrite !slice_some by (rewrite ?zlen_app; lia).
  rewrite !drop_0, take_zlen. f_equal. symmetry. apply take_ge. unfold zlen. lia.
Qed.

(** [flash_upload] is done: result and flash. *)
Definition flashed (st r : Z) (fl : S) w : W :=
  w <| hw_user := (hw_user w) <| fs_flash := fl |> <| fs_status := <[st := mkFlashing r 0]> (fs_status (hw_user w)) |> |>.

Section Flash.
Context {V : flash_view S} {FL : flash_laws F V}.
Local Abbreviation es := mtk_board_get_flash_erase_size.

(** What [write_firmware_failsafe] needs. *)
Record flash_ready (po ps : Z) (fl : S) : Prop := {
  fr_usable : usable fl;
  fr_part : get_mtd_part_info "firmware" = Some (po, ps);
  fr_low : 0 <= po;
  fr_high : po + ps + es <= 2 ^ 32;
  fr_backup : forall off sz, get_mtd_part_info DUAL_PARTNAME_BACKUP = Some (off, sz) -> 0 <= off < 2 ^ 64;
  fr_dev : mtk_board_get_flash_dev = true
}.

Lemma flash_upload_ok st data po ps w :
  pending data w -> fs_status (hw_user w) !! st = Some (mkFlashing (-1) 0) -> flash_ready po ps (fs_flash (hw_user w)) ->
  0 < zlen data -> Forall is_byte data ->
  wp (flash_upload st) (fun _ w' => exists r fl, firmware_post (fs_flash (hw_user w)) po ps data (zlen data) r fl /\ w' = flashed st r fl w) w.
Proof.
  intros [Hid (a & r & Ho & Hp) Hsz _] Hst [Hu Ep H0 Hb Hbk Hdev] Hpos Hby. unfold flash_upload. apply wp_bind, wp_gets, wp_bind, wp_gets.
  rewrite Hid, Z.eqb_refl. apply wp_bind. eapply wp_load; [exact Ho|exact Hp|]. apply wp_bind, wp_on_flash. rewrite Hsz.
  unfold write_firmware_failsafe. rewrite Hdev. cbn [negb]. rewrite write_firmware_prefix.
  eapply wp_conseq; [apply (write_firmware_ok _ data (zlen data) po ps); try done; lia|]. intros v fl Hpost.
  unfold set_flashing, get_flashing. apply wp_bind, wp_bind, wp_gets. eapply wp_lift; [exact Hst|]. apply wp_modify.
  exists v, fl. by split.
Qed.

End Flash.

(** An upload that has been replaced in memory, or written already. *)
Lemma flash_stale_ok st w :
  upload_data_id (hw_user w) <> upload_id w -> fs_status (hw_user w) !! st = Some (mkFlashing (-1) 0) ->
  wp (flash_upload st) (fun _ w' => exists r fl, (r = -1 /\ fl = fs_flash (hw_user w)) /\ w' = flashed st r fl w) w.
Proof.
  intros Hne Hst. unfold flash_upload. apply wp_bind, wp_gets, wp_bind, wp_gets. destruct (Z.eqb_spec (upload_data_id (hw_user w)) (upload_id w)); [done|].
  apply wp_ret. eexists _, _. split; [done|]. destruct w as [? ? ? ? ? ? ? ? u]. destruct u. unfold flashed. cbn in *. by rewrite insert_id.
Qed.

(** The first answer after the header: the upload is written and can not be
    written again under the same number. *)
Lemma result_responding_ok pd n (O : Z -> S -> Prop) ok bad w :
  hw_sessions w !! s = Some pd -> rs_session_data (ss_response pd) = n -> rs_status (ss_response pd) = HTTP_RESP_CUSTOM ->
  fs_status (hw_user w) !! n = Some (mkFlashing (-1) 0) ->
  fs_find_file (chars "success.html") = Some ok -> fs_find_file (chars "fail.html") = Some bad ->
  wp (flash_upload n) (fun _ w' => exists r fl, O r fl /\ w' = flashed n r fl w) w ->
  wp (result_handler HTTP_CB_RESPONDING s) (fun _ w' => exists r rsp u', O r (fs_flash u') /\
    rs_status rsp = HTTP_RESP_CUSTOM /\ rs_session_data rsp = n /\ (exists l, rs_data rsp = Some (Lit l)) /\
    fs_status u' !! n = Some (mkFlashing r 1) /\ upload_data_id u' = fs_rand (hw_rands w) /\
    w' = with_session s (pd <| ss_response := rsp |>) (w <| hw_rands := Datatypes.S (hw_rands w) |> <| hw_user := u' |>)) w.
Proof.
  intros Hs Hn Hcu Hst Hok Hbad Hfl. unfold result_handler, result_responding. apply wp_bind. eapply wp_get_session; [exact Hs|].
  rewrite Hn. unfold get_flashing at 1. apply wp_bind, wp_bind, wp_gets. eapply wp_lift; [exact Hst|]. cbn [fl_body_sent Z.eqb negb].
  apply wp_bind. eapply wp_conseq; [exact Hfl|]. intros _ w1 (r & fl & Hpost & ->).
  apply wp_bind, wp_gets, wp_bind, wp_modify, wp_bind, wp_modify. unfold get_flashing at 1. apply wp_bind, wp_bind, wp_gets.
  eapply wp_lift; [cbn; apply lookup_insert_eq|]. cbn [fl_ret].
  assert (Hpage : exists l, fs_find_file (chars (if r =? 0 then "success.html" else "fail.html")) = Some l) by (destruct (r =? 0); eauto).
  destruct Hpage as (l & ->). apply wp_bind. unfold set_response. eapply wp_set_session; [exact Hs|].
  unfold set_flashing, get_flashing. apply wp_bind, wp_bind, wp_gets. eapply wp_lift; [cbn; apply lookup_insert_eq|]. apply wp_modify.
  eexists r, _, _. split; [|split; [|split; [|split; [|split; [|split]]]]]; cycle 6.
  - unfold with_session. cbn. reflexivity.
  - exact Hpost.
  - exact Hcu.
  - exact Hn.
  - by exists l.
  - cbn. apply lookup_insert_eq.
  - done.
Qed.

(** Once the answer is sent. *)
Lemma result_sent_ok pd n r w :
  hw_sessions w !! s = Some pd -> rs_session_data (ss_response pd) = n -> fs_status (hw_user w) !! n = Some (mkFlashing r 1) ->
  wp (result_handler HTTP_CB_RESPONDING s) (fun _ w' =>
    w' = with_session s (pd <| ss_response := (ss_response pd) <| rs_status := HTTP_RESP_NONE |> |>) w) w.
Proof.
  intros Hs Hn Hst. unfold result_handler, result_responding. apply wp_bind. eapply wp_get_session; [exact Hs|]. rewrite Hn.
  unfold get_flashing. apply wp_bind, wp_bind, wp_gets. eapply wp_lift; [exact Hst|]. cbn [fl_body_sent Z.eqb negb].
  unfold set_response. by eapply wp_set_session.
Qed.

Lemma result_closed_ok pd n x w :
  hw_sessions w !! s = Some pd -> rs_session_data (ss_response pd) = n -> fs_status (hw_user w) !! n = Some x ->
  wp (result_handler HTTP_CB_CLOSED s) (fun _ w' => exists calls,
    w' = w <| hw_user := (hw_user w) <| upgrade_success := if fl_ret x =? 0 then 1 else 0 |> <| fs_status := delete n (fs_status (hw_user w)) |> |>
           <| hw_objs := delete n (hw_objs w) |> <| hw_calls := calls |>) w.
Proof.
  intros Hs Hn Hst. unfold result_handler, result_closed. apply wp_bind. eapply wp_get_session; [exact Hs|]. rewrite Hn.
  unfold get_flashing. apply wp_bind, wp_bind, wp_gets. eapply wp_lift; [exact Hst|]. apply wp_bind, wp_modify. unfold free.
  apply wp_bind, wp_modify. destruct (fl_ret x =? 0); cbn [Z.eqb negb]; [unfold call; apply wp_modify|apply wp_ret]; by eexists.
Qed.

End FailsafeSpec.
