(* ===== verification/FailsafeRun.v ===== *)
(** * The recovery pages: from upload to flash

    A browser posts a firmware file to [/upload] and then asks for [/result]. *)

From stdpp Require Import base numbers list strings gmap option.
From Stdlib Require Import ZArith Lia.
From S2P Require Import Prelude NmbmTypes NetWire Tcp Strto CStr Md5 Md5Spec Flash Upgrade UpgradeSpec Http HttpMem HttpForm HttpRecv HttpHandle HttpEvents Failsafe FailsafeSpec.

Section FailsafeRun.
Context {S : Type} {F : flash_helper S} {U : upgrade_env S} {FE : failsafe_env}.
Local Abbreviation W := (httpd_world (failsafe S)).
Implicit Types w : W.

(** ** The server is started *)

(** Handlers at consecutive addresses. *)
Fixpoint numbered (n : Z) (l : list (list Z * Z)) : list httpd_uri_handler :=
  match l with
  | [] => []
  | (uri, cb) :: l => mkUrih uri cb n :: numbered (n + 1) l
  end.

Definition web_inst (n : Z) : httpd_instance := mkInst 80 (numbered n failsafe_uris).

Lemma register_ok l hs w : inst_head w = [mkInst 80 hs] ->
  wp (register_all true l) (fun _ w' =>
    w' = w <| inst_head := [mkInst 80 (hs ++ numbered (hw_next w) l)] |> <| hw_next := hw_next w + zlen l |>) w.
Proof.
  revert hs w. induction l as [|[uri cb] l IH]; intros hs w Hi; cbn [register_all].
  - apply wp_ret. destruct w. cbn in *. rewrite Hi, app_nil_r. change (zlen (@nil (list Z * Z))) with 0. by rewrite Z.add_0_r.
  - apply wp_bind. unfold httpd_register_uri_handler. cbn [negb]. apply wp_bind, wp_gets, wp_bind, wp_modify, wp_bind, wp_modify, wp_ret.
    eapply wp_conseq; [apply (IH (hs ++ [mkUrih uri cb (hw_next w)])); cbn; by rewrite Hi|]. intros _ w' ->.
    rewrite zlen_cons, (Z.add_comm (zlen l) 1), Z.add_assoc, <- app_assoc. by destruct w.
Qed.

Definition started_web w : W := w <| inst_head := [web_inst (hw_next w)] |> <| hw_next := hw_next w + 7 |>.

Lemma start_ok net_loop (Q : Z -> W -> Prop) w :
  inst_head w = [] -> wp net_loop (fun _ => Q 0) (started_web w) -> wp (start_web_failsafe true 0 net_loop) Q w.
Proof.
  intros Hi H. unfold start_web_failsafe, httpd_create_instance, httpd_find_instance. apply wp_bind, wp_gets. rewrite Hi. cbn [find_instance].
  apply wp_bind, wp_ret, wp_bind, wp_bind, wp_gets. rewrite Hi. cbn [find_instance negb Z.eqb]. apply wp_bind, wp_modify, wp_ret, wp_bind.
  eapply wp_conseq; [apply (register_ok failsafe_uris []); cbn; by rewrite Hi|]. intros _ w' ->. apply wp_bind.
  eapply wp_conseq; [|intros x w1 H1; apply wp_ret; exact H1]. by destruct w.
Qed.

(** ** Conversations *)

(** The browser sends a request, waits for the two parts of the answer and
    for the end of the connection. *)
Definition request (ds : list (list Z)) : list (tcp_cb_status * list Z) :=
  sent ds ++ [(TCP_CB_DATA_SENT, []); (TCP_CB_DATA_SENT, []); (TCP_CB_CLOSED, [])].

Context (n : Z).

(** Objects that are gone or new do not matter to a pending upload. *)
Lemma pending_ext data w w' :
  pending data w -> upload_id w' = upload_id w -> hw_user w' = hw_user w -> hw_next w <= hw_next w' ->
  hw_objs w' !! (upload_data (hw_user w)).1 = hw_objs w !! (upload_data (hw_user w)).1 -> pending data w'.
Proof. intros [H1 H2 H3 H4] E1 E2 E3 E4. constructor; rewrite E2; [by rewrite E1|by rewrite E4|done|lia]. Qed.

(** ** Upload *)

(** What is left of an upload. *)
Record uploaded (data : list Z) w w' : Prop := {
  ud_served : served (web_inst n) w';
  ud_pending : pending data w';
  ud_next : hw_next w' = hw_next w + 2;
  ud_flash : fs_flash (hw_user w') = fs_flash (hw_user w);
  ud_idle : is_uploading w' = 0;
  ud_id : upload_id w' = fs_rand (hw_rands w);
  ud_rands : hw_rands w' = Datatypes.S (hw_rands w);
  ud_ram : exists ram, hw_objs w' !! UPLOAD = Some ram
}.

Section Upload.
Context (q : post) (Hq : post_sane q) (Huri : pr_uri q = chars "/upload").
Context (filename more data tail : list Z) (Hf : form_sane (pr_boundary q) filename more data).
Local Abbreviation body := (form_body (pr_boundary q) filename more data tail).
Context (Hbody : zlen body = pr_size q).
Context (Hstack : stack_ok fs_stack) (Hbytes : Forall is_byte data) (page : list Z) (Hpage : fs_find_file (chars "upload.html") = Some page).
Context (Halloc : forall o, fs_alloc_ok o = true).
Context (c s : Z) (Hs : UPLOAD < s).

(** After [httpd_handle_request]: an answer is on its way. *)
Record answering w w' : Prop := {
  an_served : served (web_inst n) w';
  an_pending : pending data w';
  an_below : (upload_data (hw_user w')).1 = UPLOAD;
  an_next : hw_next w' = s + 2;
  an_flash : fs_flash (hw_user w') = fs_flash (hw_user w);
  an_idle : is_uploading w' = 0;
  an_id : upload_id w' = upload_id w;
  an_rands : hw_rands w' = hw_rands w;
  an_ram : exists ram, hw_objs w' !! UPLOAD = Some ram;
  an_session : exists pd o, hw_sessions w' !! s = Some pd /\ rs_status (ss_response pd) = HTTP_RESP_STD /\ ss_resp_std_cnt pd = 0 /\
    rs_data (ss_response pd) = Some (Mem (s + 1, 0)) /\ hw_objs w' !! (s + 1) = Some o /\ ss_is_uploading pd = 0 /\ ss_urih pd = Some CB_UPLOAD
}.

Lemma handle_upload_ok d ram w0 w :
  served (web_inst n) w0 -> hw_next w0 = s + 1 -> frame s w0 w -> received s q body ram w ->
  wp (httpd_handle_request true (web_inst n) (rx c s d)) (fun _ w' => answering w0 w') w.
Proof.
  intros Hsv Hn Hfr Hrv. pose proof (served_frame (web_inst n) s _ _ Hfr Hsv) as Hsv1. destruct (Hfr) as [_ Hn1 Hu1 Hid1 Hrd1 _ _]. rewrite Hn in Hn1.
  eapply (handle_post_ok s q Hq filename more data tail Hf Hbody (web_inst n) (rx c s d) CB_UPLOAD); [done|exact Hrv|by rewrite Huri|reflexivity|].
  intros pd o Hl Hresp Hurih Hform Hup Ho. destruct (Hrv) as [_ _ Hidle].
  set (o1 := parsed_ram q filename more data tail ram). set (w1 := with_session s pd (with_obj UPLOAD o1 w)).
  assert (Hfile : file_value (parsed_value q filename more data) data w1).
  { destruct (parsed_file q filename more data tail ram w) as [H1 H2 H3 H4]; [lia|]. by constructor. }
  apply wp_bind. unfold call_urih. change (CB_UPLOAD =? DUMMY_CB) with false. cbv iota.
  change (run_urih CB_UPLOAD HTTP_CB_NEW s) with (upload_handler (S := S) HTTP_CB_NEW s).
  eapply wp_conseq; [eapply (upload_new_ok s pd _ data page w1); [exact Hstack|exact Hbytes|exact (data_short q Hq filename more data tail Hbody)|exact Hpage|apply session_here|exact Hform|exact Hfile|apply Halloc|]|].
  { change (hw_next w1) with (hw_next w). assert (0 < UPLOAD) by done. lia. }
  change (hw_next w1) with (hw_next w). rewrite Hn1. intros _ w2 (rsp & page' & Hst & Hd & ->).
  set (w2 := with_obj (s + 1) page' _). assert (Ho2 : hw_objs (with_session s (pd <| ss_response := rsp |>) w2) !! s = Some o).
  { rewrite obj_session. unfold w2. rewrite obj_other by lia. change (hw_objs (with_obj UPLOAD o1 w) !! s = Some o). by rewrite obj_other by lia. }
  eapply wp_conseq; [eapply (first_std_ok s (rx c s d) _ o); [done|apply session_here|exact Ho2|exact Hl|exact Hst]|].
  intros r w3 (i & o' & cl & Hl' & ->).
  assert (Hobj : forall k, k <> s -> hw_objs (add_call cl (with_obj s o' (with_session s (pd <| ss_response := rsp |>) w2))) !! k = hw_objs w2 !! k).
  { intros k Hk. exact (obj_other s k o' w2 (not_eq_sym Hk)). }
  assert (Hram : hw_objs w2 !! UPLOAD = Some o1).
  { unfold w2. rewrite obj_other by lia. apply (obj_here UPLOAD o1 w). }
  constructor; try done.
  - destruct Hfile as [_ (a & r' & H2 & H3) H4 H5]. constructor; [done| |exact H4|].
    + exists a, r'. split; [|exact H3]. rewrite obj_session, Hobj by (cbn; lia).
      change (hw_objs w2 !! UPLOAD = Some (a ++ data ++ r')). rewrite Hram. change (hw_objs (with_obj UPLOAD o1 w) !! UPLOAD = Some (a ++ data ++ r')) in H2.
      by rewrite obj_here in H2.
    + change (UPLOAD < s + 1 + 1). lia.
  - change (s + 1 + 1 = s + 2). lia.
  - change (fs_flash (hw_user w) = fs_flash (hw_user w0)). by rewrite Hu1.
  - exists o1. by rewrite obj_session, Hobj by lia.
  - eexists _, page'. split; [apply session_here|]. split_and!; try done. rewrite obj_session, Hobj by lia. apply obj_here.
Qed.

Lemma upload_ok hds bds ram w :
  served (web_inst n) w -> hw_next w = s -> hw_objs w !! UPLOAD = Some ram -> is_uploading w = 0 ->
  concat hds = header q ++ CRLF ++ CRLF -> concat bds = body ->
  sizeof_buf <= zlen (header q) + 4 + pr_size q < 2 ^ 32 -> pr_size q < zlen ram ->
  wp (conversation c (request (hds ++ bds))) (fun _ w' => uploaded data w w') w.
Proof.
  intros Hsv Hn Hr Hi Hh Hb Hbig Hram. assert (HU : 0 < UPLOAD) by done.
  assert (Hpos : 0 < pr_size q) by (pose proof (ps_fits q Hq); lia).
  eapply wp_conversation; [exact Hsv|by rewrite Hn; apply Halloc|lia|]. unfold request. rewrite Hn, map_app, map_sent, map_app, <- app_assoc.
  eapply (upload_segments (web_inst n) c s q Hq ltac:(lia) hds bds body ram); [exact Hsv|by apply started_opened; [|lia|..]|exact Hi|exact Hh|exact Hb|exact Hbody|exact Hbig|lia|].
  intros d ram' w1 Hrv Hfr. eapply wp_conseq; [eapply (handle_upload_ok d ram' (drawn (opened c w))); [exact Hsv|cbn; lia|exact Hfr|exact Hrv]|].
  intros _ w2 [Hsv2 Hp2 Hbel Hn2 Hfl Hid Hid2 Hrd2 Hram2 (pd & o & Hs2 & Hst & Hcnt & Hd & Ho & Hup & Hcb)]. split; [exact Hsv2|].
  eapply tx_std; [exact Hsv2|exact Hs2|exact Hst|exact Hcnt|exact Hd|exact Ho|]. intros c1 c2 pd' E1 E2 E3.
  eapply tx_closed; [exact Hsv2|apply session_here|by rewrite E3|by rewrite E2|done|].
  change (run_urih CB_UPLOAD HTTP_CB_CLOSED s) with (upload_handler (S := S) HTTP_CB_CLOSED s). cbn [upload_handler].
  apply wp_bind. eapply wp_get_session; [apply session_here|]. rewrite Hpage, E1, Hd. unfold free. apply wp_modify. cbn [deliver]. apply wp_ret.
  assert (Hob : forall k, k <> s -> k <> s + 1 -> hw_objs (freed s (with_session s pd' (add_call c2 (add_call c1 w2)) <| hw_objs := delete (s + 1, 0).1
    (hw_objs (with_session s pd' (add_call c2 (add_call c1 w2)))) |>)) !! k = hw_objs w2 !! k).
  { intros k H1 H2. cbn. rewrite !lookup_delete_ne by lia. done. }
  constructor; try done.
  - apply (pending_ext data w2); [exact Hp2|done|done|done|]. rewrite Hbel. apply Hob; lia.
  - change (hw_next w2 = hw_next w + 2). lia.
  - destruct Hram2 as (r2 & Hr2). exists r2. rewrite <- Hr2. apply Hob; lia.
Qed.

End Upload.

(** ** Result *)

(** Nothing that [flash_upload] looks at changes. *)
Record same_upload (k : Z) w w' : Prop := {
  su_id : upload_id w' = upload_id w;
  su_data_id : upload_data_id (hw_user w') = upload_data_id (hw_user w);
  su_data : upload_data (hw_user w') = upload_data (hw_user w);
  su_size : fs_upload_size (hw_user w') = fs_upload_size (hw_user w);
  su_flash : fs_flash (hw_user w') = fs_flash (hw_user w);
  su_objs j : j < k -> hw_objs w' !! j = hw_objs w !! j;
  su_next : k <= hw_next w'
}.

Lemma pending_same data w w' : pending data w -> same_upload (hw_next w) w w' -> pending data w'.
Proof.
  intros [H1 H2 H3 H4] [E1 E2 E3 E4 _ E5 E6]. constructor; rewrite ?E3; [by rewrite E1, E2|by rewrite E5|by rewrite E4|lia].
Qed.

Section Result.
Context (version fs : list Z) (Hg : get_sane (chars "/result") version fs).
Context (ok bad : list Z) (Hok : fs_find_file (chars "success.html") = Some ok) (Hbad : fs_find_file (chars "fail.html") = Some bad).
Context (Halloc : forall o, fs_alloc_ok o = true).
Context (O : Z -> S -> Prop) (c s : Z) (Hs : UPLOAD < s).

(** After [httpd_handle_request]: nothing is written yet. *)
Lemma handle_result_ok d w :
  served (web_inst n) w -> hw_next w = s + 1 -> asked s (chars "/result") w ->
  wp (httpd_handle_request true (web_inst n) (rx c s d)) (fun _ w' => served (web_inst n) w' /\ same_upload s w w' /\
    fs_status (hw_user w') !! (s + 1) = Some (mkFlashing (-1) 0) /\
    hw_next w' = s + 2 /\ hw_rands w' = hw_rands w /\ is_uploading w' = is_uploading w /\
    exists pd, hw_sessions w' !! s = Some pd /\ rs_status (ss_response pd) = HTTP_RESP_CUSTOM /\ rs_session_data (ss_response pd) = s + 1 /\
      ss_is_uploading pd = 0 /\ ss_urih pd = Some CB_RESULT) w.
Proof.
  intros Hsv Hn Hak. assert (HU : 0 < UPLOAD) by done.
  eapply (handle_get_ok s (web_inst n) (rx c s d) CB_RESULT); [done|exact Hak|reflexivity|]. intros pd o Hl Hresp Hcb Hup Ho.
  apply wp_bind. unfold call_urih. change (CB_RESULT =? DUMMY_CB) with false. cbv iota.
  change (run_urih CB_RESULT HTTP_CB_NEW s) with (result_handler (S := S) HTTP_CB_NEW s).
  eapply wp_conseq; [eapply (result_new_ok s pd); [apply session_here|apply Halloc|change (0 < hw_next w); lia]|].
  change (hw_next (with_session s pd w)) with (hw_next w). rewrite Hn. intros _ w1 (rsp & o1 & Hst & Hd & Hsd & ->).
  eapply wp_conseq; [eapply (first_custom_ok s (rx c s d) _ (s + 1) o1); [done|apply session_here|exact Hst|exact Hd|apply obj_here]|].
  intros r w2 (cl & ->). split; [exact Hsv|]. split; [|split; [cbn; apply lookup_insert_eq|split; [cbn; lia|split; [done|split; [done|]]]]].
  - constructor; try done; [|cbn; lia]. intros j Hj. assert (Hne : s + 1 <> j) by lia. exact (obj_other (s + 1) j o1 w Hne).
  - eexists. split; [apply session_here|]. by split_and!.
Qed.

(** What is left of a request for the result; [O] relates the result and the
    flash. *)
Record answered w w' : Prop := {
  aw_result : exists r, O r (fs_flash (hw_user w')) /\ upgrade_success (hw_user w') = if r =? 0 then 1 else 0;
  aw_served : served (web_inst n) w';
  aw_next : hw_next w' = hw_next w + 2;
  aw_ram : hw_objs w' !! UPLOAD = hw_objs w !! UPLOAD;
  aw_idle : is_uploading w' = is_uploading w;
  aw_id : upload_id w' = upload_id w;
  aw_data_id : upload_data_id (hw_user w') = fs_rand (hw_rands w);
  aw_rands : hw_rands w' = Datatypes.S (hw_rands w)
}.

Lemma result_ok hds w :
  served (web_inst n) w -> hw_next w = s -> (exists ram, hw_objs w !! UPLOAD = Some ram) ->
  (forall w1, same_upload s w w1 -> fs_status (hw_user w1) !! (s + 1) = Some (mkFlashing (-1) 0) ->
     wp (flash_upload (s + 1)) (fun _ w' => exists r fl, O r fl /\ w' = flashed (s + 1) r fl w1) w1) ->
  concat hds = (line HTTP_GET (chars "/result") version ++ CRLF ++ fs) ++ CRLF ++ CRLF ->
  wp (conversation c (request hds)) (fun _ w' => answered w w') w.
Proof.
  intros Hsv Hn (ram & Hr) Hfl Hh. assert (HU : 0 < UPLOAD) by done.
  eapply wp_conversation; [exact Hsv|by rewrite Hn; apply Halloc|lia|]. rewrite Hn. unfold request. rewrite map_app, map_sent.
  eapply (get_segments (web_inst n) c s); [exact Hg|lia|exact Hsv|by apply (started_opened c s ram); [|lia|..]|exact Hh|].
  intros d w1 Hak (pd1 & o1 & ->).
  eapply wp_conseq; [eapply (handle_result_ok d); [exact Hsv|cbn; lia|exact Hak]|].
  intros _ w2 (Hsv2 & Hsu & Hx2 & Hn2 & Hrd2 & Hup2 & pd & Hs2 & Hst & Hsd & Hup & Hcb). split; [exact Hsv2|].
  assert (Hsu2 : same_upload s w w2).
  { destruct Hsu as [E1 E2 E3 E4 E5 E6 E7]. constructor; try done. intros j Hj. rewrite E6 by done. rewrite obj_session, obj_other by lia.
    unfold opened. rewrite Hn. assert (Hne : s <> j) by lia. exact (obj_other s j (fill 0 sizeof_buf) w Hne). }
  eapply tx_custom; [exact Hsv2|exact Hs2|exact Hst|exact Hcb|done|].
  change (run_urih CB_RESULT HTTP_CB_RESPONDING s) with (result_handler (S := S) HTTP_CB_RESPONDING s).
  eapply wp_conseq; [eapply (result_responding_ok s pd (s + 1) O ok bad); [done..|by apply Hfl]|].
  intros _ w3 (r & rsp & u & Hpost & Hst3 & Hsd3 & (t & Hd3) & Hx3 & Hid3 & ->). eexists. split; [apply session_here|].
  match goal with |- context [ss_response ?x] => change (ss_response x) with rsp end. rewrite Hst3, Hd3. change (bool_decide _) with false.
  cbv iota. cbn [load_ref]. apply wp_bind, wp_ret. unfold call. apply wp_modify.
  eapply tx_custom; [exact Hsv2|apply session_here|exact Hst3|exact Hcb|done|].
  change (run_urih CB_RESULT HTTP_CB_RESPONDING s) with (result_handler (S := S) HTTP_CB_RESPONDING s).
  eapply wp_conseq; [eapply (result_sent_ok s _ (s + 1) r); [apply session_here|exact Hsd3|exact Hx3]|].
  intros _ w4 ->. eexists. split; [apply session_here|].
  match goal with |- context [bool_decide (rs_status ?x = HTTP_RESP_NONE)] => change (rs_status x) with HTTP_RESP_NONE end.
  change (bool_decide _) with true. cbv iota. unfold call. apply wp_bind, wp_modify. eapply wp_set_session; [apply session_here|].
  eapply tx_closed; [exact Hsv2|apply session_here|exact Hup|exact Hcb|done|].
  change (run_urih CB_RESULT HTTP_CB_CLOSED s) with (result_handler (S := S) HTTP_CB_CLOSED s).
  eapply wp_conseq; [eapply (result_closed_ok s _ (s + 1) (mkFlashing r 1)); [apply session_here|exact Hsd3|exact Hx3]|].
  intros _ w5 (calls & ->). cbn [deliver]. apply wp_ret. constructor; try done.
  - exists r. split; [exact Hpost|done].
  - cbn. lia.
  - cbn. rewrite !lookup_delete_ne by lia. apply (su_objs _ _ _ Hsu2). lia.
  - exact (su_id _ _ _ Hsu2).
  - cbn. rewrite Hid3. by rewrite Hrd2.
  - cbn. by rewrite Hrd2.
Qed.

End Result.

End FailsafeRun.
