(* ===== verification/HttpProps.v ===== *)
(** * The web server: theorems

    An upload reaches the flash unchanged, only one upload at a time is
    accepted, nothing is written without a pending upload, and requests that
    go wrong; the runs they are applied to. *)

From stdpp Require Import base numbers list strings gmap option.
From Stdlib Require Import ZArith Lia.
From S2P Require Import Prelude NmbmTypes NetWire Tcp Flash MtdWorks Strto Upgrade UpgradeSpec BoardRun Md5 Md5Spec CStr Http HttpMem HttpForm HttpRecv HttpHandle HttpEvents Failsafe FailsafeSpec FailsafeRun.

(** ** Runs

    A browser that uploads firmware and asks for the result, and requests that
    show how the server fails. *)

(** ** The server *)

#[global] Instance web_env : failsafe_env := {|
  fs_files := [(chars "index.html", chars "<html>"); (chars "upload.html", fill 88 32 ++ chars " " ++ fill 89 10);
               (chars "success.html", chars "ok"); (chars "fail.html", chars "failed"); (chars "404.html", chars "?")];
  fs_stack := mkMd5 [] 0 0 (fill 0 64);
  fs_rand n := 1000 + Z.of_nat n;
  fs_alloc_ok _ := true
|}.

Definition web_ram : list Z := fill 0 6000.

Definition web_start : httpd_world (failsafe (Z -> Z)) :=
  mkHttpd [] 0 (2 ^ 32 - 1) {[UPLOAD := web_ram]} ∅ 2 0 [] (mkFailsafe 0 (0, 0) 0 0 ∅ blank_nand).

(** ** The browser *)

Definition firmware : list Z := map (fun i => Z.of_nat i * 7 mod 256) (List.seq 0 5000).
Definition web_boundary : list Z := chars "----WebKitForm".
Definition web_more : list Z := CRLF ++ chars "Content-Type: application/octet-stream".

Definition web_form (data : list Z) : list Z := form_body web_boundary (chars "fw.bin") web_more data (45 :: CRLF).

Definition web_post (n : Z) : post :=
  mkPost (chars "/upload") (chars "HTTP/1.1") (chars "Host: 192.168.1.1" ++ CRLF) n [] (chars "multipart/form-data; ") web_boundary [].

Definition web_body : list Z := web_form firmware.
Definition web_upload : post := web_post (zlen web_body).
Definition web_header (n : Z) : list Z := header (web_post n) ++ CRLF ++ CRLF.

Definition web_fields : list Z := chars "Host: 192.168.1.1".
Definition web_result : list Z := (line HTTP_GET (chars "/result") (chars "HTTP/1.1") ++ CRLF ++ web_fields) ++ CRLF ++ CRLF.

(** In segments. *)
Definition header_parts : list (list Z) := [take 30 (web_header (zlen web_body)); drop 30 (web_header (zlen web_body))].
Definition body_parts : list (list Z) := [take 1460 web_body; drop 1460 web_body].
Definition result_parts : list (list Z) := [web_result].

(** ** Facts about them *)

Ltac in_list := apply (bool_decide_unpack _); vm_compute; exact I.

Lemma web_post_sane : post_sane web_upload.
Proof.
  constructor; try (apply textb_text; vm_compute; reflexivity); try (vm_compute; reflexivity).
  - split; in_list.
  - in_list.
  - in_list.
  - vm_compute. discriminate.
  - by left.
  - split; vm_compute; congruence.
Qed.

Lemma web_form_sane : form_sane web_boundary (chars "fw.bin") web_more firmware.
Proof. constructor; try (apply textb_text; vm_compute; reflexivity); try (vm_compute; reflexivity). in_list. Qed.

Lemma web_result_sane : get_sane (chars "/result") (chars "HTTP/1.1") web_fields.
Proof.
  constructor; try (apply textb_text; vm_compute; reflexivity); try (vm_compute; reflexivity).
  - split; in_list.
  - in_list.
Qed.

Lemma firmware_bytes : Forall is_byte firmware.
Proof. apply Forall_map, Forall_forall. intros i _. unfold is_byte. apply Z.mod_pos_bound. lia. Qed.

(** ** Requests that go wrong *)

(** The world after a run, and what is in its RAM region. *)
Definition after (evs : list (tcp_cb_status * list Z)) : res (httpd_world (failsafe (Z -> Z))) (Z * bool) :=
  do_httpd true 0 (conversation 7 evs) web_start.

Definition ram_after (evs : list (tcp_cb_status * list Z)) (n : nat) : option (list Z) :=
  match after evs with Ret _ w => take n <$> hw_objs w !! UPLOAD | _ => None end.

Definition calls_after (evs : list (tcp_cb_status * list Z)) : option (list tcp_call) :=
  match after evs with Ret _ w => Some (hw_calls w) | _ => None end.

(** The header and the start of the payload in one segment. *)
Definition mixed_parts : list (list Z) := [web_header (zlen web_body) ++ take 100 web_body; drop 100 web_body].

(** A length that is almost 2^32. *)
Definition long_parts : list (list Z) := [web_header (2 ^ 32 - 1); fill 65 4000].

(** A small file, which stays in the buffer of the session. *)
Definition small_parts : list (list Z) := [web_header (zlen (web_form [1; 2; 3])); web_form [1; 2; 3]].

(** A world in which the handler of [/upload] looks at a form value. *)
Definition page_world : httpd_world (failsafe (Z -> Z)) :=
  let page := fill 88 32 ++ chars " " ++ fill 89 10 in
  mkHttpd [] 0 (2 ^ 32 - 1) {[UPLOAD := chars "firmware" ++ 0 :: chars "abc"]}
    {[9 := zero_pdata <| ss_response := mkResponse HTTP_RESP_STD zero_info (Some (Lit page)) 43 0 |>]} 10 0 []
    (mkFailsafe 0 (0, 0) 0 0 ∅ blank_nand).

Definition page_value : httpd_form_value := mkForm (Some (UPLOAD, 0)) (UPLOAD, 9) None 3.

(** ** From the browser to the flash *)

(** The pages the server has, and memory for its buffers. *)
Record pages_ready {FE : failsafe_env} : Prop := {
  pg_upload : exists page, fs_find_file (chars "upload.html") = Some page;
  pg_success : exists page, fs_find_file (chars "success.html") = Some page;
  pg_fail : exists page, fs_find_file (chars "fail.html") = Some page;
  pg_stack : stack_ok fs_stack;
  pg_alloc o : fs_alloc_ok o = true
}.
Arguments pages_ready : clear implicits.

(** The server has just been switched on. *)
Record idle_server {S} (ram : list Z) (w : httpd_world (failsafe S)) : Prop := {
  id_insts : inst_head w = [];
  id_uploading : is_uploading w = 0;
  id_ram : hw_objs w !! UPLOAD = Some ram;
  id_next : UPLOAD < hw_next w
}.

(** The server runs, its handlers at the addresses from [n] on, and no upload is
    on its way. *)
Record ready_server {S} {F : flash_helper S} {U : upgrade_env S} {FE : failsafe_env} (n : Z) (ram : list Z) (w : httpd_world (failsafe S)) : Prop := {
  rs_served : served (web_inst n) w;
  rs_uploading : is_uploading w = 0;
  rs_ram : hw_objs w !! UPLOAD = Some ram;
  rs_next : UPLOAD < hw_next w
}.

Lemma idle_ready {S} {F : flash_helper S} {U : upgrade_env S} {FE : failsafe_env} ram (w : httpd_world (failsafe S)) :
  idle_server ram w -> ready_server (hw_next w) ram (started_web w).
Proof. intros [Hi Hu Hr Hn]. constructor; [done|done|done|cbn; lia]. Qed.

(** A request for [/result] with the fields [fs], in segments. *)
Record result_request (version fs : list Z) (rds : list (list Z)) : Prop := {
  rr_get : get_sane (chars "/result") version fs;
  rr_segments : concat rds = (line HTTP_GET (chars "/result") version ++ CRLF ++ fs) ++ CRLF ++ CRLF
}.

(** What the browser posts to [/upload]: a firmware file [data], the header in
    the segments [hds] and the payload in the segments [bds]. *)
Record upload_request (ram : list Z) (q : post) (filename more data tail : list Z) (hds bds : list (list Z)) : Prop := {
  ur_post : post_sane q;
  ur_uri : pr_uri q = chars "/upload";
  ur_form : form_sane (pr_boundary q) filename more data;
  ur_size : zlen (form_body (pr_boundary q) filename more data tail) = pr_size q;
  ur_ram : pr_size q < zlen ram;
  ur_nonempty : 0 < zlen data;
  ur_bytes : Forall is_byte data;
  ur_header : concat hds = header q ++ CRLF ++ CRLF;
  ur_body : concat bds = form_body (pr_boundary q) filename more data tail
}.

(** The request does not fit into the buffer of the session, so that its payload
    goes to the RAM region. *)
Definition large_upload (q : post) : Prop := sizeof_buf <= zlen (header q) + 4 + pr_size q < 2 ^ 32.

Section Dialogue.
Context {S : Type} {F : flash_helper S} {V : flash_view S} {FL : flash_laws F V} {U : upgrade_env S} {FE : failsafe_env} (HP : pages_ready FE).
Implicit Types w : httpd_world (failsafe S).

Lemma upload_request_ok n q filename more data tail hds bds c ram w :
  ready_server n ram w -> upload_request ram q filename more data tail hds bds -> large_upload q ->
  wp (conversation c (request (hds ++ bds))) (fun _ w' => uploaded n data w w') w.
Proof.
  destruct HP as [[page Hpage] _ _ Hst Hal]. intros [Hsv Hup Hr Hn] [Hq Hu Hf Hb Hram _ Hby Eh Eb] Hbig.
  eapply (upload_ok n q Hq Hu filename more data tail Hf Hb Hst Hby page Hpage Hal c (hw_next w)); try done; lia.
Qed.

(** The result of an upload that is in memory. *)
Lemma result_pending_ok n version fs rds data po ps c ram w :
  ready_server n ram w -> pending data w -> flash_ready po ps (fs_flash (hw_user w)) -> 0 < zlen data -> Forall is_byte data ->
  result_request version fs rds ->
  wp (conversation c (request rds))
    (fun _ w' => answered n (firmware_post (fs_flash (hw_user w)) po ps data (zlen data)) w w') w.
Proof.
  destruct HP as [_ [ok Hok] [bad Hbad] _ Hal]. intros [Hsv Hup Hr Hn] Hp Hfl Hpos Hby [Hg Er].
  eapply (result_ok n version fs Hg ok bad Hok Hbad Hal _ c (hw_next w)); try done; [by exists ram|].
  intros w1 Hsu Hx. rewrite <- (su_flash _ _ _ Hsu) in Hfl |- *. apply flash_upload_ok; try done. by eapply pending_same.
Qed.

(** The result when there is none. *)
Lemma result_stale_ok n version fs rds c ram w :
  ready_server n ram w -> upload_data_id (hw_user w) <> upload_id w -> result_request version fs rds ->
  wp (conversation c (request rds)) (fun _ w' => answered n (fun r fl => r = -1 /\ fl = fs_flash (hw_user w)) w w') w.
Proof.
  destruct HP as [_ [ok Hok] [bad Hbad] _ Hal]. intros [Hsv Hup Hr Hn] Hne [Hg Er].
  eapply (result_ok n version fs Hg ok bad Hok Hbad Hal _ c (hw_next w)); try done; [by exists ram|].
  intros w1 Hsu Hx. eapply wp_conseq; [apply flash_stale_ok; [|exact Hx]|].
  - by rewrite (su_data_id _ _ _ Hsu), (su_id _ _ _ Hsu).
  - intros _ w2 (r' & fl & [-> ->] & ->). eexists _, _. split; [split; [done|exact (su_flash _ _ _ Hsu)]|done].
Qed.

Lemma uploaded_ready n data ram w w' : ready_server n ram w -> uploaded n data w w' -> exists ram', ready_server n ram' w'.
Proof. intros [_ _ _ Hn] [Hsv _ Hn' _ Hi _ _ (ram' & Hr)]. exists ram'. constructor; [done|done|done|lia]. Qed.

Lemma answered_ready n O ram w w' : ready_server n ram w -> answered n O w w' -> ready_server n ram w'.
Proof. intros [_ Hi Hr Hn] [_ Hsv Hn' Hr' Hi' _ _ _]. constructor; [done|congruence|congruence|lia]. Qed.

(** The two conversations. *)
Lemma upload_result_ok n q filename more data tail version fs hds bds rds po ps c1 c2 ram w :
  ready_server n ram w -> flash_ready po ps (fs_flash (hw_user w)) ->
  upload_request ram q filename more data tail hds bds -> large_upload q -> result_request version fs rds ->
  wp (conversation c1 (request (hds ++ bds))) (fun _ w1 => uploaded n data w w1 /\
    wp (conversation c2 (request rds)) (fun _ w' => (exists ram', ready_server n ram' w') /\
      answered n (firmware_post (fs_flash (hw_user w)) po ps data (zlen data)) w1 w') w1) w.
Proof.
  intros Hw Hfl Hur Hbig Hrr. destruct (Hur) as [_ _ _ _ _ Hpos Hby _ _].
  eapply wp_conseq; [by apply (upload_request_ok n q filename more data tail hds bds c1 ram w)|]. intros [] w1 Hud. split; [done|].
  destruct (uploaded_ready _ _ _ _ _ Hw Hud) as (ram1 & Hw1). pose proof (ud_pending _ _ _ _ Hud) as Hp.
  pose proof (ud_flash _ _ _ _ Hud) as Hf1. rewrite <- Hf1 in Hfl |- *.
  eapply wp_conseq; [by apply (result_pending_ok n version fs rds data po ps c2 ram1 w1)|]. intros [] w2 Ha. split; [exists ram1; by eapply answered_ready|done].
Qed.

(** More requests for the result, each on its own connection. *)
Fixpoint ask_again (cs : list (Z * list (list Z))) : M (httpd_world (failsafe S)) unit :=
  match cs with
  | [] => ret tt
  | (c, rds) :: cs => conversation c (request rds);; ask_again cs
  end.

(** They leave the flash alone as long as the numbers that invalidate the last
    upload are not its own. *)
Lemma ask_again_ok n version fs cs ram w :
  ready_server n ram w -> upload_data_id (hw_user w) <> upload_id w ->
  (forall k, (k < length cs)%nat -> fs_rand (hw_rands w + k) <> upload_id w) ->
  Forall (fun x => result_request version fs x.2) cs ->
  wp (ask_again cs) (fun _ w' => fs_flash (hw_user w') = fs_flash (hw_user w)) w.
Proof.
  revert w. induction cs as [|[c rds] cs IH]; intros w Hw Hne Hr Hcs; [by apply wp_ret|].
  destruct (Forall_cons_1 _ _ _ Hcs) as [Hrr Hcs']. cbn [ask_again]. apply wp_bind.
  eapply wp_conseq; [by apply (result_stale_ok n version fs rds c ram w)|]. intros [] w1 Ha.
  destruct (Ha) as [(r & [_ Hfl] & _) _ _ _ _ Hid Hdid Hrd].
  eapply wp_conseq; [apply (IH w1); [by eapply answered_ready|..|exact Hcs']|].
  - rewrite Hdid, Hid. specialize (Hr 0%nat). rewrite Nat.add_0_r in Hr. apply Hr. cbn. lia.
  - intros k Hk. rewrite Hid, Hrd. replace (Datatypes.S (hw_rands w) + k)%nat with (hw_rands w + Datatypes.S k)%nat by lia.
    apply Hr. cbn. lia.
  - intros _ w2 ->. exact Hfl.
Qed.

End Dialogue.

(** C5 Recovery: the server is started, a browser posts a firmware file to
    [/upload] and asks for [/result].  The TCP stack may cut header, payload and
    the second request into segments in any way, but no segment has the end of
    the header and the start of the payload; header and payload together have
    at least 4096 bytes.  Then everything returns, the flash is written with
    exactly the bytes of the file as [write_firmware] promises it, and the board
    is reset exactly if the write was successful. *)
Theorem failsafe_upload_flashes {S} {F : flash_helper S} {V : flash_view S} {FL : flash_laws F V} {U : upgrade_env S} {FE : failsafe_env}
    q filename more data tail version fs hds bds rds po ps c1 c2 ram (w : httpd_world (failsafe S)) :
  pages_ready FE -> idle_server ram w -> flash_ready po ps (fs_flash (hw_user w)) ->
  upload_request ram q filename more data tail hds bds -> sizeof_buf <= zlen (header q) + 4 + pr_size q < 2 ^ 32 ->
  result_request version fs rds ->
  wp (do_httpd true 0 (conversation c1 (request (hds ++ bds));; conversation c2 (request rds))) (fun x w' => exists r,
    firmware_post (fs_flash (hw_user w)) po ps data (zlen data) r (fs_flash (hw_user w')) /\ x = (0, r =? 0)) w.
Proof.
  intros Hp Hi Hfl Hur Hbig Hrr. unfold do_httpd. apply wp_bind, start_ok; [apply Hi|]. apply wp_bind.
  eapply wp_conseq; [eapply (upload_result_ok Hp); [by apply idle_ready|exact Hfl|exact Hur|exact Hbig|exact Hrr]|].
  intros _ w1 [_ Hw]. eapply wp_conseq; [exact Hw|].
  intros _ w' [_ [(r & Hpost & Hok) _ _ _ _ _ _ _]]. apply wp_bind, wp_gets, wp_ret. exists r. split; [exact Hpost|]. rewrite Hok. by destruct (r =? 0).
Qed.

Lemma web_pages : pages_ready web_env.
Proof. constructor; try by eexists. split; [done|]. apply Forall_replicate. unfold is_byte. lia. Qed.

Lemma web_idle : idle_server web_ram web_start.
Proof. by constructor. Qed.

Lemma nand_ready : flash_ready 0x180000 0x2800000 blank_nand.
Proof.
  constructor; [exact blank_nand_usable|done|lia|by vm_compute| |done].
  intros off sz Eq. vm_compute in Eq. injection Eq as <- <-. lia.
Qed.

Lemma web_upload_request bds : concat bds = web_body ->
  upload_request web_ram web_upload (chars "fw.bin") web_more firmware (45 :: CRLF) header_parts bds.
Proof.
  intros Hb. constructor; try (vm_compute; reflexivity).
  - exact web_post_sane.
  - exact web_form_sane.
  - exact firmware_bytes.
  - exact Hb.
Qed.

Lemma web_upload_large : sizeof_buf <= zlen (header web_upload) + 4 + pr_size web_upload < 2 ^ 32.
Proof. vm_compute. split; congruence. Qed.

Lemma web_result_request : result_request (chars "HTTP/1.1") web_fields result_parts.
Proof. split; [exact web_result_sane|vm_compute; reflexivity]. Qed.

Lemma failsafe_upload_flashes_witness :
  wp (do_httpd true 0 (conversation 7 (request (header_parts ++ body_parts));; conversation 8 (request result_parts))) (fun x w' => exists r,
    firmware_post blank_nand 0x180000 0x2800000 firmware (zlen firmware) r (fs_flash (hw_user w')) /\ x = (0, r =? 0)) web_start.
Proof.
  apply (failsafe_upload_flashes web_upload (chars "fw.bin") web_more firmware (45 :: CRLF) (chars "HTTP/1.1") web_fields
    header_parts body_parts result_parts 0x180000 0x2800000 7 8 web_ram web_start).
  - exact web_pages.
  - exact web_idle.
  - exact nand_ready.
  - apply web_upload_request. vm_compute. reflexivity.
  - exact web_upload_large.
  - exact web_result_request.
Defined.

(** C25 [/result] writes an upload only once.  Asked for [/result] as often as
    one likes, a server that has just been switched on and has seen no upload
    writes nothing.  And after an upload has been written by a first request,
    further requests leave the flash as the first one left it, as long as the
    random numbers that are drawn to invalidate the upload are not the number
    of the upload. *)
Theorem stale_result_writes_nothing {S} {F : flash_helper S} {V : flash_view S} {FL : flash_laws F V} {U : upgrade_env S} {FE : failsafe_env}
    q filename more data tail version fs hds bds rds po ps c1 c2 cs ram (w : httpd_world (failsafe S)) :
  pages_ready FE -> idle_server ram w -> upload_id w = 2 ^ 32 - 1 -> upload_data_id (hw_user w) = 0 ->
  Forall (fun x => result_request version fs x.2) cs ->
  ((forall k, (k < length cs)%nat -> fs_rand (hw_rands w + k) <> 2 ^ 32 - 1) ->
   wp (ask_again cs) (fun _ w' => fs_flash (hw_user w') = fs_flash (hw_user w)) (started_web w)) /\
  (flash_ready po ps (fs_flash (hw_user w)) -> upload_request ram q filename more data tail hds bds ->
   sizeof_buf <= zlen (header q) + 4 + pr_size q < 2 ^ 32 -> result_request version fs rds ->
   (forall k, (1 <= k <= Datatypes.S (length cs))%nat -> fs_rand (hw_rands w + k) <> fs_rand (hw_rands w)) ->
   wp (conversation c1 (request (hds ++ bds));; conversation c2 (request rds)) (fun _ w1 =>
     (exists r, firmware_post (fs_flash (hw_user w)) po ps data (zlen data) r (fs_flash (hw_user w1))) /\
     wp (ask_again cs) (fun _ w' => fs_flash (hw_user w') = fs_flash (hw_user w1)) w1) (started_web w)).
Proof.
  intros Hp Hi Hid Hdid Hcs. pose proof (idle_ready ram w Hi) as Hw. split.
  - intros Hr. apply (ask_again_ok Hp (hw_next w) version fs cs ram (started_web w)); [exact Hw| | |exact Hcs]; cbn; rewrite ?Hid, ?Hdid; [lia|exact Hr].
  - intros Hfl Hur Hbig Hrr Hr. apply wp_bind.
    eapply wp_conseq; [eapply (upload_result_ok Hp); [exact Hw|exact Hfl|exact Hur|exact Hbig|exact Hrr]|].
    intros _ w1 [[_ _ _ _ _ Hid1 Hrd1 _] Hres]. eapply wp_conseq; [exact Hres|].
    intros _ w2 [[ram' Hw2] [(r & Hpost & _) _ _ _ _ Hid2 Hdid2 Hrd2]]. split; [by exists r|].
    cbn in Hid1, Hrd1. eapply (ask_again_ok Hp); [exact Hw2| | |exact Hcs]; rewrite ?Hdid2, ?Hid2, ?Hrd2, ?Hid1, ?Hrd1.
    + specialize (Hr 1%nat). rewrite Nat.add_1_r in Hr. apply Hr. lia.
    + intros k Hk. replace (Datatypes.S (Datatypes.S (hw_rands w)) + k)%nat with (hw_rands w + Datatypes.S (Datatypes.S k))%nat by lia.
      apply Hr. lia.
Qed.

Lemma stale_result_writes_nothing_witness :
  let cs := [(8, result_parts); (9, result_parts)] in
  wp (ask_again cs) (fun _ w' => fs_flash (hw_user w') = blank_nand) (started_web web_start) /\
  wp (conversation 6 (request (header_parts ++ body_parts));; conversation 7 (request result_parts)) (fun _ w1 =>
    (exists r, firmware_post blank_nand 0x180000 0x2800000 firmware (zlen firmware) r (fs_flash (hw_user w1))) /\
    wp (ask_again cs) (fun _ w' => fs_flash (hw_user w') = fs_flash (hw_user w1)) w1) (started_web web_start).
Proof.
  destruct (stale_result_writes_nothing web_upload (chars "fw.bin") web_more firmware (45 :: CRLF) (chars "HTTP/1.1") web_fields
    header_parts body_parts result_parts 0x180000 0x2800000 6 7 [(8, result_parts); (9, result_parts)] web_ram web_start) as [H1 H2].
  - exact web_pages.
  - exact web_idle.
  - reflexivity.
  - reflexivity.
  - repeat (constructor; [exact web_result_request|]). constructor.
  - split.
    + apply H1. intros k Hk. change (1000 + Z.of_nat k <> 2 ^ 32 - 1). change (k < 2)%nat in Hk. lia.
    + apply H2.
      * exact nand_ready.
      * apply web_upload_request. vm_compute. reflexivity.
      * exact web_upload_large.
      * exact web_result_request.
      * intros k Hk. change (1000 + Z.of_nat k <> 1000). lia.
Defined.



(** ** The page *)

(** C26 The page the server answers an upload with shows the MD5 digest, as RFC
    1321 defines it, and the size of exactly the file that will be written, in
    the places the page has for them, and is otherwise the page as it was. *)
Theorem upload_page_shows_digest {S} {F : flash_helper S} {U : upgrade_env S} {FE : failsafe_env} s pd v data a b c (w : httpd_world (failsafe S)) :
  let page := a ++ fill 88 32 ++ b ++ fill 89 10 ++ c in
  text page -> find_sub (fill 88 32) page = Some (length a) -> find_sub (fill 89 10) page = Some (length (a ++ fill 88 32 ++ b)) ->
  stack_ok fs_stack -> Forall is_byte data -> zlen data < 2 ^ 32 -> hw_sessions w !! s = Some pd -> rs_data (ss_response pd) = Some (Lit page) ->
  rs_size (ss_response pd) = zlen page -> file_value v data w -> fs_alloc_ok (hw_next w) = true -> 0 < hw_next w ->
  wp (upload_page s v) (fun _ w' =>
    w' = with_session s (pd <| ss_response := (ss_response pd) <| rs_data := Some (Mem (hw_next w, 0)) |> |>)
           (with_obj (hw_next w) ((a ++ hex_text (Rfc1321.digest data) ++ b ++ size_text (zlen data) ++ c) ++ [0])
              (w <| hw_next := hw_next w + 1 |>))) w.
Proof. apply upload_page_shows. Qed.

Lemma page_file : file_value page_value (chars "abc") page_world.
Proof.
  constructor; [| |done|done].
  - exists (UPLOAD, 0), [], (chars "abc"). by split_and!.
  - exists (chars "firmware" ++ [0]), []. by split_and!.
Qed.

Lemma upload_page_shows_digest_witness :
  hex_text (Rfc1321.digest (chars "abc")) = chars "900150983cd24fb0d6963f7d28e17f72" /\
  wp (upload_page 9 page_value) (fun _ w' => exists pd,
    w' = with_session 9 pd (with_obj 10 (([] ++ hex_text (Rfc1321.digest (chars "abc")) ++ chars " " ++ size_text 3 ++ []) ++ [0])
           (page_world <| hw_next := 11 |>))) page_world.
Proof.
  split; [vm_compute; reflexivity|].
  eapply wp_conseq; [apply (upload_page_shows_digest 9 (zero_pdata <| ss_response :=
    mkResponse HTTP_RESP_STD zero_info (Some (Lit (fill 88 32 ++ chars " " ++ fill 89 10))) 43 0 |>) page_value (chars "abc") [] (chars " ") [] page_world)|].
  - apply textb_text. vm_compute. reflexivity.
  - vm_compute. reflexivity.
  - vm_compute. reflexivity.
  - apply web_pages.
  - repeat (constructor; [vm_compute; split; congruence|]). constructor.
  - vm_compute. reflexivity.
  - reflexivity.
  - reflexivity.
  - reflexivity.
  - exact page_file.
  - reflexivity.
  - vm_compute. reflexivity.
  - intros _ w' ->. eexists. reflexivity.
Defined.

(** ** MD5 *)

(** C23 A message that is passed to [MD5Update] in any number of pieces of any
    size gets the digest of RFC 1321, and the context is cleared. *)
Theorem md5_is_rfc1321 stack pieces :
  stack_ok stack -> Forall (fun d => Forall is_byte d /\ zlen d < 2 ^ 32) pieces ->
  (ctx ← MD5Updates (MD5Init stack) pieces; MD5Final ctx) = Some (Rfc1321.digest (concat pieces), mkMd5 [0; 0; 0; 0] 0 0 (fill 0 64)).
Proof.
  intros [Hl Hb] Hp. destruct (MD5Updates_ok [] (MD5Init stack) pieces) as (ctx & -> & Ha); [by apply MD5Init_ok|done|].
  cbn [mbind option_bind]. by apply MD5Final_ok.
Qed.

Lemma md5_is_rfc1321_witness :
  (ctx ← MD5Updates (MD5Init (mkMd5 [] 0 0 (fill 7 64))) [fill 97 70; fill 98 3; fill 99 60]; MD5Final ctx) =
  Some (Rfc1321.digest (concat [fill 97 70; fill 98 3; fill 99 60]), mkMd5 [0; 0; 0; 0] 0 0 (fill 0 64)).
Proof.
  apply md5_is_rfc1321.
  - split; [reflexivity|]. apply Forall_replicate. vm_compute. split; congruence.
  - repeat (constructor; [split; [apply Forall_replicate; vm_compute; split; congruence|vm_compute; reflexivity]|]). constructor.
Defined.

(** [md5_wd] computes the same digest whatever the size of the chunks
    between two resets of the watchdog is. *)
Theorem md5_wd_correct watchdog stack d extra chunk_sz :
  stack_ok stack -> Forall is_byte d -> zlen d < 2 ^ 31 -> 0 < chunk_sz < 2 ^ 32 ->
  md5_wd watchdog stack (d ++ extra) (zlen d) chunk_sz = Some (Rfc1321.digest d).
Proof. apply md5_wd_ok. Qed.

Lemma md5_wd_correct_witness :
  md5_wd true (mkMd5 [] 0 0 (fill 7 64)) (fill 97 150 ++ []) (zlen (fill 97 150)) 7 = Some (Rfc1321.digest (fill 97 150)).
Proof.
  apply md5_wd_correct.
  - split; [reflexivity|]. apply Forall_replicate. vm_compute. split; congruence.
  - apply Forall_replicate. vm_compute. split; congruence.
  - vm_compute. reflexivity.
  - lia.
Defined.

(** Chunks of no size never end. *)
Theorem md5_wd_zero_hangs fuel ctx d : 0 < zlen d < 2 ^ 31 -> absorbed [] ctx -> md5_wd_chunks fuel ctx d (zlen d) 0 = None.
Proof.
  revert ctx. induction fuel as [|fuel IH]; intros ctx Hd Ha; [done|]. cbn [md5_wd_chunks].
  destruct (Z.ltb_spec 0 (zlen d)); [|lia]. rewrite u32_small by lia. destruct (Z.ltb_spec 0 (zlen d)); [|lia].
  change (i32 0) with 0. change (u32 0) with (zlen (@nil Z)). destruct (MD5Update_ok [] ctx [] d Ha) as (ctx1 & E & Ha1); [constructor|done|].
  change ([] ++ d) with d in E. rewrite E. cbn [mbind option_bind]. change (drop (Z.to_nat (zlen (@nil Z))) d) with d. rewrite Z.sub_0_r. by apply IH.
Qed.

(** ** Requests that go wrong *)

(** When the segment that completes the header also carries the start of the
    payload, the whole segment is copied again: the RAM region has the header
    behind the start of the payload, and a correct upload fails. *)
Theorem httpd_payload_counted_twice :
  ram_after (sent mixed_parts) 200 = Some (take 100 web_body ++ take 100 (web_header (zlen web_body))) /\
  calls_after (sent mixed_parts) = Some [CallSetPdata 7 9; CallClose 7 0].
Proof. vm_compute. split; reflexivity. Qed.

(** C38 A [Content-Length] near 2^32 passes the test for small requests, because
    the sum with the size of the header wraps, and the payload is written
    beyond the 4 KiB buffer of the session. *)
Theorem httpd_content_length_wraps :
  after (sent (take 1 long_parts)) <> Stuck /\ after (sent long_parts) = Stuck.
Proof. split; [vm_compute; congruence|vm_compute; reflexivity]. Qed.

(** A small upload is still referred to after its session is gone. *)
Theorem failsafe_small_upload_freed :
  after (request small_parts) <> Stuck /\
  do_httpd true 0 (conversation 7 (request small_parts);; conversation 8 (request result_parts)) web_start = Stuck.
Proof. split; [vm_compute; congruence|vm_compute; reflexivity]. Qed.

(** A small upload while another one is running ends the protection of the RAM
    region: a third one is accepted, and both write to the region. *)
Theorem httpd_small_upload_unlocks :
  match do_httpd true 0 (conversation 7 (sent (header_parts ++ take 1 body_parts));; conversation 8 (sent small_parts)) web_start with
  | Ret _ w => is_uploading w = 0 /\ (ss_status <$> hw_sessions w !! 9) = Some HTTPD_S_PAYLOAD_RECVING
  | _ => False
  end /\
  match do_httpd true 0 (conversation 7 (sent (header_parts ++ take 1 body_parts));; conversation 8 (sent small_parts);;
                         conversation 10 (sent header_parts)) web_start with
  | Ret _ w => is_uploading w = 1 /\ (CallClose 10 1 ∈ hw_calls w -> False)
  | _ => False
  end.
Proof.
  split; [vm_compute; split; reflexivity|]. vm_compute. split; [reflexivity|]. intros H.
  repeat (apply elem_of_cons in H as [H|H]; [discriminate H|]). by apply elem_of_nil in H.
Qed.
