(* ===== verification/WebStack.v ===== *)
(** * The web server on the TCP stack

    The callback of net/httpd.c as the application of net/tcp.c: the server's
    calls are made on the stack, and the stack's callbacks are all that
    changes the server. *)

From stdpp Require Import base numbers list strings gmap option relations.
From Stdlib Require Import ZArith Lia.
From S2P Require Import Prelude NetWire Tcp TcpHistory Net NetSpec Strto CStr Http HttpEvents Flash Upgrade Failsafe.

(** ** Composition *)

Section Stack.
Context {B : Type} {H : http_env B}.
Local Abbreviation W := (tcp_world (httpd_world B)).

(** The calls of the server.  They do not look at its state, and it does not
    look at their results, so that they can be made when its callback is
    done; memory that is being sent is not changed before it is acknowledged. *)
Definition perform (E : tcp_env (httpd_world B)) (k : tcp_call) : M W unit :=
  match k with
  | CallSend c d n => tcp_send_data c d n;; ret tt
  | CallClose c rst => tcp_close_conn c rst;; ret tt
  | CallSetPdata c p => tcp_conn_set_pdata c p;; ret tt
  | CallCloseAll => tcp_close_all_conn
  | CallListenStop p => tcp_listen_stop p;; ret tt
  end.

Fixpoint perform_all (E : tcp_env (httpd_world B)) (l : list tcp_call) : M W unit :=
  match l with
  | [] => ret tt
  | k :: l => perform E k;; perform_all E l
  end.

(** [httpd_tcp_callback] in the state of both. *)
Definition httpd_cb (E : tcp_env (httpd_world B)) (cbd : tcb_cb_data) : M W tcb_cb_data := fun w =>
  match httpd_tcp_callback true cbd (app w) with
  | Ret cbd' a => (perform_all E (drop (length (hw_calls (app w))) (hw_calls a));; ret cbd') (w <| app := a |>)
  | Stuck => Stuck
  | NoFuel => NoFuel
  end.

(** The stack of [E] with the web server as its only application. *)
Definition web_tcp (E : tcp_env (httpd_world B)) : tcp_env (httpd_world B) :=
  mkEnv (net_ip (tcp_env := E)) (net_netmask (tcp_env := E)) (net_gateway (tcp_env := E)) (net_ethaddr (tcp_env := E))
    (net_our_vlan (tcp_env := E)) (clock (tcp_env := E)) (malloc_ok (tcp_env := E)) (eth_send_rc (tcp_env := E)) (fun _ => httpd_cb E).

(** The state a callback leaves. *)
Definition httpd_state (_ : Z) (cbd : tcb_cb_data) (a : httpd_world B) : option (httpd_world B) :=
  match httpd_tcp_callback true cbd a with Ret _ a' => Some a' | _ => None end.

Lemma ignore_quiet {X} (m : M W X) : within quiet m -> within quiet (m;; ret tt).
Proof. intros Hm. apply within_bind; [exact _|done|]. intros _. apply within_ret, _. Qed.

Lemma perform_quiet E k : within quiet (perform E k).
Proof.
  destruct k; [apply ignore_quiet, tcp_send_data_quiet|apply ignore_quiet, tcp_close_conn_quiet|
    apply ignore_quiet, tcp_conn_set_pdata_quiet|apply tcp_close_all_conn_quiet|apply ignore_quiet, tcp_listen_stop_quiet].
Qed.

Lemma perform_all_quiet E l : within quiet (perform_all E l).
Proof.
  induction l as [|k l IH]; cbn [perform_all]; [apply within_ret, _|].
  apply within_bind; [exact _|apply perform_quiet|done].
Qed.

#[global] Instance web_tcp_recorded E : recorded (E := web_tcp E) httpd_state.
Proof.
  intros h cbd w cbd' w' Hr. cbn in Hr. unfold httpd_cb in Hr. unfold httpd_state.
  destruct (httpd_tcp_callback true cbd (app w)) as [cbd1 a| |]; [|done|done].
  unfold bind in Hr. destruct (perform_all _ _ _) as [[] w1| |] eqn:Ep; [|done|done]. injection Hr as _ <-.
  apply perform_all_quiet in Ep as [Ha Ht]. cbn in Ha, Ht. by rewrite Ha.
Qed.

End Stack.

(** ** Instances stay *)

Definition same_inst {B} (w w' : httpd_world B) : Prop := inst_head w' = inst_head w.

#[global] Instance same_inst_preorder {B} : PreOrder (@same_inst B).
Proof. split; [done|]. intros w1 w2 w3 H1 H2. unfold same_inst in *. congruence. Qed.

#[local] Hint Extern 1 (same_inst _ _) => reflexivity : history.

Section Inst.
Context {B : Type} {H : http_env B}.

Lemma form_values_inst parts : within same_inst (form_values (B := B) parts).
Proof. induction parts as [|x parts IH]; cbn [form_values]; within_unfold. Qed.
Hint Resolve form_values_inst : history.

Lemma find_value_inst vs name : within same_inst (find_value (B := B) vs name).
Proof. induction vs as [|v vs IH]; cbn [find_value]; within_unfold. Qed.

(** Handlers that leave the instances alone. *)
Context (handlers_inst : forall cb st s, within same_inst (run_urih cb st s)).
Hint Resolve handlers_inst : history.

Lemma callback_inst cbd : within same_inst (httpd_tcp_callback true cbd).
Proof. within_unfold. Qed.

End Inst.

(** ** What the server sees of a callback *)

(** Callbacks of a connection to the server, with the data they announce. *)
Definition sane (d : tcb_cb_data) : bool :=
  (cbd_dp d =? htons 80) && (0 <=? cbd_datalen d) && (cbd_datalen d <=? zlen (cbd_data d)).

(** The server does nothing for the other reports. *)
Definition matters (st : tcp_cb_status) : bool :=
  match st with TCP_CB_NONE | TCP_CB_REMOTE_CLOSING | TCP_CB_CLOSING => false | _ => true end.

Definition seen (d : tcb_cb_data) : option tcb_cb_data :=
  if matters (cbd_status d)
  then Some (event (cbd_conn d) (cbd_status d) (cbd_pdata d) (take (Z.to_nat (cbd_datalen d)) (cbd_data d)))
  else None.

(** The same up to the sender and what lies behind the data. *)
Record like (d e : tcb_cb_data) : Prop := {
  lk_conn : cbd_conn d = cbd_conn e;
  lk_status : cbd_status d = cbd_status e;
  lk_dp : cbd_dp d = cbd_dp e;
  lk_pdata : cbd_pdata d = cbd_pdata e;
  lk_len : cbd_datalen d = cbd_datalen e;
  lk_data off n : off + n <= cbd_datalen e -> slice (cbd_data d) off n = slice (cbd_data e) off n
}.

Lemma seen_like d e : sane d = true -> seen d = Some e -> like d e.
Proof.
  unfold sane, seen. rewrite !andb_true_iff. intros [[Hd%Z.eqb_eq H0%Z.leb_le] Hl%Z.leb_le].
  destruct (matters _); [|done]. intros [= <-]. constructor; try done.
  - cbn. symmetry. apply zlen_take. lia.
  - intros off n Hn. cbn in *. rewrite zlen_take in Hn by lia. by rewrite slice_of_take by lia.
Qed.

Section Like.
Context {B : Type} {H : http_env B} (d e : tcb_cb_data) (L : like d e).

(** Everything but the data itself. *)
Ltac like_members := rewrite ?(lk_conn _ _ L), ?(lk_pdata _ _ L), ?(lk_len _ _ L).

Lemma err_like code : httpd_std_err_response (B := B) d code = httpd_std_err_response e code.
Proof. unfold httpd_std_err_response, send_header. like_members. done. Qed.

Lemma copy_in_like : agree (copy_in (B := B) d) (copy_in e).
Proof.
  unfold copy_in. like_members. repeat agree_step. by rewrite (lk_data _ _ L) by lia.
Qed.

Lemma place_upload_like hdr n : agree (place_upload (B := B) d hdr n) (place_upload e hdr n).
Proof.
  unfold place_upload. like_members. repeat agree_step. by rewrite (lk_data _ _ L) by lia.
Qed.

Lemma parse_post_like p hdr n : agree (parse_post (B := B) d p hdr n) (parse_post e p hdr n).
Proof.
  unfold parse_post, bad_request. rewrite (lk_pdata _ _ L). repeat agree_step.
  - by rewrite err_like.
  - apply place_upload_like.
Qed.

Lemma recv_hdr_like : agree (httpd_recv_hdr (B := B) d) (httpd_recv_hdr e).
Proof.
  unfold httpd_recv_hdr, bad_request. rewrite (lk_pdata _ _ L), (lk_len _ _ L). repeat agree_step; rewrite ?err_like; try apply agree_refl.
  - apply copy_in_like.
  - apply parse_post_like.
Qed.

Lemma recv_payload_like : agree (httpd_recv_payload (B := B) d) (httpd_recv_payload e).
Proof.
  unfold httpd_recv_payload. like_members. repeat agree_step. by rewrite (lk_data _ _ L) by lia.
Qed.

Lemma rx_like inst : agree (httpd_rx true inst d) (httpd_rx true inst e).
Proof.
  unfold httpd_rx, httpd_handle_request, first_response, send_header. like_members. repeat agree_step.
  - apply recv_hdr_like.
  - apply recv_payload_like.
Qed.

End Like.

Section Seen.
Context {B : Type} {H : http_env B}.

(** The last part of the callback. *)
Definition serve (inst : httpd_instance) (cbd : tcb_cb_data) : M (httpd_world B) unit :=
  match cbd_status cbd with
  | TCP_CB_NEW_CONN | TCP_CB_DATA_RCVD => if negb (cbd_datalen cbd =? 0) then httpd_rx true inst cbd else ret tt
  | TCP_CB_DATA_SENT => httpd_tx cbd
  | TCP_CB_REMOTE_CLOSED | TCP_CB_CLOSED => httpd_cleanup cbd
  | _ => ret tt
  end.

Lemma serve_like inst d e : like d e -> agree (serve inst d) (serve inst e).
Proof.
  intros L. unfold serve, httpd_tx, httpd_cleanup. rewrite (lk_status _ _ L), (lk_len _ _ L), (lk_pdata _ _ L), (lk_conn _ _ L).
  destruct (cbd_status e); try apply agree_refl; (destruct (negb _); [by apply rx_like|apply agree_refl]).
Qed.

Lemma like_pdata d e s : like d e -> like (d <| cbd_pdata := s |>) (e <| cbd_pdata := s |>).
Proof. intros []. by constructor. Qed.

Lemma callback_eq d a :
  httpd_tcp_callback true d a =
    match find_instance (ntohs (cbd_dp d)) (inst_head a) with
    | None => (call (CallClose (cbd_conn d) 1);; ret d) a
    | Some inst =>
        if bool_decide (cbd_status d = TCP_CB_NEW_CONN) then
          (do s <- new_session;
           (if s =? 0 then call (CallClose (cbd_conn d) 1)
            else call (CallSetPdata (cbd_conn d) s);; serve inst (d <| cbd_pdata := s |>));;
           ret (d <| cbd_pdata := s |>)) a
        else (serve inst d;; ret d) a
    end.
Proof.
  unfold httpd_tcp_callback, bind at 1, httpd_find_instance, gets. destruct (find_instance _ _) as [inst|]; [|done].
  case_bool_decide as Hst; unfold bind, ret.
  - destruct (new_session a) as [s a1| |]; [|done|done].
    change (cbd_status (d <| cbd_pdata := s |>)) with (cbd_status d). rewrite (bool_decide_eq_true_2 _ Hst).
    change (cbd_pdata (d <| cbd_pdata := s |>)) with s. cbn [andb]. destruct (s =? 0); [done|].
    unfold serve, call, modify. change (cbd_status (d <| cbd_pdata := s |>)) with (cbd_status d). rewrite Hst. done.
  - rewrite (bool_decide_eq_false_2 _ Hst). done.
Qed.

Lemma callback_like h d e a : like d e -> httpd_state h d a = httpd_state h e a.
Proof.
  intros L. unfold httpd_state. rewrite !callback_eq, (lk_dp _ _ L), (lk_status _ _ L), (lk_conn _ _ L).
  destruct (find_instance _ _) as [inst|]; [|done]. destruct (bool_decide _).
  - unfold bind. destruct (new_session a) as [s a1| |]; [|done|done]. destruct (s =? 0); [done|].
    destruct (call _ a1) as [[] a2| |]; [|done|done]. rewrite (serve_like inst _ _ (like_pdata _ _ s L)). by destruct (serve _ _ a2).
  - unfold bind. rewrite (serve_like inst _ _ L). by destruct (serve inst e a).
Qed.

(** A report that does not matter. *)
Lemma callback_ignored h d a inst :
  find_instance 80 (inst_head a) = Some inst -> cbd_dp d = htons 80 -> matters (cbd_status d) = false ->
  httpd_state h d a = Some a.
Proof.
  intros Hi Hd Hm. unfold httpd_state. rewrite callback_eq, Hd. change (ntohs (htons 80)) with 80. rewrite Hi.
  unfold serve. by destruct (cbd_status d).
Qed.

(** The state after the callbacks of a trace is the one after what is seen of
    them. *)
Context (handlers_inst : forall cb st s, within same_inst (run_urih cb st s)).

Lemma replay_seen inst t a a' :
  find_instance 80 (inst_head a) = Some inst -> forallb (fun x => sane x.2) t = true ->
  replay httpd_state t a = Some a' -> deliver (omap (fun x => seen x.2) t) a = Ret tt a'.
Proof.
  revert a. induction t as [|[h d] t IH]; intros a Hi Hs; cbn [replay forallb snd] in *; [by intros [= ->]|].
  apply andb_prop in Hs as [Hd Hs]. destruct (httpd_state h d a) as [a1|] eqn:E1; [|done]. cbn. intros Hr.
  destruct (seen d) as [e|] eqn:Es.
  - rewrite (callback_like h d e a) in E1 by (by apply seen_like). cbn [deliver]. unfold httpd_state in E1. unfold bind.
    destruct (httpd_tcp_callback true e a) as [x a2| |] eqn:Ec; [|done|done]. injection E1 as ->.
    apply IH; [|done|done]. apply (callback_inst handlers_inst) in Ec. by rewrite Ec.
  - unfold seen in Es. destruct (matters _) eqn:Em; [done|]. unfold sane in Hd. rewrite !andb_true_iff in Hd.
    rewrite (callback_ignored h d a inst Hi) in E1; [|lia|done]. injection E1 as <-. by apply IH.
Qed.

End Seen.

(** ** Conversations over TCP *)

Section Talk.
Context {B : Type} {H : http_env B}.

(** What is seen of a connection whose session is at [s]. *)
Definition talk (c s : Z) (evs : list (tcp_cb_status * list Z)) : list tcb_cb_data :=
  event c TCP_CB_NEW_CONN 0 [] :: map (fun e => event c e.1 s e.2) evs.

Lemma deliver_app l1 l2 (w : httpd_world B) : deliver (l1 ++ l2) w = (deliver l1;; deliver l2) w.
Proof.
  revert w. induction l1 as [|e l1 IH]; intros w; [done|]. cbn [Datatypes.app deliver]. unfold bind in *.
  destruct (httpd_tcp_callback true e w); [apply IH|done|done].
Qed.

Lemma talk_conversation inst c evs (w : httpd_world B) :
  served inst w -> calloc_ok (hw_next w) = true -> hw_next w <> 0 ->
  deliver (talk c (hw_next w) evs) w = conversation c evs w.
Proof.
  intros Hs Hc H0. unfold talk, conversation. cbn [deliver]. unfold bind at 1 2. rewrite callback_eq.
  change (ntohs (cbd_dp (event c TCP_CB_NEW_CONN 0 []))) with 80. rewrite Hs.
  change (bool_decide (cbd_status (event c TCP_CB_NEW_CONN 0 []) = TCP_CB_NEW_CONN)) with true. cbv iota.
  unfold new_session, bind, gets, modify, ret. rewrite Hc. cbn [negb]. by rewrite (proj2 (Z.eqb_neq _ _) H0).
Qed.

End Talk.

Section Pages.
Context {S : Type} {F : flash_helper S} {U : upgrade_env S} {FE : failsafe_env}.

Lemma on_flash_inst {X} (m : M S X) : within same_inst (on_flash m).
Proof. intros w x w'. unfold on_flash. destruct (m _); [|done|done]. by intros [= _ <-]. Qed.
Hint Resolve on_flash_inst find_value_inst : history.

Lemma failsafe_inst cb st s : within same_inst (run_urih cb st s).
Proof. cbn [run_urih failsafe_http]. within_unfold. Qed.

(** The state of the pages after rounds of the network loop is the one after
    what the server saw. *)
Lemma net_rounds_pages (E : tcp_env (httpd_world (failsafe S))) nv ls inst w w' t :
  find_instance 80 (inst_head (app w)) = Some inst -> net_loop_rounds (E := web_tcp E) nv ls w = Ret tt w' ->
  trace w' = trace w ++ t -> forallb (fun x => sane x.2) (callbacks t) = true ->
  deliver (omap (fun x => seen x.2) (callbacks t)) (app w) = Ret tt (app w').
Proof.
  intros Hi Hr Ht Hs. apply (net_loop_rounds_history httpd_state) in Hr as (t' & Ht' & Hp). rewrite Ht in Ht'.
  apply app_inv_head in Ht' as <-. by eapply replay_seen; [apply failsafe_inst|..].
Qed.

End Pages.
