(* ===== verification/WebProps.v ===== *)
(** * The web server over the network: theorems

    From frames to the flash, and the frames of an upload. *)

From stdpp Require Import base numbers list strings gmap option.
From Stdlib Require Import ZArith Lia.
From S2P Require Import Prelude NmbmTypes NetWire Tcp TcpInv TcpHistory Net NetSpec TcpRun NetProps Flash MtdWorks Strto Upgrade UpgradeSpec BoardRun Md5 Md5Spec CStr Http HttpMem HttpForm HttpRecv HttpHandle HttpEvents Failsafe FailsafeSpec FailsafeRun HttpProps WebStack.

(** ** Requests in frames

    The browser of [HttpProps] sends its requests in Ethernet frames, one of them
    twice. *)

(** The stack's surroundings; one millisecond passes between two readings of
    the timer. *)
Definition web_net : tcp_env (httpd_world (failsafe (Z -> Z))) :=
  mkEnv ip_server (le_value [255; 255; 255; 0]) 0 mac_server 65535 (fun n => 1000 + Z.of_nat n)
    (fun _ => true) (fun _ => 0) (fun _ cbd => ret cbd).

(** The server is started and listens. *)
Definition web_listening : tcp_world (httpd_world (failsafe (Z -> Z))) :=
  mkWorld [mkListener (htons 80) 1] [] 0 NETLOOP_CONTINUE 1 (fill 0 PKTSIZE_ALIGN) 0 0 0 0 0 0 1 0 0 [] (started_web web_start).

(** The data in segments, starting at a sequence number. *)
Fixpoint data_packets (sq ak : Z) (ds : list (list Z)) : list (list (list Z * Z)) :=
  match ds with
  | [] => []
  | d :: ds => from_peer (peer_pkt TCP_ACK sq ak 4096 d) :: data_packets (sq + zlen d) ak ds
  end.

(** A request over a connection of its own: [iss] is the first sequence number
    of the server, [n1] and [n2] the lengths of the two parts of the answer.  The
    first segment is sent twice. *)
Definition browse (iss n1 n2 : Z) (ds : list (list Z)) : list (list (list Z * Z)) :=
  let sq := 1001 + zlen (concat ds) in
  [from_peer (peer_pkt TCP_SYN 1000 0 4096 []); from_peer (peer_pkt TCP_ACK 1001 (iss + 1) 4096 [])] ++
  data_packets 1001 (iss + 1) (take 1 ds) ++ data_packets 1001 (iss + 1) ds ++
  [from_peer (peer_pkt TCP_ACK sq (iss + 1 + n1) 4096 []); from_peer (peer_pkt TCP_ACK sq (iss + 1 + n1 + n2) 4096 []);
   from_peer (peer_pkt (Z.lor TCP_ACK TCP_FIN) sq (iss + 2 + n1 + n2) 4096 [])].

(** The body in segments. *)
Definition body_segments : list (list Z) :=
  [take 1460 web_body; take 1460 (drop 1460 web_body); take 1460 (drop 2920 web_body); drop 4380 web_body].

(** A question for the address, the upload and the request for the result. *)
Definition web_packets : list (list (list Z * Z)) :=
  who_has :: browse 128000 83 43 (header_parts ++ body_segments) ++ browse 131328 63 2 result_parts.

(** What is left of a run: the trace, if it returns. *)
Definition trace_of (r : res (tcp_world (httpd_world (failsafe (Z -> Z)))) unit) : option (list tcp_event) :=
  match r with Ret _ w => Some (trace w) | _ => None end.

(** The server sees the two requests, without the repeated segments. *)
Lemma web_packets_seen : exists t,
  trace_of (net_loop_rounds (E := web_tcp web_net) 65535 web_packets web_listening) = Some t /\
  forallb (fun x => sane x.2) (callbacks t) = true /\
  omap (fun x => seen x.2) (callbacks t) = talk 1 9 (request (header_parts ++ body_segments)) ++ talk 2 11 (request result_parts).
Proof. eexists. split; [vm_compute; reflexivity|]. split; vm_compute; reflexivity. Qed.

(** The write succeeds, and the network loop ends with the next round. *)
Lemma web_packets_succeed :
  match net_loop_rounds (E := web_tcp web_net) 65535 (web_packets ++ [[]]) web_listening with
  | Ret _ w => upgrade_success (hw_user (app w)) = 1 /\ net_state w = NETLOOP_SUCCESS
  | _ => False
  end.
Proof. vm_compute. by split. Qed.

(** C6 Recovery over the network.  Whenever rounds of the network loop, with the
    web server as the application of the TCP stack and over any frames received,
    return, the state of the server is the one the callbacks in the trace lead
    to, in order (they are for the server's port and announce no more data than
    there is).  So if, after any callbacks that leave the server ready, the
    server is told of the connections of an upload and then of a request for the
    result (header and payload of the upload in different segments, 4096 bytes
    or more together), exactly the bytes of the file are written to the flash,
    as [write_firmware] promises it, and the result the board acts on is that
    of the write. *)
Theorem network_upload_flashes {S} {F : flash_helper S} {V : flash_view S} {FL : flash_laws F V} {U : upgrade_env S} {FE : failsafe_env}
    (E : tcp_env (httpd_world (failsafe S))) nv n ls w w' t :
  pages_ready FE -> served (web_inst n) (app w) ->
  net_loop_rounds (E := web_tcp E) nv ls w = Ret tt w' -> trace w' = trace w ++ t ->
  forallb (fun x => sane x.2) (callbacks t) = true ->
  deliver (omap (fun x => seen x.2) (callbacks t)) (app w) = Ret tt (app w') /\
  forall q filename more data tail version fs hds bds rds po ps c1 c2 ram pre h,
    omap (fun x => seen x.2) (callbacks t) =
      pre ++ talk c1 (hw_next h) (request (hds ++ bds)) ++ talk c2 (hw_next h + 2) (request rds) ->
    deliver pre (app w) = Ret tt h -> ready_server n ram h -> flash_ready po ps (fs_flash (hw_user h)) ->
    upload_request ram q filename more data tail hds bds -> sizeof_buf <= zlen (header q) + 4 + pr_size q < 2 ^ 32 ->
    result_request version fs rds ->
    exists r, firmware_post (fs_flash (hw_user h)) po ps data (zlen data) r (fs_flash (hw_user (app w'))) /\
      upgrade_success (hw_user (app w')) = if r =? 0 then 1 else 0.
Proof.
  intros Hp Hsv Hr Ht Hs. assert (HU : 0 < UPLOAD) by done.
  assert (Hal : forall o, calloc_ok (http_env := failsafe_http) o = true) by exact (fun o => pg_alloc Hp o).
  eapply (net_rounds_pages E nv ls (web_inst n)) in Hr as Hdl; [|exact Hsv|exact Ht|exact Hs]. split; [exact Hdl|].
  intros q filename more data tail version fs hds bds rds po ps c1 c2 ram pre h He Hpre Hh Hfl Hur Hbig Hrr.
  pose proof (rs_next _ _ _ Hh) as Hn. rewrite He, deliver_app in Hdl. unfold bind in Hdl. rewrite Hpre, deliver_app in Hdl. unfold bind in Hdl.
  pose proof (upload_result_ok Hp n q filename more data tail version fs hds bds rds po ps c1 c2 ram h Hh Hfl Hur Hbig Hrr) as Hw.
  rewrite (talk_conversation (web_inst n) c1 _ h (rs_served _ _ _ Hh) (Hal _)) in Hdl by lia.
  destruct (conversation c1 _ h) as [[] w1| |] eqn:E1; [|done|done]. eapply wp_elim in Hw as [Hud Hw]; [|exact E1].
  rewrite <- (ud_next _ _ _ _ Hud) in Hdl. pose proof (ud_next _ _ _ _ Hud) as Hn1.
  rewrite (talk_conversation _ c2 _ w1 (ud_served _ _ _ _ Hud) (Hal _)) in Hdl by lia.
  eapply wp_elim in Hw as [_ Ha]; [|exact Hdl]. exact (aw_result _ _ _ _ Ha).
Qed.

Lemma network_upload_flashes_witness : exists w',
  net_loop_rounds (E := web_tcp web_net) 65535 web_packets web_listening = Ret tt w' /\
  exists r, firmware_post blank_nand 0x180000 0x2800000 firmware (zlen firmware) r (fs_flash (hw_user (app w'))) /\
    upgrade_success (hw_user (app w')) = if r =? 0 then 1 else 0.
Proof.
  destruct web_packets_seen as (t & Ht & Hs & He).
  destruct (net_loop_rounds (E := web_tcp web_net) 65535 web_packets web_listening) as [[] w'| |] eqn:Er; [|discriminate Ht|discriminate Ht].
  injection Ht as Ht. exists w'. split; [reflexivity|].
  destruct (network_upload_flashes web_net 65535 2 web_packets web_listening w' t) as [_ Hup].
  - exact web_pages.
  - reflexivity.
  - exact Er.
  - exact Ht.
  - exact Hs.
  - apply (Hup web_upload (chars "fw.bin") web_more firmware (45 :: CRLF) (chars "HTTP/1.1") web_fields
      header_parts body_segments result_parts 0x180000 0x2800000 1 2 web_ram [] (started_web web_start)).
    + exact He.
    + reflexivity.
    + exact (idle_ready web_ram web_start web_idle).
    + exact nand_ready.
    + apply web_upload_request. vm_compute. reflexivity.
    + exact web_upload_large.
    + exact web_result_request.
Defined.
